(* ===== verification/_CoqProject ===== *)
-Q . S2P
Prelude.v
AsyncIO.v
PyFloat.v
FloatSum.v
PyStr.v
Difflib.v
Auth.v
AuthService.v
RateLimiter.v
Models.v
ContextModels.v
PromptCompiler.v
Llm.v
Providers.v
Generation.v
Metadata.v
Catalogs.v
BusinessKnowledge.v
Validation.v
Repair.v
Execution.v
Orchestrator.v
EndToEnd.v
Streaming.v
QueryLibrary.v
JoinPaths.v
ConceptMatcher.v
SchemaLinker.v
Regex.v
NluTime.v
ResultFormatter.v
Nlu.v
Retrieval.v
Understanding.v
ApiWorld.v
ApiGuards.v
ApiErrors.v
ApiRoutes.v
ApiAccess.v
ApiThrottle.v
Observability.v
Diagnostics.v
Benchmark.v
SeedRandom.v
SeedConfig.v
SeedModels.v
SeedRules.v
SeedCatalog.v
SeedOrders.v
SeedRun.v
SeedCatalogFacts.v
SeedMarketFacts.v
SeedOrderFacts.v
SeedFulfilFacts.v
SeedSpec.v
OrmSchema.v
Migrations.v
Extractor.v
Isolation.v
Transports.v
QueryApi.v
Service.v
StreamWorld.v
Config.v
DictionaryFile.v
