(* ===== verification/Prelude.v ===== *)
(** * QueryMind: a verification development

    QueryMind answers business questions in English over a PostgreSQL database:
    a question is parsed, linked to the schema, put into a prompt with the
    examples closest to it, an LLM writes SQL, the SQL is validated, repaired if
    need be, executed read-only and its rows formatted into an answer. Around
    that pipeline stand an HTTP and WebSocket API with accounts, roles, rate
    limits and an audit trail, the ORM models with their migrations, an engine
    that seeds a demonstration data set, and observability. All paths below are
    relative to [src/src/querymind/] unless they begin with [src/].

    This file is the prelude: outcomes and state-passing programs ([outcome],
    [prog], [let!]), what it means to run or to be total ([runs], [total_prog],
    [wp]), dictionaries in insertion order, [dict]-style deduplication, Python's
    stable [sorted], and generic list lemmas.

    ** The language

    - AsyncIO.v: [async def] bodies as sequences of atomic steps, their
      interleavings with an arbitrary environment.
    - PyFloat.v, FloatSum.v: binary64 with round-to-nearest-even; [sum], [round],
      [min], [max] on floats. PyStr.v: [str] methods on ASCII strings. Regex.v:
      [re], with a matcher proved sound and complete. Difflib.v:
      [SequenceMatcher.ratio].

    ** The pipeline

    - Models.v, ContextModels.v: the immutable models of every phase
      ([*/models.py]) and the exceptions.
    - OrmSchema.v, Migrations.v, Extractor.v: the ORM classes ([models/],
      [auth/models.py], [security/models.py], [db/base.py]), every revision of
      [src/alembic/versions/], [metadata/extractor.py]. Executing the revisions
      builds exactly the declared tables; any history of upgrades and downgrades
      leaves a schema its recorded version determines; the metadata the engine
      reads describes exactly that database minus the account tables.
    - DictionaryFile.v: the loader of [metadata/data/dictionary.yaml] and the keys
      of that file, which are exactly the tables and columns of [Base].
    - Metadata.v, Catalogs.v, BusinessKnowledge.v, QueryLibrary.v: the
      registries over cached snapshots ([metadata/], [business_knowledge/],
      [query_library/]), loaded once.
    - NluTime.v, Nlu.v: [nlu/]. Everything [QueryParser.parse] reports is in the
      question, and no slice of it is claimed twice.
    - JoinPaths.v, ConceptMatcher.v, SchemaLinker.v: [schema_linker/]. Join
      paths are shortest paths; the linker with its cache refines a cacheless
      specification, and deals every concept of a question out to the resolved
      ones, with the winner of the scan, or to the ambiguities.
    - Retrieval.v: [retrieval/]. The engine with its feature cache refines a
      cacheless ranking; what it returns is the best of the library.
    - Understanding.v: the first four stages of the runner in one world.
    - PromptCompiler.v: [prompt_compiler/]. The compiled prompt is well formed;
      how far it can be over its token budget is bounded, and that it can be is
      shown ([enforce_can_exceed_budget]).
    - Llm.v, Providers.v, Generation.v: [llm/] and [sql_generation/]. The
      adapter refines "retry while transient, at most so often"; every failure
      of a provider is classified.
    - Validation.v, Repair.v, Execution.v: [sql_validation/], [sql_repair/],
      [sql_execution/]. What a valid verdict vouches for, name by name, and where
      it looks away (output aliases, CTEs, unresolved or CROSS joins); a crashed
      validator stops no other; repair terminates; only permitted texts run, and
      connections are released.
    - Orchestrator.v: [orchestrator/]. [ask] never raises, and its response is
      consistent in every field.
    - EndToEnd.v, Isolation.v: the engines wired as [api/container.py] wires
      them. Only safe SQL reaches the database, whatever the LLM writes; with
      the metadata of [Base] it stays off the account tables, except under a
      shadowing name, and that exception is real.
    - ResultFormatter.v: [result_formatter/].

    ** The service

    - Auth.v, AuthService.v, RateLimiter.v: [auth/] and
      [security/rate_limiter.py]. A refresh token that was exchanged is dead under
      every later interleaving, although two exchanges that overlap can both
      succeed ([refresh_race]); what a token pair is answered in any later state.
    - ApiWorld.v, ApiGuards.v, ApiErrors.v, ApiRoutes.v: the world of the HTTP
      layer, [api/dependencies.py], [api/exception_handlers.py],
      [api/middleware.py], [api/routers/], [security/audit.py]. ApiAccess.v,
      ApiThrottle.v: engines run only for the entitled; the WebSocket handshake
      makes the routes' own checks of the caller, though not the router's general
      limit; password guesses at the names of an account are bounded; failures
      are answered, in debug mode with their traceback. A JSON body is decoded
      before the guards run, as FastAPI does, and validated after. QueryApi.v: what the [/query/*] routes ask of their engines.
    - Service.v: [POST /query] from the middleware down to the driver. Its answer
      depends on the driver through safe texts only, and only for callers who
      are entitled and have a token left.
    - Streaming.v, StreamWorld.v, Transports.v: [streaming/]. One stream as a
      step relation; any number of streams over one event bus, with their tasks
      and their clean-up: a stream with a correlation id of its own refines the
      single one and delivers every event, and the bus holds exactly the queues
      of the streams that are not finished. Two streams under one id, which is
      the client's to choose, exchange their answers ([shared_ids_mix_streams]);
      a clean-up that is cancelled leaks its queue
      ([interrupted_cleanup_leaks]). Both transports carry the same stream.
    - Config.v: [core/config.py], [db/session.py]. Settings with their bounds,
      the quoting of the database password, the transaction every repository
      call runs in.
    - Observability.v, Diagnostics.v, Benchmark.v: [observability/].
    - SeedRandom.v, SeedConfig.v, SeedModels.v, SeedRules.v, SeedCatalog.v,
      SeedOrders.v, SeedRun.v: [seeds/] and the rows of [models/].
      SeedCatalogFacts.v, SeedMarketFacts.v, SeedOrderFacts.v,
      SeedFulfilFacts.v, SeedSpec.v: a run returns for every good configuration,
      with a data set inside every table constraint, and its own validator
      passes it unless rows are missing.

    ** How the code is read

    State is passed explicitly: a world with the databases, caches and clocks a
    component reads, through a class where several components share one
    ([Clock], [MetadataCacheState], [LinkerCacheState]). A call returns a value
    or raises; what it did to the world before raising stays. Coroutines are
    atomic between two [await]s that suspend. Integers are unbounded, as in
    Python; floats are rounded at every operation; NaN and infinities are left
    out. Strings are ASCII. The iteration order of a Python [set] is any
    permutation (class [PySet]) wherever it can be observed.

    Third-party code is a parameter: sqlglot's trees and parsers, the database
    driver, httpx, PyJWT and the hashers, PyYAML and the constructors of
    Pydantic, Faker and [random.Random], SQLAlchemy's rendering of types and the
    effect of DDL. What is assumed of one is a named hypothesis or a class next
    to its use, with a concrete instance in the witnesses.

    Loops whose recursion is not structural carry fuel: the breadth-first search
    of JoinPaths.v (the number of edge targets and two more), the repair loop
    ([max_attempts + 1]), the search of Regex.v, [str.replace] and the matching
    blocks of Difflib.v (the length of the text), the walk along [down_revision]
    (the number of revisions). The theorems of each file show that it suffices
    ([find_path_shortest], [repair_loop_terminates], completeness of the
    matcher, [head_is_the_orm_schema]) or, for texts, every turn consumes a
    character.

    ** Not modelled

    - Serializers, no-op caches and protocols without a body in every package
      ([*/serializer.py], most [*/cache.py], [llm/parser.py]): one-line calls of
      Pydantic, json and PyYAML.
    - Process set-up: [main.py], [api/lifespan.py], [core/logging.py],
      [db/engine.py], [src/alembic/env.py], the parsing of arguments and printing
      of [src/scripts/]; reading [Settings] from the environment and
      [PostgresDsn.build] are parameters.
    - The bodies of the health, diagnostics, metrics and settings endpoints
      (their engines are modelled), CORS and GZip, request log lines.
    - ORM run-time behaviour beyond the declared schema: cascades, [onupdate].
    - What a cancelled pipeline task does on its way out: in StreamWorld.v it may
      stop at any point, or go on publishing.
    - The world of the pipeline and the world of the HTTP service interleave only
      request by request in Service.v.
    - The front end, the tests and the documentation. *)
#[export] Set Warnings "-clear-no-such-hyp".
From Stdlib Require Export ZArith QArith Lia Lqa Sorted.
From stdpp Require Export base tactics decidable option list numbers gmap strings pretty.

#[export] Set Default Proof Using "Type".
#[local] Open Scope Z_scope.

Declare Scope py_scope.
Delimit Scope py_scope with py.
#[global] Open Scope py_scope.

(** ** Outcomes: a Python call either raises or returns. *)
Inductive outcome (E A : Type) : Type :=
| Raise (e : E)
| Ret (a : A).
Arguments Raise {E A} e.
Arguments Ret {E A} a.

(** A computation threads the world [W] and raises exceptions of type [E]; as
    in Python, what was done to the world before the exception stays done. *)
Definition prog (W E A : Type) : Type := W -> outcome E A * W.

Definition ret {W E A} (a : A) : prog W E A := fun w => (Ret a, w).
Definition throw {W E A} (e : E) : prog W E A := fun w => (Raise e, w).
Definition bind {W E A B} (m : prog W E A) (k : A -> prog W E B) : prog W E B :=
  fun w => match m w with
           | (Raise e, w') => (Raise e, w')
           | (Ret a, w') => k a w'
           end.
(** [try m except h]: the handler runs in the world the body left behind. *)
Definition try_except {W E E' A} (m : prog W E A) (h : E -> prog W E' A) : prog W E' A :=
  fun w => match m w with
           | (Raise e, w') => h e w'
           | (Ret a, w') => (Ret a, w')
           end.
Notation "'let!' x ':=' m 'in' k" := (bind m (fun x => k))
  (at level 10, x name, m at level 200, k at level 200) : py_scope.
Notation "'let!' ' p ':=' m 'in' k" := (bind m (fun p => k))
  (at level 10, p strict pattern, m at level 200, k at level 200) : py_scope.

Lemma bind_ret_eq {W E A B} (m : prog W E A) (k : A -> prog W E B) w a w' :
  m w = (Ret a, w') -> bind m k w = k a w'.
Proof. unfold bind. by intros ->. Qed.
Lemma bind_raise_eq {W E A B} (m : prog W E A) (k : A -> prog W E B) w e w' :
  m w = (Raise e, w') -> bind m k w = (Raise e, w').
Proof. unfold bind. by intros ->. Qed.

Lemma bind_Ret_inv {W E A B} (m : prog W E A) (k : A -> prog W E B) w b w' :
  bind m k w = (Ret b, w') -> exists a w1, m w = (Ret a, w1) /\ k a w1 = (Ret b, w').
Proof. unfold bind. destruct (m w) as [[e|a] w1]; [done|eauto]. Qed.

(** What a computation may leave behind, whatever it returns: [wp m Q w] says
    that running [m] in [w] ends in an outcome and a world related by [Q]. *)
Definition wp {W E A} (m : prog W E A) (Q : outcome E A -> W -> Prop) (w : W) : Prop :=
  Q (fst (m w)) (snd (m w)).

(** The same sequencing for code that touches no state. *)
Definition obind {E A B} (o : outcome E A) (f : A -> outcome E B) : outcome E B :=
  match o with Ret a => f a | Raise e => Raise e end.
Notation "'let?' x ':=' m 'in' k" := (obind m (fun x => k))
  (at level 10, x name, m at level 200, k at level 200) : py_scope.
Notation "'let?' ' p ':=' m 'in' k" := (obind m (fun p => k))
  (at level 10, p strict pattern, m at level 200, k at level 200) : py_scope.
Definition lift {W E A} (o : outcome E A) : prog W E A := fun w => (o, w).

(** A loop that appends one result per item. *)
Fixpoint mapM {W E A B} (f : A -> prog W E B) (l : list A) : prog W E (list B) :=
  match l with
  | [] => ret []
  | x :: l' => bind (f x) (fun y => bind (mapM f l') (fun ys => ret (y :: ys)))
  end.

(** [runs I m a]: from a state in the invariant [I], [m] returns [a] and stays in [I]. *)
Definition runs {W E A} (I : W -> Prop) (m : prog W E A) (a : A) : Prop :=
  forall w, I w -> exists w', m w = (Ret a, w') /\ I w'.
Lemma runs_ret {W E A} (I : W -> Prop) (a : A) : runs (E:=E) I (ret a) a.
Proof. intros w Hw. by exists w. Qed.
Lemma runs_bind {W E A B} (I : W -> Prop) (m : prog W E A) (k : A -> prog W E B) a b :
  runs I m a -> runs I (k a) b -> runs I (bind m k) b.
Proof.
  intros Hm Hk w Hw. destruct (Hm w Hw) as (w1 & E1 & Hw1). destruct (Hk w1 Hw1) as (w2 & E2 & Hw2).
  exists w2. by rewrite (bind_ret_eq _ _ _ _ _ E1).
Qed.
Lemma runs_lift {W E A} (I : W -> Prop) (o : outcome E A) a : o = Ret a -> runs I (lift o) a.
Proof. intros -> w Hw. by exists w. Qed.
Lemma runs_mapM {W E A B} (I : W -> Prop) (f : A -> prog W E B) (g : A -> B) l :
  (forall x, x ∈ l -> runs I (f x) (g x)) -> runs I (mapM f l) (map g l).
Proof.
  intros H. induction l as [|x l IH]; [apply runs_ret|]. cbn [mapM map].
  eapply runs_bind; [apply H; by left|]. eapply runs_bind; [|apply runs_ret]. apply IH. intros y Hy. apply H. by right.
Qed.

(** [total_prog m P]: from every state [m] returns, with a result in [P]. *)
Definition total_prog {W E A} (m : prog W E A) (P : A -> Prop) : Prop := forall w, exists a w', m w = (Ret a, w') /\ P a.
Lemma total_bind {W E A B} (m : prog W E A) (k : A -> prog W E B) P Q :
  total_prog m P -> (forall a, P a -> total_prog (k a) Q) -> total_prog (bind m k) Q.
Proof.
  intros Hm Hk w. destruct (Hm w) as (a & w1 & E1 & Ha). rewrite (bind_ret_eq _ _ _ _ _ E1). by apply Hk.
Qed.
Lemma total_ret {W E A} (a : A) (P : A -> Prop) : P a -> total_prog (W:=W) (E:=E) (ret a) P.
Proof. intros Ha w. by exists a, w. Qed.
Lemma total_lift {W E A} (o : outcome E A) (a : A) (P : A -> Prop) : o = Ret a -> P a -> total_prog (W:=W) (lift o) P.
Proof. intros -> Ha w. by exists a, w. Qed.
Lemma total_weaken {W E A} (m : prog W E A) (P Q : A -> Prop) :
  total_prog m P -> (forall a, P a -> Q a) -> total_prog m Q.
Proof. intros Hm HPQ w. destruct (Hm w) as (a & w' & E1 & Ha). exists a, w'. auto. Qed.
Lemma total_mapM {W E A B} (f : A -> prog W E B) (R : A -> B -> Prop) l :
  (forall x, x ∈ l -> total_prog (f x) (R x)) -> total_prog (mapM f l) (Forall2 R l).
Proof.
  induction l as [|x l IH]; intros H; cbn [mapM]; [by apply total_ret|].
  eapply total_bind; [apply H; left|]. intros y Hy.
  eapply total_bind; [apply IH; intros; apply H; by right|]. intros ys Hys. apply total_ret. by constructor.
Qed.

(** A loop that extends one result list; the first exception ends it. *)
Fixpoint oflatmap {E A B} (f : A -> outcome E (list B)) (l : list A) : outcome E (list B) :=
  match l with
  | [] => Ret []
  | x :: l' => let? r := f x in let? rs := oflatmap f l' in Ret (r ++ rs)%list
  end.

Definition is_ret {E A} (o : outcome E A) : bool :=
  match o with Ret _ => true | Raise _ => false end.

(** Truthiness of an optional value and of a list. *)
Definition is_some {A} (o : option A) : bool := match o with Some _ => true | None => false end.
Definition non_empty {A} (l : list A) : bool := match l with [] => false | _ => true end.

Definition ret_value {E A} (o : outcome E A) : option A :=
  match o with Ret a => Some a | Raise _ => None end.

(** ** Dictionaries in insertion order

    A Python [dict] iterates in insertion order, and overwriting a key keeps its
    place. Where the code iterates over a dictionary we use this association
    list; where it only looks keys up we use [gmap]. *)
Section Alist.
Context {K V : Type} `{EqDecision K}.

Fixpoint alist_get (k : K) (d : list (K * V)) : option V :=
  match d with
  | [] => None
  | (k', v) :: d' => if decide (k = k') then Some v else alist_get k d'
  end.

Fixpoint alist_set (k : K) (v : V) (d : list (K * V)) : list (K * V) :=
  match d with
  | [] => [(k, v)]
  | (k', v') :: d' =>
      if decide (k = k') then (k', v) :: d' else (k', v') :: alist_set k v d'
  end.

Lemma alist_get_set_eq k v d : alist_get k (alist_set k v d) = Some v.
Proof.
  induction d as [|[k' v'] d IH]; simpl; [by rewrite decide_True|].
  destruct (decide (k = k')) as [->|Hne]; simpl; [by rewrite decide_True|].
  by rewrite decide_False.
Qed.

Lemma alist_get_set_ne k k' v d : k <> k' -> alist_get k' (alist_set k v d) = alist_get k' d.
Proof.
  intros Hne. induction d as [|[k0 v0] d IH]; simpl; [by rewrite decide_False|].
  repeat (case_decide; simpl; subst); try congruence.
Qed.

Lemma alist_get_set k k' v d :
  alist_get k' (alist_set k v d) = if decide (k = k') then Some v else alist_get k' d.
Proof. case_decide; subst; auto using alist_get_set_eq, alist_get_set_ne. Qed.

Lemma alist_set_keys k v d :
  map fst (alist_set k v d) =
  if decide (k ∈ map fst d) then map fst d else map fst d ++ [k].
Proof.
  induction d as [|[k' v'] d IH]; simpl; [done|].
  destruct (decide (k = k')) as [->|Hne]; simpl.
  - rewrite decide_True; [done|left].
  - rewrite IH. repeat case_decide; try done; set_solver.
Qed.

Lemma alist_set_NoDup k v d : NoDup (map fst d) -> NoDup (map fst (alist_set k v d)).
Proof.
  intros Hd. rewrite alist_set_keys. case_decide; [done|].
  apply NoDup_app; repeat split; [done| |apply NoDup_singleton]. set_solver.
Qed.

Lemma alist_get_elem k v d : alist_get k d = Some v -> (k, v) ∈ d.
Proof.
  induction d as [|[k' v'] d IH]; simpl; [done|].
  case_decide; intros; simplify_eq; [left|right; auto].
Qed.

Lemma alist_elem_get k v d : NoDup (map fst d) -> (k, v) ∈ d -> alist_get k d = Some v.
Proof.
  induction d as [|[k' v'] d IH]; simpl; intros Hn Hin; [set_solver|].
  apply NoDup_cons in Hn as [Hk Hn].
  apply elem_of_cons in Hin as [Heq|Hin]; simplify_eq.
  - by rewrite decide_True.
  - rewrite decide_False; [auto|]. intros ->. apply Hk, list_elem_of_fmap.
    by exists (k', v).
Qed.

Lemma alist_get_None k d : alist_get k d = None -> k ∉ map fst d.
Proof.
  induction d as [|[k' v'] d IH]; simpl; [set_solver|].
  case_decide; [done|]. intros. apply not_elem_of_cons; auto.
Qed.
End Alist.

(** [dict.fromkeys(xs)], and the order in which a loop with a [seen] set keeps
    its elements: first occurrences only. *)
Section Dedup.
Context {A : Type} `{EqDecision A}.

Fixpoint dedup_seen (seen : list A) (l : list A) : list A :=
  match l with
  | [] => []
  | x :: l' =>
      if decide (x ∈ seen) then dedup_seen seen l' else x :: dedup_seen (x :: seen) l'
  end.
Definition dedup (l : list A) : list A := dedup_seen [] l.

Lemma elem_of_dedup_seen seen l x : x ∈ dedup_seen seen l <-> x ∈ l /\ x ∉ seen.
Proof.
  revert seen. induction l as [|y l IH]; intros seen; simpl; [set_solver|].
  case_decide; [rewrite IH; set_solver|].
  rewrite elem_of_cons, IH. destruct (decide (x = y)); set_solver.
Qed.
Lemma elem_of_dedup l x : x ∈ dedup l <-> x ∈ l.
Proof. unfold dedup. rewrite elem_of_dedup_seen. set_solver. Qed.
Lemma NoDup_dedup_seen seen l : NoDup (dedup_seen seen l).
Proof.
  revert seen. induction l as [|y l IH]; intros seen; simpl; [constructor|].
  case_decide; [done|]. constructor; [|done]. rewrite elem_of_dedup_seen. set_solver.
Qed.
Lemma NoDup_dedup l : NoDup (dedup l).
Proof. apply NoDup_dedup_seen. Qed.
Lemma dedup_seen_id seen l :
  NoDup l -> (forall x, x ∈ l -> x ∉ seen) -> dedup_seen seen l = l.
Proof.
  revert seen. induction l as [|y l IH]; intros seen Hn Hs; simpl; [done|].
  apply NoDup_cons in Hn as [Hy Hn]. rewrite decide_False by (apply Hs; left).
  f_equal. apply IH; [done|]. intros x Hx. apply not_elem_of_cons; split; [set_solver|].
  apply Hs; by right.
Qed.
Lemma dedup_id l : NoDup l -> dedup l = l.
Proof. intros. apply dedup_seen_id; [done|]. set_solver. Qed.
End Dedup.

(** ** [sorted]: Python's stable sort, by a key compared with [<] only. *)
Section SortedBy.
Context {A K : Type} (ltb : K -> K -> bool) (key : A -> K).

Fixpoint insert_by (x : A) (l : list A) : list A :=
  match l with
  | [] => [x]
  | y :: l' => if ltb (key y) (key x) then y :: insert_by x l' else x :: l
  end.
Definition sorted_by (l : list A) : list A := foldr insert_by [] l.

Lemma insert_by_perm x l : insert_by x l ≡ₚ x :: l.
Proof.
  induction l as [|y l IH]; simpl; [done|].
  destruct (ltb _ _); [|done]. rewrite IH. apply Permutation_swap.
Qed.
Lemma sorted_by_perm l : sorted_by l ≡ₚ l.
Proof.
  induction l as [|x l IH]; simpl; [done|].
  by rewrite insert_by_perm; apply Permutation_skip.
Qed.
Lemma elem_of_sorted_by l x : x ∈ sorted_by l <-> x ∈ l.
Proof. by rewrite sorted_by_perm. Qed.
Lemma length_sorted_by l : length (sorted_by l) = length l.
Proof. by rewrite sorted_by_perm. Qed.

(** [y] may stand before [x]: Python never leaves a strictly smaller key behind. *)
Definition not_after (x y : A) : Prop := ltb (key y) (key x) = false.

Context (ltb_asym : forall a b, ltb a b = true -> ltb b a = false).
Context (geb_trans : forall a b c, ltb b a = false -> ltb c b = false -> ltb c a = false).

Lemma insert_by_sorted x l :
  StronglySorted not_after l -> StronglySorted not_after (insert_by x l).
Proof using ltb_asym geb_trans.
  induction l as [|y l IH]; simpl; intros Hs; [repeat constructor|].
  inversion Hs as [|? ? Hl Hy]; subst.
  destruct (ltb (key y) (key x)) eqn:E.
  - constructor; [auto|]. apply Forall_forall. intros z.
    rewrite insert_by_perm. intros [->|Hz]%elem_of_cons.
    + unfold not_after. auto.
    + by eapply Forall_forall in Hy.
  - constructor; [done|]. constructor; [done|].
    eapply Forall_impl; [exact Hy|]. unfold not_after. intros z Hz. eauto.
Qed.
Lemma sorted_by_sorted l : StronglySorted not_after (sorted_by l).
Proof using ltb_asym geb_trans.
  induction l; simpl; [constructor|]. by apply insert_by_sorted.
Qed.
End SortedBy.
Lemma StronglySorted_perm_eq {A K} (ltb : K -> K -> bool) (key : A -> K) l l' :
  (forall a b, ltb a b = false -> ltb b a = false -> a = b) -> NoDup (map key l) ->
  StronglySorted (not_after ltb key) l -> StronglySorted (not_after ltb key) l' -> l ≡ₚ l' -> l = l'.
Proof.
  intros Hanti. revert l'. induction l as [|x l IH]; intros l' Hn Hs Hs' Hp; [by apply Permutation_nil in Hp|].
  destruct l' as [|y l']; [by apply Permutation_sym, Permutation_nil in Hp|].
  apply NoDup_cons in Hn as [Hx Hn]. inversion Hs as [|? ? Hs1 Hall]; inversion Hs' as [|? ? Hs2 Hall']; subst.
  assert (x = y) as ->.
  { assert (Hy : y ∈ x :: l) by (rewrite Hp; left). assert (Hx' : x ∈ y :: l') by (rewrite <- Hp; left).
    apply elem_of_cons in Hy as [->|Hy]; [done|]. apply elem_of_cons in Hx' as [->|Hx']; [done|].
    rewrite Forall_forall in Hall, Hall'. specialize (Hall y Hy). specialize (Hall' x Hx').
    destruct Hx. rewrite (Hanti _ _ Hall' Hall). by apply list_elem_of_fmap_2. }
  f_equal. apply IH; [done..|]. by apply Permutation_cons_inv in Hp.
Qed.
Lemma sorted_by_perm_eq {A K} (ltb : K -> K -> bool) (key : A -> K) l l' :
  (forall a b, ltb a b = true -> ltb b a = false) ->
  (forall a b c, ltb b a = false -> ltb c b = false -> ltb c a = false) ->
  (forall a b, ltb a b = false -> ltb b a = false -> a = b) ->
  NoDup (map key l) -> l ≡ₚ l' -> sorted_by ltb key l = sorted_by ltb key l'.
Proof.
  intros Has Htr Hanti Hn Hp. apply (StronglySorted_perm_eq ltb key); auto using sorted_by_sorted.
  - eapply NoDup_Permutation_proper; [|exact Hn]. apply fmap_Permutation, sorted_by_perm.
  - by rewrite !sorted_by_perm.
Qed.
Lemma StronglySorted_weaken {A} (R R' : A -> A -> Prop) l :
  (forall x y, R x y -> R' x y) -> StronglySorted R l -> StronglySorted R' l.
Proof.
  intros HR. induction 1 as [|x l _ IH Hx]; constructor; [done|]. eapply Forall_impl; [exact Hx|]. auto.
Qed.

(** ** Lists *)
Lemma omap_Forall2 {A B} (f : A -> option B) (R : A -> B -> Prop) l :
  (forall x, x ∈ l -> exists y, f x = Some y /\ R x y) -> Forall2 R l (omap f l).
Proof.
  induction l as [|x l IH]; intros H; [constructor|].
  destruct (H x ltac:(left)) as (y & Hy & HR). simpl; rewrite Hy.
  constructor; [done|]. apply IH. intros; apply H; by right.
Qed.

Lemma omap_ext_in {A B} (f g : A -> option B) (l : list A) :
  (forall x, x ∈ l -> f x = g x) -> omap f l = omap g l.
Proof.
  induction l as [|x l IH]; intros H; simpl; [done|].
  rewrite (H x) by left. destruct (g x); [f_equal|]; apply IH; intros; apply H; by right.
Qed.

Lemma omap_map_eq {A B} (f : A -> option B) (g : A -> B) l :
  (forall x, x ∈ l -> f x = Some (g x)) -> omap f l = map g l.
Proof.
  induction l as [|x l IH]; intros H; simpl; [done|].
  rewrite (H x) by left. f_equal. apply IH. intros; apply H; by right.
Qed.

Lemma NoDup_map_inj {A B} (f : A -> B) l x y :
  NoDup (map f l) -> x ∈ l -> y ∈ l -> f x = f y -> x = y.
Proof.
  induction l as [|z l IH]; simpl; intros Hn Hx Hy Hf; [set_solver|].
  apply NoDup_cons in Hn as [Hz Hn].
  apply elem_of_cons in Hx as [->|Hx]; apply elem_of_cons in Hy as [->|Hy]; auto.
  - exfalso. apply Hz. rewrite Hf. by apply list_elem_of_fmap_2.
  - exfalso. apply Hz. rewrite <- Hf. by apply list_elem_of_fmap_2.
Qed.

Lemma and_iff_compat_lr (A B C D : Prop) : (A <-> C) -> (B <-> D) -> (A /\ B <-> C /\ D).
Proof. tauto. Qed.

Lemma omap_nil {A B} (f : A -> option B) (l : list A) : omap f l = [] <-> forall x, x ∈ l -> f x = None.
Proof.
  induction l as [|x l IH]; simpl; [set_solver|].
  destruct (f x) eqn:E; split.
  - done.
  - intros H. rewrite (H x) in E by left. done.
  - intros H y [->|Hy]%elem_of_cons; [done|]. by apply IH.
  - intros H. apply IH. intros; apply H; by right.
Qed.
Lemma concat_map_nil {A B} (f : A -> list B) (l : list A) :
  concat (map f l) = [] <-> forall x, x ∈ l -> f x = [].
Proof.
  induction l as [|x l IH]; simpl; [set_solver|].
  rewrite app_nil, IH. setoid_rewrite elem_of_cons. naive_solver.
Qed.
Lemma omap_Forall {A B} (P : B -> Prop) (f : A -> option B) (l : list A) :
  (forall x y, f x = Some y -> P y) -> Forall P (omap f l).
Proof.
  intros H. induction l as [|x l IH]; simpl; [constructor|].
  destruct (f x) eqn:E; [constructor; eauto|done].
Qed.

#[export] Instance Q_eq_decision : EqDecision Q.
Proof. solve_decision. Defined.

Lemma oflatmap_ret {E A B} (f : A -> outcome E (list B)) (g : A -> list B) l :
  (forall x, x ∈ l -> f x = Ret (g x)) -> oflatmap f l = Ret (concat (map g l)).
Proof.
  induction l as [|x l IH]; intros H; simpl; [done|].
  rewrite (H x) by left. simpl. rewrite IH; [done|]. intros; apply H; by right.
Qed.
Lemma oflatmap_Ret_nil {E A B} (f : A -> outcome E (list B)) l :
  oflatmap f l = Ret [] -> forall x, x ∈ l -> f x = Ret [].
Proof.
  induction l as [|x l IH]; simpl; intros H y; [set_solver|].
  destruct (f x) as [e|r] eqn:Ex; [done|]. simpl in H.
  destruct (oflatmap f l) as [e|rs]; [done|]. simpl in H. injection H as H.
  apply app_nil in H as [-> ->]. intros [->|Hy]%elem_of_cons; auto.
Qed.
