(* ===== verification/AsyncIO.v ===== *)
(** * Coroutines

    An [async def] body as the sequence of its atomic steps: the work between two
    suspension points is one step, and the event loop interleaves the steps of several
    coroutines over one shared world. [run_co] drives one coroutine alone; [sched]
    interleaves two with a third party, the environment. *)
From S2P Require Import Prelude.
#[local] Open Scope Z_scope.

Section Coroutines.
Context {W E : Type}.

(** The next step changes the world and says how to go on. *)
Inductive co (A : Type) : Type :=
| Finished (o : outcome E A)
| Await (effect : W -> W) (next : W -> co A).

Definition co_ret {A} (a : A) : co A := Finished A (Ret a).
Definition co_raise {A} (e : E) : co A := Finished A (Raise e).
(** [await] of something that takes one step. *)
Definition atomic {A} (m : prog W E A) : co A :=
  Await A (fun w => snd (m w)) (fun w => Finished A (fst (m w))).

Fixpoint co_bind {A B} (c : co A) (k : A -> co B) : co B :=
  match c with
  | Finished _ (Ret a) => k a
  | Finished _ (Raise e) => Finished B (Raise e)
  | Await _ f next => Await B f (fun w => co_bind (next w) k)
  end.
(** [try: c except: h]. *)
Fixpoint co_catch {A} (c : co A) (h : E -> co A) : co A :=
  match c with
  | Finished _ (Ret a) => Finished A (Ret a)
  | Finished _ (Raise e) => h e
  | Await _ f next => Await A f (fun w => co_catch (next w) h)
  end.

(** One coroutine alone on the loop. *)
Fixpoint run_co {A} (c : co A) : prog W E A :=
  match c with
  | Finished _ o => fun w => (o, w)
  | Await _ f next => fun w => run_co (next w) (f w)
  end.

Lemma run_co_bind {A B} (c : co A) (k : A -> co B) w :
  run_co (co_bind c k) w = bind (run_co c) (fun a => run_co (k a)) w.
Proof.
  revert w. induction c as [[e|a]|f next IH]; intros w; [done|done|]. apply IH.
Qed.
Lemma run_co_atomic {A} (m : prog W E A) w : run_co (atomic m) w = m w.
Proof. simpl. by destruct (m w). Qed.
Lemma run_co_step {A B} (m : prog W E A) (k : A -> co B) w a w' :
  m w = (Ret a, w') -> run_co (co_bind (atomic m) k) w = run_co (k a) w'.
Proof. intros Hm. rewrite run_co_bind. unfold bind. by rewrite run_co_atomic, Hm. Qed.
Lemma run_co_stop {A B} (m : prog W E A) (k : A -> co B) w e w' :
  m w = (Raise e, w') -> run_co (co_bind (atomic m) k) w = (Raise e, w').
Proof. intros Hm. rewrite run_co_bind. unfold bind. by rewrite run_co_atomic, Hm. Qed.
Lemma run_co_catch {A} (c : co A) (h : E -> co A) w :
  run_co (co_catch c h) w = try_except (run_co c) (fun e => run_co (h e)) w.
Proof.
  revert w. induction c as [[e|a]|f next IH]; intros w; [done|done|]. apply IH.
Qed.

(** ** Many coroutines and the environment

    The loop picks any coroutine that is not finished and runs its next step; between
    two steps the environment (time, other processes) may change the world. *)
Context {A : Type} (env : W -> W -> Prop).

Inductive sched : list (co A) * W -> list (co A) * W -> Prop :=
| sched_done s : sched s s
| sched_step l1 l2 f next w s :
    sched ((l1 ++ next w :: l2)%list, f w) s -> sched ((l1 ++ Await A f next :: l2)%list, w) s
| sched_env l w w' s : env w w' -> sched (l, w') s -> sched (l, w) s.

Lemma sched_trans s1 s2 s3 : sched s1 s2 -> sched s2 s3 -> sched s1 s3.
Proof. induction 1; eauto using sched. Qed.
(** One coroutine may run to its end undisturbed. *)
Lemma sched_run l1 c l2 w :
  sched ((l1 ++ c :: l2)%list, w) ((l1 ++ Finished A (fst (run_co c w)) :: l2)%list, snd (run_co c w)).
Proof.
  revert w. induction c as [o|f next IH]; intros w; [constructor|]. simpl. constructor. apply IH.
Qed.
Lemma sched_run_prefix {B} l1 (c : co B) (k : B -> co A) l2 w b w' :
  run_co c w = (Ret b, w') -> sched ((l1 ++ co_bind c k :: l2)%list, w) ((l1 ++ k b :: l2)%list, w').
Proof.
  revert w. induction c as [[e|a]|f next IH]; intros w; simpl; [done|intros; simplify_eq; constructor|].
  intros Hr. constructor. by apply IH.
Qed.

(** What every step of a coroutine keeps. *)
Inductive steps_keep {A} (P : W -> Prop) : co A -> Prop :=
| keep_finished o : steps_keep P (Finished A o)
| keep_await f next : (forall w, P w -> P (f w)) -> (forall w, P w -> steps_keep P (next w)) ->
    steps_keep P (Await A f next).

Lemma sched_keeps (P : W -> Prop) s s' :
  (forall w w', env w w' -> P w -> P w') -> sched s s' ->
  Forall (steps_keep P) (fst s) -> P (snd s) -> P (snd s').
Proof.
  intros Henv. induction 1 as [s|l1 l2 f next w s Hs IH|l w w' s He Hs IH]; simpl in *;
    intros Hl Hw; [done| |eauto].
  apply Forall_app in Hl as [H1 H2]. apply Forall_cons in H2 as [Hc H2]. inversion Hc; subst.
  apply IH; [|auto]. apply Forall_app. split; [done|]. constructor; auto.
Qed.
End Coroutines.
Arguments co W E A : clear implicits.

Lemma steps_keep_atomic {W E A} (P : W -> Prop) (m : prog W E A) :
  (forall w, P w -> P (snd (m w))) -> steps_keep P (atomic m).
Proof. intros Hm. by constructor; [|constructor]. Qed.
Lemma steps_keep_bind {W E A B} (P : W -> Prop) (c : co W E A) (k : A -> co W E B) :
  steps_keep P c -> (forall a, steps_keep P (k a)) -> steps_keep P (co_bind c k).
Proof.
  intros Hc Hk. induction Hc as [[e|a]|f next Hf Hn IH]; simpl; [constructor|auto|by constructor].
Qed.
Lemma steps_keep_catch {W E A} (P : W -> Prop) (c : co W E A) (h : E -> co W E A) :
  steps_keep P c -> (forall e, steps_keep P (h e)) -> steps_keep P (co_catch c h).
Proof.
  intros Hc Hh. induction Hc as [[e|a]|f next Hf Hn IH]; simpl; [auto|constructor|by constructor].
Qed.
(** What every step keeps is kept by a coroutine running alone. *)
Lemma run_co_keeps {W E A} (P : W -> Prop) (c : co W E A) w :
  steps_keep P c -> P w -> P (snd (run_co c w)).
Proof.
  intros Hc. revert w. induction Hc as [o|f next Hf Hn IH]; intros w Hw; simpl; [done|]. apply IH; auto.
Qed.
Create HintDb co_keep.
#[export] Hint Resolve steps_keep_atomic steps_keep_bind steps_keep_catch keep_finished : co_keep.

(** A coroutine that works on one part of a larger world, its exceptions renamed. *)
Section Lift.
Context {W W' E E' : Type} (get : W' -> W) (set : W -> W' -> W') (inj : E -> E').
Definition map_raise {A} (o : outcome E A) : outcome E' A :=
  match o with Ret a => Ret a | Raise e => Raise (inj e) end.
Fixpoint co_lift {A} (c : co W E A) : co W' E' A :=
  match c with
  | Finished _ o => Finished A (map_raise o)
  | Await _ f next => Await A (fun w => set (f (get w)) w) (fun w => co_lift (next (get w)))
  end.

Context (set_get : forall w, set (get w) w = w) (get_set : forall d w, get (set d w) = d)
  (set_set : forall d d' w, set d (set d' w) = set d w).
Lemma run_co_lift {A} (c : co W E A) w :
  run_co (co_lift c) w = (map_raise (fst (run_co c (get w))), set (snd (run_co c (get w))) w).
Proof using set_get get_set set_set.
  revert w. induction c as [o|f next IH]; intros w; simpl; [by rewrite set_get|].
  by rewrite IH, get_set, set_set.
Qed.
Lemma steps_keep_lift {A} (P : W' -> Prop) (c : co W E A) :
  (forall d w, P w -> P (set d w)) -> steps_keep P (co_lift c).
Proof. intros Hs. induction c as [o|f next IH]; simpl; constructor; auto. Qed.
Lemma steps_keep_lift_both {A} (P : W -> Prop) (Q : W' -> Prop) (c : co W E A) :
  steps_keep P c -> (forall w, Q w -> P (get w)) -> (forall d w, P d -> Q w -> Q (set d w)) ->
  steps_keep Q (co_lift c).
Proof.
  intros Hc Hget Hset. induction Hc as [o|f next Hf Hn IH]; simpl; constructor; intros w Hw.
  - apply Hset; [|done]. apply Hf. auto.
  - apply IH. auto.
Qed.
Lemma steps_keep_lift_part {A} (P : W -> Prop) (c : co W E A) :
  steps_keep P c -> steps_keep (fun w => P (get w)) (co_lift c).
Proof using get_set.
  induction 1 as [o|f next Hf Hn IH]; simpl; constructor; intros w; [rewrite get_set|]; auto.
Qed.
End Lift.

(** Two coroutines no caller can tell apart: run alone from related worlds they end in the
    same way, in related worlds. *)
Section Agree.
Context {W E : Type} (R : W -> W -> Prop).
Definition agree {A} (c1 c2 : co W E A) : Prop :=
  forall w1 w2, R w1 w2 ->
    fst (run_co c1 w1) = fst (run_co c2 w2) /\ R (snd (run_co c1 w1)) (snd (run_co c2 w2)).
Lemma agree_finished {A} (o : outcome E A) : agree (Finished A o) (Finished A o).
Proof. by intros w1 w2 HR. Qed.
Lemma agree_atomic {A} (m1 m2 : prog W E A) :
  (forall w1 w2, R w1 w2 -> fst (m1 w1) = fst (m2 w2) /\ R (snd (m1 w1)) (snd (m2 w2))) ->
  agree (atomic m1) (atomic m2).
Proof. intros Hm w1 w2 HR. rewrite !run_co_atomic. by apply Hm. Qed.
Lemma agree_bind {A B} (c1 c2 : co W E A) (k1 k2 : A -> co W E B) :
  agree c1 c2 -> (forall a, agree (k1 a) (k2 a)) -> agree (co_bind c1 k1) (co_bind c2 k2).
Proof.
  intros Hc Hk w1 w2 HR. rewrite !run_co_bind. unfold bind. destruct (Hc w1 w2 HR) as [Ho Hw].
  destruct (run_co c1 w1) as [[e1|a1] w1'], (run_co c2 w2) as [[e2|a2] w2']; simpl in *; simplify_eq; [done|].
  by apply Hk.
Qed.
Lemma agree_catch {A} (c1 c2 : co W E A) (h1 h2 : E -> co W E A) :
  agree c1 c2 -> (forall e, agree (h1 e) (h2 e)) -> agree (co_catch c1 h1) (co_catch c2 h2).
Proof.
  intros Hc Hh w1 w2 HR. rewrite !run_co_catch. unfold try_except. destruct (Hc w1 w2 HR) as [Ho Hw].
  destruct (run_co c1 w1) as [[e1|a1] w1'], (run_co c2 w2) as [[e2|a2] w2']; simpl in *; simplify_eq; [|done].
  by apply Hh.
Qed.
End Agree.

Notation "'let*' x ':=' m 'in' k" := (co_bind m (fun x => k))
  (at level 10, x name, m at level 200, k at level 200) : py_scope.
