(* ===== verification/PyFloat.v ===== *)
(** * Python floats

    A finite [float] is the rational number it denotes, and every operation is
    the exact rational operation followed by [fl], the IEEE-754 rounding to
    binary64 (nearest, ties to even, gradual underflow). NaN and overflow to
    infinity are outside the model; where the code itself writes
    [float("inf")] the model has an explicit constructor for it. *)
From S2P Require Import Prelude.
From Stdlib Require Import Qround Qabs Qminmax.
#[local] Open Scope Z_scope.

(** Round half to even of the fraction [N / D], [D] positive. *)
Definition rhe (N D : Z) : Z :=
  let q := N / D in
  let r := N mod D in
  if 2 * r <? D then q
  else if D <? 2 * r then q + 1
  else if Z.even q then q else q + 1.

(** The unit in the last place of a positive [N / d], as a power of two in
    units of the smallest subnormal [2 ^ -1074]. *)
Definition ulp_exp (N d : Z) : Z := Z.max 0 (Z.log2 (N / d) - 52).

Definition round_mag (N d : Z) : Z :=
  let E := ulp_exp N d in rhe N (d * 2 ^ E) * 2 ^ E.

Definition fl (q : Q) : Q :=
  Qred (Z.sgn (Qnum q) * round_mag (Z.abs (Qnum q) * 2 ^ 1074) (Zpos (Qden q))
        # (2 ^ 1074)%positive).

Definition fadd (x y : Q) : Q := fl (x + y).
Definition fsub (x y : Q) : Q := fl (x - y).
Definition fmul (x y : Q) : Q := fl (x * y).
Definition fdiv (x y : Q) : Q := fl (x / y).
Definition f_of_Z (z : Z) : Q := fl (inject_Z z).

Definition fleb (x y : Q) : bool := Qle_bool x y.
Definition fltb (x y : Q) : bool := negb (Qle_bool y x).

(** [min(a, b)] and [max(a, b)] keep their first argument unless the second is
    strictly better. *)
Definition fmin (a b : Q) : Q := if fltb b a then b else a.
Definition fmax (a b : Q) : Q := if fltb a b then b else a.

(** [sum(xs)] of floats in Python 3.12: the first item is added to the integer 0,
    and the rest with Neumaier's compensation, added at the end. *)
Definition fabs (x : Q) : Q := if fltb x 0 then (- x)%Q else x.
Definition sum_step (s : Q * Q) (x : Q) : Q * Q :=
  let '(r, c) := s in
  let t := fadd r x in
  (t, if fleb (fabs x) (fabs r) then fadd c (fadd (fsub r t) x) else fadd c (fadd (fsub x t) r)).
Definition fsum (l : list Q) : Q :=
  match l with
  | [] => 0%Q
  | x :: l' => let '(r, c) := fold_left sum_step l' (fadd 0 x, 0%Q) in
               if Qeq_bool c 0 then r else fadd r c
  end.

(** [round(x, 4)]: the nearest multiple of [10 ^ -4] (exact ties to even), as a float. *)
Definition round4 (x : Q) : Q :=
  fl (Z.sgn (Qnum x) * rhe (Z.abs (Qnum x) * 10000) (Zpos (Qden x)) # 10000).

(** The decimal literals of the source denote the nearest float. *)
Definition lit (n : Z) (d : positive) : Q := fl (n # d).

(** ** Comparisons *)
Lemma fleb_spec x y : fleb x y = true <-> (x <= y)%Q.
Proof. apply Qle_bool_iff. Qed.
Lemma fltb_spec x y : fltb x y = true <-> (x < y)%Q.
Proof.
  unfold fltb. rewrite negb_true_iff, <- not_true_iff_false, Qle_bool_iff.
  split; [apply Qnot_le_lt|apply Qlt_not_le].
Qed.
Lemma fltb_ge x y : fltb x y = false <-> (y <= x)%Q.
Proof.
  unfold fltb. rewrite negb_false_iff. apply Qle_bool_iff.
Qed.
Lemma fltb_asym x y : fltb x y = true -> fltb y x = false.
Proof. rewrite fltb_spec, fltb_ge. apply Qlt_le_weak. Qed.
Lemma fltb_geb_trans x y z : fltb y x = false -> fltb z y = false -> fltb z x = false.
Proof. rewrite !fltb_ge. intros. by eapply Qle_trans. Qed.

Lemma fmin_le_l a b : (fmin a b <= a)%Q.
Proof.
  unfold fmin. destruct (fltb b a) eqn:E; [apply fltb_spec in E; lra|lra].
Qed.
Lemma fmin_le_r a b : (fmin a b <= b)%Q.
Proof. unfold fmin. destruct (fltb b a) eqn:E; [lra|apply fltb_ge in E; lra]. Qed.
Lemma fmin_glb a b c : (c <= a -> c <= b -> c <= fmin a b)%Q.
Proof. unfold fmin. destruct (fltb b a); auto. Qed.
Lemma fmax_ub_l a b : (a <= fmax a b)%Q.
Proof. unfold fmax. destruct (fltb a b) eqn:E; [apply fltb_spec in E; lra|lra]. Qed.
Lemma fmax_ub_r a b : (b <= fmax a b)%Q.
Proof. unfold fmax. destruct (fltb a b) eqn:E; [lra|apply fltb_ge in E; lra]. Qed.

(** ** Rounding is monotone and exact on small integers *)
Lemma rhe_lower N D : 0 < D -> 2 * N - D <= 2 * D * rhe N D.
Proof.
  intros HD. unfold rhe. pose proof (Z.div_mod N D ltac:(lia)).
  pose proof (Z.mod_pos_bound N D HD).
  destruct (Z.ltb_spec (2 * (N mod D)) D), (Z.ltb_spec D (2 * (N mod D)));
    try destruct (Z.even _); nia.
Qed.
Lemma rhe_upper N D : 0 < D -> 2 * D * rhe N D <= 2 * N + D.
Proof.
  intros HD. unfold rhe. pose proof (Z.div_mod N D ltac:(lia)).
  pose proof (Z.mod_pos_bound N D HD).
  destruct (Z.ltb_spec (2 * (N mod D)) D), (Z.ltb_spec D (2 * (N mod D)));
    try destruct (Z.even _); nia.
Qed.
Lemma rhe_exact q D : 0 < D -> rhe (q * D) D = q.
Proof.
  intros HD. unfold rhe. rewrite Z.div_mul, Z.mod_mul by lia.
  destruct (Z.ltb_spec (2 * 0) D); lia.
Qed.
(** A tie is the only case where both neighbours are equally near. *)
Lemma rhe_cases N D : 0 < D ->
  let q := N / D in
  (rhe N D = q /\ 2 * (N - q * D) <= D) \/ (rhe N D = q + 1 /\ D <= 2 * (N - q * D)).
Proof.
  intros HD q. unfold rhe. fold q. pose proof (Z.div_mod N D ltac:(lia)) as HN. fold q in HN.
  destruct (Z.ltb_spec (2 * (N mod D)) D), (Z.ltb_spec D (2 * (N mod D)));
    try destruct (Z.even _); (left; split; [done|lia]) || (right; split; [done|lia]).
Qed.
Lemma rhe_mono N1 D1 N2 D2 :
  0 < D1 -> 0 < D2 -> N1 * D2 <= N2 * D1 -> rhe N1 D1 <= rhe N2 D2.
Proof.
  intros H1 H2 Hle.
  assert (Hq : N1 / D1 <= N2 / D2).
  { apply Z.div_le_lower_bound; [done|].
    pose proof (Z.mul_div_le N1 D1 H1). nia. }
  destruct (rhe_cases N1 D1 H1) as [[E1 B1]|[E1 B1]];
    destruct (rhe_cases N2 D2 H2) as [[E2 B2]|[E2 B2]]; rewrite ?E1, ?E2; try lia.
  destruct (Z.eq_dec (N1 / D1) (N2 / D2)) as [Eq|Ne]; [|lia].
  (* both fractions sit exactly on the tie *)
  set (q := N1 / D1) in *. rewrite <- Eq in *.
  assert (Ht1 : 2 * (N1 - q * D1) = D1) by nia.
  assert (Ht2 : 2 * (N2 - q * D2) = D2) by nia.
  assert (Hm1 : N1 mod D1 = N1 - q * D1) by (rewrite Z.mod_eq by lia; subst q; lia).
  assert (Hm2 : N2 mod D2 = N2 - q * D2) by (rewrite Z.mod_eq by lia; rewrite <- Eq; lia).
  unfold rhe in E1, E2. fold q in E1. rewrite <- Eq in E2. rewrite Hm1 in E1. rewrite Hm2 in E2.
  destruct (Z.ltb_spec (2 * (N1 - q * D1)) D1); [lia|].
  destruct (Z.ltb_spec D1 (2 * (N1 - q * D1))); [lia|].
  destruct (Z.ltb_spec (2 * (N2 - q * D2)) D2); [lia|].
  destruct (Z.ltb_spec D2 (2 * (N2 - q * D2))); [lia|].
  destruct (Z.even q); lia.
Qed.

Lemma rhe_bound_hi N D M : 0 < D -> N <= M * D -> rhe N D <= M.
Proof.
  intros HD H. rewrite <- (rhe_exact M D HD). apply rhe_mono; try done. nia.
Qed.
Lemma rhe_bound_lo N D M : 0 < D -> M * D <= N -> M <= rhe N D.
Proof.
  intros HD H. rewrite <- (rhe_exact M D HD). apply rhe_mono; try done. nia.
Qed.

Lemma round_mag_nonneg N d : 0 <= N -> 0 < d -> 0 <= round_mag N d.
Proof.
  intros HN Hd. unfold round_mag. cbv zeta.
  assert (0 < 2 ^ ulp_exp N d) by (apply Z.pow_pos_nonneg; unfold ulp_exp; lia).
  apply Z.mul_nonneg_nonneg; [|lia]. apply rhe_bound_lo; nia.
Qed.

Lemma round_mag_mono N1 d1 N2 d2 :
  0 <= N1 -> 0 <= N2 -> 0 < d1 -> 0 < d2 -> N1 * d2 <= N2 * d1 ->
  round_mag N1 d1 <= round_mag N2 d2.
Proof.
  intros P1 P2 H1 H2 Hle. unfold round_mag.
  assert (Hq : N1 / d1 <= N2 / d2).
  { apply Z.div_le_lower_bound; [done|]. pose proof (Z.mul_div_le N1 d1 H1). nia. }
  assert (HE : ulp_exp N1 d1 <= ulp_exp N2 d2).
  { unfold ulp_exp. pose proof (Z.log2_le_mono _ _ Hq). lia. }
  set (E1 := ulp_exp N1 d1) in *. set (E2 := ulp_exp N2 d2) in *.
  assert (HE1 : 0 <= E1) by (unfold E1, ulp_exp; lia).
  assert (0 < 2 ^ E1) by (apply Z.pow_pos_nonneg; lia).
  assert (0 < 2 ^ E2) by (apply Z.pow_pos_nonneg; lia).
  destruct (Z.eq_dec E1 E2) as [Heq|Hne].
  { rewrite <- Heq in *. apply Z.mul_le_mono_nonneg_r; [lia|]. apply rhe_mono; nia. }
  (* different binades: a power of two separates the two results *)
  assert (Hhi : rhe N1 (d1 * 2 ^ E1) <= 2 ^ 53).
  { apply rhe_bound_hi; [nia|].
    pose proof (Z.mul_succ_div_gt N1 d1 H1) as Hs.
    assert (N1 / d1 < 2 ^ (53 + E1)).
    { destruct (Z.eq_dec (N1 / d1) 0) as [->|]; [apply Z.pow_pos_nonneg; lia|].
      assert (0 < N1 / d1) by (pose proof (Z.div_pos N1 d1 P1 H1); lia).
      apply Z.log2_lt_pow2; [done|]. unfold E1, ulp_exp. lia. }
    rewrite Z.pow_add_r in * by lia. nia. }
  assert (Hlo : 2 ^ 52 <= rhe N2 (d2 * 2 ^ E2)).
  { apply rhe_bound_lo; [nia|].
    pose proof (Z.mul_div_le N2 d2 H2) as Hs.
    assert (Hb : 2 ^ (52 + E2) <= N2 / d2).
    { assert (0 < N2 / d2).
      { destruct (Z.eq_dec (N2 / d2) 0) as [Hz|]; [|pose proof (Z.div_pos N2 d2 P2 H2); lia].
        unfold E2, ulp_exp in Hne. rewrite Hz in Hne. simpl in Hne.
        unfold E2, ulp_exp in HE. rewrite Hz in HE. simpl in HE. lia. }
      apply Z.log2_le_pow2; [done|]. unfold E2, ulp_exp in *. lia. }
    rewrite Z.pow_add_r in Hb by lia. nia. }
  assert (Hp : 2 ^ 53 * 2 ^ E1 <= 2 ^ 52 * 2 ^ E2).
  { rewrite <- !Z.pow_add_r by lia. apply Z.pow_le_mono_r; lia. }
  nia.
Qed.

Lemma fl_value q :
  (fl q == Z.sgn (Qnum q) * round_mag (Z.abs (Qnum q) * 2 ^ 1074) (Zpos (Qden q))
           # (2 ^ 1074)%positive)%Q.
Proof. apply Qred_correct. Qed.

Lemma fl_mono x y : (x <= y)%Q -> (fl x <= fl y)%Q.
Proof.
  intros Hle. rewrite !fl_value. destruct x as [n1 d1], y as [n2 d2].
  unfold Qle in *. cbn [Qnum Qden] in *.
  apply Z.mul_le_mono_nonneg_r; [lia|].
  set (B := 2 ^ 1074). assert (HB : 0 < B) by (subst B; lia).
  pose proof (round_mag_nonneg (Z.abs n1 * B) (Zpos d1) ltac:(lia) ltac:(lia)).
  pose proof (round_mag_nonneg (Z.abs n2 * B) (Zpos d2) ltac:(lia) ltac:(lia)).
  assert (Hpos : forall m1 e1 m2 e2 : Z, 0 <= m1 -> 0 <= m2 -> 0 < e1 -> 0 < e2 ->
            m1 * e2 <= m2 * e1 -> round_mag (m1 * B) e1 <= round_mag (m2 * B) e2).
  { intros. apply round_mag_mono; nia. }
  destruct (Z.sgn_spec n1) as [[? E1]|[[? E1]|[? E1]]];
    destruct (Z.sgn_spec n2) as [[? E2]|[[? E2]|[? E2]]];
    rewrite ?E1, ?E2; try nia.
  - pose proof (Hpos (Z.abs n1) (Zpos d1) (Z.abs n2) (Zpos d2)). nia.
  - pose proof (Hpos (Z.abs n2) (Zpos d2) (Z.abs n1) (Zpos d1)). nia.
Qed.

#[export] Instance fl_Proper : Proper (Qeq ==> Qeq) fl.
Proof.
  intros x y E. apply Qle_antisym; apply fl_mono; rewrite E; apply Qle_refl.
Qed.

Lemma fl_int z : Z.abs z <= 2 ^ 53 -> (fl (inject_Z z) == inject_Z z)%Q.
Proof.
  intros Hz. rewrite fl_value. unfold inject_Z, Qeq. cbn [Qnum Qden].
  destruct (Z.eq_dec z 0) as [->|Hnz]; [reflexivity|].
  set (a := Z.abs z) in *. assert (Ha : 0 < a) by lia.
  set (L := Z.log2 a).
  assert (HL : 0 <= L) by apply Z.log2_nonneg.
  assert (HL' : L <= 53).
  { unfold L. rewrite <- (Z.log2_pow2 53) by lia. by apply Z.log2_le_mono. }
  assert (Hr : round_mag (a * 2 ^ 1074) 1 = a * 2 ^ 1074).
  { unfold round_mag, ulp_exp. rewrite Z.div_1_r.
    rewrite Z.log2_mul_pow2 by lia. fold L. rewrite Z.max_r by lia.
    replace (1074 + L - 52) with (1022 + L) by lia.
    assert (Hd : exists q, a * 2 ^ 1074 = q * 2 ^ (1022 + L)).
    { destruct (Z.eq_dec L 53) as [HL53|].
      - assert (a = 2 ^ 53).
        { pose proof (Z.log2_spec a Ha) as [Hlo _]. fold L in Hlo. rewrite HL53 in Hlo. lia. }
        exists (2 ^ 52). rewrite HL53. subst a. rewrite H, <- !Z.pow_add_r; [f_equal; lia|lia..].
      - exists (a * 2 ^ (52 - L)). rewrite <- Z.mul_assoc, <- Z.pow_add_r by lia.
        do 2 f_equal. lia. }
    destruct Hd as [q Hq]. rewrite Hq, Z.mul_1_l.
    rewrite rhe_exact by (apply Z.pow_pos_nonneg; lia). reflexivity. }
  rewrite Hr. replace (Zpos (2 ^ 1074)%positive) with (2 ^ 1074) by reflexivity.
  unfold a. pose proof (Z.sgn_abs z). nia.
Qed.

Lemma fl_0 q : (q == 0)%Q -> (fl q == 0)%Q.
Proof. intros ->. apply (fl_int 0). lia. Qed.
Lemma fl_nonneg q : (0 <= q)%Q -> (0 <= fl q)%Q.
Proof. intros H. rewrite <- (fl_0 0 (Qeq_refl 0)). by apply fl_mono. Qed.
Lemma fl_le_int q z : Z.abs z <= 2 ^ 53 -> (q <= inject_Z z)%Q -> (fl q <= inject_Z z)%Q.
Proof. intros Hz H. rewrite <- (fl_int z Hz). by apply fl_mono. Qed.
Lemma fl_ge_int q z : Z.abs z <= 2 ^ 53 -> (inject_Z z <= q)%Q -> (inject_Z z <= fl q)%Q.
Proof. intros Hz H. rewrite <- (fl_int z Hz). by apply fl_mono. Qed.

Lemma fadd_nonneg x y : (0 <= x -> 0 <= y -> 0 <= fadd x y)%Q.
Proof. intros. apply fl_nonneg. lra. Qed.
Lemma fmul_nonneg x y : (0 <= x -> 0 <= y -> 0 <= fmul x y)%Q.
Proof. intros. apply fl_nonneg. by apply Qmult_le_0_compat. Qed.
Lemma fsub_nonneg x y : (y <= x -> 0 <= fsub x y)%Q.
Proof. intros. apply fl_nonneg. lra. Qed.
Lemma fdiv_nonneg x y : (0 <= x -> 0 < y -> 0 <= fdiv x y)%Q.
Proof.
  intros. apply fl_nonneg. apply Qle_shift_div_l; [done|]. lra.
Qed.
Lemma round4_mono x y : (0 <= x -> x <= y -> round4 x <= round4 y)%Q.
Proof.
  intros H0 Hle. apply fl_mono. destruct x as [n1 d1], y as [n2 d2]. unfold Qle in *. cbn [Qnum Qden] in *.
  apply Z.mul_le_mono_nonneg_r; [lia|].
  assert (Hn1 : 0 <= n1) by lia. assert (Hn2 : 0 <= n2) by nia.
  assert (Hr : forall n d, 0 <= n -> Z.sgn n * rhe (Z.abs n * 10000) (Zpos d) = rhe (n * 10000) (Zpos d)).
  { intros n d Hn. rewrite Z.abs_eq by done. destruct (decide (n = 0)) as [->|]; [symmetry; by apply (rhe_exact 0 (Zpos d))|].
    rewrite Z.sgn_pos by lia. lia. }
  rewrite !Hr by done. apply rhe_mono; [lia|lia|]. nia.
Qed.
#[export] Instance round4_Proper : Proper (Qeq ==> Qeq) round4.
Proof.
  intros [n1 d1] [n2 d2] E. unfold round4. apply fl_Proper. unfold Qeq in *. cbn [Qnum Qden] in *.
  assert (Hs : Z.sgn n1 = Z.sgn n2).
  { rewrite <- (Z.mul_1_r (Z.sgn n1)), <- (Z.mul_1_r (Z.sgn n2)).
    change 1 with (Z.sgn (Zpos d2)) at 1. change 1 with (Z.sgn (Zpos d1)).
    by rewrite <- !Z.sgn_mul, E. }
  rewrite Hs. do 2 f_equal.
  assert (Ha : Z.abs n1 * 10000 * Zpos d2 = Z.abs n2 * 10000 * Zpos d1).
  { rewrite <- (Z.abs_eq (Zpos d2)), <- (Z.abs_eq (Zpos d1)) by lia.
    rewrite <- !Z.mul_assoc, !(Z.mul_comm 10000), !Z.mul_assoc, <- !Z.abs_mul, E. done. }
  apply Z.le_antisymm; apply rhe_mono; lia.
Qed.
Create HintDb pyfloat.
#[export] Hint Resolve fl_nonneg fadd_nonneg fmul_nonneg fsub_nonneg fdiv_nonneg
  fmin_glb fmin_le_l fmin_le_r fmax_ub_l fmax_ub_r fl_mono : pyfloat.

(** [0.1 + 0.2] is not [0.3], and [0.7 - 0.6] is less than [0.1]. *)
Example float_addition_rounds : fadd (lit 1 10) (lit 2 10) <> lit 3 10.
Proof. vm_compute. discriminate. Qed.
Example float_subtraction_rounds : fltb (fsub (lit 7 10) (lit 6 10)) (lit 1 10) = true.
Proof. vm_compute. reflexivity. Qed.
Example round4_half : round4 (lit 123456 1000000) = lit 1235 10000.
Proof. vm_compute. reflexivity. Qed.
(** The compensated sum of ten tenths is exactly one; adding them one by one is not. *)
Example sum_compensates :
  fsum (repeat (lit 1 10) 10) = 1%Q /\ fold_left fadd (repeat (lit 1 10) 10) 0%Q <> 1%Q.
Proof. vm_compute. split; [reflexivity|discriminate]. Qed.

(** ** Sorting by [(-x, key)]

    Tuples with a float to be compared in descending order and a key in ascending order. *)
Section Descending.
Context {K : Type} (ltb : K -> K -> bool).
Definition desc_ltb (a b : Q * K) : bool := fltb (fst b) (fst a) || (Qeq_bool (fst a) (fst b) && ltb (snd a) (snd b)).

Lemma Qeq_bool_false x y : Qeq_bool x y = false <-> ~ (x == y)%Q.
Proof. by rewrite <- not_true_iff_false, Qeq_bool_iff. Qed.
Lemma desc_geb a b : desc_ltb b a = false <-> (fst b < fst a)%Q \/ (fst a == fst b)%Q /\ ltb (snd b) (snd a) = false.
Proof.
  unfold desc_ltb. rewrite orb_false_iff, andb_false_iff, fltb_ge, Qeq_bool_false. split.
  - intros [H1 [H2|H2]].
    + left. apply Qle_lteq in H1 as [?|E]; [done|]. by destruct H2.
    + apply Qle_lteq in H1 as [?|E]; [by left|]. right. split; [by symmetry|done].
  - intros [H|[H1 H2]].
    + split; [by apply Qlt_le_weak|]. left. intros E. rewrite E in H. by apply Qlt_irrefl in H.
    + split; [rewrite H1; apply Qle_refl|by right].
Qed.
Lemma desc_asym a b : (forall x y, ltb x y = true -> ltb y x = false) -> desc_ltb a b = true -> desc_ltb b a = false.
Proof.
  intros Hasym. rewrite desc_geb. unfold desc_ltb. rewrite orb_true_iff, andb_true_iff, fltb_spec, Qeq_bool_iff.
  intros [H|[H1 H2]]; [by left|right]. split; [done|by apply Hasym].
Qed.
Lemma desc_geb_trans a b c : (forall x y z, ltb y x = false -> ltb z y = false -> ltb z x = false) ->
  desc_ltb b a = false -> desc_ltb c b = false -> desc_ltb c a = false.
Proof.
  intros Htrans. rewrite !desc_geb. intros [H1|[E1 H1]] [H2|[E2 H2]].
  - left. by eapply Qlt_trans.
  - left. by rewrite <- E2.
  - left. by rewrite E1.
  - right. split; [by rewrite E1|by eapply Htrans].
Qed.
Lemma desc_antisym a b : (forall x y, ltb x y = false -> ltb y x = false -> x = y) ->
  desc_ltb a b = false -> desc_ltb b a = false -> snd a = snd b.
Proof.
  intros Hanti. rewrite !desc_geb. intros [H1|[E1 H1]] [H2|[E2 H2]].
  - exfalso. exact (Qlt_irrefl _ (Qlt_trans _ _ _ H1 H2)).
  - rewrite E2 in H1. by apply Qlt_irrefl in H1.
  - rewrite E1 in H2. by apply Qlt_irrefl in H2.
  - by apply Hanti.
Qed.
End Descending.
