(* ===== verification/FloatSum.v ===== *)
(** * Sums of floats

    Python 3.12 sums floats with Neumaier's compensation ([PyFloat.fsum]). This file proves what
    the program relies on when it sums scores: a sum of non-negative floats is not negative, and
    a sum of [n] floats that are at most 1 is at most [n]. Neither follows from monotonicity,
    since the compensation may be negative; both rest on two facts about binary64: a difference
    of two floats within a factor of two is exact, and the rounding error of an addition is
    itself a float. *)
From S2P Require Import Prelude PyFloat.
From Stdlib Require Import Qround Qabs Qminmax.
#[local] Open Scope Z_scope.

(** ** Floats as multiples of [2 ^ -1074] *)
Definition is_float (x : Q) : Prop := (fl x == x)%Q.
#[export] Instance is_float_Proper : Proper (Qeq ==> iff) is_float.
Proof. intros x y E. unfold is_float. by rewrite E. Qed.

Definition unit_den : positive := (2 ^ 1074)%positive.
Definition scaled (n : Z) : Q := n # unit_den.
Definition expo (n : Z) : Z := ulp_exp n 1.
(** [n] units are a float. *)
Definition dyadic (n : Z) : Prop := (2 ^ expo n | n).

Lemma unit_den_pos : Zpos unit_den = 2 ^ 1074.
Proof. reflexivity. Qed.
#[local] Opaque unit_den.

Lemma expo_nonneg n : 0 <= expo n.
Proof. unfold expo, ulp_exp. lia. Qed.
Lemma expo_mono a b : 0 <= a <= b -> expo a <= expo b.
Proof. intros H. unfold expo, ulp_exp. rewrite !Z.div_1_r. pose proof (Z.log2_le_mono a b ltac:(lia)). lia. Qed.
Lemma pow_expo_pos n : 0 < 2 ^ expo n.
Proof. apply Z.pow_pos_nonneg; [lia|apply expo_nonneg]. Qed.
Lemma pow_divide a b : 0 <= a <= b -> (2 ^ a | 2 ^ b).
Proof. intros H. exists (2 ^ (b - a)). rewrite <- Z.pow_add_r by lia. f_equal. lia. Qed.

Lemma round_mag_scale n d : 0 <= n -> 0 < d -> round_mag (n * d) d = round_mag n 1.
Proof. intros Hn Hd. apply Z.le_antisymm; apply round_mag_mono; nia. Qed.
Lemma fl_scaled n : 0 <= n -> (fl (scaled n) == scaled (round_mag n 1))%Q.
Proof.
  intros Hn. rewrite fl_value. unfold scaled. cbn [Qnum Qden]. rewrite unit_den_pos, Z.abs_eq by lia.
  rewrite round_mag_scale by lia. unfold Qeq. cbn [Qnum Qden].
  change (Zpos (2 ^ 1074)%positive) with (2 ^ 1074). rewrite unit_den_pos. f_equal.
  destruct (Z.eq_dec n 0) as [->|]; [|rewrite Z.sgn_pos; lia].
  rewrite Z.mul_0_l. symmetry. apply (rhe_exact 0 (1 * 2 ^ ulp_exp 0 1)). reflexivity.
Qed.
Lemma round_mag_dyadic n : 0 <= n -> round_mag n 1 = n <-> dyadic n.
Proof.
  intros Hn. unfold round_mag, dyadic. cbv zeta. fold (expo n). rewrite Z.mul_1_l. pose proof (pow_expo_pos n). split.
  - intros E. rewrite <- E at 2. by exists (rhe n (2 ^ expo n)).
  - intros [q Hq]. rewrite Hq at 1. by rewrite rhe_exact.
Qed.
Lemma scaled_float n : 0 <= n -> is_float (scaled n) <-> dyadic n.
Proof.
  intros Hn. unfold is_float. rewrite fl_scaled by done. rewrite <- round_mag_dyadic by done.
  unfold scaled, Qeq. cbn [Qnum Qden]. split; [|by intros ->]. intros E. nia.
Qed.
Lemma fl_is_scaled q : (0 <= q)%Q -> exists m, 0 <= m /\ (fl q == scaled m)%Q.
Proof.
  intros Hq. exists (round_mag (Z.abs (Qnum q) * 2 ^ 1074) (Zpos (Qden q))). split.
  - apply round_mag_nonneg; lia.
  - rewrite fl_value. unfold scaled, Qeq. cbn [Qnum Qden]. change (Zpos (2 ^ 1074)%positive) with (2 ^ 1074).
    rewrite unit_den_pos. f_equal. destruct (Z.eq_dec (Qnum q) 0) as [->|].
    + rewrite Z.mul_0_l. symmetry. by apply (rhe_exact 0 (Zpos (Qden q) * 2 ^ ulp_exp 0 (Zpos (Qden q)))).
    + unfold Qle in Hq. cbn [Qnum Qden] in Hq. rewrite Z.sgn_pos; lia.
Qed.
Lemma scaled_le a b : (scaled a <= scaled b)%Q <-> a <= b.
Proof. unfold scaled, Qle. cbn [Qnum Qden]. nia. Qed.
Lemma scaled_nonneg a : 0 <= a -> (0 <= scaled a)%Q.
Proof. unfold scaled, Qle. cbn [Qnum Qden]. lia. Qed.
Lemma scaled_add a b : (scaled a + scaled b == scaled (a + b))%Q.
Proof. unfold scaled. unfold Qeq, Qplus. cbn [Qnum Qden]. nia. Qed.
Lemma scaled_opp a : (- scaled a == scaled (- a))%Q.
Proof. reflexivity. Qed.
Lemma scaled_sub a b : (scaled a - scaled b == scaled (a - b))%Q.
Proof. unfold Qminus. rewrite scaled_opp, scaled_add. reflexivity. Qed.
Lemma float_scaled x : (0 <= x)%Q -> is_float x -> exists n, 0 <= n /\ (x == scaled n)%Q /\ dyadic n.
Proof.
  intros Hx Hf. destruct (fl_is_scaled x Hx) as (n & Hn & E). exists n. unfold is_float in Hf. rewrite Hf in E.
  split_and!; [done|done|]. apply scaled_float; [done|]. rewrite <- E. done.
Qed.
Lemma fl_opp x : (fl (- x) == - fl x)%Q.
Proof.
  rewrite !fl_value. destruct x as [n d]. cbn [Qnum Qden Qopp]. rewrite Z.abs_opp, Z.sgn_opp.
  unfold Qeq, Qopp. cbn [Qnum Qden]. ring.
Qed.
Lemma is_float_opp x : is_float x -> is_float (- x).
Proof. unfold is_float. intros H. by rewrite fl_opp, H. Qed.
Lemma is_float_int z : Z.abs z <= 2 ^ 53 -> is_float (inject_Z z).
Proof. apply fl_int. Qed.

(** A rounded number is a float. *)
Lemma round_mag_bound N d : 0 <= N -> 0 < d -> rhe N (d * 2 ^ ulp_exp N d) <= 2 ^ 53.
Proof.
  intros HN Hd. set (E := ulp_exp N d). assert (HE : 0 <= E) by (unfold E, ulp_exp; lia).
  assert (0 < 2 ^ E) by (apply Z.pow_pos_nonneg; lia). apply rhe_bound_hi; [nia|].
  pose proof (Z.mul_succ_div_gt N d Hd) as Hs. assert (Hq : N / d < 2 ^ (53 + E)).
  { destruct (Z.eq_dec (N / d) 0) as [->|]; [apply Z.pow_pos_nonneg; lia|].
    assert (0 < N / d) by (pose proof (Z.div_pos N d HN Hd); lia).
    apply Z.log2_lt_pow2; [done|]. unfold E, ulp_exp. lia. }
  rewrite Z.pow_add_r in * by lia. nia.
Qed.
Lemma pow_dyadic e k : 0 <= e -> 0 <= k <= 2 ^ 53 -> dyadic (k * 2 ^ e).
Proof.
  intros He Hk. assert (0 < 2 ^ e) by (apply Z.pow_pos_nonneg; lia). unfold dyadic.
  destruct (Z.eq_dec k 0) as [->|Hk0]; [rewrite Z.mul_0_l; apply Z.divide_0_r|].
  assert (Hlog : Z.log2 (k * 2 ^ e) = Z.log2 k + e) by (rewrite Z.log2_mul_pow2; lia).
  assert (Hx : expo (k * 2 ^ e) = Z.max 0 (Z.log2 k + e - 52)).
  { unfold expo, ulp_exp. by rewrite Z.div_1_r, Hlog. }
  rewrite Hx. destruct (Z.eq_dec k (2 ^ 53)) as [->|].
  - rewrite <- Z.pow_add_r by lia. apply pow_divide. rewrite Z.log2_pow2 by lia. lia.
  - assert (Z.log2 k < 53) by (apply Z.log2_lt_pow2; lia). apply Z.divide_mul_r, pow_divide.
    pose proof (Z.log2_nonneg k). lia.
Qed.
Lemma is_float_fl x : is_float (fl x).
Proof.
  assert (H : forall y, (0 <= y)%Q -> is_float (fl y)).
  { intros y Hy. destruct y as [n d]. unfold Qle in Hy. cbn [Qnum Qden] in Hy.
    assert (E : (fl (n # d) == scaled (round_mag (n * 2 ^ 1074) (Zpos d)))%Q).
    { rewrite fl_value. unfold scaled, Qeq. cbn [Qnum Qden]. change (Zpos (2 ^ 1074)%positive) with (2 ^ 1074).
      rewrite unit_den_pos, Z.abs_eq by lia. f_equal. destruct (Z.eq_dec n 0) as [->|]; [|rewrite Z.sgn_pos; lia].
      rewrite Z.mul_0_l. symmetry. by apply (rhe_exact 0 (Zpos d * 2 ^ ulp_exp 0 (Zpos d))). }
    assert (HN : 0 <= n * 2 ^ 1074) by lia.
    pose proof (round_mag_nonneg (n * 2 ^ 1074) (Zpos d) HN ltac:(lia)).
    rewrite E. apply scaled_float; [done|]. unfold round_mag. apply pow_dyadic; [unfold ulp_exp; lia|].
    split; [|by apply round_mag_bound]. apply rhe_bound_lo; [|lia].
    apply Z.mul_pos_pos; [lia|]. apply Z.pow_pos_nonneg; [lia|]. unfold ulp_exp. lia. }
  destruct (Qlt_le_dec x 0) as [Hx|Hx]; [|by apply H].
  setoid_replace x with (- - x)%Q using relation Qeq by ring. rewrite fl_opp. apply is_float_opp, H. lra.
Qed.

(** ** Exact differences and exact rounding errors *)
Lemma dyadic_sub a b c : 0 <= a -> 0 <= b -> dyadic a -> dyadic b -> 0 <= c <= a -> c <= b -> (2 ^ expo c | b - a).
Proof.
  intros Ha Hb Da Db Hca Hcb. apply Z.divide_sub_r; [eapply Z.divide_trans; [|exact Db]|eapply Z.divide_trans; [|exact Da]];
    apply pow_divide; split; try apply expo_nonneg; apply expo_mono; lia.
Qed.
(** Sterbenz: the difference of two floats within a factor of two. *)
Lemma fsub_exact x y : (0 <= x)%Q -> is_float x -> is_float y -> (x <= y <= 2 * x)%Q -> is_float (y - x).
Proof.
  intros Hx Fx Fy [H1 H2]. destruct (float_scaled x Hx Fx) as (a & Ha & Ea & Da).
  destruct (float_scaled y ltac:(lra) Fy) as (b & Hb & Eb & Db). rewrite Ea, Eb in H1, H2 |- *.
  apply (proj1 (scaled_le _ _)) in H1. assert (H2' : (scaled b <= scaled (a + a))%Q) by (rewrite <- scaled_add; set (p := scaled a) in *; set (q := scaled b) in *; lra). apply (proj1 (scaled_le _ _)) in H2'.
  rewrite scaled_sub. apply scaled_float; [lia|]. unfold dyadic. apply dyadic_sub; try done; lia.
Qed.
Lemma double_float x : (0 <= x)%Q -> is_float x -> is_float (2 * x).
Proof.
  intros Hx Fx. destruct (float_scaled x Hx Fx) as (a & Ha & Ea & Da). rewrite Ea.
  setoid_replace (2 * scaled a)%Q with (scaled (a + a)) using relation Qeq by (rewrite <- scaled_add; ring).
  apply scaled_float; [lia|]. unfold dyadic. replace (a + a) with (a * 2) by lia.
  destruct (Z.eq_dec a 0) as [->|]; [apply Z.divide_0_r|].
  assert (He : expo (a * 2) <= expo a + 1).
  { unfold expo, ulp_exp. rewrite !Z.div_1_r. pose proof (Z.log2_mul_pow2 a 1 ltac:(lia) ltac:(lia)) as Hl. change (2 ^ 1) with 2 in Hl. lia. }
  eapply Z.divide_trans; [apply pow_divide; split; [apply expo_nonneg|exact He]|].
  rewrite Z.pow_add_r by (try apply expo_nonneg; lia). by apply Z.mul_divide_mono_r.
Qed.

(** The rounding error of an addition of non-negative floats is exact, and at most the smaller
    of the two. *)
Lemma round_error r x : 0 <= x <= r -> dyadic r -> dyadic x ->
  Z.abs (r + x - round_mag (r + x) 1) <= x /\ r <= round_mag (r + x) 1 <= 2 * r.
Proof.
  intros Hx Dr Dx. set (n := r + x).
  assert (Hlo : r <= round_mag n 1).
  { rewrite <- (proj2 (round_mag_dyadic r ltac:(lia)) Dr). apply round_mag_mono; lia. }
  assert (D2 : dyadic (2 * r)).
  { apply scaled_float; [lia|]. rewrite <- Z.add_diag, <- scaled_add.
    setoid_replace (scaled r + scaled r)%Q with (2 * scaled r)%Q using relation Qeq by ring.
    apply double_float; [apply scaled_nonneg; lia|apply scaled_float; [lia|done]]. }
  assert (Hhi : round_mag n 1 <= 2 * r).
  { rewrite <- (proj2 (round_mag_dyadic (2 * r) ltac:(lia)) D2). apply round_mag_mono; lia. }
  split; [|done]. unfold round_mag in *. cbv zeta in *. fold (expo n) in *. rewrite Z.mul_1_l in *.
  set (u := 2 ^ expo n) in *. assert (Hu : 0 < u) by apply pow_expo_pos.
  pose proof (rhe_lower n u Hu). pose proof (rhe_upper n u Hu).
  destruct (Z_le_gt_dec u (2 * x)) as [Hbig|Hsmall]; [nia|].
  (* [x] is less than half a unit: [r] is a multiple of the unit and the sum rounds to it *)
  assert (Hdiv : (u | r)).
  { destruct (Z.eq_dec (expo n) (expo r)) as [He|He]; [unfold u; rewrite He; exact Dr|]. exfalso.
    pose proof (expo_mono r n ltac:(lia)) as Hm. destruct (Z.eq_dec r 0) as [->|Hr0]; [replace n with 0 in He by lia; done|].
    pose proof (Z.log2_spec n ltac:(lia)) as [Hn1 Hn2]. set (L := Z.log2 n) in *.
    pose proof (Z.log2_nonneg n) as HL. fold L in HL.
    assert (En : expo n = Z.max 0 (L - 52)) by (unfold expo, ulp_exp; by rewrite Z.div_1_r).
    assert (Er : expo r = Z.max 0 (Z.log2 r - 52)) by (unfold expo, ulp_exp; by rewrite Z.div_1_r).
    assert (Hlr : L - 1 <= Z.log2 r).
    { apply Z.log2_le_pow2; [lia|]. assert (2 ^ L = 2 * 2 ^ (L - 1)) by (rewrite <- Z.pow_succ_r by lia; f_equal; lia). lia. }
    assert (Ev : 2 ^ L = 2 ^ 53 * 2 ^ expo r) by (rewrite <- Z.pow_add_r by lia; f_equal; lia).
    assert (Eu : u = 2 * 2 ^ expo r) by (unfold u; rewrite <- Z.pow_succ_r by lia; f_equal; lia).
    assert (Hrl : r < 2 ^ L) by (apply Z.log2_lt_pow2; lia).
    destruct Dr as [q Hq]. pose proof (pow_expo_pos r). assert (q < 2 ^ 53) by nia. nia. }
  destruct Hdiv as [q Hq]. replace (rhe n u) with q; [nia|].
    assert (Hd : n / u = q) by (symmetry; apply (Z.div_unique n u q x); lia).
  destruct (rhe_cases n u Hu) as [[? ?]|[? ?]]; rewrite Hd in *; nia.
Qed.
Lemma two_sum r x : (0 <= x <= r)%Q -> is_float r -> is_float x ->
  (r <= fadd r x <= 2 * r)%Q /\ (fadd (fsub r (fadd r x)) x == r + x - fadd r x)%Q.
Proof.
  intros [Hx Hxr] Fr Fx. destruct (float_scaled r ltac:(lra) Fr) as (a & Ha & Ea & Da).
  destruct (float_scaled x Hx Fx) as (b & Hb & Eb & Db).
  assert (Hba : b <= a) by (apply (proj1 (scaled_le b a)); rewrite <- Ea, <- Eb; exact Hxr).
  destruct (round_error a b ltac:(lia) Da Db) as [He Ht]. set (t := round_mag (a + b) 1) in *.
  assert (Et : (fadd r x == scaled t)%Q) by (unfold fadd; rewrite Ea, Eb, scaled_add; by apply fl_scaled; lia).
  assert (Hrt : (r <= fadd r x <= 2 * r)%Q).
  { rewrite Et, Ea. setoid_replace (2 * scaled a)%Q with (scaled (2 * a)) using relation Qeq
      by (rewrite <- Z.add_diag, <- scaled_add; ring). split; apply (proj2 (scaled_le _ _)); lia. }
  split; [done|]. assert (Hd : (fsub r (fadd r x) == r - fadd r x)%Q).
  { unfold fsub. change (is_float (r - fadd r x)). setoid_replace (r - fadd r x)%Q with (- (fadd r x - r))%Q using relation Qeq by ring.
    apply is_float_opp, fsub_exact; [lra|done|apply is_float_fl|done]. }
  unfold fadd at 1. rewrite Hd. setoid_replace (r - fadd r x + x)%Q with (r + x - fadd r x)%Q using relation Qeq by ring.
  change (is_float (r + x - fadd r x)). rewrite Et, Ea, Eb, scaled_add, scaled_sub.
  assert (Df : forall m, 0 <= m <= b -> (2 ^ expo b | m) -> is_float (scaled m)).
  { intros m Hm Hdiv. apply scaled_float; [lia|]. eapply Z.divide_trans; [|exact Hdiv].
    apply pow_divide. split; [apply expo_nonneg|apply expo_mono; lia]. }
  assert (Hdiv : (2 ^ expo b | a + b - t)).
  { assert (Dt : dyadic t) by (apply scaled_float; [lia|rewrite <- Et; apply is_float_fl]).
    apply Z.divide_sub_r; [apply Z.divide_add_r; [|exact Db]|].
    - eapply Z.divide_trans; [|exact Da]. apply pow_divide. split; [apply expo_nonneg|apply expo_mono; lia].
    - eapply Z.divide_trans; [|exact Dt]. apply pow_divide. split; [apply expo_nonneg|apply expo_mono; lia]. }
  destruct (Z_le_gt_dec 0 (a + b - t)) as [Hp|Hn]; [apply Df; [lia|done]|].
  setoid_replace (scaled (a + b - t)) with (- scaled (t - (a + b)))%Q using relation Qeq by (rewrite scaled_opp; f_equiv; lia).
  apply is_float_opp, Df; [lia|]. replace (t - (a + b)) with (- (a + b - t)) by lia. by apply Z.divide_opp_r.
Qed.

(** ** The compensated sum *)
(** After [k] items that are at most 1. *)
Record sum_inv (k : Z) (s : Q * Q) : Prop := {
  si_float : is_float (fst s);
  si_total : (0 <= fst s <= inject_Z k)%Q;
  si_low : (- fst s <= snd s)%Q;
  si_small : (snd s <= fst s)%Q;
  si_high : (snd s <= inject_Z k - fst s)%Q }.

Lemma fabs_nonneg x : (0 <= x)%Q -> fabs x = x.
Proof. intros H. unfold fabs. by rewrite (proj2 (fltb_ge x 0) H). Qed.

(** The new total and the new compensation, whichever item is the larger. *)
Lemma sum_step_eq r c x : (0 <= r)%Q -> (0 <= x)%Q -> is_float r -> is_float x ->
  exists e, sum_step (r, c) x = (fadd r x, fadd c e) /\ (e == r + x - fadd r x)%Q /\ (r <= fadd r x)%Q /\
    (e <= r)%Q /\ (e <= x)%Q.
Proof.
  intros Hr Hx Fr Fx. unfold sum_step. rewrite !fabs_nonneg by done. destruct (fleb x r) eqn:E.
  - apply fleb_spec in E. destruct (two_sum r x (conj Hx E) Fr Fx) as [[H1 H2] H3].
    exists (fadd (fsub r (fadd r x)) x). split_and!; [done|done|done|rewrite H3; lra|rewrite H3; lra].
  - assert (E' : (r <= x)%Q). { destruct (Qlt_le_dec x r) as [Hlt|]; [|done]. apply Qlt_le_weak, fleb_spec in Hlt. congruence. }
    destruct (two_sum x r (conj Hr E') Fx Fr) as [[H1 H2] H3].
    assert (Ec : (fadd r x == fadd x r)%Q) by (unfold fadd; apply fl_Proper; ring).
    exists (fadd (fsub x (fadd r x)) r).
    assert (H3' : (fadd (fsub x (fadd r x)) r == x + r - fadd x r)%Q).
    { rewrite <- H3. unfold fadd at 1 3. apply fl_Proper. f_equiv. unfold fsub. apply fl_Proper. by rewrite Ec. }
    split_and!; [done|rewrite H3', Ec; ring|rewrite Ec; lra|rewrite H3'; lra|rewrite H3'; lra].
Qed.
#[export] Instance fadd_Proper : Proper (Qeq ==> Qeq ==> Qeq) fadd.
Proof. intros x y E x' y' E'. unfold fadd. by rewrite E, E'. Qed.

Lemma sum_step_inv k s x : 0 <= k < 2 ^ 53 -> sum_inv k s -> is_float x -> (0 <= x <= 1)%Q -> sum_inv (k + 1) (sum_step s x).
Proof.
  intros Hk [Fr [Hr0 Hrk] Hlow Hsmall Hhigh] Fx [Hx0 Hx1]. destruct s as [r c]. cbn [fst snd] in *.
  destruct (sum_step_eq r c x Hr0 Hx0 Fr Fx) as (e & -> & He & Hrt & Her & Hex). set (t := fadd r x) in *.
  assert (Ek : (inject_Z (k + 1) == inject_Z k + 1)%Q) by (rewrite inject_Z_plus; reflexivity).
  assert (Ft : is_float t) by apply is_float_fl.
  assert (Hsum : (c + e <= r + x)%Q) by lra.
  assert (Ht : (t <= inject_Z (k + 1))%Q) by (apply fl_le_int; [lia|lra]).
  assert (Hct : (fadd c e <= t)%Q) by (unfold t, fadd; by apply fl_mono).
  split; cbn [fst snd]; [done|split; [lra|done]| |done|].
  - assert (Fn : is_float (- t)) by by apply is_float_opp. unfold is_float in Fn. rewrite <- Fn. apply fl_mono. lra.
  - destruct (Qlt_le_dec (inject_Z (k + 1)) (2 * t)) as [Hbig|Hbig]; [|lra].
    assert (Fd : is_float (inject_Z (k + 1) - t)) by (apply fsub_exact; [lra|done|apply is_float_int; lia|lra]).
    unfold is_float in Fd. rewrite <- Fd. apply fl_mono. lra.
Qed.
Lemma sum_fold_inv l : forall k s, 0 <= k -> k + Z.of_nat (length l) <= 2 ^ 53 -> sum_inv k s ->
  Forall (fun x => is_float x /\ (0 <= x <= 1)%Q) l -> sum_inv (k + Z.of_nat (length l)) (fold_left sum_step l s).
Proof.
  induction l as [|x l IH]; intros k s Hk Hlen Hs Hl; cbn [length fold_left] in *.
  - by replace (k + Z.of_nat 0) with k by lia.
  - inversion Hl as [|? ? [Fx Hx] Hl']; subst. replace (k + Z.of_nat (S (length l))) with (k + 1 + Z.of_nat (length l)) by lia.
    apply IH; [lia|lia|by apply sum_step_inv; [lia|..]|done].
Qed.

(** The sum of floats between 0 and 1 is between 0 and their number. *)
Lemma fsum_bounds l : Forall (fun x => is_float x /\ (0 <= x <= 1)%Q) l -> Z.of_nat (length l) <= 2 ^ 53 ->
  (0 <= fsum l <= inject_Z (Z.of_nat (length l)))%Q.
Proof.
  intros Hl Hlen. destruct l as [|x l]; [split; apply Qle_refl|].
  inversion Hl as [|? ? [Fx [Hx0 Hx1]] Hl']; subst. cbn [fsum length] in *.
  assert (Ex : (fadd 0 x == x)%Q). { unfold fadd. rewrite Qplus_0_l. exact Fx. }
  assert (Hi : sum_inv 1 (fadd 0 x, 0%Q)).
  { split; cbn [fst snd]; [apply is_float_fl|rewrite Ex; split; done|rewrite Ex; lra|rewrite Ex; lra|rewrite Ex; change (inject_Z 1) with 1%Q; lra]. }
  pose proof (sum_fold_inv l 1 _ ltac:(lia) ltac:(lia) Hi Hl') as Hf.
  replace (Z.of_nat (S (length l))) with (1 + Z.of_nat (length l)) by lia. set (k := 1 + Z.of_nat (length l)) in *.
  destruct (fold_left sum_step l _) as [r c]. destruct Hf as [_ [Hr0 Hrk] Hlow _ Hhigh]. cbn [fst snd] in *.
  destruct (Qeq_bool c 0); [done|]. unfold fadd. split; [apply fl_nonneg; lra|apply fl_le_int; [lia|lra]].
Qed.
Lemma is_float_fmin a b : is_float a -> is_float b -> is_float (fmin a b).
Proof. intros. unfold fmin. by destruct (fltb b a). Qed.
Lemma is_float_fsum l : is_float (fsum l).
Proof.
  destruct l as [|x l]; [by vm_compute|]. cbn [fsum].
  assert (H : forall s, is_float (fst s) -> is_float (fst (fold_left sum_step l s))).
  { induction l as [|y l IH]; intros [r c] Hs; [done|]. cbn [fold_left]. apply IH. unfold sum_step. cbn. apply is_float_fl. }
  specialize (H (fadd 0 x, 0%Q) (is_float_fl _)). destruct (fold_left _ _ _) as [r c]. cbn [fst] in H.
  destruct (Qeq_bool c 0); [done|apply is_float_fl].
Qed.
