(* ===== verification/PyStr.v ===== *)
(** * Python strings

    A [str] is modelled by a Rocq [string] of ASCII characters. The functions
    below are the [str] methods and regular-expression shapes the source uses. *)
From S2P Require Import Prelude PyFloat.
From Stdlib Require Import Ascii String.
#[local] Open Scope string_scope.
#[local] Open Scope Z_scope.

(** ** Character classes *)
Definition code (c : ascii) : Z := Z.of_N (N_of_ascii c).
Definition in_range (lo hi : Z) (c : ascii) : bool := (lo <=? code c) && (code c <=? hi).

(** [str.isspace] and [\s] on ASCII: tab to carriage return, the four
    information separators, and the blank. *)
Definition is_space (c : ascii) : bool :=
  in_range 9 13 c || in_range 28 31 c || (code c =? 32).
Definition is_upper (c : ascii) : bool := in_range 65 90 c.
Definition is_lower (c : ascii) : bool := in_range 97 122 c.
Definition is_digit (c : ascii) : bool := in_range 48 57 c.
Definition is_alnum (c : ascii) : bool := is_upper c || is_lower c || is_digit c.
(** [\w] *)
Definition is_word (c : ascii) : bool := is_alnum c || (code c =? 95).

Definition char_lower (c : ascii) : ascii :=
  if is_upper c then ascii_of_N (N_of_ascii c + 32) else c.
Definition char_upper (c : ascii) : ascii :=
  if is_lower c then ascii_of_N (N_of_ascii c - 32) else c.

Fixpoint str_map (f : ascii -> ascii) (s : string) : string :=
  match s with
  | "" => ""
  | String c s' => String (f c) (str_map f s')
  end.
Definition lower : string -> string := str_map char_lower.
Definition upper : string -> string := str_map char_upper.

(** ** Stripping *)
Fixpoint lstrip_by (p : ascii -> bool) (s : string) : string :=
  match s with
  | String c s' => if p c then lstrip_by p s' else s
  | "" => ""
  end.
Fixpoint rstrip_by (p : ascii -> bool) (s : string) : string :=
  match s with
  | "" => ""
  | String c s' =>
      match rstrip_by p s' with
      | "" => if p c then "" else String c ""
      | r => String c r
      end
  end.
Definition lstrip : string -> string := lstrip_by is_space.
Definition rstrip : string -> string := rstrip_by is_space.
Definition strip (s : string) : string := rstrip (lstrip s).

Definition is_empty (s : string) : bool := match s with "" => true | _ => false end.

(** ** Searching *)
Fixpoint startswith (pre s : string) : bool :=
  match pre, s with
  | "", _ => true
  | String a pre', String b s' => Ascii.eqb a b && startswith pre' s'
  | _, "" => false
  end.

(** [s[n:]] *)
Fixpoint drop_str (n : nat) (s : string) : string :=
  match n, s with
  | O, _ => s
  | S n', String _ s' => drop_str n' s'
  | S _, "" => ""
  end.
(** [s[:n]] *)
Fixpoint take_str (n : nat) (s : string) : string :=
  match n, s with
  | S n', String c s' => String c (take_str n' s')
  | _, _ => ""
  end.

(** [pat in s] *)
Fixpoint contains (pat s : string) : bool :=
  startswith pat s || match s with "" => false | String _ s' => contains pat s' end.

(** [re.search]: the leftmost position where the anchored matcher [m] succeeds. *)
Fixpoint re_search {A} (m : string -> option A) (s : string) : option A :=
  match m s with
  | Some a => Some a
  | None => match s with "" => None | String _ s' => re_search m s' end
  end.

(** The shortest prefix of [s] that is followed by [stop]: [(.*?)stop]. *)
Fixpoint lazy_until (stop s : string) : option string :=
  if startswith stop s then Some ""
  else match s with
       | "" => None
       | String c s' => String c <$> lazy_until stop s'
       end.

(** [str.replace] of a non-empty [old] by [new]: left to right, no overlap.
    [fuel] bounds the number of characters looked at; the length is enough. *)
Fixpoint replace_fuel (fuel : nat) (old new s : string) : string :=
  match fuel with
  | O => s
  | S fuel' =>
      match s with
      | "" => ""
      | String c s' =>
          if startswith old s
          then new ++ replace_fuel fuel' old new (drop_str (String.length old) s)
          else String c (replace_fuel fuel' old new s')
      end
  end.
Definition replace (old new s : string) : string := replace_fuel (String.length s) old new s.

(** [str.split()]: maximal runs of non-space characters. *)
Fixpoint split_ws_acc (cur : string) (s : string) : list string :=
  match s with
  | "" => if is_empty cur then [] else [cur]
  | String c s' =>
      if is_space c then (if is_empty cur then split_ws_acc "" s' else cur :: split_ws_acc "" s')
      else split_ws_acc (cur ++ String c "") s'
  end.
Definition split_ws (s : string) : list string := split_ws_acc "" s.

(** [sep.join(parts)] *)
Fixpoint join (sep : string) (parts : list string) : string :=
  match parts with
  | [] => ""
  | [p] => p
  | p :: parts' => p ++ sep ++ join sep parts'
  end.

(** [s.split(sep, 1)[0]] for a one-character separator. *)
Fixpoint before_char (sep : ascii) (s : string) : string :=
  match s with
  | "" => ""
  | String c s' => if Ascii.eqb c sep then "" else String c (before_char sep s')
  end.

(** [str <]: lexicographic on code points. *)
Definition str_ltb (s t : string) : bool := String.ltb s t.

(** ** Formatting *)
Definition show_Z (z : Z) : string := pretty z.
Definition show_nat (n : nat) : string := pretty n.
(** [{x:.2f}] of a float that is not negative. *)
Definition format_2f (x : Q) : string :=
  let n := rhe (Qnum x * 100) (Zpos (Qden x)) in
  show_Z (n / 100) ++ "." ++ show_Z (n mod 100 / 10) ++ show_Z (n mod 10).


Definition newline : ascii := ascii_of_nat 10.
Definition nl : string := String newline "".

Definition hex_digit (n : Z) : ascii := ascii_of_N (Z.to_N (if n <? 10 then 48 + n else 87 + n)).
Definition quote : ascii := ascii_of_nat 39.
Definition dquote : ascii := ascii_of_nat 34.
Definition backslash : ascii := ascii_of_nat 92.
Definition repr_char (q c : ascii) : string :=
  if Ascii.eqb c q || Ascii.eqb c backslash then String backslash (String c "")
  else if code c =? 9 then String backslash "t"
  else if code c =? 10 then String backslash "n"
  else if code c =? 13 then String backslash "r"
  else if (code c <? 32) || (code c =? 127)
  then String backslash (String "x" (String (hex_digit (code c / 16))
         (String (hex_digit (code c mod 16)) "")))
  else String c "".
Fixpoint repr_body (q : ascii) (s : string) : string :=
  match s with "" => "" | String c s' => repr_char q c ++ repr_body q s' end.
(** [{s!r}]: single quotes, unless the text has one and no double quote. *)
Definition repr (s : string) : string :=
  let q := if contains (String quote "") s && negb (contains (String dquote "") s)
           then dquote else quote in
  String q (repr_body q s ++ String q "").

(** The order in which Python iterates a [set] of strings is unspecified. *)
Class PySet := {
  set_iter : list string -> list string;
  set_iter_perm : forall l, set_iter l ≡ₚ dedup l }.

(** ** Lemmas *)
Lemma length_app_str s t : String.length (s ++ t) = (String.length s + String.length t)%nat.
Proof. induction s; simpl; auto. Qed.
Lemma app_str_cons c s t : String c s ++ t = String c (s ++ t).
Proof. done. Qed.
Lemma app_str_nil_r s : s ++ "" = s.
Proof. induction s as [|c s IH]; [done|]. by rewrite app_str_cons, IH. Qed.
Lemma app_str_assoc s t u : (s ++ t) ++ u = s ++ t ++ u.
Proof. induction s as [|c s IH]; [done|]. by rewrite !app_str_cons, IH. Qed.
Lemma length_take_str n s : (String.length (take_str n s) <= n)%nat.
Proof. revert s. induction n; intros [|c s]; simpl; try lia. specialize (IHn s). lia. Qed.
Lemma length_rstrip_by p s : (String.length (rstrip_by p s) <= String.length s)%nat.
Proof.
  induction s as [|c s IH]; simpl; [lia|].
  destruct (rstrip_by p s); simpl in *; [destruct (p c); simpl; lia|lia].
Qed.
Lemma is_empty_true s : is_empty s = true <-> s = "".
Proof. destruct s; split; simpl; congruence. Qed.
Lemma is_empty_false s : is_empty s = false <-> s <> "".
Proof. destruct s; split; simpl; congruence. Qed.

Lemma rstrip_by_idem p s : rstrip_by p (rstrip_by p s) = rstrip_by p s.
Proof.
  induction s as [|c s IH]; simpl; [done|].
  destruct (rstrip_by p s) as [|c' r] eqn:E.
  - destruct (p c) eqn:Ep; simpl; [done|]. by rewrite Ep.
  - change (rstrip_by p (String c (String c' r))) with
      (match rstrip_by p (String c' r) with
       | "" => if p c then "" else String c ""
       | r0 => String c r0 end).
    by rewrite IH.
Qed.
Lemma lstrip_by_idem p s : lstrip_by p (lstrip_by p s) = lstrip_by p s.
Proof. induction s as [|c s IH]; simpl; [done|]. destruct (p c) eqn:E; simpl; [done|by rewrite E]. Qed.
(** A string that starts with a kept character still does after [rstrip]. *)
Lemma rstrip_by_cons p q c s :
  q c = false -> lstrip_by q (rstrip_by p (String c s)) = rstrip_by p (String c s).
Proof.
  intros Hq. simpl. destruct (rstrip_by p s); simpl; [destruct (p c); simpl; by rewrite ?Hq|by rewrite Hq].
Qed.
Lemma lstrip_by_head p s : lstrip_by p s = "" \/ exists c s', lstrip_by p s = String c s' /\ p c = false.
Proof. induction s as [|c s IH]; simpl; [auto|]. destruct (p c) eqn:E; [done|eauto]. Qed.
Lemma lstrip_rstrip_lstrip p q s :
  lstrip_by p (rstrip_by q (lstrip_by p s)) = rstrip_by q (lstrip_by p s).
Proof.
  destruct (lstrip_by_head p s) as [->|(c & s' & -> & Hc)]; [done|]. by apply rstrip_by_cons.
Qed.
Lemma strip_idem s : strip (strip s) = strip s.
Proof. unfold strip, lstrip, rstrip. by rewrite lstrip_rstrip_lstrip, rstrip_by_idem. Qed.

(** The last character of a string. *)
Fixpoint last_char (s : string) : option ascii :=
  match s with "" => None | String c "" => Some c | String _ s' => last_char s' end.
Lemma rstrip_by_last p s c : last_char (rstrip_by p s) = Some c -> p c = false.
Proof.
  induction s as [|a s IH]; simpl; [done|].
  destruct (rstrip_by p s) as [|b r]; [destruct (p a) eqn:E; simpl; congruence|].
  exact IH.
Qed.
Lemma rstrip_by_id p s : (forall c, last_char s = Some c -> p c = false) -> rstrip_by p s = s.
Proof.
  induction s as [|a s IH]; simpl; [done|]. intros H. destruct s as [|b s'].
  - simpl. by rewrite (H a).
  - rewrite IH; [done|]. exact H.
Qed.
Lemma last_char_app s c : last_char (s ++ String c "") = Some c.
Proof.
  induction s as [|a s IH]; [done|]. rewrite app_str_cons. simpl. rewrite IH.
  by destruct s.
Qed.
Lemma rstrip_by_app_kept p s c : p c = false -> rstrip_by p (s ++ String c "") = s ++ String c "".
Proof. intros Hc. apply rstrip_by_id. intros c'. rewrite last_char_app. congruence. Qed.
Lemma rstrip_by_app_dropped p s c :
  p c = true -> rstrip_by p (s ++ String c "") = rstrip_by p s.
Proof.
  intros Hc. induction s as [|a s IH]; [simpl; by rewrite Hc|].
  rewrite app_str_cons. simpl. by rewrite IH.
Qed.

(** ** [int(s)] of a decimal text *)
(** Digits, single underscores between them. *)
Fixpoint int_digits (acc : Z) (s : string) : option Z :=
  match s with
  | "" => Some acc
  | String c s' =>
      if is_digit c then int_digits (10 * acc + (code c - 48)) s'
      else if code c =? 95
      then match s' with
           | String d _ => if is_digit d then int_digits acc s' else None
           | "" => None
           end
      else None
  end.
Definition int_unsigned (s : string) : option Z :=
  match s with String c _ => if is_digit c then int_digits 0 s else None | "" => None end.
Definition py_int (s : string) : option Z :=
  match strip s with
  | String c s' => if code c =? 45 then Z.opp <$> int_unsigned s'
                   else if code c =? 43 then int_unsigned s' else int_unsigned (String c s')
  | "" => None
  end.

Fixpoint all_chars (p : ascii -> bool) (s : string) : bool :=
  match s with "" => true | String c s' => p c && all_chars p s' end.
Lemma lstrip_by_none p s : all_chars (fun c => negb (p c)) s = true -> lstrip_by p s = s.
Proof. destruct s as [|c s]; simpl; [done|]. by destruct (p c). Qed.
Lemma rstrip_by_none p s : all_chars (fun c => negb (p c)) s = true -> rstrip_by p s = s.
Proof.
  induction s as [|c s IH]; simpl; [done|]. intros [Hc Hs]%andb_true_iff. rewrite (IH Hs).
  destruct s; [|done]. by destruct (p c).
Qed.
Lemma all_chars_impl (p q : ascii -> bool) s :
  (forall c, p c = true -> q c = true) -> all_chars p s = true -> all_chars q s = true.
Proof.
  intros Hpq. induction s as [|c s IH]; simpl; [done|]. intros [Hc Hs]%andb_true_iff.
  by rewrite (Hpq _ Hc), (IH Hs).
Qed.
Lemma strip_none s : all_chars (fun c => negb (is_space c)) s = true -> strip s = s.
Proof. intros Hs. unfold strip, lstrip, rstrip. by rewrite lstrip_by_none, rstrip_by_none. Qed.

Lemma pretty_char_digit n : (n < 10)%N ->
  is_digit (pretty_N_char n) = true /\ code (pretty_N_char n) = 48 + Z.of_N n.
Proof.
  intros Hn. assert (Hc : n ∈ [0; 1; 2; 3; 4; 5; 6; 7; 8; 9]%N) by (repeat rewrite elem_of_cons; lia).
  repeat (apply elem_of_cons in Hc as [->|Hc]; [by vm_compute|]). set_solver.
Qed.
Lemma pretty_N_go_0 s : pretty_N_go 0 s = s.
Proof. reflexivity. Qed.
Lemma pretty_N_go_digits n s :
  all_chars is_digit s = true -> all_chars is_digit (pretty_N_go n s) = true.
Proof.
  revert s. induction (N.lt_wf_0 n) as [n _ IH]. intros s Hs.
  destruct (decide (n = 0)%N) as [->|Hn]; [done|]. rewrite pretty_N_go_step by lia.
  apply IH; [by apply N.div_lt; lia|]. simpl.
  destruct (pretty_char_digit (n `mod` 10)) as [-> _]; [by apply N.mod_lt|done].
Qed.
Lemma int_digits_pretty n s : int_digits 0 (pretty_N_go n s) = int_digits (Z.of_N n) s.
Proof.
  revert s. induction (N.lt_wf_0 n) as [n _ IH]. intros s.
  destruct (decide (n = 0)%N) as [->|Hn]; [done|]. rewrite pretty_N_go_step by lia.
  rewrite IH by (apply N.div_lt; lia). cbn [int_digits].
  destruct (pretty_char_digit (n `mod` 10)) as [-> ->]; [by apply N.mod_lt|]. f_equal.
  pose proof (N.div_mod' n 10) as Hdm. remember (n / 10)%N as a. remember (n `mod` 10)%N as b. lia.
Qed.
Lemma pretty_N_go_nonempty n s : (0 < n)%N -> exists c s', pretty_N_go n s = String c s'.
Proof.
  revert s. induction (N.lt_wf_0 n) as [n _ IH]. intros s Hn. rewrite pretty_N_go_step by lia.
  destruct (decide (n / 10 = 0)%N) as [->|Hd]; [by eexists _, _|].
  apply IH; [by apply N.div_lt; lia|by apply N.neq_0_lt_0].
Qed.
Lemma pretty_N_spec n : all_chars is_digit (pretty (n : N)) = true /\
  int_unsigned (pretty n) = Some (Z.of_N n) /\ exists c s, pretty n = String c s.
Proof.
  destruct (decide (n = 0)%N) as [->|Hn]; [by vm_compute; eauto|].
  assert (Hp : pretty n = pretty_N_go n "").
  { unfold pretty, pretty_N. by rewrite decide_False by lia. }
  pose proof (pretty_N_go_digits n "" eq_refl) as Hd.
  destruct (pretty_N_go_nonempty n "") as (c & s' & Hs); [lia|].
  rewrite Hp. split_and!; [done| |eauto]. unfold int_unsigned. rewrite Hs.
  rewrite Hs in Hd. simpl in Hd. apply andb_true_iff in Hd as [-> _].
  rewrite <- Hs. apply int_digits_pretty.
Qed.
Lemma digit_not_space c : is_digit c = true -> negb (is_space c) = true.
Proof.
  unfold is_digit, is_space, in_range. intros [H1 H2]%andb_true_iff.
  apply Z.leb_le in H1, H2. apply negb_true_iff, not_true_iff_false.
  rewrite !orb_true_iff, !andb_true_iff, !Z.leb_le, Z.eqb_eq. lia.
Qed.
Lemma py_int_show z : py_int (show_Z z) = Some z.
Proof.
  unfold show_Z. destruct z as [|p|p]; [done| |].
  - change (pretty (Z.pos p)) with (pretty (N.pos p)).
    destruct (pretty_N_spec (N.pos p)) as (Hd & Hi & c & s & Hs). unfold py_int.
    rewrite strip_none by (eapply all_chars_impl; [apply digit_not_space|done]).
    rewrite Hs in *. simpl in Hd. apply andb_true_iff in Hd as [Hd _]. unfold is_digit, in_range in Hd.
    apply andb_true_iff in Hd as [H1 H2]. apply Z.leb_le in H1, H2.
    destruct (Z.eqb_spec (code c) 45); [lia|]. destruct (Z.eqb_spec (code c) 43); [lia|done].
  - change (pretty (Z.neg p)) with (String "-" (pretty (N.pos p))).
    destruct (pretty_N_spec (N.pos p)) as (Hd & Hi & c & s & Hs). unfold py_int.
    rewrite strip_none. 2: { cbn [all_chars]. eapply all_chars_impl in Hd; [|apply digit_not_space]. by rewrite Hd. }
    cbv [code]. simpl Z.of_N. simpl. by rewrite Hi.
Qed.

(** [str <] is a strict total order. *)
Lemma str_ltb_cons a x b y :
  str_ltb (String a x) (String b y) = (N_of_ascii a <? N_of_ascii b)%N || ((N_of_ascii a =? N_of_ascii b)%N && str_ltb x y).
Proof.
  unfold str_ltb, String.ltb. cbn [String.compare]. unfold Ascii.compare.
  destruct (N.compare_spec (N_of_ascii a) (N_of_ascii b)) as [E|L|G].
  - rewrite E, N.ltb_irrefl, N.eqb_refl. by destruct (String.compare x y).
  - by rewrite (proj2 (N.ltb_lt _ _) L).
  - rewrite (proj2 (N.ltb_ge _ _)) by lia. by rewrite (proj2 (N.eqb_neq _ _)) by lia.
Qed.
Lemma N_of_ascii_inj a b : N_of_ascii a = N_of_ascii b -> a = b.
Proof. intros E. by rewrite <- (ascii_N_embedding a), <- (ascii_N_embedding b), E. Qed.
Lemma str_ltb_asym x y : str_ltb x y = true -> str_ltb y x = false.
Proof.
  revert y. induction x as [|a x IH]; intros [|b y]; [done..|]. rewrite !str_ltb_cons, orb_true_iff, orb_false_iff, andb_true_iff, andb_false_iff.
  rewrite N.ltb_lt, N.eqb_eq, N.ltb_ge, N.eqb_neq. intros [H|[E H]]; [split; [lia|left; lia]|]. split; [lia|right; by apply IH].
Qed.
Lemma str_geb_trans x y z : str_ltb y x = false -> str_ltb z y = false -> str_ltb z x = false.
Proof.
  revert y z. induction x as [|a x IH]; intros [|b y] [|c z]; try done.
  rewrite !str_ltb_cons, !orb_false_iff, !andb_false_iff, !N.ltb_ge, !N.eqb_neq.
  intros [H1 [H1'|H1']] [H2 [H2'|H2']]; (split; [lia|]); try (left; lia).
  destruct (N.eq_dec (N_of_ascii c) (N_of_ascii a)); [right; by apply (IH y)|by left].
Qed.
Lemma str_antisym x y : str_ltb x y = false -> str_ltb y x = false -> x = y.
Proof.
  revert y. induction x as [|a x IH]; intros [|b y]; [done..|].
  rewrite !str_ltb_cons, !orb_false_iff, !andb_false_iff, !N.ltb_ge, !N.eqb_neq. intros [H1 [H1'|H1']] [H2 [H2'|H2']]; try lia.
  f_equal; [apply N_of_ascii_inj; lia|by apply IH].
Qed.
