(* ===== verification/Difflib.v ===== *)
(** * [difflib.SequenceMatcher.ratio]

    The matching blocks of the standard library: the longest common block that starts
    earliest in the first text, then the same to its left and right. Characters that are
    popular in a second text of 200 characters or more start no block ([autojunk]). *)
From S2P Require Import Prelude PyFloat PyStr.
From Stdlib Require Import Ascii.
#[local] Open Scope Z_scope.

Section Matcher.
Context {A : Type} `{EqDecision A}.
Context (popular : A -> bool).

(** A block: where it starts in [a] and in [b], and its length. *)
Record Block := { b_i : nat; b_j : nat; b_size : nat }.

(** One row of the table: [lens] are the lengths ending at the previous row, shifted by
    one column; the best block so far is replaced by strictly longer ones only. *)
Fixpoint match_row (x : A) (i j : nat) (b : list A) (lens : list nat) (best : Block) : list nat * Block :=
  match b, lens with
  | y :: b', prev :: lens' =>
      let k := if bool_decide (x = y) && negb (popular y) then S prev else O in
      let best' := if (b_size best <? k)%nat
                   then {| b_i := S i - k; b_j := S j - k; b_size := k |} else best in
      let '(row, best'') := match_row x i (S j) b' lens' best' in
      (k :: row, best'')
  | _, _ => ([], best)
  end.
Fixpoint match_rows (i : nat) (a b : list A) (lens : list nat) (best : Block) : Block :=
  match a with
  | [] => best
  | x :: a' => let '(row, best') := match_row x i 0 b (0%nat :: lens) best in match_rows (S i) a' b row best'
  end.

(** The block is extended over popular characters on both sides. *)
Fixpoint common_prefix (a b : list A) : nat :=
  match a, b with
  | x :: a', y :: b' => if decide (x = y) then S (common_prefix a' b') else O
  | _, _ => O
  end.
Definition find_longest_match (a b : list A) : Block :=
  let m := match_rows 0 a b (repeat 0%nat (length b)) {| b_i := 0; b_j := 0; b_size := 0 |} in
  let left := common_prefix (rev (take (b_i m) a)) (rev (take (b_j m) b)) in
  let right := common_prefix (drop (b_i m + b_size m) a) (drop (b_j m + b_size m) b) in
  {| b_i := b_i m - left; b_j := b_j m - left; b_size := left + b_size m + right |}.

(** The characters in matching blocks; [fuel] bounds the depth, the length of [a] is
    enough. *)
Fixpoint matches (fuel : nat) (a b : list A) : nat :=
  match fuel with
  | O => O
  | S fuel' =>
      let m := find_longest_match a b in
      if (b_size m =? 0)%nat then O
      else (b_size m + matches fuel' (take (b_i m) a) (take (b_j m) b)
            + matches fuel' (drop (b_i m + b_size m) a) (drop (b_j m + b_size m) b))%nat
  end.
End Matcher.

(** [len(b) >= 200]: popular is what occurs more than [len(b) // 100 + 1] times. *)
Definition autojunk (b : list ascii) (y : ascii) : bool :=
  (200 <=? length b)%nat && (length b / 100 + 1 <? length (List.filter (fun z => bool_decide (z = y)) b))%nat.
Definition ratio (a b : string) : Q :=
  let la := String.list_ascii_of_string a in
  let lb := String.list_ascii_of_string b in
  let length_ := (length la + length lb)%nat in
  if (length_ =? 0)%nat then 1%Q
  else fdiv (fmul 2 (f_of_Z (Z.of_nat (matches (autojunk lb) (length la) la lb)))) (f_of_Z (Z.of_nat length_)).

(** ** Lemmas: blocks lie inside both texts *)
Section Bounds.
Context {A : Type} `{EqDecision A}.
Context (popular : A -> bool).

Definition within (n m : nat) (x : Block) : Prop := (b_i x + b_size x <= n)%nat /\ (b_j x + b_size x <= m)%nat.
(** The lengths that end before column [j + idx] of row [i]. *)
Definition row_ok (i j : nat) (lens : list nat) : Prop :=
  forall idx v, lens !! idx = Some v -> (v <= i)%nat /\ (v <= j + idx)%nat.

Lemma match_row_ok x i j b lens best n m :
  (S i <= n)%nat -> (j + length b <= m)%nat -> row_ok i j lens -> within n m best ->
  row_ok (S i) (S j) (fst (match_row popular x i j b lens best)) /\
  within n m (snd (match_row popular x i j b lens best)).
Proof.
  revert j lens best. induction b as [|y b IH]; intros j lens best Hi Hj Hl Hb; [done|].
  destruct lens as [|prev lens]; [done|]. simpl in Hj |- *.
  pose proof (Hl 0%nat prev eq_refl) as [Hp1 Hp2].
  set (k := if bool_decide (x = y) && negb (popular y) then S prev else O).
  assert (Hk : (k <= S i)%nat /\ (k <= S j)%nat) by (unfold k; destruct (_ && _); lia).
  set (best' := if (b_size best <? k)%nat then _ else best).
  assert (Hb' : within n m best').
  { unfold best'. destruct (b_size best <? k)%nat; [|done]. split; simpl; lia. }
  destruct (IH (S j) lens best') as [H1 H2]; [done|lia| |done|].
  { intros idx v Hv. destruct (Hl (S idx) v Hv). lia. }
  destruct (match_row popular x i (S j) b lens best') as [row best'']. simpl in *. split; [|done].
  intros [|idx] v Hv; simpl in Hv; [simplify_eq; lia|]. destruct (H1 idx v Hv). lia.
Qed.
Lemma match_rows_ok i a b lens best n m :
  (i + length a <= n)%nat -> (length b <= m)%nat -> row_ok i 1 lens -> within n m best ->
  within n m (match_rows popular i a b lens best).
Proof.
  revert i lens best. induction a as [|x a IH]; intros i lens best Hi Hb Hl Hw; [done|]. simpl in *.
  destruct (match_row_ok x i 0 b (0%nat :: lens) best n m) as [H1 H2]; [lia|lia| |done|].
  { intros [|idx] v Hv; simpl in Hv; [simplify_eq; lia|]. destruct (Hl idx v Hv). lia. }
  destruct (match_row popular x i 0 b (0%nat :: lens) best) as [row best']. apply IH; [lia|done|done|done].
Qed.
Lemma common_prefix_le (a b : list A) : (common_prefix a b <= length a)%nat /\ (common_prefix a b <= length b)%nat.
Proof.
  revert b. induction a as [|x a IH]; intros [|y b]; simpl; try lia. destruct (decide (x = y)); [|lia].
  destruct (IH b). lia.
Qed.
Lemma find_longest_within a b : within (length a) (length b) (find_longest_match popular a b).
Proof.
  unfold find_longest_match.
  assert (Hm : within (length a) (length b)
    (match_rows popular 0 a b (repeat 0%nat (length b)) {| b_i := 0; b_j := 0; b_size := 0 |})).
  { apply match_rows_ok; [lia|lia| |split; simpl; lia].
    intros idx v Hv. apply list_elem_of_lookup_2, list_elem_of_In, repeat_spec in Hv. lia. }
  destruct (match_rows _ _ _ _ _ _) as [i j k]. destruct Hm as [H1 H2]. simpl in *.
  destruct (common_prefix_le (rev (take i a)) (rev (take j b))) as [L1 L2].
  destruct (common_prefix_le (drop (i + k) a) (drop (j + k) b)) as [R1 R2].
  rewrite length_rev, length_take in L1, L2. rewrite length_drop in R1, R2. split; simpl; lia.
Qed.
Lemma matches_le fuel a b : (matches popular fuel a b <= length a)%nat /\ (matches popular fuel a b <= length b)%nat.
Proof.
  revert a b. induction fuel as [|fuel IH]; intros a b; [simpl; lia|].
  change (matches popular (S fuel) a b) with
    (let m := find_longest_match popular a b in
     if (b_size m =? 0)%nat then O
     else (b_size m + matches popular fuel (take (b_i m) a) (take (b_j m) b)
           + matches popular fuel (drop (b_i m + b_size m) a) (drop (b_j m + b_size m) b))%nat).
  cbv zeta. destruct (find_longest_within a b) as [H1 H2].
  set (x := find_longest_match popular a b) in *. destruct (b_size x =? 0)%nat; [lia|].
  destruct (IH (take (b_i x) a) (take (b_j x) b)) as [L1 L2].
  destruct (IH (drop (b_i x + b_size x) a) (drop (b_j x + b_size x) b)) as [R1 R2].
  rewrite length_take in L1, L2. rewrite length_drop in R1, R2. lia.
Qed.
End Bounds.

(** The similarity of two texts of ordinary size is a number between 0 and 1. *)
Lemma ratio_bounds a b :
  Z.of_nat (length (String.list_ascii_of_string a) + length (String.list_ascii_of_string b)) <= 2 ^ 53 ->
  (0 <= ratio a b <= 1)%Q.
Proof.
  intros Hlen. unfold ratio. cbv zeta.
  set (la := String.list_ascii_of_string a) in *. set (lb := String.list_ascii_of_string b) in *.
  destruct (matches_le (autojunk lb) (length la) la lb) as [H1 H2].
  set (m := matches (autojunk lb) (length la) la lb) in *.
  destruct (Nat.eqb_spec (length la + length lb) 0); [split; [|apply Qle_refl]; unfold Qle; simpl; lia|].
  unfold f_of_Z. set (t := Z.of_nat (length la + length lb)) in *.
  assert (Ht : (fl (inject_Z t) == inject_Z t)%Q) by (apply fl_int; lia).
  assert (Hm : (fl (inject_Z (Z.of_nat m)) == inject_Z (Z.of_nat m))%Q) by (apply fl_int; lia).
  assert (Hpos : (0 < fl (inject_Z t))%Q) by (rewrite Ht; change 0%Q with (inject_Z 0); rewrite <- Zlt_Qlt; lia).
  assert (Hnn : (0 <= fmul 2 (fl (inject_Z (Z.of_nat m))))%Q).
  { apply fmul_nonneg; [unfold Qle; simpl; lia|]. rewrite Hm. change 0%Q with (inject_Z 0). rewrite <- Zle_Qle. lia. }
  split; [by apply fdiv_nonneg|].
  unfold fdiv. change 1%Q with (inject_Z 1). apply fl_le_int; [lia|]. apply Qle_shift_div_r; [done|].
  rewrite Qmult_1_l, Ht. apply fl_le_int; [lia|]. rewrite Hm. change 2%Q with (inject_Z 2).
  rewrite <- inject_Z_mult, <- Zle_Qle. lia.
Qed.
