(* ===== verification/Auth.v ===== *)
(** * Authentication and authorization ([querymind.auth])

    The tables, the repository, JWT issuance and validation, API keys and
    [AuthenticationService]. Every repository method is one transaction and one
    atomic step; the service's methods are coroutines over them. PyJWT, the password
    hashers, SHA-256 and the random sources are parameters. *)
From S2P Require Import Prelude AsyncIO PyStr.
#[local] Open Scope string_scope.
#[local] Open Scope Z_scope.

(** ** [exceptions.py], and what else may be raised *)
Inductive auth_exn :=
| InvalidCredentialsError (msg : string)
| InactiveUserError (msg : string)
| DuplicateUserError (msg : string)
| InvalidTokenError (msg : string)
| TokenExpiredError (msg : string)
| RefreshTokenRevokedError (msg : string)
| InvalidApiKeyError (msg : string)
| ApiKeyExpiredError (msg : string)
| ApiKeyRevokedError (msg : string)
| ApiKeyNotFoundError (msg : string)
| ForbiddenRoleError (msg : string)
| InsufficientPermissionsError (msg : string)
| IntegrityError
| AuthOther (cls msg : string).

(** ** [models.py] *)
Inductive UserRole := ADMIN | ANALYST | VIEWER.
#[export] Instance UserRole_eq_dec : EqDecision UserRole.
Proof. solve_decision. Defined.
Definition UserRole_value (r : UserRole) : string :=
  match r with ADMIN => "admin" | ANALYST => "analyst" | VIEWER => "viewer" end.

(** Times are microseconds since the epoch. *)
Record User := {
  u_id : Z; u_username : string; u_email : string; u_password_hash : string;
  u_is_active : bool; u_is_superuser : bool; u_role : UserRole;
  u_created_at : Z; u_updated_at : Z }.
Record RefreshToken := { rt_user_id : Z; rt_jti : string; rt_expires_at : Z; rt_revoked : bool }.
Record ApiKey := {
  k_id : Z; k_user_id : Z; k_prefix : string; k_hash : string; k_name : string;
  k_created_at : Z; k_expires_at : option Z; k_last_used_at : option Z; k_revoked_at : option Z }.

(** The three tables, the wall clock, and how many identities and random values
    were drawn so far. *)
Record AuthDb := {
  users : gmap Z User;
  refresh_tokens : gmap string RefreshToken;
  api_keys : gmap Z ApiKey;
  now : Z;
  next_id : Z;
  draws : nat }.
Definition with_users (m : gmap Z User) (w : AuthDb) : AuthDb :=
  {| users := m; refresh_tokens := refresh_tokens w; api_keys := api_keys w; now := now w;
     next_id := next_id w; draws := draws w |}.
Definition with_tokens (m : gmap string RefreshToken) (w : AuthDb) : AuthDb :=
  {| users := users w; refresh_tokens := m; api_keys := api_keys w; now := now w;
     next_id := next_id w; draws := draws w |}.
Definition with_keys (m : gmap Z ApiKey) (w : AuthDb) : AuthDb :=
  {| users := users w; refresh_tokens := refresh_tokens w; api_keys := m; now := now w;
     next_id := next_id w; draws := draws w |}.
Definition with_next (w : AuthDb) : AuthDb :=
  {| users := users w; refresh_tokens := refresh_tokens w; api_keys := api_keys w; now := now w;
     next_id := next_id w + 1; draws := draws w |}.
Definition with_draw (w : AuthDb) : AuthDb :=
  {| users := users w; refresh_tokens := refresh_tokens w; api_keys := api_keys w; now := now w;
     next_id := next_id w; draws := S (draws w) |}.
Definition with_now (t : Z) (w : AuthDb) : AuthDb :=
  {| users := users w; refresh_tokens := refresh_tokens w; api_keys := api_keys w; now := t;
     next_id := next_id w; draws := draws w |}.

Abbreviation aprog := (prog AuthDb auth_exn).
Abbreviation aco := (co AuthDb auth_exn).

(** ** [schemas.py] *)
Record UserRead := {
  ur_id : Z; ur_username : string; ur_email : string; ur_is_active : bool; ur_is_superuser : bool;
  ur_role : UserRole; ur_created_at : Z; ur_updated_at : Z }.
Definition read_user (u : User) : UserRead :=
  {| ur_id := u_id u; ur_username := u_username u; ur_email := u_email u; ur_is_active := u_is_active u;
     ur_is_superuser := u_is_superuser u; ur_role := u_role u; ur_created_at := u_created_at u;
     ur_updated_at := u_updated_at u |}.
Record TokenPair := { access_token : string; refresh_token : string; token_type : string }.
Record ApiKeyRead := {
  kr_id : Z; kr_prefix : string; kr_name : string; kr_created_at : Z; kr_expires_at : option Z;
  kr_last_used_at : option Z; kr_revoked_at : option Z }.
Definition read_key (k : ApiKey) : ApiKeyRead :=
  {| kr_id := k_id k; kr_prefix := k_prefix k; kr_name := k_name k; kr_created_at := k_created_at k;
     kr_expires_at := k_expires_at k; kr_last_used_at := k_last_used_at k; kr_revoked_at := k_revoked_at k |}.
Record ApiKeyCreated := { raw_key : string; created_key : ApiKeyRead }.

(** ** [repository.py] *)
Definition find_user (p : User -> bool) (w : AuthDb) : option User :=
  List.find p (map snd (map_to_list (users w))).
Definition get_by_username (n : string) : aprog (option User) := fun w =>
  (Ret (find_user (fun u => String.eqb (u_username u) n) w), w).
Definition get_by_email (n : string) : aprog (option User) := fun w =>
  (Ret (find_user (fun u => String.eqb (u_email u) n) w), w).
Definition get_by_id (i : Z) : aprog (option User) := fun w => (Ret (users w !! i), w).

(** The unique constraints of [users]. *)
Definition create_user (username email password_hash : string) (is_superuser : bool) : aprog User := fun w =>
  if existsb (fun u => String.eqb (u_username u) username || String.eqb (u_email u) email)
       (map snd (map_to_list (users w)))
  then (Raise IntegrityError, w)
  else let u := {| u_id := next_id w; u_username := username; u_email := email; u_password_hash := password_hash;
                   u_is_active := true; u_is_superuser := is_superuser; u_role := ANALYST;
                   u_created_at := now w; u_updated_at := now w |} in
       (Ret u, with_next (with_users (<[next_id w := u]> (users w)) w)).

(** [jti] is unique and [user_id] a foreign key. *)
Definition store_refresh_token (user_id : Z) (jti : string) (expires_at : Z) : aprog RefreshToken := fun w =>
  match refresh_tokens w !! jti, users w !! user_id with
  | None, Some _ =>
      let t := {| rt_user_id := user_id; rt_jti := jti; rt_expires_at := expires_at; rt_revoked := false |} in
      (Ret t, with_tokens (<[jti := t]> (refresh_tokens w)) w)
  | _, _ => (Raise IntegrityError, w)
  end.
Definition get_refresh_token (jti : string) : aprog (option RefreshToken) := fun w =>
  (Ret (refresh_tokens w !! jti), w).
Definition revoked_token (t : RefreshToken) : RefreshToken :=
  {| rt_user_id := rt_user_id t; rt_jti := rt_jti t; rt_expires_at := rt_expires_at t; rt_revoked := true |}.
Definition revoke_refresh_token (jti : string) : aprog unit := fun w =>
  match refresh_tokens w !! jti with
  | Some t => (Ret tt, with_tokens (<[jti := revoked_token t]> (refresh_tokens w)) w)
  | None => (Ret tt, w)
  end.

Definition find_key (p : ApiKey -> bool) (w : AuthDb) : option ApiKey :=
  List.find p (map snd (map_to_list (api_keys w))).
Definition repo_create_api_key (user_id : Z) (key_prefix key_hash name : string) (expires_at : option Z)
  : aprog ApiKey := fun w =>
  match find_key (fun k => String.eqb (k_hash k) key_hash) w, users w !! user_id with
  | None, Some _ =>
      let k := {| k_id := next_id w; k_user_id := user_id; k_prefix := key_prefix; k_hash := key_hash;
                  k_name := name; k_created_at := now w; k_expires_at := expires_at;
                  k_last_used_at := None; k_revoked_at := None |} in
      (Ret k, with_next (with_keys (<[next_id w := k]> (api_keys w)) w))
  | _, _ => (Raise IntegrityError, w)
  end.
Definition get_api_key_by_hash (h : string) : aprog (option ApiKey) := fun w =>
  (Ret (find_key (fun k => String.eqb (k_hash k) h) w), w).
Definition get_api_key_by_id (i : Z) : aprog (option ApiKey) := fun w => (Ret (api_keys w !! i), w).
Definition list_api_keys_for_user (i : Z) : aprog (list ApiKey) := fun w =>
  (Ret (sorted_by (fun a b => b <? a) k_created_at
          (List.filter (fun k => k_user_id k =? i) (map snd (map_to_list (api_keys w))))), w).
Definition revoked_key (t : Z) (k : ApiKey) : ApiKey :=
  {| k_id := k_id k; k_user_id := k_user_id k; k_prefix := k_prefix k; k_hash := k_hash k; k_name := k_name k;
     k_created_at := k_created_at k; k_expires_at := k_expires_at k; k_last_used_at := k_last_used_at k;
     k_revoked_at := Some t |}.
Definition repo_revoke_api_key (i : Z) : aprog unit := fun w =>
  match api_keys w !! i with
  | Some k => match k_revoked_at k with
              | None => (Ret tt, with_keys (<[i := revoked_key (now w) k]> (api_keys w)) w)
              | Some _ => (Ret tt, w)
              end
  | None => (Ret tt, w)
  end.
Definition touched_key (t : Z) (k : ApiKey) : ApiKey :=
  {| k_id := k_id k; k_user_id := k_user_id k; k_prefix := k_prefix k; k_hash := k_hash k; k_name := k_name k;
     k_created_at := k_created_at k; k_expires_at := k_expires_at k; k_last_used_at := Some t;
     k_revoked_at := k_revoked_at k |}.
Definition touch_api_key_last_used (i : Z) : aprog unit := fun w =>
  match api_keys w !! i with
  | Some k => (Ret tt, with_keys (<[i := touched_key (now w) k]> (api_keys w)) w)
  | None => (Ret tt, w)
  end.

(** ** PyJWT, the hashers and the random sources *)
Record Payload := { p_sub : string; p_jti : string; p_iat : Z; p_exp : Z; p_type : string }.
(** A decoded payload: any claim may be missing; times are whole seconds. *)
Record Decoded := {
  d_sub : option string; d_jti : option string; d_iat : option Z; d_exp : option Z; d_type : option string }.
Inductive jwt_error := ExpiredSignature | InvalidJwt (msg : string).
Inductive argon2_answer := Verified | VerificationError | Argon2Raises (cls msg : string).

Class Crypto := {
  jwt_encode : Payload -> string -> string -> string;
  jwt_decode : string -> string -> string -> Z -> jwt_error + Decoded;
  argon2_hash : string -> nat -> string;
  argon2_verify : string -> string -> argon2_answer;
  bcrypt_checkpw : string -> string -> outcome auth_exn bool;
  sha256_hex : string -> string;
  uuid4 : nat -> string;
  token_urlsafe : nat -> string }.

(** ** [api_keys.py] *)
Definition API_KEY_PREFIX : string := "qm_".
Definition DISPLAY_PREFIX_LENGTH : nat := String.length API_KEY_PREFIX + 8.
Definition api_key_prefix (raw : string) : string := take_str DISPLAY_PREFIX_LENGTH raw.

(** A step that draws the next random value. *)
Definition draw : aprog nat := fun w => (Ret (draws w), with_draw w).
Definition utc_now : aprog Z := fun w => (Ret (now w), w).

Section Service.
Context `{Crypto}.

Definition generate_raw_api_key : aprog string :=
  let! n := draw in ret (API_KEY_PREFIX ++ token_urlsafe n).
Definition hash_api_key (raw : string) : string := sha256_hex raw.

(** ** [passwords.py] *)
Definition ARGON2_PREFIX : string := "$argon2".
Definition BCRYPT_PREFIXES : list string := ["$2a$"; "$2b$"; "$2y$"].
Definition hash_password (password : string) : aprog string :=
  let! n := draw in ret (argon2_hash password n).
Definition verify_password (password password_hash : string) : outcome auth_exn bool :=
  if startswith ARGON2_PREFIX password_hash
  then match argon2_verify password_hash password with
       | Verified => Ret true
       | VerificationError => Ret false
       | Argon2Raises cls m => Raise (AuthOther cls m)
       end
  else if existsb (fun p => startswith p password_hash) BCRYPT_PREFIXES
  then bcrypt_checkpw password password_hash
  else Raise (AuthOther "ValueError" ("Unrecognized password hash format: " ++ repr (take_str 10 password_hash) ++ "...")).

(** ** [jwt.py] *)
Record TokenClaims := { sub : string; jti : string; iat : Z; exp : Z; type_ : string }.
(** [datetime.fromtimestamp] of whole seconds. *)
Definition from_seconds (t : Z) : Z := t * 1000000.

Context (secret_key algorithm : string).

Definition encode_token (subject token_type : string) (expires_delta : Z) : aprog string :=
  let! t := utc_now in
  let! n := draw in
  ret (jwt_encode {| p_sub := subject; p_jti := uuid4 n; p_iat := t; p_exp := t + expires_delta;
                     p_type := token_type |} secret_key algorithm).

Definition missing_claim {A} (k : string) : outcome auth_exn A :=
  Raise (InvalidTokenError ("The token is missing a required claim: " ++ repr k)).
Definition decode_at (token : string) (t : Z) : outcome auth_exn TokenClaims :=
  match jwt_decode token secret_key algorithm t with
  | inl ExpiredSignature => Raise (TokenExpiredError "The token has expired.")
  | inl (InvalidJwt m) => Raise (InvalidTokenError ("The token is invalid: " ++ m))
  | inr p =>
      match d_sub p, d_jti p, d_iat p, d_exp p, d_type p with
      | None, _, _, _, _ => missing_claim "sub"
      | _, None, _, _, _ => missing_claim "jti"
      | _, _, None, _, _ => missing_claim "iat"
      | _, _, _, None, _ => missing_claim "exp"
      | _, _, _, _, None => missing_claim "type"
      | Some s, Some j, Some i, Some e, Some ty =>
          Ret {| sub := s; jti := j; iat := from_seconds i; exp := from_seconds e; type_ := ty |}
      end
  end.
Definition decode_token (token : string) : aprog TokenClaims :=
  let! t := utc_now in lift (decode_at token t).
Definition validate_at (token expected_type : string) (t : Z) : outcome auth_exn TokenClaims :=
  let? claims := decode_at token t in
  if String.eqb (type_ claims) expected_type then Ret claims
  else Raise (InvalidTokenError ("Expected a " ++ repr expected_type ++ " token, got " ++ repr (type_ claims) ++ ".")).
Definition validate_token (token expected_type : string) : aprog TokenClaims :=
  let! t := utc_now in lift (validate_at token expected_type t).

Definition minutes (n : Z) : Z := n * 60 * 1000000.
Definition days (n : Z) : Z := n * 86400 * 1000000.
Definition create_access_token (subject : string) (expire_minutes : Z) : aprog string :=
  encode_token subject "access" (minutes expire_minutes).
Definition create_refresh_token (subject : string) (expire_days : Z) : aprog (string * TokenClaims) :=
  let! token := encode_token subject "refresh" (days expire_days) in
  let! claims := decode_token token in
  ret (token, claims).
End Service.
