(* ===== verification/AuthService.v ===== *)
(** * [AuthenticationService]

    Each [await] of a repository method is one step of a coroutine; what happens
    between two of them is part of the next step. The event loop may run other requests
    at every step. *)
From S2P Require Import Prelude AsyncIO PyStr Auth.
#[local] Open Scope string_scope.
#[local] Open Scope Z_scope.

Definition LAST_USED_TOUCH_THRESHOLD : Z := minutes 5.
Definition ROLE_RANK (r : UserRole) : Z := match r with VIEWER => 1 | ANALYST => 2 | ADMIN => 3 end.

Section Service.
Context `{Crypto}.
Context (secret_key algorithm : string) (access_token_expire_minutes refresh_token_expire_days : Z).

(** [await a or await b]. *)
Definition get_by_name_or_email (username email : string) : aco (option User) :=
  let* u := atomic (get_by_username username) in
  match u with
  | Some u => co_ret (Some u)
  | None => atomic (get_by_email email)
  end.

Definition duplicate {A} (username email : string) : aco A :=
  co_raise (DuplicateUserError ("Username " ++ repr username ++ " or email " ++ repr email ++ " is already taken.")).
Definition register_user (username email password : string) : aco UserRead :=
  let* existing := get_by_name_or_email username email in
  match existing with
  | Some _ => duplicate username email
  | None =>
      let* password_hash := atomic (hash_password password) in
      let* user := co_catch (atomic (create_user username email password_hash false))
                     (fun e => match e with IntegrityError => duplicate username email | _ => co_raise e end) in
      co_ret (read_user user)
  end.

Definition invalid_credentials {A} : aco A :=
  co_raise (InvalidCredentialsError "Incorrect username/email or password.").
Definition authenticate (username password : string) : aco UserRead :=
  let* user := get_by_name_or_email username username in
  match user with
  | None => invalid_credentials
  | Some u =>
      match verify_password password (u_password_hash u) with
      | Raise e => co_raise e
      | Ret false => invalid_credentials
      | Ret true =>
          if u_is_active u then co_ret (read_user u)
          else co_raise (InactiveUserError ("The account " ++ repr username ++ " is inactive."))
      end
  end.

Definition create_token_pair (user_id : Z) : aco TokenPair :=
  let* access := atomic (create_access_token secret_key algorithm (show_Z user_id) access_token_expire_minutes) in
  let* refresh := atomic (create_refresh_token secret_key algorithm (show_Z user_id) refresh_token_expire_days) in
  let* _ := atomic (store_refresh_token user_id (jti (snd refresh)) (exp (snd refresh))) in
  co_ret {| access_token := access; refresh_token := fst refresh; token_type := "bearer" |}.

Definition validate_refresh_token (token : string) : aco RefreshToken :=
  let* claims := atomic (validate_token secret_key algorithm token "refresh") in
  let* row := atomic (get_refresh_token (jti claims)) in
  match row with
  | None => co_raise (InvalidTokenError "This refresh token was not issued by this server.")
  | Some r =>
      if rt_revoked r
      then co_raise (RefreshTokenRevokedError "This refresh token has already been used or revoked.")
      else let* t := atomic utc_now in
           if rt_expires_at r <? t then co_raise (TokenExpiredError "This refresh token has expired.")
           else co_ret r
  end.

Definition refresh_tokens (token : string) : aco TokenPair :=
  let* row := validate_refresh_token token in
  let* user := atomic (get_by_id (rt_user_id row)) in
  match user with
  | Some u =>
      if u_is_active u
      then let* _ := atomic (revoke_refresh_token (rt_jti row)) in create_token_pair (u_id u)
      else co_raise (InactiveUserError "The account for this refresh token is no longer active.")
  | None => co_raise (InactiveUserError "The account for this refresh token is no longer active.")
  end.

Definition logout (token : string) : aco unit :=
  let* row := validate_refresh_token token in atomic (revoke_refresh_token (rt_jti row)).

Definition get_current_user (token : string) : aco UserRead :=
  let* claims := atomic (validate_token secret_key algorithm token "access") in
  match py_int (sub claims) with
  | None => co_raise (AuthOther "ValueError" ("invalid literal for int() with base 10: " ++ repr (sub claims)))
  | Some i =>
      let* user := atomic (get_by_id i) in
      match user with
      | None => co_raise (InvalidTokenError "This token's subject no longer exists.")
      | Some u => if u_is_active u then co_ret (read_user u)
                  else co_raise (InactiveUserError "This account is no longer active.")
      end
  end.

(** ** Authorization *)
Definition has_role (u : UserRead) (r : UserRole) : bool := bool_decide (ur_role u = r).
Definition is_admin (u : UserRead) : bool := has_role u ADMIN.
Definition require_role (u : UserRead) (minimum : UserRole) : outcome auth_exn unit :=
  if ROLE_RANK (ur_role u) <? ROLE_RANK minimum
  then Raise (ForbiddenRoleError ("This action requires at least the " ++ repr (UserRole_value minimum)
         ++ " role; the current user has " ++ repr (UserRole_value (ur_role u)) ++ "."))
  else Ret tt.
Definition require_any_role (u : UserRead) (roles : list UserRole) : outcome auth_exn unit :=
  if bool_decide (ur_role u ∈ roles) then Ret tt
  else Raise (InsufficientPermissionsError ("This action requires one of the following roles: "
         ++ join ", " (map UserRole_value roles) ++ "; the current user has "
         ++ repr (UserRole_value (ur_role u)) ++ ".")).

(** ** API keys *)
Definition create_api_key (user_id : Z) (name : string) (expires_at : option Z) : aco ApiKeyCreated :=
  let* raw := atomic generate_raw_api_key in
  let* row := atomic (repo_create_api_key user_id (api_key_prefix raw) (hash_api_key raw) name expires_at) in
  co_ret {| raw_key := raw; created_key := read_key row |}.
Definition list_api_keys (user_id : Z) : aco (list ApiKeyRead) :=
  let* rows := atomic (list_api_keys_for_user user_id) in co_ret (map read_key rows).
Definition no_key {A} (i : Z) : aco A := co_raise (ApiKeyNotFoundError ("No API key with id " ++ show_Z i ++ ".")).
Definition revoke_api_key (requesting : UserRead) (key_id : Z) : aco unit :=
  let* row := atomic (get_api_key_by_id key_id) in
  match row with
  | None => no_key key_id
  | Some k =>
      if negb (k_user_id k =? ur_id requesting) && negb (is_admin requesting) then no_key key_id
      else atomic (repo_revoke_api_key key_id)
  end.

Definition unrecognized {A} : aco A := co_raise (InvalidApiKeyError "This API key is not recognized.").
Definition authenticate_api_key (raw : string) : aco UserRead :=
  if negb (startswith API_KEY_PREFIX raw) then unrecognized
  else
    let* row := atomic (get_api_key_by_hash (hash_api_key raw)) in
    match row with
    | None => unrecognized
    | Some k =>
        match k_revoked_at k with
        | Some _ => co_raise (ApiKeyRevokedError "This API key has been revoked.")
        | None =>
            let* t := atomic utc_now in
            if match k_expires_at k with Some e => e <? t | None => false end
            then co_raise (ApiKeyExpiredError "This API key has expired.")
            else
              let* user := atomic (get_by_id (k_user_id k)) in
              match user with
              | None => co_raise (InvalidApiKeyError "This API key's owner no longer exists.")
              | Some u =>
                  if negb (u_is_active u) then co_raise (InactiveUserError "This account is no longer active.")
                  else
                    let* t' := atomic utc_now in
                    let* _ := if match k_last_used_at k with
                                 | None => true | Some l => LAST_USED_TOUCH_THRESHOLD <? t' - l end
                              then atomic (touch_api_key_last_used (k_id k)) else co_ret tt in
                    co_ret (read_user u)
              end
        end
    end.
End Service.

(** ** Finding users *)
Lemma find_user_some p w u : find_user p w = Some u -> exists i, users w !! i = Some u /\ p u = true.
Proof.
  unfold find_user. intros [Hin Hp]%List.find_some. apply in_map_iff in Hin as ([i v] & <- & Hin).
  apply list_elem_of_In, elem_of_map_to_list in Hin. eauto.
Qed.
Lemma find_user_none p w : find_user p w = None -> forall i u, users w !! i = Some u -> p u = false.
Proof.
  unfold find_user. intros Hn i u Hi. apply (List.find_none _ _ Hn), in_map_iff. exists (i, u). split; [done|].
  by apply list_elem_of_In, elem_of_map_to_list.
Qed.
Lemma find_user_unique p w i u : users w !! i = Some u -> p u = true ->
  (forall j v, users w !! j = Some v -> p v = true -> v = u) -> find_user p w = Some u.
Proof.
  intros Hi Hp Hu. destruct (find_user p w) as [v|] eqn:E.
  - apply find_user_some in E as (j & Hj & Hv). by rewrite (Hu _ _ Hj Hv).
  - by rewrite (find_user_none _ _ E i u Hi) in Hp.
Qed.
Lemma existsb_none p w : (forall i u, users w !! i = Some u -> p u = false) ->
  existsb p (map snd (map_to_list (users w))) = false.
Proof.
  intros Hn. apply not_true_iff_false. intros Hx. apply existsb_exists in Hx as (u & Hin & Hp).
  apply in_map_iff in Hin as ([i v] & <- & Hin). apply list_elem_of_In, elem_of_map_to_list in Hin.
  simpl in Hp. by rewrite (Hn _ _ Hin) in Hp.
Qed.
Lemma find_key_some p w k : find_key p w = Some k -> exists i, api_keys w !! i = Some k /\ p k = true.
Proof.
  unfold find_key. intros [Hin Hp]%List.find_some. apply in_map_iff in Hin as ([i v] & <- & Hin).
  apply list_elem_of_In, elem_of_map_to_list in Hin. eauto.
Qed.
Lemma find_key_none p w : find_key p w = None -> forall i k, api_keys w !! i = Some k -> p k = false.
Proof.
  unfold find_key. intros Hn i k Hi. apply (List.find_none _ _ Hn), in_map_iff. exists (i, k). split; [done|].
  by apply list_elem_of_In, elem_of_map_to_list.
Qed.
Lemma find_key_unique p w i k : api_keys w !! i = Some k -> p k = true ->
  (forall j v, api_keys w !! j = Some v -> p v = true -> v = k) -> find_key p w = Some k.
Proof.
  intros Hi Hp Hu. destruct (find_key p w) as [v|] eqn:E.
  - apply find_key_some in E as (j & Hj & Hv). by rewrite (Hu _ _ Hj Hv).
  - by rewrite (find_key_none _ _ E i k Hi) in Hp.
Qed.
(** Whom a name or, failing that, an email denotes. *)
Definition named (n e : string) (w : AuthDb) : option User :=
  match find_user (fun u => String.eqb (u_username u) n) w with
  | Some u => Some u
  | None => find_user (fun u => String.eqb (u_email u) e) w
  end.
Lemma run_name_or_email n e w : run_co (get_by_name_or_email n e) w = (Ret (named n e w), w).
Proof.
  unfold get_by_name_or_email, named. erewrite (run_co_step (get_by_username n)) by reflexivity.
  by destruct (find_user _ w).
Qed.
Lemma named_some n e w u : named n e w = Some u ->
  exists i, users w !! i = Some u /\ (u_username u = n \/ u_email u = e).
Proof.
  unfold named. destruct (find_user (fun u => String.eqb (u_username u) n) w) as [v|] eqn:E.
  - intros [= <-]. apply find_user_some in E as (i & Hi & Hp). apply String.eqb_eq in Hp. eauto.
  - intros Ef. apply find_user_some in Ef as (i & Hi & Hp). apply String.eqb_eq in Hp. eauto.
Qed.

(** ** What PyJWT promises *)
Class PyJwtLaws `{Crypto} := {
  (** Times are cut to whole seconds; a token is expired from the second of its [exp] on. *)
  jwt_roundtrip : forall p key alg t, p_iat p / 1000000 * 1000000 <= t ->
    jwt_decode (jwt_encode p key alg) key alg t =
    if p_exp p / 1000000 * 1000000 <=? t then inl ExpiredSignature
    else inr {| d_sub := Some (p_sub p); d_jti := Some (p_jti p); d_iat := Some (p_iat p / 1000000);
                d_exp := Some (p_exp p / 1000000); d_type := Some (p_type p) |};
  (** A token says the same at all times, until it expires. *)
  jwt_stable : forall token key alg t t' p, t <= t' -> jwt_decode token key alg t = inr p ->
    jwt_decode token key alg t' = inr p \/ jwt_decode token key alg t' = inl ExpiredSignature;
  uuid4_fresh : Inj (=) (=) uuid4 }.

(** ** Lemmas *)
Section Lemmas.
Context `{Crypto}.
Context (key alg : string) (amin rdays : Z).

#[local] Abbreviation validate := (validate_refresh_token key alg).
#[local] Abbreviation refresh := (refresh_tokens key alg amin rdays).

(** The whole of [validate_refresh_token], undisturbed. *)
Definition refresh_verdict (w : AuthDb) (token : string) : outcome auth_exn RefreshToken :=
  let? claims := validate_at key alg token "refresh" (now w) in
  match Auth.refresh_tokens w !! jti claims with
  | None => Raise (InvalidTokenError "This refresh token was not issued by this server.")
  | Some r =>
      if rt_revoked r
      then Raise (RefreshTokenRevokedError "This refresh token has already been used or revoked.")
      else if rt_expires_at r <? now w then Raise (TokenExpiredError "This refresh token has expired.")
      else Ret r
  end.
Lemma run_validate token w : run_co (validate token) w = (refresh_verdict w token, w).
Proof.
  unfold validate_refresh_token, refresh_verdict. rewrite run_co_bind. unfold bind. rewrite run_co_atomic.
  unfold validate_token, utc_now, bind, lift. destruct (validate_at _ _ _ _ _) as [e|c]; [done|].
  simpl. destruct (Auth.refresh_tokens w !! jti c) as [r|]; [|done]. destruct (rt_revoked r); [done|]. simpl.
  by destruct (_ <? _).
Qed.

(** A revoked row stays revoked. *)
Definition token_revoked (j : string) (w : AuthDb) : Prop :=
  exists r, Auth.refresh_tokens w !! j = Some r /\ rt_revoked r = true.
Definition prog_keeps {A} (P : AuthDb -> Prop) (m : aprog A) : Prop := forall w, P w -> P (snd (m w)).
Lemma prog_keeps_bind {A B} P (m : aprog A) (k : A -> aprog B) :
  prog_keeps P m -> (forall a, prog_keeps P (k a)) -> prog_keeps P (bind m k).
Proof.
  intros Hm Hk w Hw. unfold bind. specialize (Hm w Hw). destruct (m w) as [[e|a] w']; [done|]. by apply Hk.
Qed.

(** Every step of every request keeps the revocation. *)
Lemma revoked_insert j j' r w :
  (forall r0, Auth.refresh_tokens w !! j' = Some r0 -> rt_revoked r0 = true -> rt_revoked r = true) ->
  token_revoked j w -> token_revoked j (with_tokens (<[j' := r]> (Auth.refresh_tokens w)) w).
Proof.
  intros Hr (r0 & H1 & H2). unfold token_revoked. simpl. destruct (decide (j' = j)) as [->|Hne].
  - exists r. by rewrite lookup_insert_eq; eauto.
  - exists r0. by rewrite lookup_insert_ne.
Qed.
Lemma revoked_store j u i e : prog_keeps (token_revoked j) (store_refresh_token u i e).
Proof.
  intros w Hw. unfold store_refresh_token. destruct (Auth.refresh_tokens w !! i) eqn:E1; [done|].
  destruct (users w !! u); [|done]. simpl. apply revoked_insert; [|done]. intros r0. by rewrite E1.
Qed.
Lemma revoked_revoke j i : prog_keeps (token_revoked j) (revoke_refresh_token i).
Proof.
  intros w Hw. unfold revoke_refresh_token. destruct (Auth.refresh_tokens w !! i); [|done].
  by apply revoked_insert.
Qed.
Lemma revoked_same_tokens {A} j (m : aprog A) :
  (forall w, Auth.refresh_tokens (snd (m w)) = Auth.refresh_tokens w) -> prog_keeps (token_revoked j) m.
Proof. intros Hm w (r & H1 & H2). exists r. by rewrite Hm. Qed.
End Lemmas.

(** Steps that leave the refresh tokens alone. *)
Ltac same_tokens :=
  apply revoked_same_tokens; intros ?;
  unfold get_by_username, get_by_email, get_by_id, create_user, get_refresh_token, repo_create_api_key,
    get_api_key_by_hash, get_api_key_by_id, list_api_keys_for_user, repo_revoke_api_key,
    touch_api_key_last_used, generate_raw_api_key, hash_password, create_access_token, create_refresh_token,
    encode_token, decode_token, validate_token, draw, utc_now, bind, lift, ret; simpl;
  repeat (case_match; simpl); simplify_eq/=; done.
(** No request moves the clock. *)
Ltac same_time :=
  intros ? ?;
  unfold get_by_username, get_by_email, get_by_id, create_user, get_refresh_token, repo_create_api_key,
    get_api_key_by_hash, get_api_key_by_id, list_api_keys_for_user, repo_revoke_api_key, store_refresh_token,
    revoke_refresh_token,
    touch_api_key_last_used, generate_raw_api_key, hash_password, create_access_token, create_refresh_token,
    encode_token, decode_token, validate_token, draw, utc_now, bind, lift, ret; simpl;
  repeat (case_match; simpl); simplify_eq/=; done.
Ltac keep_steps tac :=
  repeat first
    [ apply steps_keep_bind; [|intros ?] | apply steps_keep_catch; [|intros ?]
    | apply steps_keep_atomic; solve [tac] | constructor | case_match ].

Section Requests.
Context `{Crypto}.
Context (key alg : string) (amin rdays : Z).

(** What a client can ask of the service: one call, or a call chosen after the answer
    to another. *)
Inductive request : forall A, aco A -> Prop :=
| req_register u e p : request UserRead (register_user u e p)
| req_authenticate u p : request UserRead (authenticate u p)
| req_pair i : request TokenPair (create_token_pair key alg amin rdays i)
| req_refresh t : request TokenPair (refresh_tokens key alg amin rdays t)
| req_logout t : request unit (logout key alg t)
| req_me t : request UserRead (get_current_user key alg t)
| req_create_key i n x : request ApiKeyCreated (create_api_key i n x)
| req_list_keys i : request (list ApiKeyRead) (list_api_keys i)
| req_revoke_key u i : request unit (revoke_api_key u i)
| req_key k : request UserRead (authenticate_api_key k)
| req_return A (a : A) : request A (co_ret a)
| req_then A B (c : aco A) (k : A -> aco B) :
    request A c -> (forall a, request B (k a)) -> request B (co_bind c k).

Lemma requests_keep_revoked j A (c : aco A) : request A c -> steps_keep (token_revoked j) c.
Proof.
  induction 1.
  12: by apply steps_keep_bind.
  all: unfold register_user, authenticate, refresh_tokens, create_token_pair, logout, get_current_user, create_api_key,
    list_api_keys, revoke_api_key, authenticate_api_key, get_by_name_or_email, validate_refresh_token,
    duplicate, invalid_credentials, no_key, unrecognized, co_ret, co_raise;
    keep_steps ltac:(first [apply revoked_store|apply revoked_revoke|same_tokens]).
Qed.

(** A revoked key stays revoked, and the only one with its hash. *)
Definition key_revoked (i : Z) (h : string) (w : AuthDb) : Prop :=
  (exists k, api_keys w !! i = Some k /\ k_hash k = h /\ k_revoked_at k <> None) /\
  (forall j k, api_keys w !! j = Some k -> k_hash k = h -> j = i) /\ i < next_id w.
Lemma key_revoked_same {A} i h (m : aprog A) :
  (forall w, api_keys (snd (m w)) = api_keys w /\ next_id w <= next_id (snd (m w))) -> prog_keeps (key_revoked i h) m.
Proof.
  intros Hm w (H1 & H2 & H3). destruct (Hm w) as [Hk Hn]. unfold key_revoked. rewrite Hk. split_and!; [done|done|lia].
Qed.
(** Steps that leave the API keys alone. *)
Ltac same_keys :=
  apply key_revoked_same; intros ?;
  unfold get_by_username, get_by_email, get_by_id, create_user, get_refresh_token, store_refresh_token,
    revoke_refresh_token, get_api_key_by_hash, get_api_key_by_id, list_api_keys_for_user,
    generate_raw_api_key, hash_password, create_access_token, create_refresh_token,
    encode_token, decode_token, validate_token, draw, utc_now, bind, lift, ret; simpl;
  repeat (case_match; simpl); simplify_eq/=; (split; [done|lia]).
(** Writing a row with its own hash, revoked if it is the one. *)
Lemma key_revoked_insert i h j k k' w :
  api_keys w !! j = Some k -> k_hash k' = k_hash k ->
  ((j = i -> k_hash k = h /\ k_revoked_at k' <> None) /\
   (j <> i -> exists k0, api_keys w !! i = Some k0 /\ k_hash k0 = h /\ k_revoked_at k0 <> None) /\
   (forall j k, api_keys w !! j = Some k -> k_hash k = h -> j = i) /\ i < next_id w) ->
  key_revoked i h (with_keys (<[j := k']> (api_keys w)) w).
Proof.
  intros Hj Hh (H1 & H2 & H3 & H4). unfold key_revoked. simpl. split_and!; [| |done].
  - destruct (decide (j = i)) as [->|Hne].
    + exists k'. rewrite lookup_insert_eq, Hh. destruct (H1 eq_refl). done.
    + destruct (H2 Hne) as (k0 & ? & ? & ?). exists k0. by rewrite lookup_insert_ne.
  - intros j' k0. destruct (decide (j = j')) as [<-|Hne].
    + rewrite lookup_insert_eq. intros [= <-]. rewrite Hh. by apply H3.
    + rewrite lookup_insert_ne by done. apply H3.
Qed.
Lemma key_revoked_create i h u p h' n x : prog_keeps (key_revoked i h) (repo_create_api_key u p h' n x).
Proof.
  intros w Hw. unfold repo_create_api_key. destruct (find_key _ w) eqn:Ef; [done|].
  destruct (users w !! u); [|done]. destruct Hw as ((k & Hk & Hh & Hr) & Hu & Hi). simpl.
  assert (Hne : h' <> h).
  { intros ->. pose proof (find_key_none _ _ Ef _ _ Hk) as Hx. apply String.eqb_neq in Hx. done. }
  split_and!; simpl; [| |lia].
  - exists k. by rewrite lookup_insert_ne by lia.
  - intros j k0. destruct (decide (next_id w = j)) as [<-|Hj].
    + rewrite lookup_insert_eq. intros [= <-]. done.
    + rewrite lookup_insert_ne by done. apply Hu.
Qed.
Lemma key_revoked_rewrite i h j (f : Z -> ApiKey -> ApiKey) w k :
  (forall t k, k_hash (f t k) = k_hash k) -> (forall t k, k_revoked_at k <> None -> k_revoked_at (f t k) <> None) ->
  key_revoked i h w -> api_keys w !! j = Some k ->
  key_revoked i h (with_keys (<[j := f (now w) k]> (api_keys w)) w).
Proof.
  intros Hf Hr ((k0 & Hk & Hh & Hv) & Hu & Hi) Hj. eapply key_revoked_insert; [done|apply Hf|].
  split_and!; [|by eauto|done|done]. intros ->. rewrite Hj in Hk. simplify_eq. auto.
Qed.
Lemma key_revoked_touch i h j : prog_keeps (key_revoked i h) (touch_api_key_last_used j).
Proof.
  intros w Hw. unfold touch_api_key_last_used. destruct (api_keys w !! j) eqn:E; [|done]. simpl.
  by apply (key_revoked_rewrite i h j touched_key).
Qed.
Lemma key_revoked_revoke i h j : prog_keeps (key_revoked i h) (repo_revoke_api_key j).
Proof.
  intros w Hw. unfold repo_revoke_api_key. destruct (api_keys w !! j) as [k|] eqn:E; [|done].
  destruct (k_revoked_at k) eqn:Ek; [done|]. simpl. by apply (key_revoked_rewrite i h j revoked_key).
Qed.

Lemma requests_keep_key_revoked i h A (c : aco A) : request A c -> steps_keep (key_revoked i h) c.
Proof.
  induction 1.
  12: by apply steps_keep_bind.
  all: unfold register_user, authenticate, refresh_tokens, create_token_pair, logout, get_current_user, create_api_key,
    list_api_keys, revoke_api_key, authenticate_api_key, get_by_name_or_email, validate_refresh_token,
    duplicate, invalid_credentials, no_key, unrecognized, co_ret, co_raise;
    keep_steps ltac:(first [apply key_revoked_create|apply key_revoked_touch|apply key_revoked_revoke|same_keys]).
Qed.

(** Time only moves forward. *)
Definition time_passes (w w' : AuthDb) : Prop := exists t, now w <= t /\ w' = with_now t w.

(** Rows are found under the key they carry. *)
Definition keyed (w : AuthDb) : Prop :=
  (forall j r, Auth.refresh_tokens w !! j = Some r -> rt_jti r = j) /\
  (forall i u, users w !! i = Some u -> u_id u = i).
(** The uuids still to be drawn are in no row. *)
Definition uuids_unused (w : AuthDb) : Prop :=
  forall n, (draws w <= n)%nat -> Auth.refresh_tokens w !! uuid4 n = None.

Context {Laws : PyJwtLaws}.

Definition access_payload (w : AuthDb) (i : Z) : Payload :=
  {| p_sub := show_Z i; p_jti := uuid4 (draws w); p_iat := now w; p_exp := now w + minutes amin; p_type := "access" |}.
Definition refresh_payload (w : AuthDb) (i : Z) : Payload :=
  {| p_sub := show_Z i; p_jti := uuid4 (S (draws w)); p_iat := now w; p_exp := now w + days rdays; p_type := "refresh" |}.
(** A time cut to its second. *)
Definition whole (t : Z) : Z := from_seconds (t / 1000000).
Definition new_row (w : AuthDb) (i : Z) : RefreshToken :=
  {| rt_user_id := i; rt_jti := uuid4 (S (draws w)); rt_expires_at := whole (now w + days rdays); rt_revoked := false |}.
Definition pair_of (w : AuthDb) (i : Z) : TokenPair :=
  {| access_token := jwt_encode (access_payload w i) key alg; refresh_token := jwt_encode (refresh_payload w i) key alg;
     token_type := "bearer" |}.
Definition with_pair (w : AuthDb) (i : Z) : AuthDb :=
  with_tokens (<[uuid4 (S (draws w)) := new_row w i]> (Auth.refresh_tokens w)) (with_draw (with_draw w)).

Lemma whole_le t : whole t <= t.
Proof. unfold whole, from_seconds. pose proof (Z.mul_div_le t 1000000). lia. Qed.
Lemma whole_gt t : t - 1000000 < whole t.
Proof. unfold whole, from_seconds. pose proof (Z.mul_succ_div_gt t 1000000). lia. Qed.

Definition claims_of (p : Payload) : TokenClaims :=
  {| sub := p_sub p; jti := p_jti p; iat := whole (p_iat p); exp := whole (p_exp p); type_ := p_type p |}.
Lemma decode_encoded p t : p_iat p <= t ->
  decode_at key alg (jwt_encode p key alg) t =
  if whole (p_exp p) <=? t then Raise (TokenExpiredError "The token has expired.") else Ret (claims_of p).
Proof using Laws.
  intros Ht. unfold decode_at. rewrite jwt_roundtrip by (pose proof (whole_le (p_iat p)); unfold whole, from_seconds in *; lia).
  unfold whole, from_seconds. by destruct (_ <=? t).
Qed.

Lemma create_pair_run i w u :
  1 <= rdays -> users w !! i = Some u -> Auth.refresh_tokens w !! uuid4 (S (draws w)) = None ->
  run_co (create_token_pair key alg amin rdays i) w = (Ret (pair_of w i), with_pair w i).
Proof using Laws.
  intros Hd Hu Hf. unfold create_token_pair. rewrite run_co_bind. unfold bind at 1. rewrite run_co_atomic.
  unfold create_access_token, encode_token, utc_now, draw, bind at 1. unfold bind at 1. unfold ret at 1.
  rewrite run_co_bind. unfold bind at 1. rewrite run_co_atomic.
  unfold create_refresh_token, encode_token, decode_token, utc_now, draw, bind, ret, lift. simpl.
  change (jwt_encode {| p_sub := show_Z i; p_jti := uuid4 (S (draws w)); p_iat := now w;
    p_exp := now w + days rdays; p_type := "refresh" |} key alg) with (jwt_encode (refresh_payload w i) key alg).
  rewrite decode_encoded by done. simpl p_exp.
  pose proof (whole_gt (now w + days rdays)). assert (days rdays >= 86400000000) by (unfold days; lia).
  destruct (Z.leb_spec (whole (now w + days rdays)) (now w)); [lia|]. simpl.
  unfold store_refresh_token. simpl. rewrite Hf, Hu. done.
Qed.

(** *** Rotation *)
Lemma requests_keep_clock (P : Z -> Prop) A (c : aco A) : request A c -> steps_keep (fun w => P (now w)) c.
Proof.
  induction 1.
  12: by apply steps_keep_bind.
  all: unfold register_user, authenticate, refresh_tokens, create_token_pair, logout, get_current_user, create_api_key,
    list_api_keys, revoke_api_key, authenticate_api_key, get_by_name_or_email, validate_refresh_token,
    duplicate, invalid_credentials, no_key, unrecognized, co_ret, co_raise; keep_steps ltac:(same_time).
Qed.
Lemma requests_keep_time t0 A (c : aco A) : request A c -> steps_keep (fun w => t0 <= now w) c.
Proof. apply (requests_keep_clock (fun t => t0 <= t)). Qed.

Definition after_validation (row : RefreshToken) : aco TokenPair :=
  let* user := atomic (get_by_id (rt_user_id row)) in
  match user with
  | Some u =>
      if u_is_active u
      then let* _ := atomic (revoke_refresh_token (rt_jti row)) in create_token_pair key alg amin rdays (u_id u)
      else co_raise (InactiveUserError "The account for this refresh token is no longer active.")
  | None => co_raise (InactiveUserError "The account for this refresh token is no longer active.")
  end.
Lemma refresh_split t : refresh_tokens key alg amin rdays t = co_bind (validate_refresh_token key alg t) after_validation.
Proof. reflexivity. Qed.
Lemma refresh_raises t w e : refresh_verdict key alg w t = Raise e ->
  run_co (refresh_tokens key alg amin rdays t) w = (Raise e, w).
Proof. intros He. rewrite refresh_split, run_co_bind. unfold bind. by rewrite run_validate, He. Qed.

Lemma verdict_ret w t row : refresh_verdict key alg w t = Ret row ->
  exists c, validate_at key alg t "refresh" (now w) = Ret c /\ Auth.refresh_tokens w !! jti c = Some row /\
    rt_revoked row = false.
Proof.
  unfold refresh_verdict. destruct (validate_at _ _ _ _ _) as [e|c]; [done|]. simpl.
  destruct (Auth.refresh_tokens w !! jti c) as [r|] eqn:Er; [|done].
  destruct (rt_revoked r) eqn:Ev; [done|]. destruct (_ <? _); [done|]. intros [= <-]. eauto.
Qed.

Lemma refresh_success t w p w1 : keyed w ->
  run_co (refresh_tokens key alg amin rdays t) w = (Ret p, w1) ->
  exists c, validate_at key alg t "refresh" (now w) = Ret c /\ token_revoked (jti c) w1 /\ now w <= now w1.
Proof.
  intros [Hk _]. rewrite refresh_split, run_co_bind. unfold bind. rewrite run_validate.
  destruct (refresh_verdict key alg w t) as [e|row] eqn:Ev; [done|].
  apply verdict_ret in Ev as (c & Hc & Hrow & _). intros Hr. exists c. split; [done|].
  unfold after_validation in Hr. erewrite (run_co_step (get_by_id (rt_user_id row))) in Hr by reflexivity.
  destruct (users w !! rt_user_id row) as [u|]; [|done].
  destruct (u_is_active u); [|done].
  rewrite (Hk _ _ Hrow), (run_co_step _ _ _ tt (with_tokens (<[jti c := revoked_token row]> (Auth.refresh_tokens w)) w)) in Hr
    by (unfold revoke_refresh_token; by rewrite Hrow).
  set (w0 := with_tokens _ w) in Hr.
  assert (Hrev : token_revoked (jti c) w0).
  { exists (revoked_token row). unfold w0. simpl. by rewrite lookup_insert_eq. }
  split.
  - pose proof (run_co_keeps _ _ w0 (requests_keep_revoked (jti c) _ _ (req_pair (u_id u))) Hrev) as Hx.
    by rewrite Hr in Hx.
  - pose proof (run_co_keeps _ _ w0 (requests_keep_time (now w) _ _ (req_pair (u_id u))) (Z.le_refl _)) as Hx.
    by rewrite Hr in Hx.
Qed.

(** Exchanging a token that passed validation, undisturbed. *)
Lemma after_validation_run row c r u w :
  1 <= rdays -> rt_jti row = jti c -> Auth.refresh_tokens w !! jti c = Some r ->
  users w !! rt_user_id row = Some u -> users w !! u_id u = Some u -> u_is_active u = true ->
  Auth.refresh_tokens w !! uuid4 (S (draws w)) = None ->
  let w0 := with_tokens (<[jti c := revoked_token r]> (Auth.refresh_tokens w)) w in
  run_co (after_validation row) w = (Ret (pair_of w0 (u_id u)), with_pair w0 (u_id u)).
Proof using Laws.
  intros Hd Hj Hr Hu Hu2 Ha Hf w0. unfold after_validation.
  erewrite (run_co_step (get_by_id (rt_user_id row))) by reflexivity. rewrite Hu, Ha.
  rewrite (run_co_step _ _ _ tt w0) by (unfold revoke_refresh_token; by rewrite Hj, Hr).
  eapply create_pair_run; [done|done|]. unfold w0. simpl. rewrite lookup_insert_ne; [done|].
  intros Hx. rewrite Hx in Hr. congruence.
Qed.

Lemma verdict_of_new w w' i :
  now w <= now w' < whole (now w + days rdays) ->
  Auth.refresh_tokens w' !! uuid4 (S (draws w)) = Some (new_row w i) ->
  refresh_verdict key alg w' (refresh_token (pair_of w i)) = Ret (new_row w i).
Proof using Laws.
  intros Hn Hr. unfold refresh_verdict, validate_at. cbn [refresh_token pair_of].
  rewrite decode_encoded by (simpl; lia). simpl p_exp.
  destruct (Z.leb_spec (whole (now w + days rdays)) (now w')); [lia|]. simpl. rewrite Hr. simpl.
  destruct (Z.ltb_spec (whole (now w + days rdays)) (now w')); [lia|done].
Qed.

Lemma validate_at_later t ty t1 t2 c : t1 <= t2 -> validate_at key alg t ty t1 = Ret c ->
  validate_at key alg t ty t2 = Ret c \/
  validate_at key alg t ty t2 = Raise (TokenExpiredError "The token has expired.").
Proof using Laws.
  intros Ht. unfold validate_at, decode_at. destruct (jwt_decode t key alg t1) as [[]|p] eqn:E; [done..|].
  destruct (jwt_stable _ _ _ _ _ _ Ht E) as [->| ->]; auto.
Qed.
End Requests.

(** ** Properties *)
Section Props.
Context `{Cr : Crypto} {Laws : PyJwtLaws}.
Context (key alg : string) (amin rdays : Z).

(** C13. Rotation: once a refresh token has been exchanged, it is dead. Whatever any
    number of clients do afterwards, in any interleaving and however much time passes,
    validating it or exchanging it again is refused as revoked or expired, and changes
    nothing. *)
Theorem refresh_rotation threads threads' t w p w1 w2 :
  keyed w -> run_co (refresh_tokens key alg amin rdays t) w = (Ret p, w1) ->
  Forall (request key alg amin rdays unit) threads -> sched time_passes (threads, w1) (threads', w2) ->
  exists e, run_co (validate_refresh_token key alg t) w2 = (Raise e, w2) /\
    run_co (refresh_tokens key alg amin rdays t) w2 = (Raise e, w2) /\
    (e = RefreshTokenRevokedError "This refresh token has already been used or revoked." \/
     e = TokenExpiredError "The token has expired.").
Proof using Laws.
  intros Hk Hr Hreq Hs. apply refresh_success in Hr as (c & Hc & Hrev & Hnow); [|done].
  assert (Hrev2 : token_revoked (jti c) w2).
  { eapply (sched_keeps time_passes (token_revoked (jti c))) in Hs; [done| | |done].
    - intros w0 w0' (t0 & _ & ->). done.
    - simpl. eapply Forall_impl; [exact Hreq|]. intros. by eapply requests_keep_revoked. }
  assert (Hnow2 : now w <= now w2).
  { eapply (sched_keeps time_passes (fun x => now w <= now x)) in Hs; [done| | |done].
    - intros w0 w0' (t0 & Ht & ->) Hle. simpl. lia.
    - simpl. eapply Forall_impl; [exact Hreq|]. intros. by eapply requests_keep_time. }
  assert (Hv : exists e, refresh_verdict key alg w2 t = Raise e /\
    (e = RefreshTokenRevokedError "This refresh token has already been used or revoked." \/
     e = TokenExpiredError "The token has expired.")).
  { unfold refresh_verdict. destruct (validate_at_later key alg t "refresh" _ _ _ Hnow2 Hc) as [->| ->]; simpl; [|by eauto].
    destruct Hrev2 as (r & -> & ->). eauto. }
  destruct Hv as (e & He & Hcase). exists e. rewrite run_validate, He. split_and!; [done| |done].
  by apply refresh_raises.
Qed.

(** The race the rotation does not close: between validating a refresh token and
    revoking it the service awaits the database, so two concurrent exchanges of one valid
    token can both succeed, and leave two different refresh tokens that are both good. *)
Theorem refresh_race t w row u :
  1 <= rdays -> keyed w -> uuids_unused w -> refresh_verdict key alg w t = Ret row ->
  users w !! rt_user_id row = Some u -> u_is_active u = true ->
  exists p1 p2 w',
    sched time_passes ([refresh_tokens key alg amin rdays t; refresh_tokens key alg amin rdays t], w)
      ([Finished _ (Ret p1); Finished _ (Ret p2)], w') /\
    refresh_token p1 <> refresh_token p2 /\
    (exists r1, refresh_verdict key alg w' (refresh_token p1) = Ret r1) /\
    (exists r2, refresh_verdict key alg w' (refresh_token p2) = Ret r2).
Proof using Laws.
  intros Hd [Hkt Hku] Hun Hv Hu Ha. pose proof (Hku _ _ Hu) as Hid.
  apply verdict_ret in Hv as Hrow. destruct Hrow as (c & Hc & Hrow & _). pose proof (Hkt _ _ Hrow) as Hj.
  set (w0 := with_tokens (<[jti c := revoked_token row]> (Auth.refresh_tokens w)) w).
  assert (Hfresh : forall n, (draws w <= n)%nat -> uuid4 n <> jti c).
  { intros n Hn Heq. pose proof (Hun n Hn) as Hx. rewrite Heq in Hx. congruence. }
  assert (H2 : run_co (after_validation key alg amin rdays row) w
    = (Ret (pair_of key alg amin rdays w0 (u_id u)), with_pair rdays w0 (u_id u))).
  { apply (after_validation_run key alg amin rdays row c row u w Hd Hj Hrow Hu); [by rewrite Hid|done|apply Hun; lia]. }
  set (w1 := with_pair rdays w0 (u_id u)) in *.
  assert (Hrow1 : Auth.refresh_tokens w1 !! jti c = Some (revoked_token row)).
  { unfold w1, with_pair. simpl. rewrite lookup_insert_ne by (apply Hfresh; lia). by rewrite lookup_insert_eq. }
  set (w2 := with_tokens (<[jti c := revoked_token (revoked_token row)]> (Auth.refresh_tokens w1)) w1).
  assert (H1 : run_co (after_validation key alg amin rdays row) w1
    = (Ret (pair_of key alg amin rdays w2 (u_id u)), with_pair rdays w2 (u_id u))).
  { apply (after_validation_run key alg amin rdays row c _ u w1 Hd Hj Hrow1 Hu); [by rewrite Hid|done|].
    unfold w1, with_pair. simpl. rewrite lookup_insert_ne by (intros Hx; apply uuid4_fresh in Hx; lia).
    rewrite lookup_insert_ne by (intros Hx; symmetry in Hx; revert Hx; apply Hfresh; lia). apply Hun. lia. }
  assert (Hn : now w < whole (now w + days rdays)).
  { pose proof (whole_gt (now w + days rdays)). unfold days in *. lia. }
  assert (V1 : refresh_verdict key alg (with_pair rdays w2 (u_id u)) (refresh_token (pair_of key alg amin rdays w2 (u_id u)))
    = Ret (new_row rdays w2 (u_id u))).
  { apply verdict_of_new; [done|change (now w <= now w < whole (now w + days rdays)); lia|simpl]. by rewrite lookup_insert_eq. }
  assert (V2 : refresh_verdict key alg (with_pair rdays w2 (u_id u)) (refresh_token (pair_of key alg amin rdays w0 (u_id u)))
    = Ret (new_row rdays w0 (u_id u))).
  { apply verdict_of_new; [done|change (now w <= now w < whole (now w + days rdays)); lia|simpl].
    rewrite lookup_insert_ne by (intros Hx; apply uuid4_fresh in Hx; lia).
    rewrite lookup_insert_ne by (intros Hx; symmetry in Hx; revert Hx; apply Hfresh; lia). by rewrite lookup_insert_eq. }
  assert (Hwhole : run_co (refresh_tokens key alg amin rdays t) w = run_co (after_validation key alg amin rdays row) w).
  { rewrite refresh_split, run_co_bind. unfold bind. by rewrite run_validate, Hv. }
  exists (pair_of key alg amin rdays w2 (u_id u)), (pair_of key alg amin rdays w0 (u_id u)), (with_pair rdays w2 (u_id u)).
  split_and!; [| |by eauto|by eauto].
  - eapply sched_trans; [rewrite (refresh_split key alg amin rdays t) at 1; apply (sched_run_prefix _ []); by rewrite run_validate, Hv|].
    eapply sched_trans; [apply (sched_run _ [_])|]. rewrite Hwhole, H2. simpl.
    eapply sched_trans; [apply (sched_run _ [])|]. rewrite H1. constructor.
  - intros Heq. rewrite Heq, V2 in V1. injection V1 as Hx. apply uuid4_fresh in Hx. simpl in Hx. lia.
Qed.

(** What presenting an access token for account [i] comes to in a database. *)
Definition account_answer (i : Z) (d : AuthDb) : outcome auth_exn UserRead :=
  match users d !! i with
  | None => Raise (InvalidTokenError "This token's subject no longer exists.")
  | Some u => if u_is_active u then Ret (read_user u) else Raise (InactiveUserError "This account is no longer active.")
  end.
Lemma run_current_user token d :
  run_co (get_current_user key alg token) d =
  ((let? c := validate_at key alg token "access" (now d) in
    match py_int (sub c) with
    | None => Raise (AuthOther "ValueError" ("invalid literal for int() with base 10: " ++ repr (sub c)))
    | Some i => account_answer i d
    end), d).
Proof.
  assert (Hv : validate_token key alg token "access" d = (validate_at key alg token "access" (now d), d)) by done.
  unfold get_current_user. destruct (validate_at key alg token "access" (now d)) as [e|c].
  { by rewrite (run_co_stop _ _ _ _ _ Hv). }
  rewrite (run_co_step _ _ _ _ _ Hv). cbn [obind]. unfold account_answer. destruct (py_int (sub c)) as [i|]; [|done].
  rewrite (run_co_step (get_by_id i) _ d (users d !! i) d) by done. destruct (users d !! i) as [u|]; [|done].
  by destruct (u_is_active u).
Qed.

(** C14. What a token pair is good for. [create_token_pair] stores one unrevoked row for the
    refresh token and changes no other refresh token and no account. From then on, in whatever database and at
    whatever later time the tokens are presented: until the second it expires the access
    token is answered as its account then stands (its current data while active, refused
    once deactivated or deleted); until the second it expires the refresh token is answered
    as the row under its id then stands (the row itself while unrevoked, so the stored row
    as long as nobody logs out or exchanges it, [RefreshTokenRevokedError] once revoked);
    after that second both are expired; and neither is ever taken for the other. *)
Theorem token_pair_roundtrip i u w :
  1 <= amin -> 1 <= rdays -> uuids_unused w -> users w !! i = Some u ->
  exists p w1 row, run_co (create_token_pair key alg amin rdays i) w = (Ret p, w1) /\
  users w1 = users w /\ Auth.refresh_tokens w !! rt_jti row = None /\
  Auth.refresh_tokens w1 = <[rt_jti row := row]> (Auth.refresh_tokens w) /\
  rt_user_id row = i /\ rt_revoked row = false /\ rt_expires_at row = whole (now w + days rdays) /\
  forall later, now w <= now later ->
    run_co (get_current_user key alg (access_token p)) later =
      (if whole (now w + minutes amin) <=? now later then Raise (TokenExpiredError "The token has expired.")
       else account_answer i later, later) /\
    run_co (validate_refresh_token key alg (refresh_token p)) later =
      (if whole (now w + days rdays) <=? now later then Raise (TokenExpiredError "The token has expired.")
       else match Auth.refresh_tokens later !! rt_jti row with
            | None => Raise (InvalidTokenError "This refresh token was not issued by this server.")
            | Some r =>
                if rt_revoked r
                then Raise (RefreshTokenRevokedError "This refresh token has already been used or revoked.")
                else if rt_expires_at r <? now later then Raise (TokenExpiredError "This refresh token has expired.")
                else Ret r
            end, later) /\
    is_ret (fst (run_co (get_current_user key alg (refresh_token p)) later)) = false /\
    is_ret (fst (run_co (validate_refresh_token key alg (access_token p)) later)) = false.
Proof using Laws.
  intros Hm Hd Hun Hu. exists (pair_of key alg amin rdays w i), (with_pair rdays w i), (new_row rdays w i).
  split; [apply (create_pair_run _ _ _ _ i w u); [done|done|apply Hun; lia]|].
  split; [done|]. split; [apply Hun; lia|]. do 4 (split; [done|]).
  intros later Ht. cbn [access_token refresh_token pair_of]. set (t := now later) in *.
  assert (Hacc : forall ty, validate_at key alg (jwt_encode (access_payload amin w i) key alg) ty t =
    if whole (now w + minutes amin) <=? t then Raise (TokenExpiredError "The token has expired.")
    else if String.eqb "access" ty then Ret (claims_of (access_payload amin w i))
    else Raise (InvalidTokenError ("Expected a " ++ repr ty ++ " token, got 'access'."))).
  { intros ty. unfold validate_at. rewrite decode_encoded by done. simpl p_exp. by destruct (_ <=? t). }
  assert (Href : forall ty, validate_at key alg (jwt_encode (refresh_payload rdays w i) key alg) ty t =
    if whole (now w + days rdays) <=? t then Raise (TokenExpiredError "The token has expired.")
    else if String.eqb "refresh" ty then Ret (claims_of (refresh_payload rdays w i))
    else Raise (InvalidTokenError ("Expected a " ++ repr ty ++ " token, got 'refresh'."))).
  { intros ty. unfold validate_at. rewrite decode_encoded by done.
    change (p_exp (refresh_payload rdays w i)) with (now w + days rdays). by destruct (whole (now w + days rdays) <=? t). }
  rewrite !run_validate, !run_current_user. unfold refresh_verdict. fold t. rewrite !Hacc, !Href. split_and!.
  - destruct (_ <=? t); [done|]. simpl. by rewrite py_int_show.
  - by destruct (whole (now w + days rdays) <=? t).
  - by destruct (whole (now w + days rdays) <=? t).
  - by destruct (whole (now w + minutes amin) <=? t).
Qed.

(** A login by email can be taken over by a username. Where a user Bob could log in
    with his email, anyone may register that email text as a username (nothing compares
    the two), and from then on Bob's own email and password are refused, because the
    username is looked up first. *)
Theorem email_login_shadowed w bob i e pw mail mpw :
  users w !! i = Some bob -> u_email bob = e -> (forall j u, users w !! j = Some u -> u_email u = e -> u = bob) ->
  u_is_active bob = true -> verify_password pw (u_password_hash bob) = Ret true ->
  find_user (fun u => String.eqb (u_username u) e) w = None -> find_user (fun u => String.eqb (u_email u) mail) w = None ->
  users w !! next_id w = None -> verify_password pw (argon2_hash mpw (draws w)) = Ret false ->
  run_co (authenticate e pw) w = (Ret (read_user bob), w) /\
  exists r w1, run_co (register_user e mail mpw) w = (Ret r, w1) /\
    run_co (authenticate e pw) w1 = (Raise (InvalidCredentialsError "Incorrect username/email or password."), w1).
Proof using Cr.
  intros Hi He Huniq Ha Hpw Hn Hm Hnext Hmpw.
  assert (Hfind : find_user (fun u => String.eqb (u_email u) e) w = Some bob).
  { apply (find_user_unique _ w i); [done|by apply String.eqb_eq|].
    intros j v Hj Hv. apply String.eqb_eq in Hv. eauto. }
  split.
  { unfold authenticate. rewrite run_co_bind. unfold bind. rewrite run_name_or_email. unfold named.
    rewrite Hn, Hfind, Hpw, Ha. done. }
  set (u := {| u_id := next_id w; u_username := e; u_email := mail; u_password_hash := argon2_hash mpw (draws w);
    u_is_active := true; u_is_superuser := false; u_role := ANALYST; u_created_at := now w; u_updated_at := now w |}).
  exists (read_user u), (with_next (with_users (<[next_id w := u]> (users w)) (with_draw w))). split.
  - unfold register_user. rewrite run_co_bind. unfold bind. rewrite run_name_or_email. unfold named. rewrite Hn, Hm.
    rewrite (run_co_step (hash_password mpw) _ _ (argon2_hash mpw (draws w)) (with_draw w)) by done.
    rewrite run_co_bind. unfold bind. rewrite run_co_catch. unfold try_except. rewrite run_co_atomic.
    unfold create_user. change (users (with_draw w)) with (users w).
    rewrite existsb_none; [done|]. intros j v Hj. apply orb_false_iff. split.
    + exact (find_user_none _ _ Hn j v Hj).
    + exact (find_user_none _ _ Hm j v Hj).
  - unfold authenticate. rewrite run_co_bind. unfold bind. rewrite run_name_or_email. unfold named.
    rewrite (find_user_unique _ _ (next_id w) u); [change (u_password_hash u) with (argon2_hash mpw (draws w)); by rewrite Hmpw| | |].
    + simpl. by rewrite lookup_insert_eq.
    + simpl. apply String.eqb_refl.
    + simpl. intros j v Hj Hv. destruct (decide (next_id w = j)) as [<-|Hne].
      * rewrite lookup_insert_eq in Hj. congruence.
      * rewrite lookup_insert_ne in Hj by done. by rewrite (find_user_none _ _ Hn j v Hj) in Hv.
Qed.

(** C15. Whom a login lets in: only an active account found under that name or email
    whose hash accepts the password; nothing is written. An unknown name and a wrong
    password are refused with the very same error, and that an account is inactive is
    told only to someone who knows its password. *)
Theorem authenticate_spec x pw w :
  (forall p h m, bcrypt_checkpw p h <> Raise (InactiveUserError m)) ->
  (forall r w', run_co (authenticate x pw) w = (Ret r, w') ->
     w' = w /\ exists i u, users w !! i = Some u /\ (u_username u = x \/ u_email u = x) /\
       verify_password pw (u_password_hash u) = Ret true /\ u_is_active u = true /\ r = read_user u) /\
  ((forall i u, users w !! i = Some u -> u_username u = x \/ u_email u = x ->
      verify_password pw (u_password_hash u) = Ret false) ->
   run_co (authenticate x pw) w = (Raise (InvalidCredentialsError "Incorrect username/email or password."), w)) /\
  (forall m w', run_co (authenticate x pw) w = (Raise (InactiveUserError m), w') ->
     exists i u, users w !! i = Some u /\ (u_username u = x \/ u_email u = x) /\
       verify_password pw (u_password_hash u) = Ret true /\ u_is_active u = false).
Proof using Cr.
  intros Hb.
  assert (Hv : forall p h m, verify_password p h <> Raise (InactiveUserError m)).
  { intros p h m. unfold verify_password. destruct (startswith _ h); [by destruct (argon2_verify h p)|].
    by destruct (existsb _ _). }
  unfold authenticate. rewrite run_co_bind. unfold bind. rewrite run_name_or_email.
  destruct (named x x w) as [u|] eqn:Ef; [|by split_and!].
  pose proof (named_some _ _ _ _ Ef) as (i & Hi & Hx).
  destruct (verify_password pw (u_password_hash u)) as [e|[]] eqn:Ep; simpl.
  - split_and!; [done|intros Hall; by rewrite (Hall _ _ Hi Hx) in Ep|].
    intros m w' [= -> <-]. by apply Hv in Ep.
  - destruct (u_is_active u) eqn:Ea; simpl; split_and!; try done.
    + intros r w' [= <- <-]. split; [done|]. by exists i, u.
    + intros Hall; by rewrite (Hall _ _ Hi Hx) in Ep.
    + intros Hall; by rewrite (Hall _ _ Hi Hx) in Ep.
    + intros m w' _. by exists i, u.
  - by split_and!.
Qed.

(** Revoking an API key is authorised and final. Only its owner or an [ADMIN] can
    revoke it; anyone else is told it does not exist and changes nothing. Once revoked,
    whatever any number of clients do afterwards, in any interleaving, no text with that
    hash authenticates. *)
Theorem api_key_revocation who i k w :
  api_keys w !! i = Some k -> (forall j k', api_keys w !! j = Some k' -> k_hash k' = k_hash k -> j = i) ->
  i < next_id w ->
  (k_user_id k <> ur_id who -> ur_role who <> ADMIN ->
     run_co (revoke_api_key who i) w = (Raise (ApiKeyNotFoundError ("No API key with id " ++ show_Z i ++ ".")), w)) /\
  (k_user_id k = ur_id who \/ ur_role who = ADMIN ->
     exists w1, run_co (revoke_api_key who i) w = (Ret tt, w1) /\
     forall threads threads' w2 raw,
       Forall (request key alg amin rdays unit) threads -> sched time_passes (threads, w1) (threads', w2) ->
       hash_api_key raw = k_hash k -> startswith API_KEY_PREFIX raw = true ->
       run_co (authenticate_api_key raw) w2 = (Raise (ApiKeyRevokedError "This API key has been revoked."), w2)).
Proof using Cr.
  intros Hk Huniq Hi. unfold revoke_api_key. split.
  - intros Hne Hna. erewrite (run_co_step (get_api_key_by_id i)) by reflexivity. rewrite Hk.
    unfold is_admin, has_role. rewrite (proj2 (Z.eqb_neq _ _) Hne), bool_decide_false by done. done.
  - intros Hok. erewrite (run_co_step (get_api_key_by_id i)) by reflexivity. rewrite Hk.
    replace (negb (k_user_id k =? ur_id who) && negb (is_admin who)) with false.
    2: { symmetry. apply andb_false_iff. destruct Hok as [->|Hr]; [left|right]; apply negb_false_iff.
         - apply Z.eqb_refl.
         - by apply bool_decide_eq_true. }
    cbv iota. rewrite run_co_atomic.
    assert (Hrev : exists w1, repo_revoke_api_key i w = (Ret tt, w1) /\ key_revoked i (k_hash k) w1).
    { unfold repo_revoke_api_key. rewrite Hk. destruct (k_revoked_at k) eqn:E.
      - exists w. split; [done|]. split_and!; [|done|done]. exists k. by rewrite E.
      - eexists. split; [done|]. apply (key_revoked_insert i (k_hash k) i k); [done|done|].
        split_and!; done. }
    destruct Hrev as (w1 & -> & Hrev). exists w1. split; [done|].
    intros threads threads' w2 raw Hreq Hs Hh Hp.
    assert (Hrev2 : key_revoked i (k_hash k) w2).
    { eapply (sched_keeps time_passes (key_revoked i (k_hash k))) in Hs; [done| | |done].
      - intros w0 w0' (t0 & _ & ->). done.
      - simpl. eapply Forall_impl; [exact Hreq|]. intros. by eapply requests_keep_key_revoked. }
    destruct Hrev2 as ((k2 & Hk2 & Hh2 & Hr2) & Hu2 & _).
    unfold authenticate_api_key. rewrite Hp. cbv [negb].
    erewrite (run_co_step (get_api_key_by_hash (hash_api_key raw))) by reflexivity.
    rewrite Hh, (find_key_unique _ w2 i k2); [|done|by apply String.eqb_eq|].
    + destruct (k_revoked_at k2); done.
    + intros j k' Hj Hx. apply String.eqb_eq in Hx. rewrite (Hu2 _ _ Hj Hx) in Hj. congruence.
Qed.
End Props.

(** ** Witnesses *)
Module CryptoDemo.
(** Tokens that are the number of their payload and their key; a password is its own
    hash behind a scheme prefix. *)
Definition image (p : Payload) (key alg : string) : string * string * Z * Z * string * string * string :=
  (p_sub p, p_jti p, p_iat p, p_exp p, p_type p, key, alg).
Definition encode_demo (p : Payload) (key alg : string) : string :=
  show_Z (Zpos (encode (image p key alg))).
Definition decode_demo (token key alg : string) (t : Z) : jwt_error + Decoded :=
  match py_int token with
  | Some (Zpos n) =>
      match decode n with
      | Some (s, j, i, e, ty, key', alg') =>
          if negb (String.eqb key' key) || negb (String.eqb alg' alg) then inl (InvalidJwt "Signature verification failed")
          else if e / 1000000 * 1000000 <=? t then inl ExpiredSignature
          else if t <? i / 1000000 * 1000000 then inl (InvalidJwt "The token is not yet valid (iat)")
          else inr {| d_sub := Some s; d_jti := Some j; d_iat := Some (i / 1000000); d_exp := Some (e / 1000000);
                      d_type := Some ty |}
      | None => inl (InvalidJwt "Not enough segments")
      end
  | _ => inl (InvalidJwt "Not enough segments")
  end.
#[global] Instance crypto : Crypto := {|
  jwt_encode := encode_demo;
  jwt_decode := decode_demo;
  argon2_hash := fun p _ => ARGON2_PREFIX ++ p;
  argon2_verify := fun h p => if String.eqb h (ARGON2_PREFIX ++ p) then Verified else VerificationError;
  bcrypt_checkpw := fun _ _ => Ret false;
  sha256_hex := fun s => "#" ++ s;
  uuid4 := fun n => show_nat n;
  token_urlsafe := fun n => show_nat n |}.
#[global] Instance laws : PyJwtLaws.
Proof.
  split.
  - intros p key alg t Ht. simpl. unfold decode_demo, encode_demo. rewrite py_int_show. cbv iota.
    rewrite decode_encode. cbv [image]. rewrite !String.eqb_refl. cbv [negb orb].
    destruct (_ <=? t); [done|]. destruct (Z.ltb_spec t (p_iat p / 1000000 * 1000000)); [lia|done].
  - intros token key alg t t' p Ht. simpl. unfold decode_demo. destruct (py_int token) as [[|n|]|]; try done.
    destruct (decode n) as [[[[[[[s j] i] e] ty] k'] a']|]; [|done]. destruct (_ || _); [done|].
    destruct (Z.leb_spec (e / 1000000 * 1000000) t); [done|].
    destruct (Z.ltb_spec t (i / 1000000 * 1000000)); [done|]. intros [= <-].
    destruct (_ <=? t'); [by right|]. destruct (Z.ltb_spec t' (i / 1000000 * 1000000)); [lia|by left].
  - intros n m Hnm. apply (inj pretty) in Hnm. done.
Qed.

Definition bob : User :=
  {| u_id := 1; u_username := "bob"; u_email := "bob@example.com"; u_password_hash := ARGON2_PREFIX ++ "secret";
     u_is_active := true; u_is_superuser := false; u_role := ANALYST; u_created_at := 0; u_updated_at := 0 |}.
Definition db0 : AuthDb :=
  {| users := {[1 := bob]}; Auth.refresh_tokens := ∅; api_keys := ∅; now := 0; next_id := 2; draws := 0 |}.
(** Bob logged in. *)
Definition db1 : AuthDb := with_pair 14 db0 1.
Definition token : string := refresh_token (pair_of "k" "HS256" 30 14 db0 1).
Lemma token_good : refresh_verdict "k" "HS256" db1 token = Ret (new_row 14 db0 1).
Proof.
  apply (verdict_of_new "k" "HS256" 30 14 db0 db1 1).
  - change (0 <= 0 < whole (0 + days 14)). vm_compute. split; [intros Hx; discriminate Hx|reflexivity].
  - unfold db1, with_pair. cbn [Auth.refresh_tokens with_tokens with_draw]. by rewrite lookup_insert_eq.
Qed.
Lemma db1_keyed : keyed db1.
Proof.
  split.
  - intros j r. unfold db1, with_pair. simpl. rewrite insert_empty.
    intros [<- <-]%lookup_singleton_Some. done.
  - intros i u. unfold db1, with_pair. simpl. intros [<- <-]%lookup_singleton_Some. done.
Qed.
Lemma db1_unused : uuids_unused db1.
Proof.
  intros n Hn. unfold db1, with_pair in *. simpl in *. rewrite insert_empty. apply lookup_singleton_None.
  intros Hx. pose proof (uuid4_fresh 1%nat n Hx). lia.
Qed.
Definition key1 : ApiKey :=
  {| k_id := 7; k_user_id := 1; k_prefix := "qm_1"; k_hash := "#qm_1"; k_name := "ci"; k_created_at := 0;
     k_expires_at := None; k_last_used_at := None; k_revoked_at := None |}.
Definition db_keys : AuthDb :=
  {| users := {[1 := bob]}; Auth.refresh_tokens := ∅; api_keys := {[7 := key1]}; now := 0; next_id := 8; draws := 0 |}.
End CryptoDemo.

Lemma refresh_rotation_witness :
  exists p w1 e, run_co (refresh_tokens "k" "HS256" 30 14 CryptoDemo.token) CryptoDemo.db1 = (Ret p, w1) /\
    run_co (refresh_tokens "k" "HS256" 30 14 CryptoDemo.token) (with_now 5 w1) = (Raise e, with_now 5 w1).
Proof.
  assert (Hr : exists p w1, run_co (refresh_tokens "k" "HS256" 30 14 CryptoDemo.token) CryptoDemo.db1 = (Ret p, w1) /\ now w1 = 0).
  { rewrite refresh_split, run_co_bind. unfold bind. rewrite run_validate, CryptoDemo.token_good. cbv iota.
    eexists _, _. split; [|shelve].
    apply (after_validation_run "k" "HS256" 30 14 (new_row 14 CryptoDemo.db0 1)
      {| sub := ""; jti := uuid4 1; iat := 0; exp := 0; type_ := "" |} (new_row 14 CryptoDemo.db0 1) CryptoDemo.bob);
      [lia|reflexivity|reflexivity|reflexivity|reflexivity|reflexivity|].
    apply (CryptoDemo.db1_unused 3%nat). simpl. lia.
    Unshelve. reflexivity. }
  destruct Hr as (p & w1 & Hr & Hn).
  destruct (refresh_rotation "k" "HS256" 30 14 [] [] CryptoDemo.token CryptoDemo.db1 p w1 (with_now 5 w1)
    CryptoDemo.db1_keyed Hr (Forall_nil_2 _)) as (e & _ & He & _).
  - apply (sched_env _ _ _ (with_now 5 w1)); [|constructor]. exists 5. rewrite Hn. split; [lia|reflexivity].
  - exists p, w1, e. split; [exact Hr|exact He].
Defined.

Lemma refresh_race_witness :
  exists p1 p2 w', sched time_passes
    ([refresh_tokens "k" "HS256" 30 14 CryptoDemo.token; refresh_tokens "k" "HS256" 30 14 CryptoDemo.token], CryptoDemo.db1)
    ([Finished _ (Ret p1); Finished _ (Ret p2)], w') /\ refresh_token p1 <> refresh_token p2.
Proof.
  destruct (refresh_race "k" "HS256" 30 14 CryptoDemo.token CryptoDemo.db1 (new_row 14 CryptoDemo.db0 1) CryptoDemo.bob
    ltac:(lia) CryptoDemo.db1_keyed CryptoDemo.db1_unused CryptoDemo.token_good eq_refl eq_refl)
    as (p1 & p2 & w' & Hs & Hne & _).
  exists p1, p2, w'. split; [exact Hs|exact Hne].
Defined.

(** A minute later Bob's account is still there; his refresh token was revoked in between. *)
Lemma token_pair_roundtrip_witness :
  exists p w1, run_co (create_token_pair "k" "HS256" 30 14 1) CryptoDemo.db1 = (Ret p, w1) /\
    run_co (get_current_user "k" "HS256" (access_token p)) (with_now 60000000 w1)
      = (Ret (read_user CryptoDemo.bob), with_now 60000000 w1) /\
    let revoked := with_tokens (revoked_token <$> Auth.refresh_tokens w1) w1 in
    run_co (validate_refresh_token "k" "HS256" (refresh_token p)) revoked
      = (Raise (RefreshTokenRevokedError "This refresh token has already been used or revoked."), revoked).
Proof.
  destruct (token_pair_roundtrip "k" "HS256" 30 14 1 CryptoDemo.bob CryptoDemo.db1 ltac:(lia) ltac:(lia)
    CryptoDemo.db1_unused eq_refl) as (p & w1 & row & Hp & Hu & _ & Htok & _ & _ & _ & Hl).
  exists p, w1. split; [exact Hp|]. split.
  - assert (Ht : now CryptoDemo.db1 <= 60000000) by (simpl; lia).
    destruct (Hl (with_now 60000000 w1) Ht) as (Ha & _). rewrite Ha. unfold account_answer.
    change (users (with_now 60000000 w1)) with (users w1). rewrite Hu. reflexivity.
  - intros revoked. assert (Hn : now revoked = now CryptoDemo.db1).
    { change (now w1 = now CryptoDemo.db1). pose proof (f_equal (fun x => now (snd x)) Hp) as Hq. cbn [snd] in Hq. rewrite <- Hq. vm_compute. reflexivity. }
    destruct (Hl revoked) as (_ & Hr & _); [rewrite Hn; apply Z.le_refl|]. rewrite Hr, Hn. unfold revoked. cbn [Auth.refresh_tokens with_tokens].
    rewrite lookup_fmap, Htok, lookup_insert_eq. reflexivity.
Defined.

Lemma email_login_shadowed_witness :
  exists r w1, run_co (register_user "bob@example.com" "mallory@example.com" "hunter22") CryptoDemo.db0 = (Ret r, w1) /\
    run_co (authenticate "bob@example.com" "secret") w1
      = (Raise (InvalidCredentialsError "Incorrect username/email or password."), w1).
Proof.
  refine (proj2 (email_login_shadowed CryptoDemo.db0 CryptoDemo.bob 1 "bob@example.com" "secret"
    "mallory@example.com" "hunter22" eq_refl eq_refl _ eq_refl eq_refl eq_refl eq_refl eq_refl eq_refl)).
  intros j u Hj _. change (({[1 := CryptoDemo.bob]} : gmap Z User) !! j = Some u) in Hj.
  apply lookup_singleton_Some in Hj as [_ Hj]. symmetry. exact Hj.
Defined.

Lemma authenticate_spec_witness :
  run_co (authenticate "bob" "wrong") CryptoDemo.db0
  = (Raise (InvalidCredentialsError "Incorrect username/email or password."), CryptoDemo.db0).
Proof.
  refine (proj1 (proj2 (authenticate_spec "bob" "wrong" CryptoDemo.db0 _)) _); [discriminate|].
  intros i u Hi _. change (({[1 := CryptoDemo.bob]} : gmap Z User) !! i = Some u) in Hi.
  apply lookup_singleton_Some in Hi as [_ Hi]. rewrite <- Hi. reflexivity.
Defined.

Lemma api_key_revocation_witness :
  exists w1, run_co (revoke_api_key (read_user CryptoDemo.bob) 7) CryptoDemo.db_keys = (Ret tt, w1) /\
    run_co (authenticate_api_key "qm_1") w1 = (Raise (ApiKeyRevokedError "This API key has been revoked."), w1).
Proof.
  destruct (api_key_revocation "k" "HS256" 30 14 (read_user CryptoDemo.bob) 7 CryptoDemo.key1 CryptoDemo.db_keys)
    as [_ Hok]; [reflexivity| |simpl; lia|].
  - intros j k' Hj _. change (({[7 := CryptoDemo.key1]} : gmap Z ApiKey) !! j = Some k') in Hj.
    apply lookup_singleton_Some in Hj as [Hj _]. symmetry. exact Hj.
  - destruct (Hok (or_introl eq_refl)) as (w1 & Hr & Hall). exists w1. split; [exact Hr|].
    refine (Hall [] [] w1 "qm_1" (Forall_nil_2 _) _ eq_refl eq_refl). constructor.
Defined.
