(* ===== verification/RateLimiter.v ===== *)
(** * The token-bucket rate limiter ([querymind.security.rate_limiter])

    [InMemoryTokenBucketRateLimiter.check] on the clock reading it takes inside its
    lock; tokens are floats, times are microseconds. *)
From S2P Require Import Prelude PyFloat PyStr.
#[local] Open Scope string_scope.
#[local] Open Scope Z_scope.

(** [retry_after_seconds]: a float or [float("inf")]. *)
Inductive seconds := Finite (q : Q) | Infinite.
Record RateLimitDecision := { allowed : bool; retry_after_seconds : seconds }.
Definition allow : RateLimitDecision := {| allowed := true; retry_after_seconds := Finite 0 |}.

Record Bucket := { tokens : Q; last_refill : Z }.
Abbreviation Buckets := (gmap string Bucket).

(** [timedelta.total_seconds()]. *)
Definition total_seconds (microseconds : Z) : Q := fl (microseconds # 1000000).

(** The bucket as it stands at [now], created full on first use. *)
Definition refill (capacity : Z) (refill_per_second : Q) (now : Z) (b : option Bucket) : Bucket :=
  match b with
  | None => {| tokens := f_of_Z capacity; last_refill := now |}
  | Some b =>
      let elapsed := total_seconds (now - last_refill b) in
      if fltb 0 elapsed
      then {| tokens := fmin (f_of_Z capacity) (fadd (tokens b) (fmul elapsed refill_per_second));
              last_refill := now |}
      else b
  end.
Definition check (key : string) (capacity : Z) (refill_per_second : Q) (now : Z) (bs : Buckets)
  : RateLimitDecision * Buckets :=
  let b := refill capacity refill_per_second now (bs !! key) in
  if fleb 1 (tokens b)
  then (allow, <[key := {| tokens := fsub (tokens b) 1; last_refill := last_refill b |}]> bs)
  else
    let missing := fsub 1 (tokens b) in
    ({| allowed := false;
        retry_after_seconds := if fltb 0 refill_per_second then Finite (fdiv missing refill_per_second) else Infinite |},
     <[key := b]> bs).

(** [NoOpRateLimiter.check]. *)
Definition no_op_check (key : string) (capacity : Z) (refill_per_second : Q) (now : Z) : RateLimitDecision := allow.

(** A client's requests, one per clock reading. *)
Fixpoint requests (key : string) (capacity : Z) (refill_per_second : Q) (times : list Z) (bs : Buckets)
  : list bool * Buckets :=
  match times with
  | [] => ([], bs)
  | t :: times' =>
      let '(d, bs1) := check key capacity refill_per_second t bs in
      let '(ds, bs2) := requests key capacity refill_per_second times' bs1 in
      (allowed d :: ds, bs2)
  end.

(** ** Lemmas *)
Lemma total_seconds_nonpos m : m <= 0 -> fltb 0 (total_seconds m) = false.
Proof.
  intros Hm. apply fltb_ge. unfold total_seconds. change 0%Q with (inject_Z 0). apply fl_le_int; [lia|].
  unfold Qle. simpl. lia.
Qed.
Lemma f_of_Z_exact z : 0 <= z <= 2 ^ 53 -> (f_of_Z z == inject_Z z)%Q.
Proof. intros Hz. apply fl_int. lia. Qed.
Lemma fsub_1_int q z : 1 <= z <= 2 ^ 53 -> (q == inject_Z z)%Q -> (fsub q 1 == inject_Z (z - 1))%Q.
Proof.
  intros Hz Hq. unfold fsub. rewrite <- (fl_int (z - 1)) by lia. apply Qle_antisym; apply fl_mono.
  - rewrite Hq. unfold Z.sub. rewrite inject_Z_plus. apply Qle_refl.
  - rewrite Hq. unfold Z.sub. rewrite inject_Z_plus. apply Qle_refl.
Qed.
Lemma fleb_1_int q z : (q == inject_Z z)%Q -> fleb 1 q = (1 <=? z).
Proof.
  intros Hq. destruct (Z.leb_spec 1 z).
  - apply fleb_spec. rewrite Hq. change 1%Q with (inject_Z 1). by rewrite <- Zle_Qle.
  - apply not_true_iff_false. rewrite fleb_spec, Hq. change 1%Q with (inject_Z 1). rewrite <- Zle_Qle. lia.
Qed.

(** A full or half-empty bucket when the clock does not advance. *)
Lemma stuck_requests key cap r t0 times z b bs :
  0 <= z <= 2 ^ 53 -> bs !! key = Some b -> last_refill b = t0 -> (tokens b == inject_Z z)%Q ->
  Forall (fun t => t <= t0) times ->
  fst (requests key cap r times bs) =
    (repeat true (Nat.min (length times) (Z.to_nat z)) ++ repeat false (length times - Z.to_nat z))%list.
Proof.
  revert z b bs. induction times as [|t times IH]; intros z b bs Hz Hb Ht Hq Hts; [done|].
  apply Forall_cons in Hts as [Hle Hts]. cbn [requests]. unfold check. rewrite Hb. cbn [refill].
  rewrite total_seconds_nonpos by lia. rewrite (fleb_1_int _ z Hq).
  destruct (Z.leb_spec 1 z) as [H1|H1]; cbv beta iota zeta.
  - specialize (IH (z - 1) {| tokens := fsub (tokens b) 1; last_refill := last_refill b |}
      (<[key := {| tokens := fsub (tokens b) 1; last_refill := last_refill b |}]> bs)).
    destruct (requests key cap r times _) as [ds bs2]. simpl in *.
    rewrite IH; [|lia|by rewrite lookup_insert_eq|done|by apply fsub_1_int; [lia|]|done].
    replace (Z.to_nat z) with (S (Z.to_nat (z - 1))) by lia. simpl. done.
  - assert (z = 0) as -> by lia. specialize (IH 0 b (<[key := b]> bs)).
    destruct (requests key cap r times _) as [ds bs2]. simpl in *.
    rewrite IH; [|lia|by rewrite lookup_insert_eq|done|done|done].
    rewrite Nat.min_0_r, Nat.sub_0_r. done.
Qed.

(** ** Properties *)

(** A burst never exceeds the capacity: on a fresh bucket, while the clock does not
    advance (or runs backwards), exactly the first [capacity] requests are allowed and
    every further one is refused. *)
Theorem burst_is_capacity key capacity r t times bs :
  0 < capacity <= 2 ^ 53 -> bs !! key = None -> Forall (fun t' => t' <= t) times ->
  fst (requests key capacity r (t :: times) bs) =
    (repeat true (Nat.min (S (length times)) (Z.to_nat capacity)) ++
     repeat false (S (length times) - Z.to_nat capacity))%list.
Proof.
  intros Hc Hb Hts. cbn [requests]. unfold check. rewrite Hb. cbn [refill].
  pose proof (f_of_Z_exact capacity ltac:(lia)) as Hq. cbn [tokens last_refill].
  rewrite (fleb_1_int _ capacity Hq). destruct (Z.leb_spec 1 capacity); [|lia]. cbv beta iota zeta.
  pose proof (stuck_requests key capacity r t times (capacity - 1)
    {| tokens := fsub (f_of_Z capacity) 1; last_refill := t |}
    (<[key := {| tokens := fsub (f_of_Z capacity) 1; last_refill := t |}]> bs)) as IH.
  destruct (requests key capacity r times _) as [ds bs2]. simpl in *.
  rewrite IH; [|lia|by rewrite lookup_insert_eq|done|by apply fsub_1_int; [lia|]|done].
  replace (Z.to_nat capacity) with (S (Z.to_nat (capacity - 1))) by lia. done.
Qed.

(** One check: it touches only its own key; tokens stay between 0 and the larger of
    the capacity and what was there; it allows exactly when a whole token was available,
    and then takes one, and a refusal takes none and asks for a wait that is not
    negative, for ever only without refill. *)
Theorem check_spec key capacity r now bs :
  0 <= capacity <= 2 ^ 53 -> (0 <= r)%Q -> (forall b, bs !! key = Some b -> (0 <= tokens b <= f_of_Z capacity)%Q) ->
  let '(d, bs') := check key capacity r now bs in
  (forall key', key' <> key -> bs' !! key' = bs !! key') /\
  exists b', bs' !! key = Some b' /\ (0 <= tokens b' <= f_of_Z capacity)%Q /\
    let b := refill capacity r now (bs !! key) in
    (allowed d = true <-> (1 <= tokens b)%Q) /\
    (allowed d = true -> tokens b' = fsub (tokens b) 1) /\
    (allowed d = false -> b' = b /\
       match retry_after_seconds d with Finite q => (0 <= q)%Q /\ (0 < r)%Q | Infinite => (r == 0)%Q end).
Proof.
  intros Hc Hr Hb.
  assert (Hcap : (0 <= f_of_Z capacity)%Q).
  { rewrite f_of_Z_exact by lia. change 0%Q with (inject_Z 0). rewrite <- Zle_Qle. lia. }
  assert (Hf : (0 <= tokens (refill capacity r now (bs !! key)) <= f_of_Z capacity)%Q).
  { unfold refill. destruct (bs !! key) as [b|] eqn:E; [|simpl; split; [done|apply Qle_refl]].
    destruct (Hb b eq_refl) as [H0 H1]. destruct (fltb 0 _) eqn:Ee; [|done]. apply fltb_spec in Ee. simpl.
    split; [|apply fmin_le_l]. apply fmin_glb; [done|]. apply fadd_nonneg; [done|].
    apply fmul_nonneg; [by apply Qlt_le_weak|done]. }
  unfold check. set (b := refill capacity r now (bs !! key)) in *. destruct (fleb 1 (tokens b)) eqn:E.
  - apply fleb_spec in E. split; [intros; by rewrite lookup_insert_ne|]. eexists. rewrite lookup_insert_eq.
    split; [done|]. simpl. split_and!; try done.
    + by apply fsub_nonneg.
    + rewrite (f_of_Z_exact capacity) by lia. apply fl_le_int; [lia|].
      rewrite <- (f_of_Z_exact capacity) by lia. destruct Hf as [_ Hf]. lra.
  - assert (Hlt : ~ (1 <= tokens b)%Q) by (rewrite <- fleb_spec; congruence).
    split; [intros; by rewrite lookup_insert_ne|]. exists b. rewrite lookup_insert_eq.
    split; [done|]. simpl. split_and!; [apply Hf|apply Hf|by split|done|]. intros _. split; [done|].
    destruct (fltb 0 r) eqn:Er.
    + apply fltb_spec in Er. split; [|done]. apply fdiv_nonneg; [|done]. apply fsub_nonneg. lra.
    + apply fltb_ge in Er. lra.
Qed.

(** ** Witnesses *)
Lemma burst_is_capacity_witness :
  fst (requests "login:ip:203.0.113.5" 3 (fl (3 # 60)) [100; 100; 99; 100; 100] ∅)
  = [true; true; true; false; false].
Proof.
  refine (burst_is_capacity "login:ip:203.0.113.5" 3 (fl (3 # 60)) 100 [100; 99; 100; 100] ∅ _ _ _).
  - lia.
  - reflexivity.
  - repeat constructor; lia.
Defined.
Lemma check_spec_witness :
  exists b', snd (check "k" 3 (fl (3 # 60)) 100 ∅) !! "k" = Some b' /\ (0 <= tokens b' <= f_of_Z 3)%Q.
Proof.
  pose proof (check_spec "k" 3 (fl (3 # 60)) 100 ∅) as Hc.
  destruct (check "k" 3 (fl (3 # 60)) 100 ∅) as [d bs'].
  destruct Hc as (_ & b' & Hb & Ht & _).
  - lia.
  - apply fl_nonneg. unfold Qle. simpl. lia.
  - intros b Hb. discriminate Hb.
  - exists b'. split; [exact Hb|exact Ht].
Defined.
