(* ===== verification/Models.v ===== *)
(** * Shared data models

    The exceptions and the immutable models that travel between the phases of
    the pipeline ([llm/models.py], [sql_generation/models.py],
    [sql_validation/models.py], [sql_execution/models.py],
    [sql_repair/models.py]), the clock, and the enumerations' string values. *)
From S2P Require Import Prelude PyFloat PyStr.
#[local] Open Scope string_scope.
#[local] Open Scope Z_scope.

(** ** Exceptions

    One constructor per exception class the pipeline raises itself;
    [OtherException] is any other subclass of [Exception] (a driver error, a
    sqlglot error that is not a [ParseError], ...); [BaseExceptionOnly] is what
    [except Exception] does not catch ([CancelledError], [KeyboardInterrupt]). *)
Inductive exn : Type :=
| LLMTransientError (msg : string)
| LLMPermanentError (msg : string)
| LLMResponseParsingError (msg : string)
| LLMConfigurationError (msg : string)
| RetryExhaustedError (attempts : Z) (last_error : exn)
| SQLExtractionError (msg : string)
| RepairedSQLExtractionError (msg : string)
| SQLRepairConfigurationError (msg : string)
| SQLSyntaxError (msg : string)
| SchemaValidationError (msg : string)
| BusinessRuleViolationError (msg : string)
| SQLExecutionConfigurationError (msg : string)
| ExecutionRejectedError (reason : string)
| DatabaseConnectionError (msg : string)
| ExecutionTimeoutError (msg : string)
| ExecutionFailureError (msg : string)
| ResultFormattingError (msg : string)
| OtherException (cls msg : string)
| BaseExceptionOnly (cls msg : string).

#[export] Instance exn_eq_dec : EqDecision exn.
Proof. solve_decision. Defined.

(** [type(exc).__name__] *)
Definition exn_class (e : exn) : string :=
  match e with
  | LLMTransientError _ => "LLMTransientError"
  | LLMPermanentError _ => "LLMPermanentError"
  | LLMResponseParsingError _ => "LLMResponseParsingError"
  | LLMConfigurationError _ => "LLMConfigurationError"
  | RetryExhaustedError _ _ => "RetryExhaustedError"
  | SQLExtractionError _ => "SQLExtractionError"
  | RepairedSQLExtractionError _ => "RepairedSQLExtractionError"
  | SQLRepairConfigurationError _ => "SQLRepairConfigurationError"
  | SQLSyntaxError _ => "SQLSyntaxError"
  | SchemaValidationError _ => "SchemaValidationError"
  | BusinessRuleViolationError _ => "BusinessRuleViolationError"
  | SQLExecutionConfigurationError _ => "SQLExecutionConfigurationError"
  | ExecutionRejectedError _ => "ExecutionRejectedError"
  | DatabaseConnectionError _ => "DatabaseConnectionError"
  | ExecutionTimeoutError _ => "ExecutionTimeoutError"
  | ExecutionFailureError _ => "ExecutionFailureError"
  | ResultFormattingError _ => "ResultFormattingError"
  | OtherException cls _ | BaseExceptionOnly cls _ => cls
  end.

(** [str(exc)]; the retry error builds its message from [repr(last_error)]. *)
Fixpoint exn_str (e : exn) : string :=
  match e with
  | LLMTransientError m | LLMPermanentError m | LLMResponseParsingError m
  | LLMConfigurationError m | SQLExtractionError m | RepairedSQLExtractionError m
  | SQLRepairConfigurationError m | SQLSyntaxError m | SchemaValidationError m
  | BusinessRuleViolationError m | SQLExecutionConfigurationError m
  | ExecutionRejectedError m | DatabaseConnectionError m | ExecutionTimeoutError m
  | ExecutionFailureError m | ResultFormattingError m
  | OtherException _ m | BaseExceptionOnly _ m => m
  | RetryExhaustedError n last =>
      "Exhausted " ++ show_Z n ++ " attempt(s); last error: "
        ++ exn_class last ++ "(" ++ repr (exn_str last) ++ ")"
  end.

(** [isinstance(exc, Exception)] *)
Definition is_Exception (e : exn) : bool :=
  match e with BaseExceptionOnly _ _ => false | _ => true end.

(** [except Exception as exc: handler(exc)] *)
Definition except_Exception {W A} (m : prog W exn A) (handler : exn -> prog W exn A) : prog W exn A :=
  try_except m (fun e => if is_Exception e then handler e else throw e).

(** ** The clock: [time.perf_counter()] *)
Class Clock (W : Type) := tick : W -> Q * W.

Definition perf_counter {W E} `{Clock W} : prog W E Q :=
  fun w => let '(t, w') := tick w in (Ret t, w').

(** [(time.perf_counter() - started) * 1000] *)
Definition elapsed_ms {W E} `{Clock W} (started : Q) : prog W E Q :=
  let! now := perf_counter in
  ret (fmul (fsub now started) 1000%Q).

Lemma bind_perf_counter {W E A} `{Clock W} (k : Q -> prog W E A) w :
  bind perf_counter k w = k (fst (tick w)) (snd (tick w)).
Proof. unfold bind, perf_counter. by destruct (tick w). Qed.
Lemma elapsed_ms_eq {W E} `{Clock W} started (w : W) :
  elapsed_ms (E:=E) started w =
  (Ret (fmul (fsub (fst (tick w)) started) 1000%Q), snd (tick w)).
Proof. unfold elapsed_ms. by rewrite bind_perf_counter. Qed.

(** ** LLM models *)
Inductive LLMProvider := CLAUDE | GROQ.
#[export] Instance LLMProvider_eq_dec : EqDecision LLMProvider.
Proof. solve_decision. Defined.
Inductive FinishReason := COMPLETE | MAX_TOKENS | CONTENT_FILTER | FINISH_ERROR.
#[export] Instance FinishReason_eq_dec : EqDecision FinishReason.
Proof. solve_decision. Defined.

Record LLMRequest := {
  req_prompt : string;
  req_model : string;
  req_temperature : Q;
  req_max_tokens : Z }.
#[export] Instance LLMRequest_eq_dec : EqDecision LLMRequest.
Proof. solve_decision. Defined.

Record TokenUsage := { prompt_tokens : Z; completion_tokens : Z }.
#[export] Instance TokenUsage_eq_dec : EqDecision TokenUsage.
Proof. solve_decision. Defined.
Definition total_tokens (u : TokenUsage) : Z := prompt_tokens u + completion_tokens u.

Record GenerationMetrics := {
  gm_provider : LLMProvider;
  gm_model : string;
  gm_latency_ms : Q;
  gm_token_usage : TokenUsage;
  gm_retry_count : Z;
  gm_finish_reason : FinishReason }.
#[export] Instance GenerationMetrics_eq_dec : EqDecision GenerationMetrics.
Proof. solve_decision. Defined.

Record LLMResponse := { content : string; metrics : GenerationMetrics }.
#[export] Instance LLMResponse_eq_dec : EqDecision LLMResponse.
Proof. solve_decision. Defined.

(** ** Generated SQL *)
Inductive SQLDialect := POSTGRESQL | MYSQL | SQLITE | ANSI.
#[export] Instance SQLDialect_eq_dec : EqDecision SQLDialect.
Proof. solve_decision. Defined.
Definition SQLDialect_value (d : SQLDialect) : string :=
  match d with
  | POSTGRESQL => "postgresql" | MYSQL => "mysql" | SQLITE => "sqlite" | ANSI => "ansi"
  end.

Inductive ExtractionMethod := FENCED_SQL_BLOCK | FENCED_GENERIC_BLOCK | RAW_TEXT.
#[export] Instance ExtractionMethod_eq_dec : EqDecision ExtractionMethod.
Proof. solve_decision. Defined.
Definition ExtractionMethod_value (m : ExtractionMethod) : string :=
  match m with
  | FENCED_SQL_BLOCK => "fenced_sql_block"
  | FENCED_GENERIC_BLOCK => "fenced_generic_block"
  | RAW_TEXT => "raw_text"
  end.

Inductive SQLStatementType :=
| ST_SELECT | ST_WITH | ST_INSERT | ST_UPDATE | ST_DELETE | ST_UNKNOWN.
#[export] Instance SQLStatementType_eq_dec : EqDecision SQLStatementType.
Proof. solve_decision. Defined.

Record SQLGenerationStatistics := {
  extraction_method : ExtractionMethod;
  raw_sql_length : Z;
  normalized_sql_length : Z;
  normalization_changed_sql : bool;
  generation_latency_ms : Q }.
#[export] Instance SQLGenerationStatistics_eq_dec : EqDecision SQLGenerationStatistics.
Proof. solve_decision. Defined.

Record GeneratedSQL := {
  sql : string;
  statement_type : SQLStatementType;
  raw_llm_content : string;
  dialect : SQLDialect;
  llm_metrics : GenerationMetrics;
  gen_statistics : SQLGenerationStatistics }.
#[export] Instance GeneratedSQL_eq_dec : EqDecision GeneratedSQL.
Proof. solve_decision. Defined.

(** ** Validation results *)
Inductive ValidationSeverity := ERROR | WARNING.
#[export] Instance ValidationSeverity_eq_dec : EqDecision ValidationSeverity.
Proof. solve_decision. Defined.

Record ValidationIssue := {
  issue_code : string;
  severity : ValidationSeverity;
  issue_message : string;
  location : option string;
  related_object : option string }.
#[export] Instance ValidationIssue_eq_dec : EqDecision ValidationIssue.
Proof. solve_decision. Defined.

Record ValidatorExecutionTime := { vet_validator : string; vet_duration_ms : Q }.
#[export] Instance ValidatorExecutionTime_eq_dec : EqDecision ValidatorExecutionTime.
Proof. solve_decision. Defined.

Record ValidationStatistics := {
  validation_latency_ms : Q;
  validator_execution_times : list ValidatorExecutionTime;
  table_count : Z;
  column_count : Z;
  join_count : Z;
  function_count : Z;
  error_count : Z;
  warning_count : Z }.
#[export] Instance ValidationStatistics_eq_dec : EqDecision ValidationStatistics.
Proof. solve_decision. Defined.

Record SQLValidationResult := {
  generated_sql : GeneratedSQL;
  is_valid : bool;
  errors : list ValidationIssue;
  warnings : list ValidationIssue;
  validated_tables : list string;
  validated_columns : list string;
  validated_functions : list string;
  validation_statistics : ValidationStatistics }.
#[export] Instance SQLValidationResult_eq_dec : EqDecision SQLValidationResult.
Proof. solve_decision. Defined.
