(* ===== verification/ContextModels.v ===== *)
(** * Models of the question-understanding phases

    The immutable models of [nlu/models.py], [metadata/models.py],
    [schema_linker/models.py], [query_library/models.py] and
    [retrieval/models.py]. A field name carries a short prefix for its class,
    since Rocq record fields share one name space. Dates are proleptic Gregorian
    ordinals (see [NluTime]); timestamps are microseconds since the epoch. *)
From S2P Require Import Prelude PyFloat PyStr Models.
#[local] Open Scope string_scope.
#[local] Open Scope Z_scope.

(** ** [nlu/models.py] *)
Inductive Intent :=
| I_SELECT | I_TOP_N | I_AGGREGATION | I_COMPARISON | I_TREND | I_DETAIL
| I_COUNT | I_AVERAGE | I_SUM | I_MIN | I_MAX.
Definition Intent_value (i : Intent) : string :=
  match i with
  | I_SELECT => "select" | I_TOP_N => "top_n" | I_AGGREGATION => "aggregation"
  | I_COMPARISON => "comparison" | I_TREND => "trend" | I_DETAIL => "detail"
  | I_COUNT => "count" | I_AVERAGE => "average" | I_SUM => "sum"
  | I_MIN => "min" | I_MAX => "max"
  end.
#[export] Instance Intent_eq_dec : EqDecision Intent.
Proof. solve_decision. Defined.

Inductive AggregationType := AGG_COUNT | AGG_SUM | AGG_AVERAGE | AGG_MIN | AGG_MAX.
#[export] Instance AggregationType_eq_dec : EqDecision AggregationType.
Proof. solve_decision. Defined.

Inductive ComparisonOperator :=
| EQUALS | NOT_EQUALS | GREATER_THAN | GREATER_THAN_OR_EQUAL
| LESS_THAN | LESS_THAN_OR_EQUAL | IN | CONTAINS.
#[export] Instance ComparisonOperator_eq_dec : EqDecision ComparisonOperator.
Proof. solve_decision. Defined.
Inductive SortDirection := ASCENDING | DESCENDING.
#[export] Instance SortDirection_eq_dec : EqDecision SortDirection.
Proof. solve_decision. Defined.
Inductive TimePeriod :=
| TODAY | YESTERDAY | THIS_WEEK | LAST_WEEK | THIS_MONTH | LAST_MONTH
| THIS_QUARTER | LAST_QUARTER | THIS_YEAR | LAST_YEAR | BETWEEN | BEFORE | AFTER.
#[export] Instance TimePeriod_eq_dec : EqDecision TimePeriod.
Proof. solve_decision. Defined.

Record FilterExpression := {
  fe_field : string;
  fe_operator : ComparisonOperator;
  fe_value : string;
  fe_raw_text : string }.
#[export] Instance FilterExpression_eq_dec : EqDecision FilterExpression.
Proof. solve_decision. Defined.

Record MetricExpression := {
  me_name : string;
  me_aggregation : option AggregationType;
  me_raw_text : string }.
#[export] Instance MetricExpression_eq_dec : EqDecision MetricExpression.
Proof. solve_decision. Defined.

Record TimeExpression := {
  te_period : TimePeriod;
  te_start_date : option Z;
  te_end_date : option Z;
  te_raw_text : string }.
#[export] Instance TimeExpression_eq_dec : EqDecision TimeExpression.
Proof. solve_decision. Defined.

Record SortExpression := {
  se_field : string;
  se_direction : SortDirection;
  se_raw_text : string }.
#[export] Instance SortExpression_eq_dec : EqDecision SortExpression.
Proof. solve_decision. Defined.

Record LimitExpression := { le_value : Z; le_raw_text : string }.
#[export] Instance LimitExpression_eq_dec : EqDecision LimitExpression.
Proof. solve_decision. Defined.

Record QueryContext := {
  original_question : string;
  normalized_question : string;
  intent : Intent;
  qc_primary_entity : option string;
  qc_secondary_entities : list string;
  business_concepts : list string;
  qc_metrics : list MetricExpression;
  qc_dimensions : list string;
  qc_filters : list FilterExpression;
  time_expression : option TimeExpression;
  qc_sort : option SortExpression;
  limit : option LimitExpression;
  aggregation : option AggregationType;
  confidence : Q }.
#[export] Instance QueryContext_eq_dec : EqDecision QueryContext.
Proof. solve_decision. Defined.

(** ** [metadata/models.py] *)
Inductive ConstraintKind := UNIQUE | CHECK.
#[export] Instance ConstraintKind_eq_dec : EqDecision ConstraintKind.
Proof. solve_decision. Defined.
Inductive RelationshipDirection := ONE_TO_ONE | ONE_TO_MANY | MANY_TO_ONE | MANY_TO_MANY.
#[export] Instance RelationshipDirection_eq_dec : EqDecision RelationshipDirection.
Proof. solve_decision. Defined.

Record PrimaryKeyMetadata := { pk_name : string; pk_columns : list string }.
#[export] Instance PrimaryKeyMetadata_eq_dec : EqDecision PrimaryKeyMetadata.
Proof. solve_decision. Defined.

Record ForeignKeyMetadata := {
  fk_name : string;
  fk_columns : list string;
  referred_table : string;
  referred_columns : list string;
  ondelete : option string }.
#[export] Instance ForeignKeyMetadata_eq_dec : EqDecision ForeignKeyMetadata.
Proof. solve_decision. Defined.

Record ConstraintMetadata := {
  cm_name : string;
  cm_kind : ConstraintKind;
  cm_columns : list string;
  cm_expression : option string }.
#[export] Instance ConstraintMetadata_eq_dec : EqDecision ConstraintMetadata.
Proof. solve_decision. Defined.

Record IndexMetadata := {
  ix_name : string;
  ix_columns : list string;
  ix_unique : bool;
  ix_where : option string }.
#[export] Instance IndexMetadata_eq_dec : EqDecision IndexMetadata.
Proof. solve_decision. Defined.

Record EnumMetadata := {
  em_name : string;
  em_values : list string;
  python_class : string;
  em_table_name : string;
  em_column_name : string }.
#[export] Instance EnumMetadata_eq_dec : EqDecision EnumMetadata.
Proof. solve_decision. Defined.

Record ColumnMetadata := {
  col_table_name : string;
  col_name : string;
  sql_type : string;
  python_type : string;
  nullable : bool;
  primary_key : bool;
  unique : bool;
  autoincrement : bool;
  col_default : option string;
  foreign_key : option ForeignKeyMetadata;
  col_enum : option EnumMetadata;
  col_description : option string;
  col_synonyms : list string;
  example_value : option string;
  display_name : option string;
  search_keywords : list string;
  is_sensitive : bool }.
#[export] Instance ColumnMetadata_eq_dec : EqDecision ColumnMetadata.
Proof. solve_decision. Defined.

Record RelationshipMetadata := {
  rel_name : string;
  rel_source_table : string;
  rel_target_table : string;
  rel_source_columns : list string;
  rel_target_columns : list string;
  rel_direction : RelationshipDirection;
  back_populates : option string }.
#[export] Instance RelationshipMetadata_eq_dec : EqDecision RelationshipMetadata.
Proof. solve_decision. Defined.

Record TableMetadata := {
  tbl_name : string;
  tbl_columns : list ColumnMetadata;
  tbl_primary_key : PrimaryKeyMetadata;
  foreign_keys : list ForeignKeyMetadata;
  unique_constraints : list ConstraintMetadata;
  check_constraints : list ConstraintMetadata;
  indexes : list IndexMetadata;
  tbl_description : option string;
  tbl_synonyms : list string }.
#[export] Instance TableMetadata_eq_dec : EqDecision TableMetadata.
Proof. solve_decision. Defined.

Record DatabaseMetadata := {
  tables : list TableMetadata;
  relationships : list RelationshipMetadata;
  enums : list EnumMetadata;
  generated_at : Z }.
#[export] Instance DatabaseMetadata_eq_dec : EqDecision DatabaseMetadata.
Proof. solve_decision. Defined.

(** ** [schema_linker/models.py] *)
Inductive MatchTier := EXACT | BUSINESS_DICTIONARY | SYNONYM | ALIAS | FUZZY | PARTIAL.
#[export] Instance MatchTier_eq_dec : EqDecision MatchTier.
Proof. solve_decision. Defined.
Inductive ConceptKind := CK_ENTITY | CK_METRIC | CK_DIMENSION | CK_FILTER_FIELD | CK_SORT_FIELD.
#[export] Instance ConceptKind_eq_dec : EqDecision ConceptKind.
Proof. solve_decision. Defined.

Record LinkCandidate := {
  lc_table_name : string;
  lc_column_name : option string;
  lc_confidence : Q;
  lc_matching_reason : MatchTier;
  lc_candidate_rank : Z;
  lc_matched_text : string }.
#[export] Instance LinkCandidate_eq_dec : EqDecision LinkCandidate.
Proof. solve_decision. Defined.

Record ResolvedTable := {
  rt_business_concept : string;
  rt_table : TableMetadata;
  rt_confidence : Q;
  rt_matching_reason : MatchTier;
  rt_candidate_rank : Z;
  rt_alternatives : list LinkCandidate }.
#[export] Instance ResolvedTable_eq_dec : EqDecision ResolvedTable.
Proof. solve_decision. Defined.

Record ResolvedColumn := {
  rc_business_concept : string;
  rc_column : ColumnMetadata;
  rc_confidence : Q;
  rc_matching_reason : MatchTier;
  rc_candidate_rank : Z;
  rc_alternatives : list LinkCandidate }.
#[export] Instance ResolvedColumn_eq_dec : EqDecision ResolvedColumn.
Proof. solve_decision. Defined.

Record ResolvedMetric := {
  rm_business_concept : string;
  rm_column : ColumnMetadata;
  rm_aggregation : option AggregationType;
  rm_raw_text : string;
  rm_confidence : Q;
  rm_matching_reason : MatchTier;
  rm_candidate_rank : Z;
  rm_alternatives : list LinkCandidate }.
#[export] Instance ResolvedMetric_eq_dec : EqDecision ResolvedMetric.
Proof. solve_decision. Defined.

Record ResolvedFilter := {
  rf_business_concept : string;
  rf_column : ColumnMetadata;
  rf_operator : ComparisonOperator;
  rf_value : string;
  rf_raw_text : string;
  rf_confidence : Q;
  rf_matching_reason : MatchTier;
  rf_candidate_rank : Z;
  rf_alternatives : list LinkCandidate }.
#[export] Instance ResolvedFilter_eq_dec : EqDecision ResolvedFilter.
Proof. solve_decision. Defined.

Record ResolvedSort := {
  rs_business_concept : string;
  rs_column : ColumnMetadata;
  rs_direction : SortDirection;
  rs_raw_text : string;
  rs_confidence : Q;
  rs_matching_reason : MatchTier;
  rs_candidate_rank : Z;
  rs_alternatives : list LinkCandidate }.
#[export] Instance ResolvedSort_eq_dec : EqDecision ResolvedSort.
Proof. solve_decision. Defined.

Record ResolvedRelationship := {
  rr_source_table : string;
  rr_target_table : string;
  rr_relationship_name : string;
  rr_source_columns : list string;
  rr_target_columns : list string }.
#[export] Instance ResolvedRelationship_eq_dec : EqDecision ResolvedRelationship.
Proof. solve_decision. Defined.

Record Ambiguity := {
  am_business_concept : string;
  am_concept_kind : ConceptKind;
  am_candidates : list LinkCandidate;
  am_reason : string }.
#[export] Instance Ambiguity_eq_dec : EqDecision Ambiguity.
Proof. solve_decision. Defined.

Record LinkedQueryContext := {
  query_context : QueryContext;
  primary_entity : option ResolvedTable;
  secondary_entities : list ResolvedTable;
  lq_metrics : list ResolvedMetric;
  lq_dimensions : list ResolvedColumn;
  lq_filters : list ResolvedFilter;
  lq_sort : option ResolvedSort;
  relationship_paths : list ResolvedRelationship;
  ambiguities : list Ambiguity }.
#[export] Instance LinkedQueryContext_eq_dec : EqDecision LinkedQueryContext.
Proof. solve_decision. Defined.

Definition is_fully_resolved (c : LinkedQueryContext) : bool :=
  Nat.eqb (length (ambiguities c)) 0.

(** Every distinct table the query touches, in first-resolved order. *)
Definition resolved_table_names (c : LinkedQueryContext) : list string :=
  dedup
    (match primary_entity c with Some e => [tbl_name (rt_table e)] | None => [] end
     ++ map (fun e => tbl_name (rt_table e)) (secondary_entities c)
     ++ map (fun m => col_table_name (rm_column m)) (lq_metrics c)
     ++ map (fun d => col_table_name (rc_column d)) (lq_dimensions c)
     ++ map (fun f => col_table_name (rf_column f)) (lq_filters c)
     ++ match lq_sort c with Some s => [col_table_name (rs_column s)] | None => [] end)%list.

(** ** [query_library/models.py] *)
Inductive Difficulty := BEGINNER | INTERMEDIATE | ADVANCED | EXPERT.
#[export] Instance Difficulty_eq_dec : EqDecision Difficulty.
Proof. solve_decision. Defined.
Definition Difficulty_value (d : Difficulty) : string :=
  match d with
  | BEGINNER => "beginner" | INTERMEDIATE => "intermediate"
  | ADVANCED => "advanced" | EXPERT => "expert"
  end.
Inductive ResultShape := SCALAR | SINGLE_ROW | ROW_LIST | TIME_SERIES | RANKED_LIST.
#[export] Instance ResultShape_eq_dec : EqDecision ResultShape.
Proof. solve_decision. Defined.

Record QueryContextSummary := {
  qs_intent : string;
  qs_primary_entity : option string;
  qs_metrics : list string;
  qs_dimensions : list string;
  qs_aggregation : option string }.
#[export] Instance QueryContextSummary_eq_dec : EqDecision QueryContextSummary.
Proof. solve_decision. Defined.

Record QueryExample := {
  ex_id : string;
  title : string;
  natural_language_question : string;
  ex_normalized_question : string;
  ex_query_context : QueryContextSummary;
  ex_business_concepts : list string;
  linked_schema_objects : list string;
  gold_sql : string;
  sql_explanation : string;
  difficulty : Difficulty;
  tags : list string;
  ex_dialect : SQLDialect;
  expected_result_description : string;
  expected_result_shape : ResultShape;
  common_variations : list string;
  notes : option string }.
#[export] Instance QueryExample_eq_dec : EqDecision QueryExample.
Proof. solve_decision. Defined.

(** ** [retrieval/models.py] *)
Inductive SignalName :=
| INTENT_SIMILARITY | BUSINESS_CONCEPT_OVERLAP | SCHEMA_OVERLAP | TABLE_OVERLAP
| COLUMN_OVERLAP | SQL_FEATURE_OVERLAP | KEYWORD_OVERLAP | DIFFICULTY_SIMILARITY.
#[export] Instance SignalName_eq_dec : EqDecision SignalName.
Proof. solve_decision. Defined.
Definition SignalName_value (s : SignalName) : string :=
  match s with
  | INTENT_SIMILARITY => "intent_similarity"
  | BUSINESS_CONCEPT_OVERLAP => "business_concept_overlap"
  | SCHEMA_OVERLAP => "schema_overlap"
  | TABLE_OVERLAP => "table_overlap"
  | COLUMN_OVERLAP => "column_overlap"
  | SQL_FEATURE_OVERLAP => "sql_feature_overlap"
  | KEYWORD_OVERLAP => "keyword_overlap"
  | DIFFICULTY_SIMILARITY => "difficulty_similarity"
  end.

Record SignalBreakdown := {
  sb_signal : SignalName;
  sb_score : Q;
  sb_weight : Q;
  weighted_score : Q;
  sb_detail : string }.
#[export] Instance SignalBreakdown_eq_dec : EqDecision SignalBreakdown.
Proof. solve_decision. Defined.

Record RetrievalScore := {
  overall_score : Q;
  signal_scores : list SignalBreakdown;
  ranking_reason : string }.
#[export] Instance RetrievalScore_eq_dec : EqDecision RetrievalScore.
Proof. solve_decision. Defined.

Record RetrievedExample := {
  re_example : QueryExample;
  re_overall_score : Q;
  signal_breakdown : list SignalBreakdown;
  matched_business_concepts : list string;
  matched_schema_objects : list string;
  matched_keywords : list string;
  selection_explanation : string }.
#[export] Instance RetrievedExample_eq_dec : EqDecision RetrievedExample.
Proof. solve_decision. Defined.

Record SignalContribution := { sc_signal : SignalName; average_weighted_score : Q }.
#[export] Instance SignalContribution_eq_dec : EqDecision SignalContribution.
Proof. solve_decision. Defined.

Record RetrievalStatistics := {
  retrieval_latency_ms : Q;
  rst_top_k : Z;
  candidate_count : Z;
  average_score : Q;
  signal_contribution : list SignalContribution }.
#[export] Instance RetrievalStatistics_eq_dec : EqDecision RetrievalStatistics.
Proof. solve_decision. Defined.

Record RetrievedKnowledgeBundle := {
  linked_query_context : LinkedQueryContext;
  retrieved_examples : list RetrievedExample;
  rb_statistics : RetrievalStatistics }.
#[export] Instance RetrievedKnowledgeBundle_eq_dec : EqDecision RetrievedKnowledgeBundle.
Proof. solve_decision. Defined.
