(* ===== verification/PromptCompiler.v ===== *)
(** * The prompt compiler ([querymind.prompt_compiler])

    Sections, templates and the seven builders; [PromptBudgetManager.enforce]
    with its trimming loop; [PromptValidator]; [PromptFormatter];
    [PromptCompiler.compile] with its cache. The em dash, the only non-ASCII
    character of the prompt texts, is the one character [em_dash]. *)
From S2P Require Import Prelude PyFloat PyStr Models ContextModels.
#[local] Open Scope string_scope.
#[local] Open Scope Z_scope.

(** ** Models *)
Inductive SectionName :=
| SYSTEM | BUSINESS_CONTEXT | SCHEMA_CONTEXT | RELATIONSHIP
| RETRIEVED_EXAMPLES | CONSTRAINT | OUTPUT_FORMAT.
#[export] Instance SectionName_eq_dec : EqDecision SectionName.
Proof. solve_decision. Defined.
Definition SectionName_value (n : SectionName) : string :=
  match n with
  | SYSTEM => "system" | BUSINESS_CONTEXT => "business_context"
  | SCHEMA_CONTEXT => "schema_context" | RELATIONSHIP => "relationship"
  | RETRIEVED_EXAMPLES => "retrieved_examples" | CONSTRAINT => "constraint"
  | OUTPUT_FORMAT => "output_format"
  end.

Record SectionSpec := {
  spec_name : SectionName;
  header : string;
  order : Z;
  include_by_default : bool }.

Record PromptTemplate := {
  version : string;
  template_name : string;
  section_specs : list SectionSpec }.

(** [PromptTemplate.spec_for]: the first spec of that name, or [PromptCompilationError]. *)
Definition spec_for (t : PromptTemplate) (n : SectionName) : outcome exn SectionSpec :=
  match List.find (fun s => bool_decide (spec_name s = n)) (section_specs t) with
  | Some s => Ret s
  | None => Raise (OtherException "PromptCompilationError"
      ("Template " ++ repr (template_name t) ++ " (v" ++ version t ++ ") has no spec for "
       ++ repr (SectionName_value n) ++ "."))
  end.

Definition ordered_names (t : PromptTemplate) : list SectionName :=
  map spec_name (sorted_by Z.ltb order (section_specs t)).

Definition SCHEMA_TRIM_PRIORITY : Z := 2.
Definition EXAMPLES_TRIM_PRIORITY : Z := 1.
Definition BUSINESS_TRIM_PRIORITY : Z := 3.
Definition NOT_TRIMMABLE_PRIORITY : Z := 0.

(** The class of a section: the base class, or a subclass, which pins [name]
    and, for two of them, adds a tuple field ([schema_objects],
    [example_ids]) kept here in [extras]. *)
Record PromptSection := {
  name : SectionName;
  sec_content : string;
  estimated_tokens : Z;
  priority : Z;
  is_required : bool;
  extras : list string }.

(** [isinstance(section, ExampleSection)] / [SchemaSection]: the [Literal] name
    identifies the subclass. *)
Definition is_ExampleSection (s : PromptSection) : bool := bool_decide (name s = RETRIEVED_EXAMPLES).
Definition is_SchemaSection (s : PromptSection) : bool := bool_decide (name s = SCHEMA_CONTEXT).

(** [section.model_copy(update={"content": .., "estimated_tokens": .., ..})] *)
Definition with_content (s : PromptSection) (c : string) (t : Z) (x : list string) : PromptSection :=
  {| name := name s; sec_content := c; estimated_tokens := t;
     priority := priority s; is_required := is_required s; extras := x |}.

(** ** [budget.py] *)
Definition DEFAULT_MAX_PROMPT_TOKENS : Z := 4000.
Definition CHARS_PER_TOKEN : Z := 4.
Definition TRUNCATION_MARKER : string := nl ++ "...[truncated to fit token budget]".

Definition len (s : string) : Z := Z.of_nat (String.length s).

Definition estimate_tokens (text : string) : Z :=
  if is_empty text then 0 else (len text + CHARS_PER_TOKEN - 1) / CHARS_PER_TOKEN.

Definition sum_tokens (l : list PromptSection) : Z :=
  foldr (fun s acc => estimated_tokens s + acc) 0 l.

(** [_shrink_or_drop]: the trimmed section and the number of tokens freed. *)
Definition shrink_or_drop (s : PromptSection) (excess : Z) : PromptSection * Z :=
  if estimated_tokens s <=? excess then
    (with_content s "" 0 [], estimated_tokens s)
  else
    let target_tokens := Z.max 0 (estimated_tokens s - excess) in
    let target_chars := target_tokens * CHARS_PER_TOKEN in
    let truncated := rstrip (take_str (Z.to_nat target_chars) (sec_content s)) ++ TRUNCATION_MARKER in
    let new_tokens := estimate_tokens truncated in
    (with_content s truncated new_tokens (extras s),
     Z.max 0 (estimated_tokens s - new_tokens)).

(** The trimming loop of [enforce], on [(working, total)]. *)
Fixpoint trim_loop (max_tokens : Z) (trim_order : list PromptSection)
    (working : list (SectionName * PromptSection)) (total : Z) :
    list (SectionName * PromptSection) * Z :=
  match trim_order with
  | [] => (working, total)
  | s :: rest =>
      if total <=? max_tokens then (working, total)
      else
        let '(trimmed, freed) := shrink_or_drop s (total - max_tokens) in
        trim_loop max_tokens rest (alist_set (name s) trimmed working) (total - freed)
  end.

(** [{section.name: section for section in sections}] *)
Definition by_name (l : list PromptSection) : list (SectionName * PromptSection) :=
  fold_left (fun d s => alist_set (name s) s d) l [].

Definition trim_order_of (l : list PromptSection) : list PromptSection :=
  sorted_by Z.ltb priority (List.filter (fun s => negb (is_required s)) l).

Definition enforce (max_tokens : Z) (l : list PromptSection) : list PromptSection :=
  let total := sum_tokens l in
  if total <=? max_tokens then l
  else
    let working := fst (trim_loop max_tokens (trim_order_of l) (by_name l) total) in
    omap (fun s => alist_get (name s) working) l.

(** [PromptBudgetManager.__init__] *)
Definition PromptBudgetManager_init (max_tokens : Z) : outcome exn Z :=
  if max_tokens <=? 0
  then Raise (OtherException "InvalidTokenBudgetError"
    ("max_tokens must be a positive integer, got " ++ show_Z max_tokens ++ "."))
  else Ret max_tokens.

(** ** [validator.py] *)
Record PromptValidationIssue := {
  rule : string;
  pv_severity : ValidationSeverity;
  pv_message : string;
  section : option SectionName }.

Definition report_is_valid (issues : list PromptValidationIssue) : bool :=
  negb (existsb (fun i => match pv_severity i with ERROR => true | WARNING => false end) issues).

Definition pv_error (r m : string) (s : option SectionName) : PromptValidationIssue :=
  {| rule := r; pv_severity := ERROR; pv_message := m; section := s |}.

Definition REQUIRED_SECTIONS : list SectionName := [SYSTEM; CONSTRAINT; OUTPUT_FORMAT].

Definition check_not_empty (l : list PromptSection) : list PromptValidationIssue :=
  if is_empty (strip (String.concat "" (map sec_content l)))
  then [pv_error "not_empty" "The compiled prompt has no content in any section." None]
  else [].

Definition check_required_sections_exist (l : list PromptSection) : list PromptValidationIssue :=
  let present := map name l in
  omap (fun r => if decide (r ∈ present) then None
                 else Some (pv_error "required_sections_exist"
                   ("Required section " ++ repr (SectionName_value r) ++ " is missing.") (Some r)))
       REQUIRED_SECTIONS.

Fixpoint duplicate_example_issues (seen ids : list string) : list PromptValidationIssue :=
  match ids with
  | [] => []
  | i :: ids' =>
      let rest := duplicate_example_issues (i :: seen) ids' in
      if decide (i ∈ seen)
      then pv_error "no_duplicate_examples"
             ("Example " ++ repr i ++ " appears more than once in the retrieved examples section.")
             (Some RETRIEVED_EXAMPLES) :: rest
      else rest
  end.
Definition check_no_duplicate_examples (l : list PromptSection) : list PromptValidationIssue :=
  concat (map (fun s => if is_ExampleSection s then duplicate_example_issues [] (extras s) else []) l).

Definition check_token_budget (max_tokens : Z) (l : list PromptSection) : list PromptValidationIssue :=
  let total := sum_tokens l in
  if total <=? max_tokens then []
  else [pv_error "token_budget"
          ("Estimated " ++ show_Z total ++ " tokens exceeds the " ++ show_Z max_tokens
           ++ " token budget.") None].

Definition check_no_empty_required_section (l : list PromptSection) : list PromptValidationIssue :=
  omap (fun s => if is_required s && is_empty (strip (sec_content s))
                 then Some (pv_error "no_empty_required_section"
                   ("Required section " ++ repr (SectionName_value (name s)) ++ " is empty.")
                   (Some (name s)))
                 else None) l.

Definition validate_sections (max_tokens : Z) (l : list PromptSection) : list PromptValidationIssue :=
  (check_not_empty l ++ check_required_sections_exist l ++ check_no_duplicate_examples l
   ++ check_token_budget max_tokens l ++ check_no_empty_required_section l)%list.

(** ** [CompiledPrompt] and [formatter.py] *)
Record SectionTokenUsage := { stu_section : SectionName; stu_tokens : Z }.

Record PromptStatistics := {
  estimated_total_tokens : Z;
  section_token_usage : list SectionTokenUsage;
  retrieved_example_count : Z;
  schema_object_count : Z;
  compilation_latency_ms : Q }.

Record CompiledPrompt := {
  cp_system : PromptSection;
  cp_business_context : PromptSection;
  cp_schema_context : PromptSection;
  cp_relationships : PromptSection;
  cp_examples : PromptSection;
  cp_constraints : PromptSection;
  cp_output_format : PromptSection;
  cp_statistics : PromptStatistics;
  cp_template : PromptTemplate;
  template_version : string;
  cp_dialect : SQLDialect }.

Definition all_sections (p : CompiledPrompt) : list PromptSection :=
  [cp_system p; cp_business_context p; cp_schema_context p; cp_relationships p;
   cp_examples p; cp_constraints p; cp_output_format p].

(** [PromptFormatter.format]: the part of one section, if it is rendered. *)
Definition format_part (t : PromptTemplate) (p : CompiledPrompt) (n : SectionName)
  : outcome exn (option string) :=
  match alist_get n (by_name (all_sections p)) with
  | None => Ret None
  | Some s =>
      if is_empty (strip (sec_content s)) then Ret None
      else match spec_for t n with
           | Raise e => Raise e
           | Ret spec => Ret (Some (header spec ++ nl ++ strip (sec_content s)))
           end
  end.

Fixpoint format_parts (t : PromptTemplate) (p : CompiledPrompt) (ns : list SectionName)
  : outcome exn (list string) :=
  match ns with
  | [] => Ret []
  | n :: ns' =>
      match format_part t p n with
      | Raise e => Raise e
      | Ret part =>
          match format_parts t p ns' with
          | Raise e => Raise e
          | Ret parts => Ret (match part with Some x => x :: parts | None => parts end)
          end
      end
  end.

Definition format_prompt (t : PromptTemplate) (p : CompiledPrompt) : outcome exn string :=
  match format_parts t p (ordered_names t) with
  | Raise e => Raise e
  | Ret parts => Ret (join (nl ++ nl) parts)
  end.

Definition as_text (p : CompiledPrompt) : outcome exn string := format_prompt (cp_template p) p.

(** ** [templates.py] *)
Definition em_dash : string := String (Ascii.ascii_of_nat 151) "".

Definition SYSTEM_PREAMBLE : string :=
  "You are a precise, careful SQL-writing assistant for QueryMind, a text-to-SQL analytics "
  ++ "engine. Given the business context, schema, relationships, and example queries below, "
  ++ "write SQL that correctly answers the user's question. Use only the tables and columns "
  ++ "explicitly listed " ++ em_dash ++ " never invent a table or column name.".

Definition CONSTRAINT_RULES : list string :=
  ["Only reference tables and columns explicitly listed in the Schema Context section.";
   "Never invent a table, column, or relationship that was not provided.";
   "Use the exact join paths given in the Relationships section when joining tables.";
   "Prefer the patterns shown in the Similar Examples section when one applies.";
   "Return exactly one SQL statement.";
   "Do not include any explanation, commentary, or markdown formatting around the SQL."].

Definition OUTPUT_FORMAT_INSTRUCTION (dialect_value : string) : string :=
  "Write a single valid " ++ dialect_value ++ " SQL statement. Use clear indentation and standard SQL "
  ++ "keywords in uppercase (SELECT, FROM, WHERE, GROUP BY, ...). Do not wrap the SQL in "
  ++ "markdown code fences or add trailing commentary.".

Definition DEFAULT_SECTION_SPECS : list SectionSpec :=
  [{| spec_name := SYSTEM; header := "# System Instructions"; order := 1; include_by_default := true |};
   {| spec_name := BUSINESS_CONTEXT; header := "## Business Context"; order := 2; include_by_default := true |};
   {| spec_name := SCHEMA_CONTEXT; header := "## Schema Context"; order := 3; include_by_default := true |};
   {| spec_name := RELATIONSHIP; header := "## Table Relationships"; order := 4; include_by_default := true |};
   {| spec_name := RETRIEVED_EXAMPLES; header := "## Similar Examples"; order := 5; include_by_default := true |};
   {| spec_name := CONSTRAINT; header := "## Constraints"; order := 6; include_by_default := true |};
   {| spec_name := OUTPUT_FORMAT; header := "## Output Format"; order := 7; include_by_default := true |}].

Definition DefaultPromptTemplate : PromptTemplate :=
  {| version := "1.0.0"; template_name := "default"; section_specs := DEFAULT_SECTION_SPECS |}.

(** ** [sections.py] *)
Definition mk_section (n : SectionName) (prio : Z) (req : bool) (c : string) (x : list string)
  : PromptSection :=
  {| name := n; sec_content := c; estimated_tokens := estimate_tokens c;
     priority := prio; is_required := req; extras := x |}.

Definition build_system : PromptSection :=
  mk_section SYSTEM NOT_TRIMMABLE_PRIORITY true SYSTEM_PREAMBLE [].

Definition build_business (b : RetrievedKnowledgeBundle) : PromptSection :=
  let concepts := business_concepts (query_context (linked_query_context b)) in
  let c := match concepts with
           | [] => "No specific business concepts were identified for this question."
           | _ => "This question relates to the following business concepts:" ++ nl
                  ++ join nl (map (fun x => "- " ++ x) concepts)
           end in
  mk_section BUSINESS_CONTEXT BUSINESS_TRIM_PRIORITY false c [].

(** The two loops with a [seen] set keep the first row of each identifier. *)
Fixpoint first_rows (seen : list string) (rows : list (string * string)) : list (string * string) :=
  match rows with
  | [] => []
  | (k, line) :: rows' =>
      if decide (k ∈ seen) then first_rows seen rows'
      else (k, line) :: first_rows (k :: seen) rows'
  end.

Definition described (d : option string) : string :=
  match d with
  | Some t => if is_empty t then "" else " " ++ em_dash ++ " " ++ t
  | None => ""
  end.

Definition schema_tables (c : LinkedQueryContext) : list (string * string) :=
  let tbls := (match primary_entity c with Some e => [rt_table e] | None => [] end
               ++ map rt_table (secondary_entities c))%list in
  first_rows [] (map (fun t => (tbl_name t,
    "Table `" ++ tbl_name t ++ "`" ++ described (tbl_description t))) tbls).

Definition schema_columns (c : LinkedQueryContext) : list (string * string) :=
  let cols := (map rm_column (lq_metrics c) ++ map rc_column (lq_dimensions c)
               ++ map rf_column (lq_filters c)
               ++ match lq_sort c with Some s => [rs_column s] | None => [] end)%list in
  first_rows [] (map (fun k =>
    let key := col_table_name k ++ "." ++ col_name k in
    (key, "Column `" ++ key ++ "` (" ++ sql_type k ++ ")" ++ described (col_description k))) cols).

Definition build_schema (b : RetrievedKnowledgeBundle) : PromptSection :=
  let c := linked_query_context b in
  let rows := (schema_tables c ++ schema_columns c)%list in
  let content := match rows with
                 | [] => "No schema objects were resolved for this question."
                 | _ => join nl (map snd rows)
                 end in
  mk_section SCHEMA_CONTEXT SCHEMA_TRIM_PRIORITY false content (map fst rows).

Definition build_relationships (b : RetrievedKnowledgeBundle) : PromptSection :=
  let c := match relationship_paths (linked_query_context b) with
           | [] => "No table joins are required to answer this question."
           | paths => "Join these tables as follows:" ++ nl ++ join nl (map (fun e =>
               "`" ++ rr_source_table e ++ "." ++ join "/" (rr_source_columns e) ++ "` -> "
               ++ "`" ++ rr_target_table e ++ "." ++ join "/" (rr_target_columns e)
               ++ "` (via `" ++ rr_relationship_name e ++ "`)") paths)
           end in
  mk_section RELATIONSHIP SCHEMA_TRIM_PRIORITY false c [].

Fixpoint example_blocks (index : Z) (l : list RetrievedExample) : list string :=
  match l with
  | [] => []
  | r :: l' =>
      let e := re_example r in
      ("Example " ++ show_Z index ++ ": " ++ title e ++ nl
       ++ "Question: " ++ natural_language_question e ++ nl
       ++ "SQL:" ++ nl ++ strip (gold_sql e) ++ nl
       ++ "Explanation: " ++ sql_explanation e) :: example_blocks (index + 1) l'
  end.

Definition build_examples (b : RetrievedKnowledgeBundle) : PromptSection :=
  match retrieved_examples b with
  | [] => mk_section RETRIEVED_EXAMPLES EXAMPLES_TRIM_PRIORITY false
            "No similar example questions were found in the query library." []
  | l => mk_section RETRIEVED_EXAMPLES EXAMPLES_TRIM_PRIORITY false
           (join (nl ++ nl) (example_blocks 1 l)) (map (fun r => ex_id (re_example r)) l)
  end.

Definition build_constraints : PromptSection :=
  mk_section CONSTRAINT NOT_TRIMMABLE_PRIORITY true
    (join nl (map (fun r => "- " ++ r) CONSTRAINT_RULES)) [].

Definition build_output (d : SQLDialect) : PromptSection :=
  mk_section OUTPUT_FORMAT NOT_TRIMMABLE_PRIORITY true
    (OUTPUT_FORMAT_INSTRUCTION (SQLDialect_value d)) [].

(** ** [compiler.py] *)
(** The seven injected section builders. *)
Record SectionBuilders := {
  system_builder : RetrievedKnowledgeBundle -> SQLDialect -> PromptSection;
  business_builder : RetrievedKnowledgeBundle -> SQLDialect -> PromptSection;
  schema_builder : RetrievedKnowledgeBundle -> SQLDialect -> PromptSection;
  relationship_builder : RetrievedKnowledgeBundle -> SQLDialect -> PromptSection;
  example_builder : RetrievedKnowledgeBundle -> SQLDialect -> PromptSection;
  constraint_builder : RetrievedKnowledgeBundle -> SQLDialect -> PromptSection;
  output_builder : RetrievedKnowledgeBundle -> SQLDialect -> PromptSection }.

Definition default_builders : SectionBuilders :=
  {| system_builder := fun _ _ => build_system;
     business_builder := fun b _ => build_business b;
     schema_builder := fun b _ => build_schema b;
     relationship_builder := fun b _ => build_relationships b;
     example_builder := fun b _ => build_examples b;
     constraint_builder := fun _ _ => build_constraints;
     output_builder := fun _ d => build_output d |}.

Definition built_sections (bs : SectionBuilders) (b : RetrievedKnowledgeBundle) (d : SQLDialect)
  : list PromptSection :=
  [system_builder bs b d; business_builder bs b d; schema_builder bs b d;
   relationship_builder bs b d; example_builder bs b d; constraint_builder bs b d;
   output_builder bs b d].

(** [_build_statistics] *)
Definition build_prompt_statistics (trimmed : list PromptSection) (latency : Q) : PromptStatistics :=
  let count := fun f => match List.find f trimmed with
                        | Some s => Z.of_nat (length (extras s)) | None => 0 end in
  {| estimated_total_tokens := sum_tokens trimmed;
     section_token_usage := map (fun s => {| stu_section := name s; stu_tokens := estimated_tokens s |}) trimmed;
     retrieved_example_count := count is_ExampleSection;
     schema_object_count := count is_SchemaSection;
     compilation_latency_ms := latency |}.

(** Step 10: [trimmed[system.name]], ..., from the sections [enforce] returned.
    The default argument is never used: [enforce] keeps every name. *)
Definition assemble (bs : SectionBuilders) (b : RetrievedKnowledgeBundle) (d : SQLDialect) (t : PromptTemplate)
    (trimmed : list (SectionName * PromptSection)) (latency : Q) : CompiledPrompt :=
  let get := fun s => default s (alist_get (name s) trimmed) in
  {| cp_system := get (system_builder bs b d);
     cp_business_context := get (business_builder bs b d);
     cp_schema_context := get (schema_builder bs b d);
     cp_relationships := get (relationship_builder bs b d);
     cp_examples := get (example_builder bs b d);
     cp_constraints := get (constraint_builder bs b d);
     cp_output_format := get (output_builder bs b d);
     cp_statistics := build_prompt_statistics (map snd trimmed) latency;
     cp_template := t;
     template_version := version t;
     cp_dialect := d |}.

Abbreviation PromptKey := (string * string * string)%type.

(** What [compile] needs of the world: a clock and the [dict] of
    [InMemoryPromptCache]. *)
Class PromptCacheState (W : Type) `{Clock W} := {
  prompt_store : W -> gmap PromptKey CompiledPrompt;
  set_prompt_store : gmap PromptKey CompiledPrompt -> W -> W;
  prompt_store_set : forall m w, prompt_store (set_prompt_store m w) = m;
  prompt_store_tick : forall w, prompt_store (snd (tick w)) = prompt_store w }.

Section Compile.
Context {W : Type} `{PromptCacheState W}.
Context (builders : SectionBuilders) (template : PromptTemplate) (max_tokens : Z).
(** [bundle_content_hash]: SHA-256 of the canonical JSON of the bundle's
    linked context and examples. *)
Context (bundle_content_hash : LinkedQueryContext * list RetrievedExample -> string).

Definition cache_key (b : RetrievedKnowledgeBundle) (d : SQLDialect) : PromptKey :=
  (bundle_content_hash (linked_query_context b, retrieved_examples b),
   version template, SQLDialect_value d).

Definition compile (b : RetrievedKnowledgeBundle) (d : SQLDialect) : prog W exn CompiledPrompt :=
  fun w =>
    match prompt_store w !! cache_key b d with
    | Some cached => (Ret cached, w)
    | None =>
        (let! started := perf_counter in
         (* step 8 validates the untrimmed sections and drops the report *)
         let _ := validate_sections max_tokens (built_sections builders b d) in
         let trimmed := by_name (enforce max_tokens (built_sections builders b d)) in
         let! latency := elapsed_ms started in
         let compiled := assemble builders b d template trimmed latency in
         if report_is_valid (validate_sections max_tokens (all_sections compiled))
         then fun w' =>
           (Ret compiled,
            set_prompt_store (<[cache_key b d := compiled]> (prompt_store w')) w')
         else ret compiled) w
    end.
End Compile.

(** ** Lemmas: the trimming loop *)
Lemma name_with_content s c t x : name (with_content s c t x) = name s.
Proof. done. Qed.
Lemma name_shrink_or_drop s k : name (fst (shrink_or_drop s k)) = name s.
Proof. unfold shrink_or_drop. by destruct (_ <=? _). Qed.

(** What the loop may have done to a section. *)
Definition trimmed_from (s s' : PromptSection) : Prop :=
  s' = s \/ (is_required s = false /\ exists k, 0 < k /\ s' = fst (shrink_or_drop s k)).

Lemma trim_loop_lookup m order d total n s0 :
  alist_get n (fst (trim_loop m order d total)) = Some s0 ->
  alist_get n d = Some s0 \/
  exists s k, s ∈ order /\ name s = n /\ 0 < k /\ s0 = fst (shrink_or_drop s k).
Proof.
  revert d total. induction order as [|s order IH]; intros d total; simpl; [auto|].
  destruct (Z.leb_spec total m) as [|Hgt]; simpl; [auto|].
  destruct (shrink_or_drop s (total - m)) as [t f] eqn:Es.
  intros Hget. destruct (IH _ _ Hget) as [Hd|(s' & k & Hin & Hn & Hk & Heq)].
  - rewrite alist_get_set in Hd. case_decide as Hs; [|auto].
    right. exists s, (total - m). rewrite Es. simplify_eq/=. repeat split; [left|lia].
  - right. exists s', k. repeat split; try done. by right.
Qed.

Lemma trim_loop_keys m order d total :
  (forall s, s ∈ order -> name s ∈ map fst d) ->
  map fst (fst (trim_loop m order d total)) = map fst d.
Proof.
  revert d total. induction order as [|s order IH]; intros d total Hin; simpl; [done|].
  destruct (total <=? m); [done|].
  destruct (shrink_or_drop s (total - m)) as [t f].
  assert (Hk : map fst (alist_set (name s) t d) = map fst d).
  { rewrite alist_set_keys, decide_True; [done|]. apply Hin. left. }
  rewrite IH; [done|]. intros s' Hs'. rewrite Hk. apply Hin. by right.
Qed.

Lemma by_name_acc l d :
  NoDup (map fst d ++ map name l) ->
  fold_left (fun d s => alist_set (name s) s d) l d = (d ++ map (fun s => (name s, s)) l)%list.
Proof.
  revert d. induction l as [|s l IH]; intros d Hn; simpl; [by rewrite app_nil_r|].
  assert (Hs : alist_set (name s) s d = (d ++ [(name s, s)])%list).
  { assert (Hni : name s ∉ map fst d).
    { apply NoDup_app in Hn as (_ & Hd & _). intros Hx. apply (Hd _ Hx). left. }
    clear -Hni. induction d as [|[k v] d IHd]; simpl in *; [done|].
    apply not_elem_of_cons in Hni as [Hne Hni]. rewrite decide_False by done.
    by rewrite IHd. }
  rewrite Hs, IH.
  - by rewrite <- app_assoc.
  - rewrite map_app. simpl. by rewrite <- app_assoc.
Qed.
Lemma by_name_map l : NoDup (map name l) -> by_name l = map (fun s => (name s, s)) l.
Proof. intros Hn. unfold by_name. by rewrite by_name_acc. Qed.

Lemma alist_get_by_name l s : NoDup (map name l) -> s ∈ l -> alist_get (name s) (by_name l) = Some s.
Proof.
  intros Hn Hs. rewrite by_name_map by done. apply alist_elem_get.
  - rewrite map_map. simpl. by rewrite map_id || done.
  - apply list_elem_of_fmap. by exists s.
Qed.

Lemma elem_of_trim_order l s : s ∈ trim_order_of l <-> s ∈ l /\ is_required s = false.
Proof.
  unfold trim_order_of. rewrite elem_of_sorted_by, !list_elem_of_In, List.filter_In.
  by rewrite negb_true_iff.
Qed.

Lemma keys_by_name l : NoDup (map name l) -> map fst (by_name l) = map name l.
Proof. intros. rewrite by_name_map, map_map by done. done. Qed.

(** Every section of [enforce]'s result is the section of that name the loop left. *)
Lemma enforce_trimmed m l : NoDup (map name l) -> Forall2 trimmed_from l (enforce m l).
Proof.
  intros Hn. unfold enforce. destruct (sum_tokens l <=? m).
  { apply Forall2_same_length_lookup_2; [done|]. intros i x y Hx Hy. simplify_eq. by left. }
  apply omap_Forall2. intros s Hs.
  set (r := trim_loop _ _ _ _).
  assert (Hk : map fst (fst r) = map name l).
  { unfold r. rewrite trim_loop_keys; rewrite keys_by_name by done; [done|].
    intros s' [Hs' _]%elem_of_trim_order. by apply list_elem_of_fmap_2. }
  destruct (alist_get (name s) (fst r)) as [s'|] eqn:E.
  - exists s'; split; [done|].
    apply trim_loop_lookup in E as [E|(s0 & k & Hin & Hn0 & Hk0 & ->)].
    + rewrite alist_get_by_name in E by done. simplify_eq. by left.
    + apply elem_of_trim_order in Hin as [Hin Hreq].
      assert (s0 = s) as -> by (eapply NoDup_map_inj; eauto).
      right; eauto.
  - exfalso. apply alist_get_None in E. apply E. rewrite Hk. by apply list_elem_of_fmap_2.
Qed.

(** ** Token accounting of the loop *)
Lemma estimate_tokens_truncated t s : 0 <= t ->
  estimate_tokens (rstrip (take_str (Z.to_nat (t * CHARS_PER_TOKEN)) s) ++ TRUNCATION_MARKER) <= t + 9.
Proof.
  intros Ht. set (u := rstrip _).
  assert (Hu : len u <= t * 4).
  { unfold len, u, rstrip. pose proof (length_rstrip_by is_space (take_str (Z.to_nat (t * CHARS_PER_TOKEN)) s)).
    pose proof (length_take_str (Z.to_nat (t * CHARS_PER_TOKEN)) s). unfold CHARS_PER_TOKEN in *. lia. }
  assert (Hm : len (u ++ TRUNCATION_MARKER) = len u + 35).
  { unfold len. rewrite length_app_str. change (String.length TRUNCATION_MARKER) with 35%nat. lia. }
  unfold estimate_tokens, CHARS_PER_TOKEN. destruct (is_empty _); [lia|].
  rewrite Hm. apply Z.lt_succ_r. apply Z.div_lt_upper_bound; lia.
Qed.
Lemma estimate_tokens_nonneg s : 0 <= estimate_tokens s.
Proof.
  unfold estimate_tokens, CHARS_PER_TOKEN, len. destruct (is_empty s); [lia|]. apply Z.div_pos; lia.
Qed.

(** One step: a drop frees everything; a shrink frees all but nine tokens of the
    excess, and the tokens it may add instead ([max 0] hides them) are at most eight. *)
Lemma shrink_or_drop_tokens s k t f :
  0 < k -> 0 <= estimated_tokens s -> shrink_or_drop s k = (t, f) ->
  0 <= estimated_tokens t /\ 0 <= f /\
  estimated_tokens t <= estimated_tokens s - f + 8 /\
  ((estimated_tokens s <= k /\ estimated_tokens t = 0 /\ f = estimated_tokens s) \/
   (k < estimated_tokens s /\ k - 9 <= f)).
Proof.
  intros Hk Hs. unfold shrink_or_drop.
  destruct (Z.leb_spec (estimated_tokens s) k) as [Hle|Hlt]; intros; simplify_eq/=; [lia|].
  rewrite (Z.max_r 0 (estimated_tokens s - k)) by lia.
  pose proof (estimate_tokens_truncated (estimated_tokens s - k) (sec_content s) ltac:(lia)).
  match goal with |- context[estimate_tokens ?x] => pose proof (estimate_tokens_nonneg x) end.
  lia.
Qed.

Definition dict_tokens (d : list (SectionName * PromptSection)) : Z := sum_tokens (map snd d).

Lemma dict_tokens_set n t d s :
  NoDup (map fst d) -> alist_get n d = Some s ->
  dict_tokens (alist_set n t d) = dict_tokens d - estimated_tokens s + estimated_tokens t.
Proof.
  unfold dict_tokens. induction d as [|[k v] d IH]; simpl; intros Hn Hg; [done|].
  apply NoDup_cons in Hn as [Hk Hn]. case_decide; simplify_eq/=; [lia|].
  rewrite IH by done. lia.
Qed.

Lemma trim_loop_tokens m order d total d' total' :
  NoDup (map name order) -> NoDup (map fst d) ->
  Forall (fun s => 0 <= estimated_tokens s) order ->
  (forall s, s ∈ order -> alist_get (name s) d = Some s) ->
  trim_loop m order d total = (d', total') ->
  total' <= total /\
  dict_tokens d' - total' <= dict_tokens d - total + 8 * Z.of_nat (length order) /\
  total' <= Z.max (m + 9) (total - sum_tokens order).
Proof.
  revert d total. induction order as [|s order IH]; intros d total Hno Hnd Hpos Hget; cbn -[Z.mul Z.of_nat].
  { intros; simplify_eq. lia. }
  fold (sum_tokens order). rewrite Nat2Z.inj_succ.
  apply NoDup_cons in Hno as [Hns Hno]. inversion Hpos as [|? ? Hs Hpos']; subst.
  assert (0 <= sum_tokens order) by (clear -Hpos'; induction Hpos'; simpl; lia).
  destruct (Z.leb_spec total m) as [|Hgt]; [intros; simplify_eq; lia|].
  destruct (shrink_or_drop s (total - m)) as [t f] eqn:Es. intros Hloop.
  destruct (shrink_or_drop_tokens s (total - m) t f ltac:(lia) Hs Es) as (Ht & Hf & Hd & Hcase).
  assert (Hg : alist_get (name s) d = Some s) by (apply Hget; left).
  pose proof (dict_tokens_set _ t _ _ Hnd Hg) as Hset.
  destruct (IH (alist_set (name s) t d) (total - f)) as (H1 & H2 & H3); try done.
  - by apply alist_set_NoDup.
  - intros s' Hs'. rewrite alist_get_set_ne; [apply Hget; by right|].
    intros Heq. apply Hns. rewrite Heq. by apply list_elem_of_fmap_2.
  - lia.
Qed.

Definition required_tokens (l : list PromptSection) : Z := sum_tokens (List.filter is_required l).
Definition optional_count (l : list PromptSection) : Z :=
  Z.of_nat (length (List.filter (fun s => negb (is_required s)) l)).

Lemma sum_tokens_perm l l' : l ≡ₚ l' -> sum_tokens l = sum_tokens l'.
Proof. induction 1; simpl; lia. Qed.
Lemma sum_tokens_split l :
  sum_tokens l = required_tokens l + sum_tokens (List.filter (fun s => negb (is_required s)) l).
Proof.
  unfold required_tokens. induction l as [|s l IH]; simpl; [done|].
  destruct (is_required s); simpl; lia.
Qed.
Lemma sum_trim_order l : sum_tokens (trim_order_of l) = sum_tokens l - required_tokens l.
Proof.
  unfold trim_order_of. rewrite (sum_tokens_perm _ _ (sorted_by_perm _ _ _)), (sum_tokens_split l). lia.
Qed.
Lemma length_trim_order l : Z.of_nat (length (trim_order_of l)) = optional_count l.
Proof. unfold trim_order_of, optional_count. by rewrite length_sorted_by. Qed.

Lemma NoDup_trim_order l : NoDup (map name l) -> NoDup (map name (trim_order_of l)).
Proof.
  intros Hn. unfold trim_order_of. rewrite sorted_by_perm.
  induction l as [|s l IH]; simpl in *; [constructor|].
  apply NoDup_cons in Hn as [Hs Hn]. destruct (negb _); simpl; [|auto].
  constructor; [|auto]. rewrite list_elem_of_fmap. intros (s' & Hs' & Hin). apply Hs.
  rewrite Hs'. apply list_elem_of_fmap_2. apply list_elem_of_In. 
  apply list_elem_of_In, List.filter_In in Hin. tauto.
Qed.

(** With distinct names, the result is the working dictionary itself. *)
Lemma alist_map_get {V} (ks : list SectionName) (d : list (SectionName * V)) :
  NoDup ks -> map fst d = ks -> omap (fun k => alist_get k d) ks = map snd d.
Proof.
  revert ks. induction d as [|[k v] d IH]; intros ks Hn Hk; subst ks; simpl in *; [done|].
  apply NoDup_cons in Hn as [Hnk Hn]. rewrite decide_True by done. f_equal.
  rewrite <- (IH (map fst d) Hn eq_refl). apply omap_ext_in. intros x Hx.
  rewrite decide_False; [done|]. intros ->. done.
Qed.
Lemma omap_map {A B C} (f : A -> B) (g : B -> option C) (l : list A) :
  omap (fun x => g (f x)) l = omap g (map f l).
Proof. induction l as [|x l IH]; simpl; [done|]. destruct (g (f x)); [f_equal|]; exact IH. Qed.

Lemma enforce_dict m l :
  NoDup (map name l) -> m < sum_tokens l ->
  enforce m l = map snd (fst (trim_loop m (trim_order_of l) (by_name l) (sum_tokens l))).
Proof.
  intros Hn Hm. unfold enforce. destruct (Z.leb_spec (sum_tokens l) m); [lia|].
  rewrite (omap_map name (fun k => alist_get k _)). apply alist_map_get; [done|].
  rewrite trim_loop_keys; rewrite keys_by_name by done; [done|].
  intros s [Hs _]%elem_of_trim_order. by apply list_elem_of_fmap_2.
Qed.
Lemma dict_tokens_by_name l : NoDup (map name l) -> dict_tokens (by_name l) = sum_tokens l.
Proof. intros. unfold dict_tokens. rewrite by_name_map, map_map by done. simpl. by rewrite map_id. Qed.

Lemma trimmed_name s s' : trimmed_from s s' -> name s' = name s.
Proof. intros [->|(_ & k & _ & ->)]; [done|]. apply name_shrink_or_drop. Qed.
Lemma trimmed_required s s' : trimmed_from s s' -> is_required s = true -> s' = s.
Proof. intros [->|(Hr & _)]; congruence. Qed.
Lemma trimmed_is_required s s' : trimmed_from s s' -> is_required s' = is_required s.
Proof.
  intros [->|(_ & k & _ & ->)]; [done|]. unfold shrink_or_drop. by destruct (_ <=? _).
Qed.
Lemma enforce_names m l : NoDup (map name l) -> map name (enforce m l) = map name l.
Proof.
  intros Hn. pose proof (enforce_trimmed m l Hn) as H2.
  induction H2 as [|s s' l1 l2 Hs _ IH]; simpl in *; [done|].
  apply NoDup_cons in Hn as [_ Hn]. rewrite (trimmed_name _ _ Hs), IH; done.
Qed.

Lemma trim_loop_step m s rest d total t f :
  m < total -> shrink_or_drop s (total - m) = (t, f) ->
  trim_loop m (s :: rest) d total = trim_loop m rest (alist_set (name s) t d) (total - f).
Proof. intros Hm Hs. simpl. destruct (Z.leb_spec total m); [lia|]. by rewrite Hs. Qed.

(** The loop leaves the sections it does not visit alone. *)
Lemma trim_loop_other m order d total n :
  n ∉ map name order -> alist_get n (fst (trim_loop m order d total)) = alist_get n d.
Proof.
  revert d total. induction order as [|s order IH]; intros d total Hni; simpl in *; [done|].
  apply not_elem_of_cons in Hni as [Hne Hni]. destruct (total <=? m); [done|].
  destruct (shrink_or_drop s _). rewrite IH, alist_get_set_ne by done. done.
Qed.

Lemma trim_loop_drops_all m order d total :
  NoDup (map name order) ->
  Forall (fun s => 0 <= estimated_tokens s) order ->
  m < total - sum_tokens order ->
  forall s, s ∈ order ->
  alist_get (name s) (fst (trim_loop m order d total)) = Some (with_content s "" 0 []).
Proof.
  revert d total. induction order as [|s0 order IH]; intros d total Hno Hpos Hm s Hs; [set_solver|].
  apply NoDup_cons in Hno as [Hns Hno]. inversion Hpos as [|? ? H0 Hpos']; subst.
  change (sum_tokens (s0 :: order)) with (estimated_tokens s0 + sum_tokens order) in Hm.
  assert (0 <= sum_tokens order) by (clear -Hpos'; induction Hpos'; simpl; lia).
  simpl. destruct (Z.leb_spec total m); [lia|].
  unfold shrink_or_drop. destruct (Z.leb_spec (estimated_tokens s0) (total - m)); [|lia].
  apply elem_of_cons in Hs as [->|Hs].
  2: { apply IH; try done. lia. }
  rewrite trim_loop_other by done. apply alist_get_set_eq.
Qed.

(** ** Properties: the token budget *)
(** [PromptBudgetManager.enforce], on sections with distinct names, returns
    the same sections in the same order; required ones are never touched, an
    optional one is untouched or what [_shrink_or_drop] makes of it; and a prompt
    within budget comes back unchanged. *)
Theorem enforce_shape m l :
  NoDup (map name l) ->
  map name (enforce m l) = map name l /\
  Forall2 trimmed_from l (enforce m l) /\
  (forall s, s ∈ l -> is_required s = true -> s ∈ enforce m l) /\
  (sum_tokens l <= m -> enforce m l = l).
Proof.
  intros Hn. pose proof (enforce_trimmed m l Hn) as H2. split_and!.
  - by apply enforce_names.
  - done.
  - intros s Hs Hr. apply list_elem_of_lookup in Hs as [i Hi].
    destruct (Forall2_lookup_l _ _ _ _ _ H2 Hi) as (s' & Hi' & Ht).
    rewrite <- (trimmed_required _ _ Ht Hr). by eapply list_elem_of_lookup_2.
  - intros Hm. unfold enforce. by apply Z.leb_le in Hm as ->.
Qed.

(** C32. The token bound [enforce] really gives. When the required sections fit,
    the result is over budget by at most nine tokens (the truncation marker) plus
    eight for each optional section (what a marker longer than the text it
    replaces can add); sections that fit the budget as they are come back
    unchanged, and so within it. *)
Theorem enforce_token_bound m l :
  NoDup (map name l) -> Forall (fun s => 0 <= estimated_tokens s) l ->
  required_tokens l <= m ->
  sum_tokens (enforce m l) <= m + 9 + 8 * optional_count l /\
  (sum_tokens l <= m -> enforce m l = l /\ sum_tokens (enforce m l) <= m).
Proof.
  intros Hn Hpos Hreq. split.
  2: { intros Hm. assert (E : enforce m l = l) by (unfold enforce; by apply Z.leb_le in Hm as ->). by rewrite E. }
  pose proof (length_trim_order l).
  destruct (Z_le_gt_dec (sum_tokens l) m) as [Hle|Hgt].
  { unfold enforce. apply Z.leb_le in Hle as E. rewrite E. lia. }
  rewrite enforce_dict by (auto; lia).
  destruct (trim_loop _ _ _ _) as [d' total'] eqn:E.
  apply trim_loop_tokens in E as (H1 & H2 & H3).
  - rewrite dict_tokens_by_name, sum_trim_order in * by done. simpl.
    change (sum_tokens (map snd d')) with (dict_tokens d'). lia.
  - by apply NoDup_trim_order.
  - by rewrite keys_by_name.
  - apply Forall_forall. intros s [Hs _]%elem_of_trim_order. by eapply Forall_forall in Hpos.
  - intros s [Hs _]%elem_of_trim_order. by apply alist_get_by_name.
Qed.

(** When the required sections alone exceed the budget, every optional
    section is dropped: its content, its token count and the identifiers it
    carries are emptied. *)
Theorem enforce_drops_optional m l :
  NoDup (map name l) -> Forall (fun s => 0 <= estimated_tokens s) l ->
  m < required_tokens l ->
  enforce m l = map (fun s => if is_required s then s else with_content s "" 0 []) l.
Proof.
  intros Hn Hpos Hm. unfold enforce.
  assert (0 <= sum_tokens (List.filter (fun s => negb (is_required s)) l)).
  { clear -Hpos. induction Hpos; simpl; [lia|]. destruct (is_required _); simpl; lia. }
  pose proof (sum_tokens_split l). destruct (Z.leb_spec (sum_tokens l) m); [lia|].
  apply omap_map_eq. intros s Hs.
  destruct (is_required s) eqn:Er.
  - destruct (alist_get (name s) _) as [s'|] eqn:E.
    + apply trim_loop_lookup in E as [E|(s0 & k & Hin & Hn0 & _)].
      * rewrite alist_get_by_name in E by done. done.
      * apply elem_of_trim_order in Hin as [Hin Hr].
        rewrite (NoDup_map_inj name l s0 s) in Hr by done. congruence.
    + exfalso. apply alist_get_None in E. apply E.
      rewrite trim_loop_keys; rewrite keys_by_name by done; [by apply list_elem_of_fmap_2|].
      intros s' [Hs' _]%elem_of_trim_order. by apply list_elem_of_fmap_2.
  - apply trim_loop_drops_all.
    + by apply NoDup_trim_order.
    + apply Forall_forall. intros s' [Hs' _]%elem_of_trim_order. by eapply Forall_forall in Hpos.
    + rewrite sum_trim_order. lia.
    + by apply elem_of_trim_order.
Qed.

(** The budget is not met in general: [_shrink_or_drop] appends a marker
    that can be longer than the text it removes, and counts the growth as zero
    freed tokens. Here the required section fits with room to spare, dropping the
    optional one would meet the budget, and [enforce] returns more than it got. *)
Theorem enforce_can_exceed_budget :
  exists m l, NoDup (map name l) /\ required_tokens l <= m /\
    Forall (fun s => estimated_tokens s = estimate_tokens (sec_content s)) l /\
    sum_tokens l < sum_tokens (enforce m l) /\ m < sum_tokens (enforce m l).
Proof.
  exists 3, [mk_section SYSTEM 0 true "12345678" []; mk_section RETRIEVED_EXAMPLES 1 false "abcdefgh" []].
  split_and!; try by vm_compute.
  - apply (bool_decide_unpack _). by vm_compute.
  - repeat constructor.
Qed.

(** ** Properties: the validator *)
Lemma valid_iff_no_issue l :
  Forall (fun i => pv_severity i = ERROR) l -> report_is_valid l = true <-> l = [].
Proof.
  intros Hl. unfold report_is_valid. destruct Hl as [|i l Hi Hl]; simpl; [done|].
  rewrite Hi. simpl. done.
Qed.
Lemma duplicate_issues_error seen ids :
  Forall (fun i => pv_severity i = ERROR) (duplicate_example_issues seen ids).
Proof.
  revert seen; induction ids as [|i ids IH]; intros seen; simpl; [constructor|].
  case_decide; [constructor|]; auto.
Qed.
Lemma duplicate_issues_nil seen ids :
  duplicate_example_issues seen ids = [] <-> NoDup ids /\ (forall i, i ∈ ids -> i ∉ seen).
Proof.
  revert seen; induction ids as [|i ids IH]; intros seen; simpl.
  { split; [intros _; split; [constructor|set_solver]|done]. }
  rewrite NoDup_cons. case_decide as Hi.
  - split; [done|]. intros [_ H]. exfalso. apply (H i); [left|done].
  - rewrite IH. split; intros [H1 H2].
    + split; [split; [|done]|]; [intros Hin; apply (H2 i Hin); left|].
      intros j [->|Hj]%elem_of_cons; [done|]. intros Hs. apply (H2 j Hj). by right.
    + destruct H1 as [Hni Hn]. split; [done|]. intros j Hj. apply not_elem_of_cons.
      split; [congruence|]. apply H2. by right.
Qed.
Lemma validate_sections_errors m l :
  Forall (fun i => pv_severity i = ERROR) (validate_sections m l).
Proof.
  unfold validate_sections. rewrite !Forall_app. split_and!.
  - unfold check_not_empty. destruct (is_empty _); repeat constructor.
  - apply omap_Forall. intros x y. case_decide; [done|]. by intros [= <-].
  - unfold check_no_duplicate_examples. induction l as [|s l IH]; simpl; [constructor|].
    apply Forall_app; split; [|done]. destruct (is_ExampleSection s); [|constructor].
    apply duplicate_issues_error.
  - unfold check_token_budget. destruct (_ <=? _); repeat constructor.
  - apply omap_Forall. intros x y. destruct (_ && _); [|done]. by intros [= <-].
Qed.

(** What [PromptValidator] accepts. *)
Definition prompt_ok (m : Z) (l : list PromptSection) : Prop :=
  strip (String.concat "" (map sec_content l)) <> "" /\
  (forall n, n ∈ REQUIRED_SECTIONS -> n ∈ map name l) /\
  (forall s, s ∈ l -> name s = RETRIEVED_EXAMPLES -> NoDup (extras s)) /\
  sum_tokens l <= m /\
  (forall s, s ∈ l -> is_required s = true -> strip (sec_content s) <> "").

Lemma validate_sections_ok m l :
  report_is_valid (validate_sections m l) = true <-> prompt_ok m l.
Proof.
  rewrite valid_iff_no_issue by apply validate_sections_errors.
  unfold validate_sections, prompt_ok. rewrite !app_nil.
  apply and_iff_compat_lr.
  { unfold check_not_empty. rewrite <- is_empty_false. destruct (is_empty _); done. }
  apply and_iff_compat_lr.
  { unfold check_required_sections_exist. rewrite omap_nil.
    split; intros H n Hn; specialize (H n Hn); case_decide; done. }
  apply and_iff_compat_lr.
  { unfold check_no_duplicate_examples, is_ExampleSection. rewrite concat_map_nil.
    split; intros H s Hs.
    - intros Hn. specialize (H s Hs). rewrite bool_decide_true in H by done.
      by apply duplicate_issues_nil in H as [H _].
    - case_bool_decide; [|done]. apply duplicate_issues_nil. split; [auto|set_solver]. }
  apply and_iff_compat_lr.
  { unfold check_token_budget. destruct (Z.leb_spec (sum_tokens l) m); [done|]. split; [done|lia]. }
  unfold check_no_empty_required_section. rewrite omap_nil. split; intros H s Hs.
  - intros Hr. specialize (H s Hs). rewrite Hr in H. rewrite <- is_empty_false. by destruct (is_empty _).
  - specialize (H s Hs). destruct (is_required s); [|done]. rewrite <- is_empty_false in H.
    by rewrite H.
Qed.

(** [PromptValidator.validate_sections] accepts exactly the section lists
    that have some text, all three required sections, pairwise distinct example
    identifiers, an estimated size within the budget, and no blank required
    section. *)
Theorem validate_sections_spec m l :
  report_is_valid (validate_sections m l) = true <-> prompt_ok m l.
Proof. apply validate_sections_ok. Qed.

(** ** Properties: [compile] *)
Definition canonical_names : list SectionName :=
  [SYSTEM; BUSINESS_CONTEXT; SCHEMA_CONTEXT; RELATIONSHIP; RETRIEVED_EXAMPLES; CONSTRAINT; OUTPUT_FORMAT].
Lemma canonical_names_NoDup : NoDup canonical_names.
Proof. apply (bool_decide_unpack _). by vm_compute. Qed.

(** The section classes pin the names of what the builders return. *)
Class WellNamed (bs : SectionBuilders) := built_names :
  forall b d, map name (built_sections bs b d) = canonical_names.
(** What a builder returns depends only on what the cache key covers. *)
Class KeyedBuilders (bs : SectionBuilders) := built_sections_key :
  forall b b' d, linked_query_context b = linked_query_context b' ->
  retrieved_examples b = retrieved_examples b' ->
  built_sections bs b d = built_sections bs b' d.

#[export] Instance default_well_named : WellNamed default_builders.
Proof. intros b d. unfold built_sections. simpl. unfold build_examples. by destruct (retrieved_examples b). Qed.
#[export] Instance default_keyed : KeyedBuilders default_builders.
Proof.
  intros b b' d Hl Hr. unfold built_sections, default_builders, build_business, build_schema,
    build_relationships, build_examples; simpl. by rewrite Hl, Hr.
Qed.

Lemma built_names_NoDup bs `{WellNamed bs} b d : NoDup (map name (built_sections bs b d)).
Proof. rewrite built_names. apply canonical_names_NoDup. Qed.

(** The seven [trimmed[section.name]] reads put the trimmed list back together. *)
Lemma all_sections_assemble bs `{WellNamed bs} m b d t lat :
  all_sections (assemble bs b d t (by_name (enforce m (built_sections bs b d))) lat)
  = enforce m (built_sections bs b d).
Proof.
  pose proof (enforce_names m _ (built_names_NoDup bs b d)) as Hn.
  pose proof (built_names (bs:=bs) b d) as Hb. rewrite Hb in Hn.
  unfold canonical_names in Hn, Hb.
  destruct (enforce m (built_sections bs b d)) as [|a0 [|a1 [|a2 [|a3 [|a4 [|a5 [|a6 [|]]]]]]]];
    simplify_eq/=.
  unfold all_sections, assemble; simpl. rewrite by_name_map.
  2: { simpl. repeat match goal with H : name _ = _ |- _ => rewrite H; clear H end.
       apply canonical_names_NoDup. }
  cbn [map alist_get].
  repeat match goal with H : name _ = _ |- _ => rewrite H; clear H end.
  done.
Qed.

Lemma SQLDialect_value_inj d d' : SQLDialect_value d = SQLDialect_value d' -> d = d'.
Proof. by destruct d, d'. Qed.

(** ** Property: rendering *)
Definition header_of (n : SectionName) : string :=
  match spec_for DefaultPromptTemplate n with Ret s => header s | Raise _ => "" end.
Lemma spec_for_default n : exists s, spec_for DefaultPromptTemplate n = Ret s.
Proof. destruct n; eexists; vm_compute; reflexivity. Qed.

Lemma format_parts_default p ns :
  (forall n, n ∈ ns -> exists s, s ∈ all_sections p /\ name s = n) ->
  NoDup (map name (all_sections p)) ->
  format_parts DefaultPromptTemplate p ns =
  Ret (omap (fun s => if is_empty (strip (sec_content s)) then None
                      else Some (header_of (name s) ++ nl ++ strip (sec_content s)))
            (omap (fun n => alist_get n (by_name (all_sections p))) ns)).
Proof.
  intros Hin Hn. induction ns as [|n ns IH]; simpl; [done|].
  destruct (Hin n ltac:(left)) as (s & Hs & <-).
  unfold format_part. rewrite alist_get_by_name by done.
  rewrite IH by (intros; apply Hin; by right). simpl.
  destruct (is_empty _) eqn:E; [done|].
  destruct (spec_for_default (name s)) as [sp Hsp].
  unfold header_of. by rewrite Hsp.
Qed.

(** [CompiledPrompt.as_text] never raises on a prompt of the default template:
    it is the non-blank sections in the template's order, each under its header,
    separated by one empty line. *)
Theorem as_text_default p :
  cp_template p = DefaultPromptTemplate -> map name (all_sections p) = canonical_names ->
  as_text p = Ret (join (nl ++ nl)
    (omap (fun s => if is_empty (strip (sec_content s)) then None
                    else Some (header_of (name s) ++ nl ++ strip (sec_content s)))
          (all_sections p))).
Proof.
  intros Ht Hn. unfold as_text. rewrite Ht. unfold format_prompt.
  assert (Ho : ordered_names DefaultPromptTemplate = canonical_names) by by vm_compute.
  assert (Hd : NoDup (map name (all_sections p))).
  { rewrite Hn. apply (bool_decide_unpack _). by vm_compute. }
  rewrite Ho, format_parts_default; [|rewrite <- Hn|done].
  - do 3 f_equal. rewrite <- Hn, <- (omap_map name).
    rewrite (omap_map_eq _ id); [by rewrite map_id|].
    intros s Hs. by apply alist_get_by_name.
  - intros n Hin. apply list_elem_of_fmap in Hin as (s & -> & Hs). eauto.
Qed.

#[local] Arguments assemble : simpl never.
#[local] Arguments enforce : simpl never.
#[local] Arguments validate_sections : simpl never.
#[local] Arguments built_sections : simpl never.
#[local] Arguments fmul : simpl never.
#[local] Arguments fsub : simpl never.

Section CompileProps.
Context {W : Type} `{PromptCacheState W}.
Context (builders : SectionBuilders) `{named : WellNamed builders} `{keyed : KeyedBuilders builders}.
Context (template : PromptTemplate) (max_tokens : Z).
Context (hash : LinkedQueryContext * list RetrievedExample -> string).

(** Every cached prompt is the compilation of the arguments its key was made
    of, and passed the validator. *)
Definition cache_sound (w : W) : Prop :=
  forall k p, prompt_store w !! k = Some p ->
    exists b d, k = cache_key template hash b d /\
      all_sections p = enforce max_tokens (built_sections builders b d) /\
      cp_template p = template /\ cp_dialect p = d /\
      prompt_ok max_tokens (all_sections p).

Lemma compile_miss b d w :
  prompt_store w !! cache_key template hash b d = None ->
  exists lat w',
    prompt_store w' = prompt_store w /\
    let p := assemble builders b d template (by_name (enforce max_tokens (built_sections builders b d))) lat in
    compile builders template max_tokens hash b d w =
    (Ret p, if report_is_valid (validate_sections max_tokens (all_sections p))
            then set_prompt_store (<[cache_key template hash b d := p]> (prompt_store w)) w'
            else w').
Proof.
  intros Hmiss. unfold compile. rewrite Hmiss, bind_perf_counter.
  rewrite (bind_ret_eq _ _ _ _ _ (elapsed_ms_eq _ _)).
  exists (fmul (fsub (fst (tick (snd (tick w)))) (fst (tick w))) 1000), (snd (tick (snd (tick w)))).
  rewrite !prompt_store_tick. split; [done|]. cbv zeta.
  destruct (report_is_valid _); [|done]. by rewrite !prompt_store_tick.
Qed.

(** C31. [PromptCompiler.compile] never raises, and keeps its cache sound: only
    prompts that validate are stored, each under the key of its own content.
    Provided no other content has the hash of this one, the prompt returned,
    cached or not, has exactly the sections the budget manager makes of the seven
    sections built from the arguments. *)
Theorem compile_correct b d w :
  (forall x, hash x = hash (linked_query_context b, retrieved_examples b) ->
     x = (linked_query_context b, retrieved_examples b)) ->
  cache_sound w ->
  exists p w', compile builders template max_tokens hash b d w = (Ret p, w') /\
    all_sections p = enforce max_tokens (built_sections builders b d) /\
    cp_template p = template /\ cp_dialect p = d /\
    cache_sound w'.
Proof using named keyed.
  intros Hinj Hc. destruct (prompt_store w !! cache_key template hash b d) as [p|] eqn:E.
  - exists p, w. unfold compile. rewrite E.
    destruct (Hc _ _ E) as (b' & d' & Hk & Hp & Ht & Hd & _).
    unfold cache_key in Hk. injection Hk as Hk1 Hk2.
    symmetry in Hk1. apply Hinj in Hk1. apply SQLDialect_value_inj in Hk2. simplify_eq.
    split_and!; try done. rewrite Hp. symmetry. f_equal. by apply (built_sections_key (bs:=builders)).
  - destruct (compile_miss _ _ _ E) as (lat & w' & Hs & Hrun).
    eexists _, _. split; [exact Hrun|]. split_and!; try done.
    { by apply (all_sections_assemble builders). }
    destruct (report_is_valid _) eqn:Ev.
    + intros k p. rewrite prompt_store_set. intros [[<- <-]|[_ Hk]]%lookup_insert_Some.
      * exists b, d. apply validate_sections_ok in Ev. split_and!; try done.
        by apply (all_sections_assemble builders).
      * by apply Hc.
    + intros k p. rewrite Hs. by apply Hc.
Qed.
End CompileProps.

(** ** Witnesses *)
Definition demo_sections : list PromptSection :=
  [mk_section SYSTEM 0 true "12345678" []; mk_section RETRIEVED_EXAMPLES 1 false "abcdefghijkl" ["q1"]].
Lemma demo_sections_NoDup : NoDup (map name demo_sections).
Proof. apply (bool_decide_unpack _). by vm_compute. Qed.
Lemma demo_sections_nonneg : Forall (fun s => 0 <= estimated_tokens s) demo_sections.
Proof. repeat constructor; by vm_compute. Qed.

Lemma enforce_shape_witness :
  map name (enforce 4 demo_sections) = map name demo_sections /\
  enforce 4 demo_sections <> demo_sections /\ enforce 5 demo_sections = demo_sections.
Proof.
  split; [apply (enforce_shape 4 demo_sections demo_sections_NoDup)|].
  split; [by vm_compute|]. apply (enforce_shape 5 demo_sections demo_sections_NoDup). by vm_compute.
Defined.

Lemma enforce_token_bound_witness :
  sum_tokens (enforce 3 demo_sections) <= 3 + 9 + 8 * 1 /\ enforce 5 demo_sections = demo_sections.
Proof.
  split; [apply (enforce_token_bound 3 demo_sections demo_sections_NoDup demo_sections_nonneg); by vm_compute|].
  destruct (enforce_token_bound 5 demo_sections demo_sections_NoDup demo_sections_nonneg) as [_ Hfit]; [by vm_compute|].
  apply Hfit. by vm_compute.
Defined.

Lemma enforce_drops_optional_witness :
  enforce 1 demo_sections =
  [mk_section SYSTEM 0 true "12345678" []; mk_section RETRIEVED_EXAMPLES 1 false "" []].
Proof.
  rewrite (enforce_drops_optional 1 demo_sections demo_sections_NoDup demo_sections_nonneg);
    [reflexivity|by vm_compute].
Defined.

Definition empty_question : QueryContext :=
  {| original_question := "q"; normalized_question := "q"; intent := I_SELECT;
     qc_primary_entity := None; qc_secondary_entities := []; business_concepts := [];
     qc_metrics := []; qc_dimensions := []; qc_filters := []; time_expression := None;
     qc_sort := None; limit := None; aggregation := None; confidence := 1%Q |}.
Definition empty_linked : LinkedQueryContext :=
  {| query_context := empty_question; primary_entity := None; secondary_entities := [];
     lq_metrics := []; lq_dimensions := []; lq_filters := []; lq_sort := None;
     relationship_paths := []; ambiguities := [] |}.
Definition empty_bundle : RetrievedKnowledgeBundle :=
  {| linked_query_context := empty_linked; retrieved_examples := [];
     rb_statistics := {| retrieval_latency_ms := 0%Q; rst_top_k := 5; candidate_count := 0;
                         average_score := 0%Q; signal_contribution := [] |} |}.

(** A world that is only the cache, with a stopped clock. *)
Definition CacheWorld : Type := gmap PromptKey CompiledPrompt.
#[local] Instance CacheWorld_clock : Clock CacheWorld := fun w => (0%Q, w).
#[local] Instance CacheWorld_cache : PromptCacheState CacheWorld.
Proof. by refine {| prompt_store := fun w => w; set_prompt_store := fun m _ => m |}. Defined.
Definition demo_hash (x : LinkedQueryContext * list RetrievedExample) : string :=
  if decide (x = (empty_linked, [])) then "a" else "b".

Lemma compile_correct_witness :
  exists p w', compile default_builders DefaultPromptTemplate 4000 demo_hash empty_bundle POSTGRESQL (∅ : CacheWorld)
    = (Ret p, w') /\ cp_dialect p = POSTGRESQL /\
    cache_sound default_builders DefaultPromptTemplate 4000 demo_hash w'.
Proof.
  destruct (compile_correct (W:=CacheWorld) default_builders DefaultPromptTemplate 4000 demo_hash empty_bundle POSTGRESQL ∅)
    as (p & w' & H1 & _ & _ & H2 & H3).
  - change (linked_query_context empty_bundle, retrieved_examples empty_bundle)
      with (empty_linked, [] : list RetrievedExample).
    intros x. unfold demo_hash. repeat case_decide; done.
  - intros k p Hk. change ((∅ : gmap PromptKey CompiledPrompt) !! k = Some p) in Hk.
    by apply lookup_empty_Some in Hk.
  - by exists p, w'.
Defined.

Definition demo_prompt : CompiledPrompt :=
  assemble default_builders empty_bundle SQLITE DefaultPromptTemplate
    (by_name (built_sections default_builders empty_bundle SQLITE)) 0%Q.
Lemma as_text_default_witness : exists t, as_text demo_prompt = Ret t /\ startswith "# System" t = true.
Proof.
  eexists. split; [apply as_text_default; by vm_compute|]. by vm_compute.
Defined.
