(* ===== verification/Llm.v ===== *)
(** * The LLM adapter ([querymind.llm])

    [RetryPolicy], with its capped exponential backoff in binary64;
    [LLMAdapter.generate] over an arbitrary provider; the metrics collector. *)
From Stdlib Require Import Qpower.
From S2P Require Import Prelude PyFloat PyStr Models ContextModels PromptCompiler.
#[local] Open Scope string_scope.
#[local] Open Scope Z_scope.

(** ** [config.py] *)
Record LLMProviderConfig := {
  cfg_provider : LLMProvider;
  cfg_model : string;
  cfg_api_key : string;
  cfg_temperature : Q;
  cfg_max_tokens : Z;
  cfg_timeout : Q;
  cfg_retry_count : Z;
  cfg_base_url : option string }.

Definition DEFAULT_CLAUDE_BASE_URL : string := "https://api.anthropic.com".
Definition DEFAULT_GROQ_BASE_URL : string := "https://api.groq.com/openai/v1".
Definition DEFAULT_BASE_URL_BY_PROVIDER (p : LLMProvider) : string :=
  match p with CLAUDE => DEFAULT_CLAUDE_BASE_URL | GROQ => DEFAULT_GROQ_BASE_URL end.

(** The after-validator: fills in the provider's default when [base_url] is unset. *)
Definition resolve_default_base_url (c : LLMProviderConfig) : LLMProviderConfig :=
  match cfg_base_url c with
  | Some _ => c
  | None =>
      {| cfg_provider := cfg_provider c; cfg_model := cfg_model c; cfg_api_key := cfg_api_key c;
         cfg_temperature := cfg_temperature c; cfg_max_tokens := cfg_max_tokens c;
         cfg_timeout := cfg_timeout c; cfg_retry_count := cfg_retry_count c;
         cfg_base_url := Some (DEFAULT_BASE_URL_BY_PROVIDER (cfg_provider c)) |}
  end.
Definition resolved_base_url (c : LLMProviderConfig) : outcome exn string :=
  match cfg_base_url c with
  | Some u => Ret u
  | None => Raise (OtherException "AssertionError" "")
  end.

(** ** [retry.py] *)
Record RetryPolicy := {
  max_retries : Z;
  base_delay_seconds : Q;
  max_delay_seconds : Q }.

Definition DEFAULT_BASE_DELAY_SECONDS : Q := lit 1 2.
Definition DEFAULT_MAX_DELAY_SECONDS : Q := 30.

Definition RetryPolicy_init (retries : Z) (base_delay max_delay : Q) : outcome exn RetryPolicy :=
  if retries <? 0
  then Raise (LLMConfigurationError ("max_retries must be >= 0, got " ++ show_Z retries ++ "."))
  else Ret {| max_retries := retries; base_delay_seconds := base_delay;
              max_delay_seconds := max_delay |}.

(** [2.0 ** n] is exact up to 2{^1023} and raises [OverflowError] beyond; the
    product with the base delay may then overflow to infinity, and [min]
    returns the cap, as it does for the unbounded product here. *)
Definition delay_for_attempt (p : RetryPolicy) (attempt : Z) : outcome exn Q :=
  if 1024 <=? attempt - 1
  then Raise (OtherException "OverflowError" "(34, 'Numerical result out of range')")
  else Ret (fmin (fmul (base_delay_seconds p) (fl (Qpower 2 (attempt - 1)))) (max_delay_seconds p)).

Definition is_transient (e : exn) : bool :=
  match e with LLMTransientError _ => true | _ => false end.

Section Retry.
Context {W A : Type}.
Context (p : RetryPolicy) (sleep : Q -> prog W exn unit) (operation : prog W exn A).

(** [for attempt in range(max_retries + 1)], with [n] iterations left. *)
Fixpoint retry_loop (n : nat) (attempt : Z) (last_error : option exn) : prog W exn (A * Z) :=
  match n with
  | O => match last_error with
         | Some e => throw (RetryExhaustedError (max_retries p + 1) e)
         | None => throw (OtherException "AssertionError" "")
         end
  | S n' =>
      try_except (let! r := operation in ret (r, attempt))
        (fun e =>
           if is_transient e then
             if max_retries p <=? attempt
             then throw (RetryExhaustedError (max_retries p + 1) e)
             else fun w =>
               match delay_for_attempt p (attempt + 1) with
               | Raise e' => (Raise e', w)
               | Ret d => (let! _ := sleep d in retry_loop n' (attempt + 1) (Some e)) w
               end
           else throw e)
  end.

Definition execute : prog W exn (A * Z) :=
  retry_loop (Z.to_nat (max_retries p + 1)) 0 None.
End Retry.

(** ** [metrics.py] and [adapter.py] *)
Class MetricsState (W : Type) := {
  records : W -> list GenerationMetrics;
  set_records : list GenerationMetrics -> W -> W;
  records_set : forall l w, records (set_records l w) = l }.

(** [InMemoryMetricsCollector.record] *)
Definition record_metrics {W} `{MetricsState W} (m : GenerationMetrics) : prog W exn unit :=
  fun w => (Ret tt, set_records (records w ++ [m])%list w).

(** The [Field] constraints of [LLMRequest]. *)
Definition LLMRequest_init (prompt model : string) (temperature : Q) (max_toks : Z)
  : outcome exn LLMRequest :=
  if is_empty prompt || negb (fleb 0 temperature && fleb temperature 2) || (max_toks <=? 0)
  then Raise (OtherException "ValidationError" "validation error for LLMRequest")
  else Ret {| req_prompt := prompt; req_model := model; req_temperature := temperature;
              req_max_tokens := max_toks |}.

Definition with_retry_count (r : LLMResponse) (k : Z) : LLMResponse :=
  let m := metrics r in
  {| content := content r;
     metrics := {| gm_provider := gm_provider m; gm_model := gm_model m;
                   gm_latency_ms := gm_latency_ms m; gm_token_usage := gm_token_usage m;
                   gm_retry_count := k; gm_finish_reason := gm_finish_reason m |} |}.

Section Adapter.
Context {W : Type} `{MetricsState W}.
Context (config : LLMProviderConfig) (policy : RetryPolicy).
Context (sleep : Q -> prog W exn unit) (provider_generate : LLMRequest -> prog W exn LLMResponse).

Definition build_request (prompt : CompiledPrompt) : outcome exn LLMRequest :=
  match as_text prompt with
  | Raise e => Raise e
  | Ret text => LLMRequest_init text (cfg_model config) (cfg_temperature config) (cfg_max_tokens config)
  end.

Definition adapter_generate (prompt : CompiledPrompt) : prog W exn LLMResponse :=
  let! request := lift (build_request prompt) in
  let! ' (response, retry_count) := execute policy sleep (provider_generate request) in
  let response := if gm_retry_count (metrics response) =? retry_count then response
                  else with_retry_count response retry_count in
  let! _ := record_metrics (metrics response) in
  ret response.
End Adapter.

(** ** What [execute] does: a big-step specification

    [retry_run k w r]: from world [w], before attempt [k], the policy ends in [r]. *)
Section RetrySpec.
Context {W A : Type}.
Context (p : RetryPolicy) (sleep : Q -> prog W exn unit) (operation : prog W exn A).

Inductive retry_run : Z -> W -> outcome exn (A * Z) * W -> Prop :=
| run_success k w a w' :
    operation w = (Ret a, w') -> retry_run k w (Ret (a, k), w')
| run_permanent k w e w' :
    operation w = (Raise e, w') -> is_transient e = false -> retry_run k w (Raise e, w')
| run_exhausted k w e w' :
    operation w = (Raise e, w') -> is_transient e = true -> k = max_retries p ->
    retry_run k w (Raise (RetryExhaustedError (max_retries p + 1) e), w')
| run_retry k w e w' d w'' r :
    operation w = (Raise e, w') -> is_transient e = true -> k < max_retries p ->
    delay_for_attempt p (k + 1) = Ret d -> sleep d w' = (Ret tt, w'') ->
    retry_run (k + 1) w'' r -> retry_run k w r
| run_sleep_raises k w e w' d e' w'' :
    operation w = (Raise e, w') -> is_transient e = true -> k < max_retries p ->
    delay_for_attempt p (k + 1) = Ret d -> sleep d w' = (Raise e', w'') ->
    retry_run k w (Raise e', w'')
| run_overflow k w e w' e' :
    operation w = (Raise e, w') -> is_transient e = true -> k < max_retries p ->
    delay_for_attempt p (k + 1) = Raise e' ->
    retry_run k w (Raise e', w').

Lemma retry_loop_run n k last w :
  Z.of_nat n = max_retries p + 1 - k -> 0 <= k <= max_retries p ->
  retry_run k w (retry_loop p sleep operation n k last w).
Proof.
  revert k last w. induction n as [|n IH]; intros k last w Hn Hk; [lia|].
  simpl. unfold try_except, bind.
  destruct (operation w) as [[e|a] w'] eqn:Eop; [|by apply run_success].
  destruct (is_transient e) eqn:Et; [|by apply run_permanent].
  destruct (Z.leb_spec (max_retries p) k) as [Hle|Hlt].
  - apply run_exhausted; auto. lia.
  - destruct (delay_for_attempt p (k + 1)) as [e'|d] eqn:Ed.
    + eapply run_overflow; eauto.
    + destruct (sleep d w') as [[e'|[]] w''] eqn:Es.
      * eapply run_sleep_raises; eauto.
      * eapply run_retry; eauto. apply IH; lia.
Qed.

(** Two equations for one call say the results are equal. *)
#[local] Ltac same_run :=
  repeat (match goal with
  | H1 : operation ?w = _, H2 : operation ?w = _ |- _ => rewrite H1 in H2
  | H1 : delay_for_attempt p ?k = _, H2 : delay_for_attempt p ?k = _ |- _ => rewrite H1 in H2
  | H1 : sleep ?d ?w = _, H2 : sleep ?d ?w = _ |- _ => rewrite H1 in H2
  end; simplify_eq).

Lemma retry_run_det k w r r' : retry_run k w r -> retry_run k w r' -> r = r'.
Proof.
  intros H. revert r'.
  induction H; intros r' H'; inversion H'; same_run; auto; try congruence; try lia.
Qed.

Lemma retry_run_bound k w a c w' : retry_run k w (Ret (a, c), w') -> k <= c.
Proof.
  intros H. remember (Ret (a, c), w') as r eqn:Hr. induction H; simplify_eq; try lia.
  specialize (IHretry_run eq_refl). lia.
Qed.
Lemma retry_run_upper k w a c w' :
  k <= max_retries p -> retry_run k w (Ret (a, c), w') -> c <= max_retries p.
Proof.
  intros Hk H. remember (Ret (a, c), w') as r eqn:Hr. induction H; simplify_eq; auto with lia.
Qed.
End RetrySpec.

(** ** Properties of the retry policy *)
(** C33. [RetryPolicy.execute] runs exactly as its specification [retry_run] says,
    and always ends: success and permanent failures end it at once, a transient
    failure is retried after the backoff sleep while attempts are left, and the
    last one is wrapped in [RetryExhaustedError]. *)
Theorem execute_refines_spec {W A} (p : RetryPolicy) (sleep : Q -> prog W exn unit)
    (operation : prog W exn A) w r :
  0 <= max_retries p ->
  execute p sleep operation w = r <-> retry_run p sleep operation 0 w r.
Proof.
  intros Hp. assert (Hrun : retry_run p sleep operation 0 w (execute p sleep operation w)).
  { unfold execute. apply retry_loop_run; lia. }
  split; [by intros <-|]. intros Hr. by eapply retry_run_det.
Qed.

Lemma pow2_mono a b : 0 <= a <= b -> (Qpower 2 a <= Qpower 2 b)%Q.
Proof.
  intros [Ha Hb]. apply Qpower_le_compat_l; [done|]. by vm_compute.
Qed.
Lemma pow2_nonneg a : (0 <= Qpower 2 a)%Q.
Proof. apply Qpower_0_le. by vm_compute. Qed.

Lemma fmin_mono a a' b : (a <= a')%Q -> (fmin a b <= fmin a' b)%Q.
Proof.
  intros H. unfold fmin. destruct (fltb b a) eqn:E1, (fltb b a') eqn:E2; try done; try apply Qle_refl.
  - apply fltb_spec in E1. apply fltb_ge in E2. lra.
  - by apply fltb_ge in E1.
Qed.

(** The backoff delays are non-negative, never above the cap, never shrink
    from one retry to the next, and the first is the base delay or the cap. *)
Theorem delay_bounds p j k :
  (0 <= base_delay_seconds p)%Q -> (0 <= max_delay_seconds p)%Q -> 1 <= j <= k -> k <= 1024 ->
  exists dj dk, delay_for_attempt p j = Ret dj /\ delay_for_attempt p k = Ret dk /\
    (0 <= dj)%Q /\ (dj <= dk)%Q /\ (dk <= max_delay_seconds p)%Q.
Proof.
  intros Hb Hm Hjk Hk. unfold delay_for_attempt.
  destruct (Z.leb_spec 1024 (j - 1)); [lia|]. destruct (Z.leb_spec 1024 (k - 1)); [lia|].
  eexists _, _. split_and!; try reflexivity.
  - apply fmin_glb; [|done]. apply fmul_nonneg; [done|]. apply fl_nonneg, pow2_nonneg.
  - apply fmin_mono, fl_mono. apply Qmult_le_compat_nonneg; split.
    + done.
    + apply Qle_refl.
    + apply fl_nonneg, pow2_nonneg.
    + apply fl_mono, pow2_mono. lia.
  - apply fmin_le_r.
Qed.

(** ** Property of the adapter *)
Section AdapterProps.
Context {W : Type} `{MetricsState W}.
Context (config : LLMProviderConfig) (policy : RetryPolicy).
Context (sleep : Q -> prog W exn unit) (provider_generate : LLMRequest -> prog W exn LLMResponse).

(** The collaborators leave the metrics alone, and sleeping does not fail. *)
Definition keeps_records {A} (m : prog W exn A) : Prop := forall w, records (snd (m w)) = records w.

Context (sleep_ok : forall d w, exists w', sleep d w = (Ret tt, w') /\ records w' = records w).
Context (provider_ok : forall q, keeps_records (provider_generate q)).

Lemma retry_run_records q k w r :
  retry_run policy sleep (provider_generate q) k w r ->
  records (snd r) = records w /\ (forall e, fst r = Raise e -> is_transient e = false).
Proof using sleep_ok provider_ok.
  induction 1 as [k w a w' Hop|k w e w' Hop Ht|k w e w' Hop Ht Hk
    |k w e w' d w'' r Hop Ht Hk Hd Hs Hr [IH1 IH2]
    |k w e w' d e' w'' Hop Ht Hk Hd Hs|k w e w' e' Hop Ht Hk Hd];
    pose proof (provider_ok q w) as Hrec; rewrite Hop in Hrec; simpl in *.
  - split; [done|]. done.
  - split; [done|]. by intros ? [= <-].
  - split; [done|]. by intros ? [= <-].
  - destruct (sleep_ok d w') as (w1 & Hs1 & Hw1). rewrite Hs in Hs1. simplify_eq.
    split; [congruence|done].
  - destruct (sleep_ok d w') as (w1 & Hs1 & Hw1). congruence.
  - split; [done|]. unfold delay_for_attempt in Hd. destruct (1024 <=? _); [|done].
    simplify_eq. by intros ? [= <-].
Qed.

(** [LLMAdapter.generate] records the metrics of a successful call exactly
    once, with the number of retries it really took; a failed call records
    nothing, and a bare [LLMTransientError] never reaches the caller. *)
Theorem adapter_generate_spec prompt w :
  0 <= max_retries policy ->
  match adapter_generate config policy sleep provider_generate prompt w with
  | (Ret r, w') =>
      records w' = (records w ++ [metrics r])%list /\
      0 <= gm_retry_count (metrics r) <= max_retries policy /\
      exists q r0 w0, build_request config prompt = Ret q /\
        execute policy sleep (provider_generate q) w = (Ret (r0, gm_retry_count (metrics r)), w0) /\
        content r = content r0
  | (Raise e, w') => records w' = records w /\ (build_request config prompt <> Raise e -> is_transient e = false)
  end.
Proof using sleep_ok provider_ok.
  intros Hmax. unfold adapter_generate. unfold lift, bind at 1.
  destruct (build_request config prompt) as [e|q] eqn:Eq; [done|].
  assert (Hrun : retry_run policy sleep (provider_generate q) 0 w
                   (execute policy sleep (provider_generate q) w))
    by (apply retry_loop_run; lia).
  unfold bind at 1. destruct (execute _ _ _ _) as [[e|[r0 c]] w1] eqn:Ex.
  - destruct (retry_run_records _ _ _ _ Hrun) as [H1 H2]. simpl in *. split; [done|]. intros _. by apply H2.
  - destruct (retry_run_records _ _ _ _ Hrun) as [H1 _]. simpl in H1.
    pose proof (retry_run_bound _ _ _ _ _ _ _ _ Hrun).
    pose proof (retry_run_upper _ _ _ _ _ _ _ _ Hmax Hrun).
    set (r := if _ : bool then _ else _).
    assert (Hc : gm_retry_count (metrics r) = c).
    { unfold r. destruct (Z.eqb_spec (gm_retry_count (metrics r0)) c); [done|]. done. }
    assert (Hcont : content r = content r0) by (unfold r; by destruct (_ =? _)).
    unfold bind, record_metrics, ret. rewrite records_set, H1, Hc. split_and!; try done.
    by exists q, r0, w1.
Qed.
End AdapterProps.

(** ** Witnesses *)
(** A world of scripted provider outcomes, with the sleeps taken so far. *)
Record ScriptWorld := {
  script : list (outcome exn LLMResponse);
  slept : list Q;
  sw_records : list GenerationMetrics }.
#[local] Instance ScriptWorld_metrics : MetricsState ScriptWorld.
Proof.
  by refine {| records := sw_records;
               set_records := fun l w => {| script := script w; slept := slept w; sw_records := l |} |}.
Defined.
Definition script_call (q : LLMRequest) : prog ScriptWorld exn LLMResponse := fun w =>
  match script w with
  | [] => (Raise (LLMPermanentError "end of script"), w)
  | o :: s => (o, {| script := s; slept := slept w; sw_records := sw_records w |})
  end.
Definition script_sleep (d : Q) : prog ScriptWorld exn unit := fun w =>
  (Ret tt, {| script := script w; slept := (slept w ++ [d])%list; sw_records := sw_records w |}).

Definition demo_policy (n : Z) : RetryPolicy :=
  {| max_retries := n; base_delay_seconds := DEFAULT_BASE_DELAY_SECONDS;
     max_delay_seconds := DEFAULT_MAX_DELAY_SECONDS |}.
Definition demo_response : LLMResponse :=
  {| content := "SELECT 1";
     metrics := {| gm_provider := CLAUDE; gm_model := "m"; gm_latency_ms := 1%Q;
       gm_token_usage := {| prompt_tokens := 1; completion_tokens := 1 |};
       gm_retry_count := 0; gm_finish_reason := COMPLETE |} |}.
Definition demo_world : ScriptWorld :=
  {| script := [Raise (LLMTransientError "t"); Raise (LLMTransientError "t"); Ret demo_response];
     slept := []; sw_records := [] |}.
Definition demo_config : LLMProviderConfig :=
  {| cfg_provider := CLAUDE; cfg_model := "m"; cfg_api_key := "k"; cfg_temperature := 0%Q;
     cfg_max_tokens := 100; cfg_timeout := 30%Q; cfg_retry_count := 2; cfg_base_url := None |}.
Definition demo_request : LLMRequest :=
  {| req_prompt := "p"; req_model := "m"; req_temperature := 0%Q; req_max_tokens := 100 |}.

Lemma execute_refines_spec_witness :
  (exists w, retry_run (demo_policy 2) script_sleep (script_call demo_request) 0 demo_world
              (Ret (demo_response, 2), w) /\ slept w = [lit 1 2; 1%Q]) /\
  (exists w, retry_run (demo_policy 1) script_sleep (script_call demo_request) 0 demo_world
              (Raise (RetryExhaustedError 2 (LLMTransientError "t")), w)).
Proof.
  split; eexists.
  - split; [apply execute_refines_spec; [by vm_compute|]; vm_compute; reflexivity|]. by vm_compute.
  - apply execute_refines_spec; [by vm_compute|]. vm_compute. reflexivity.
Defined.

Lemma delay_bounds_witness :
  exists d3 d9, delay_for_attempt (demo_policy 9) 3 = Ret d3 /\ delay_for_attempt (demo_policy 9) 9 = Ret d9 /\
    (d3 == 2)%Q /\ (d9 == 30)%Q /\ (d3 <= d9)%Q.
Proof.
  destruct (delay_bounds (demo_policy 9) 3 9) as (d3 & d9 & H3 & H9 & _ & Hle & _);
    [by vm_compute|by vm_compute|lia|lia|].
  exists d3, d9. split_and!; [done|done| | |done].
  - vm_compute in H3. injection H3 as <-. reflexivity.
  - vm_compute in H9. injection H9 as <-. reflexivity.
Defined.

Lemma adapter_generate_spec_witness :
  records (snd (adapter_generate demo_config (demo_policy 2) script_sleep script_call demo_prompt demo_world))
  = [metrics (with_retry_count demo_response 2)].
Proof.
  pose proof (adapter_generate_spec demo_config (demo_policy 2) script_sleep script_call
    ltac:(intros d w; eexists; split; reflexivity)
    ltac:(intros q w; unfold script_call; by destruct (script w))
    demo_prompt demo_world ltac:(by vm_compute)) as H.
  revert H. vm_compute. by intros [H _].
Defined.
