(* ===== verification/Providers.v ===== *)
(** * The concrete LLM providers ([querymind.llm.providers], [querymind.llm.client])

    One HTTP POST per call: [HttpxTransport.post_json] over any [httpx.Client], the two
    response parsers on JSON values as [json.loads] builds them, and the two providers'
    [generate]. Which Python exception a malformed body ends in is modelled access by
    access, because the parsers' [except] clauses only name some of them. *)
From S2P Require Import Prelude PyFloat PyStr Models ContextModels PromptCompiler Llm.
From Stdlib Require Import Ascii.
#[local] Set Warnings "-register-all".
#[local] Open Scope string_scope.
#[local] Open Scope Z_scope.

(** ** JSON values and Python's accesses to them *)
Inductive Json :=
| JNone
| JBool (b : bool)
| JInt (n : Z)
| JFloat (x : Q)
| JStr (s : string)
| JList (l : list Json)
| JDict (d : list (string * Json)).

Definition type_name (j : Json) : string :=
  match j with
  | JNone => "NoneType" | JBool _ => "bool" | JInt _ => "int" | JFloat _ => "float"
  | JStr _ => "str" | JList _ => "list" | JDict _ => "dict"
  end.
Definition KeyError (m : string) : exn := OtherException "KeyError" m.
Definition IndexError (m : string) : exn := OtherException "IndexError" m.
Definition TypeError (m : string) : exn := OtherException "TypeError" m.
Definition AttributeError (m : string) : exn := OtherException "AttributeError" m.
Definition ValidationError (model : string) : exn :=
  OtherException "ValidationError" ("validation error for " ++ model).

Fixpoint dict_get (k : string) (d : list (string * Json)) : option Json :=
  match d with
  | [] => None
  | (k', v) :: d' => if String.eqb k k' then Some v else dict_get k d'
  end.
(** [j\[k\]] for a string [k]. *)
Definition getitem (k : string) (j : Json) : outcome exn Json :=
  match j with
  | JDict d => match dict_get k d with Some v => Ret v | None => Raise (KeyError (repr k)) end
  | JList _ => Raise (TypeError "list indices must be integers or slices, not str")
  | JStr _ => Raise (TypeError "string indices must be integers, not 'str'")
  | _ => Raise (TypeError ("'" ++ type_name j ++ "' object is not subscriptable"))
  end.
(** [j\[0\]]; the keys of a JSON object are strings. *)
Definition getitem_0 (j : Json) : outcome exn Json :=
  match j with
  | JDict _ => Raise (KeyError "0")
  | JList (v :: _) => Ret v
  | JList [] => Raise (IndexError "list index out of range")
  | JStr (String c _) => Ret (JStr (String c ""))
  | JStr "" => Raise (IndexError "string index out of range")
  | _ => Raise (TypeError ("'" ++ type_name j ++ "' object is not subscriptable"))
  end.
(** [for x in j] *)
Definition iter (j : Json) : outcome exn (list Json) :=
  match j with
  | JList l => Ret l
  | JDict d => Ret (map (fun kv => JStr (fst kv)) d)
  | JStr s => Ret (map (fun c => JStr (String c "")) (Stdlib.Strings.String.list_ascii_of_string s))
  | _ => Raise (TypeError ("'" ++ type_name j ++ "' object is not iterable"))
  end.
(** [j.get(k)]: only a dict has the method. *)
Definition get (k : string) (j : Json) : outcome exn (option Json) :=
  match j with
  | JDict d => Ret (dict_get k d)
  | _ => Raise (AttributeError ("'" ++ type_name j ++ "' object has no attribute 'get'"))
  end.
Definition truthy (j : Json) : bool :=
  match j with
  | JNone => false | JBool b => b | JInt n => negb (n =? 0) | JFloat x => negb (Qeq_bool x 0)
  | JStr s => negb (is_empty s)
  | JList l => match l with [] => false | _ => true end
  | JDict d => match d with [] => false | _ => true end
  end.
(** [j or ""] *)
Definition or_empty (j : Json) : Json := if truthy j then j else JStr "".
(** [j == s] *)
Definition is_str (s : string) (j : Json) : bool :=
  match j with JStr t => String.eqb t s | _ => false end.
(** ["".join(parts)]: the parts are collected first, then checked. *)
Fixpoint join_strs (i : Z) (l : list Json) : outcome exn string :=
  match l with
  | [] => Ret ""
  | JStr s :: l' => obind (join_strs (i + 1) l') (fun t => Ret (s ++ t))
  | j :: _ => Raise (TypeError ("sequence item " ++ show_Z i ++ ": expected str instance, "
                                 ++ type_name j ++ " found"))
  end.
(** [map.get(j, default)] for a map with string keys: hashing comes first. *)
Definition lookup_or {A} (m : string -> option A) (dflt : A) (j : Json) : outcome exn A :=
  match j with
  | JStr s => Ret (default dflt (m s))
  | JList _ | JDict _ => Raise (TypeError ("unhashable type: '" ++ type_name j ++ "'"))
  | _ => Ret dflt
  end.

(** pydantic's conversion of a JSON value to an [int] and to a [str] field. *)
Class Pydantic := {
  as_int : Json -> option Z;
  as_str : Json -> option string;
  as_int_int : forall n, as_int (JInt n) = Some n;
  as_str_str : forall s, as_str (JStr s) = Some s }.

(** ** The models the parsers build *)
Section Models.
Context `{Pydantic}.
Definition TokenUsage_init (prompt completion : Json) : outcome exn TokenUsage :=
  match as_int prompt, as_int completion with
  | Some p, Some c =>
      if (p <? 0) || (c <? 0) then Raise (ValidationError "TokenUsage")
      else Ret {| prompt_tokens := p; completion_tokens := c |}
  | _, _ => Raise (ValidationError "TokenUsage")
  end.
Definition LLMResponse_init (p : LLMProvider) (text model : Json) (latency_ms : Q) (u : TokenUsage)
    (f : FinishReason) : outcome exn LLMResponse :=
  match as_str model with
  | Some m =>
      if fltb latency_ms 0 then Raise (ValidationError "GenerationMetrics") else
      match as_str text with
      | Some t =>
          Ret {| content := t;
                 metrics := {| gm_provider := p; gm_model := m; gm_latency_ms := latency_ms;
                               gm_token_usage := u; gm_retry_count := 0; gm_finish_reason := f |} |}
      | None => Raise (ValidationError "LLMResponse")
      end
  | None => Raise (ValidationError "GenerationMetrics")
  end.

(** [except (...) as exc: raise LLMResponseParsingError(...) from exc] *)
Definition is_class (classes : list string) (e : exn) : bool :=
  existsb (String.eqb (exn_class e)) classes.
Definition reparse {A} (classes : list string) (name : string) (o : outcome exn A) : outcome exn A :=
  match o with
  | Raise e =>
      if is_class classes e
      then Raise (LLMResponseParsingError ("Malformed " ++ name ++ " response: missing " ++ exn_str e ++ "."))
      else Raise e
  | Ret a => Ret a
  end.

(** ** [providers/claude.py] *)
Definition ClaudeFinishReasons (s : string) : option FinishReason :=
  match s with
  | "end_turn" | "stop_sequence" => Some COMPLETE
  | "max_tokens" => Some MAX_TOKENS
  | "refusal" => Some CONTENT_FILTER
  | _ => None
  end.
(** [block.get("text", "") for block in content_blocks if block.get("type") == "text"] *)
Fixpoint text_blocks (blocks : list Json) : outcome exn (list Json) :=
  match blocks with
  | [] => Ret []
  | b :: bs =>
      let? t := get "type" b in
      if match t with Some t => is_str "text" t | None => false end then
        let? x := get "text" b in
        let? l := text_blocks bs in
        Ret (default (JStr "") x :: l)
      else text_blocks bs
  end.
Definition ClaudeResponseParser_parse (raw : Json) (latency_ms : Q) : outcome exn LLMResponse :=
  let? ' (text, token_usage, model) := reparse ["KeyError"; "TypeError"] "Claude" (
    let? content_blocks := getitem "content" raw in
    let? blocks := iter content_blocks in
    let? parts := text_blocks blocks in
    let? text := join_strs 0 parts in
    let? usage := getitem "usage" raw in
    let? i := getitem "input_tokens" usage in
    let? o := getitem "output_tokens" usage in
    let? token_usage := TokenUsage_init i o in
    let? model := getitem "model" raw in
    Ret (text, token_usage, model)) in
  let? stop_reason := get "stop_reason" raw in
  let? finish_reason := lookup_or ClaudeFinishReasons FINISH_ERROR (or_empty (default JNone stop_reason)) in
  LLMResponse_init CLAUDE (JStr text) model latency_ms token_usage finish_reason.

(** ** [providers/groq.py] *)
Definition GroqFinishReasons (s : string) : option FinishReason :=
  match s with
  | "stop" => Some COMPLETE
  | "length" => Some MAX_TOKENS
  | "content_filter" => Some CONTENT_FILTER
  | _ => None
  end.
Definition GroqResponseParser_parse (raw : Json) (latency_ms : Q) : outcome exn LLMResponse :=
  let? ' (choice, text, token_usage, model) := reparse ["KeyError"; "IndexError"; "TypeError"] "Groq" (
    let? choices := getitem "choices" raw in
    let? choice := getitem_0 choices in
    let? message := getitem "message" choice in
    let? c := getitem "content" message in
    let? usage := getitem "usage" raw in
    let? i := getitem "prompt_tokens" usage in
    let? o := getitem "completion_tokens" usage in
    let? token_usage := TokenUsage_init i o in
    let? model := getitem "model" raw in
    Ret (choice, or_empty c, token_usage, model)) in
  let? finish_reason_raw := get "finish_reason" choice in
  let? finish_reason := lookup_or GroqFinishReasons FINISH_ERROR (or_empty (default JNone finish_reason_raw)) in
  LLMResponse_init GROQ text model latency_ms token_usage finish_reason.
End Models.

(** ** [client.py] *)
Record HttpResponse := {
  status_code : Z;
  (** what [response.json()] returns or raises *)
  body_json : outcome exn Json }.
(** What [httpx.Client.post] raises: its timeouts, its other [HTTPError]s, anything else. *)
Inductive HttpFailure :=
| TimeoutException
| HTTPError (message : string)
| NotAnHTTPError (e : exn).
Definition ValueErrors : list string := ["ValueError"; "JSONDecodeError"; "UnicodeDecodeError"].

Section Transport.
Context {W : Type} `{Clock W} `{Pydantic}.
Context (show_float : Q -> string) (show_json : Json -> string).
Context (http_post : string -> list (string * string) -> Json -> Q -> prog W HttpFailure HttpResponse).

Definition post_json (url : string) (headers : list (string * string)) (body : Json) (timeout : Q)
  : prog W exn (Z * Json) :=
  let! response := try_except (http_post url headers body timeout) (fun e =>
    match e with
    | TimeoutException =>
        throw (LLMTransientError ("Request to " ++ url ++ " timed out after " ++ show_float timeout ++ "s."))
    | HTTPError m => throw (LLMTransientError ("Network error calling " ++ url ++ ": " ++ m))
    | NotAnHTTPError e => throw e
    end) in
  match body_json response with
  | Ret parsed => ret (status_code response, parsed)
  | Raise e =>
      if is_class ValueErrors e
      then throw (LLMTransientError ("Response from " ++ url ++ " (HTTP " ++ show_Z (status_code response)
                                       ++ ") was not valid JSON."))
      else throw e
  end.

Definition RETRYABLE_STATUS_CODES : list Z := [408; 409; 429; 500; 502; 503; 504].
(** [_error_message]: [str(detail)] of any JSON value is [show_json]. *)
Definition error_message (name : string) (raw : Json) (status : Z) : outcome exn string :=
  obind (get "error" raw) (fun error =>
  let detail := match error with
                | Some (JDict d) => match dict_get "message" d with
                                    | Some m => show_json m
                                    | None => "unknown error"
                                    end
                | _ => "unknown error"
                end in
  Ret (name ++ " API returned HTTP " ++ show_Z status ++ ": " ++ detail)).

Definition provider_request_body (max_tokens_key : string) (request : LLMRequest) : Json :=
  JDict [("model", JStr (req_model request));
         (max_tokens_key, JInt (req_max_tokens request));
         ("temperature", JFloat (req_temperature request));
         ("messages", JList [JDict [("role", JStr "user"); ("content", JStr (req_prompt request))]])].
Definition ClaudeHeaders (config : LLMProviderConfig) : list (string * string) :=
  [("x-api-key", cfg_api_key config); ("anthropic-version", "2023-06-01");
   ("content-type", "application/json")].
Definition GroqHeaders (config : LLMProviderConfig) : list (string * string) :=
  [("authorization", "Bearer " ++ cfg_api_key config); ("content-type", "application/json")].

(** The part of [generate] the two classes have in common, word for word. *)
Definition send (name url : string) (headers : list (string * string)) (body : Json)
    (parse : Json -> Q -> outcome exn LLMResponse) (timeout : Q) : prog W exn LLMResponse :=
  let! started := perf_counter in
  let! ' (status, raw) := post_json url headers body timeout in
  let! latency_ms := elapsed_ms started in
  if 400 <=? status then
    let! message := lift (error_message name raw status) in
    if existsb (Z.eqb status) RETRYABLE_STATUS_CODES then throw (LLMTransientError message)
    else throw (LLMPermanentError message)
  else lift (parse raw latency_ms).

Definition endpoint (config : LLMProviderConfig) (path : string) : outcome exn string :=
  obind (resolved_base_url config) (fun base => Ret (rstrip_by (Ascii.eqb "/"%char) base ++ path)).
Definition ClaudeProvider_generate (config : LLMProviderConfig) (request : LLMRequest) : prog W exn LLMResponse :=
  let! url := lift (endpoint config "/v1/messages") in
  send "Claude" url (ClaudeHeaders config) (provider_request_body "max_tokens" request)
    ClaudeResponseParser_parse (cfg_timeout config).
Definition GroqProvider_generate (config : LLMProviderConfig) (request : LLMRequest) : prog W exn LLMResponse :=
  let! url := lift (endpoint config "/chat/completions") in
  send "Groq" url (GroqHeaders config) (provider_request_body "max_completion_tokens" request)
    GroqResponseParser_parse (cfg_timeout config).

(** The constructors refuse a configuration of the other provider. *)
Definition ClaudeProvider_init (config : LLMProviderConfig) : outcome exn (LLMRequest -> prog W exn LLMResponse) :=
  match cfg_provider config with
  | CLAUDE => Ret (ClaudeProvider_generate config)
  | GROQ => Raise (LLMConfigurationError
      "ClaudeProvider requires provider=LLMProvider.CLAUDE, got <LLMProvider.GROQ: 'groq'>.")
  end.
Definition GroqProvider_init (config : LLMProviderConfig) : outcome exn (LLMRequest -> prog W exn LLMResponse) :=
  match cfg_provider config with
  | GROQ => Ret (GroqProvider_generate config)
  | CLAUDE => Raise (LLMConfigurationError
      "GroqProvider requires provider=LLMProvider.GROQ, got <LLMProvider.CLAUDE: 'claude'>.")
  end.
Definition build_llm_provider (config : LLMProviderConfig) : outcome exn (LLMRequest -> prog W exn LLMResponse) :=
  match cfg_provider config with
  | CLAUDE => ClaudeProvider_init config
  | GROQ => GroqProvider_init config
  end.
End Transport.

(** ** What one call does *)
Section Generate.
Context {W : Type} `{Clock W} `{Pydantic}.
Context (show_float : Q -> string) (show_json : Json -> string).
Context (http_post : string -> list (string * string) -> Json -> Q -> prog W HttpFailure HttpResponse).
#[local] Abbreviation built config := (build_llm_provider show_float show_json http_post config).

(** The POST that [config]'s provider makes for [request]. *)
Definition the_url (p : LLMProvider) (base : string) : string :=
  rstrip_by (Ascii.eqb "/"%char) base ++ match p with CLAUDE => "/v1/messages" | GROQ => "/chat/completions" end.
Definition the_post (config : LLMProviderConfig) (base : string) (request : LLMRequest) : prog W HttpFailure HttpResponse :=
  match cfg_provider config with
  | CLAUDE => http_post (the_url CLAUDE base) (ClaudeHeaders config)
                (provider_request_body "max_tokens" request) (cfg_timeout config)
  | GROQ => http_post (the_url GROQ base) (GroqHeaders config)
                (provider_request_body "max_completion_tokens" request) (cfg_timeout config)
  end.
Definition the_name (p : LLMProvider) : string := match p with CLAUDE => "Claude" | GROQ => "Groq" end.
Definition the_parser (p : LLMProvider) : Json -> Q -> outcome exn LLMResponse :=
  match p with CLAUDE => ClaudeResponseParser_parse | GROQ => GroqResponseParser_parse end.
Definition retryable_reply (o : outcome HttpFailure HttpResponse) : Prop :=
  match o with
  | Raise TimeoutException | Raise (HTTPError _) => True
  | Raise (NotAnHTTPError e) => is_transient e = true
  | Ret r => match body_json r with
             | Raise e => is_class ValueErrors e = true \/ is_transient e = true
             | Ret j => (exists d, j = JDict d) /\ status_code r ∈ RETRYABLE_STATUS_CODES
             end
  end.

(** What a reply turns into, once the clock has been read. *)
Definition outcome_of (name : string) (parse : Json -> Q -> outcome exn LLMResponse) (url : string)
    (timeout latency_ms : Q) (o : outcome HttpFailure HttpResponse) : outcome exn LLMResponse :=
  match o with
  | Raise TimeoutException =>
      Raise (LLMTransientError ("Request to " ++ url ++ " timed out after " ++ show_float timeout ++ "s."))
  | Raise (HTTPError m) => Raise (LLMTransientError ("Network error calling " ++ url ++ ": " ++ m))
  | Raise (NotAnHTTPError e) => Raise e
  | Ret r =>
      match body_json r with
      | Raise e => if is_class ValueErrors e
          then Raise (LLMTransientError ("Response from " ++ url ++ " (HTTP " ++ show_Z (status_code r)
                                           ++ ") was not valid JSON."))
          else Raise e
      | Ret j =>
          if 400 <=? status_code r then
            obind (error_message show_json name j (status_code r)) (fun m =>
            if existsb (Z.eqb (status_code r)) RETRYABLE_STATUS_CODES then Raise (LLMTransientError m)
            else Raise (LLMPermanentError m))
          else parse j latency_ms
      end
  end.
Lemma run_send name url headers body parse timeout w :
  let '(o, w2) := http_post url headers body timeout (snd (tick w)) in
  exists w', send show_float show_json http_post name url headers body parse timeout w =
   (outcome_of name parse url timeout (fmul (fsub (fst (tick w2)) (fst (tick w))) 1000%Q) o, w') /\
   (w' = w2 \/ w' = snd (tick w2)).
Proof.
  destruct (http_post url headers body timeout (snd (tick w))) as [o w2] eqn:E.
  unfold send. rewrite bind_perf_counter. unfold bind at 1, post_json, bind at 1, try_except. rewrite E.
  destruct o as [[|m|e]|r]; cbn [outcome_of]; [eexists; split; [reflexivity|by left]..|].
  destruct (body_json r) as [e|j]; [destruct (is_class ValueErrors e); (eexists; split; [reflexivity|by left])|].
  unfold ret at 1. unfold bind at 1. rewrite elapsed_ms_eq.
  exists (snd (tick w2)). split; [|by right].
  destruct (400 <=? status_code r); [|done]. unfold bind, lift, obind.
  destruct (error_message show_json name j (status_code r)); [done|]. by destruct (existsb _ _).
Qed.

Lemma run_built config base request w : cfg_base_url config = Some base ->
  exists gen, built config = Ret gen /\
  let '(o, w2) := the_post config base request (snd (tick w)) in
  exists w', gen request w =
    (outcome_of (the_name (cfg_provider config)) (the_parser (cfg_provider config)) (the_url (cfg_provider config) base) (cfg_timeout config)
       (fmul (fsub (fst (tick w2)) (fst (tick w))) 1000%Q) o, w') /\
    (w' = w2 \/ w' = snd (tick w2)).
Proof.
  intros Hb. unfold build_llm_provider, ClaudeProvider_init, GroqProvider_init, the_post.
  destruct (cfg_provider config) eqn:Ep; (eexists; split; [reflexivity|]);
    unfold ClaudeProvider_generate, GroqProvider_generate, endpoint, resolved_base_url; rewrite Hb;
    unfold bind at 1, lift at 1, obind at 1.
  - exact (run_send "Claude" _ _ _ _ _ w).
  - exact (run_send "Groq" _ _ _ _ _ w).
Qed.

(** *** Which exceptions the parsers let out *)
Definition ends {A} (P : exn -> Prop) (Q : A -> Prop) (o : outcome exn A) : Prop :=
  match o with Raise e => P e | Ret a => Q a end.
Definition raises {A} (P : exn -> Prop) (o : outcome exn A) : Prop := ends P (fun _ => True) o.
Lemma ends_obind {A B} P Q (o : outcome exn A) (f : A -> outcome exn B) :
  raises P o -> (forall a, o = Ret a -> ends P Q (f a)) -> ends P Q (obind o f).
Proof. destruct o; simpl; eauto. Qed.
Lemma raises_obind {A B} P (o : outcome exn A) (f : A -> outcome exn B) :
  raises P o -> (forall a, o = Ret a -> raises P (f a)) -> raises P (obind o f).
Proof. apply ends_obind. Qed.
Lemma raises_mono {A} (P Q : exn -> Prop) (o : outcome exn A) :
  (forall e, P e -> Q e) -> raises P o -> raises Q o.
Proof. destruct o; simpl; eauto. Qed.

Definition python_error (e : exn) : Prop := exists c m, e = OtherException c m.
Definition access_error (classes : list string) (e : exn) : Prop :=
  python_error e /\ is_class classes e = true.
Definition parsing_error (e : exn) : Prop := exists m, e = LLMResponseParsingError m.

Lemma getitem_raises k j : raises (access_error ["KeyError"; "TypeError"]) (getitem k j).
Proof. destruct j; simpl; try (destruct (dict_get k d)); simpl; try done; (split; [by eexists _, _|reflexivity]). Qed.
Lemma getitem_0_raises j : raises (access_error ["KeyError"; "IndexError"; "TypeError"]) (getitem_0 j).
Proof. destruct j as [| | | |[]|[]|]; simpl; try done; (split; [by eexists _, _|reflexivity]). Qed.
Lemma iter_raises j : raises (access_error ["KeyError"; "TypeError"]) (iter j).
Proof. destruct j; simpl; try done; (split; [by eexists _, _|reflexivity]). Qed.
Lemma join_strs_raises l : forall i, raises (access_error ["KeyError"; "TypeError"]) (join_strs i l).
Proof.
  induction l as [|j l IH]; intros i; [done|].
  destruct j; cbn [join_strs]; try (split; [by eexists _, _|reflexivity]). by apply raises_obind.
Qed.
Lemma get_raises k j : raises python_error (get k j).
Proof. destruct j; simpl; try done; by eexists _, _. Qed.
Lemma text_blocks_raises l : raises python_error (text_blocks l).
Proof.
  induction l as [|j l IH]; [done|]. cbn [text_blocks]. apply raises_obind; [apply get_raises|]. intros t _.
  destruct (match t with Some t => _ | None => _ end); [|done].
  apply raises_obind; [apply get_raises|]. intros x _. by apply raises_obind.
Qed.
Lemma TokenUsage_init_raises i o : raises python_error (TokenUsage_init i o).
Proof.
  unfold TokenUsage_init. destruct (as_int i); [|by eexists _, _]. destruct (as_int o); [|by eexists _, _].
  destruct (_ || _); [by eexists _, _|done].
Qed.
Lemma LLMResponse_init_raises p t m l u f : raises python_error (LLMResponse_init p t m l u f).
Proof.
  unfold LLMResponse_init. destruct (as_str m); [|by eexists _, _]. destruct (fltb l 0); [by eexists _, _|].
  destruct (as_str t); [done|by eexists _, _].
Qed.
Lemma lookup_or_raises {A} (m : string -> option A) d j : raises python_error (lookup_or m d j).
Proof. destruct j; simpl; try done; by eexists _, _. Qed.
Lemma reparse_ends {A} cs name (o : outcome exn A) (P : exn -> Prop) Q :
  ends (fun e => is_class cs e = true \/ P e) Q o -> ends (fun e => parsing_error e \/ P e) Q (reparse cs name o).
Proof.
  destruct o as [e|a]; [|done]. simpl. destruct (is_class cs e) eqn:E; [|by intros [?|?]; [|right]].
  intros _. left. by eexists.
Qed.
Lemma raises_python {A} cs (o : outcome exn A) : raises (access_error cs) o -> raises python_error o.
Proof. apply raises_mono. by intros e [He _]. Qed.

(** *** Malformed bodies

    The fields a parser reads have, where they are present, the types the APIs document. *)
Definition is_dict (j : Json) : Prop := exists d, j = JDict d.
Definition natural (j : Json) : Prop := exists n, j = JInt n /\ 0 <= n.
Definition text (j : Json) : Prop := exists s, j = JStr s.
Definition nullable_text (j : Json) : Prop := j = JNone \/ text j.
Definition field (k : string) (P : Json -> Prop) (j : Json) : Prop := forall v, getitem k j = Ret v -> P v.
Definition usage_typed (i o : string) (j : Json) : Prop :=
  field "usage" (fun u => field i natural u /\ field o natural u) j /\ field "model" text j.
Definition typed (p : LLMProvider) (j : Json) : Prop :=
  is_dict j /\
  match p with
  | CLAUDE =>
      usage_typed "input_tokens" "output_tokens" j /\ field "stop_reason" nullable_text j /\
      field "content" (fun c => forall l, iter c = Ret l -> Forall is_dict l) j
  | GROQ =>
      usage_typed "prompt_tokens" "completion_tokens" j /\
      field "choices" (fun cs => forall c, getitem_0 cs = Ret c ->
        field "finish_reason" nullable_text c /\ field "message" (field "content" nullable_text) c) j
  end.

Lemma access_subset {A} (cs cs' : list string) (o : outcome exn A) :
  (forall c, existsb (String.eqb c) cs = true -> existsb (String.eqb c) cs' = true) ->
  raises (access_error cs) o -> raises (fun e => is_class cs' e = true \/ False) o.
Proof. intros Hcs. apply raises_mono. intros e [_ He]. left. by apply Hcs. Qed.
Lemma getitem_caught cs k j : (forall c, existsb (String.eqb c) ["KeyError"; "TypeError"] = true -> existsb (String.eqb c) cs = true) ->
  raises (fun e => is_class cs e = true \/ False) (getitem k j).
Proof. intros Hcs. by eapply access_subset, getitem_raises. Qed.
Lemma text_blocks_typed l : Forall is_dict l -> exists ts, text_blocks l = Ret ts.
Proof.
  induction 1 as [|j l [d ->] _ [ts IH]]; [by eexists|]. cbn [text_blocks get obind].
  destruct (match dict_get "type" d with Some t => _ | None => _ end); [|by eexists].
  rewrite IH. by eexists.
Qed.
Lemma TokenUsage_init_typed i o : natural i -> natural o -> exists u, TokenUsage_init i o = Ret u.
Proof.
  intros (n & -> & Hn) (m & -> & Hm). unfold TokenUsage_init. rewrite !as_int_int.
  destruct (Z.ltb_spec n 0), (Z.ltb_spec m 0); try lia. by eexists.
Qed.
Lemma LLMResponse_init_typed p t m l u f : text t -> text m -> fltb l 0 = false ->
  exists r, LLMResponse_init p t m l u f = Ret r.
Proof. intros [t' ->] [m' ->] Hl. unfold LLMResponse_init. rewrite !as_str_str, Hl. by eexists. Qed.
Lemma lookup_or_typed {A} (m : string -> option A) d j : nullable_text j -> exists a, lookup_or m d (or_empty j) = Ret a.
Proof. intros [->|[s ->]]; unfold or_empty; simpl; [by eexists|]. destruct (negb _); by eexists. Qed.
Lemma or_empty_text j : nullable_text j -> text (or_empty j).
Proof. intros [->|[s ->]]; unfold or_empty; simpl; [by eexists|]. destruct (negb _); by eexists. Qed.
Lemma get_typed k d : field k nullable_text (JDict d) -> exists v, get k (JDict d) = Ret v /\ nullable_text (default JNone v).
Proof.
  intros Hf. simpl. destruct (dict_get k d) as [v|] eqn:E; eexists; (split; [reflexivity|]); [|by left].
  apply (Hf v). simpl. by rewrite E.
Qed.

Ltac caught := apply getitem_caught; intros ?; cbn [existsb]; repeat destruct (String.eqb _ _); done.
Lemma claude_typed_raises j l : typed CLAUDE j -> fltb l 0 = false -> raises parsing_error (ClaudeResponseParser_parse j l).
Proof.
  intros ((d & ->) & (Hu & Hm) & Hs & Hc) Hl. unfold ClaudeResponseParser_parse.
  assert (Htry : forall o, ends (fun e => is_class ["KeyError"; "TypeError"] e = true \/ False)
                        (fun r : string * TokenUsage * Json => text (snd r)) o ->
                      ends parsing_error (fun r : string * TokenUsage * Json => text (snd r))
                        (reparse ["KeyError"; "TypeError"] "Claude" o)).
  { intros o Ho. apply reparse_ends with (name := "Claude") in Ho. destruct (reparse _ _ o); [by destruct Ho|done]. }
  match goal with |- raises _ (obind (reparse _ _ ?o) _) => specialize (Htry o); set (body := o) in * end.
  assert (Hbody : ends (fun e => is_class ["KeyError"; "TypeError"] e = true \/ False) (fun r => text (snd r)) body).
  { unfold body. apply ends_obind; [caught|]. intros c Ec.
    apply ends_obind; [eapply access_subset, iter_raises; done|]. intros bs Eb.
    destruct (text_blocks_typed bs (Hc _ Ec _ Eb)) as [ts ->]. cbn [obind].
    apply ends_obind; [eapply access_subset, join_strs_raises; done|]. intros tx _.
    apply ends_obind; [caught|]. intros u Eu. destruct (Hu _ Eu) as [Hi Ho].
    apply ends_obind; [caught|]. intros i Ei. apply ends_obind; [caught|]. intros o Eo.
    destruct (TokenUsage_init_typed i o (Hi _ Ei) (Ho _ Eo)) as [tu ->]. cbn [obind].
    apply ends_obind; [caught|]. intros m Em. exact (Hm _ Em). }
  specialize (Htry Hbody). destruct (reparse _ _ body) as [e|[[tx u] m]]; [exact Htry|]. cbn [obind].
  destruct (get_typed _ _ Hs) as (v & -> & Hv). cbn [obind].
  destruct (lookup_or_typed ClaudeFinishReasons FINISH_ERROR _ Hv) as [f ->]. cbn [obind].
  destruct (LLMResponse_init_typed CLAUDE (JStr tx) m l u f) as [r ->]; [by eexists|exact Htry|done|done].
Qed.
Lemma groq_typed_raises j l : typed GROQ j -> fltb l 0 = false -> raises parsing_error (GroqResponseParser_parse j l).
Proof.
  intros ((d & ->) & (Hu & Hm) & Hc) Hl. unfold GroqResponseParser_parse.
  pose (good := fun r : Json * Json * TokenUsage * Json =>
    let '(c, t, _, m) := r in is_dict c /\ field "finish_reason" nullable_text c /\ text t /\ text m).
  match goal with |- raises _ (obind (reparse _ _ ?o) _) => set (body := o) end.
  assert (Hbody : ends (fun e => is_class ["KeyError"; "IndexError"; "TypeError"] e = true \/ False) good body).
  { unfold body. apply ends_obind; [caught|]. intros chs Ec.
    apply ends_obind; [eapply access_subset, getitem_0_raises; done|]. intros c Ec0.
    destruct (Hc _ Ec _ Ec0) as [Hf Hmsg].
    apply ends_obind; [caught|]. intros msg Emsg. apply ends_obind; [caught|]. intros t Et.
    apply ends_obind; [caught|]. intros u Eu. destruct (Hu _ Eu) as [Hi Ho].
    apply ends_obind; [caught|]. intros i Ei. apply ends_obind; [caught|]. intros o Eo.
    destruct (TokenUsage_init_typed i o (Hi _ Ei) (Ho _ Eo)) as [tu ->]. cbn [obind].
    apply ends_obind; [caught|]. intros m Em. cbn [ends good]. split_and!; [|done| |exact (Hm _ Em)].
    - destruct c; try discriminate Emsg. by eexists.
    - apply or_empty_text. exact (Hmsg _ Emsg _ Et). }
  apply reparse_ends with (name := "Groq") in Hbody.
  destruct (reparse _ _ body) as [e|[[[c t] u] m]]; [by destruct Hbody|]. cbn [obind].
  destruct Hbody as ((dc & ->) & Hf & Ht & Hmt).
  destruct (get_typed _ _ Hf) as (v & -> & Hv). cbn [obind].
  destruct (lookup_or_typed GroqFinishReasons FINISH_ERROR _ Hv) as [f ->]. cbn [obind].
  by destruct (LLMResponse_init_typed GROQ t m l u f Ht Hmt Hl) as [r ->].
Qed.
#[local] Ltac python_raises :=
  repeat (apply raises_obind; [|intros ? _]);
  first [exact I | apply get_raises | apply lookup_or_raises | apply LLMResponse_init_raises
        | apply text_blocks_raises | apply TokenUsage_init_raises
        | eapply raises_python; first [apply getitem_raises | apply getitem_0_raises | apply iter_raises | apply join_strs_raises]].
Lemma raises_right {A} (P Q : exn -> Prop) (o : outcome exn A) : raises Q o -> raises (fun e => P e \/ Q e) o.
Proof. apply raises_mono. by right. Qed.
Lemma parser_raises p j l : raises (fun e => parsing_error e \/ python_error e) (the_parser p j l).
Proof.
  destruct p; cbn [the_parser]; unfold ClaudeResponseParser_parse, GroqResponseParser_parse;
    (apply raises_obind; [apply reparse_ends, raises_right; python_raises|]).
  - intros [[??]?] _. apply raises_right. python_raises.
  - intros [[[??]?]?] _. apply raises_right. python_raises.
Qed.
Lemma parser_typed_raises p j l : typed p j -> fltb l 0 = false -> raises parsing_error (the_parser p j l).
Proof. destruct p; [apply claude_typed_raises|apply groq_typed_raises]. Qed.

(** What a reply must be for the provider to stay inside [LLMError]. *)
Definition well_typed_reply (p : LLMProvider) (o : outcome HttpFailure HttpResponse) : Prop :=
  match o with
  | Raise (NotAnHTTPError _) => False
  | Raise _ => True
  | Ret r => match body_json r with
             | Raise e => is_class ValueErrors e = true
             | Ret j => if 400 <=? status_code r then is_dict j else typed p j
             end
  end.
Definition provider_error (e : exn) : Prop :=
  exists m, e = LLMTransientError m \/ e = LLMPermanentError m \/ e = LLMResponseParsingError m.

Lemma retryable_is_error s : existsb (Z.eqb s) RETRYABLE_STATUS_CODES = true <-> s ∈ RETRYABLE_STATUS_CODES.
Proof.
  rewrite existsb_exists. split.
  - intros (x & Hx & ->%Z.eqb_eq). by apply list_elem_of_In.
  - intros Hs. exists s. split; [by apply list_elem_of_In|apply Z.eqb_refl].
Qed.
Lemma retryable_400 s : s ∈ RETRYABLE_STATUS_CODES -> (400 <=? s) = true.
Proof.
  intros Hs%list_elem_of_In. apply Z.leb_le. unfold RETRYABLE_STATUS_CODES in Hs. simpl in Hs. lia.
Qed.

Lemma outcome_classified p url timeout t0 t1 o :
  (forall e, o = Raise (NotAnHTTPError e) -> is_transient e = false) ->
  (forall r e, o = Ret r -> body_json r = Raise e -> is_transient e = false) ->
  let res := outcome_of (the_name p) (the_parser p) url timeout (fmul (fsub t1 t0) 1000%Q) o in
  ((exists m, res = Raise (LLMTransientError m)) <-> retryable_reply o) /\
  (well_typed_reply p o -> (t0 <= t1)%Q -> forall e, res = Raise e -> provider_error e).
Proof.
  intros Hne Hje. cbv zeta. destruct o as [[|m|e]|r]; cbn [outcome_of retryable_reply well_typed_reply].
  - split; [by split; [|by eexists]|]. intros _ _ e [= <-]. eexists. by left.
  - split; [by split; [|by eexists]|]. intros _ _ e [= <-]. eexists. by left.
  - split; [|done]. specialize (Hne e eq_refl). split; [by intros (m & [= ->])|congruence].
  - specialize (Hje r). destruct (body_json r) as [e|j].
    + specialize (Hje e eq_refl eq_refl). destruct (is_class ValueErrors e).
      * split; [split; [by left|by eexists]|]. intros _ _ e' [= <-]. eexists. by left.
      * split; [|done]. split; [by intros (m & [= ->])|]. intros [?|?]; congruence.
    + clear Hne Hje. destruct (400 <=? status_code r) eqn:E4.
      * unfold error_message, get. destruct j as [| | | | | |d]; cbn [obind];
          try (split; [split; [by intros (m & [=])|by intros [(d & [=]) _]]|by intros (d & [=])]).
        destruct (existsb _ _) eqn:Er.
        { apply retryable_is_error in Er. split; [split; [eauto|by eexists]|].
          intros _ _ e [= <-]. eexists. by left. }
        { split; [|intros _ _ e [= <-]; eexists; by right; left]. split; [by intros (m & [=])|].
          intros [_ Hs%retryable_is_error]. congruence. }
      * pose proof (parser_raises p j (fmul (fsub t1 t0) 1000%Q)) as Hp. split.
        { split; [|intros [_ Hs%retryable_400]; congruence]. intros (m & Hm). rewrite Hm in Hp.
          by destruct Hp as [(? & [=])|(? & ? & [=])]. }
        { intros Ht Hle e He. assert (Hl : fltb (fmul (fsub t1 t0) 1000%Q) 0 = false)
            by (apply fltb_ge, fmul_nonneg; [by apply fsub_nonneg|done]).
          pose proof (parser_typed_raises p j _ Ht Hl) as Hq. rewrite He in Hq. destruct Hq as [m ->].
          exists m. by right; right. }
Qed.
End Generate.

(** C34. One call of a provider is classified for the retry policy the way the two modules document:
    it ends in [LLMTransientError] exactly when the network failed, the body was not JSON, or
    a JSON object came back under a retryable status. When the body has the documented field
    types, whichever fields are missing, nothing but the three LLM errors comes out. *)
Theorem provider_failures_are_classified {W} `{Clock W} `{Pydantic} show_float show_json http_post config base request (w : W) :
  cfg_base_url config = Some base ->
  (forall u h b t w e, fst (http_post u h b t w) = Raise (NotAnHTTPError e) -> is_transient e = false) ->
  (forall u h b t w r e, fst (http_post u h b t w) = Ret r -> body_json r = Raise e -> is_transient e = false) ->
  exists gen, build_llm_provider show_float show_json http_post config = Ret gen /\
  let '(reply, w2) := the_post http_post config base request (snd (tick w)) in
  ((exists m, fst (gen request w) = Raise (LLMTransientError m)) <-> retryable_reply reply) /\
  (well_typed_reply (cfg_provider config) reply -> (fst (tick w) <= fst (tick w2))%Q ->
   forall e, fst (gen request w) = Raise e -> provider_error e).
Proof.
  intros Hb Hne Hje.
  destruct (run_built show_float show_json http_post config base request w Hb) as (gen & Hg & Hrun).
  exists gen. split; [exact Hg|].
  assert (Hpost : exists u h b t, the_post http_post config base request = http_post u h b t)
    by (unfold the_post; destruct (cfg_provider config); by eexists _, _, _, _).
  destruct Hpost as (u & h & b & t & Hpost). rewrite Hpost in Hrun |- *.
  specialize (Hne u h b t (snd (tick w))). specialize (Hje u h b t (snd (tick w))).
  destruct (http_post u h b t (snd (tick w))) as [o w2]. destruct Hrun as (w' & -> & _). cbn [fst snd] in *.
  apply outcome_classified; [intros e ->; by apply Hne|intros r e ->; by apply Hje].
Qed.

(** ** Replies as the APIs document them *)
Section Wire.
Context `{Pydantic}.
(** A Claude content block: text, or a block of another kind. *)
Definition claude_block (b : string + string) : Json :=
  match b with
  | inl t => JDict [("type", JStr "text"); ("text", JStr t)]
  | inr kind => JDict [("type", JStr kind)]
  end.
Definition claude_reply (blocks : list (string + string)) (model stop : string) (u : TokenUsage) : Json :=
  JDict [("content", JList (map claude_block blocks)); ("model", JStr model); ("stop_reason", JStr stop);
         ("usage", JDict [("input_tokens", JInt (prompt_tokens u)); ("output_tokens", JInt (completion_tokens u))])].
Definition groq_reply (text model finish : string) (u : TokenUsage) : Json :=
  JDict [("choices", JList [JDict [("message", JDict [("role", JStr "assistant"); ("content", JStr text)]);
                                   ("finish_reason", JStr finish)]]);
         ("model", JStr model);
         ("usage", JDict [("prompt_tokens", JInt (prompt_tokens u)); ("completion_tokens", JInt (completion_tokens u))])].
Definition block_text (b : string + string) : string := match b with inl t => t | inr _ => "" end.
Definition parsed (p : LLMProvider) (text model : string) (l : Q) (u : TokenUsage) (f : FinishReason) : LLMResponse :=
  {| content := text;
     metrics := {| gm_provider := p; gm_model := model; gm_latency_ms := l; gm_token_usage := u;
                   gm_retry_count := 0; gm_finish_reason := f |} |}.
Definition sane_usage (u : TokenUsage) : Prop := 0 <= prompt_tokens u /\ 0 <= completion_tokens u.

Lemma text_of_blocks blocks : Forall (fun b => forall k, b = inr k -> k <> "text") blocks ->
  exists parts, text_blocks (map claude_block blocks) = Ret (map JStr parts) /\
    foldr String.append "" parts = foldr String.append "" (map block_text blocks).
Proof.
  induction 1 as [|[t|k] bs Hb _ (parts & IH1 & IH2)]; [by exists []| |]; cbn [map text_blocks claude_block].
  - cbn [get dict_get obind String.eqb Ascii.eqb Bool.eqb is_str]. simpl. rewrite IH1. cbn [obind].
    exists (t :: parts). split; [done|]. simpl. by rewrite IH2.
  - exists parts. split; [|simpl; exact IH2]. cbn [get dict_get]. simpl.
    destruct (String.eqb_spec k "text") as [->|_]; [exfalso; by apply (Hb "text")|]. exact IH1.
Qed.
Lemma join_of_strs parts : forall i, join_strs i (map JStr parts) = Ret (foldr String.append "" parts).
Proof. induction parts as [|t ps IH]; intros i; [done|]. cbn [map join_strs]. by rewrite IH. Qed.
Lemma TokenUsage_init_ok u : sane_usage u -> TokenUsage_init (JInt (prompt_tokens u)) (JInt (completion_tokens u)) = Ret u.
Proof.
  intros [H1 H2]. unfold TokenUsage_init. rewrite !as_int_int.
  destruct (Z.ltb_spec (prompt_tokens u) 0), (Z.ltb_spec (completion_tokens u) 0); try lia. by destruct u.
Qed.
Lemma LLMResponse_init_ok p t m l u f : fltb l 0 = false ->
  LLMResponse_init p (JStr t) (JStr m) l u f = Ret (parsed p t m l u f).
Proof. intros Hl. unfold LLMResponse_init. by rewrite !as_str_str, Hl. Qed.
Lemma or_empty_str s : or_empty (JStr s) = JStr s.
Proof. by destruct s. Qed.

#[local] Ltac fetch := cbn [getitem getitem_0 dict_get get iter obind String.eqb Ascii.eqb Bool.eqb andb].
(** A documented reply is read back exactly: the concatenated text blocks (Claude) or the
    message of the first choice (Groq), the serving model, the token counts and the normalised
    finish reason, an unknown reason being [ERROR]. *)
Theorem documented_replies_are_read_back blocks text model stop u latency_ms :
  Forall (fun b => forall k, b = inr k -> k <> "text") blocks ->
  sane_usage u -> (0 <= latency_ms)%Q ->
  ClaudeResponseParser_parse (claude_reply blocks model stop u) latency_ms =
    Ret (parsed CLAUDE (foldr String.append "" (map block_text blocks)) model latency_ms u
           (default FINISH_ERROR (ClaudeFinishReasons stop))) /\
  GroqResponseParser_parse (groq_reply text model stop u) latency_ms =
    Ret (parsed GROQ text model latency_ms u (default FINISH_ERROR (GroqFinishReasons stop))).
Proof.
  intros Hb Hu Hl%fltb_ge. split.
  - unfold ClaudeResponseParser_parse, claude_reply. destruct (text_of_blocks blocks Hb) as (parts & Hp & <-).
    fetch. rewrite Hp. cbn [obind]. rewrite join_of_strs. fetch. rewrite (TokenUsage_init_ok u Hu).
    cbn [obind reparse from_option id]. rewrite or_empty_str. cbn [lookup_or obind]. by apply LLMResponse_init_ok.
  - unfold GroqResponseParser_parse, groq_reply. fetch. rewrite (TokenUsage_init_ok u Hu).
    cbn [obind reparse]. fetch. cbn [from_option id]. rewrite !or_empty_str. cbn [lookup_or obind]. by apply LLMResponse_init_ok.
Qed.
End Wire.

(** ** The adapter over a provider: how many requests are sent *)
Section Posts.
Context {W A : Type} (policy : RetryPolicy) (sleep : Q -> prog W exn unit) (operation : prog W exn A).
Context (posts : W -> Z) (sleep_posts : forall d w, posts (snd (sleep d w)) = posts w)
        (one_post : forall w, posts (snd (operation w)) = posts w + 1).
Lemma retry_run_posts k w r : retry_run policy sleep operation k w r -> k <= max_retries policy ->
  posts w + 1 <= posts (snd r) <= posts w + max_retries policy - k + 1 /\
  (forall a c, fst r = Ret (a, c) -> posts (snd r) = posts w + (c - k) + 1).
Proof using sleep_posts one_post.
  induction 1 as [k w a w' Hop|k w e w' Hop Ht|k w e w' Hop Ht Hk
    |k w e w' d w'' r Hop Ht Hk Hd Hs Hr IH|k w e w' d e' w'' Hop Ht Hk Hd Hs|k w e w' e' Hop Ht Hk Hd]; intros Hmax;
    pose proof (one_post w) as Hp; rewrite Hop in Hp; cbn [fst snd] in *.
  - split; [lia|]. intros ? ? [= <- <-]. lia.
  - by split; [lia|].
  - by split; [lia|].
  - pose proof (sleep_posts d w') as Hs'. rewrite Hs in Hs'. cbn [snd] in Hs'.
    destruct IH as [H1 H2]; [lia|]. split; [lia|]. intros a c Hac. specialize (H2 a c Hac). lia.
  - pose proof (sleep_posts d w') as Hs'. rewrite Hs in Hs'. cbn [snd] in Hs'. by split; [lia|].
  - by split; [lia|].
Qed.
End Posts.

Lemma generate_posts_once {W} `{Clock W} `{Pydantic} show_float show_json http_post config base (posts : W -> Z) gen :
  (forall w, posts (snd (tick w)) = posts w) ->
  (forall u h b t w, posts (snd (http_post u h b t w)) = posts w + 1) ->
  cfg_base_url config = Some base -> build_llm_provider show_float show_json http_post config = Ret gen ->
  forall q w, posts (snd (gen q w)) = posts w + 1.
Proof.
  intros Htick Hpost Hb Hg q w.
  destruct (run_built show_float show_json http_post config base q w Hb) as (gen' & Hg' & Hrun).
  rewrite Hg in Hg'. injection Hg' as <-.
  assert (Hp : posts (snd (the_post http_post config base q (snd (tick w)))) = posts w + 1)
    by (unfold the_post; destruct (cfg_provider config); by rewrite Hpost, Htick).
  destruct (the_post _ _ _ _ _) as [o w2]. cbn [snd] in Hp. destruct Hrun as (w' & -> & [->| ->]); cbn [snd]; [done|].
  by rewrite Htick.
Qed.

(** One [LLMAdapter.generate] sends between one and [max_retries + 1] requests to the provider, and
    the retry count it reports on success is the number of requests it sent, less one. *)
Theorem retry_count_counts_requests {W} `{Clock W} `{MetricsState W} `{Pydantic} show_float show_json http_post
    config base policy sleep prompt request (posts : W -> Z) gen w :
  cfg_base_url config = Some base ->
  build_llm_provider show_float show_json http_post config = Ret gen ->
  0 <= max_retries policy ->
  build_request config prompt = Ret request ->
  (forall w, posts (snd (tick w)) = posts w) -> (forall d w, posts (snd (sleep d w)) = posts w) ->
  (forall l w, posts (set_records l w) = posts w) ->
  (forall u h b t w, posts (snd (http_post u h b t w)) = posts w + 1) ->
  let '(o, w') := adapter_generate config policy sleep gen prompt w in
  1 <= posts w' - posts w <= max_retries policy + 1 /\
  (forall r, o = Ret r -> gm_retry_count (metrics r) = posts w' - posts w - 1).
Proof.
  intros Hb Hg Hmax Hq Htick Hsleep Hrec Hpost.
  pose proof (generate_posts_once _ _ _ _ _ posts gen Htick Hpost Hb Hg request) as Hone.
  unfold adapter_generate. rewrite Hq. unfold bind at 1, lift at 1. unfold bind at 1.
  assert (Hrun : retry_run policy sleep (gen request) 0 w (execute policy sleep (gen request) w))
    by (apply retry_loop_run; lia).
  destruct (retry_run_posts policy sleep (gen request) posts Hsleep Hone 0 w _ Hrun Hmax) as [Hn Hc].
  destruct (execute policy sleep (gen request) w) as [[e|[r0 c]] w1]; cbn [fst snd] in *; [split; [lia|done]|].
  specialize (Hc r0 c eq_refl). unfold bind, record_metrics, ret. rewrite Hrec. split; [lia|].
  intros r [= <-]. destruct (Z.eqb_spec (gm_retry_count (metrics r0)) c); cbn [with_retry_count metrics gm_retry_count]; lia.
Qed.

(** ** Bodies whose exceptions no [except] clause names, and witnesses *)
Module ProviderDemo.
#[export] Instance lax : Pydantic.
Proof.
  by refine {| as_int j := match j with JInt n => Some n | JBool b => Some (if b then 1 else 0) | _ => None end;
               as_str j := match j with JStr s => Some s | _ => None end |}.
Defined.
Definition usage : TokenUsage := {| prompt_tokens := 12; completion_tokens := 3 |}.
Definition usage_json : Json := JDict [("input_tokens", JInt 12); ("output_tokens", JInt 3)].

(** A content block that is a string, a negative token count and a list for a stop reason: an
    [AttributeError], a [ValidationError] and a [TypeError] instead of an [LLMResponseParsingError]. *)
Example string_block_escapes :
  ClaudeResponseParser_parse (JDict [("content", JList [JStr "hi"]); ("usage", usage_json); ("model", JStr "m")]) 1%Q =
  Raise (AttributeError "'str' object has no attribute 'get'").
Proof. reflexivity. Qed.
Example negative_usage_escapes :
  GroqResponseParser_parse (groq_reply "hi" "m" "stop" {| prompt_tokens := -1; completion_tokens := 3 |}) 1%Q =
  Raise (ValidationError "TokenUsage").
Proof. reflexivity. Qed.
Example list_stop_reason_escapes :
  ClaudeResponseParser_parse (JDict [("content", JList []); ("usage", usage_json); ("model", JStr "m");
                                     ("stop_reason", JList [JStr "end_turn"])]) 1%Q =
  Raise (TypeError "unhashable type: 'list'").
Proof. reflexivity. Qed.
(** A 503 whose JSON body is a list: not retried, and not an LLM error. *)
Example list_body_is_not_retried :
  error_message (fun _ => "") "Claude" (JList [JStr "overloaded"]) 503 =
  Raise (AttributeError "'list' object has no attribute 'get'").
Proof. reflexivity. Qed.

(** A world of scripted replies: (requests sent, clock, replies left, records). *)
Record DemoWorld := { sent : Z; now : Z; replies : list HttpResponse; recorded : list GenerationMetrics }.
#[export] Instance demo_clock : Clock DemoWorld := fun w =>
  (inject_Z (now w), {| sent := sent w; now := now w + 1; replies := replies w; recorded := recorded w |}).
#[export] Instance demo_metrics : MetricsState DemoWorld.
Proof.
  by refine {| records := recorded;
               set_records l w := {| sent := sent w; now := now w; replies := replies w; recorded := l |} |}.
Defined.
Definition demo_post (u : string) (h : list (string * string)) (b : Json) (t : Q) : prog DemoWorld HttpFailure HttpResponse :=
  fun w => match replies w with
  | [] => (Raise TimeoutException, {| sent := sent w + 1; now := now w; replies := []; recorded := recorded w |})
  | r :: rs => (Ret r, {| sent := sent w + 1; now := now w; replies := rs; recorded := recorded w |})
  end.
Definition demo_sleep (d : Q) : prog DemoWorld exn unit := ret tt.
Definition ok_reply : HttpResponse :=
  {| status_code := 200; body_json := Ret (claude_reply [inr "thinking"; inl "SELECT"; inl " 1"] "m" "end_turn" usage) |}.
Definition busy_reply : HttpResponse :=
  {| status_code := 529; body_json := Ret (JDict []) |}.
Definition limited_reply : HttpResponse :=
  {| status_code := 429; body_json := Ret (JDict [("error", JDict [("message", JStr "slow down")])]) |}.
Definition world (rs : list HttpResponse) : DemoWorld := {| sent := 0; now := 0; replies := rs; recorded := [] |}.
Definition config : LLMProviderConfig := resolve_default_base_url demo_config.
Definition show_json (j : Json) : string := match j with JStr s => s | _ => "?" end.
Definition gen : LLMRequest -> prog DemoWorld exn LLMResponse :=
  ClaudeProvider_generate (fun _ => "30.0") show_json demo_post config.
Lemma demo_post_facts u h b t w : sent (snd (demo_post u h b t w)) = sent w + 1 /\
  (forall e, fst (demo_post u h b t w) <> Raise (NotAnHTTPError e)).
Proof. unfold demo_post. by destruct (replies w). Qed.
End ProviderDemo.
Import ProviderDemo.

Lemma provider_failures_are_classified_witness :
  let ask r := fst (ClaudeProvider_generate (H := demo_clock) (H0 := lax) (fun _ => "30.0") show_json (fun _ _ _ _ w => (Ret r, w)) config
                      demo_request (world [])) in
  (exists m, ask limited_reply = Raise (LLMTransientError m)) /\ ~ (exists m, ask busy_reply = Raise (LLMTransientError m)).
Proof.
  intros ask.
  assert (H : forall r j, body_json r = Ret j ->
    (exists m, ask r = Raise (LLMTransientError m)) <-> retryable_reply (Ret r)).
  { intros r j Hr.
    destruct (provider_failures_are_classified (H := demo_clock) (H0 := lax) (fun _ => "30.0") show_json
      (fun _ _ _ _ w => (Ret r, w)) config DEFAULT_CLAUDE_BASE_URL demo_request (world []) eq_refl) as (g & Hg & Hres).
    - intros; discriminate.
    - intros ? ? ? ? w r' e Hr'. injection Hr' as <-. rewrite Hr. discriminate.
    - injection Hg as <-. exact (proj1 Hres). }
  split.
  - apply (proj2 (H limited_reply _ eq_refl)). split; [by eexists|]. by repeat constructor.
  - intros Hm. destruct (proj1 (H busy_reply _ eq_refl) Hm) as [_ Hs%retryable_is_error]. discriminate Hs.
Defined.

Lemma documented_replies_are_read_back_witness :
  ClaudeResponseParser_parse (H := lax) (claude_reply [inr "thinking"; inl "SELECT"; inl " 1"] "m" "pause_turn" usage) 5%Q =
    Ret (parsed CLAUDE "SELECT 1" "m" 5%Q usage FINISH_ERROR).
Proof.
  apply (documented_replies_are_read_back (H := lax) [inr "thinking"; inl "SELECT"; inl " 1"] "" "m" "pause_turn" usage 5%Q).
  - by repeat (constructor; [by intros k [= <-]|]).
  - by split.
  - done.
Defined.

Lemma retry_count_counts_requests_witness :
  exists r, fst (adapter_generate config (demo_policy 2) demo_sleep gen demo_prompt (world [limited_reply; ok_reply])) = Ret r /\
    content r = "SELECT 1" /\ gm_retry_count (metrics r) = 1.
Proof.
  destruct (build_request config demo_prompt) as [e|q] eqn:Eq; [vm_compute in Eq; discriminate Eq|].
  pose proof (retry_count_counts_requests (H := demo_clock) (H0 := demo_metrics) (H1 := lax) (fun _ => "30.0") show_json demo_post
    config DEFAULT_CLAUDE_BASE_URL (demo_policy 2) demo_sleep demo_prompt q sent gen (world [limited_reply; ok_reply])
    eq_refl eq_refl ltac:(by vm_compute) Eq (fun _ => eq_refl) (fun _ _ => eq_refl) (fun _ _ => eq_refl)
    (fun u h b t w => proj1 (demo_post_facts u h b t w))) as H.
  destruct (adapter_generate _ _ _ _ _ _) as [[e|r] w'] eqn:E; vm_compute in E; [discriminate E|].
  injection E as Er Ew. subst w'. destruct H as [_ H]. exists r. split; [done|]. split; [by rewrite <- Er|].
  rewrite (H r eq_refl). reflexivity.
Defined.
