(* ===== verification/Generation.v ===== *)
(** * SQL generation ([querymind.sql_generation])

    [SQLExtractor], [SQLNormalizer], [StatementTypeDetector], [build_statistics]
    and [SQLGenerationEngine.generate] over the LLM adapter. *)
From Stdlib Require Import Ascii.
From S2P Require Import Prelude PyFloat PyStr Models ContextModels PromptCompiler.
#[local] Open Scope string_scope.
#[local] Open Scope Z_scope.

(** ** [extractor.py] *)
Definition fence : string := "```".

(** The regular expression [```sql\s*(.*?)```], ignoring case, anchored. A fence
    holds no blank, so [\s*] never has to give one back. *)
Definition match_sql_fence (s : string) : option string :=
  if startswith (fence ++ "sql") (lower s)
  then lazy_until fence (lstrip (drop_str 6 s))
  else None.

Fixpoint skip_word (s : string) : string :=
  match s with
  | String c s' => if is_word c then skip_word s' else s
  | "" => ""
  end.
(** [```\w*\s*(.*?)```], anchored. *)
Definition match_generic_fence (s : string) : option string :=
  if startswith fence s
  then lazy_until fence (lstrip (skip_word (drop_str 3 s)))
  else None.

Record ExtractionResult := { ext_sql : string; ext_method : ExtractionMethod }.

Definition extraction_result (candidate : string) (m : ExtractionMethod) : outcome exn ExtractionResult :=
  let s := strip candidate in
  if is_empty s
  then Raise (SQLExtractionError
         ("Extraction via " ++ repr (ExtractionMethod_value m) ++ " produced no usable SQL text."))
  else Ret {| ext_sql := s; ext_method := m |}.

Definition extract (raw_content : string) : outcome exn ExtractionResult :=
  match re_search match_sql_fence raw_content with
  | Some c => extraction_result c FENCED_SQL_BLOCK
  | None =>
      match re_search match_generic_fence raw_content with
      | Some c => extraction_result c FENCED_GENERIC_BLOCK
      | None => extraction_result raw_content RAW_TEXT
      end
  end.

(** ** [normalizer.py] *)
Definition CR : ascii := ascii_of_nat 13.
Definition is_terminator (c : ascii) : bool := Ascii.eqb c ";" || is_space c.

(** The text ends in no newline after [strip], so [$] is the end of the text. *)
Definition normalize (s : string) : string :=
  let normalized := strip (replace (String CR "") nl (replace (String CR nl) nl s)) in
  rstrip_by is_terminator normalized ++ ";".

(** ** [parser.py] *)
Definition LEADING_KEYWORDS : list (string * SQLStatementType) :=
  [("WITH", ST_WITH); ("SELECT", ST_SELECT); ("INSERT", ST_INSERT);
   ("UPDATE", ST_UPDATE); ("DELETE", ST_DELETE)].

Definition is_word_boundary (text : string) (index : nat) : bool :=
  match String.get index text with
  | None => true
  | Some c => negb (is_alnum c || Ascii.eqb c "_")
  end.

Definition detect_in (keywords : list (string * SQLStatementType)) (u : string) : SQLStatementType :=
  match List.find (fun kt => startswith (fst kt) u && is_word_boundary u (String.length (fst kt))) keywords with
  | Some (_, t) => t
  | None => ST_UNKNOWN
  end.
Definition detect (s : string) : SQLStatementType := detect_in LEADING_KEYWORDS (upper (strip s)).

(** ** [statistics.py] and [engine.py] *)
Definition build_statistics {W} `{Clock W} (m : ExtractionMethod) (raw_sql normalized_sql : string)
    (started : Q) : prog W exn SQLGenerationStatistics :=
  let! latency := elapsed_ms started in
  ret {| extraction_method := m;
         raw_sql_length := len raw_sql;
         normalized_sql_length := len normalized_sql;
         normalization_changed_sql := negb (String.eqb raw_sql normalized_sql);
         generation_latency_ms := latency |}.

Section Engine.
Context {W : Type} `{Clock W}.
Context (llm_generate : CompiledPrompt -> prog W exn LLMResponse).

Definition generate (compiled_prompt : CompiledPrompt) : prog W exn GeneratedSQL :=
  let! started := perf_counter in
  let! llm_response := llm_generate compiled_prompt in
  let! extraction := (fun w => (extract (content llm_response), w)) in
  let normalized_sql := normalize (ext_sql extraction) in
  let! statistics := build_statistics (ext_method extraction) (ext_sql extraction) normalized_sql started in
  ret {| sql := normalized_sql;
         statement_type := detect normalized_sql;
         raw_llm_content := content llm_response;
         dialect := cp_dialect compiled_prompt;
         llm_metrics := metrics llm_response;
         gen_statistics := statistics |}.
End Engine.

(** ** Lemmas *)
Fixpoint all_chars (p : ascii -> bool) (s : string) : bool :=
  match s with "" => true | String c s' => p c && all_chars p s' end.
Definition not_char (a c : ascii) : bool := negb (Ascii.eqb c a).

Lemma all_chars_app p s t : all_chars p (s ++ t) = all_chars p s && all_chars p t.
Proof. induction s as [|c s IH]; [done|]. rewrite app_str_cons. simpl. by rewrite IH, andb_assoc. Qed.
Lemma all_chars_lstrip p q s : all_chars p s = true -> all_chars p (lstrip_by q s) = true.
Proof.
  induction s as [|c s IH]; simpl; [done|]. intros [Hc Hs]%andb_true_iff.
  destruct (q c); [auto|]. simpl. by rewrite Hc, Hs.
Qed.
Lemma all_chars_rstrip p q s : all_chars p s = true -> all_chars p (rstrip_by q s) = true.
Proof.
  induction s as [|c s IH]; simpl; [done|]. intros [Hc Hs]%andb_true_iff.
  specialize (IH Hs). destruct (rstrip_by q s); [destruct (q c); simpl; by rewrite ?Hc|].
  simpl in *. by rewrite Hc.
Qed.
Lemma all_chars_drop p n s : all_chars p s = true -> all_chars p (drop_str n s) = true.
Proof.
  revert s; induction n as [|n IH]; intros [|c s]; simpl; try done.
  intros [_ Hs]%andb_true_iff. auto.
Qed.

(** Replacing a pattern that starts with [a] in a text without [a] changes nothing. *)
Lemma replace_fuel_absent n a old' new s :
  all_chars (not_char a) s = true -> replace_fuel n (String a old') new s = s.
Proof.
  revert s; induction n as [|n IH]; intros [|c s]; simpl; try done.
  intros [Hc Hs]%andb_true_iff. unfold not_char in Hc. apply negb_true_iff, Ascii.eqb_neq in Hc.
  replace (Ascii.eqb a c) with false by (symmetry; apply Ascii.eqb_neq; congruence).
  simpl. by rewrite IH.
Qed.
(** Replacing the one character [a] by a text without [a] leaves no [a]. *)
Lemma replace_fuel_removes n a new s :
  all_chars (not_char a) new = true -> (String.length s <= n)%nat ->
  all_chars (not_char a) (replace_fuel n (String a "") new s) = true.
Proof.
  intros Hnew. revert s; induction n as [|n IH]; intros [|c s]; simpl; intros Hl; try done; [lia|].
  destruct (Ascii.eqb_spec a c) as [->|Hne]; simpl.
  - rewrite all_chars_app, Hnew. simpl. destruct s; simpl in *; apply IH; simpl; lia.
  - unfold not_char at 1. replace (Ascii.eqb c a) with false
      by (symmetry; apply Ascii.eqb_neq; congruence).
    simpl. apply IH. lia.
Qed.

(** [normalize] is one stripped body, with one terminator added. *)
Definition normal_body (s : string) : string :=
  rstrip_by is_terminator (strip (replace (String CR "") nl (replace (String CR nl) nl s))).
Lemma normalize_body s : normalize s = normal_body s ++ ";".
Proof. done. Qed.

Lemma normal_body_no_cr s : all_chars (not_char CR) (normal_body s) = true.
Proof.
  unfold normal_body, strip, lstrip, rstrip. apply all_chars_rstrip, all_chars_rstrip, all_chars_lstrip.
  unfold replace at 1. apply replace_fuel_removes; [done|lia].
Qed.
Lemma is_space_terminator c : is_space c = true -> is_terminator c = true.
Proof. intros H. unfold is_terminator. by rewrite H, orb_true_r. Qed.
Lemma normal_body_stripped s : lstrip (normal_body s) = normal_body s.
Proof.
  unfold normal_body, strip, rstrip, lstrip. set (u := replace _ _ _).
  rewrite <- (lstrip_rstrip_lstrip is_space is_space u). by rewrite lstrip_rstrip_lstrip.
Qed.
Lemma normal_body_last s c : last_char (normal_body s) = Some c -> is_terminator c = false.
Proof. apply rstrip_by_last. Qed.

Lemma normalize_fixed b :
  all_chars (not_char CR) b = true -> lstrip b = b ->
  (forall c, last_char b = Some c -> is_terminator c = false) ->
  normalize (b ++ ";") = b ++ ";".
Proof.
  intros Hcr Hl Hlast. unfold normalize.
  assert (Hcr' : all_chars (not_char CR) (b ++ ";") = true) by by rewrite all_chars_app, Hcr.
  unfold replace at 2, nl. rewrite replace_fuel_absent by done. unfold replace. rewrite replace_fuel_absent by done.
  f_equal. assert (Hs : strip (b ++ ";") = b ++ ";").
  { unfold strip. replace (lstrip (b ++ ";")) with (b ++ ";").
    - unfold rstrip. by apply rstrip_by_app_kept.
    - destruct b as [|c r]; [done|]. rewrite app_str_cons. unfold lstrip in *. simpl in *.
      destruct (is_space c) eqn:E; [|done].
      exfalso. destruct (lstrip_by_head is_space r) as [E'|(c' & r' & E' & Hc')]; rewrite E' in Hl;
        [done|]. injection Hl as -> ->. congruence. }
  rewrite Hs, rstrip_by_app_dropped by done. by apply rstrip_by_id.
Qed.

(** ** Lemmas: extraction *)
Lemma strip_fixed q : strip q = q -> lstrip q = q /\ rstrip q = q.
Proof.
  unfold strip, lstrip, rstrip. intros H. split.
  - rewrite <- H at 1. rewrite lstrip_rstrip_lstrip. done.
  - rewrite <- H at 1. rewrite rstrip_by_idem. done.
Qed.
Lemma lstrip_app q t : lstrip q = q -> q <> "" -> lstrip (q ++ t) = q ++ t.
Proof.
  unfold lstrip. destruct q as [|c q]; [done|]. intros H _. rewrite app_str_cons. simpl in *.
  destruct (is_space c) eqn:E; [|done]. exfalso.
  destruct (lstrip_by_head is_space q) as [E'|(c' & r & E' & Hc)]; rewrite E' in H; [done|].
  injection H as -> ->. congruence.
Qed.

Definition backtick : ascii := ascii_of_nat 96.
Lemma char_lower_backtick c : char_lower c = backtick -> c = backtick.
Proof.
  destruct c as [b0 b1 b2 b3 b4 b5 b6 b7].
  destruct b0, b1, b2, b3, b4, b5, b6, b7; vm_compute; congruence.
Qed.
Lemma match_sql_fence_skip c s : c <> backtick -> match_sql_fence (String c s) = None.
Proof.
  intros Hc. unfold match_sql_fence.
  change (lower (String c s)) with (String (char_lower c) (lower s)).
  change (fence ++ "sql") with (String backtick "``sql").
  change (startswith (String backtick "``sql") (String (char_lower c) (lower s)))
    with (Ascii.eqb backtick (char_lower c) && startswith "``sql" (lower s)).
  destruct (Ascii.eqb_spec backtick (char_lower c)); [|done].
  exfalso. apply Hc. by apply char_lower_backtick.
Qed.
Lemma re_search_skip pre s :
  all_chars (not_char backtick) pre = true ->
  re_search match_sql_fence (pre ++ s) = re_search match_sql_fence s.
Proof.
  induction pre as [|c pre IH]; [done|]. intros [Hc Hp]%andb_true_iff.
  rewrite app_str_cons. cbn [re_search]. rewrite match_sql_fence_skip; [auto|].
  intros ->. done.
Qed.

Lemma startswith_fence_app q r : startswith fence (q ++ nl ++ r) = startswith fence q.
Proof.
  destruct q as [|a [|b [|c q]]]; try done;
    rewrite !app_str_cons; simpl; repeat (destruct (Ascii.eqb _ _)); done.
Qed.
Lemma lazy_until_fence q post :
  contains fence q = false -> lazy_until fence (q ++ nl ++ fence ++ post) = Some (q ++ nl).
Proof.
  induction q as [|c q IH]; intros Hc; [done|].
  cbn [contains] in Hc. apply orb_false_iff in Hc as [Hs Hc].
  rewrite !app_str_cons. cbn [lazy_until].
  rewrite <- app_str_cons, startswith_fence_app, Hs. by rewrite IH.
Qed.

(** Round trip of [SQLExtractor]: a trimmed text in a [```sql] fence comes
    back exactly, whatever follows the fence and whatever text without a backtick
    precedes it. *)
Theorem extract_roundtrip pre q post :
  all_chars (not_char backtick) pre = true ->
  strip q = q -> q <> "" -> contains fence q = false ->
  extract (pre ++ fence ++ "sql" ++ nl ++ q ++ nl ++ fence ++ post)
  = Ret {| ext_sql := q; ext_method := FENCED_SQL_BLOCK |}.
Proof.
  intros Hpre Hs Hq Hc. apply strip_fixed in Hs as [Hl Hr].
  assert (Hm : match_sql_fence (fence ++ "sql" ++ nl ++ q ++ nl ++ fence ++ post) = Some (q ++ nl)).
  { change (match_sql_fence (fence ++ "sql" ++ nl ++ q ++ nl ++ fence ++ post)) with
      (lazy_until fence (lstrip (q ++ nl ++ fence ++ post))).
    rewrite lstrip_app by done. by apply lazy_until_fence. }
  unfold extract. rewrite re_search_skip by done.
  assert (Hf : re_search match_sql_fence (fence ++ "sql" ++ nl ++ q ++ nl ++ fence ++ post) = Some (q ++ nl)).
  { remember (fence ++ "sql" ++ nl ++ q ++ nl ++ fence ++ post) as t.
    destruct t; cbn [re_search]; by rewrite Hm. }
  rewrite Hf. unfold extraction_result, strip. rewrite lstrip_app by done.
  unfold rstrip, nl. rewrite rstrip_by_app_dropped by done. fold (rstrip q). rewrite Hr.
  by destruct q.
Qed.

Lemma extraction_result_ok c m x :
  extraction_result c m = Ret x -> strip (ext_sql x) = ext_sql x /\ ext_sql x <> "" /\ ext_method x = m.
Proof.
  unfold extraction_result. destruct (is_empty (strip c)) eqn:E; [done|]. intros; simplify_eq/=.
  rewrite strip_idem. split_and!; [done| |done]. by apply is_empty_false.
Qed.
Lemma extraction_result_error c m e :
  extraction_result c m = Raise e -> exists t, e = SQLExtractionError t.
Proof. unfold extraction_result. destruct (is_empty _); intros; simplify_eq; eauto. Qed.
Lemma extract_ok r x : extract r = Ret x -> strip (ext_sql x) = ext_sql x /\ ext_sql x <> "".
Proof.
  unfold extract. repeat case_match; intros Hx; apply extraction_result_ok in Hx as (? & ? & _); done.
Qed.
Lemma extract_error r e : extract r = Raise e -> exists t, e = SQLExtractionError t.
Proof. unfold extract. repeat case_match; apply extraction_result_error. Qed.

(** ** Properties of the normalizer *)
(** A statement body: no carriage return, no leading blank, no trailing blank or
    semicolon. *)
Definition clean_body (b : string) : Prop :=
  all_chars (not_char CR) b = true /\ lstrip b = b /\
  (forall c, last_char b = Some c -> is_terminator c = false).

Lemma clean_normal_body s : clean_body (normal_body s).
Proof.
  split_and!; [apply normal_body_no_cr|apply normal_body_stripped|intros c; apply normal_body_last].
Qed.

(** [SQLNormalizer.normalize] always produces a clean body followed by exactly
    one semicolon, is the identity on such texts, and so is idempotent. *)
Theorem normalize_normal_form s :
  (exists b, clean_body b /\ normalize s = b ++ ";") /\
  (forall b, clean_body b -> normalize (b ++ ";") = b ++ ";") /\
  normalize (normalize s) = normalize s.
Proof.
  assert (Hfix : forall b, clean_body b -> normalize (b ++ ";") = b ++ ";").
  { intros b (H1 & H2 & H3). by apply normalize_fixed. }
  split_and!; [|exact Hfix|].
  - exists (normal_body s). split; [apply clean_normal_body|done].
  - rewrite (normalize_body s). apply Hfix, clean_normal_body.
Qed.

(** ** Property of the detector *)
Fixpoint leading_word (s : string) : string :=
  match s with
  | String c s' => if is_word c then String c (leading_word s') else ""
  | "" => ""
  end.
Lemma word_boundary_char c : negb (is_alnum c || Ascii.eqb c "_") = negb (is_word c).
Proof.
  unfold is_word. f_equal. f_equal.
  destruct c as [b0 b1 b2 b3 b4 b5 b6 b7].
  destruct b0, b1, b2, b3, b4, b5, b6, b7; vm_compute; congruence.
Qed.
Lemma keyword_is_leading_word kw u :
  all_chars is_word kw = true ->
  startswith kw u && is_word_boundary u (String.length kw) = String.eqb kw (leading_word u).
Proof.
  revert u; induction kw as [|k kw IH]; intros u Hk.
  - unfold is_word_boundary. simpl. destruct u as [|c u]; [done|]. simpl.
    rewrite word_boundary_char. by destruct (is_word c).
  - simpl in Hk. apply andb_true_iff in Hk as [Hk1 Hk2]. destruct u as [|c u]; [done|]. simpl.
    destruct (Ascii.eqb_spec k c) as [->|Hne].
    + rewrite Hk1. simpl. rewrite Ascii.eqb_refl. rewrite <- IH by done. done.
    + simpl. destruct (is_word c); [|done]. simpl.
      by rewrite (proj2 (Ascii.eqb_neq k c) Hne).
Qed.

(** [StatementTypeDetector.detect] is a look-up of the whole leading
    identifier of the stripped, upper-cased text: [SELECTOR] is not [SELECT]. *)
Theorem detect_leading_word s :
  detect s =
  let w := leading_word (upper (strip s)) in
  if String.eqb "WITH" w then ST_WITH else if String.eqb "SELECT" w then ST_SELECT
  else if String.eqb "INSERT" w then ST_INSERT else if String.eqb "UPDATE" w then ST_UPDATE
  else if String.eqb "DELETE" w then ST_DELETE else ST_UNKNOWN.
Proof.
  unfold detect, detect_in, LEADING_KEYWORDS. cbn [List.find fst].
  rewrite !keyword_is_leading_word by reflexivity. cbv zeta.
  repeat (destruct (String.eqb _ (leading_word _)); [done|]). done.
Qed.

(** ** Property of the engine *)
Section EngineProps.
Context {W : Type} `{Clock W}.
Context (llm_generate : CompiledPrompt -> prog W exn LLMResponse).

(** [SQLGenerationEngine.generate] calls the adapter once. Its errors are the
    adapter's or [SQLExtractionError]; a result carries the adapter's content and
    metrics and the prompt's dialect, its SQL is the normalized extraction (so never
    a text without a terminator), and its statistics describe that very text. *)
Theorem generate_spec p w :
  match generate llm_generate p w with
  | (Ret g, _) =>
      exists resp x, fst (llm_generate p (snd (tick w))) = Ret resp /\
        extract (content resp) = Ret x /\ sql g = normalize (ext_sql x) /\
        raw_llm_content g = content resp /\ llm_metrics g = metrics resp /\
        dialect g = cp_dialect p /\ statement_type g = detect (sql g) /\
        extraction_method (gen_statistics g) = ext_method x /\
        raw_sql_length (gen_statistics g) = len (ext_sql x) /\
        normalized_sql_length (gen_statistics g) = len (sql g) /\
        normalization_changed_sql (gen_statistics g) = negb (String.eqb (ext_sql x) (sql g))
  | (Raise e, w') =>
      llm_generate p (snd (tick w)) = (Raise e, w') \/
      (exists resp t, llm_generate p (snd (tick w)) = (Ret resp, w') /\ e = SQLExtractionError t)
  end.
Proof.
  unfold generate. rewrite bind_perf_counter. unfold bind at 1.
  destruct (llm_generate p _) as [[e|resp] w1] eqn:El; [by left|].
  unfold bind at 1. destruct (extract (content resp)) as [e|x] eqn:Ex.
  - right. apply extract_error in Ex as [t ->]. eauto.
  - unfold build_statistics.
    erewrite bind_ret_eq by (erewrite bind_ret_eq by apply elapsed_ms_eq; reflexivity).
    unfold ret. cbn -[normalize detect len]. exists resp, x. split_and!; try done.
Qed.
End EngineProps.

(** ** Witness *)
Lemma extract_roundtrip_witness :
  extract ("Here:" ++ fence ++ "sql" ++ nl ++ "SELECT `a` FROM `t`" ++ nl ++ fence ++ " ok")
  = Ret {| ext_sql := "SELECT `a` FROM `t`"; ext_method := FENCED_SQL_BLOCK |}.
Proof. apply (extract_roundtrip "Here:" "SELECT `a` FROM `t`" " ok"); by vm_compute. Defined.
