(* ===== verification/Metadata.v ===== *)
(** * The metadata engine ([querymind.metadata])

    [MetadataRegistry] over a cached snapshot, [ColumnDictionary.enrich] and the
    adjacency structure of [RelationshipGraph]. The extractor is any program
    here; Extractor.v has the one the application uses. *)
From S2P Require Import Prelude PyFloat PyStr Models ContextModels.
#[local] Open Scope string_scope.
#[local] Open Scope Z_scope.

(** ** [exceptions.py] *)
Definition MetadataNotLoadedError : exn := OtherException "MetadataNotLoadedError"
  "Metadata has not been loaded yet. Call MetadataRegistry.load() first.".
Definition TableNotFoundError (t : string) : exn := OtherException "TableNotFoundError"
  ("No table named " ++ repr t ++ " exists in the loaded metadata.").
Definition ColumnNotFoundError (t c : string) : exn := OtherException "ColumnNotFoundError"
  ("No column named " ++ repr c ++ " exists on table " ++ repr t ++ ".").

(** ** [dictionary.py] *)
Record TableDictionaryEntry := {
  tde_table : string;
  tde_description : string;
  tde_synonyms : list string }.
Record ColumnDictionaryEntry := {
  cde_table : string;
  cde_column : string;
  cde_description : string;
  cde_example_value : option string;
  cde_synonyms : list string;
  cde_display_name : option string;
  cde_search_keywords : list string;
  cde_is_sensitive : bool }.
Record ColumnDictionary := {
  dict_tables : gmap string TableDictionaryEntry;
  dict_columns : gmap (string * string) ColumnDictionaryEntry }.

Definition enrich_column (d : ColumnDictionary) (table_name : string) (c : ColumnMetadata) : ColumnMetadata :=
  match dict_columns d !! (table_name, col_name c) with
  | None => c
  | Some e =>
      {| col_table_name := col_table_name c; col_name := col_name c; sql_type := sql_type c;
         python_type := python_type c; nullable := nullable c; primary_key := primary_key c;
         unique := unique c; autoincrement := autoincrement c; col_default := col_default c;
         foreign_key := foreign_key c; col_enum := col_enum c;
         col_description := Some (cde_description e); col_synonyms := cde_synonyms e;
         example_value := cde_example_value e; display_name := cde_display_name e;
         search_keywords := cde_search_keywords e; is_sensitive := cde_is_sensitive e |}
  end.
Definition enrich_table (d : ColumnDictionary) (t : TableMetadata) : TableMetadata :=
  let columns := map (enrich_column d (tbl_name t)) (tbl_columns t) in
  let '(descr, syns) := match dict_tables d !! tbl_name t with
                        | None => (tbl_description t, tbl_synonyms t)
                        | Some e => (Some (tde_description e), tde_synonyms e)
                        end in
  {| tbl_name := tbl_name t; tbl_columns := columns; tbl_primary_key := tbl_primary_key t;
     foreign_keys := foreign_keys t; unique_constraints := unique_constraints t;
     check_constraints := check_constraints t; indexes := indexes t;
     tbl_description := descr; tbl_synonyms := syns |}.
Definition enrich (d : ColumnDictionary) (db : DatabaseMetadata) : DatabaseMetadata :=
  {| tables := map (enrich_table d) (tables db); relationships := relationships db;
     enums := enums db; generated_at := generated_at db |}.

(** ** [relationships.py] *)
Record GraphEdge := {
  ge_source_table : string;
  ge_target_table : string;
  ge_relationship_name : string;
  ge_source_columns : list string;
  ge_target_columns : list string }.
#[export] Instance GraphEdge_eq_dec : EqDecision GraphEdge.
Proof. solve_decision. Defined.
Definition from_relationship (r : RelationshipMetadata) : GraphEdge :=
  {| ge_source_table := rel_source_table r; ge_target_table := rel_target_table r;
     ge_relationship_name := rel_name r; ge_source_columns := rel_source_columns r;
     ge_target_columns := rel_target_columns r |}.

Record RelationshipGraph := {
  nodes : gset string;
  adjacency : gmap string (list GraphEdge) }.

(** [grouped.setdefault(source, []).append(edge)] for each relationship in order. *)
Definition build_adjacency (rs : list RelationshipMetadata) : gmap string (list GraphEdge) :=
  fold_left (fun g r =>
    <[rel_source_table r := (default [] (g !! rel_source_table r) ++ [from_relationship r])%list]> g)
    rs ∅.
Definition RelationshipGraph_init (tbls : list string) (rs : list RelationshipMetadata) : RelationshipGraph :=
  {| nodes := list_to_set tbls; adjacency := build_adjacency rs |}.
Definition edges_from (g : RelationshipGraph) (t : string) : list GraphEdge :=
  default [] (adjacency g !! t).
Definition neighbors (g : RelationshipGraph) (t : string) : list string :=
  map ge_target_table (edges_from g t).

(** ** [registry.py]: the readers, on what [_require_loaded] finds in the cache *)
Definition require_loaded (cached : option DatabaseMetadata) : outcome exn DatabaseMetadata :=
  match cached with Some db => Ret db | None => Raise MetadataNotLoadedError end.

Definition find_table (db : DatabaseMetadata) (t : string) : option TableMetadata :=
  List.find (fun x => String.eqb (tbl_name x) t) (tables db).
Definition get_table (cached : option DatabaseMetadata) (t : string) : outcome exn TableMetadata :=
  obind (require_loaded cached) (fun db =>
    match find_table db t with Some x => Ret x | None => Raise (TableNotFoundError t) end).
Definition get_column (cached : option DatabaseMetadata) (t c : string) : outcome exn ColumnMetadata :=
  obind (get_table cached t) (fun tbl =>
    match List.find (fun x => String.eqb (col_name x) c) (tbl_columns tbl) with
    | Some x => Ret x
    | None => Raise (ColumnNotFoundError t c)
    end).
Definition find_columns (cached : option DatabaseMetadata) (p : ColumnMetadata -> bool)
  : outcome exn (list ColumnMetadata) :=
  obind (require_loaded cached) (fun db => Ret (List.filter p (concat (map tbl_columns (tables db))))).
Definition find_tables (cached : option DatabaseMetadata) (p : TableMetadata -> bool)
  : outcome exn (list TableMetadata) :=
  obind (require_loaded cached) (fun db => Ret (List.filter p (tables db))).
Definition list_tables (cached : option DatabaseMetadata) : outcome exn (list string) :=
  obind (require_loaded cached) (fun db => Ret (map tbl_name (tables db))).
Definition list_relationships (cached : option DatabaseMetadata) : outcome exn (list RelationshipMetadata) :=
  obind (require_loaded cached) (fun db => Ret (relationships db)).
Definition build_graph (cached : option DatabaseMetadata) : outcome exn RelationshipGraph :=
  obind (require_loaded cached) (fun db =>
    Ret (RelationshipGraph_init (map tbl_name (tables db)) (relationships db))).

(** [load] and [refresh], on the cache in the world. *)
Class MetadataCacheState (W : Type) := {
  metadata_cache : W -> option DatabaseMetadata;
  set_metadata_cache : option DatabaseMetadata -> W -> W;
  metadata_cache_set : forall c w, metadata_cache (set_metadata_cache c w) = c }.

Section Registry.
Context {W : Type} `{MetadataCacheState W}.
Context (extractor : prog W exn DatabaseMetadata) (dictionary : option ColumnDictionary).

Definition refresh : prog W exn DatabaseMetadata :=
  let! database := extractor in
  let database := match dictionary with Some d => enrich d database | None => database end in
  fun w => (Ret database, set_metadata_cache (Some database) w).
Definition load : prog W exn DatabaseMetadata :=
  fun w => match metadata_cache w with
           | Some db => (Ret db, w)
           | None => refresh w
           end.
End Registry.

(** ** Lemmas *)
Lemma build_adjacency_acc rs (g : gmap string (list GraphEdge)) t :
  default [] (fold_left (fun g r =>
    <[rel_source_table r := (default [] (g !! rel_source_table r) ++ [from_relationship r])%list]> g) rs g !! t)
  = (default [] (g !! t) ++ map from_relationship
       (List.filter (fun r => String.eqb (rel_source_table r) t) rs))%list.
Proof.
  revert g; induction rs as [|r rs IH]; intros g; simpl; [by rewrite app_nil_r|].
  rewrite IH. destruct (String.eqb_spec (rel_source_table r) t) as [->|Hne].
  - rewrite lookup_insert_eq. simpl. by rewrite <- app_assoc.
  - by rewrite lookup_insert_ne.
Qed.
Lemma edges_from_filter tbls rs t :
  edges_from (RelationshipGraph_init tbls rs) t =
  map from_relationship (List.filter (fun r => String.eqb (rel_source_table r) t) rs).
Proof. unfold edges_from, RelationshipGraph_init, build_adjacency. simpl. by rewrite build_adjacency_acc. Qed.

Lemma find_table_Some db t x : find_table db t = Some x -> x ∈ tables db /\ tbl_name x = t.
Proof.
  intros H. apply List.find_some in H as [H1 H2]. apply String.eqb_eq in H2.
  split; [by apply list_elem_of_In|done].
Qed.
Lemma find_table_None db t : find_table db t = None <-> t ∉ map tbl_name (tables db).
Proof.
  unfold find_table. induction (tables db) as [|x l IH]; simpl; [set_solver|].
  destruct (String.eqb_spec (tbl_name x) t); [set_solver|]. rewrite IH. set_solver.
Qed.

(** ** Properties *)
(** [RelationshipGraph]: the adjacency structure built by the grouping loop
    is exactly the declared relationships, by source table and in declaration
    order; every edge comes from the table it is listed under. *)
Theorem edges_from_spec tbls rs t :
  edges_from (RelationshipGraph_init tbls rs) t =
    map from_relationship (List.filter (fun r => String.eqb (rel_source_table r) t) rs) /\
  (forall e, e ∈ edges_from (RelationshipGraph_init tbls rs) t -> ge_source_table e = t).
Proof.
  split; [apply edges_from_filter|]. rewrite edges_from_filter.
  intros e (r & -> & Hr)%list_elem_of_fmap.
  apply list_elem_of_In, List.filter_In in Hr as [_ Hr]. by apply String.eqb_eq in Hr.
Qed.

Section RegistryProps.
Context {W : Type} `{MetadataCacheState W}.
Context (extractor : prog W exn DatabaseMetadata) (dictionary : option ColumnDictionary).

(** [MetadataRegistry.load] extracts once: it returns what is cached without
    running the extractor; when it has to extract, the enriched snapshot it returns
    is the one every later [load] and every reader sees; a failed extraction leaves
    whatever the extractor left. *)
Theorem load_caches w :
  match load extractor dictionary w with
  | (Ret db, w') =>
      metadata_cache w' = Some db /\ load extractor dictionary w' = (Ret db, w') /\
      list_tables (metadata_cache w') = Ret (map tbl_name (tables db)) /\
      (metadata_cache w = Some db /\ w' = w \/
       metadata_cache w = None /\ exists raw, fst (extractor w) = Ret raw /\
         map tbl_name (tables db) = map tbl_name (tables raw))
  | (Raise e, w') => metadata_cache w = None /\ extractor w = (Raise e, w')
  end.
Proof.
  unfold load at 1. destruct (metadata_cache w) as [db|] eqn:Ec.
  - unfold load. rewrite Ec. split_and!; auto.
  - unfold refresh, bind. destruct (extractor w) as [[e|raw] w1] eqn:Ee; [done|].
    unfold load. rewrite metadata_cache_set. split_and!; try done.
    right. split; [done|]. exists raw. split; [done|]. destruct dictionary as [d|]; [|done].
    simpl. rewrite map_map. apply map_ext. intros t. unfold enrich_table.
    by destruct (dict_tables d !! tbl_name t).
Qed.
End RegistryProps.
