(* ===== verification/Catalogs.v ===== *)
(** * Catalogs read from YAML files

    What the metadata dictionary, the business knowledge engine and the query library share:
    a loader that reads a YAML file into validated entries ([loader.py]), the check that every
    id is declared once ([catalog.py]) and a registry that reads its source once and keeps the
    snapshot ([registry.py], [cache.py]). PyYAML and the Pydantic constructors are parameters. *)
From S2P Require Import Prelude PyFloat PyStr Models.
From Stdlib Require Import Ascii.
#[local] Open Scope string_scope.
#[local] Open Scope Z_scope.

(** ** What [yaml.safe_load] returns *)
#[warnings="-register-all"]
Inductive yaml :=
| Y_null | Y_bool (b : bool) | Y_int (z : Z) | Y_float (x : Q) | Y_str (s : string) | Y_date (iso : string)
| Y_seq (l : list yaml) | Y_map (d : list (yaml * yaml)).
Definition truthy (y : yaml) : bool :=
  match y with
  | Y_null => false | Y_bool b => b | Y_int z => negb (z =? 0) | Y_float x => negb (Qeq_bool x 0)
  | Y_str s => negb (is_empty s) | Y_date _ => true
  | Y_seq l => match l with [] => false | _ => true end
  | Y_map d => match d with [] => false | _ => true end
  end.
Definition type_name (y : yaml) : string :=
  match y with
  | Y_null => "NoneType" | Y_bool _ => "bool" | Y_int _ => "int" | Y_float _ => "float" | Y_str _ => "str"
  | Y_date _ => "datetime.date" | Y_seq _ => "list" | Y_map _ => "dict"
  end.
(** [d.get(key)] of a dict, for a string key. *)
Fixpoint dict_get (key : string) (d : list (yaml * yaml)) : option yaml :=
  match d with
  | [] => None
  | (Y_str k, v) :: d' => if String.eqb k key then Some v else dict_get key d'
  | _ :: d' => dict_get key d'
  end.

Definition AttributeError (msg : string) : exn := OtherException "AttributeError" msg.
Definition TypeError (msg : string) : exn := OtherException "TypeError" msg.
(** The builtin subclasses of [OSError]. *)
Definition OS_ERRORS : list string :=
  ["OSError"; "BlockingIOError"; "ChildProcessError"; "ConnectionError"; "BrokenPipeError"; "ConnectionAbortedError";
   "ConnectionRefusedError"; "ConnectionResetError"; "FileExistsError"; "FileNotFoundError"; "InterruptedError";
   "IsADirectoryError"; "NotADirectoryError"; "PermissionError"; "ProcessLookupError"; "TimeoutError"].
Definition is_OSError (e : exn) : bool :=
  match e with OtherException cls _ => bool_decide (cls ∈ OS_ERRORS) | _ => false end.
Definition is_ValidationError (e : exn) : bool :=
  match e with OtherException cls _ => String.eqb cls "ValidationError" | _ => false end.

(** [for x in entries]: the items of a list, the keys of a dict, the characters of a string. *)
Definition iterate (entries : yaml) : outcome exn (list yaml) :=
  match entries with
  | Y_seq l => Ret l
  | Y_map d => Ret (map fst d)
  | Y_str s => Ret (map (fun c => Y_str (String c "")) (String.list_ascii_of_string s))
  | y => Raise (TypeError ("'" ++ type_name y ++ "' object is not iterable"))
  end.
Fixpoint string_keys (d : list (yaml * yaml)) : option (list (string * yaml)) :=
  match d with
  | [] => Some []
  | (Y_str k, v) :: d' => r ← string_keys d'; Some ((k, v) :: r)
  | _ => None
  end.

Section Loader.
Context {T : Type}.
(** [yaml.safe_load] and [yaml.YAMLError]; the Pydantic constructor [Model( **entry )]. *)
Context (safe_load : string -> outcome exn yaml) (is_YAMLError : exn -> bool).
Context (construct : list (string * yaml) -> outcome exn T) (model : string).
Context (key : string) (LoadError : string -> string -> exn).

Definition construct_entry (entry : yaml) : outcome exn T :=
  match entry with
  | Y_map d => match string_keys d with
               | Some kw => construct kw
               | None => Raise (TypeError "keywords must be strings")
               end
  | y => Raise (TypeError (model ++ "() argument after ** must be a mapping, not " ++ type_name y))
  end.
Fixpoint construct_all (entries : list yaml) : outcome exn (list T) :=
  match entries with
  | [] => Ret []
  | e :: rest => obind (construct_entry e) (fun x => obind (construct_all rest) (fun xs => Ret (x :: xs)))
  end.

(** [try: ... except C as exc: raise LoadError(str(path), prefix + str(exc))] *)
Definition translating {A} (catches : exn -> bool) (path prefix : string) (o : outcome exn A) : outcome exn A :=
  match o with
  | Ret a => Ret a
  | Raise e => Raise (if catches e then LoadError path (prefix ++ exn_str e) else e)
  end.

(** [load_examples_file], [load_concepts_file]: [text] is what reading the file gives. *)
Definition load_file (path : string) (text : outcome exn string) : outcome exn (list T) :=
  obind (translating is_OSError path "could not read file: " text) (fun raw_text =>
  obind (translating is_YAMLError path "invalid YAML: " (safe_load raw_text)) (fun loaded =>
  let raw := if truthy loaded then loaded else Y_map [] in
  match raw with
  | Y_map d =>
      match dict_get key d with
      | None | Some Y_null => Raise (LoadError path ("missing top-level '" ++ key ++ "' key"))
      | Some entries =>
          translating is_ValidationError path "schema validation failed: "
            (obind (iterate entries) construct_all)
      end
  | y => Raise (AttributeError ("'" ++ type_name y ++ "' object has no attribute 'get'"))
  end)).

(** A list of mappings with string keys, each of them accepted or rejected by the model. *)
Definition well_formed (entries : yaml) : Prop :=
  exists l, entries = Y_seq l /\ Forall (fun e => exists d kw, e = Y_map d /\ string_keys d = Some kw /\
    forall err, construct kw = Raise err -> is_ValidationError err = true) l.

Lemma construct_all_spec l :
  match construct_all l with
  | Ret xs => Forall2 (fun e x => construct_entry e = Ret x) l xs
  | Raise err => exists e, e ∈ l /\ construct_entry e = Raise err
  end.
Proof.
  induction l as [|e l IH]; cbn [construct_all]; [constructor|].
  destruct (construct_entry e) as [err|x] eqn:E; cbn [obind]; [by exists e; split; [left|]|].
  destruct (construct_all l) as [err|xs] eqn:Exs; cbn [obind]; [|by constructor].
  destruct IH as (e' & He' & Herr). exists e'. split; [by right|done].
Qed.
Lemma well_formed_errors l err : well_formed (Y_seq l) -> construct_all l = Raise err -> is_ValidationError err = true.
Proof.
  intros (l' & [= <-] & Hl) Herrs. pose proof (construct_all_spec l) as Hs. rewrite Herrs in Hs.
  destruct Hs as (e & He & Herr). rewrite Forall_forall in Hl. destruct (Hl e He) as (d & kw & -> & Hk & Hc).
  cbn [construct_entry] in Herr. rewrite Hk in Herr. by apply Hc.
Qed.

(** The documented inputs: a file that is readable or fails with an [OSError], YAML text or a
    [YAMLError], and at the top a mapping (or nothing) with well-formed entries. *)
Record documented (text : outcome exn string) : Prop := {
  doc_read : forall e, text = Raise e -> is_OSError e = true;
  doc_yaml : forall raw e, text = Ret raw -> safe_load raw = Raise e -> is_YAMLError e = true;
  doc_shape : forall raw y, text = Ret raw -> safe_load raw = Ret y -> truthy y = true ->
    exists d, y = Y_map d /\ forall entries, dict_get key d = Some entries -> entries = Y_null \/ well_formed entries }.

Lemma load_file_documented path text : documented text ->
  match load_file path text with
  | Ret xs => exists raw d l, text = Ret raw /\ safe_load raw = Ret (Y_map d) /\ dict_get key d = Some (Y_seq l) /\
      Forall2 (fun e x => construct_entry e = Ret x) l xs
  | Raise e => exists reason, e = LoadError path reason
  end.
Proof.
  intros [Hr Hy Hs]. unfold load_file. destruct text as [e|raw]; cbn [translating obind].
  { rewrite (Hr e eq_refl). eauto. }
  destruct (safe_load raw) as [e|y] eqn:Ey; cbn [translating obind].
  { rewrite (Hy raw e eq_refl Ey). eauto. }
  destruct (truthy y) eqn:Et; [|cbn; eauto].
  destruct (Hs raw y eq_refl Ey Et) as (d & -> & Hd). destruct (dict_get key d) as [entries|] eqn:Eg; [|eauto].
  destruct (Hd entries eq_refl) as [->|Hw]; [eauto|]. pose proof Hw as (l & -> & _). cbn [iterate obind].
  destruct (construct_all l) as [err|xs] eqn:Ec; cbn [translating].
  - rewrite (well_formed_errors l err Hw Ec). eauto.
  - exists raw, d, l. pose proof (construct_all_spec l) as Hc. rewrite Ec in Hc. split_and!; done.
Qed.
End Loader.

(** ** [catalog.py]: every id is declared once *)
Section Unique.
Context {T : Type} (id_of : T -> string) (DuplicateError : string -> exn).
Fixpoint check_unique (seen : gset string) (entries : list T) : outcome exn unit :=
  match entries with
  | [] => Ret tt
  | x :: rest => if decide (id_of x ∈ seen) then Raise (DuplicateError (id_of x))
                 else check_unique ({[id_of x]} ∪ seen) rest
  end.

Lemma check_unique_spec seen entries :
  match check_unique seen entries with
  | Ret _ => NoDup (map id_of entries) /\ forall x, x ∈ entries -> id_of x ∉ seen
  | Raise e => exists before x after, entries = (before ++ x :: after)%list /\ e = DuplicateError (id_of x) /\
      (id_of x ∈ seen \/ id_of x ∈ map id_of before) /\
      NoDup (map id_of before) /\ forall y, y ∈ before -> id_of y ∉ seen
  end.
Proof.
  revert seen. induction entries as [|x rest IH]; intros seen; cbn [check_unique map].
  { split; [constructor|]. intros x Hx. by apply elem_of_nil in Hx. }
  case_decide as Hx.
  - exists [], x, rest. split_and!; [done|done|by left|constructor|]. intros y Hy. by apply elem_of_nil in Hy.
  - specialize (IH ({[id_of x]} ∪ seen)). destruct (check_unique _ rest) as [e|u].
    + destruct IH as (b & y & a & -> & -> & Hy & Hnd & Hb). exists (x :: b), y, a. split_and!; [done|done| | |].
      * rewrite elem_of_union, elem_of_singleton in Hy. cbn [map]. rewrite elem_of_cons. tauto.
      * cbn [map]. constructor; [|done]. intros (z & Hz & Hin)%list_elem_of_fmap. apply (Hb z Hin). set_solver.
      * intros z [->|Hz]%elem_of_cons; [done|]. specialize (Hb z Hz). set_solver.
    + destruct IH as [Hnd Hr]. split.
      * constructor; [|done]. intros (z & Hz & Hin)%list_elem_of_fmap. apply (Hr z Hin). set_solver.
      * intros z [->|Hz]%elem_of_cons; [done|]. specialize (Hr z Hz). set_solver.
Qed.

(** [get_...(id)]: the first entry with that id. *)
Definition find_by_id (i : string) (entries : list T) : option T := List.find (fun x => String.eqb (id_of x) i) entries.
Lemma find_by_id_spec i entries x : NoDup (map id_of entries) ->
  find_by_id i entries = Some x <-> x ∈ entries /\ id_of x = i.
Proof.
  intros Hnd. unfold find_by_id. split.
  - intros H. apply List.find_some in H as [Hx Hi]. apply String.eqb_eq in Hi. by rewrite list_elem_of_In.
  - intros [Hx <-]. destruct (List.find _ entries) as [y|] eqn:E.
    + apply List.find_some in E as [Hy Hi]. apply String.eqb_eq in Hi. apply list_elem_of_In in Hy.
      f_equal. by apply (NoDup_map_inj id_of entries).
    + apply List.find_none with (x := x) in E; [|by apply list_elem_of_In]. by rewrite String.eqb_refl in E.
Qed.
End Unique.

(** ** [registry.py] and [cache.py]: one snapshot, read once *)
Class SnapshotCache (W T : Type) := {
  snapshot : W -> option T;
  set_snapshot : option T -> W -> W;
  snapshot_set : forall s w, snapshot (set_snapshot s w) = s }.

Section Registry.
Context {W T : Type} `{SnapshotCache W T} (source : prog W exn T).
Definition refresh_snapshot : prog W exn T :=
  let! t := source in fun w => (Ret t, set_snapshot (Some t) w).
Definition load_snapshot : prog W exn T :=
  fun w => match snapshot w with Some t => (Ret t, w) | None => refresh_snapshot w end.

Lemma load_snapshot_cached t w : snapshot w = Some t -> load_snapshot w = (Ret t, w).
Proof. unfold load_snapshot. by intros ->. Qed.
Lemma refresh_snapshot_spec w :
  match refresh_snapshot w with
  | (Ret t, w') => snapshot w' = Some t /\ exists w1, source w = (Ret t, w1) /\ w' = set_snapshot (Some t) w1
  | (Raise e, w') => source w = (Raise e, w')
  end.
Proof.
  unfold refresh_snapshot, bind. destruct (source w) as [[e|t] w1]; [done|]. rewrite snapshot_set. eauto.
Qed.
End Registry.

(** ** Properties *)
(** Loading a catalog file: for every file that can or cannot be read, holds YAML or not, and
    has a mapping at the top whose entries are mappings, the loader returns the entries in file
    order, each as its model accepted it, or raises the load error of that path and nothing
    else. A file with a list at the top is outside that promise: the loader lets the
    [AttributeError] of its [.get] through. *)
Theorem load_file_spec {T} safe_load is_YAMLError (construct : list (string * yaml) -> outcome exn T) model key LoadError path text :
  (documented safe_load is_YAMLError construct key text ->
   match load_file safe_load is_YAMLError construct model key LoadError path text with
   | Ret xs => exists raw d l, text = Ret raw /\ safe_load raw = Ret (Y_map d) /\ dict_get key d = Some (Y_seq l) /\
       Forall2 (fun e x => construct_entry construct model e = Ret x) l xs
   | Raise e => exists reason, e = LoadError path reason
   end) /\
  (forall raw y l, text = Ret raw -> safe_load raw = Ret (Y_seq (y :: l)) ->
   load_file safe_load is_YAMLError construct model key LoadError path text
   = Raise (AttributeError "'list' object has no attribute 'get'")).
Proof.
  split; [apply load_file_documented|]. intros raw y l -> Hy. unfold load_file. cbn [translating obind].
  rewrite Hy. reflexivity.
Qed.

Module LoaderDemo.
Definition safe_load (raw : string) : outcome exn yaml :=
  if String.eqb raw "-"
  then Ret (Y_seq [Y_null])
  else Ret (Y_map [(Y_str "examples", Y_seq [Y_map [(Y_str "id", Y_str raw)]])]).
Definition construct (kw : list (string * yaml)) : outcome exn string :=
  match kw with
  | [("id", Y_str i)] => if is_empty i then Raise (OtherException "ValidationError" "id") else Ret i
  | _ => Raise (OtherException "ValidationError" "fields")
  end.
Definition LoadError (path reason : string) : exn := OtherException "LibraryLoadError" (path ++ ": " ++ reason).
Definition load (raw : string) : outcome exn (list string) :=
  load_file safe_load (fun _ => false) construct "Model" "examples" LoadError "f.yaml" (Ret raw).
Lemma is_documented raw : String.eqb raw "-" = false ->
  documented safe_load (fun _ => false) construct "examples" (Ret raw).
Proof.
  intros Hr. split; [done| |].
  - intros r e [= <-]. unfold safe_load. by rewrite Hr.
  - intros r y [= <-]. unfold safe_load. rewrite Hr. intros [= <-] _. eexists. split; [reflexivity|].
    intros entries [= <-]. right. eexists. split; [reflexivity|]. constructor; [|constructor].
    eexists _, [("id", Y_str raw)]. split_and!; [reflexivity..|]. intros err. unfold construct.
    destruct (is_empty raw); [by intros [= <-]|done].
Qed.
End LoaderDemo.
Lemma load_file_spec_witness :
  LoaderDemo.load "a" = Ret ["a"] /\ (exists reason, LoaderDemo.load "" = Raise (LoaderDemo.LoadError "f.yaml" reason)) /\
  LoaderDemo.load "-" = Raise (AttributeError "'list' object has no attribute 'get'").
Proof.
  pose proof (fun raw => load_file_spec LoaderDemo.safe_load (fun _ => false) LoaderDemo.construct "Model" "examples"
    LoaderDemo.LoadError "f.yaml" (Ret raw)) as H.
  split_and!.
  - reflexivity.
  - destruct (proj1 (H "") (LoaderDemo.is_documented "" eq_refl)) as (reason & E). exists reason. rewrite <- E. reflexivity.
  - exact (proj2 (H "-") "-" Y_null [] eq_refl eq_refl).
Defined.
