(* ===== verification/BusinessKnowledge.v ===== *)
(** * The business knowledge engine ([querymind.business_knowledge])

    The concept catalog, [ConceptResolver] with its four tiers, and
    [BusinessKnowledgeRegistry]'s readers over the cached catalog. *)
From S2P Require Import Prelude PyFloat PyStr Models Catalogs.
From Stdlib Require Import Ascii.
#[local] Open Scope string_scope.
#[local] Open Scope Z_scope.

(** ** [models.py] *)
Inductive BusinessConceptType := METRIC | SEGMENT | STATUS | KPI | ATTRIBUTE.
#[export] Instance BusinessConceptType_eq_dec : EqDecision BusinessConceptType.
Proof. solve_decision. Defined.

Record BusinessAlias := { text : string }.
Record BusinessFormula := { expression : string; variables : list string }.
Record BusinessConcept := {
  bc_id : string;
  bc_name : string;
  concept_type : BusinessConceptType;
  bc_description : string;
  aliases : list BusinessAlias;
  related_terms : list string;
  example_questions : list string;
  calculation_description : string;
  formula : option BusinessFormula;
  preferred_schema_objects : list string }.
Record BusinessKnowledgeCatalog := { concepts : list BusinessConcept; loaded_at : Z }.

(** ** [exceptions.py] *)
Definition KnowledgeNotLoadedError : exn := OtherException "KnowledgeNotLoadedError"
  ("Business knowledge catalog has not been loaded yet. "
   ++ "Call BusinessKnowledgeRegistry.load() first.").
Definition ConceptNotFoundError (i : string) : exn := OtherException "ConceptNotFoundError"
  ("No business concept with id " ++ repr i ++ " exists in the loaded catalog.").

(** ** [resolver.py] *)
Definition PARTIAL_MIN_LENGTH : nat := 3.
Definition underscore_to_blank (c : ascii) : ascii := if Ascii.eqb c "_" then " "%char else c.
Definition normalize_term (t : string) : string :=
  join " " (split_ws (str_map underscore_to_blank (lower (strip t)))).

Definition partially_matches (normalized_term : string) (c : BusinessConcept) : bool :=
  existsb (fun candidate =>
    let n := normalize_term candidate in contains normalized_term n || contains n normalized_term)
    (bc_name c :: map text (aliases c)).

Definition resolve (cs : list BusinessConcept) (term : string) : option BusinessConcept :=
  let t := normalize_term term in
  match List.find (fun c => String.eqb (normalize_term (bc_name c)) t) cs with
  | Some c => Some c
  | None =>
  match List.find (fun c => existsb (fun a => String.eqb (normalize_term (text a)) t) (aliases c)) cs with
  | Some c => Some c
  | None =>
  match List.find (fun c => existsb (fun r => String.eqb (normalize_term r) t) (related_terms c)) cs with
  | Some c => Some c
  | None =>
      if (PARTIAL_MIN_LENGTH <=? String.length t)%nat
      then List.find (partially_matches t) cs else None
  end end end.

Fixpoint resolve_many_seen (cs : list BusinessConcept) (seen : list string) (terms : list string)
  : list BusinessConcept :=
  match terms with
  | [] => []
  | t :: terms' =>
      match resolve cs t with
      | Some c =>
          if decide (bc_id c ∈ seen) then resolve_many_seen cs seen terms'
          else c :: resolve_many_seen cs (bc_id c :: seen) terms'
      | None => resolve_many_seen cs seen terms'
      end
  end.
Definition resolve_many (cs : list BusinessConcept) (terms : list string) : list BusinessConcept :=
  resolve_many_seen cs [] terms.

(** ** [registry.py] *)
Definition knowledge_loaded (cached : option BusinessKnowledgeCatalog) : outcome exn BusinessKnowledgeCatalog :=
  match cached with Some c => Ret c | None => Raise KnowledgeNotLoadedError end.
Definition get_concept (cached : option BusinessKnowledgeCatalog) (i : string) : outcome exn BusinessConcept :=
  obind (knowledge_loaded cached) (fun catalog =>
    match List.find (fun c => String.eqb (bc_id c) i) (concepts catalog) with
    | Some c => Ret c
    | None => Raise (ConceptNotFoundError i)
    end).
Definition find_concepts (cached : option BusinessKnowledgeCatalog) (p : BusinessConcept -> bool)
  : outcome exn (list BusinessConcept) :=
  obind (knowledge_loaded cached) (fun catalog => Ret (List.filter p (concepts catalog))).
Definition list_concepts (cached : option BusinessKnowledgeCatalog) : outcome exn (list string) :=
  obind (knowledge_loaded cached) (fun catalog => Ret (map bc_id (concepts catalog))).
(** [list_metrics]: a [BusinessMetric] has the fields of its concept. *)
Definition list_metrics (cached : option BusinessKnowledgeCatalog) : outcome exn (list BusinessConcept) :=
  find_concepts cached (fun c => bool_decide (concept_type c = METRIC)).
Definition registry_resolve (cached : option BusinessKnowledgeCatalog) (term : string)
  : outcome exn (option BusinessConcept) :=
  obind (knowledge_loaded cached) (fun catalog => Ret (resolve (concepts catalog) term)).
Definition registry_resolve_many (cached : option BusinessKnowledgeCatalog) (terms : list string)
  : outcome exn (list BusinessConcept) :=
  obind (knowledge_loaded cached) (fun catalog => Ret (resolve_many (concepts catalog) terms)).

(** ** [loader.py], [catalog.py], and the operations of [registry.py] that change its cache *)
Definition DuplicateConceptError (i : string) : exn := OtherException "DuplicateConceptError"
  ("Concept id " ++ repr i ++ " is declared more than once in the catalog.").
Definition CatalogLoadError (source reason : string) : exn := OtherException "CatalogLoadError"
  ("Failed to load business knowledge catalog from " ++ repr source ++ ": " ++ reason).
Definition build_catalog (now : Z) (cs : list BusinessConcept) : outcome exn BusinessKnowledgeCatalog :=
  obind (check_unique bc_id DuplicateConceptError ∅ cs) (fun _ => Ret {| concepts := cs; loaded_at := now |}).
Section Files.
Context (safe_load : string -> outcome exn yaml) (is_YAMLError : exn -> bool).
Context (BusinessConcept_init : list (string * yaml) -> outcome exn BusinessConcept).
Definition load_concepts_file : string -> outcome exn string -> outcome exn (list BusinessConcept) :=
  load_file safe_load is_YAMLError BusinessConcept_init "querymind.business_knowledge.models.BusinessConcept"
    "concepts" CatalogLoadError.
Definition load_catalog (now : Z) (path : string) (text : outcome exn string) : outcome exn BusinessKnowledgeCatalog :=
  obind (load_concepts_file path text) (build_catalog now).
End Files.
Section State.
Context {W : Type} `{SnapshotCache W BusinessKnowledgeCatalog} (catalog_source : prog W exn BusinessKnowledgeCatalog).
Definition refresh_knowledge : prog W exn BusinessKnowledgeCatalog := refresh_snapshot catalog_source.
Definition load_knowledge : prog W exn BusinessKnowledgeCatalog := load_snapshot catalog_source.
End State.

(** ** Lemmas *)
Lemma find_first {A} (p : A -> bool) l x :
  List.find p l = Some x ->
  exists before after, l = (before ++ x :: after)%list /\ p x = true /\ Forall (fun y => p y = false) before.
Proof.
  induction l as [|y l IH]; simpl; [done|]. destruct (p y) eqn:E; intros; simplify_eq.
  - by exists [], l.
  - destruct (IH ltac:(done)) as (b & a & -> & Hx & Hb). exists (y :: b), a. repeat split; auto.
Qed.
Lemma find_no_match {A} (p : A -> bool) l : List.find p l = None -> Forall (fun y => p y = false) l.
Proof.
  induction l as [|y l IH]; simpl; [constructor|]. destruct (p y) eqn:E; [done|]. auto.
Qed.

(** How well a concept answers a normalized term: the tier it matches in. *)
Definition tier (t : string) (c : BusinessConcept) : nat :=
  if String.eqb (normalize_term (bc_name c)) t then 0
  else if existsb (fun a => String.eqb (normalize_term (text a)) t) (aliases c) then 1
  else if existsb (fun r => String.eqb (normalize_term r) t) (related_terms c) then 2
  else if (PARTIAL_MIN_LENGTH <=? String.length t)%nat && partially_matches t c then 3
  else 4.

Lemma tier_of_find (p : BusinessConcept -> bool) (k : nat) t cs c :
  List.find p cs = Some c -> tier t c = k ->
  (forall c', c' ∈ cs -> (k <= tier t c')%nat) ->
  (forall c', p c' = false -> tier t c' <> k) ->
  exists before after, cs = (before ++ c :: after)%list /\
    (forall c', c' ∈ before -> (tier t c < tier t c')%nat) /\
    (forall c', c' ∈ after -> (tier t c <= tier t c')%nat).
Proof.
  intros Hf Hk Hlow Hp. apply find_first in Hf as (b & a & -> & _ & Hb).
  exists b, a. split; [done|]. split; intros c' Hc'.
  - assert (k <= tier t c')%nat by (apply Hlow; set_solver).
    assert (tier t c' <> k) by (apply Hp; by eapply Forall_forall in Hb). lia.
  - rewrite Hk. apply Hlow. set_solver.
Qed.

(** ** Properties *)
Lemma resolve_many_seen_spec cs seen terms :
  NoDup (map bc_id (resolve_many_seen cs seen terms)) /\
  (forall c, c ∈ resolve_many_seen cs seen terms -> bc_id c ∉ seen /\ exists t, t ∈ terms /\ resolve cs t = Some c) /\
  (forall t c, t ∈ terms -> resolve cs t = Some c ->
     bc_id c ∈ seen \/ bc_id c ∈ map bc_id (resolve_many_seen cs seen terms)).
Proof.
  revert seen. induction terms as [|t terms IH]; intros seen; simpl.
  { split_and!; [constructor|set_solver|set_solver]. }
  destruct (resolve cs t) as [c|] eqn:E.
  - destruct (IH seen) as (H1 & H2 & H3). destruct (IH (bc_id c :: seen)) as (G1 & G2 & G3).
    case_decide as Hin.
    + split_and!; [done| |].
      * intros c' Hc'. destruct (H2 _ Hc') as (Hn & t' & Ht' & Hr). split; [done|]. exists t'. set_solver.
      * intros t' c' [->|Ht']%elem_of_cons Hr; [left; congruence|]. by apply H3 with t'.
    + split_and!.
      * simpl. constructor; [|done]. intros (c' & Hid & Hc')%list_elem_of_fmap.
        destruct (G2 _ Hc') as [Hn _]. rewrite <- Hid in Hn. set_solver.
      * intros c' [->|Hc']%elem_of_cons; [split; [done|]; exists t; set_solver|].
        destruct (G2 _ Hc') as (Hn & t' & Ht' & Hr). split; [set_solver|]. exists t'. set_solver.
      * intros t' c' [->|Ht']%elem_of_cons Hr.
        { right. simplify_eq. left. }
        destruct (G3 t' c' Ht' Hr) as [[->|?]%elem_of_cons|?].
        -- right. left.
        -- by left.
        -- right. simpl. by right.
  - destruct (IH seen) as (H1 & H2 & H3). split_and!; [done| |].
    + intros c' Hc'. destruct (H2 _ Hc') as (Hn & t' & Ht' & Hr). split; [done|]. exists t'. set_solver.
    + intros t' c' [->|Ht']%elem_of_cons Hr; [congruence|]. by apply H3 with t'.
Qed.

(** [ConceptResolver.resolve] returns the first concept of the best tier
    (name, alias, related term, partial match): nothing before it in the catalog is
    as good, nothing after it is better; it returns nothing only when no concept
    matches in any tier. *)
Theorem resolve_best_tier cs term :
  let t := normalize_term term in
  match resolve cs term with
  | Some c => (tier t c <= 3)%nat /\ exists before after, cs = (before ++ c :: after)%list /\
      (forall c', c' ∈ before -> (tier t c < tier t c')%nat) /\
      (forall c', c' ∈ after -> (tier t c <= tier t c')%nat)
  | None => forall c, c ∈ cs -> tier t c = 4%nat
  end.
Proof.
  intros t. unfold resolve. fold t.
  destruct (List.find _ cs) as [c|] eqn:E0.
  { assert (Ht : tier t c = 0%nat).
    { apply List.find_some in E0 as [_ E]. unfold tier. by rewrite E. }
    split; [lia|]. eapply (tier_of_find _ 0); [exact E0|done|lia|].
    intros c' E. unfold tier. rewrite E. repeat case_match; done. }
  apply find_no_match in E0.
  destruct (List.find _ cs) as [c|] eqn:E1.
  { pose proof (List.find_some _ _ E1) as [Hc E]. apply list_elem_of_In in Hc.
    assert (Ht : tier t c = 1%nat).
    { unfold tier. eapply Forall_forall in E0; [|exact Hc]. by rewrite E0, E. }
    split; [lia|]. eapply (tier_of_find _ 1); [exact E1|done| |].
    - intros c' Hc'. unfold tier. eapply Forall_forall in E0; [|exact Hc']. rewrite E0. repeat case_match; lia.
    - intros c' E'. unfold tier. rewrite E'. repeat case_match; done. }
  apply find_no_match in E1.
  destruct (List.find _ cs) as [c|] eqn:E2.
  { pose proof (List.find_some _ _ E2) as [Hc E]. apply list_elem_of_In in Hc.
    assert (Ht : tier t c = 2%nat).
    { unfold tier. eapply Forall_forall in E0; [|exact Hc]. eapply Forall_forall in E1; [|exact Hc].
      by rewrite E0, E1, E. }
    split; [lia|]. eapply (tier_of_find _ 2); [exact E2|done| |].
    - intros c' Hc'. unfold tier. eapply Forall_forall in E0; [|exact Hc'].
      eapply Forall_forall in E1; [|exact Hc']. rewrite E0, E1. repeat case_match; lia.
    - intros c' E'. unfold tier. rewrite E'. repeat case_match; done. }
  apply find_no_match in E2.
  assert (Hlow : forall c', c' ∈ cs -> tier t c' =
    if (PARTIAL_MIN_LENGTH <=? String.length t)%nat && partially_matches t c' then 3%nat else 4%nat).
  { intros c' Hc'. unfold tier. eapply Forall_forall in E0; [|exact Hc'].
    eapply Forall_forall in E1; [|exact Hc']. eapply Forall_forall in E2; [|exact Hc'].
    by rewrite E0, E1, E2. }
  destruct (PARTIAL_MIN_LENGTH <=? String.length t)%nat; [|by intros; rewrite Hlow].
  destruct (List.find _ cs) as [c|] eqn:E3.
  - pose proof (List.find_some _ _ E3) as [Hc E]. apply list_elem_of_In in Hc.
    assert (Ht : tier t c = 3%nat) by (rewrite Hlow by done; by rewrite E).
    split; [lia|]. apply find_first in E3 as (b & a & -> & _ & Hb).
    exists b, a. split; [done|]. split; intros c' Hc'; rewrite Ht, Hlow by set_solver.
    + eapply Forall_forall in Hb; [|exact Hc']. rewrite Hb. simpl. lia.
    + simpl. case_match; lia.
  - apply find_no_match in E3. intros c Hc. rewrite Hlow by done.
    eapply Forall_forall in E3; [|exact Hc]. by rewrite E3.
Qed.
