(* ===== verification/Validation.v ===== *)
(** * SQL validation ([querymind.sql_validation])

    The parser wrapper and its extraction helpers, the ten validators, the
    registry, the engine and the report. sqlglot itself is not part of the
    program: its tree is an arbitrary type with the operations of [Sqlglot]. *)
From S2P Require Import Prelude PyFloat PyStr Models ContextModels Metadata BusinessKnowledge.
From Stdlib Require Import Ascii.
#[local] Open Scope string_scope.
#[local] Open Scope Z_scope.

(** ** sqlglot, as the program uses it *)
Inductive node_class :=
| E_Select | E_Table | E_Column | E_CTE | E_Subquery | E_Join | E_Func
| E_If | E_Case | E_AggFunc | E_Alias | E_Literal
| E_Insert | E_Update | E_Delete | E_Merge | E_Create | E_Alter | E_Drop
| E_TruncateTable | E_Copy | E_Group.

Class Sqlglot (node : Type) := {
  find_all : node_class -> node -> list node;
  isinstance : node_class -> node -> bool;
  has_ancestor : node_class -> node -> bool;
  node_name : node -> string;
  node_alias : node -> string;
  node_table : node -> string;
  node_this : node -> option node;
  node_arg : string -> node -> option node;
  node_parent : node -> option node;
  node_expressions : node -> list node;
  node_kind : node -> string;
  node_side : node -> string;
  type_name : node -> string;
  sql_in : string -> node -> outcome exn string;
  sql_plain : node -> string;
  sql_normalized : node -> string }.

(** [node.find(cls)] is the first of [find_all]. *)
Definition contains_class {node} `{Sqlglot node} (k : node_class) (n : node) : bool :=
  match find_all k n with [] => false | _ => true end.

Definition or_none (s : string) : option string := if is_empty s then None else Some s.
Definition sorted_str (l : list string) : list string := sorted_by str_ltb id l.
Definition in_list (x : string) (l : list string) : bool := bool_decide (x ∈ l).

Definition issue (c : string) (sev : ValidationSeverity) (msg : string) (obj : option string)
  : ValidationIssue :=
  {| issue_code := c; severity := sev; issue_message := msg; location := None; related_object := obj |}.

Section Validators.
Context {node : Type} `{Sqlglot node} `{PySet}.

(** ** [parser.py] *)
Record ParsedSQL := { ast : node; parsed_dialect : string; raw_sql : string }.
Record TableReference := { tref_name : string; tref_alias : option string; tref_node : node }.
Record ColumnReference := { cref_name : string; cref_qualifier : option string }.
Record JoinReference := {
  join_type : string;
  left_table : option string;
  right_table : option string;
  on_columns : list string }.

(** [SQLParser.parse]: only sqlglot's [ParseError] becomes a [SQLSyntaxError]. *)
Definition parse (parse_one : string -> string -> outcome exn node) (s dialect : string)
  : outcome exn ParsedSQL :=
  match parse_one s dialect with
  | Ret a => Ret {| ast := a; parsed_dialect := dialect; raw_sql := s |}
  | Raise e => if String.eqb (exn_class e) "ParseError" then Raise (SQLSyntaxError (exn_str e)) else Raise e
  end.

Definition cte_names (a : node) : list string :=
  dedup (omap (fun c => or_none (node_alias c)) (find_all E_CTE a)).
Definition derived_table_aliases (a : node) : list string :=
  dedup (omap (fun c => or_none (node_alias c)) (find_all E_Subquery a)).
Definition local_scope_names (a : node) : list string :=
  (cte_names a ++ derived_table_aliases a)%list.

Definition extract_tables (a : node) : list TableReference :=
  map (fun t => {| tref_name := node_name t; tref_alias := or_none (node_alias t); tref_node := t |})
      (find_all E_Table a).
Definition extract_columns (a : node) : list ColumnReference :=
  map (fun c => {| cref_name := node_name c; cref_qualifier := or_none (node_table c) |})
      (find_all E_Column a).

Definition build_alias_map (a : node) : list (string * string) :=
  let m := fold_left (fun m r => alist_set (default (tref_name r) (tref_alias r)) (tref_name r) m)
             (extract_tables a) [] in
  fold_left (fun m al => alist_set al al m) (set_iter (derived_table_aliases a)) m.

Definition extract_join (alias_map : list (string * string)) (j : node) : JoinReference :=
  let right := match node_this j with
               | Some t => if isinstance E_Table t then Some t else None
               | None => None
               end in
  let right_resolved := node_name <$> right in
  let right_alias := (fun t => default (node_name t) (or_none (node_alias t))) <$> right in
  let on := node_arg "on" j in
  let on_cols := match on with Some c => map node_name (find_all E_Column c) | None => [] end in
  let on_qualifiers := match on with
                       | Some c => omap (fun x => or_none (node_table x)) (find_all E_Column c)
                       | None => [] end in
  let left_qualifiers :=
    match right_alias with
    | Some r => if is_empty r then on_qualifiers else List.filter (fun q => negb (String.eqb q r)) on_qualifiers
    | None => on_qualifiers
    end in
  {| join_type := upper (default "INNER" (match or_none (node_kind j) with
                                          | Some k => Some k | None => or_none (node_side j) end));
     left_table := match set_iter left_qualifiers with
                   | [] => None | q :: _ => alist_get q alias_map end;
     right_table := right_resolved;
     on_columns := on_cols |}.
Definition extract_joins (a : node) : list JoinReference :=
  map (extract_join (build_alias_map a)) (find_all E_Join a).

(** [rendered.split("(", 1)[0].strip().upper()] for all but a [CASE] and its branches. *)
Definition extract_function (dialect : string) (f : node) : outcome exn (list string) :=
  if isinstance E_If f && match node_parent f with Some p => isinstance E_Case p | None => false end
  then Ret []
  else if isinstance E_Case f then Ret ["CASE"]
  else let? rendered := sql_in dialect f in
       Ret [upper (strip (before_char "(" rendered))].
Definition extract_functions (a : node) (dialect : string) : outcome exn (list string) :=
  oflatmap (extract_function dialect) (find_all E_Func a).

(** ** The validators *)
Record Validator := {
  v_name : string;
  v_validate : ParsedSQL -> outcome exn (list ValidationIssue) }.

(** *** [syntax.py] *)
Definition syntax_issues (p : ParsedSQL) : list ValidationIssue :=
  if isinstance E_Select (ast p) then []
  else let t := upper (type_name (ast p)) in
       [issue "unsupported_statement_type" ERROR
          ("Statement type " ++ repr t ++ " is not supported by QueryMind.") (Some t)].
Definition SyntaxValidator : Validator :=
  {| v_name := "syntax"; v_validate := fun p => Ret (syntax_issues p) |}.

(** *** [schema.py] *)
Definition column_exists (reg : option DatabaseMetadata) (t c : string) : outcome exn bool :=
  match get_table reg t with
  | Ret tbl => Ret (existsb (fun k => String.eqb (col_name k) c) (tbl_columns tbl))
  | Raise e => if String.eqb (exn_class e) "TableNotFoundError" then Ret false else Raise e
  end.
Definition unknown_column (t c : string) : ValidationIssue :=
  issue "unknown_column" ERROR
    ("Column " ++ repr c ++ " does not exist on table " ++ repr t ++ ".") (Some (t ++ "." ++ c)).
Definition unknown_table (t : string) : ValidationIssue :=
  issue "unknown_table" ERROR ("Table " ++ repr t ++ " does not exist in the schema.") (Some t).

Definition schema_table_issues (local known : list string) (r : TableReference) : list ValidationIssue :=
  if in_list (tref_name r) local then []
  else (match node_arg "db" (tref_node r) with
        | Some s =>
            if String.eqb (lower (node_name s)) "public" then []
            else [issue "unknown_schema" ERROR
                    ("Schema " ++ repr (node_name s) ++ " is not supported (only 'public' is).")
                    (Some (tref_name r))]
        | None => []
        end ++ if in_list (tref_name r) known then [] else [unknown_table (tref_name r)])%list.
Definition schema_column_issues (reg : option DatabaseMetadata) (local known : list string)
    (m : list (string * string)) (c : ColumnReference) : outcome exn (list ValidationIssue) :=
  match cref_qualifier c with
  | None => Ret []
  | Some q =>
      if in_list q local then Ret []
      else match alist_get q m with
           | None => Ret []
           | Some t =>
               if negb (in_list t known) then Ret []
               else let? e := column_exists reg t (cref_name c) in
                    Ret (if e : bool then [] else [unknown_column t (cref_name c)])
           end
  end.
Definition SchemaValidator (reg : option DatabaseMetadata) : Validator :=
  {| v_name := "schema"; v_validate := fun p =>
       let local := local_scope_names (ast p) in
       let? known := list_tables reg in
       let tbl_issues := concat (map (schema_table_issues local known) (extract_tables (ast p))) in
       let? col_issues := oflatmap (schema_column_issues reg local known (build_alias_map (ast p)))
                            (extract_columns (ast p)) in
       Ret (tbl_issues ++ col_issues)%list |}.

(** *** [table.py] *)
(** [counts[x] = counts.get(x, 0) + 1], and the keys counted more than once. *)
Definition count_keys (l : list string) : list (string * Z) :=
  fold_left (fun m x => alist_set x (default 0 (alist_get x m) + 1) m) l [].
Definition duplicate_issues (mk : string -> Z -> ValidationIssue) (l : list string) : list ValidationIssue :=
  map (fun kc => mk (fst kc) (snd kc)) (List.filter (fun kc => 1 <? snd kc) (count_keys l)).
Definition count_str (x : string) (l : list string) : nat := length (List.filter (String.eqb x) l).

Definition TableValidator (reg : option DatabaseMetadata) : Validator :=
  {| v_name := "table"; v_validate := fun p =>
       let local := local_scope_names (ast p) in
       let? known := list_tables reg in
       let refs := extract_tables (ast p) in
       let unknown := concat (map (fun r =>
         if negb (in_list (tref_name r) local) && negb (in_list (tref_name r) known)
         then [unknown_table (tref_name r)] else []) refs) in
       let dups := duplicate_issues (fun a c => issue "duplicate_table_alias" ERROR
         ("Alias " ++ repr a ++ " is declared " ++ show_Z c ++ " times.") (Some a)) (omap tref_alias refs) in
       let unaliased := omap (fun r => match tref_alias r with
                                       | Some _ => None | None => Some (tref_name r) end) refs in
       let ambiguous := concat (map (fun n =>
         if (1 <? count_str n unaliased)%nat
         then [issue "ambiguous_table_reference" ERROR
                 ("Table " ++ repr n ++ " is referenced more than once with no alias to disambiguate the references.")
                 (Some n)] else []) (set_iter unaliased)) in
       Ret (unknown ++ dups ++ ambiguous)%list |}.

(** *** [column.py] *)
Definition output_aliases (a : node) : list string :=
  if isinstance E_Select a
  then omap (fun i => if isinstance E_Alias i then or_none (node_alias i) else None) (node_expressions a)
  else [].
Fixpoint owners_of (reg : option DatabaseMetadata) (c : string) (ts : list string) : outcome exn (list string) :=
  match ts with
  | [] => Ret []
  | t :: ts' => let? e := column_exists reg t c in let? rest := owners_of reg c ts' in
                Ret (if e : bool then t :: rest else rest)
  end.
Definition column_issues (reg : option DatabaseMetadata) (m : list (string * string))
    (local in_scope out_aliases : list string) (c : ColumnReference) : outcome exn (list ValidationIssue) :=
  match cref_qualifier c with
  | Some q =>
      match alist_get q m with
      | None => Ret [issue "invalid_qualification" ERROR
                 ("Column qualifier " ++ repr q ++ " does not match any table or alias in scope.")
                 (Some (q ++ "." ++ cref_name c))]
      | Some t =>
          if in_list t local then Ret []
          else let? e := column_exists reg t (cref_name c) in
               Ret (if e : bool then [] else [unknown_column t (cref_name c)])
      end
  | None =>
      if in_list (cref_name c) out_aliases then Ret []
      else let? owners := owners_of reg (cref_name c) in_scope in
           Ret (match owners with
                | [] => [issue "unknown_column" ERROR
                    ("Column " ++ repr (cref_name c) ++ " does not exist on any table in scope.")
                    (Some (cref_name c))]
                | [_] => []
                | _ => [issue "ambiguous_column" ERROR
                    ("Column " ++ repr (cref_name c) ++ " exists on more than one table in scope ("
                     ++ join ", " (sorted_str owners) ++ ") and must be qualified.")
                    (Some (cref_name c))]
                end)
  end.
Definition ColumnValidator (reg : option DatabaseMetadata) : Validator :=
  {| v_name := "column"; v_validate := fun p =>
       let m := build_alias_map (ast p) in
       let local := local_scope_names (ast p) in
       let in_scope := set_iter (List.filter (fun t => negb (in_list t local)) (map snd m)) in
       oflatmap (column_issues reg m local in_scope (output_aliases (ast p))) (extract_columns (ast p)) |}.

(** *** [joins.py] *)
Definition has_relationship (g : RelationshipGraph) (l r : string) : bool :=
  existsb (fun e => String.eqb (ge_target_table e) r) (edges_from g l)
  || existsb (fun e => String.eqb (ge_target_table e) l) (edges_from g r).
Definition on_condition_matches (g : RelationshipGraph) (l r : string) (cols : list string) : bool :=
  existsb (fun e => (String.eqb (ge_target_table e) l || String.eqb (ge_target_table e) r)
                    && existsb (fun c => in_list c cols) (ge_source_columns e ++ ge_target_columns e)%list)
          (edges_from g l ++ edges_from g r)%list.
Definition join_issues (g : RelationshipGraph) (j : JoinReference) : list ValidationIssue :=
  if String.eqb (join_type j) "CROSS" then []
  else match left_table j, right_table j with
       | Some l, Some r =>
           if bool_decide (l ∉ nodes g) || bool_decide (r ∉ nodes g) then []
           else if negb (has_relationship g l r)
           then [issue "unknown_join_relationship" ERROR
                   ("No known relationship connects " ++ repr l ++ " and " ++ repr r
                    ++ " " ++ String (ascii_of_nat 151) "" ++ " this JOIN does not follow the schema.")
                   (Some (l ++ "-" ++ r))]
           else match on_columns j with
                | [] => []
                | cols => if on_condition_matches g l r cols then []
                          else [issue "join_columns_do_not_match_relationship" WARNING
                            ("A relationship exists between " ++ repr l ++ " and " ++ repr r
                             ++ ", but this JOIN's ON condition doesn't match its declared columns.")
                            (Some (l ++ "-" ++ r))]
                end
       | _, _ => []
       end.
Definition JoinValidator (g : RelationshipGraph) : Validator :=
  {| v_name := "join"; v_validate := fun p => Ret (concat (map (join_issues g) (extract_joins (ast p)))) |}.

(** *** [functions.py] *)
Definition APPROVED_FUNCTIONS : list string :=
  ["COUNT"; "SUM"; "AVG"; "MIN"; "MAX"; "ROUND"; "COALESCE"; "CASE"; "LOWER"; "UPPER"; "DATE_TRUNC"].
Definition function_issues (f : string) : list ValidationIssue :=
  if in_list f APPROVED_FUNCTIONS then []
  else [issue "unsupported_function" ERROR
          ("Function " ++ repr f ++ " is not in the approved function list.") (Some f)].
Definition FunctionValidator : Validator :=
  {| v_name := "function"; v_validate := fun p =>
       let? fs := extract_functions (ast p) (parsed_dialect p) in
       Ret (concat (map function_issues fs)) |}.

(** *** [aggregates.py] *)
Definition group_by_issue (group_texts : list string) (item : node) : list ValidationIssue :=
  let unaliased := if isinstance E_Alias item then default item (node_this item) else item in
  if contains_class E_AggFunc unaliased then []
  else if isinstance E_Literal unaliased then []
  else if in_list (sql_normalized unaliased) group_texts then []
  else [issue "missing_group_by" ERROR
          (repr (sql_plain unaliased) ++ " must appear in GROUP BY or be wrapped in an aggregate function.")
          (Some (sql_plain unaliased))].
Definition check_group_by (select : node) : list ValidationIssue :=
  let group := node_arg "group" select in
  match group, contains_class E_AggFunc select with
  | None, false => []
  | _, _ =>
      let texts := match group with Some g => map sql_normalized (node_expressions g) | None => [] end in
      concat (map (group_by_issue texts) (node_expressions select))
  end.
Definition check_having (select : node) : list ValidationIssue :=
  match node_arg "having" select with
  | None => []
  | Some _ =>
      match node_arg "group" select, contains_class E_AggFunc select with
      | None, false => [issue "having_without_aggregation" WARNING
                          "HAVING is used without GROUP BY or any aggregate function." None]
      | _, _ => []
      end
  end.
Definition check_nested_aggregates (select : node) : list ValidationIssue :=
  concat (map (fun a => if has_ancestor E_AggFunc a
    then [issue "nested_aggregate" ERROR
            (repr (sql_plain a) ++ " is nested inside another aggregate function, which is not valid SQL.")
            (Some (sql_plain a))] else []) (find_all E_AggFunc select)).
Definition AggregateValidator : Validator :=
  {| v_name := "aggregate"; v_validate := fun p =>
       Ret (if isinstance E_Select (ast p)
            then (check_group_by (ast p) ++ check_having (ast p) ++ check_nested_aggregates (ast p))%list
            else []) |}.

(** *** [aliases.py] *)
Definition check_duplicate_table_aliases (a : node) : list ValidationIssue :=
  duplicate_issues (fun al c => issue "duplicate_alias" ERROR
    ("Table alias " ++ repr al ++ " is declared " ++ show_Z c ++ " times.") (Some al))
    (omap tref_alias (extract_tables a)).
Definition check_duplicate_output_aliases (a : node) : list ValidationIssue :=
  duplicate_issues (fun al c => issue "duplicate_alias" ERROR
    ("Output column alias " ++ repr al ++ " is declared " ++ show_Z c ++ " times.") (Some al))
    (output_aliases a).
Definition check_unknown_aliases (a : node) : list ValidationIssue :=
  let m := build_alias_map a in
  map (fun q => issue "unknown_alias" ERROR
         ("Qualifier " ++ repr q ++ " does not match any declared table or alias.") (Some q))
    (sorted_str (List.filter (fun q => negb (in_list q (map fst m)))
                   (dedup (omap cref_qualifier (extract_columns a))))).
Definition AliasValidator : Validator :=
  {| v_name := "alias"; v_validate := fun p =>
       Ret (check_duplicate_table_aliases (ast p) ++ check_duplicate_output_aliases (ast p)
            ++ check_unknown_aliases (ast p))%list |}.

(** *** [business_rules.py] *)
Definition metric_is_mentioned (c : BusinessConcept) (raw_lower : string) : bool :=
  existsb (fun n => contains (lower n) raw_lower) (bc_name c :: map text (aliases c)).
Definition referenced_schema_objects (a : node) : list string :=
  let m := build_alias_map a in
  (map tref_name (extract_tables a)
   ++ omap (fun c => match cref_qualifier c with
                     | Some q => match alist_get q m with
                                 | Some t => if is_empty t then None else Some (t ++ "." ++ cref_name c)%string
                                 | None => None end
                     | None => None end) (extract_columns a))%list.
Definition metric_issue (refs : list string) (raw_lower : string) (c : BusinessConcept) : list ValidationIssue :=
  match preferred_schema_objects c with
  | [] => []
  | objs =>
      if negb (metric_is_mentioned c raw_lower) then []
      else if existsb (fun o => in_list o refs) objs then []
      else [issue "business_metric_schema_mismatch" WARNING
              ("Query appears to compute " ++ repr (bc_name c)
               ++ " but references none of its approved schema objects (" ++ join ", " objs ++ ").")
              (Some (bc_id c))]
  end.
Definition BusinessRuleValidator (knowledge : option BusinessKnowledgeCatalog) : Validator :=
  {| v_name := "business_rule"; v_validate := fun p =>
       let? metrics := list_metrics knowledge in
       Ret (concat (map (metric_issue (referenced_schema_objects (ast p)) (lower (raw_sql p))) metrics)) |}.

(** *** [dialect.py] *)
Definition is_sqlglot_error (e : exn) : bool :=
  existsb (String.eqb (exn_class e))
    ["SqlglotError"; "ParseError"; "TokenError"; "UnsupportedError"; "OptimizeError"; "SchemaError"; "ExecuteError"].
Definition DialectValidator (d : string) : Validator :=
  {| v_name := "dialect"; v_validate := fun p =>
       let wrong := if String.eqb (parsed_dialect p) d then []
         else [issue "unsupported_dialect" ERROR
                 ("SQL was parsed as dialect " ++ repr (parsed_dialect p) ++ "; only " ++ repr d ++ " is supported.")
                 (Some (parsed_dialect p))] in
       let ticks := if contains "`" (raw_sql p)
         then [issue "unsupported_dialect_construct" ERROR
                 "Backtick-quoted identifiers are not valid PostgreSQL syntax." (Some "`")] else [] in
       match sql_in d (ast p) with
       | Ret _ => Ret (wrong ++ ticks)%list
       | Raise e =>
           if is_sqlglot_error e
           then Ret (wrong ++ ticks ++ [issue "unsupported_dialect_construct" ERROR
                  ("This SQL cannot be rendered for " ++ repr d ++ ": " ++ exn_str e) None])%list
           else Raise e
       end |}.

(** ** [registry.py] *)
Definition build_default_registry (reg : option DatabaseMetadata)
    (knowledge : option BusinessKnowledgeCatalog) (g : RelationshipGraph) (d : string) : list Validator :=
  [SyntaxValidator; SchemaValidator reg; TableValidator reg; ColumnValidator reg; JoinValidator g;
   FunctionValidator; AggregateValidator; AliasValidator; BusinessRuleValidator knowledge; DialectValidator d].

(** ** [report.py] *)
Definition is_error (i : ValidationIssue) : bool :=
  match severity i with ERROR => true | WARNING => false end.
Definition set_of (l : list string) : list string := sorted_str (dedup l).
Definition build_result (g : GeneratedSQL) (issues : list ValidationIssue)
    (tbls cols funcs : list string) (joins : Z) (times : list ValidatorExecutionTime) (latency : Q)
  : SQLValidationResult :=
  let errs := List.filter is_error issues in
  let warns := List.filter (fun i => negb (is_error i)) issues in
  {| generated_sql := g; is_valid := Z.of_nat (length errs) =? 0; errors := errs; warnings := warns;
     validated_tables := set_of tbls; validated_columns := set_of cols; validated_functions := set_of funcs;
     validation_statistics :=
       {| validation_latency_ms := latency; validator_execution_times := times;
          table_count := Z.of_nat (length (dedup tbls)); column_count := Z.of_nat (length (dedup cols));
          join_count := joins; function_count := Z.of_nat (length (dedup funcs));
          error_count := Z.of_nat (length errs); warning_count := Z.of_nat (length warns) |} |}.

(** ** [engine.py] *)
Definition SQLGLOT_DIALECTS (d : SQLDialect) : string :=
  match d with POSTGRESQL => "postgres" | MYSQL => "mysql" | SQLITE => "sqlite" | ANSI => "" end.

Definition internal_error (name : string) (e : exn) : ValidationIssue :=
  issue "validator_internal_error" ERROR
    ("Validator " ++ repr name ++ " raised an unexpected error: " ++ exn_str e) (Some name).

Section Engine.
Context {W : Type} `{Clock W}.
Context (parse_one : string -> string -> outcome exn node) (registry : list Validator).

(** One guarded validator call: the issues it adds. *)
Definition guarded (v : Validator) (p : ParsedSQL) : outcome exn (list ValidationIssue) :=
  match v_validate v p with
  | Ret l => Ret l
  | Raise e => if is_Exception e then Ret [internal_error (v_name v) e] else Raise e
  end.
Fixpoint run_validators (vs : list Validator) (p : ParsedSQL)
  : prog W exn (list ValidationIssue * list ValidatorExecutionTime) :=
  match vs with
  | [] => ret ([], [])
  | v :: vs' =>
      let! started := perf_counter in
      let! issues := lift (guarded v p) in
      let! d := elapsed_ms started in
      let! ' (more, times) := run_validators vs' p in
      ret (issues ++ more, {| vet_validator := v_name v; vet_duration_ms := d |} :: times)%list
  end.

Definition validate (g : GeneratedSQL) : prog W exn SQLValidationResult :=
  let! started := perf_counter in
  let d := SQLGLOT_DIALECTS (dialect g) in
  match parse parse_one (sql g) d with
  | Raise (SQLSyntaxError m) =>
      let! latency := elapsed_ms started in
      ret (build_result g [issue "sql_syntax_error" ERROR m None] [] [] [] 0 [] latency)
  | Raise e => throw e
  | Ret p =>
      let! ' (issues, times) := run_validators registry p in
      let tbls := map tref_name (extract_tables (ast p)) in
      let cols := map (fun c => match cref_qualifier c with
                                | Some q => q ++ "." ++ cref_name c | None => cref_name c end)
                      (extract_columns (ast p)) in
      let! funcs := lift (extract_functions (ast p) d) in
      let joins := Z.of_nat (length (extract_joins (ast p))) in
      let! latency := elapsed_ms started in
      ret (build_result g issues tbls cols funcs joins times latency)
  end.
End Engine.
End Validators.
Arguments ParsedSQL : clear implicits.
Arguments TableReference : clear implicits.
Arguments Validator : clear implicits.

(** ** Lemmas *)
Section Lemmas.
Context {node : Type} `{Sqlglot node} `{PySet}.

(** A validator found nothing wrong: no exception, and warnings at most. *)
Definition accepts (v : Validator node) (p : ParsedSQL node) : Prop :=
  exists l, v_validate v p = Ret l /\ forall i, i ∈ l -> is_error i = false.

Lemma is_valid_no_errors g issues t c f j ts lat :
  let r := build_result g issues t c f j ts lat in
  generated_sql r = g /\ errors r = List.filter is_error issues /\
  (is_valid r = true <-> errors r = []) /\
  (is_valid r = true <-> forall i, i ∈ issues -> is_error i = false).
Proof.
  cbv zeta. simpl. split_and!; try done.
  - rewrite Z.eqb_eq. destruct (List.filter is_error issues); simpl; split; try done; lia.
  - rewrite Z.eqb_eq. split.
    + intros Hl i Hi. destruct (is_error i) eqn:E; [|done].
      assert (Hin : i ∈ List.filter is_error issues).
      { apply list_elem_of_In, List.filter_In. split; [by apply list_elem_of_In|done]. }
      destruct (List.filter is_error issues); [set_solver|]. simpl in Hl. lia.
    + intros Hno. destruct (List.filter is_error issues) as [|i l] eqn:E; [done|].
      assert (Hin : i ∈ List.filter is_error issues) by (rewrite E; left).
      apply list_elem_of_In, List.filter_In in Hin as [Hi He].
      rewrite Hno in He; [done|]. by apply list_elem_of_In.
Qed.

Lemma guarded_accepts (v : Validator node) p l :
  guarded v p = Ret l -> (accepts v p <-> forall i, i ∈ l -> is_error i = false).
Proof.
  unfold guarded, accepts. destruct (v_validate v p) as [e|l'] eqn:E.
  - destruct (is_Exception e); [|done]. intros; simplify_eq. split; [by intros (? & ? & _)|].
    intros Hi. specialize (Hi (internal_error (v_name v) e) ltac:(left)). done.
  - intros; simplify_eq. split; [by intros (? & ? & ?); simplify_eq|eauto].
Qed.

Section EngineLemmas.
Context {W : Type} `{Clock W}.
Context (parse_one : string -> string -> outcome exn node).

Lemma run_validators_eq (vs : list (Validator node)) p (w : W) :
  match oflatmap (fun v => guarded v p) vs with
  | Ret l => exists ts w', run_validators vs p w = (Ret (l, ts), w') /\ map vet_validator ts = map v_name vs
  | Raise e => exists w', run_validators vs p w = (Raise e, w')
  end.
Proof.
  revert w; induction vs as [|v vs IH]; intros w; simpl; [eexists _, _; done|].
  rewrite bind_perf_counter. destruct (guarded v p) as [e|l]; simpl.
  { eexists. by apply bind_raise_eq. }
  erewrite bind_ret_eq by reflexivity. rewrite (bind_ret_eq _ _ _ _ _ (elapsed_ms_eq _ _)).
  specialize (IH (snd (tick (snd (tick w))))).
  destruct (oflatmap _ vs) as [e|ls]; simpl.
  - destruct IH as (w' & Hw). exists w'. by apply bind_raise_eq.
  - destruct IH as (ts & w' & Hw & Hts). rewrite (bind_ret_eq _ _ _ _ _ Hw).
    eexists _, _. split; [done|]. simpl. by rewrite Hts.
Qed.

Lemma oflatmap_guarded_accepts (vs : list (Validator node)) p l :
  oflatmap (fun v => guarded v p) vs = Ret l ->
  ((forall i, i ∈ l -> is_error i = false) <-> forall v, v ∈ vs -> accepts v p).
Proof.
  revert l; induction vs as [|v vs IH]; simpl; intros l.
  { intros [= <-]. split; intros; set_solver. }
  destruct (guarded v p) as [e|l1] eqn:E1; [done|]. simpl.
  destruct (oflatmap _ vs) as [e|l2] eqn:E2; [done|]. simpl. intros [= <-].
  pose proof (guarded_accepts _ _ _ E1) as Ha. specialize (IH l2 eq_refl).
  split.
  - intros Hi v' [->|Hv']%elem_of_cons; [apply Ha|apply IH; [|done]]; intros i Hin; apply Hi; set_solver.
  - intros Hv i [Hi|Hi]%elem_of_app.
    + apply (proj1 Ha); [apply Hv; left|done].
    + apply (proj2 IH); [|done]. intros v' Hv'. apply Hv. by right.
Qed.

(** What a returned validation result says. *)
Lemma validate_result (registry : list (Validator node)) g (w : W) r w' :
  validate parse_one registry g w = (Ret r, w') ->
  generated_sql r = g /\ (is_valid r = true <-> errors r = []) /\
  ((exists m, parse parse_one (sql g) (SQLGLOT_DIALECTS (dialect g)) = Raise (SQLSyntaxError m) /\
      is_valid r = false /\ map issue_code (errors r) = ["sql_syntax_error"]) \/
   (exists p, parse parse_one (sql g) (SQLGLOT_DIALECTS (dialect g)) = Ret p /\
      (is_valid r = true <-> forall v, v ∈ registry -> accepts v p) /\
      map vet_validator (validator_execution_times (validation_statistics r)) = map v_name registry)).
Proof.
  unfold validate. rewrite bind_perf_counter. cbv zeta.
  destruct (parse parse_one _ _) as [e|p] eqn:Ep.
  - destruct e; try done. unfold bind. rewrite elapsed_ms_eq. intros [= <- <-].
    split_and!; try done. left. eauto.
  - pose proof (run_validators_eq registry p (snd (tick w))) as Hrun.
    destruct (oflatmap _ registry) as [e|l] eqn:El.
    { destruct Hrun as (w1 & Hw). by rewrite (bind_raise_eq _ _ _ _ _ Hw). }
    destruct Hrun as (ts & w1 & Hw & Hts). rewrite (bind_ret_eq _ _ _ _ _ Hw).
    unfold lift. unfold bind at 1. destruct (extract_functions _ _) as [e|fs]; [done|].
    unfold bind. rewrite elapsed_ms_eq. intros [= <- <-].
    match goal with |- context[build_result ?g ?i ?a ?b ?c ?d ?e ?f] =>
      destruct (is_valid_no_errors g i a b c d e f) as (R1 & R2 & R3 & R4) end.
    split_and!; [done|done|]. right. exists p. split_and!; [done| |done].
    rewrite R4. by apply oflatmap_guarded_accepts.
Qed.
End EngineLemmas.
End Lemmas.

(** ** What the default pipeline accepts *)
Section Soundness.
Context {node : Type} `{Sqlglot node} `{PySet}.
Context (db : DatabaseMetadata).

(** The statement only refers to what the schema, the relationship graph and the
    approved function list know. *)
Definition real_column (t c : string) : Prop :=
  exists tbl k, find_table db t = Some tbl /\ k ∈ tbl_columns tbl /\ col_name k = c.
Definition table_known (a : node) (r : TableReference node) : Prop :=
  tref_name r ∈ local_scope_names a \/ tref_name r ∈ map tbl_name (tables db).
(** [t] is in scope, is no CTE or derived table, and has a column [c]. *)
Definition owns (a : node) (c t : string) : Prop :=
  t ∈ map snd (build_alias_map a) /\ (t ∉ local_scope_names a) /\ real_column t c.
Definition column_known (a : node) (c : ColumnReference) : Prop :=
  match cref_qualifier c with
  | Some q => exists t, alist_get q (build_alias_map a) = Some t /\
      (t ∈ local_scope_names a \/ real_column t (cref_name c))
  | None => cref_name c ∈ output_aliases a \/ (exists t, owns a (cref_name c) t /\ forall t', owns a (cref_name c) t' -> t' = t)
  end.
Definition join_known (g : RelationshipGraph) (j : JoinReference) : Prop :=
  join_type j <> "CROSS" -> forall l r, left_table j = Some l -> right_table j = Some r ->
  l ∈ nodes g -> r ∈ nodes g -> has_relationship g l r = true.
Definition grounded (g : RelationshipGraph) (p : ParsedSQL node) : Prop :=
  isinstance E_Select (ast p) = true /\
  (forall r, r ∈ extract_tables (ast p) -> table_known (ast p) r) /\
  (forall c, c ∈ extract_columns (ast p) -> column_known (ast p) c) /\
  (forall j, j ∈ extract_joins (ast p) -> join_known g j) /\
  (exists fs, extract_functions (ast p) (parsed_dialect p) = Ret fs /\
     forall f, f ∈ fs -> f ∈ APPROVED_FUNCTIONS) /\
  (forall a, a ∈ find_all E_AggFunc (ast p) -> has_ancestor E_AggFunc a = false) /\
  parsed_dialect p = "postgres" /\ contains "`" (raw_sql p) = false.

Lemma column_exists_true t c : column_exists (Some db) t c = Ret true -> real_column t c.
Proof.
  unfold column_exists, get_table. simpl. destruct (find_table db t) as [tbl|] eqn:E; [|done].
  intros [= Hx]. apply existsb_exists in Hx as (k & Hk & Hc). apply String.eqb_eq in Hc.
  exists tbl, k. split_and!; [done|by apply list_elem_of_In|done].
Qed.
Lemma column_exists_Ret t c : exists b, column_exists (Some db) t c = Ret b.
Proof.
  unfold column_exists, get_table. simpl. destruct (find_table db t); eauto.
Qed.

Lemma in_list_spec x l : in_list x l = true <-> x ∈ l.
Proof. unfold in_list. by rewrite bool_decide_eq_true. Qed.

(** A validator that ran a loop accepts only if no iteration found an error. *)
Lemma no_error_concat {A} (f : A -> list ValidationIssue) l x :
  (forall i, i ∈ concat (map f l) -> is_error i = false) -> x ∈ l ->
  forall i, i ∈ f x -> is_error i = false.
Proof.
  intros Hno Hx i Hi. apply Hno. apply list_elem_of_In, in_concat. exists (f x).
  split; [|by apply list_elem_of_In]. apply in_map. by apply list_elem_of_In.
Qed.
Lemma no_error_oflatmap {A} (f : A -> outcome exn (list ValidationIssue)) l r x :
  oflatmap f l = Ret r -> (forall i, i ∈ r -> is_error i = false) -> x ∈ l ->
  exists fx, f x = Ret fx /\ forall i, i ∈ fx -> is_error i = false.
Proof.
  revert r; induction l as [|y l IH]; simpl; intros r Hr Hno Hx; [set_solver|].
  destruct (f y) as [e|fy] eqn:Ey; [done|]. simpl in Hr.
  destruct (oflatmap f l) as [e|rs]; [done|]. simpl in Hr. injection Hr as <-.
  apply elem_of_cons in Hx as [->|Hx].
  - exists fy. split; [done|]. intros; apply Hno; set_solver.
  - apply (IH rs); [done| |done]. intros; apply Hno; set_solver.
Qed.

Lemma accepts_syntax p : accepts SyntaxValidator p -> isinstance E_Select (ast p) = true.
Proof.
  intros (l & Hl & Hno). simpl in Hl. injection Hl as <-. unfold syntax_issues in Hno.
  destruct (isinstance E_Select (ast p)); [done|]. by specialize (Hno _ ltac:(left)).
Qed.
Lemma accepts_table p : accepts (TableValidator (Some db)) p ->
  forall r, r ∈ extract_tables (ast p) -> table_known (ast p) r.
Proof.
  intros (l & Hl & Hno) r Hr. simpl in Hl. injection Hl as <-.
  unfold table_known. rewrite <- !in_list_spec.
  destruct (in_list (tref_name r) (local_scope_names (ast p))) eqn:E1; [by left|].
  destruct (in_list (tref_name r) (map tbl_name (tables db))) eqn:E2; [by right|].
  exfalso. set (f := fun r : TableReference node => if _ : bool then _ else _) in Hno.
  assert (Hc : forall i, i ∈ f r -> is_error i = false).
  { eapply no_error_concat; [|exact Hr]. intros i Hi. apply Hno. set_solver. }
  unfold f in Hc. rewrite E1, E2 in Hc. by specialize (Hc _ ltac:(left)).
Qed.

Lemma owners_of_elem c ts os t :
  owners_of (Some db) c ts = Ret os -> t ∈ os <-> t ∈ ts /\ real_column t c.
Proof.
  revert os; induction ts as [|t' ts IH]; simpl; intros os Ho; [simplify_eq; set_solver|].
  destruct (column_exists (Some db) t' c) as [e|b] eqn:Eb; [done|]. simpl in Ho.
  destruct (owners_of _ c ts) as [e|rest]; [done|]. simpl in Ho. injection Ho as <-.
  specialize (IH _ eq_refl). destruct b.
  - apply column_exists_true in Eb. rewrite !elem_of_cons, IH. naive_solver.
  - rewrite elem_of_cons, IH. split; [naive_solver|]. intros [[->|?] Hr]; [|naive_solver].
    destruct Hr as (tbl & k & Hf & Hk & Hc). exfalso. revert Eb. unfold column_exists, get_table. simpl. rewrite Hf.
    intros [= Hx]. apply list_elem_of_In in Hk. assert (existsb (fun k => String.eqb (col_name k) c) (tbl_columns tbl) = true); [|congruence].
    apply existsb_exists. exists k. split; [done|]. by apply String.eqb_eq.
Qed.
Lemma accepts_column p : accepts (ColumnValidator (Some db)) p ->
  forall c, c ∈ extract_columns (ast p) -> column_known (ast p) c.
Proof.
  intros (l & Hl & Hno) c Hc. simpl in Hl.
  destruct (no_error_oflatmap _ _ _ _ Hl Hno Hc) as (fc & Hfc & Hi). clear Hl Hno.
  unfold column_issues in Hfc. unfold column_known. destruct (cref_qualifier c) as [q|].
  - destruct (alist_get q _) as [t|].
    2: { injection Hfc as <-. by specialize (Hi _ ltac:(left)). }
    exists t. split; [done|]. destruct (in_list t _) eqn:E; [left; by apply in_list_spec|]. right.
    destruct (column_exists_Ret t (cref_name c)) as [b Hb]. rewrite Hb in Hfc. simpl in Hfc.
    injection Hfc as <-. destruct b; [by apply column_exists_true|]. by specialize (Hi _ ltac:(left)).
  - destruct (in_list (cref_name c) _) eqn:E; [left; by apply in_list_spec|]. right.
    destruct (owners_of _ _ _) as [e|os] eqn:Eo; [done|]. simpl in Hfc. injection Hfc as <-.
    assert (Hown : forall t, t ∈ os <-> owns (ast p) (cref_name c) t).
    { intros t. rewrite (owners_of_elem _ _ _ t Eo), set_iter_perm, elem_of_dedup, list_elem_of_In, List.filter_In.
      unfold owns. rewrite <- list_elem_of_In, negb_true_iff, <- not_true_iff_false, in_list_spec. tauto. }
    destruct os as [|t [|? ?]]; [by specialize (Hi _ ltac:(left))| |by specialize (Hi _ ltac:(left))].
    exists t. split; [apply Hown; by left|]. intros t' Ht'. apply Hown in Ht'. set_solver.
Qed.
Lemma accepts_join g p : accepts (JoinValidator g) p ->
  forall j, j ∈ extract_joins (ast p) -> join_known g j.
Proof.
  intros (l & Hl & Hno) j Hj. simpl in Hl. injection Hl as <-.
  pose proof (no_error_concat _ _ _ Hno Hj) as Hi. clear Hno. intros Ht lt rt El Er Hln Hrn.
  unfold join_issues in Hi. apply String.eqb_neq in Ht. rewrite Ht, El, Er in Hi.
  rewrite !bool_decide_false in Hi by (intros Hx; by apply Hx). simpl in Hi.
  destruct (has_relationship g lt rt); [done|]. by specialize (Hi _ ltac:(left)).
Qed.
Lemma accepts_function p : accepts FunctionValidator p ->
  exists fs, extract_functions (ast p) (parsed_dialect p) = Ret fs /\
     forall f, f ∈ fs -> f ∈ APPROVED_FUNCTIONS.
Proof.
  intros (l & Hl & Hno). simpl in Hl.
  destruct (extract_functions _ _) as [e|fs]; [done|]. simpl in Hl. injection Hl as <-.
  exists fs. split; [done|]. intros f Hf. pose proof (no_error_concat _ _ _ Hno Hf) as Hi.
  unfold function_issues in Hi. destruct (in_list f _) eqn:E; [by apply in_list_spec|].
  by specialize (Hi _ ltac:(left)).
Qed.
Lemma accepts_aggregate p : accepts AggregateValidator p -> isinstance E_Select (ast p) = true ->
  forall a, a ∈ find_all E_AggFunc (ast p) -> has_ancestor E_AggFunc a = false.
Proof.
  intros (l & Hl & Hno) Hs a Ha. simpl in Hl. rewrite Hs in Hl. injection Hl as <-.
  destruct (has_ancestor E_AggFunc a) eqn:E; [|done].
  assert (Hi : forall i, i ∈ concat (map (fun a => if has_ancestor E_AggFunc a
    then [issue "nested_aggregate" ERROR
            (repr (sql_plain a) ++ " is nested inside another aggregate function, which is not valid SQL.")
            (Some (sql_plain a))] else []) (find_all E_AggFunc (ast p))) -> is_error i = false).
  { intros i Hi. apply Hno. unfold check_nested_aggregates. set_solver. }
  pose proof (no_error_concat _ _ _ Hi Ha) as Hx. simpl in Hx. rewrite E in Hx.
  by specialize (Hx _ ltac:(left)).
Qed.
Lemma accepts_dialect d p : accepts (DialectValidator d) p ->
  parsed_dialect p = d /\ contains "`" (raw_sql p) = false.
Proof.
  intros (l & Hl & Hno). simpl in Hl.
  assert (Hx : forall i, i ∈ ((if String.eqb (parsed_dialect p) d then []
      else [issue "unsupported_dialect" ERROR
        ("SQL was parsed as dialect " ++ repr (parsed_dialect p) ++ "; only " ++ repr d ++ " is supported.")
        (Some (parsed_dialect p))]) ++
      (if contains "`" (raw_sql p) then [issue "unsupported_dialect_construct" ERROR
        "Backtick-quoted identifiers are not valid PostgreSQL syntax." (Some "`")] else []))%list ->
      is_error i = false).
  { intros i Hi. apply Hno. destruct (sql_in d (ast p)) as [e|].
    - destruct (is_sqlglot_error e); [|done]. injection Hl as <-. set_solver.
    - injection Hl as <-. done. }
  clear Hl Hno. destruct (String.eqb_spec (parsed_dialect p) d) as [->|].
  - split; [done|]. destruct (contains "`" _); [|done]. by specialize (Hx _ ltac:(left)).
  - by specialize (Hx _ ltac:(left)).
Qed.

Lemma default_registry_grounded knowledge g p :
  (forall v, v ∈ build_default_registry (Some db) knowledge g "postgres" -> accepts v p) -> grounded g p.
Proof.
  intros Hv.
  assert (Hs : isinstance E_Select (ast p) = true) by (apply accepts_syntax, Hv; set_solver).
  split; [done|]. split_and!.
  - apply accepts_table, Hv. set_solver.
  - apply accepts_column, Hv. set_solver.
  - apply accepts_join, Hv. set_solver.
  - apply accepts_function, Hv. set_solver.
  - apply accepts_aggregate; [apply Hv; set_solver|done].
  - refine (proj1 (accepts_dialect _ _ (Hv (DialectValidator "postgres") _))). set_solver.
  - refine (proj2 (accepts_dialect _ _ (Hv (DialectValidator "postgres") _))). set_solver.
Qed.
End Soundness.

(** ** Properties of the engine *)
Section EngineProps.
Context {node : Type} `{Sqlglot node} `{PySet} {W : Type} `{Clock W}.
Context (parse_one : string -> string -> outcome exn node).

(** What a validator contributes, a crash included. *)
Definition findings (p : ParsedSQL node) (v : Validator node) : list ValidationIssue :=
  match v_validate v p with Ret l => l | Raise e => [internal_error (v_name v) e] end.
(** No validator dies of anything worse than an [Exception]. *)
Definition survivable (registry : list (Validator node)) (p : ParsedSQL node) : Prop :=
  forall v e, v ∈ registry -> v_validate v p = Raise e -> is_Exception e = true.

Lemma guarded_findings (v : Validator node) p e : guarded v p = Raise e -> v_validate v p = Raise e /\ is_Exception e = false.
Proof.
  unfold guarded. destruct (v_validate v p) as [e'|]; [|done]. destruct (is_Exception e') eqn:E; [done|]. by intros [= <-].
Qed.
Lemma guarded_survives (v : Validator node) p l : guarded v p = Ret l ->
  l = findings p v /\ forall e, v_validate v p = Raise e -> is_Exception e = true.
Proof.
  unfold guarded, findings. destruct (v_validate v p) as [e'|]; [|by intros [= <-]].
  destruct (is_Exception e') eqn:E; [|done]. intros [= <-]. split; [done|]. by intros e [= <-].
Qed.
Lemma guarded_all (registry : list (Validator node)) p :
  match oflatmap (fun v => guarded v p) registry with
  | Ret l => survivable registry p /\ l = concat (map (findings p) registry)
  | Raise e => exists v, v ∈ registry /\ v_validate v p = Raise e /\ is_Exception e = false
  end.
Proof.
  induction registry as [|v vs IH]; simpl; [split; [by intros ? ? ?%elem_of_nil|done]|].
  destruct (guarded v p) as [e|l] eqn:Eg; simpl.
  { apply guarded_findings in Eg as [? ?]. exists v. split; [by left|done]. }
  apply guarded_survives in Eg as [-> Hv]. destruct (oflatmap _ vs) as [e|ls]; simpl.
  - destruct IH as (v' & ? & ?). exists v'. split; [by right|done].
  - destruct IH as [Hs ->]. split; [|done]. intros v' e [->|Hin]%elem_of_cons; [apply Hv|by apply Hs].
Qed.

(** C7. The verdict of [SQLValidationEngine.validate]. A text the parser refuses with
    [SQLSyntaxError] is one [sql_syntax_error]; any other exception of the parser escapes. On a text that parses [validate] returns exactly when no validator
    raises anything but an [Exception] and sqlglot renders the functions of the tree; the
    issues are then those of every validator of the registry, in order, a crashed one
    contributing its [validator_internal_error] and stopping no other, split by severity into
    errors and warnings; every validator is timed; and the query is valid exactly when no
    validator crashed or found an error. When it does not return, it raises what the
    validator or sqlglot raised. *)
Theorem validate_verdict registry g (w : W) :
  let d := SQLGLOT_DIALECTS (dialect g) in
  match parse parse_one (sql g) d with
  | Raise (SQLSyntaxError m) => exists r w', validate parse_one registry g w = (Ret r, w') /\
      generated_sql r = g /\ is_valid r = false /\ errors r = [issue "sql_syntax_error" ERROR m None] /\ warnings r = []
  | Raise e => exists w', validate parse_one registry g w = (Raise e, w')
  | Ret p =>
      (survivable registry p /\ is_ret (extract_functions (ast p) d) = true ->
       exists r w', validate parse_one registry g w = (Ret r, w') /\ generated_sql r = g /\
         errors r = List.filter is_error (concat (map (findings p) registry)) /\
         warnings r = List.filter (fun i => negb (is_error i)) (concat (map (findings p) registry)) /\
         map vet_validator (validator_execution_times (validation_statistics r)) = map v_name registry /\
         (is_valid r = true <-> errors r = []) /\
         (is_valid r = true <-> forall v, v ∈ registry -> accepts v p)) /\
      (~ (survivable registry p /\ is_ret (extract_functions (ast p) d) = true) ->
       exists e w', validate parse_one registry g w = (Raise e, w') /\
         ((exists v, v ∈ registry /\ v_validate v p = Raise e /\ is_Exception e = false) \/
          extract_functions (ast p) d = Raise e))
  end.
Proof.
  cbv zeta. unfold validate. rewrite bind_perf_counter. cbv zeta.
  destruct (parse parse_one _ _) as [e|p] eqn:Ep.
  { destruct e; eauto; []. unfold bind. rewrite elapsed_ms_eq. do 2 eexists. split; [reflexivity|done]. }
  pose proof (run_validators_eq registry p (snd (tick w))) as Hrun.
  pose proof (guarded_all registry p) as Hall.
  destruct (oflatmap _ registry) as [e|l] eqn:El.
  { destruct Hrun as (w1 & Hw). rewrite (bind_raise_eq _ _ _ _ _ Hw). split; [|eauto 8].
    intros [Hs _]. destruct Hall as (v & Hv & He & Hf). rewrite (Hs _ _ Hv He) in Hf. done. }
  destruct Hrun as (ts & w1 & Hw & Hts). rewrite (bind_ret_eq _ _ _ _ _ Hw).
  destruct Hall as [Hs Hl]. unfold lift. unfold bind at 1 3.
  destruct (extract_functions _ _) as [e|fs] eqn:Ef.
  { split; [by intros [_ ?]|eauto 8]. }
  split; [|intros Hn; by destruct Hn]. intros _. unfold bind. rewrite elapsed_ms_eq. do 2 eexists. split; [reflexivity|].
  match goal with |- context[build_result ?g ?i ?a ?b ?c ?d ?e ?f] =>
    destruct (is_valid_no_errors g i a b c d e f) as (R1 & R2 & R3 & R4) end.
  rewrite <- Hl. split_and!; [done|done|done|done|done|].
  rewrite R4. by apply oflatmap_guarded_accepts.
Qed.

Lemma validated_grounded db knowledge g generated (w : W) r w' :
  validate parse_one (build_default_registry (Some db) knowledge g "postgres") generated w = (Ret r, w') ->
  is_valid r = true ->
  dialect generated = POSTGRESQL /\
  exists p, parse parse_one (sql generated) "postgres" = Ret p /\ grounded db g p.
Proof.
  intros Hr Hv. destruct (validate_result _ _ _ _ _ _ Hr) as (_ & _ & [(m & _ & Hf & _)|(p & Hp & Ha & _)]).
  { congruence. }
  pose proof (proj1 Ha Hv) as Hall. pose proof (default_registry_grounded _ _ _ _ Hall) as Hg.
  assert (Hd : SQLGLOT_DIALECTS (dialect generated) = "postgres").
  { destruct Hg as (_ & _ & _ & _ & _ & _ & Hd & _). rewrite <- Hd. unfold parse in Hp.
    destruct (parse_one _ _); [by destruct (String.eqb _ _)|]. by simplify_eq. }
  split; [by destruct (dialect generated)|]. exists p. by rewrite <- Hd.
Qed.

(** C6. What the default pipeline vouches for. With it, over loaded metadata, a query judged
    valid is PostgreSQL, a [SELECT], and without a backtick; each table it names is a table of
    the schema or a CTE or derived table of its own; a qualified column's qualifier is in
    scope, and unless it stands for a CTE or derived table, its table has that column; a bare
    column is a column of exactly one schema table in scope, unless its name is also one of
    the query's output aliases, when nothing is checked; each function is approved; no
    aggregate is nested in another; and a join that is not a CROSS join and whose two sides
    are resolved to tables of the relationship graph has a declared relationship between them. *)
Theorem validate_grounded db knowledge g generated (w : W) r w' :
  validate parse_one (build_default_registry (Some db) knowledge g "postgres") generated w = (Ret r, w') ->
  is_valid r = true ->
  dialect generated = POSTGRESQL /\
  exists p, parse parse_one (sql generated) "postgres" = Ret p /\ grounded db g p.
Proof. apply validated_grounded. Qed.

(** [validate] returns a result whenever sqlglot fails only with [ParseError],
    renders its own functions, and no validator raises a [BaseException]; and this is
    the best that holds: any other exception of the parser (a [TokenError] on an
    unterminated string) escapes, although the docstring says it never raises for an
    invalid query. *)
Theorem validate_raises registry g (w : W) :
  ((forall s d e, parse_one s d = Raise e -> exn_class e = "ParseError") ->
   (forall a d, parse_one (sql g) d = Ret a -> is_ret (extract_functions a d) = true) ->
   (forall v p e, v ∈ registry -> v_validate v p = Raise e -> is_Exception e = true) ->
   is_ret (fst (validate parse_one registry g w)) = true) /\
  (forall e, parse_one (sql g) (SQLGLOT_DIALECTS (dialect g)) = Raise e ->
     exn_class e <> "ParseError" -> exn_class e <> "SQLSyntaxError" ->
     exists w', validate parse_one registry g w = (Raise e, w')).
Proof.
  split.
  - intros Hparse Hfun Hval. unfold validate. rewrite bind_perf_counter. cbv zeta. unfold parse.
    destruct (parse_one _ _) as [e|a] eqn:Ep.
    { rewrite (Hparse _ _ _ Ep). simpl. unfold bind. by rewrite elapsed_ms_eq. }
    set (p := {| ast := a; parsed_dialect := _; raw_sql := _ |}).
    pose proof (run_validators_eq registry p (snd (tick w))) as Hrun.
    destruct (oflatmap _ registry) as [e|l] eqn:El.
    { exfalso. clear Hrun. induction registry as [|v vs IH]; [done|]. simpl in El.
      destruct (guarded v p) as [e'|] eqn:Eg.
      - unfold guarded in Eg. destruct (v_validate v p) as [e2|] eqn:Ev; [|done].
        by rewrite (Hval v p e2 ltac:(left) Ev) in Eg.
      - simpl in El. destruct (oflatmap _ vs); [|done]. simplify_eq/=. apply IH; [|done].
        intros v' p' e' Hv'. apply Hval. by right. }
    destruct Hrun as (ts & w1 & Hw & _). rewrite (bind_ret_eq _ _ _ _ _ Hw).
    specialize (Hfun _ _ Ep). unfold lift. unfold bind at 1. simpl ast.
    destruct (extract_functions a _); [done|]. unfold bind. by rewrite elapsed_ms_eq.
  - intros e He Hne Hse. unfold validate. rewrite bind_perf_counter. cbv zeta. unfold parse. rewrite He.
    apply String.eqb_neq in Hne. rewrite Hne. exists (snd (tick w)). destruct e; done.
Qed.
End EngineProps.

(** ** A concrete tree, for the witnesses *)
Module Demo.
#[warnings="-register-all"]
Inductive tree :=
| Tree (classes : list node_class) (nm al tb : string) (args : list (string * tree)) (exprs : list tree).
Definition classes_of (t : tree) := let 'Tree c _ _ _ _ _ := t in c.
Definition args_of (t : tree) := let 'Tree _ _ _ _ a _ := t in a.
Definition exprs_of (t : tree) := let 'Tree _ _ _ _ _ e := t in e.
Fixpoint subtrees (t : tree) : list tree :=
  let 'Tree _ _ _ _ a e := t in
  (t :: (fix in_args l := match l with [] => [] | (_, x) :: l' => subtrees x ++ in_args l' end) a
     ++ (fix in_exprs l := match l with [] => [] | x :: l' => subtrees x ++ in_exprs l' end) e)%list.
#[global] Instance node_class_eq_dec : EqDecision node_class.
Proof. solve_decision. Defined.
Definition is_class (k : node_class) (t : tree) : bool := bool_decide (k ∈ classes_of t).
#[global] Instance tree_sqlglot : Sqlglot tree := {|
  find_all := fun k t => List.filter (is_class k) (subtrees t);
  isinstance := is_class;
  has_ancestor := fun _ _ => false;
  node_name := fun '(Tree _ n _ _ _ _) => n;
  node_alias := fun '(Tree _ _ a _ _ _) => a;
  node_table := fun '(Tree _ _ _ t _ _) => t;
  node_this := fun t => alist_get "this" (args_of t);
  node_arg := fun s t => alist_get s (args_of t);
  node_parent := fun _ => None;
  node_expressions := exprs_of;
  node_kind := fun _ => "";
  node_side := fun _ => "";
  type_name := fun t => if is_class E_Select t then "Select" else "Delete";
  sql_in := fun _ '(Tree _ n _ _ _ _) => Ret (n ++ "()");
  sql_plain := fun '(Tree _ n _ _ _ _) => n;
  sql_normalized := fun '(Tree _ n _ _ _ _) => n |}.
#[global] Instance list_order : PySet := {| set_iter := dedup; set_iter_perm := fun l => reflexivity _ |}.

Definition column : ColumnMetadata :=
  {| col_table_name := "orders"; col_name := "id"; sql_type := "INTEGER"; python_type := "int";
     nullable := false; primary_key := true; unique := true; autoincrement := true; col_default := None;
     foreign_key := None; col_enum := None; col_description := None; col_synonyms := [];
     example_value := None; display_name := None; search_keywords := []; is_sensitive := false |}.
Definition table : TableMetadata :=
  {| tbl_name := "orders"; tbl_columns := [column];
     tbl_primary_key := {| pk_name := "pk"; pk_columns := ["id"] |}; foreign_keys := [];
     unique_constraints := []; check_constraints := []; indexes := [];
     tbl_description := None; tbl_synonyms := [] |}.
Definition database : DatabaseMetadata :=
  {| tables := [table]; relationships := []; enums := []; generated_at := 0 |}.
Definition graph : RelationshipGraph := RelationshipGraph_init ["orders"] [].
Definition catalog : BusinessKnowledgeCatalog := {| concepts := []; loaded_at := 0 |}.

(** [SELECT o.id FROM orders AS o] *)
Definition good_sql : string := "SELECT o.id FROM orders AS o;".
Definition good_tree : tree :=
  Tree [E_Select] "" "" "" [("from", Tree [E_Table] "orders" "o" "" [] [])]
    [Tree [E_Column] "id" "" "o" [] []].
Definition bad_tree : tree := Tree [E_Delete] "" "" "" [("this", Tree [E_Table] "orders" "" "" [] [])] [].
Definition parse_demo (s d : string) : outcome exn tree :=
  if String.eqb s good_sql then Ret good_tree
  else if contains "'" s then Raise (OtherException "TokenError" "Error tokenizing")
  else if contains "DELETE" s then Ret bad_tree
  else Raise (OtherException "ParseError" "Invalid expression").
Definition generated_of (s : string) : GeneratedSQL :=
  {| sql := s; statement_type := ST_SELECT; raw_llm_content := s; dialect := POSTGRESQL;
     llm_metrics := {| gm_provider := CLAUDE; gm_model := "m"; gm_latency_ms := 1%Q;
       gm_token_usage := {| prompt_tokens := 1; completion_tokens := 1 |};
       gm_retry_count := 0; gm_finish_reason := COMPLETE |};
     gen_statistics := {| extraction_method := RAW_TEXT; raw_sql_length := 1; normalized_sql_length := 1;
       normalization_changed_sql := false; generation_latency_ms := 1%Q |} |}.
Definition demo_registry : list (Validator tree) :=
  build_default_registry (Some database) (Some catalog) graph "postgres".
(** A clock that counts its readings. *)
Definition CountClock : Type := nat.
#[global] Instance CountClock_clock : Clock CountClock := fun n => (f_of_Z (Z.of_nat n), S n).
End Demo.

Definition demo_run (s : string) : outcome exn SQLValidationResult * Demo.CountClock :=
  validate Demo.parse_demo Demo.demo_registry (Demo.generated_of s) (0%nat : Demo.CountClock).
Definition verdict (o : outcome exn SQLValidationResult) : option bool :=
  match o with Ret r => Some (is_valid r) | Raise _ => None end.

(** A registry whose second validator crashes: the first and the third still report. *)
Lemma validate_verdict_witness :
  let crashing := {| v_name := "boom"; v_validate := fun _ => Raise (OtherException "KeyError" "x") |} in
  let registry := [SyntaxValidator; crashing; DialectValidator "mysql"] in
  exists r w', validate Demo.parse_demo registry (Demo.generated_of "DELETE FROM orders;") (0%nat : Demo.CountClock) = (Ret r, w') /\
    is_valid r = false /\ map issue_code (errors r) = map issue_code (concat (map (findings
      {| ast := Demo.bad_tree; parsed_dialect := "postgres"; raw_sql := "DELETE FROM orders;" |}) registry)) /\
    map vet_validator (validator_execution_times (validation_statistics r)) = ["syntax"; "boom"; "dialect"].
Proof.
  intros crashing registry.
  destruct (proj1 (validate_verdict Demo.parse_demo registry (Demo.generated_of "DELETE FROM orders;") (0%nat : Demo.CountClock)))
    as (r & w' & Hr & _ & He & _ & Ht & Hv & _).
  - split; [|vm_compute; reflexivity]. intros v e Hin Hx.
    repeat (apply elem_of_cons in Hin as [->|Hin]; [vm_compute in Hx; first [discriminate Hx|injection Hx as <-; reflexivity]|]).
    apply elem_of_nil in Hin as [].
  - exists r, w'. split; [exact Hr|]. split; [|split; [rewrite He; vm_compute; reflexivity|rewrite Ht; reflexivity]].
    destruct (is_valid r); [|reflexivity]. pose proof (proj1 Hv eq_refl) as Hn. rewrite He in Hn. vm_compute in Hn. discriminate Hn.
Defined.

(** [SELECT bogus AS bogus FROM orders]: an output alias shields the very column it renames. *)
Definition bogus_tree : Demo.tree :=
  Demo.Tree [E_Select] "" "" "" [("from", Demo.Tree [E_Table] "orders" "" "" [] [])]
    [Demo.Tree [E_Alias] "" "bogus" "" [] [Demo.Tree [E_Column] "bogus" "" "" [] []]].
Example alias_shields_its_own_column :
  let run := validate (fun _ _ => Ret bogus_tree) Demo.demo_registry
    (Demo.generated_of "SELECT bogus AS bogus FROM orders") (0%nat : Demo.CountClock) in
  map cref_name (extract_columns bogus_tree) = ["bogus"] /\ column_exists (Some Demo.database) "orders" "bogus" = Ret false /\
  verdict (fst run) = Some true.
Proof. vm_compute. split_and!; reflexivity. Qed.

Lemma validate_grounded_witness :
  exists p, parse Demo.parse_demo Demo.good_sql "postgres" = Ret p /\ grounded Demo.database Demo.graph p.
Proof.
  assert (Hv : verdict (fst (demo_run Demo.good_sql)) = Some true) by (vm_compute; reflexivity).
  destruct (demo_run Demo.good_sql) as [[e|r] w'] eqn:E; [discriminate Hv|].
  injection Hv as Hv. unfold demo_run in E. exact (proj2 (validate_grounded _ _ _ _ _ _ _ _ E Hv)).
Defined.

Lemma validate_raises_witness :
  exists w', validate Demo.parse_demo Demo.demo_registry (Demo.generated_of "SELECT 'x;") (0%nat : Demo.CountClock)
    = (Raise (OtherException "TokenError" "Error tokenizing"), w').
Proof.
  apply (proj2 (validate_raises Demo.parse_demo Demo.demo_registry (Demo.generated_of "SELECT 'x;") (0%nat : Demo.CountClock)));
    vm_compute; first [reflexivity|discriminate].
Defined.
