(* ===== verification/Repair.v ===== *)
(** * SQL repair ([querymind.sql_repair])

    The planner, the stopping strategy, the repair prompt, the extractor and the
    bounded loop of [SQLRepairEngine.repair]. *)
From S2P Require Import Prelude PyFloat PyStr Models ContextModels PromptCompiler Generation.
#[local] Open Scope string_scope.
#[local] Open Scope Z_scope.

(** ** [models.py] *)
Inductive RepairReason :=
| UNKNOWN_TABLE | UNKNOWN_COLUMN | SCHEMA_ISSUE | INVALID_JOIN | MISSING_GROUP_BY | AGGREGATE_ERROR
| ALIAS_ISSUE | UNSUPPORTED_FUNCTION | DIALECT_ISSUE | BUSINESS_RULE_MISMATCH | UNSUPPORTED_STATEMENT
| SYNTAX_ERROR | OTHER.
#[export] Instance RepairReason_eq_dec : EqDecision RepairReason.
Proof. solve_decision. Defined.
Definition RepairReason_value (r : RepairReason) : string :=
  match r with
  | UNKNOWN_TABLE => "unknown_table" | UNKNOWN_COLUMN => "unknown_column"
  | SCHEMA_ISSUE => "schema_issue" | INVALID_JOIN => "invalid_join"
  | MISSING_GROUP_BY => "missing_group_by" | AGGREGATE_ERROR => "aggregate_error"
  | ALIAS_ISSUE => "alias_issue" | UNSUPPORTED_FUNCTION => "unsupported_function"
  | DIALECT_ISSUE => "dialect_issue" | BUSINESS_RULE_MISMATCH => "business_rule_mismatch"
  | UNSUPPORTED_STATEMENT => "unsupported_statement" | SYNTAX_ERROR => "syntax_error"
  | OTHER => "other"
  end.

Inductive RepairStatus := REPAIRED | MAX_ATTEMPTS_REACHED | NO_PROGRESS | UNREPAIRABLE.
#[export] Instance RepairStatus_eq_dec : EqDecision RepairStatus.
Proof. solve_decision. Defined.

Record RepairAttempt := {
  attempt_number : Z;
  repair_reason : RepairReason;
  input_sql : string;
  repaired_sql : string;
  validation_result : SQLValidationResult;
  prompt_version : string;
  ra_llm_metrics : GenerationMetrics;
  success : bool }.

Record RepairStatistics := {
  attempt_count : Z;
  successful_repairs : Z;
  failed_repairs : Z;
  repair_latency_ms : Q;
  average_validation_latency_ms : Q }.

Record SQLRepairResult := {
  original_sql : GeneratedSQL;
  final_sql : GeneratedSQL;
  final_validation_result : SQLValidationResult;
  history : list RepairAttempt;
  repair_statistics : RepairStatistics;
  status : RepairStatus }.

(** ** [planner.py] *)
Definition ISSUE_CODE_TO_REASON : list (string * RepairReason) :=
  [("sql_syntax_error", SYNTAX_ERROR);
   ("unsupported_statement_type", UNSUPPORTED_STATEMENT);
   ("unknown_table", UNKNOWN_TABLE);
   ("unknown_schema", SCHEMA_ISSUE);
   ("ambiguous_table_reference", SCHEMA_ISSUE);
   ("unknown_column", UNKNOWN_COLUMN);
   ("ambiguous_column", UNKNOWN_COLUMN);
   ("invalid_qualification", ALIAS_ISSUE);
   ("duplicate_table_alias", ALIAS_ISSUE);
   ("duplicate_alias", ALIAS_ISSUE);
   ("unknown_alias", ALIAS_ISSUE);
   ("unknown_join_relationship", INVALID_JOIN);
   ("join_columns_do_not_match_relationship", INVALID_JOIN);
   ("missing_group_by", MISSING_GROUP_BY);
   ("having_without_aggregation", AGGREGATE_ERROR);
   ("nested_aggregate", AGGREGATE_ERROR);
   ("unsupported_function", UNSUPPORTED_FUNCTION);
   ("unsupported_dialect", DIALECT_ISSUE);
   ("unsupported_dialect_construct", DIALECT_ISSUE);
   ("business_metric_schema_mismatch", BUSINESS_RULE_MISMATCH)].
Definition reason_of (i : ValidationIssue) : RepairReason :=
  default OTHER (alist_get (issue_code i) ISSUE_CODE_TO_REASON).

Definition REASON_PRIORITY (r : RepairReason) : Z :=
  match r with
  | SYNTAX_ERROR => 0 | UNSUPPORTED_STATEMENT => 1 | UNKNOWN_TABLE => 2 | SCHEMA_ISSUE => 3
  | UNKNOWN_COLUMN => 4 | ALIAS_ISSUE => 5 | INVALID_JOIN => 6 | MISSING_GROUP_BY => 7
  | AGGREGATE_ERROR => 8 | UNSUPPORTED_FUNCTION => 9 | DIALECT_ISSUE => 10
  | BUSINESS_RULE_MISMATCH => 11 | OTHER => 99
  end.

Record RepairCategory := {
  cat_reason : RepairReason;
  cat_priority : Z;
  cat_issues : list ValidationIssue }.
Record RepairPlan := {
  categories : list RepairCategory;
  primary_reason : RepairReason;
  summary : string;
  is_repairable : bool }.

(** [grouped.setdefault(reason, []).append(issue)] for each issue in order. *)
Definition group_issues (issues : list ValidationIssue) : list (RepairReason * list ValidationIssue) :=
  fold_left (fun g i => alist_set (reason_of i) (default [] (alist_get (reason_of i) g) ++ [i])%list g)
    issues [].
Definition build_summary (cs : list RepairCategory) : string :=
  "Repair needed: " ++ join ", " (map (fun c => RepairReason_value (cat_reason c) ++ " ("
     ++ show_Z (Z.of_nat (length (cat_issues c))) ++ ")") cs) ++ ".".

Definition plan (v : SQLValidationResult) : RepairPlan :=
  let issues := match errors v with [] => warnings v | es => es end in
  match issues with
  | [] => {| categories := []; primary_reason := OTHER;
             summary := "No validation issues to repair."; is_repairable := false |}
  | _ =>
      let cs := map (fun rg => {| cat_reason := fst rg; cat_priority := REASON_PRIORITY (fst rg);
                                  cat_issues := snd rg |})
                  (sorted_by Z.ltb (fun rg => REASON_PRIORITY (fst rg)) (group_issues issues)) in
      {| categories := cs;
         primary_reason := match cs with c :: _ => cat_reason c | [] => OTHER end;
         summary := build_summary cs;
         is_repairable := negb (forallb (fun i => String.eqb (issue_code i) "validator_internal_error") issues) |}
  end.

(** ** [strategy.py] *)
Definition RepairStrategy_init (max_attempts : Z) : outcome exn Z :=
  if max_attempts <? 1
  then Raise (SQLRepairConfigurationError ("max_attempts must be >= 1, got " ++ show_Z max_attempts ++ "."))
  else Ret max_attempts.
Definition DEFAULT_MAX_ATTEMPTS : Z := 3.

Definition error_codes (a : RepairAttempt) : list string := map issue_code (errors (validation_result a)).
(** Set difference of the error codes of two attempts. *)
Definition made_progress (previous current : RepairAttempt) : bool :=
  negb (bool_decide (list_to_set (C:=gset string) (error_codes current)
                     = list_to_set (error_codes previous))).

(** [history[-1]] and [history[-2]]. *)
Definition last_attempt (h : list RepairAttempt) : option RepairAttempt := last h.
Definition previous_attempt (h : list RepairAttempt) : option RepairAttempt :=
  match rev h with _ :: p :: _ => Some p | _ => None end.

Section Strategy.
Context (max_attempts : Z).
Definition should_continue (h : list RepairAttempt) : bool :=
  match last_attempt h with
  | None => false
  | Some l =>
      if success l then false
      else if max_attempts <=? Z.of_nat (length h) then false
      else match previous_attempt h with
           | None => true
           | Some p => made_progress p l
           end
  end.
Definition final_status (h : list RepairAttempt) : RepairStatus :=
  match last_attempt h with
  | None => UNREPAIRABLE
  | Some l =>
      if success l then REPAIRED
      else if match previous_attempt h with Some p => negb (made_progress p l) | None => false end
      then NO_PROGRESS
      else if max_attempts <=? Z.of_nat (length h) then MAX_ATTEMPTS_REACHED
      else UNREPAIRABLE
  end.
End Strategy.

(** ** [parser.py] *)
Definition extract_repaired {W} `{Clock W} (r : LLMResponse) (d : SQLDialect) : prog W exn GeneratedSQL :=
  let! started := perf_counter in
  let! extraction := lift (match extract (content r) with
                           | Raise (SQLExtractionError m) => Raise (RepairedSQLExtractionError m)
                           | o => o
                           end) in
  let normalized_sql := normalize (ext_sql extraction) in
  let! statistics := build_statistics (ext_method extraction) (ext_sql extraction) normalized_sql started in
  ret {| sql := normalized_sql; statement_type := detect normalized_sql;
         raw_llm_content := content r; dialect := d; llm_metrics := metrics r;
         gen_statistics := statistics |}.

(** ** [prompt_builder.py] *)
Definition REPAIR_SYSTEM_PREAMBLE : string :=
  "You are a precise SQL repair assistant for QueryMind. You will be given a "
  ++ "previously generated SQL query that failed validation, the exact validation "
  ++ "errors it produced, and the schema and relationships it must draw from. Your "
  ++ "job is to fix ONLY the reported errors.".
Definition REPAIR_RULES : list string :=
  ["Repair ONLY the reported validation errors -- do not rewrite unrelated parts of the query.";
   "Do not change the intended business question the query answers.";
   "Do not invent a table that was not already provided.";
   "Do not invent a column that was not already provided.";
   "Do not invent a relationship that was not already provided.";
   "Preserve the original query's intent.";
   "Return exactly one repaired SQL statement, and nothing else."].

Definition repair_system : PromptSection :=
  mk_section SYSTEM NOT_TRIMMABLE_PRIORITY true REPAIR_SYSTEM_PREAMBLE [].
Definition repair_context (g : GeneratedSQL) (v : SQLValidationResult) (p : RepairPlan) : PromptSection :=
  mk_section RETRIEVED_EXAMPLES EXAMPLES_TRIM_PRIORITY false
    ("SQL requiring repair:" ++ nl ++ sql g ++ nl ++ nl ++ summary p ++ nl ++ nl
     ++ "Validation errors:" ++ nl
     ++ join nl (map (fun i => "- [" ++ issue_code i ++ "] " ++ issue_message i) (errors v))) [].
Definition repair_constraints : PromptSection :=
  mk_section CONSTRAINT NOT_TRIMMABLE_PRIORITY true
    (join nl (map (fun r => "- " ++ r) (CONSTRAINT_RULES ++ REPAIR_RULES)%list)) [].

Definition REPAIR_SECTION_SPECS : list SectionSpec :=
  [{| spec_name := SYSTEM; header := "# System Instructions"; order := 1; include_by_default := true |};
   {| spec_name := BUSINESS_CONTEXT; header := "## Business Context"; order := 2; include_by_default := true |};
   {| spec_name := SCHEMA_CONTEXT; header := "## Schema Context"; order := 3; include_by_default := true |};
   {| spec_name := RELATIONSHIP; header := "## Table Relationships"; order := 4; include_by_default := true |};
   {| spec_name := RETRIEVED_EXAMPLES; header := "## SQL Requiring Repair"; order := 5; include_by_default := true |};
   {| spec_name := CONSTRAINT; header := "## Repair Rules"; order := 6; include_by_default := true |};
   {| spec_name := OUTPUT_FORMAT; header := "## Output Format"; order := 7; include_by_default := true |}].
Definition RepairPromptTemplate : PromptTemplate :=
  {| version := "1.0.0-repair"; template_name := "repair"; section_specs := REPAIR_SECTION_SPECS |}.

Definition repair_builders (g : GeneratedSQL) (v : SQLValidationResult) (p : RepairPlan) : SectionBuilders :=
  {| system_builder := fun _ _ => repair_system;
     business_builder := business_builder default_builders;
     schema_builder := schema_builder default_builders;
     relationship_builder := relationship_builder default_builders;
     example_builder := fun _ _ => repair_context g v p;
     constraint_builder := fun _ _ => repair_constraints;
     output_builder := output_builder default_builders |}.

(** A fresh compiler has an empty cache of its own, next to the world. *)
#[export] Instance fresh_clock {C W} `{Clock W} : Clock (C * W) :=
  fun '(c, w) => let '(t, w') := tick w in (t, (c, w')).
#[export] Instance fresh_cache {W} `{Clock W} : PromptCacheState (gmap PromptKey CompiledPrompt * W).
Proof.
  refine {| prompt_store := fst; set_prompt_store := fun m cw => (m, snd cw) |}; [done|].
  intros [c w]. unfold tick, fresh_clock. by destruct (tick w).
Defined.

Section Builder.
Context {W : Type} `{Clock W}.
Context (bundle_content_hash : LinkedQueryContext * list RetrievedExample -> string).
Definition build_repair_prompt (b : RetrievedKnowledgeBundle) (g : GeneratedSQL)
    (v : SQLValidationResult) (p : RepairPlan) : prog W exn CompiledPrompt :=
  fun w =>
    let '(o, (_, w')) := compile (repair_builders g v p) RepairPromptTemplate DEFAULT_MAX_PROMPT_TOKENS
                           bundle_content_hash b (dialect g) (∅, w) in
    (o, w').
End Builder.

(** ** [engine.py] *)
(** [_build_statistics]. *)
Definition average_latency (h : list RepairAttempt) : Q :=
  match h with
  | [] => 0%Q
  | _ => fdiv (fsum (map (fun a => validation_latency_ms (validation_statistics (validation_result a))) h))
              (f_of_Z (Z.of_nat (length h)))
  end.
Definition build_repair_statistics (h : list RepairAttempt) (latency : Q) : RepairStatistics :=
  let successful := Z.of_nat (length (List.filter success h)) in
  {| attempt_count := Z.of_nat (length h); successful_repairs := successful;
     failed_repairs := Z.of_nat (length h) - successful; repair_latency_ms := latency;
     average_validation_latency_ms := average_latency h |}.

Section Engine.
Context {W : Type} `{Clock W}.
Context (max_attempts : Z).
Context (build_prompt : RetrievedKnowledgeBundle -> GeneratedSQL -> SQLValidationResult -> RepairPlan ->
                        prog W exn CompiledPrompt).
Context (llm_repair : CompiledPrompt -> prog W exn LLMResponse).
Context (validate : GeneratedSQL -> prog W exn SQLValidationResult).

(** One turn of the loop: nothing when the plan is not repairable, otherwise the
    attempt and the SQL it produced. *)
Definition attempt (b : RetrievedKnowledgeBundle) (n : Z) (cur : GeneratedSQL) (v : SQLValidationResult)
  : prog W exn (option (RepairAttempt * GeneratedSQL)) :=
  let p := plan v in
  if negb (is_repairable p) then ret None
  else
    let! compiled_prompt := build_prompt b cur v p in
    let! llm_response := llm_repair compiled_prompt in
    let! repaired := extract_repaired llm_response (dialect cur) in
    let! new_validation := validate repaired in
    ret (Some ({| attempt_number := n; repair_reason := primary_reason p; input_sql := sql cur;
                  repaired_sql := sql repaired; validation_result := new_validation;
                  prompt_version := template_version compiled_prompt;
                  ra_llm_metrics := metrics llm_response; success := is_valid new_validation |},
               repaired)).

Abbreviation LoopState := (list RepairAttempt * GeneratedSQL * SQLValidationResult)%type.

(** [while True]; [fuel] bounds the turns. *)
Fixpoint repair_loop (fuel : nat) (b : RetrievedKnowledgeBundle) (n : Z) (h : list RepairAttempt)
    (cur : GeneratedSQL) (v : SQLValidationResult) : prog W exn LoopState :=
  match fuel with
  | O => throw (OtherException "OutOfFuel" "")
  | S fuel' =>
      let! step := attempt b n cur v in
      match step with
      | None => ret (h, cur, v)
      | Some (a, repaired) =>
          let h' := (h ++ [a])%list in
          if should_continue max_attempts h'
          then repair_loop fuel' b (n + 1) h' repaired (validation_result a)
          else ret (h', repaired, validation_result a)
      end
  end.

Definition repair (generated : GeneratedSQL) (v : SQLValidationResult) (b : RetrievedKnowledgeBundle)
  : prog W exn SQLRepairResult :=
  let! started := perf_counter in
  let! ' (h, cur, fv) := repair_loop (S (Z.to_nat max_attempts)) b 1 [] generated v in
  let! latency := elapsed_ms started in
  ret {| original_sql := generated; final_sql := cur; final_validation_result := fv; history := h;
         repair_statistics := build_repair_statistics h latency; status := final_status max_attempts h |}.
End Engine.

(** ** Lemmas: the loop *)
Section LoopSpec.
Context {W : Type} `{Clock W}.
Context (max_attempts : Z).
Context (build_prompt : RetrievedKnowledgeBundle -> GeneratedSQL -> SQLValidationResult -> RepairPlan ->
                        prog W exn CompiledPrompt).
Context (llm_repair : CompiledPrompt -> prog W exn LLMResponse).
Context (validate : GeneratedSQL -> prog W exn SQLValidationResult).
Context (b : RetrievedKnowledgeBundle).

#[local] Abbreviation turn := (attempt build_prompt llm_repair validate b).
#[local] Abbreviation State := (list RepairAttempt * GeneratedSQL * SQLValidationResult)%type.

(** The loop, without fuel: [repair_run n h cur v w r] from attempt number [n]. *)
Inductive repair_run : Z -> list RepairAttempt -> GeneratedSQL -> SQLValidationResult -> W ->
    outcome exn State * W -> Prop :=
| run_unrepairable n h cur v w w' :
    turn n cur v w = (Ret None, w') -> repair_run n h cur v w (Ret (h, cur, v), w')
| run_raise n h cur v w e w' :
    turn n cur v w = (Raise e, w') -> repair_run n h cur v w (Raise e, w')
| run_stop n h cur v w a g w' :
    turn n cur v w = (Ret (Some (a, g)), w') -> should_continue max_attempts (h ++ [a]) = false ->
    repair_run n h cur v w (Ret ((h ++ [a])%list, g, validation_result a), w')
| run_again n h cur v w a g w' r :
    turn n cur v w = (Ret (Some (a, g)), w') -> should_continue max_attempts (h ++ [a]) = true ->
    repair_run (n + 1) (h ++ [a]) g (validation_result a) w' r ->
    repair_run n h cur v w r.

Lemma should_continue_bound h :
  should_continue max_attempts h = true -> Z.of_nat (length h) < max_attempts.
Proof.
  unfold should_continue. destruct (last_attempt h) as [l|]; [|done].
  destruct (success l); [done|]. destruct (Z.leb_spec max_attempts (Z.of_nat (length h))); [done|lia].
Qed.

Lemma repair_loop_run fuel n h cur v w :
  (0 < fuel)%nat -> max_attempts - Z.of_nat (length h) <= Z.of_nat fuel ->
  repair_run n h cur v w (repair_loop max_attempts build_prompt llm_repair validate fuel b n h cur v w).
Proof.
  revert n h cur v w. induction fuel as [|fuel IH]; intros n h cur v w Hf Hb; [lia|].
  cbn [repair_loop]. unfold bind. destruct (turn n cur v w) as [[e|[[a g]|]] w'] eqn:Et.
  - by apply run_raise.
  - destruct (should_continue max_attempts (h ++ [a])) eqn:Ec.
    + eapply run_again; eauto. apply should_continue_bound in Ec as Hlt.
      rewrite length_app in Hlt. simpl in Hlt. apply IH; [lia|]. rewrite length_app. simpl. lia.
    + by eapply run_stop.
  - by apply run_unrepairable.
Qed.

Lemma repair_run_det n h cur v w r r' :
  repair_run n h cur v w r -> repair_run n h cur v w r' -> r = r'.
Proof.
  intros Hr. revert r'. induction Hr; intros r' Hr'; inversion Hr'; subst;
    match goal with H1 : turn ?n ?c ?v ?w = _, H2 : turn ?n ?c ?v ?w = _ |- _ =>
      rewrite H1 in H2; simplify_eq end; auto; congruence.
Qed.

(** What one turn records. *)
Lemma attempt_records n cur v w a g w' :
  turn n cur v w = (Ret (Some (a, g)), w') ->
  attempt_number a = n /\ input_sql a = sql cur /\ repaired_sql a = sql g /\
  success a = is_valid (validation_result a) /\ dialect g = dialect cur /\
  (exists w1, validate g w1 = (Ret (validation_result a), w')).
Proof.
  unfold attempt. destruct (negb _); [done|]. unfold bind at 1.
  destruct (build_prompt _ _ _ _ w) as [[?|cp] w1]; [done|]. unfold bind at 1.
  destruct (llm_repair cp w1) as [[?|resp] w2]; [done|].
  unfold extract_repaired. unfold bind at 1. rewrite bind_perf_counter. unfold lift. unfold bind at 1.
  destruct (match extract (content resp) with Raise (SQLExtractionError m) => _ | o => o end) as [?|x]; [done|].
  unfold build_statistics.
  erewrite bind_ret_eq by (erewrite bind_ret_eq by apply elapsed_ms_eq; reflexivity).
  unfold ret at 1. unfold bind. destruct (validate _ _) as [[?|nv] w4] eqn:Ev; [done|].
  unfold ret. intros; simplify_eq/=. split_and!; eauto.
Qed.
Lemma attempt_none n cur v w w' :
  turn n cur v w = (Ret None, w') -> is_repairable (plan v) = false /\ w' = w.
Proof.
  unfold attempt. destruct (is_repairable (plan v)); simpl; [|by intros [= <-]].
  unfold bind. destruct (build_prompt _ _ _ _ w) as [[?|cp] w1]; [done|].
  destruct (llm_repair cp w1) as [[?|resp] w2]; [done|].
  destruct (extract_repaired _ _ _) as [[?|?] w3]; [done|].
  destruct (validate _ _) as [[?|nv] w4]; done.
Qed.
End LoopSpec.

(** ** The history of a run *)
Fixpoint linked (s : string) (h : list RepairAttempt) : Prop :=
  match h with [] => True | a :: h' => input_sql a = s /\ linked (repaired_sql a) h' end.
Fixpoint numbered (n : Z) (h : list RepairAttempt) : Prop :=
  match h with [] => True | a :: h' => attempt_number a = n /\ numbered (n + 1) h' end.

Definition end_sql (s : string) (h : list RepairAttempt) : string :=
  match last h with Some a => repaired_sql a | None => s end.
Lemma linked_snoc s h a : linked s h -> input_sql a = end_sql s h -> linked s (h ++ [a]).
Proof.
  revert s; induction h as [|x h IH]; simpl; intros s Hl He; [done|]. destruct Hl as [Hx Hl].
  split; [done|]. apply IH; [done|]. unfold end_sql in *. rewrite He, last_cons. by destruct (last h).
Qed.
Lemma numbered_snoc n h a : numbered n h -> attempt_number a = n + Z.of_nat (length h) -> numbered n (h ++ [a]).
Proof.
  revert n; induction h as [|x h IH]; simpl; intros n Hn Ha; [split; [lia|done]|].
  destruct Hn as [Hx Hn]. split; [done|]. apply IH; [done|lia].
Qed.

(** What the loop keeps true of its variables. *)
Record history_inv (max_attempts : Z) (g0 : GeneratedSQL) (v0 : SQLValidationResult)
    (h : list RepairAttempt) (cur : GeneratedSQL) (v : SQLValidationResult) : Prop := {
  inv_linked : linked (sql g0) h;
  inv_numbered : numbered 1 h;
  inv_success : forall a, a ∈ h -> success a = is_valid (validation_result a);
  inv_cur : sql cur = end_sql (sql g0) h;
  inv_dialect : dialect cur = dialect g0;
  inv_val : v = match last h with Some a => validation_result a | None => v0 end;
  inv_start : h = [] -> cur = g0 }.

Lemma end_sql_snoc s h a : end_sql s (h ++ [a]) = repaired_sql a.
Proof. unfold end_sql. by rewrite last_snoc. Qed.
Lemma history_inv_start m g v : history_inv m g v [] g v.
Proof. split; simpl; try done. set_solver. Qed.

Section RunInv.
Context {W : Type} `{Clock W}.
Context (max_attempts : Z).
Context (build_prompt : RetrievedKnowledgeBundle -> GeneratedSQL -> SQLValidationResult -> RepairPlan ->
                        prog W exn CompiledPrompt).
Context (llm_repair : CompiledPrompt -> prog W exn LLMResponse).
Context (validate : GeneratedSQL -> prog W exn SQLValidationResult).
Context (b : RetrievedKnowledgeBundle) (g0 : GeneratedSQL) (v0 : SQLValidationResult).

#[local] Abbreviation run := (repair_run max_attempts build_prompt llm_repair validate b).

Lemma history_inv_turn h cur v w a g w' :
  history_inv max_attempts g0 v0 h cur v ->
  attempt build_prompt llm_repair validate b (1 + Z.of_nat (length h)) cur v w = (Ret (Some (a, g)), w') ->
  history_inv max_attempts g0 v0 (h ++ [a]) g (validation_result a).
Proof.
  intros [] Ht. apply attempt_records in Ht as (Hn & Hi & Hr & Hs & Hd & _). split.
  - apply linked_snoc; [done|]. by rewrite Hi.
  - apply numbered_snoc; [done|]. lia.
  - intros a' [Ha|Ha]%elem_of_app; [auto|]. apply list_elem_of_singleton in Ha as ->. done.
  - by rewrite end_sql_snoc.
  - congruence.
  - by rewrite last_snoc.
  - intros Hnil. by destruct h.
Qed.

(** How the loop ended, and what it leaves. *)
Definition loop_ending (h : list RepairAttempt) (v : SQLValidationResult) : Prop :=
  (is_repairable (plan v) = false /\ (h = [] \/ should_continue max_attempts h = true)) \/
  (h <> [] /\ should_continue max_attempts h = false).
(** Every prefix of the history but the whole made the loop go on. *)
Definition went_on (h : list RepairAttempt) : Prop :=
  forall h1 a h2, h = (h1 ++ a :: h2)%list -> h1 = [] \/ should_continue max_attempts h1 = true.

Lemma went_on_snoc h a :
  went_on h -> (h = [] \/ should_continue max_attempts h = true) -> went_on (h ++ [a]).
Proof.
  intros Hw Hh h1 x h2 Heq. destruct h2 as [|y h2] using rev_ind.
  - apply app_inj_tail in Heq as [-> _]. done.
  - rewrite app_comm_cons, app_assoc in Heq. apply app_inj_tail in Heq as [Heq _]. by eapply Hw.
Qed.

Lemma run_inv n h cur v w r :
  run n h cur v w r -> n = 1 + Z.of_nat (length h) ->
  history_inv max_attempts g0 v0 h cur v -> went_on h ->
  (h = [] \/ should_continue max_attempts h = true) ->
  forall h' cur' v' w', r = (Ret (h', cur', v'), w') ->
  history_inv max_attempts g0 v0 h' cur' v' /\ went_on h' /\ loop_ending h' v'.
Proof.
  induction 1 as [n h cur v w w' Ht|n h cur v w e w' Ht|n h cur v w a g w' Ht Hc|n h cur v w a g w' r Ht Hc Hr IH];
    intros Hn Hinv Hw Hh h1 cur1 v1 w1 Heq; simplify_eq.
  - split_and!; [done|done|]. left. split; [by apply attempt_none in Ht as [? _]|done].
  - split_and!; [by eapply history_inv_turn|by apply went_on_snoc|].
    right. split; [by destruct h|done].
  - eapply IH; [| | | |reflexivity].
    + rewrite length_app. simpl. lia.
    + by eapply history_inv_turn.
    + by apply went_on_snoc.
    + by right.
Qed.
End RunInv.

(** Whatever holds of the pair (SQL, validation) at the start and of every pair the
    validator makes holds of the pair the loop ends with. *)
Lemma repair_loop_pair {W} `{Clock W} m build_prompt llm_repair validate b
    (P : GeneratedSQL -> SQLValidationResult -> Prop) fuel n h cur v (w : W) h' cur' v' w' :
  (forall g w1 r w2, validate g w1 = (Ret r, w2) -> P g r) -> P cur v ->
  repair_loop m build_prompt llm_repair validate fuel b n h cur v w = (Ret (h', cur', v'), w') -> P cur' v'.
Proof.
  intros Hval. revert n h cur v w. induction fuel as [|fuel IH]; intros n h cur v w Hp; [done|].
  cbn [repair_loop]. unfold bind. destruct (attempt _ _ _ _ _ _ _ _) as [[e|[[a g]|]] w1] eqn:Et; [done| |].
  - apply attempt_records in Et as (_ & _ & _ & _ & _ & w2 & Hv). apply Hval in Hv.
    destruct (should_continue _ _); [by apply IH|]. unfold ret. by intros [= <- <- <- <-].
  - unfold ret. by intros [= <- <- <- <-].
Qed.
Lemma repair_pair {W} `{Clock W} m build_prompt llm_repair validate
    (P : GeneratedSQL -> SQLValidationResult -> Prop) g v b (w : W) r w' :
  (forall g w1 r w2, validate g w1 = (Ret r, w2) -> P g r) -> P g v ->
  repair m build_prompt llm_repair validate g v b w = (Ret r, w') ->
  P (final_sql r) (final_validation_result r).
Proof.
  intros Hval Hp. unfold repair. rewrite bind_perf_counter.
  unfold bind at 1. destruct (repair_loop _ _ _ _ _ _ _ _ _ _ _) as [[e|[[h cur] fv]] w1] eqn:El; [done|].
  unfold bind. rewrite elapsed_ms_eq. unfold ret. intros [= <- <-]. simpl. by eapply repair_loop_pair.
Qed.

Lemma should_continue_failed m h a : should_continue m (h ++ [a]) = true -> success a = false.
Proof.
  unfold should_continue, last_attempt. rewrite last_snoc. by destruct (success a).
Qed.
Lemma went_on_failed m h h1 a h2 :
  went_on m h -> h = (h1 ++ a :: h2)%list -> h2 <> [] -> success a = false.
Proof.
  intros Hw -> Hne. destruct h2 as [|y h2]; [done|].
  destruct (Hw (h1 ++ [a])%list y h2) as [Hx|Hx]; [by rewrite <- app_assoc|by destruct h1|].
  by eapply should_continue_failed.
Qed.
Lemma went_on_length m h : 1 <= m -> went_on m h -> Z.of_nat (length h) <= m.
Proof.
  intros Hm Hw. destruct h as [|x h0 _] using rev_ind; [simpl; lia|].
  rewrite length_app. simpl. destruct (Hw h0 x [] eq_refl) as [->|Hc]; [simpl; lia|].
  apply should_continue_bound in Hc. lia.
Qed.

(** ** Properties of the engine *)
Section EngineProps.
Context {W : Type} `{Clock W}.
Context (max_attempts : Z).
Context (build_prompt : RetrievedKnowledgeBundle -> GeneratedSQL -> SQLValidationResult -> RepairPlan ->
                        prog W exn CompiledPrompt).
Context (llm_repair : CompiledPrompt -> prog W exn LLMResponse).
Context (validate : GeneratedSQL -> prog W exn SQLValidationResult).

#[local] Abbreviation run b := (repair_run max_attempts build_prompt llm_repair validate b).
#[local] Abbreviation do_repair := (repair max_attempts build_prompt llm_repair validate).

(** C16. The repair loop is [repair_run], the loop without a bound on its turns:
    whatever the collaborators do, it ends, after at most [max_attempts] turns, and
    more fuel changes nothing. *)
Theorem repair_loop_terminates b g v w r extra :
  1 <= max_attempts ->
  repair_loop max_attempts build_prompt llm_repair validate (Z.to_nat max_attempts + extra) b 1 [] g v w = r
  <-> run b 1 [] g v w r.
Proof.
  intros Hm.
  assert (Hrun : run b 1 [] g v w (repair_loop max_attempts build_prompt llm_repair validate
                    (Z.to_nat max_attempts + extra) b 1 [] g v w)).
  { apply repair_loop_run; simpl; lia. }
  split; [by intros <-|]. intros Hr. by eapply repair_run_det.
Qed.

Lemma repair_result g v b w r w' :
  1 <= max_attempts -> do_repair g v b w = (Ret r, w') ->
  history_inv max_attempts g v (history r) (final_sql r) (final_validation_result r) /\
  went_on max_attempts (history r) /\ loop_ending max_attempts (history r) (final_validation_result r) /\
  original_sql r = g /\ status r = final_status max_attempts (history r) /\
  (exists lat, repair_statistics r = build_repair_statistics (history r) lat).
Proof.
  intros Hm. unfold repair. rewrite bind_perf_counter.
  unfold bind at 1. destruct (repair_loop _ _ _ _ _ _ _ _ _ _ _) as [[e|[[h cur] fv]] w1] eqn:El; [done|].
  unfold bind. rewrite elapsed_ms_eq. unfold ret. intros [= <- <-]. simpl.
  assert (Hrun : run b 1 [] g v (snd (tick w)) (Ret (h, cur, fv), w1)).
  { rewrite <- El. apply repair_loop_run; simpl; lia. }
  assert (Hw0 : went_on max_attempts []) by (intros h1 a h2 Hnil; by destruct h1).
  destruct (run_inv _ _ _ _ b g v _ _ _ _ _ _ Hrun eq_refl (history_inv_start _ _ _) Hw0
    (or_introl eq_refl) _ _ _ _ eq_refl) as (H1 & H2 & H3).
  split_and!; eauto.
Qed.

(** The history of a repair: at most [max_attempts] attempts, numbered from 1,
    each starting from the SQL the one before it produced, every one but the last a
    failure; the original is kept as given, the final SQL and its validation are
    those of the last attempt, and belong together if the validator answers about
    the SQL it is given. *)
Theorem repair_history_chain g v b w r w' :
  1 <= max_attempts -> do_repair g v b w = (Ret r, w') ->
  Z.of_nat (length (history r)) <= max_attempts /\
  linked (sql g) (history r) /\ numbered 1 (history r) /\
  (forall h1 a h2, history r = (h1 ++ a :: h2)%list -> h2 <> [] -> success a = false) /\
  original_sql r = g /\ dialect (final_sql r) = dialect g /\
  sql (final_sql r) = end_sql (sql g) (history r) /\
  final_validation_result r = match last (history r) with Some a => validation_result a | None => v end /\
  attempt_count (repair_statistics r) = Z.of_nat (length (history r)) /\
  successful_repairs (repair_statistics r) + failed_repairs (repair_statistics r)
    = Z.of_nat (length (history r)).
Proof.
  intros Hm Hr. destruct (repair_result _ _ _ _ _ _ Hm Hr) as ([] & Hw & _ & Ho & _ & lat & Hst).
  rewrite Hst. split_and!; try done.
  - by apply went_on_length.
  - intros h1 a h2 Heq Hne. by eapply went_on_failed.
  - simpl. lia.
Qed.

(** The status tells the truth: REPAIRED exactly when at least one attempt was
    made and the final SQL is valid; UNREPAIRABLE only when the planner refuses what
    is left; NO_PROGRESS only when the last two attempts failed with the same error
    codes; MAX_ATTEMPTS_REACHED only after [max_attempts] attempts, the last still
    failing. *)
Theorem repair_status_truth g v b w r w' :
  1 <= max_attempts -> do_repair g v b w = (Ret r, w') ->
  (status r = REPAIRED <-> history r <> [] /\ is_valid (final_validation_result r) = true) /\
  (status r = UNREPAIRABLE -> is_repairable (plan (final_validation_result r)) = false) /\
  (status r = NO_PROGRESS -> exists h p a, history r = (h ++ [p; a])%list /\
     success p = false /\ success a = false /\ made_progress p a = false) /\
  (status r = MAX_ATTEMPTS_REACHED -> Z.of_nat (length (history r)) = max_attempts /\
     is_valid (final_validation_result r) = false).
Proof.
  intros Hm Hr. destruct (repair_result _ _ _ _ _ _ Hm Hr) as (Hinv & Hw & Hend & _ & -> & _).
  pose proof (went_on_length _ _ Hm Hw) as Hlen. destruct Hinv as [_ _ Hsucc _ _ Hval _].
  unfold final_status, last_attempt. destruct (history r) as [|a h0 _] using rev_ind.
  { split; [split; [done|by intros [? _]]|]. split_and!; try done. intros _. by destruct Hend as [[? _]|[? _]]. }
  rewrite last_snoc in Hval |- *. rewrite Hval in *. clear Hval.
  pose proof (Hsucc a ltac:(set_solver)) as Hsa. rewrite <- Hsa in *.
  destruct (success a) eqn:Ea.
  { split; [split; [intros _; split; [by destruct h0|done]|done]|]. split_and!; done. }
  unfold loop_ending, should_continue, last_attempt, previous_attempt in *. rewrite last_snoc, Ea in Hend.
  rewrite rev_app_distr in *. simpl in *.
  destruct (rev h0) as [|p rest] eqn:Erev; simpl in *.
  - destruct (Z.leb_spec max_attempts (Z.of_nat (length (h0 ++ [a])))).
    + (split; [split; [done|by intros [_ ?]]|]); split_and!; try done. intros _. split; [lia|done].
    + (split; [split; [done|by intros [_ ?]]|]); split_and!; try done. intros _. by destruct Hend as [[? _]|[_ ?]].
  - assert (Hh0 : h0 = (rev rest ++ [p])%list) by (rewrite <- (rev_involutive h0), Erev; done).
    destruct (made_progress p a) eqn:Ep; simpl.
    + destruct (Z.leb_spec max_attempts (Z.of_nat (length (h0 ++ [a])))).
      * (split; [split; [done|by intros [_ ?]]|]); split_and!; try done. intros _. split; [lia|done].
      * (split; [split; [done|by intros [_ ?]]|]); split_and!; try done. intros _. by destruct Hend as [[? _]|[_ ?]].
    + (split; [split; [done|by intros [_ ?]]|]); split_and!; try done. intros _. exists (rev rest), p, a. split_and!; try done.
      * rewrite Hh0. by rewrite <- app_assoc.
      * eapply (went_on_failed max_attempts _ (rev rest) p [a]); [exact Hw| |done].
        rewrite Hh0. by rewrite <- app_assoc.
Qed.
End EngineProps.

(** ** The planner *)
Lemma group_set_perm {K V} `{EqDecision K} (k : K) (i : V) g :
  concat (map snd (alist_set k (default [] (alist_get k g) ++ [i])%list g)) ≡ₚ (concat (map snd g) ++ [i])%list.
Proof.
  induction g as [|[k' l] g IH]; simpl; [done|]. case_decide; simpl.
  - rewrite <- !app_assoc. f_equiv. apply Permutation_app_comm.
  - rewrite IH. by rewrite app_assoc.
Qed.
Lemma alist_set_elem {K V} `{EqDecision K} (k : K) (v : V) g x :
  x ∈ alist_set k v g -> x = (k, v) \/ x ∈ g.
Proof.
  induction g as [|[k' l] g IH]; simpl; [set_solver|].
  case_decide; subst; rewrite elem_of_cons; [set_solver|].
  intros [->|Hx]; [set_solver|]. destruct (IH Hx); set_solver.
Qed.

Definition grouped_ok (g : list (RepairReason * list ValidationIssue)) : Prop :=
  NoDup (map fst g) /\ forall r iss, (r, iss) ∈ g -> iss <> [] /\ forall i, i ∈ iss -> reason_of i = r.

Lemma group_issues_acc issues g :
  grouped_ok g ->
  let g' := fold_left (fun g i => alist_set (reason_of i) (default [] (alist_get (reason_of i) g) ++ [i])%list g)
              issues g in
  grouped_ok g' /\ concat (map snd g') ≡ₚ (concat (map snd g) ++ issues)%list.
Proof.
  revert g; induction issues as [|i issues IH]; intros g Hg; simpl.
  { split; [done|]. by rewrite app_nil_r. }
  set (g1 := alist_set _ _ g).
  assert (Hg1 : grouped_ok g1).
  { destruct Hg as [Hn Hg]. split; [by apply alist_set_NoDup|]. intros r iss Hx.
    apply alist_set_elem in Hx as [Hx|Hx]; [|by apply Hg]. injection Hx as -> ->.
    split; [by destruct (default _ _)|]. intros j [Hj|Hj]%elem_of_app; [|set_solver].
    destruct (alist_get (reason_of i) g) as [l|] eqn:E; [|set_solver].
    apply alist_get_elem in E. by apply (Hg _ _ E). }
  destruct (IH g1 Hg1) as [H1 H2]. split; [done|]. rewrite H2. unfold g1. rewrite group_set_perm.
  by rewrite <- app_assoc.
Qed.
Lemma group_issues_ok issues : grouped_ok (group_issues issues) /\ concat (map snd (group_issues issues)) ≡ₚ issues.
Proof.
  unfold group_issues. destruct (group_issues_acc issues []) as [H1 H2]; [|done].
  split; [constructor|set_solver].
Qed.

Definition issues_to_repair (v : SQLValidationResult) : list ValidationIssue :=
  match errors v with [] => warnings v | es => es end.

Lemma Zltb_asym a b : (a <? b) = true -> (b <? a) = false.
Proof. rewrite Z.ltb_lt, Z.ltb_ge. lia. Qed.
Lemma Zgeb_trans a b c : (b <? a) = false -> (c <? b) = false -> (c <? a) = false.
Proof. rewrite !Z.ltb_ge. lia. Qed.

Lemma StronglySorted_map {A B} (f : A -> B) (R : B -> B -> Prop) l :
  StronglySorted (fun x y => R (f x) (f y)) l -> StronglySorted R (map f l).
Proof.
  induction 1 as [|x l Hl IH Hx]; simpl; constructor; [done|]. by apply Forall_map.
Qed.

Definition plan_groups (v : SQLValidationResult) : list (RepairReason * list ValidationIssue) :=
  sorted_by Z.ltb (fun rg => REASON_PRIORITY (fst rg)) (group_issues (issues_to_repair v)).
Lemma plan_categories v :
  categories (plan v) = map (fun rg => {| cat_reason := fst rg; cat_priority := REASON_PRIORITY (fst rg);
                                  cat_issues := snd rg |}) (plan_groups v).
Proof. unfold plan, plan_groups, issues_to_repair. destruct (errors v); [destruct (warnings v)|]; done. Qed.
Lemma plan_groups_perm v : plan_groups v ≡ₚ group_issues (issues_to_repair v).
Proof. apply sorted_by_perm. Qed.

Lemma sorted_head_least {A} (R : A -> A -> Prop) x l y : StronglySorted R (x :: l) -> y ∈ x :: l -> y = x \/ R x y.
Proof.
  intros Hs [->|Hy]%elem_of_cons; [by left|]. right.
  inversion Hs as [|? ? _ Hf]; subst. by eapply Forall_forall in Hf.
Qed.

(** [RepairPlanner.plan] partitions the issues: every error (or, when there is
    none, every warning) is in exactly one category, the categories are non-empty,
    have one reason each and are in priority order; the primary reason is the most
    urgent one present; and only a result whose issues are all validator crashes, or
    that has none, is judged unrepairable. *)
Theorem plan_partition v :
  concat (map cat_issues (categories (plan v))) ≡ₚ issues_to_repair v /\
  NoDup (map cat_reason (categories (plan v))) /\
  (forall c, c ∈ categories (plan v) -> cat_issues c <> [] /\ cat_priority c = REASON_PRIORITY (cat_reason c) /\
     forall i, i ∈ cat_issues c -> reason_of i = cat_reason c) /\
  StronglySorted (fun c c' => cat_priority c <= cat_priority c') (categories (plan v)) /\
  (forall i, i ∈ issues_to_repair v -> REASON_PRIORITY (primary_reason (plan v)) <= REASON_PRIORITY (reason_of i)) /\
  (is_repairable (plan v) = true <->
     exists i, i ∈ issues_to_repair v /\ issue_code i <> "validator_internal_error").
Proof.
  destruct (group_issues_ok (issues_to_repair v)) as [[Hn Hg] Hp].
  pose proof (plan_groups_perm v) as Hperm. rewrite plan_categories.
  assert (Hsort : StronglySorted (fun x y => REASON_PRIORITY (fst x) <= REASON_PRIORITY (fst y)) (plan_groups v)).
  { pose proof (sorted_by_sorted Z.ltb (fun rg : RepairReason * list ValidationIssue => REASON_PRIORITY (fst rg))
      Zltb_asym Zgeb_trans (group_issues (issues_to_repair v))) as Hs.
    fold (plan_groups v) in Hs. eapply StronglySorted_ind with (l := plan_groups v); [constructor| |exact Hs].
    intros x l Hl IH Hf. constructor; [done|]. eapply Forall_impl; [exact Hf|].
    unfold not_after. intros y Hy. apply Z.ltb_ge in Hy. done. }
  split_and!.
  - rewrite map_map. simpl. rewrite <- Hp. by rewrite Hperm.
  - rewrite map_map. simpl. by rewrite Hperm.
  - intros c (rg & -> & Hrg)%list_elem_of_fmap. destruct rg as [r iss]. rewrite Hperm in Hrg.
    destruct (Hg _ _ Hrg). done.
  - by apply StronglySorted_map.
  - intros i Hi. assert (Hex : exists rg, rg ∈ plan_groups v /\ i ∈ snd rg).
    { rewrite <- Hp in Hi. apply list_elem_of_In, in_concat in Hi as (iss & His & Hi).
      apply in_map_iff in His as (rg & <- & Hrg). exists rg. rewrite Hperm. by rewrite !list_elem_of_In. }
    destruct Hex as ([r iss] & Hrg & Hir). simpl in Hir.
    assert (Hr : reason_of i = r) by (rewrite Hperm in Hrg; by apply (Hg _ _ Hrg)).
    assert (Hprim : primary_reason (plan v) = match plan_groups v with rg :: _ => fst rg | [] => OTHER end).
    { unfold plan, plan_groups, issues_to_repair.
      destruct (errors v); [destruct (warnings v)|]; try done; by destruct (sorted_by _ _ _). }
    rewrite Hprim, Hr. destruct (plan_groups v) as [|rg l]; [set_solver|].
    destruct (sorted_head_least _ _ _ _ Hsort Hrg) as [<-|Hle]; [done|exact Hle].
  - assert (Hrep : is_repairable (plan v) =
      negb (forallb (fun i => String.eqb (issue_code i) "validator_internal_error") (issues_to_repair v))).
    { unfold plan, issues_to_repair. destruct (errors v); [destruct (warnings v)|]; done. }
    rewrite Hrep, negb_true_iff. split.
    + intros Hf. apply not_true_iff_false in Hf.
      destruct (List.find (fun i => negb (String.eqb (issue_code i) "validator_internal_error")) (issues_to_repair v))
        as [i|] eqn:E.
      * apply List.find_some in E as [Hi E]. exists i. split; [by apply list_elem_of_In|].
        apply negb_true_iff, String.eqb_neq in E. done.
      * exfalso. apply Hf, forallb_forall. intros i Hi.
        pose proof (find_none _ _ E i Hi) as Hx. simpl in Hx. by apply negb_false_iff in Hx.
    + intros (i & Hi & Hne). apply not_true_iff_false. rewrite forallb_forall. intros Hall.
      apply list_elem_of_In, Hall, String.eqb_eq in Hi. done.
Qed.

(** ** The repair prompt *)
#[export] Instance repair_well_named g v p : WellNamed (repair_builders g v p).
Proof. done. Qed.

Lemma repair_trim_order g v p b d :
  trim_order_of (built_sections (repair_builders g v p) b d) =
  [repair_context g v p; build_schema b; build_relationships b; build_business b].
Proof. reflexivity. Qed.

Lemma enforce_get m l s s' :
  NoDup (map name l) -> m < sum_tokens l -> s ∈ l ->
  alist_get (name s) (fst (trim_loop m (trim_order_of l) (by_name l) (sum_tokens l))) = Some s' ->
  name s' = name s -> alist_get (name s) (by_name (enforce m l)) = Some s'.
Proof.
  intros Hn Hm Hs Hg Hname. rewrite <- Hname. apply alist_get_by_name; [by rewrite enforce_names|].
  unfold enforce. destruct (Z.leb_spec (sum_tokens l) m); [lia|].
  apply list_elem_of_omap. by exists s.
Qed.

#[local] Arguments built_sections : simpl never.
#[local] Arguments enforce : simpl never.
#[local] Arguments trim_loop : simpl never.

Lemma repair_context_dropped g v p b d :
  let l := built_sections (repair_builders g v p) b d in
  DEFAULT_MAX_PROMPT_TOKENS < sum_tokens l ->
  estimated_tokens (repair_context g v p) <= sum_tokens l - DEFAULT_MAX_PROMPT_TOKENS ->
  alist_get RETRIEVED_EXAMPLES (by_name (enforce DEFAULT_MAX_PROMPT_TOKENS l))
  = Some (with_content (repair_context g v p) "" 0 []).
Proof.
  intros l Hm He. change RETRIEVED_EXAMPLES with (name (repair_context g v p)).
  apply enforce_get; [apply built_names_NoDup, _|done| | |done].
  - unfold l, built_sections. cbn -[repair_context]. rewrite !elem_of_cons. tauto.
  - unfold l at 1. rewrite repair_trim_order. fold l.
    erewrite trim_loop_step; [|done|unfold shrink_or_drop; apply Z.leb_le in He; by rewrite He].
    rewrite trim_loop_other; [apply alist_get_set_eq|].
    apply (bool_decide_unpack _). reflexivity.
Qed.

(** The section a repair prompt exists for is the first one to be trimmed:
    whenever the seven sections exceed the token budget by at least its size, the
    compiled prompt no longer contains the SQL to repair, the plan or the errors,
    while the schema and the business context may still be complete. *)
Theorem repair_prompt_loses_sql {W} `{Clock W} hash b g v p (w : W) :
  let l := built_sections (repair_builders g v p) b (dialect g) in
  DEFAULT_MAX_PROMPT_TOKENS < sum_tokens l ->
  estimated_tokens (repair_context g v p) <= sum_tokens l - DEFAULT_MAX_PROMPT_TOKENS ->
  exists cp w', build_repair_prompt hash b g v p w = (Ret cp, w') /\ sec_content (cp_examples cp) = "".
Proof.
  intros l Hm He.
  destruct (compile_miss (W:=gmap PromptKey CompiledPrompt * W) (repair_builders g v p) RepairPromptTemplate
    DEFAULT_MAX_PROMPT_TOKENS hash b (dialect g) (∅, w)) as (lat & [c w1] & _ & Hrun); [done|].
  unfold build_repair_prompt. cbv zeta in Hrun. rewrite Hrun.
  pose proof (repair_context_dropped g v p b (dialect g) Hm He) as Hd.
  match goal with |- context[if ?x then ?y else ?z] => destruct (if x then y else z) as [c' w'] end.
  eexists _, _. split; [reflexivity|].
  unfold assemble. cbn [cp_examples example_builder repair_builders].
  change (name (repair_context g v p)) with RETRIEVED_EXAMPLES. by rewrite Hd.
Qed.

(** ** Witnesses *)
Module Demo.
(** A world that scripts what the model answers; its clock stands still. *)
Record Script : Type := { answers : list string }.
#[global] Instance Script_clock : Clock Script := fun w => (0%Q, w).
Definition metrics0 : GenerationMetrics :=
  {| gm_provider := CLAUDE; gm_model := "m"; gm_latency_ms := 1%Q;
     gm_token_usage := {| prompt_tokens := 1; completion_tokens := 1 |};
     gm_retry_count := 0; gm_finish_reason := COMPLETE |}.
Definition answer (_ : CompiledPrompt) : prog Script exn LLMResponse := fun w =>
  match answers w with
  | [] => (Raise (LLMPermanentError "silence"), w)
  | a :: r => (Ret {| content := a; metrics := metrics0 |}, {| answers := r |})
  end.
Definition generated (s : string) : GeneratedSQL :=
  {| sql := s; statement_type := ST_SELECT; raw_llm_content := s; dialect := POSTGRESQL;
     llm_metrics := metrics0;
     gen_statistics := {| extraction_method := RAW_TEXT; raw_sql_length := 1; normalized_sql_length := 1;
       normalization_changed_sql := false; generation_latency_ms := 1%Q |} |}.
Definition error_of (c : string) : ValidationIssue :=
  {| issue_code := c; severity := ERROR; issue_message := c; location := None; related_object := None |}.
Definition result_of (g : GeneratedSQL) (codes : list string) : SQLValidationResult :=
  {| generated_sql := g; is_valid := match codes with [] => true | _ => false end;
     errors := map error_of codes; warnings := []; validated_tables := []; validated_columns := [];
     validated_functions := [];
     validation_statistics := {| validation_latency_ms := 1%Q; validator_execution_times := [];
       table_count := 0; column_count := 0; join_count := 0; function_count := 0;
       error_count := Z.of_nat (length codes); warning_count := 0 |} |}.
Definition check (g : GeneratedSQL) : prog Script exn SQLValidationResult :=
  ret (result_of g (if String.eqb (sql g) "SELECT 1;" then []
                    else if contains "t" (sql g) then ["unknown_table"] else ["sql_syntax_error"])).
Definition prompt_for (b : RetrievedKnowledgeBundle) (g : GeneratedSQL) (v : SQLValidationResult)
    (p : RepairPlan) : prog Script exn CompiledPrompt := ret demo_prompt.
Definition run (script : list string) : outcome exn SQLRepairResult * Script :=
  repair 3 prompt_for answer check (generated "SELEC 1;") (result_of (generated "SELEC 1;") ["sql_syntax_error"])
    empty_bundle {| answers := script |}.
Definition status_of (o : outcome exn SQLRepairResult) : option (RepairStatus * list string) :=
  match o with Ret r => Some (status r, map repaired_sql (history r)) | Raise _ => None end.
End Demo.

Lemma repair_loop_terminates_witness :
  exists r, repair_run 3 Demo.prompt_for Demo.answer Demo.check empty_bundle 1 []
    (Demo.generated "SELEC 1;") (Demo.result_of (Demo.generated "SELEC 1;") ["sql_syntax_error"])
    {| Demo.answers := ["SELECT t"; "SELECT 1"] |} r /\ is_ret (fst r) = true.
Proof.
  eexists. split; [apply (repair_loop_terminates 3 _ _ _ _ _ _ _ _ 0); [lia|vm_compute; reflexivity]|reflexivity].
Defined.

Lemma repair_history_chain_witness :
  exists r w', Demo.run ["SELECT t"; "SELECT 1"] = (Ret r, w') /\
    linked "SELEC 1;" (history r) /\ map repaired_sql (history r) = ["SELECT t;"; "SELECT 1;"].
Proof.
  assert (Hs : Demo.status_of (fst (Demo.run ["SELECT t"; "SELECT 1"])) = Some (REPAIRED, ["SELECT t;"; "SELECT 1;"]))
    by (vm_compute; reflexivity).
  destruct (Demo.run ["SELECT t"; "SELECT 1"]) as [[e|r] w'] eqn:E; [discriminate Hs|].
  injection Hs as _ Hh. unfold Demo.run in E. exists r, w'.
  destruct (repair_history_chain 3 _ _ _ _ _ _ _ _ _ ltac:(lia) E) as (_ & Hl & _).
  split; [reflexivity|]. split; [exact Hl|exact Hh].
Defined.

Lemma repair_status_truth_witness :
  exists r w', Demo.run ["SELEC 2"; "SELEC 3"; "SELECT 1"] = (Ret r, w') /\ status r = NO_PROGRESS /\
    exists h p a, history r = (h ++ [p; a])%list /\ made_progress p a = false.
Proof.
  assert (Hs : Demo.status_of (fst (Demo.run ["SELEC 2"; "SELEC 3"; "SELECT 1"])) = Some (NO_PROGRESS, ["SELEC 2;"; "SELEC 3;"]))
    by (vm_compute; reflexivity).
  destruct (Demo.run ["SELEC 2"; "SELEC 3"; "SELECT 1"]) as [[e|r] w'] eqn:E; [discriminate Hs|].
  injection Hs as Hst _. unfold Demo.run in E. exists r, w'.
  destruct (repair_status_truth 3 _ _ _ _ _ _ _ _ _ ltac:(lia) E) as (_ & _ & Hnp & _).
  destruct (Hnp Hst) as (h & p & a & Hh & _ & _ & Hp).
  split; [reflexivity|]. split; [exact Hst|]. exists h, p, a. split; [exact Hh|exact Hp].
Defined.

(** A question about one business concept with a description of 16,000 characters. *)
Definition long_bundle : RetrievedKnowledgeBundle :=
  let c := join "" (repeat "a rather long concept name" 640) in
  {| linked_query_context :=
       {| query_context :=
            {| original_question := "q"; normalized_question := "q"; intent := I_SELECT;
               qc_primary_entity := None; qc_secondary_entities := []; business_concepts := [c];
               qc_metrics := []; qc_dimensions := []; qc_filters := []; time_expression := None;
               qc_sort := None; limit := None; aggregation := None; confidence := 1%Q |};
          primary_entity := None; secondary_entities := []; lq_metrics := []; lq_dimensions := [];
          lq_filters := []; lq_sort := None; relationship_paths := []; ambiguities := [] |};
     retrieved_examples := []; rb_statistics := rb_statistics empty_bundle |}.
Lemma repair_prompt_loses_sql_witness :
  exists cp w', build_repair_prompt (fun _ => "h") long_bundle (Demo.generated "SELEC 1;")
      (Demo.result_of (Demo.generated "SELEC 1;") ["sql_syntax_error"])
      (plan (Demo.result_of (Demo.generated "SELEC 1;") ["sql_syntax_error"])) {| Demo.answers := [] |}
    = (Ret cp, w') /\ sec_content (cp_examples cp) = "".
Proof.
  apply repair_prompt_loses_sql; vm_compute; [reflexivity|intros Hx; discriminate Hx].
Defined.
