(* ===== verification/Execution.v ===== *)
(** * SQL execution ([querymind.sql_execution])

    [ExecutionGuard], [DatabaseConnectionProvider.acquire], [SQLExecutor],
    [ResultFormatter] and [SQLExecutionEngine.execute]. The database driver is a
    record of functions; cells are values of an arbitrary type. *)
From S2P Require Import Prelude PyFloat PyStr Models ContextModels Validation Repair.
#[local] Open Scope string_scope.
#[local] Open Scope Z_scope.

(** ** [models.py] *)
Inductive ExecutionStatus := SUCCESS | FAILED | REJECTED | TIMEOUT.
#[export] Instance ExecutionStatus_eq_dec : EqDecision ExecutionStatus.
Proof. solve_decision. Defined.

Record ExecutionError := { err_code : string; err_message : string; err_details : option string }.
Record QueryColumn := {
  qcol_name : string;
  database_type : string;
  qcol_python_type : string;
  qcol_nullable : option bool }.

Record ExecutionStatistics := {
  execution_latency_ms : Q;
  rows_returned : Z;
  columns_returned : Z;
  database_name : string;
  es_dialect : SQLDialect }.

Section Models.
Context {V : Type}.
(** [QueryRow] has the one field [values]. *)
Definition QueryRow : Type := list V.
Record QueryResult := { columns : list QueryColumn; rows : list QueryRow; row_count : Z }.
Record SQLExecutionResult := {
  exec_status : ExecutionStatus;
  executed_sql : string;
  query_result : option QueryResult;
  exec_statistics : ExecutionStatistics;
  execution_error : option ExecutionError }.
Record RawQueryResult := {
  column_names : list string;
  column_type_oids : list (option Z);
  raw_rows : list (list V);
  raw_latency_ms : Q }.
End Models.
Arguments QueryRow : clear implicits.
Arguments QueryResult : clear implicits.
Arguments SQLExecutionResult : clear implicits.
Arguments RawQueryResult : clear implicits.

(** ** [validator.py] *)
Definition DEFAULT_EXECUTION_TIMEOUT_SECONDS : Q := 30.
Definition WRITE_NODE_TYPES : list node_class :=
  [E_Insert; E_Update; E_Delete; E_Merge; E_Create; E_Alter; E_Drop; E_TruncateTable; E_Copy].
Record ExecutionPermit := { permit_sql : string; timeout_seconds : Q }.

Definition ExecutionGuard_init (show_float : Q -> string) (timeout : Q) : outcome exn Q :=
  if fleb timeout 0
  then Raise (SQLExecutionConfigurationError ("timeout_seconds must be > 0, got " ++ show_float timeout ++ "."))
  else Ret timeout.

Section Guard.
Context {node : Type} `{Sqlglot node}.
(** [sqlglot.parse]: a list with [None] for an empty statement. *)
Context (sqlglot_parse : string -> string -> outcome exn (list (option node))) (timeout : Q).
(** [statement.find(exp.Insert, ...)]: the first write node, in sqlglot's order. *)
Context (find_any : list node_class -> node -> option node).

Definition reject {A} (reason : string) : outcome exn A := Raise (ExecutionRejectedError reason).

Definition check (g : GeneratedSQL) (v : SQLValidationResult) : outcome exn ExecutionPermit :=
  if negb (is_valid v)
  then reject "SQL did not pass validation (SQLValidationResult.is_valid is False)."
  else
    let s := strip (sql g) in
    if is_empty s then reject "SQL is empty."
    else
      let? parsed := sqlglot_parse s (SQLGLOT_DIALECTS (dialect g)) in
      match omap id parsed with
      | [statement] =>
          if negb (isinstance E_Select statement)
          then reject ("Only SELECT (including WITH ... SELECT) statements are permitted; got "
                       ++ upper (type_name statement) ++ ".")
          else match find_any WRITE_NODE_TYPES statement with
               | Some w => reject ("Statement contains a " ++ upper (type_name w)
                   ++ " operation, which is not read-only (e.g. inside a writable CTE).")
               | None => Ret {| permit_sql := s; timeout_seconds := timeout |}
               end
      | statements => reject ("Expected exactly one SQL statement, found "
                              ++ show_Z (Z.of_nat (length statements)) ++ ".")
      end.
End Guard.

(** ** The database driver, as the program uses it *)
Record CursorResult (V : Type) := {
  keys : list string;
  description : option (list (option Z));
  fetchall : outcome exn (list (list V)) }.
Arguments keys {V} _. Arguments description {V} _. Arguments fetchall {V} _.

Record Database (W V : Type) := {
  conn : Type;
  connect : prog W exn conn;
  set_readonly : conn -> prog W exn conn;
  run_sql : conn -> string -> Q -> prog W exn (CursorResult V);
  close : conn -> prog W exn unit;
  db_name : string;
  is_SQLAlchemyError : exn -> bool }.
Arguments conn {W V} _. Arguments connect {W V} _. Arguments set_readonly {W V} _.
Arguments run_sql {W V} _. Arguments close {W V} _. Arguments db_name {W V} _.
Arguments is_SQLAlchemyError {W V} _.

Definition is_TimeoutError (e : exn) : bool := String.eqb (exn_class e) "TimeoutError".

(** ** [formatter.py] *)
Definition POSTGRES_OID_TYPES : list (Z * (string * string)) :=
  [(16, ("boolean", "bool")); (20, ("bigint", "int")); (21, ("smallint", "int")); (23, ("integer", "int"));
   (25, ("text", "str")); (114, ("json", "dict")); (700, ("real", "float"));
   (701, ("double precision", "float")); (1042, ("char", "str")); (1043, ("varchar", "str"));
   (1082, ("date", "date")); (1083, ("time", "time")); (1114, ("timestamp", "datetime"));
   (1184, ("timestamptz", "datetime")); (1700, ("numeric", "Decimal")); (2950, ("uuid", "UUID"));
   (3802, ("jsonb", "dict"))].
Definition show_oid (o : option Z) : string := match o with Some z => show_Z z | None => "None" end.
Definition format_column (n : string) (oid : option Z) : QueryColumn :=
  let '(db, py) := default ("oid:" ++ show_oid oid, "object") (alist_get (default (-1) oid) POSTGRES_OID_TYPES) in
  {| qcol_name := n; database_type := db; qcol_python_type := py; qcol_nullable := None |}.
(** [zip(.., strict=True)] raises [ValueError] when the lengths differ. *)
Fixpoint zip_columns (ns : list string) (oids : list (option Z)) : option (list QueryColumn) :=
  match ns, oids with
  | [], [] => Some []
  | n :: ns', o :: oids' => cons (format_column n o) <$> zip_columns ns' oids'
  | _, _ => None
  end.
Definition format_result {V} (raw : RawQueryResult V) : outcome exn (QueryResult V) :=
  match zip_columns (column_names raw) (column_type_oids raw) with
  | None => Raise (ResultFormattingError
      ("column_names (" ++ show_Z (Z.of_nat (length (column_names raw))) ++ ") and column_type_oids ("
       ++ show_Z (Z.of_nat (length (column_type_oids raw))) ++ ") have different lengths."))
  | Some cols => Ret {| columns := cols; rows := raw_rows raw;
                        row_count := Z.of_nat (length (raw_rows raw)) |}
  end.

Section Engine.
Context {W V : Type} `{Clock W}.
Context (db : Database W V) (show_float : Q -> string).

(** ** [executor.py] *)
Definition executor_execute (c : conn db) (s : string) (timeout : Q) : prog W exn (RawQueryResult V) :=
  let! started := perf_counter in
  let! result := try_except (run_sql db c s timeout) (fun e =>
    if is_TimeoutError e
    then throw (ExecutionTimeoutError ("Execution exceeded the " ++ show_float timeout ++ "s timeout."))
    else if is_SQLAlchemyError db e then throw (ExecutionFailureError (exn_str e)) else throw e) in
  let! fetched := lift (match fetchall result with
    | Ret l => Ret l
    | Raise e => if is_SQLAlchemyError db e then Raise (ExecutionFailureError (exn_str e)) else Raise e
    end) in
  let! latency := elapsed_ms started in
  ret {| column_names := keys result;
         column_type_oids := match description result with
                             | Some d => d | None => map (fun _ => None) (keys result) end;
         raw_rows := fetched; raw_latency_ms := latency |}.

(** ** [connection.py] *)
(** Leaving the exit stack closes the connection, whatever happened; an exception
    of the close replaces the one on its way. *)
Definition closing {A} (c : conn db) (m : prog W exn A) : prog W exn A := fun w =>
  match m w with
  | (o, w1) => match close db c w1 with
               | (Raise e, w2) => (Raise e, w2)
               | (Ret _, w2) => (o, w2)
               end
  end.
Definition acquire {A} (body : conn db -> prog W exn A) : prog W exn A :=
  let translate {B} (m : prog W exn B) : prog W exn B :=
    except_Exception m (fun e => throw (DatabaseConnectionError (exn_str e))) in
  let! c := translate (connect db) in
  closing c (let! ro := translate (set_readonly db c) in body ro).

(** ** [engine.py] *)
Context (check : GeneratedSQL -> SQLValidationResult -> outcome exn ExecutionPermit).

Definition failure_result (g : GeneratedSQL) (st : ExecutionStatus) (s : string) (code msg : string)
    (started : Q) : prog W exn (SQLExecutionResult V) :=
  let! latency := elapsed_ms started in
  ret {| exec_status := st; executed_sql := s; query_result := None;
         exec_statistics := {| execution_latency_ms := latency; rows_returned := 0; columns_returned := 0;
                               database_name := db_name db; es_dialect := dialect g |};
         execution_error := Some {| err_code := code; err_message := msg; err_details := None |} |}.

Definition execute (g : GeneratedSQL) (v : SQLValidationResult) : prog W exn (SQLExecutionResult V) :=
  let! started := perf_counter in
  match check g v with
  | Raise (ExecutionRejectedError reason) =>
      failure_result g REJECTED (sql g) "execution_rejected" reason started
  | Raise e => throw e
  | Ret permit => fun w =>
      match acquire (fun c => executor_execute c (permit_sql permit) (timeout_seconds permit)) w with
      | (Raise (ExecutionTimeoutError m), w') =>
          failure_result g TIMEOUT (permit_sql permit) "execution_timeout" m started w'
      | (Raise (DatabaseConnectionError m), w') =>
          failure_result g FAILED (permit_sql permit) "database_connection_error" m started w'
      | (Raise (ExecutionFailureError m), w') =>
          failure_result g FAILED (permit_sql permit) "execution_failed" m started w'
      | (Raise e, w') => (Raise e, w')
      | (Ret raw, w') =>
          match format_result raw with
          | Raise (ResultFormattingError m) =>
              failure_result g FAILED (permit_sql permit) "result_formatting_failed" m started w'
          | Raise e => (Raise e, w')
          | Ret q =>
              (let! latency := elapsed_ms started in
               ret {| exec_status := SUCCESS; executed_sql := permit_sql permit; query_result := Some q;
                      exec_statistics := {| execution_latency_ms := latency; rows_returned := row_count q;
                         columns_returned := Z.of_nat (length (columns q));
                         database_name := db_name db; es_dialect := dialect g |};
                      execution_error := None |}) w'
          end
      end
  end.

Definition execute_repair_result (r : SQLRepairResult) : prog W exn (SQLExecutionResult V) :=
  execute (final_sql r) (final_validation_result r).
End Engine.

(** ** Lemmas *)
Lemma run_failure_result {W V} `{Clock W} (db : Database W V) g st s c m t (w : W) :
  exists r, failure_result db g st s c m t w = (Ret r, snd (tick w)) /\
    exec_status r = st /\ executed_sql r = s /\ query_result r = None /\
    (exists e, execution_error r = Some e /\ err_code e = c) /\ rows_returned (exec_statistics r) = 0.
Proof.
  eexists. unfold failure_result. rewrite (bind_ret_eq _ _ _ _ _ (elapsed_ms_eq _ _)).
  split; [reflexivity|]. simpl. eauto 8.
Qed.

Lemma format_result_raise {V} (raw : RawQueryResult V) e :
  format_result raw = Raise e -> exists m, e = ResultFormattingError m.
Proof. unfold format_result. destruct (zip_columns _ _); intros; simplify_eq; eauto. Qed.
Lemma zip_columns_spec ns oids cols :
  zip_columns ns oids = Some cols -> map qcol_name cols = ns /\ length oids = length ns.
Proof.
  revert oids cols; induction ns as [|n ns IH]; intros [|o oids] cols; simpl; try done; [by intros [= <-]|].
  destruct (zip_columns ns oids) as [cs|] eqn:E; [|done]. intros [= <-].
  destruct (IH _ _ E) as [H1 H2]. simpl. rewrite H1, H2. unfold format_column.
  by destruct (default _ _).
Qed.

(** ** Properties of the guard *)
Section GuardProps.
Context {node : Type} `{Sqlglot node}.
Context (sqlglot_parse : string -> string -> outcome exn (list (option node))) (timeout : Q).
Context (find_any : list node_class -> node -> option node).

Lemma check_Ret g v p :
  check sqlglot_parse timeout find_any g v = Ret p <->
  is_valid v = true /\ strip (sql g) <> "" /\
  (exists parsed statement, sqlglot_parse (strip (sql g)) (SQLGLOT_DIALECTS (dialect g)) = Ret parsed /\
     omap id parsed = [statement] /\ isinstance E_Select statement = true /\
     find_any WRITE_NODE_TYPES statement = None) /\
  p = {| permit_sql := strip (sql g); timeout_seconds := timeout |}.
Proof.
  unfold check, reject. destruct (is_valid v); simpl; [|split; [done|by intros (? & _)]].
  destruct (is_empty (strip (sql g))) eqn:Ee.
  { apply is_empty_true in Ee. rewrite Ee. split; [done|by intros (_ & ? & _)]. }
  apply is_empty_false in Ee.
  destruct (sqlglot_parse _ _) as [e|parsed] eqn:Ep; simpl.
  { split; [done|]. intros (_ & _ & (? & ? & ? & _) & _). done. }
  assert (Hno : forall x, (exists parsed' statement, Ret parsed = Ret (E:=exn) parsed' /\ omap id parsed' = [statement] /\
      isinstance E_Select statement = true /\ find_any WRITE_NODE_TYPES statement = None) ->
      omap id parsed = x -> exists st, x = [st] /\ isinstance E_Select st = true /\ find_any WRITE_NODE_TYPES st = None).
  { intros x (ps & st & Hps & Ho & H1 & H2) <-. injection Hps as <-. eauto. }
  destruct (omap id parsed) as [|st [|st2 rest]] eqn:Eo.
  1, 3: split; [done|]; intros (_ & _ & Hx & _); by destruct (Hno _ Hx eq_refl) as (? & ? & _).
  destruct (isinstance E_Select st) eqn:Es; simpl.
  2: { split; [done|]. intros (_ & _ & Hx & _). destruct (Hno _ Hx eq_refl) as (? & ? & ? & _). congruence. }
  destruct (find_any WRITE_NODE_TYPES st) as [wn|] eqn:Ef.
  - split; [done|]. intros (_ & _ & Hx & _). destruct (Hno _ Hx eq_refl) as (? & ? & _ & ?). congruence.
  - split; [intros [= <-]|by intros (_ & _ & _ & ->)]. split_and!; eauto 8.
Qed.

(** [ExecutionGuard.check] permits exactly: a validated, non-blank text that
    parses to one statement, a [SELECT] with no write node anywhere in its tree; and
    what it permits is that text, trimmed. Otherwise it raises [ExecutionRejectedError],
    or lets the exception of [sqlglot.parse] through. *)
Theorem guard_permits g v p :
  check sqlglot_parse timeout find_any g v = Ret p <->
  is_valid v = true /\ strip (sql g) <> "" /\
  (exists parsed statement, sqlglot_parse (strip (sql g)) (SQLGLOT_DIALECTS (dialect g)) = Ret parsed /\
     omap id parsed = [statement] /\ isinstance E_Select statement = true /\
     find_any WRITE_NODE_TYPES statement = None) /\
  p = {| permit_sql := strip (sql g); timeout_seconds := timeout |}.
Proof. apply check_Ret. Qed.
End GuardProps.

(** ** Properties of the engine *)
Section EngineProps.
Context {W V : Type} `{Clock W}.
Context (db : Database W V) (show_float : Q -> string).
Context (check : GeneratedSQL -> SQLValidationResult -> outcome exn ExecutionPermit).

#[local] Abbreviation run := (execute db show_float check).

Definition with_run_sql (f : conn db -> string -> Q -> prog W exn (CursorResult V)) : Database W V :=
  {| conn := conn db; connect := connect db; set_readonly := set_readonly db; run_sql := f;
     close := close db; db_name := db_name db; is_SQLAlchemyError := is_SQLAlchemyError db |}.

Lemma execute_with_run_sql (f : conn db -> string -> Q -> prog W exn (CursorResult V)) g v w :
  (forall p c, check g v = Ret p ->
     f c (permit_sql p) (timeout_seconds p) = run_sql db c (permit_sql p) (timeout_seconds p)) ->
  execute (with_run_sql f) show_float check g v w = run g v w.
Proof.
  intros Hf. unfold execute. rewrite !bind_perf_counter.
  destruct (check g v) as [[]|p] eqn:Hc; try done.
  assert (Ha : acquire (with_run_sql f) (fun c => executor_execute (with_run_sql f) show_float c (permit_sql p) (timeout_seconds p)) (snd (tick w))
    = acquire db (fun c => executor_execute db show_float c (permit_sql p) (timeout_seconds p)) (snd (tick w))).
  { unfold acquire, closing, bind. simpl.
    destruct (except_Exception (connect db) _ (snd (tick w))) as [[e|c] w1]; [done|].
    destruct (except_Exception (set_readonly db c) _ w1) as [[e|ro] w2]; [done|].
    unfold executor_execute. simpl. by rewrite (Hf p ro eq_refl). }
  rewrite Ha. done.
Qed.

(** Only permitted SQL reaches the database: a rejected query is answered
    without any database call, and otherwise the run depends on the driver's answer to
    the permitted text alone, so no other text is ever sent. *)
Theorem only_permitted_sql_runs g v w :
  (forall reason, check g v = Raise (ExecutionRejectedError reason) ->
     exists r, run g v w = (Ret r, snd (tick (snd (tick w)))) /\ exec_status r = REJECTED) /\
  (forall f, (forall p c, check g v = Ret p ->
      f c (permit_sql p) (timeout_seconds p) = run_sql db c (permit_sql p) (timeout_seconds p)) ->
     execute (with_run_sql f) show_float check g v w = run g v w).
Proof.
  split.
  - intros reason Hc. unfold execute. rewrite bind_perf_counter, Hc.
    destruct (run_failure_result db g REJECTED (sql g) "execution_rejected" reason (fst (tick w)) (snd (tick w)))
      as (r & Hr & Hs & _). eauto.
  - intros f. apply execute_with_run_sql.
Qed.

(** What a result says about the run that made it. *)
Definition result_facts (g : GeneratedSQL) (v : SQLValidationResult) (r : SQLExecutionResult V) : Prop :=
  (exec_status r = SUCCESS <-> query_result r <> None) /\
  (exec_status r = SUCCESS <-> execution_error r = None) /\
  (exec_status r = REJECTED -> executed_sql r = sql g) /\
  (exec_status r <> REJECTED -> exists p, check g v = Ret p /\ executed_sql r = permit_sql p) /\
  (forall q, query_result r = Some q ->
     exists p c raw w1 w2, check g v = Ret p /\
       executor_execute db show_float c (permit_sql p) (timeout_seconds p) w1 = (Ret raw, w2) /\
       rows q = raw_rows raw /\ map qcol_name (columns q) = column_names raw /\
       rows_returned (exec_statistics r) = Z.of_nat (length (rows q)) /\
       columns_returned (exec_statistics r) = Z.of_nat (length (columns q))).

Lemma failure_facts g v st s c m t w0 r w' :
  failure_result db g st s c m t w0 = (Ret r, w') -> st <> SUCCESS ->
  (st = REJECTED -> s = sql g) -> (st <> REJECTED -> exists p, check g v = Ret p /\ s = permit_sql p) ->
  result_facts g v r.
Proof.
  intros Hr Hst Hrej Hother.
  destruct (run_failure_result db g st s c m t w0) as (r' & Hr' & Hs & Hx & Hq & (e & He & _) & _).
  rewrite Hr in Hr'. injection Hr' as <- _. unfold result_facts. rewrite Hs, Hx, Hq, He. naive_solver.
Qed.

(** A value that leaves [acquire] is one the body returned on some connection. *)
Lemma acquire_ret {A} (body : conn db -> prog W exn A) w a w' :
  acquire db body w = (Ret a, w') -> exists c w1 w2, body c w1 = (Ret a, w2).
Proof.
  unfold acquire, closing, bind.
  destruct (except_Exception (connect db) _ _) as [[e|c] w2]; [done|].
  destruct (except_Exception (set_readonly db c) _ w2) as [[e|ro] w3].
  { destruct (close db c w3) as [[?|?] ?]; done. }
  destruct (body ro w3) as [[e|a'] w4] eqn:Ex; destruct (close db c w4) as [[?|?] ?]; intros; simplify_eq.
  eauto.
Qed.

Lemma execute_facts g v w r w' : run g v w = (Ret r, w') -> result_facts g v r.
Proof.
  unfold execute. rewrite bind_perf_counter. destruct (check g v) as [e|p] eqn:Hc.
  { destruct e; try done. intros Hr. by apply (failure_facts g v _ _ _ _ _ _ _ _ Hr). }
  assert (Hp : exists p', check g v = Ret p' /\ permit_sql p = permit_sql p') by eauto.
  destruct (acquire _ _ _) as [[e|raw] w1] eqn:Ea.
  { destruct e; try done; intros Hr; by apply (failure_facts g v _ _ _ _ _ _ _ _ Hr). }
  destruct (format_result raw) as [e|q] eqn:Ef.
  { apply format_result_raise in Ef as [m ->]. intros Hr. by apply (failure_facts g v _ _ _ _ _ _ _ _ Hr). }
  rewrite (bind_ret_eq _ _ _ _ _ (elapsed_ms_eq _ _)). unfold ret. intros [= <- <-].
  unfold result_facts. simpl. split_and!; try done. intros q' [= <-].
  unfold format_result in Ef. destruct (zip_columns _ _) as [cols|] eqn:Ez; [|done].
  injection Ef as <-. simpl. apply zip_columns_spec in Ez as [Hn _].
  apply acquire_ret in Ea as (c & w2 & w3 & Hex). exists p, c, raw, w2, w3. split_and!; done.
Qed.

(** What a result says: SUCCESS exactly when there are rows to show, exactly
    when there is no error; the SQL reported is the permitted text, or the given one
    after a rejection; on success the rows are the driver's, untouched and in order,
    and are counted right. *)
Theorem execute_outcome g v w r w' : run g v w = (Ret r, w') -> result_facts g v r.
Proof. apply execute_facts. Qed.

(** C5. No connection leaks: if connecting opens one connection and closing
    releases it, even when it raises, then [execute] leaves as many connections open as
    it found, whatever else fails. *)
Theorem execute_releases_connection (open_connections : W -> Z) g v w :
  (forall w, open_connections (snd (tick w)) = open_connections w) ->
  (forall w, match connect db w with
             | (Ret _, w') => open_connections w' = open_connections w + 1
             | (Raise _, w') => open_connections w' = open_connections w end) ->
  (forall c w, open_connections (snd (set_readonly db c w)) = open_connections w) ->
  (forall c s t w, open_connections (snd (run_sql db c s t w)) = open_connections w) ->
  (forall c w, open_connections (snd (close db c w)) = open_connections w - 1) ->
  open_connections (snd (run g v w)) = open_connections w.
Proof.
  intros Htick Hconn Hro Hrun Hclose.
  assert (Hfail : forall st s c m t w0, open_connections (snd (failure_result db g st s c m t w0)) = open_connections w0).
  { intros. destruct (run_failure_result db g st s c m t w0) as (r & Hr & _). rewrite Hr. apply Htick. }
  assert (Hex : forall c s t w0, open_connections (snd (executor_execute db show_float c s t w0)) = open_connections w0).
  { intros c s t w0. unfold executor_execute. rewrite bind_perf_counter. unfold bind at 1, try_except.
    rewrite <- (Htick w0). specialize (Hrun c s t (snd (tick w0))).
    destruct (run_sql db c s t _) as [[e|x] w1]; simpl in Hrun; rewrite <- Hrun.
    - destruct (is_TimeoutError e), (is_SQLAlchemyError db e); done.
    - unfold lift, bind at 1. destruct (match fetchall x with Ret l => _ | Raise e => _ end); [done|].
      rewrite (bind_ret_eq _ _ _ _ _ (elapsed_ms_eq _ _)). by rewrite <- (Htick w1). }
  assert (Hacq : forall p w0, open_connections (snd (acquire db (fun c => executor_execute db show_float c
      (permit_sql p) (timeout_seconds p)) w0)) = open_connections w0).
  { intros p w0. unfold acquire, bind at 1, except_Exception, try_except. specialize (Hconn w0).
    destruct (connect db w0) as [[e|c] w1]; [by destruct (is_Exception e)|].
    unfold closing, bind. specialize (Hro c w1). destruct (set_readonly db c w1) as [o w2]; simpl in Hro.
    assert (Hcl : forall w3, open_connections w3 = open_connections w2 ->
      open_connections (snd (close db c w3)) = open_connections w0) by (intros w3 H3; rewrite Hclose; lia).
    destruct o as [e|ro].
    - specialize (Hcl w2 eq_refl). destruct (is_Exception e); simpl; destruct (close db c w2) as [[?|?] ?]; done.
    - specialize (Hcl _ (Hex ro (permit_sql p) (timeout_seconds p) w2)).
      destruct (executor_execute _ _ _ _ _ w2) as [o w3]. simpl in Hcl.
      destruct (close db c w3) as [[?|?] ?]; done. }
  unfold execute. rewrite bind_perf_counter, <- (Htick w).
  destruct (check g v) as [[]|p]; try done.
  specialize (Hacq p (snd (tick w))). destruct (acquire _ _ _) as [o w1]. simpl in Hacq. rewrite <- Hacq.
  destruct o as [[]|raw]; try done. destruct (format_result raw) as [[]|q]; try done.
  rewrite (bind_ret_eq _ _ _ _ _ (elapsed_ms_eq _ _)). by rewrite <- (Htick w1).
Qed.
End EngineProps.

(** ** Witnesses *)
Module ExecDemo.
Record DbWorld : Type := { open_conns : Z; sent : list string }.
#[global] Instance DbWorld_clock : Clock DbWorld := fun w => (0%Q, w).
Definition answer : CursorResult Z :=
  {| keys := ["id"]; description := Some [Some 23]; fetchall := Ret [[7]; [8]] |}.
Definition database : Database DbWorld Z :=
  {| conn := unit;
     connect := fun w => (Ret tt, {| open_conns := open_conns w + 1; sent := sent w |});
     set_readonly := fun c => ret c;
     run_sql := fun _ s _ w => (if contains "boom" s then Raise (OtherException "DBAPIError" "boom") else Ret answer,
                                {| open_conns := open_conns w; sent := (sent w ++ [s])%list |});
     close := fun _ w => (Ret tt, {| open_conns := open_conns w - 1; sent := sent w |});
     db_name := "querymind";
     is_SQLAlchemyError := fun e => String.eqb (exn_class e) "DBAPIError" |}.
Definition parse_list (s d : string) : outcome exn (list (option Validation.Demo.tree)) :=
  match Validation.Demo.parse_demo s d with Ret t => Ret [Some t] | Raise e => Raise e end.
Definition find_write (ks : list node_class) (t : Validation.Demo.tree) : option Validation.Demo.tree :=
  List.find (fun x => existsb (fun k => isinstance k x) ks) (Validation.Demo.subtrees t).
Definition guard : GeneratedSQL -> SQLValidationResult -> outcome exn ExecutionPermit :=
  check parse_list DEFAULT_EXECUTION_TIMEOUT_SECONDS find_write.
Definition run (s : string) (valid : bool) : outcome exn (SQLExecutionResult Z) * DbWorld :=
  execute database (fun _ => "30.0") guard (Repair.Demo.generated s)
    (Repair.Demo.result_of (Repair.Demo.generated s) (if valid then [] else ["unknown_table"]))
    {| open_conns := 0; sent := [] |}.
End ExecDemo.

Lemma only_permitted_sql_runs_witness :
  exists r, ExecDemo.run "SELECT x;" false = (Ret r, {| ExecDemo.open_conns := 0; ExecDemo.sent := [] |}) /\
    exec_status r = REJECTED.
Proof.
  exact (proj1 (only_permitted_sql_runs ExecDemo.database (fun _ => "30.0") ExecDemo.guard
    (Repair.Demo.generated "SELECT x;") (Repair.Demo.result_of (Repair.Demo.generated "SELECT x;") ["unknown_table"])
    {| ExecDemo.open_conns := 0; ExecDemo.sent := [] |})
    "SQL did not pass validation (SQLValidationResult.is_valid is False)." eq_refl).
Defined.

Definition status_rows (o : outcome exn (SQLExecutionResult Z)) : option (ExecutionStatus * option (list (list Z))) :=
  match o with Ret r => Some (exec_status r, rows <$> query_result r) | Raise _ => None end.
Lemma execute_outcome_witness :
  exists r w', ExecDemo.run Validation.Demo.good_sql true = (Ret r, w') /\
    rows <$> query_result r = Some [[7]; [8]] /\ execution_error r = None.
Proof.
  assert (Hs : status_rows (fst (ExecDemo.run Validation.Demo.good_sql true)) = Some (SUCCESS, Some [[7]; [8]]))
    by (vm_compute; reflexivity).
  destruct (ExecDemo.run Validation.Demo.good_sql true) as [[e|r] w'] eqn:E; [discriminate Hs|].
  injection Hs as Hst Hrows. unfold ExecDemo.run in E. exists r, w'. split; [reflexivity|]. split; [exact Hrows|].
  pose proof (execute_outcome _ _ _ _ _ _ _ _ E) as (_ & Herr & _). exact (proj1 Herr Hst).
Defined.

Lemma execute_releases_connection_witness :
  ExecDemo.open_conns (snd (ExecDemo.run Validation.Demo.good_sql true)) = 0.
Proof.
  apply (execute_releases_connection ExecDemo.database (fun _ => "30.0") ExecDemo.guard ExecDemo.open_conns); simpl.
  all: intros; reflexivity.
Defined.
