(* ===== verification/Orchestrator.v ===== *)
(** * The orchestrator ([querymind.orchestrator])

    [PipelineRunner] (run, generate_sql, repair_sql), [QueryMindEngine] (ask,
    ask_for_sql, repair) and the optional [StageEventPublisher]. The phases are a
    record of collaborators; the local variables that the [except] handlers read
    are a record threaded with the world. *)
From S2P Require Import Prelude PyFloat PyStr Models ContextModels PromptCompiler Repair Execution.
#[local] Open Scope string_scope.
#[local] Open Scope Z_scope.

(** ** [models.py] *)
Inductive PipelineStage :=
| NLU | SCHEMA_LINKING | BUSINESS_KNOWLEDGE | RETRIEVAL | PROMPT_COMPILATION | LLM | SQL_GENERATION
| SQL_VALIDATION | SQL_REPAIR | SQL_EXECUTION | RESULT_FORMATTING.
#[export] Instance PipelineStage_eq_dec : EqDecision PipelineStage.
Proof. solve_decision. Defined.
Definition PipelineStage_value (s : PipelineStage) : string :=
  match s with
  | NLU => "nlu" | SCHEMA_LINKING => "schema_linking" | BUSINESS_KNOWLEDGE => "business_knowledge"
  | RETRIEVAL => "retrieval" | PROMPT_COMPILATION => "prompt_compilation" | LLM => "llm"
  | SQL_GENERATION => "sql_generation" | SQL_VALIDATION => "sql_validation" | SQL_REPAIR => "sql_repair"
  | SQL_EXECUTION => "sql_execution" | RESULT_FORMATTING => "result_formatting"
  end.

Record StageTiming := { stage : PipelineStage; latency_ms : Q }.
Record PipelineStatistics := {
  total_latency_ms : Q;
  stage_timings : list StageTiming;
  repair_attempted : bool;
  repair_performed : bool }.
Inductive PipelineStatus := P_SUCCESS | P_FAILED.

Section Orchestrator.
(** The type of a cell of the database and of a [BusinessAnswer]. *)
Context {V Answer : Type}.

Record QueryMindResponse := {
  original_question : string;
  business_answer : option Answer;
  resp_generated_sql : option GeneratedSQL;
  resp_validation_result : option SQLValidationResult;
  resp_repair_result : option SQLRepairResult;
  resp_execution_result : option (SQLExecutionResult V);
  resp_statistics : PipelineStatistics;
  resp_status : PipelineStatus;
  error : option string }.

Record GeneratedSqlResult := {
  gsr_question : string;
  gsr_generated_sql : GeneratedSQL;
  gsr_validation_result : SQLValidationResult;
  gsr_repair_result : option SQLRepairResult;
  gsr_statistics : PipelineStatistics }.

(** ** [exceptions.py] *)
Record PipelineExecutionError := {
  pe_stage : PipelineStage;
  pe_message : string;
  pe_stage_timings : list StageTiming;
  pe_repair_attempted : bool;
  pe_repair_performed : bool;
  pe_generated_sql : option GeneratedSQL;
  pe_validation_result : option SQLValidationResult;
  pe_repair_result : option SQLRepairResult;
  pe_execution_result : option (SQLExecutionResult V);
  pe_cause : exn }.
(** What the runner may raise: its own error, or anything else as it is. *)
Inductive pipeline_exn := Wrapped (e : PipelineExecutionError) | Plain (e : exn).

(** ** [events.py] *)
Record StageEventPublisher (W : Type) := {
  pub_pipeline_started : string -> prog W exn unit;
  pub_stage_started : PipelineStage -> prog W exn unit;
  pub_stage_completed : PipelineStage -> Q -> prog W exn unit;
  pub_stage_failed : PipelineStage -> Q -> exn -> prog W exn unit;
  pub_pipeline_completed : QueryMindResponse -> prog W exn unit;
  pub_pipeline_failed : PipelineExecutionError -> prog W exn unit }.
Arguments pub_pipeline_started {W} _. Arguments pub_stage_started {W} _.
Arguments pub_stage_completed {W} _. Arguments pub_stage_failed {W} _.
Arguments pub_pipeline_completed {W} _. Arguments pub_pipeline_failed {W} _.

(** ** The phases, as the runner calls them *)
Record Collaborators (W : Type) := {
  nlu_parse : string -> prog W exn QueryContext;
  schema_link : QueryContext -> prog W exn LinkedQueryContext;
  load_knowledge : prog W exn unit;
  retrieve : LinkedQueryContext -> prog W exn RetrievedKnowledgeBundle;
  compile_prompt : RetrievedKnowledgeBundle -> SQLDialect -> prog W exn CompiledPrompt;
  generate_from : CompiledPrompt -> prog W exn GeneratedSQL;
  validate_sql : GeneratedSQL -> prog W exn SQLValidationResult;
  repair_with : GeneratedSQL -> SQLValidationResult -> RetrievedKnowledgeBundle -> prog W exn SQLRepairResult;
  execute_sql : GeneratedSQL -> SQLValidationResult -> prog W exn (SQLExecutionResult V);
  format_answer : SQLExecutionResult V -> prog W exn Answer }.
Arguments nlu_parse {W} _. Arguments schema_link {W} _. Arguments load_knowledge {W} _.
Arguments retrieve {W} _. Arguments compile_prompt {W} _. Arguments generate_from {W} _.
Arguments validate_sql {W} _. Arguments repair_with {W} _. Arguments execute_sql {W} _.
Arguments format_answer {W} _.

(** ** The local variables of a run *)
Record Local := {
  l_timings : list StageTiming;
  current_stage : PipelineStage;
  stage_started : Q;
  l_attempted : bool;
  l_performed : bool;
  l_generated : option GeneratedSQL;
  l_validation : option SQLValidationResult;
  l_repair : option SQLRepairResult;
  l_execution : option (SQLExecutionResult V) }.
Definition set_stage (s : PipelineStage) (l : Local) : Local :=
  {| l_timings := l_timings l; current_stage := s; stage_started := stage_started l;
     l_attempted := l_attempted l; l_performed := l_performed l; l_generated := l_generated l;
     l_validation := l_validation l; l_repair := l_repair l; l_execution := l_execution l |}.
Definition set_started (t : Q) (l : Local) : Local :=
  {| l_timings := l_timings l; current_stage := current_stage l; stage_started := t;
     l_attempted := l_attempted l; l_performed := l_performed l; l_generated := l_generated l;
     l_validation := l_validation l; l_repair := l_repair l; l_execution := l_execution l |}.
Definition add_timing (s : PipelineStage) (d : Q) (l : Local) : Local :=
  {| l_timings := (l_timings l ++ [{| stage := s; latency_ms := d |}])%list;
     current_stage := current_stage l; stage_started := stage_started l;
     l_attempted := l_attempted l; l_performed := l_performed l; l_generated := l_generated l;
     l_validation := l_validation l; l_repair := l_repair l; l_execution := l_execution l |}.
Definition set_flags (attempted performed : bool) (l : Local) : Local :=
  {| l_timings := l_timings l; current_stage := current_stage l; stage_started := stage_started l;
     l_attempted := attempted; l_performed := performed; l_generated := l_generated l;
     l_validation := l_validation l; l_repair := l_repair l; l_execution := l_execution l |}.
Definition set_generated (g : GeneratedSQL) (l : Local) : Local :=
  {| l_timings := l_timings l; current_stage := current_stage l; stage_started := stage_started l;
     l_attempted := l_attempted l; l_performed := l_performed l; l_generated := Some g;
     l_validation := l_validation l; l_repair := l_repair l; l_execution := l_execution l |}.
Definition set_validation (v : SQLValidationResult) (l : Local) : Local :=
  {| l_timings := l_timings l; current_stage := current_stage l; stage_started := stage_started l;
     l_attempted := l_attempted l; l_performed := l_performed l; l_generated := l_generated l;
     l_validation := Some v; l_repair := l_repair l; l_execution := l_execution l |}.
Definition set_repair (r : SQLRepairResult) (l : Local) : Local :=
  {| l_timings := l_timings l; current_stage := current_stage l; stage_started := stage_started l;
     l_attempted := l_attempted l; l_performed := l_performed l; l_generated := l_generated l;
     l_validation := l_validation l; l_repair := Some r; l_execution := l_execution l |}.
Definition set_execution (x : SQLExecutionResult V) (l : Local) : Local :=
  {| l_timings := l_timings l; current_stage := current_stage l; stage_started := stage_started l;
     l_attempted := l_attempted l; l_performed := l_performed l; l_generated := l_generated l;
     l_validation := l_validation l; l_repair := l_repair l; l_execution := Some x |}.
Definition initial_local : Local :=
  {| l_timings := []; current_stage := NLU; stage_started := 0; l_attempted := false; l_performed := false;
     l_generated := None; l_validation := None; l_repair := None; l_execution := None |}.

Section Runner.
Context {W : Type} `{Clock W}.
Context (c : Collaborators W) (dialect_ : SQLDialect) (publisher : option (StageEventPublisher W)).

Definition on_world {A} (m : prog W exn A) : prog (Local * W) exn A :=
  fun '(l, w) => let '(o, w') := m w in (o, (l, w')).
Definition modify (f : Local -> Local) : prog (Local * W) exn unit := fun '(l, w) => (Ret tt, (f l, w)).
Definition notify (f : StageEventPublisher W -> prog W exn unit) : prog W exn unit :=
  match publisher with Some p => f p | None => ret tt end.

(** [_notify_completed] *)
Definition notify_completed (s : PipelineStage) : prog (Local * W) exn unit := fun '(l, w) =>
  (let! duration := on_world (elapsed_ms (stage_started l)) in
   let! _ := modify (add_timing s duration) in
   on_world (notify (fun p => pub_stage_completed p s duration))) (l, w).

(** One stage of the sequence: announce it, call the phase, keep its artifact,
    time it. *)
Definition run_stage {A} (s : PipelineStage) (call : prog W exn A) (save : A -> Local -> Local)
  : prog (Local * W) exn A :=
  let! _ := modify (set_stage s) in
  let! _ := on_world (notify (fun p => pub_stage_started p s)) in
  let! t := on_world perf_counter in
  let! _ := modify (set_started t) in
  let! a := on_world call in
  let! _ := modify (save a) in
  let! _ := notify_completed s in
  ret a.
Definition keep {A} (_ : A) (l : Local) : Local := l.

Record GenerationOutcome := {
  bundle : RetrievedKnowledgeBundle;
  final_generated_sql : GeneratedSQL;
  final_validation : SQLValidationResult;
  out_repair_result : option SQLRepairResult;
  out_repair_attempted : bool;
  out_repair_performed : bool;
  out_stage_timings : list StageTiming }.

(** The body of [_generate_and_validate]'s [try]. *)
Definition generation_body (question : string) : prog (Local * W) exn GenerationOutcome :=
  let! query_context := run_stage NLU (nlu_parse c question) keep in
  let! linked_context := run_stage SCHEMA_LINKING (schema_link c query_context) keep in
  let! _ := run_stage BUSINESS_KNOWLEDGE (load_knowledge c) keep in
  let! b := run_stage RETRIEVAL (retrieve c linked_context) keep in
  let! compiled_prompt := run_stage PROMPT_COMPILATION (compile_prompt c b dialect_) keep in
  let! g := run_stage SQL_GENERATION (generate_from c compiled_prompt) set_generated in
  let llm_duration := gm_latency_ms (llm_metrics g) in
  let! _ := modify (add_timing LLM llm_duration) in
  let! _ := on_world (notify (fun p => pub_stage_started p LLM)) in
  let! _ := on_world (notify (fun p => pub_stage_completed p LLM llm_duration)) in
  let! v := run_stage SQL_VALIDATION (validate_sql c g) set_validation in
  let! _ := modify (set_flags (negb (is_valid v)) false) in
  let! ' (fg, fv) :=
    if is_valid v then ret (g, v)
    else
      let! r := run_stage SQL_REPAIR (repair_with c g v b) set_repair in
      let! _ := modify (set_flags true (bool_decide (status r = REPAIRED))) in
      ret (final_sql r, final_validation_result r) in
  fun '(l, w) =>
    (Ret {| bundle := b; final_generated_sql := fg; final_validation := fv; out_repair_result := l_repair l;
            out_repair_attempted := l_attempted l; out_repair_performed := l_performed l;
            out_stage_timings := l_timings l |}, (l, w)).

(** The [except Exception] handler both methods have. *)
Definition wrap_failure {A} (gen : option GeneratedSQL) (val : option SQLValidationResult)
    (l : Local) (e : exn) : prog W pipeline_exn A := fun w =>
  if negb (is_Exception e) then (Raise (Plain e), w)
  else
    let wrapped := {| pe_stage := current_stage l;
      pe_message := "Pipeline failed at stage " ++ repr (PipelineStage_value (current_stage l)) ++ ": " ++ exn_str e;
      pe_stage_timings := l_timings l; pe_repair_attempted := l_attempted l;
      pe_repair_performed := l_performed l; pe_generated_sql := gen; pe_validation_result := val;
      pe_repair_result := l_repair l; pe_execution_result := l_execution l; pe_cause := e |} in
    let tell := match publisher with
                | None => ret tt
                | Some p =>
                    let! d := elapsed_ms (stage_started l) in
                    let! _ := pub_stage_failed p (current_stage l) d e in
                    pub_pipeline_failed p wrapped
                end in
    match tell w with
    | (Raise e', w') => (Raise (Plain e'), w')
    | (Ret _, w') => (Raise (Wrapped wrapped), w')
    end.

Definition generate_and_validate (question : string) : prog W pipeline_exn GenerationOutcome := fun w =>
  match perf_counter (E:=exn) w with
  | (Raise e, w') => (Raise (Plain e), w')
  | (Ret t, w1) =>
      match generation_body question (set_started t initial_local, w1) with
      | (Ret o, (_, w2)) => (Ret o, w2)
      | (Raise e, (l, w2)) => wrap_failure (l_generated l) (l_validation l) l e w2
      end
  end.

Definition build_statistics (total : Q) (ts : list StageTiming) (attempted performed : bool) : PipelineStatistics :=
  {| total_latency_ms := total; stage_timings := ts; repair_attempted := attempted; repair_performed := performed |}.

Definition ExecutionStatus_value (s : ExecutionStatus) : string :=
  match s with SUCCESS => "success" | FAILED => "failed" | REJECTED => "rejected" | TIMEOUT => "timeout" end.
Definition execution_error_message (x : SQLExecutionResult V) : string :=
  match execution_error x with
  | Some e => err_message e
  | None => "SQL execution did not succeed (status=" ++ ExecutionStatus_value (exec_status x) ++ ")."
  end.

(** The response built at the end of [run], from the local variables. *)
Definition make_response (question : string) (o : GenerationOutcome) (x : SQLExecutionResult V)
    (answer : option Answer) (st : PipelineStatus) (err : option string) (pipeline_started : Q)
  : prog (Local * W) exn QueryMindResponse := fun '(l, w) =>
  (let! total := on_world (elapsed_ms pipeline_started) in
   ret {| original_question := question; business_answer := answer;
          resp_generated_sql := Some (final_generated_sql o);
          resp_validation_result := Some (final_validation o);
          resp_repair_result := out_repair_result o; resp_execution_result := Some x;
          resp_statistics := build_statistics total (l_timings l) (out_repair_attempted o) (out_repair_performed o);
          resp_status := st; error := err |}) (l, w).

(** The body of [run]'s [try]. *)
Definition execution_body (question : string) (o : GenerationOutcome) (pipeline_started : Q)
  : prog (Local * W) exn QueryMindResponse :=
  let! x := run_stage SQL_EXECUTION (execute_sql c (final_generated_sql o) (final_validation o)) set_execution in
  if negb (bool_decide (exec_status x = SUCCESS)) then
    let! response := make_response question o x None P_FAILED (Some (execution_error_message x)) pipeline_started in
    let! _ := on_world (notify (fun p => pub_pipeline_completed p response)) in
    ret response
  else
    let! answer := run_stage RESULT_FORMATTING (format_answer c x) keep in
    let! response := make_response question o x (Some answer) P_SUCCESS None pipeline_started in
    let! _ := on_world (notify (fun p => pub_pipeline_completed p response)) in
    ret response.

Definition plain {A} (m : prog W exn A) : prog W pipeline_exn A :=
  try_except m (fun e => throw (Plain e)).

Definition local_of (o : GenerationOutcome) (started : Q) : Local :=
  {| l_timings := out_stage_timings o; current_stage := SQL_EXECUTION; stage_started := started;
     l_attempted := out_repair_attempted o; l_performed := out_repair_performed o;
     l_generated := Some (final_generated_sql o); l_validation := Some (final_validation o);
     l_repair := out_repair_result o; l_execution := None |}.

Definition run (question : string) : prog W pipeline_exn QueryMindResponse :=
  let! pipeline_started := plain perf_counter in
  let! _ := plain (notify (fun p => pub_pipeline_started p question)) in
  let! o := generate_and_validate question in
  fun w =>
    match execution_body question o pipeline_started (local_of o pipeline_started, w) with
    | (Ret r, (_, w')) => (Ret r, w')
    | (Raise e, (l, w')) =>
        wrap_failure (Some (final_generated_sql o)) (Some (final_validation o)) l e w'
    end.

(** ** [engine.py] *)
Definition ask (question : string) : prog W pipeline_exn QueryMindResponse := fun w =>
  match plain perf_counter w with
  | (Raise e, w') => (Raise e, w')
  | (Ret started, w1) =>
      let failed g v r x ts att perf msg : prog W pipeline_exn QueryMindResponse :=
        let! total := plain (elapsed_ms started) in
        ret {| original_question := question; business_answer := None; resp_generated_sql := g;
               resp_validation_result := v; resp_repair_result := r; resp_execution_result := x;
               resp_statistics := build_statistics total ts att perf;
               resp_status := P_FAILED; error := Some msg |} in
      match run question w1 with
      | (Ret r, w2) => (Ret r, w2)
      | (Raise (Wrapped e), w2) =>
          failed (pe_generated_sql e) (pe_validation_result e) (pe_repair_result e) (pe_execution_result e)
            (pe_stage_timings e) (pe_repair_attempted e) (pe_repair_performed e) (exn_str (pe_cause e)) w2
      | (Raise (Plain e), w2) =>
          if is_Exception e then failed None None None None [] false false (exn_str e) w2
          else (Raise (Plain e), w2)
      end
  end.
End Runner.

Section WithoutPublisher.
Context {W : Type} `{Clock W}.
Context (c : Collaborators W) (dialect_ : SQLDialect).

(** [PipelineRunner.generate_sql] and [QueryMindEngine.ask_for_sql]. *)
Definition generate_sql (question : string) : prog W pipeline_exn GeneratedSqlResult :=
  let! pipeline_started := plain perf_counter in
  let! o := generate_and_validate c dialect_ None question in
  let! total := plain (elapsed_ms pipeline_started) in
  ret {| gsr_question := question; gsr_generated_sql := final_generated_sql o;
         gsr_validation_result := final_validation o; gsr_repair_result := out_repair_result o;
         gsr_statistics := build_statistics total (out_stage_timings o) (out_repair_attempted o)
                             (out_repair_performed o) |}.

(** [PipelineRunner.repair_sql] and [QueryMindEngine.repair]. *)
Definition repair_sql (question : string) (v : SQLValidationResult) : prog W exn SQLRepairResult :=
  let! query_context := nlu_parse c question in
  let! linked_context := schema_link c query_context in
  let! _ := load_knowledge c in
  let! b := retrieve c linked_context in
  repair_with c (generated_sql v) v b.
End WithoutPublisher.
End Orchestrator.
Arguments pub_pipeline_started {V Answer W} _.
Arguments pub_stage_started {V Answer W} _.
Arguments pub_stage_completed {V Answer W} _.
Arguments pub_stage_failed {V Answer W} _.
Arguments pub_pipeline_completed {V Answer W} _.
Arguments pub_pipeline_failed {V Answer W} _.
Arguments nlu_parse {V Answer W} _.
Arguments schema_link {V Answer W} _.
Arguments load_knowledge {V Answer W} _.
Arguments retrieve {V Answer W} _.
Arguments compile_prompt {V Answer W} _.
Arguments generate_from {V Answer W} _.
Arguments validate_sql {V Answer W} _.
Arguments repair_with {V Answer W} _.
Arguments execute_sql {V Answer W} _.
Arguments format_answer {V Answer W} _.

(** ** Lemmas: one stage, and the generation sequence *)
Section Facts.
Context {V Answer W : Type} `{Clock W}.
Context (c : Collaborators (V:=V) (Answer:=Answer) W) (dialect_ : SQLDialect).
Context (publisher : option (StageEventPublisher (V:=V) (Answer:=Answer) W)).

(** How a stage ends: the publisher refuses to announce it, the call raises, the
    publisher raises when told it completed, or all goes well. *)
Inductive stage_ending {A} (s : PipelineStage) (call : prog W exn A) (save : A -> Local -> Local)
    (l : Local (V:=V)) : outcome exn A -> Local (V:=V) -> Prop :=
| refused e : stage_ending s call save l (Raise e) (set_stage s l)
| call_raised t e w1 w2 : call w1 = (Raise e, w2) ->
    stage_ending s call save l (Raise e) (set_started t (set_stage s l))
| unheard t d a e w1 w2 : call w1 = (Ret a, w2) ->
    stage_ending s call save l (Raise e) (add_timing s d (save a (set_started t (set_stage s l))))
| completed t d a w1 w2 : call w1 = (Ret a, w2) ->
    stage_ending s call save l (Ret a) (add_timing s d (save a (set_started t (set_stage s l)))).

Lemma on_world_eq {A} (m : prog W exn A) (l : Local (V:=V)) w :
  on_world m (l, w) = (fst (m w), (l, snd (m w))).
Proof. unfold on_world. by destruct (m w). Qed.
Lemma bind_modify_eq {A} (f : Local (V:=V) -> Local) (k : unit -> prog (Local * W) exn A) l w :
  bind (modify f) k (l, w) = k tt (f l, w).
Proof. reflexivity. Qed.
Lemma bind_on_world {A B} (m : prog W exn A) (k : A -> prog (Local (V:=V) * W) exn B) l w :
  bind (on_world m) k (l, w) =
  match m w with (Raise e, w') => (Raise e, (l, w')) | (Ret a, w') => k a (l, w') end.
Proof. unfold bind, on_world. by destruct (m w) as [[e|a] w']. Qed.

Lemma run_stage_ending {A} s (call : prog W exn A) save l w o l' w' :
  run_stage publisher s call save (l, w) = (o, (l', w')) -> stage_ending s call save l o l'.
Proof.
  unfold run_stage. rewrite bind_modify_eq, bind_on_world.
  destruct (notify _ _ w) as [[e|[]] w1]; [intros; simplify_eq; constructor|].
  rewrite bind_on_world. unfold perf_counter. destruct (tick w1) as [t w2].
  rewrite bind_modify_eq, bind_on_world.
  destruct (call w2) as [[e|a] w3] eqn:Ec; [intros; simplify_eq; by econstructor|].
  rewrite bind_modify_eq. unfold notify_completed, bind at 1.
  rewrite bind_on_world, elapsed_ms_eq, bind_modify_eq, on_world_eq.
  destruct (notify _ _ _) as [[e|[]] w4]; unfold ret; simpl; intros; simplify_eq; by econstructor.
Qed.

(** The stages in the order the runner performs them. *)
Definition generation_stages (attempted : bool) : list PipelineStage :=
  ([NLU; SCHEMA_LINKING; BUSINESS_KNOWLEDGE; RETRIEVAL; PROMPT_COMPILATION; SQL_GENERATION; LLM;
    SQL_VALIDATION] ++ if attempted then [SQL_REPAIR] else [])%list.
Definition stages_of (attempted : bool) : list PipelineStage :=
  (generation_stages attempted ++ [SQL_EXECUTION; RESULT_FORMATTING])%list.
Definition stages (ts : list StageTiming) : list PipelineStage := map stage ts.

(** Which pair of SQL and validation the generation sequence settles on. *)
Inductive settled : GeneratedSQL -> SQLValidationResult -> option SQLRepairResult -> bool -> bool -> Prop :=
| settled_valid g v w1 w2 : validate_sql c g w1 = (Ret v, w2) -> is_valid v = true ->
    settled g v None false false
| settled_repair g v w1 w2 b w3 w4 r : validate_sql c g w1 = (Ret v, w2) -> is_valid v = false ->
    repair_with c g v b w3 = (Ret r, w4) ->
    settled (final_sql r) (final_validation_result r) (Some r) true (bool_decide (status r = REPAIRED)).

Definition generated_well (o : GenerationOutcome) : Prop :=
  stages (out_stage_timings o) = generation_stages (out_repair_attempted o) /\
  settled (final_generated_sql o) (final_validation o) (out_repair_result o)
    (out_repair_attempted o) (out_repair_performed o).
Definition interrupted_well (l : Local (V:=V)) : Prop :=
  stages (l_timings l) `prefix_of` stages_of (l_attempted l) /\ l_execution l = None /\
  (l_attempted l = false -> l_repair l = None) /\ (l_performed l = true -> l_attempted l = true).

Ltac next_stage :=
  lazymatch goal with
  | |- match bind (run_stage ?p ?s ?call ?save) ?k ?lw with _ => _ end =>
      let o := fresh "o" in let l' := fresh "l" in let w' := fresh "w" in let E := fresh "E" in
      unfold bind at 1;
      destruct (run_stage p s call save lw) as [o [l' w']] eqn:E;
      apply run_stage_ending in E; destruct E;
      [ split; [by eexists|done] | split; [by eexists|done] | split; [by eexists|done] | ]
  end.

Lemma generation_body_ending q t w :
  match generation_body c dialect_ publisher q (set_started t initial_local, w) with
  | (Ret o, _) => generated_well o
  | (Raise _, (l, _)) => interrupted_well l
  end.
Proof.
  unfold generation_body, interrupted_well.
  next_stage. next_stage. next_stage. next_stage. next_stage. next_stage.
  rewrite bind_modify_eq, bind_on_world.
  destruct (notify _ _ _) as [[?|[]] ?]; [split; [by eexists|done]|].
  rewrite bind_on_world.
  destruct (notify _ _ _) as [[?|[]] ?]; [split; [by eexists|done]|].
  next_stage. rewrite bind_modify_eq.
  destruct (is_valid _) eqn:Ev; simpl negb.
  - unfold bind, ret. split; [done|]. by econstructor.
  - match goal with |- match bind ?m ?k ?lw with _ => _ end => unfold bind at 1 end.
    match goal with |- context[bind (run_stage ?p ?s ?call ?save) ?k ?lw] => unfold bind at 1;
      destruct (run_stage p s call save lw) as [o' [l' w']] eqn:E end.
    apply run_stage_ending in E. destruct E; try (split; [by eexists|done]).
    rewrite bind_modify_eq. unfold ret. split; [done|]. by econstructor.
Qed.

(** What the response of a run says. *)
Record response_well (r : QueryMindResponse (V:=V) (Answer:=Answer)) : Prop := {
  well_stages : stages (stage_timings (resp_statistics r))
                `prefix_of` stages_of (repair_attempted (resp_statistics r));
  well_repair : repair_attempted (resp_statistics r) = false -> resp_repair_result r = None;
  well_performed : repair_performed (resp_statistics r) = true -> repair_attempted (resp_statistics r) = true;
  well_success : resp_status r = P_SUCCESS <-> business_answer r <> None;
  well_error : resp_status r = P_SUCCESS <-> error r = None;
  well_complete : resp_status r = P_SUCCESS ->
    stages (stage_timings (resp_statistics r)) = stages_of (repair_attempted (resp_statistics r)) /\
    exists x, resp_execution_result r = Some x /\ exec_status x = SUCCESS;
  well_executed : forall x, resp_execution_result r = Some x ->
    exists g v w1 w2, resp_generated_sql r = Some g /\ resp_validation_result r = Some v /\
      settled g v (resp_repair_result r) (repair_attempted (resp_statistics r)) (repair_performed (resp_statistics r)) /\
      execute_sql c g v w1 = (Ret x, w2) }.

(** What the error of a run says. *)
Record error_well (e : PipelineExecutionError (V:=V)) : Prop := {
  pe_stages : stages (pe_stage_timings e) `prefix_of` stages_of (pe_repair_attempted e);
  pe_repair : pe_repair_attempted e = false -> pe_repair_result e = None;
  pe_performed : pe_repair_performed e = true -> pe_repair_attempted e = true;
  pe_executed : forall x, pe_execution_result e = Some x ->
    exists g v w1 w2, pe_generated_sql e = Some g /\ pe_validation_result e = Some v /\
      settled g v (pe_repair_result e) (pe_repair_attempted e) (pe_repair_performed e) /\
      execute_sql c g v w1 = (Ret x, w2);
  pe_caught : is_Exception (pe_cause e) = true }.

Definition run_well (o : outcome pipeline_exn QueryMindResponse) : Prop :=
  match o with
  | Ret r => response_well r
  | Raise (Wrapped e) => error_well e
  | Raise (Plain _) => True
  end.

Lemma settled_repair_none g v r att perf : settled g v r att perf -> att = false -> r = None.
Proof. by destruct 1. Qed.
Lemma settled_performed g v r att perf : settled g v r att perf -> perf = true -> att = true.
Proof. by destruct 1. Qed.

Lemma wrap_failure_ending {A} gen val l e w :
  match wrap_failure (A:=A) publisher gen val l e w with
  | (Ret _, _) => False
  | (Raise (Wrapped x), _) =>
      is_Exception e = true /\ pe_cause x = e /\ pe_stage_timings x = l_timings l /\
      pe_repair_attempted x = l_attempted l /\ pe_repair_performed x = l_performed l /\
      pe_repair_result x = l_repair l /\ pe_execution_result x = l_execution l /\
      pe_generated_sql x = gen /\ pe_validation_result x = val /\ pe_stage x = current_stage l
  | (Raise (Plain x), _) => is_Exception e = true \/ x = e /\ is_Exception x = false
  end.
Proof.
  unfold wrap_failure. destruct (is_Exception e) eqn:Ee; simpl; [|by right].
  match goal with |- context[match ?m w with _ => _ end] => destruct (m w) as [[x|[]] w'] end; simpl;
    [by left|by split_and!].
Qed.

Lemma run_eq q w :
  run c dialect_ publisher q w =
  let '(t, w1) := tick w in
  match notify publisher (fun p => pub_pipeline_started p q) w1 with
  | (Raise e, w2) => (Raise (Plain e), w2)
  | (Ret _, w2) =>
      match generate_and_validate c dialect_ publisher q w2 with
      | (Raise e, w3) => (Raise e, w3)
      | (Ret o, w3) =>
          match execution_body c publisher q o t (local_of o t, w3) with
          | (Ret r, (_, w4)) => (Ret r, w4)
          | (Raise e, (l, w4)) =>
              wrap_failure publisher (Some (final_generated_sql o)) (Some (final_validation o)) l e w4
          end
      end
  end.
Proof.
  unfold run, plain, try_except, perf_counter. unfold bind at 1. destruct (tick w) as [t w1].
  unfold bind. by destruct (notify _ _ w1) as [[e|[]] w2].
Qed.

Lemma generate_and_validate_ending q w :
  match generate_and_validate c dialect_ publisher q w with
  | (Ret o, _) => generated_well o
  | (Raise (Wrapped e), _) => error_well e
  | (Raise (Plain _), _) => True
  end.
Proof.
  unfold generate_and_validate, perf_counter. destruct (tick w) as [t w1].
  pose proof (generation_body_ending q t w1) as Hg.
  destruct (generation_body _ _ _ _ _) as [[e|o] [l w2]]; [|done].
  pose proof (wrap_failure_ending (A:=GenerationOutcome) (l_generated l) (l_validation l) l e w2) as Hw.
  destruct (wrap_failure _ _ _ _ _ _) as [[[x|x]|o] w3]; [|done|done].
  destruct Hw as (H1 & <- & H3 & H4 & H5 & H6 & H7 & _). destruct Hg as (G1 & G2 & G3 & G4).
  split; rewrite ?H3, ?H4, ?H5, ?H6, ?H7, ?G2; done.
Qed.

(** The local variables of [run] when its own [try] gives up. *)
Definition execution_interrupted (o : GenerationOutcome) (l : Local (V:=V)) : Prop :=
  stages (l_timings l) `prefix_of` stages_of (out_repair_attempted o) /\
  l_attempted l = out_repair_attempted o /\ l_performed l = out_repair_performed o /\
  l_repair l = out_repair_result o /\
  forall x, l_execution l = Some x ->
    exists w1 w2, execute_sql c (final_generated_sql o) (final_validation o) w1 = (Ret x, w2).

Lemma add_stages ts s d (l : list PipelineStage) : stages ts = l -> stages (ts ++ [{| stage := s; latency_ms := d |}])%list = (l ++ [s])%list.
Proof. intros <-. unfold stages. by rewrite map_app. Qed.

Lemma make_response_eq q o x a st err t (l : Local (V:=V)) w :
  exists total, make_response q o x a st err t (l, w) =
  (Ret {| original_question := q; business_answer := a; resp_generated_sql := Some (final_generated_sql o);
          resp_validation_result := Some (final_validation o); resp_repair_result := out_repair_result o;
          resp_execution_result := Some x;
          resp_statistics := build_statistics total (l_timings l) (out_repair_attempted o) (out_repair_performed o);
          resp_status := st; error := err |} : outcome exn (QueryMindResponse (V:=V) (Answer:=Answer)), (l, snd (tick w))).
Proof. unfold make_response. rewrite bind_on_world, elapsed_ms_eq. eauto. Qed.

Lemma execution_body_ending q o t w : generated_well o ->
  match execution_body c publisher q o t (local_of o t, w) with
  | (Ret r, _) => response_well r
  | (Raise _, (l, _)) => execution_interrupted o l
  end.
Proof.
  intros [Hst Hset]. unfold execution_body, execution_interrupted. unfold bind at 1.
  destruct (run_stage _ SQL_EXECUTION _ _ _) as [p [l' w']] eqn:E. apply run_stage_ending in E.
  assert (Hpre : forall k, (generation_stages (out_repair_attempted o) ++ k)%list = stages_of (out_repair_attempted o) ->
    stages (out_stage_timings o) `prefix_of` stages_of (out_repair_attempted o)) by (intros k <-; rewrite Hst; by eexists).
  specialize (Hpre _ eq_refl).
  assert (H1 : forall d, stages (out_stage_timings o ++ [{| stage := SQL_EXECUTION; latency_ms := d |}])%list
    = (generation_stages (out_repair_attempted o) ++ [SQL_EXECUTION])%list) by (intros; by apply add_stages).
  assert (H2 : forall d d', stages ((out_stage_timings o ++ [{| stage := SQL_EXECUTION; latency_ms := d |}])
      ++ [{| stage := RESULT_FORMATTING; latency_ms := d' |}])%list = stages_of (out_repair_attempted o)).
  { intros. erewrite add_stages by apply H1. unfold stages_of. by rewrite <- app_assoc. }
  assert (Hpre1 : forall d, stages (out_stage_timings o ++ [{| stage := SQL_EXECUTION; latency_ms := d |}])%list
    `prefix_of` stages_of (out_repair_attempted o)).
  { intros d. rewrite H1. exists [RESULT_FORMATTING]. unfold stages_of. by rewrite <- app_assoc. }
  destruct E as [e|t1 e w1 w2 Hc|t1 d x e w1 w2 Hc|t1 d x w1 w2 Hc];
    [simpl; split_and!; done|simpl; split_and!; done|simpl; split_and!; try done; intros ? [= <-]; eauto|].
  destruct (bool_decide (exec_status x = SUCCESS)) eqn:Es; cbv [negb]; cbv iota.
  - apply bool_decide_eq_true in Es. unfold bind at 1.
    match goal with |- context[run_stage publisher RESULT_FORMATTING ?call ?save ?lw] =>
      destruct (run_stage publisher RESULT_FORMATTING call save lw) as [p [l2 w2']] eqn:E end.
    apply run_stage_ending in E.
    destruct E as [e|t2 e w3 w4 Hf|t2 d2 a e w3 w4 Hf|t2 d2 a w3 w4 Hf];
      [simpl; split_and!; rewrite ?H2; try done; intros ? [= <-]; eauto ..|].
    match goal with |- context[bind (make_response q o x ?a ?st ?err t) ?k (?l, ?w)] =>
      destruct (make_response_eq q o x a st err t l w) as (total & Hm) end.
    rewrite (bind_ret_eq _ _ _ _ _ Hm), bind_on_world.
    destruct (notify _ _ _) as [[e|[]] w6]; simpl; [split_and!; try done|].
    + by rewrite H2.
    + intros ? [= <-]; eauto.
    + unfold ret. split; simpl; rewrite ?H2; try done.
      * by eapply settled_repair_none.
      * by eapply settled_performed.
      * eauto.
      * intros ? [= <-]. eauto 10.
  - apply bool_decide_eq_false in Es.
    match goal with |- context[bind (make_response q o x ?a ?st ?err t) ?k (?l, ?w)] =>
      destruct (make_response_eq q o x a st err t l w) as (total & Hm) end.
    rewrite (bind_ret_eq _ _ _ _ _ Hm), bind_on_world.
    destruct (notify _ _ _) as [[e|[]] w6]; simpl; [split_and!; try done; intros ? [= <-]; eauto|].
    unfold ret. split; simpl; try done.
    + by eapply settled_repair_none.
    + by eapply settled_performed.
    + intros ? [= <-]. eauto 10.
Qed.

Lemma run_ending q w : run_well (fst (run c dialect_ publisher q w)).
Proof.
  rewrite run_eq. destruct (tick w) as [t w1]. destruct (notify _ _ w1) as [[e|[]] w2]; [done|].
  pose proof (generate_and_validate_ending q w2) as Hg.
  destruct (generate_and_validate _ _ _ _ w2) as [[[e|e]|o] w3]; [done|done|].
  pose proof (execution_body_ending q o t w3 Hg) as He.
  destruct (execution_body _ _ _ _ _ _) as [[e|r] [l w4]]; [|done].
  pose proof (wrap_failure_ending (A:=QueryMindResponse (V:=V) (Answer:=Answer)) (Some (final_generated_sql o))
    (Some (final_validation o)) l e w4) as Hw.
  destruct (wrap_failure _ _ _ _ _ _) as [[[x|x]|r] w5]; [|done|done].
  destruct Hw as (H1 & <- & H3 & H4 & H5 & H6 & H7 & H8 & H9 & _). destruct He as (G1 & G2 & G3 & G4 & G5).
  destruct Hg as [Hst Hset].
  split; rewrite ?H3, ?H4, ?H5, ?H6, ?H7, ?H8, ?H9, ?G2, ?G3, ?G4; try done.
  - by eapply settled_repair_none.
  - by eapply settled_performed.
  - intros y Hy. destruct (G5 y Hy) as (wa & wb & Hx). eauto 10.
Qed.

(** Every way [ask] can end. *)
Lemma ask_ending q w :
  match ask c dialect_ publisher q w with
  | (Ret r, _) => response_well r
  | (Raise (Plain e), _) => is_Exception e = false
  | (Raise (Wrapped _), _) => False
  end.
Proof.
  unfold ask, plain, try_except, perf_counter. destruct (tick w) as [t w1].
  pose proof (run_ending q w1) as Hr. destruct (run _ _ _ _ w1) as [[[e|e]|r] w2]; simpl in Hr; [| |done].
  - unfold bind. rewrite elapsed_ms_eq. destruct Hr. unfold ret. by split.
  - destruct (is_Exception e) eqn:Ee; [|done]. unfold bind. rewrite elapsed_ms_eq. unfold ret.
    split; simpl; try done. by eexists.
Qed.
End Facts.

(** ** Properties of [ask] *)
Section AskProps.
Context {V Answer W : Type} `{Clock W}.
Context (c : Collaborators (V:=V) (Answer:=Answer) W) (dialect_ : SQLDialect).
Context (publisher : option (StageEventPublisher (V:=V) (Answer:=Answer) W)).

(** C18. Whatever the phases and the publisher do, [ask] answers: it returns a
    response for every [Exception], and the only thing that can escape is an
    exception that is not one ([CancelledError], [KeyboardInterrupt]), as it is. *)
Theorem ask_never_raises q w e w' :
  ask c dialect_ publisher q w = (Raise e, w') -> exists x, e = Plain x /\ is_Exception x = false.
Proof.
  intros Ha. pose proof (ask_ending c dialect_ publisher q w) as He. rewrite Ha in He.
  destruct e; [done|eauto].
Qed.

(** C17. Every response of [ask] is coherent: the timed stages are a prefix of the
    pipeline's order (the whole of it on success), a business answer is there exactly
    on success and an error exactly on failure, [repair_result] only when repair was
    attempted, and an execution result is what the executor answered for the very SQL
    and validation the response shows, which validation accepted or repair settled on. *)
Theorem ask_response q w r w' : ask c dialect_ publisher q w = (Ret r, w') -> response_well c r.
Proof.
  intros Ha. pose proof (ask_ending c dialect_ publisher q w) as He. by rewrite Ha in He.
Qed.
End AskProps.

(** ** A publisher that records *)
Section Events.
Context {V Answer W : Type} `{Clock W}.
Context (c : Collaborators (V:=V) (Answer:=Answer) W) (dialect_ : SQLDialect).

Inductive Event :=
| EvPipelineStarted (q : string)
| EvStageStarted (s : PipelineStage)
| EvStageCompleted (s : PipelineStage) (d : Q)
| EvStageFailed (s : PipelineStage) (d : Q) (e : exn)
| EvPipelineCompleted (r : QueryMindResponse (V:=V) (Answer:=Answer))
| EvPipelineFailed (e : PipelineExecutionError (V:=V)).

Context (events : W -> list Event) (record : Event -> W -> W).
Definition recorder : StageEventPublisher (V:=V) (Answer:=Answer) W :=
  {| pub_pipeline_started := fun q w => (Ret tt, record (EvPipelineStarted q) w);
     pub_stage_started := fun s w => (Ret tt, record (EvStageStarted s) w);
     pub_stage_completed := fun s d w => (Ret tt, record (EvStageCompleted s d) w);
     pub_stage_failed := fun s d e w => (Ret tt, record (EvStageFailed s d e) w);
     pub_pipeline_completed := fun r w => (Ret tt, record (EvPipelineCompleted r) w);
     pub_pipeline_failed := fun e w => (Ret tt, record (EvPipelineFailed e) w) |}.

Definition silent {A} (m : prog W exn A) : Prop := forall w, events (snd (m w)) = events w.
(** Nothing but the recorder touches the record. *)
Record only_recorder : Prop := {
  rec_record : forall e w, events (record e w) = (events w ++ [e])%list;
  rec_tick : forall w, events (snd (tick w)) = events w;
  rec_nlu : forall q, silent (nlu_parse c q);
  rec_link : forall x, silent (schema_link c x);
  rec_knowledge : silent (load_knowledge c);
  rec_retrieve : forall x, silent (retrieve c x);
  rec_compile : forall b d, silent (compile_prompt c b d);
  rec_generate : forall p, silent (generate_from c p);
  rec_validate : forall g, silent (validate_sql c g);
  rec_repair : forall g v b, silent (repair_with c g v b);
  rec_execute : forall g v, silent (execute_sql c g v);
  rec_format : forall x, silent (format_answer c x) }.

(** The two events of every stage that completed. *)
Definition stage_events (ts : list StageTiming) : list Event :=
  concat (map (fun t => [EvStageStarted (stage t); EvStageCompleted (stage t) (latency_ms t)]) ts).
Lemma stage_events_snoc ts s d :
  stage_events (ts ++ [{| stage := s; latency_ms := d |}])
  = (stage_events ts ++ [EvStageStarted s; EvStageCompleted s d])%list.
Proof. unfold stage_events. by rewrite map_app, concat_app. Qed.

Context (Hrec : only_recorder) (start : list Event).

Definition in_step (l : Local (V:=V)) (w : W) : Prop := events w = (start ++ stage_events (l_timings l))%list.
Definition broken (l : Local (V:=V)) (w : W) : Prop :=
  events w = (start ++ stage_events (l_timings l) ++ [EvStageStarted (current_stage l)])%list.
Definition keeps_step {A} (m : prog (Local (V:=V) * W) exn A) : Prop :=
  forall l w, in_step l w ->
  match m (l, w) with (Ret _, (l', w')) => in_step l' w' | (Raise _, (l', w')) => broken l' w' end.

Lemma keeps_bind {A B} (m : prog (Local * W) exn A) (k : A -> prog (Local * W) exn B) :
  keeps_step m -> (forall a, keeps_step (k a)) -> keeps_step (bind m k).
Proof.
  intros Hm Hk l w Hi. unfold bind. specialize (Hm l w Hi).
  destruct (m (l, w)) as [[e|a] [l' w']]; [done|]. by apply Hk.
Qed.
Lemma keeps_ret {A} (a : A) : keeps_step (ret a).
Proof. by intros l w Hi. Qed.
Lemma keeps_modify f : (forall l, l_timings (f l) = l_timings l) -> keeps_step (modify f).
Proof. intros Hf l w Hi. unfold modify, in_step in *. by rewrite Hf. Qed.

Lemma keeps_run_stage {A} s (call : prog W exn A) save :
  silent call -> (forall a l, l_timings (save a l) = l_timings l) ->
  keeps_step (run_stage (Some recorder) s call save).
Proof using Hrec.
  intros Hcall Hsave l w Hi. unfold run_stage.
  rewrite bind_modify_eq, bind_on_world. simpl. rewrite bind_on_world. unfold perf_counter.
  destruct (tick (record (EvStageStarted s) w)) as [t w2] eqn:Et.
  rewrite bind_modify_eq, bind_on_world.
  assert (E2 : events w2 = (events w ++ [EvStageStarted s])%list).
  { rewrite <- (rec_record Hrec). rewrite <- (rec_tick Hrec (record _ w)). by rewrite Et. }
  specialize (Hcall w2). destruct (call w2) as [[e|a] w3]; simpl in Hcall.
  - unfold broken. simpl. by rewrite Hcall, E2, Hi, <- app_assoc.
  - rewrite bind_modify_eq. unfold notify_completed, bind at 1.
    rewrite bind_on_world, elapsed_ms_eq, bind_modify_eq, on_world_eq. simpl.
    unfold in_step. simpl. rewrite (rec_record Hrec), (rec_tick Hrec), Hcall, E2, Hi.
    rewrite Hsave. simpl. by rewrite stage_events_snoc, <- !app_assoc.
Qed.

(** The [LLM] stage is timed and announced after the call it was part of. *)
Lemma keeps_llm {A} d (k : prog (Local * W) exn A) : keeps_step k ->
  keeps_step (let! _ := modify (add_timing LLM d) in
    let! _ := on_world (notify (Some recorder) (fun p => pub_stage_started p LLM)) in
    let! _ := on_world (notify (Some recorder) (fun p => pub_stage_completed p LLM d)) in k).
Proof using Hrec.
  intros Hk l w Hi. rewrite bind_modify_eq, !bind_on_world. simpl. rewrite bind_on_world. simpl.
  apply Hk. unfold in_step. simpl.
  by rewrite !(rec_record Hrec), Hi, stage_events_snoc, <- !app_assoc.
Qed.

Lemma keeps_generation q : keeps_step (generation_body c dialect_ (Some recorder) q).
Proof using Hrec.
  unfold generation_body.
  do 6 (apply keeps_bind; [apply keeps_run_stage; [apply Hrec|done]|intro]).
  cbv zeta. apply keeps_llm, keeps_bind; [apply keeps_run_stage; [apply Hrec|done]|intro v].
  apply keeps_bind; [by apply keeps_modify|intros _]. apply keeps_bind.
  - destruct (is_valid v); [apply keeps_ret|].
    apply keeps_bind; [apply keeps_run_stage; [apply Hrec|done]|intro r].
    apply keeps_bind; [by apply keeps_modify|intros _]. apply keeps_ret.
  - intros [fg fv] l w Hi. done.
Qed.

Lemma generation_timings q l w o l' w' :
  generation_body c dialect_ (Some recorder) q (l, w) = (Ret o, (l', w')) -> out_stage_timings o = l_timings l'.
Proof.
  unfold generation_body. cbv zeta. intros Hg.
  do 11 (apply bind_Ret_inv in Hg as (? & [? ?] & _ & Hg)).
  apply bind_Ret_inv in Hg as ([? ?] & [? ?] & _ & Hg). by simplify_eq.
Qed.

(** The terminal events of a failure. *)
Lemma wrap_failure_events {A} gen val l e w : broken l w ->
  match wrap_failure (A:=A) (Some recorder) gen val l e w with
  | (Ret _, _) => False
  | (Raise (Wrapped x), w') => exists d, events w' =
      (start ++ stage_events (pe_stage_timings x) ++
       [EvStageStarted (pe_stage x); EvStageFailed (pe_stage x) d (pe_cause x); EvPipelineFailed x])%list
  | (Raise (Plain x), w') => is_Exception x = false /\ broken l w'
  end.
Proof using Hrec.
  intros Hb. unfold wrap_failure. destruct (is_Exception e) eqn:Ee; simpl; [|done].
  unfold bind. rewrite elapsed_ms_eq. simpl. eexists.
  rewrite !(rec_record Hrec), (rec_tick Hrec), Hb, <- !app_assoc. reflexivity.
Qed.

Lemma execution_events q o t w : events w = (start ++ stage_events (out_stage_timings o))%list ->
  match execution_body c (Some recorder) q o t (local_of o t, w) with
  | (Ret r, (_, w')) => events w' =
      (start ++ stage_events (stage_timings (resp_statistics r)) ++ [EvPipelineCompleted r])%list
  | (Raise _, (l, w')) => broken l w'
  end.
Proof using Hrec.
  intros Hw. unfold execution_body. unfold bind at 1.
  pose proof (keeps_run_stage SQL_EXECUTION (execute_sql c (final_generated_sql o) (final_validation o))
    set_execution (rec_execute Hrec _ _) (fun _ _ => eq_refl) (local_of o t) w Hw) as Hk.
  destruct (run_stage _ SQL_EXECUTION _ _ _) as [[e|x] [l1 w1]]; [done|].
  assert (Hend : forall a st err (l : Local (V:=V)) w2, in_step l w2 ->
    match (let! response := make_response q o x a st err t in
           let! _ := on_world (notify (Some recorder) (fun p => pub_pipeline_completed p response)) in
           ret response) (l, w2) with
    | (Ret r, (_, w')) => events w' =
        (start ++ stage_events (stage_timings (resp_statistics r)) ++ [EvPipelineCompleted r])%list
    | (Raise _, (l', w')) => broken l' w'
    end).
  { intros a st err l w2 Hi. destruct (make_response_eq q o x a st err t l w2) as (total & Hm).
    rewrite (bind_ret_eq _ _ _ _ _ Hm), bind_on_world. simpl.
    by rewrite (rec_record Hrec), (rec_tick Hrec), Hi, <- app_assoc. }
  destruct (bool_decide _); cbv [negb]; cbv iota; [|by apply Hend].
  unfold bind at 1.
  pose proof (keeps_run_stage RESULT_FORMATTING (format_answer c x) keep (rec_format Hrec _)
    (fun _ _ => eq_refl) l1 w1 Hk) as Hk2.
  destruct (run_stage _ RESULT_FORMATTING _ _ _) as [[e|a] [l2 w2]]; [done|]. by apply Hend.
Qed.
End Events.

Section EventStream.
Context {V Answer W : Type} `{Clock W}.
Context (c : Collaborators (V:=V) (Answer:=Answer) W) (dialect_ : SQLDialect).

(** The event stream of a run mirrors its statistics: one start, then a started
    and a completed event, with the recorded duration, for every timed stage in order,
    then one terminal event; a failing run also announces the stage it stopped in and
    its failure. Only an exception that is no [Exception] leaves the stream open. *)
Theorem event_stream events record q w :
  only_recorder c events record ->
  let start := (events w ++ [EvPipelineStarted q])%list in
  match run c dialect_ (Some (recorder record)) q w with
  | (Ret r, w') => events w' =
      (start ++ stage_events (stage_timings (resp_statistics r)) ++ [EvPipelineCompleted r])%list
  | (Raise (Wrapped e), w') => exists d, events w' =
      (start ++ stage_events (pe_stage_timings e) ++
       [EvStageStarted (pe_stage e); EvStageFailed (pe_stage e) d (pe_cause e); EvPipelineFailed e])%list
  | (Raise (Plain e), w') => is_Exception e = false /\
      exists ts s, events w' = (start ++ stage_events ts ++ [EvStageStarted s])%list
  end.
Proof.
  intros Hrec start. rewrite run_eq. destruct (tick w) as [t w1] eqn:Et.
  cbn [notify recorder pub_pipeline_started]. unfold generate_and_validate, perf_counter.
  destruct (tick (record (EvPipelineStarted q) w1)) as [t2 w2] eqn:Et2.
  assert (E2 : events w2 = start).
  { pose proof (rec_tick _ _ _ Hrec (record (EvPipelineStarted q) w1)) as E2. rewrite Et2 in E2. simpl in E2.
    pose proof (rec_tick _ _ _ Hrec w) as E1. rewrite Et in E1. simpl in E1.
    by rewrite E2, (rec_record _ _ _ Hrec), E1. }
  assert (Hi : in_step events start (set_started t2 initial_local) w2).
  { unfold in_step. simpl. by rewrite E2, app_nil_r. }
  pose proof (keeps_generation c dialect_ events record Hrec start q _ _ Hi) as Hk.
  destruct (generation_body _ _ _ _ _) as [[e|o] [l w3]] eqn:Eg.
  - pose proof (wrap_failure_events c events record Hrec start (A:=GenerationOutcome) (l_generated l)
      (l_validation l) l e w3 Hk) as Hw.
    destruct (wrap_failure _ _ _ _ _ _) as [[[x|x]|o] w4]; [done| |done].
    destruct Hw as [He Hb]. eauto.
  - apply generation_timings in Eg. unfold in_step in Hk. rewrite <- Eg in Hk.
    pose proof (execution_events c events record Hrec start q o t w3 Hk) as He.
    destruct (execution_body _ _ _ _ _ _) as [[e|r] [l2 w4]]; [|done].
    pose proof (wrap_failure_events c events record Hrec start (A:=QueryMindResponse (V:=V) (Answer:=Answer))
      (Some (final_generated_sql o)) (Some (final_validation o)) l2 e w4 He) as Hw.
    destruct (wrap_failure _ _ _ _ _ _) as [[[x|x]|r] w5]; [done| |done].
    destruct Hw as [He' Hb]. eauto.
Qed.
End EventStream.

(** ** A publisher that only listens *)
Section Transparency.
Context {V Answer W P : Type} `{Clock W}.
Context (c : Collaborators (V:=V) (Answer:=Answer) W) (dialect_ : SQLDialect).

(** The publisher's own state [P] sits beside the world of the phases. *)
Definition beside {A} (m : prog W exn A) : prog (P * W) exn A :=
  fun '(p, w) => let '(o, w') := m w in (o, (p, w')).
Definition beside_publisher : Collaborators (V:=V) (Answer:=Answer) (P * W) :=
  {| nlu_parse := fun q => beside (nlu_parse c q); schema_link := fun x => beside (schema_link c x);
     load_knowledge := beside (load_knowledge c); retrieve := fun x => beside (retrieve c x);
     compile_prompt := fun b d => beside (compile_prompt c b d);
     generate_from := fun p => beside (generate_from c p); validate_sql := fun g => beside (validate_sql c g);
     repair_with := fun g v b => beside (repair_with c g v b);
     execute_sql := fun g v => beside (execute_sql c g v); format_answer := fun x => beside (format_answer c x) |}.

Context (pub : StageEventPublisher (V:=V) (Answer:=Answer) (P * W)).
#[local] Abbreviation nobody := (None : option (StageEventPublisher (V:=V) (Answer:=Answer) W)).
(** It changes only its own state and never raises. *)
Definition listens (m : prog (P * W) exn unit) : Prop := forall p w, exists p', m (p, w) = (Ret tt, (p', w)).
Record only_listens : Prop := {
  listens_pipeline_started : forall q, listens (pub_pipeline_started pub q);
  listens_stage_started : forall s, listens (pub_stage_started pub s);
  listens_stage_completed : forall s d, listens (pub_stage_completed pub s d);
  listens_stage_failed : forall s d e, listens (pub_stage_failed pub s d e);
  listens_pipeline_completed : forall r, listens (pub_pipeline_completed pub r);
  listens_pipeline_failed : forall e, listens (pub_pipeline_failed pub e) }.
Context (Hpub : only_listens).

(** The same run, told or not. *)
Definition same {A} (m1 : prog (Local (V:=V) * W) exn A) (m2 : prog (Local (V:=V) * (P * W)) exn A) : Prop :=
  forall l p w, exists p',
  m2 (l, (p, w)) = (fst (m1 (l, w)), (fst (snd (m1 (l, w))), (p', snd (snd (m1 (l, w)))))).

Lemma same_ret {A} (a : A) : same (ret a) (ret a).
Proof. intros l p w. by eexists. Qed.
Lemma same_modify f : same (modify f) (modify f).
Proof. intros l p w. by eexists. Qed.
Lemma same_bind {A B} (m1 : prog (Local (V:=V) * W) exn A) m2 (k1 : A -> prog (Local (V:=V) * W) exn B) k2 :
  same m1 m2 -> (forall a, same (k1 a) (k2 a)) -> same (bind m1 k1) (bind m2 k2).
Proof.
  intros Hm Hk l p w. destruct (Hm l p w) as [p1 E]. unfold bind. rewrite E.
  destruct (m1 (l, w)) as [[e|a] [l' w']]; simpl; [by eexists|]. apply Hk.
Qed.
Lemma same_call {A} (m : prog W exn A) : same (on_world m) (on_world (beside m)).
Proof. intros l p w. exists p. unfold on_world, beside. by destruct (m w). Qed.
Lemma same_clock {A} (m1 : prog W exn A) (m2 : prog (P * W) exn A) :
  (forall p w, m2 (p, w) = (fst (m1 w), (p, snd (m1 w)))) -> same (on_world m1) (on_world m2).
Proof. intros E l p w. exists p. unfold on_world. rewrite E. by destruct (m1 w). Qed.
Lemma tick_beside (p : P) (w : W) : tick (p, w) = (fst (tick w), (p, snd (tick w))).
Proof. unfold tick at 1, fresh_clock. by destruct (tick w). Qed.
Lemma perf_counter_beside (p : P) (w : W) :
  perf_counter (E:=exn) (p, w) = (fst (perf_counter (E:=exn) w), (p, snd (perf_counter (E:=exn) w))).
Proof. unfold perf_counter. rewrite tick_beside. by destruct (tick w). Qed.
Lemma elapsed_beside t (p : P) (w : W) :
  elapsed_ms (E:=exn) t (p, w) = (fst (elapsed_ms (E:=exn) t w), (p, snd (elapsed_ms (E:=exn) t w))).
Proof. by rewrite !elapsed_ms_eq, tick_beside. Qed.
Lemma same_notify (f : forall W, StageEventPublisher (V:=V) (Answer:=Answer) W -> prog W exn unit) :
  listens (f _ pub) -> same (on_world (notify nobody (f W))) (on_world (notify (Some pub) (f _))).
Proof.
  intros Hf l p w. destruct (Hf p w) as [p' E]. exists p'. unfold on_world. simpl. by rewrite E.
Qed.

Lemma same_run_stage {A} s (call : prog W exn A) save :
  same (run_stage nobody s call save) (run_stage (Some pub) s (beside call) save).
Proof using Hpub.
  unfold run_stage. apply same_bind; [apply same_modify|intros _].
  apply same_bind; [apply (same_notify (fun W p => pub_stage_started p s)), Hpub|intros _].
  apply same_bind; [apply same_clock, perf_counter_beside|intros t].
  apply same_bind; [apply same_modify|intros _]. apply same_bind; [apply same_call|intros a].
  apply same_bind; [apply same_modify|intros _]. apply same_bind; [|intros _; apply same_ret].
  intros l p w. unfold notify_completed.
  assert (Hn : same (let! d := on_world (elapsed_ms (stage_started l)) in let! _ := modify (add_timing s d) in
      on_world (notify nobody (fun p => pub_stage_completed p s d)))
     (let! d := on_world (elapsed_ms (stage_started l)) in let! _ := modify (add_timing s d) in
      on_world (notify (Some pub) (fun p => pub_stage_completed p s d)))); [|apply Hn].
  apply same_bind; [apply same_clock, elapsed_beside|intros d]. apply same_bind; [apply same_modify|intros _].
  apply (same_notify (fun W p => pub_stage_completed p s d)), Hpub.
Qed.

Lemma same_generation q :
  same (generation_body c dialect_ nobody q) (generation_body beside_publisher dialect_ (Some pub) q).
Proof using Hpub.
  unfold generation_body. do 6 (apply same_bind; [apply same_run_stage|intro]). cbv zeta.
  apply same_bind; [apply same_modify|intros _].
  apply same_bind; [apply (same_notify (fun W p => pub_stage_started p LLM)), Hpub|intros _].
  apply same_bind; [match goal with |- context[pub_stage_completed _ LLM ?d] =>
    apply (same_notify (fun W p => pub_stage_completed p LLM d)) end; apply Hpub|intros _].
  apply same_bind; [apply same_run_stage|intros v]. apply same_bind; [apply same_modify|intros _].
  apply same_bind; [|intros [fg fv] l p w; by eexists].
  destruct (is_valid v); [apply same_ret|]. apply same_bind; [apply same_run_stage|intros r].
  apply same_bind; [apply same_modify|intros _; apply same_ret].
Qed.

Lemma same_execution q o t :
  same (execution_body c nobody q o t) (execution_body beside_publisher (Some pub) q o t).
Proof using Hpub.
  assert (Hend : forall x a st err, same
      (let! response := make_response q o x a st err t in
       let! _ := on_world (notify nobody (fun p => pub_pipeline_completed p response)) in ret response)
      (let! response := make_response q o x a st err t in
       let! _ := on_world (notify (Some pub) (fun p => pub_pipeline_completed p response)) in ret response)).
  { intros x a st err. apply same_bind.
    - intros l p w. exists p. unfold make_response. rewrite !bind_on_world, elapsed_beside. by destruct (elapsed_ms t w) as [[]].
    - intros r. apply same_bind; [|intros _; apply same_ret].
      apply (same_notify (fun W p => pub_pipeline_completed p r)), Hpub. }
  unfold execution_body. apply same_bind; [apply same_run_stage|intros x].
  destruct (negb _); [apply Hend|]. apply same_bind; [apply same_run_stage|intros a]. apply Hend.
Qed.

Lemma wrap_failure_listens {A} gen val l e (p : P) (w : W) :
  exists p' w', wrap_failure (A:=A) (Some pub) gen val l e (p, w)
    = (fst (wrap_failure (A:=A) nobody gen val l e w), (p', w')) /\
  (w' = snd (wrap_failure (A:=A) nobody gen val l e w) \/ w' = snd (tick (snd (wrap_failure (A:=A) nobody gen val l e w)))).
Proof using Hpub.
  unfold wrap_failure. destruct (is_Exception e); simpl; [|by eauto].
  unfold bind. rewrite elapsed_beside, elapsed_ms_eq. simpl.
  match goal with |- context[pub_stage_failed pub ?s ?d ?x (p, ?w')] =>
    destruct (listens_stage_failed Hpub s d x p w') as [p1 ->] end.
  match goal with |- context[pub_pipeline_failed pub ?x (p1, ?w')] =>
    destruct (listens_pipeline_failed Hpub x p1 w') as [p2 ->] end.
  eauto.
Qed.
End Transparency.

Section TransparencyProps.
Context {V Answer W P : Type} `{Clock W}.
#[local] Abbreviation nobody := (None : option (StageEventPublisher (V:=V) (Answer:=Answer) W)).
Context (c : Collaborators (V:=V) (Answer:=Answer) W) (dialect_ : SQLDialect).

(** Streaming changes nothing: with a publisher that only listens, [run] returns
    the very response it returns without one and leaves the same world, and it raises
    the very same error; a failing run merely reads the clock once more. *)
Theorem publisher_transparent (pub : StageEventPublisher (V:=V) (Answer:=Answer) (P * W)) q p w :
  only_listens pub ->
  exists p' w', run (beside_publisher c) dialect_ (Some pub) q (p, w)
    = (fst (run c dialect_ nobody q w), (p', w')) /\
  match run c dialect_ nobody q w with
  | (Ret _, w1) => w' = w1
  | (Raise _, w1) => w' = w1 \/ w' = snd (tick w1)
  end.
Proof.
  intros Hpub. rewrite !run_eq, tick_beside. destruct (tick w) as [t w1]. cbn [fst snd].
  change (notify nobody _ w1) with (Ret (E:=exn) tt, w1). cbn [notify].
  destruct (listens_pipeline_started _ Hpub q p w1) as [p1 ->].
  unfold generate_and_validate, perf_counter. rewrite tick_beside. destruct (tick w1) as [t2 w2]. cbn [fst snd].
  destruct (same_generation c dialect_ pub Hpub q (set_started t2 initial_local) p1 w2) as [p2 ->].
  destruct (generation_body c dialect_ nobody q _) as [[e|o] [l w3]]; cbn [fst snd].
  - destruct (wrap_failure_listens (A:=GenerationOutcome) pub Hpub (l_generated l) (l_validation l) l e p2 w3)
      as (p3 & w4 & -> & Hw).
    pose proof (wrap_failure_ending (A:=GenerationOutcome) nobody (l_generated l) (l_validation l) l e w3) as He.
    destruct (wrap_failure nobody _ _ _ _ w3) as [[x|x] w5]; simpl in *; [eauto|done].
  - destruct (same_execution c pub Hpub q o t (local_of o t) p2 w3) as [p3 ->].
    destruct (execution_body c nobody q o t _) as [[e|r] [l2 w4]]; cbn [fst snd]; [|eauto].
    destruct (wrap_failure_listens (A:=QueryMindResponse (V:=V) (Answer:=Answer)) pub Hpub
      (Some (final_generated_sql o)) (Some (final_validation o)) l2 e p3 w4) as (p4 & w5 & -> & Hw).
    pose proof (wrap_failure_ending (A:=QueryMindResponse (V:=V) (Answer:=Answer)) nobody
      (Some (final_generated_sql o)) (Some (final_validation o)) l2 e w4) as He.
    destruct (wrap_failure nobody _ _ _ _ w4) as [[x|x] w6]; simpl in *; [eauto|done].
Qed.

Lemma response_needs_publisher (pub : StageEventPublisher (V:=V) (Answer:=Answer) W) q o t lw r w' :
  (forall r w, exists e w', pub_pipeline_completed pub r w = (Raise e, w')) ->
  execution_body c (Some pub) q o t lw <> (Ret r, w').
Proof.
  intros Hp. unfold execution_body. intros Hr. apply bind_Ret_inv in Hr as (x & [l1 w1] & _ & Hr).
  assert (Hno : forall a st err l w, (let! response := make_response q o x a st err t in
    let! _ := on_world (notify (Some pub) (fun p => pub_pipeline_completed p response)) in
    ret response) (l, w) <> (Ret r, w')).
  { intros a st err l w Hx. apply bind_Ret_inv in Hx as (r' & [l2 w2] & _ & Hx).
    rewrite bind_on_world in Hx. simpl in Hx. destruct (Hp r' w2) as (e & w3 & He). by rewrite He in Hx. }
  destruct (negb _); [by apply Hno in Hr|]. apply bind_Ret_inv in Hr as (a & [l2 w2] & _ & Hr). by apply Hno in Hr.
Qed.

(** A publisher is not passive: one whose [pipeline_completed] raises turns every
    answer into a failure, even after the SQL was executed and its answer formatted. *)
Theorem publisher_failure_fails_the_answer (pub : StageEventPublisher (V:=V) (Answer:=Answer) W) q w r w' :
  (forall r w, exists e w', pub_pipeline_completed pub r w = (Raise e, w')) ->
  ask c dialect_ (Some pub) q w = (Ret r, w') -> resp_status r = P_FAILED /\ business_answer r = None.
Proof.
  intros Hp. unfold ask, plain, try_except, perf_counter. destruct (tick w) as [t w1].
  destruct (run c dialect_ (Some pub) q w1) as [[[e|e]|r'] w2] eqn:Er.
  - unfold bind. rewrite elapsed_ms_eq. unfold ret. by intros [= <- <-].
  - destruct (is_Exception e); [|done]. unfold bind. rewrite elapsed_ms_eq. unfold ret. by intros [= <- <-].
  - exfalso. unfold run in Er. apply bind_Ret_inv in Er as (t2 & w3 & _ & Er).
    apply bind_Ret_inv in Er as ([] & w4 & _ & Er). apply bind_Ret_inv in Er as (o & w5 & _ & Er).
    destruct (execution_body _ _ _ _ _ _) as [[e|r2] [l w6]] eqn:Ex.
    + pose proof (wrap_failure_ending (A:=QueryMindResponse (V:=V) (Answer:=Answer)) (Some pub)
        (Some (final_generated_sql o)) (Some (final_validation o)) l e w6) as He. by rewrite Er in He.
    + by apply response_needs_publisher in Ex.
Qed.
End TransparencyProps.

(** ** Witnesses *)
Module AskDemo.
Definition bundle0 : RetrievedKnowledgeBundle := empty_bundle.
Definition rows_of (s : string) : SQLExecutionResult Z :=
  {| exec_status := SUCCESS; executed_sql := s;
     query_result := Some {| columns := []; rows := [[7]]; row_count := 1 |};
     exec_statistics := {| execution_latency_ms := 1; rows_returned := 1; columns_returned := 1;
       database_name := "querymind"; es_dialect := POSTGRESQL |};
     execution_error := None |}.
(** Phases that succeed at once, except the NLU when told otherwise. *)
Definition phases {W} (parse : string -> prog W exn QueryContext) : Collaborators (V:=Z) (Answer:=Z) W :=
  {| nlu_parse := parse;
     schema_link := fun _ => ret (linked_query_context bundle0);
     load_knowledge := ret tt;
     retrieve := fun _ => ret bundle0;
     compile_prompt := fun _ _ => ret demo_prompt;
     generate_from := fun _ => ret (Repair.Demo.generated "SELECT 1;");
     validate_sql := fun g => ret (Repair.Demo.result_of g []);
     repair_with := fun _ _ _ => throw (OtherException "Unreachable" "");
     execute_sql := fun g _ => ret (rows_of (sql g));
     format_answer := fun _ => ret 7 |}.
Definition understood {W} (_ : string) : prog W exn QueryContext :=
  ret (query_context (linked_query_context bundle0)).
Definition cancelled {W} (_ : string) : prog W exn QueryContext := throw (BaseExceptionOnly "CancelledError" "").
Definition confused {W} (_ : string) : prog W exn QueryContext := throw (OtherException "NLUError" "what?").

Definition Log : Type := list (Event (V:=Z) (Answer:=Z)).
#[global] Instance Log_clock : Clock Log := fun l => (f_of_Z (Z.of_nat (length l)), l).
Definition log (e : Event (V:=Z) (Answer:=Z)) (l : Log) : Log := (l ++ [e])%list.
Lemma log_recorder parse :
  (forall q, silent id (parse q)) -> only_recorder (W:=Log) (phases parse) id log.
Proof. intros Hp. split; try done. Qed.
Definition listener : StageEventPublisher (V:=Z) (Answer:=Z) (nat * Log) :=
  let count : prog (nat * Log) exn unit := fun '(n, l) => (Ret tt, (S n, l)) in
  {| pub_pipeline_started := fun _ => count; pub_stage_started := fun _ => count;
     pub_stage_completed := fun _ _ => count; pub_stage_failed := fun _ _ _ => count;
     pub_pipeline_completed := fun _ => count; pub_pipeline_failed := fun _ => count |}.
Definition broken_pipe : StageEventPublisher (V:=Z) (Answer:=Z) Log :=
  {| pub_pipeline_started := fun _ => ret tt; pub_stage_started := fun _ => ret tt;
     pub_stage_completed := fun _ _ => ret tt; pub_stage_failed := fun _ _ _ => ret tt;
     pub_pipeline_completed := fun _ => throw (OtherException "BrokenPipeError" "gone");
     pub_pipeline_failed := fun _ => ret tt |}.
Definition status_of (o : outcome (pipeline_exn (V:=Z)) (QueryMindResponse (V:=Z) (Answer:=Z)))
  : option (PipelineStatus * option Z) :=
  match o with Ret r => Some (resp_status r, business_answer r) | Raise _ => None end.
Definition failure_of (o : outcome (pipeline_exn (V:=Z)) (QueryMindResponse (V:=Z) (Answer:=Z)))
  : option (list StageTiming * PipelineStage * exn) :=
  match o with Raise (Wrapped e) => Some (pe_stage_timings e, pe_stage e, pe_cause e) | _ => None end.
End AskDemo.

Lemma ask_never_raises_witness :
  exists e w', ask (AskDemo.phases AskDemo.cancelled) POSTGRESQL None "q" ([] : AskDemo.Log) = (Raise e, w') /\
    exists x, e = Plain x /\ is_Exception x = false.
Proof.
  assert (Hs : AskDemo.status_of (fst (ask (AskDemo.phases AskDemo.cancelled) POSTGRESQL None "q" ([] : AskDemo.Log)))
    = None) by (vm_compute; reflexivity).
  destruct (ask (AskDemo.phases AskDemo.cancelled) POSTGRESQL None "q" ([] : AskDemo.Log)) as [[e|r] w'] eqn:E;
    [|discriminate Hs].
  exists e, w'. split; [reflexivity|]. exact (ask_never_raises _ _ _ _ _ _ _ E).
Defined.

Lemma ask_response_witness :
  exists r w', ask (AskDemo.phases AskDemo.understood) POSTGRESQL None "q" ([] : AskDemo.Log) = (Ret r, w') /\
    business_answer r = Some 7 /\ error r = None.
Proof.
  assert (Hs : AskDemo.status_of (fst (ask (AskDemo.phases AskDemo.understood) POSTGRESQL None "q" ([] : AskDemo.Log)))
    = Some (P_SUCCESS, Some 7)) by (vm_compute; reflexivity).
  destruct (ask (AskDemo.phases AskDemo.understood) POSTGRESQL None "q" ([] : AskDemo.Log)) as [[e|r] w'] eqn:E;
    [discriminate Hs|]. injection Hs as Hst Ha. exists r, w'.
  pose proof (ask_response _ _ _ _ _ _ _ E) as Hw. split; [reflexivity|]. split; [exact Ha|].
  exact (proj1 (well_error _ _ Hw) Hst).
Defined.

Lemma event_stream_witness :
  exists e w' d, run (AskDemo.phases AskDemo.confused) POSTGRESQL (Some (recorder AskDemo.log)) "q" ([] : AskDemo.Log)
    = (Raise (Wrapped e), w') /\ w' = [EvPipelineStarted "q"; EvStageStarted NLU;
       EvStageFailed NLU d (OtherException "NLUError" "what?"); EvPipelineFailed e].
Proof.
  assert (Hv : AskDemo.failure_of (fst (run (AskDemo.phases AskDemo.confused) POSTGRESQL (Some (recorder AskDemo.log)) "q"
    ([] : AskDemo.Log))) = Some ([], NLU, OtherException "NLUError" "what?")) by (vm_compute; reflexivity).
  pose proof (event_stream (AskDemo.phases AskDemo.confused) POSTGRESQL id AskDemo.log "q" ([] : AskDemo.Log)
    (AskDemo.log_recorder AskDemo.confused (fun q w => eq_refl))) as He.
  cbv zeta in He. match type of He with context[run ?a ?b ?c ?d ?e] => change (run a b c d e) with
    (run (AskDemo.phases AskDemo.confused) POSTGRESQL (Some (recorder AskDemo.log)) "q" ([] : AskDemo.Log)) in He end.
  destruct (run (AskDemo.phases AskDemo.confused) POSTGRESQL (Some (recorder AskDemo.log)) "q" ([] : AskDemo.Log))
    as [[[e|e]|r] w']; [|discriminate Hv..].
  injection Hv as H1 H2 H3. destruct He as [d He]. rewrite H1, H2, H3 in He. exists e, w', d.
  split; [reflexivity|]. exact He.
Defined.

Lemma publisher_transparent_witness :
  exists p', fst (run (beside_publisher (AskDemo.phases AskDemo.understood)) POSTGRESQL (Some AskDemo.listener) "q"
    (0%nat, [] : AskDemo.Log)) = fst (run (AskDemo.phases AskDemo.understood) POSTGRESQL None "q" ([] : AskDemo.Log)) /\
    fst (snd (run (beside_publisher (AskDemo.phases AskDemo.understood)) POSTGRESQL (Some AskDemo.listener) "q"
    (0%nat, [] : AskDemo.Log))) = p'.
Proof.
  destruct (publisher_transparent (AskDemo.phases AskDemo.understood) POSTGRESQL AskDemo.listener "q" 0%nat ([] : AskDemo.Log))
    as (p' & w' & E & _).
  - split; intros; intros n l; exists (S n); reflexivity.
  - exists p'. rewrite E. split; reflexivity.
Defined.

Lemma publisher_failure_fails_the_answer_witness :
  exists r w', ask (AskDemo.phases AskDemo.understood) POSTGRESQL (Some AskDemo.broken_pipe) "q" ([] : AskDemo.Log)
    = (Ret r, w') /\ resp_status r = P_FAILED.
Proof.
  assert (Hs : AskDemo.status_of (fst (ask (AskDemo.phases AskDemo.understood) POSTGRESQL (Some AskDemo.broken_pipe) "q"
    ([] : AskDemo.Log))) = Some (P_FAILED, None)) by (vm_compute; reflexivity).
  destruct (ask (AskDemo.phases AskDemo.understood) POSTGRESQL (Some AskDemo.broken_pipe) "q" ([] : AskDemo.Log))
    as [[e|r] w'] eqn:E; [discriminate Hs|]. exists r, w'. split; [reflexivity|].
  refine (proj1 (publisher_failure_fails_the_answer _ _ _ _ _ _ _ _ E)).
  intros r0 w0. exists (OtherException "BrokenPipeError" "gone"), w0. reflexivity.
Defined.
