(* ===== verification/EndToEnd.v ===== *)
(** * The pipeline with its real engines

    The collaborators of the orchestrator that decide what reaches the database are
    the engines of [Validation], [Repair] and [Execution], wired as the composition
    root ([api/container.py]) wires them: one validator, shared by the first
    validation and by repair, and one execution engine with its guard. *)
From S2P Require Import Prelude PyFloat PyStr Models ContextModels Metadata BusinessKnowledge Validation PromptCompiler Repair Execution Orchestrator.
#[local] Open Scope string_scope.
#[local] Open Scope Z_scope.

(** ** Runs depend on the execution engine through one call *)
Section Ext.
Context {V Answer W : Type} `{Clock W}.
Context (c c' : Collaborators (V:=V) (Answer:=Answer) W) (dialect_ : SQLDialect).
Context (publisher : option (StageEventPublisher (V:=V) (Answer:=Answer) W)).

Lemma run_stage_ext {A} s (call call' : prog W exn A) save lw :
  (forall w, call w = call' w) -> run_stage publisher s call save lw = run_stage publisher s call' save lw.
Proof.
  intros Hc. destruct lw as [l w]. unfold run_stage. rewrite !bind_modify_eq, !bind_on_world.
  destruct (notify _ _ w) as [[e|[]] w1]; [done|]. rewrite !bind_on_world. unfold perf_counter.
  destruct (tick w1) as [t w2]. by rewrite !bind_modify_eq, !bind_on_world, Hc.
Qed.

(** [c'] differs from [c] in its execution engine only. *)
Definition with_execute (x : GeneratedSQL -> SQLValidationResult -> prog W exn (SQLExecutionResult V)) :=
  {| nlu_parse := nlu_parse c; schema_link := schema_link c; load_knowledge := load_knowledge c;
     retrieve := retrieve c; compile_prompt := compile_prompt c; generate_from := generate_from c;
     validate_sql := validate_sql c; repair_with := repair_with c; execute_sql := x;
     format_answer := format_answer c |}.

Lemma ask_ext x q w :
  (forall g v r att perf w, settled c g v r att perf -> x g v w = execute_sql c g v w) ->
  ask (with_execute x) dialect_ publisher q w = ask c dialect_ publisher q w.
Proof.
  intros Hx.
  assert (Hrun : forall w, run (with_execute x) dialect_ publisher q w = run c dialect_ publisher q w).
  { clear w. intros w. rewrite !run_eq. destruct (tick w) as [t w1].
    destruct (notify _ _ w1) as [[e|[]] w2]; [done|].
    change (generate_and_validate (with_execute x) dialect_ publisher q w2)
      with (generate_and_validate c dialect_ publisher q w2).
    pose proof (generate_and_validate_ending c dialect_ publisher q w2) as Hg.
    destruct (generate_and_validate c dialect_ publisher q w2) as [[e|o] w3]; [done|].
    destruct Hg as [_ Hset]. unfold execution_body. unfold bind at 1 3.
    rewrite (run_stage_ext SQL_EXECUTION (execute_sql (with_execute x) _ _) (execute_sql c _ _)) by
      (intros; by eapply Hx). done. }
  unfold ask. destruct (plain perf_counter w) as [[e|t] w1]; [done|]. by rewrite Hrun.
Qed.
End Ext.

Section Wired.
Context {node : Type} `{Sqlglot node} `{PySet} {W V Answer : Type} `{Clock W}.
(** sqlglot's parsers, and the first write node of a tree. *)
Context (parse_one : string -> string -> outcome exn node).
Context (sqlglot_parse : string -> string -> outcome exn (list (option node))) (timeout : Q).
Context (find_any : list node_class -> node -> option node).
(** The schema, the business knowledge and the relationship graph. *)
Context (metadata : DatabaseMetadata) (knowledge : option BusinessKnowledgeCatalog) (graph : RelationshipGraph).
(** Repair's prompt builder and its LLM. *)
Context (max_attempts : Z).
Context (build_prompt : RetrievedKnowledgeBundle -> GeneratedSQL -> SQLValidationResult -> RepairPlan ->
                        prog W exn CompiledPrompt).
Context (llm_repair : CompiledPrompt -> prog W exn LLMResponse).
Context (show_float : Q -> string).
(** The phases before validation, and the formatter, are any. *)
Context (phases : Collaborators (V:=V) (Answer:=Answer) W).

Definition validator : GeneratedSQL -> prog W exn SQLValidationResult :=
  validate parse_one (build_default_registry (Some metadata) knowledge graph "postgres").
Definition guard : GeneratedSQL -> SQLValidationResult -> outcome exn ExecutionPermit :=
  check sqlglot_parse timeout find_any.
Definition wired (database : Database W V) : Collaborators (V:=V) (Answer:=Answer) W :=
  {| nlu_parse := nlu_parse phases; schema_link := schema_link phases; load_knowledge := load_knowledge phases;
     retrieve := retrieve phases; compile_prompt := compile_prompt phases;
     generate_from := generate_from phases; validate_sql := validator;
     repair_with := repair max_attempts build_prompt llm_repair validator;
     execute_sql := execute database show_float guard; format_answer := format_answer phases |}.

(** What may be sent to the database: one [SELECT] without a write node, trimmed from
    a text that validation found grounded in the schema. *)
Definition safe_sql (s : string) : Prop :=
  exists g p parsed statement, s = strip (sql g) /\ dialect g = POSTGRESQL /\
    parse parse_one (sql g) "postgres" = Ret p /\ grounded metadata graph p /\
    sqlglot_parse s "postgres" = Ret parsed /\ omap id parsed = [statement] /\
    isinstance E_Select statement = true /\ find_any WRITE_NODE_TYPES statement = None.

(** The validator answered this about that. *)
Definition vouched (g : GeneratedSQL) (v : SQLValidationResult) : Prop :=
  exists w w', validator g w = (Ret v, w').
Lemma settled_vouched database g v r att perf : settled (wired database) g v r att perf -> vouched g v.
Proof.
  destruct 1 as [g v w1 w2 Hv _|g v w1 w2 b w3 w4 r Hv _ Hr]; [by exists w1, w2|].
  refine (repair_pair _ _ _ _ vouched _ _ _ _ _ _ _ _ Hr).
  - intros g' wa v' wb Hg. by exists wa, wb.
  - by exists w1, w2.
Qed.
Lemma vouched_safe g v p : vouched g v -> guard g v = Ret p -> safe_sql (permit_sql p).
Proof.
  intros (w & w' & Hv) Hg. unfold guard in Hg.
  apply check_Ret in Hg as (Hval & _ & (parsed & st & Hp & Ho & Hs & Hf) & ->).
  apply validated_grounded in Hv as (Hd & tree & Ht & Hgr); [|done]. rewrite Hd in Hp.
  exists g, tree, parsed, st. split_and!; done.
Qed.
End Wired.

(** ** Properties *)
Section Props.
Context {node : Type} `{Sqlglot node} `{PySet} {W V Answer : Type} `{Clock W}.
Context (parse_one : string -> string -> outcome exn node).
Context (sqlglot_parse : string -> string -> outcome exn (list (option node))) (timeout : Q).
Context (find_any : list node_class -> node -> option node).
Context (metadata : DatabaseMetadata) (knowledge : option BusinessKnowledgeCatalog) (graph : RelationshipGraph).
Context (max_attempts : Z).
Context (build_prompt : RetrievedKnowledgeBundle -> GeneratedSQL -> SQLValidationResult -> RepairPlan ->
                        prog W exn CompiledPrompt).
Context (llm_repair : CompiledPrompt -> prog W exn LLMResponse).
Context (show_float : Q -> string).
Context (phases : Collaborators (V:=V) (Answer:=Answer) W) (dialect_ : SQLDialect).
Context (publisher : option (StageEventPublisher (V:=V) (Answer:=Answer) W)).
Context (database : Database W V).

#[local] Abbreviation pipeline := (wired parse_one sqlglot_parse timeout find_any metadata knowledge graph
  max_attempts build_prompt llm_repair show_float phases).
#[local] Abbreviation safe := (safe_sql parse_one sqlglot_parse find_any metadata graph).

Lemma ask_depends_on_safe f q w :
  (forall c s t, safe s -> f c s t = run_sql database c s t) ->
  ask (pipeline (with_run_sql database f)) dialect_ publisher q w = ask (pipeline database) dialect_ publisher q w.
Proof.
  intros Hf.
  change (pipeline (with_run_sql database f)) with
    (with_execute (pipeline database) (execute (with_run_sql database f) show_float (guard sqlglot_parse timeout find_any))).
  apply ask_ext. intros g v r att perf w1 Hs. apply settled_vouched in Hs.
  apply execute_with_run_sql. intros p c Hp. apply Hf. by eapply vouched_safe.
Qed.

(** C1. Only safe SQL reaches the database. Whatever the LLM writes, however often it
    is repaired and however the run ends, [ask] depends on the driver's answers to safe
    texts only: one [SELECT] with no write node, that the validator found grounded in
    the schema. A driver that behaves arbitrarily on every other text makes the same run,
    so no other text is ever sent. *)
Theorem only_safe_sql_reaches_database f q w :
  (forall c s t, safe s -> f c s t = run_sql database c s t) ->
  ask (pipeline (with_run_sql database f)) dialect_ publisher q w = ask (pipeline database) dialect_ publisher q w.
Proof. apply ask_depends_on_safe. Qed.

(** C2. An answer is what the database said to the SQL the response shows. When [ask]
    succeeds, the SQL executed is the trimmed text of [generated_sql], it is safe, the
    validation result shown is its own and accepts it, and the rows are those the
    executor got for it. *)
Theorem answers_are_safe q w r w' :
  ask (pipeline database) dialect_ publisher q w = (Ret r, w') -> resp_status r = P_SUCCESS ->
  exists g v x qr,
    resp_generated_sql r = Some g /\ resp_validation_result r = Some v /\ resp_execution_result r = Some x /\
    generated_sql v = g /\ is_valid v = true /\ executed_sql x = strip (sql g) /\ safe (executed_sql x) /\
    query_result x = Some qr /\
    exists c raw w1 w2, executor_execute database show_float c (strip (sql g)) timeout w1 = (Ret raw, w2) /\
      rows qr = raw_rows raw.
Proof.
  intros Ha Hst. pose proof (ask_ending (pipeline database) dialect_ publisher q w) as He. rewrite Ha in He.
  destruct (well_complete _ _ He Hst) as (_ & x & Hx & Hok).
  destruct (well_executed _ _ He x Hx) as (g & v & w1 & w2 & Hg & Hv & Hset & Hex).
  apply settled_vouched in Hset as Hvo. destruct Hvo as (wa & wb & Hval).
  simpl in Hex. apply execute_facts in Hex as (Hq & _ & _ & Hp & Hrows).
  destruct Hp as (p & Hp & Hs); [by rewrite Hok|].
  destruct (query_result x) as [qr|] eqn:Eq; [|by destruct (proj1 Hq Hok)].
  destruct (Hrows _ eq_refl) as (p' & c & raw & w3 & w4 & Hp' & Hraw & Hr & _).
  rewrite Hp in Hp'. injection Hp' as <-.
  assert (Hsafe : safe (permit_sql p)) by (eapply vouched_safe; [by exists wa, wb|done]).
  unfold guard in Hp. apply check_Ret in Hp as (Hvalid & _ & _ & ->). simpl in *.
  apply validate_result in Hval as (Hgen & _). exists g, v, x, qr. rewrite Hs. split_and!; eauto 8.
Qed.
End Props.

(** ** Witnesses *)
Module PipelineDemo.
Import Orchestrator.AskDemo Execution.ExecDemo.
#[local] Existing Instance Validation.Demo.list_order.
(** An LLM that answers what it is told, in front of the demo database. *)
Definition phases_for (s : string) : Collaborators (V:=Z) (Answer:=Z) DbWorld :=
  let p := AskDemo.phases (W:=DbWorld) AskDemo.understood in
  {| nlu_parse := nlu_parse p; schema_link := schema_link p; load_knowledge := load_knowledge p;
     retrieve := retrieve p; compile_prompt := compile_prompt p;
     generate_from := fun _ => ret (Repair.Demo.generated s); validate_sql := validate_sql p;
     repair_with := repair_with p; execute_sql := execute_sql p; format_answer := format_answer p |}.
Definition repaired_answer (_ : CompiledPrompt) : prog DbWorld exn LLMResponse :=
  ret {| content := Validation.Demo.good_sql; metrics := Repair.Demo.metrics0 |}.
Definition pipeline (s : string) (d : Database DbWorld Z) : Collaborators (V:=Z) (Answer:=Z) DbWorld :=
  wired Validation.Demo.parse_demo parse_list DEFAULT_EXECUTION_TIMEOUT_SECONDS find_write
    Validation.Demo.database (Some Validation.Demo.catalog) Validation.Demo.graph 3
    (fun _ _ _ _ => ret demo_prompt) repaired_answer (fun _ => "30.0") (phases_for s) d.
Definition idle : DbWorld := {| open_conns := 0; sent := [] |}.
Definition asked (s : string) : outcome (pipeline_exn (V:=Z)) (QueryMindResponse (V:=Z) (Answer:=Z)) * DbWorld :=
  ask (pipeline s ExecDemo.database) POSTGRESQL None "q" idle.
(** A driver that destroys everything when given a text with [DELETE] in it. *)
Definition malicious (_ : unit) (s : string) (t : Q) : prog DbWorld exn (CursorResult Z) :=
  if contains "DELETE" s then fun _ => (Raise (OtherException "Catastrophe" ""), {| open_conns := 0; sent := ["gone"] |})
  else run_sql ExecDemo.database tt s t.
End PipelineDemo.

Lemma answers_are_safe_witness :
  exists r w', PipelineDemo.asked "SELEC oops" = (Ret r, w') /\
    exists x, resp_execution_result r = Some x /\
    safe_sql Validation.Demo.parse_demo ExecDemo.parse_list ExecDemo.find_write Validation.Demo.database
      Validation.Demo.graph (executed_sql x).
Proof.
  assert (Hs : AskDemo.status_of (fst (PipelineDemo.asked "SELEC oops")) = Some (P_SUCCESS, Some 7))
    by (vm_compute; reflexivity).
  destruct (PipelineDemo.asked "SELEC oops") as [[e|r] w'] eqn:E; [discriminate Hs|].
  injection Hs as Hst _. unfold PipelineDemo.asked, PipelineDemo.pipeline in E. exists r, w'. split; [reflexivity|].
  destruct (answers_are_safe _ _ _ _ _ _ _ _ _ _ _ _ _ _ _ _ _ _ _ E Hst)
    as (g & v & x & qr & _ & _ & Hx & _ & _ & _ & Hsafe & _).
  exists x. split; [exact Hx|exact Hsafe].
Defined.

Lemma safe_has_no_delete s :
  safe_sql Validation.Demo.parse_demo ExecDemo.parse_list ExecDemo.find_write Validation.Demo.database
    Validation.Demo.graph s -> contains "DELETE" s = false.
Proof.
  intros (g & p & parsed & st & _ & _ & _ & _ & Hp & Ho & Hs & _). unfold ExecDemo.parse_list in Hp.
  destruct (contains "DELETE" s) eqn:E; [|done]. unfold Validation.Demo.parse_demo in Hp.
  destruct (String.eqb_spec s Validation.Demo.good_sql) as [->|_]; [by vm_compute in E|]. rewrite E in Hp.
  destruct (contains "'" s); [done|]. injection Hp as <-. simpl in Ho. injection Ho as <-. by vm_compute in Hs.
Qed.
Lemma only_safe_sql_reaches_database_witness :
  ask (PipelineDemo.pipeline "DELETE FROM orders;" (with_run_sql ExecDemo.database PipelineDemo.malicious))
    POSTGRESQL None "q" PipelineDemo.idle = PipelineDemo.asked "DELETE FROM orders;".
Proof.
  refine (only_safe_sql_reaches_database Validation.Demo.parse_demo ExecDemo.parse_list DEFAULT_EXECUTION_TIMEOUT_SECONDS
    ExecDemo.find_write Validation.Demo.database (Some Validation.Demo.catalog) Validation.Demo.graph 3
    (fun _ _ _ _ => ret demo_prompt) PipelineDemo.repaired_answer (fun _ => "30.0")
    (PipelineDemo.phases_for "DELETE FROM orders;") POSTGRESQL None ExecDemo.database PipelineDemo.malicious
    "q" PipelineDemo.idle _). intros [] s t Hs. apply safe_has_no_delete in Hs.
  unfold PipelineDemo.malicious. rewrite Hs. reflexivity.
Defined.
