(* ===== verification/Streaming.v ===== *)
(** * Streaming ([querymind.streaming])

    The events, the in-process [EventBus], the emitter that turns the runner's
    callbacks into events, and [stream_pipeline_events], which interleaves the
    pipeline task, the heartbeat task and the consumer. *)
From S2P Require Import Prelude PyFloat PyStr Models Orchestrator.
#[local] Open Scope string_scope.
#[local] Open Scope Z_scope.

(** ** [models.py] *)
Inductive PipelineEventType :=
| PIPELINE_STARTED | STAGE_STARTED | STAGE_COMPLETED | STAGE_FAILED | PIPELINE_COMPLETED | PIPELINE_FAILED
| HEARTBEAT | CLIENT_DISCONNECTED.
#[export] Instance PipelineEventType_eq_dec : EqDecision PipelineEventType.
Proof. solve_decision. Defined.
Definition PipelineEventType_value (t : PipelineEventType) : string :=
  match t with
  | PIPELINE_STARTED => "pipeline_started" | STAGE_STARTED => "stage_started"
  | STAGE_COMPLETED => "stage_completed" | STAGE_FAILED => "stage_failed"
  | PIPELINE_COMPLETED => "pipeline_completed" | PIPELINE_FAILED => "pipeline_failed"
  | HEARTBEAT => "heartbeat" | CLIENT_DISCONNECTED => "client_disconnected"
  end.

Section Streaming.
(** The JSON dump of a [BusinessAnswer]. *)
Context {Dump : Type}.
Inductive json := JString (s : string) | JNumber (q : Q) | JNull | JDump (d : Dump).
(** [event_id] and [timestamp] are fresh values nothing depends on. *)
Record PipelineEvent := {
  correlation_id : string;
  pipeline_stage : option PipelineStage;
  event_type : PipelineEventType;
  payload : list (string * json) }.

Definition error_payload (e : exn) : list (string * json) :=
  [("error_type", JString (exn_class e)); ("error_message", JString (exn_str e))].
Definition PipelineStartedEvent_create (cid q : string) : PipelineEvent :=
  {| correlation_id := cid; pipeline_stage := None; event_type := PIPELINE_STARTED;
     payload := [("original_question", JString q)] |}.
Definition StageStartedEvent_create (cid : string) (s : PipelineStage) : PipelineEvent :=
  {| correlation_id := cid; pipeline_stage := Some s; event_type := STAGE_STARTED; payload := [] |}.
Definition StageCompletedEvent_create (cid : string) (s : PipelineStage) (d : Q) : PipelineEvent :=
  {| correlation_id := cid; pipeline_stage := Some s; event_type := STAGE_COMPLETED;
     payload := [("duration_ms", JNumber d)] |}.
Definition StageFailedEvent_create (cid : string) (s : PipelineStage) (d : Q) (e : exn) : PipelineEvent :=
  {| correlation_id := cid; pipeline_stage := Some s; event_type := STAGE_FAILED;
     payload := ("duration_ms", JNumber d) :: error_payload e |}.
Definition PipelineStatus_value (s : PipelineStatus) : string :=
  match s with P_SUCCESS => "success" | P_FAILED => "failed" end.
Definition PipelineCompletedEvent_create {V Answer} (dump : Answer -> Dump) (cid : string)
    (r : QueryMindResponse (V:=V) (Answer:=Answer)) : PipelineEvent :=
  {| correlation_id := cid; pipeline_stage := None; event_type := PIPELINE_COMPLETED;
     payload := [("status", JString (PipelineStatus_value (resp_status r)));
                 ("error", match error r with Some e => JString e | None => JNull end);
                 ("business_answer", match business_answer r with Some a => JDump (dump a) | None => JNull end)] |}.
Definition PipelineFailedEvent_create (cid cls msg : string) : PipelineEvent :=
  {| correlation_id := cid; pipeline_stage := None; event_type := PIPELINE_FAILED;
     payload := [("error_type", JString cls); ("error_message", JString msg)] |}.
Definition HeartbeatEvent_create (cid : string) (elapsed_ms : Q) : PipelineEvent :=
  {| correlation_id := cid; pipeline_stage := None; event_type := HEARTBEAT;
     payload := [("elapsed_ms", JNumber elapsed_ms)] |}.

(** ** [event_bus.py] *)
(** Queues are objects: a number names one, and the bus maps topics to sets of them. *)
Record EventBus := {
  subscribers : gmap string (gset nat);
  queues : gmap nat (list PipelineEvent);
  next_queue : nat }.
Definition empty_bus : EventBus := {| subscribers := ∅; queues := ∅; next_queue := 0 |}.
Record Subscription := { sub_correlation_id : string; sub_queue : nat }.
Inductive bus_exn := UnknownSubscriptionError (cid : string).

Definition topic (cid : string) (b : EventBus) : gset nat := default ∅ (subscribers b !! cid).
Definition subscribe (cid : string) : prog EventBus bus_exn Subscription := fun b =>
  (Ret {| sub_correlation_id := cid; sub_queue := next_queue b |},
   {| subscribers := <[cid := {[next_queue b]} ∪ topic cid b]> (subscribers b);
      queues := <[next_queue b := []]> (queues b); next_queue := S (next_queue b) |}).
Definition unsubscribe (s : Subscription) : prog EventBus bus_exn unit := fun b =>
  match subscribers b !! sub_correlation_id s with
  | None => (Raise (UnknownSubscriptionError (sub_correlation_id s)), b)
  | Some qs =>
      if bool_decide (sub_queue s ∈ qs)
      then let rest := qs ∖ {[sub_queue s]} in
           (Ret tt, {| subscribers := if bool_decide (rest = ∅) then delete (sub_correlation_id s) (subscribers b)
                                      else <[sub_correlation_id s := rest]> (subscribers b);
                       queues := queues b; next_queue := next_queue b |})
      else (Raise (UnknownSubscriptionError (sub_correlation_id s)), b)
  end.
(** [queue.put_nowait(event)] for every queue of the topic. *)
Definition publish (e : PipelineEvent) : prog EventBus bus_exn unit := fun b =>
  (Ret tt, {| subscribers := subscribers b;
              queues := map_imap (fun n q => Some (if bool_decide (n ∈ topic (correlation_id e) b) then (q ++ [e])%list else q))
                          (queues b);
              next_queue := next_queue b |}).
Definition subscriber_count (cid : string) (b : EventBus) : nat := size (topic cid b).

(** What clients and publishers do to the bus. *)
Inductive BusOp := Subscribe (cid : string) | Unsubscribe (s : Subscription) | Publish (e : PipelineEvent).
Definition bus_step (op : BusOp) (b : EventBus) : EventBus :=
  match op with
  | Subscribe cid => snd (subscribe cid b)
  | Unsubscribe s => snd (unsubscribe s b)
  | Publish e => snd (publish e b)
  end.
Definition bus_run (ops : list BusOp) (b : EventBus) : EventBus := fold_left (fun b op => bus_step op b) ops b.

(** ** Lemmas: the bus *)
(** Every queue number is below [next_queue] and in one topic at most; no topic is empty. *)
Record bus_ok (b : EventBus) : Prop := {
  ok_nonempty : forall cid s, subscribers b !! cid = Some s -> s <> ∅;
  ok_old : forall cid n, n ∈ topic cid b -> (n < next_queue b)%nat /\ is_Some (queues b !! n);
  ok_one : forall cid cid' n, n ∈ topic cid b -> n ∈ topic cid' b -> cid = cid' }.

Lemma topic_insert cid s b qs n cid' :
  topic cid' {| subscribers := <[cid := s]> (subscribers b); queues := qs; next_queue := n |}
  = if decide (cid = cid') then s else topic cid' b.
Proof. unfold topic. simpl. case_decide; [subst; by rewrite lookup_insert_eq|by rewrite lookup_insert_ne]. Qed.
Lemma topic_delete cid b qs n cid' :
  topic cid' {| subscribers := delete cid (subscribers b); queues := qs; next_queue := n |}
  = if decide (cid = cid') then ∅ else topic cid' b.
Proof. unfold topic. simpl. case_decide; [subst; by rewrite lookup_delete_eq|by rewrite lookup_delete_ne]. Qed.

Lemma bus_ok_empty : bus_ok empty_bus.
Proof. split; unfold topic; simpl; intros; rewrite ?lookup_empty in *; set_solver. Qed.
Lemma bus_ok_step op b : bus_ok b -> bus_ok (bus_step op b).
Proof.
  intros [Hne Hold Hone]. destruct op as [cid|s|e]; simpl.
  - split.
    + intros cid' s. simpl. destruct (decide (cid = cid')) as [->|]; [rewrite lookup_insert_eq; set_solver|].
      rewrite lookup_insert_ne by done. apply Hne.
    + intros cid' n. rewrite topic_insert. simpl. destruct (decide (n = next_queue b)) as [->|Hn].
      { intros _. rewrite lookup_insert_eq. split; [lia|done]. }
      rewrite lookup_insert_ne by done. destruct (decide (cid = cid')); intros Hin.
      * assert (Hin' : n ∈ topic cid b) by set_solver. destruct (Hold _ _ Hin'). split; [lia|done].
      * destruct (Hold _ _ Hin). split; [lia|done].
    + intros c1 c2 n. rewrite !topic_insert. intros H1 H2.
      assert (Hfresh : forall c, next_queue b ∉ topic c b) by (intros c Hc; destruct (Hold _ _ Hc); lia).
      destruct (decide (cid = c1)) as [<-|], (decide (cid = c2)) as [<-|]; [done| | |eauto].
      * apply elem_of_union in H1 as [->%elem_of_singleton|H1]; [by apply Hfresh in H2|]. eauto.
      * apply elem_of_union in H2 as [->%elem_of_singleton|H2]; [by apply Hfresh in H1|]. eauto.
  - unfold unsubscribe. destruct (subscribers b !! sub_correlation_id s) as [qs|] eqn:Eq; [|done].
    destruct (bool_decide (sub_queue s ∈ qs)) eqn:Ein; [|done]. simpl.
    assert (Htop : topic (sub_correlation_id s) b = qs) by (unfold topic; by rewrite Eq).
    destruct (bool_decide (qs ∖ {[sub_queue s]} = ∅)) eqn:Eempty.
    + split.
      * intros c x. simpl. intros Hx. apply lookup_delete_Some in Hx as [_ Hx]. eauto.
      * intros c n. rewrite topic_delete. destruct (decide (sub_correlation_id s = c)); [by intros Hx%elem_of_empty|]. apply Hold.
      * intros c1 c2 n. rewrite !topic_delete. intros H1 H2.
        destruct (decide (sub_correlation_id s = c1)); [by apply elem_of_empty in H1|].
        destruct (decide (sub_correlation_id s = c2)); [by apply elem_of_empty in H2|]. eauto.
    + apply bool_decide_eq_false in Eempty. split.
      * intros c x. simpl. intros [[<- <-]|[_ Hx]]%lookup_insert_Some; eauto.
      * intros c n. rewrite topic_insert. destruct (decide (sub_correlation_id s = c)) as [<-|]; intros Hin; [|by apply Hold in Hin].
        apply (Hold (sub_correlation_id s)). set_solver.
      * intros c1 c2 n. rewrite !topic_insert. intros H1 H2.
        destruct (decide (sub_correlation_id s = c1)) as [<-|], (decide (sub_correlation_id s = c2)) as [<-|]; [done| | |eauto].
        -- eapply Hone; [|exact H2]. set_solver.
        -- eapply Hone; [exact H1|]. set_solver.
  - split; simpl; [done| |done]. intros c n Hin. change (topic c _) with (topic c b) in Hin.
    destruct (Hold _ _ Hin) as [H1 [q H2]]. split; [done|]. rewrite map_lookup_imap, H2. simpl. eauto.
Qed.
Lemma bus_ok_run ops b : bus_ok b -> bus_ok (bus_run ops b).
Proof. revert b; induction ops as [|op ops IH]; intros b Hb; [done|]. apply IH. by apply bus_ok_step. Qed.

(** What a subscription receives while it is there. *)
Definition published_on (cid : string) (ops : list BusOp) : list PipelineEvent :=
  omap (fun op => match op with
                  | Publish e => if String.eqb (correlation_id e) cid then Some e else None
                  | _ => None end) ops.
Lemma bus_run_receives ops cid n q b :
  bus_ok b -> n ∈ topic cid b -> queues b !! n = Some q ->
  (forall s, Unsubscribe s ∈ ops -> sub_queue s <> n) ->
  queues (bus_run ops b) !! n = Some (q ++ published_on cid ops)%list /\ n ∈ topic cid (bus_run ops b).
Proof.
  revert b q. induction ops as [|op ops IH]; intros b q Hb Hn Hq Hun; [by rewrite app_nil_r|].
  assert (Hb' := bus_ok_step op b Hb). simpl bus_run.
  assert (Hun' : forall s, Unsubscribe s ∈ ops -> sub_queue s <> n) by (intros; apply Hun; by right).
  destruct op as [c|s|e].
  - apply IH; [done| | |done]; simpl.
    + rewrite topic_insert. destruct (decide (c = cid)) as [<-|]; [|done]. apply elem_of_union. by right.
    + rewrite lookup_insert_ne; [done|]. destruct (ok_old _ Hb _ _ Hn). lia.
  - assert (Hs : sub_queue s <> n) by (apply Hun; by left).
    assert (Hkeep : n ∈ topic cid (bus_step (Unsubscribe s) b) /\ queues (bus_step (Unsubscribe s) b) !! n = Some q).
    { simpl. unfold unsubscribe. destruct (subscribers b !! sub_correlation_id s) as [qs|] eqn:Eq; [|done].
      destruct (bool_decide (sub_queue s ∈ qs)) eqn:Ein; [|done]. simpl. split; [|done].
      assert (Htop : topic (sub_correlation_id s) b = qs) by (unfold topic; by rewrite Eq).
      destruct (bool_decide (qs ∖ {[sub_queue s]} = ∅)) eqn:Eempty.
      - apply bool_decide_eq_true in Eempty. rewrite topic_delete. destruct (decide (sub_correlation_id s = cid)) as [<-|]; [|done]. set_solver.
      - rewrite topic_insert. destruct (decide (sub_correlation_id s = cid)) as [<-|]; [|done]. set_solver. }
    destruct Hkeep. by apply IH.
  - simpl published_on. destruct (String.eqb_spec (correlation_id e) cid) as [<-|Hne].
    + rewrite cons_middle, app_assoc. apply IH; [done|done| |done]. simpl. rewrite map_lookup_imap, Hq. simpl.
      by rewrite bool_decide_true.
    + apply IH; [done|done| |done]. simpl. rewrite map_lookup_imap, Hq. simpl.
      rewrite bool_decide_false; [done|]. intros Hin. apply Hne. by eapply (ok_one _ Hb).
Qed.

(** ** [events.py]: the emitter *)
Definition PipelineEventEmitter {V Answer} (dump : Answer -> Dump) (cid : string)
  : StageEventPublisher (V:=V) (Answer:=Answer) EventBus :=
  let send (e : PipelineEvent) : prog EventBus exn unit := fun b => (Ret tt, snd (publish e b)) in
  {| pub_pipeline_started := fun q => send (PipelineStartedEvent_create cid q);
     pub_stage_started := fun s => send (StageStartedEvent_create cid s);
     pub_stage_completed := fun s d => send (StageCompletedEvent_create cid s d);
     pub_stage_failed := fun s d e => send (StageFailedEvent_create cid s d e);
     pub_pipeline_completed := fun r => send (PipelineCompletedEvent_create dump cid r);
     pub_pipeline_failed := fun e => send (PipelineFailedEvent_create cid "PipelineExecutionError" (pe_message e)) |}.

(** ** [subscriber.py]: [stream_pipeline_events] *)
(** How the pipeline task ends. *)
Inductive TaskEnd := Returned | RaisedError (cls msg : string) | Cancelled.
(** The queue of the subscription, what the pipeline task still has to publish, how it
    will end and whether it has, what the consumer was given, and whether the generator
    is closed, or was closed by a consumer that left. *)
Record Stream := {
  s_queue : list PipelineEvent;
  s_todo : list PipelineEvent;
  s_end : TaskEnd;
  s_done : bool;
  s_out : list PipelineEvent;
  s_closed : bool;
  s_left : bool }.
Definition is_terminal (e : PipelineEvent) : bool :=
  bool_decide (event_type e = PIPELINE_COMPLETED \/ event_type e = PIPELINE_FAILED).
Definition is_heartbeat (e : PipelineEvent) : bool := bool_decide (event_type e = HEARTBEAT).

Context (cid : string).
Definition start_stream (evs : list PipelineEvent) (fin : TaskEnd) : Stream :=
  {| s_queue := []; s_todo := evs; s_end := fin; s_done := false; s_out := []; s_closed := false; s_left := false |}.
(** The event synthesised when the task raised without a terminal event. *)
Definition synthesised (fin : TaskEnd) : list PipelineEvent :=
  match fin with RaisedError c m => [PipelineFailedEvent_create cid c m] | _ => [] end.

Inductive stream_step : Stream -> Stream -> Prop :=
| pipeline_publishes q e r fin o :
    stream_step {| s_queue := q; s_todo := e :: r; s_end := fin; s_done := false; s_out := o; s_closed := false; s_left := false |}
      {| s_queue := q ++ [e]; s_todo := r; s_end := fin; s_done := false; s_out := o; s_closed := false; s_left := false |}
| pipeline_ends q fin o :
    stream_step {| s_queue := q; s_todo := []; s_end := fin; s_done := false; s_out := o; s_closed := false; s_left := false |}
      {| s_queue := q; s_todo := []; s_end := fin; s_done := true; s_out := o; s_closed := false; s_left := false |}
| heart_beats q t fin d o ms :
    stream_step {| s_queue := q; s_todo := t; s_end := fin; s_done := d; s_out := o; s_closed := false; s_left := false |}
      {| s_queue := q ++ [HeartbeatEvent_create cid ms]; s_todo := t; s_end := fin; s_done := d; s_out := o;
         s_closed := false; s_left := false |}
| yields e q t fin d o :
    (* a queued event is taken before the end of the task is looked at *)
    stream_step {| s_queue := e :: q; s_todo := t; s_end := fin; s_done := d; s_out := o; s_closed := false; s_left := false |}
      {| s_queue := q; s_todo := t; s_end := fin; s_done := d; s_out := o ++ [e]; s_closed := is_terminal e; s_left := false |}
| closes fin o :
    stream_step {| s_queue := []; s_todo := []; s_end := fin; s_done := true; s_out := o; s_closed := false; s_left := false |}
      {| s_queue := []; s_todo := []; s_end := fin; s_done := true; s_out := o ++ synthesised fin; s_closed := true; s_left := false |}
| consumer_leaves q t fin d o :
    stream_step {| s_queue := q; s_todo := t; s_end := fin; s_done := d; s_out := o; s_closed := false; s_left := false |}
      {| s_queue := q; s_todo := t; s_end := fin; s_done := d; s_out := o; s_closed := true; s_left := true |}.

(** What is not a heartbeat. *)
Definition news (l : list PipelineEvent) : list PipelineEvent := List.filter (fun e => negb (is_heartbeat e)) l.
Lemma news_app l l' : news (l ++ l') = (news l ++ news l')%list.
Proof. apply List.filter_app. Qed.
Lemma news_all l : Forall (fun e => is_heartbeat e = false) l -> news l = l.
Proof.
  induction 1 as [|e l He Hl IH]; [done|]. unfold news in *. simpl. rewrite He. simpl. by rewrite IH.
Qed.

(** The invariant of an open stream, and what a closed one delivered. *)
Record stream_ok (evs : list PipelineEvent) (fin : TaskEnd) (s : Stream) : Prop := {
  ok_end : s_end s = fin;
  ok_done : s_done s = true -> s_todo s = [];
  ok_open : s_closed s = false -> s_left s = false /\ Forall (fun e => is_terminal e = false) (s_out s) /\
    (news (s_out s ++ s_queue s) ++ s_todo s)%list = evs;
  ok_closed : s_closed s = true -> s_left s = false ->
    (exists o e rest, s_out s = (o ++ [e])%list /\ is_terminal e = true /\ Forall (fun e => is_terminal e = false) o /\
       (news (s_out s) ++ rest)%list = evs) \/
    (exists o, s_out s = (o ++ synthesised fin)%list /\ Forall (fun e => is_terminal e = false) o /\ news o = evs) }.

Lemma heartbeat_news c ms : news [HeartbeatEvent_create c ms] = [].
Proof. reflexivity. Qed.
Lemma stream_ok_start evs fin : stream_ok evs fin (start_stream evs fin).
Proof. split; simpl; try done. Qed.
Lemma stream_ok_step evs fin s s' : Forall (fun e => is_heartbeat e = false) evs ->
  stream_step s s' -> stream_ok evs fin s -> stream_ok evs fin s'.
Proof.
  intros Hevs Hs [Hend Hdone Hopen Hclosed]. destruct Hs; simpl in *; destruct (Hopen eq_refl) as (_ & Ho & Hn).
  - split; simpl; try done. intros _. split_and!; [done|done|].
    assert (He : is_heartbeat e = false).
    { rewrite <- Hn in Hevs. apply Forall_app in Hevs as [_ Hevs]. by apply Forall_cons in Hevs as [? _]. }
    rewrite app_assoc, news_app, <- Hn, <- app_assoc. f_equal. unfold news. simpl. by rewrite He.
  - split; simpl; try done.
  - split; simpl; try done. intros _. split_and!; [done|done|].
    by rewrite app_assoc, news_app, heartbeat_news, app_nil_r.
  - split; simpl; [done|done| |].
    + intros Ht. split_and!; [done| |by rewrite <- app_assoc]. apply Forall_app. split; [done|]. by constructor.
    + intros Ht _. left. exists o, e, (news q ++ t)%list. split_and!; try done.
      by rewrite app_assoc, <- news_app, <- app_assoc.
  - split; simpl; try done. intros _ _. right. exists o. split_and!; [by subst|done|].
    by rewrite !app_nil_r in Hn.
  - split; simpl; try done.
Qed.
Lemma stream_ok_reachable evs fin s : Forall (fun e => is_heartbeat e = false) evs ->
  rtc stream_step (start_stream evs fin) s -> stream_ok evs fin s.
Proof.
  intros Hevs Hr. remember (start_stream evs fin) as s0 eqn:E.
  assert (H0 : stream_ok evs fin s0) by (subst; apply stream_ok_start). clear E.
  induction Hr as [|s0 s1 s2 H1 Hr IH]; [done|]. apply IH. by eapply stream_ok_step.
Qed.
End Streaming.

(** ** Properties *)
Section Props.
Context {Dump : Type}.
#[local] Abbreviation Ev := (PipelineEvent (Dump:=Dump)).

(** A subscription receives exactly what is published on its topic while it lasts,
    in order: whatever else happens on the bus, other topics and other subscribers
    included, neither loses, repeats nor adds an event; and the bus never keeps an
    empty topic. *)
Theorem subscription_receives ops before cid :
  let b := bus_run before (empty_bus (Dump:=Dump)) in
  let sub := {| sub_correlation_id := cid; sub_queue := next_queue b |} in
  subscribe cid b = (Ret sub, bus_step (Subscribe cid) b) /\
  ((forall s, Unsubscribe s ∈ ops -> sub_queue s <> sub_queue sub) ->
   queues (bus_run ops (bus_step (Subscribe cid) b)) !! sub_queue sub = Some (published_on cid ops)) /\
  (forall c qs, subscribers (bus_run ops (bus_step (Subscribe cid) b)) !! c = Some qs -> qs <> ∅).
Proof.
  intros b sub. assert (Hb : bus_ok (bus_step (Subscribe cid) b)).
  { apply bus_ok_step, bus_ok_run, bus_ok_empty. }
  split_and!; [done| |].
  - intros Hun. apply (bus_run_receives ops cid (next_queue b) []); [done| | |done]; simpl.
    + rewrite topic_insert. destruct (decide (cid = cid)); [|done]. set_solver.
    + by rewrite lookup_insert_eq.
  - intros c qs. by apply ok_nonempty, bus_ok_run.
Qed.

(** What a client of a stream sees. However the pipeline, the heartbeats and the
    consumer interleave, a stream read to its end delivers, heartbeats aside, every event
    the pipeline published, once and in order, closing right after the terminal event; a
    task that raised without one is reported by a synthesised failure. But a task that
    returned without a terminal event closes the stream without any final event. *)
Theorem stream_delivers cid (evs : list Ev) fin s :
  Forall (fun e => is_heartbeat e = false) evs ->
  rtc (stream_step cid) (start_stream evs fin) s -> s_closed s = true -> s_left s = false ->
  (forall pre t, evs = (pre ++ [t])%list -> is_terminal t = true -> Forall (fun e => is_terminal e = false) pre ->
     news (s_out s) = evs /\ last (s_out s) = Some t) /\
  (Forall (fun e => is_terminal e = false) evs -> news (s_out s) = (evs ++ synthesised cid fin)%list).
Proof.
  intros Hevs Hr Hc Hl. pose proof (stream_ok_reachable cid evs fin s Hevs Hr) as [_ _ _ Hok].
  destruct (Hok Hc Hl) as [(o & e & rest & Ho & Ht & Hnt & Hn)|(o & Ho & Hnt & Hn)].
  - assert (Hne : is_heartbeat e = false).
    { unfold is_terminal, is_heartbeat in *. apply bool_decide_eq_true in Ht. apply bool_decide_eq_false.
      by destruct Ht as [->| ->]. }
    assert (Hnews : news (s_out s) = (news o ++ [e])%list).
    { rewrite Ho, news_app. f_equal. unfold news. simpl. by rewrite Hne. }
    split.
    + intros pre t -> Htt Hpre. rewrite Hnews in Hn |- *. rewrite Ho, last_snoc.
      destruct rest as [|x rest _] using rev_ind.
      * rewrite app_nil_r in Hn. split; [done|]. apply app_inj_tail in Hn as [_ ->]. done.
      * rewrite app_assoc in Hn. apply app_inj_tail in Hn as [Hn ->]. rewrite <- Hn in Hpre.
        rewrite <- app_assoc in Hpre. apply Forall_app in Hpre as [_ Hpre]. apply Forall_cons in Hpre as [He _]. congruence.
    + intros Hall. rewrite <- Hn, Hnews, <- app_assoc in Hall. apply Forall_app in Hall as [_ Hall].
      apply Forall_cons in Hall as [He _]. congruence.
  - split.
    + intros pre t -> Htt _. exfalso. assert (Hin : t ∈ o).
      { assert (Hx : t ∈ news o) by (rewrite Hn; set_solver). unfold news in Hx.
        apply list_elem_of_In, List.filter_In in Hx as [Hx _]. by apply list_elem_of_In. }
      eapply Forall_forall in Hnt; [|exact Hin]. simpl in Hnt. congruence.
    + intros _. rewrite Ho, news_app, Hn. f_equal. by destruct fin.
Qed.
End Props.

(** ** Witnesses *)
Lemma subscription_receives_witness :
  let e c := PipelineStartedEvent_create (Dump:=unit) c "q" in
  queues (bus_run [Publish (e "a"); Subscribe "a"; Publish (e "b"); Publish (e "a")]
            (bus_step (Subscribe "a") empty_bus)) !! 0%nat = Some [e "a"; e "a"].
Proof.
  cbv zeta. refine (proj1 (proj2 (subscription_receives
    [Publish (PipelineStartedEvent_create "a" "q"); Subscribe "a"; Publish (PipelineStartedEvent_create "b" "q");
     Publish (PipelineStartedEvent_create "a" "q")] [] "a")) _).
  intros s Hs. exfalso. repeat (apply elem_of_cons in Hs as [Hs|Hs]; [discriminate Hs|]). inversion Hs.
Defined.
Lemma stream_delivers_witness :
  exists s, rtc (stream_step "c") (start_stream [PipelineStartedEvent_create (Dump:=unit) "c" "q"] Returned) s /\
    s_closed s = true /\ news (s_out s) = [PipelineStartedEvent_create "c" "q"].
Proof.
  pose (e := PipelineStartedEvent_create (Dump:=unit) "c" "q").
  assert (Hr : rtc (stream_step "c") (start_stream [e] Returned)
    {| s_queue := []; s_todo := []; s_end := Returned; s_done := true; s_out := [e]; s_closed := true; s_left := false |}).
  { eapply rtc_l; [apply pipeline_publishes|]. eapply rtc_l; [apply pipeline_ends|].
    eapply rtc_l; [apply (yields "c" e)|]. eapply rtc_l; [apply (closes "c" Returned [e])|]. apply rtc_refl. }
  eexists. split; [exact Hr|]. split; [reflexivity|].
  refine (proj2 (stream_delivers "c" [e] Returned _ _ Hr eq_refl eq_refl) _); repeat constructor.
Defined.
