(* ===== verification/QueryLibrary.v ===== *)
(** * The query example library ([querymind.query_library])

    The loaded snapshot ([catalog.py], [loader.py], [registry.py]), the keyword search
    ([search.py]) and the content checks of a catalog file ([validator.py]). The models are in
    [ContextModels]. *)
From S2P Require Import Prelude PyFloat PyStr Models ContextModels Catalogs.
#[local] Open Scope string_scope.
#[local] Open Scope Z_scope.

(** ** [models.py] and [exceptions.py] *)
Record QueryExampleLibrary := { examples : list QueryExample; lib_loaded_at : Z }.
Definition LibraryNotLoadedError : exn := OtherException "LibraryNotLoadedError"
  "Query example library has not been loaded yet. Call QueryLibraryRegistry.load() first.".
Definition ExampleNotFoundError (i : string) : exn := OtherException "ExampleNotFoundError"
  ("No query example with id " ++ repr i ++ " exists in the loaded library.").
Definition DuplicateExampleError (i : string) : exn := OtherException "DuplicateExampleError"
  ("Example id " ++ repr i ++ " is declared more than once in the library.").
Definition LibraryLoadError (source reason : string) : exn := OtherException "LibraryLoadError"
  ("Failed to load query example library from " ++ repr source ++ ": " ++ reason).

(** ** [search.py] *)
Definition normalize (text : string) : string := join " " (split_ws (lower (strip text))).
Definition by_title (es : list QueryExample) (text : string) : list QueryExample :=
  let normalized_text := normalize text in
  List.filter (fun e => contains normalized_text (normalize (title e))) es.
Definition by_tag (es : list QueryExample) (tag : string) : list QueryExample :=
  let normalized_tag := normalize tag in
  List.filter (fun e => existsb (fun c => String.eqb (normalize c) normalized_tag) (tags e)) es.
Definition by_business_concept (es : list QueryExample) (concept : string) : list QueryExample :=
  let normalized_concept := normalize concept in
  List.filter (fun e => existsb (fun c => String.eqb (normalize c) normalized_concept) (ex_business_concepts e)) es.
Definition by_difficulty (es : list QueryExample) (d : Difficulty) : list QueryExample :=
  List.filter (fun e => bool_decide (difficulty e = d)) es.
Definition matches_all_keywords (e : QueryExample) (normalized_keywords : list string) : bool :=
  let haystack := join " " [normalize (title e); normalize (natural_language_question e); normalize (ex_normalized_question e)] in
  forallb (fun k => contains k haystack) normalized_keywords.
Definition by_keywords (es : list QueryExample) (keywords : list string) : list QueryExample :=
  match map normalize (List.filter (fun k => negb (is_empty (strip k))) keywords) with
  | [] => []
  | normalized_keywords => List.filter (fun e => matches_all_keywords e normalized_keywords) es
  end.

(** ** [catalog.py] and [loader.py] *)
Definition build_library (now : Z) (es : list QueryExample) : outcome exn QueryExampleLibrary :=
  obind (check_unique ex_id DuplicateExampleError ∅ es) (fun _ => Ret {| examples := es; lib_loaded_at := now |}).
Section Files.
Context (safe_load : string -> outcome exn yaml) (is_YAMLError : exn -> bool).
Context (QueryExample_init : list (string * yaml) -> outcome exn QueryExample).
Definition load_examples_file : string -> outcome exn string -> outcome exn (list QueryExample) :=
  load_file safe_load is_YAMLError QueryExample_init "querymind.query_library.models.QueryExample" "examples" LibraryLoadError.
Definition load_library (now : Z) (path : string) (text : outcome exn string) : outcome exn QueryExampleLibrary :=
  obind (load_examples_file path text) (build_library now).
End Files.

(** ** [registry.py] *)
Definition library_loaded (cached : option QueryExampleLibrary) : outcome exn QueryExampleLibrary :=
  match cached with Some l => Ret l | None => Raise LibraryNotLoadedError end.
Definition get_example (cached : option QueryExampleLibrary) (i : string) : outcome exn QueryExample :=
  obind (library_loaded cached) (fun l =>
    match find_by_id ex_id i (examples l) with Some e => Ret e | None => Raise (ExampleNotFoundError i) end).
Definition list_examples (cached : option QueryExampleLibrary) : outcome exn (list string) :=
  obind (library_loaded cached) (fun l => Ret (map ex_id (examples l))).
Definition find_examples (cached : option QueryExampleLibrary) (predicate : QueryExample -> bool) : outcome exn (list QueryExample) :=
  obind (library_loaded cached) (fun l => Ret (List.filter predicate (examples l))).
(** [self._search().by_...(...)] *)
Definition search_by {K} (by_ : list QueryExample -> K -> list QueryExample) (cached : option QueryExampleLibrary) (k : K)
  : outcome exn (list QueryExample) := obind (library_loaded cached) (fun l => Ret (by_ (examples l) k)).
Definition search_by_tags := search_by by_tag.
Definition search_by_difficulty := search_by by_difficulty.
Definition search_by_business_concept := search_by by_business_concept.
Definition search_by_title := search_by by_title.
Definition search_by_keywords := search_by by_keywords.
Section State.
Context {W : Type} `{SnapshotCache W QueryExampleLibrary} (library_source : prog W exn QueryExampleLibrary).
Definition refresh_library : prog W exn QueryExampleLibrary := refresh_snapshot library_source.
Definition load_ : prog W exn QueryExampleLibrary := load_snapshot library_source.
End State.

(** ** [validator.py] *)
Inductive ValidationSeverity := V_ERROR | V_WARNING.
#[export] Instance ValidationSeverity_eq_dec : EqDecision ValidationSeverity.
Proof. solve_decision. Defined.
Record ValidationIssue := { rule : string; vi_severity : ValidationSeverity; vi_message : string; example_id : option string }.
Definition is_valid (issues : list ValidationIssue) : bool :=
  negb (existsb (fun i => bool_decide (vi_severity i = V_ERROR)) issues).
Definition error_issue (rule message i : string) : ValidationIssue :=
  {| rule := rule; vi_severity := V_ERROR; vi_message := message; example_id := Some i |}.

Fixpoint check_unique_ids (seen : gset string) (es : list QueryExample) : list ValidationIssue :=
  match es with
  | [] => []
  | e :: rest =>
      ((if decide (ex_id e ∈ seen) then [error_issue "unique_ids" ("Duplicate example id " ++ repr (ex_id e) ++ ".") (ex_id e)] else [])
       ++ check_unique_ids ({[ex_id e]} ∪ seen) rest)%list
  end.
Definition required_text_fields : list (string * (QueryExample -> string)) :=
  [("title", title); ("natural_language_question", natural_language_question); ("sql_explanation", sql_explanation);
   ("expected_result_description", expected_result_description)].
Definition check_required_fields (es : list QueryExample) : list ValidationIssue :=
  concat (map (fun e => omap (fun '(name, field) =>
    if is_empty (strip (field e)) then Some (error_issue "required_fields" ("Field " ++ repr name ++ " is blank.") (ex_id e))
    else None) required_text_fields) es).
(** [_check_valid_dialect] and [_check_valid_difficulty]: a member of the enumeration is in it. *)
Definition check_valid_dialect (es : list QueryExample) : list ValidationIssue := [].
Definition check_valid_difficulty (es : list QueryExample) : list ValidationIssue := [].
Definition question_key (e : QueryExample) : string := join " " (split_ws (lower (strip (natural_language_question e)))).
Fixpoint check_duplicate_questions (seen : list (string * string)) (es : list QueryExample) : list ValidationIssue :=
  match es with
  | [] => []
  | e :: rest =>
      match alist_get (question_key e) seen with
      | Some first => error_issue "duplicate_questions"
            ("Same question as " ++ repr first ++ ": " ++ repr (natural_language_question e)) (ex_id e)
          :: check_duplicate_questions seen rest
      | None => check_duplicate_questions (alist_set (question_key e) (ex_id e) seen) rest
      end
  end.
Definition check_empty_concepts (es : list QueryExample) : list ValidationIssue :=
  omap (fun e => match ex_business_concepts e with
    | [] => Some {| rule := "empty_concepts"; vi_severity := V_WARNING;
                    vi_message := "No business_concepts declared; this example won't surface in concept-based search.";
                    example_id := Some (ex_id e) |}
    | _ => None
    end) es.
Definition check_missing_sql (es : list QueryExample) : list ValidationIssue :=
  omap (fun e => if is_empty (strip (gold_sql e)) then Some (error_issue "missing_sql" "gold_sql is blank." (ex_id e)) else None) es.
Definition validate_examples (es : list QueryExample) : list ValidationIssue :=
  (check_unique_ids ∅ es ++ check_required_fields es ++ check_valid_dialect es ++ check_valid_difficulty es
   ++ check_duplicate_questions [] es ++ check_empty_concepts es ++ check_missing_sql es)%list.
(** [validate_file], given what [load_examples_file] does. *)
Definition validate_file (loaded : outcome exn (list QueryExample)) : outcome exn (list ValidationIssue) :=
  match loaded with
  | Ret es => Ret (validate_examples es)
  | Raise (OtherException cls msg) =>
      if String.eqb cls "LibraryLoadError"
      then Ret [{| rule := "broken_yaml"; vi_severity := V_ERROR; vi_message := msg; example_id := None |}]
      else Raise (OtherException cls msg)
  | Raise e => Raise e
  end.

(** ** Lemmas: what each check finds *)
Lemma is_valid_spec issues : is_valid issues = true <-> forall i, i ∈ issues -> vi_severity i = V_WARNING.
Proof.
  unfold is_valid. rewrite negb_true_iff, <- not_true_iff_false, existsb_exists. split.
  - intros Hn i Hi. destruct (vi_severity i) eqn:E; [|done]. exfalso. apply Hn. exists i.
    split; [by apply list_elem_of_In|]. by apply bool_decide_eq_true.
  - intros Hall (i & Hi & Hb). apply bool_decide_eq_true in Hb. rewrite (Hall i) in Hb; [done|by apply list_elem_of_In].
Qed.
Lemma is_valid_app a b : is_valid (a ++ b)%list = is_valid a && is_valid b.
Proof. unfold is_valid. by rewrite existsb_app, negb_orb. Qed.
Lemma is_valid_errors issues : (forall i, i ∈ issues -> vi_severity i = V_ERROR) -> is_valid issues = true <-> issues = [].
Proof.
  intros He. rewrite is_valid_spec. split; [|intros -> i Hi; by apply elem_of_nil in Hi].
  destruct issues as [|i l]; [done|]. intros Hw. assert (Hi : i ∈ i :: l) by left. specialize (He i Hi). by rewrite (Hw i Hi) in He.
Qed.

Lemma unique_ids_errors seen es i : i ∈ check_unique_ids seen es -> vi_severity i = V_ERROR.
Proof.
  revert seen. induction es as [|e es IH]; intros seen; cbn [check_unique_ids]; [by intros ?%elem_of_nil|].
  rewrite elem_of_app. intros [Hi|Hi]; [|by apply IH in Hi].
  case_decide; [by apply list_elem_of_singleton in Hi as ->|by apply elem_of_nil in Hi].
Qed.
Lemma unique_ids_silent seen es : check_unique_ids seen es = [] <-> is_ret (check_unique ex_id DuplicateExampleError seen es) = true.
Proof.
  revert seen. induction es as [|e es IH]; intros seen; cbn [check_unique_ids check_unique]; [done|].
  case_decide; [done|]. apply IH.
Qed.
Lemma required_fields_errors es i : i ∈ check_required_fields es -> vi_severity i = V_ERROR.
Proof.
  unfold check_required_fields. rewrite list_elem_of_In, in_concat. intros (l & Hl & Hi).
  apply in_map_iff in Hl as (e & <- & _). apply list_elem_of_In, list_elem_of_omap in Hi as ([name field] & _ & Hi). destruct (is_empty _); [|done]. by injection Hi as <-.
Qed.
Lemma required_fields_silent es : check_required_fields es = [] <->
  forall e, e ∈ es -> strip (title e) <> "" /\ strip (natural_language_question e) <> "" /\
    strip (sql_explanation e) <> "" /\ strip (expected_result_description e) <> "".
Proof.
  unfold check_required_fields. rewrite concat_map_nil. apply forall_proper. intros e.
  assert (Hd : forall A B : Prop, (A <-> B) -> (e ∈ es -> A) <-> (e ∈ es -> B)) by tauto. apply Hd.
  rewrite omap_nil. unfold required_text_fields. split.
  - intros H. assert (Hf : forall n f, (n, f) ∈ required_text_fields -> strip (f e) <> "").
    { intros n f Hin. specialize (H _ Hin). cbn in H. apply is_empty_false. by destruct (is_empty _). }
    unfold required_text_fields in Hf. split_and!; eapply Hf; repeat (first [left | right]).
  - intros (H1 & H2 & H3 & H4) [n f] Hin. assert (Hf : is_empty (strip (f e)) = false); [|by rewrite Hf].
    apply is_empty_false. rewrite !elem_of_cons, elem_of_nil in Hin.
    destruct Hin as [[= _ ->]|[[= _ ->]|[[= _ ->]|[[= _ ->]|[]]]]]; done.
Qed.
Lemma missing_sql_errors es i : i ∈ check_missing_sql es -> vi_severity i = V_ERROR.
Proof. unfold check_missing_sql. intros (e & _ & Hi)%list_elem_of_omap. destruct (is_empty _); [|done]. by injection Hi as <-. Qed.
Lemma missing_sql_silent es : check_missing_sql es = [] <-> forall e, e ∈ es -> strip (gold_sql e) <> "".
Proof.
  unfold check_missing_sql. rewrite omap_nil. apply forall_proper. intros e. rewrite <- is_empty_false.
  split; intros H He; specialize (H He); destruct (is_empty _); done.
Qed.
Lemma empty_concepts_valid es : is_valid (check_empty_concepts es) = true.
Proof.
  apply is_valid_spec. unfold check_empty_concepts. intros i (e & _ & Hi)%list_elem_of_omap.
  destruct (ex_business_concepts e); [by injection Hi as <-|done].
Qed.
Lemma duplicate_questions_errors seen es i : i ∈ check_duplicate_questions seen es -> vi_severity i = V_ERROR.
Proof.
  revert seen. induction es as [|e es IH]; intros seen; cbn [check_duplicate_questions]; [by intros ?%elem_of_nil|].
  destruct (alist_get _ seen); [|apply IH]. rewrite elem_of_cons. intros [->|Hi]; [done|]. by apply IH in Hi.
Qed.
Lemma duplicate_questions_silent seen es : check_duplicate_questions seen es = [] <->
  NoDup (map question_key es) /\ forall e, e ∈ es -> alist_get (question_key e) seen = None.
Proof.
  revert seen. induction es as [|e es IH]; intros seen; cbn [check_duplicate_questions map].
  { split; [|done]. intros _. split; [constructor|]. intros e He. by apply elem_of_nil in He. }
  destruct (alist_get (question_key e) seen) as [first|] eqn:E.
  - split; [done|]. intros [_ H]. rewrite (H e) in E; [done|left].
  - rewrite IH, NoDup_cons. split.
    + intros [Hnd Hr]. split_and!; [|done|].
      * intros (e' & Hk & He')%list_elem_of_fmap. specialize (Hr e' He'). by rewrite <- Hk, alist_get_set_eq in Hr.
      * intros e' [->|He']%elem_of_cons; [done|]. specialize (Hr e' He').
        destruct (decide (question_key e = question_key e')) as [Hk|Hk]; [by rewrite <- Hk, alist_get_set_eq in Hr|].
        by rewrite alist_get_set_ne in Hr.
    + intros [[Hn Hnd] Hr]. split; [done|]. intros e' He'. rewrite alist_get_set_ne; [apply Hr; by right|].
      intros Hk. apply Hn. apply list_elem_of_fmap. eauto.
Qed.

(** A keyword found in one of the joined parts is found in the whole. *)
Lemma startswith_app_l pat s t : startswith pat s = true -> startswith pat (s ++ t) = true.
Proof.
  revert s. induction pat as [|c pat IH]; intros s; [by destruct s, t|].
  destruct s as [|d s]; [done|]. rewrite app_str_cons. cbn [startswith]. rewrite !andb_true_iff. intros [Hc H]. by rewrite Hc, (IH s H).
Qed.
Lemma contains_startswith pat s : startswith pat s = true -> contains pat s = true.
Proof. destruct s; cbn [contains]; intros ->; done. Qed.
Lemma contains_app_r pat s t : contains pat t = true -> contains pat (s ++ t) = true.
Proof. intros H. induction s as [|c s IH]; [done|]. rewrite app_str_cons. cbn [contains]. by rewrite IH, orb_true_r. Qed.
Lemma contains_app_l pat s t : contains pat s = true -> contains pat (s ++ t) = true.
Proof.
  induction s as [|c s IH]; cbn [contains].
  - rewrite ?orb_false_r. intros H. apply contains_startswith, (startswith_app_l pat "" t H).
  - rewrite orb_true_iff. intros [H|H].
    + apply contains_startswith. exact (startswith_app_l pat (String c s) t H).
    + rewrite app_str_cons. cbn [contains]. by rewrite (IH H), orb_true_r.
Qed.

(** ** Properties *)
(** [build_library] protects the one-answer guarantee: it accepts a catalog exactly when every
    id is declared once, [get_example] then returns for each id the one example that has it
    and raises [ExampleNotFoundError] for the others; otherwise it raises
    [DuplicateExampleError] for the first entry that repeats an id. *)
Theorem build_library_spec now es :
  match build_library now es with
  | Ret l => examples l = es /\ NoDup (map ex_id es) /\ forall i,
      (forall e, get_example (Some l) i = Ret e <-> e ∈ es /\ ex_id e = i) /\
      (i ∉ map ex_id es -> get_example (Some l) i = Raise (ExampleNotFoundError i))
  | Raise err => exists before e after, es = (before ++ e :: after)%list /\ err = DuplicateExampleError (ex_id e) /\
      ex_id e ∈ map ex_id before /\ NoDup (map ex_id before)
  end.
Proof.
  unfold build_library. pose proof (check_unique_spec ex_id DuplicateExampleError ∅ es) as Hs.
  destruct (check_unique _ _ _ es) as [err|u]; cbn [obind].
  - destruct Hs as (b & e & a & -> & -> & Hin & Hnd & _). exists b, e, a. split_and!; [done..| |done].
    destruct Hin as [Hin|Hin]; [set_solver|done].
  - destruct Hs as [Hnd _]. split_and!; [done..|]. intros i. unfold get_example. cbn [library_loaded obind examples]. split.
    + intros e. rewrite <- (find_by_id_spec ex_id i es e Hnd). destruct (find_by_id _ _ _); split; congruence.
    + intros Hi. destruct (find_by_id ex_id i es) as [e|] eqn:E; [|done].
      apply (find_by_id_spec ex_id i es e Hnd) in E as [He <-]. by destruct Hi; apply list_elem_of_fmap_2.
Qed.

(** The content checks say yes exactly to the catalogs that are fit to load: every id and every
    normalized question is there once, and no title, question, explanation, result description
    or gold SQL is blank. A catalog that passes is therefore accepted by [build_library];
    an example without concepts is only warned about. *)
Theorem validate_examples_spec now es :
  (is_valid (validate_examples es) = true <->
   NoDup (map ex_id es) /\ NoDup (map question_key es) /\
   forall e, e ∈ es -> strip (title e) <> "" /\ strip (natural_language_question e) <> "" /\
     strip (sql_explanation e) <> "" /\ strip (expected_result_description e) <> "" /\ strip (gold_sql e) <> "") /\
  (is_valid (validate_examples es) = true -> build_library now es = Ret {| examples := es; lib_loaded_at := now |}).
Proof.
  assert (Hv : is_valid (validate_examples es) = true <->
    check_unique_ids ∅ es = [] /\ check_required_fields es = [] /\ check_duplicate_questions [] es = [] /\ check_missing_sql es = []).
  { unfold validate_examples, check_valid_dialect, check_valid_difficulty. rewrite !is_valid_app, !andb_true_iff, empty_concepts_valid.
    rewrite (is_valid_errors _ (unique_ids_errors ∅ es)), (is_valid_errors _ (required_fields_errors es)),
      (is_valid_errors _ (duplicate_questions_errors [] es)), (is_valid_errors _ (missing_sql_errors es)).
    change (is_valid []) with true. tauto. }
  pose proof (check_unique_spec ex_id DuplicateExampleError ∅ es) as Hu. split.
  - rewrite Hv, unique_ids_silent, required_fields_silent, duplicate_questions_silent, missing_sql_silent.
    destruct (check_unique _ _ _ es) as [err|u]; cbn [is_ret].
    + split; [by intros [[=] _]|]. intros [Hnd _]. destruct Hu as (b & x & a & -> & _ & Hx & _). exfalso.
      rewrite map_app in Hnd. cbn [map] in Hnd. apply NoDup_app in Hnd as (_ & Hd & _).
      destruct Hx as [Hx|Hx]; [set_solver|]. apply (Hd _ Hx). by left.
    + destruct Hu as [Hnd _]. split; [|intros (_ & Hq & Hf); split_and!; [done| |done| |]; naive_solver].
      intros (_ & Hf & [Hq _] & Hm). split_and!; [done..|]. intros e He. destruct (Hf e He) as (? & ? & ? & ?). eauto 6.
  - intros H. apply Hv in H as (H & _). apply unique_ids_silent in H. unfold build_library.
    by destruct (check_unique _ _ _ es).
Qed.
Module LibraryDemo.
Definition example i q sql : QueryExample :=
  {| ex_id := i; title := "Sales"; natural_language_question := q; ex_normalized_question := q;
     ex_query_context := {| qs_intent := "sum"; qs_primary_entity := None; qs_metrics := []; qs_dimensions := []; qs_aggregation := None |};
     ex_business_concepts := ["revenue"]; linked_schema_objects := ["orders.total_amount"]; gold_sql := sql;
     sql_explanation := "Sums."; difficulty := BEGINNER; tags := ["sales"]; ex_dialect := POSTGRESQL;
     expected_result_description := "A number."; expected_result_shape := SCALAR; common_variations := []; notes := None |}.
Definition catalog : list QueryExample :=
  [example "a" "total revenue" "SELECT sum(total_amount) FROM orders"; example "b" "revenue by month" "SELECT 1"].
End LibraryDemo.
Lemma validate_examples_spec_witness :
  build_library 0 LibraryDemo.catalog = Ret {| examples := LibraryDemo.catalog; lib_loaded_at := 0 |}.
Proof. apply (proj2 (validate_examples_spec 0 LibraryDemo.catalog)). vm_compute. reflexivity. Defined.

(** Keyword search finds every example that has each of the (non-blank) keywords in its title,
    its question or its normalized question. It finds more: the three texts are joined before
    they are searched, so a keyword may also match across the end of one and the start of the
    next, where none of them contains it. *)
Theorem by_keywords_finds es keywords e :
  e ∈ es -> Exists (fun k => strip k <> "") keywords ->
  (forall k, k ∈ keywords -> strip k <> "" ->
     Exists (fun text => contains (normalize k) (normalize text) = true)
       [title e; natural_language_question e; ex_normalized_question e]) ->
  e ∈ by_keywords es keywords.
Proof.
  intros He Hsome Hall. unfold by_keywords.
  destruct (map normalize _) as [|n ns] eqn:El.
  - apply map_eq_nil in El. apply Exists_exists in Hsome as (k & Hk & Hne).
    assert (Hin : k ∈ List.filter (fun k => negb (is_empty (strip k))) keywords); [|rewrite El in Hin; by apply elem_of_nil in Hin].
    apply list_elem_of_In, filter_In. split; [by apply list_elem_of_In|]. apply is_empty_false in Hne. by rewrite Hne.
  - rewrite <- El. apply list_elem_of_In, filter_In. split; [by apply list_elem_of_In|].
    unfold matches_all_keywords. apply forallb_forall. intros k' (k & <- & Hk)%in_map_iff.
    apply filter_In in Hk as [Hk Hne]. apply list_elem_of_In in Hk. apply negb_true_iff, is_empty_false in Hne.
    specialize (Hall k Hk Hne). rewrite !Exists_cons, Exists_nil in Hall. unfold join.
    destruct Hall as [H|[H|[H|[]]]].
    + by apply contains_app_l.
    + apply contains_app_r, contains_app_r, contains_app_l, H.
    + apply contains_app_r, contains_app_r, contains_app_r, contains_app_r, H.
Qed.
Lemma by_keywords_finds_witness :
  LibraryDemo.example "a" "total revenue" "SELECT sum(total_amount) FROM orders" ∈ by_keywords LibraryDemo.catalog ["REVENUE"; " "; "sales"].
Proof.
  apply by_keywords_finds.
  - left.
  - apply Exists_exists. exists "REVENUE". split; [left|discriminate].
  - intros k Hk Hne. rewrite !elem_of_cons, elem_of_nil in Hk. destruct Hk as [->|[->|[->|[]]]].
    + apply Exists_cons_tl, Exists_cons_hd. vm_compute. reflexivity.
    + by destruct Hne.
    + apply Exists_cons_hd. vm_compute. reflexivity.
Defined.
(** The keyword [sales total] is in neither text. *)
Example keyword_spans_fields :
  map ex_id (by_keywords LibraryDemo.catalog ["sales total"]) = ["a"] /\
  forallb (fun e => contains "sales total" (normalize (title e)) || contains "sales total" (normalize (natural_language_question e))
                    || contains "sales total" (normalize (ex_normalized_question e))) LibraryDemo.catalog = false /\
  existsb (fun e => contains "sales total" (normalize (title e)) || contains "sales total" (normalize (natural_language_question e))
                    || contains "sales total" (normalize (ex_normalized_question e))) LibraryDemo.catalog = false.
Proof. vm_compute. split_and!; reflexivity. Qed.
