(* ===== verification/JoinPaths.v ===== *)
(** * Join paths ([schema_linker/relationships.py])

    [RelationshipPathResolver]: breadth-first search over the adjacency structure of
    [RelationshipGraph], and the union of the paths from an anchor table. *)
From S2P Require Import Prelude PyStr Models ContextModels Metadata.
#[local] Open Scope string_scope.

Definition to_resolved (e : GraphEdge) : ResolvedRelationship :=
  {| rr_source_table := ge_source_table e; rr_target_table := ge_target_table e;
     rr_relationship_name := ge_relationship_name e; rr_source_columns := ge_source_columns e;
     rr_target_columns := ge_target_columns e |}.

Section Resolver.
Context (graph : RelationshipGraph).

Abbreviation queue_entry := (string * list ResolvedRelationship)%type.

(** The inner loop over [edges_from(current)]: [inl] is the early [return]. *)
Fixpoint scan_edges (target_table : string) (path_so_far : list ResolvedRelationship) (edges : list GraphEdge)
    (visited : gset string) (queue : list queue_entry)
  : list ResolvedRelationship + (gset string * list queue_entry) :=
  match edges with
  | [] => inr (visited, queue)
  | edge :: rest =>
      if String.eqb (ge_target_table edge) target_table then inl (path_so_far ++ [to_resolved edge])%list
      else if bool_decide (ge_target_table edge ∈ visited)
      then scan_edges target_table path_so_far rest visited queue
      else scan_edges target_table path_so_far rest ({[ge_target_table edge]} ∪ visited)
             (queue ++ [(ge_target_table edge, path_so_far ++ [to_resolved edge])])%list
  end.

(** [while queue]; [None] only when the fuel runs out. *)
Fixpoint bfs (fuel : nat) (target_table : string) (visited : gset string) (queue : list queue_entry)
  : option (list ResolvedRelationship) :=
  match fuel with
  | O => None
  | S fuel' =>
      match queue with
      | [] => Some []
      | (current, path_so_far) :: queue' =>
          match scan_edges target_table path_so_far (edges_from graph current) visited queue' with
          | inl path => Some path
          | inr (visited', queue'') => bfs fuel' target_table visited' queue''
          end
      end
  end.

(** Every table an edge leads to: each is queued at most once. *)
Definition edge_targets : gset string :=
  list_to_set (concat (map (fun kv => map ge_target_table (snd kv)) (map_to_list (adjacency graph)))).
Definition bfs_fuel : nat := S (S (size edge_targets)).

Definition find_path (source_table target_table : string) : list ResolvedRelationship :=
  if String.eqb source_table target_table then []
  else if negb (bool_decide (source_table ∈ nodes graph)) || negb (bool_decide (target_table ∈ nodes graph))
  then []
  else default [] (bfs bfs_fuel target_table {[source_table]} [(source_table, [])]).

Definition edge_key (r : ResolvedRelationship) : string * string * string :=
  (rr_source_table r, rr_target_table r, rr_relationship_name r).

(** [if key not in seen: seen.add(key); edges.append(edge)] over one path. *)
Fixpoint add_new (seen : gset (string * string * string)) (edges path : list ResolvedRelationship)
  : gset (string * string * string) * list ResolvedRelationship :=
  match path with
  | [] => (seen, edges)
  | edge :: rest =>
      if bool_decide (edge_key edge ∈ seen) then add_new seen edges rest
      else add_new ({[edge_key edge]} ∪ seen) (edges ++ [edge])%list rest
  end.
Fixpoint union_paths (anchor_table : string) (seen : gset (string * string * string))
    (edges : list ResolvedRelationship) (other_tables : list string) : list ResolvedRelationship :=
  match other_tables with
  | [] => edges
  | target :: rest =>
      if String.eqb target anchor_table then union_paths anchor_table seen edges rest
      else let '(seen', edges') := add_new seen edges (find_path anchor_table target) in
           union_paths anchor_table seen' edges' rest
  end.
Definition find_paths_from (anchor_table : string) (other_tables : list string) : list ResolvedRelationship :=
  union_paths anchor_table ∅ [] other_tables.

(** ** Walks: the specification *)
(** [es] leads from [a] to [b] along the edges of the graph. *)
Fixpoint is_walk (a : string) (es : list GraphEdge) (b : string) : Prop :=
  match es with
  | [] => a = b
  | e :: es' => e ∈ edges_from graph a /\ is_walk (ge_target_table e) es' b
  end.
Lemma is_walk_snoc a es e b c :
  is_walk a es b -> e ∈ edges_from graph b -> ge_target_table e = c -> is_walk a (es ++ [e])%list c.
Proof. revert a. induction es as [|x es IH]; intros a; simpl; [intros -> He ->; done|]. intros [H1 H2]; eauto. Qed.
Lemma is_walk_last a es e b : is_walk a (es ++ [e])%list b ->
  exists c, is_walk a es c /\ e ∈ edges_from graph c /\ ge_target_table e = b.
Proof.
  revert a. induction es as [|x es IH]; intros a; simpl; [intros [H <-]; eauto|].
  intros [H1 (c & H2 & H3 & H4)%IH]. eauto.
Qed.

Lemma edge_target_elem a e : e ∈ edges_from graph a -> ge_target_table e ∈ edge_targets.
Proof.
  unfold edges_from, edge_targets. destruct (adjacency graph !! a) as [l|] eqn:E; simpl; [|set_solver].
  intros He. apply elem_of_list_to_set, list_elem_of_In, in_concat. exists (map ge_target_table l).
  split; [|by apply in_map, list_elem_of_In]. apply in_map_iff. exists (a, l). split; [done|].
  by apply list_elem_of_In, elem_of_map_to_list.
Qed.

Section Search.
Context (source target : string).

(** A queued table, with the walk that led to it. *)
Definition entry_ok (d : nat) (x : queue_entry) : Prop :=
  exists es, snd x = map to_resolved es /\ is_walk source es (fst x) /\ length es = d.

(** The search between two iterations: [X] are the tables already expanded, [q1] those
    queued at distance [d], [q2] those at distance [d + 1]. *)
Record bfs_inv (X visited : gset string) (q1 q2 : list queue_entry) (d : nat) : Prop := {
  inv_q1 : Forall (entry_ok d) q1;
  inv_q2 : Forall (entry_ok (S d)) q2;
  inv_visited : forall v, v ∈ visited <-> v ∈ X \/ v ∈ map fst (q1 ++ q2);
  inv_target : target ∉ visited;
  inv_closed : forall v e, v ∈ X -> e ∈ edges_from graph v -> ge_target_table e ∈ visited;
  inv_near : forall es v, is_walk source es v -> (length es <= d)%nat -> v ∈ X \/ v ∈ map fst q1 }.

(** What a finished search promises. *)
Definition search_ok (r : list ResolvedRelationship) : Prop :=
  r = [] /\ (forall es, ~ is_walk source es target) \/
  exists es, r = map to_resolved es /\ is_walk source es target /\
    forall es', is_walk source es' target -> (length es <= length es')%nat.

Lemma inv_shift X visited q2 d : bfs_inv X visited [] q2 d -> bfs_inv X visited q2 [] (S d).
Proof.
  intros [H1 H2 H3 H4 H5 H6]. split; [done|constructor| |done|done|].
  - intros v. by rewrite app_nil_r.
  - intros es v Hw Hl. destruct (decide (length es <= d)%nat) as [Hd|Hd].
    + destruct (H6 es v Hw Hd) as [?|H]; [by left|]. simpl in H. set_solver.
    + destruct es as [|e es' _] using rev_ind; [simpl in Hd; lia|].
      rewrite length_app in Hl, Hd. simpl in Hl, Hd.
      apply is_walk_last in Hw as (c & Hw & He & <-).
      destruct (H6 es' c Hw ltac:(lia)) as [Hc|Hc]; [|simpl in Hc; set_solver].
      pose proof (H5 c e Hc He) as Hv. apply H3 in Hv. done.
Qed.
Lemma scan_edges_spec d v es0 edges (Y visited : gset string) q1 q2 :
  is_walk source es0 v -> length es0 = d ->
  (forall e, e ∈ edges -> e ∈ edges_from graph v) ->
  Forall (entry_ok (S d)) q2 -> (forall x, x ∈ visited <-> (x ∈ Y \/ x ∈ map fst (q1 ++ q2))) -> target ∉ visited ->
  match scan_edges target (map to_resolved es0) edges visited (q1 ++ q2) with
  | inl r => exists es, r = map to_resolved es /\ is_walk source es target /\ length es = S d
  | inr (visited', q') => exists q2', q' = (q1 ++ q2')%list /\ Forall (entry_ok (S d)) q2' /\
      (forall x, x ∈ visited' <-> x ∈ Y \/ x ∈ map fst (q1 ++ q2')) /\ target ∉ visited' /\
      visited ⊆ visited' /\ (forall e, e ∈ edges -> ge_target_table e ∈ visited')
  end.
Proof.
  intros Hw Hlen. revert visited q2. induction edges as [|e edges IH]; intros visited q2 Hin Hq2 Hvis Htgt; cbn [scan_edges].
  { exists q2. split_and!; try done. set_solver. }
  assert (He : e ∈ edges_from graph v) by (apply Hin; by left).
  assert (Hin' : forall e', e' ∈ edges -> e' ∈ edges_from graph v) by (intros; apply Hin; by right).
  assert (Hsnoc : (map to_resolved es0 ++ [to_resolved e])%list = map to_resolved (es0 ++ [e])) by (by rewrite map_app).
  assert (Hlen' : length (es0 ++ [e]) = S d) by (rewrite length_app; simpl; lia).
  destruct (String.eqb_spec (ge_target_table e) target) as [Ht|Ht].
  { exists (es0 ++ [e])%list. split_and!; [done|by eapply is_walk_snoc|done]. }
  destruct (bool_decide (ge_target_table e ∈ visited)) eqn:Ev.
  - apply bool_decide_eq_true in Ev. specialize (IH visited q2 Hin' Hq2 Hvis Htgt).
    destruct (scan_edges _ _ _ _ _) as [r|[visited' q']]; [done|].
    destruct IH as (q2' & ? & ? & ? & ? & Hsub & ?). exists q2'. split_and!; try done.
    intros e' [->|]%elem_of_cons; auto.
  - rewrite <- app_assoc. specialize (IH ({[ge_target_table e]} ∪ visited)
      (q2 ++ [(ge_target_table e, (map to_resolved es0 ++ [to_resolved e])%list)])%list Hin').
    destruct (scan_edges _ _ _ _ _) as [r|[visited' q']].
    + apply IH.
      * apply Forall_app. split; [done|]. constructor; [|done]. exists (es0 ++ [e])%list.
        split_and!; [done|by eapply is_walk_snoc|done].
      * intros x. rewrite elem_of_union, elem_of_singleton, Hvis, !map_app, !elem_of_app. simpl.
        rewrite list_elem_of_singleton. tauto.
      * set_solver.
    + destruct IH as (q2' & ? & ? & ? & ? & Hsub & ?).
      * apply Forall_app. split; [done|]. constructor; [|done]. exists (es0 ++ [e])%list.
        split_and!; [done|by eapply is_walk_snoc|done].
      * intros x. rewrite elem_of_union, elem_of_singleton, Hvis, !map_app, !elem_of_app. simpl.
        rewrite list_elem_of_singleton. tauto.
      * set_solver.
      * exists q2'. split_and!; try done; [set_solver|]. intros e' [->|]%elem_of_cons; [set_solver|auto].
Qed.
Lemma scan_edges_measure path edges visited q :
  (forall e, e ∈ edges -> ge_target_table e ∈ edge_targets) ->
  match scan_edges target path edges visited q with
  | inl _ => True
  | inr (visited', q') => (length q' + size (edge_targets ∖ visited') <= length q + size (edge_targets ∖ visited))%nat
  end.
Proof.
  revert visited q. induction edges as [|e edges IH]; intros visited q Hin; cbn [scan_edges]; [lia|].
  destruct (String.eqb _ _); [done|].
  assert (Hin' : forall e', e' ∈ edges -> ge_target_table e' ∈ edge_targets) by (intros; apply Hin; by right).
  destruct (bool_decide (ge_target_table e ∈ visited)) eqn:Ev; [by apply IH|].
  apply bool_decide_eq_false in Ev.
  specialize (IH ({[ge_target_table e]} ∪ visited) (q ++ [(ge_target_table e, path ++ [to_resolved e])])%list Hin').
  destruct (scan_edges _ _ _ _ _) as [|[visited' q']]; [done|]. rewrite length_app in IH. simpl in IH.
  assert (Hs : (size (edge_targets ∖ ({[ge_target_table e]} ∪ visited)) < size (edge_targets ∖ visited))%nat).
  { apply subset_size. split; [set_solver|]. intros Hsub.
    specialize (Hsub (ge_target_table e)). specialize (Hin e (list_elem_of_here _ _)). set_solver. }
  lia.
Qed.

(** One iteration expands the first table at distance [d]. *)
Lemma inv_step X visited v p q1 q2 d :
  bfs_inv X visited ((v, p) :: q1) q2 d ->
  match scan_edges target p (edges_from graph v) visited (q1 ++ q2) with
  | inl r => search_ok r
  | inr (visited', q') => exists q2', q' = (q1 ++ q2')%list /\ bfs_inv ({[v]} ∪ X) visited' q1 q2' d
  end.
Proof.
  intros [H1 H2 H3 H4 H5 H6]. apply Forall_cons in H1 as [(es0 & Hp & Hw & Hl) H1]. simpl in Hp, Hw. subst p.
  pose proof (scan_edges_spec d v es0 (edges_from graph v) ({[v]} ∪ X) visited q1 q2 Hw Hl (fun _ H => H) H2) as Hs.
  destruct (scan_edges _ _ _ _ _) as [r|[visited' q']].
  - destruct Hs as (es & -> & Hes & Hlen); [|done|].
    { intros x. rewrite H3. simpl. set_solver. }
    right. exists es. split_and!; [done..|]. intros es' Hes'. rewrite Hlen.
    destruct (decide (length es' <= d)%nat) as [Hd|]; [|lia]. exfalso. apply H4, H3.
    destruct (H6 es' target Hes' Hd) as [?|Hq]; [by left|]. right. rewrite map_app. set_solver.
  - destruct Hs as (q2' & -> & Hq2 & Hvis & Htgt & Hsub & Hedges); [|done|].
    { intros x. rewrite H3. simpl. set_solver. }
    exists q2'. split; [done|]. split; try done.
    + intros x e [->%elem_of_singleton|Hx]%elem_of_union He; [by apply Hedges|]. apply Hsub. by eapply H5.
    + intros es x Hx Hd. destruct (H6 es x Hx Hd) as [?|Hq]; [set_solver|]. simpl in Hq. set_solver.
Qed.

Lemma bfs_correct fuel X visited q1 q2 d :
  bfs_inv X visited q1 q2 d -> (length (q1 ++ q2) + size (edge_targets ∖ visited) < fuel)%nat ->
  exists r, bfs fuel target visited (q1 ++ q2) = Some r /\ search_ok r.
Proof.
  revert X visited q1 q2 d. induction fuel as [|fuel IH]; intros X visited q1 q2 d Hinv Hf; [lia|].
  assert (Hstep : forall v p q1 q2 d, bfs_inv X visited ((v, p) :: q1) q2 d ->
    (length (((v, p) :: q1) ++ q2) + size (edge_targets ∖ visited) < S fuel)%nat ->
    exists r, bfs (S fuel) target visited (((v, p) :: q1) ++ q2) = Some r /\ search_ok r).
  { clear q1 q2 d Hinv Hf. intros v p q1 q2 d Hinv Hf. cbn [app bfs].
    pose proof (inv_step _ _ _ _ _ _ _ Hinv) as Hs.
    pose proof (scan_edges_measure p (edges_from graph v) visited (q1 ++ q2) (edge_target_elem v)) as Hm.
    destruct (scan_edges _ _ _ _ _) as [r|[visited' q']]; [by exists r|].
    destruct Hs as (q2' & -> & Hinv'). apply (IH _ _ _ _ _ Hinv'). simpl in Hf. lia. }
  destruct q1 as [|[v p] q1]; [|by eapply Hstep].
  destruct q2 as [|[v p] q2].
  - exists []. split; [done|]. left. split; [done|]. intros es Hes.
    destruct Hinv as [_ _ H3 H4 H5 H6].
    assert (Hx : forall es a b, a ∈ X -> is_walk a es b -> b ∈ X).
    { clear es Hes. induction es as [|e es IHes]; intros a b Ha; simpl; [by intros <-|]. intros [He Hw].
      eapply IHes; [|done]. pose proof (H5 _ _ Ha He) as Hv. apply H3 in Hv as [?|Hv]; [done|]. simpl in Hv. set_solver. }
    apply H4, H3. left. eapply Hx; [|done].
    destruct (H6 [] source eq_refl ltac:(simpl; lia)) as [?|Hq]; [done|]. simpl in Hq. set_solver.
  - apply inv_shift in Hinv. cbn [app] in Hf |- *.
    rewrite <- (app_nil_r ((v, p) :: q2)) in Hf |- *. by eapply Hstep.
Qed.
End Search.

Lemma find_path_ok source target :
  source <> target -> source ∈ nodes graph -> target ∈ nodes graph -> search_ok source target (find_path source target).
Proof.
  intros Hne Hs Ht. unfold find_path. apply String.eqb_neq in Hne as Hb. rewrite Hb.
  rewrite !bool_decide_eq_true_2 by done. simpl negb. cbn [orb].
  destruct (bfs_correct source target bfs_fuel ∅ {[source]} [(source, [])] [] 0) as (r & Hr & Hok).
  - split.
    + constructor; [|constructor]. by exists [].
    + constructor.
    + set_solver.
    + set_solver.
    + set_solver.
    + intros [|e es] v Hw Hl; simpl in *; [subst; right; set_solver|lia].
  - simpl. unfold bfs_fuel. assert (size (edge_targets ∖ {[source]}) <= size edge_targets)%nat.
    { apply subseteq_size. set_solver. } lia.
  - rewrite app_nil_r in Hr. by rewrite Hr.
Qed.

Lemma add_new_spec path seen edges : seen = list_to_set (map edge_key edges) -> NoDup (map edge_key edges) ->
  let '(seen', edges') := add_new seen edges path in
  seen' = list_to_set (map edge_key edges') /\ NoDup (map edge_key edges') /\ edges ⊆ edges' /\
  (forall x, x ∈ path -> edge_key x ∈ map edge_key edges') /\ (forall x, x ∈ edges' -> x ∈ edges \/ x ∈ path).
Proof.
  revert seen edges. induction path as [|e path IH]; intros seen edges Hs Hnd; simpl.
  { split_and!; try done; set_solver. }
  destruct (bool_decide (edge_key e ∈ seen)) eqn:Ee.
  - apply bool_decide_eq_true in Ee. specialize (IH seen edges Hs Hnd). destruct (add_new seen edges path) as [s' e'].
    destruct IH as (? & ? & Hsub & Hp & Hx). split_and!; try done.
    + intros x [->|Hx']%elem_of_cons; [|auto]. rewrite Hs, elem_of_list_to_set in Ee.
      apply list_elem_of_fmap in Ee as (y & Hk & Hy). rewrite Hk. apply list_elem_of_fmap_2. auto.
    + intros x [?|?]%Hx; [by left|right; by right].
  - apply bool_decide_eq_false in Ee.
    assert (Hk : map edge_key (edges ++ [e]) = (map edge_key edges ++ [edge_key e])%list) by (by rewrite map_app).
    specialize (IH ({[edge_key e]} ∪ seen) (edges ++ [e])%list). destruct (add_new _ (edges ++ [e])%list path) as [s' e'].
    destruct IH as (? & ? & Hsub & Hp & Hx).
    + rewrite Hk, list_to_set_app_L, Hs. simpl. set_solver.
    + rewrite Hk. apply NoDup_app. split_and!; [done| |apply NoDup_singleton].
      intros x Hx ->%list_elem_of_singleton. apply Ee. by rewrite Hs, elem_of_list_to_set.
    + split_and!; try done; [set_solver| |].
      * intros x [->|?]%elem_of_cons; [|auto]. apply list_elem_of_fmap_2, Hsub. set_solver.
      * intros x [Hin|?]%Hx; [|right; by right]. apply elem_of_app in Hin as [?| ->%list_elem_of_singleton]; [by left|].
        right. by left.
Qed.
Lemma union_paths_spec anchor others seen edges :
  seen = list_to_set (map edge_key edges) -> NoDup (map edge_key edges) ->
  let r := union_paths anchor seen edges others in
  NoDup (map edge_key r) /\ edges ⊆ r /\
  (forall t x, t ∈ others -> t <> anchor -> x ∈ find_path anchor t -> edge_key x ∈ map edge_key r) /\
  (forall x, x ∈ r -> x ∈ edges \/ exists t, t ∈ others /\ t <> anchor /\ x ∈ find_path anchor t).
Proof.
  cbv zeta. revert seen edges. induction others as [|t others IH]; intros seen edges Hs Hnd; simpl.
  { split_and!; [done|done|set_solver|by left]. }
  destruct (String.eqb_spec t anchor) as [->|Hne].
  - destruct (IH seen edges Hs Hnd) as (? & ? & Hp & Hx). split_and!; try done.
    + intros t x [->|?]%elem_of_cons ?; [done|]. by apply Hp.
    + intros x Hin. apply Hx in Hin as [?|(t & ? & ?)]; [by left|]. right. exists t. split; [by right|done].
  - pose proof (add_new_spec (find_path anchor t) seen edges Hs Hnd) as Ha.
    destruct (add_new seen edges (find_path anchor t)) as [seen' edges'].
    destruct Ha as (Hs' & Hnd' & Hsub & Hkeys & Hel).
    destruct (IH seen' edges' Hs' Hnd') as (? & Hsub' & Hp & Hx). split_and!; [done|set_solver| |].
    + intros t' x [->|?]%elem_of_cons ? Hin; [|by eapply Hp].
      specialize (Hkeys x Hin). apply list_elem_of_fmap in Hkeys as (y & -> & Hy). apply list_elem_of_fmap_2. auto.
    + intros x Hin. apply Hx in Hin as [Hin|(t' & ? & ?)].
      { apply Hel in Hin as [?|?]; [by left|right; exists t; split; [by left|done]]. }
      right. exists t'. split; [by right|done].
Qed.

(** [l] leads from [a] to [b]. *)
Fixpoint joins (a : string) (l : list ResolvedRelationship) (b : string) : Prop :=
  match l with
  | [] => a = b
  | x :: l' => rr_source_table x = a /\ joins (rr_target_table x) l' b
  end.
End Resolver.

(** On a graph built from relationships, an edge starts at the table it is listed under;
    a walk whose keys all occur in [r] gives a chain inside [r]. *)
Lemma walk_joins tbls rs (r : list ResolvedRelationship) es a b :
  is_walk (RelationshipGraph_init tbls rs) a es b ->
  (forall e, e ∈ es -> edge_key (to_resolved e) ∈ map edge_key r) -> exists l, l ⊆ r /\ joins a l b.
Proof.
  revert a. induction es as [|e es IH]; intros a; simpl; [intros -> _; exists []; split; [set_solver|done]|].
  intros [He Hw] Hk. destruct (IH _ Hw) as (l & Hl & Hj); [intros; apply Hk; by right|].
  specialize (Hk e (list_elem_of_here _ _)). apply list_elem_of_fmap in Hk as (x & Hx & Hin).
  injection Hx as Hsrc Htgt _. exists (x :: l). split; [set_solver|]. simpl. rewrite <- Hsrc, <- Htgt. split; [|done].
  rewrite edges_from_filter in He. apply list_elem_of_fmap in He as (y & -> & Hy).
  apply list_elem_of_In, List.filter_In in Hy as [_ Hy]. by apply String.eqb_eq in Hy.
Qed.

(** ** Properties *)
(** C25. [find_path] is a correct and complete breadth-first search: for two different tables
    of the graph it returns the edges of a walk from the source to the target with as few
    hops as any walk has, and the empty path exactly when no walk exists; in every other
    case (same table, unknown table) the path is empty. *)
Theorem find_path_shortest graph source target :
  (source <> target -> source ∈ nodes graph -> target ∈ nodes graph ->
   find_path graph source target = [] /\ (forall es, ~ is_walk graph source es target) \/
   exists es, find_path graph source target = map to_resolved es /\ is_walk graph source es target /\
     forall es', is_walk graph source es' target -> (length es <= length es')%nat) /\
  (source = target \/ source ∉ nodes graph \/ target ∉ nodes graph -> find_path graph source target = []).
Proof.
  split; [intros; by apply find_path_ok|]. unfold find_path.
  intros [->|[H|H]]; [by rewrite String.eqb_refl|..]; destruct (String.eqb _ _); try done;
    rewrite (bool_decide_eq_false_2 _ H); cbn [negb orb]; [done|by rewrite orb_true_r].
Qed.

(** [find_paths_from] joins everything that can be joined: the edges it returns have
    distinct keys, each lies on the path to one of the requested tables, and every requested
    table that can be reached from the anchor at all is reached from it inside the result. *)
Theorem find_paths_from_joins tbls rs anchor others :
  let graph := RelationshipGraph_init tbls rs in
  let r := find_paths_from graph anchor others in
  NoDup (map edge_key r) /\
  (forall x, x ∈ r -> exists t, t ∈ others /\ t <> anchor /\ x ∈ find_path graph anchor t) /\
  (anchor ∈ tbls -> forall t es, t ∈ others -> t ∈ tbls -> is_walk graph anchor es t ->
   exists l, l ⊆ r /\ joins anchor l t).
Proof.
  cbv zeta. set (graph := RelationshipGraph_init tbls rs).
  destruct (union_paths_spec graph anchor others ∅ [] eq_refl (NoDup_nil_2)) as (Hnd & _ & Hp & Hx).
  split_and!; [done| |].
  - intros x Hin. destruct (Hx x Hin) as [?|?]; [set_solver|done].
  - intros Ha t es Ht Htt Hw. destruct (decide (anchor = t)) as [->|Hne]; [exists []; split; [set_solver|done]|].
    destruct (find_path_ok graph anchor t Hne) as [[_ Hno]|(es' & He & Hw' & _)].
    + simpl. set_solver.
    + simpl. set_solver.
    + by destruct (Hno es).
    + eapply walk_joins; [exact Hw'|]. intros e Hin. apply (Hp t (to_resolved e)); [done|congruence|].
      rewrite He. by apply list_elem_of_fmap_2.
Qed.

Module JoinDemo.
(** orders -> customers -> regions, and orders -> products twice over. *)
Definition rel name a b : RelationshipMetadata :=
  {| rel_name := name; rel_source_table := a; rel_target_table := b; rel_source_columns := [name ++ "_id"];
     rel_target_columns := ["id"]; rel_direction := MANY_TO_ONE; back_populates := None |}.
Definition rels := [rel "customer" "orders" "customers"; rel "items" "orders" "order_items";
  rel "region" "customers" "regions"; rel "product" "order_items" "products"; rel "orders" "customers" "orders"].
Definition tbls := ["orders"; "customers"; "regions"; "order_items"; "products"; "audit"].
Definition graph := RelationshipGraph_init tbls rels.
End JoinDemo.

Lemma find_path_shortest_witness :
  (find_path JoinDemo.graph "customers" "products" = [] /\ (forall es, ~ is_walk JoinDemo.graph "customers" es "products") \/
   exists es, find_path JoinDemo.graph "customers" "products" = map to_resolved es /\
     is_walk JoinDemo.graph "customers" es "products" /\
     forall es', is_walk JoinDemo.graph "customers" es' "products" -> (length es <= length es')%nat) /\
  map rr_target_table (find_path JoinDemo.graph "customers" "products") = ["orders"; "order_items"; "products"] /\
  find_path JoinDemo.graph "customers" "audit" = [].
Proof.
  split_and!; [|by vm_compute..].
  apply (proj1 (find_path_shortest JoinDemo.graph "customers" "products")); [done|by apply (bool_decide_unpack _); vm_compute..].
Defined.
Lemma find_paths_from_joins_witness :
  (exists l, l ⊆ find_paths_from JoinDemo.graph "orders" ["regions"; "products"; "customers"] /\ joins "orders" l "regions") /\
  map rr_relationship_name (find_paths_from JoinDemo.graph "orders" ["regions"; "products"; "customers"])
    = ["customer"; "region"; "items"; "product"].
Proof.
  split; [|by vm_compute].
  apply (proj2 (proj2 (find_paths_from_joins JoinDemo.tbls JoinDemo.rels "orders" ["regions"; "products"; "customers"]))
    ltac:(by apply (bool_decide_unpack _); vm_compute) "regions"
    [from_relationship (JoinDemo.rel "customer" "orders" "customers"); from_relationship (JoinDemo.rel "region" "customers" "regions")]).
  - by apply (bool_decide_unpack _); vm_compute.
  - by apply (bool_decide_unpack _); vm_compute.
  - simpl. split_and!; [by apply (bool_decide_unpack _); vm_compute..|done].
Defined.
