(* ===== verification/ConceptMatcher.v ===== *)
(** * Matching one concept against one schema object
    ([schema_linker/matcher.py], [schema_linker/scorer.py]) *)
From S2P Require Import Prelude PyFloat PyStr Difflib Models ContextModels.
From Stdlib Require Import Ascii.
#[local] Open Scope string_scope.
#[local] Open Scope Z_scope.

(** ** [matcher.py] *)
Definition ABBREVIATIONS : list (string * string) :=
  [("qty", "quantity"); ("amt", "amount"); ("num", "number"); ("id", "identifier"); ("addr", "address");
   ("desc", "description"); ("msg", "message"); ("dob", "date of birth"); ("pct", "percent");
   ("avg", "average"); ("min", "minimum"); ("max", "maximum"); ("std", "standard"); ("info", "information")].
Definition FUZZY_THRESHOLD : Q := lit 75 100.
Definition PARTIAL_MIN_LENGTH : nat := 3.

Definition blank_underscore (c : ascii) : ascii := if Ascii.eqb c "_" then " "%char else c.
Definition normalize_concept (t : string) : string :=
  join " " (split_ws (str_map blank_underscore (lower (strip t)))).

Definition endswith (suffix s : string) : bool :=
  (String.length suffix <=? String.length s)%nat
  && String.eqb (drop_str (String.length s - String.length suffix) s) suffix.
Definition endswith_any (suffixes : list string) (s : string) : bool := existsb (fun x => endswith x s) suffixes.
(** [s[:-n]] *)
Definition drop_last (n : nat) (s : string) : string := take_str (String.length s - n) s.
(** [s[-2:-1]] *)
Definition second_last (s : string) : string :=
  if (2 <=? String.length s)%nat then take_str 1 (drop_str (String.length s - 2) s) else "".
Definition SIBILANTS : list string := ["s"; "x"; "z"; "ch"; "sh"].

Definition singularize (word : string) : string :=
  if endswith "ies" word && (3 <? String.length word)%nat then drop_last 3 word ++ "y"
  else if endswith "es" word && endswith_any SIBILANTS (drop_last 2 word) then drop_last 2 word
  else if endswith "s" word && negb (endswith "ss" word) then drop_last 1 word
  else word.
Definition pluralize (word : string) : string :=
  if endswith_any SIBILANTS word then word ++ "es"
  else if endswith "y" word && negb (contains (second_last word) "aeiou") then drop_last 1 word ++ "ies"
  else word ++ "s".

Definition canonical_alias_tokens (t : string) : gset string :=
  list_to_set (concat (map (fun token => split_ws (default token (alist_get token ABBREVIATIONS)))
                           (split_ws (normalize_concept t)))).

Record MatchResult := { mr_tier : MatchTier; similarity : Q; matched_text : string }.

(** The keyword arguments of [ConceptMatcher.match]. *)
Record Searchable := {
  so_name : string;
  so_synonyms : list string;
  so_search_keywords : list string;
  so_display_name : option string }.

Definition concept_forms (concept : string) : list string :=
  [normalize_concept concept; normalize_concept (singularize concept); normalize_concept (pluralize concept)].
Definition dictionary_forms (o : Searchable) : list string :=
  (map normalize_concept (so_search_keywords o)
   ++ match so_display_name o with Some d => [normalize_concept d] | None => [] end)%list.
Definition searchable_texts (o : Searchable) : list string :=
  (so_name o :: so_synonyms o ++ so_search_keywords o
   ++ match so_display_name o with Some d => if is_empty d then [] else [d] | None => [] end)%list.

(** The forms in both sets. *)
Definition hits (forms other : list string) : list string := List.filter (fun f => existsb (String.eqb f) other) forms.

Definition best_fuzzy_ratio (normalized_concept : string) (texts : list string) : Q :=
  match map (fun t => ratio normalized_concept (normalize_concept t)) texts with
  | [] => 0%Q
  | r :: rs => fold_left fmax rs r
  end.

Definition contained (normalized_concept normalized_text : string) : bool :=
  contains normalized_concept normalized_text || contains normalized_text normalized_concept.
Definition containment_ratio (s t : string) : Q :=
  fdiv (f_of_Z (Z.of_nat (Nat.min (String.length s) (String.length t))))
       (f_of_Z (Z.of_nat (Nat.max (String.length s) (String.length t)))).
Definition best_partial_ratio (normalized_concept : string) (texts : list string) : option Q :=
  fold_left (fun best t =>
    let normalized_text := normalize_concept t in
    if contained normalized_concept normalized_text
    then let r := containment_ratio normalized_concept normalized_text in
         match best with
         | None => Some r
         | Some b => if fltb b r then Some r else best
         end
    else best) texts None.

Section Match.
Context `{PySet}.

(** [next(iter(hit))] *)
Definition first_of (l : list string) : string := default "" (head (set_iter l)).

Definition match_ (concept : string) (o : Searchable) : option MatchResult :=
  let normalized_concept := normalize_concept concept in
  let forms := concept_forms concept in
  if existsb (String.eqb (normalize_concept (so_name o))) forms
  then Some {| mr_tier := EXACT; similarity := 1; matched_text := so_name o |}
  else
  let dictionary_hit := hits forms (dictionary_forms o) in
  if negb (Nat.eqb (length dictionary_hit) 0)
  then Some {| mr_tier := BUSINESS_DICTIONARY; similarity := 1; matched_text := first_of dictionary_hit |}
  else
  let synonym_hit := hits forms (map normalize_concept (so_synonyms o)) in
  if negb (Nat.eqb (length synonym_hit) 0)
  then Some {| mr_tier := SYNONYM; similarity := 1; matched_text := first_of synonym_hit |}
  else if bool_decide (canonical_alias_tokens concept = canonical_alias_tokens (so_name o))
  then Some {| mr_tier := ALIAS; similarity := 1; matched_text := so_name o |}
  else
  let best := best_fuzzy_ratio normalized_concept (searchable_texts o) in
  if fleb FUZZY_THRESHOLD best
  then Some {| mr_tier := FUZZY; similarity := best; matched_text := so_name o |}
  else if (PARTIAL_MIN_LENGTH <=? String.length normalized_concept)%nat
  then match best_partial_ratio normalized_concept (searchable_texts o) with
       | Some r => Some {| mr_tier := PARTIAL; similarity := r; matched_text := so_name o |}
       | None => None
       end
  else None.
End Match.

(** ** [scorer.py] *)
Definition TIER_CONFIDENCE (t : MatchTier) : option Q :=
  match t with
  | EXACT => Some 1%Q | BUSINESS_DICTIONARY => Some (lit 92 100) | SYNONYM => Some (lit 85 100)
  | ALIAS => Some (lit 78 100) | FUZZY | PARTIAL => None
  end.
Definition FUZZY_RANGE : Q * Q := (lit 45 100, lit 70 100).
Definition PARTIAL_RANGE : Q * Q := (lit 25 100, lit 44 100).

Definition scale (value source_low source_high target_low target_high : Q) : Q :=
  let span := fsub source_high source_low in
  let fraction := if Qeq_bool span 0 then 1%Q else fdiv (fsub value source_low) span in
  let fraction := fmin (fmax fraction 0) 1 in
  round4 (fadd target_low (fmul (fsub target_high target_low) fraction)).
Definition score (r : MatchResult) : Q :=
  match TIER_CONFIDENCE (mr_tier r) with
  | Some fixed => fixed
  | None => match mr_tier r with
            | FUZZY => scale (similarity r) FUZZY_THRESHOLD 1 (fst FUZZY_RANGE) (snd FUZZY_RANGE)
            | _ => scale (similarity r) 0 1 (fst PARTIAL_RANGE) (snd PARTIAL_RANGE)
            end
  end.

(** [_TIER_PRIORITY]: the declaration order of [MatchTier]. *)
Definition TIER_PRIORITY (t : MatchTier) : Z :=
  match t with EXACT => 0 | BUSINESS_DICTIONARY => 1 | SYNONYM => 2 | ALIAS => 3 | FUZZY => 4 | PARTIAL => 5 end.

(** ** Lemmas *)
Lemma existsb_eqb_In (x : string) l : existsb (String.eqb x) l = true <-> x ∈ l.
Proof.
  rewrite existsb_exists. setoid_rewrite <- list_elem_of_In. split; [|intros; exists x; by rewrite String.eqb_refl].
  intros (y & Hy & ->%String.eqb_eq). done.
Qed.
Lemma elem_of_hits forms other x : x ∈ hits forms other <-> x ∈ forms /\ x ∈ other.
Proof. unfold hits. by rewrite list_elem_of_In, List.filter_In, <- list_elem_of_In, existsb_eqb_In. Qed.
Lemma hits_some forms other : negb (Nat.eqb (length (hits forms other)) 0) = true <-> exists x, x ∈ forms /\ x ∈ other.
Proof.
  rewrite negb_true_iff, Nat.eqb_neq. split.
  - destruct (hits forms other) as [|x l] eqn:E; [done|]. intros _. exists x. apply elem_of_hits. rewrite E. by left.
  - intros (x & Hx). apply elem_of_hits in Hx. destruct (hits forms other); [set_solver|done].
Qed.

(** The maximum is one of the ratios and at least each of them. *)
Lemma fold_fmax rs r : (r = fold_left fmax rs r \/ fold_left fmax rs r ∈ rs) /\
  (r <= fold_left fmax rs r)%Q /\ forall x, x ∈ rs -> (x <= fold_left fmax rs r)%Q.
Proof.
  revert r. induction rs as [|x rs IH]; intros r; simpl.
  { split_and!; [by left|apply Qle_refl|set_solver]. }
  destruct (IH (fmax r x)) as (He & Hge & Hall). split_and!.
  - destruct He as [He|He]; [|right; by right]. rewrite <- He. unfold fmax. destruct (fltb r x); [right; by left|by left].
  - eapply Qle_trans; [apply fmax_ub_l|exact Hge].
  - intros y [->|Hy]%elem_of_cons; [|auto]. eapply Qle_trans; [apply fmax_ub_r|exact Hge].
Qed.
Lemma best_fuzzy_spec c o :
  (exists t, t ∈ searchable_texts o /\ best_fuzzy_ratio c (searchable_texts o) = ratio c (normalize_concept t)) /\
  forall t, t ∈ searchable_texts o -> (ratio c (normalize_concept t) <= best_fuzzy_ratio c (searchable_texts o))%Q.
Proof.
  unfold searchable_texts, best_fuzzy_ratio.
  set (rest := (so_synonyms o ++ _)%list). cbn [map].
  destruct (fold_fmax (map (fun t => ratio c (normalize_concept t)) rest) (ratio c (normalize_concept (so_name o))))
    as (He & Hge & Hall). split.
  - destruct He as [He|He].
    + exists (so_name o). split; [by left|done].
    + apply list_elem_of_fmap in He as (t & Ht & Hin). exists t. split; [by right|done].
  - intros t [->|Ht]%elem_of_cons; [done|]. apply Hall. by apply (list_elem_of_fmap_2 (fun t => ratio c (normalize_concept t))).
Qed.
Lemma best_partial_spec c texts acc :
  let step := (fun best t =>
    let normalized_text := normalize_concept t in
    if contained c normalized_text
    then let r := containment_ratio c normalized_text in
         match best with None => Some r | Some b => if fltb b r then Some r else best end
    else best) in
  match fold_left step texts acc with
  | Some r => acc = Some r \/ exists t, t ∈ texts /\ contained c (normalize_concept t) = true /\
                r = containment_ratio c (normalize_concept t)
  | None => acc = None /\ forall t, t ∈ texts -> contained c (normalize_concept t) = false
  end.
Proof.
  cbv zeta. revert acc. induction texts as [|t texts IH]; intros acc; simpl.
  { destruct acc; [by left|]. split; [done|set_solver]. }
  match goal with |- match fold_left ?f texts ?a with _ => _ end => specialize (IH a); destruct (fold_left f texts a) end.
  - destruct IH as [IH|(u & ? & ?)]; [|right; exists u; split; [by right|done]].
    destruct (contained c (normalize_concept t)) eqn:Ec; [|by left].
    destruct acc as [b|]; [|right; exists t; split; [by left|split; congruence]].
    destruct (fltb b _); [right; exists t; split; [by left|split; congruence]|by left].
  - destruct IH as [IH Hn]. destruct (contained c (normalize_concept t)) eqn:Ec.
    + destruct acc as [b|]; [|done]. destruct (fltb b _); done.
    + split; [done|]. intros u [->|?]%elem_of_cons; auto.
Qed.

(** When a tier's test holds, stated on its own. *)
Definition tier_applies (concept : string) (o : Searchable) (t : MatchTier) : Prop :=
  match t with
  | EXACT => normalize_concept (so_name o) ∈ concept_forms concept
  | BUSINESS_DICTIONARY => exists w, (w ∈ so_search_keywords o \/ so_display_name o = Some w) /\
                             normalize_concept w ∈ concept_forms concept
  | SYNONYM => exists w, w ∈ so_synonyms o /\ normalize_concept w ∈ concept_forms concept
  | ALIAS => canonical_alias_tokens concept = canonical_alias_tokens (so_name o)
  | FUZZY => exists w, w ∈ searchable_texts o /\ (FUZZY_THRESHOLD <= ratio (normalize_concept concept) (normalize_concept w))%Q
  | PARTIAL => (3 <= String.length (normalize_concept concept))%nat /\
               exists w, w ∈ searchable_texts o /\ contained (normalize_concept concept) (normalize_concept w) = true
  end.

Section MatchSpec.
Context `{PySet}.

Lemma first_of_elem l : l <> [] -> first_of l ∈ l.
Proof.
  intros Hl. unfold first_of. pose proof (set_iter_perm l) as Hp. destruct (set_iter l) as [|x k]; simpl.
  - apply Permutation_nil_l in Hp. destruct l as [|y l]; [done|].
    assert (Hy : y ∈ dedup (y :: l)) by (apply elem_of_dedup; by left). rewrite <- Hp in Hy. set_solver.
  - apply elem_of_dedup. rewrite <- Hp. by left.
Qed.

(** The tests of [match_] are the tiers. *)
Lemma exact_test c o : existsb (String.eqb (normalize_concept (so_name o))) (concept_forms c) = true <-> tier_applies c o EXACT.
Proof. apply existsb_eqb_In. Qed.
Lemma dictionary_test c o :
  negb (Nat.eqb (length (hits (concept_forms c) (dictionary_forms o))) 0) = true <-> tier_applies c o BUSINESS_DICTIONARY.
Proof.
  rewrite hits_some. simpl. unfold dictionary_forms. split.
  - intros (x & Hx & Hin). apply elem_of_app in Hin as [(w & -> & Hw)%list_elem_of_fmap|Hin]; [eauto|].
    destruct (so_display_name o) as [d|]; [|set_solver]. apply list_elem_of_singleton in Hin as ->. eauto.
  - intros (w & Hw & Hf). exists (normalize_concept w). split; [done|]. apply elem_of_app. destruct Hw as [Hw| ->].
    + left. by apply list_elem_of_fmap_2.
    + right. by left.
Qed.
Lemma synonym_test c o :
  negb (Nat.eqb (length (hits (concept_forms c) (map normalize_concept (so_synonyms o)))) 0) = true <-> tier_applies c o SYNONYM.
Proof.
  rewrite hits_some. simpl. split.
  - intros (x & Hx & (w & -> & Hw)%list_elem_of_fmap). eauto.
  - intros (w & Hw & Hf). exists (normalize_concept w). split; [done|]. by apply list_elem_of_fmap_2.
Qed.
Lemma fuzzy_test c o :
  fleb FUZZY_THRESHOLD (best_fuzzy_ratio (normalize_concept c) (searchable_texts o)) = true <-> tier_applies c o FUZZY.
Proof.
  destruct (best_fuzzy_spec (normalize_concept c) o) as [(t & Ht & He) Hall]. rewrite fleb_spec. simpl. split.
  - intros Hle. exists t. split; [done|]. by rewrite <- He.
  - intros (w & Hw & Hle). eapply Qle_trans; [exact Hle|by apply Hall].
Qed.

(** What [match_] answers, by the tier of the answer. *)
Definition result_ok (c : string) (o : Searchable) (r : MatchResult) : Prop :=
  match mr_tier r with
  | EXACT | ALIAS => similarity r = 1%Q /\ matched_text r = so_name o
  | BUSINESS_DICTIONARY => similarity r = 1%Q /\ matched_text r ∈ concept_forms c /\ matched_text r ∈ dictionary_forms o
  | SYNONYM => similarity r = 1%Q /\ matched_text r ∈ concept_forms c /\
               matched_text r ∈ map normalize_concept (so_synonyms o)
  | FUZZY => matched_text r = so_name o /\
      (exists w, w ∈ searchable_texts o /\ similarity r = ratio (normalize_concept c) (normalize_concept w)) /\
      forall w, w ∈ searchable_texts o -> (ratio (normalize_concept c) (normalize_concept w) <= similarity r)%Q
  | PARTIAL => matched_text r = so_name o /\
      exists w, w ∈ searchable_texts o /\ contained (normalize_concept c) (normalize_concept w) = true /\
        similarity r = containment_ratio (normalize_concept c) (normalize_concept w)
  end.
Lemma first_hit_ok forms other : negb (Nat.eqb (length (hits forms other)) 0) = true ->
  first_of (hits forms other) ∈ forms /\ first_of (hits forms other) ∈ other.
Proof. intros Hh. apply elem_of_hits, first_of_elem. by destruct (hits forms other). Qed.

Lemma match_cases c o :
  match match_ c o with
  | Some r => tier_applies c o (mr_tier r) /\ result_ok c o r /\
              forall t, TIER_PRIORITY t < TIER_PRIORITY (mr_tier r) -> ~ tier_applies c o t
  | None => forall t, ~ tier_applies c o t
  end.
Proof.
  unfold match_.
  destruct (existsb _ _) eqn:E1; [apply exact_test in E1; split_and!; [done|done|by intros []]|].
  rewrite <- not_true_iff_false, exact_test in E1.
  destruct (negb _) eqn:E2.
  { split_and!; [by apply dictionary_test|by split; [|apply first_hit_ok]|by intros []]. }
  rewrite <- not_true_iff_false, dictionary_test in E2.
  match goal with |- context [if negb ?b then _ else _] => destruct (negb b) eqn:E3 end.
  { split_and!; [by apply synonym_test|by split; [|apply first_hit_ok]|by intros []]. }
  rewrite <- not_true_iff_false, synonym_test in E3.
  destruct (bool_decide _) eqn:E4.
  { apply bool_decide_eq_true in E4. split_and!; [done|done|by intros []]. }
  apply bool_decide_eq_false in E4.
  destruct (fleb _ _) eqn:E5.
  { split_and!; [by apply fuzzy_test| |by intros []]. split; [done|]. apply best_fuzzy_spec. }
  rewrite <- not_true_iff_false, fuzzy_test in E5.
  destruct (Nat.leb_spec PARTIAL_MIN_LENGTH (String.length (normalize_concept c))) as [E6|E6].
  - pose proof (best_partial_spec (normalize_concept c) (searchable_texts o) None) as Hp. cbv zeta in Hp.
    unfold best_partial_ratio. destruct (fold_left _ _ _) as [r|].
    + destruct Hp as [?|(t & Ht & Hc & ->)]; [done|]. split_and!; [by split; [|eauto]|split; [done|eauto]|by intros []].
    + destruct Hp as [_ Hn]. intros []; try done. intros [_ (w & Hw & Hc)]. rewrite (Hn w Hw) in Hc. done.
  - intros []; try done. intros [Hl _]. unfold PARTIAL_MIN_LENGTH in E6. lia.
Qed.
End MatchSpec.

(** ** Scores *)
Lemma scale_bounds value source_low source_high tl th : (0 <= tl)%Q -> (tl <= th)%Q ->
  (round4 (fadd tl (fmul (fsub th tl) 0)) <= scale value source_low source_high tl th <= round4 (fadd tl (fmul (fsub th tl) 1)))%Q.
Proof.
  intros Htl Hth. unfold scale. cbv zeta. set (frac := if Qeq_bool _ _ then 1%Q else _).
  assert (Hd : (0 <= fsub th tl)%Q) by auto with pyfloat.
  assert (Hlo : (0 <= fmin (fmax frac 0) 1)%Q) by (apply fmin_glb; [apply fmax_ub_r|unfold Qle; simpl; lia]).
  assert (Hhi : (fmin (fmax frac 0) 1 <= 1)%Q) by apply fmin_le_r.
  set (f := fmin (fmax frac 0) 1) in *.
  assert (Hm : forall x y, (0 <= x)%Q -> (x <= y)%Q ->
    (round4 (fadd tl (fmul (fsub th tl) x)) <= round4 (fadd tl (fmul (fsub th tl) y)))%Q).
  { intros x y Hx Hxy. apply round4_mono; [by auto with pyfloat|]. apply fl_mono, Qplus_le_r, fl_mono.
    rewrite !(Qmult_comm (fsub th tl)). by apply Qmult_le_compat_r. }
  split; apply Hm; done.
Qed.

(** The band of each tier. *)
Definition BAND (t : MatchTier) : Q * Q :=
  match t with
  | EXACT => (1, 1)%Q | BUSINESS_DICTIONARY => (lit 92 100, lit 92 100) | SYNONYM => (lit 85 100, lit 85 100)
  | ALIAS => (lit 78 100, lit 78 100) | FUZZY => FUZZY_RANGE | PARTIAL => PARTIAL_RANGE
  end.
Lemma score_in_band r : (fst (BAND (mr_tier r)) <= score r <= snd (BAND (mr_tier r)))%Q.
Proof.
  unfold score. destruct (mr_tier r); cbn [TIER_CONFIDENCE BAND fst snd].
  1-4: split; apply Qle_refl.
  - destruct (scale_bounds (similarity r) FUZZY_THRESHOLD 1 (fst FUZZY_RANGE) (snd FUZZY_RANGE)) as [H1 H2];
      [by apply Qle_bool_iff; vm_compute..|].
    split; [eapply Qle_trans; [|exact H1]|eapply Qle_trans; [exact H2|]]; by apply Qle_bool_iff; vm_compute.
  - destruct (scale_bounds (similarity r) 0 1 (fst PARTIAL_RANGE) (snd PARTIAL_RANGE)) as [H1 H2];
      [by apply Qle_bool_iff; vm_compute..|].
    split; [eapply Qle_trans; [|exact H1]|eapply Qle_trans; [exact H2|]]; by apply Qle_bool_iff; vm_compute.
Qed.
Lemma score_unit r : (0 <= score r <= 1)%Q.
Proof.
  destruct (score_in_band r) as [H1 H2].
  split; [eapply Qle_trans; [|exact H1]|eapply Qle_trans; [exact H2|]];
    destruct (mr_tier r); by apply Qle_bool_iff; vm_compute.
Qed.
Lemma band_lt t1 t2 : TIER_PRIORITY t1 < TIER_PRIORITY t2 -> fltb (snd (BAND t2)) (fst (BAND t1)) = true.
Proof. destruct t1, t2; simpl; try lia; intros _; by vm_compute. Qed.

(** ** Properties *)
(** [ConceptMatcher.match] answers with the first tier, in the documented priority order,
    whose test holds for the concept and the object, and with nothing exactly when no tier's
    test holds; the similarity is 1 for the four exact tiers, the best ratio over all the
    searchable texts for FUZZY, and the containment ratio of one of them for PARTIAL. *)
Theorem match_first_tier `{PySet} c o :
  match match_ c o with
  | Some r => tier_applies c o (mr_tier r) /\ result_ok c o r /\
              forall t, TIER_PRIORITY t < TIER_PRIORITY (mr_tier r) -> ~ tier_applies c o t
  | None => forall t, ~ tier_applies c o t
  end.
Proof. apply match_cases. Qed.

(** [ConceptScorer.score] maps every match into the band of its tier, whatever the
    similarity, and the bands do not touch: a match of a better tier always scores strictly
    higher, so an approximate match never outranks an exact one and a substring match never
    outranks a fuzzy one. *)
Theorem score_respects_tiers :
  (forall r, (fst (BAND (mr_tier r)) <= score r <= snd (BAND (mr_tier r)))%Q /\ (0 <= score r <= 1)%Q) /\
  (forall r1 r2, TIER_PRIORITY (mr_tier r1) < TIER_PRIORITY (mr_tier r2) -> (score r2 < score r1)%Q).
Proof.
  split; [intros r; split; [apply score_in_band|apply score_unit]|].
  intros r1 r2 Ht%band_lt%fltb_spec.
  destruct (score_in_band r1) as [H1 _], (score_in_band r2) as [_ H2].
  eapply Qle_lt_trans; [exact H2|]. eapply Qlt_le_trans; [exact Ht|exact H1].
Qed.

(** The order in which Python iterates a set decides only the text a match reports, never
    its tier, its similarity or its score: two runs with different hash seeds rank alike. *)
Theorem match_order_independent (s1 s2 : PySet) c o :
  match @match_ s1 c o, @match_ s2 c o with
  | Some r1, Some r2 => mr_tier r1 = mr_tier r2 /\ similarity r1 = similarity r2 /\ score r1 = score r2
  | None, None => True
  | _, _ => False
  end.
Proof.
  assert (Hs : forall t q m1 m2, t = t /\ q = q /\
    score {| mr_tier := t; similarity := q; matched_text := m1 |} =
    score {| mr_tier := t; similarity := q; matched_text := m2 |}) by (intros; split_and!; reflexivity).
  unfold match_. do 5 (match goal with |- context [if ?b then _ else _] => destruct b; [apply Hs|] end).
  destruct (PARTIAL_MIN_LENGTH <=? _)%nat; [|exact I]. destruct (best_partial_ratio _ _); [apply Hs|exact I].
Qed.

(** The text itself does depend on it: a column with both forms among its keywords. *)
Definition sorted_set : PySet :=
  {| set_iter l := dedup l; set_iter_perm := fun l => Permutation_refl _ |}.
Definition reversed_set : PySet :=
  {| set_iter l := rev (dedup l); set_iter_perm := fun l => Permutation_sym (Permutation_rev _) |}.
Example matched_text_depends_on_order :
  let o := {| so_name := "buyer_id"; so_synonyms := []; so_search_keywords := ["customer"; "customers"]; so_display_name := None |} in
  matched_text <$> @match_ sorted_set "customer" o = Some "customer" /\
  matched_text <$> @match_ reversed_set "customer" o = Some "customers".
Proof. vm_compute. split; reflexivity. Qed.
