(* ===== verification/SchemaLinker.v ===== *)
(** * The semantic schema linker ([querymind.schema_linker])

    Candidate generation over the whole schema with its cache ([candidates.py], [cache.py]),
    the decision whether a winner is trustworthy ([ambiguity.py]), the resolution of one
    concept ([resolver.py]) and of a whole question ([linker.py]). *)
From S2P Require Import Prelude PyFloat PyStr Difflib Models ContextModels Metadata ConceptMatcher JoinPaths.
#[local] Open Scope string_scope.
#[local] Open Scope Z_scope.

(** [exceptions.py] *)
Definition EmptyRegistryError : exn := OtherException "EmptyRegistryError"
  "MetadataRegistry has no tables loaded. Call registry.load() before linking.".
Definition column_name_missing : exn := OtherException "AssertionError"
  "column-level candidates always carry a column_name".

(** ** [candidates.py] *)
Definition with_rank (c : LinkCandidate) (rank : Z) : LinkCandidate :=
  {| lc_table_name := lc_table_name c; lc_column_name := lc_column_name c; lc_confidence := lc_confidence c;
     lc_matching_reason := lc_matching_reason c; lc_candidate_rank := rank; lc_matched_text := lc_matched_text c |}.

(** The sort key [(-confidence, tier priority)], compared as a tuple. *)
Definition rank_key (c : LinkCandidate) : Q * Z := (lc_confidence c, TIER_PRIORITY (lc_matching_reason c)).
Definition rank_ltb : Q * Z -> Q * Z -> bool := desc_ltb Z.ltb.
Definition rank (candidates : list LinkCandidate) : list LinkCandidate :=
  imap (fun i c => with_rank c (Z.of_nat i + 1)) (sorted_by rank_ltb rank_key candidates).

(** [CacheKey]: [(is_table_lookup, normalized_concept)] *)
Abbreviation CacheKey := (bool * string)%type.
Class LinkerCacheState (W : Type) `{MetadataCacheState W} := {
  linker_cache : W -> gmap CacheKey (list LinkCandidate);
  set_linker_cache : gmap CacheKey (list LinkCandidate) -> W -> W;
  linker_cache_set : forall c w, linker_cache (set_linker_cache c w) = c;
  linker_cache_keeps_metadata : forall c w, metadata_cache (set_linker_cache c w) = metadata_cache w }.

Section Candidates.
Context `{PySet}.

Definition candidate_of (table_name : string) (column_name : option string) (r : MatchResult) : LinkCandidate :=
  {| lc_table_name := table_name; lc_column_name := column_name; lc_confidence := score r;
     lc_matching_reason := mr_tier r; lc_candidate_rank := 1; lc_matched_text := matched_text r |}.
Definition table_candidate (concept : string) (t : TableMetadata) : option LinkCandidate :=
  candidate_of (tbl_name t) None <$>
    match_ concept {| so_name := tbl_name t; so_synonyms := tbl_synonyms t; so_search_keywords := [];
                      so_display_name := None |}.
Definition column_candidate (concept : string) (t : TableMetadata) (c : ColumnMetadata) : option LinkCandidate :=
  candidate_of (tbl_name t) (Some (col_name c)) <$>
    match_ concept {| so_name := col_name c; so_synonyms := col_synonyms c;
                      so_search_keywords := search_keywords c; so_display_name := display_name c |}.

Definition table_scan (db : DatabaseMetadata) (concept : string) : list LinkCandidate :=
  rank (omap (table_candidate concept) (tables db)).
Definition column_scan (db : DatabaseMetadata) (concept : string) : list LinkCandidate :=
  rank (concat (map (fun t => omap (column_candidate concept t) (tbl_columns t)) (tables db))).

Context {W : Type} `{LinkerCacheState W}.
Context (extractor : prog W exn DatabaseMetadata) (dictionary : option ColumnDictionary).

(** [cached = self._cache.get(key)]; after a scan, [self._cache.set(key, ranked)]. *)
Definition cached_scan (key : CacheKey) (scan : DatabaseMetadata -> list LinkCandidate)
  : prog W exn (list LinkCandidate) :=
  fun w => match linker_cache w !! key with
           | Some cached => (Ret cached, w)
           | None =>
               (let! db := load extractor dictionary in
                let ranked := scan db in
                fun w => (Ret ranked, set_linker_cache (<[key := ranked]> (linker_cache w)) w)) w
           end.
Definition generate_table_candidates (concept : string) : prog W exn (list LinkCandidate) :=
  cached_scan (true, normalize_concept concept) (fun db => table_scan db concept).
Definition generate_column_candidates (concept : string) : prog W exn (list LinkCandidate) :=
  cached_scan (false, normalize_concept concept) (fun db => column_scan db concept).
End Candidates.

(** ** [ambiguity.py] *)
Definition describe (c : LinkCandidate) : string :=
  match lc_column_name c with None => lc_table_name c | Some n => lc_table_name c ++ "." ++ n end.
Definition MIN_CONFIDENCE : Q := lit 6 10.
Definition MIN_MARGIN : Q := lit 1 10.
Record AmbiguityDecision := { is_confident : bool; decision_reason : option string }.
Definition not_confident (reason : string) : AmbiguityDecision :=
  {| is_confident := false; decision_reason := Some reason |}.
Definition decide_candidates (candidates : list LinkCandidate) : AmbiguityDecision :=
  match candidates with
  | [] => not_confident "No candidate schema object matched this business concept at any tier."
  | top :: rest =>
      if fltb (lc_confidence top) MIN_CONFIDENCE
      then not_confident ("Best candidate (" ++ describe top ++ ", confidence " ++ format_2f (lc_confidence top)
             ++ ") is below the minimum " ++ format_2f MIN_CONFIDENCE ++ " required to resolve automatically.")
      else match rest with
           | runner_up :: _ =>
               if fltb (fsub (lc_confidence top) (lc_confidence runner_up)) MIN_MARGIN
               then not_confident ("Top candidates are within " ++ format_2f MIN_MARGIN ++ " confidence of each other ("
                      ++ describe top ++ " at " ++ format_2f (lc_confidence top) ++ " vs. " ++ describe runner_up
                      ++ " at " ++ format_2f (lc_confidence runner_up) ++ "); cannot pick one without more context.")
               else {| is_confident := true; decision_reason := None |}
           | [] => {| is_confident := true; decision_reason := None |}
           end
  end.

(** ** [resolver.py] *)
Definition ambiguity_for (concept : string) (kind : ConceptKind) (candidates : list LinkCandidate)
    (reason : option string) : Ambiguity :=
  {| am_business_concept := concept; am_concept_kind := kind; am_candidates := candidates;
     am_reason := match reason with
                  | Some r => if is_empty r then "Could not be resolved to a single confident schema object." else r
                  | None => "Could not be resolved to a single confident schema object."
                  end |}.

Section Linker.
Context `{PySet} {W : Type} `{LinkerCacheState W}.
Context (extractor : prog W exn DatabaseMetadata) (dictionary : option ColumnDictionary).

Abbreviation resolution R := (option R * option Ambiguity)%type.

Definition resolve_entity (concept : string) : prog W exn (resolution ResolvedTable) :=
  let! candidates := generate_table_candidates extractor dictionary concept in
  let decision := decide_candidates candidates in
  match is_confident decision, candidates with
  | true, winner :: alternatives =>
      let! table := fun w => (get_table (metadata_cache w) (lc_table_name winner), w) in
      ret (Some {| rt_business_concept := concept; rt_table := table; rt_confidence := lc_confidence winner;
                   rt_matching_reason := lc_matching_reason winner; rt_candidate_rank := lc_candidate_rank winner;
                   rt_alternatives := alternatives |}, None)
  | _, _ => ret (None, Some (ambiguity_for concept CK_ENTITY candidates (decision_reason decision)))
  end.

(** [_resolve_column]: [inl] is the confident winner with its alternatives. *)
Definition resolve_column (concept : string) (kind : ConceptKind)
  : prog W exn (LinkCandidate * list LinkCandidate + Ambiguity) :=
  let! candidates := generate_column_candidates extractor dictionary concept in
  let decision := decide_candidates candidates in
  match is_confident decision, candidates with
  | true, winner :: alternatives => ret (inl (winner, alternatives))
  | _, _ => ret (inr (ambiguity_for concept kind candidates (decision_reason decision)))
  end.

(** What the four column resolvers share: the assertion and [get_column], then the model. *)
Definition resolve_with {R} (concept : string) (kind : ConceptKind)
    (build : ColumnMetadata -> LinkCandidate -> list LinkCandidate -> R) : prog W exn (resolution R) :=
  let! r := resolve_column concept kind in
  match r with
  | inr ambiguity => ret (None, Some ambiguity)
  | inl (winner, alternatives) =>
      match lc_column_name winner with
      | None => throw column_name_missing
      | Some name =>
          let! column := fun w => (get_column (metadata_cache w) (lc_table_name winner) name, w) in
          ret (Some (build column winner alternatives), None)
      end
  end.
Definition build_dimension (concept : string) (column : ColumnMetadata) (winner : LinkCandidate)
    (alternatives : list LinkCandidate) : ResolvedColumn :=
  {| rc_business_concept := concept; rc_column := column; rc_confidence := lc_confidence winner;
     rc_matching_reason := lc_matching_reason winner; rc_candidate_rank := lc_candidate_rank winner;
     rc_alternatives := alternatives |}.
Definition build_metric (m : MetricExpression) (column : ColumnMetadata) (winner : LinkCandidate)
    (alternatives : list LinkCandidate) : ResolvedMetric :=
  {| rm_business_concept := me_name m; rm_column := column; rm_aggregation := me_aggregation m;
     rm_raw_text := me_raw_text m; rm_confidence := lc_confidence winner;
     rm_matching_reason := lc_matching_reason winner; rm_candidate_rank := lc_candidate_rank winner;
     rm_alternatives := alternatives |}.
Definition build_filter (f : FilterExpression) (column : ColumnMetadata) (winner : LinkCandidate)
    (alternatives : list LinkCandidate) : ResolvedFilter :=
  {| rf_business_concept := fe_field f; rf_column := column; rf_operator := fe_operator f; rf_value := fe_value f;
     rf_raw_text := fe_raw_text f; rf_confidence := lc_confidence winner;
     rf_matching_reason := lc_matching_reason winner; rf_candidate_rank := lc_candidate_rank winner;
     rf_alternatives := alternatives |}.
Definition build_sort (s : SortExpression) (column : ColumnMetadata) (winner : LinkCandidate)
    (alternatives : list LinkCandidate) : ResolvedSort :=
  {| rs_business_concept := se_field s; rs_column := column; rs_direction := se_direction s;
     rs_raw_text := se_raw_text s; rs_confidence := lc_confidence winner;
     rs_matching_reason := lc_matching_reason winner; rs_candidate_rank := lc_candidate_rank winner;
     rs_alternatives := alternatives |}.
Definition resolve_dimension (concept : string) : prog W exn (resolution ResolvedColumn) :=
  resolve_with concept CK_DIMENSION (build_dimension concept).
Definition resolve_metric (m : MetricExpression) : prog W exn (resolution ResolvedMetric) :=
  resolve_with (me_name m) CK_METRIC (build_metric m).
Definition resolve_filter (f : FilterExpression) : prog W exn (resolution ResolvedFilter) :=
  resolve_with (fe_field f) CK_FILTER_FIELD (build_filter f).
Definition resolve_sort (s : SortExpression) : prog W exn (resolution ResolvedSort) :=
  resolve_with (se_field s) CK_SORT_FIELD (build_sort s).

(** ** [linker.py] *)
(** One [for] loop of [link]: the resolved models, the ambiguities and the tables involved
    are appended in the order of the concepts. *)
Fixpoint resolve_each {C R} (resolve : C -> prog W exn (resolution R)) (table_of : R -> string)
    (ambiguities : list Ambiguity) (involved_tables : list string) (concepts : list C)
  : prog W exn (list R * list Ambiguity * list string) :=
  match concepts with
  | [] => ret ([], ambiguities, involved_tables)
  | concept :: rest =>
      let! '(resolved, ambiguity) := resolve concept in
      let ambiguities := match ambiguity with Some a => (ambiguities ++ [a])%list | None => ambiguities end in
      let involved_tables :=
        match resolved with Some r => (involved_tables ++ [table_of r])%list | None => involved_tables end in
      let! '(rs, ambiguities, involved_tables) := resolve_each resolve table_of ambiguities involved_tables rest in
      ret (match resolved with Some r => r :: rs | None => rs end, ambiguities, involved_tables)
  end.

Definition option_list {A} (o : option A) : list A := match o with Some a => [a] | None => [] end.

Definition resolve_relationship_paths (involved_tables : list string) : prog W exn (list ResolvedRelationship) :=
  match dedup involved_tables with
  | anchor :: ((_ :: _) as others) =>
      let! graph := fun w => (build_graph (metadata_cache w), w) in
      ret (find_paths_from graph anchor others)
  | _ => ret []
  end.

Definition link (q : QueryContext) : prog W exn LinkedQueryContext :=
  let! db := load extractor dictionary in
  if Nat.eqb (length (tables db)) 0 then throw EmptyRegistryError else
  let entity_table := fun e => tbl_name (rt_table e) in
  let! '(primary, ambs, involved) :=
    resolve_each resolve_entity entity_table [] [] (option_list (qc_primary_entity q)) in
  let! '(secondary, ambs, involved) :=
    resolve_each resolve_entity entity_table ambs involved (qc_secondary_entities q) in
  let! '(metrics, ambs, involved) :=
    resolve_each resolve_metric (fun m => col_table_name (rm_column m)) ambs involved (qc_metrics q) in
  let! '(dimensions, ambs, involved) :=
    resolve_each resolve_dimension (fun d => col_table_name (rc_column d)) ambs involved (qc_dimensions q) in
  let! '(filters, ambs, involved) :=
    resolve_each resolve_filter (fun f => col_table_name (rf_column f)) ambs involved (qc_filters q) in
  let! '(sort, ambs, involved) :=
    resolve_each resolve_sort (fun s => col_table_name (rs_column s)) ambs involved (option_list (qc_sort q)) in
  let! paths := resolve_relationship_paths involved in
  ret {| query_context := q; primary_entity := head primary; secondary_entities := secondary;
         lq_metrics := metrics; lq_dimensions := dimensions; lq_filters := filters; lq_sort := head sort;
         relationship_paths := paths; ambiguities := ambs |}.
End Linker.

(** ** Lemmas: ranking *)
Lemma rank_ltb_asym x y : rank_ltb x y = true -> rank_ltb y x = false.
Proof. apply desc_asym. intros a b ?%Z.ltb_lt. apply Z.ltb_ge. lia. Qed.
Lemma rank_geb x y : rank_ltb y x = false <-> (fst y < fst x)%Q \/ (fst x == fst y)%Q /\ snd x <= snd y.
Proof. unfold rank_ltb. by rewrite desc_geb, Z.ltb_ge. Qed.
Lemma rank_geb_trans x y z : rank_ltb y x = false -> rank_ltb z y = false -> rank_ltb z x = false.
Proof. apply desc_geb_trans. intros a b c ?%Z.ltb_ge ?%Z.ltb_ge. apply Z.ltb_ge. lia. Qed.

Lemma rank_lookup l i c : rank l !! i = Some c <->
  exists x, sorted_by rank_ltb rank_key l !! i = Some x /\ c = with_rank x (Z.of_nat i + 1).
Proof.
  unfold rank. rewrite list_lookup_imap, fmap_Some. done.
Qed.
Lemma elem_of_rank l c : c ∈ rank l -> exists x r, x ∈ l /\ c = with_rank x r.
Proof.
  intros (i & Hi)%list_elem_of_lookup_1. apply rank_lookup in Hi as (x & Hx & ->).
  exists x, (Z.of_nat i + 1). split; [|done]. by apply (elem_of_sorted_by rank_ltb rank_key), list_elem_of_lookup_2 with i.
Qed.
Lemma rank_sorted l : StronglySorted (fun x y => (lc_confidence y <= lc_confidence x)%Q) (rank l).
Proof.
  pose proof (sorted_by_sorted rank_ltb rank_key rank_ltb_asym rank_geb_trans l) as Hs.
  unfold rank. generalize dependent (sorted_by rank_ltb rank_key l). intros m Hs. clear l.
  assert (Hg : forall k, StronglySorted (fun x y => (lc_confidence y <= lc_confidence x)%Q)
    (imap (fun i c => with_rank c (Z.of_nat (k + i) + 1)) m)).
  { induction Hs as [|x m Hm IH Hx]; intros k; [constructor|]. rewrite imap_cons. constructor.
    - specialize (IH (S k)). erewrite imap_ext; [exact IH|]. intros i y _. simpl. f_equal. lia.
    - apply Forall_forall. intros y (i & Hi)%list_elem_of_lookup_1. rewrite list_lookup_imap in Hi.
      apply fmap_Some in Hi as (z & Hz & ->). simpl. rewrite Forall_forall in Hx.
      specialize (Hx z (list_elem_of_lookup_2 _ _ _ Hz)). unfold not_after in Hx. apply rank_geb in Hx as [Hx|[Hx _]]; simpl in Hx.
      + by apply Qlt_le_weak.
      + rewrite Hx. apply Qle_refl. }
  exact (Hg 0%nat).
Qed.

(** ** The specification: linking without a cache *)
Section Spec.
Context `{PySet} (db : DatabaseMetadata).

Definition resolved_entity (concept : string) : option ResolvedTable :=
  match is_confident (decide_candidates (table_scan db concept)), table_scan db concept with
  | true, winner :: alternatives =>
      (fun t => {| rt_business_concept := concept; rt_table := t; rt_confidence := lc_confidence winner;
                   rt_matching_reason := lc_matching_reason winner; rt_candidate_rank := lc_candidate_rank winner;
                   rt_alternatives := alternatives |}) <$> find_table db (lc_table_name winner)
  | _, _ => None
  end.
Definition scan_ambiguity (scan : list LinkCandidate) (concept : string) (kind : ConceptKind) : option Ambiguity :=
  let d := decide_candidates scan in
  if is_confident d then None else Some (ambiguity_for concept kind scan (decision_reason d)).
Definition entity_ambiguity (concept : string) : option Ambiguity :=
  scan_ambiguity (table_scan db concept) concept CK_ENTITY.
Definition find_column (t c : string) : option ColumnMetadata :=
  tbl ← find_table db t; List.find (fun x => String.eqb (col_name x) c) (tbl_columns tbl).
Definition resolved_column {R} (build : ColumnMetadata -> LinkCandidate -> list LinkCandidate -> R)
    (concept : string) : option R :=
  match is_confident (decide_candidates (column_scan db concept)), column_scan db concept with
  | true, winner :: alternatives =>
      name ← lc_column_name winner; column ← find_column (lc_table_name winner) name;
      Some (build column winner alternatives)
  | _, _ => None
  end.
Definition column_ambiguity (kind : ConceptKind) (concept : string) : option Ambiguity :=
  scan_ambiguity (column_scan db concept) concept kind.

(** The whole question: every field is a function of the schema and the question. *)
Definition linked (q : QueryContext) : LinkedQueryContext :=
  let l := {| query_context := q;
    primary_entity := c ← qc_primary_entity q; resolved_entity c;
    secondary_entities := omap resolved_entity (qc_secondary_entities q);
    lq_metrics := omap (fun m => resolved_column (build_metric m) (me_name m)) (qc_metrics q);
    lq_dimensions := omap (fun d => resolved_column (build_dimension d) d) (qc_dimensions q);
    lq_filters := omap (fun f => resolved_column (build_filter f) (fe_field f)) (qc_filters q);
    lq_sort := s ← qc_sort q; resolved_column (build_sort s) (se_field s);
    relationship_paths := [];
    ambiguities :=
      (omap entity_ambiguity (option_list (qc_primary_entity q) ++ qc_secondary_entities q)
       ++ omap (fun m => column_ambiguity CK_METRIC (me_name m)) (qc_metrics q)
       ++ omap (column_ambiguity CK_DIMENSION) (qc_dimensions q)
       ++ omap (fun f => column_ambiguity CK_FILTER_FIELD (fe_field f)) (qc_filters q)
       ++ omap (fun s => column_ambiguity CK_SORT_FIELD (se_field s)) (option_list (qc_sort q)))%list |} in
  {| query_context := q; primary_entity := primary_entity l; secondary_entities := secondary_entities l;
     lq_metrics := lq_metrics l; lq_dimensions := lq_dimensions l; lq_filters := lq_filters l; lq_sort := lq_sort l;
     relationship_paths :=
       match resolved_table_names l with
       | anchor :: ((_ :: _) as others) =>
           find_paths_from (RelationshipGraph_init (map tbl_name (tables db)) (relationships db)) anchor others
       | _ => []
       end;
     ambiguities := ambiguities l |}.

(** The concepts a question asks about. *)
Definition concepts_of (q : QueryContext) : list string :=
  (option_list (qc_primary_entity q) ++ qc_secondary_entities q ++ map me_name (qc_metrics q) ++ qc_dimensions q
   ++ map fe_field (qc_filters q) ++ map se_field (option_list (qc_sort q)))%list.

(** *** Candidates name what exists *)
Lemma table_scan_elem concept c : c ∈ table_scan db concept ->
  exists t, t ∈ tables db /\ lc_table_name c = tbl_name t /\ lc_column_name c = None.
Proof.
  intros (x & r & Hx & ->)%elem_of_rank. apply list_elem_of_omap in Hx as (t & Ht & Hx). exists t. split; [done|].
  unfold table_candidate in Hx. apply fmap_Some in Hx as (m & _ & ->). done.
Qed.
Lemma column_scan_elem concept c : c ∈ column_scan db concept ->
  exists t col, t ∈ tables db /\ col ∈ tbl_columns t /\ lc_table_name c = tbl_name t /\ lc_column_name c = Some (col_name col).
Proof.
  intros (x & r & Hx & ->)%elem_of_rank. apply list_elem_of_In, in_concat in Hx as (l & Hl & Hx).
  apply in_map_iff in Hl as (t & <- & Ht). apply list_elem_of_In, list_elem_of_omap in Hx as (col & Hcol & Hx).
  exists t, col. unfold column_candidate in Hx. apply fmap_Some in Hx as (m & _ & ->).
  split_and!; try done. by apply list_elem_of_In.
Qed.
Lemma find_table_elem t : t ∈ tables db -> exists t', find_table db (tbl_name t) = Some t' /\ tbl_name t' = tbl_name t.
Proof.
  intros Ht. destruct (find_table db (tbl_name t)) as [t'|] eqn:E.
  - exists t'. split; [done|]. by apply find_table_Some in E as [_ ?].
  - apply find_table_None in E. destruct E. by apply list_elem_of_fmap_2.
Qed.
Lemma find_table_unique t : NoDup (map tbl_name (tables db)) -> t ∈ tables db -> find_table db (tbl_name t) = Some t.
Proof.
  intros Hnd Ht. destruct (find_table_elem t Ht) as (t' & Hf & Hn). rewrite Hf. f_equal.
  apply find_table_Some in Hf as [Ht' _]. eapply NoDup_map_inj; eauto.
Qed.
Lemma find_column_elem t col : NoDup (map tbl_name (tables db)) -> t ∈ tables db -> col ∈ tbl_columns t ->
  exists col', find_column (tbl_name t) (col_name col) = Some col' /\ col' ∈ tbl_columns t /\ col_name col' = col_name col.
Proof.
  intros Hnd Ht Hc. unfold find_column. rewrite find_table_unique by done. simpl.
  destruct (List.find _ (tbl_columns t)) as [col'|] eqn:E.
  - apply List.find_some in E as [E1 E2]. exists col'. split_and!; [done|by apply list_elem_of_In|by apply String.eqb_eq].
  - apply list_elem_of_In in Hc. apply (List.find_none _ _ E) in Hc. by rewrite String.eqb_refl in Hc.
Qed.

(** A confident decision has a winner; resolved or ambiguous, never both, never neither. *)
Lemma confident_winner l : is_confident (decide_candidates l) = true -> exists w alts, l = w :: alts.
Proof. destruct l; [done|eauto]. Qed.
Lemma entity_one_outcome concept :
  is_Some (resolved_entity concept) <-> entity_ambiguity concept = None.
Proof.
  unfold resolved_entity, entity_ambiguity, scan_ambiguity. cbv zeta.
  destruct (is_confident _) eqn:E; [|split; [by intros [? ?]|done]]. split; [done|]. intros _.
  destruct (confident_winner _ E) as (w & alts & Hl). rewrite Hl.
  destruct (table_scan_elem concept w) as (t & Ht & -> & _); [rewrite Hl; by left|].
  destruct (find_table_elem t Ht) as (t' & -> & _). by eexists.
Qed.
Lemma column_one_outcome {R} (build : ColumnMetadata -> LinkCandidate -> list LinkCandidate -> R) kind concept :
  NoDup (map tbl_name (tables db)) -> is_Some (resolved_column build concept) <-> column_ambiguity kind concept = None.
Proof.
  intros Hnd. unfold resolved_column, column_ambiguity, scan_ambiguity. cbv zeta.
  destruct (is_confident _) eqn:E; [|split; [by intros [? ?]|done]]. split; [done|]. intros _.
  destruct (confident_winner _ E) as (w & alts & Hl). rewrite Hl.
  destruct (column_scan_elem concept w) as (t & col & Ht & Hcol & -> & ->); [rewrite Hl; by left|].
  destruct (find_column_elem t col Hnd Ht Hcol) as (col' & Hf & _). simpl. rewrite Hf. by eexists.
Qed.
End Spec.

(** ** The linker refines the specification *)
(** A match looks at the concept only through its normal form and its three forms. *)
Lemma match_congr `{PySet} c c' o :
  normalize_concept c = normalize_concept c' -> concept_forms c = concept_forms c' -> match_ c o = match_ c' o.
Proof. intros Hn Hf. unfold match_, canonical_alias_tokens. by rewrite Hn, Hf. Qed.
Lemma scans_congr `{PySet} db c c' :
  normalize_concept c = normalize_concept c' -> concept_forms c = concept_forms c' ->
  table_scan db c = table_scan db c' /\ column_scan db c = column_scan db c'.
Proof.
  intros Hn Hf. split; apply (f_equal rank).
  - apply omap_ext_in. intros t _. unfold table_candidate. by rewrite (match_congr c c').
  - apply (f_equal (@concat _)), map_ext. intros t. apply omap_ext_in. intros col _. unfold column_candidate. by rewrite (match_congr c c').
Qed.

(** The concepts asked so far agree where the cache key agrees. Concepts that are their own
    normal form always do. *)
Definition consistent (asked : string -> Prop) : Prop :=
  forall c c', asked c -> asked c' -> normalize_concept c = normalize_concept c' -> concept_forms c = concept_forms c'.
Lemma normal_consistent : consistent (fun c => normalize_concept c = c).
Proof. intros c c' Hc Hc' Hn. congruence. Qed.

Section Refinement.
Context `{PySet} {W : Type} `{LinkerCacheState W}.
Context (extractor : prog W exn DatabaseMetadata) (dictionary : option ColumnDictionary).
Context (db : DatabaseMetadata) (asked : string -> Prop) (Hasked : consistent asked).

(** The snapshot is loaded and every cached answer is the answer of a scan. *)
Definition ready (w : W) : Prop :=
  metadata_cache w = Some db /\
  forall b k l, linker_cache w !! (b, k) = Some l -> forall c, asked c -> normalize_concept c = k ->
    l = if b : bool then table_scan db c else column_scan db c.

(** Whatever else holds of the world and does not depend on the linker's cache. *)
Context (Frame : W -> Prop) (Hframe : forall c w, Frame w -> Frame (set_linker_cache c w)).
Definition ready_with (w : W) : Prop := ready w /\ Frame w.
(** [m] returns [a], and the world stays ready. *)
Abbreviation runs := (runs ready_with).
Lemma runs_read {A} (f : option DatabaseMetadata -> outcome exn A) a :
  f (Some db) = Ret a -> runs (fun w => (f (metadata_cache w), w)) a.
Proof. intros Hf w Hw. exists w. destruct Hw as [[Hm Hc] HF]. by rewrite Hm, Hf. Qed.
Lemma runs_load : runs (load extractor dictionary) db.
Proof. intros w Hw. exists w. destruct Hw as [[Hm Hc] HF]. unfold load. by rewrite Hm. Qed.

Lemma cached_scan_runs (b : bool) c (scan : DatabaseMetadata -> list LinkCandidate) :
  asked c -> (forall c', asked c' -> normalize_concept c' = normalize_concept c ->
    scan db = if b then table_scan db c' else column_scan db c') ->
  runs (cached_scan extractor dictionary (b, normalize_concept c) scan) (scan db).
Proof using Hasked Hframe.
  intros Hc Hscan w Hw. unfold cached_scan. destruct Hw as [[Hm Hcache] HF].
  destruct (linker_cache w !! (b, normalize_concept c)) as [l|] eqn:El.
  - exists w. pose proof (Hcache _ _ _ El c Hc eq_refl) as Hl. rewrite <- (Hscan c Hc eq_refl) in Hl. subst l. split; [done|split; [by split|done]].
  - exists (set_linker_cache (<[(b, normalize_concept c) := scan db]> (linker_cache w)) w). split.
    + unfold bind, load. by rewrite Hm.
    + split; [|by apply Hframe]. split; [by rewrite linker_cache_keeps_metadata|]. intros b' k l Hl c' Hc' Hk. rewrite linker_cache_set in Hl.
      destruct (decide ((b', k) = (b, normalize_concept c))) as [Heq|Hne].
      * rewrite Heq, lookup_insert_eq in Hl. injection Hl as <-. injection Heq as -> ->. by apply Hscan.
      * rewrite lookup_insert_ne in Hl by congruence. by eapply Hcache.
Qed.
Lemma table_candidates_run c : asked c -> runs (generate_table_candidates extractor dictionary c) (table_scan db c).
Proof using Hasked Hframe.
  intros Hc. apply (cached_scan_runs true c (fun d => table_scan d c)); [done|]. intros c' Hc' Hn.
  destruct (scans_congr db c' c Hn) as [-> _]; [|done]. by apply Hasked.
Qed.
Lemma column_candidates_run c : asked c -> runs (generate_column_candidates extractor dictionary c) (column_scan db c).
Proof using Hasked Hframe.
  intros Hc. apply (cached_scan_runs false c (fun d => column_scan d c)); [done|]. intros c' Hc' Hn.
  destruct (scans_congr db c' c Hn) as [_ ->]; [|done]. by apply Hasked.
Qed.

Lemma resolve_entity_runs c : asked c ->
  runs (resolve_entity extractor dictionary c) (resolved_entity db c, entity_ambiguity db c).
Proof using Hasked Hframe.
  intros Hc. eapply runs_bind; [by apply table_candidates_run|]. cbv zeta.
  pose proof (entity_one_outcome db c) as Hone. unfold resolved_entity, entity_ambiguity, scan_ambiguity in *. cbv zeta in *.
  destruct (is_confident _) eqn:E; [|apply runs_ret].
  destruct (confident_winner _ E) as (w & alts & Hl). rewrite Hl in *.
  destruct (find_table db (lc_table_name w)) as [t|] eqn:Et; [|by destruct (proj2 Hone eq_refl)].
  eapply runs_bind; [|apply runs_ret]. apply (runs_read (fun m => get_table m (lc_table_name w))).
  unfold get_table. simpl. by rewrite Et.
Qed.
Lemma resolve_with_runs {R} c kind (build : ColumnMetadata -> LinkCandidate -> list LinkCandidate -> R) :
  NoDup (map tbl_name (tables db)) -> asked c ->
  runs (resolve_with extractor dictionary c kind build) (resolved_column db build c, column_ambiguity db kind c).
Proof using Hasked Hframe.
  intros Hnd Hc. pose proof (column_one_outcome db build kind c Hnd) as Hone.
  unfold resolve_with, resolve_column. unfold resolved_column, column_ambiguity, scan_ambiguity in *. cbv zeta in *.
  destruct (is_confident (decide_candidates (column_scan db c))) eqn:E.
  - destruct (confident_winner _ E) as (w & alts & Hl).
    eapply runs_bind; [eapply runs_bind; [by apply column_candidates_run|]; rewrite E, Hl; apply runs_ret|].
    rewrite Hl in *. clear E Hl. specialize (proj2 Hone eq_refl) as Hsome. clear Hone. cbn beta iota.
    destruct (lc_column_name w) as [n|]; [|by destruct Hsome]. cbn [mbind option_bind] in *. unfold find_column in *.
    destruct (find_table db (lc_table_name w)) as [t|] eqn:Et; [|by destruct Hsome]. cbn [mbind option_bind] in *.
    destruct (List.find _ (tbl_columns t)) as [col|] eqn:Ecol; [|by destruct Hsome].
    eapply runs_bind; [|apply runs_ret].
    apply (runs_read (fun m => get_column m (lc_table_name w) n)). unfold get_column, get_table. cbn [require_loaded obind].
    rewrite Et. cbn [obind]. by rewrite Ecol.
  - eapply runs_bind; [eapply runs_bind; [by apply column_candidates_run|]; rewrite E; apply runs_ret|]. apply runs_ret.
Qed.

Lemma resolve_each_runs {C R} (resolve : C -> prog W exn (option R * option Ambiguity)) f g (table_of : R -> string) ambs inv cs :
  (forall c, c ∈ cs -> runs (resolve c) (f c, g c)) ->
  runs (resolve_each resolve table_of ambs inv cs)
       (omap f cs, (ambs ++ omap g cs)%list, (inv ++ map table_of (omap f cs))%list).
Proof.
  revert ambs inv. induction cs as [|c cs IH]; intros ambs inv Hcs; simpl.
  { rewrite !app_nil_r. apply runs_ret. }
  eapply runs_bind; [apply Hcs; by left|]. simpl.
  eapply runs_bind; [apply IH; intros; apply Hcs; by right|]. simpl.
  destruct (f c), (g c); simpl; rewrite <- ?app_assoc; apply runs_ret.
Qed.

Lemma omap_option_list {A B} (f : A -> option B) (o : option A) : omap f (option_list o) = option_list (a ← o; f a).
Proof. destruct o as [a|]; [|done]. simpl. by destruct (f a). Qed.
Lemma head_option_list {A} (o : option A) : head (option_list o) = o.
Proof. by destruct o. Qed.

Lemma relationship_paths_run involved :
  runs (resolve_relationship_paths involved)
    (match dedup involved with
     | anchor :: ((_ :: _) as others) =>
         find_paths_from (RelationshipGraph_init (map tbl_name (tables db)) (relationships db)) anchor others
     | _ => []
     end).
Proof.
  unfold resolve_relationship_paths. destruct (dedup involved) as [|a [|b l]]; [apply runs_ret..|].
  eapply runs_bind; [|apply runs_ret]. by apply (runs_read build_graph).
Qed.

Lemma link_runs q :
  tables db <> [] -> NoDup (map tbl_name (tables db)) -> (forall c, c ∈ concepts_of q -> asked c) ->
  runs (link extractor dictionary q) (linked db q).
Proof using Hasked Hframe.
  intros Hne Hnd Hq. unfold concepts_of in Hq. repeat setoid_rewrite elem_of_app in Hq.
  unfold link. eapply runs_bind; [apply runs_load|]. destruct (tables db) as [|t0 ts] eqn:Et; [done|]. rewrite <- Et in *. clear Hne.
  replace (Nat.eqb (length (tables db)) 0) with false by (by rewrite Et). cbv zeta. clear t0 ts Et.
  eapply runs_bind.
  { apply (resolve_each_runs _ (resolved_entity db) (entity_ambiguity db)). intros c Hc. apply resolve_entity_runs, Hq. auto. }
  cbn beta iota. eapply runs_bind.
  { apply (resolve_each_runs _ (resolved_entity db) (entity_ambiguity db)). intros c Hc. apply resolve_entity_runs, Hq. auto. }
  cbn beta iota. eapply runs_bind.
  { apply (resolve_each_runs _ (fun m => resolved_column db (build_metric m) (me_name m)) (fun m => column_ambiguity db CK_METRIC (me_name m))).
    intros m Hm. apply resolve_with_runs, Hq; [done|]. do 2 right. left. by apply list_elem_of_fmap_2. }
  cbn beta iota. eapply runs_bind.
  { apply (resolve_each_runs _ (fun d => resolved_column db (build_dimension d) d) (column_ambiguity db CK_DIMENSION)).
    intros d Hd. apply resolve_with_runs, Hq; auto 6. }
  cbn beta iota. eapply runs_bind.
  { apply (resolve_each_runs _ (fun f => resolved_column db (build_filter f) (fe_field f)) (fun f => column_ambiguity db CK_FILTER_FIELD (fe_field f))).
    intros f Hf. apply resolve_with_runs, Hq; [done|]. do 4 right. left. by apply list_elem_of_fmap_2. }
  cbn beta iota. eapply runs_bind.
  { apply (resolve_each_runs _ (fun s => resolved_column db (build_sort s) (se_field s)) (fun s => column_ambiguity db CK_SORT_FIELD (se_field s))).
    intros s Hs. apply resolve_with_runs, Hq; [done|]. do 5 right. by apply list_elem_of_fmap_2. }
  cbn beta iota. eapply runs_bind; [apply relationship_paths_run|].
  rewrite !omap_option_list, !head_option_list. unfold linked, resolved_table_names. cbv zeta. cbn [primary_entity secondary_entities lq_metrics lq_dimensions lq_filters lq_sort ambiguities].
  rewrite omap_app, !omap_option_list, <- !app_assoc, !app_nil_l.
  change (qc_primary_entity q ≫= fun c => resolved_entity db c) with (qc_primary_entity q ≫= resolved_entity db).
  destruct (qc_primary_entity q ≫= resolved_entity db), (qc_sort q ≫= _); apply runs_ret.
Qed.
End Refinement.
(** ** Winners *)
(** A winner is confident enough and ahead of every alternative by the margin. *)
Definition winner_ok (confidence : Q) (alternatives : list LinkCandidate) : Prop :=
  (MIN_CONFIDENCE <= confidence)%Q /\
  forall a, a ∈ alternatives -> (MIN_MARGIN <= fsub confidence (lc_confidence a))%Q.
Lemma confident_winner_ok w alts :
  StronglySorted (fun x y => (lc_confidence y <= lc_confidence x)%Q) (w :: alts) ->
  is_confident (decide_candidates (w :: alts)) = true <-> winner_ok (lc_confidence w) alts.
Proof.
  intros Hs. unfold decide_candidates, winner_ok. apply StronglySorted_inv in Hs as [Hs Hw].
  destruct (fltb (lc_confidence w) MIN_CONFIDENCE) eqn:E1.
  { split; [intros Hx; discriminate Hx|]. intros [Hc _]. apply fltb_spec in E1. destruct (Qlt_not_le _ _ E1 Hc). }
  apply fltb_ge in E1. destruct alts as [|r alts].
  { split; [|intros _; reflexivity]. intros _. split; [exact E1|]. intros a Ha. apply elem_of_nil in Ha as []. }
  destruct (fltb (fsub (lc_confidence w) (lc_confidence r)) MIN_MARGIN) eqn:E2.
  { split; [intros Hx; discriminate Hx|]. intros [_ Hm]. apply fltb_spec in E2. destruct (Qlt_not_le _ _ E2). apply Hm, list_elem_of_here. }
  split; [|intros _; reflexivity]. intros _. split; [exact E1|]. apply fltb_ge in E2.
  apply StronglySorted_inv in Hs as [_ Hr]. intros a [->|Ha]%elem_of_cons; [exact E2|].
  rewrite Forall_forall in Hr. specialize (Hr a Ha). eapply Qle_trans; [exact E2|]. apply fl_mono.
  apply Qplus_le_r, Qopp_le_compat, Hr.
Qed.

(** ** What may be said of a concept

    The ranked scan has a winner: its head, confident enough and ahead of all the others. *)
Definition won (scan : list LinkCandidate) (w : LinkCandidate) (alternatives : list LinkCandidate) : Prop :=
  scan = w :: alternatives /\ winner_ok (lc_confidence w) alternatives.
Lemma scan_winner_won scan w alts : StronglySorted (fun x y => (lc_confidence y <= lc_confidence x)%Q) scan ->
  is_confident (decide_candidates (w :: alts)) = true -> scan = w :: alts -> won (w :: alts) w alts.
Proof. intros Hs Hc Heq. rewrite Heq in Hs. split; [reflexivity|]. exact (proj1 (confident_winner_ok w alts Hs) Hc). Qed.
Section Outcomes.
Context `{PySet} (db : DatabaseMetadata).

(** [e] reports the winner of the scan for [concept], and the table it names. *)
Definition entity_resolved (concept : string) (e : ResolvedTable) : Prop :=
  exists w, won (table_scan db concept) w (rt_alternatives e) /\ rt_business_concept e = concept /\
    rt_table e ∈ tables db /\ tbl_name (rt_table e) = lc_table_name w /\ rt_confidence e = lc_confidence w /\
    rt_matching_reason e = lc_matching_reason w /\ rt_candidate_rank e = lc_candidate_rank w.
(** [r] is what [build] makes of the winner of the scan, of the column it names and of the
    other candidates. *)
Definition column_resolved {R} (build : ColumnMetadata -> LinkCandidate -> list LinkCandidate -> R)
    (concept : string) (r : R) : Prop :=
  exists w alternatives t col, won (column_scan db concept) w alternatives /\ t ∈ tables db /\
    tbl_name t = lc_table_name w /\ col ∈ tbl_columns t /\ lc_column_name w = Some (col_name col) /\
    r = build col w alternatives.
(** [a] lists, under the concept's own name and kind, all the candidates, and none has won. *)
Definition unresolved (kind : ConceptKind) (scan : list LinkCandidate) (concept : string) (a : Ambiguity) : Prop :=
  am_business_concept a = concept /\ am_concept_kind a = kind /\ am_candidates a = scan /\
  forall w alternatives, ~ won scan w alternatives.

Lemma confident_won scan : StronglySorted (fun x y => (lc_confidence y <= lc_confidence x)%Q) scan ->
  is_confident (decide_candidates scan) = true <-> exists w alternatives, won scan w alternatives.
Proof.
  intros Hs. split.
  - intros Hc. destruct (confident_winner _ Hc) as (w & alts & ->). exists w, alts. exact (scan_winner_won _ w alts Hs Hc eq_refl).
  - intros (w & alts & -> & Hok). exact (proj2 (confident_winner_ok w alts Hs) Hok).
Qed.
Definition by_confidence (x y : LinkCandidate) : Prop := (lc_confidence y <= lc_confidence x)%Q.
Lemma table_scan_sorted c : StronglySorted by_confidence (table_scan db c).
Proof. apply rank_sorted. Qed.
Lemma column_scan_sorted c : StronglySorted by_confidence (column_scan db c).
Proof. apply rank_sorted. Qed.
Lemma resolved_entity_ok c e : resolved_entity db c = Some e -> entity_resolved c e.
Proof.
  unfold resolved_entity, entity_resolved. destruct (is_confident _) eqn:E; [|done].
  destruct (table_scan db c) as [|w alts] eqn:Hl; [done|]. intros (t & [Ht Hn]%find_table_Some & ->)%fmap_Some.
  exists w. split; [exact (scan_winner_won (table_scan db c) w alts (table_scan_sorted c) E Hl)|]. cbn. split_and!; first [assumption|reflexivity].
Qed.
Lemma resolved_column_ok {R} (build : ColumnMetadata -> LinkCandidate -> list LinkCandidate -> R) c r :
  resolved_column db build c = Some r -> column_resolved build c r.
Proof.
  unfold resolved_column, column_resolved. destruct (is_confident _) eqn:E; [|done].
  destruct (column_scan db c) as [|w alts] eqn:Hl; [done|]. intros (n & Hn & Hr)%bind_Some.
  apply bind_Some in Hr as (col & Hcol & [= <-]). apply bind_Some in Hcol as (t & Ht & Hc).
  apply find_table_Some in Ht as [Ht Htn]. apply List.find_some in Hc as [Hc Hcn%String.eqb_eq].
  exists w, alts, t, col. split; [exact (scan_winner_won (column_scan db c) w alts (column_scan_sorted c) E Hl)|].
  split_and!; [assumption|assumption|by apply list_elem_of_In|by rewrite Hcn|reflexivity].
Qed.
Lemma scan_ambiguity_ok scan c kind a : StronglySorted (fun x y => (lc_confidence y <= lc_confidence x)%Q) scan ->
  scan_ambiguity scan c kind = Some a -> unresolved kind scan c a.
Proof.
  intros Hs. unfold scan_ambiguity. cbv zeta. destruct (is_confident _) eqn:E; [done|]. intros [= <-].
  split_and!; [done..|]. intros w alts Hw. destruct (confident_won scan Hs) as [_ Hc].
  rewrite Hc in E by eauto. done.
Qed.
End Outcomes.

(** A list of concepts dealt out, each to exactly one of two lists, in order. *)
Inductive dealt {C R A} (resolved : C -> R -> Prop) (ambiguous : C -> A -> Prop) : list C -> list R -> list A -> Prop :=
| dealt_nil : dealt resolved ambiguous [] [] []
| dealt_resolved c r cs rs ams : resolved c r -> dealt resolved ambiguous cs rs ams ->
    dealt resolved ambiguous (c :: cs) (r :: rs) ams
| dealt_ambiguous c a cs rs ams : ambiguous c a -> dealt resolved ambiguous cs rs ams ->
    dealt resolved ambiguous (c :: cs) rs (a :: ams).
Lemma omap_cons_eq {A B} (f : A -> option B) x l :
  omap f (x :: l) = match f x with Some y => y :: omap f l | None => omap f l end.
Proof. done. Qed.
Lemma omap_dealt {C R A} (resolved : C -> R -> Prop) (ambiguous : C -> A -> Prop) f g l :
  (forall c, is_Some (f c) <-> g c = None) ->
  (forall c r, f c = Some r -> resolved c r) -> (forall c a, g c = Some a -> ambiguous c a) ->
  dealt resolved ambiguous l (omap f l) (omap g l).
Proof.
  intros Hone Hf Hg. induction l as [|c l IH]; [constructor|]. rewrite !omap_cons_eq. specialize (Hone c).
  destruct (f c) as [r|] eqn:Ef, (g c) as [a|] eqn:Eg; [|constructor; auto..|].
  - discriminate (proj1 Hone ltac:(by eexists)).
  - by destruct (is_Some_None (proj2 Hone eq_refl)).
Qed.

(** ** Properties *)
(** C21. [SchemaLinker.link] refines the cacheless specification: with a loaded, non-empty
    schema of distinct table names it never raises and returns [linked db q], in which every
    field is a function of the schema and the question alone, whatever was asked before;
    with an empty schema it raises [EmptyRegistryError]. The cache may hold answers for any
    concepts that agree on their forms where they agree on the cache key. *)
Theorem link_refines_spec `{PySet} {W} `{LinkerCacheState W} extractor dictionary db asked q w :
  consistent asked -> ready db asked w -> (forall c, c ∈ concepts_of q -> asked c) -> NoDup (map tbl_name (tables db)) ->
  exists w', ready db asked w' /\
    link extractor dictionary q w =
      (if Nat.eqb (length (tables db)) 0 then Raise EmptyRegistryError else Ret (linked db q), w').
Proof.
  intros Hasked Hw Hq Hnd. destruct (Nat.eqb_spec (length (tables db)) 0) as [Hz|Hz].
  - exists w. split; [done|]. unfold link. rewrite (bind_ret_eq _ _ _ db w); [by rewrite Hz|].
    destruct Hw as [Hm _]. unfold load. by rewrite Hm.
  - destruct (link_runs extractor dictionary db asked Hasked (fun _ => True) (fun _ _ _ => I) q) with w as (w' & ? & [? _]);
      [by destruct (tables db)|done..|]. by exists w'.
Qed.


Module LinkDemo.
#[export] Instance demo_set : PySet := sorted_set.
Record World := { snapshot : option DatabaseMetadata; answers : gmap CacheKey (list LinkCandidate) }.
#[export] Instance demo_metadata : MetadataCacheState World.
Proof.
  refine {| metadata_cache := snapshot; set_metadata_cache c w := {| snapshot := c; answers := answers w |} |}. done.
Defined.
#[export] Instance demo_cache : LinkerCacheState World.
Proof.
  refine {| linker_cache := answers; set_linker_cache c w := {| snapshot := snapshot w; answers := c |} |}; done.
Defined.
Definition no_database : prog World exn DatabaseMetadata := throw MetadataNotLoadedError.

Definition column t n k : ColumnMetadata :=
  {| col_table_name := t; col_name := n; sql_type := "VARCHAR"; python_type := "str"; nullable := false;
     primary_key := false; unique := false; autoincrement := false; col_default := None; foreign_key := None;
     col_enum := None; col_description := None; col_synonyms := []; example_value := None; display_name := None;
     search_keywords := k; is_sensitive := false |}.
Definition table n syns cols : TableMetadata :=
  {| tbl_name := n; tbl_columns := cols; tbl_primary_key := {| pk_name := ""; pk_columns := [] |};
     foreign_keys := []; unique_constraints := []; check_constraints := []; indexes := []; tbl_description := None;
     tbl_synonyms := syns |}.
Definition db : DatabaseMetadata :=
  {| tables := [table "customer" ["client"] [column "customer" "email" []; column "customer" "status" []];
                table "orders" [] [column "orders" "total_amount" ["revenue"]; column "orders" "status" []]];
     relationships := [JoinDemo.rel "customer" "orders" "customer"; JoinDemo.rel "orders" "customer" "orders"];
     enums := []; generated_at := 0 |}.
Definition world : World := {| snapshot := Some db; answers := ∅ |}.
Definition question : QueryContext :=
  {| original_question := "revenue by email and status"; normalized_question := "revenue by email and status";
     intent := I_SUM; qc_primary_entity := Some "order"; qc_secondary_entities := ["clients"]; business_concepts := [];
     qc_metrics := [{| me_name := "revenue"; me_aggregation := Some AGG_SUM; me_raw_text := "revenue" |}];
     qc_dimensions := ["email"; "status"]; qc_filters := []; time_expression := None; qc_sort := None; limit := None;
     aggregation := Some AGG_SUM; ContextModels.confidence := 1%Q |}.
Lemma world_ready asked : ready db asked world.
Proof. split; [done|]. intros b k l Hl. discriminate Hl. Qed.
End LinkDemo.
#[local] Existing Instances LinkDemo.demo_set LinkDemo.demo_metadata LinkDemo.demo_cache.

Lemma link_refines_spec_witness :
  exists w', ready LinkDemo.db (fun c => normalize_concept c = c) w' /\
    link LinkDemo.no_database None LinkDemo.question LinkDemo.world = (Ret (linked LinkDemo.db LinkDemo.question), w').
Proof.
  apply (link_refines_spec LinkDemo.no_database None LinkDemo.db (fun c => normalize_concept c = c) LinkDemo.question LinkDemo.world).
  - exact normal_consistent.
  - apply LinkDemo.world_ready.
  - apply Forall_forall. by apply (bool_decide_unpack _); vm_compute.
  - by apply (bool_decide_unpack _); vm_compute.
Defined.


(** The cache key is coarser than what a match looks at: the singular and plural forms are
    taken of the concept as written, the key is its normal form. Asking for [CUSTOMERS] first
    stores an approximate match under [customers], and the exact match that [customers] has in
    a fresh process is then never found. *)
Theorem cache_key_too_coarse :
  let ask c w := generate_table_candidates LinkDemo.no_database None c w in
  normalize_concept "CUSTOMERS" = normalize_concept "customers" /\
  map lc_matching_reason <$> ret_value (fst (ask "customers" LinkDemo.world)) = Some [EXACT] /\
  map lc_matching_reason <$> ret_value (fst (ask "customers" (snd (ask "CUSTOMERS" LinkDemo.world)))) = Some [FUZZY].
Proof. vm_compute. split_and!; reflexivity. Qed.
