(* ===== verification/Regex.v ===== *)
(** * Python's [re] module

    The regular expressions the source writes, as data, with a backtracking matcher in
    continuation-passing style: alternatives are tried from left to right and repetitions
    greedily or lazily, as [re] does, so that the first answer is the one [re] gives. A
    relational semantics says what an expression matches at all; the matcher is sound and
    complete for it, and a search returns a match at the leftmost position that has one. *)
From S2P Require Import Prelude PyStr.
From Stdlib Require Import Ascii.
#[local] Open Scope nat_scope.

(** ** Expressions and positions *)
Inductive re : Type :=
| Eps
| One (p : ascii -> bool)            (** a character class *)
| Seq (a b : re)
| Alt (a b : re)
| Star (greedy : bool) (a : re)      (** [a*] or [a*?]; [a] consumes at least one character *)
| Cap (name : nat) (a : re)          (** a numbered or named group *)
| Boundary                           (** [\b] *)
| NotBehind (l : list ascii)         (** [(?<!l)] for a literal [l] *)
| AtEnd.                             (** [$] on a text without line breaks at its end *)

(** A position: the characters before it in reverse, those after it, the groups so far. *)
Record pos := { before : list ascii; after : list ascii; caps : list (nat * string) }.
Definition text_of (l : list ascii) : string := String.string_of_list_ascii l.
Definition start_of (t : string) : pos := {| before := []; after := String.list_ascii_of_string t; caps := [] |}.
Definition at_word (l : list ascii) : bool := match l with c :: _ => is_word c | [] => false end.
Definition at_boundary (s : pos) : bool := xorb (at_word (before s)) (at_word (after s)).
Fixpoint list_prefix (a b : list ascii) : bool :=
  match a, b with
  | [], _ => true
  | x :: a', y :: b' => Ascii.eqb x y && list_prefix a' b'
  | _ :: _, [] => false
  end.
(** What lies between two positions. *)
Definition between (s s' : pos) : list ascii := take (length (after s) - length (after s')) (after s).

Section Run.
Context {A : Type}.
(** At most [n] rounds of [body], as many as possible first or as few as possible first;
    a round that consumes nothing ends the repetition. *)
Fixpoint iterate (greedy : bool) (body : pos -> (pos -> option A) -> option A) (k : pos -> option A) (n : nat) (s : pos)
  : option A :=
  match n with
  | O => k s
  | S n' =>
      let more := body s (fun s' => if length (after s') <? length (after s) then iterate greedy body k n' s' else None) in
      if greedy then match more with Some x => Some x | None => k s end
      else match k s with Some x => Some x | None => more end
  end.
Fixpoint run (r : re) (s : pos) (k : pos -> option A) : option A :=
  match r with
  | Eps => k s
  | One p => match after s with
             | c :: rest => if p c then k {| before := c :: before s; after := rest; caps := caps s |} else None
             | [] => None
             end
  | Seq a b => run a s (fun s' => run b s' k)
  | Alt a b => match run a s k with Some x => Some x | None => run b s k end
  | Star greedy a => iterate greedy (run a) k (length (after s)) s
  | Cap name a => run a s (fun s' => k {| before := before s'; after := after s';
                                          caps := (name, text_of (between s s')) :: caps s' |})
  | Boundary => if at_boundary s then k s else None
  | NotBehind l => if list_prefix (rev l) (before s) then None else k s
  | AtEnd => match after s with [] => k s | _ => None end
  end.
End Run.

(** [a+], [a?], [a{n}], [a{0,n}] greedy or lazy, literals, choices. *)
Definition Plus (a : re) : re := Seq a (Star true a).
Definition Opt (a : re) : re := Alt a Eps.
Fixpoint Times (n : nat) (a : re) : re := match n with O => Eps | S n' => Seq a (Times n' a) end.
Fixpoint UpTo (greedy : bool) (n : nat) (a : re) : re :=
  match n with
  | O => Eps
  | S n' => if greedy then Alt (Seq a (UpTo greedy n' a)) Eps else Alt Eps (Seq a (UpTo greedy n' a))
  end.
Fixpoint lit_list (l : list ascii) : re :=
  match l with [] => Eps | c :: l' => Seq (One (Ascii.eqb c)) (lit_list l') end.
Definition Lit (t : string) : re := lit_list (String.list_ascii_of_string t).
Fixpoint Choice (l : list re) : re :=
  match l with [] => One (fun _ => false) | [a] => a | a :: l' => Alt a (Choice l') end.
Fixpoint Cat (l : list re) : re := match l with [] => Eps | [a] => a | a :: l' => Seq a (Cat l') end.
(** [rf"\b{re.escape(phrase)}\b"] *)
Definition Word (phrase : string) : re := Cat [Boundary; Lit phrase; Boundary].
Definition Spaces : re := Plus (One is_space).

(** ** Searching *)
Record Match := { m_start : nat; m_end : nat; m_text : string; m_groups : list (nat * string) }.
Definition match_between (s s' : pos) : Match :=
  {| m_start := length (before s); m_end := length (before s'); m_text := text_of (between s s'); m_groups := caps s' |}.
Definition group (m : Match) (name : nat) : option string := alist_get name (m_groups m).

(** The leftmost position with a match, and where the match ends. *)
Fixpoint search_from (r : re) (b a : list ascii) : option (pos * pos) :=
  let s := {| before := b; after := a; caps := [] |} in
  match run r s Some with
  | Some s' => Some (s, s')
  | None => match a with [] => None | c :: a' => search_from r (c :: b) a' end
  end.
(** [re.search], [re.match] to the end of the text, [re.finditer]. *)
Definition search (r : re) (t : string) : option Match :=
  (fun '(s, s') => match_between s s') <$> search_from r [] (String.list_ascii_of_string t).
Definition found (r : re) (t : string) : bool := match search r t with Some _ => true | None => false end.
Definition fullmatch_prefix (r : re) (t : string) : option Match :=
  match run r (start_of t) Some with
  | Some s' => if Nat.eqb (length (after s')) 0 then Some (match_between (start_of t) s') else None
  | None => None
  end.
(** The next search starts where the last match ended; every match of the expressions used
    here is non-empty, so the length of the text bounds their number. *)
Fixpoint find_from (fuel : nat) (r : re) (b a : list ascii) : list (pos * pos) :=
  match fuel with
  | O => []
  | S fuel' =>
      match search_from r b a with
      | None => []
      | Some (s, s') =>
          if length (after s') <? length (after s)
          then (s, s') :: find_from fuel' r (before s') (after s') else [(s, s')]
      end
  end.
Definition finditer (r : re) (t : string) : list Match :=
  let l := String.list_ascii_of_string t in
  map (fun '(s, s') => match_between s s') (find_from (S (length l)) r [] l).

(** [re.sub(r, new, t)]: the matches are found in the text itself, then replaced. *)
Fixpoint splice (t : list ascii) (at_ : nat) (new : list ascii) (ms : list Match) : list ascii :=
  match ms with
  | [] => t
  | m :: ms' => take (m_start m - at_) t ++ new ++ splice (drop (m_end m - at_) t) (m_end m) new ms'
  end.
Definition sub (r : re) (new t : string) : string :=
  text_of (splice (String.list_ascii_of_string t) 0 (String.list_ascii_of_string new) (finditer r t)).

(** ** What an expression matches *)
Inductive matches : re -> pos -> pos -> Prop :=
| M_Eps s : matches Eps s s
| M_One p b c a cs : p c = true ->
    matches (One p) {| before := b; after := c :: a; caps := cs |} {| before := c :: b; after := a; caps := cs |}
| M_Seq x y s s1 s2 : matches x s s1 -> matches y s1 s2 -> matches (Seq x y) s s2
| M_AltL x y s s' : matches x s s' -> matches (Alt x y) s s'
| M_AltR x y s s' : matches y s s' -> matches (Alt x y) s s'
| M_Stop g x s : matches (Star g x) s s
| M_More g x s s1 s2 : matches x s s1 -> length (after s1) < length (after s) -> matches (Star g x) s1 s2 ->
    matches (Star g x) s s2
| M_Cap n x s s' : matches x s s' ->
    matches (Cap n x) s {| before := before s'; after := after s'; caps := (n, text_of (between s s')) :: caps s' |}
| M_Boundary s : at_boundary s = true -> matches Boundary s s
| M_NotBehind l s : list_prefix (rev l) (before s) = false -> matches (NotBehind l) s s
| M_AtEnd b cs : matches AtEnd {| before := b; after := []; caps := cs |} {| before := b; after := []; caps := cs |}.
#[local] Hint Constructors matches : core.

Lemma iterate_sound {A} g r (k : pos -> option A) n s x :
  (forall s (k : pos -> option A) x, run r s k = Some x -> exists s', matches r s s' /\ k s' = Some x) ->
  iterate g (run r) k n s = Some x -> exists s', matches (Star g r) s s' /\ k s' = Some x.
Proof.
  intros Hr. revert s. induction n as [|n IH]; intros s; cbn [iterate]; [eauto|].
  set (body := fun s' => _).
  assert (Hmore : run r s body = Some x -> exists s', matches (Star g r) s s' /\ k s' = Some x).
  { intros (s1 & H1 & H2)%Hr. unfold body in H2. destruct (Nat.ltb_spec (length (after s1)) (length (after s))); [|done].
    apply IH in H2 as (s' & ? & ?). eauto. }
  destruct g.
  - destruct (run r s body) as [y|]; eauto.
  - destruct (k s) as [y|] eqn:E; eauto. intros [= ->]. eauto.
Qed.
(** An answer comes from a match that the continuation accepts. *)
Lemma run_sound {A} r s (k : pos -> option A) x : run r s k = Some x -> exists s', matches r s s' /\ k s' = Some x.
Proof.
  revert s k x. induction r as [|p|a IHa b IHb|a IHa b IHb|g a IHa|n a IHa| |l|]; intros s k x; cbn [run].
  - eauto.
  - destruct s as [b [|c a] cs]; simpl; [done|]. destruct (p c) eqn:E; [|done]. eauto.
  - intros (s1 & H1 & (s2 & H2 & Hk)%IHb)%IHa. eauto.
  - destruct (run a s k) as [y|] eqn:E.
    + intros [= <-]. apply IHa in E as (s' & ? & ?). eauto.
    + intros (s' & ? & ?)%IHb. eauto.
  - by apply iterate_sound.
  - intros (s' & H1 & Hk)%IHa. eauto.
  - destruct (at_boundary s) eqn:E; [|done]. eauto.
  - destruct (list_prefix _ _) eqn:E; [done|]. eauto.
  - destruct s as [b [|c a] cs]; simpl; [|done]. eauto.
Qed.

(** A match only moves forward. *)
Lemma matches_moves r s s' : matches r s s' ->
  exists l, after s = l ++ after s' /\ before s' = rev l ++ before s.
Proof.
  induction 1 as [s|p b c a cs Hc|x y s s1 s2 _ IH1 _ IH2| | |g x s|g x s s1 s2 _ IH1 _ _ IH2|n x s s' _ IH| | |];
    try (by exists []); try done.
  - by exists [c].
  - destruct IH1 as (l1 & E1 & F1), IH2 as (l2 & E2 & F2). exists (l1 ++ l2).
    rewrite E1, E2, F2, F1, rev_app_distr, <- !app_assoc. done.
  - destruct IH1 as (l1 & E1 & F1), IH2 as (l2 & E2 & F2). exists (l1 ++ l2).
    rewrite E1, E2, F2, F1, rev_app_distr, <- !app_assoc. done.
Qed.
Lemma matches_shorter r s s' : matches r s s' -> length (after s') <= length (after s).
Proof. intros (l & -> & _)%matches_moves. rewrite length_app. lia. Qed.

(** If some match is accepted, there is an answer (not necessarily that match). *)
Lemma iterate_complete {A} g r (k : pos -> option A) n s s' :
  (forall s s' (k : pos -> option A), matches r s s' -> is_Some (k s') -> is_Some (run r s k)) ->
  matches (Star g r) s s' -> length (after s) <= n -> is_Some (k s') -> is_Some (iterate g (run r) k n s).
Proof.
  intros Hr Hm. remember (Star g r) as x eqn:Hx. revert n. induction Hm; try discriminate Hx; injection Hx as -> ->; intros n Hn Hk.
  - destruct n; cbn [iterate]; [done|]. destruct Hk as [y Hk]. rewrite Hk.
    destruct g; [|by eexists]. destruct (run _ _ _); by eexists.
  - destruct n as [|n]; [lia|]. cbn [iterate]. set (body := fun s' => _).
    assert (Hmore : is_Some (run r s body)).
    { eapply Hr; [exact Hm1|]. unfold body. destruct (Nat.ltb_spec (length (after s1)) (length (after s))); [|lia].
      apply IHHm2; [done|lia|done]. }
    destruct Hmore as [y ->]. destruct g; [by eexists|]. destruct (k s); by eexists.
Qed.
Lemma run_complete {A} r s s' (k : pos -> option A) : matches r s s' -> is_Some (k s') -> is_Some (run r s k).
Proof.
  revert s s' k. induction r as [|p|a IHa b IHb|a IHa b IHb|g a IHa|n a IHa| |l|]; intros s s' k Hm Hk; cbn [run].
  - by inversion Hm; subst.
  - inversion Hm; subst. simpl. by rewrite H0.
  - inversion Hm; subst. eapply IHa; [done|]. by eapply IHb.
  - inversion Hm; subst.
    + destruct (IHa _ _ k H3 Hk) as [y ->]. by eexists.
    + destruct (run a s k); [by eexists|]. by eapply IHb.
  - eapply iterate_complete; eauto.
  - inversion Hm; subst. by eapply IHa.
  - inversion Hm; subst. by rewrite H.
  - inversion Hm; subst. by rewrite H0.
  - inversion Hm; subst. done.
Qed.

(** ** Searching finds the leftmost match *)
Lemma search_from_spec r b a :
  match search_from r b a with
  | Some (s, s') => exists l, a = l ++ after s /\ before s = rev l ++ b /\ caps s = [] /\ matches r s s' /\
      run r s Some = Some s' /\
      forall l' c l'', l = l' ++ c :: l'' ->
        forall s'', ~ matches r {| before := rev l' ++ b; after := c :: l'' ++ after s; caps := [] |} s''
  | None => forall l l', a = l ++ l' -> forall s', ~ matches r {| before := rev l ++ b; after := l'; caps := [] |} s'
  end.
Proof.
  revert b. induction a as [|c a IH]; intros b; cbn [search_from].
  - destruct (run r _ Some) as [s'|] eqn:E.
    + exists []. split_and!; try done.
      * apply run_sound in E as (s1 & ? & [= <-]). done.
      * by intros [] ? ?.
    + intros l l' Hl s' Hm. symmetry in Hl. apply app_nil in Hl as [-> ->].
      destruct (run_complete _ _ _ Some Hm) as [y Hy]; [by eexists|]. simpl in Hy. congruence.
  - destruct (run r _ Some) as [s'|] eqn:E.
    + exists []. split_and!; try done.
      * apply run_sound in E as (s1 & ? & [= <-]). done.
      * by intros [] ? ?.
    + assert (Hno : forall s', ~ matches r {| before := b; after := c :: a; caps := [] |} s').
      { intros s' Hm. destruct (run_complete _ _ _ Some Hm) as [y Hy]; [by eexists|]. congruence. }
      specialize (IH (c :: b)). destruct (search_from r (c :: b) a) as [[s s']|].
      * destruct IH as (l & -> & Hb & Hc & Hm & Hr & Hl). exists (c :: l). split_and!; try done.
        -- rewrite Hb. simpl. by rewrite <- app_assoc.
        -- intros [|c' l'] d l'' Heq s''; simpl in Heq; injection Heq as <- ->; [apply Hno|].
           simpl. rewrite <- app_assoc. by apply (Hl l' d l'').
      * intros [|c' l] l' Heq s' Hm; simpl in Heq; [subst l'; by eapply Hno|]. injection Heq as <- ->.
        simpl in Hm. rewrite <- app_assoc in Hm. by eapply (IH l l').
Qed.

(** ** Occurrences *)
Lemma list_prefix_app a b : list_prefix a (a ++ b) = true.
Proof. induction a as [|x a IH]; simpl; [done|]. by rewrite Ascii.eqb_refl. Qed.
Lemma find_from_spec fuel r b a s s' : (s, s') ∈ find_from fuel r b a ->
  exists l, a = l ++ after s /\ before s = rev l ++ b /\ caps s = [] /\ matches r s s'.
Proof.
  revert b a. induction fuel as [|fuel IH]; intros b a; cbn [find_from]; [by intros ?%elem_of_nil|].
  pose proof (search_from_spec r b a) as Hs. destruct (search_from r b a) as [[s1 s1']|]; [|by intros ?%elem_of_nil].
  destruct Hs as (l & -> & Hb & Hc & Hm & _ & _).
  assert (Hhead : (s, s') = (s1, s1') -> exists l0, l ++ after s1 = l0 ++ after s /\ before s = rev l0 ++ b /\ caps s = [] /\ matches r s s').
  { intros [= -> ->]. by exists l. }
  destruct (length (after s1') <? length (after s1)).
  - intros [?|H]%elem_of_cons; [by apply Hhead|]. apply IH in H as (l2 & Ha & Hb2 & Hc2 & Hm2).
    apply matches_moves in Hm as (l1 & Ea & Eb). exists (l ++ l1 ++ l2). rewrite Ea, Ha, Hb2, Eb, Hb.
    rewrite !rev_app_distr, <- !app_assoc. done.
  - intros H%list_elem_of_singleton. by apply Hhead.
Qed.
Lemma finditer_spec r t m : m ∈ finditer r t ->
  exists s s', m = match_between s s' /\ matches r s s' /\ caps s = [] /\
    String.list_ascii_of_string t = rev (before s) ++ after s.
Proof.
  unfold finditer. intros ([s s'] & -> & H)%list_elem_of_fmap. apply find_from_spec in H as (l & Ht & Hb & Hc & Hm).
  exists s, s'. split_and!; try done. by rewrite Ht, Hb, app_nil_r, rev_involutive.
Qed.
Lemma search_spec r t m : search r t = Some m ->
  exists s s', m = match_between s s' /\ matches r s s' /\ run r s Some = Some s' /\ caps s = [] /\
    String.list_ascii_of_string t = rev (before s) ++ after s.
Proof.
  unfold search. pose proof (search_from_spec r [] (String.list_ascii_of_string t)) as Hs.
  destruct (search_from r [] _) as [[s s']|]; [|done]. intros [= <-].
  destruct Hs as (l & Ht & Hb & Hc & Hm & Hr & _). exists s, s'. split_and!; try done. by rewrite Ht, Hb, app_nil_r, rev_involutive.
Qed.

Lemma lit_list_matches l s s' : matches (lit_list l) s s' ->
  after s = l ++ after s' /\ before s' = rev l ++ before s /\ caps s' = caps s.
Proof.
  revert s. induction l as [|c l IH]; intros s H; inversion H; subst; [done|].
  match goal with H : matches (One _) _ _ |- _ => inversion H; subst end.
  match goal with H : Ascii.eqb _ _ = true |- _ => apply Ascii.eqb_eq in H as <- end.
  match goal with H : matches (lit_list _) _ _ |- _ => apply IH in H as (E1 & E2 & E3) end. simpl in *.
  rewrite E1, E2, E3. split_and!; try done. by rewrite <- app_assoc.
Qed.
Lemma between_app s s' l : after s = l ++ after s' -> between s s' = l.
Proof. intros E. unfold between. rewrite E, length_app, take_app_length' by lia. done. Qed.

Lemma length_chars t : length (String.list_ascii_of_string t) = String.length t.
Proof. induction t as [|c t IH]; [done|]. simpl. by rewrite IH. Qed.

(** The phrase stands at position [i], between word boundaries. *)
Definition boundary_at (t : list ascii) (i : nat) : bool :=
  at_boundary {| before := rev (take i t); after := drop i t; caps := [] |}.
Definition occurs_at (text phrase : string) (i : nat) : Prop :=
  let t := String.list_ascii_of_string text in let p := String.list_ascii_of_string phrase in
  (exists pre post, t = pre ++ p ++ post /\ length pre = i) /\
  boundary_at t i = true /\ boundary_at t (i + length p) = true.
Lemma boundary_here t s : t = rev (before s) ++ after s -> boundary_at t (length (before s)) = at_boundary s.
Proof.
  intros ->. unfold boundary_at, at_boundary. simpl.
  rewrite take_app_length', drop_app_length' by (by rewrite length_rev). by rewrite rev_involutive.
Qed.
Lemma word_occurs text phrase m : m ∈ finditer (Word phrase) text ->
  m_text m = phrase /\ m_end m = m_start m + String.length phrase /\ occurs_at text phrase (m_start m).
Proof.
  intros (s & s' & -> & Hm & Hc & Ht)%finditer_spec. unfold Word, Cat in Hm.
  inversion Hm as [| |? ? ? s1 ? Hb1 Hm'| | | | | | | |]; subst. inversion Hm' as [| |? ? ? s2 ? Hl Hb2| | | | | | | |]; subst.
  inversion Hb1; subst. inversion Hb2; subst. apply lit_list_matches in Hl as (E1 & E2 & E3).
  assert (Hlen : length (String.list_ascii_of_string phrase) = String.length phrase) by apply length_chars.
  unfold match_between. cbn [m_text m_start m_end]. rewrite (between_app _ _ _ E1), E2, length_app, length_rev, Hlen.
  split_and!; [apply String.string_of_list_ascii_of_string|lia|]. unfold occurs_at. cbv zeta. split_and!.
  - exists (rev (before s1)), (after s'). rewrite Ht, E1. split; [done|]. by rewrite length_rev.
  - by rewrite (boundary_here _ _ Ht).
  - replace (length (before s1) + length (String.list_ascii_of_string phrase)) with (length (before s'))
      by (rewrite E2, length_app, length_rev; lia).
    rewrite (boundary_here _ s'); [done|]. rewrite Ht, E1, E2, rev_app_distr, rev_involutive, <- app_assoc. done.
Qed.

(** ** Expressions that consume; greedy repetition; replacing runs *)
Fixpoint consumes (r : re) : bool :=
  match r with
  | One _ => true
  | Seq a b => consumes a || consumes b
  | Alt a b => consumes a && consumes b
  | Cap _ a => consumes a
  | _ => false
  end.
Lemma consumes_spec r s s' : consumes r = true -> matches r s s' -> length (after s') < length (after s).
Proof.
  intros Hc Hm. induction Hm; simpl in Hc; try discriminate Hc; try (simpl; lia); try (by apply IHHm).
  - apply matches_shorter in Hm1 as H1, Hm2 as H2. apply orb_true_iff in Hc as [Hc|Hc]; [specialize (IHHm1 Hc)|specialize (IHHm2 Hc)]; lia.
  - apply andb_true_iff in Hc as [Hc _]. auto.
  - apply andb_true_iff in Hc as [_ Hc]. auto.
Qed.
Lemma match_nonempty r s s' : consumes r = true -> matches r s s' -> m_start (match_between s s') < m_end (match_between s s').
Proof.
  intros Hc Hm. pose proof (consumes_spec _ _ _ Hc Hm). apply matches_moves in Hm as (l & E1 & E2). simpl.
  rewrite E2, length_app, length_rev. rewrite E1, length_app in H. lia.
Qed.

(** Replacing keeps what holds of every character. *)
Lemma splice_Forall (P : ascii -> Prop) t at_ new ms : Forall P t -> Forall P new -> Forall P (splice t at_ new ms).
Proof.
  intros Ht Hn. revert t at_ Ht. induction ms as [|m ms IH]; intros t at_ Ht; simpl; [done|].
  apply Forall_app. split; [by apply Forall_take|]. apply Forall_app. split; [done|]. apply IH. by apply Forall_drop.
Qed.

Section Runs.
Context (p : ascii -> bool).
Lemma greedy_stops n s s' : length (after s) <= n -> iterate true (run (One p)) Some n s = Some s' ->
  match after s' with c :: _ => p c = false | [] => True end.
Proof.
  revert s. induction n as [|n IH]; intros [b a cs] Hn; cbn [iterate run after before caps].
  - intros [= <-]. simpl in *. destruct a; [done|simpl in Hn; lia].
  - destruct a as [|c a]; [by intros [= <-]|]. destruct (p c) eqn:E; [|by intros [= <-]].
    cbn [after length]. destruct (Nat.ltb_spec (length a) (S (length a))); [|lia].
    destruct (iterate _ _ _ n _) as [y|] eqn:Ei; intros [= <-]; [|exfalso; clear -Ei; destruct n; cbn [iterate] in Ei; [done|by case_match]].
    eapply IH; [|exact Ei]. simpl in *. lia.
Qed.
Lemma plus_stops s s' : run (Plus (One p)) s Some = Some s' -> match after s' with c :: _ => p c = false | [] => True end.
Proof.
  unfold Plus. cbn [run]. destruct (after s) as [|c a]; [done|]. destruct (p c); [|done]. by apply greedy_stops.
Qed.
Lemma star_run s s' : matches (Star true (One p)) s s' -> exists l, after s = l ++ after s' /\ Forall (fun c => p c = true) l.
Proof.
  intros Hm. remember (Star true (One p)) as r eqn:Er. revert Er. induction Hm; intros Er; try discriminate Er.
  - exists []. by split.
  - injection Er as -> ->. destruct (IHHm2 eq_refl) as (l & E & Hl). inversion Hm1; subst. exists (c :: l). simpl in *. rewrite E.
    split; [done|]. by constructor.
Qed.
Lemma plus_run s s' : matches (Plus (One p)) s s' ->
  exists c l, after s = c :: l ++ after s' /\ p c = true /\ Forall (fun c => p c = true) l.
Proof.
  intros Hm. inversion Hm; subst. match goal with H : matches (One p) _ _ |- _ => inversion H; subst end.
  match goal with H : matches (Star _ _) _ _ |- _ => apply star_run in H as (l & E & Hl) end. simpl in *. rewrite E. eauto.
Qed.

(** Each maximal run of [p] replaced by one character [x]. *)
Fixpoint collapse (x : ascii) (l : list ascii) : list ascii :=
  match l with
  | [] => []
  | c :: l' =>
      if p c then match l' with
                  | d :: _ => if p d then collapse x l' else x :: collapse x l'
                  | [] => [x]
                  end
      else c :: collapse x l'
  end.
Lemma collapse_cons x c l : collapse x (c :: l) =
  if p c then match l with d :: _ => if p d then collapse x l else x :: collapse x l | [] => [x] end
  else c :: collapse x l.
Proof. done. Qed.
Lemma collapse_free x g l : Forall (fun c => p c = false) g -> collapse x (g ++ l) = g ++ collapse x l.
Proof. induction 1 as [|c g Hc _ IH]; [done|]. cbn [app collapse]. by rewrite Hc, IH. Qed.
Lemma collapse_run x c l rest : p c = true -> Forall (fun c => p c = true) l ->
  match rest with d :: _ => p d = false | [] => True end -> collapse x (c :: l ++ rest) = x :: collapse x rest.
Proof.
  revert c. induction l as [|d l IH]; intros c Hc Hl Hr; cbn [app]; rewrite collapse_cons, Hc.
  - destruct rest as [|d rest]; [done|]. by rewrite Hr.
  - apply Forall_cons in Hl as [Hd Hl]. cbn [app]. rewrite Hd. by apply IH.
Qed.
Lemma splice_collapse fuel x b a : length a < fuel ->
  splice a (length b) [x] (map (fun '(s, s') => match_between s s') (find_from fuel (Plus (One p)) b a)) = collapse x a.
Proof.
  revert b a. induction fuel as [|fuel IH]; intros b a Hf; [lia|]. cbn [find_from].
  pose proof (search_from_spec (Plus (One p)) b a) as Hs. destruct (search_from _ b a) as [[s s']|].
  - destruct Hs as (g & -> & Hb & _ & Hm & Hr & Hfree). apply plus_stops in Hr. pose proof Hm as (l & E1 & E2)%matches_moves.
    pose proof Hm as Hm'. apply plus_run in Hm' as (c & l' & Ea & Hc & Hl).
    assert (Hl' : l = c :: l'). { rewrite E1 in Ea. by apply (app_inv_tail (after s') l (c :: l')). } subst l.
    assert (Hg : Forall (fun c => p c = false) g).
    { apply Forall_forall. intros d Hd. apply not_true_iff_false. intros Hp. apply list_elem_of_split in Hd as (g1 & g2 & ->).
      eapply (Hfree g1 d g2 eq_refl). econstructor; [by constructor|]. apply M_Stop. }
    assert (HL : length (after s) = S (length l') + length (after s')) by (rewrite E1, length_app; done).
    rewrite length_app in Hf.
    destruct (Nat.ltb_spec (length (after s')) (length (after s))) as [_|Hlt]; [|lia]. rewrite E1.
    cbn [map splice match_between m_start m_end].
    assert (Hlb : length (before s) = length g + length b) by (rewrite Hb, length_app, length_rev; done).
    assert (Hlb' : length (before s') = S (length l') + (length g + length b)) by (rewrite E2, length_app, length_rev, Hlb; done).
    rewrite Hlb. replace (length g + length b - length b) with (length g) by lia.
    rewrite take_app_length', Hlb' by done. replace (S (length l') + (length g + length b) - length b) with (length g + length (c :: l')) by (simpl; lia).
    assert (Hdrop : drop (length g + length (c :: l')) (g ++ (c :: l') ++ after s') = after s').
    { rewrite app_assoc. apply drop_app_length'. by rewrite length_app. }
    rewrite Hdrop.
    rewrite <- Hlb', IH by lia.
    rewrite collapse_free by done. f_equal. cbn [app]. by rewrite collapse_run.
  - simpl. assert (Hg : Forall (fun c => p c = false) a).
    { apply Forall_forall. intros d Hd. apply not_true_iff_false. intros Hp. apply list_elem_of_split in Hd as (g1 & g2 & ->).
      eapply (Hs g1 (d :: g2) eq_refl). econstructor; [by constructor|]. apply M_Stop. }
    rewrite <- (app_nil_r a) at 2. rewrite collapse_free by done. by rewrite app_nil_r.
Qed.
Lemma sub_collapse x t : sub (Plus (One p)) (String x "") t = text_of (collapse x (String.list_ascii_of_string t)).
Proof. unfold sub, finditer. f_equal. apply (splice_collapse _ x []). lia. Qed.

(** No two adjacent characters satisfy [p], and those that do are [x]. *)
Fixpoint single (x : ascii) (l : list ascii) : bool :=
  match l with
  | [] => true
  | c :: l' => (negb (p c) || Ascii.eqb c x && match l' with d :: _ => negb (p d) | [] => true end) && single x l'
  end.
Lemma collapse_head x l : match l with d :: _ => p d = false | [] => True end ->
  match collapse x l with d :: _ => p d = false | [] => True end.
Proof. destruct l as [|d l]; [done|]. intros Hd. rewrite collapse_cons. by rewrite Hd. Qed.
Lemma collapse_single x l : p x = true -> single x (collapse x l) = true.
Proof.
  intros Hx. induction l as [|c l IH]; [done|]. rewrite collapse_cons. destruct (p c) eqn:Hc.
  - destruct l as [|d l]; [simpl; by rewrite Ascii.eqb_refl, orb_true_r|]. destruct (p d) eqn:Hd; [exact IH|].
    cbn [single]. rewrite Ascii.eqb_refl, IH. pose proof (collapse_head x (d :: l) Hd) as Hh.
    destruct (collapse x (d :: l)) as [|e r]; [by rewrite orb_true_r|]. by rewrite Hh, orb_true_r.
  - cbn [single]. by rewrite Hc, IH.
Qed.
End Runs.
