(* ===== verification/NluTime.v ===== *)
(** * Time expressions ([nlu/time.py])

    Calendar arithmetic on proleptic Gregorian ordinals, the date tokens with the formats
    [strptime] tries, and the extractor. The reference date is the injected one. *)
From S2P Require Import Prelude PyStr Models ContextModels Regex.
From Stdlib Require Import Ascii.
#[local] Open Scope string_scope.
#[local] Open Scope Z_scope.

(** ** [datetime.date] *)
Definition is_leap (y : Z) : bool := (y mod 4 =? 0) && (negb (y mod 100 =? 0) || (y mod 400 =? 0)).
Definition days_in_month (y m : Z) : Z :=
  if m =? 2 then (if is_leap y then 29 else 28)
  else if (m =? 4) || (m =? 6) || (m =? 9) || (m =? 11) then 30 else 31.
Definition days_before_year (y : Z) : Z := let y := y - 1 in y * 365 + y / 4 - y / 100 + y / 400.
(** The days of the months before [m] in the year [y]. *)
Fixpoint days_of_months (y : Z) (n : nat) : Z :=
  match n with O => 0 | S n' => days_of_months y n' + days_in_month y (Z.of_nat n) end.
Definition days_before_month (y m : Z) : Z := days_of_months y (Z.to_nat (m - 1)).
Definition ordinal (y m d : Z) : Z := days_before_year y + days_before_month y m + d.
Definition valid_date (y m d : Z) : bool :=
  (1 <=? y) && (y <=? 9999) && (1 <=? m) && (m <=? 12) && (1 <=? d) && (d <=? days_in_month y m).
Definition MAX_ORDINAL : Z := 3652059.

Definition ValueError (msg : string) : exn := OtherException "ValueError" msg.
Definition OverflowError : exn := OtherException "OverflowError" "date value out of range".
(** [date(y, m, d)] *)
Definition date (y m d : Z) : outcome exn Z :=
  if valid_date y m d then Ret (ordinal y m d) else Raise (ValueError "day is out of range for month").
(** [o + timedelta(days=n)] *)
Definition shift_days (o n : Z) : outcome exn Z :=
  if (1 <=? o + n) && (o + n <=? MAX_ORDINAL) then Ret (o + n) else Raise OverflowError.
(** Monday is 0. *)
Definition weekday (o : Z) : Z := (o + 6) mod 7.

(** The reference date. *)
Record PyDate := { year : Z; month : Z; day : Z }.
Definition date_ordinal (t : PyDate) : Z := ordinal (year t) (month t) (day t).
Definition valid_pydate (t : PyDate) : bool := valid_date (year t) (month t) (day t).

(** ** Bounds of the relative periods *)
Definition week_bounds (reference : Z) : outcome exn (Z * Z) :=
  obind (shift_days reference (- weekday reference)) (fun start =>
  obind (shift_days start 6) (fun end_ => Ret (start, end_))).
Definition month_bounds (y m : Z) : outcome exn (Z * Z) :=
  obind (date y m 1) (fun start => obind (date y m (days_in_month y m)) (fun end_ => Ret (start, end_))).
Definition quarter_of (m : Z) : Z := (m - 1) / 3 + 1.
Definition quarter_bounds (y quarter : Z) : outcome exn (Z * Z) :=
  let start_month := (quarter - 1) * 3 + 1 in
  obind (date y start_month 1) (fun start =>
  obind (month_bounds y (start_month + 2)) (fun '(_, end_) => Ret (start, end_))).
Definition year_bounds (y : Z) : outcome exn (Z * Z) :=
  obind (date y 1 1) (fun start => obind (date y 12 31) (fun end_ => Ret (start, end_))).

Definition bounds_for (today : PyDate) (period : TimePeriod) : outcome exn (Z * Z) :=
  let t := date_ordinal today in
  match period with
  | TODAY => Ret (t, t)
  | YESTERDAY => obind (shift_days t (-1)) (fun y => Ret (y, y))
  | THIS_WEEK => week_bounds t
  | LAST_WEEK => obind (shift_days t (-7)) week_bounds
  | THIS_MONTH => month_bounds (year today) (month today)
  | LAST_MONTH => if month today =? 1 then month_bounds (year today - 1) 12
                  else month_bounds (year today) (month today - 1)
  | THIS_QUARTER => quarter_bounds (year today) (quarter_of (month today))
  | LAST_QUARTER => let quarter := quarter_of (month today) - 1 in
                    if quarter =? 0 then quarter_bounds (year today - 1) 4 else quarter_bounds (year today) quarter
  | THIS_YEAR => year_bounds (year today)
  | LAST_YEAR => year_bounds (year today - 1)
  | BETWEEN | BEFORE | AFTER => Raise (OtherException "AssertionError" "unreachable")
  end.

(** ** Date tokens *)
Definition MONTH_NAMES : list (string * Z) :=
  [("january", 1); ("jan", 1); ("february", 2); ("feb", 2); ("march", 3); ("mar", 3); ("april", 4); ("apr", 4);
   ("may", 5); ("june", 6); ("jun", 6); ("july", 7); ("jul", 7); ("august", 8); ("aug", 8); ("september", 9);
   ("sep", 9); ("sept", 9); ("october", 10); ("oct", 10); ("november", 11); ("nov", 11); ("december", 12); ("dec", 12)].
Definition Digit : re := One is_digit.
Definition MonthName : re := Choice (map (fun kv => Lit (fst kv)) MONTH_NAMES).
Definition OneOrTwoDigits : re := Seq Digit (UpTo true 1 Digit).
Definition DATE_TOKEN : re :=
  Choice [Cat [Times 4 Digit; Lit "-"; Times 2 Digit; Lit "-"; Times 2 Digit];
          Cat [MonthName; Spaces; OneOrTwoDigits; Opt (Lit ","); Spaces; Times 4 Digit];
          Cat [MonthName; Spaces; Times 4 Digit];
          Cat [OneOrTwoDigits; Lit "/"; OneOrTwoDigits; Lit "/"; Times 4 Digit];
          Times 4 Digit].
Definition BETWEEN_PATTERN : re :=
  Cat [Lit "between"; Spaces; Cap 1 DATE_TOKEN; Spaces; Lit "and"; Spaces; Cap 2 DATE_TOKEN].
Definition BEFORE_PATTERN : re := Cat [Lit "before"; Spaces; Cap 1 DATE_TOKEN].
Definition AFTER_PATTERN : re := Cat [Lit "after"; Spaces; Cap 1 DATE_TOKEN].

(** *** [strptime]: each directive is the expression the standard library compiles it to
    (English month names, any case); the whole token must match and the fields must form a
    date. Groups 1, 2, 3 are year, month and day. *)
Definition in_chars (s : string) : re := One (fun c => contains (String c "") s).
Definition DirectiveY : re := Cap 1 (Times 4 Digit).
Definition Directivem : re := Cap 2 (Choice [Seq (Lit "1") (in_chars "012"); Seq (Lit "0") (in_chars "123456789"); in_chars "123456789"]).
Definition Directived : re :=
  Cap 3 (Choice [Seq (Lit "3") (in_chars "01"); Seq (in_chars "12") Digit; Seq (Lit "0") (in_chars "123456789");
                 in_chars "123456789"; Seq (Lit " ") (in_chars "123456789")]).
Definition FULL_MONTHS : list (string * Z) :=
  [("september", 9); ("february", 2); ("november", 11); ("december", 12); ("january", 1); ("october", 10);
   ("august", 8); ("march", 3); ("april", 4); ("june", 6); ("july", 7); ("may", 5)].
Definition ABBR_MONTHS : list (string * Z) :=
  [("jan", 1); ("feb", 2); ("mar", 3); ("apr", 4); ("may", 5); ("jun", 6); ("jul", 7); ("aug", 8); ("sep", 9);
   ("oct", 10); ("nov", 11); ("dec", 12)].
Definition DirectiveB : re := Cap 2 (Choice (map (fun kv => Lit (fst kv)) FULL_MONTHS)).
Definition Directiveb : re := Cap 2 (Choice (map (fun kv => Lit (fst kv)) ABBR_MONTHS)).

Inductive DateFormat := F_Ymd | F_BdcY | F_BdY | F_bdcY | F_bdY | F_BY | F_bY | F_mdY | F_Y.
Definition DATE_FORMATS : list DateFormat := [F_Ymd; F_BdcY; F_BdY; F_bdcY; F_bdY; F_BY; F_bY; F_mdY; F_Y].
Definition format_re (f : DateFormat) : re :=
  match f with
  | F_Ymd => Cat [DirectiveY; Lit "-"; Directivem; Lit "-"; Directived]
  | F_BdcY => Cat [DirectiveB; Spaces; Directived; Lit ","; Spaces; DirectiveY]
  | F_BdY => Cat [DirectiveB; Spaces; Directived; Spaces; DirectiveY]
  | F_bdcY => Cat [Directiveb; Spaces; Directived; Lit ","; Spaces; DirectiveY]
  | F_bdY => Cat [Directiveb; Spaces; Directived; Spaces; DirectiveY]
  | F_BY => Cat [DirectiveB; Spaces; DirectiveY]
  | F_bY => Cat [Directiveb; Spaces; DirectiveY]
  | F_mdY => Cat [Directivem; Lit "/"; Directived; Lit "/"; DirectiveY]
  | F_Y => DirectiveY
  end.
Definition int_or (d : Z) (t : option string) : Z := default d (t ≫= py_int).
Definition month_of_group (t : option string) : Z :=
  match t with
  | None => 1
  | Some n => match alist_get n FULL_MONTHS with
              | Some m => m
              | None => match alist_get n ABBR_MONTHS with Some m => m | None => int_or 1 (Some n) end
              end
  end.
Definition strptime (token : string) (f : DateFormat) : option (Z * Z * Z) :=
  m ← fullmatch_prefix (format_re f) (lower token);
  let '(y, mo, d) := (int_or 1900 (group m 1), month_of_group (group m 2), int_or 1 (group m 3)) in
  if valid_date y mo d then Some (y, mo, d) else None.

(** The formats in order; a month or a year alone stands for its first day. *)
Fixpoint parse_with (formats : list DateFormat) (token : string) : option Z :=
  match formats with
  | [] => None
  | f :: rest =>
      match strptime token f with
      | None => parse_with rest token
      | Some (y, m, d) =>
          Some (match f with
                | F_BY | F_bY => ordinal y m 1
                | F_Y => ordinal y 1 1
                | _ => ordinal y m d
                end)
      end
  end.
Definition parse_date_token (token : string) : option Z := parse_with DATE_FORMATS token.

(** ** [DefaultTimeExtractor.extract] *)
Definition RELATIVE_PHRASES : list (string * TimePeriod) :=
  [("today", TODAY); ("yesterday", YESTERDAY); ("this week", THIS_WEEK); ("last week", LAST_WEEK);
   ("this month", THIS_MONTH); ("last month", LAST_MONTH); ("this quarter", THIS_QUARTER);
   ("last quarter", LAST_QUARTER); ("this year", THIS_YEAR); ("last year", LAST_YEAR)].
(** [sorted(d, key=len, reverse=True)] keeps the order of keys of the same length. *)
Definition longest_first {V} (d : list (string * V)) : list (string * V) :=
  sorted_by (fun a b => (b <? a)%nat) (fun kv => String.length (fst kv)) d.

Definition group_date (m : Match) (n : nat) : option Z := group m n ≫= parse_date_token.
Definition extract_between (q : string) : option TimeExpression :=
  m ← search BETWEEN_PATTERN q; s ← group_date m 1; e ← group_date m 2;
  Some {| te_period := BETWEEN; te_start_date := Some s; te_end_date := Some e; te_raw_text := m_text m |}.
Definition extract_before (q : string) : option TimeExpression :=
  m ← search BEFORE_PATTERN q; e ← group_date m 1;
  Some {| te_period := BEFORE; te_start_date := None; te_end_date := Some e; te_raw_text := m_text m |}.
Definition extract_after (q : string) : option TimeExpression :=
  m ← search AFTER_PATTERN q; s ← group_date m 1;
  Some {| te_period := AFTER; te_start_date := Some s; te_end_date := None; te_raw_text := m_text m |}.
Fixpoint extract_relative (today : PyDate) (phrases : list (string * TimePeriod)) (q : string)
  : outcome exn (option TimeExpression) :=
  match phrases with
  | [] => Ret None
  | (phrase, period) :: rest =>
      match search (Word phrase) q with
      | None => extract_relative today rest q
      | Some m => obind (bounds_for today period) (fun '(s, e) =>
          Ret (Some {| te_period := period; te_start_date := Some s; te_end_date := Some e; te_raw_text := m_text m |}))
      end
  end.
Definition extract_time (today : PyDate) (q : string) : outcome exn (option TimeExpression) :=
  match extract_between q with
  | Some t => Ret (Some t)
  | None => match extract_before q with
            | Some t => Ret (Some t)
            | None => match extract_after q with
                      | Some t => Ret (Some t)
                      | None => extract_relative today (longest_first RELATIVE_PHRASES) q
                      end
            end
  end.

(** ** Lemmas: the calendar *)
Lemma year_step y : days_before_year (y + 1) = days_before_year y + 365 + (if is_leap y then 1 else 0).
Proof.
  unfold days_before_year, is_leap. cbv zeta. replace (y + 1 - 1) with y by lia.
  destruct (Z.eqb_spec (y mod 4) 0), (Z.eqb_spec (y mod 100) 0), (Z.eqb_spec (y mod 400) 0); cbn [andb orb negb];
    pose proof (Z.div_mod y 4); pose proof (Z.div_mod y 100); pose proof (Z.div_mod y 400); Z.to_euclidean_division_equations; lia.
Qed.
Lemma months_of_year y : days_of_months y 12 = 365 + (if is_leap y then 1 else 0).
Proof. cbn. unfold days_in_month. simpl. destruct (is_leap y); lia. Qed.
Lemma days_in_month_bounds y m : 28 <= days_in_month y m <= 31.
Proof. unfold days_in_month. repeat case_match; lia. Qed.
(** The first day of a month follows the last day of the one before. *)
Lemma next_month y m : 1 < m -> ordinal y m 1 = ordinal y (m - 1) (days_in_month y (m - 1)) + 1.
Proof.
  intros Hm. unfold ordinal, days_before_month. replace (Z.to_nat (m - 1)) with (S (Z.to_nat (m - 1 - 1))) by lia.
  cbn [days_of_months]. replace (Z.of_nat (S (Z.to_nat (m - 1 - 1)))) with (m - 1) by lia. lia.
Qed.
Lemma next_year y : ordinal (y + 1) 1 1 = ordinal y 12 31 + 1.
Proof.
  unfold ordinal, days_before_month. cbn [Z.to_nat Z.sub]. change (Z.to_nat (1 - 1)) with 0%nat. change (Z.to_nat (12 - 1)) with 11%nat.
  pose proof (months_of_year y) as Hm. change (days_of_months y 12) with (days_of_months y 11 + days_in_month y 12) in Hm.
  change (days_in_month y 12) with 31 in Hm. rewrite year_step. cbn [days_of_months] in *. lia.
Qed.
Lemma months_mono y n k : days_of_months y n <= days_of_months y (n + k).
Proof.
  induction k as [|k IH]; [rewrite Nat.add_0_r; lia|]. rewrite Nat.add_succ_r. cbn [days_of_months].
  pose proof (days_in_month_bounds y (Z.of_nat (S (n + k)))). lia.
Qed.
Lemma ordinal_months y m : 1 <= m <= 12 ->
  0 <= days_before_month y m /\ days_before_month y m + days_in_month y m <= 365 + (if is_leap y then 1 else 0).
Proof.
  intros Hm. rewrite <- months_of_year. unfold days_before_month. split; [exact (months_mono y 0 (Z.to_nat (m - 1)))|].
  pose proof (months_mono y (Z.to_nat m) (12 - Z.to_nat m)) as H. replace (Z.to_nat m + (12 - Z.to_nat m))%nat with 12%nat in H by lia.
  etransitivity; [|exact H]. replace (Z.to_nat m) with (S (Z.to_nat (m - 1))) by lia. cbn [days_of_months].
  replace (Z.of_nat (S (Z.to_nat (m - 1)))) with m by lia. lia.
Qed.
Lemma days_before_year_bounds y : 1 <= y <= 9999 ->
  365 * (y - 1) <= days_before_year y /\ days_before_year y + 365 + (if is_leap y then 1 else 0) <= MAX_ORDINAL.
Proof.
  intros Hy. rewrite <- year_step. unfold days_before_year, MAX_ORDINAL. cbv zeta. split; Z.to_euclidean_division_equations; lia.
Qed.

(** A valid date: its ordinal lies in its month, its month in its year. *)
Lemma valid_date_spec y m d : valid_date y m d = true <-> 1 <= y <= 9999 /\ 1 <= m <= 12 /\ 1 <= d <= days_in_month y m.
Proof. unfold valid_date. rewrite !andb_true_iff, !Z.leb_le. lia. Qed.
Lemma date_Ret y m d : 1 <= y <= 9999 -> 1 <= m <= 12 -> 1 <= d <= days_in_month y m -> date y m d = Ret (ordinal y m d).
Proof. intros. unfold date. by rewrite (proj2 (valid_date_spec y m d)). Qed.
Lemma ordinal_in_year y m d : 1 <= m <= 12 -> 1 <= d <= days_in_month y m ->
  days_before_year y + 1 <= ordinal y m d <= days_before_year y + 365 + (if is_leap y then 1 else 0).
Proof. intros Hm Hd. pose proof (ordinal_months y m Hm). unfold ordinal. lia. Qed.

Lemma month_bounds_Ret y m : 1 <= y <= 9999 -> 1 <= m <= 12 ->
  month_bounds y m = Ret (ordinal y m 1, ordinal y m (days_in_month y m)).
Proof.
  intros Hy Hm. pose proof (days_in_month_bounds y m). unfold month_bounds. rewrite !date_Ret by lia. done.
Qed.
Lemma quarter_bounds_Ret y q : 1 <= y <= 9999 -> 1 <= q <= 4 ->
  quarter_bounds y q = Ret (ordinal y (3 * q - 2) 1, ordinal y (3 * q) (days_in_month y (3 * q))).
Proof.
  intros Hy Hq. unfold quarter_bounds. cbv zeta. replace ((q - 1) * 3 + 1) with (3 * q - 2) by lia.
  replace (3 * q - 2 + 2) with (3 * q) by lia. pose proof (days_in_month_bounds y (3 * q - 2)).
  rewrite date_Ret by lia. simpl. by rewrite month_bounds_Ret by lia.
Qed.
Lemma year_bounds_Ret y : 1 <= y <= 9999 -> year_bounds y = Ret (ordinal y 1 1, ordinal y 12 31).
Proof. intros Hy. unfold year_bounds. rewrite !date_Ret; try done; change (days_in_month y 12) with 31; change (days_in_month y 1) with 31; lia. Qed.
Lemma shift_days_Ret o n : 1 <= o + n <= MAX_ORDINAL -> shift_days o n = Ret (o + n).
Proof. intros H. unfold shift_days. rewrite (proj2 (Z.leb_le 1 _)), (proj2 (Z.leb_le _ MAX_ORDINAL)) by lia. done. Qed.
Lemma week_bounds_Ret o : 7 <= o <= MAX_ORDINAL - 6 -> week_bounds o = Ret (o - weekday o, o - weekday o + 6).
Proof.
  intros Ho. assert (Hw : 0 <= weekday o < 7) by (apply Z.mod_pos_bound; lia). unfold week_bounds.
  rewrite shift_days_Ret by lia. simpl. rewrite shift_days_Ret by lia. by rewrite Z.add_opp_r.
Qed.
Lemma ordinal_mono y m m' d d' : 1 <= m <= m' -> 1 <= d <= days_in_month y m -> (m = m' -> d <= d') -> 1 <= d' ->
  ordinal y m d <= ordinal y m' d'.
Proof.
  intros Hm Hd He Hd'. unfold ordinal, days_before_month. destruct (Z.eq_dec m m') as [->|Hne]; [specialize (He eq_refl); lia|].
  pose proof (months_mono y (Z.to_nat m) (Z.to_nat (m' - 1) - Z.to_nat m)) as H.
  replace (Z.to_nat m + (Z.to_nat (m' - 1) - Z.to_nat m))%nat with (Z.to_nat (m' - 1)) in H by lia.
  replace (Z.to_nat m) with (S (Z.to_nat (m - 1))) in H by lia. cbn [days_of_months] in H.
  replace (Z.of_nat (S (Z.to_nat (m - 1)))) with m in H by lia. lia.
Qed.

(** The periods with their predecessors. *)
Definition PERIODS : list (TimePeriod * TimePeriod) :=
  [(TODAY, YESTERDAY); (THIS_WEEK, LAST_WEEK); (THIS_MONTH, LAST_MONTH); (THIS_QUARTER, LAST_QUARTER); (THIS_YEAR, LAST_YEAR)].
(** The current period contains today, and the previous one ends the day before it starts. *)
Definition tiles (today : PyDate) (this last : TimePeriod) : Prop :=
  exists s e s', bounds_for today this = Ret (s, e) /\ bounds_for today last = Ret (s', s - 1) /\
    s' <= s - 1 /\ s <= date_ordinal today <= e.

Lemma weeks_tile o : 14 <= o <= MAX_ORDINAL - 6 ->
  week_bounds o = Ret (o - weekday o, o - weekday o + 6) /\ weekday (o - weekday o) = 0 /\
  obind (shift_days o (-7)) week_bounds = Ret (o - weekday o - 7, o - weekday o - 1).
Proof.
  intros Ho. split_and!.
  - apply week_bounds_Ret. lia.
  - unfold weekday. Z.to_euclidean_division_equations. lia.
  - rewrite shift_days_Ret by lia. cbn [obind]. rewrite week_bounds_Ret by lia.
    replace (weekday (o + -7)) with (weekday o) by (unfold weekday; Z.to_euclidean_division_equations; lia).
    do 2 f_equal; lia.
Qed.
Section Tiling.
Context (today : PyDate) (Hvalid : valid_pydate today = true) (Hyear : 2 <= year today <= 9998).
Lemma ordinal_range : 366 <= date_ordinal today <= MAX_ORDINAL - 365.
Proof using Hvalid Hyear.
  apply valid_date_spec in Hvalid as (Hy & Hm & Hd). unfold date_ordinal.
  pose proof (ordinal_in_year (year today) _ _ Hm Hd). pose proof (days_before_year_bounds (year today) Hy) as [H1 _].
  pose proof (days_before_year_bounds (year today + 1) ltac:(lia)) as [_ H2]. rewrite year_step in H2.
  destruct (is_leap (year today + 1)); lia.
Qed.
Lemma months_tile : tiles today THIS_MONTH LAST_MONTH.
Proof using Hvalid Hyear.
  pose proof Hvalid as (Hy & Hm & Hd)%valid_date_spec. set (y := year today) in *. set (m := month today) in *.
  pose proof (days_in_month_bounds y m). pose proof (days_in_month_bounds y (m - 1)).
  exists (ordinal y m 1), (ordinal y m (days_in_month y m)).
  exists (if m =? 1 then ordinal (y - 1) 12 1 else ordinal y (m - 1) 1).
  cbn [bounds_for]. fold y m. rewrite month_bounds_Ret by lia. split; [done|].
  assert (Ht : ordinal y m 1 <= date_ordinal today <= ordinal y m (days_in_month y m)).
  { unfold date_ordinal, ordinal. fold y m. lia. }
  destruct (Z.eqb_spec m 1) as [E|E].
  - rewrite month_bounds_Ret by lia. change (days_in_month (y - 1) 12) with 31. rewrite E in *.
    pose proof (next_year (y - 1)) as Hn. replace (y - 1 + 1) with y in Hn by lia.
    split_and!; [do 2 f_equal; lia|unfold ordinal in *; lia|lia|lia].
  - rewrite month_bounds_Ret by lia. rewrite (next_month y m) in * by lia.
    split_and!; [do 2 f_equal; lia|unfold ordinal; lia|lia|lia].
Qed.
Lemma quarters_tile : tiles today THIS_QUARTER LAST_QUARTER.
Proof using Hvalid Hyear.
  pose proof Hvalid as (Hy & Hm & Hd)%valid_date_spec. set (y := year today) in *. set (m := month today) in *.
  set (q := quarter_of m). assert (Hq : 1 <= q <= 4 /\ 3 * q - 2 <= m <= 3 * q) by (unfold q, quarter_of; Z.to_euclidean_division_equations; lia).
  pose proof (days_in_month_bounds y (3 * q)). pose proof (days_in_month_bounds y (3 * q - 2)).
  exists (ordinal y (3 * q - 2) 1), (ordinal y (3 * q) (days_in_month y (3 * q))).
  exists (if q - 1 =? 0 then ordinal (y - 1) 10 1 else ordinal y (3 * (q - 1) - 2) 1).
  cbn [bounds_for]. fold y m q. cbv zeta. rewrite quarter_bounds_Ret by lia. split; [done|].
  assert (Ht : ordinal y (3 * q - 2) 1 <= date_ordinal today <= ordinal y (3 * q) (days_in_month y (3 * q))).
  { unfold date_ordinal. fold y m. split; apply ordinal_mono; try lia. intros E. rewrite <- E. lia. }
  destruct (Z.eqb_spec (q - 1) 0) as [E|E].
  - rewrite quarter_bounds_Ret by lia. replace q with 1 in * by lia. cbn [Z.mul Pos.mul Z.sub Z.add Z.opp Z.pos_sub Pos.pred_double] in *.
    change (3 * 4 - 2) with 10. change (3 * 4) with 12. change (days_in_month (y - 1) 12) with 31. change (3 * 1 - 2) with 1 in *.
    pose proof (next_year (y - 1)) as Hn. replace (y - 1 + 1) with y in Hn by lia.
    assert (ordinal (y - 1) 10 1 <= ordinal (y - 1) 12 31).
    { apply ordinal_mono; try lia. change (days_in_month (y - 1) 10) with 31. lia. }
    split_and!; [do 2 f_equal; lia|lia|lia|lia].
  - rewrite quarter_bounds_Ret by lia. rewrite (next_month y (3 * q - 2)) in * by lia.
    replace (3 * q - 2 - 1) with (3 * (q - 1)) in * by lia.
    pose proof (days_in_month_bounds y (3 * (q - 1))). pose proof (days_in_month_bounds y (3 * (q - 1) - 2)).
    assert (ordinal y (3 * (q - 1) - 2) 1 <= ordinal y (3 * (q - 1)) (days_in_month y (3 * (q - 1)))) by (apply ordinal_mono; lia).
    split_and!; [do 2 f_equal; lia|lia|lia|lia].
Qed.
Lemma years_tile : tiles today THIS_YEAR LAST_YEAR.
Proof using Hvalid Hyear.
  pose proof Hvalid as (Hy & Hm & Hd)%valid_date_spec. set (y := year today) in *. set (m := month today) in *.
  exists (ordinal y 1 1), (ordinal y 12 31), (ordinal (y - 1) 1 1). cbn [bounds_for]. fold y.
  rewrite !year_bounds_Ret by lia. pose proof (next_year (y - 1)) as Hn. replace (y - 1 + 1) with y in Hn by lia.
  pose proof (days_in_month_bounds y m).
  split_and!; [done|do 2 f_equal; lia| | |].
  - pose proof (ordinal_mono (y - 1) 1 12 1 31 ltac:(lia) ltac:(change (days_in_month (y - 1) 1) with 31; lia) ltac:(lia) ltac:(lia)). lia.
  - unfold date_ordinal. fold y m. apply ordinal_mono; try lia. change (days_in_month y 1) with 31. lia.
  - unfold date_ordinal. fold y m. apply ordinal_mono; lia.
Qed.
Lemma periods_tile this last : (this, last) ∈ PERIODS -> tiles today this last.
Proof using Hvalid Hyear.
  pose proof ordinal_range as Hr. unfold PERIODS. rewrite !elem_of_cons.
  intros [[= -> ->]|[[= -> ->]|[[= -> ->]|[[= -> ->]|[[= -> ->]|H]]]]].
  - exists (date_ordinal today), (date_ordinal today), (date_ordinal today - 1). cbn [bounds_for]. cbv zeta.
    rewrite shift_days_Ret by lia. replace (date_ordinal today + -1) with (date_ordinal today - 1) by lia. split_and!; try done; lia.
  - destruct (weeks_tile (date_ordinal today)) as (H1 & _ & H2); [lia|]. assert (0 <= weekday (date_ordinal today) < 7) by (apply Z.mod_pos_bound; lia).
    eexists _, _, _. cbn [bounds_for]. cbv zeta. rewrite H1, H2. split_and!; [done|done|lia|lia|lia].
  - apply months_tile.
  - apply quarters_tile.
  - apply years_tile.
  - by apply elem_of_nil in H.
Qed.
End Tiling.

(** ** Lemmas: written dates *)
(** [date.isoformat] *)
Definition digit_char (n : Z) : ascii := ascii_of_N (Z.to_N (48 + n)).
Definition two_digits (n : Z) : string := String (digit_char (n / 10)) (String (digit_char (n mod 10)) "").
Definition four_digits (n : Z) : string :=
  String (digit_char (n / 1000)) (String (digit_char (n / 100 mod 10)) (two_digits (n mod 100))).
Definition isoformat (y m d : Z) : string := four_digits y ++ "-" ++ two_digits m ++ "-" ++ two_digits d.

Lemma digit_char_spec n : 0 <= n <= 9 ->
  is_digit (digit_char n) = true /\ code (digit_char n) = 48 + n /\ char_lower (digit_char n) = digit_char n.
Proof.
  intros Hn. assert (Hc : n ∈ [0; 1; 2; 3; 4; 5; 6; 7; 8; 9]) by (rewrite !elem_of_cons; lia).
  repeat (apply elem_of_cons in Hc as [->|Hc]; [by vm_compute|]). by apply elem_of_nil in Hc.
Qed.
Lemma py_int_digits c s : all_chars is_digit (String c s) = true -> py_int (String c s) = int_digits 0 (String c s).
Proof.
  intros Hd. unfold py_int. rewrite strip_none by (eapply all_chars_impl; [apply digit_not_space|exact Hd]).
  simpl in Hd. apply andb_true_iff in Hd as [Hc _]. pose proof Hc as Hr. unfold is_digit, in_range in Hr.
  apply andb_true_iff in Hr as [H1%Z.leb_le H2%Z.leb_le]. destruct (Z.eqb_spec (code c) 45), (Z.eqb_spec (code c) 43); try lia.
  unfold int_unsigned. by rewrite Hc.
Qed.
Ltac digits_of n :=
  let H1 := fresh "Hdig" in let H2 := fresh "Hcode" in let H3 := fresh "Hlow" in
  destruct (digit_char_spec n) as (H1 & H2 & H3); [Z.to_euclidean_division_equations; lia|].

Lemma four_digits_spec y : 0 <= y <= 9999 ->
  py_int (four_digits y) = Some y /\ lower (four_digits y) = four_digits y /\
  forall rest cs k, run (A := pos) DirectiveY {| before := []; after := String.list_ascii_of_string (four_digits y) ++ rest; caps := cs |} k
    = k {| before := rev (String.list_ascii_of_string (four_digits y)); after := rest; caps := (1%nat, four_digits y) :: cs |}.
Proof.
  intros Hy. unfold four_digits, two_digits.
  digits_of (y / 1000). digits_of (y / 100 mod 10). digits_of (y mod 100 / 10). digits_of (y mod 100 mod 10).
  set (c1 := digit_char (y / 1000)) in *. set (c2 := digit_char (y / 100 mod 10)) in *.
  set (c3 := digit_char (y mod 100 / 10)) in *. set (c4 := digit_char (y mod 100 mod 10)) in *.
  split_and!.
  - rewrite py_int_digits by (simpl; by rewrite Hdig, Hdig0, Hdig1, Hdig2).
    cbn [int_digits]. rewrite Hdig, Hdig0, Hdig1, Hdig2, Hcode, Hcode0, Hcode1, Hcode2.
    f_equal. Z.to_euclidean_division_equations. lia.
  - unfold lower. cbn [str_map]. by rewrite Hlow, Hlow0, Hlow1, Hlow2.
  - intros rest cs k. cbn [String.list_ascii_of_string app]. unfold DirectiveY, Digit. cbn [Times run after before caps].
    rewrite Hdig. cbn [run after before caps]. rewrite Hdig0. cbn [run after before caps]. rewrite Hdig1. cbn [run after before caps].
    rewrite Hdig2. cbn [run after before caps rev app]. do 3 f_equal. unfold between. cbn [after length].
    replace (S (S (S (S (length rest)))) - length rest)%nat with 4%nat by lia. done.
Qed.

(** The rest of an ISO date, month by month and day by day. *)
Definition iso_rest (m d : Z) : string := "-" ++ two_digits m ++ "-" ++ two_digits d.
Definition IsoRest : re := Cat [Lit "-"; Directivem; Lit "-"; Directived].
Definition iso_rest_ok (m d : Z) : bool :=
  bool_decide (lower (iso_rest m d) = iso_rest m d) &&
  bool_decide (month_of_group (Some (two_digits m)) = m) && bool_decide (int_or 1 (Some (two_digits d)) = d).
Lemma iso_rest_spec m d b cs : 1 <= m <= 12 -> 1 <= d <= 31 ->
  iso_rest_ok m d = true /\
  exists b', run (A := pos) IsoRest {| before := b; after := String.list_ascii_of_string (iso_rest m d); caps := cs |} Some
    = Some {| before := b'; after := []; caps := (3%nat, two_digits d) :: (2%nat, two_digits m) :: cs |}.
Proof.
  intros Hm Hd.
  assert (Hc : m ∈ [1; 2; 3; 4; 5; 6; 7; 8; 9; 10; 11; 12]) by (rewrite !elem_of_cons; lia).
  assert (Hc' : d ∈ [1; 2; 3; 4; 5; 6; 7; 8; 9; 10; 11; 12; 13; 14; 15; 16; 17; 18; 19; 20; 21; 22; 23; 24; 25; 26; 27; 28; 29; 30; 31])
    by (rewrite !elem_of_cons; lia).
  clear Hm Hd.
  repeat (apply elem_of_cons in Hc as [->|Hc];
    [repeat (apply elem_of_cons in Hc' as [->|Hc']; [split; [vm_compute; reflexivity|eexists; vm_compute; reflexivity]|]);
     by apply elem_of_nil in Hc'|]).
  by apply elem_of_nil in Hc.
Qed.
Lemma lower_app a b : lower (a ++ b) = lower a ++ lower b.
Proof. unfold lower. induction a as [|c a IH]; [done|]. rewrite !app_str_cons. cbn [str_map]. by rewrite IH, app_str_cons. Qed.
Lemma list_ascii_app a b :
  String.list_ascii_of_string (a ++ b) = (String.list_ascii_of_string a ++ String.list_ascii_of_string b)%list.
Proof. induction a as [|c a IH]; [done|]. rewrite app_str_cons. simpl. by rewrite IH. Qed.

Lemma strptime_iso y m d : valid_date y m d = true -> strptime (isoformat y m d) F_Ymd = Some (y, m, d).
Proof.
  intros Hv. pose proof Hv as (Hy & Hm & Hd)%valid_date_spec. pose proof (days_in_month_bounds y m).
  destruct (four_digits_spec y) as (Hint & Hlow & Hrun); [lia|].
  destruct (iso_rest_spec m d (rev (String.list_ascii_of_string (four_digits y))) [(1%nat, four_digits y)]) as (Hok & b' & Hrest); [lia|lia|].
  unfold iso_rest_ok in Hok. apply andb_true_iff in Hok as [Hok Hdd%bool_decide_eq_true].
  apply andb_true_iff in Hok as [Hlr%bool_decide_eq_true Hmm%bool_decide_eq_true].
  unfold strptime, fullmatch_prefix. change (isoformat y m d) with (four_digits y ++ iso_rest m d).
  rewrite lower_app, Hlow, Hlr. unfold start_of at 1. rewrite list_ascii_app.
  change (format_re F_Ymd) with (Seq DirectiveY IsoRest). cbn [run]. rewrite Hrun, Hrest. cbn [mbind option_bind after length Nat.eqb].
  set (mt := match_between _ _). assert (G1 : group mt 1 = Some (four_digits y)) by reflexivity.
  assert (G2 : group mt 2 = Some (two_digits m)) by reflexivity. assert (G3 : group mt 3 = Some (two_digits d)) by reflexivity.
  assert (HY : int_or 1900 (Some (four_digits y)) = y) by (unfold int_or; cbn [mbind option_bind]; by rewrite Hint).
  rewrite G1, G2, G3, Hmm, Hdd, HY. by rewrite Hv.
Qed.

(** ** Properties *)
(** The relative periods tile the calendar: away from the two ends of the calendar, the
    current day, week, month, quarter and year contain the reference date, and the previous
    one is not empty and ends on the day before the current one starts. *)
Theorem relative_periods_tile today this last :
  valid_pydate today = true -> 2 <= year today <= 9998 -> (this, last) ∈ PERIODS ->
  exists s e s', bounds_for today this = Ret (s, e) /\ bounds_for today last = Ret (s', s - 1) /\
    s' <= s - 1 /\ s <= date_ordinal today <= e.
Proof. intros Hv Hy. by apply periods_tile. Qed.
Lemma relative_periods_tile_witness :
  let today := {| year := 2024; month := 1; day := 15 |} in
  (exists s e s', bounds_for today THIS_QUARTER = Ret (s, e) /\ bounds_for today LAST_QUARTER = Ret (s', s - 1) /\
     s' <= s - 1 /\ s <= date_ordinal today <= e) /\
  bounds_for today LAST_QUARTER = Ret (ordinal 2023 10 1, ordinal 2023 12 31).
Proof.
  split; [|by vm_compute].
  apply (relative_periods_tile {| year := 2024; month := 1; day := 15 |} THIS_QUARTER LAST_QUARTER); [done|simpl; lia|].
  by apply (bool_decide_unpack _); vm_compute.
Defined.

(** Every ISO date is read back: the token [isoformat] writes for a valid date is parsed to
    exactly that date, by the first format tried. *)
Theorem iso_date_roundtrip y m d :
  valid_date y m d = true -> parse_date_token (isoformat y m d) = Some (ordinal y m d).
Proof. intros Hv. unfold parse_date_token, DATE_FORMATS. cbn [parse_with]. by rewrite strptime_iso. Qed.
Lemma iso_date_roundtrip_witness :
  isoformat 2024 2 29 = "2024-02-29" /\ parse_date_token (isoformat 2024 2 29) = Some (ordinal 2024 2 29).
Proof. split; [by vm_compute|]. apply (iso_date_roundtrip 2024 2 29). by vm_compute. Defined.

(** The month name [sept] is in the table of month names and in the expression for date
    tokens, but no format of [strptime] reads it: such a date is recognised, then dropped. *)
Example sept_is_never_parsed :
  m_text <$> search DATE_TOKEN "sept 2023" = Some "sept 2023" /\ parse_date_token "sept 2023" = None /\
  parse_date_token "sep 2023" = Some (ordinal 2023 9 1) /\
  extract_time {| year := 2024; month := 1; day := 15 |} "orders before sept 2023" = Ret None.
Proof. vm_compute. split_and!; reflexivity. Qed.
