(* ===== verification/ResultFormatter.v ===== *)
(** * The result formatter ([querymind.result_formatter])

    The last stage of the pipeline: the rows of a successful execution become a table of texts
    ([value_formatter.py], [formatter.py]), a summary ([summarizer.py]), the kind of answer
    ([answer_generator.py]) and the statistics ([statistics.py]), put together by [engine.py].
    Values are what the database driver returns, as far as the formatter tells them apart. *)
From S2P Require Import Prelude PyFloat PyStr Models Validation Execution Regex NluTime.
From Stdlib Require Import Ascii.
#[local] Open Scope string_scope.
#[local] Open Scope Z_scope.

(** ** The values of a row *)
(** A finite [decimal.Decimal] is its sign, its coefficient and its exponent. *)
Record Decimal := { negative : bool; coefficient : N; exponent : Z }.
Record DateTime := { dt_date : PyDate; hour : Z; minute : Z; second : Z; microsecond : Z; utcoffset : option Z }.
(** A float is kept with the text of [str], the shortest that reads back as the same float; any
    other object with its text and the name of its type. *)
Inductive pyval :=
| PV_none | PV_bool (b : bool) | PV_int (z : Z) | PV_float (text : string) | PV_decimal (d : Decimal)
| PV_datetime (t : DateTime) | PV_date (d : PyDate) | PV_str (s : string) | PV_other (text type_name : string).

(** ** [exceptions.py] *)
Definition FormattingError (msg : string) : exn := OtherException "FormattingError" msg.

(** ** [models.py] *)
Inductive AnswerType := A_SCALAR | A_TABLE | A_EMPTY_RESULT | A_AGGREGATION | A_DETAIL.
#[export] Instance AnswerType_eq_dec : EqDecision AnswerType.
Proof. solve_decision. Defined.
Record AnswerSummary := {
  summary_title : string; summary_description : string; summary_row_count : Z; summary_column_count : Z;
  contains_numeric : bool; contains_dates : bool }.
Record FormattedValue := { original_value : pyval; formatted_value : string; detected_type : string }.
Record FormattedTable := { table_columns : list QueryColumn; table_rows : list (list FormattedValue) }.
Record AnswerStatistics := { formatting_latency_ms : Q; rows_processed : Z; columns_processed : Z; values_formatted : Z }.
Record BusinessAnswer := {
  answer_type : AnswerType; summary : AnswerSummary; formatted_table : FormattedTable;
  answer_statistics : AnswerStatistics; answer_execution : SQLExecutionResult pyval }.

(** ** [str] of a [Decimal] and [isoformat] (Standard Library) *)
Fixpoint zeros (n : nat) : string := match n with O => "" | S n' => String "0" (zeros n') end.
(** ["%+d"] *)
Definition show_signed (z : Z) : string := if z <? 0 then show_Z z else "+" ++ show_Z z.
Definition show_Decimal (d : Decimal) : string :=
  let digits := pretty (coefficient d) in
  let n := Z.of_nat (String.length digits) in
  let leftdigits := exponent d + n in
  let dotplace := if (exponent d <=? 0) && (-6 <? leftdigits) then leftdigits else 1 in
  let '(intpart, fracpart) :=
    if dotplace <=? 0 then ("0", "." ++ zeros (Z.to_nat (- dotplace)) ++ digits)
    else if n <=? dotplace then (digits ++ zeros (Z.to_nat (dotplace - n)), "")
    else (take_str (Z.to_nat dotplace) digits, "." ++ drop_str (Z.to_nat dotplace) digits) in
  let exp := if leftdigits =? dotplace then "" else "E" ++ show_signed (leftdigits - dotplace) in
  (if negative d then "-" else "") ++ intpart ++ fracpart ++ exp.
Definition date_isoformat (d : PyDate) : string := isoformat (year d) (month d) (day d).
Definition six_digits (n : Z) : string := two_digits (n / 10000) ++ two_digits (n / 100 mod 100) ++ two_digits (n mod 100).
Definition offset_isoformat (o : Z) : string :=
  let a := Z.abs o in
  (if o <? 0 then "-" else "+") ++ two_digits (a / 3600) ++ ":" ++ two_digits (a / 60 mod 60)
  ++ (if a mod 60 =? 0 then "" else ":" ++ two_digits (a mod 60)).
Definition datetime_isoformat (t : DateTime) : string :=
  date_isoformat (dt_date t) ++ "T" ++ two_digits (hour t) ++ ":" ++ two_digits (minute t) ++ ":" ++ two_digits (second t)
  ++ (if microsecond t =? 0 then "" else "." ++ six_digits (microsecond t))
  ++ match utcoffset t with Some o => offset_isoformat o | None => "" end.

(** ** [value_formatter.py] *)
Definition render (v : pyval) : string * string :=
  match v with
  | PV_none => ("NULL", "none")
  | PV_bool b => (if b then "true" else "false", "bool")
  | PV_int z => (show_Z z, "int")
  | PV_float text => (text, "float")
  | PV_decimal d => (show_Decimal d, "decimal")
  | PV_datetime t => (datetime_isoformat t, "datetime")
  | PV_date d => (date_isoformat d, "date")
  | PV_str s => (s, "str")
  | PV_other text type_name => (text, type_name)
  end.
Definition format_value (v : pyval) : FormattedValue :=
  let '(formatted, detected) := render v in
  {| original_value := v; formatted_value := formatted; detected_type := detected |}.

(** ** [formatter.py] *)
Fixpoint format_rows (column_count : nat) (rows : list (list pyval)) : outcome exn (list (list FormattedValue)) :=
  match rows with
  | [] => Ret []
  | row :: rest =>
      if negb (Nat.eqb (length row) column_count)
      then Raise (FormattingError ("Row has " ++ show_nat (length row) ++ " values but there are "
             ++ show_nat column_count ++ " columns."))
      else let? formatted := format_rows column_count rest in Ret (map format_value row :: formatted)
  end.
Definition format_table (q : QueryResult pyval) : outcome exn FormattedTable :=
  let? formatted := format_rows (length (columns q)) (rows q) in
  Ret {| table_columns := columns q; table_rows := formatted |}.

(** ** [summarizer.py] *)
Definition NUMERIC_PYTHON_TYPES : list string := ["int"; "float"; "Decimal"].
Definition TEMPORAL_PYTHON_TYPES : list string := ["date"; "datetime"].
Definition has_type (types : list string) (t : FormattedTable) : bool :=
  existsb (fun c => bool_decide (qcol_python_type c ∈ types)) (table_columns t).
Definition summary_text (row_count column_count : nat) (t : FormattedTable) : string * string :=
  let column_names := join ", " (map qcol_name (table_columns t)) in
  match row_count with
  | O => ("No records found.", "The query returned no records.")
  | S O =>
      ("Returned one record.",
       match column_count, table_columns t with
       | S O, c :: _ => "Returned a single value from column '" ++ qcol_name c ++ "'."
       | _, _ => "Returned one record with " ++ show_nat column_count ++ " columns: " ++ column_names ++ "."
       end)
  | _ => ("Returned " ++ show_nat row_count ++ " rows.",
          "Returned " ++ show_nat row_count ++ " rows across " ++ show_nat column_count ++ " columns: " ++ column_names ++ ".")
  end.
Definition generate (t : FormattedTable) : AnswerSummary :=
  let row_count := length (table_rows t) in
  let column_count := length (table_columns t) in
  let '(title, description) := summary_text row_count column_count t in
  {| summary_title := title; summary_description := description; summary_row_count := Z.of_nat row_count;
     summary_column_count := Z.of_nat column_count; contains_numeric := has_type NUMERIC_PYTHON_TYPES t;
     contains_dates := has_type TEMPORAL_PYTHON_TYPES t |}.

(** ** [statistics.py] *)
Definition build_statistics (t : FormattedTable) (latency : Q) : AnswerStatistics :=
  {| formatting_latency_ms := latency; rows_processed := Z.of_nat (length (table_rows t));
     columns_processed := Z.of_nat (length (table_columns t));
     values_formatted := Z.of_nat (list_sum (map length (table_rows t))) |}.

(** ** [answer_generator.py] and [engine.py] *)
Section Engine.
Context {node : Type} `{Sqlglot node}.
(** [sqlglot.parse_one] and [sqlglot.errors.SqlglotError]. *)
Context (parse_one : string -> string -> outcome exn (option node)) (is_SqlglotError : exn -> bool).

Definition is_aggregated (x : SQLExecutionResult pyval) : outcome exn bool :=
  match parse_one (executed_sql x) (SQLGLOT_DIALECTS (es_dialect (exec_statistics x))) with
  | Raise e => if is_SqlglotError e then Ret false else Raise e
  | Ret None => Ret false
  | Ret (Some statement) => Ret (contains_class E_AggFunc statement || contains_class E_Group statement)
  end.
Definition determine (x : SQLExecutionResult pyval) (t : FormattedTable) : outcome exn AnswerType :=
  let row_count := length (table_rows t) in
  let column_count := length (table_columns t) in
  if Nat.eqb row_count 0 then Ret A_EMPTY_RESULT
  else if Nat.eqb row_count 1 && Nat.eqb column_count 1 then Ret A_SCALAR
  else
    let? aggregated := is_aggregated x in
    if aggregated then Ret A_AGGREGATION
    else if Nat.eqb row_count 1 then Ret A_DETAIL else Ret A_TABLE.

Definition repr_status (s : ExecutionStatus) : string :=
  match s with
  | SUCCESS => "<ExecutionStatus.SUCCESS: 'success'>" | FAILED => "<ExecutionStatus.FAILED: 'failed'>"
  | REJECTED => "<ExecutionStatus.REJECTED: 'rejected'>" | TIMEOUT => "<ExecutionStatus.TIMEOUT: 'timeout'>"
  end.
Context {W : Type} `{Clock W}.
Definition format (x : SQLExecutionResult pyval) : prog W exn BusinessAnswer :=
  match exec_status x, query_result x with
  | SUCCESS, Some q =>
      let! started := perf_counter in
      let! table := lift (format_table q) in
      let summary := generate table in
      let! answer := lift (determine x table) in
      let! latency := elapsed_ms started in
      ret {| answer_type := answer; summary := summary; formatted_table := table;
             answer_statistics := build_statistics table latency; answer_execution := x |}
  | status, _ => throw (FormattingError ("ResultFormatterEngine.format requires a successful SQLExecutionResult "
       ++ "with a query_result; got status=" ++ repr_status status ++ "."))
  end.
End Engine.

(** ** Lemmas *)
Lemma format_rows_spec n rs :
  match format_rows n rs with
  | Ret l => l = map (map format_value) rs /\ Forall (fun row => length row = n) rs
  | Raise e => exists before row after, rs = (before ++ row :: after)%list /\ length row <> n /\
      Forall (fun r => length r = n) before /\
      e = FormattingError ("Row has " ++ show_nat (length row) ++ " values but there are " ++ show_nat n ++ " columns.")
  end.
Proof.
  induction rs as [|row rs IH]; cbn [format_rows]; [done|].
  destruct (Nat.eqb_spec (length row) n) as [E|E]; cbn [negb].
  - destruct (format_rows n rs) as [e|l]; cbn [obind].
    + destruct IH as (b & r & a & -> & Hr & Hb & He). exists (row :: b), r, a. split_and!; [done|done|by constructor|done].
    + destruct IH as [-> Hf]. split; [done|by constructor].
  - exists [], row, rs. split_and!; done.
Qed.
Lemma list_sum_const {A} (l : list (list A)) n : Forall (fun row => length row = n) l -> list_sum (map length l) = (length l * n)%nat.
Proof. induction 1 as [|row l Hr _ IH]; [done|]. cbn [map list_sum foldr length]. change (foldr Nat.add 0%nat (map length l)) with (list_sum (map length l)). rewrite IH, Hr. lia. Qed.
Lemma original_format v : original_value (format_value v) = v.
Proof. unfold format_value. by destruct (render v). Qed.
Lemma format_value_render v : (formatted_value (format_value v), detected_type (format_value v)) = render v.
Proof. unfold format_value. by destruct (render v). Qed.

(** The five rules, first match wins. *)
Definition classify (rows columns : nat) (aggregated : bool) : AnswerType :=
  match rows, columns, aggregated with
  | O, _, _ => A_EMPTY_RESULT
  | 1%nat, 1%nat, _ => A_SCALAR
  | _, _, true => A_AGGREGATION
  | 1%nat, _, false => A_DETAIL
  | _, _, false => A_TABLE
  end.

(** Values whose text and type name say everything. *)
Definition self_describing (v : pyval) : bool :=
  match v with
  | PV_none | PV_bool _ | PV_int _ | PV_float _ | PV_str _ => true
  | PV_date d => valid_pydate d
  | PV_decimal _ | PV_datetime _ | PV_other _ _ => false
  end.
Lemma date_isoformat_inj d d' : valid_pydate d = true -> valid_pydate d' = true -> date_isoformat d = date_isoformat d' -> d = d'.
Proof.
  intros Hd Hd' E. pose proof (strptime_iso _ _ _ Hd) as H1. pose proof (strptime_iso _ _ _ Hd') as H2.
  unfold date_isoformat in E. rewrite E, H2 in H1. destruct d, d'. cbn in *. by injection H1 as -> -> ->.
Qed.

(** ** Properties *)
(** What the table shows determines the value: two NULLs, booleans, integers, floats, strings or
    dates with the same text and the same detected type are the same value, so the string "NULL",
    the string "1" and the string "true" are told from the values they look like. *)
Theorem render_injective v v' : self_describing v = true -> self_describing v' = true -> render v = render v' -> v = v'.
Proof.
  intros Hv Hv' E. destruct v, v'; cbn in Hv, Hv', E; try discriminate; try reflexivity; try (by injection E as ->).
  - by destruct b, b0.
  - injection E as E. f_equal. pose proof (py_int_show z) as H1. rewrite E, py_int_show in H1. by injection H1.
  - f_equal. exact (date_isoformat_inj _ _ Hv Hv' (f_equal fst E)).
Qed.
Lemma render_injective_witness : PV_int (-12) = PV_int (-12) /\ render (PV_str "true") <> render (PV_bool true).
Proof.
  split; [exact (render_injective (PV_int (-12)) (PV_int (-12)) eq_refl eq_refl eq_refl)|].
  intros E. discriminate (render_injective (PV_str "true") (PV_bool true) eq_refl eq_refl E).
Defined.

Section Properties.
Context {node : Type} `{Sqlglot node}.
Context (parse_one : string -> string -> outcome exn (option node)) (is_SqlglotError : exn -> bool).
Context {W : Type} `{Clock W}.
Abbreviation format := (format parse_one is_SqlglotError).
Abbreviation aggregated x := (is_aggregated parse_one is_SqlglotError x).

Lemma determine_spec x t b : aggregated x = Ret b ->
  determine parse_one is_SqlglotError x t = Ret (classify (length (table_rows t)) (length (table_columns t)) b).
Proof.
  intros Hb. unfold determine. rewrite Hb. cbn [obind].
  destruct (length (table_rows t)) as [|[|n]], (length (table_columns t)) as [|[|m]], b; reflexivity.
Qed.
Lemma aggregated_Ret x :
  (forall e, parse_one (executed_sql x) (SQLGLOT_DIALECTS (es_dialect (exec_statistics x))) = Raise e -> is_SqlglotError e = true) ->
  exists b, aggregated x = Ret b.
Proof.
  intros He. unfold is_aggregated. destruct (parse_one _ _) as [e|[s|]]; [rewrite (He e eq_refl)|..]; by eexists.
Qed.

(** What an answer says of the rows it was made from. *)
Definition answers (x : SQLExecutionResult pyval) (q : QueryResult pyval) (b : bool) (a : BusinessAnswer) : Prop :=
  answer_execution a = x /\
  table_columns (formatted_table a) = columns q /\
  map (map original_value) (table_rows (formatted_table a)) = rows q /\
  Forall (Forall (fun f => (formatted_value f, detected_type f) = render (original_value f))) (table_rows (formatted_table a)) /\
  answer_type a = classify (length (rows q)) (length (columns q)) b /\
  summary_row_count (summary a) = Z.of_nat (length (rows q)) /\
  summary_column_count (summary a) = Z.of_nat (length (columns q)) /\
  values_formatted (answer_statistics a) = Z.of_nat (length (rows q)) * Z.of_nat (length (columns q)).

Lemma format_rows_values rs : map (map original_value) (map (map format_value) rs) = rs.
Proof.
  induction rs as [|row rs IH]; [done|]. cbn [map]. rewrite IH. f_equal.
  induction row as [|v row IHr]; [done|]. cbn [map]. by rewrite IHr, original_format.
Qed.
Lemma format_rows_render rs :
  Forall (Forall (fun f => (formatted_value f, detected_type f) = render (original_value f))) (map (map format_value) rs).
Proof.
  apply Forall_map, Forall_forall. intros row _. apply Forall_map, Forall_forall. intros v _.
  by rewrite format_value_render, original_format.
Qed.

Lemma format_success x q w :
  exec_status x = SUCCESS -> query_result x = Some q -> Forall (fun row => length row = length (columns q)) (rows q) ->
  (forall e, parse_one (executed_sql x) (SQLGLOT_DIALECTS (es_dialect (exec_statistics x))) = Raise e -> is_SqlglotError e = true) ->
  exists a b w', format x w = (Ret a, w') /\ aggregated x = Ret b /\ answers x q b a.
Proof.
  intros Hs Hq Hrows Hparse. destruct (aggregated_Ret x Hparse) as [b Hb]. unfold ResultFormatter.format. rewrite Hs, Hq, bind_perf_counter.
  pose proof (format_rows_spec (length (columns q)) (rows q)) as Hf. unfold format_table.
  destruct (format_rows _ _) as [e|l]; cbn [obind].
  { destruct Hf as (bf & row & af & E & Hne & _). exfalso. rewrite E in Hrows. apply Forall_app in Hrows as [_ Hr].
    apply Forall_cons in Hr as [Hr _]. done. }
  destruct Hf as [-> _]. set (t := {| table_columns := columns q; table_rows := map (map format_value) (rows q) |}).
  rewrite (bind_ret_eq (lift (Ret t)) _ _ t _ eq_refl). rewrite (determine_spec x t b Hb).
  rewrite (bind_ret_eq (lift (Ret _)) _ _ _ _ eq_refl).
  rewrite (bind_ret_eq _ _ _ _ _ (elapsed_ms_eq _ _)). eexists _, b, _. split; [reflexivity|]. split; [done|].
  unfold answers. cbn [answer_execution formatted_table table_columns table_rows answer_type summary answer_statistics].
  unfold generate. destruct (summary_text _ _ _) as [ti de]. cbn [summary_row_count summary_column_count].
  subst t. cbn [table_rows table_columns build_statistics values_formatted]. rewrite !length_map.
  split_and!; [done|done|apply format_rows_values|apply format_rows_render|done|done|done|].
  rewrite map_map, (map_ext _ length) by (intros; by rewrite length_map). rewrite (list_sum_const _ _ Hrows). apply Nat2Z.inj_mul.
Qed.

(** C27. [ResultFormatterEngine.format] on every input: an execution that did not succeed is refused
    with [FormattingError]; a successful one whose rows are as wide as its columns is answered,
    with the driver's values in place and rendered, the right counts, and the kind the first
    applicable rule gives (no rows, one value, aggregated SQL, one row, anything else). *)
Theorem format_spec x w :
  (exec_status x <> SUCCESS \/ query_result x = None -> exists m, format x w = (Raise (FormattingError m), w)) /\
  (forall q, exec_status x = SUCCESS -> query_result x = Some q ->
   Forall (fun row => length row = length (columns q)) (rows q) ->
   (forall e, parse_one (executed_sql x) (SQLGLOT_DIALECTS (es_dialect (exec_statistics x))) = Raise e -> is_SqlglotError e = true) ->
   exists a b w', format x w = (Ret a, w') /\ aggregated x = Ret b /\ answers x q b a).
Proof.
  split; [|intros q; apply format_success]. intros Hx. unfold ResultFormatter.format, throw.
  destruct (exec_status x), (query_result x) as [q|]; try (by eexists). by destruct Hx.
Qed.

(** The driver gives one value per column. *)
Definition rectangular (db : Database W pyval) : Prop :=
  forall c s t w r w' l, run_sql db c s t w = (Ret r, w') -> fetchall r = Ret l -> Forall (fun row => length row = length (keys r)) l.

(** C26. Execution and formatting fit: whatever the execution engine returns as a success, from a driver
    whose rows have one value per column, and with a sqlglot that fails only with its own
    [SqlglotError]s, the formatter answers; no exception reaches the pipeline from its last
    stage. *)
Theorem executed_is_answered (db : Database W pyval) show_float check g v w r w1 w2 :
  rectangular db -> (forall s d e, parse_one s d = Raise e -> is_SqlglotError e = true) ->
  execute db show_float check g v w = (Ret r, w1) -> exec_status r = SUCCESS ->
  exists q a b w3, query_result r = Some q /\ format r w2 = (Ret a, w3) /\ answers r q b a.
Proof.
  intros Hrect Hparse Hrun Hs. destruct (execute_facts db show_float check g v w r w1 Hrun) as (Hq & _ & _ & _ & Hfacts).
  destruct (query_result r) as [q|] eqn:Eq; [|by apply Hq in Hs]. clear Hq.
  destruct (Hfacts q eq_refl) as (p & c & raw & wa & wb & _ & Hex & Hrows & Hcols & _).
  assert (Hr : Forall (fun row => length row = length (columns q)) (rows q)).
  { rewrite Hrows, <- (length_map qcol_name (columns q)), Hcols. unfold executor_execute in Hex. rewrite bind_perf_counter in Hex.
    apply bind_Ret_inv in Hex as (res & wc & Hres & Hex). apply bind_Ret_inv in Hex as (l & wd & Hl & Hex).
    rewrite (bind_ret_eq _ _ _ _ _ (elapsed_ms_eq _ _)) in Hex. unfold ret in Hex. injection Hex as <- _. cbn [raw_rows column_names].
    unfold lift in Hl. injection Hl as Hl _. unfold try_except in Hres.
    destruct (run_sql db c _ _ _) as [[e|res'] we] eqn:Er; [by repeat case_match|]. injection Hres as -> _.
    destruct (fetchall res) as [e|l'] eqn:Ef; [revert Hl; destruct (is_SQLAlchemyError db e); discriminate|]. injection Hl as ->.
    exact (Hrect _ _ _ _ _ _ _ Er Ef). }
  destruct (format_success r q w2 Hs Eq Hr (fun e => Hparse _ _ e)) as (a & b & w3 & E & _ & Ha). by exists q, a, b, w3.
Qed.
End Properties.

(** ** Witnesses *)
Module FormatDemo.
Definition cursor : CursorResult pyval :=
  {| keys := ["id"; "name"]; description := Some [Some 23; Some 25]; fetchall := Ret [[PV_int 7; PV_str "NULL"]; [PV_int 8; PV_none]] |}.
Definition database : Database ExecDemo.DbWorld pyval :=
  {| conn := unit; connect := ret tt; set_readonly := fun c => ret c; run_sql := fun _ _ _ => ret cursor;
     close := fun _ => ret tt; db_name := "querymind"; is_SQLAlchemyError := fun _ => false |}.
Definition check (g : GeneratedSQL) (v : SQLValidationResult) : outcome exn ExecutionPermit :=
  Ret {| permit_sql := sql g; timeout_seconds := 30 |}.
Definition parse_one (s d : string) : outcome exn (option Validation.Demo.tree) := Ret None.
Definition g : GeneratedSQL := Repair.Demo.generated "SELECT id, name FROM t".
Definition v : SQLValidationResult := Repair.Demo.result_of g [].
Definition world : ExecDemo.DbWorld := {| ExecDemo.open_conns := 0; ExecDemo.sent := [] |}.
Definition run : outcome exn (SQLExecutionResult pyval) * ExecDemo.DbWorld := execute database (fun _ => "30.0") check g v world.
Definition result : option (SQLExecutionResult pyval) := ret_value (fst run).
End FormatDemo.

Lemma executed_is_answered_witness :
  exists r q a b w3, fst FormatDemo.run = Ret r /\ query_result r = Some q /\
    format FormatDemo.parse_one (fun _ => true) r FormatDemo.world = (Ret a, w3) /\ answers r q b a.
Proof.
  destruct FormatDemo.run as [[e|r] w1] eqn:E; [vm_compute in E; discriminate E|]. exists r. cbn [fst].
  destruct (executed_is_answered FormatDemo.parse_one (fun _ => true) FormatDemo.database (fun _ => "30.0") FormatDemo.check
    FormatDemo.g FormatDemo.v FormatDemo.world r w1 FormatDemo.world) as (q & a & b & w3 & Hq & Hf & Ha).
  - intros c s t w x w' l Hr Hl. cbn in Hr. injection Hr as <- _. cbn in Hl. injection Hl as <-. repeat constructor.
  - discriminate.
  - exact E.
  - vm_compute in E. injection E as <- _. reflexivity.
  - exists q, a, b, w3. split; [reflexivity|]. split; [exact Hq|]. split; [exact Hf|exact Ha].
Defined.
Lemma format_spec_witness :
  exists x a w', FormatDemo.result = Some x /\ format FormatDemo.parse_one (fun _ => true) x FormatDemo.world = (Ret a, w') /\
    map (map original_value) (table_rows (formatted_table a)) = [[PV_int 7; PV_str "NULL"]; [PV_int 8; PV_none]].
Proof.
  destruct FormatDemo.result as [x|] eqn:E; [|vm_compute in E; discriminate E]. vm_compute in E. injection E as <-.
  match goal with |- exists y a w', Some ?x = Some y /\ _ =>
    destruct (proj2 (format_spec FormatDemo.parse_one (fun _ => true) x FormatDemo.world) _ eq_refl eq_refl) as (a & b & w' & Hf & _ & Ha);
    [repeat constructor|discriminate|exists x, a, w'] end.
  split; [reflexivity|]. split; [exact Hf|]. destruct Ha as (_ & _ & Hv & _). exact Hv.
Defined.
