(* ===== verification/Nlu.v ===== *)
(** * The natural language engine ([querymind.nlu])

    Normalization, vocabulary matching, and the extractors of intents, entities, metrics,
    filters, sorts and limits, composed by [QueryParser.parse]. Regular expressions are
    those of the source, run by the matcher of [Regex]; time expressions are in [NluTime]. *)
From S2P Require Import Prelude PyFloat PyStr Models ContextModels Regex NluTime.
From Stdlib Require Import Ascii.
#[local] Open Scope string_scope.
#[local] Open Scope Z_scope.

(** ** [exceptions.py] *)
Definition EmptyQuestionError : exn := OtherException "EmptyQuestionError" "question must not be empty".
Definition ValidationError (msg : string) : exn := OtherException "ValidationError" msg.

(** ** [normalizer.py] *)
Definition CONTRACTIONS : list (string * string) :=
  [("what's", "what is"); ("who's", "who is"); ("how's", "how is"); ("where's", "where is"); ("let's", "let us");
   ("don't", "do not"); ("doesn't", "does not"); ("didn't", "did not"); ("isn't", "is not"); ("aren't", "are not");
   ("wasn't", "was not"); ("weren't", "were not"); ("can't", "cannot"); ("won't", "will not"); ("i'm", "i am");
   ("it's", "it is"); ("there's", "there is")].
Definition in_class (s : string) : re := One (fun c => contains (String c "") s).
Definition WHITESPACE_PATTERN : re := Spaces.
Definition TRAILING_PUNCTUATION_PATTERN : re := Seq (Plus (in_class "?!.")) AtEnd.
Fixpoint expand_contractions (contractions : list (string * string)) (t : string) : string :=
  match contractions with
  | [] => t
  | (contraction, expansion) :: rest => expand_contractions rest (sub (Word contraction) expansion t)
  end.
Definition normalize (question : string) : string :=
  let t := lower (strip question) in
  let t := sub TRAILING_PUNCTUATION_PATTERN "" t in
  let t := expand_contractions CONTRACTIONS t in
  let t := sub WHITESPACE_PATTERN " " t in
  strip t.

(** ** [entities.py] *)
Definition ENTITY_SYNONYMS : list (string * string) :=
  [("customers", "customer"); ("customer", "customer"); ("clients", "customer"); ("client", "customer");
   ("buyers", "customer"); ("buyer", "customer"); ("shoppers", "customer"); ("shopper", "customer");
   ("order items", "order_item"); ("order item", "order_item"); ("line items", "order_item");
   ("line item", "order_item"); ("orders", "order"); ("order", "order"); ("purchases", "order");
   ("purchase", "order"); ("product categories", "category"); ("product category", "category");
   ("categories", "category"); ("category", "category"); ("products", "product"); ("product", "product");
   ("items", "product"); ("item", "product"); ("skus", "product"); ("sku", "product"); ("suppliers", "supplier");
   ("supplier", "supplier"); ("vendors", "supplier"); ("vendor", "supplier"); ("warehouses", "warehouse");
   ("warehouse", "warehouse"); ("payments", "payment"); ("payment", "payment"); ("transactions", "payment");
   ("transaction", "payment"); ("shipments", "shipment"); ("shipment", "shipment"); ("deliveries", "shipment");
   ("delivery", "shipment"); ("reviews", "review"); ("review", "review"); ("ratings", "review");
   ("rating", "review"); ("returns", "return"); ("return", "return"); ("refunds", "return"); ("refund", "return");
   ("promotions", "promotion"); ("promotion", "promotion"); ("promo codes", "promotion");
   ("promo code", "promotion"); ("inventory", "inventory"); ("stock", "inventory")].
Definition DIMENSION_SYNONYMS : list (string * string) :=
  [("regions", "region"); ("region", "region"); ("countries", "country"); ("country", "country");
   ("states", "state"); ("state", "state"); ("cities", "city"); ("city", "city");
   ("customer segment", "customer_segment"); ("customer segments", "customer_segment");
   ("segments", "customer_segment"); ("segment", "customer_segment"); ("sales channel", "sales_channel");
   ("sales channels", "sales_channel"); ("channels", "sales_channel"); ("channel", "sales_channel");
   ("order status", "order_status"); ("status", "order_status"); ("payment method", "payment_method");
   ("payment methods", "payment_method"); ("carriers", "carrier"); ("carrier", "carrier"); ("gender", "gender");
   ("product name", "product_name")].

Definition overlaps (span claim : nat * nat) : bool := (fst span <? snd claim)%nat && (fst claim <? snd span)%nat.
Definition span_of (m : Match) : nat * nat := (m_start m, m_end m).
(** The first match of the phrase that no claimed span overlaps. *)
Definition first_free (claimed : list (nat * nat)) (ms : list Match) : option Match :=
  List.find (fun m => negb (existsb (overlaps (span_of m)) claimed)) ms.
(** [found] is the dictionary in insertion order: name, position, matched text. *)
Fixpoint scan_vocabulary (text : string) (phrases : list (string * string)) (claimed : list (nat * nat))
    (found : list (string * nat * string)) : list (string * nat * string) :=
  match phrases with
  | [] => found
  | (phrase, canonical) :: rest =>
      if existsb (String.eqb canonical) (map (fun x => fst (fst x)) found) then scan_vocabulary text rest claimed found
      else match first_free claimed (finditer (Word phrase) text) with
           | None => scan_vocabulary text rest claimed found
           | Some m => scan_vocabulary text rest (claimed ++ [span_of m])%list
                         (found ++ [(canonical, m_start m, m_text m)])%list
           end
  end.
Definition position_of (x : string * nat * string) : nat := snd (fst x).
Definition find_vocabulary_matches (text : string) (vocabulary : list (string * string)) : list (string * nat * string) :=
  sorted_by Nat.ltb position_of (scan_vocabulary text (longest_first vocabulary) [] []).
Definition names_of (l : list (string * nat * string)) : list string := map (fun x => fst (fst x)) l.

Record EntityExtractionResult := { er_primary : option string; er_secondary : list string; er_dimensions : list string }.
Definition extract_entities (q : string) : EntityExtractionResult :=
  let entities := names_of (find_vocabulary_matches q ENTITY_SYNONYMS) in
  {| er_primary := head entities; er_secondary := tail entities;
     er_dimensions := names_of (find_vocabulary_matches q DIMENSION_SYNONYMS) |}.

(** ** [metrics.py] *)
Definition METRIC_SYNONYMS : list (string * string) :=
  [("total sales", "revenue"); ("gross merchandise value", "revenue"); ("revenue", "revenue");
   ("sales", "revenue"); ("gmv", "revenue"); ("profit", "profit"); ("margin", "profit");
   ("average order value", "average_order_value"); ("aov", "average_order_value"); ("order value", "order_value");
   ("order count", "order_count"); ("number of orders", "order_count"); ("quantity sold", "quantity");
   ("units sold", "quantity"); ("quantity", "quantity"); ("unit price", "price"); ("price", "price");
   ("cost price", "cost"); ("cost", "cost"); ("discount amount", "discount_amount");
   ("discount", "discount_amount"); ("tax amount", "tax_amount"); ("tax", "tax_amount");
   ("shipping cost", "shipping_amount"); ("shipping fee", "shipping_amount"); ("return rate", "return_rate");
   ("average rating", "review_rating"); ("review rating", "review_rating"); ("rating", "review_rating");
   ("inventory level", "inventory_level"); ("stock level", "inventory_level");
   ("quantity on hand", "inventory_level"); ("lead time", "lead_time")].
Definition AGGREGATION_KEYWORDS : list (string * AggregationType) :=
  [("sum of", AGG_SUM); ("total", AGG_SUM); ("sum", AGG_SUM); ("average", AGG_AVERAGE); ("avg", AGG_AVERAGE);
   ("mean", AGG_AVERAGE); ("count of", AGG_COUNT); ("number of", AGG_COUNT); ("how many", AGG_COUNT);
   ("count", AGG_COUNT); ("minimum", AGG_MIN); ("lowest", AGG_MIN); ("smallest", AGG_MIN); ("cheapest", AGG_MIN);
   ("min", AGG_MIN); ("maximum", AGG_MAX); ("highest", AGG_MAX); ("largest", AGG_MAX); ("max", AGG_MAX)].
Definition AGGREGATION_WINDOW : nat := 20.
Definition find_aggregation_before (text : string) (position : nat) : option AggregationType :=
  let window_start := (position - AGGREGATION_WINDOW)%nat in
  let window := take_str (position - window_start) (drop_str window_start text) in
  snd <$> fold_left (fun best kv =>
    match search (Word (fst kv)) window with
    | None => best
    | Some m => match best with
                | None => Some (m_start m, snd kv)
                | Some b => if (fst b <? m_start m)%nat then Some (m_start m, snd kv) else best
                end
    end) AGGREGATION_KEYWORDS (None : option (nat * AggregationType)).
Definition extract_metrics (q : string) : list MetricExpression :=
  map (fun '(canonical, position, raw_text) =>
         {| me_name := canonical; me_aggregation := find_aggregation_before q position; me_raw_text := raw_text |})
      (find_vocabulary_matches q METRIC_SYNONYMS).

(** ** [intents.py] *)
Definition NumberedWord (w : string) : re := Cat [Boundary; Lit w; Spaces; Plus Digit; Boundary].
Definition NotAt (w : string) : re := Seq (NotBehind (String.list_ascii_of_string "at ")) (Word w).
Definition RULES : list (Intent * list re * Q) :=
  [(I_TOP_N, map NumberedWord ["top"; "bottom"; "first"; "best"; "worst"], lit 95 100);
   (I_TREND, map Word ["trend"; "trending"; "over time"; "month over month"; "year over year"; "growth"; "change over"],
    lit 9 10);
   (I_COMPARISON, [Word "compare"; Word "comparison"; Word "versus"; Cat [Boundary; Lit "vs"; Opt (Lit "."); Boundary];
                   Word "difference between"], lit 9 10);
   (I_COUNT, map Word ["how many"; "count of"; "number of"; "count"], lit 9 10);
   (I_AVERAGE, map Word ["average"; "avg"; "mean"], lit 9 10);
   (I_SUM, map Word ["total"; "sum of"; "sum"], lit 85 100);
   (I_MAX, map Word ["maximum"; "highest"; "most expensive"; "largest"] ++ [NotAt "most"], lit 85 100);
   (I_MIN, map Word ["minimum"; "lowest"; "cheapest"; "smallest"] ++ [NotAt "least"], lit 85 100);
   (I_AGGREGATION, map Word ["by region"; "by category"; "by month"; "by year"; "broken down"]
                   ++ [Cat [Boundary; Lit "group"; Opt (Lit "ed"); Lit " by"; Boundary]; Word "per"], lit 75 100);
   (I_DETAIL, map Word ["show me"; "show"; "list"] ++ [Cat [Boundary; Lit "detail"; Opt (Lit "s"); Lit " of"; Boundary]]
              ++ map Word ["who is"; "what is"; "which"], lit 6 10)]%list.
Fixpoint classify_with (rules : list (Intent * list re * Q)) (q : string) : Intent * Q :=
  match rules with
  | [] => (I_SELECT, lit 4 10)
  | (intent, patterns, confidence) :: rest =>
      if existsb (fun p => found p q) patterns then (intent, confidence) else classify_with rest q
  end.
Definition classify (q : string) : Intent * Q := classify_with RULES q.

(** ** [filters.py] *)
Definition Letters : re := Plus (One is_lower).
Definition FIELD : re := Seq (UpTo true 2 (Seq Letters Spaces)) Letters.
Definition NUMBER : re :=
  Cat [Opt (Lit "$"); Digit; Star true (One (fun c => is_digit c || Ascii.eqb c ","));
       Opt (Seq (Lit ".") (Plus Digit))].
Definition WORDS : re := Seq Letters (UpTo true 3 (Seq (One is_space) Letters)).
Definition comparator (phrases : list string) (value : re) : re :=
  Cat [Cap 1 FIELD; Spaces; Choice (map Lit phrases); Spaces; Cap 2 value].
Definition COMPARATOR_PATTERNS : list (re * ComparisonOperator) :=
  [(comparator ["at least"] NUMBER, GREATER_THAN_OR_EQUAL);
   (comparator ["at most"] NUMBER, LESS_THAN_OR_EQUAL);
   (comparator ["greater than or equal to"] NUMBER, GREATER_THAN_OR_EQUAL);
   (comparator ["less than or equal to"] NUMBER, LESS_THAN_OR_EQUAL);
   (comparator ["greater than"; "more than"; "above"; "over"] NUMBER, GREATER_THAN);
   (comparator ["less than"; "fewer than"; "under"; "below"] NUMBER, LESS_THAN);
   (comparator ["not equal to"; "not equals"; "excluding"; "except"] (Alt WORDS NUMBER), NOT_EQUALS);
   (comparator ["equal to"; "equals"] (Alt WORDS NUMBER), EQUALS);
   (comparator ["containing"; "contains"; "like"; "named"] WORDS, CONTAINS);
   (comparator ["in"] WORDS, IN)].
(** [{**ENTITY_SYNONYMS, **DIMENSION_SYNONYMS, **METRIC_SYNONYMS}]: the last one wins. *)
Definition known_field (phrase : string) : option string :=
  match alist_get phrase METRIC_SYNONYMS with
  | Some f => Some f
  | None => match alist_get phrase DIMENSION_SYNONYMS with
            | Some f => Some f
            | None => alist_get phrase ENTITY_SYNONYMS
            end
  end.
Fixpoint resolve_words (words : list string) : option string :=
  match words with
  | [] => None
  | _ :: rest => match known_field (join " " words) with Some f => Some f | None => resolve_words rest end
  end.
Definition resolve_field (candidate : string) : option string := resolve_words (split_ws (strip candidate)).
Definition rstrip_chars (chars : string) (s : string) : string := rstrip_by (fun c => contains (String c "") chars) s.

(** One match of one pattern: a filter, unless its span is claimed, its field unknown or its
    value empty. *)
Definition filter_of (operator : ComparisonOperator) (claimed : list (nat * nat)) (m : Match) : option FilterExpression :=
  if existsb (overlaps (span_of m)) claimed then None else
  field ← resolve_field (default "" (group m 1));
  let value := rstrip_chars ".,?!" (strip (default "" (group m 2))) in
  if is_empty value then None
  else Some {| fe_field := field; fe_operator := operator; fe_value := value; fe_raw_text := strip (m_text m) |}.
Definition filter_step (operator : ComparisonOperator) (s : list (nat * nat) * list (nat * FilterExpression)) (m : Match)
  : list (nat * nat) * list (nat * FilterExpression) :=
  match filter_of operator (fst s) m with
  | None => s
  | Some f => (fst s ++ [span_of m], snd s ++ [(m_start m, f)])%list
  end.
Definition scan_filters (q : string) (s : list (nat * nat) * list (nat * FilterExpression)) (patterns : list (re * ComparisonOperator))
  : list (nat * nat) * list (nat * FilterExpression) :=
  fold_left (fun s p => fold_left (filter_step (snd p)) (finditer (fst p) q) s) patterns s.
Definition extract_filters (q : string) : list FilterExpression :=
  map snd (sorted_by Nat.ltb fst (snd (scan_filters q ([], []) COMPARATOR_PATTERNS))).

(** ** [sorting.py] *)
Definition EXPLICIT_PATTERN : re :=
  Cat [Alt (Seq (Lit "sort") (Opt (Lit "ed"))) (Seq (Lit "order") (Opt (Lit "ed"))); Spaces; Lit "by"; Spaces;
       Cap 1 (Seq Letters (UpTo false 3 (Seq (One is_space) Letters)));
       Opt (Seq Spaces (Cap 2 (Choice (map Lit ["ascending"; "asc"; "descending"; "desc"])))); Boundary].
Definition SUPERLATIVE_PHRASES : list (string * SortDirection) :=
  [("highest", DESCENDING); ("most", DESCENDING); ("largest", DESCENDING); ("greatest", DESCENDING);
   ("top", DESCENDING); ("best", DESCENDING); ("lowest", ASCENDING); ("least", ASCENDING); ("smallest", ASCENDING);
   ("cheapest", ASCENDING); ("bottom", ASCENDING); ("worst", ASCENDING)].
Definition superlative_re (phrase : string) : re :=
  if existsb (String.eqb phrase) ["most"; "least"] then NotAt phrase else Word phrase.
Fixpoint extract_superlative (q field : string) (phrases : list (string * SortDirection)) : option SortExpression :=
  match phrases with
  | [] => None
  | (phrase, direction) :: rest =>
      match search (superlative_re phrase) q with
      | Some m => Some {| se_field := field; se_direction := direction; se_raw_text := m_text m |}
      | None => extract_superlative q field rest
      end
  end.
Definition explicit_sort (q : string) (metrics : list MetricExpression) : option SortExpression :=
  m ← search EXPLICIT_PATTERN q;
  let direction := match group m 2 with
                   | Some d => if existsb (String.eqb d) ["asc"; "ascending"] then ASCENDING else DESCENDING
                   | None => DESCENDING
                   end in
  field ← match resolve_field (default "" (group m 1)) with
          | Some f => Some f
          | None => me_name <$> head metrics
          end;
  Some {| se_field := field; se_direction := direction; se_raw_text := m_text m |}.
Definition extract_sort (q : string) (metrics : list MetricExpression) : option SortExpression :=
  match explicit_sort q metrics with
  | Some s => Some s
  | None => match metrics with
            | [] => None
            | m :: _ => extract_superlative q (me_name m) (longest_first SUPERLATIVE_PHRASES)
            end
  end.

(** ** [limits.py] *)
Definition LIMIT_PATTERN : re :=
  Cat [Boundary; Choice (map Lit ["top"; "first"; "bottom"; "last"; "limit"]); Spaces; Cap 1 (Plus Digit); Boundary].
(** [int] refuses more than 4300 digits; [LimitExpression.value] must be positive. *)
Definition extract_limit (q : string) : outcome exn (option LimitExpression) :=
  match search LIMIT_PATTERN q with
  | None => Ret None
  | Some m =>
      let digits := default "" (group m 1) in
      if (4300 <? String.length digits)%nat then Raise (ValueError "Exceeds the limit (4300 digits) for integer string conversion")
      else let value := default 0 (py_int digits) in
           if value <=? 0 then Raise (ValidationError "value: Input should be greater than 0")
           else Ret (Some {| le_value := value; le_raw_text := m_text m |})
  end.

(** ** [parser.py] *)
Definition INTENT_AGGREGATION (i : Intent) : option AggregationType :=
  match i with
  | I_COUNT => Some AGG_COUNT | I_SUM => Some AGG_SUM | I_AVERAGE => Some AGG_AVERAGE
  | I_MIN => Some AGG_MIN | I_MAX => Some AGG_MAX | _ => None
  end.
Definition resolve_aggregation (intent : Intent) (metrics : list MetricExpression) : option AggregationType :=
  match INTENT_AGGREGATION intent with
  | Some a => Some a
  | None =>
      if bool_decide (intent = I_AGGREGATION)
      then match omap me_aggregation metrics with
           | a :: _ => Some a
           | [] => match metrics with [] => None | _ => Some AGG_SUM end
           end
      else None
  end.
Definition collect_business_concepts (e : EntityExtractionResult) (metrics : list MetricExpression)
    (filters : list FilterExpression) : list string :=
  dedup (match er_primary e with Some p => [p] | None => [] end ++ er_secondary e ++ er_dimensions e
         ++ map me_name metrics ++ map fe_field filters)%list.
Definition bonus (b : bool) (x : Q) (score : Q) : Q := if b then fadd score x else score.
Definition compute_confidence (intent_confidence : Q) (has_entity has_metric has_filter has_time : bool) : Q :=
  let score := bonus has_entity (lit 5 100) intent_confidence in
  let score := bonus has_metric (lit 5 100) score in
  let score := bonus has_filter (lit 3 100) score in
  let score := bonus has_time (lit 2 100) score in
  round4 (fmin score 1).

Definition parse (today : PyDate) (question : string) : outcome exn QueryContext :=
  if is_empty (strip question) then Raise EmptyQuestionError else
  let normalized := normalize question in
  let '(intent, intent_confidence) := classify normalized in
  let entity_result := extract_entities normalized in
  let metrics := extract_metrics normalized in
  let filters := extract_filters normalized in
  obind (extract_time today normalized) (fun time_expression =>
  let sort := extract_sort normalized metrics in
  obind (extract_limit normalized) (fun limit =>
  Ret {| original_question := question; normalized_question := normalized; ContextModels.intent := intent;
         qc_primary_entity := er_primary entity_result; qc_secondary_entities := er_secondary entity_result;
         business_concepts := collect_business_concepts entity_result metrics filters; qc_metrics := metrics;
         qc_dimensions := er_dimensions entity_result; qc_filters := filters; time_expression := time_expression;
         qc_sort := sort; limit := limit; aggregation := resolve_aggregation intent metrics;
         confidence := compute_confidence intent_confidence (is_some (er_primary entity_result))
           (non_empty metrics) (non_empty filters) (is_some time_expression) |})).

(** ** Lemmas: vocabulary matching *)
(** The span of a found phrase. *)
Definition found_span (x : string * nat * string) : nat * nat := (position_of x, (position_of x + String.length (snd x))%nat).
Lemma overlaps_sym a b : overlaps a b = overlaps b a.
Proof. unfold overlaps. apply andb_comm. Qed.

(** Between two phrases: what has been found so far, with the phrases tried in [tried]. *)
Record vocab_inv (text : string) (tried : list (string * string)) (claimed : list (nat * nat))
    (found : list (string * nat * string)) : Prop := {
  vi_claimed : claimed = map found_span found;
  vi_names : NoDup (names_of found);
  vi_phrases : forall c i m, (c, i, m) ∈ found -> (m, c) ∈ tried /\ occurs_at text m i;
  vi_disjoint : forall x y, x ∈ found -> y ∈ found -> x <> y -> overlaps (found_span x) (found_span y) = false;
  vi_maximal : forall p c mt, (p, c) ∈ tried -> mt ∈ finditer (Word p) text ->
    c ∈ names_of found \/ exists x, x ∈ found /\ overlaps (span_of mt) (found_span x) = true /\
                                    (String.length p <= String.length (snd x))%nat }.

Lemma existsb_name c found : existsb (String.eqb c) (map (fun x => fst (fst x)) found) = true <-> c ∈ names_of found.
Proof.
  rewrite existsb_exists. setoid_rewrite <- list_elem_of_In. fold (names_of found).
  split; [by intros (x & Hx & ->%String.eqb_eq)|intros; exists c; by rewrite String.eqb_refl].
Qed.
Lemma first_free_spec claimed ms :
  match first_free claimed ms with
  | Some m => m ∈ ms /\ forall s, s ∈ claimed -> overlaps (span_of m) s = false
  | None => forall m, m ∈ ms -> exists s, s ∈ claimed /\ overlaps (span_of m) s = true
  end.
Proof.
  unfold first_free. destruct (List.find _ ms) as [m|] eqn:E.
  - apply List.find_some in E as [H1 H2]. split; [by apply list_elem_of_In|]. intros s Hs.
    apply negb_true_iff, not_true_iff_false in H2. apply not_true_iff_false. intros Ho. apply H2, existsb_exists.
    exists s. split; [by apply list_elem_of_In|done].
  - intros m Hm. apply list_elem_of_In in Hm. apply (List.find_none _ _ E) in Hm. apply negb_false_iff, existsb_exists in Hm as (s & Hs & Ho).
    exists s. split; [by apply list_elem_of_In|done].
Qed.

Lemma vocab_step text tried p c claimed found :
  vocab_inv text tried claimed found -> (forall x, x ∈ found -> (String.length p <= String.length (snd x))%nat) ->
  let '(claimed', found') :=
    if existsb (String.eqb c) (map (fun x => fst (fst x)) found) then (claimed, found)
    else match first_free claimed (finditer (Word p) text) with
         | None => (claimed, found)
         | Some m => ((claimed ++ [span_of m])%list, (found ++ [(c, m_start m, m_text m)])%list)
         end in
  vocab_inv text (tried ++ [(p, c)]) claimed' found' /\
  (forall x, x ∈ found' -> x ∈ found \/ snd x = p).
Proof.
  intros [H1 H2 H3 H4 H5] Hlen. destruct (existsb _ _) eqn:En.
  { apply existsb_name in En. split; [split; try done|by left].
    - intros c' i m Hx. destruct (H3 c' i m Hx). split; [set_solver|done].
    - intros p' c' mt [?|[= -> ->]%list_elem_of_singleton]%elem_of_app Hmt; [by eapply H5|by left]. }
  apply not_true_iff_false in En. rewrite existsb_name in En.
  pose proof (first_free_spec claimed (finditer (Word p) text)) as Hf. destruct (first_free _ _) as [m|].
  - destruct Hf as [Hm Hfree]. apply word_occurs in Hm as (Ht & He & Ho).
    assert (Hspan : found_span (c, m_start m, m_text m) = span_of m).
    { unfold found_span, span_of, position_of. simpl. by rewrite Ht, He. }
    split; [split|].
    + rewrite map_app, H1. simpl. by rewrite Hspan.
    + unfold names_of. rewrite map_app. apply NoDup_app. split_and!; [done| |apply NoDup_singleton].
      intros x Hx ->%list_elem_of_singleton. done.
    + intros c' i' m' [Hx|[= -> -> ->]%list_elem_of_singleton]%elem_of_app.
      * destruct (H3 c' i' m' Hx). split; [set_solver|done].
      * rewrite Ht. split; [set_solver|done].
    + intros x y [Hx|Hx]%elem_of_app [Hy|Hy]%elem_of_app Hne.
      * by apply H4.
      * apply list_elem_of_singleton in Hy as ->. rewrite Hspan, overlaps_sym. apply Hfree. rewrite H1. by apply list_elem_of_fmap_2.
      * apply list_elem_of_singleton in Hx as ->. rewrite Hspan. apply Hfree. rewrite H1. by apply list_elem_of_fmap_2.
      * apply list_elem_of_singleton in Hx as ->, Hy as ->. done.
    + intros p' c' mt [Hp|[= -> ->]%list_elem_of_singleton]%elem_of_app Hmt.
      * destruct (H5 p' c' mt Hp Hmt) as [?|(x & ? & ? & ?)]; [left; unfold names_of; rewrite map_app; set_solver|right; exists x; set_solver].
      * left. unfold names_of. rewrite map_app. set_solver.
    + intros x [?| ->%list_elem_of_singleton]%elem_of_app; [by left|by right].
  - split; [split; try done|by left].
    + intros c' i m Hx. destruct (H3 c' i m Hx). split; [set_solver|done].
    + intros p' c' mt [?|[= -> ->]%list_elem_of_singleton]%elem_of_app Hmt; [by eapply H5|].
      right. destruct (Hf mt Hmt) as (s & Hs & Ho). rewrite H1 in Hs. apply list_elem_of_fmap in Hs as (x & -> & Hx).
      exists x. auto.
Qed.

(** Longest first: a phrase is tried after every phrase longer than it. *)
Lemma scan_vocabulary_spec text phrases tried claimed found :
  StronglySorted (fun x y : string * string => (String.length (fst y) <= String.length (fst x))%nat) phrases ->
  (forall x q, x ∈ found -> q ∈ phrases -> (String.length (fst q) <= String.length (snd x))%nat) ->
  vocab_inv text tried claimed found ->
  exists claimed', vocab_inv text (tried ++ phrases) claimed' (scan_vocabulary text phrases claimed found).
Proof.
  revert tried claimed found. induction phrases as [|[p c] phrases IH]; intros tried claimed found Hs Hl Hi.
  { rewrite app_nil_r. by exists claimed. }
  apply StronglySorted_inv in Hs as [Hs Hp]. rewrite Forall_forall in Hp.
  pose proof (vocab_step text tried p c claimed found Hi) as Hstep.
  replace (tried ++ (p, c) :: phrases)%list with ((tried ++ [(p, c)]) ++ phrases)%list by (by rewrite <- app_assoc).
  cbn [scan_vocabulary].
  assert (Hgo : forall claimed' found', vocab_inv text (tried ++ [(p, c)]) claimed' found' /\ (forall x, x ∈ found' -> x ∈ found \/ snd x = p) ->
    exists claimed'', vocab_inv text ((tried ++ [(p, c)]) ++ phrases) claimed'' (scan_vocabulary text phrases claimed' found')).
  { intros claimed' found' [Hi' Hx]. apply IH; [done| |done]. intros x q [Hf|He]%Hx Hq; [apply (Hl x q); [done|by right]|].
    rewrite He. by apply (Hp q). }
  specialize (Hstep (fun x Hx => Hl x (p, c) Hx (list_elem_of_here _ _))).
  destruct (existsb _ _); [by apply Hgo|]. destruct (first_free _ _); by apply Hgo.
Qed.
Lemma longest_first_sorted {V} (d : list (string * V)) :
  StronglySorted (fun x y => (String.length (fst y) <= String.length (fst x))%nat) (longest_first d).
Proof.
  unfold longest_first. eapply StronglySorted_weaken; [|apply sorted_by_sorted].
  - intros x y. unfold not_after. rewrite Nat.ltb_ge. done.
  - intros a b. rewrite Nat.ltb_lt, Nat.ltb_ge. lia.
  - intros a b c. rewrite !Nat.ltb_ge. lia.
Qed.
Lemma elem_of_longest_first {V} (d : list (string * V)) x : x ∈ longest_first d <-> x ∈ d.
Proof. apply elem_of_sorted_by. Qed.

Lemma find_vocabulary_spec text vocabulary :
  exists claimed, vocab_inv text (longest_first vocabulary) claimed (scan_vocabulary text (longest_first vocabulary) [] []).
Proof.
  apply (scan_vocabulary_spec text (longest_first vocabulary) [] [] []); [apply longest_first_sorted|by intros x q ?%elem_of_nil|].
  split; try done; try (by intros; match goal with H : _ ∈ [] |- _ => apply elem_of_nil in H end). constructor.
Qed.
Lemma elem_of_matches text vocabulary x :
  x ∈ find_vocabulary_matches text vocabulary <-> x ∈ scan_vocabulary text (longest_first vocabulary) [] [].
Proof. apply elem_of_sorted_by. Qed.
Lemma names_perm text vocabulary :
  names_of (find_vocabulary_matches text vocabulary) ≡ₚ names_of (scan_vocabulary text (longest_first vocabulary) [] []).
Proof. unfold names_of, find_vocabulary_matches. apply Permutation_map, sorted_by_perm. Qed.
Lemma elem_of_names text vocabulary c :
  c ∈ names_of (find_vocabulary_matches text vocabulary) <-> exists i m, (c, i, m) ∈ find_vocabulary_matches text vocabulary.
Proof.
  unfold names_of. rewrite list_elem_of_fmap. split.
  - intros ([[c' i] m] & -> & H). eauto.
  - intros (i & m & H). by exists (c, i, m).
Qed.

(** ** Lemmas: normalization *)
Definition chars (s : string) : list ascii := String.list_ascii_of_string s.
Lemma chars_text l : chars (text_of l) = l.
Proof. apply String.list_ascii_of_string_of_list_ascii. Qed.
Lemma chars_lower s : chars (lower s) = map char_lower (chars s).
Proof. unfold lower. induction s as [|c s IH]; [done|]. simpl. by rewrite IH. Qed.
Lemma lower_not_upper c : is_upper (char_lower c) = false.
Proof. destruct c as [[] [] [] [] [] [] [] []]; reflexivity. Qed.
Lemma chars_strip_suffix s : exists l, chars (lstrip s) = l /\ exists k, chars s = (k ++ l)%list.
Proof.
  eexists. split; [done|]. unfold lstrip. induction s as [|c s IH]; [by exists []|]. simpl.
  destruct (is_space c); [|by exists []]. destruct IH as (k & IH). exists (c :: k). simpl. by rewrite IH.
Qed.
Lemma chars_rstrip_prefix s : exists k, chars s = (chars (rstrip s) ++ k)%list.
Proof.
  unfold rstrip. induction s as [|c s IH]; [by exists []|]. simpl. destruct IH as (k & IH). rewrite IH.
  destruct (rstrip_by is_space s) as [|d r]; [destruct (is_space c); by eexists|]. by exists k.
Qed.
(** [strip] takes a piece of the text. *)
Lemma chars_strip s : exists a b, chars s = (a ++ chars (strip s) ++ b)%list.
Proof.
  destruct (chars_strip_suffix s) as (l & Hl & a & Ha). destruct (chars_rstrip_prefix (lstrip s)) as (b & Hb).
  exists a, b. unfold strip. by rewrite Ha, <- Hl, Hb.
Qed.
Lemma single_app p x a b : single p x (a ++ b)%list = true -> single p x a = true /\ single p x b = true.
Proof.
  induction a as [|c a IH]; simpl; [by split|]. intros [H1 H2]%andb_true_iff. destruct (IH H2) as [Ha Hb]. split; [|done].
  rewrite Ha, andb_true_r. destruct (negb (p c)); [done|]. simpl in *. apply andb_true_iff in H1 as [-> H1].
  destruct a as [|d a]; [done|]. exact H1.
Qed.
Lemma sub_Forall (P : ascii -> Prop) r new t : Forall P (chars t) -> Forall P (chars new) -> Forall P (chars (sub r new t)).
Proof. intros Ht Hn. unfold sub. rewrite chars_text. by apply splice_Forall. Qed.
Lemma strip_Forall (P : ascii -> Prop) s : Forall P (chars s) -> Forall P (chars (strip s)).
Proof. destruct (chars_strip s) as (a & b & ->). rewrite !Forall_app. tauto. Qed.

Definition not_upper (c : ascii) : Prop := is_upper c = false.
Lemma contractions_lower : Forall (fun kv => Forall not_upper (chars (snd kv))) CONTRACTIONS.
Proof. unfold CONTRACTIONS. repeat (constructor; [repeat (constructor; [reflexivity|]); constructor|]). constructor. Qed.
Lemma fold_contractions_Forall l t : Forall (fun kv => Forall not_upper (chars (snd kv))) l ->
  Forall not_upper (chars t) -> Forall not_upper (chars (expand_contractions l t)).
Proof.
  intros Hl. revert t. induction Hl as [|[k v] l Hkv _ IH]; intros t Ht; [done|]. cbn [expand_contractions].
  apply IH. by apply sub_Forall.
Qed.
Lemma blanked_single t : single is_space " " (chars (strip (sub WHITESPACE_PATTERN " " t))) = true.
Proof.
  assert (Hs : single is_space " " (chars (sub (Plus (One is_space)) (String " " "") t)) = true).
  { rewrite sub_collapse, chars_text. apply collapse_single. reflexivity. }
  change (sub WHITESPACE_PATTERN " " t) with (sub (Plus (One is_space)) (String " " "") t). revert Hs.
  generalize (sub (Plus (One is_space)) (String " " "") t). intros u Hu.
  destruct (chars_strip u) as (a & b & Hc). rewrite Hc in Hu. apply single_app in Hu as [_ Hu].
  apply single_app in Hu as [Hu _]. exact Hu.
Qed.
Lemma blanked_lower t : Forall not_upper (chars t) -> Forall not_upper (chars (strip (sub WHITESPACE_PATTERN " " t))).
Proof. intros Ht. apply strip_Forall, sub_Forall; [exact Ht|]. repeat constructor. Qed.
Lemma expanded_lower q :
  Forall not_upper (chars (expand_contractions CONTRACTIONS (sub TRAILING_PUNCTUATION_PATTERN "" (lower q)))).
Proof.
  apply fold_contractions_Forall; [apply contractions_lower|]. apply sub_Forall; [|constructor].
  rewrite chars_lower. apply Forall_forall. intros c (d & -> & _)%list_elem_of_fmap. apply lower_not_upper.
Qed.

(** ** Lemmas: fields and filters *)
Definition FIELD_NAMES : list string := (map snd ENTITY_SYNONYMS ++ map snd DIMENSION_SYNONYMS ++ map snd METRIC_SYNONYMS)%list.
Lemma alist_get_value (d : list (string * string)) k v : alist_get k d = Some v -> v ∈ map snd d.
Proof. intros H. apply alist_get_elem in H. by apply (list_elem_of_fmap_2 snd d (k, v)). Qed.
Lemma known_field_name w f : known_field w = Some f -> f ∈ FIELD_NAMES.
Proof.
  unfold known_field, FIELD_NAMES. rewrite !elem_of_app.
  destruct (alist_get w METRIC_SYNONYMS) eqn:E1; [intros [= <-]; eauto using alist_get_value|].
  destruct (alist_get w DIMENSION_SYNONYMS) eqn:E2; [intros [= <-]; eauto using alist_get_value|].
  intros H. left. by eapply alist_get_value.
Qed.
Lemma resolve_field_name w f : resolve_field w = Some f -> f ∈ FIELD_NAMES.
Proof.
  unfold resolve_field. induction (split_ws (strip w)) as [|x l IH]; [done|]. cbn [resolve_words].
  destruct (known_field _) eqn:E; [intros [= <-]; by eapply known_field_name|done].
Qed.
Lemma vocabulary_name text vocabulary c : c ∈ names_of (find_vocabulary_matches text vocabulary) -> c ∈ map snd vocabulary.
Proof.
  intros (i & m & H)%elem_of_names. apply elem_of_matches in H. destruct (find_vocabulary_spec text vocabulary) as (cl & Hi).
  destruct (vi_phrases _ _ _ _ Hi _ _ _ H) as [Hin _]. apply (elem_of_longest_first vocabulary) in Hin.
  by apply (list_elem_of_fmap_2 snd vocabulary (m, c)).
Qed.

(** A filter with the match it was read from. *)
Definition filter_ok (q : string) (mf : Match * FilterExpression) : Prop :=
  exists r, (r, fe_operator (snd mf)) ∈ COMPARATOR_PATTERNS /\ fst mf ∈ finditer r q /\
    resolve_field (default "" (group (fst mf) 1)) = Some (fe_field (snd mf)) /\
    fe_value (snd mf) = rstrip_chars ".,?!" (strip (default "" (group (fst mf) 2))) /\ fe_value (snd mf) <> "" /\
    fe_raw_text (snd mf) = strip (m_text (fst mf)).
Definition disjoint (a b : Match * FilterExpression) : Prop := overlaps (span_of (fst a)) (span_of (fst b)) = false.
Record filters_inv (q : string) (s : list (nat * nat) * list (nat * FilterExpression)) (ms : list (Match * FilterExpression)) : Prop := {
  fi_claimed : fst s = map (fun mf => span_of (fst mf)) ms;
  fi_found : snd s = map (fun mf => (m_start (fst mf), snd mf)) ms;
  fi_ok : Forall (filter_ok q) ms;
  fi_disjoint : StronglySorted disjoint ms }.
Lemma StronglySorted_snoc {A} (R : A -> A -> Prop) l x :
  StronglySorted R l -> Forall (fun y => R y x) l -> StronglySorted R (l ++ [x])%list.
Proof.
  induction 1 as [|y l Hl IH Hy]; intros Hx; [repeat constructor|]. apply Forall_cons in Hx as [Hyx Hx].
  simpl. constructor; [by apply IH|]. apply Forall_app. split; [done|]. by constructor.
Qed.
Lemma filter_step_inv q r op s ms m : (r, op) ∈ COMPARATOR_PATTERNS -> m ∈ finditer r q -> filters_inv q s ms ->
  exists ms', filters_inv q (filter_step op s m) ms'.
Proof.
  intros Hr Hm [H1 H2 H3 H4]. unfold filter_step, filter_of.
  destruct (existsb (overlaps (span_of m)) (fst s)) eqn:Eo; [by exists ms|].
  destruct (resolve_field _) as [f|] eqn:Ef; [|by exists ms]. cbn [mbind option_bind]. cbv zeta.
  destruct (is_empty _) eqn:Ee; [by exists ms|]. apply is_empty_false in Ee.
  set (fe := {| fe_field := f; fe_operator := op; fe_value := _; fe_raw_text := _ |}).
  exists (ms ++ [(m, fe)])%list. split; cbn [fst snd].
  - by rewrite map_app, H1.
  - by rewrite map_app, H2.
  - apply Forall_app. split; [done|]. constructor; [|constructor]. exists r. by split_and!.
  - apply StronglySorted_snoc; [done|]. apply Forall_forall. intros mf Hmf. unfold disjoint. cbn [fst]. rewrite overlaps_sym.
    apply not_true_iff_false. intros Hov. apply not_true_iff_false in Eo. apply Eo, existsb_exists. exists (span_of (fst mf)).
    split; [|done]. rewrite H1. apply in_map_iff. exists mf. split; [done|by apply list_elem_of_In].
Qed.
Lemma fold_inv {A B C} (I : A -> C -> Prop) (f : A -> B -> A) l a : (exists c, I a c) ->
  (forall a b, b ∈ l -> (exists c, I a c) -> exists c, I (f a b) c) -> exists c, I (fold_left f l a) c.
Proof.
  revert a. induction l as [|b l IH]; intros a Ha Hf; simpl; [done|]. apply IH; [apply Hf; [by left|done]|].
  intros a' b' Hb'. apply Hf. by right.
Qed.
Lemma scan_filters_inv q : exists ms, filters_inv q (scan_filters q ([], []) COMPARATOR_PATTERNS) ms.
Proof.
  unfold scan_filters. apply fold_inv.
  - exists []. split; try done; constructor.
  - intros s [r op] Hr Hs. apply fold_inv; [done|]. intros s' m Hm (ms & Hi). by eapply filter_step_inv.
Qed.

Lemma sorted_by_map {A B K} (ltb : K -> K -> bool) (key : B -> K) (g : A -> B) l :
  sorted_by ltb key (map g l) = map g (sorted_by ltb (fun x => key (g x)) l).
Proof.
  assert (Hi : forall x l, insert_by ltb key (g x) (map g l) = map g (insert_by ltb (fun x => key (g x)) x l)).
  { clear l. intros x l. induction l as [|y l IH]; simpl; [done|]. destruct (ltb _ _); [|done]. simpl. by rewrite IH. }
  induction l as [|x l IH]; [done|]. unfold sorted_by in *. simpl. rewrite IH. apply Hi.
Qed.
Lemma StronglySorted_perm {A} (R : A -> A -> Prop) l l' : (forall x y, R x y -> R y x) -> l ≡ₚ l' ->
  StronglySorted R l -> StronglySorted R l'.
Proof.
  intros Hsym Hp. induction Hp as [|x l l' Hp IH|x y l|l l' l'' _ IH1 _ IH2]; intros Hs; [done| | |auto].
  - apply StronglySorted_inv in Hs as [Hs Hx]. constructor; [auto|]. by rewrite <- Hp.
  - apply StronglySorted_inv in Hs as [Hs Hx]. apply StronglySorted_inv in Hs as [Hs Hy]. apply Forall_cons in Hx as [Hxy Hx].
    constructor; [by constructor|]. constructor; [by apply Hsym|done].
Qed.
Lemma patterns_consume : Forall (fun p => consumes (fst p) = true) COMPARATOR_PATTERNS.
Proof. unfold COMPARATOR_PATTERNS. repeat (constructor; [reflexivity|]). constructor. Qed.
Lemma filter_nonempty q mf : filter_ok q mf -> (m_start (fst mf) < m_end (fst mf))%nat.
Proof.
  intros (r & Hr & Hm & _). apply finditer_spec in Hm as (s & s' & -> & Hm & _).
  pose proof patterns_consume as Hp. rewrite Forall_forall in Hp. specialize (Hp _ Hr). by apply (match_nonempty r).
Qed.
Lemma sorted_disjoint q ms : Forall (filter_ok q) ms ->
  StronglySorted (fun a b => (m_start (fst a) <= m_start (fst b))%nat) ms -> StronglySorted disjoint ms ->
  StronglySorted (fun a b => (m_end (fst a) <= m_start (fst b))%nat) ms.
Proof.
  induction 1 as [|mf ms Hok Hall IH]; intros Hs Hd; [constructor|].
  apply StronglySorted_inv in Hs as [Hs Hx]. apply StronglySorted_inv in Hd as [Hd Hy]. constructor; [by apply IH|].
  rewrite Forall_forall in Hx, Hy, Hall |- *. intros b Hb. specialize (Hx b Hb). specialize (Hy b Hb). specialize (Hall b Hb).
  apply filter_nonempty in Hall. unfold disjoint, overlaps, span_of in Hy. cbn [fst snd] in Hy.
  apply andb_false_iff in Hy as [Hy%Nat.ltb_ge|Hy%Nat.ltb_ge]; lia.
Qed.
Lemma extract_filters_spec q : exists ms, extract_filters q = map snd ms /\ Forall (filter_ok q) ms /\
  StronglySorted (fun a b => (m_end (fst a) <= m_start (fst b))%nat) ms.
Proof.
  destruct (scan_filters_inv q) as (ms & [H1 H2 H3 H4]).
  exists (sorted_by Nat.ltb (fun mf : Match * FilterExpression => m_start (fst mf)) ms).
  pose proof (sorted_by_perm Nat.ltb (fun mf : Match * FilterExpression => m_start (fst mf)) ms) as Hp. split_and!.
  - unfold extract_filters. rewrite H2, sorted_by_map, map_map. apply map_ext. done.
  - by rewrite Hp.
  - eapply sorted_disjoint; [by rewrite Hp| |eapply StronglySorted_perm; [|symmetry; exact Hp|exact H4]].
    + eapply StronglySorted_weaken; [|apply sorted_by_sorted].
      * intros x y. unfold not_after. by rewrite Nat.ltb_ge.
      * intros a b. rewrite Nat.ltb_lt, Nat.ltb_ge. lia.
      * intros a b c. rewrite !Nat.ltb_ge. lia.
    + intros x y. unfold disjoint. by rewrite overlaps_sym.
Qed.

(** ** Lemmas: the parser *)
Lemma extract_relative_Ret today phrases q : valid_pydate today = true -> 2 <= year today <= 9998 ->
  (forall kv, kv ∈ phrases -> exists s e, bounds_for today (snd kv) = Ret (s, e)) ->
  is_ret (extract_relative today phrases q) = true.
Proof.
  intros Hv Hy. induction phrases as [|[phrase period] phrases IH]; intros Hp; [done|]. cbn [extract_relative].
  destruct (search (Word phrase) q); [|apply IH; intros; apply Hp; by right].
  destruct (Hp (phrase, period) (list_elem_of_here _ _)) as (s & e & He). simpl in He. by rewrite He.
Qed.
Lemma extract_time_Ret today q : valid_pydate today = true -> 2 <= year today <= 9998 -> is_ret (extract_time today q) = true.
Proof.
  intros Hv Hy. unfold extract_time. repeat case_match; try done. apply extract_relative_Ret; [done|done|].
  intros [phrase period] Hin. apply (proj1 (elem_of_longest_first _ _)) in Hin. cbn [snd].
  assert (Hp : exists other, (period, other) ∈ PERIODS \/ (other, period) ∈ PERIODS).
  { clear -Hin. unfold RELATIVE_PHRASES in Hin. unfold PERIODS.
    repeat (apply elem_of_cons in Hin as [[= -> ->]|Hin];
      [first [by (eexists; left; repeat first [apply list_elem_of_here|apply list_elem_of_further])
             |by (eexists; right; repeat first [apply list_elem_of_here|apply list_elem_of_further])]|]).
    by apply elem_of_nil in Hin. }
  destruct Hp as (other & [Hp|Hp]); destruct (periods_tile today Hv Hy _ _ Hp) as (s & e & s' & Hb1 & Hb2 & _); eauto.
Qed.

Lemma lit_pos n d : 0 <= n -> (0 <= lit n d)%Q.
Proof. intros Hn. apply fl_nonneg. unfold Qle. simpl. lia. Qed.
Lemma bonus_nonneg b x score : (0 <= x -> 0 <= score -> 0 <= bonus b x score)%Q.
Proof. intros Hx Hs. destruct b; simpl; [by apply fadd_nonneg|done]. Qed.
Lemma compute_confidence_unit c e m f t : (0 <= c -> 0 <= compute_confidence c e m f t <= 1)%Q.
Proof.
  intros Hc. unfold compute_confidence. cbv zeta. set (score := bonus t _ _).
  assert (Hs : (0 <= score)%Q) by (unfold score; auto 10 using bonus_nonneg, lit_pos with zarith).
  assert (H0 : (0 <= fmin score 1)%Q) by (apply fmin_glb; [done|by apply Qle_bool_iff]).
  split.
  - apply (Qle_trans _ (round4 0)); [by apply Qle_bool_iff; vm_compute|]. apply round4_mono; [apply Qle_refl|done].
  - apply (Qle_trans _ (round4 1)); [|by apply Qle_bool_iff; vm_compute]. apply round4_mono; [done|apply fmin_le_r].
Qed.
Lemma classify_nonneg q : (0 <= snd (classify q))%Q.
Proof.
  unfold classify. assert (Hr : Forall (fun r => (0 <= snd r)%Q) RULES).
  { unfold RULES. repeat (constructor; [apply lit_pos; lia|]). constructor. }
  induction Hr as [|[[i ps] c] rules Hc _ IH]; cbn [classify_with]; [apply lit_pos; lia|].
  destruct (existsb _ ps); [exact Hc|exact IH].
Qed.

(** A sort goes by a known field or by the first metric. *)
Lemma extract_sort_name q metrics s : extract_sort q metrics = Some s ->
  se_field s ∈ FIELD_NAMES \/ se_field s ∈ map me_name metrics.
Proof.
  unfold extract_sort. destruct (explicit_sort q metrics) as [s'|] eqn:E.
  - intros [= <-]. unfold explicit_sort in E. apply bind_Some in E as (m & _ & E). cbv zeta in E.
    apply bind_Some in E as (f & Hf & [= <-]). simpl. destruct (resolve_field _) as [f'|] eqn:Er.
    + injection Hf as <-. left. by eapply resolve_field_name.
    + right. destruct metrics as [|me metrics]; [done|]. injection Hf as <-. by left.
  - destruct metrics as [|me metrics]; [done|]. intros H. right.
    assert (Hf : forall l, extract_superlative q (me_name me) l = Some s -> se_field s = me_name me).
    { induction l as [|[p d] l IH]; [done|]. cbn [extract_superlative]. destruct (search _ q); [by intros [= <-]|done]. }
    rewrite (Hf _ H). by left.
Qed.
Lemma extract_metrics_names q m : m ∈ extract_metrics q -> me_name m ∈ map snd METRIC_SYNONYMS.
Proof.
  unfold extract_metrics. intros ([[c i] t] & -> & Hx)%list_elem_of_fmap. cbn [me_name].
  apply (vocabulary_name q METRIC_SYNONYMS), elem_of_names. eauto.
Qed.
Lemma extract_filters_names q f : f ∈ extract_filters q -> fe_field f ∈ FIELD_NAMES /\ fe_value f <> "".
Proof.
  destruct (extract_filters_spec q) as (ms & -> & Hok & _). intros (mf & -> & Hmf)%list_elem_of_fmap.
  rewrite Forall_forall in Hok. destruct (Hok mf Hmf) as (r & _ & _ & Hf & _ & Hv & _). split; [by eapply resolve_field_name|done].
Qed.

Lemma elem_of_concepts e metrics filters x : x ∈ collect_business_concepts e metrics filters <->
  er_primary e = Some x \/ x ∈ er_secondary e \/ x ∈ er_dimensions e \/ x ∈ map me_name metrics \/ x ∈ map fe_field filters.
Proof.
  unfold collect_business_concepts. rewrite elem_of_dedup, !elem_of_app.
  destruct (er_primary e) as [p|]; [rewrite list_elem_of_singleton|rewrite elem_of_nil].
  - split; intros [H|H]; auto; left; congruence.
  - split; [intros [[]|H]; auto|intros [H|H]; [discriminate H|auto]].
Qed.

(** What went wrong with the limit, if anything. *)
Definition bad_limit (q : string) : Prop :=
  exists m, search LIMIT_PATTERN q = Some m /\
    let digits := default "" (group m 1) in (4300 < String.length digits)%nat \/ default 0 (py_int digits) <= 0.
Lemma extract_limit_spec q :
  match extract_limit q with
  | Ret (Some l) => 0 < le_value l /\ exists m, search LIMIT_PATTERN q = Some m /\ le_raw_text l = m_text m /\
                      le_value l = default 0 (py_int (default "" (group m 1)))
  | Ret None => search LIMIT_PATTERN q = None
  | Raise _ => bad_limit q
  end.
Proof.
  unfold extract_limit. destruct (search LIMIT_PATTERN q) as [m|] eqn:E; [|done]. cbv zeta.
  destruct (Nat.ltb_spec 4300 (String.length (default "" (group m 1)))); [exists m; cbv zeta; auto|].
  destruct (Z.leb_spec (default 0 (py_int (default "" (group m 1)))) 0); [exists m; cbv zeta; auto|].
  simpl. split; [done|]. by exists m.
Qed.

(** ** Properties *)
(** Normalized text has one shape: it has no upper-case letter, nothing to strip at either
    end, and its only whitespace is single blanks between other characters. *)
Theorem normalize_shape q :
  strip (normalize q) = normalize q /\ Forall not_upper (chars (normalize q)) /\
  single is_space " " (chars (normalize q)) = true.
Proof.
  unfold normalize. cbv zeta. split; [apply strip_idem|]. split; [apply blanked_lower, expanded_lower|apply blanked_single].
Qed.

(** [find_vocabulary_matches] claims maximal phrases: the results are in order of position,
    name each concept once, stand in the text between word boundaries, and do not overlap;
    and an occurrence of a phrase is missed only when its concept was found elsewhere or it
    overlaps the claim of a phrase at least as long. *)
Theorem vocabulary_matches_spec text vocabulary :
  let r := find_vocabulary_matches text vocabulary in
  StronglySorted (fun x y => (position_of x <= position_of y)%nat) r /\ NoDup (names_of r) /\
  (forall c i m, (c, i, m) ∈ r -> (m, c) ∈ vocabulary /\ occurs_at text m i) /\
  (forall x y, x ∈ r -> y ∈ r -> x <> y -> overlaps (found_span x) (found_span y) = false) /\
  (forall p c m, (p, c) ∈ vocabulary -> m ∈ finditer (Word p) text ->
     c ∈ names_of r \/ exists x, x ∈ r /\ overlaps (span_of m) (found_span x) = true /\
                                (String.length p <= String.length (snd x))%nat).
Proof.
  cbv zeta. destruct (find_vocabulary_spec text vocabulary) as (cl & [_ H2 H3 H4 H5]). split_and!.
  - eapply StronglySorted_weaken; [|apply sorted_by_sorted].
    + intros x y. unfold not_after. by rewrite Nat.ltb_ge.
    + intros a b. rewrite Nat.ltb_lt, Nat.ltb_ge. lia.
    + intros a b c. rewrite !Nat.ltb_ge. lia.
  - by rewrite names_perm.
  - intros c i m Hx%elem_of_matches. destruct (H3 c i m Hx) as [Hp Ho]. split; [|done]. by apply (elem_of_longest_first vocabulary).
  - intros x y Hx%elem_of_matches Hy%elem_of_matches. by apply H4.
  - intros p c m Hp Hm. apply (elem_of_longest_first vocabulary) in Hp. destruct (H5 p c m Hp Hm) as [Hn|(x & Hx & ?)].
    + left. by rewrite names_perm.
    + right. exists x. split; [by apply elem_of_matches|done].
Qed.

(** C19. Every filter is grounded in the text: each comes from a match of a pattern with its
    operator, names the field its captured words resolve to and a value that is not empty;
    the matches do not overlap and the filters are in the order of the text. *)
Theorem extract_filters_grounded q : exists ms, extract_filters q = map snd ms /\
  Forall (fun mf => exists r, (r, fe_operator (snd mf)) ∈ COMPARATOR_PATTERNS /\ fst mf ∈ finditer r q /\
    resolve_field (default "" (group (fst mf) 1)) = Some (fe_field (snd mf)) /\
    fe_value (snd mf) = rstrip_chars ".,?!" (strip (default "" (group (fst mf) 2))) /\ fe_value (snd mf) <> "" /\
    fe_raw_text (snd mf) = strip (m_text (fst mf))) ms /\
  StronglySorted (fun a b => (m_end (fst a) <= m_start (fst b))%nat) ms.
Proof. apply extract_filters_spec. Qed.

(** C20. [QueryParser.parse] on every branch: it raises [EmptyQuestionError] on a blank question,
    and otherwise raises only when the question states a limit that is zero or absurdly long;
    a [QueryContext] has a confidence between 0 and 1, distinct concepts that are exactly the
    entities, dimensions, metrics and filter fields found, non-empty filter values and a
    positive limit. *)
Theorem parse_spec today question :
  valid_pydate today = true -> 2 <= year today <= 9998 ->
  match parse today question with
  | Raise e => strip question = "" /\ e = EmptyQuestionError \/ strip question <> "" /\ bad_limit (normalize question)
  | Ret q =>
      strip question <> "" /\ original_question q = question /\ normalized_question q = normalize question /\
      (0 <= confidence q <= 1)%Q /\ NoDup (business_concepts q) /\
      (forall c, c ∈ business_concepts q <-> qc_primary_entity q = Some c \/ c ∈ qc_secondary_entities q \/
         c ∈ qc_dimensions q \/ c ∈ map me_name (qc_metrics q) \/ c ∈ map fe_field (qc_filters q)) /\
      (forall f, f ∈ qc_filters q -> fe_value f <> "") /\ (forall l, limit q = Some l -> 0 < le_value l)
  end.
Proof.
  intros Hv Hy. unfold parse. destruct (is_empty (strip question)) eqn:Ee.
  { left. by apply is_empty_true in Ee. }
  apply is_empty_false in Ee. cbv zeta. set (n := normalize question).
  destruct (classify n) as [i c] eqn:Ec. pose proof (extract_time_Ret today n Hv Hy) as Ht.
  destruct (extract_time today n) as [e|te]; [done|]. cbn [obind]. pose proof (extract_limit_spec n) as Hl.
  destruct (extract_limit n) as [e|l]; [by right|]. cbn [obind confidence business_concepts qc_primary_entity qc_secondary_entities
    qc_dimensions qc_metrics qc_filters limit original_question normalized_question].
  split_and!; try done.
  - apply compute_confidence_unit. pose proof (classify_nonneg n) as Hc. by rewrite Ec in Hc.
  - apply compute_confidence_unit. pose proof (classify_nonneg n) as Hc. by rewrite Ec in Hc.
  - apply NoDup_dedup.
  - intros x. apply elem_of_concepts.
  - intros f Hf. by apply (extract_filters_names n).
  - intros l' ->. by destruct Hl.
Qed.

Module ParseDemo.
Definition today : PyDate := {| year := 2024; month := 3; day := 15 |}.
End ParseDemo.
Lemma parse_spec_witness :
  (exists q, parse ParseDemo.today "Revenue by region?" = Ret q /\ (0 <= confidence q <= 1)%Q) /\
  (exists e, parse ParseDemo.today "top 0 customers" = Raise e /\ bad_limit (normalize "top 0 customers")).
Proof.
  assert (H : forall question, is_ret (parse ParseDemo.today question) = true ->
    exists q, parse ParseDemo.today question = Ret q /\ (0 <= confidence q <= 1)%Q).
  { intros question Hr. pose proof (parse_spec ParseDemo.today question eq_refl ltac:(simpl; lia)) as H.
    destruct (parse ParseDemo.today question) as [e|q]; [discriminate Hr|]. exists q. split; [reflexivity|apply H]. }
  assert (H0 : forall question, is_ret (parse ParseDemo.today question) = false -> is_empty (strip question) = false ->
    exists e, parse ParseDemo.today question = Raise e /\ bad_limit (normalize question)).
  { intros question Hr He. pose proof (parse_spec ParseDemo.today question eq_refl ltac:(simpl; lia)) as Hs.
    destruct (parse ParseDemo.today question) as [e|q]; [|discriminate Hr]. exists e. split; [reflexivity|].
    destruct Hs as [[Hs _]|[_ Hs]]; [|exact Hs]. apply is_empty_false in He. by destruct He. }
  split; [apply H|apply H0]; vm_compute; reflexivity.
Defined.

(** An explicit direction is lost when the sort field has more than one word: the field is
    captured lazily and the expression may end after its first word, so [ascending] is never
    reached and the sort is descending. *)
Theorem sort_direction_lost :
  let q := "list products sorted by unit price ascending" in
  (exists m, search EXPLICIT_PATTERN q = Some m /\ m_text m = "sorted by unit" /\ group m 2 = None) /\
  extract_sort q (extract_metrics q) = Some {| se_field := "price"; se_direction := DESCENDING; se_raw_text := "sorted by unit" |} /\
  se_direction <$> extract_sort "list products sorted by price ascending" (extract_metrics q) = Some ASCENDING.
Proof. split; [eexists; split_and!; vm_compute; reflexivity|]. vm_compute. split; reflexivity. Qed.
