(* ===== verification/Retrieval.v ===== *)
(** * The knowledge retrieval engine ([querymind.retrieval])

    Overlap of a linked question with a library example ([matcher.py]) over cached features
    ([cache.py]), the eight signals ([signals.py]), their weighted score ([scorer.py]), the
    ranking ([ranker.py]), the explanations ([explanations.py]), the statistics
    ([statistics.py]) and the engine ([engine.py]). The models of [models.py] are in
    [ContextModels]; what Pydantic checks of their fields is checked by the [..._init]
    constructors here. *)
From stdpp Require Import sorting.
From S2P Require Import Prelude PyFloat FloatSum PyStr Models ContextModels Catalogs BusinessKnowledge QueryLibrary Regex.
From Stdlib Require Import Ascii.
#[local] Open Scope string_scope.
#[local] Open Scope Z_scope.

(** ** [exceptions.py] *)
Definition InvalidTopKError (top_k : Z) : exn := OtherException "InvalidTopKError"
  ("top_k must be a positive integer, got " ++ show_Z top_k ++ ".").
Definition FieldError (model : string) : exn := OtherException "ValidationError" model.

(** ** [models.py]: fields with [ge=0.0, le=1.0] *)
Definition unit_field (x : Q) : bool := fleb 0 x && fleb x 1.
Definition SignalBreakdown_init (signal : SignalName) (score weight weighted : Q) (detail : string) : outcome exn SignalBreakdown :=
  if unit_field score && unit_field weight && unit_field weighted
  then Ret {| sb_signal := signal; sb_score := score; sb_weight := weight; weighted_score := weighted; sb_detail := detail |}
  else Raise (FieldError "SignalBreakdown").
Definition RetrievalScore_init (overall : Q) (breakdown : list SignalBreakdown) (reason : string) : outcome exn RetrievalScore :=
  if unit_field overall
  then Ret {| overall_score := overall; signal_scores := breakdown; ranking_reason := reason |}
  else Raise (FieldError "RetrievalScore").
Definition SignalContribution_init (signal : SignalName) (average : Q) : outcome exn SignalContribution :=
  if unit_field average then Ret {| sc_signal := signal; average_weighted_score := average |}
  else Raise (FieldError "SignalContribution").
Definition RetrievalStatistics_init (latency : Q) (top_k candidates : Z) (average : Q) (contribution : list SignalContribution)
  : outcome exn RetrievalStatistics :=
  if fleb 0 latency && (0 <? top_k) && (0 <=? candidates) && unit_field average
  then Ret {| retrieval_latency_ms := latency; rst_top_k := top_k; candidate_count := candidates;
              average_score := average; signal_contribution := contribution |}
  else Raise (FieldError "RetrievalStatistics").

(** ** [matcher.py] *)
Definition STOPWORDS : list string :=
  ["a"; "an"; "the"; "is"; "are"; "was"; "were"; "be"; "been"; "of"; "in"; "on"; "by"; "to"; "for"; "and"; "or"; "with";
   "we"; "our"; "us"; "do"; "does"; "did"; "what"; "how"; "many"; "much"; "show"; "me"; "list"; "get"; "find"; "which";
   "who"; "that"; "this"; "these"; "those"; "at"; "from"; "as"; "all"].
Definition WORD : re := Plus (One (fun c => is_lower c || is_digit c)).
Definition tokenize (text : string) : gset string :=
  list_to_set (List.filter (fun w => negb (bool_decide (w ∈ STOPWORDS)) && (1 <? String.length w)%nat)
    (map m_text (finditer WORD (lower text)))).

(** [len(x) / len(y)] *)
Definition ratio (n d : nat) : Q := fdiv (inject_Z (Z.of_nat n)) (inject_Z (Z.of_nat d)).
Definition jaccard (left right : gset string) : Q :=
  let union := left ∪ right in
  if decide (union = ∅) then 0%Q else ratio (size (left ∩ right)) (size union).

(** [sorted(matched)] of a set of strings. *)
Definition sorted_set (s : gset string) : list string := sorted_by str_ltb id (elements s).

(** [frozenset] of the qualified columns a question touches. *)
Definition qualified (c : ColumnMetadata) : string := col_table_name c ++ "." ++ col_name c.
Definition context_tables (c : LinkedQueryContext) : gset string := list_to_set (resolved_table_names c).
Definition context_columns (c : LinkedQueryContext) : gset string :=
  list_to_set (map (fun m => qualified (rm_column m)) (lq_metrics c) ++ map (fun d => qualified (rc_column d)) (lq_dimensions c)
    ++ map (fun f => qualified (rf_column f)) (lq_filters c)
    ++ match lq_sort c with Some s => [qualified (rs_column s)] | None => [] end)%list.
Definition context_schema_objects (c : LinkedQueryContext) : gset string := context_tables c ∪ context_columns c.
Definition context_keywords (c : LinkedQueryContext) : gset string := tokenize (normalized_question (query_context c)).

(** [cache.py] *)
Record ExampleFeatures := {
  concept_set : gset string; schema_object_set : gset string; table_set : gset string;
  column_set : gset string; keyword_set : gset string }.
(** What [example_features] computes, given the canonical concepts. *)
Definition features_of (concepts : gset string) (e : QueryExample) : ExampleFeatures :=
  let tables := list_to_set (map (before_char ".") (linked_schema_objects e)) in
  {| concept_set := concepts;
     schema_object_set := list_to_set (linked_schema_objects e) ∪ tables;
     table_set := tables;
     column_set := list_to_set (List.filter (contains ".") (linked_schema_objects e));
     keyword_set := tokenize (title e ++ " " ++ natural_language_question e ++ " " ++ ex_normalized_question e) |}.

(** The world: the two registries' snapshots, the feature cache and the clock, which do not
    touch each other. [perf_counter] is documented never to go backwards: no reading is before
    [now], the last one. *)
Class RetrievalState (W : Type) `{SnapshotCache W BusinessKnowledgeCatalog} `{SnapshotCache W QueryExampleLibrary} `{Clock W} := {
  feature_cache : W -> gmap string ExampleFeatures;
  set_feature_cache : gmap string ExampleFeatures -> W -> W;
  feature_cache_set : forall c w, feature_cache (set_feature_cache c w) = c;
  features_keep_knowledge : forall c w, snapshot (T:=BusinessKnowledgeCatalog) (set_feature_cache c w) = snapshot w;
  features_keep_library : forall c w, snapshot (T:=QueryExampleLibrary) (set_feature_cache c w) = snapshot w;
  clock_keeps_features : forall w, feature_cache (snd (tick w)) = feature_cache w;
  clock_keeps_knowledge : forall w, snapshot (T:=BusinessKnowledgeCatalog) (snd (tick w)) = snapshot w;
  clock_keeps_library : forall w, snapshot (T:=QueryExampleLibrary) (snd (tick w)) = snapshot w;
  now : W -> Q;
  tick_now : forall w, (now w <= fst (tick w))%Q;
  tick_later : forall w, (fst (tick w) <= now (snd (tick w)))%Q;
  features_keep_now : forall c w, now (set_feature_cache c w) = now w }.

Section Matcher.
Context {W : Type} `{RetrievalState W}.
(** [business_knowledge]: the registry's catalog source, when there is a registry. *)
Context (knowledge : option (prog W exn BusinessKnowledgeCatalog)).

Fixpoint canonical_terms (terms : list string) (cached : option BusinessKnowledgeCatalog) : outcome exn (gset string) :=
  match terms with
  | [] => Ret ∅
  | t :: rest =>
      let? resolved := registry_resolve cached t in
      let? others := canonical_terms rest cached in
      Ret ({[match resolved with Some c => bc_id c | None => lower (strip t) end]} ∪ others)
  end.
Definition canonicalize (terms : list string) : prog W exn (gset string) :=
  match knowledge with
  | None => ret (list_to_set (map (fun t => lower (strip t)) terms))
  | Some _ => fun w => (canonical_terms terms (snapshot w), w)
  end.
Definition context_business_concepts (c : LinkedQueryContext) : prog W exn (gset string) :=
  canonicalize (business_concepts (query_context c)).
Definition example_features (e : QueryExample) : prog W exn ExampleFeatures :=
  fun w => match feature_cache w !! ex_id e with
           | Some cached => (Ret cached, w)
           | None =>
               (let! concepts := canonicalize (ex_business_concepts e) in
                let features := features_of concepts e in
                fun w => (Ret features, set_feature_cache (<[ex_id e := features]> (feature_cache w)) w)) w
           end.
Definition matched (left right : gset string) : list string := sorted_set (left ∩ right).
End Matcher.

(** ** [signals.py] *)
Record SignalResult := { sr_score : Q; sr_detail : string }.
Definition implies_aggregation (c : LinkedQueryContext) : bool :=
  match aggregation (query_context c) with
  | Some _ => true
  | None => existsb (fun m => match rm_aggregation m with Some _ => true | None => false end) (lq_metrics c)
  end.
Definition intent_similarity (c : LinkedQueryContext) (e : QueryExample) : SignalResult :=
  let query_intent := Intent_value (intent (query_context c)) in
  let example_intent := lower (strip (qs_intent (ex_query_context e))) in
  if String.eqb query_intent example_intent
  then {| sr_score := 1; sr_detail := "Intent matches: " ++ repr query_intent ++ "." |}
  else {| sr_score := 0; sr_detail := "Intent differs: query is " ++ repr query_intent ++ ", example is " ++ repr example_intent ++ "." |}.
(** The five overlap signals differ in the two sets and in what they call their elements. *)
Definition overlap (noun : string) (left right : gset string) : SignalResult :=
  {| sr_score := jaccard left right;
     sr_detail := match matched left right with
       | [] => "No shared " ++ noun ++ "s."
       | m => show_nat (length m) ++ " shared " ++ noun ++ "(s): " ++ join ", " m ++ "."
       end |}.
Definition SQL_FEATURE_RULES : list (string * re) :=
  [("JOIN", Word "join"); ("GROUP BY", Cat [Boundary; Lit "group"; Spaces; Lit "by"; Boundary]);
   ("ORDER BY", Cat [Boundary; Lit "order"; Spaces; Lit "by"; Boundary]); ("LIMIT", Word "limit"); ("WHERE", Word "where");
   ("aggregate function", Cat [Boundary; Choice (map Lit ["sum"; "count"; "avg"; "min"; "max"]); Star true (One is_space); Lit "("]);
   ("HAVING", Word "having")].
Definition add_if (b : bool) (feature : string) (s : gset string) : gset string := if b then {[feature]} ∪ s else s.
Definition expected_features (c : LinkedQueryContext) : gset string :=
  add_if ((1 <? length (resolved_table_names c))%nat || non_empty (relationship_paths c)) "JOIN"
  (add_if (non_empty (lq_dimensions c) || implies_aggregation c) "GROUP BY"
  (add_if (implies_aggregation c) "aggregate function"
  (add_if (is_some (lq_sort c)) "ORDER BY"
  (add_if (is_some (limit (query_context c))) "LIMIT"
  (add_if (non_empty (lq_filters c)) "WHERE" ∅))))).
(** The patterns ignore case: they are matched against the lowered SQL. *)
Definition present_features (sql : string) : gset string :=
  list_to_set (omap (fun '(label, pattern) => if found pattern (lower sql) then Some label else None) SQL_FEATURE_RULES).
Definition sql_feature_overlap (c : LinkedQueryContext) (e : QueryExample) : SignalResult :=
  let expected := expected_features c in
  if decide (expected = ∅) then {| sr_score := 1; sr_detail := "Question implies no particular SQL structure." |}
  else
    let m := expected ∩ present_features (gold_sql e) in
    {| sr_score := ratio (size m) (size expected);
       sr_detail := if decide (m = ∅)
         then "None of the " ++ show_nat (size expected) ++ " expected SQL feature(s) were found in gold_sql."
         else show_nat (size m) ++ "/" ++ show_nat (size expected) ++ " expected SQL feature(s) present: "
              ++ join ", " (sorted_set m) ++ "." |}.
Definition difficulty_index (d : Difficulty) : Z :=
  match d with BEGINNER => 0 | INTERMEDIATE => 1 | ADVANCED => 2 | EXPERT => 3 end.
Definition COMPLEXITY_THRESHOLDS : list (Z * Difficulty) := [(2, BEGINNER); (4, INTERMEDIATE); (6, ADVANCED)].
Definition point (b : bool) : Z := if b then 1 else 0.
Definition complexity_points (c : LinkedQueryContext) : Z :=
  Z.max 0 (Z.of_nat (length (resolved_table_names c)) - 1) + point (implies_aggregation c) + point (non_empty (lq_dimensions c))
  + point (is_some (lq_sort c)) + point (1 <? length (lq_filters c))%nat
  + point (is_some (time_expression (query_context c))) + point (non_empty (ambiguities c)).
Definition implied_difficulty (c : LinkedQueryContext) : Difficulty :=
  match List.find (fun '(threshold, _) => complexity_points c <? threshold) COMPLEXITY_THRESHOLDS with
  | Some (_, d) => d
  | None => EXPERT
  end.
Definition difficulty_similarity (c : LinkedQueryContext) (e : QueryExample) : SignalResult :=
  let implied := implied_difficulty c in
  let distance := Z.abs (difficulty_index implied - difficulty_index (difficulty e)) in
  {| sr_score := fmax 0 (fsub 1 (fdiv (inject_Z distance) 3));
     sr_detail := "Question implies " ++ repr (Difficulty_value implied) ++ " difficulty; example is "
       ++ repr (Difficulty_value (difficulty e)) ++ " (" ++ show_Z distance ++ " step(s) apart)." |}.

(** ** [scorer.py] *)
Definition DEFAULT_SIGNAL_WEIGHTS (s : SignalName) : Q :=
  match s with
  | BUSINESS_CONCEPT_OVERLAP => lit 20 100 | TABLE_OVERLAP => lit 15 100 | COLUMN_OVERLAP => lit 15 100
  | INTENT_SIMILARITY => lit 15 100 | SCHEMA_OVERLAP => lit 10 100 | SQL_FEATURE_OVERLAP => lit 10 100
  | KEYWORD_OVERLAP => lit 10 100 | DIFFICULTY_SIMILARITY => lit 5 100
  end.
Definition default_signals : list SignalName :=
  [INTENT_SIMILARITY; BUSINESS_CONCEPT_OVERLAP; SCHEMA_OVERLAP; TABLE_OVERLAP; COLUMN_OVERLAP; SQL_FEATURE_OVERLAP;
   KEYWORD_OVERLAP; DIFFICULTY_SIMILARITY].
Definition contribution_before (x y : Q) : bool := fltb (- x) (- y).
Definition underscore_to_blank (c : ascii) : ascii := if Ascii.eqb c "_" then " "%char else c.
Definition ranking_reason_of (breakdown : list SignalBreakdown) : string :=
  match List.filter (fun b => fltb 0 (sb_score b)) breakdown with
  | [] => "No signals matched; this is a low-confidence, fallback-only candidate."
  | contributing =>
      let top := firstn 2 (sorted_by contribution_before weighted_score contributing) in
      "Strongest match on " ++ join " and " (map (fun b =>
        str_map underscore_to_blank (SignalName_value (sb_signal b)) ++ " (" ++ format_2f (sb_score b) ++ ")") top) ++ "."
  end.
(** [min(1.0, sum(...))] *)
Definition overall (breakdown : list SignalBreakdown) : Q := fmin 1 (fsum (map weighted_score breakdown)).

(** ** [ranker.py] *)
Definition rank_key (x : QueryExample * RetrievalScore) : Q * string := (overall_score (snd x), ex_id (fst x)).
(** [(-score, id)], compared as a tuple *)
Definition rank_ltb : Q * string -> Q * string -> bool := desc_ltb str_ltb.
Definition rank (scored : list (QueryExample * RetrievalScore)) (top_k : Z)
  : outcome exn (list (QueryExample * RetrievalScore)) :=
  if top_k <=? 0 then Raise (InvalidTopKError top_k)
  else Ret (firstn (Z.to_nat top_k) (sorted_by rank_ltb rank_key scored)).

(** ** [explanations.py] *)
Definition labelled (label : string) (items : list string) : list string :=
  if non_empty items then [label ++ join ", " items ++ "."] else [].
Definition explanation_text (s : RetrievalScore) (concepts schema keywords : list string) : string :=
  let selected := "Selected with an overall score of " ++ format_2f (overall_score s) ++ "." in
  join " " ([selected; ranking_reason s] ++ labelled "Shared business concepts: " concepts
    ++ labelled "Shared schema objects: " schema ++ labelled "Shared keywords: " keywords)%list.
Definition RetrievedExample_init (e : QueryExample) (s : RetrievalScore) (concepts schema keywords : list string)
  : outcome exn RetrievedExample :=
  if unit_field (overall_score s)
  then Ret {| re_example := e; re_overall_score := overall_score s; signal_breakdown := signal_scores s;
              matched_business_concepts := concepts; matched_schema_objects := schema; matched_keywords := keywords;
              selection_explanation := explanation_text s concepts schema keywords |}
  else Raise (FieldError "RetrievedExample").

(** ** [statistics.py] *)
(** [totals[entry.signal] += entry.weighted_score], on a [defaultdict(float)] *)
Definition add_entry (totals : list (SignalName * Q)) (b : SignalBreakdown) : list (SignalName * Q) :=
  alist_set (sb_signal b) (fadd (match alist_get (sb_signal b) totals with Some t => t | None => 0%Q end) (weighted_score b)) totals.
Definition signal_totals (retrieved : list RetrievedExample) : list (SignalName * Q) :=
  fold_left (fun totals r => fold_left add_entry (signal_breakdown r) totals) retrieved [].
Definition length_Q {A} (l : list A) : Q := inject_Z (Z.of_nat (length l)).
Fixpoint contributions (n : Q) (totals : list (SignalName * Q)) : outcome exn (list SignalContribution) :=
  match totals with
  | [] => Ret []
  | (s, total) :: rest =>
      let? c := SignalContribution_init s (fdiv total n) in
      let? cs := contributions n rest in Ret (c :: cs)
  end.
Definition signal_contribution_of (retrieved : list RetrievedExample) : outcome exn (list SignalContribution) :=
  match retrieved with [] => Ret [] | _ => contributions (length_Q retrieved) (signal_totals retrieved) end.
Definition average_of (retrieved : list RetrievedExample) : Q :=
  match retrieved with
  | [] => 0%Q
  | _ => fdiv (fsum (map re_overall_score retrieved)) (length_Q retrieved)
  end.
Definition collect (latency_ms : Q) (top_k candidates : Z) (retrieved : list RetrievedExample) : outcome exn RetrievalStatistics :=
  let? contribution := signal_contribution_of retrieved in
  RetrievalStatistics_init latency_ms top_k candidates (average_of retrieved) contribution.

(** ** [engine.py] *)
Definition DEFAULT_TOP_K : Z := 5.
Section Engine.
Context {W : Type} `{RetrievalState W}.
Context (library : prog W exn QueryExampleLibrary) (knowledge : option (prog W exn BusinessKnowledgeCatalog)).

(** [signal.compute(context, example)] *)
Definition compute (c : LinkedQueryContext) (e : QueryExample) (s : SignalName) : prog W exn SignalResult :=
  match s with
  | INTENT_SIMILARITY => ret (intent_similarity c e)
  | BUSINESS_CONCEPT_OVERLAP =>
      let! query_concepts := context_business_concepts knowledge c in
      let! f := example_features knowledge e in ret (overlap "business concept" query_concepts (concept_set f))
  | SCHEMA_OVERLAP =>
      let! f := example_features knowledge e in ret (overlap "schema object" (context_schema_objects c) (schema_object_set f))
  | TABLE_OVERLAP =>
      let! f := example_features knowledge e in ret (overlap "table" (context_tables c) (table_set f))
  | COLUMN_OVERLAP =>
      let! f := example_features knowledge e in ret (overlap "column" (context_columns c) (column_set f))
  | SQL_FEATURE_OVERLAP => ret (sql_feature_overlap c e)
  | KEYWORD_OVERLAP =>
      let! f := example_features knowledge e in ret (overlap "keyword" (context_keywords c) (keyword_set f))
  | DIFFICULTY_SIMILARITY => ret (difficulty_similarity c e)
  end.
Definition entry_of (s : SignalName) (r : SignalResult) : outcome exn SignalBreakdown :=
  let weight := DEFAULT_SIGNAL_WEIGHTS s in
  SignalBreakdown_init s (sr_score r) weight (fmul (sr_score r) weight) (sr_detail r).
Definition score (c : LinkedQueryContext) (e : QueryExample) : prog W exn RetrievalScore :=
  let! breakdown := mapM (fun s => let! r := compute c e s in lift (entry_of s r)) default_signals in
  lift (RetrievalScore_init (overall breakdown) breakdown (ranking_reason_of breakdown)).
(** [ExplanationBuilder.build] *)
Definition build (c : LinkedQueryContext) (x : QueryExample * RetrievalScore) : prog W exn RetrievedExample :=
  let '(e, s) := x in
  let! query_concepts := context_business_concepts knowledge c in
  let! f1 := example_features knowledge e in
  let! f2 := example_features knowledge e in
  let! f3 := example_features knowledge e in
  lift (RetrievedExample_init e s (matched query_concepts (concept_set f1))
    (matched (context_schema_objects c) (schema_object_set f2)) (matched (context_keywords c) (keyword_set f3))).
Definition retrieve (c : LinkedQueryContext) (top_k : option Z) : prog W exn RetrievedKnowledgeBundle :=
  let resolved_top_k := match top_k with Some k => k | None => DEFAULT_TOP_K end in
  if resolved_top_k <=? 0 then throw (InvalidTopKError resolved_top_k) else
  let! started := perf_counter in
  let! _ := load_ library in
  let! _ := match knowledge with
            | Some source => let! _ := load_knowledge source in ret tt
            | None => ret tt
            end in
  let! candidates := fun w => (find_examples (snapshot w) (fun _ => true), w) in
  let! scored := mapM (fun e => let! s := score c e in ret (e, s)) candidates in
  let! top_ranked := lift (rank scored resolved_top_k) in
  let! retrieved := mapM (build c) top_ranked in
  let! latency_ms := elapsed_ms started in
  let! statistics := lift (collect latency_ms resolved_top_k (Z.of_nat (length candidates)) retrieved) in
  ret {| linked_query_context := c; retrieved_examples := retrieved; rb_statistics := statistics |}.
End Engine.

(** ** What a retrieval computes, without the world *)
Section Pure.
Context (catalog : option BusinessKnowledgeCatalog).
Definition canonical (terms : list string) : gset string :=
  list_to_set (map (fun t =>
    match catalog ≫= (fun k => resolve (concepts k) t) with Some c => bc_id c | None => lower (strip t) end) terms).
Definition features (e : QueryExample) : ExampleFeatures := features_of (canonical (ex_business_concepts e)) e.
Definition query_concepts (c : LinkedQueryContext) : gset string := canonical (business_concepts (query_context c)).
Definition result_of (c : LinkedQueryContext) (e : QueryExample) (s : SignalName) : SignalResult :=
  match s with
  | INTENT_SIMILARITY => intent_similarity c e
  | BUSINESS_CONCEPT_OVERLAP => overlap "business concept" (query_concepts c) (concept_set (features e))
  | SCHEMA_OVERLAP => overlap "schema object" (context_schema_objects c) (schema_object_set (features e))
  | TABLE_OVERLAP => overlap "table" (context_tables c) (table_set (features e))
  | COLUMN_OVERLAP => overlap "column" (context_columns c) (column_set (features e))
  | SQL_FEATURE_OVERLAP => sql_feature_overlap c e
  | KEYWORD_OVERLAP => overlap "keyword" (context_keywords c) (keyword_set (features e))
  | DIFFICULTY_SIMILARITY => difficulty_similarity c e
  end.
Definition pure_entry (s : SignalName) (r : SignalResult) : SignalBreakdown :=
  {| sb_signal := s; sb_score := sr_score r; sb_weight := DEFAULT_SIGNAL_WEIGHTS s;
     weighted_score := fmul (sr_score r) (DEFAULT_SIGNAL_WEIGHTS s); sb_detail := sr_detail r |}.
Definition breakdown_of (c : LinkedQueryContext) (e : QueryExample) : list SignalBreakdown :=
  map (fun s => pure_entry s (result_of c e s)) default_signals.
Definition score_of (c : LinkedQueryContext) (e : QueryExample) : RetrievalScore :=
  {| overall_score := overall (breakdown_of c e); signal_scores := breakdown_of c e;
     ranking_reason := ranking_reason_of (breakdown_of c e) |}.
Definition explained (c : LinkedQueryContext) (x : QueryExample * RetrievalScore) : RetrievedExample :=
  let '(e, s) := x in
  let concepts := matched (query_concepts c) (concept_set (features e)) in
  let schema := matched (context_schema_objects c) (schema_object_set (features e)) in
  let keywords := matched (context_keywords c) (keyword_set (features e)) in
  {| re_example := e; re_overall_score := overall_score s; signal_breakdown := signal_scores s;
     matched_business_concepts := concepts; matched_schema_objects := schema; matched_keywords := keywords;
     selection_explanation := explanation_text s concepts schema keywords |}.
Definition ranking (c : LinkedQueryContext) (es : list QueryExample) : list (QueryExample * RetrievalScore) :=
  sorted_by rank_ltb rank_key (map (fun e => (e, score_of c e)) es).
Definition retrieved_of (c : LinkedQueryContext) (es : list QueryExample) (top_k : Z) : list RetrievedExample :=
  map (explained c) (firstn (Z.to_nat top_k) (ranking c es)).
Definition statistics_of (latency : Q) (top_k : Z) (es : list QueryExample) (retrieved : list RetrievedExample) : RetrievalStatistics :=
  {| retrieval_latency_ms := latency; rst_top_k := top_k; candidate_count := Z.of_nat (length es);
     average_score := average_of retrieved;
     signal_contribution := match retrieved with [] => [] | _ =>
       map (fun st => {| sc_signal := fst st; average_weighted_score := fdiv (snd st) (length_Q retrieved) |}) (signal_totals retrieved) end |}.
End Pure.

(** ** Every score is between 0 and 1 *)
Definition unit_interval (x : Q) : Prop := is_float x /\ (0 <= x <= 1)%Q.
Lemma unit_field_spec x : (0 <= x <= 1)%Q -> unit_field x = true.
Proof. intros [H1 H2]. unfold unit_field. by rewrite (proj2 (fleb_spec 0 x) H1), (proj2 (fleb_spec x 1) H2). Qed.
Lemma unit_0 : unit_interval 0.
Proof. split; [by apply (is_float_int 0)|]. split; [apply Qle_refl|done]. Qed.
Lemma unit_1 : unit_interval 1.
Proof. split; [by apply (is_float_int 1)|]. split; [done|apply Qle_refl]. Qed.
Lemma unit_fl x : (0 <= x <= 1)%Q -> unit_interval (fl x).
Proof. intros [H1 H2]. split; [apply is_float_fl|]. split; [by apply fl_nonneg|]. by apply (fl_le_int x 1). Qed.
Lemma unit_fmul x y : unit_interval x -> unit_interval y -> unit_interval (fmul x y).
Proof.
  intros [_ [Hx0 Hx1]] [_ [Hy0 Hy1]]. apply unit_fl. split; [by apply Qmult_le_0_compat|].
  apply Qle_trans with (1 * y)%Q; [by apply Qmult_le_compat_r|]. by rewrite Qmult_1_l.
Qed.
Lemma unit_ratio n d : (n <= d)%nat -> (0 < d)%nat -> unit_interval (ratio n d).
Proof.
  intros Hn Hd. apply unit_fl. assert (Hp : (0 < inject_Z (Z.of_nat d))%Q) by (change 0%Q with (inject_Z 0); rewrite <- Zlt_Qlt; lia).
  split; [apply Qle_shift_div_l; [done|]|apply Qle_shift_div_r; [done|]].
  - rewrite Qmult_0_l. change 0%Q with (inject_Z 0). rewrite <- Zle_Qle. lia.
  - rewrite Qmult_1_l, <- Zle_Qle. lia.
Qed.
Lemma unit_lit n d : 0 <= n <= Zpos d -> unit_interval (lit n d).
Proof. intros H. apply unit_fl. unfold Qle. cbn [Qnum Qden]. lia. Qed.
Lemma unit_weight s : unit_interval (DEFAULT_SIGNAL_WEIGHTS s).
Proof. destruct s; apply unit_lit; lia. Qed.
Lemma unit_jaccard a b : unit_interval (jaccard a b).
Proof.
  unfold jaccard. cbv zeta. case_decide as He; [apply unit_0|]. apply unit_ratio.
  - apply subseteq_size. set_solver.
  - destruct (size (a ∪ b)) eqn:E; [|lia]. destruct He. by apply leibniz_equiv, size_empty_iff.
Qed.
Lemma unit_fmin_1 x : is_float x -> (0 <= x)%Q -> unit_interval (fmin 1 x).
Proof.
  intros Fx Hx. split; [apply is_float_fmin; [by apply (is_float_int 1)|done]|].
  split; [by apply fmin_glb|apply fmin_le_l].
Qed.
Lemma unit_sql c e : unit_interval (sr_score (sql_feature_overlap c e)).
Proof.
  unfold sql_feature_overlap. case_decide as He; [apply unit_1|]. cbn [sr_score]. apply unit_ratio.
  - apply subseteq_size. set_solver.
  - destruct (size (expected_features c)) eqn:E; [|lia]. destruct He. by apply leibniz_equiv, size_empty_iff.
Qed.
Lemma unit_difficulty c e : unit_interval (sr_score (difficulty_similarity c e)).
Proof.
  unfold difficulty_similarity. cbn [sr_score]. set (d := Z.abs _).
  assert (Hd : 0 <= d <= 3) by (unfold d; destruct (implied_difficulty c), (difficulty e); cbn; lia).
  clearbody d. assert (Hcase : d = 0 \/ d = 1 \/ d = 2 \/ d = 3) by lia. clear Hd.
  destruct Hcase as [ ->|[ ->|[ ->| ->]]]; (split; [by vm_compute|split; apply fleb_spec; by vm_compute]).
Qed.
Lemma unit_result catalog c e s : unit_interval (sr_score (result_of catalog c e s)).
Proof.
  destruct s; cbn [result_of]; try apply unit_jaccard; [|apply unit_sql|apply unit_difficulty].
  unfold intent_similarity. destruct (String.eqb _ _); [apply unit_1|apply unit_0].
Qed.
Lemma unit_breakdown catalog c e : Forall (fun b => unit_interval (weighted_score b)) (breakdown_of catalog c e).
Proof.
  apply Forall_forall. intros b (s & -> & _)%list_elem_of_fmap. cbn [weighted_score pure_entry].
  apply unit_fmul; [apply unit_result|apply unit_weight].
Qed.
Lemma unit_overall catalog c e : unit_interval (overall (breakdown_of catalog c e)).
Proof.
  unfold overall. apply unit_fmin_1; [apply is_float_fsum|]. apply fsum_bounds.
  - apply Forall_map. exact (unit_breakdown catalog c e).
  - unfold breakdown_of. rewrite !length_map. cbn. lia.
Qed.

(** ** The statistics are within their fields' bounds *)
Lemma inject_le a b : a <= b -> (inject_Z a <= inject_Z b)%Q.
Proof. by rewrite <- Zle_Qle. Qed.
Lemma length_Q_pos {A} (x : A) l : (0 < length_Q (x :: l))%Q.
Proof. unfold length_Q. change 0%Q with (inject_Z 0). rewrite <- Zlt_Qlt. cbn [length]. lia. Qed.
Lemma fdiv_unit x n : (0 <= x <= n)%Q -> (0 < n)%Q -> (0 <= fdiv x n <= 1)%Q.
Proof.
  intros [H0 H1] Hn. split; [by apply fdiv_nonneg|]. apply (fl_le_int _ 1); [done|].
  apply Qle_shift_div_r; [done|]. by rewrite Qmult_1_l.
Qed.
Lemma average_unit rs : Forall (fun r => unit_interval (re_overall_score r)) rs -> Z.of_nat (length rs) <= 2 ^ 53 ->
  (0 <= average_of rs <= 1)%Q.
Proof.
  intros Hrs Hlen. unfold average_of. destruct rs as [|r rs]; [split; [apply Qle_refl|done]|].
  apply fdiv_unit; [|apply length_Q_pos]. pose proof (fsum_bounds (map re_overall_score (r :: rs))) as Hs.
  rewrite length_map in Hs. apply Hs; [|done]. by apply Forall_map.
Qed.

Lemma add_entries_bound bs : forall j totals, 0 <= j < 2 ^ 53 -> NoDup (map sb_signal bs) ->
  Forall (fun b => unit_interval (weighted_score b)) bs ->
  (forall s t, alist_get s totals = Some t -> (0 <= t <= inject_Z (j + 1))%Q /\ (s ∈ map sb_signal bs -> t <= inject_Z j)%Q) ->
  forall s t, alist_get s (fold_left add_entry bs totals) = Some t -> (0 <= t <= inject_Z (j + 1))%Q.
Proof.
  induction bs as [|b bs IH]; intros j totals Hj Hnd Hb Ht; [by intros s t Hs; apply (Ht s t)|].
  cbn [fold_left]. inversion Hb as [|? ? [_ [Hb0 Hb1]] Hbs]; subst. cbn [map] in Hnd. apply NoDup_cons in Hnd as [Hn Hnd].
  apply IH; [done|done|done|]. intros s t. unfold add_entry. rewrite alist_get_set.
  destruct (decide (sb_signal b = s)) as [<-|Hs].
  - intros [= <-]. split; [|done]. destruct (alist_get (sb_signal b) totals) as [t|] eqn:E.
    + destruct (Ht _ _ E) as [[Ht0 _] Htj]. specialize (Htj ltac:(left)). split; [by apply fadd_nonneg|].
      apply fl_le_int; [lia|]. rewrite inject_Z_plus. by apply Qplus_le_compat.
    + split; [apply fadd_nonneg; [apply Qle_refl|done]|]. apply fl_le_int; [lia|]. rewrite inject_Z_plus.
      apply Qplus_le_compat; [apply (inject_le 0 j); lia|done].
  - intros Hget. destruct (Ht s t Hget) as [H1 H2]. split; [done|]. intros Hin. apply H2. by right.
Qed.
Lemma totals_bound rs : forall j totals, 0 <= j -> j + Z.of_nat (length rs) <= 2 ^ 53 ->
  Forall (fun r => NoDup (map sb_signal (signal_breakdown r)) /\ Forall (fun b => unit_interval (weighted_score b)) (signal_breakdown r)) rs ->
  (forall s t, alist_get s totals = Some t -> (0 <= t <= inject_Z j)%Q) ->
  forall s t, alist_get s (fold_left (fun totals r => fold_left add_entry (signal_breakdown r) totals) rs totals) = Some t ->
    (0 <= t <= inject_Z (j + Z.of_nat (length rs)))%Q.
Proof.
  induction rs as [|r rs IH]; intros j totals Hj Hlen Hrs Ht s t; cbn [fold_left length] in *.
  { rewrite Z.add_0_r. apply Ht. }
  inversion Hrs as [|? ? [Hnd Hu] Hrs']; subst. replace (j + Z.of_nat (S (length rs))) with (j + 1 + Z.of_nat (length rs)) by lia.
  apply IH; [lia|lia|done|]. apply add_entries_bound; [lia|done|done|]. intros s' t' Hs. destruct (Ht s' t' Hs) as [H0 H1].
  split; [split; [done|]|done]. eapply Qle_trans; [exact H1|]. apply inject_le. lia.
Qed.
Lemma add_entry_NoDup rs totals : NoDup (map fst totals) ->
  NoDup (map fst (fold_left (fun totals r => fold_left add_entry (signal_breakdown r) totals) rs totals)).
Proof.
  revert totals. induction rs as [|r rs IH]; intros totals Hnd; [done|]. cbn [fold_left]. apply IH. clear IH.
  revert totals Hnd. induction (signal_breakdown r) as [|b bs IH]; intros totals Hnd; [done|]. cbn [fold_left].
  apply IH. by apply alist_set_NoDup.
Qed.
Lemma contributions_Ret n totals : (0 < n)%Q -> (forall s t, (s, t) ∈ totals -> (0 <= t <= n)%Q) ->
  contributions n totals = Ret (map (fun st => {| sc_signal := fst st; average_weighted_score := fdiv (snd st) n |}) totals).
Proof.
  intros Hn. induction totals as [|[s t] totals IH]; intros Ht; [done|]. cbn [contributions map fst snd].
  unfold SignalContribution_init. rewrite unit_field_spec; [|apply fdiv_unit; [apply (Ht s t); left|done]].
  cbn [obind]. rewrite IH; [done|]. intros s' t' Hin. apply (Ht s'). by right.
Qed.

Section Sound.
Context (catalog : option BusinessKnowledgeCatalog) (c : LinkedQueryContext).
Lemma breakdown_signals e : map sb_signal (breakdown_of catalog c e) = default_signals.
Proof. reflexivity. Qed.
Lemma explained_good es top_k : Forall (fun r => unit_interval (re_overall_score r) /\
    NoDup (map sb_signal (signal_breakdown r)) /\ Forall (fun b => unit_interval (weighted_score b)) (signal_breakdown r))
  (retrieved_of catalog c es top_k).
Proof.
  apply Forall_forall. intros r (x & -> & Hx)%list_elem_of_fmap.
  assert (Hin : x ∈ ranking catalog c es) by (rewrite <- (firstn_skipn (Z.to_nat top_k)); apply elem_of_app; by left).
  unfold ranking in Hin. apply elem_of_sorted_by, list_elem_of_fmap in Hin as (e & -> & _).
  cbn [explained re_overall_score signal_breakdown score_of overall_score signal_scores]. split_and!.
  - apply unit_overall.
  - rewrite breakdown_signals. apply (bool_decide_unpack _). by vm_compute.
  - apply unit_breakdown.
Qed.
Lemma length_ranking es : length (ranking catalog c es) = length es.
Proof. unfold ranking. by rewrite length_sorted_by, length_map. Qed.
Lemma length_retrieved es top_k : length (retrieved_of catalog c es top_k) = Nat.min (Z.to_nat top_k) (length es).
Proof. unfold retrieved_of. by rewrite length_map, length_firstn, length_ranking. Qed.
Lemma collect_Ret latency top_k es : (0 <= latency)%Q -> 0 < top_k -> Z.of_nat (length es) <= 2 ^ 53 ->
  collect latency top_k (Z.of_nat (length es)) (retrieved_of catalog c es top_k)
  = Ret (statistics_of latency top_k es (retrieved_of catalog c es top_k)).
Proof.
  intros Hl Hk Hlen. pose proof (explained_good es top_k) as Hgood. pose proof (length_retrieved es top_k) as Hlr.
  set (rs := retrieved_of catalog c es top_k) in *.
  assert (Hn : Z.of_nat (length rs) <= 2 ^ 53) by lia.
  assert (Hc : signal_contribution_of rs = Ret (signal_contribution (statistics_of latency top_k es rs))).
  { unfold signal_contribution_of, statistics_of. cbn [signal_contribution]. destruct rs as [|r rs']; [done|].
    apply contributions_Ret; [apply length_Q_pos|]. intros s t Hst.
    apply (totals_bound (r :: rs') 0 [] ltac:(lia) ltac:(lia)) with s; [|done|].
    - eapply Forall_impl; [exact Hgood|]. intros x Hx. apply Hx.
    - apply alist_elem_get; [|exact Hst]. apply add_entry_NoDup. constructor. }
  unfold collect. rewrite Hc. cbn [obind]. unfold RetrievalStatistics_init.
  rewrite (proj2 (fleb_spec 0 latency) Hl), (proj2 (Z.ltb_lt 0 top_k) Hk), unit_field_spec.
  2: { apply average_unit; [|done]. eapply Forall_impl; [exact Hgood|]. intros x Hx. apply Hx. }
  rewrite (proj2 (Z.leb_le 0 (Z.of_nat (length es)))) by lia. done.
Qed.
End Sound.

(** ** The engine computes the pure retrieval *)
Section Refinement.
Context {W : Type} `{RetrievalState W}.
Context (library : prog W exn QueryExampleLibrary) (knowledge : option (prog W exn BusinessKnowledgeCatalog)).
Context (lib : QueryExampleLibrary) (catalog : option BusinessKnowledgeCatalog).

(** Both registries are loaded, and every cached feature set is the one of the library's example
    with that id under the loaded catalog. *)
Record ready (w : W) : Prop := {
  rd_library : snapshot w = Some lib;
  rd_knowledge : match knowledge with Some _ => snapshot w = catalog /\ catalog <> None | None => catalog = None end;
  rd_features : forall i f, feature_cache w !! i = Some f -> forall e, e ∈ examples lib -> ex_id e = i -> f = features catalog e }.
(** Whatever else holds of the world and depends on neither the feature cache nor the clock. *)
Context (Frame : W -> Prop) (Hcache : forall c w, Frame w -> Frame (set_feature_cache c w))
  (Hclock : forall w, Frame w -> Frame (snd (tick w))).
Definition ready_with (w : W) : Prop := ready w /\ Frame w.
(** ... and it is no earlier than [started]. *)
Definition since (started : Q) (w : W) : Prop := ready_with w /\ (started <= now w)%Q.
Context (Hnd : NoDup (map ex_id (examples lib))) (started : Q).
Abbreviation runs := (runs (since started)).

Lemma canonical_terms_spec k terms :
  canonical_terms terms (Some k) = Ret (canonical (Some k) terms).
Proof.
  induction terms as [|t terms IH]; [done|]. cbn [canonical_terms]. unfold registry_resolve. cbn [knowledge_loaded obind].
  rewrite IH. reflexivity.
Qed.
Lemma canonicalize_runs terms : runs (canonicalize knowledge terms) (canonical catalog terms).
Proof.
  intros w Hw. exists w. split; [|done]. destruct Hw as [[[_ Hk _] _] _]. unfold canonicalize. destruct knowledge as [source|].
  - destruct Hk as [-> Hc]. destruct catalog as [k|]; [|done]. by rewrite canonical_terms_spec.
  - rewrite Hk. reflexivity.
Qed.
Lemma example_features_runs e : e ∈ examples lib -> runs (example_features knowledge e) (features catalog e).
Proof using Hnd Hcache.
  intros He w Hw. unfold example_features. destruct (feature_cache w !! ex_id e) as [f|] eqn:E.
  - exists w. split; [|done]. destruct Hw as [[[_ _ Hf] _] _]. by rewrite (Hf _ _ E e He eq_refl).
  - destruct (canonicalize_runs (ex_business_concepts e) w Hw) as (w1 & E1 & [[[Hl Hk Hf] HF] Ht]).
    eexists. split; [by rewrite (bind_ret_eq _ _ _ _ _ E1)|]. split; [split; [split|]|].
    + by rewrite features_keep_library.
    + rewrite features_keep_knowledge. exact Hk.
    + intros i f Hi e' He' Hid. rewrite feature_cache_set in Hi. destruct (decide (ex_id e = i)) as [Heq|Hne].
      * rewrite Heq, lookup_insert_eq in Hi. injection Hi as <-. rewrite (NoDup_map_inj ex_id _ e' e Hnd He' He); [done|congruence].
      * rewrite lookup_insert_ne in Hi by done. by eapply Hf.
    + by apply Hcache.
    + by rewrite features_keep_now.
Qed.
Lemma perf_counter_ready w : ready_with w ->
  exists t w', perf_counter w = (Ret t : outcome exn Q, w') /\ ready_with w' /\ (now w <= t <= now w')%Q.
Proof using Hclock.
  intros [[Hl Hk Hf] HF]. pose proof (Hclock w HF) as HF'. unfold perf_counter. destruct (tick w) as [t w'] eqn:E. exists t, w'.
  pose proof (tick_now w) as T1. pose proof (tick_later w) as T2. pose proof (clock_keeps_features w) as Kf.
  pose proof (clock_keeps_knowledge w) as Kk. pose proof (clock_keeps_library w) as Kl.
  rewrite E in T1, T2, Kf, Kk, Kl. cbn [fst snd] in *. split_and!; [done| |done|done]. split; [|done]. split; rewrite ?Kl, ?Kk, ?Kf; done.
Qed.
Lemma compute_runs c e s : e ∈ examples lib -> runs (compute knowledge c e s) (result_of catalog c e s).
Proof using Hnd Hcache.
  intros He. destruct s; cbn [compute result_of]; try apply runs_ret;
    try (eapply runs_bind; [by apply example_features_runs|apply runs_ret]).
  eapply runs_bind; [apply canonicalize_runs|]. eapply runs_bind; [by apply example_features_runs|apply runs_ret].
Qed.
Lemma entry_of_Ret c e s : entry_of s (result_of catalog c e s) = Ret (pure_entry s (result_of catalog c e s)).
Proof.
  unfold entry_of, SignalBreakdown_init. cbv zeta. pose proof (unit_result catalog c e s) as Hr. pose proof (unit_weight s) as Hw.
  rewrite !unit_field_spec; [done|apply (unit_fmul _ _ Hr Hw)|apply Hw|apply Hr].
Qed.
Lemma score_runs c e : e ∈ examples lib -> runs (score knowledge c e) (score_of catalog c e).
Proof using Hnd Hcache.
  intros He. unfold score. eapply runs_bind.
  - apply (runs_mapM _ _ (fun s => pure_entry s (result_of catalog c e s))). intros s _.
    eapply runs_bind; [by apply compute_runs|]. apply runs_lift, entry_of_Ret.
  - apply runs_lift. unfold RetrievalScore_init. rewrite unit_field_spec; [done|]. apply (unit_overall catalog c e).
Qed.
Lemma build_runs c e : e ∈ examples lib ->
  runs (build knowledge c (e, score_of catalog c e)) (explained catalog c (e, score_of catalog c e)).
Proof using Hnd Hcache.
  intros He. unfold build. eapply runs_bind; [apply canonicalize_runs|].
  do 3 (eapply runs_bind; [by apply example_features_runs|]).
  apply runs_lift. unfold RetrievedExample_init. rewrite unit_field_spec; [done|]. apply (unit_overall catalog c e).
Qed.
Lemma ranked_elem c top_k x : x ∈ firstn (Z.to_nat top_k) (ranking catalog c (examples lib)) ->
  exists e, e ∈ examples lib /\ x = (e, score_of catalog c e).
Proof.
  intros Hx. assert (Hin : x ∈ ranking catalog c (examples lib)).
  { rewrite <- (firstn_skipn (Z.to_nat top_k)). apply elem_of_app. by left. }
  unfold ranking in Hin. apply elem_of_sorted_by, list_elem_of_fmap in Hin as (e & -> & He). eauto.
Qed.
Lemma elapsed_runs w : since started w ->
  exists t w', elapsed_ms started w = (Ret t : outcome exn Q, w') /\ ready_with w' /\ (0 <= t)%Q.
Proof using Hclock.
  intros [Hw Hs]. destruct (perf_counter_ready w Hw) as (t & w' & E & Hw' & Ht & _). unfold elapsed_ms.
  rewrite (bind_ret_eq _ _ _ _ _ E). eexists _, w'. split_and!; [done|done|].
  apply fmul_nonneg; [apply fsub_nonneg; lra|done].
Qed.
Lemma registries_run : runs (load_ library) lib /\
  runs (match knowledge with Some source => let! _ := load_knowledge source in ret tt | None => ret tt end) tt.
Proof.
  split; [intros w Hw; exists w; split; [apply load_snapshot_cached, Hw|done]|].
  intros w Hw. exists w. split; [|done]. destruct Hw as [[[_ Hk _] _] _]. destruct knowledge as [source|]; [|done].
  destruct Hk as [Hk Hc]. destruct catalog as [k|]; [|done].
  unfold load_knowledge. by rewrite (bind_ret_eq _ _ w k w (load_snapshot_cached _ _ _ Hk)).
Qed.
Lemma scored_run c : runs (mapM (fun e => let! s := score knowledge c e in ret (e, s)) (examples lib))
  (map (fun e => (e, score_of catalog c e)) (examples lib)).
Proof using Hnd Hcache.
  apply (runs_mapM _ _ (fun e => (e, score_of catalog c e))). intros e He.
  eapply runs_bind; [by apply score_runs|apply runs_ret].
Qed.
End Refinement.

Lemma retrieve_runs {W} `{RetrievalState W} library knowledge lib catalog (Frame : W -> Prop) c top_k (w : W) :
  (forall c w, Frame w -> Frame (set_feature_cache c w)) -> (forall w, Frame w -> Frame (snd (tick w))) ->
  ready_with knowledge lib catalog Frame w -> NoDup (map ex_id (examples lib)) -> Z.of_nat (length (examples lib)) <= 2 ^ 53 ->
  let k := match top_k with Some k => k | None => DEFAULT_TOP_K end in 0 < k ->
  exists latency w', ready_with knowledge lib catalog Frame w' /\ (0 <= latency)%Q /\
    retrieve library knowledge c top_k w =
      (Ret {| linked_query_context := c; retrieved_examples := retrieved_of catalog c (examples lib) k;
              rb_statistics := statistics_of latency k (examples lib) (retrieved_of catalog c (examples lib) k) |}, w').
Proof.
  intros Hcache Hclock Hw Hnd Hlen k Hk. unfold retrieve. fold k. rewrite (proj2 (Z.leb_gt k 0) Hk).
  destruct (perf_counter_ready knowledge lib catalog Frame Hclock w Hw) as (started & w0 & E0 & Hw0 & _ & Hs0).
  rewrite (bind_ret_eq _ _ _ _ _ E0). clear E0.
  set (I := since knowledge lib catalog Frame started). assert (HI : I w0) by (split; done).
  destruct (proj1 (registries_run library knowledge lib catalog Frame started) w0 HI) as (w1 & E1 & Hw1).
  rewrite (bind_ret_eq _ _ _ _ _ E1). clear E1.
  destruct (proj2 (registries_run library knowledge lib catalog Frame started) w1 Hw1) as (w2 & E2 & Hw2).
  rewrite (bind_ret_eq _ _ _ _ _ E2). clear E2.
  assert (E3 : find_examples (snapshot w2) (fun _ => true) = Ret (examples lib)).
  { destruct Hw2 as [[[Hl _ _] _] _]. rewrite Hl. unfold find_examples. cbn [library_loaded obind].
    by rewrite (forallb_filter_id (fun _ => true) (examples lib)) by by apply forallb_forall. }
  rewrite (bind_ret_eq _ _ _ (examples lib) w2) by (by rewrite E3). clear E3.
  destruct (scored_run knowledge lib catalog Frame Hcache Hnd started c w2 Hw2) as (w3 & E3 & Hw3).
  rewrite (bind_ret_eq _ _ _ _ _ E3). clear E3.
  rewrite (bind_ret_eq _ _ _ (firstn (Z.to_nat k) (ranking catalog c (examples lib))) w3).
  2: { unfold lift, rank. by rewrite (proj2 (Z.leb_gt k 0) Hk). }
  assert (R4 : runs I (mapM (build knowledge c) (firstn (Z.to_nat k) (ranking catalog c (examples lib))))
                 (retrieved_of catalog c (examples lib) k)).
  { apply (runs_mapM _ _ (explained catalog c)). intros x Hx. apply ranked_elem in Hx as (e & He & ->). by apply build_runs. }
  destruct (R4 w3 Hw3) as (w4 & E4 & Hw4). rewrite (bind_ret_eq _ _ _ _ _ E4). clear E4.
  destruct (elapsed_runs knowledge lib catalog Frame Hclock started w4 Hw4) as (latency & w5 & E5 & Hw5 & Hlat).
  rewrite (bind_ret_eq _ _ _ _ _ E5). clear E5. exists latency, w5. split_and!; [done|done|].
  rewrite (bind_ret_eq _ _ _ (statistics_of latency k (examples lib) (retrieved_of catalog c (examples lib) k)) w5); [done|].
  unfold lift. by rewrite collect_Ret.
Qed.

(** ** The ranking *)
Lemma rank_asym x y : rank_ltb x y = true -> rank_ltb y x = false.
Proof. apply desc_asym, str_ltb_asym. Qed.
Lemma item_rank_geb_trans x y z : rank_ltb y x = false -> rank_ltb z y = false -> rank_ltb z x = false.
Proof. apply desc_geb_trans, str_geb_trans. Qed.
Section Ranking.
Context (catalog : option BusinessKnowledgeCatalog) (c : LinkedQueryContext).
Abbreviation before := (not_after rank_ltb rank_key).
Abbreviation pair_of := (fun e => (e, score_of catalog c e)).

Lemma ranking_sorted es : StronglySorted before (ranking catalog c es).
Proof. apply sorted_by_sorted; [exact rank_asym|exact item_rank_geb_trans]. Qed.
Lemma ranking_perm es : ranking catalog c es ≡ₚ map pair_of es.
Proof. apply sorted_by_perm. Qed.
(** Two entries that rank no later than each other are the same, when ids are distinct. *)
Lemma before_antisym es x y : NoDup (map ex_id es) -> x ∈ map pair_of es -> y ∈ map pair_of es ->
  before x y -> before y x -> x = y.
Proof.
  intros Hnd Hx Hy Hxy Hyx. unfold not_after, rank_ltb in Hxy, Hyx.
  pose proof (desc_antisym str_ltb (rank_key x) (rank_key y) str_antisym Hyx Hxy) as Hid. clear Hxy Hyx.
  apply list_elem_of_fmap in Hx as (e & -> & He), Hy as (e' & -> & He'). cbn [rank_key fst snd] in Hid.
  rewrite (NoDup_map_inj ex_id _ _ _ Hnd He He' Hid). reflexivity.
Qed.
Lemma ranking_order_independent es es' : NoDup (map ex_id es) -> es' ≡ₚ es -> ranking catalog c es' = ranking catalog c es.
Proof.
  intros Hnd Hp. apply (StronglySorted_unique_strong before); try apply ranking_sorted.
  - intros x y Hx Hy. apply (before_antisym es); [done| |].
    + rewrite ranking_perm in Hx. by rewrite <- Hp.
    + by rewrite ranking_perm in Hy.
  - by rewrite !ranking_perm, Hp.
Qed.

(** [a] ranks before [b]: a higher score, or the same score and a smaller id. *)
Definition ranks_before (a b : RetrievedExample) : Prop :=
  (re_overall_score b < re_overall_score a)%Q \/
  (re_overall_score a == re_overall_score b)%Q /\ str_ltb (ex_id (re_example a)) (ex_id (re_example b)) = true.
Lemma explained_score x : re_overall_score (explained catalog c x) = overall_score (snd x).
Proof. destruct x. reflexivity. Qed.
Lemma explained_example x : re_example (explained catalog c x) = fst x.
Proof. destruct x. reflexivity. Qed.
Lemma before_ranks es x y : NoDup (map ex_id es) -> x ∈ map pair_of es -> y ∈ map pair_of es ->
  before x y -> x <> y -> ranks_before (explained catalog c x) (explained catalog c y).
Proof.
  intros Hnd Hx Hy Hb Hne. pose proof Hb as Hb'. unfold not_after, rank_ltb in Hb'.
  unfold ranks_before. rewrite !explained_score, !explained_example.
  apply desc_geb in Hb' as [Hs|[Hs Hid]]; [left; exact Hs|right]. split; [exact Hs|].
  destruct (str_ltb (ex_id (fst x)) (ex_id (fst y))) eqn:E; [reflexivity|]. exfalso. apply Hne.
  apply (before_antisym es); [exact Hnd|exact Hx|exact Hy|exact Hb|]. unfold not_after, rank_ltb. apply desc_geb.
  right. split; [symmetry; exact Hs|exact E].
Qed.
Lemma ranked_NoDup es : NoDup (map ex_id es) -> NoDup (ranking catalog c es).
Proof.
  intros Hnd. rewrite ranking_perm. apply (NoDup_fmap_1 (fun x => ex_id (fst x))). by rewrite <- list_fmap_compose.
Qed.
End Ranking.

Lemma StronglySorted_split {A} (R : A -> A -> Prop) l1 l2 : StronglySorted R (l1 ++ l2) ->
  StronglySorted R l1 /\ forall x y, x ∈ l1 -> y ∈ l2 -> R x y.
Proof.
  induction l1 as [|x l1 IH]; cbn [app]; intros Hs.
  { split; [constructor|]. intros x y Hx. by apply elem_of_nil in Hx. }
  inversion Hs as [|? ? Hs' Hx]; subst. destruct (IH Hs') as [H1 H2]. rewrite Forall_forall in Hx. split.
  - constructor; [done|]. apply Forall_forall. intros y Hy. apply Hx, elem_of_app. by left.
  - intros z y [->|Hz]%elem_of_cons Hy; [apply Hx, elem_of_app; by right|by apply H2].
Qed.
Lemma StronglySorted_map_NoDup {A B} (R : A -> A -> Prop) (R' : B -> B -> Prop) (f : A -> B) l :
  NoDup l -> StronglySorted R l -> (forall x y, x ∈ l -> y ∈ l -> R x y -> x <> y -> R' (f x) (f y)) -> StronglySorted R' (map f l).
Proof.
  intros Hnd Hs. induction Hs as [|x l Hs IH Hx]; intros H; cbn [map]; [constructor|].
  apply NoDup_cons in Hnd as [Hn Hnd]. rewrite Forall_forall in Hx. constructor.
  - apply IH; [done|]. intros y z Hy Hz. apply H; by right.
  - apply Forall_forall. intros z (y & -> & Hy)%list_elem_of_fmap. apply H; [left|by right|by apply Hx|]. intros ->. done.
Qed.

(** ** Properties *)
(** C23. [RetrievalEngine.retrieve] refines the pure retrieval: with both registries loaded and a
    feature cache that holds only features of the library's examples, it returns for every
    linked question the explanations of the [top_k] best ranked examples with the statistics of
    the run, raises no exception (no score, weight, average or contribution leaves the bounds of
    its model, in floating point), and leaves the cache in that state, so that the answer does
    not depend on what was asked before. A [top_k] that is not positive raises
    [InvalidTopKError] and changes nothing. *)
Theorem retrieve_refines_spec {W} `{RetrievalState W} library knowledge lib catalog c top_k (w : W) :
  ready knowledge lib catalog w -> NoDup (map ex_id (examples lib)) -> Z.of_nat (length (examples lib)) <= 2 ^ 53 ->
  let k := match top_k with Some k => k | None => DEFAULT_TOP_K end in
  if k <=? 0 then retrieve library knowledge c top_k w = (Raise (InvalidTopKError k), w)
  else exists latency w', ready knowledge lib catalog w' /\ (0 <= latency)%Q /\
    retrieve library knowledge c top_k w =
      (Ret {| linked_query_context := c; retrieved_examples := retrieved_of catalog c (examples lib) k;
              rb_statistics := statistics_of latency k (examples lib) (retrieved_of catalog c (examples lib) k) |}, w').
Proof.
  intros Hw Hnd Hlen k. destruct (k <=? 0) eqn:Hk.
  - unfold retrieve. fold k. by rewrite Hk.
  - apply Z.leb_gt in Hk. destruct (retrieve_runs library knowledge lib catalog (fun _ => True) c top_k w) as (l & w' & [Hr _] & Hl & E);
      [done|done|by split|done..|]. by exists l, w'.
Qed.

(** C24. The ranking: a retrieval from a library with distinct ids returns the [top_k] best examples,
    or all of them when there are fewer. Every score is between 0 and 1; the examples come
    strictly ordered by score and, among equal scores, by id; every example that is left out
    ranks after every one returned; and the result does not depend on the order in which the
    library lists its examples. *)
Theorem retrieved_are_the_best catalog c es es' k : NoDup (map ex_id es) -> es' ≡ₚ es ->
  let r := retrieved_of catalog c es k in
  length r = Nat.min (Z.to_nat k) (length es) /\
  Forall (fun x => re_example x ∈ es /\ x = explained catalog c (re_example x, score_of catalog c (re_example x)) /\
                   (0 <= re_overall_score x <= 1)%Q) r /\
  StronglySorted ranks_before r /\
  (forall x e, x ∈ r -> e ∈ es -> e ∉ map re_example r -> ranks_before x (explained catalog c (e, score_of catalog c e))) /\
  retrieved_of catalog c es' k = r.
Proof.
  intros Hnd Hp r. pose proof (ranking_sorted catalog c es) as Hs. pose proof (ranking_perm catalog c es) as Hperm.
  pose proof (ranked_NoDup catalog c es Hnd) as HndR. set (n := Z.to_nat k) in *.
  rewrite <- (firstn_skipn n (ranking catalog c es)) in Hs, Hperm, HndR.
  destruct (StronglySorted_split _ _ _ Hs) as [Hs1 Hs2]. apply NoDup_app in HndR as (Hnd1 & Hdisj & _).
  assert (Hin1 : forall x, x ∈ firstn n (ranking catalog c es) -> x ∈ map (fun e => (e, score_of catalog c e)) es).
  { intros x Hx. rewrite <- Hperm. apply elem_of_app. by left. }
  assert (Hin2 : forall x, x ∈ skipn n (ranking catalog c es) -> x ∈ map (fun e => (e, score_of catalog c e)) es).
  { intros x Hx. rewrite <- Hperm. apply elem_of_app. by right. }
  split_and!.
  - apply length_retrieved.
  - apply Forall_forall. intros x (y & -> & Hy)%list_elem_of_fmap. apply Hin1, list_elem_of_fmap in Hy as (e & -> & He).
    rewrite explained_example, explained_score. cbn [fst snd]. split; [exact He|]. split; [reflexivity|apply unit_overall].
  - apply (StronglySorted_map_NoDup (not_after rank_ltb rank_key)); [exact Hnd1|exact Hs1|]. intros x y Hx Hy Hb Hne.
    apply (before_ranks catalog c es); [exact Hnd|apply Hin1, Hx|apply Hin1, Hy|exact Hb|exact Hne].
  - intros x e (y & -> & Hy)%list_elem_of_fmap He Hnot.
    assert (Hse : (e, score_of catalog c e) ∈ skipn n (ranking catalog c es)).
    { assert (Hall : (e, score_of catalog c e) ∈ map (fun e => (e, score_of catalog c e)) es)
        by exact (list_elem_of_fmap_2 (fun e => (e, score_of catalog c e)) es e He).
      rewrite <- Hperm, elem_of_app in Hall. destruct Hall as [Hf|Hf]; [|done]. destruct Hnot.
      apply list_elem_of_fmap. exists (explained catalog c (e, score_of catalog c e)).
      split; [by rewrite explained_example|]. unfold r, retrieved_of. apply list_elem_of_fmap_2. exact Hf. }
    apply (before_ranks catalog c es); [exact Hnd|apply Hin1, Hy|apply Hin2, Hse|exact (Hs2 _ _ Hy Hse)|]. intros ->. exact (Hdisj _ Hy Hse).
  - unfold r, retrieved_of. by rewrite (ranking_order_independent catalog c es es').
Qed.

Module RetrievalDemo.
Record World := { kn : option BusinessKnowledgeCatalog; lb : option QueryExampleLibrary; ft : gmap string ExampleFeatures; ck : Z }.
#[export] Instance demo_knowledge : SnapshotCache World BusinessKnowledgeCatalog.
Proof. by refine {| snapshot := kn; set_snapshot s w := {| kn := s; lb := lb w; ft := ft w; ck := ck w |} |}. Defined.
#[export] Instance demo_library : SnapshotCache World QueryExampleLibrary.
Proof. by refine {| snapshot := lb; set_snapshot s w := {| kn := kn w; lb := s; ft := ft w; ck := ck w |} |}. Defined.
#[export] Instance demo_clock : Clock World :=
  fun w => (inject_Z (ck w), {| kn := kn w; lb := lb w; ft := ft w; ck := ck w + 1 |}).
#[export] Instance demo_state : RetrievalState World.
Proof.
  refine {| feature_cache := ft; set_feature_cache c w := {| kn := kn w; lb := lb w; ft := c; ck := ck w |};
            now w := inject_Z (ck w) |}; intros; cbn; first [reflexivity|apply Qle_refl|apply inject_le; lia].
Defined.
Definition lib : QueryExampleLibrary := {| examples := LibraryDemo.catalog; lib_loaded_at := 0 |}.
Definition world : World := {| kn := None; lb := Some lib; ft := ∅; ck := 0 |}.
Definition source (l : QueryExampleLibrary) : prog World exn QueryExampleLibrary := ret l.
Definition question : LinkedQueryContext :=
  {| query_context := {| original_question := "total revenue"; normalized_question := "total revenue"; intent := I_SUM;
       qc_primary_entity := None; qc_secondary_entities := []; business_concepts := ["revenue"]; qc_metrics := [];
       qc_dimensions := []; qc_filters := []; time_expression := None; qc_sort := None; limit := None;
       aggregation := Some AGG_SUM; ContextModels.confidence := 1%Q |};
     primary_entity := None; secondary_entities := []; lq_metrics := []; lq_dimensions := []; lq_filters := [];
     lq_sort := None; relationship_paths := []; ambiguities := [] |}.
Lemma demo_world_ready : ready None lib None world.
Proof. split; [reflexivity|reflexivity|]. intros i f Hf. cbn in Hf. by rewrite lookup_empty in Hf. Qed.
(** The same example with another question, as a refresh of the library may bring it. *)
Definition rewritten : QueryExampleLibrary :=
  {| examples := [LibraryDemo.example "a" "stock per warehouse" "SELECT 1"]; lib_loaded_at := 1 |}.
Definition first_example : QueryExample := LibraryDemo.example "a" "total revenue" "SELECT sum(total_amount) FROM orders".
(** The features that signals and explanations use, before and after a refresh. *)
Definition ask_refresh_ask : prog World exn (ExampleFeatures * ExampleFeatures) :=
  let! before := example_features None first_example in
  let! _ := refresh_library (source rewritten) in
  let! e := fun w => (get_example (snapshot w) "a", w) in
  let! after := example_features None e in ret (before, after).
End RetrievalDemo.
#[local] Existing Instances RetrievalDemo.demo_knowledge RetrievalDemo.demo_library RetrievalDemo.demo_clock RetrievalDemo.demo_state.

Lemma retrieve_refines_spec_witness :
  exists latency w', (0 <= latency)%Q /\
    retrieve (RetrievalDemo.source RetrievalDemo.lib) None RetrievalDemo.question (Some 1) RetrievalDemo.world
    = (Ret {| linked_query_context := RetrievalDemo.question;
              retrieved_examples := retrieved_of None RetrievalDemo.question LibraryDemo.catalog 1;
              rb_statistics := statistics_of latency 1 LibraryDemo.catalog (retrieved_of None RetrievalDemo.question LibraryDemo.catalog 1) |}, w').
Proof.
  destruct (retrieve_refines_spec (RetrievalDemo.source RetrievalDemo.lib) None RetrievalDemo.lib None RetrievalDemo.question (Some 1)
    RetrievalDemo.world RetrievalDemo.demo_world_ready) as (latency & w' & _ & Hl & E).
  - apply (bool_decide_unpack _). vm_compute. reflexivity.
  - vm_compute. discriminate.
  - exists latency, w'. split; [exact Hl|exact E].
Defined.
Lemma retrieved_are_the_best_witness :
  length (retrieved_of None RetrievalDemo.question LibraryDemo.catalog 1) = 1%nat /\
  retrieved_of None RetrievalDemo.question (rev LibraryDemo.catalog) 1 = retrieved_of None RetrievalDemo.question LibraryDemo.catalog 1.
Proof.
  destruct (retrieved_are_the_best None RetrievalDemo.question LibraryDemo.catalog (rev LibraryDemo.catalog) 1) as (Hl & _ & _ & _ & E).
  - apply (bool_decide_unpack _). vm_compute. reflexivity.
  - symmetry. apply Permutation_rev.
  - split; [exact Hl|exact E].
Defined.

(** The feature cache is keyed by the example's id alone and no refresh clears it: after the
    library is refreshed with another text for the same id, the features by which that example
    is scored and explained are still those of the old text. *)
Theorem features_survive_refresh :
  exists f, fst (RetrievalDemo.ask_refresh_ask RetrievalDemo.world) = Ret (f, f) /\
    f = features None RetrievalDemo.first_example /\
    exists e, get_example (Some RetrievalDemo.rewritten) "a" = Ret e /\ "warehouse" ∈ keyword_set (features None e) /\ "warehouse" ∉ keyword_set f.
Proof.
  exists (features None RetrievalDemo.first_example). split; [vm_compute; reflexivity|]. split; [reflexivity|].
  eexists. split; [reflexivity|]. split; apply (bool_decide_unpack _); vm_compute; reflexivity.
Qed.
