(* ===== verification/Understanding.v ===== *)
(** * The front end: from a question to its retrieved knowledge

    The first four stages of [PipelineRunner] ([orchestrator/pipeline.py]) in one world: a
    question is parsed, its concepts are linked to the schema, the business knowledge is loaded
    and the examples closest to the question are retrieved. The linker keeps its candidate cache
    and the retrieval engine its feature cache from one question to the next. The linker's own
    specification asks that the concepts it is given agree wherever the cache key agrees
    ([SchemaLinker.consistent]); the parser promises more than that, since every concept it
    finds is a word of its vocabularies. *)
From S2P Require Import Prelude PyFloat PyStr Difflib Models ContextModels Metadata ConceptMatcher JoinPaths SchemaLinker.
From S2P Require Import Catalogs BusinessKnowledge QueryLibrary Regex Retrieval NluTime Nlu.
#[local] Open Scope string_scope.
#[local] Open Scope Z_scope.

(** [DefaultTimeExtractor.__init__] reads the clock, [reference_date or date.today()], and
    [QueryParser.__init__] builds it; [parse] never does. *)
Record QueryParser := { reference_date : PyDate }.
Definition new_parser (reference : option PyDate) (today : PyDate) : QueryParser :=
  {| reference_date := match reference with Some r => r | None => today end |}.

(** The caches of the linker and of the retrieval engine are different objects, and reading the
    clock touches neither. *)
Class FrontState (W : Type) `{LinkerCacheState W} `{RetrievalState W} := {
  linker_keeps_features : forall c w, feature_cache (set_linker_cache c w) = feature_cache w;
  linker_keeps_knowledge : forall c w, snapshot (T:=BusinessKnowledgeCatalog) (set_linker_cache c w) = snapshot w;
  linker_keeps_library : forall c w, snapshot (T:=QueryExampleLibrary) (set_linker_cache c w) = snapshot w;
  features_keep_linker : forall c w, linker_cache (set_feature_cache c w) = linker_cache w;
  features_keep_metadata : forall c w, metadata_cache (set_feature_cache c w) = metadata_cache w;
  clock_keeps_linker : forall w, linker_cache (snd (tick w)) = linker_cache w;
  clock_keeps_metadata : forall w, metadata_cache (snd (tick w)) = metadata_cache w }.

Section FrontEnd.
Context `{PySet} {W : Type} `{FrontState W}.
Context (extractor : prog W exn DatabaseMetadata) (dictionary : option ColumnDictionary).
Context (library : prog W exn QueryExampleLibrary) (catalog_source : prog W exn BusinessKnowledgeCatalog).

(** [query_context = parse(question); linked_context = link(query_context);
    business_knowledge_registry.load(); bundle = retrieve(linked_context)] *)
Definition prepare (parser : QueryParser) (question : string) : prog W exn RetrievedKnowledgeBundle :=
  let! query_context := lift (parse (reference_date parser) question) in
  let! linked_context := link extractor dictionary query_context in
  let! _ := load_knowledge catalog_source in
  retrieve library (Some catalog_source) linked_context None.

(** Questions asked one after the other in one process, each with the day it is asked on. The
    container builds one parser when the process starts ([api/container.py]). *)
Fixpoint conversation (parser : QueryParser) (questions : list (PyDate * string)) (w : W)
  : list (outcome exn RetrievedKnowledgeBundle) * W :=
  match questions with
  | [] => ([], w)
  | (_, question) :: rest =>
      let '(o, w) := prepare parser question w in
      let '(os, w) := conversation parser rest w in (o :: os, w)
  end.
End FrontEnd.

(** ** The parser's concepts *)
Lemma vocabulary_is_consistent : consistent (fun c => c ∈ FIELD_NAMES).
Proof.
  assert (Hnd : NoDup (map normalize_concept (dedup FIELD_NAMES))).
  { apply (bool_decide_unpack _). vm_compute. exact I. }
  intros c c' Hc Hc' Hn. apply elem_of_dedup in Hc, Hc'.
  f_equal. exact (NoDup_map_inj _ _ _ _ Hnd Hc Hc' Hn).
Qed.

Lemma field_names_cases c :
  c ∈ map snd ENTITY_SYNONYMS \/ c ∈ map snd DIMENSION_SYNONYMS \/ c ∈ map snd METRIC_SYNONYMS -> c ∈ FIELD_NAMES.
Proof. intros Hc. unfold FIELD_NAMES. rewrite !elem_of_app. exact Hc. Qed.

(** Symbolic questions: conversion is not to run the extractors. *)
#[local] Opaque find_vocabulary_matches normalize classify extract_metrics extract_filters extract_sort extract_time extract_limit.
Lemma Ret_inj {E A} (a b : A) : @Ret E A a = Ret b -> a = b.
Proof. by intros [= ->]. Qed.
Lemma parsed_concepts today question q c : parse today question = Ret q -> c ∈ concepts_of q -> c ∈ FIELD_NAMES.
Proof.
  unfold parse. destruct (is_empty (strip question)); [discriminate|]. cbv zeta. set (n := normalize question).
  destruct (classify n) as [i conf]. destruct (extract_time today n) as [e|te]; [discriminate|]. cbn [obind].
  destruct (extract_limit n) as [e|l]; [discriminate|]. cbn [obind]. intros Hq. apply Ret_inj in Hq as <-. unfold concepts_of.
  cbn [qc_primary_entity qc_secondary_entities qc_metrics qc_dimensions qc_filters qc_sort]. rewrite !elem_of_app.
  assert (He : forall x, x ∈ names_of (find_vocabulary_matches n ENTITY_SYNONYMS) -> x ∈ FIELD_NAMES).
  { intros x Hx. apply field_names_cases. left. exact (vocabulary_name n ENTITY_SYNONYMS x Hx). }
  intros [Hc|[Hc|[Hc|[Hc|[Hc|Hc]]]]].
  - apply He. unfold extract_entities in Hc. cbn [er_primary] in Hc.
    destruct (names_of _) as [|x xs]; [by apply elem_of_nil in Hc|]. apply list_elem_of_singleton in Hc as ->. by left.
  - apply He. unfold extract_entities in Hc. cbn [er_secondary] in Hc.
    destruct (names_of _) as [|x xs]; [exact Hc|by right].
  - apply list_elem_of_fmap in Hc as (m & -> & Hm). apply field_names_cases. right; right. exact (extract_metrics_names _ _ Hm).
  - apply field_names_cases. right; left. unfold extract_entities in Hc. cbn [er_dimensions] in Hc. exact (vocabulary_name n DIMENSION_SYNONYMS c Hc).
  - apply list_elem_of_fmap in Hc as (f & -> & Hf). exact (proj1 (extract_filters_names _ _ Hf)).
  - destruct (extract_sort n _) as [s|] eqn:Es; [|by apply elem_of_nil in Hc].
    apply list_elem_of_singleton in Hc as ->. apply extract_sort_name in Es as [Hs|Hs]; [exact Hs|].
    apply list_elem_of_fmap in Hs as (m & -> & Hm). apply field_names_cases. right; right. exact (extract_metrics_names _ _ Hm).
Qed.

(** ** The composition *)
(** What a question means on its own, whatever was asked before. *)
Definition meaning `{PySet} (db : DatabaseMetadata) (catalog : BusinessKnowledgeCatalog) (lib : QueryExampleLibrary)
    (today : PyDate) (question : string) : outcome exn (LinkedQueryContext * list RetrievedExample) :=
  obind (parse today question) (fun q =>
    Ret (linked db q, retrieved_of (Some catalog) (linked db q) (examples lib) DEFAULT_TOP_K)).
(** An answer but for the latency in its statistics. *)
Definition content (o : outcome exn RetrievedKnowledgeBundle) : outcome exn (LinkedQueryContext * list RetrievedExample) :=
  obind o (fun b => Ret (linked_query_context b, retrieved_examples b)).

Section Conversation.
Context `{PySet} {W : Type} `{Front : FrontState W}.
Context (extractor : prog W exn DatabaseMetadata) (dictionary : option ColumnDictionary).
Context (library : prog W exn QueryExampleLibrary) (catalog_source : prog W exn BusinessKnowledgeCatalog).
Context (db : DatabaseMetadata) (catalog : BusinessKnowledgeCatalog) (lib : QueryExampleLibrary).
Context (Hne : tables db <> []) (Hnd : NoDup (map tbl_name (tables db))).
Context (Hids : NoDup (map ex_id (examples lib))) (Hlen : Z.of_nat (length (examples lib)) <= 2 ^ 53).
Abbreviation linker_ready := (SchemaLinker.ready db (fun c => c ∈ FIELD_NAMES)).
Abbreviation retrieval_ready := (Retrieval.ready (Some catalog_source) lib (Some catalog)).
Definition front_ready (w : W) : Prop := linker_ready w /\ retrieval_ready w.

(** Each engine leaves the other's state alone. *)
Lemma linker_frame c w : retrieval_ready w -> retrieval_ready (set_linker_cache c w).
Proof using Front. intros [Hl Hk Hf]. split; rewrite ?linker_keeps_library, ?linker_keeps_knowledge, ?linker_keeps_features; assumption. Qed.
Lemma retrieval_frame c w : linker_ready w -> linker_ready (set_feature_cache c w).
Proof using Front. intros [Hm Hc]. split; rewrite ?features_keep_metadata, ?features_keep_linker; assumption. Qed.
Lemma clock_frame w : linker_ready w -> linker_ready (snd (tick w)).
Proof using Front. intros [Hm Hc]. split; rewrite ?clock_keeps_metadata, ?clock_keeps_linker; assumption. Qed.

Lemma prepare_ready parser question (w : W) : front_ready w ->
  exists o w', prepare extractor dictionary library catalog_source parser question w = (o, w') /\
    content o = meaning db catalog lib (reference_date parser) question /\ front_ready w'.
Proof using Front Hne Hnd Hids Hlen.
  intros [Hl Hr]. unfold prepare, meaning, content. unfold bind at 1, lift.
  destruct (parse (reference_date parser) question) as [e|q] eqn:Eq; cbn [obind].
  { eexists _, w. split; [reflexivity|]. split; [reflexivity|by split]. }
  destruct (link_runs extractor dictionary db _ vocabulary_is_consistent retrieval_ready linker_frame q Hne Hnd) with w
    as (w1 & E1 & [Hl1 Hr1]).
  { intros c Hc. exact (parsed_concepts _ _ _ _ Eq Hc). }
  { by split. }
  rewrite (bind_ret_eq _ _ _ _ _ E1).
  rewrite (bind_ret_eq _ _ _ catalog w1) by exact (load_snapshot_cached catalog_source catalog w1 (proj1 (rd_knowledge _ _ _ _ Hr1))).
  destruct (retrieve_runs library (Some catalog_source) lib (Some catalog) linker_ready (linked db q) None w1
    retrieval_frame clock_frame (conj Hr1 Hl1) Hids Hlen eq_refl) as (latency & w2 & [Hr2 Hl2] & _ & E2).
  rewrite E2. eexists _, w2. split; [reflexivity|]. split; [reflexivity|by split].
Qed.

Lemma conversation_ready parser questions : forall (w : W), front_ready w ->
  exists os w', conversation extractor dictionary library catalog_source parser questions w = (os, w') /\
    map content os = map (fun q => meaning db catalog lib (reference_date parser) (snd q)) questions /\ front_ready w'.
Proof using Front Hne Hnd Hids Hlen.
  induction questions as [|[day question] rest IH]; intros w Hw; [by eexists _, w|].
  cbn [conversation map snd]. destruct (prepare_ready parser question w Hw) as (o & w1 & -> & Ho & Hw1).
  destruct (IH w1 Hw1) as (os & w2 & -> & Hos & Hw2). eexists _, w2. split; [reflexivity|].
  cbn [map]. rewrite Ho, Hos. by split.
Qed.
End Conversation.

(** ** Relative periods *)
(** The first phrase that occurs decides the period; the reference date only its bounds. *)
Fixpoint first_phrase (phrases : list (string * TimePeriod)) (q : string) : option (TimePeriod * string) :=
  match phrases with
  | [] => None
  | (phrase, period) :: rest =>
      match search (Word phrase) q with None => first_phrase rest q | Some m => Some (period, m_text m) end
  end.
Lemma extract_relative_phrase today phrases q :
  extract_relative today phrases q
  = match first_phrase phrases q with
    | None => Ret None
    | Some (period, text) => obind (bounds_for today period) (fun '(s, e) =>
        Ret (Some {| te_period := period; te_start_date := Some s; te_end_date := Some e; te_raw_text := text |}))
    end.
Proof.
  induction phrases as [|[phrase period] rest IH]; [reflexivity|]. cbn [extract_relative first_phrase].
  destruct (search (Word phrase) q); [reflexivity|exact IH].
Qed.

#[local] Transparent extract_time.
Lemma extract_time_today today question : extract_between question = None -> extract_before question = None ->
  extract_after question = None -> first_phrase (longest_first RELATIVE_PHRASES) question = Some (TODAY, "today") ->
  extract_time today question
  = Ret (Some {| te_period := TODAY; te_start_date := Some (date_ordinal today);
                 te_end_date := Some (date_ordinal today); te_raw_text := "today" |}).
Proof. intros H1 H2 H3 H4. unfold extract_time. by rewrite H1, H2, H3, extract_relative_phrase, H4. Qed.

#[local] Opaque extract_time.
Lemma parse_time today question q : parse today question = Ret q -> extract_time today (normalize question) = Ret (time_expression q).
Proof.
  unfold parse. destruct (is_empty (strip question)); [discriminate|]. cbv zeta. set (n := normalize question).
  destruct (classify n) as [i conf]. destruct (extract_time today n) as [e|te]; [discriminate|]. cbn [obind].
  destruct (extract_limit n) as [e|l]; [discriminate|]. cbn [obind]. intros Hq. by apply Ret_inj in Hq as <-.
Qed.

(** The front end has no memory: with the schema, the business knowledge and the example
    library loaded and the two caches empty, every question of a conversation of any length gets
    the answer it has on its own: its parse error, or the link of its parse by the linker's
    specification with the best examples for that link. Neither cache changes an answer, although
    the key of the candidate cache alone does not determine a match
    ([SchemaLinker.cache_key_too_coarse]): the concepts of the parser's vocabularies are told
    apart by it. *)
Theorem conversation_has_no_memory `{PySet} {W} `{FrontState W} extractor dictionary library catalog_source
    db catalog lib parser questions (w : W) :
  tables db <> [] -> NoDup (map tbl_name (tables db)) -> NoDup (map ex_id (examples lib)) ->
  Z.of_nat (length (examples lib)) <= 2 ^ 53 ->
  metadata_cache w = Some db -> snapshot w = Some catalog -> snapshot w = Some lib ->
  linker_cache w = ∅ -> feature_cache w = ∅ ->
  map content (fst (conversation extractor dictionary library catalog_source parser questions w))
  = map (fun q => meaning db catalog lib (reference_date parser) (snd q)) questions.
Proof.
  intros Hne Hnd Hids Hlen Hm Hk Hl Hc Hf.
  destruct (conversation_ready extractor dictionary library catalog_source db catalog lib Hne Hnd Hids Hlen parser questions w)
    as (os & w' & -> & Hos & _); [|exact Hos].
  split; [split; [exact Hm|]|split; [exact Hl|split; [exact Hk|discriminate]|]].
  - intros b k l. rewrite Hc, lookup_empty. discriminate.
  - intros i f. rewrite Hf, lookup_empty. discriminate.
Qed.

Module ConversationDemo.
Record World := { schema : option DatabaseMetadata; kn : option BusinessKnowledgeCatalog; lb : option QueryExampleLibrary;
                  links : gmap CacheKey (list LinkCandidate); ft : gmap string ExampleFeatures; ck : Z }.
#[export] Instance demo_set : PySet := LinkDemo.demo_set.
#[export] Instance demo_metadata : MetadataCacheState World.
Proof. by refine {| metadata_cache := schema; set_metadata_cache s w :=
  {| schema := s; kn := kn w; lb := lb w; links := links w; ft := ft w; ck := ck w |} |}. Defined.
#[export] Instance demo_linker : LinkerCacheState World.
Proof. by refine {| linker_cache := links; set_linker_cache c w :=
  {| schema := schema w; kn := kn w; lb := lb w; links := c; ft := ft w; ck := ck w |} |}. Defined.
#[export] Instance demo_knowledge : SnapshotCache World BusinessKnowledgeCatalog.
Proof. by refine {| snapshot := kn; set_snapshot s w :=
  {| schema := schema w; kn := s; lb := lb w; links := links w; ft := ft w; ck := ck w |} |}. Defined.
#[export] Instance demo_library : SnapshotCache World QueryExampleLibrary.
Proof. by refine {| snapshot := lb; set_snapshot s w :=
  {| schema := schema w; kn := kn w; lb := s; links := links w; ft := ft w; ck := ck w |} |}. Defined.
#[export] Instance demo_clock : Clock World := fun w =>
  (inject_Z (ck w), {| schema := schema w; kn := kn w; lb := lb w; links := links w; ft := ft w; ck := ck w + 1 |}).
#[export] Instance demo_retrieval : RetrievalState World.
Proof.
  refine {| feature_cache := ft; now w := inject_Z (ck w);
            set_feature_cache c w := {| schema := schema w; kn := kn w; lb := lb w; links := links w; ft := c; ck := ck w |} |};
    intros; cbn; first [reflexivity|apply Qle_refl|apply inject_le; lia].
Defined.
#[export] Instance demo_front : FrontState World.
Proof. by split. Defined.
Definition catalog : BusinessKnowledgeCatalog := {| concepts := []; BusinessKnowledge.loaded_at := 0 |}.
Definition lib : QueryExampleLibrary := {| examples := LibraryDemo.catalog; lib_loaded_at := 0 |}.
Definition world : World := {| schema := Some LinkDemo.db; kn := Some catalog; lb := Some lib; links := ∅; ft := ∅; ck := 0 |}.
Definition parser : QueryParser := new_parser None ParseDemo.today.
Definition questions : list (PyDate * string) :=
  [(ParseDemo.today, "revenue by status"); (ParseDemo.today, " "); (ParseDemo.today, "Revenue by status")].
End ConversationDemo.
#[local] Existing Instances ConversationDemo.demo_set ConversationDemo.demo_metadata ConversationDemo.demo_linker
  ConversationDemo.demo_knowledge ConversationDemo.demo_library ConversationDemo.demo_clock ConversationDemo.demo_retrieval
  ConversationDemo.demo_front.
Lemma conversation_has_no_memory_witness :
  map content (fst (conversation (ret LinkDemo.db) None (ret ConversationDemo.lib) (ret ConversationDemo.catalog)
    ConversationDemo.parser ConversationDemo.questions ConversationDemo.world))
  = map (fun q => meaning LinkDemo.db ConversationDemo.catalog ConversationDemo.lib ParseDemo.today (snd q)) ConversationDemo.questions.
Proof.
  apply (conversation_has_no_memory (ret LinkDemo.db) None (ret ConversationDemo.lib) (ret ConversationDemo.catalog) LinkDemo.db
    ConversationDemo.catalog ConversationDemo.lib ConversationDemo.parser ConversationDemo.questions ConversationDemo.world).
  - discriminate.
  - by apply (bool_decide_unpack _); vm_compute.
  - by apply (bool_decide_unpack _); vm_compute.
  - vm_compute. discriminate.
  - reflexivity.
  - reflexivity.
  - reflexivity.
  - reflexivity.
  - reflexivity.
Defined.

(** The clock is read when the parser is built and never again: a parser built on the day
    [started] without a reference date resolves "today" to [started] in a question asked on
    any later day. *)
Theorem today_is_the_day_the_parser_was_built started day q :
  date_ordinal started < date_ordinal day ->
  parse (reference_date (new_parser None started)) "orders placed today" = Ret q ->
  exists t, time_expression q = Some t /\ te_period t = TODAY /\ te_start_date t = Some (date_ordinal started) /\
    te_start_date t <> Some (date_ordinal day).
Proof.
  intros Hd Hq. pose proof (parse_time _ _ _ Hq) as Ht.
  rewrite extract_time_today in Ht by (vm_compute; reflexivity). apply Ret_inj in Ht as <-.
  eexists. split_and!; [reflexivity..|]. cbn [te_start_date reference_date new_parser default]. intros [= E].
  rewrite E in Hd. exact (Z.lt_irrefl _ Hd).
Qed.
Lemma today_is_the_day_the_parser_was_built_witness :
  exists q t, parse ParseDemo.today "orders placed today" = Ret q /\ time_expression q = Some t /\
    te_start_date t = Some (date_ordinal ParseDemo.today).
Proof.
  destruct (parse ParseDemo.today "orders placed today") as [e|q] eqn:E.
  { exfalso. assert (Hr : is_ret (parse ParseDemo.today "orders placed today") = true) by (vm_compute; reflexivity).
    rewrite E in Hr. discriminate Hr. }
  destruct (today_is_the_day_the_parser_was_built ParseDemo.today {| year := 2024; month := 3; day := 16 |} q) as (t & Ht & _ & Hs & _);
    [vm_compute; reflexivity|exact E|].
  exists q, t. split_and!; [reflexivity|exact Ht|exact Hs].
Defined.
