(* ===== verification/ApiWorld.v ===== *)
(** * The HTTP layer's data, client identification and the audit trail

    [querymind.api.client_info], [querymind.security.audit], [.repository] and [.models],
    over a world that holds the tables of [querymind.auth], the rate limiter's buckets,
    the [audit_log] table, [request.state] of every request in flight and the emitted log
    lines. *)
From S2P Require Import Prelude AsyncIO PyFloat PyStr Auth RateLimiter Models.
From Stdlib Require Import Ascii.
#[local] Set Warnings "-register-all".
#[local] Open Scope string_scope.
#[local] Open Scope Z_scope.

(** ** Requests

    [header] and [query_param] are the lookups Starlette offers; [oauth2_token] and
    [x_api_key] what FastAPI's two security schemes extract; [json_body] is [None] when
    [await request.json()] raises. [uid] identifies the request object. *)
Inductive json :=
| JNull
| JBool (b : bool)
| JNumber (text : string)
| JString (s : string)
| JList (l : list json)
| JDict (d : list (string * json)).
Record Request := {
  uid : nat; method : string; path : string;
  header : string -> option string;
  client_host : option string;
  oauth2_token : option string;
  x_api_key : option string;
  json_body : option json }.

(** [request.state]. *)
Record RequestState := {
  st_request_id : option string; st_correlation_id : option string; st_user : option UserRead }.
Definition fresh_state : RequestState :=
  {| st_request_id := None; st_correlation_id := None; st_user := None |}.

(** ** [security/models.py]: one row of [audit_log] *)
Record AuditEntry := {
  event_type : string; actor_user_id : option Z; actor_username : option string; success : bool;
  ip_address : option string; user_agent : option string;
  request_id : option string; correlation_id : option string; resource : option string;
  event_metadata : option (list (string * string)) }.
Record AuditLog := { entry : AuditEntry; created_at : Z }.

Inductive LogLine :=
| AuditLine (warning : bool) (row : AuditEntry)
| AuditWriteFailed (event : string)
| ErrorLine (message : string) (request_id : option string)
| UnhandledLine (path method : string).

Record ApiWorld := {
  auth : AuthDb;
  buckets : gmap string Bucket;
  audit_log : list AuditLog;
  states : gmap nat RequestState;
  emitted : list LogLine }.
Definition with_auth (d : AuthDb) (w : ApiWorld) : ApiWorld :=
  {| auth := d; buckets := buckets w; audit_log := audit_log w; states := states w; emitted := emitted w |}.
Definition with_buckets (b : gmap string Bucket) (w : ApiWorld) : ApiWorld :=
  {| auth := auth w; buckets := b; audit_log := audit_log w; states := states w; emitted := emitted w |}.
Definition with_audit_log (l : list AuditLog) (w : ApiWorld) : ApiWorld :=
  {| auth := auth w; buckets := buckets w; audit_log := l; states := states w; emitted := emitted w |}.
Definition with_states (s : gmap nat RequestState) (w : ApiWorld) : ApiWorld :=
  {| auth := auth w; buckets := buckets w; audit_log := audit_log w; states := s; emitted := emitted w |}.
Definition with_line (x : LogLine) (w : ApiWorld) : ApiWorld :=
  {| auth := auth w; buckets := buckets w; audit_log := audit_log w; states := states w;
     emitted := emitted w ++ [x] |}.
Definition state_of (rq : Request) (w : ApiWorld) : RequestState := default fresh_state (states w !! uid rq).
Definition with_state (rq : Request) (s : RequestState) (w : ApiWorld) : ApiWorld :=
  with_states (<[uid rq := s]> (states w)) w.

(** ** What a request may raise

    [Engine e] is any other exception of the engines; as everywhere, an exception is known
    by its class name. *)
Record ErrorDetails := { loc : list (string + Z); entries : list (string * json) }.
Inductive api_exn :=
| Auth_error (e : auth_exn)
| HTTPException (status_code : Z) (detail : string) (headers : list (string * string))
| RateLimitExceededError (message : string) (retry_after : seconds)
| RequestValidationError (errors : list ErrorDetails)
| PipelineError (message : string) (cause : option exn)
| Engine (e : exn).

Definition auth_class (e : auth_exn) : string :=
  match e with
  | InvalidCredentialsError _ => "InvalidCredentialsError" | InactiveUserError _ => "InactiveUserError"
  | DuplicateUserError _ => "DuplicateUserError" | InvalidTokenError _ => "InvalidTokenError"
  | TokenExpiredError _ => "TokenExpiredError" | RefreshTokenRevokedError _ => "RefreshTokenRevokedError"
  | InvalidApiKeyError _ => "InvalidApiKeyError" | ApiKeyExpiredError _ => "ApiKeyExpiredError"
  | ApiKeyRevokedError _ => "ApiKeyRevokedError" | ApiKeyNotFoundError _ => "ApiKeyNotFoundError"
  | ForbiddenRoleError _ => "ForbiddenRoleError" | InsufficientPermissionsError _ => "InsufficientPermissionsError"
  | IntegrityError => "IntegrityError" | AuthOther cls _ => cls
  end.
Definition auth_str (e : auth_exn) : string :=
  match e with
  | InvalidCredentialsError m | InactiveUserError m | DuplicateUserError m | InvalidTokenError m
  | TokenExpiredError m | RefreshTokenRevokedError m | InvalidApiKeyError m | ApiKeyExpiredError m
  | ApiKeyRevokedError m | ApiKeyNotFoundError m | ForbiddenRoleError m | InsufficientPermissionsError m
  | AuthOther _ m => m
  | IntegrityError => ""
  end.
(** [isinstance(exc, AuthenticationError)] and [isinstance(exc, AuthorizationError)]. *)
Definition is_AuthenticationError (e : auth_exn) : bool :=
  match e with
  | ForbiddenRoleError _ | InsufficientPermissionsError _ | IntegrityError | AuthOther _ _ => false
  | _ => true
  end.
Definition is_AuthorizationError (e : auth_exn) : bool :=
  match e with ForbiddenRoleError _ | InsufficientPermissionsError _ => true | _ => false end.
(** [isinstance(exc, Exception)]. *)
Definition catchable (e : api_exn) : bool := match e with Engine e => is_Exception e | _ => true end.
Definition class_name (e : api_exn) : string :=
  match e with
  | Auth_error e => auth_class e
  | HTTPException _ _ _ => "HTTPException"
  | RateLimitExceededError _ _ => "RateLimitExceededError"
  | RequestValidationError _ => "RequestValidationError"
  | PipelineError _ _ => "PipelineExecutionError"
  | Engine e => exn_class e
  end.

Abbreviation apico := (co ApiWorld api_exn).
Definition emit (x : LogLine) : apico unit := atomic (fun w => (Ret tt, with_line x w)).
Definition get_state (rq : Request) : apico RequestState := atomic (fun w => (Ret (state_of rq w), w)).
(** [request.state.user = user]. *)
Definition set_user (rq : Request) (u : UserRead) : apico unit := atomic (fun w =>
  (Ret tt, with_state rq {| st_request_id := st_request_id (state_of rq w);
                            st_correlation_id := st_correlation_id (state_of rq w); st_user := Some u |} w)).
(** A call of [AuthenticationService]. *)
Definition on_auth {A} (c : aco A) : apico A := co_lift auth with_auth Auth_error c.

(** ** [client_info.py] *)
Definition truthy (s : option string) : option string :=
  match s with Some s => if is_empty s then None else Some s | None => None end.
Definition comma : ascii := ",".
Definition get_client_ip (rq : Request) (trust_proxy_headers : bool) : option string :=
  if trust_proxy_headers then
    match truthy (header rq "X-Forwarded-For") with
    | Some forwarded_for => Some (strip (before_char comma forwarded_for))
    | None => match truthy (header rq "X-Real-IP") with
              | Some real_ip => Some (strip real_ip)
              | None => client_host rq
              end
    end
  else client_host rq.
Definition MAX_USER_AGENT_LENGTH : nat := 300.
Definition get_user_agent (rq : Request) : option string :=
  option_map (take_str MAX_USER_AGENT_LENGTH) (truthy (header rq "User-Agent")).
Definition dict_str (k : string) (d : list (string * json)) : option string :=
  match alist_get k d with Some (JString s) => Some s | _ => None end.
Definition get_attempted_username (rq : Request) : option string :=
  match json_body rq with Some (JDict d) => dict_str "username" d | _ => None end.

(** ** [security/audit.py] *)
Inductive AuditEventType :=
| REGISTRATION | REGISTRATION_FAILURE | LOGIN_SUCCESS | LOGIN_FAILURE | REFRESH_SUCCESS | REFRESH_FAILURE
| LOGOUT | AUTHORIZATION_DENIED | API_KEY_CREATED | API_KEY_REVOKED | API_KEY_AUTH_SUCCESS | API_KEY_AUTH_FAILURE.
Definition AuditEventType_value (t : AuditEventType) : string :=
  match t with
  | REGISTRATION => "registration" | REGISTRATION_FAILURE => "registration_failure"
  | LOGIN_SUCCESS => "login_success" | LOGIN_FAILURE => "login_failure"
  | REFRESH_SUCCESS => "refresh_success" | REFRESH_FAILURE => "refresh_failure" | LOGOUT => "logout"
  | AUTHORIZATION_DENIED => "authorization_denied" | API_KEY_CREATED => "api_key_created"
  | API_KEY_REVOKED => "api_key_revoked" | API_KEY_AUTH_SUCCESS => "api_key_auth_success"
  | API_KEY_AUTH_FAILURE => "api_key_auth_failure"
  end.

(** A [VARCHAR(n)] column: PostgreSQL stores a longer value only when the excess is blank. *)
Definition varchar (n : nat) (s : string) : option string :=
  if all_chars (Ascii.eqb " ") (drop_str n s) then Some (take_str n s) else None.
Definition varchar_opt (n : nat) (s : option string) : option (option string) :=
  match s with None => Some None | Some s => option_map Some (varchar n s) end.
(** The values as the table stores them. *)
Definition stored (r : AuditEntry) : option AuditEntry :=
  match varchar 50 (event_type r), varchar_opt 50 (actor_username r), varchar_opt 45 (ip_address r),
        varchar_opt 300 (user_agent r), varchar_opt 64 (request_id r), varchar_opt 64 (correlation_id r),
        varchar_opt 100 (resource r) with
  | Some ev, Some un, Some ip, Some ua, Some rid, Some cid, Some rs =>
      Some {| event_type := ev; actor_user_id := actor_user_id r; actor_username := un; success := success r;
              ip_address := ip; user_agent := ua; request_id := rid; correlation_id := cid; resource := rs;
              event_metadata := event_metadata r |}
  | _, _, _, _, _, _, _ => None
  end.

Section Audit.
(** The exception the database answers an insertion with, when it is not available. *)
Context (database_error : ApiWorld -> option exn).

(** [AuditRepository.create], one transaction: the widths of the columns and the foreign key
    are the table's. *)
Definition repo_create (r : AuditEntry) : prog ApiWorld api_exn unit := fun w =>
  match database_error w with
  | Some e => (Raise (Engine e), w)
  | None =>
      match stored r with
      | None => (Raise (Engine (OtherException "DBAPIError" "value too long for type character varying")), w)
      | Some r' =>
          if match actor_user_id r with None => true | Some i => is_some (users (auth w) !! i) end
          then (Ret tt, with_audit_log (audit_log w ++ [{| entry := r'; created_at := now (auth w) |}]) w)
          else (Raise (Auth_error IntegrityError), w)
      end
  end.

(** [AuditLogger.record]. *)
Definition record (t : AuditEventType) (ok : bool) (actor : option Z) (name ip agent rid cid res : option string)
    (metadata : option (list (string * string))) : apico unit :=
  let row := {| event_type := AuditEventType_value t; actor_user_id := actor; actor_username := name;
                success := ok; ip_address := ip;
                user_agent := option_map (take_str MAX_USER_AGENT_LENGTH) (truthy agent);
                request_id := rid; correlation_id := cid; resource := res; event_metadata := metadata |} in
  let* _ := emit (AuditLine (negb ok) row) in
  co_catch (atomic (repo_create row))
    (fun e => if catchable e then emit (AuditWriteFailed (AuditEventType_value t)) else co_raise e).
End Audit.

(** ** Lemmas *)
Lemma with_auth_auth w : with_auth (auth w) w = w.
Proof. by destruct w. Qed.
Lemma run_on_auth {A} (c : aco A) w :
  run_co (on_auth c) w = (map_raise Auth_error (fst (run_co c (auth w))), with_auth (snd (run_co c (auth w))) w).
Proof. apply run_co_lift; [apply with_auth_auth|done|done]. Qed.
Lemma on_auth_keeps {A} (P : ApiWorld -> Prop) (c : aco A) :
  (forall d w, P w -> P (with_auth d w)) -> steps_keep P (on_auth c).
Proof. apply steps_keep_lift. Qed.

(** The database's moods: only what [except Exception] catches. *)
Definition well_behaved (database_error : ApiWorld -> option exn) : Prop :=
  forall w e, database_error w = Some e -> is_Exception e = true.

Lemma drop_str_short n s : (String.length s <= n)%nat -> drop_str n s = "".
Proof. revert s. induction n as [|n IH]; intros [|c s]; simpl; intros; [done|lia|done|]. apply IH. lia. Qed.
Lemma take_str_short n s : (String.length s <= n)%nat -> take_str n s = s.
Proof. revert s. induction n as [|n IH]; intros [|c s]; simpl; intros; [done|lia|done|]. rewrite IH by lia. done. Qed.
Lemma varchar_short n s : (String.length s <= n)%nat -> varchar n s = Some s.
Proof. intros Hn. unfold varchar. by rewrite drop_str_short, take_str_short. Qed.

Section AuditLemmas.
Context (database_error : ApiWorld -> option exn).

(** [record] inserts a row or logs that it could not; it returns either way. *)
Lemma run_record t ok actor name ip agent rid cid res metadata w :
  well_behaved database_error ->
  let row := {| event_type := AuditEventType_value t; actor_user_id := actor; actor_username := name;
                success := ok; ip_address := ip;
                user_agent := option_map (take_str MAX_USER_AGENT_LENGTH) (truthy agent);
                request_id := rid; correlation_id := cid; resource := res; event_metadata := metadata |} in
  let w1 := with_line (AuditLine (negb ok) row) w in
  run_co (record database_error t ok actor name ip agent rid cid res metadata) w =
    (Ret tt, match repo_create database_error row w1 with
             | (Ret _, w2) => w2
             | (Raise _, w2) => with_line (AuditWriteFailed (AuditEventType_value t)) w2
             end).
Proof.
  intros Hdb row w1. unfold record. fold row. unfold emit. rewrite (run_co_step _ _ _ tt w1) by done.
  rewrite run_co_catch. unfold try_except. rewrite run_co_atomic. unfold repo_create.
  destruct (database_error w1) as [e|] eqn:E.
  - simpl. by rewrite (Hdb _ _ E).
  - destruct (stored row) as [r'|]; [|done]. destruct (actor_user_id row) as [i|]; [|done].
    by destruct (users (auth w1) !! i).
Qed.
End AuditLemmas.
