(* ===== verification/ApiGuards.v ===== *)
(** * The shared dependencies ([querymind.api.dependencies])

    Who the caller is, what a role lets it do and how often it may call: each dependency is
    a coroutine that returns, or raises what the exception handlers answer. *)
From S2P Require Import Prelude AsyncIO PyFloat PyStr Auth AuthService RateLimiter Models ApiWorld.
#[local] Open Scope string_scope.
#[local] Open Scope Z_scope.

(** The fields of [Settings] the API layer reads. *)
Record Settings := {
  app_debug : bool; api_v1_prefix : string; is_production : bool; trust_proxy_headers : bool; rate_limit_enabled : bool;
  rate_limit_general_per_minute : Z; rate_limit_login_per_minute : Z; rate_limit_register_per_hour : Z;
  rate_limit_refresh_per_minute : Z; rate_limit_query_per_minute : Z;
  jwt_secret_key : string; jwt_algorithm : string;
  access_token_expire_minutes : Z; refresh_token_expire_days : Z }.

Section Guards.
Context `{Crypto} (settings : Settings) (database_error : ApiWorld -> option exn).
Abbreviation record := (record database_error).
Definition client_ip (rq : Request) : option string := get_client_ip rq (trust_proxy_headers settings).

(** ** Identity *)
Definition not_authenticated {A} : apico A :=
  co_raise (HTTPException 401 "Not authenticated." [("WWW-Authenticate", "Bearer")]).
Definition current_user_of (token : string) : apico UserRead :=
  on_auth (AuthService.get_current_user (jwt_secret_key settings) (jwt_algorithm settings) token).
Definition get_optional_current_user (rq : Request) : apico (option UserRead) :=
  match oauth2_token rq with
  | None => co_ret None
  | Some token => let* u := current_user_of token in co_ret (Some u)
  end.
Definition resolve_jwt_user (rq : Request) : apico UserRead :=
  match oauth2_token rq with
  | None => not_authenticated
  | Some token => current_user_of token
  end.
Definition get_current_user_jwt_only (rq : Request) : apico UserRead :=
  let* user := resolve_jwt_user rq in
  let* _ := set_user rq user in
  co_ret user.

(** Both audit calls of [get_current_user]. *)
Definition audit_api_key (rq : Request) (t : AuditEventType) (ok : bool) (user : option UserRead)
    (metadata : option (list (string * string))) : apico unit :=
  let* s := get_state rq in
  record t ok (option_map ur_id user) (option_map ur_username user) (client_ip rq) (get_user_agent rq)
    (st_request_id s) (st_correlation_id s) (Some (path rq)) metadata.
Definition get_current_user (rq : Request) : apico UserRead :=
  let* user :=
    match x_api_key rq with
    | Some api_key =>
        let* user := co_catch (on_auth (authenticate_api_key api_key)) (fun e =>
          match e with
          | Auth_error a =>
              if is_AuthenticationError a
              then let* _ := audit_api_key rq API_KEY_AUTH_FAILURE false None (Some [("error_type", auth_class a)]) in
                   co_raise e
              else co_raise e
          | _ => co_raise e
          end) in
        let* _ := audit_api_key rq API_KEY_AUTH_SUCCESS true (Some user) None in
        co_ret user
    | None => resolve_jwt_user rq
    end in
  let* _ := set_user rq user in
  co_ret user.

(** ** Authorization *)
Definition guard (o : outcome auth_exn unit) : apico unit :=
  match o with Ret _ => co_ret tt | Raise e => co_raise (Auth_error e) end.
Definition get_admin_user (rq : Request) : apico UserRead :=
  let* user := get_current_user rq in
  if ur_is_superuser user then co_ret user
  else co_raise (HTTPException 403 "This action requires administrator privileges." []).
Definition get_role_required_user (minimum : UserRole) (rq : Request) : apico UserRead :=
  let* user := get_current_user rq in
  let* _ := guard (require_role user minimum) in
  co_ret user.
Definition get_admin_required_user := get_role_required_user ADMIN.
Definition get_analyst_required_user := get_role_required_user ANALYST.
Definition get_viewer_required_user := get_role_required_user VIEWER.
Definition RequireAnyRole (roles : list UserRole) (rq : Request) : apico UserRead :=
  let* user := get_current_user rq in
  let* _ := guard (require_any_role user roles) in
  co_ret user.

(** ** Rate limiting

    [rate_limiter.check], whose lock makes it one step; [ApplicationContainer.build] picks the
    no-op limiter when limits are off. *)
Definition limiter_answer (key : string) (capacity : Z) (refill_per_second : Q) (t : Z) (bs : gmap string Bucket)
  : RateLimitDecision * gmap string Bucket :=
  if rate_limit_enabled settings then check key capacity refill_per_second t bs
  else (no_op_check key capacity refill_per_second t, bs).
Definition limiter_check (key : string) (capacity : Z) (refill_per_second : Q) : apico RateLimitDecision :=
  atomic (fun w =>
    let '(d, b) := limiter_answer key capacity refill_per_second (now (auth w)) (buckets w) in
    (Ret d, with_buckets b w)).
(** The true division [capacity / n] of two integers. *)
Definition per_second (capacity : Z) (n : positive) : Q := fl (capacity # n).
Definition SLOW_DOWN : string := "Too many requests. Please slow down and try again shortly.".
Definition raise_if_blocked (d : RateLimitDecision) : apico unit :=
  if allowed d then co_ret tt else co_raise (RateLimitExceededError SLOW_DOWN (retry_after_seconds d)).
(** An f-string's [None]. *)
Definition opt_text (s : option string) : string := match s with Some s => s | None => "None" end.

Definition check_general_rate_limit (rq : Request) : apico unit :=
  let capacity := rate_limit_general_per_minute settings in
  let* decision := limiter_check ("general:ip:" ++ opt_text (client_ip rq)) capacity (per_second capacity 60) in
  raise_if_blocked decision.
Definition first_blocked (ds : list (option RateLimitDecision)) : option RateLimitDecision :=
  List.find (fun d => negb (allowed d)) (omap id ds).
Definition check_login_rate_limit (rq : Request) : apico unit :=
  let capacity := rate_limit_login_per_minute settings in
  let refill := per_second capacity 60 in
  let* ip_decision := limiter_check ("login:ip:" ++ opt_text (client_ip rq)) capacity refill in
  let* username_decision :=
    match truthy (get_attempted_username rq) with
    | Some username =>
        let* d := limiter_check ("login:username:" ++ username) capacity refill in co_ret (Some d)
    | None => co_ret None
    end in
  match first_blocked [Some ip_decision; username_decision] with
  | Some blocked => raise_if_blocked blocked
  | None => co_ret tt
  end.
Definition check_register_rate_limit (rq : Request) : apico unit :=
  let capacity := rate_limit_register_per_hour settings in
  let* decision := limiter_check ("register:ip:" ++ opt_text (client_ip rq)) capacity (per_second capacity 3600) in
  raise_if_blocked decision.
Definition check_refresh_rate_limit (rq : Request) : apico unit :=
  let capacity := rate_limit_refresh_per_minute settings in
  let* decision := limiter_check ("refresh:ip:" ++ opt_text (client_ip rq)) capacity (per_second capacity 60) in
  raise_if_blocked decision.
Definition check_query_rate_limit (user : UserRead) : apico unit :=
  let capacity := rate_limit_query_per_minute settings in
  let* decision := limiter_check ("query:user:" ++ show_Z (ur_id user)) capacity (per_second capacity 60) in
  raise_if_blocked decision.
End Guards.
