(* ===== verification/ApiErrors.v ===== *)
(** * The exception handlers ([querymind.api.exception_handlers], [querymind.api.app])

    Every exception becomes one response; failures of the [/auth] routes and denied
    authorizations are audited on the way. *)
From S2P Require Import Prelude AsyncIO PyFloat PyStr Auth AuthService RateLimiter Models ApiWorld ApiGuards.
#[local] Open Scope string_scope.
#[local] Open Scope Z_scope.

(** ** Responses

    [TracebackBody e] is the page Starlette renders of the traceback of [e]. *)
Inductive Body :=
| ErrorResponse (detail error_type : string)
| DetailBody (detail : string)
| ValidationBody (detail : list ErrorDetails)
| UserBody (u : UserRead)
| TokensBody (t : TokenPair)
| ApiKeyBody (k : ApiKeyCreated)
| ApiKeysBody (ks : list ApiKeyRead)
| NoContent
| EngineBody (text : string)
| TracebackBody (raised : api_exn).
Record Response := { status_code : Z; content : Body; headers : list (string * string) }.
Definition set_header (k v : string) (r : Response) : Response :=
  {| status_code := status_code r; content := content r; headers := alist_set k v (headers r) |}.

(** ** The tables *)
Definition STATUS_BY_EXCEPTION : list (string * Z) :=
  [("EmptyQuestionError", 400); ("ExecutionRejectedError", 400); ("FormattingError", 422);
   ("ExecutionTimeoutError", 504); ("DatabaseConnectionError", 503); ("PipelineConfigurationError", 500);
   ("SQLExecutionConfigurationError", 500); ("SQLRepairConfigurationError", 500);
   ("ObservabilityConfigurationError", 500); ("DuplicateUserError", 409); ("InvalidCredentialsError", 401);
   ("InvalidTokenError", 401); ("TokenExpiredError", 401); ("RefreshTokenRevokedError", 401);
   ("InvalidApiKeyError", 401); ("ApiKeyExpiredError", 401); ("ApiKeyRevokedError", 401);
   ("ApiKeyNotFoundError", 404); ("InactiveUserError", 403); ("ForbiddenRoleError", 403);
   ("InsufficientPermissionsError", 403)].
(** No class of the table has a subclass in the code: [isinstance] compares class names. *)
Definition status_for (cls : string) : Z := default 500 (alist_get cls STATUS_BY_EXCEPTION).
Definition SENSITIVE_FIELD_NAMES : list string :=
  ["password"; "refresh_token"; "access_token"; "raw_key"; "api_key"; "authorization"].
Definition AUTH_FAILURE_EVENT_BY_PATH_SUFFIX : list (string * AuditEventType) :=
  [("/auth/login", LOGIN_FAILURE); ("/auth/register", REGISTRATION_FAILURE); ("/auth/refresh", REFRESH_FAILURE)].
Definition endswith (suffix s : string) : bool :=
  String.eqb (drop_str (String.length s - String.length suffix) s) suffix.

(** [str(exc)] of the mapped exceptions. *)
Definition exc_str (e : api_exn) : string :=
  match e with
  | Auth_error e => auth_str e
  | HTTPException _ d _ => d
  | RateLimitExceededError m _ => m
  | RequestValidationError _ => ""
  | PipelineError m _ => m
  | Engine e => exn_str e
  end.

Section Handlers.
Context (settings : Settings) (database_error : ApiWorld -> option exn).
Abbreviation record := (record database_error).

Definition log_and_respond (rq : Request) (status : Z) (message error_type : string) : apico Response :=
  let* _ := emit (ErrorLine message (header rq "X-Request-ID")) in
  co_ret {| status_code := status; content := ErrorResponse message error_type; headers := [] |}.

(** [_audit_failure_if_relevant]. *)
Definition is_denial (e : api_exn) : bool :=
  match e with Auth_error a => is_AuthorizationError a | _ => false end.
Definition failure_event (p : string) : option AuditEventType :=
  option_map snd (List.find (fun se => endswith (fst se) p) AUTH_FAILURE_EVENT_BY_PATH_SUFFIX).
Definition audit_relevant (rq : Request) (e : api_exn) : apico unit :=
  let* s := get_state rq in
  let write t actor name :=
    record t false actor name (client_ip settings rq) (get_user_agent rq) (st_request_id s) (st_correlation_id s)
      (Some (path rq)) (Some [("error_type", class_name e)]) in
  if is_denial e
  then write AUTHORIZATION_DENIED (option_map ur_id (st_user s)) (option_map ur_username (st_user s))
  else match failure_event (path rq) with
       | Some t => write t None (get_attempted_username rq)
       | None => co_ret tt
       end.
Definition audit_failure_if_relevant (rq : Request) (e : api_exn) : apico unit :=
  co_catch (audit_relevant rq e) (fun x => if catchable x then co_ret tt else co_raise x).

Definition handle_mapped_exception (rq : Request) (e : api_exn) : apico Response :=
  let* _ := audit_failure_if_relevant rq e in
  log_and_respond rq (status_for (class_name e)) (exc_str e) (class_name e).
Definition handle_pipeline_execution_error (rq : Request) (message : string) (cause : option exn) : apico Response :=
  match cause with
  | Some c => log_and_respond rq (status_for (exn_class c)) (exn_str c) (exn_class c)
  | None => log_and_respond rq 500 message "PipelineExecutionError"
  end.
(** [math.ceil]. *)
Definition ceil (s : seconds) : apico Z :=
  match s with
  | Finite q => co_ret (Qround.Qceiling q)
  | Infinite => co_raise (Engine (OtherException "OverflowError" "cannot convert float infinity to integer"))
  end.
Definition handle_rate_limit_exceeded (rq : Request) (message : string) (retry_after : seconds) : apico Response :=
  let* response := log_and_respond rq 429 message "RateLimitExceededError" in
  let* n := ceil retry_after in
  co_ret (set_header "Retry-After" (show_Z (Z.max 1 n)) response).

(** [_handle_validation_error]. *)
Definition segment_text (s : string + Z) : string := match s with inl s => s | inr z => show_Z z end.
Definition is_sensitive (l : list (string + Z)) : bool :=
  match last l with
  | Some s => bool_decide (lower (segment_text s) ∈ SENSITIVE_FIELD_NAMES)
  | None => false
  end.
Definition redact (e : ErrorDetails) : ErrorDetails :=
  if is_sensitive (loc e)
  then {| loc := loc e; entries := List.filter (fun kv => negb (String.eqb (fst kv) "input")) (entries e) |}
  else e.
Definition handle_validation_error (errors : list ErrorDetails) : apico Response :=
  co_ret {| status_code := 422; content := ValidationBody (map redact errors); headers := [] |}.

(** The safety net of [app.py]. *)
Definition unhandled_exception_handler (rq : Request) : apico Response :=
  let* _ := emit (UnhandledLine (path rq) (method rq)) in
  co_ret {| status_code := 500; content := DetailBody "Internal server error"; headers := [] |}.

(** [register_exception_handlers]: which handler an exception's class is registered with;
    FastAPI answers an [HTTPException] itself. *)
Definition is_mapped (cls : string) : bool := is_some (alist_get cls STATUS_BY_EXCEPTION).
Definition handler_for (rq : Request) (e : api_exn) : option (apico Response) :=
  match e with
  | PipelineError m c => Some (handle_pipeline_execution_error rq m c)
  | RateLimitExceededError m r => Some (handle_rate_limit_exceeded rq m r)
  | RequestValidationError es => Some (handle_validation_error es)
  | HTTPException s d h => Some (co_ret {| status_code := s; content := DetailBody d; headers := h |})
  | e => if is_mapped (class_name e) then Some (handle_mapped_exception rq e) else None
  end.
(** The innermost middleware: a route's response, whatever it raises; an exception without a
    handler passes. *)
Definition answer_exception (rq : Request) (e : api_exn) : apico Response :=
  match handler_for rq e with Some c => c | None => co_raise e end.
Definition exception_middleware (rq : Request) (route : apico Response) : apico Response :=
  co_catch route (answer_exception rq).
(** The outermost one. [FastAPI(debug=settings.app_debug)] makes it answer with the traceback
    itself; only without is the handler of [Exception], the safety net, asked. *)
Definition debug_response (e : api_exn) : apico Response :=
  co_ret {| status_code := 500; content := TracebackBody e; headers := [] |}.
Definition server_error_middleware (rq : Request) (app : apico Response) : apico Response :=
  co_catch app (fun e =>
    if catchable e
    then if app_debug settings then debug_response e else unhandled_exception_handler rq
    else co_raise e).
End Handlers.
