(* ===== verification/ApiRoutes.v ===== *)
(** * Middleware, routes and the WebSocket handshake

    [querymind.api.middleware], [.routers], [.v1.router], the composition in [.app] and the
    handshake of [querymind.streaming.websocket].

    FastAPI reads and decodes the JSON body of a route that has one before anything else, then
    resolves the route's dependencies in the order of its parameters, the router's first, and
    answers with the validation of the decoded body only when they all passed; Starlette puts
    the handler of [Exception] outside every middleware and the other handlers inside. *)
From S2P Require Import Prelude AsyncIO PyFloat PyStr Auth AuthService RateLimiter Models ApiWorld ApiGuards ApiErrors.
From Stdlib Require Import Ascii.
#[local] Open Scope string_scope.
#[local] Open Scope Z_scope.

(** ** Bodies *)
Record UserCreate := { uc_username : string; uc_email : string; uc_password : string }.
Record UserLogin := { ul_username : string; ul_password : string }.
Record ApiKeyCreate := { ak_name : string; ak_expires_at : option Z }.
(** What FastAPI makes of a decoded body or of a path parameter. *)
Abbreviation validated A := (sum (list ErrorDetails) A).
(** What it makes of the body of a request: it does not parse, with the error that says where;
    or decoding it fails in some other way; or it is there to be validated. *)
Inductive JsonBody (A : Type) :=
| Malformed (errors : list ErrorDetails)
| Undecodable
| Decoded (v : validated A).
Arguments Malformed {A} errors.
Arguments Undecodable {A}.
Arguments Decoded {A} v.

(** The endpoints that delegate to an engine. *)
Inductive Endpoint :=
| Query | QuerySql | QueryValidate | QueryRepair | QueryExecute | QueryFormat | QueryStream
| HealthReport | HealthDiagnostics | HealthMetrics | SettingsInfo | HealthLive | HealthReady.

Definition BASELINE_HEADERS : list (string * string) :=
  [("X-Content-Type-Options", "nosniff"); ("Referrer-Policy", "strict-origin-when-cross-origin");
   ("Permissions-Policy", "geolocation=(), camera=(), microphone=()")].
Definition HSTS_VALUE : string := "max-age=31536000; includeSubDomains".

Section Routes.
Context `{Crypto} (settings : Settings) (database_error : ApiWorld -> option exn).
Abbreviation record := (record database_error).
Abbreviation key := (jwt_secret_key settings).
Abbreviation alg := (jwt_algorithm settings).

(** ** [middleware.py] *)
Definition stamp (rq : Request) (r : Response) : Response :=
  let r := foldl (fun r kv => set_header (fst kv) (snd kv) r) r BASELINE_HEADERS in
  let r := if is_production settings then set_header "Strict-Transport-Security" HSTS_VALUE r else r in
  if startswith (api_v1_prefix settings ++ "/auth") (path rq) then set_header "Cache-Control" "no-store" r else r.
Definition security_headers (rq : Request) (call_next : apico Response) : apico Response :=
  let* response := call_next in
  co_ret (stamp rq response).
(** [str(uuid.uuid4())] is drawn whether the header is there or not. *)
Definition bind_context (rq : Request) : apico (string * string) :=
  let* n := on_auth (atomic draw) in
  let request_id := default (uuid4 n) (header rq "X-Request-ID") in
  let correlation_id := default request_id (header rq "X-Correlation-ID") in
  let* _ := atomic (fun w => (Ret tt, with_state rq {| st_request_id := Some request_id;
              st_correlation_id := Some correlation_id; st_user := st_user (state_of rq w) |} w)) in
  co_ret (request_id, correlation_id).
Definition request_context (rq : Request) (call_next : apico Response) : apico Response :=
  let* ids := bind_context rq in
  let* response := call_next in
  co_ret (set_header "X-Correlation-ID" (snd ids) (set_header "X-Request-ID" (fst ids) response)).
(** [create_app]: what one HTTP request goes through. *)
Definition http (rq : Request) (route : apico Response) : apico Response :=
  server_error_middleware settings rq
    (security_headers rq (request_context rq (exception_middleware settings database_error rq route))).

(** ** [routers/auth.py] *)
Definition reply (status : Z) (b : Body) : apico Response :=
  co_ret {| status_code := status; content := b; headers := [] |}.
Definition with_body {A} (v : validated A) (endpoint : A -> apico Response) : apico Response :=
  match v with inl errors => co_raise (RequestValidationError errors) | inr b => endpoint b end.
(** [get_request_handler] of FastAPI: the body is decoded before the dependencies run. *)
Definition read_json {A} (body : JsonBody A) : apico (validated A) :=
  match body with
  | Malformed errors => co_raise (RequestValidationError errors)
  | Undecodable => co_raise (HTTPException 400 "There was an error parsing the body" [])
  | Decoded v => co_ret v
  end.
Definition audit (rq : Request) (t : AuditEventType) (ok : bool) (actor : option UserRead) : apico unit :=
  let* s := get_state rq in
  record t ok (option_map ur_id actor) (option_map ur_username actor) (client_ip settings rq) (get_user_agent rq)
    (st_request_id s) (st_correlation_id s) (Some (path rq)) None.

Definition register (rq : Request) (body : JsonBody UserCreate) : apico Response :=
  let* v := read_json body in
  let* _ := check_general_rate_limit settings rq in
  let* _ := check_register_rate_limit settings rq in
  with_body v (fun b =>
    let* user := on_auth (register_user (uc_username b) (uc_email b) (uc_password b)) in
    let* _ := audit rq REGISTRATION true (Some user) in
    reply 201 (UserBody user)).
Definition issue_pair (i : Z) : apico TokenPair :=
  on_auth (create_token_pair key alg (access_token_expire_minutes settings) (refresh_token_expire_days settings) i).
Definition login (rq : Request) (body : JsonBody UserLogin) : apico Response :=
  let* v := read_json body in
  let* _ := check_general_rate_limit settings rq in
  let* _ := check_login_rate_limit settings rq in
  with_body v (fun b =>
    let* user := on_auth (authenticate (ul_username b) (ul_password b)) in
    let* tokens := issue_pair (ur_id user) in
    let* _ := audit rq LOGIN_SUCCESS true (Some user) in
    reply 200 (TokensBody tokens)).
Definition refresh (rq : Request) (body : JsonBody string) : apico Response :=
  let* v := read_json body in
  let* _ := check_general_rate_limit settings rq in
  let* _ := check_refresh_rate_limit settings rq in
  with_body v (fun token =>
    let* tokens := on_auth (refresh_tokens key alg (access_token_expire_minutes settings)
                              (refresh_token_expire_days settings) token) in
    let* _ := audit rq REFRESH_SUCCESS true None in
    reply 200 (TokensBody tokens)).
Definition logout_route (rq : Request) (body : JsonBody string) : apico Response :=
  let* v := read_json body in
  let* _ := check_general_rate_limit settings rq in
  with_body v (fun token =>
    let* _ := on_auth (logout key alg token) in
    let* _ := audit rq LOGOUT true None in
    reply 204 NoContent).
Definition me (rq : Request) : apico Response :=
  let* _ := check_general_rate_limit settings rq in
  let* user := get_current_user settings database_error rq in
  reply 200 (UserBody user).
Definition create_api_key_route (rq : Request) (body : JsonBody ApiKeyCreate) : apico Response :=
  let* v := read_json body in
  let* _ := check_general_rate_limit settings rq in
  let* user := get_current_user_jwt_only settings rq in
  with_body v (fun b =>
    let* created := on_auth (create_api_key (ur_id user) (ak_name b) (ak_expires_at b)) in
    let* _ := audit rq API_KEY_CREATED true (Some user) in
    reply 201 (ApiKeyBody created)).
Definition list_api_keys_route (rq : Request) : apico Response :=
  let* _ := check_general_rate_limit settings rq in
  let* user := get_current_user_jwt_only settings rq in
  let* ks := on_auth (list_api_keys (ur_id user)) in
  reply 200 (ApiKeysBody ks).
Definition revoke_api_key_route (rq : Request) (v : validated Z) : apico Response :=
  let* _ := check_general_rate_limit settings rq in
  let* user := get_current_user_jwt_only settings rq in
  with_body v (fun key_id =>
    let* _ := on_auth (revoke_api_key user key_id) in
    let* _ := audit rq API_KEY_REVOKED true (Some user) in
    reply 204 NoContent).

(** ** The other routers

    [run] is what the endpoint asks of its engine; only the query endpoints take a body. *)
Definition analyst_route (rq : Request) (v : validated unit) (run : apico Response) : apico Response :=
  let* user := get_analyst_required_user settings database_error rq in
  let* _ := check_query_rate_limit settings user in
  with_body v (fun _ => run).
Definition admin_route (rq : Request) (run : apico Response) : apico Response :=
  let* _ := get_admin_required_user settings database_error rq in run.
Definition user_route (rq : Request) (run : apico Response) : apico Response :=
  let* _ := get_current_user settings database_error rq in run.
Definition has_body (e : Endpoint) : bool :=
  match e with
  | Query | QuerySql | QueryValidate | QueryRepair | QueryExecute | QueryFormat | QueryStream => true
  | _ => false
  end.
Definition engine_route (rq : Request) (e : Endpoint) (body : JsonBody unit) (run : apico Response) : apico Response :=
  let* v := (if has_body e then read_json body else co_ret (inr tt)) in
  let* _ := check_general_rate_limit settings rq in
  match e with
  | Query | QuerySql | QueryValidate | QueryRepair | QueryExecute | QueryFormat | QueryStream =>
      analyst_route rq v run
  | HealthDiagnostics | HealthMetrics | SettingsInfo => admin_route rq run
  | HealthReport => user_route rq run
  | HealthLive | HealthReady => run
  end.

(** [v1/router.py]: every route of the application. *)
Inductive Route :=
| POST_register (body : JsonBody UserCreate) | POST_login (body : JsonBody UserLogin)
| POST_refresh (body : JsonBody string) | POST_logout (body : JsonBody string) | GET_me
| POST_api_keys (body : JsonBody ApiKeyCreate) | GET_api_keys | DELETE_api_key (v : validated Z)
| Delegate (e : Endpoint) (body : JsonBody unit).
Definition api_router (engine : Endpoint -> apico Response) (rq : Request) (r : Route) : apico Response :=
  match r with
  | POST_register body => register rq body
  | POST_login body => login rq body
  | POST_refresh body => refresh rq body
  | POST_logout body => logout_route rq body
  | GET_me => me rq
  | POST_api_keys body => create_api_key_route rq body
  | GET_api_keys => list_api_keys_route rq
  | DELETE_api_key v => revoke_api_key_route rq v
  | Delegate e body => engine_route rq e body (engine e)
  end.

(** ** [streaming/websocket.py]: the handshake *)
Record WebSocket := { ws_header : string -> option string; ws_query_param : string -> option string }.
Inductive Handshake := Close (code : Z) (reason : string) | Admit (user : UserRead).
Definition removeprefix (p s : string) : string :=
  if startswith p s then drop_str (String.length p) s else s.
Definition ws_token (ws : WebSocket) : option string :=
  match truthy (Some (strip (removeprefix "Bearer " (default "" (ws_header ws "Authorization"))))) with
  | Some token => Some token
  | None => ws_query_param ws "token"
  end.
Definition authenticate_and_authorize (ws : WebSocket) : apico Handshake :=
  match truthy (ws_token ws) with
  | None => co_ret (Close 1008 "Not authenticated.")
  | Some token =>
      let* r := co_catch
        (let* user := current_user_of settings token in
         let* _ := guard (require_role user ANALYST) in
         co_ret (inr user))
        (fun e => match e with
                  | Auth_error a =>
                      if is_AuthenticationError a || is_AuthorizationError a
                      then co_ret (inl (Close 1008 (take_str 120 (auth_str a)))) else co_raise e
                  | _ => co_raise e
                  end) in
      match r with
      | inl closed => co_ret closed
      | inr user =>
          let capacity := rate_limit_query_per_minute settings in
          let* decision := limiter_check settings ("query:user:" ++ show_Z (ur_id user)) capacity
                             (per_second capacity 60) in
          if allowed decision then co_ret (Admit user) else co_ret (Close 1013 SLOW_DOWN)
      end
  end.
End Routes.

(** ** The middleware, seen from the route *)
Section Middleware.
Context `{Crypto} (settings : Settings) (database_error : ApiWorld -> option exn).
(** A route inside the middleware starts in a world where only the request's own
    state and the supply of random ids have changed; its answer, or its exception's, is
    stamped, and what no handler takes is left to the outermost middleware. *)
Definition finish (rq : Request) (ids : string * string) (ow : outcome api_exn Response * ApiWorld)
  : outcome api_exn Response * ApiWorld :=
  match ow with
  | (Ret r, w) => (Ret (stamp settings rq (set_header "X-Correlation-ID" (snd ids) (set_header "X-Request-ID" (fst ids) r))), w)
  | (Raise e, w) =>
      if catchable e
      then run_co (if app_debug settings then debug_response e else unhandled_exception_handler rq) w
      else (Raise e, w)
  end.
Lemma run_http rq w : exists ids w1,
  (users (auth w1) = users (auth w) /\ api_keys (auth w1) = api_keys (auth w) /\ now (auth w1) = now (auth w) /\
   buckets w1 = buckets w) /\
  forall route, run_co (http settings database_error rq route) w =
    finish rq ids (run_co (exception_middleware settings database_error rq route) w1).
Proof.
  assert (E : exists ids w1, run_co (bind_context rq) w = (Ret ids, w1) /\
    users (auth w1) = users (auth w) /\ api_keys (auth w1) = api_keys (auth w) /\ now (auth w1) = now (auth w) /\
    buckets w1 = buckets w).
  { unfold bind_context. rewrite run_co_bind. unfold bind. rewrite run_on_auth. simpl. do 2 eexists. by split_and!. }
  destruct E as (ids & w1 & E & Hsame). exists ids, w1. split; [done|]. intros route.
  unfold http, server_error_middleware, security_headers, request_context.
  rewrite run_co_catch. unfold try_except. rewrite run_co_bind. unfold bind. rewrite run_co_bind. unfold bind. rewrite E.
  rewrite run_co_bind. unfold bind. destruct (run_co (exception_middleware settings database_error rq route) w1) as [[e|r] w2];
    cbn [finish co_ret run_co]; [by destruct (catchable e)|done].
Qed.
Lemma run_http_at rq w : exists w1,
  (users (auth w1) = users (auth w) /\ api_keys (auth w1) = api_keys (auth w) /\ now (auth w1) = now (auth w) /\
   buckets w1 = buckets w) /\
  forall r1 r2, run_co r1 w1 = run_co r2 w1 ->
    run_co (http settings database_error rq r1) w = run_co (http settings database_error rq r2) w.
Proof.
  destruct (run_http rq w) as (ids & w1 & Hsame & Hrun). exists w1. split; [done|]. intros r1 r2 Hr.
  rewrite !Hrun. unfold exception_middleware. rewrite !run_co_catch. unfold try_except. by rewrite Hr.
Qed.
End Middleware.

(** ** The audit trail never changes an answer

    Two worlds that differ in their audit rows and log lines only. *)
Definition same_but_audit (w1 w2 : ApiWorld) : Prop :=
  auth w1 = auth w2 /\ buckets w1 = buckets w2 /\ states w1 = states w2.

Section Invisible.
Context `{Crypto} (settings : Settings) (db1 db2 : ApiWorld -> option exn).
Context (good1 : well_behaved db1) (good2 : well_behaved db2).
Abbreviation agree := (agree same_but_audit).

Lemma agree_on_auth {A} (c : aco A) : agree (on_auth c) (on_auth c).
Proof. intros w1 w2 (Ha & Hb & Hs). rewrite !run_on_auth, Ha. by repeat split. Qed.
Lemma same_state rq w1 w2 : same_but_audit w1 w2 -> state_of rq w1 = state_of rq w2.
Proof. intros (_ & _ & Hs). unfold state_of. by rewrite Hs. Qed.
Lemma agree_get_state rq : agree (get_state rq) (get_state rq).
Proof. apply agree_atomic. intros w1 w2 HR. simpl. by rewrite (same_state rq _ _ HR). Qed.
Lemma agree_set_user rq u : agree (set_user rq u) (set_user rq u).
Proof.
  apply agree_atomic. intros w1 w2 HR. split; [done|]. simpl. rewrite (same_state rq _ _ HR).
  destruct HR as (Ha & Hb & Hs). unfold same_but_audit, with_state. simpl. by rewrite Hs.
Qed.
Lemma agree_emit x : agree (emit x) (emit x).
Proof. by apply agree_atomic. Qed.
Lemma agree_limiter k c r : agree (limiter_check settings k c r) (limiter_check settings k c r).
Proof.
  apply agree_atomic. intros w1 w2 (Ha & Hb & Hs). rewrite Ha, Hb.
  by destruct (limiter_answer settings k c r (now (auth w2)) (buckets w2)).
Qed.
Lemma repo_same db row w : same_but_audit (snd (repo_create db row w)) w.
Proof. unfold repo_create. by repeat case_match. Qed.
Lemma record_same db t ok actor name ip agent rid cid res m w : well_behaved db ->
  exists w', run_co (record db t ok actor name ip agent rid cid res m) w = (Ret tt, w') /\ same_but_audit w' w.
Proof.
  intros Hdb. eexists. split; [by apply run_record|].
  match goal with |- context [repo_create db ?row ?w1] => pose proof (repo_same db row w1) as Hs;
    destruct (repo_create db row w1) as [[e|[]] w2] end; exact Hs.
Qed.
Lemma agree_record t ok actor name ip agent rid cid res m :
  agree (record db1 t ok actor name ip agent rid cid res m) (record db2 t ok actor name ip agent rid cid res m).
Proof using good1 good2.
  intros w1 w2 HR. destruct (record_same db1 t ok actor name ip agent rid cid res m w1 good1) as (w1' & -> & H1).
  destruct (record_same db2 t ok actor name ip agent rid cid res m w2 good2) as (w2' & -> & H2).
  split; [done|]. unfold same_but_audit in *. simpl. intuition congruence.
Qed.

Create HintDb agreeing.
#[local] Hint Resolve agree_on_auth agree_get_state agree_set_user agree_emit agree_limiter agree_record
  agree_finished : agreeing.
Ltac agreeing :=
  repeat first [ solve [auto with agreeing nocore] | apply agree_bind; [|intros ?]
               | apply agree_catch; [|intros ?] | apply agree_finished | case_match ].

Lemma agree_route engine rq r : (forall e, agree (engine e) (engine e)) ->
  agree (api_router settings db1 engine rq r) (api_router settings db2 engine rq r).
Proof using good1 good2.
  intros He. destruct r; cbn [api_router];
    unfold register, login, refresh, logout_route, me, create_api_key_route, list_api_keys_route,
      revoke_api_key_route, engine_route, analyst_route, admin_route, user_route, get_analyst_required_user,
      get_admin_required_user, get_role_required_user, get_current_user_jwt_only, get_current_user,
      resolve_jwt_user, current_user_of, audit_api_key, audit, check_general_rate_limit, check_login_rate_limit,
      check_register_rate_limit, check_refresh_rate_limit, check_query_rate_limit, raise_if_blocked, guard,
      not_authenticated, issue_pair, read_json, with_body, reply;
    agreeing.
Qed.
Lemma agree_mapped rq e :
  agree (handle_mapped_exception settings db1 rq e) (handle_mapped_exception settings db2 rq e).
Proof using good1 good2.
  unfold handle_mapped_exception, audit_failure_if_relevant, audit_relevant, log_and_respond. agreeing.
Qed.
Lemma agree_answer rq e : agree (answer_exception settings db1 rq e) (answer_exception settings db2 rq e).
Proof using good1 good2.
  unfold answer_exception, handler_for, handle_pipeline_execution_error, handle_rate_limit_exceeded,
    handle_validation_error, log_and_respond, ceil.
  destruct e; try (destruct (is_mapped _); [apply agree_mapped|]); agreeing.
Qed.
Lemma agree_http rq c1 c2 : agree c1 c2 -> agree (http settings db1 rq c1) (http settings db2 rq c2).
Proof using good1 good2.
  intros Hc. unfold http, server_error_middleware, debug_response, unhandled_exception_handler, security_headers, request_context,
    bind_context, exception_middleware.
  apply agree_catch; [|intros e; agreeing]. apply agree_bind; [|intros r; agreeing].
  apply agree_bind.
  - apply agree_bind; [agreeing|intros n]. apply agree_bind; [|intros u; agreeing].
    apply agree_atomic. intros w1 w2 HR. split; [done|]. simpl. rewrite (same_state rq _ _ HR).
    destruct HR as (Ha & Hb & Hs). unfold same_but_audit, with_state. simpl. by rewrite Hs.
  - intros ids. apply agree_bind; [|intros r; agreeing]. apply agree_catch; [done|]. intros e. apply agree_answer.
Qed.
End Invisible.

(** C12. Audit logging is invisible to the caller: whatever the audit database does (is up, is
    down, refuses the rows), for every route of the application the response (or the
    exception that leaves the application), the tables, the rate limiter and the request
    states are the same. *)
Theorem audit_is_invisible `{Crypto} settings db1 db2 engine rq r w :
  well_behaved db1 -> well_behaved db2 -> (forall e, agree same_but_audit (engine e) (engine e)) ->
  let '(o1, w1) := run_co (http settings db1 rq (api_router settings db1 engine rq r)) w in
  let '(o2, w2) := run_co (http settings db2 rq (api_router settings db2 engine rq r)) w in
  o1 = o2 /\ same_but_audit w1 w2.
Proof.
  intros H1 H2 He. pose proof (agree_http settings db1 db2 H1 H2 rq _ _ (agree_route settings db1 db2 H1 H2 engine rq r He) w w) as Ha.
  destruct (run_co (http settings db1 rq _) w), (run_co (http settings db2 rq _) w). by apply Ha.
Qed.

(** ** A request that leaves no trace

    [audit_log.request_id] is a [VARCHAR(64)] and the client picks the request id. *)
Section NoTrace.
Context `{Crypto} (settings : Settings) (database_error : ApiWorld -> option exn).
Context (rq : Request) (rid : string) (too_long : varchar 64 rid = None) (rows : list AuditLog).

Definition untraced (w : ApiWorld) : Prop :=
  audit_log w = rows /\ st_request_id (state_of rq w) = Some rid.
Lemma state_of_set s w : state_of rq (with_state rq s w) = s.
Proof. unfold state_of, with_state. simpl. by rewrite lookup_insert_eq. Qed.

Lemma untraced_on_auth {A} (c : aco A) : steps_keep untraced (on_auth c).
Proof. by apply on_auth_keeps. Qed.
Lemma untraced_emit x : steps_keep untraced (emit x).
Proof. by apply steps_keep_atomic. Qed.
Lemma untraced_set_user u : steps_keep untraced (set_user rq u).
Proof.
  apply steps_keep_atomic. intros w [Hr Hs]. split; [done|]. simpl. by rewrite state_of_set.
Qed.
Lemma untraced_get_state {A} (k : RequestState -> apico A) :
  (forall s, st_request_id s = Some rid -> steps_keep untraced (k s)) ->
  steps_keep untraced (co_bind (get_state rq) k).
Proof. intros Hk. constructor; [done|]. intros w [Hr Hs]. by apply Hk. Qed.
Lemma untraced_limiter k c r : steps_keep untraced (limiter_check settings k c r).
Proof.
  apply steps_keep_atomic. intros w Hw. by destruct (limiter_answer settings k c r (now (auth w)) (buckets w)).
Qed.
(** The insertion fails on the width of the column. *)
Lemma untraced_record t ok actor name ip agent r cid res m : r = Some rid ->
  steps_keep untraced (record database_error t ok actor name ip agent r cid res m).
Proof using too_long.
  intros ->. unfold record. apply steps_keep_bind; [apply untraced_emit|intros _].
  apply steps_keep_catch; [|intros e; destruct (catchable e); [apply untraced_emit|constructor]].
  apply steps_keep_atomic. intros w Hw. unfold repo_create, stored. cbn [request_id varchar_opt].
  rewrite too_long. cbn [option_map]. by repeat case_match.
Qed.

Ltac untraced_auto :=
  repeat first [ apply untraced_on_auth | apply untraced_emit | apply untraced_set_user | apply untraced_limiter
               | apply untraced_record; assumption
               | apply untraced_get_state; intros ? ? | apply steps_keep_bind; [|intros ?]
               | apply steps_keep_catch; [|intros ?] | apply keep_finished | case_match ].
Lemma untraced_route engine r : (forall e, steps_keep untraced (engine e)) ->
  steps_keep untraced (api_router settings database_error engine rq r).
Proof using too_long.
  intros He. destruct r; cbn [api_router];
    unfold register, login, refresh, logout_route, me, create_api_key_route, list_api_keys_route,
      revoke_api_key_route, engine_route, analyst_route, admin_route, user_route, get_analyst_required_user,
      get_admin_required_user, get_role_required_user, get_current_user_jwt_only, get_current_user,
      resolve_jwt_user, current_user_of, audit_api_key, audit, check_general_rate_limit, check_login_rate_limit,
      check_register_rate_limit, check_refresh_rate_limit, check_query_rate_limit, raise_if_blocked, guard,
      not_authenticated, issue_pair, read_json, with_body, reply;
    untraced_auto; done.
Qed.
Lemma untraced_answer e : steps_keep untraced (answer_exception settings database_error rq e).
Proof using too_long.
  unfold answer_exception, handler_for, handle_pipeline_execution_error, handle_rate_limit_exceeded,
    handle_validation_error, log_and_respond, ceil, handle_mapped_exception, audit_failure_if_relevant,
    audit_relevant.
  destruct e; try (destruct (is_mapped _)); untraced_auto.
Qed.
Lemma run_bind_context w : header rq "X-Request-ID" = Some rid -> audit_log w = rows ->
  exists ids w1, run_co (bind_context rq) w = (Ret ids, w1) /\ untraced w1.
Proof.
  intros Hh Hr. unfold bind_context. rewrite run_co_bind. unfold bind. rewrite run_on_auth. simpl.
  rewrite Hh. do 2 eexists. split; [done|]. split; [done|]. by rewrite state_of_set.
Qed.
Lemma untraced_http c w : header rq "X-Request-ID" = Some rid -> audit_log w = rows -> steps_keep untraced c ->
  audit_log (snd (run_co (http settings database_error rq c) w)) = rows.
Proof using too_long.
  intros Hh Hr Hc. destruct (run_bind_context w Hh Hr) as (ids & w1 & E & H1).
  unfold http, server_error_middleware, security_headers, request_context. rewrite run_co_catch.
  unfold try_except. rewrite !run_co_bind. unfold bind at 1. rewrite run_co_bind, (bind_ret_eq _ _ _ _ _ E), run_co_bind.
  assert (H2 : untraced (snd (run_co (exception_middleware settings database_error rq c) w1))).
  { apply run_co_keeps; [|done]. apply steps_keep_catch; [done|]. intros e. apply untraced_answer. }
  unfold bind. destruct (run_co (exception_middleware settings database_error rq c) w1) as [[e|r] w2];
    simpl in *; [|apply H2]. destruct (catchable e), (app_debug settings); apply H2.
Qed.
End NoTrace.

(** The audit trail can be switched off by the caller: a request whose [X-Request-ID]
    header does not fit its column leaves no audit row, whatever it does and however it ends,
    on every route of the application. *)
Theorem long_request_id_leaves_no_trace `{Crypto} settings database_error engine rq r rid w :
  header rq "X-Request-ID" = Some rid -> varchar 64 rid = None ->
  (forall e, steps_keep (untraced rq rid (audit_log w)) (engine e)) ->
  audit_log (snd (run_co (http settings database_error rq (api_router settings database_error engine rq r)) w))
  = audit_log w.
Proof.
  intros Hh Hl He. apply (untraced_http settings database_error rq rid Hl (audit_log w)); [done|done|].
  by apply untraced_route.
Qed.

(** ** Witnesses *)
Module ApiDemo.
Definition settings : Settings :=
  {| app_debug := false; api_v1_prefix := "/api/v1"; is_production := true; trust_proxy_headers := true; rate_limit_enabled := true;
     rate_limit_general_per_minute := 300; rate_limit_login_per_minute := 2; rate_limit_register_per_hour := 3;
     rate_limit_refresh_per_minute := 20; rate_limit_query_per_minute := 30; jwt_secret_key := "k";
     jwt_algorithm := "HS256"; access_token_expire_minutes := 30; refresh_token_expire_days := 14 |}.
Definition up : ApiWorld -> option exn := fun _ => None.
Definition down : ApiWorld -> option exn := fun _ => Some (OtherException "OperationalError" "connection refused").
Lemma up_good : well_behaved up.
Proof. done. Qed.
Lemma down_good : well_behaved down.
Proof. by intros w e [= <-]. Qed.
Definition engine (e : Endpoint) : apico Response := reply 200 (EngineBody "42").
Lemma engine_agrees e : agree same_but_audit (engine e) (engine e).
Proof. apply agree_finished. Qed.
Definition no_header : string -> option string := fun _ => None.
Definition password_guess (ip : string) (p : string) : Request * validated UserLogin :=
  ({| uid := 1; method := "POST"; path := "/api/v1/auth/login";
      header := fun h => if String.eqb h "X-Forwarded-For" then Some ip else None; client_host := Some "172.18.0.2";
      oauth2_token := None; x_api_key := None;
      json_body := Some (JDict [("username", JString "bob"); ("password", JString p)]) |},
   inr {| ul_username := "bob"; ul_password := p |}).
Definition world : ApiWorld :=
  {| auth := CryptoDemo.db_keys; buckets := ∅; audit_log := []; states := ∅; emitted := [] |}.
(** Sixty-five characters. *)
Definition long_id : string := String.string_of_list_ascii (repeat (ascii_of_nat 97) 65).
Definition with_header (h v : string) (rq : Request) : Request :=
  {| uid := uid rq; method := method rq; path := path rq;
     header := fun x => if String.eqb x h then Some v else header rq x; client_host := client_host rq;
     oauth2_token := oauth2_token rq; x_api_key := x_api_key rq; json_body := json_body rq |}.
Definition wrong : Request * validated UserLogin := password_guess "203.0.113.5" "guess".
End ApiDemo.

(** A wrong password: 401 with or without an audit database. *)
Lemma audit_is_invisible_witness :
  let run db := run_co (http ApiDemo.settings db (fst ApiDemo.wrong)
    (api_router ApiDemo.settings db ApiDemo.engine (fst ApiDemo.wrong) (POST_login (Decoded (snd ApiDemo.wrong))))) ApiDemo.world in
  fst (run ApiDemo.up) = fst (run ApiDemo.down) /\ same_but_audit (snd (run ApiDemo.up)) (snd (run ApiDemo.down)).
Proof.
  intros run. pose proof (audit_is_invisible ApiDemo.settings ApiDemo.up ApiDemo.down ApiDemo.engine (fst ApiDemo.wrong)
    (POST_login (Decoded (snd ApiDemo.wrong))) ApiDemo.world ApiDemo.up_good ApiDemo.down_good ApiDemo.engine_agrees) as Ha.
  unfold run. destruct (run_co (http ApiDemo.settings ApiDemo.up _ _) _) as [o1 w1].
  destruct (run_co (http ApiDemo.settings ApiDemo.down _ _) _) as [o2 w2]. exact Ha.
Defined.
Lemma long_request_id_leaves_no_trace_witness :
  let run rq := run_co (http ApiDemo.settings ApiDemo.up rq
    (api_router ApiDemo.settings ApiDemo.up ApiDemo.engine rq (POST_login (Decoded (snd ApiDemo.wrong))))) ApiDemo.world in
  length (audit_log (snd (run (fst ApiDemo.wrong)))) = 1%nat /\
  audit_log (snd (run (ApiDemo.with_header "X-Request-ID" ApiDemo.long_id (fst ApiDemo.wrong)))) = [].
Proof.
  intros run. split; [vm_compute; reflexivity|].
  exact (long_request_id_leaves_no_trace ApiDemo.settings ApiDemo.up ApiDemo.engine
    (ApiDemo.with_header "X-Request-ID" ApiDemo.long_id (fst ApiDemo.wrong)) (POST_login (Decoded (snd ApiDemo.wrong))) ApiDemo.long_id ApiDemo.world
    eq_refl ltac:(vm_compute; reflexivity) (fun e => keep_finished _ _)).
Defined.
(** The safety net's answer is not stamped with any header. *)
Example fallback_is_not_stamped :
  match fst (run_co (http ApiDemo.settings ApiDemo.up (fst ApiDemo.wrong) (co_raise (Engine (OtherException "KeyError" "x"))))
    ApiDemo.world) with
  | Ret r => status_code r = 500 /\ headers r = []
  | Raise _ => False
  end.
Proof. vm_compute. split; reflexivity. Qed.
(** A login body without its [username]: pydantic's [missing] error carries the whole body. *)
Definition missing_username (password : string) : ErrorDetails :=
  {| loc := [inl "body"; inl "username"];
     entries := [("type", JString "missing"); ("msg", JString "Field required");
                 ("input", JDict [("password", JString password)])] |}.
Example missing_field_echoes_the_password p :
  handle_validation_error [missing_username p] =
  co_ret {| status_code := 422; content := ValidationBody [missing_username p]; headers := [] |}.
Proof. reflexivity. Qed.
