(* ===== verification/ApiAccess.v ===== *)
(** * Who gets through

    What the dependencies promise to the engines behind them: a role, an active account, a
    token in the caller's bucket; the WebSocket handshake checks the caller as the routes do,
    and is not behind their general limit. *)
From S2P Require Import Prelude AsyncIO PyFloat PyStr Auth AuthService RateLimiter Models ApiWorld ApiGuards ApiErrors ApiRoutes.
#[local] Open Scope string_scope.
#[local] Open Scope Z_scope.

(** The least role an endpoint asks for; [None] where anyone may call. *)
Definition clearance (e : Endpoint) : option UserRole :=
  match e with
  | Query | QuerySql | QueryValidate | QueryRepair | QueryExecute | QueryFormat | QueryStream => Some ANALYST
  | HealthDiagnostics | HealthMetrics | SettingsInfo => Some ADMIN
  | HealthReport => Some VIEWER
  | HealthLive | HealthReady => None
  end.
(** Whether an endpoint draws on the caller's query budget. *)
Definition metered (e : Endpoint) : bool := bool_decide (clearance e = Some ANALYST).
Definition query_key (i : Z) : string := "query:user:" ++ show_Z i.

Section Access.
Context `{Crypto} (settings : Settings) (database_error : ApiWorld -> option exn).
Abbreviation key := (jwt_secret_key settings).
Abbreviation alg := (jwt_algorithm settings).

(** ** Specification

    The credential a request carries names account [i]. *)
Definition token_names (token : string) (d : AuthDb) (i : Z) : Prop :=
  exists claims, validate_at key alg token "access" (now d) = Ret claims /\ py_int (sub claims) = Some i.
Definition key_names (raw : string) (d : AuthDb) (i : Z) : Prop :=
  exists k j, api_keys d !! j = Some k /\ k_hash k = hash_api_key raw /\ k_revoked_at k = None /\
    (forall e, k_expires_at k = Some e -> now d <= e) /\ k_user_id k = i.
Definition credential (rq : Request) (d : AuthDb) (i : Z) : Prop :=
  match x_api_key rq with
  | Some raw => key_names raw d i
  | None => exists token, oauth2_token rq = Some token /\ token_names token d i
  end.
Definition entitled (rq : Request) (minimum : UserRole) (d : AuthDb) (u : UserRead) : Prop :=
  exists i row, credential rq d i /\ users d !! i = Some row /\ u_is_active row = true /\ u = read_user row /\
    ROLE_RANK minimum <= ROLE_RANK (u_role row).
Definition has_token (u : UserRead) (w : ApiWorld) : Prop :=
  let cap := rate_limit_query_per_minute settings in
  rate_limit_enabled settings = true ->
  (1 <= tokens (refill cap (per_second cap 60) (now (auth w)) (buckets w !! query_key (ur_id u))))%Q.

(** ** The service's answers *)
Definition user_verdict (token : string) (d : AuthDb) : outcome auth_exn UserRead :=
  let? claims := validate_at key alg token "access" (now d) in
  match py_int (sub claims) with
  | None => Raise (AuthOther "ValueError" ("invalid literal for int() with base 10: " ++ repr (sub claims)))
  | Some i => account_answer i d
  end.
Lemma run_get_current_user token d :
  run_co (AuthService.get_current_user key alg token) d = (user_verdict token d, d).
Proof. apply run_current_user. Qed.
Lemma user_verdict_ret token d u : user_verdict token d = Ret u ->
  exists i row, token_names token d i /\ users d !! i = Some row /\ u_is_active row = true /\ u = read_user row.
Proof.
  unfold user_verdict, account_answer, token_names. destruct (validate_at _ _ _ _ _) as [e|claims]; [done|]. cbn [obind].
  destruct (py_int (sub claims)) as [i|] eqn:Ei; [|done].
  destruct (users d !! i) as [row|] eqn:Er; [|done]. destruct (u_is_active row) eqn:Ea; [|done].
  intros [= <-]. exists i, row. split; [by exists claims|done].
Qed.

(** An API key authenticates its owner and touches nothing but its own row. *)
Definition key_only (d d' : AuthDb) : Prop := users d' = users d /\ now d' = now d /\ Auth.refresh_tokens d' = Auth.refresh_tokens d.
Lemma run_authenticate_api_key raw d o d' :
  run_co (authenticate_api_key raw) d = (o, d') ->
  key_only d d' /\
  forall u, o = Ret u -> exists i row, key_names raw d i /\ users d !! i = Some row /\
    u_is_active row = true /\ u = read_user row.
Proof.
  unfold authenticate_api_key. destruct (negb _); [intros [= <- <-]; split; done|].
  rewrite (run_co_step (get_api_key_by_hash (hash_api_key raw)) _ d (find_key (fun k => String.eqb (k_hash k) (hash_api_key raw)) d) d) by done.
  destruct (find_key _ d) as [k|] eqn:Ek; [|intros [= <- <-]; split; done].
  destruct (find_key_some _ _ _ Ek) as (j & Hj & Hh). apply String.eqb_eq in Hh.
  destruct (k_revoked_at k) eqn:Er; [intros [= <- <-]; split; done|].
  rewrite (run_co_step utc_now _ d (now d) d) by done.
  destruct (match k_expires_at k with Some e => e <? now d | None => false end) eqn:Ex; [intros [= <- <-]; split; done|].
  rewrite (run_co_step (get_by_id (k_user_id k)) _ d (users d !! k_user_id k) d) by done.
  destruct (users d !! k_user_id k) as [row|] eqn:Eu; [|intros [= <- <-]; split; done].
  destruct (u_is_active row) eqn:Ea; simpl negb; cbv iota; [|intros [= <- <-]; split; done].
  rewrite (run_co_step utc_now _ d (now d) d) by done.
  assert (Hn : key_names raw d (k_user_id k)).
  { exists k, j. split_and!; try done. intros e He. rewrite He in Ex. lia. }
  intros Hrun. rewrite run_co_bind in Hrun. unfold bind in Hrun.
  match type of Hrun with context [run_co ?c d] => assert (Hc : exists d1, run_co c d = (Ret tt, d1) /\ key_only d d1) end.
  { match goal with |- context [run_co (if ?b then _ else _)] => destruct b end; [|exists d; by repeat split]. rewrite run_co_atomic. unfold touch_api_key_last_used. destruct (api_keys d !! k_id k); eexists; by repeat split. }
  destruct Hc as (d1 & E & Hd). rewrite E in Hrun. simpl in Hrun. simplify_eq. split; [done|].
  intros u [= <-]. by exists (k_user_id k), row.
Qed.

(** ** The dependencies

    What identification leaves alone. *)
Definition calm (w w' : ApiWorld) : Prop :=
  users (auth w') = users (auth w) /\ now (auth w') = now (auth w) /\ buckets w' = buckets w.
Lemma calm_record w t ok actor name ip agent rid cid res m :
  steps_keep (calm w) (record database_error t ok actor name ip agent rid cid res m).
Proof.
  unfold record. apply steps_keep_bind; [by apply steps_keep_atomic|intros _].
  apply steps_keep_catch; [|intros e; destruct (catchable e); [by apply steps_keep_atomic|constructor]].
  apply steps_keep_atomic. intros w1 Hw. destruct (repo_same database_error
    {| event_type := AuditEventType_value t; actor_user_id := actor; actor_username := name; success := ok;
       ip_address := ip; user_agent := option_map (take_str MAX_USER_AGENT_LENGTH) (truthy agent);
       request_id := rid; correlation_id := cid; resource := res; event_metadata := m |} w1) as (Ha & Hb & _).
  unfold calm in *. by rewrite Ha, Hb.
Qed.
Lemma calm_audit w rq t ok u m : steps_keep (calm w) (audit_api_key settings database_error rq t ok u m).
Proof. unfold audit_api_key. apply steps_keep_bind; [by apply steps_keep_atomic|intros s; apply calm_record]. Qed.

Definition identified (rq : Request) (w : ApiWorld) (u : UserRead) : Prop :=
  exists i row, credential rq (auth w) i /\ users (auth w) !! i = Some row /\ u_is_active row = true /\ u = read_user row.
Lemma run_resolve_jwt rq w o w' : run_co (resolve_jwt_user settings rq) w = (o, w') ->
  w' = w /\ forall u, o = Ret u -> exists i row token, oauth2_token rq = Some token /\
    token_names token (auth w) i /\ users (auth w) !! i = Some row /\ u_is_active row = true /\ u = read_user row.
Proof.
  unfold resolve_jwt_user, current_user_of. destruct (oauth2_token rq) as [token|]; [|by intros [= <- <-]].
  rewrite run_on_auth, run_get_current_user. cbn [fst snd]. rewrite with_auth_auth. intros [= <- <-].
  split; [done|]. intros u Hu. destruct (user_verdict token (auth w)) as [e|u'] eqn:E; [done|]. simpl in Hu.
  simplify_eq. destruct (user_verdict_ret _ _ _ E) as (i & row & Ht & Hr). by exists i, row, token.
Qed.
(** The state after [request.state.user = user]. *)
Lemma run_set_user {A} rq u (k : unit -> apico A) w :
  exists w1, run_co (co_bind (set_user rq u) k) w = run_co (k tt) w1 /\ calm w w1 /\ auth w1 = auth w.
Proof. eexists. split; [by apply run_co_step|done]. Qed.

Lemma run_identify rq w o w' : run_co (get_current_user settings database_error rq) w = (o, w') ->
  calm w w' /\ forall u, o = Ret u -> identified rq w u.
Proof.
  unfold get_current_user. rewrite run_co_bind. unfold bind.
  match goal with |- context [run_co ?c w] => assert (Hc : forall o1 w1, run_co c w = (o1, w1) ->
    calm w w1 /\ forall u, o1 = Ret u -> identified rq w u) end.
  { intros o1 w1. unfold identified, credential. destruct (x_api_key rq) as [raw|].
    - rewrite run_co_bind. unfold bind. rewrite run_co_catch. unfold try_except. rewrite run_on_auth.
      destruct (run_co (authenticate_api_key raw) (auth w)) as [o2 d] eqn:E.
      destruct (run_authenticate_api_key _ _ _ _ E) as [(Hu & Hn & _) Hid]. cbn [fst snd].
      assert (Hcalm : calm w (with_auth d w)) by done.
      destruct o2 as [e|u]; cbn [map_raise].
      + destruct (is_AuthenticationError e); [|by intros [= <- <-]].
        rewrite run_co_bind. unfold bind.
        match goal with |- context [run_co ?c (with_auth d w)] =>
          pose proof (run_co_keeps (calm w) c (with_auth d w) (calm_audit w _ _ _ _ _) Hcalm) as Hk;
          destruct (run_co c (with_auth d w)) as [[e2|[]] w2] end; by intros [= <- <-].
      + rewrite run_co_bind. unfold bind.
        match goal with |- context [run_co ?c (with_auth d w)] =>
          pose proof (run_co_keeps (calm w) c (with_auth d w) (calm_audit w _ _ _ _ _) Hcalm) as Hk;
          destruct (run_co c (with_auth d w)) as [[e2|[]] w2] end; intros [= <- <-]; [done|].
        split; [done|]. intros u' [= <-]. by apply Hid.
    - intros Hr. destruct (run_resolve_jwt _ _ _ _ Hr) as [-> Hid]. split; [done|].
      intros u Hu. destruct (Hid u Hu) as (i & row & token & Ht & Hn & Hrest). exists i, row. split; [|done].
      by exists token. }
  match goal with |- context [run_co ?c w] => destruct (run_co c w) as [o1 w1] end.
  destruct (Hc _ _ eq_refl) as [Hcalm Hid]. destruct o1 as [e|u]; [by intros [= <- <-]|].
  destruct (run_set_user rq u (fun _ => co_ret u) w1) as (w2 & -> & H2 & _). intros [= <- <-].
  split; [unfold calm in *; intuition congruence|]. intros u' [= <-]. by apply Hid.
Qed.

(** One check of the limiter touches only its own bucket, and grants only what is there. *)
Lemma run_limiter k c r w :
  exists d b, run_co (limiter_check settings k c r) w = (Ret d, with_buckets b w) /\
    (forall k', k' <> k -> b !! k' = buckets w !! k') /\
    (allowed d = true -> rate_limit_enabled settings = true ->
       (1 <= tokens (refill c r (now (auth w)) (buckets w !! k)))%Q).
Proof.
  unfold limiter_check, limiter_answer. rewrite run_co_atomic. destruct (rate_limit_enabled settings).
  - unfold check. destruct (fleb 1 _) eqn:E; do 2 eexists; (split; [done|]); simpl;
      (split; [intros; by rewrite lookup_insert_ne|]); [|done]. intros _ _. by apply fleb_spec.
  - do 2 eexists. split; [done|]. by split.
Qed.
Lemma run_raise_if_blocked d w :
  run_co (raise_if_blocked d) w =
  if allowed d then (Ret tt, w) else (Raise (RateLimitExceededError SLOW_DOWN (retry_after_seconds d)), w).
Proof. unfold raise_if_blocked. by destruct (allowed d). Qed.
(** A check followed by [raise_if_blocked]. *)
Lemma run_limit k c r w :
  exists d b, (forall k', k' <> k -> b !! k' = buckets w !! k') /\
    (allowed d = true -> rate_limit_enabled settings = true ->
       (1 <= tokens (refill c r (now (auth w)) (buckets w !! k)))%Q) /\
    forall A (next : unit -> apico A),
      run_co (co_bind (let* d := limiter_check settings k c r in raise_if_blocked d) next) w =
        if allowed d then run_co (next tt) (with_buckets b w)
        else (Raise (RateLimitExceededError SLOW_DOWN (retry_after_seconds d)), with_buckets b w).
Proof.
  destruct (run_limiter k c r w) as (d & b & E & H1 & H2). exists d, b. split; [done|]. split; [done|].
  intros A next. rewrite run_co_bind. unfold bind at 1.
  rewrite run_co_bind, (bind_ret_eq _ _ _ _ _ E), run_raise_if_blocked. by destruct (allowed d).
Qed.

Lemma run_guard {A} o (next : unit -> apico A) w :
  run_co (co_bind (guard o) next) w =
  match o with Ret _ => run_co (next tt) w | Raise e => (Raise (Auth_error e), w) end.
Proof. by destruct o. Qed.
Lemma require_role_ret u m : require_role u m = Ret tt \/ exists e, require_role u m = Raise e.
Proof. unfold require_role. case_match; eauto. Qed.
Lemma require_role_spec u m x : require_role u m = Ret x -> ROLE_RANK m <= ROLE_RANK (ur_role u).
Proof. unfold require_role. case_match; [done|]. intros _. lia. Qed.

(** The role dependencies: either they raise, or they return a caller entitled to the role. *)
Lemma run_role_required m rq w o w' : run_co (get_role_required_user settings database_error m rq) w = (o, w') ->
  calm w w' /\ forall u, o = Ret u -> entitled rq m (auth w) u.
Proof.
  unfold get_role_required_user. rewrite run_co_bind. unfold bind.
  destruct (run_co (get_current_user settings database_error rq) w) as [o1 w1] eqn:E.
  destruct (run_identify _ _ _ _ E) as [Hcalm Hid]. destruct o1 as [e|u]; [by intros [= <- <-]|].
  rewrite run_guard. destruct (require_role u m) as [e|x] eqn:Er; intros [= <- <-]; (split; [done|]); [done|].
  intros u' [= <-]. destruct (Hid u eq_refl) as (i & row & Hc & Hr & Ha & ->). exists i, row.
  apply require_role_spec in Er. done.
Qed.

(** ** Routes

    A route either raises what its engine cannot change, or runs the engine in a world where
    [P] holds and the accounts are as they were. *)
Definition lets_through (route : apico Response -> apico Response) (P : Prop) (w : ApiWorld) : Prop :=
  forall run o w', run_co (route run) w = (o, w') ->
    (exists x, o = Raise x /\ forall run', run_co (route run') w = (o, w')) \/
    (exists w1, run_co run w1 = (o, w') /\ users (auth w1) = users (auth w) /\ P).
Lemma lets_through_stop route P w x w' :
  (forall run, run_co (route run) w = (Raise x, w')) -> lets_through route P w.
Proof. intros Hr run o w2 Ho. left. rewrite Hr in Ho. simplify_eq. by exists x. Qed.
Lemma lets_through_step route route' (P : Prop) w w1 :
  (forall run, run_co (route run) w = run_co (route' run) w1) -> users (auth w1) = users (auth w) ->
  lets_through route' P w1 -> lets_through route P w.
Proof.
  intros Hr Hu Ht run o w' Ho. rewrite Hr in Ho. destruct (Ht _ _ _ Ho) as [(x & -> & Hx)|(w2 & H1 & H2 & H3)].
  - left. exists x. split; [done|]. intros run'. by rewrite Hr.
  - right. exists w2. by rewrite H2.
Qed.
Lemma lets_through_run (P : Prop) w : P -> lets_through (fun run => run) P w.
Proof. intros HP run o w' Ho. right. by exists w. Qed.

Lemma lets_through_weaken route (P Q : Prop) w : (P -> Q) -> lets_through route P w -> lets_through route Q w.
Proof. intros HPQ Ht run o w' Ho. destruct (Ht _ _ _ Ho) as [?|(w1 & H1 & H2 & H3)]; [by left|right]. exists w1. auto. Qed.
(** A limit in front. *)
Lemma lets_through_limit k c r route (P : Prop) w :
  (forall b d, (forall k', k' <> k -> b !! k' = buckets w !! k') ->
     (allowed d = true -> rate_limit_enabled settings = true ->
       (1 <= tokens (refill c r (now (auth w)) (buckets w !! k)))%Q) ->
     allowed d = true -> lets_through route P (with_buckets b w)) ->
  lets_through (fun run => co_bind (let* d := limiter_check settings k c r in raise_if_blocked d) (fun _ => route run)) P w.
Proof.
  intros Hr. destruct (run_limit k c r w) as (d & b & Hb & Ht & E). destruct (allowed d) eqn:Ea.
  - apply (lets_through_step _ route P w (with_buckets b w)); [|done|apply (Hr b d); [done|intros _; by apply Ht|done]]. intros run. by rewrite E.
  - eapply lets_through_stop. intros run. by rewrite E.
Qed.
(** A role in front. *)
Lemma lets_through_role m rq (route : UserRead -> apico Response -> apico Response) (P : Prop) w :
  (forall u w1, calm w w1 -> entitled rq m (auth w) u -> lets_through (route u) P w1) ->
  lets_through (fun run => co_bind (get_role_required_user settings database_error m rq) (fun u => route u run)) P w.
Proof.
  intros Hr. destruct (run_co (get_role_required_user settings database_error m rq) w) as [[e|u] w1] eqn:E;
    destruct (run_role_required _ _ _ _ _ E) as [Hcalm Hent].
  - apply (lets_through_stop _ _ _ e w1). intros run. by rewrite run_co_bind, (bind_raise_eq _ _ _ _ _ E).
  - apply (lets_through_step _ (route u) P w w1); [|apply Hcalm|by apply Hr; [|apply Hent]].
    intros run. by rewrite run_co_bind, (bind_ret_eq _ _ _ _ _ E).
Qed.
Lemma lets_through_body v P w : P -> lets_through (fun run => with_body v (fun _ : unit => run)) P w.
Proof.
  intros HP. destruct v as [es|x]; [|by apply lets_through_run]. eapply lets_through_stop. done.
Qed.

Lemma analyst_lets_through rq v w :
  lets_through (analyst_route settings database_error rq v)
    (exists u, entitled rq ANALYST (auth w) u /\ has_token u w) w.
Proof.
  apply lets_through_role. intros u w1 (Hu & Hn & Hb) Hent. unfold check_query_rate_limit.
  apply (lets_through_limit (query_key (ur_id u))). intros b d _ Ht Ha. apply lets_through_body.
  exists u. split; [done|]. unfold has_token. rewrite <- Hn, <- Hb. auto.
Qed.
Lemma role_lets_through m rq w :
  lets_through (fun run => co_bind (get_role_required_user settings database_error m rq) (fun _ => run))
    (exists u, entitled rq m (auth w) u) w.
Proof. apply lets_through_role. intros u w1 _ Hent. apply lets_through_run. by exists u. Qed.
Lemma user_lets_through rq w :
  lets_through (user_route settings database_error rq) (exists u, entitled rq VIEWER (auth w) u) w.
Proof.
  unfold user_route. destruct (run_co (get_current_user settings database_error rq) w) as [[e|u] w1] eqn:E;
    destruct (run_identify _ _ _ _ E) as [Hcalm Hid].
  - apply (lets_through_stop _ _ _ e w1). intros run. by rewrite run_co_bind, (bind_raise_eq _ _ _ _ _ E).
  - apply (lets_through_step _ (fun run => run) _ w w1); [|apply Hcalm|].
    + intros run. by rewrite run_co_bind, (bind_ret_eq _ _ _ _ _ E).
    + apply lets_through_run. destruct (Hid u eq_refl) as (i & row & Hc & Hr & Ha & ->).
      exists (read_user row), i, row. split_and!; try done. simpl. by destruct (u_role row).
Qed.
Definition granted (rq : Request) (e : Endpoint) (w : ApiWorld) : Prop :=
  forall m, clearance e = Some m ->
    exists u, entitled rq m (auth w) u /\ (metered e = true -> has_token u w).
Lemma engine_route_lets_through rq e body w :
  lets_through (engine_route settings database_error rq e body) (granted rq e w) w.
Proof.
  unfold engine_route, granted.
  assert (Hbody : (exists x, forall k : validated unit -> apico Response, run_co (co_bind (if has_body e then read_json body else co_ret (inr tt)) k) w = (Raise x, w)) \/
    exists v, forall k : validated unit -> apico Response, run_co (co_bind (if has_body e then read_json body else co_ret (inr tt)) k) w = run_co (k v) w).
  { destruct (has_body e); [destruct body as [es| |v]|]; [left; by eexists..|by right; exists v|by right; exists (inr tt)]. }
  destruct Hbody as [[x Hx]|[v Hv]]; [by apply (lets_through_stop _ _ _ x w)|].
  eapply (lets_through_step _ _ _ w w); [intros run; rewrite Hv; reflexivity|done|]. clear Hv.
  unfold check_general_rate_limit. apply lets_through_limit. intros b d Hb _ _.
  assert (Htoken : forall u, has_token u (with_buckets b w) -> has_token u w).
  { intros u. unfold has_token. simpl. by rewrite Hb by done. }
  destruct e; cbn [clearance];
    try (eapply lets_through_weaken; [|apply analyst_lets_through];
         intros (u & Hent & Ht) m [= <-]; exists u; split; [done|intros _; by apply Htoken]);
    try (eapply lets_through_weaken; [|apply role_lets_through];
         intros (u & Hent) m [= <-]; exists u; split; [done|by intros ?]);
    try (eapply lets_through_weaken; [|apply user_lets_through];
         intros (u & Hent) m [= <-]; exists u; split; [done|by intros ?]);
    apply lets_through_run; by intros m.
Qed.
End Access.

(** C8. No engine runs for a caller who is not entitled to it. Whatever endpoint is called,
    in whatever state: either the request ends in an exception that does not depend on the
    engine, or the engine runs, and then the request's credential names an active account of
    at least the role the endpoint asks for, and, on a query endpoint, that account's bucket
    held a token. *)
Theorem engine_runs_only_for_the_entitled `{Crypto} settings database_error rq e v run w o w' :
  run_co (engine_route settings database_error rq e v run) w = (o, w') ->
  (exists x, o = Raise x /\
     forall run', run_co (engine_route settings database_error rq e v run') w = (o, w')) \/
  (exists w1, run_co run w1 = (o, w') /\ users (auth w1) = users (auth w) /\
     forall m, clearance e = Some m ->
       exists u, entitled settings rq m (auth w) u /\ (metered e = true -> has_token settings u w)).
Proof. apply engine_route_lets_through. Qed.

(** What a query route asks of its caller, and all it does before its body's validation and
    its engine: the router's limit first. *)
Definition caller_gate `{Crypto} settings database_error (rq : Request) : apico UserRead :=
  let* user := get_analyst_required_user settings database_error rq in
  let* _ := check_query_rate_limit settings user in
  co_ret user.
Definition query_gate `{Crypto} settings database_error (rq : Request) : apico UserRead :=
  let* _ := check_general_rate_limit settings rq in
  caller_gate settings database_error rq.
(** What the handshake makes of the gate's answer. *)
Definition handshake_of (o : outcome api_exn UserRead) : outcome api_exn Handshake :=
  match o with
  | Ret u => Ret (Admit u)
  | Raise (RateLimitExceededError m _) => Ret (Close 1013 m)
  | Raise (Auth_error a) =>
      if is_AuthenticationError a || is_AuthorizationError a then Ret (Close 1008 (take_str 120 (auth_str a)))
      else Raise (Auth_error a)
  | Raise e => Raise e
  end.

Section Handshake.
Context `{Crypto} (settings : Settings) (database_error : ApiWorld -> option exn).

(** The gate really is what every query route runs. *)
Lemma query_route_gate rq e v run w : metered e = true ->
  run_co (engine_route settings database_error rq e (Decoded v) run) w =
  run_co (co_bind (query_gate settings database_error rq) (fun _ => with_body v (fun _ => run))) w.
Proof.
  intros He. unfold engine_route, query_gate, caller_gate, analyst_route.
  rewrite !run_co_bind. unfold bind. destruct e; try discriminate He; cbn [has_body read_json co_ret run_co];
    rewrite !run_co_bind; unfold bind;
    (destruct (run_co (check_general_rate_limit settings rq) w) as [[x|[]] w1]; [done|]);
    rewrite !run_co_bind; unfold bind;
    (destruct (run_co (get_analyst_required_user settings database_error rq) w1) as [[x|u] w2]; [done|]);
    rewrite !run_co_bind; unfold bind; by destruct (run_co (check_query_rate_limit settings u) w2) as [[x|[]] w3].
Qed.

(** A check looks at its own bucket only. *)
Lemma limiter_local k c r t bs bs' : bs' !! k = bs !! k ->
  fst (limiter_answer settings k c r t bs') = fst (limiter_answer settings k c r t bs) /\
  snd (limiter_answer settings k c r t bs') !! k = snd (limiter_answer settings k c r t bs) !! k /\
  forall k', k' <> k -> snd (limiter_answer settings k c r t bs') !! k' = bs' !! k' /\
                        snd (limiter_answer settings k c r t bs) !! k' = bs !! k'.
Proof.
  intros Hk. unfold limiter_answer. destruct (rate_limit_enabled settings); [|done].
  unfold check. rewrite Hk. case_match; simpl; rewrite !lookup_insert_eq; split_and!; try done;
    intros k' Hne; by rewrite !lookup_insert_ne.
Qed.

(** Both sides, for a bearer token. *)
Abbreviation budget := (rate_limit_query_per_minute settings).
Definition caller_answer (token : string) (w : ApiWorld) : outcome api_exn UserRead * gmap string Bucket :=
  match user_verdict settings token (auth w) with
  | Raise a => (Raise (Auth_error a), buckets w)
  | Ret u =>
      match require_role u ANALYST with
      | Raise a => (Raise (Auth_error a), buckets w)
      | Ret _ =>
          let '(d, b) := limiter_answer settings (query_key (ur_id u)) budget (per_second budget 60)
                           (now (auth w)) (buckets w) in
          (if allowed d then Ret u else Raise (RateLimitExceededError SLOW_DOWN (retry_after_seconds d)), b)
      end
  end.
Lemma run_caller_gate rq token w : oauth2_token rq = Some token -> x_api_key rq = None ->
  exists w1, run_co (caller_gate settings database_error rq) w = (fst (caller_answer token w), w1) /\
    auth w1 = auth w /\ buckets w1 = snd (caller_answer token w).
Proof.
  intros Ht Hk. unfold caller_answer.
  unfold caller_gate, get_analyst_required_user, get_role_required_user, get_current_user, resolve_jwt_user.
  rewrite Hk, Ht. repeat (rewrite ?run_co_bind, ?run_co_catch; unfold bind, try_except).
  unfold current_user_of. rewrite run_on_auth, run_get_current_user. cbn [fst snd].
  rewrite with_auth_auth. destruct (user_verdict settings token (auth w)) as [a|u] eqn:Ev; cbn [map_raise]; [by eexists|].
  cbn [co_ret run_co]. destruct (run_set_user rq u (fun _ => co_ret u) w) as (w1 & -> & (_ & Hn & Hb) & Ha).
  cbn [co_ret run_co]. rewrite !run_guard. destruct (require_role u ANALYST) as [a|x] eqn:Er; [by eexists|].
  cbn [co_ret run_co]. unfold check_query_rate_limit, limiter_check. repeat (rewrite run_co_bind; unfold bind).
  rewrite !run_co_atomic, Ha, Hb. fold (query_key (ur_id u)).
  destruct (limiter_answer settings _ _ _ _ _) as [d b]. cbn [fst snd]. rewrite run_raise_if_blocked.
  destruct (allowed d); by eexists.
Qed.
Lemma run_handshake ws token w : truthy (ws_token ws) = Some token ->
  exists w1, run_co (authenticate_and_authorize settings ws) w = (handshake_of (fst (caller_answer token w)), w1) /\
    auth w1 = auth w /\ buckets w1 = snd (caller_answer token w).
Proof.
  intros Hws. unfold authenticate_and_authorize, caller_answer. rewrite Hws.
  repeat (rewrite ?run_co_bind, ?run_co_catch; unfold bind, try_except).
  unfold current_user_of. rewrite run_on_auth, run_get_current_user. cbn [fst snd].
  rewrite with_auth_auth. destruct (user_verdict settings token (auth w)) as [a|u] eqn:Ev; cbn [map_raise].
  { simpl. destruct (is_AuthenticationError a || is_AuthorizationError a); by eexists. }
  rewrite !run_guard. destruct (require_role u ANALYST) as [a|x] eqn:Er.
  { assert (Hz : is_AuthorizationError a = true) by (unfold require_role in Er; by destruct (_ <? _); simplify_eq).
    rewrite Hz, orb_true_r. simpl. rewrite Hz, orb_true_r. by eexists. }
  cbn [co_ret run_co]. unfold limiter_check. rewrite run_co_bind. unfold bind. rewrite !run_co_atomic.
  fold (query_key (ur_id u)). destruct (limiter_answer settings _ _ _ _ _) as [d b]. cbn [fst snd].
  destruct (allowed d); by eexists.
Qed.
(** The caller's checks do not see the bucket of the address, and leave it alone. *)
Lemma caller_answer_local token w b k : (forall i, k <> query_key i) ->
  (forall k', k' <> k -> b !! k' = buckets w !! k') ->
  fst (caller_answer token (with_buckets b w)) = fst (caller_answer token w) /\
  (forall k', k' <> k -> snd (caller_answer token (with_buckets b w)) !! k' = snd (caller_answer token w) !! k') /\
  snd (caller_answer token w) !! k = buckets w !! k.
Proof.
  intros Hk Hb. unfold caller_answer. cbn [auth buckets with_buckets].
  destruct (user_verdict settings token (auth w)) as [a|u]; [by split_and!|].
  destruct (require_role u ANALYST) as [a|x]; [by split_and!|].
  destruct (limiter_local (query_key (ur_id u)) budget (per_second budget 60) (now (auth w)) (buckets w) b) as (H1 & H2 & H3).
  { apply Hb. intros Heq. by apply (Hk (ur_id u)). }
  destruct (limiter_answer settings _ _ _ _ b) as [d1 b1], (limiter_answer settings _ _ _ _ (buckets w)) as [d2 b2].
  simpl in H1, H2, H3. subst d2. cbn [fst snd]. split; [done|]. split; [|by apply H3].
  intros k' Hne. destruct (decide (k' = query_key (ur_id u))) as [->|Hq]; [done|]. destruct (H3 k' Hq) as [-> ->]. by apply Hb.
Qed.
End Handshake.
Definition general_key (settings : Settings) (rq : Request) : string := "general:ip:" ++ opt_text (client_ip settings rq).

(** C9. The WebSocket handshake makes the caller checks of the query routes, and those only.
    For the same bearer token in the same state it reaches the verdict of the routes' own
    checks (identity, role, query limit): the same account is admitted, the failures they
    answer with 401 or 403 close it with 1008 and their 429 with 1013, any other exception
    escapes both, and both leave the same accounts and buckets. The routes are also behind the
    router's general limit, the handshake is not, and never draws on it: when that limit lets
    the request's address through, the whole gate of a route decides as the handshake does and
    leaves the same accounts and buckets, that address's apart; when it does not, the route
    refuses the caller with 429 and only that address's bucket can change, while the handshake
    is decided as if the limit were not there. *)
Theorem websocket_admits_like_http `{Crypto} settings database_error ws rq token w :
  truthy (ws_token ws) = Some token -> oauth2_token rq = Some token -> x_api_key rq = None ->
  let '(o, w0) := run_co (caller_gate settings database_error rq) w in
  let '(o1, w1) := run_co (query_gate settings database_error rq) w in
  let '(o2, w2) := run_co (authenticate_and_authorize settings ws) w in
  (o2 = handshake_of o /\ auth w2 = auth w0 /\ buckets w2 = buckets w0) /\
  buckets w2 !! general_key settings rq = buckets w !! general_key settings rq /\
  match fst (run_co (check_general_rate_limit settings rq) w) with
  | Ret _ => o2 = handshake_of o1 /\ auth w2 = auth w1 /\
      forall k, k <> general_key settings rq -> buckets w2 !! k = buckets w1 !! k
  | Raise _ => exists q, o1 = Raise (RateLimitExceededError SLOW_DOWN q) /\ auth w1 = auth w /\
      forall k, k <> general_key settings rq -> buckets w1 !! k = buckets w !! k
  end.
Proof.
  intros Hws Ht Hk. destruct (run_caller_gate settings database_error rq token w Ht Hk) as (w0 & -> & Ha0 & Hb0).
  destruct (run_handshake settings ws token w Hws) as (w2 & -> & Ha2 & Hb2).
  unfold query_gate, check_general_rate_limit. cbv zeta. fold (general_key settings rq).
  destruct (run_limit settings (general_key settings rq) (rate_limit_general_per_minute settings)
    (per_second (rate_limit_general_per_minute settings) 60) w) as (d & b & Hb & _ & E).
  assert (E' := E _ (fun x => co_ret x)). rewrite run_co_bind in E'. unfold bind in E' at 1. rewrite E. clear E.
  assert (Eg : fst (run_co (let* d := limiter_check settings (general_key settings rq) (rate_limit_general_per_minute settings)
      (per_second (rate_limit_general_per_minute settings) 60) in raise_if_blocked d) w) =
    if allowed d then Ret tt else Raise (RateLimitExceededError SLOW_DOWN (retry_after_seconds d))).
  { destruct (run_co (co_bind _ _) w) as [[x|[]] wx]; simpl in E'; by destruct (allowed d); simplify_eq. }
  rewrite Eg. clear E' Eg.
  destruct (caller_answer_local settings token w b (general_key settings rq)) as (L1 & L2 & L3); [done|done|].
  destruct (allowed d).
  - destruct (run_caller_gate settings database_error rq token (with_buckets b w) Ht Hk) as (w1 & -> & Ha1 & Hb1).
    rewrite Ha2, Hb2, Ha0, Hb0, Ha1, Hb1, L1. cbn [fst co_ret run_co]. split_and!; try done. intros k Hne. by rewrite L2.
  - rewrite Ha2, Hb2, Ha0, Hb0. cbn [fst]. split_and!; try done. by eexists.
Qed.

(** ** Witnesses *)
Module AccessDemo.
Import ApiDemo.
Definition with_key : Request :=
  {| uid := 2; method := "POST"; path := "/api/v1/query"; header := no_header; client_host := Some "172.18.0.2";
     oauth2_token := None; x_api_key := Some "qm_1"; json_body := None |}.
Definition token : string := access_token (pair_of "k" "HS256" 30 14 CryptoDemo.db0 1).
Definition with_token : Request :=
  {| uid := 3; method := "POST"; path := "/api/v1/query"; header := no_header; client_host := Some "172.18.0.2";
     oauth2_token := Some token; x_api_key := None; json_body := None |}.
Definition socket : WebSocket :=
  {| ws_header := no_header; ws_query_param := fun k => if String.eqb k "token" then Some token else None |}.
End AccessDemo.

(** Bob's key opens the query endpoint. *)
Lemma engine_runs_only_for_the_entitled_witness :
  exists u, entitled ApiDemo.settings AccessDemo.with_key ANALYST (auth ApiDemo.world) u /\
    has_token ApiDemo.settings u ApiDemo.world.
Proof.
  destruct (engine_runs_only_for_the_entitled ApiDemo.settings ApiDemo.up AccessDemo.with_key Query (Decoded (inr tt))
    (ApiDemo.engine Query) ApiDemo.world _ _ (surjective_pairing _)) as [(x & Hx & _)|(w1 & _ & _ & Hu)].
  - exfalso. vm_compute in Hx. discriminate Hx.
  - destruct (Hu ANALYST eq_refl) as (u & He & Ht). exists u. split; [exact He|]. apply Ht. reflexivity.
Defined.
Lemma websocket_admits_like_http_witness :
  let '(o1, _) := run_co (query_gate ApiDemo.settings ApiDemo.up AccessDemo.with_token) ApiDemo.world in
  let '(o2, _) := run_co (authenticate_and_authorize ApiDemo.settings AccessDemo.socket) ApiDemo.world in
  o2 = handshake_of o1.
Proof.
  pose proof (websocket_admits_like_http ApiDemo.settings ApiDemo.up AccessDemo.socket AccessDemo.with_token
    AccessDemo.token ApiDemo.world ltac:(vm_compute; reflexivity) eq_refl eq_refl) as Hw.
  assert (Hg : is_ret (fst (run_co (check_general_rate_limit ApiDemo.settings AccessDemo.with_token) ApiDemo.world)) = true)
    by (vm_compute; reflexivity).
  destruct (run_co (caller_gate _ _ _) _) as [o w0], (run_co (query_gate _ _ _) _) as [o1 w1],
    (run_co (authenticate_and_authorize _ _) _) as [o2 w2].
  destruct Hw as (_ & _ & Hw). destruct (fst (run_co (check_general_rate_limit _ _) _)) as [e|x]; [discriminate Hg|]. apply Hw.
Defined.
Example the_token_is_good :
  match fst (run_co (query_gate ApiDemo.settings ApiDemo.up AccessDemo.with_token) ApiDemo.world) with
  | Ret u => ur_username u = "bob" | Raise _ => False end.
Proof. vm_compute. reflexivity. Qed.
(** An address without a general token is turned away from the routes, not from the socket. *)
Example the_socket_is_outside_the_general_limit :
  let empty := {| tokens := 0; last_refill := now (auth ApiDemo.world) |} in
  let w := with_buckets {[general_key ApiDemo.settings AccessDemo.with_token := empty]} ApiDemo.world in
  is_ret (fst (run_co (query_gate ApiDemo.settings ApiDemo.up AccessDemo.with_token) w)) = false /\
  match fst (run_co (authenticate_and_authorize ApiDemo.settings AccessDemo.socket) w) with
  | Ret (Admit u) => ur_username u = "bob" | _ => False end.
Proof. vm_compute. split; reflexivity. Qed.
