(* ===== verification/ApiThrottle.v ===== *)
(** * What the limits are worth

    Failures become the responses the tables say, or in debug mode tracebacks; guessing
    passwords is bounded by the buckets of the attempted names, and what a forwarded header
    does to the address's. *)
From S2P Require Import Prelude AsyncIO PyFloat PyStr Auth AuthService RateLimiter Models ApiWorld ApiGuards ApiErrors ApiRoutes ApiAccess.
From Stdlib Require Import Ascii.
#[local] Open Scope string_scope.
#[local] Open Scope Z_scope.

(** ** Every failure is answered

    The statuses, written independently of the table. *)
Definition engine_status (cls : string) : option Z :=
  if bool_decide (cls ∈ ["EmptyQuestionError"; "ExecutionRejectedError"]) then Some 400
  else if bool_decide (cls ∈ ["InvalidCredentialsError"; "InvalidTokenError"; "TokenExpiredError";
    "RefreshTokenRevokedError"; "InvalidApiKeyError"; "ApiKeyExpiredError"; "ApiKeyRevokedError"]) then Some 401
  else if bool_decide (cls ∈ ["InactiveUserError"; "ForbiddenRoleError"; "InsufficientPermissionsError"]) then Some 403
  else if bool_decide (cls = "ApiKeyNotFoundError") then Some 404
  else if bool_decide (cls = "DuplicateUserError") then Some 409
  else if bool_decide (cls = "FormattingError") then Some 422
  else if bool_decide (cls = "DatabaseConnectionError") then Some 503
  else if bool_decide (cls = "ExecutionTimeoutError") then Some 504
  else if bool_decide (cls ∈ ["PipelineConfigurationError"; "SQLExecutionConfigurationError";
    "SQLRepairConfigurationError"; "ObservabilityConfigurationError"]) then Some 500
  else None.
(** What the client is told: a status, a text and a class name. *)
Definition answer_spec (e : api_exn) : option (Z * Body) :=
  match e with
  | HTTPException s d _ => Some (s, DetailBody d)
  | RateLimitExceededError m (Finite _) => Some (429, ErrorResponse m "RateLimitExceededError")
  | RateLimitExceededError _ Infinite => None
  | RequestValidationError es => Some (422, ValidationBody (map redact es))
  | PipelineError _ (Some c) => Some (default 500 (engine_status (exn_class c)), ErrorResponse (exn_str c) (exn_class c))
  | PipelineError m None => Some (500, ErrorResponse m "PipelineExecutionError")
  | Auth_error a => option_map (fun s => (s, ErrorResponse (auth_str a) (auth_class a))) (engine_status (auth_class a))
  | Engine c => option_map (fun s => (s, ErrorResponse (exn_str c) (exn_class c))) (engine_status (exn_class c))
  end.

(** What leaves the handlers of an exception the specification does not list: itself, except
    that a wait without end cannot be written in a header. *)
Definition escaping (e : api_exn) : api_exn :=
  match e with
  | RateLimitExceededError _ Infinite =>
      Engine (OtherException "OverflowError" "cannot convert float infinity to integer")
  | e => e
  end.

Lemma engine_status_table cls : engine_status cls = alist_get cls STATUS_BY_EXCEPTION.
Proof.
  unfold engine_status, STATUS_BY_EXCEPTION.
  destruct (decide (cls ∈ map fst STATUS_BY_EXCEPTION)) as [Hin|Hout].
  - unfold STATUS_BY_EXCEPTION in Hin. cbn [map fst] in Hin.
    repeat (apply elem_of_cons in Hin as [->|Hin]; [vm_compute; reflexivity|]). by apply not_elem_of_nil in Hin.
  - cbn [map fst STATUS_BY_EXCEPTION] in Hout. cbn [alist_get].
    repeat match type of Hout with _ ∉ _ :: _ => apply not_elem_of_cons in Hout as [? Hout] end.
    repeat (rewrite bool_decide_false by (rewrite ?elem_of_cons, ?elem_of_nil; naive_solver)).
    repeat (rewrite decide_False by done). done.
Qed.

Section Answers.
Context (settings : Settings) (database_error : ApiWorld -> option exn).

(** Logging and auditing leave the tables, the buckets and the request states alone. *)
Definition quiet (w0 w : ApiWorld) : Prop := same_but_audit w w0.
Lemma quiet_emit w0 x : steps_keep (quiet w0) (emit x).
Proof. by apply steps_keep_atomic. Qed.
Lemma quiet_record w0 t ok actor name ip agent rid cid res m :
  steps_keep (quiet w0) (record database_error t ok actor name ip agent rid cid res m).
Proof.
  unfold record. apply steps_keep_bind; [apply quiet_emit|intros _].
  apply steps_keep_catch; [|intros e; destruct (catchable e); [apply quiet_emit|constructor]].
  apply steps_keep_atomic. intros w Hw. unfold quiet in *.
  match goal with |- context [repo_create database_error ?row w] => pose proof (repo_same database_error row w) as Hs end.
  unfold same_but_audit in *. intuition congruence.
Qed.
Lemma run_audit_failure rq e w : well_behaved database_error ->
  exists w', run_co (audit_failure_if_relevant settings database_error rq e) w = (Ret tt, w') /\ same_but_audit w' w.
Proof.
  intros Hdb. unfold audit_failure_if_relevant. rewrite run_co_catch. unfold try_except, audit_relevant, get_state.
  rewrite (run_co_step _ _ w (state_of rq w) w) by done. cbv zeta.
  destruct (is_denial e); [|destruct (failure_event (path rq)); [|by exists w]];
    match goal with |- context [record database_error ?t ?ok ?a ?n ?ip ?ag ?rid ?cid ?res ?m] =>
      destruct (record_same database_error t ok a n ip ag rid cid res m w Hdb) as (w' & -> & Hs) end; by exists w'.
Qed.
Lemma run_log_and_respond rq s m t w :
  run_co (log_and_respond rq s m t) w =
  (Ret {| status_code := s; content := ErrorResponse m t; headers := [] |},
   with_line (ErrorLine m (header rq "X-Request-ID")) w).
Proof. done. Qed.
Lemma run_mapped rq e s w : well_behaved database_error -> status_for (class_name e) = s ->
  exists r w', run_co (handle_mapped_exception settings database_error rq e) w = (Ret r, w') /\
    status_code r = s /\ content r = ErrorResponse (exc_str e) (class_name e) /\ same_but_audit w' w.
Proof.
  intros Hdb <-. unfold handle_mapped_exception. rewrite run_co_bind.
  destruct (run_audit_failure rq e w Hdb) as (w1 & E & Hs). rewrite (bind_ret_eq _ _ _ _ _ E), run_log_and_respond.
  do 2 eexists. split; [done|]. done.
Qed.
Lemma status_of_engine cls s : engine_status cls = Some s -> status_for cls = s /\ is_mapped cls = true.
Proof. unfold status_for, is_mapped. rewrite engine_status_table. by intros ->. Qed.
Lemma status_of_none cls : engine_status cls = None -> is_mapped cls = false.
Proof. unfold is_mapped. rewrite engine_status_table. by intros ->. Qed.
Lemma default_status cls : status_for cls = default 500 (engine_status cls).
Proof. unfold status_for. by rewrite engine_status_table. Qed.

Definition retry_text (q : Q) : string := show_Z (Z.max 1 (Qround.Qceiling q)).
Lemma run_answer rq e w : well_behaved database_error ->
  match answer_spec e with
  | Some (s, b) => exists r w', run_co (answer_exception settings database_error rq e) w = (Ret r, w') /\
      status_code r = s /\ content r = b /\ same_but_audit w' w /\
      (forall m q, e = RateLimitExceededError m (Finite q) -> headers r = [("Retry-After", retry_text q)])
  | None => exists w', run_co (answer_exception settings database_error rq e) w = (Raise (escaping e), w') /\
      same_but_audit w' w /\ catchable (escaping e) = catchable e
  end.
Proof.
  intros Hdb. unfold answer_exception. destruct e as [a|s d h|m [q|]|es|m [c|]|c]; cbn [answer_spec handler_for].
  - destruct (engine_status (auth_class a)) as [s|] eqn:E; cbn [option_map].
    + destruct (status_of_engine _ _ E) as [Hs Hm]. cbn [class_name]. rewrite Hm.
      destruct (run_mapped rq (Auth_error a) s w Hdb Hs) as (r & w' & Hr & H1 & H2 & H3). by exists r, w'.
    + cbn [class_name]. rewrite (status_of_none _ E). by exists w.
  - by do 2 eexists.
  - do 2 eexists. split; [reflexivity|]. split_and!; try done. by intros m' q' [= <- <-].
  - eexists. split; [reflexivity|done].
  - by do 2 eexists.
  - do 2 eexists. split; [reflexivity|]. split_and!; try done. apply default_status.
  - by do 2 eexists.
  - destruct (engine_status (exn_class c)) as [s|] eqn:E; cbn [option_map].
    + destruct (status_of_engine _ _ E) as [Hs Hm]. cbn [class_name]. rewrite Hm.
      destruct (run_mapped rq (Engine c) s w Hdb Hs) as (r & w' & Hr & H1 & H2 & H3). by exists r, w'.
    + cbn [class_name]. rewrite (status_of_none _ E). by exists w.
Qed.
End Answers.

(** C11. Every failure is answered as the API promises, and only then. When a route raises:
    an exception the specification lists becomes a response with that status, the
    exception's own text and class (of a pipeline failure, its cause's), a refused caller
    also told to wait at least one second and at least as long as the bucket needs; any
    other [Exception] becomes a 500, without [app_debug] a bare one that says nothing about
    it, and with [app_debug] Starlette's rendering of its traceback. Nothing but log lines
    and audit rows is written on the way. *)
Theorem failures_are_answered settings database_error rq route e w w1 :
  well_behaved database_error -> run_co route w = (Raise e, w1) -> catchable e = true ->
  exists r w2,
    run_co (server_error_middleware settings rq (exception_middleware settings database_error rq route)) w = (Ret r, w2) /\
    same_but_audit w2 w1 /\
    match answer_spec e with
    | Some (s, b) => status_code r = s /\ content r = b
    | None => status_code r = 500 /\ headers r = [] /\
        content r = if app_debug settings then TracebackBody (escaping e) else DetailBody "Internal server error"
    end /\
    (forall m q, e = RateLimitExceededError m (Finite q) ->
       exists n, alist_get "Retry-After" (headers r) = Some (show_Z n) /\ 1 <= n /\ (q <= inject_Z n)%Q).
Proof.
  intros Hdb Hr Hc. unfold server_error_middleware, exception_middleware. rewrite run_co_catch. unfold try_except.
  rewrite run_co_catch. unfold try_except. rewrite Hr. pose proof (run_answer settings database_error rq e w1 Hdb) as Ha.
  destruct (answer_spec e) as [[s b]|] eqn:Es.
  - destruct Ha as (r & w2 & -> & H1 & H2 & H3 & H4). exists r, w2. split; [done|]. split; [done|]. split; [done|].
    intros m q He. rewrite (H4 m q He). exists (Z.max 1 (Qround.Qceiling q)). split; [done|]. split; [lia|].
    eapply Qle_trans; [apply Qround.Qle_ceiling|]. rewrite <- Zle_Qle. lia.
  - destruct Ha as (w2 & -> & H1 & H2). rewrite H2, Hc.
    assert (Hn : forall m q, e = RateLimitExceededError m (Finite q) -> False) by (by intros m q ->).
    destruct (app_debug settings); do 2 eexists; (split; [reflexivity|]); (split; [done|]); (split; [done|]);
      intros m q He; by destruct (Hn m q He).
Qed.

(** ** Guessing one account's password

    What a login goes through before its body is looked at. *)
Definition login_gate `{Crypto} settings (rq : Request) : apico unit :=
  let* _ := check_general_rate_limit settings rq in
  check_login_rate_limit settings rq.

Section Gate.
Context `{Crypto} (settings : Settings) (database_error : ApiWorld -> option exn).
Definition post_login (rq : Request) (v : validated UserLogin) : apico Response :=
  http settings database_error rq (login settings database_error rq (Decoded v)).
Definition login_rest (rq : Request) (v : validated UserLogin) : apico Response :=
  with_body v (fun b =>
    let* user := on_auth (authenticate (ul_username b) (ul_password b)) in
    let* tokens := issue_pair settings (ur_id user) in
    let* _ := audit settings database_error rq LOGIN_SUCCESS true (Some user) in
    reply 200 (TokensBody tokens)).
(** The route is its gate, then the body. *)
Lemma login_split rq v w : run_co (login settings database_error rq (Decoded v)) w =
  run_co (co_bind (login_gate settings rq) (fun _ => login_rest rq v)) w.
Proof.
  unfold login, login_gate. cbn [read_json]. rewrite !run_co_bind. unfold bind. cbn [co_ret run_co]. rewrite !run_co_bind.
  unfold bind. destruct (run_co (check_general_rate_limit settings rq) w) as [[e|[]] w1]; [done|].
  by rewrite run_co_bind.
Qed.
Lemma exception_run rq r1 r2 w1 w2 : run_co r1 w1 = run_co r2 w2 ->
  run_co (exception_middleware settings database_error rq r1) w1 = run_co (exception_middleware settings database_error rq r2) w2.
Proof. intros Hr. unfold exception_middleware. rewrite !run_co_catch. unfold try_except. by rewrite Hr. Qed.
Lemma run_blocked d1 d2 w :
  run_co (match first_blocked [Some d1; d2] with Some blocked => raise_if_blocked blocked | None => co_ret tt end) w =
  (match List.find (fun d => negb (allowed d)) (omap id [Some d1; d2]) with
   | Some d => Raise (RateLimitExceededError SLOW_DOWN (retry_after_seconds d)) | None => Ret tt end, w).
Proof.
  unfold first_blocked. destruct (List.find _ _) as [d|] eqn:E; [|done]. apply List.find_some in E as [_ E].
  rewrite run_raise_if_blocked. by destruct (allowed d).
Qed.
Lemma run_limiter_eq k c r w :
  run_co (limiter_check settings k c r) w =
  (let '(d, b) := limiter_answer settings k c r (now (auth w)) (buckets w) in (Ret d, with_buckets b w)).
Proof. unfold limiter_check. by rewrite run_co_atomic. Qed.
(** The gate looks at the clock and the buckets. *)
Definition clocked (w1 w2 : ApiWorld) : Prop := now (auth w1) = now (auth w2) /\ buckets w1 = buckets w2.
Lemma agree_clocked k c r : agree clocked (limiter_check settings k c r) (limiter_check settings k c r).
Proof.
  apply agree_atomic. intros w1 w2 [Hn Hb]. rewrite Hn, Hb. by destruct (limiter_answer settings k c r (now (auth w2)) (buckets w2)).
Qed.
Lemma agree_gate rq : agree clocked (login_gate settings rq) (login_gate settings rq).
Proof.
  unfold login_gate, check_general_rate_limit, check_login_rate_limit, raise_if_blocked.
  repeat first [apply agree_clocked|apply agree_finished|apply agree_bind; [|intros ?]|case_match].
Qed.
Lemma gate_same rq w1 w : now (auth w1) = now (auth w) -> buckets w1 = buckets w ->
  fst (run_co (login_gate settings rq) w1) = fst (run_co (login_gate settings rq) w).
Proof. intros Hn Hb. by apply agree_gate. Qed.
End Gate.

(** The bucket of a tracked name while the clock stands still: [n] tokens are left. *)
Definition name_key (u : string) : string := "login:username:" ++ u.
Section Stuffing.
Context `{Crypto} (settings : Settings) (database_error : ApiWorld -> option exn).
Context (good : well_behaved database_error) (limits_on : rate_limit_enabled settings = true).
Abbreviation cap := (rate_limit_login_per_minute settings).
Context (cap_ok : 0 < cap <= 2 ^ 53) (general_ok : 0 < rate_limit_general_per_minute settings).
Context (u : string) (named : is_empty u = false) (t : Z).

Definition left_tokens (n : nat) (w : ApiWorld) : Prop :=
  now (auth w) = t /\ (Z.of_nat n <= cap) /\
  match buckets w !! name_key u with
  | None => Z.of_nat n = cap
  | Some b => last_refill b = t /\ (tokens b == inject_Z (Z.of_nat n))%Q
  end.

(** What keeps the clock and the bucket keeps the count. *)
Lemma left_same n w w' : now (auth w') = now (auth w) -> buckets w' !! name_key u = buckets w !! name_key u ->
  left_tokens n w -> left_tokens n w'.
Proof. unfold left_tokens. by intros -> ->. Qed.
Lemma left_answer n w d b c r key : key <> name_key u ->
  limiter_answer settings key c r (now (auth w)) (buckets w) = (d, b) -> left_tokens n w ->
  left_tokens n (with_buckets b w).
Proof using limits_on.
  intros Hk E. apply left_same; [done|]. simpl. unfold limiter_answer in E. rewrite limits_on in E.
  unfold check in E. by case_match; simplify_eq; rewrite lookup_insert_ne.
Qed.
(** The name's own check takes a token, or refuses and takes none. *)
Lemma left_check n w d b : left_tokens n w ->
  limiter_answer settings (name_key u) cap (per_second cap 60) (now (auth w)) (buckets w) = (d, b) ->
  if allowed d then exists n', n = S n' /\ left_tokens n' (with_buckets b w) else left_tokens n (with_buckets b w).
Proof using limits_on cap_ok.
  intros (Ht & Hn & Hb) E. unfold limiter_answer in E. rewrite limits_on in E. unfold check in E.
  set (b0 := refill cap (per_second cap 60) (now (auth w)) (buckets w !! name_key u)) in *.
  assert (H0 : last_refill b0 = t /\ (tokens b0 == inject_Z (Z.of_nat n))%Q).
  { unfold b0. destruct (buckets w !! name_key u) as [b1|]; cbn [refill].
    - rewrite total_seconds_nonpos by lia. done.
    - split; [done|]. cbn [tokens]. rewrite f_of_Z_exact by lia. by rewrite Hn || by rewrite Hb. }
  destruct H0 as [H1 H2]. rewrite (fleb_1_int _ _ H2) in E. destruct (Z.leb_spec 1 (Z.of_nat n)); simplify_eq.
  - cbn [allow allowed]. exists (Nat.pred n). split; [lia|]. unfold left_tokens. simpl. rewrite lookup_insert_eq.
    split; [done|]. split; [lia|]. split; [done|].
    replace (Z.of_nat (Nat.pred n)) with (Z.of_nat n - 1) by lia. by apply fsub_1_int; [lia|].
  - cbn [allowed]. unfold left_tokens. simpl. rewrite lookup_insert_eq. split; [done|]. by split; [lia|].
Qed.

(** A refusal by one of the limits says how long to wait. *)
Lemma refusal_finite k c w d b : 0 < c ->
  limiter_answer settings k c (per_second c 60) (now (auth w)) (buckets w) = (d, b) -> allowed d = false ->
  exists q, retry_after_seconds d = Finite q.
Proof using limits_on.
  intros Hc E Ha. unfold limiter_answer in E. rewrite limits_on in E. unfold check in E.
  assert (Hr : fltb 0 (per_second c 60) = true).
  { apply fltb_spec. apply Qlt_le_trans with (fl (1 # 60)); [vm_compute; reflexivity|]. apply fl_mono.
    unfold Qle. simpl. lia. }
  rewrite Hr in E. case_match; simplify_eq; by eexists.
Qed.

(** What the route does after its limits keeps the clock and the buckets. *)
Lemma left_on_auth n A (c : aco A) :
  request (jwt_secret_key settings) (jwt_algorithm settings) (access_token_expire_minutes settings)
    (refresh_token_expire_days settings) A c -> steps_keep (left_tokens n) (on_auth c).
Proof.
  intros Hc. apply (steps_keep_lift_both auth with_auth Auth_error (fun d => now d = t));
    [by eapply (requests_keep_clock _ _ _ _ (fun x => x = t))|by intros w (Ht & _)|].
  intros d w Hd Hw. apply (left_same _ w); [|done|done]. destruct Hw as [Ht _]. simpl. congruence.
Qed.
Lemma left_quiet n w w' : same_but_audit w' w -> left_tokens n w -> left_tokens n w'.
Proof. intros (Ha & Hb & _). apply left_same; by rewrite ?Ha, ?Hb. Qed.
Lemma left_record n ty ok actor name ip agent rid cid res m :
  steps_keep (left_tokens n) (record database_error ty ok actor name ip agent rid cid res m).
Proof.
  unfold record, emit. apply steps_keep_bind; [by apply steps_keep_atomic|intros _].
  apply steps_keep_catch; [|intros e; destruct (catchable e); [by apply steps_keep_atomic|constructor]].
  apply steps_keep_atomic. intros w. apply left_quiet, repo_same.
Qed.
Lemma left_rest n rq v : steps_keep (left_tokens n) (login_rest settings database_error rq v).
Proof.
  unfold login_rest. destruct v as [es|b]; [constructor|]. cbn [with_body]. unfold issue_pair, audit, get_state, reply.
  apply steps_keep_bind; [apply left_on_auth; constructor|intros user].
  apply steps_keep_bind; [apply left_on_auth; constructor|intros tokens].
  apply steps_keep_bind; [|constructor].
  apply steps_keep_bind; [by apply steps_keep_atomic|intros s; apply left_record].
Qed.

Definition names (a : string) (rq : Request) : bool := bool_decide (get_attempted_username rq = Some a).
(** A request that names the tracked account passes the gate for a token of its bucket, and
    nothing adds one. *)
Lemma gate_left n rq w : left_tokens n w ->
  exists o w' n', run_co (login_gate settings rq) w = (o, w') /\ left_tokens n' w' /\
    (n' + (if names u rq && is_ret o then 1 else 0) <= n)%nat.
Proof using cap_ok limits_on named.
  intros Hw. unfold login_gate, check_general_rate_limit. cbv zeta. rewrite run_co_bind. unfold bind.
  rewrite run_co_bind. unfold bind. rewrite run_limiter_eq.
  destruct (limiter_answer settings _ _ _ _ _) as [d b] eqn:E. cbn [fst snd].
  apply (left_answer n w) in E as Hw1; [|done|done]. clear E. rewrite run_raise_if_blocked. destruct (allowed d).
  2: { do 2 eexists. exists n. split; [done|]. split; [done|]. simpl. rewrite andb_false_r. lia. }
  unfold check_login_rate_limit. cbv zeta. rewrite run_co_bind. unfold bind. rewrite run_limiter_eq.
  destruct (limiter_answer settings ("login:ip:" ++ _) _ _ _ _) as [d1 b1] eqn:E1. cbn [fst snd].
  apply (left_answer n) in E1 as Hw2; [|done|done]. clear E1. set (w2 := with_buckets b1 (with_buckets b w)) in *.
  rewrite run_co_bind. unfold bind. destruct (truthy (get_attempted_username rq)) as [a|] eqn:Et.
  2: { assert (Hno : names u rq = false).
       { apply bool_decide_eq_false. intros Hu. rewrite Hu in Et. cbn [truthy] in Et. by rewrite named in Et. }
       rewrite Hno. cbn [co_ret run_co andb]. rewrite run_blocked. do 2 eexists. exists n. split; [done|]. split; [done|lia]. }
  rewrite run_co_bind. unfold bind. fold (name_key a). rewrite run_limiter_eq.
  destruct (limiter_answer settings (name_key a) _ _ _ _) as [d2 b2] eqn:E2. cbn [fst snd co_ret run_co].
  assert (Hw3 : exists n', left_tokens n' (with_buckets b2 w2) /\ (n' + (if names u rq && allowed d2 then 1 else 0) <= n)%nat).
  { destruct (names u rq) eqn:Eu; cbn [andb].
    - apply bool_decide_eq_true in Eu. rewrite Eu in Et. cbn [truthy] in Et. rewrite named in Et. simplify_eq.
      pose proof (left_check n w2 d2 b2 Hw2 E2) as Hc.
      destruct (allowed d2); [destruct Hc as (n' & -> & Hn'); exists n'; split; [done|lia]|exists n; split; [done|lia]].
    - exists n. split; [|lia]. apply (left_answer n) in E2; [done| |done]. intros Heq.
      assert (Hau : a = u) by exact (inj (String.append "login:username:") _ _ Heq).
      apply bool_decide_eq_false in Eu. apply Eu. rewrite <- Hau. revert Et. destruct (get_attempted_username rq) as [x|]; [|done].
      cbn [truthy]. by destruct (is_empty x); intros [= ->]. }
  destruct Hw3 as (n' & Hw3 & Hle). rewrite run_blocked. do 2 eexists. exists n'. split; [done|]. split; [done|].
  cbn [omap list_omap id]. revert Hle. cbn [List.find]. destruct (allowed d1), (allowed d2); cbn [negb is_ret]; rewrite ?andb_false_r; lia.
Qed.

(** The whole request. *)
Lemma left_finish n rq ids route w1 : steps_keep (left_tokens n) route -> left_tokens n w1 ->
  left_tokens n (snd (finish settings rq ids (run_co (exception_middleware settings database_error rq route) w1))).
Proof using good.
  intros Hk Hw. unfold exception_middleware. rewrite run_co_catch. unfold try_except.
  pose proof (run_co_keeps (left_tokens n) route w1 Hk Hw) as H2. destruct (run_co route w1) as [[e|r] w2]; [|exact H2].
  simpl in H2. pose proof (run_answer settings database_error rq e w2 good) as Ha. destruct (answer_spec e) as [[s b]|].
  - destruct Ha as (r & w3 & -> & _ & _ & Hq & _). by eapply left_quiet.
  - destruct Ha as (w3 & -> & Hq & _). cbn [finish].
    destruct (catchable _), (app_debug settings); (eapply left_same; [| |by eapply left_quiet]); done.
Qed.
Lemma run_login_left n rq v w : left_tokens n w ->
  exists n', left_tokens n' (snd (run_co (post_login settings database_error rq v) w)) /\
    (n' + (if names u rq && is_ret (fst (run_co (login_gate settings rq) w)) then 1 else 0) <= n)%nat.
Proof using H good cap_ok limits_on named.
  intros Hw. unfold post_login. destruct (run_http settings database_error rq w) as (ids & w1 & (_ & _ & Hn & Hb) & ->).
  assert (Hw1 : left_tokens n w1) by (apply (left_same n w); [done|by rewrite Hb|done]).
  rewrite <- (gate_same settings rq w1 w Hn Hb).
  destruct (gate_left n rq w1 Hw1) as (o & w2 & n' & Eg & Hw2 & Hle). exists n'. split; [|by rewrite Eg].
  rewrite (exception_run settings database_error rq _
    (match o with Ret _ => login_rest settings database_error rq v | Raise e => co_raise e end) w1 w2).
  - apply left_finish; [destruct o; [constructor|apply left_rest]|done].
  - rewrite login_split, run_co_bind. unfold bind. rewrite Eg. by destruct o.
Qed.
End Stuffing.

(** A run of requests, one after the other: who asked, the world met, what came of it. *)
Record Attempt := { asked : Request; met : ApiWorld; result : outcome api_exn Response * ApiWorld }.
Fixpoint attempts `{Crypto} settings database_error (l : list (Request * validated UserLogin)) (w : ApiWorld) : list Attempt :=
  match l with
  | [] => []
  | (rq, v) :: l' =>
      let r := run_co (post_login settings database_error rq v) w in
      {| asked := rq; met := w; result := r |} :: attempts settings database_error l' (snd r)
  end.
(** The gate lets the attempt through to its body. *)
Definition let_in `{Crypto} settings (a : Attempt) : bool :=
  is_ret (fst (run_co (login_gate settings (asked a)) (met a))).
Definition names_one (us : list string) (rq : Request) : bool := existsb (fun u => names u rq) us.
Definition too_many (o : outcome api_exn Response) : bool :=
  match o with Ret r => status_code r =? 429 | Raise _ => false end.

Section Attempts.
Context `{Crypto} (settings : Settings) (database_error : ApiWorld -> option exn).
Context (good : well_behaved database_error) (limits_on : rate_limit_enabled settings = true).
Abbreviation cap := (rate_limit_login_per_minute settings).
Context (cap_ok : 0 < cap <= 2 ^ 53) (general_ok : 0 < rate_limit_general_per_minute settings).

(** A refusal by the gate is one of the limits', and says how long to wait. *)
Lemma gate_refusal rq w e w' : run_co (login_gate settings rq) w = (Raise e, w') ->
  exists q, e = RateLimitExceededError SLOW_DOWN (Finite q).
Proof using limits_on cap_ok general_ok.
  unfold login_gate, check_general_rate_limit, check_login_rate_limit. cbv zeta.
  rewrite !run_co_bind. unfold bind. rewrite run_co_bind. unfold bind. rewrite run_limiter_eq.
  destruct (limiter_answer settings ("general:ip:" ++ _) _ _ _ _) as [d b] eqn:E. rewrite run_raise_if_blocked. destruct (allowed d) eqn:Ea.
  2: { intros [= <- _]. destruct (refusal_finite settings limits_on _ _ _ _ _ general_ok E Ea) as [q ->]. by eexists. }
  rewrite run_co_bind. unfold bind. rewrite run_limiter_eq.
  destruct (limiter_answer settings ("login:ip:" ++ _) _ _ _ _) as [d1 b1] eqn:E1. rewrite run_co_bind. unfold bind.
  assert (H1 : allowed d1 = false -> exists q, retry_after_seconds d1 = Finite q) by
    exact (refusal_finite settings limits_on _ _ _ _ _ (proj1 cap_ok) E1).
  destruct (truthy (get_attempted_username rq)) as [a|].
  - rewrite run_co_bind. unfold bind. rewrite run_limiter_eq.
    destruct (limiter_answer settings ("login:username:" ++ _) _ _ _ _) as [d2 b2] eqn:E2. cbn [co_ret run_co].
    pose proof (refusal_finite settings limits_on _ _ _ _ _ (proj1 cap_ok) E2) as H2.
    rewrite run_blocked. cbn [omap list_omap id List.find]. destruct (allowed d1); [destruct (allowed d2); [done|]|]; cbn [negb];
      intros [= <- _]; [destruct (H2 eq_refl) as [q ->]|destruct (H1 eq_refl) as [q ->]]; by eexists.
  - cbn [co_ret run_co]. rewrite run_blocked. cbn [omap list_omap id List.find]. destruct (allowed d1); [done|]. cbn [negb].
    intros [= <- _]. destruct (H1 eq_refl) as [q ->]. by eexists.
Qed.
Lemma stamp_status rq r : status_code (stamp settings rq r) = status_code r.
Proof. unfold stamp. by destruct (is_production settings), (startswith _ _). Qed.
(** Refused there, a request is answered 429 whatever its body holds. *)
Lemma refused_at_the_gate rq w : is_ret (fst (run_co (login_gate settings rq) w)) = false ->
  exists r, too_many (fst r) = true /\ forall v, run_co (post_login settings database_error rq v) w = r.
Proof using good limits_on cap_ok general_ok.
  intros Hg. unfold post_login. destruct (run_http settings database_error rq w) as (ids & w1 & (_ & _ & Hn & Hb) & Hrun).
  rewrite <- (gate_same settings rq w1 w Hn Hb) in Hg.
  destruct (run_co (login_gate settings rq) w1) as [[e|x] w2] eqn:Eg; [|done].
  destruct (gate_refusal _ _ _ _ Eg) as [q ->].
  exists (finish settings rq ids (run_co (exception_middleware settings database_error rq
    (co_raise (RateLimitExceededError SLOW_DOWN (Finite q)))) w2)). split.
  - unfold exception_middleware. rewrite run_co_catch. unfold try_except. cbn [co_raise run_co].
    destruct (run_answer settings database_error rq (RateLimitExceededError SLOW_DOWN (Finite q)) w2 good) as (r & w3 & -> & Hs & _).
    cbn [finish fst too_many]. rewrite stamp_status. cbn [set_header status_code]. by apply Z.eqb_eq.
  - intros v. rewrite Hrun. f_equal. apply exception_run. rewrite login_split, run_co_bind. unfold bind. by rewrite Eg.
Qed.

(** One request takes at least a token from the buckets of the names, if it names one of them
    and passes the gate. *)
Definition all_left (t : Z) (us : list string) (ns : list nat) (w : ApiWorld) : Prop :=
  Forall2 (fun u n => left_tokens settings u t n w) us ns.
Lemma login_takes t us ns rq v w : Forall (fun u => u <> "") us -> all_left t us ns w ->
  exists ns', all_left t us ns' (snd (run_co (post_login settings database_error rq v) w)) /\
    (sum_list ns' + (if names_one us rq && is_ret (fst (run_co (login_gate settings rq) w)) then 1 else 0) <= sum_list ns)%nat.
Proof using good limits_on cap_ok.
  intros Hne Hl. induction Hl as [|u n us ns Hu Hl IH].
  { exists []. split; [constructor|simpl; lia]. }
  apply Forall_cons in Hne as [Hn Hne]. destruct (IH Hne) as (ns' & Hl' & Hle).
  destruct (run_login_left settings database_error good limits_on cap_ok u (proj2 (is_empty_false u) Hn) t n rq v w Hu) as (n' & Hn' & Hle').
  exists (n' :: ns'). split; [by constructor|]. unfold names_one in *. cbn [existsb sum_list].
  destruct (names u rq), (existsb _ us), (is_ret _); simpl in *; lia.
Qed.
Lemma attempts_bounded t us l : Forall (fun u => u <> "") us -> forall ns w, all_left t us ns w ->
  (length (List.filter (fun a => names_one us (asked a) && let_in settings a) (attempts settings database_error l w)) <= sum_list ns)%nat.
Proof using good limits_on cap_ok.
  intros Hne. induction l as [|[rq v] l IH]; intros ns w Hw; [simpl; lia|].
  destruct (login_takes t us ns rq v w Hne Hw) as (ns' & Hw' & Hle). specialize (IH ns' _ Hw').
  cbn [attempts List.filter]. unfold let_in at 1. cbn [asked met].
  destruct (names_one us rq && _); cbn [length]; lia.
Qed.
Lemma attempts_refused l w : Forall (fun a => let_in settings a = false ->
  too_many (fst (result a)) = true /\ forall v, run_co (post_login settings database_error (asked a) v) (met a) = result a)
  (attempts settings database_error l w).
Proof using good limits_on cap_ok general_ok.
  revert w. induction l as [|[rq v] l IH]; intros w; cbn [attempts]; constructor; [|apply IH].
  unfold let_in. cbn [asked met result]. intros Hg. destruct (refused_at_the_gate rq w Hg) as (r & Hr & Hv).
  by rewrite (Hv v).
Qed.
End Attempts.

(** C10. Guessing one account's password is bounded whatever the addresses. Take any names (an
    account has two, its username and its email), whose buckets are fresh, and any login
    requests whose JSON bodies parse, one after the other within one instant, from any clients,
    with any bodies, forged headers included. With limits enabled at most
    [rate_limit_login_per_minute] requests per name get past the limits. Every other one that
    names one of them, like every request the limits refuse, is answered 429, and its answer and
    everything it leaves behind are the same for whatever credentials its body holds: no password
    was looked at. *)
Theorem credential_stuffing_is_bounded `{Crypto} settings database_error us l w :
  well_behaved database_error -> rate_limit_enabled settings = true ->
  0 < rate_limit_login_per_minute settings <= 2 ^ 53 -> 0 < rate_limit_general_per_minute settings ->
  Forall (fun u => u <> "" /\ buckets w !! name_key u = None) us ->
  let all := attempts settings database_error l w in
  (length (List.filter (fun a => names_one us (asked a) && let_in settings a) all)
   <= length us * Z.to_nat (rate_limit_login_per_minute settings))%nat /\
  Forall (fun a => let_in settings a = false ->
    too_many (fst (result a)) = true /\
    forall v, run_co (http settings database_error (asked a) (login settings database_error (asked a) (Decoded v))) (met a)
      = result a) all.
Proof.
  intros Hdb Hon Hcap Hgen Hus all. split; [|by apply attempts_refused].
  set (n := Z.to_nat (rate_limit_login_per_minute settings)).
  rewrite <- (sum_list_replicate n). apply (attempts_bounded settings database_error Hdb Hon Hcap (now (auth w))).
  - eapply Forall_impl; [exact Hus|]. by intros u [? _].
  - clear all. unfold all_left. induction Hus as [|u us [Hu Hb] Hus IH]; [constructor|]. constructor; [|exact IH].
    split; [done|]. unfold n. split; [lia|]. rewrite Hb. lia.
Qed.
(** ** The address is the client's to choose

    nginx forwards [$proxy_add_x_forwarded_for]: what the client sent in the header, then the
    address it connected from. *)
Definition proxy_add_x_forwarded_for (sent : option string) (remote_addr : string) : string :=
  match sent with Some s => s ++ ", " ++ remote_addr | None => remote_addr end.
Lemma before_char_app s r : all_chars (fun c => negb (Ascii.eqb c comma)) s = true ->
  before_char comma (s ++ String comma r) = s.
Proof.
  induction s as [|c s IH]; simpl; [done|]. intros Hc. apply andb_true_iff in Hc as [Hc Hs].
  destruct (Ascii.eqb c comma) eqn:E; [done|]. by rewrite IH.
Qed.
(** Behind the shipped proxy, with [trust_proxy_headers] on, a client is identified by
    whatever it claims: a forged [X-Forwarded-For] value becomes its address for the audit
    trail and the key of every bucket that is kept per address. *)
Theorem forwarded_address_is_forged settings rq claimed remote_addr :
  trust_proxy_headers settings = true -> claimed <> "" ->
  all_chars (fun c => negb (Ascii.eqb c comma)) claimed = true -> strip claimed = claimed ->
  header rq "X-Forwarded-For" = Some (proxy_add_x_forwarded_for (Some claimed) remote_addr) ->
  client_ip settings rq = Some claimed.
Proof.
  intros Ht Hne Hc Hs Hh. unfold client_ip, get_client_ip. rewrite Ht, Hh. unfold proxy_add_x_forwarded_for.
  replace (truthy (Some (claimed ++ ", " ++ remote_addr))) with (Some (claimed ++ String comma (" " ++ remote_addr))).
  2: { by destruct claimed. }
  by rewrite before_char_app, Hs.
Qed.

(** ** Witnesses *)
Lemma failures_are_answered_witness :
  exists r w2, run_co (server_error_middleware ApiDemo.settings (fst ApiDemo.wrong) (exception_middleware ApiDemo.settings ApiDemo.down
    (fst ApiDemo.wrong) (co_raise (RateLimitExceededError SLOW_DOWN (Finite (5 # 2)))))) ApiDemo.world = (Ret r, w2) /\
    status_code r = 429.
Proof.
  destruct (failures_are_answered ApiDemo.settings ApiDemo.down (fst ApiDemo.wrong)
    (co_raise (RateLimitExceededError SLOW_DOWN (Finite (5 # 2)))) (RateLimitExceededError SLOW_DOWN (Finite (5 # 2)))
    ApiDemo.world ApiDemo.world ApiDemo.down_good eq_refl eq_refl) as (r & w2 & H1 & _ & H2 & _).
  exists r, w2. split; [exact H1|exact (proj1 H2)].
Defined.
(** Five guesses at Bob, by name and by email: with two a minute, the third one of a name is
    refused. *)
Definition guess_as (name ip p : string) : Request * validated UserLogin :=
  let rq := fst (ApiDemo.password_guess ip p) in
  ({| uid := uid rq; method := method rq; path := path rq; header := header rq; client_host := client_host rq;
      oauth2_token := None; x_api_key := None;
      json_body := Some (JDict [("username", JString name); ("password", JString p)]) |},
   inr {| ul_username := name; ul_password := p |}).
Definition guesses : list (Request * validated UserLogin) :=
  [guess_as "bob" "203.0.113.5" "a"; guess_as "bob" "203.0.113.6" "b"; guess_as "bob" "203.0.113.7" "c";
   guess_as "bob@example.com" "203.0.113.8" "d"; guess_as "bob" "203.0.113.9" "secret"].
Lemma credential_stuffing_is_bounded_witness :
  let all := attempts ApiDemo.settings ApiDemo.up guesses ApiDemo.world in
  map (let_in ApiDemo.settings) all = [true; true; false; true; false] /\
  (length (List.filter (fun a => names_one ["bob"; "bob@example.com"] (asked a) && let_in ApiDemo.settings a) all) <= 2 * 2)%nat.
Proof.
  split; [vm_compute; reflexivity|].
  refine (proj1 (credential_stuffing_is_bounded ApiDemo.settings ApiDemo.up ["bob"; "bob@example.com"] guesses ApiDemo.world
    ApiDemo.up_good eq_refl _ _ _)).
  - simpl. lia.
  - simpl. lia.
  - repeat constructor; discriminate.
Defined.
Lemma forwarded_address_is_forged_witness :
  client_ip ApiDemo.settings (ApiDemo.with_header "X-Forwarded-For"
    (proxy_add_x_forwarded_for (Some "10.0.0.1") "203.0.113.5") (fst ApiDemo.wrong)) = Some "10.0.0.1".
Proof.
  apply (forwarded_address_is_forged ApiDemo.settings _ "10.0.0.1" "203.0.113.5").
  - reflexivity.
  - discriminate.
  - reflexivity.
  - reflexivity.
  - reflexivity.
Defined.
