(* ===== verification/Observability.v ===== *)
(** * Observability ([querymind.observability])

    Structured logging and the context manager that instruments a call site, the metrics
    collector and what [POST /query] feeds it. Nothing here may change what it observes.
    Health checks and diagnostics are in Diagnostics.v, benchmarks and profiles in
    Benchmark.v. *)
From S2P Require Import Prelude PyFloat PyStr Models RateLimiter ContextModels PromptCompiler Generation Metadata BusinessKnowledge Validation Execution Orchestrator.
#[local] Open Scope string_scope.
#[local] Open Scope Z_scope.

(** Pydantic's refusal of a value outside its field's bounds. *)
Definition ValidationError (field : string) : exn := OtherException "ValidationError" field.
Definition at_least_0 (field : string) (x : Q) : outcome exn unit :=
  if fltb x 0 then Raise (ValidationError field) else Ret tt.

(** ** [models.py] and [logger.py] *)
Inductive LogLevel := DEBUG | INFO | LOG_WARNING | LOG_ERROR | CRITICAL.
Inductive LogEventType := STARTED | COMPLETED | FAILED_EVENT.
Definition LogEventType_value (t : LogEventType) : string :=
  match t with STARTED => "started" | COMPLETED => "completed" | FAILED_EVENT => "failed" end.
Record LogEvent := {
  le_stage : string; le_event_type : LogEventType; le_timestamp : Z;
  le_correlation_id : option string; le_request_id : option string; le_duration_ms : option Q;
  le_error : option (string * string) }.
Record StructuredLogRecord := {
  lr_level : LogLevel; lr_message : string; lr_timestamp : Z;
  lr_stage : option string; lr_event_type : option LogEventType;
  lr_correlation_id : option string; lr_request_id : option string; lr_duration_ms : option Q;
  lr_error : option (string * string) }.

(** [datetime.now(UTC)] in microseconds, and where records go. *)
Class WallClock (W : Type) := wall : W -> Z * W.
Class LogSink (W : Type) := sink_write : StructuredLogRecord -> prog W exn unit.

Section Logger.
Context {W : Type} `{WallClock W} `{LogSink W}.

Definition wall_now : prog W exn Z := fun w => let '(t, w') := wall w in (Ret t, w').
(** [StructuredLogger.log]; [error] is the exception's class and text. *)
Definition log (level : LogLevel) (message : string) (stage : option string) (event_type : option LogEventType)
    (correlation_id request_id : option string) (duration_ms : option Q) (error : option exn)
  : prog W exn StructuredLogRecord :=
  let! t := wall_now in
  let! _ := lift (match duration_ms with Some d => at_least_0 "duration_ms" d | None => Ret tt end) in
  let record := {| lr_level := level; lr_message := message; lr_timestamp := t; lr_stage := stage;
                   lr_event_type := event_type; lr_correlation_id := correlation_id; lr_request_id := request_id;
                   lr_duration_ms := duration_ms;
                   lr_error := option_map (fun e => (exn_class e, exn_str e)) error |} in
  let! _ := sink_write record in
  ret record.
(** [LogEvent(...)]: constructing one checks its duration. *)
Definition make_event (stage : string) (t : LogEventType) (at_ : Z) (cid rid : option string) (d : option Q)
    (e : option exn) : outcome exn LogEvent :=
  let? _ := match d with Some d => at_least_0 "duration_ms" d | None => Ret tt end in
  Ret {| le_stage := stage; le_event_type := t; le_timestamp := at_; le_correlation_id := cid;
         le_request_id := rid; le_duration_ms := d; le_error := option_map (fun e => (exn_class e, exn_str e)) e |}.
Definition event_record (e : LogEvent) (message : option string) : StructuredLogRecord :=
  {| lr_level := match le_event_type e with FAILED_EVENT => LOG_ERROR | _ => INFO end;
     lr_message := match message with
                   | Some m => if is_empty m then le_stage e ++ " " ++ LogEventType_value (le_event_type e) else m
                   | None => le_stage e ++ " " ++ LogEventType_value (le_event_type e) end;
     lr_timestamp := le_timestamp e; lr_stage := Some (le_stage e); lr_event_type := Some (le_event_type e);
     lr_correlation_id := le_correlation_id e; lr_request_id := le_request_id e;
     lr_duration_ms := le_duration_ms e; lr_error := le_error e |}.
Definition event (e : LogEvent) (message : option string) : prog W exn StructuredLogRecord :=
  let record := event_record e message in
  let! _ := sink_write record in
  ret record.

(** [StageInstrumentation] around a block. *)
Section Stage.
Context (stage : string) (cid rid : option string).
Definition enter : prog W exn Z :=
  let! started_at := wall_now in
  let! e := lift (make_event stage STARTED started_at cid rid None None) in
  let! _ := event e None in
  ret started_at.
Definition duration (started_at finished_at : Z) : Q :=
  fmul (total_seconds (finished_at - started_at)) 1000%Q.
Definition exit (started_at : Z) (exc : option exn) : prog W exn unit :=
  let! finished_at := wall_now in
  let! e := lift (make_event stage (match exc with Some _ => FAILED_EVENT | None => COMPLETED end)
                    finished_at cid rid (Some (duration started_at finished_at)) exc) in
  let! _ := event e None in
  ret tt.
(** [with StageInstrumentation(...): body]: what [__exit__] raises replaces what the block did. *)
Definition instrumented {A} (body : prog W exn A) : prog W exn A :=
  let! started_at := enter in
  fun w => match body w with
           | (Ret a, w1) => (let! _ := exit started_at None in ret a) w1
           | (Raise e, w1) => (let! _ := exit started_at (Some e) in throw e) w1
           end.
End Stage.
End Logger.

(** [InMemoryLogSink]: the records of the process, kept for ever. *)
Record Logged (W : Type) := { outer : W; records : list StructuredLogRecord }.
Arguments outer {W}. Arguments records {W}.
#[export] Instance InMemoryLogSink {W} : LogSink (Logged W) := fun r w =>
  (Ret tt, {| outer := outer w; records := records w ++ [r] |}).

(** ** [metrics.py] *)
Record StageMetric := {
  sm_stage : string; sm_call_count : Z; sm_total_latency_ms : Q; sm_average_latency_ms : Q;
  sm_min_latency_ms : Q; sm_max_latency_ms : Q }.
(** The collector's four dictionaries share their keys; one entry holds a stage's four values. *)
Record StageCounters := { calls : Z; total : Q; least : Q; most : Q }.
Record Metrics := {
  pipeline_run_count : Z; pipeline_success_count : Z; pipeline_failure_count : Z; pipeline_latency_total_ms : Q;
  stages : list (string * StageCounters);
  validation_failure_count : Z; repair_attempted_count : Z; repair_success_count : Z;
  sql_execution_count : Z; total_rows_returned : Z;
  llm_prompt_tokens : Z; llm_completion_tokens : Z; cache_hit_count : Z; cache_miss_count : Z;
  startup_time_ms : option Q }.
Definition new_metrics : Metrics :=
  {| pipeline_run_count := 0; pipeline_success_count := 0; pipeline_failure_count := 0;
     pipeline_latency_total_ms := 0; stages := []; validation_failure_count := 0; repair_attempted_count := 0;
     repair_success_count := 0; sql_execution_count := 0; total_rows_returned := 0; llm_prompt_tokens := 0;
     llm_completion_tokens := 0; cache_hit_count := 0; cache_miss_count := 0; startup_time_ms := None |}.
Definition flag (b : bool) : Z := if b then 1 else 0.
Definition record_pipeline_run (ok : bool) (latency_ms : Q) (attempted succeeded : bool) (m : Metrics) : Metrics :=
  {| pipeline_run_count := pipeline_run_count m + 1;
     pipeline_success_count := pipeline_success_count m + flag ok;
     pipeline_failure_count := pipeline_failure_count m + flag (negb ok);
     pipeline_latency_total_ms := fadd (pipeline_latency_total_ms m) latency_ms; stages := stages m;
     validation_failure_count := validation_failure_count m;
     repair_attempted_count := repair_attempted_count m + flag attempted;
     repair_success_count := repair_success_count m + flag (attempted && succeeded);
     sql_execution_count := sql_execution_count m; total_rows_returned := total_rows_returned m;
     llm_prompt_tokens := llm_prompt_tokens m; llm_completion_tokens := llm_completion_tokens m;
     cache_hit_count := cache_hit_count m; cache_miss_count := cache_miss_count m;
     startup_time_ms := startup_time_ms m |}.
Definition with_stages (s : list (string * StageCounters)) (m : Metrics) : Metrics :=
  {| pipeline_run_count := pipeline_run_count m; pipeline_success_count := pipeline_success_count m;
     pipeline_failure_count := pipeline_failure_count m; pipeline_latency_total_ms := pipeline_latency_total_ms m;
     stages := s; validation_failure_count := validation_failure_count m;
     repair_attempted_count := repair_attempted_count m; repair_success_count := repair_success_count m;
     sql_execution_count := sql_execution_count m; total_rows_returned := total_rows_returned m;
     llm_prompt_tokens := llm_prompt_tokens m; llm_completion_tokens := llm_completion_tokens m;
     cache_hit_count := cache_hit_count m; cache_miss_count := cache_miss_count m;
     startup_time_ms := startup_time_ms m |}.
(** Python's [min(a, b)] and [max(a, b)] return the first of equals. *)
Definition observe (x : Q) (c : option StageCounters) : StageCounters :=
  match c with
  | None => {| calls := 1; total := fadd 0 x; least := x; most := x |}
  | Some c => {| calls := calls c + 1; total := fadd (total c) x;
                 least := if fltb x (least c) then x else least c; most := if fltb (most c) x then x else most c |}
  end.
Definition record_stage_latency (stage : string) (x : Q) (m : Metrics) : Metrics :=
  with_stages (alist_set stage (observe x (alist_get stage (stages m))) (stages m)) m.
Definition add_counts (validation executions rows prompt completion hit miss : Z) (startup : option Q) (m : Metrics)
  : Metrics :=
  {| pipeline_run_count := pipeline_run_count m; pipeline_success_count := pipeline_success_count m;
     pipeline_failure_count := pipeline_failure_count m; pipeline_latency_total_ms := pipeline_latency_total_ms m;
     stages := stages m; validation_failure_count := validation_failure_count m + validation;
     repair_attempted_count := repair_attempted_count m; repair_success_count := repair_success_count m;
     sql_execution_count := sql_execution_count m + executions; total_rows_returned := total_rows_returned m + rows;
     llm_prompt_tokens := llm_prompt_tokens m + prompt; llm_completion_tokens := llm_completion_tokens m + completion;
     cache_hit_count := cache_hit_count m + hit; cache_miss_count := cache_miss_count m + miss;
     startup_time_ms := match startup with Some d => Some d | None => startup_time_ms m end |}.
Definition record_validation_failure : Metrics -> Metrics := add_counts 1 0 0 0 0 0 0 None.
Definition record_sql_execution (rows : Z) : Metrics -> Metrics := add_counts 0 1 rows 0 0 0 0 None.
Definition record_llm_token_usage (prompt completion : Z) : Metrics -> Metrics := add_counts 0 0 0 prompt completion 0 0 None.
Definition record_cache_access (hit : bool) : Metrics -> Metrics := add_counts 0 0 0 0 0 (flag hit) (flag (negb hit)) None.
Definition record_startup_time (d : Q) : Metrics -> Metrics := add_counts 0 0 0 0 0 0 0 (Some d).

Record MetricsSnapshot := {
  ms_captured_at : Z; ms_counters : Metrics; ms_average_pipeline_latency_ms : Q;
  ms_stage_metrics : list StageMetric; ms_repair_success_rate : Q }.
Definition stage_metric (sc : string * StageCounters) : StageMetric :=
  let '(s, c) := sc in
  {| sm_stage := s; sm_call_count := calls c; sm_total_latency_ms := total c;
     sm_average_latency_ms := fdiv (total c) (inject_Z (calls c)); sm_min_latency_ms := least c;
     sm_max_latency_ms := most c |}.
(** [a / b] where [b] is positive, else [0.0]. *)
Definition ratio_or_0 (a : Q) (b : Z) : Q := if 0 <? b then fdiv a (inject_Z b) else 0%Q.
Definition nonneg_metric (s : StageMetric) : outcome exn unit :=
  let? _ := at_least_0 "total_latency_ms" (sm_total_latency_ms s) in
  let? _ := at_least_0 "average_latency_ms" (sm_average_latency_ms s) in
  let? _ := at_least_0 "min_latency_ms" (sm_min_latency_ms s) in
  at_least_0 "max_latency_ms" (sm_max_latency_ms s).
Definition snapshot (clock : Z) (m : Metrics) : outcome exn MetricsSnapshot :=
  let sms := map stage_metric (stages m) in
  let? _ := oflatmap (fun s => let? _ := nonneg_metric s in Ret ([] : list unit)) sms in
  let average := ratio_or_0 (pipeline_latency_total_ms m) (pipeline_run_count m) in
  let rate := ratio_or_0 (inject_Z (repair_success_count m)) (repair_attempted_count m) in
  let? _ := at_least_0 "average_pipeline_latency_ms" average in
  let? _ := at_least_0 "repair_success_rate" rate in
  if fltb 1 rate then Raise (ValidationError "repair_success_rate") else
  let? _ := match startup_time_ms m with Some d => at_least_0 "startup_time_ms" d | None => Ret tt end in
  Ret {| ms_captured_at := clock; ms_counters := m; ms_average_pipeline_latency_ms := average;
         ms_stage_metrics := sms; ms_repair_success_rate := rate |}.

(** ** [api/routers/query.py]: [_record_metrics] *)
Section Response.
Context {V Answer : Type}.
Definition record_metrics (r : QueryMindResponse (V:=V) (Answer:=Answer)) (m : Metrics) : Metrics :=
  let st := resp_statistics r in
  let m := record_pipeline_run (match resp_status r with P_SUCCESS => true | P_FAILED => false end)
             (Orchestrator.total_latency_ms st) (repair_attempted st) (repair_performed st) m in
  let m := foldl (fun m t => record_stage_latency (PipelineStage_value (Orchestrator.stage t)) (Orchestrator.latency_ms t) m) m
             (stage_timings st) in
  let m := match resp_execution_result r with
           | Some x => match query_result x with Some q => record_sql_execution (row_count q) m | None => m end
           | None => m end in
  let m := match resp_generated_sql r with
           | Some g => record_llm_token_usage (prompt_tokens (gm_token_usage (llm_metrics g)))
                         (completion_tokens (gm_token_usage (llm_metrics g))) m
           | None => m end in
  match resp_validation_result r with
  | Some v => if is_valid v then m else record_validation_failure m
  | None => m end.
End Response.

(** ** Lemmas *)
Lemma duration_sign t0 t1 : fltb (duration t0 t1) 0 = (t1 <? t0).
Proof.
  unfold duration, total_seconds, fmul. destruct (Z.ltb_spec t1 t0) as [Hlt|Hge].
  - apply fltb_spec.
    apply Qle_lt_trans with (fl (fl (-1 # 1000000) * 1000)); [|vm_compute; reflexivity].
    apply fl_mono. apply Qmult_le_compat_r; [|lra]. apply fl_mono. unfold Qle. simpl. lia.
  - apply fltb_ge. apply fl_nonneg. apply Qmult_le_0_compat; [|lra]. apply fl_nonneg. unfold Qle. simpl. lia.
Qed.

Section Passive.
Context {W : Type} `{WallClock W} `{LogSink W}.
(** A sink that keeps its promise not to raise. *)
Context (put : StructuredLogRecord -> W -> W) (sink_ok : forall r w, sink_write r w = (Ret tt, put r w)).
Context (stage : string) (cid rid : option string).

Definition stage_record (t : LogEventType) (at_ : Z) (d : option Q) (e : option exn) : StructuredLogRecord :=
  event_record {| le_stage := stage; le_event_type := t; le_timestamp := at_; le_correlation_id := cid;
                  le_request_id := rid; le_duration_ms := d;
                  le_error := option_map (fun e => (exn_class e, exn_str e)) e |} None.
Lemma bind_wall_now {A} (k : Z -> prog W exn A) w : bind wall_now k w = k (fst (wall w)) (snd (wall w)).
Proof. unfold bind, wall_now. by destruct (wall w). Qed.
Lemma bind_event {A} e m (k : StructuredLogRecord -> prog W exn A) w :
  bind (event e m) k w = k (event_record e m) (put (event_record e m) w).
Proof using sink_ok. unfold event, bind. by rewrite sink_ok. Qed.
Lemma run_enter {A} (k : Z -> prog W exn A) w :
  bind (enter stage cid rid) k w =
  k (fst (wall w)) (put (stage_record STARTED (fst (wall w)) None None) (snd (wall w))).
Proof using sink_ok.
  unfold enter. unfold bind at 1. rewrite bind_wall_now. unfold bind at 1, lift. cbn [make_event obind].
  rewrite bind_event. done.
Qed.
Lemma run_exit t0 exc w :
  exit stage cid rid t0 exc w =
  if fst (wall w) <? t0 then (Raise (ValidationError "duration_ms"), snd (wall w))
  else (Ret tt, put (stage_record (match exc with Some _ => FAILED_EVENT | None => COMPLETED end) (fst (wall w))
                       (Some (duration t0 (fst (wall w)))) exc) (snd (wall w))).
Proof using sink_ok.
  unfold exit. rewrite bind_wall_now. unfold bind at 1, lift, make_event, at_least_0.
  rewrite duration_sign. destruct (_ <? t0); [done|]. cbn [obind]. by rewrite bind_event.
Qed.
End Passive.

(** C40. Instrumenting a call site is passive as long as the wall clock is: the block's own
    result or exception comes out, in the world it left, with one [started] and one
    [completed] or [failed] record written around it that carry its exception and its
    duration. When the clock was set back meanwhile, the block's result is lost: constructing
    the final event refuses the negative duration, and that is what comes out. *)
Theorem instrumentation_is_passive {W} `{WallClock W} `{LogSink W} put stage cid rid {A} (body : prog W exn A) w :
  (forall r w, sink_write r w = (Ret tt, put r w)) ->
  let t0 := fst (wall w) in
  let '(o, w2) := body (put (stage_record stage cid rid STARTED t0 None None) (snd (wall w))) in
  let t1 := fst (wall w2) in
  instrumented stage cid rid body w =
  if t1 <? t0 then (Raise (ValidationError "duration_ms"), snd (wall w2))
  else (o, put (match o with
                | Ret _ => stage_record stage cid rid COMPLETED t1 (Some (duration t0 t1)) None
                | Raise e => stage_record stage cid rid FAILED_EVENT t1 (Some (duration t0 t1)) (Some e)
                end) (snd (wall w2))).
Proof.
  intros Hs. cbv zeta. unfold instrumented. rewrite (run_enter put Hs).
  destruct (body _) as [[e|a] w2]; unfold bind at 1; rewrite (run_exit put Hs); by destruct (_ <? _).
Qed.

(** ** The collector *)
Section Collector.
Context {V Answer : Type}.
Abbreviation response := (QueryMindResponse (V:=V) (Answer:=Answer)).

Definition succeeded (r : response) : bool := match resp_status r with P_SUCCESS => true | P_FAILED => false end.
Definition timings_of (s : string) (ts : list StageTiming) : list Q :=
  map Orchestrator.latency_ms (List.filter (fun t => String.eqb (PipelineStage_value (Orchestrator.stage t)) s) ts).
Definition rows_of (r : response) : option Z :=
  match resp_execution_result r with Some x => option_map row_count (query_result x) | None => None end.
Definition tokens_of (f : TokenUsage -> Z) (r : response) : Z :=
  match resp_generated_sql r with Some g => f (gm_token_usage (llm_metrics g)) | None => 0 end.
Definition invalid_of (r : response) : bool :=
  match resp_validation_result r with Some v => negb (is_valid v) | None => false end.
Definition count (p : response -> bool) (rs : list response) : Z := Z.of_nat (length (List.filter p rs)).
Definition sum_Z (l : list Z) : Z := fold_right Z.add 0 l.
Definition feed (rs : list response) (m : Metrics) : Metrics := fold_left (fun m r => record_metrics r m) rs m.

(** What one response adds. *)
Definition record_timings (ts : list StageTiming) (m : Metrics) : Metrics :=
  foldl (fun m t => record_stage_latency (PipelineStage_value (Orchestrator.stage t)) (Orchestrator.latency_ms t) m) m ts.
Lemma record_timings_stages ts m : record_timings ts m = with_stages (stages (record_timings ts m)) m.
Proof.
  revert m. induction ts as [|t ts IH]; intros m; [by destruct m|]. cbn [record_timings foldl].
  change (foldl _ ?m0 ts) with (record_timings ts m0). rewrite IH. done.
Qed.
Lemma record_timings_get s ts m :
  alist_get s (stages (record_timings ts m)) =
  fold_left (fun c x => Some (observe x c)) (timings_of s ts) (alist_get s (stages m)).
Proof.
  revert m. induction ts as [|t ts IH]; intros m; [done|]. cbn [record_timings foldl].
  change (foldl _ ?m0 ts) with (record_timings ts m0). rewrite IH. unfold timings_of. cbn [List.filter].
  unfold record_stage_latency. cbn [stages with_stages]. rewrite alist_get_set.
  destruct (String.eqb_spec (PipelineStage_value (Orchestrator.stage t)) s) as [->|Hne]; [by rewrite decide_True|].
  by rewrite decide_False.
Qed.
Lemma record_timings_keys ts m : NoDup (map fst (stages m)) -> NoDup (map fst (stages (record_timings ts m))).
Proof.
  revert m. induction ts as [|t ts IH]; intros m Hm; [done|]. cbn [record_timings foldl].
  change (foldl _ ?m0 ts) with (record_timings ts m0). apply IH. by apply alist_set_NoDup.
Qed.
Lemma record_metrics_eq r m :
  let m' := record_metrics r m in
  pipeline_run_count m' = pipeline_run_count m + 1 /\
  pipeline_success_count m' = pipeline_success_count m + flag (succeeded r) /\
  pipeline_failure_count m' = pipeline_failure_count m + flag (negb (succeeded r)) /\
  pipeline_latency_total_ms m' = fadd (pipeline_latency_total_ms m) (Orchestrator.total_latency_ms (resp_statistics r)) /\
  repair_attempted_count m' = repair_attempted_count m + flag (repair_attempted (resp_statistics r)) /\
  repair_success_count m' = repair_success_count m +
    flag (repair_attempted (resp_statistics r) && repair_performed (resp_statistics r)) /\
  sql_execution_count m' = sql_execution_count m + flag (is_some (rows_of r)) /\
  total_rows_returned m' = total_rows_returned m + default 0 (rows_of r) /\
  llm_prompt_tokens m' = llm_prompt_tokens m + tokens_of prompt_tokens r /\
  llm_completion_tokens m' = llm_completion_tokens m + tokens_of completion_tokens r /\
  validation_failure_count m' = validation_failure_count m + flag (invalid_of r) /\
  startup_time_ms m' = startup_time_ms m /\
  (NoDup (map fst (stages m)) -> NoDup (map fst (stages m'))) /\
  forall s, alist_get s (stages m') =
    fold_left (fun c x => Some (observe x c)) (timings_of s (stage_timings (resp_statistics r))) (alist_get s (stages m)).
Proof.
  cbv zeta. unfold record_metrics. cbv zeta.
  fold (succeeded r). set (m1 := record_pipeline_run _ _ _ _ m).
  repeat match goal with |- context [foldl ?f m1 ?ts] => change (foldl f m1 ts) with (record_timings ts m1) end.
  pose proof (record_timings_get) as Hget. specialize (fun s => Hget s (stage_timings (resp_statistics r)) m1).
  rewrite (record_timings_stages (stage_timings (resp_statistics r)) m1).
  pose proof (record_timings_keys (stage_timings (resp_statistics r)) m1) as Hkeys.
  change (stages m1) with (stages m) in Hget, Hkeys.
  set (st := stages (record_timings _ m1)) in *. clearbody st.
  unfold rows_of, tokens_of, invalid_of.
  destruct (resp_execution_result r) as [x|]; [destruct (query_result x) as [q|]|];
    (destruct (resp_generated_sql r) as [g|]);
    (destruct (resp_validation_result r) as [v|]; [destruct (is_valid v)|]);
    cbn -[Z.add fadd flag]; (split_and!; [cbn [flag]; try lia; try done ..|exact Hkeys|exact Hget]).
Qed.

Definition all_timings (s : string) (rs : list response) : list Q :=
  concat (map (fun r => timings_of s (stage_timings (resp_statistics r))) rs).
Definition latencies (rs : list response) : list Q := map (fun r => Orchestrator.total_latency_ms (resp_statistics r)) rs.
(** What the counters must say after the responses [rs]. *)
Record accounts_for (rs : list response) (m : Metrics) : Prop := {
  acc_runs : pipeline_run_count m = Z.of_nat (length rs);
  acc_ok : pipeline_success_count m = count succeeded rs;
  acc_failed : pipeline_failure_count m = count (fun r => negb (succeeded r)) rs;
  acc_latency : pipeline_latency_total_ms m = fold_left fadd (latencies rs) 0%Q;
  acc_attempted : repair_attempted_count m = count (fun r => repair_attempted (resp_statistics r)) rs;
  acc_repaired : repair_success_count m =
    count (fun r => repair_attempted (resp_statistics r) && repair_performed (resp_statistics r)) rs;
  acc_executed : sql_execution_count m = count (fun r => is_some (rows_of r)) rs;
  acc_rows : total_rows_returned m = sum_Z (map (fun r => default 0 (rows_of r)) rs);
  acc_prompt : llm_prompt_tokens m = sum_Z (map (tokens_of prompt_tokens) rs);
  acc_completion : llm_completion_tokens m = sum_Z (map (tokens_of completion_tokens) rs);
  acc_invalid : validation_failure_count m = count invalid_of rs;
  acc_keys : NoDup (map fst (stages m));
  acc_stages : forall s, alist_get s (stages m) = fold_left (fun c x => Some (observe x c)) (all_timings s rs) None }.
Lemma count_snoc p rs r : count p (rs ++ [r])%list = count p rs + flag (p r).
Proof. unfold count. rewrite List.filter_app, length_app. simpl. destruct (p r); simpl; lia. Qed.
Lemma sum_snoc l x : sum_Z (l ++ [x])%list = sum_Z l + x.
Proof. induction l as [|y l IH]; simpl; [lia|]. unfold sum_Z in *. simpl. rewrite IH. lia. Qed.
Lemma accounts_new : accounts_for [] new_metrics.
Proof. split; try done. constructor. Qed.
Lemma accounts_snoc rs r m : accounts_for rs m -> accounts_for (rs ++ [r])%list (record_metrics r m).
Proof.
  intros [A B C D E F G H I J K M L]. destruct (record_metrics_eq r m) as (a & b & c & d & e & f & g & h & i & j & k & _ & n & l).
  split; rewrite ?a, ?b, ?c, ?d, ?e, ?f, ?g, ?h, ?i, ?j, ?k, ?A, ?B, ?C, ?D, ?E, ?F, ?G, ?H, ?I, ?J, ?K, ?map_app,
    ?count_snoc, ?length_app; try done; try (cbn [map]; by rewrite sum_snoc).
  - simpl. lia.
  - unfold latencies. by rewrite map_app, fold_left_app.
  - by apply n.
  - intros s. rewrite l, L. unfold all_timings. by rewrite map_app, concat_app, fold_left_app; simpl; rewrite app_nil_r.
Qed.
Lemma accounts_feed rs : accounts_for rs (feed rs new_metrics).
Proof.
  induction rs as [|r rs IH] using rev_ind; [apply accounts_new|].
  unfold feed. rewrite fold_left_app. simpl. by apply accounts_snoc.
Qed.

(** What a stage's entry says. *)
Record summarises (xs : list Q) (c : StageCounters) : Prop := {
  sum_calls : calls c = Z.of_nat (length xs);
  sum_total : total c = fold_left fadd xs 0%Q;
  sum_least : least c ∈ xs /\ Forall (fun x => (least c <= x)%Q) xs;
  sum_most : most c ∈ xs /\ Forall (fun x => (x <= most c)%Q) xs }.
Lemma summarises_fold xs : xs <> [] ->
  exists c, fold_left (fun c x => Some (observe x c)) xs None = Some c /\ summarises xs c.
Proof.
  induction xs as [|x xs IH] using rev_ind; [done|]. intros _. rewrite fold_left_app. cbn [fold_left].
  destruct xs as [|y xs].
  - eexists. split; [done|]. split; cbn [observe calls total least most app]; [done|done| |];
      (split; [by left|repeat constructor; apply Qle_refl]).
  - destruct IH as (c & -> & [Hc Ht [Hl1 Hl2] [Hm1 Hm2]]); [done|]. eexists. split; [done|].
    set (l := y :: xs) in *. split; cbn [observe calls total least most].
    + rewrite Hc, length_app. simpl. lia.
    + by rewrite Ht, fold_left_app.
    + destruct (fltb x (least c)) eqn:Ex.
      * apply fltb_spec in Ex. split; [apply elem_of_app; right; by left|]. apply Forall_app. split.
        -- eapply Forall_impl; [exact Hl2|]. intros z Hz. apply Qlt_le_weak. by eapply Qlt_le_trans.
        -- repeat constructor. apply Qle_refl.
      * apply fltb_ge in Ex. split; [apply elem_of_app; by left|]. apply Forall_app. split; [done|]. by repeat constructor.
    + destruct (fltb (most c) x) eqn:Ex.
      * apply fltb_spec in Ex. split; [apply elem_of_app; right; by left|]. apply Forall_app. split.
        -- eapply Forall_impl; [exact Hm2|]. intros z Hz. apply Qlt_le_weak. eapply Qle_lt_trans; [exact Hz|exact Ex].
        -- repeat constructor. apply Qle_refl.
      * apply fltb_ge in Ex. split; [apply elem_of_app; by left|]. apply Forall_app. split; [done|]. by repeat constructor.
Qed.

(** A snapshot of what sane clocks measured never fails its own validation. *)
Definition sane (r : response) : Prop :=
  (0 <= Orchestrator.total_latency_ms (resp_statistics r))%Q /\
  Forall (fun t => (0 <= Orchestrator.latency_ms t)%Q) (stage_timings (resp_statistics r)).
Lemma at_least_0_ok f x : (0 <= x)%Q -> at_least_0 f x = Ret tt.
Proof. intros Hx. unfold at_least_0. by rewrite (proj2 (fltb_ge x 0) Hx). Qed.
Lemma fold_fadd_nonneg xs a : (0 <= a)%Q -> Forall (fun x => (0 <= x)%Q) xs -> (0 <= fold_left fadd xs a)%Q.
Proof.
  revert a. induction xs as [|x xs IH]; intros a Ha Hx; [done|]. apply Forall_cons in Hx as [Hx Hxs].
  apply IH; [by apply fadd_nonneg|done].
Qed.
Lemma sane_timings s rs : Forall sane rs -> Forall (fun x => (0 <= x)%Q) (all_timings s rs).
Proof.
  intros Hrs. unfold all_timings. apply Forall_concat, Forall_map. eapply Forall_impl; [exact Hrs|].
  intros r [_ Ht]. unfold timings_of. apply Forall_map, Forall_forall. intros t Hin.
  apply list_elem_of_In, List.filter_In in Hin as [Hin _]. apply list_elem_of_In in Hin.
  by apply (proj1 (Forall_forall _ _) Ht).
Qed.
Lemma count_le p q rs : (forall r, p r = true -> q r = true) -> 0 <= count p rs <= count q rs.
Proof.
  intros Hpq. unfold count. induction rs as [|r rs IH]; simpl; [lia|].
  specialize (Hpq r). destruct (p r), (q r); simpl; try lia.
Qed.
Lemma ratio_unit a b : 0 <= a <= b -> (0 <= ratio_or_0 (inject_Z a) b <= 1)%Q.
Proof.
  intros Hab. unfold ratio_or_0. destruct (Z.ltb_spec 0 b) as [Hb|]; [|split; [apply Qle_refl|lra]].
  assert (Hb' : (0 < inject_Z b)%Q) by (rewrite (Zlt_Qlt 0 b) in Hb; done).
  split.
  - apply fdiv_nonneg; [|done]. change 0%Q with (inject_Z 0). rewrite <- Zle_Qle. lia.
  - unfold fdiv. apply (fl_le_int _ 1); [lia|]. apply Qle_shift_div_r; [done|].
    rewrite Qmult_1_l, <- Zle_Qle. lia.
Qed.
Lemma oflatmap_checks {A} (f : A -> outcome exn unit) l :
  Forall (fun x => f x = Ret tt) l -> oflatmap (fun s => let? _ := f s in Ret ([] : list unit)) l = Ret [].
Proof. induction 1 as [|x l Hx Hl IH]; [done|]. cbn [oflatmap]. by rewrite Hx, IH. Qed.
Lemma stage_metric_ok s xs c : Forall (fun x => (0 <= x)%Q) xs -> summarises xs c ->
  nonneg_metric (stage_metric (s, c)) = Ret tt.
Proof.
  intros Hxs [Hc Ht [Hl1 Hl2] [Hm1 Hm2]]. pose proof (proj1 (Forall_forall _ _) Hxs) as Hall.
  assert (Htot : (0 <= total c)%Q) by (rewrite Ht; apply fold_fadd_nonneg; [apply Qle_refl|done]).
  assert (Hn : (0 < inject_Z (calls c))%Q).
  { rewrite Hc. change 0%Q with (inject_Z 0). rewrite <- Zlt_Qlt. destruct xs; [by apply not_elem_of_nil in Hl1|simpl; lia]. }
  unfold nonneg_metric, stage_metric. cbn [sm_total_latency_ms sm_average_latency_ms sm_min_latency_ms sm_max_latency_ms].
  rewrite !at_least_0_ok by auto using fdiv_nonneg. done.
Qed.
End Collector.

(** The collector accounts for every answered question, and reading it never fails.
    After the responses [rs]: every question is counted once, as a success or a failure;
    repairs, executions, rows, tokens and invalid SQL are the responses' own; a stage has an
    entry exactly when some response timed it, with the number, the running sum, the least
    and the greatest of its latencies. The snapshot then passes its own validation and its
    repair rate lies between 0 and 1. *)
Theorem metrics_account_for_every_run {V Answer} (rs : list (QueryMindResponse (V:=V) (Answer:=Answer))) clock :
  Forall sane rs ->
  let m := feed rs new_metrics in
  accounts_for rs m /\
  pipeline_success_count m + pipeline_failure_count m = pipeline_run_count m /\
  exists snap, snapshot clock m = Ret snap /\ ms_counters snap = m /\
    (0 <= ms_repair_success_rate snap <= 1)%Q /\
    (forall s, all_timings s rs <> [] ->
       exists c, summarises (all_timings s rs) c /\ stage_metric (s, c) ∈ ms_stage_metrics snap) /\
    (forall x, x ∈ ms_stage_metrics snap -> all_timings (sm_stage x) rs <> []).
Proof.
  intros Hs m. pose proof (accounts_feed rs) as Hm. fold m in Hm. split; [done|].
  destruct Hm as [A B C D E F G H I J K L M]. split.
  { rewrite A, B, C. unfold count. clear. induction rs as [|r rs IH]; simpl; [done|].
    destruct (succeeded r); simpl; lia. }
  assert (Hst : startup_time_ms m = None).
  { unfold m, feed. clear. induction rs as [|r rs IH] using rev_ind; [done|]. rewrite fold_left_app. simpl.
    destruct (record_metrics_eq r (fold_left (fun m r => record_metrics r m) rs new_metrics))
      as (_ & _ & _ & _ & _ & _ & _ & _ & _ & _ & _ & -> & _). done. }
  assert (Hentry : forall s c, (s, c) ∈ stages m ->
    all_timings s rs <> [] /\ summarises (all_timings s rs) c).
  { intros s c Hin. apply (alist_elem_get s c _ L) in Hin. rewrite M in Hin.
    destruct (all_timings s rs) as [|x xs] eqn:Ex; [done|]. split; [done|].
    destruct (summarises_fold (x :: xs) ltac:(done)) as (c' & Ec & Hc). rewrite Ec in Hin. by simplify_eq. }
  unfold snapshot. rewrite oflatmap_checks. 2: {
    apply Forall_map, Forall_forall. intros [s c] Hin. destruct (Hentry s c Hin) as [_ Hc].
    by apply (stage_metric_ok s (all_timings s rs)); [apply sane_timings|]. }
  cbn [obind]. rewrite Hst.
  assert (Hav : (0 <= ratio_or_0 (pipeline_latency_total_ms m) (pipeline_run_count m))%Q).
  { unfold ratio_or_0. destruct (Z.ltb_spec 0 (pipeline_run_count m)) as [Hb|]; [|apply Qle_refl].
    apply fdiv_nonneg; [|by rewrite (Zlt_Qlt 0) in Hb].
    rewrite D. apply fold_fadd_nonneg; [apply Qle_refl|]. unfold latencies. apply Forall_map.
    eapply Forall_impl; [exact Hs|]. by intros r [Hr _]. }
  destruct (ratio_unit (repair_success_count m) (repair_attempted_count m)) as [R0 R1].
  { rewrite E, F. apply count_le. intros r [Hr _]%andb_true_iff. exact Hr. }
  rewrite !at_least_0_ok by done. cbn [obind]. rewrite (proj2 (fltb_ge 1 _) R1).
  eexists. split; [reflexivity|]. cbn [ms_counters ms_repair_success_rate ms_stage_metrics].
  split; [done|]. split; [by split|]. split.
  - intros s Hne. destruct (summarises_fold _ Hne) as (c & Ec & Hc). exists c. split; [done|].
    apply list_elem_of_fmap. exists (s, c). split; [done|]. apply alist_get_elem. by rewrite M.
  - intros x Hx. apply list_elem_of_fmap in Hx as ([s c] & -> & Hin). simpl. by apply (Hentry s c).
Qed.

(** ** Witnesses *)
Module ObsDemo.
(** A clock that is set back once. *)
#[local] Instance clock : WallClock (Logged (list Z)) := fun w =>
  match outer w with
  | t :: ts => (t, {| outer := ts; records := records w |})
  | [] => (0, w)
  end.
Definition put (r : StructuredLogRecord) (w : Logged (list Z)) : Logged (list Z) :=
  {| outer := outer w; records := records w ++ [r] |}.
Definition world (ts : list Z) : Logged (list Z) := {| outer := ts; records := [] |}.
Definition block : prog (Logged (list Z)) exn Z := ret 42.
Definition timing (s : PipelineStage) (x : Q) : StageTiming := {| Orchestrator.stage := s; Orchestrator.latency_ms := x |}.
Definition answer (st : PipelineStatus) (ts : list StageTiming) : QueryMindResponse (V := Z) (Answer := Z) :=
  {| original_question := "q"; business_answer := None; resp_generated_sql := None; resp_validation_result := None;
     resp_repair_result := None; resp_execution_result := None;
     resp_statistics := {| Orchestrator.total_latency_ms := 10; stage_timings := ts; repair_attempted := true;
                           repair_performed := false |};
     resp_status := st; error := None |}.
End ObsDemo.
Lemma instrumentation_is_passive_witness :
  fst (instrumented (H := ObsDemo.clock) "GET /" None None ObsDemo.block (ObsDemo.world [5; 9])) = Ret 42 /\
  fst (instrumented (H := ObsDemo.clock) "GET /" None None ObsDemo.block (ObsDemo.world [9; 5])) =
    Raise (ValidationError "duration_ms").
Proof.
  pose proof (fun ts => instrumentation_is_passive (H := ObsDemo.clock) (H0 := InMemoryLogSink) ObsDemo.put "GET /" None None ObsDemo.block
    (ObsDemo.world ts) (fun r w => eq_refl)) as Hi.
  split.
  - pose proof (Hi [5; 9]) as H1. hnf in H1. rewrite H1. reflexivity.
  - pose proof (Hi [9; 5]) as H1. hnf in H1. rewrite H1. reflexivity.
Defined.
Lemma metrics_account_for_every_run_witness :
  exists snap, snapshot 0 (feed [ObsDemo.answer P_SUCCESS [ObsDemo.timing NLU 3]; ObsDemo.answer P_FAILED [ObsDemo.timing NLU 1]]
    new_metrics) = Ret snap /\ (0 <= ms_repair_success_rate snap <= 1)%Q.
Proof.
  destruct (metrics_account_for_every_run
    [ObsDemo.answer P_SUCCESS [ObsDemo.timing NLU 3]; ObsDemo.answer P_FAILED [ObsDemo.timing NLU 1]] 0)
    as (_ & _ & snap & H1 & _ & H2 & _).
  - repeat constructor; unfold Qle; simpl; lia.
  - exists snap. split; [exact H1|exact H2].
Defined.
