(* ===== verification/Diagnostics.v ===== *)
(** * Health checks and diagnostics

    [observability/health.py] and [diagnostics.py]: read-only
    engines over optional collaborators. They report what they find and never raise what an
    [except Exception] can catch. *)
From S2P Require Import Prelude PyFloat PyStr Models ContextModels PromptCompiler Llm Metadata BusinessKnowledge QueryLibrary Execution Observability.
#[local] Open Scope string_scope.
#[local] Open Scope Z_scope.

(** What both engines are built with: the registries' [load] and [build_graph], the presence
    of the rest, the connection provider. *)
Record Collaborators (W V : Type) := {
  metadata_registry : option (prog W exn DatabaseMetadata * prog W exn RelationshipGraph);
  business_knowledge_registry : option (prog W exn BusinessKnowledgeCatalog);
  query_library : option (prog W exn QueryExampleLibrary);
  prompt_compiler : bool;
  llm_provider_config : option LLMProviderConfig;
  sql_validation_engine : bool;
  sql_repair_engine : bool;
  connection_provider : option (Database W V) }.
Arguments metadata_registry {W V}. Arguments business_knowledge_registry {W V}. Arguments query_library {W V}.
Arguments prompt_compiler {W V}. Arguments llm_provider_config {W V}. Arguments sql_validation_engine {W V}.
Arguments sql_repair_engine {W V}. Arguments connection_provider {W V}.

(** ** [health.py] *)
Inductive HealthStatus := HEALTHY | UNHEALTHY | UNKNOWN.
#[export] Instance HealthStatus_eq_dec : EqDecision HealthStatus.
Proof. solve_decision. Defined.
Record HealthCheck := { hc_name : string; hc_status : HealthStatus; hc_message : option string }.
Record HealthReport := { hr_checks : list HealthCheck; hr_overall_status : HealthStatus; hr_generated_at : Z }.

Section Health.
Context {W V : Type} `{WallClock W} (c : Collaborators W V).

Definition healthy (name : string) : HealthCheck := {| hc_name := name; hc_status := HEALTHY; hc_message := None |}.
Definition not_configured (name : string) : HealthCheck :=
  {| hc_name := name; hc_status := UNKNOWN; hc_message := Some "Not configured." |}.
Definition unhealthy (name : string) (e : exn) : HealthCheck :=
  {| hc_name := name; hc_status := UNHEALTHY; hc_message := Some (exn_str e) |}.
Definition check_present (name : string) (present : bool) : HealthCheck :=
  if present then healthy name else not_configured name.
Definition check_loaded {A} (name : string) (load : option (prog W exn A)) : prog W exn HealthCheck :=
  match load with
  | None => ret (not_configured name)
  | Some load => except_Exception (let! _ := load in ret (healthy name)) (fun e => ret (unhealthy name e))
  end.
Definition check_database_reachable : prog W exn HealthCheck :=
  match connection_provider c with
  | None => ret (not_configured "database_reachable")
  | Some db => except_Exception (let! _ := acquire db (fun _ => ret tt) in ret (healthy "database_reachable"))
                 (fun e => ret (unhealthy "database_reachable" e))
  end.
Definition overall_status (checks : list HealthCheck) : HealthStatus :=
  let statuses := map hc_status checks in
  if bool_decide (UNHEALTHY ∈ statuses) then UNHEALTHY
  else if bool_decide (statuses <> []) && bool_decide (Forall (fun s => s = HEALTHY) statuses) then HEALTHY
  else UNKNOWN.
Definition check : prog W exn HealthReport :=
  let! database := check_database_reachable in
  let! metadata := check_loaded "metadata_loaded" (option_map fst (metadata_registry c)) in
  let! knowledge := check_loaded "business_knowledge_loaded" (business_knowledge_registry c) in
  let! library := check_loaded "query_examples_loaded" (query_library c) in
  let checks := [database; metadata; knowledge; library;
                 check_present "prompt_compiler_ready" (prompt_compiler c);
                 check_present "llm_configured" (is_some (llm_provider_config c));
                 check_present "sql_validator_ready" (sql_validation_engine c);
                 check_present "repair_engine_ready" (sql_repair_engine c)] in
  let! t := wall_now in
  ret {| hr_checks := checks; hr_overall_status := overall_status checks; hr_generated_at := t |}.
(** [routers/health.py]. *)
Definition health_status_code (r : HealthReport) : Z :=
  match hr_overall_status r with UNHEALTHY => 503 | _ => 200 end.
End Health.

(** ** [diagnostics.py] *)
Inductive DiagnosticStatus := PASS | D_WARNING | D_ERROR.
Definition STATUS_SEVERITY (s : DiagnosticStatus) : Z := match s with PASS => 0 | D_WARNING => 1 | D_ERROR => 2 end.
Record DiagnosticFinding := {
  df_check_name : string; df_status : DiagnosticStatus; df_message : string; df_details : option string }.
Record DiagnosticsReport := {
  dr_findings : list DiagnosticFinding; dr_overall_status : DiagnosticStatus; dr_generated_at : Z }.
Definition finding (name : string) (s : DiagnosticStatus) (message : string) (details : option string) : DiagnosticFinding :=
  {| df_check_name := name; df_status := s; df_message := message; df_details := details |}.
Definition TRACKED_DEPENDENCIES : list string := ["pydantic"; "sqlalchemy"; "sqlglot"; "httpx"; "fastapi"].

Section Diagnostics.
Context {W V : Type} `{WallClock W} (c : Collaborators W V).
(** [importlib.metadata.version]; [None] where it raises [PackageNotFoundError]. *)
Context (version : string -> option string).

(** Each registry check: absent, failing, or loaded. *)
Definition checked {A} (name absent failed : string) (load : option (prog W exn A)) (found : A -> DiagnosticFinding)
  : prog W exn DiagnosticFinding :=
  match load with
  | None => ret (finding name D_WARNING absent None)
  | Some load => fun w => match load w with
      | (Raise e, w') => if is_Exception e then (Ret (finding name D_ERROR failed (Some (exn_str e))), w') else (Raise e, w')
      | (Ret a, w') => (Ret (found a), w')
      end
  end.
Definition check_metadata_registry : prog W exn DiagnosticFinding :=
  checked "metadata_registry" "No MetadataRegistry configured." "MetadataRegistry.load() failed."
    (option_map fst (metadata_registry c))
    (fun db => match tables db with
               | [] => finding "metadata_registry" D_WARNING "MetadataRegistry loaded but contains no tables." None
               | ts => finding "metadata_registry" PASS (show_nat (length ts) ++ " table(s) loaded.") None
               end).
Definition check_business_knowledge : prog W exn DiagnosticFinding :=
  checked "business_knowledge_registry" "No BusinessKnowledgeRegistry configured." "BusinessKnowledgeRegistry.load() failed."
    (business_knowledge_registry c)
    (fun k => finding "business_knowledge_registry" PASS (show_nat (length (concepts k)) ++ " business concept(s) loaded.") None).
Definition check_query_library : prog W exn DiagnosticFinding :=
  checked "query_library" "No QueryLibraryRegistry configured." "QueryLibraryRegistry.load() failed."
    (query_library c)
    (fun l => finding "query_library" PASS (show_nat (length (examples l)) ++ " example(s) loaded.") None).
Definition check_relationship_graph : prog W exn DiagnosticFinding :=
  checked "relationship_graph" "No MetadataRegistry configured; cannot build a RelationshipGraph."
    "MetadataRegistry.build_graph() failed." (option_map snd (metadata_registry c))
    (fun g => finding "relationship_graph" PASS (show_nat (size (nodes g)) ++ " node(s) in the relationship graph.") None).
Definition check_prompt_compiler : DiagnosticFinding :=
  if prompt_compiler c then finding "prompt_compiler" PASS "PromptCompiler ready." None
  else finding "prompt_compiler" D_WARNING "No PromptCompiler configured." None.
Definition LLMProvider_value (p : LLMProvider) : string := match p with CLAUDE => "claude" | GROQ => "groq" end.
Definition check_llm_configuration : DiagnosticFinding :=
  match llm_provider_config c with
  | None => finding "llm_configuration" D_WARNING "No LLMProviderConfig configured." None
  | Some config =>
      if is_empty (cfg_api_key config)
      then finding "llm_configuration" D_ERROR "LLMProviderConfig has an empty api_key." None
      else finding "llm_configuration" PASS "LLM provider configured."
             (Some ("provider=" ++ LLMProvider_value (cfg_provider config) ++ " model=" ++ cfg_model config))
  end.
Definition check_database_connectivity : prog W exn DiagnosticFinding :=
  checked "database_connectivity" "No DatabaseConnectionProvider configured." "Could not acquire a database connection."
    (option_map (fun db => acquire db (fun _ => ret tt)) (connection_provider c))
    (fun _ => finding "database_connectivity" PASS "Database connection acquired successfully." None).
Definition check_dependency_versions : DiagnosticFinding :=
  let versions := omap (fun p => option_map (fun v => p ++ "==" ++ v) (version p)) TRACKED_DEPENDENCIES in
  let missing := List.filter (fun p => negb (is_some (version p))) TRACKED_DEPENDENCIES in
  match missing with
  | [] => finding "dependency_versions" PASS (show_nat (length versions) ++ " tracked dependency(ies) present.")
            (Some (join ", " versions))
  | _ => finding "dependency_versions" D_ERROR ("Missing expected package(s): " ++ join ", " missing ++ ".")
           (match versions with [] => None | _ => Some (join ", " versions) end)
  end.
Definition check_cache_configuration : DiagnosticFinding :=
  finding "cache_configuration" D_WARNING "No cache is actually active for any phase."
    (Some ("Every phase from prompt_compiler onward defines a Cache Protocol and a NoOp implementation; none of the "
       ++ "real engines currently accept or call a real cache instance. See docs/KNOWN_LIMITATIONS.md.")).
(** [max(findings, key=severity).status]: the first of the worst. *)
Definition worst (f : DiagnosticFinding) (fs : list DiagnosticFinding) : DiagnosticStatus :=
  fold_left (fun s g => if STATUS_SEVERITY s <? STATUS_SEVERITY (df_status g) then df_status g else s) fs (df_status f).
Definition run : prog W exn DiagnosticsReport :=
  let! metadata := check_metadata_registry in
  let! knowledge := check_business_knowledge in
  let! library := check_query_library in
  let! graph := check_relationship_graph in
  let! database := check_database_connectivity in
  let rest := [knowledge; library; graph; check_prompt_compiler; check_llm_configuration; database;
               check_dependency_versions; check_cache_configuration] in
  let! t := wall_now in
  ret {| dr_findings := metadata :: rest; dr_overall_status := worst metadata rest; dr_generated_at := t |}.
End Diagnostics.

(** ** Lemmas *)
(** A computation that raises nothing but what [except Exception] catches. *)
Definition decent {W A} (m : prog W exn A) : Prop := forall w e w', m w = (Raise e, w') -> is_Exception e = true.
Definition decent_opt {W A} (m : option (prog W exn A)) : Prop := forall m', m = Some m' -> decent m'.
Lemma total_except {W A B} (m : prog W exn A) (a : B) (h : exn -> B) (P : B -> Prop) :
  decent m -> P a -> (forall e, P (h e)) ->
  total_prog (except_Exception (let! _ := m in ret a) (fun e => ret (h e))) P.
Proof.
  intros Hm Ha Hh w. unfold except_Exception, try_except, bind. destruct (m w) as [[e|x] w1] eqn:E.
  - rewrite (Hm _ _ _ E). by exists (h e), w1.
  - by exists a, w1.
Qed.

Section Probes.
Context {W V : Type} `{WallClock W} (c : Collaborators W V) (version : string -> option string).
Context (good_metadata : decent_opt (option_map fst (metadata_registry c)))
  (good_graph : decent_opt (option_map snd (metadata_registry c)))
  (good_knowledge : decent_opt (business_knowledge_registry c)) (good_library : decent_opt (query_library c))
  (good_database : forall db, connection_provider c = Some db -> decent (acquire db (fun _ => ret tt))).

Lemma total_loaded {A} name (load : option (prog W exn A)) : decent_opt load -> total_prog (check_loaded name load) (fun _ => True).
Proof. intros Hl. destruct load as [m|]; [|by apply total_ret]. apply total_except; [by apply Hl|done|done]. Qed.
Lemma total_reachable : total_prog (check_database_reachable c) (fun _ => True).
Proof using good_database.
  unfold check_database_reachable. destruct (connection_provider c) as [db|] eqn:E; [|by apply total_ret].
  apply total_except; [by apply good_database|done|done].
Qed.
Lemma total_wall : total_prog wall_now (fun _ => True).
Proof. intros w. unfold wall_now. destruct (wall w) as [t w']. by exists t, w'. Qed.
Lemma total_check : total_prog (check c) (fun r => length (hr_checks r) = 8%nat /\ hr_overall_status r = overall_status (hr_checks r)).
Proof using good_metadata good_knowledge good_library good_database.
  unfold check. eapply total_bind; [apply total_reachable|intros ? _].
  eapply total_bind; [by apply total_loaded|intros ? _].
  eapply total_bind; [by apply total_loaded|intros ? _].
  eapply total_bind; [by apply total_loaded|intros ? _].
  eapply total_bind; [apply total_wall|intros ? _]. by apply total_ret.
Qed.
Lemma total_checked {A} name absent failed (load : option (prog W exn A)) found : decent_opt load ->
  total_prog (checked name absent failed load found) (fun _ => True).
Proof.
  intros Hl w. destruct load as [m|]; [|by do 2 eexists]. unfold checked. destruct (m w) as [[e|a] w1] eqn:E.
  - rewrite (Hl m eq_refl _ _ _ E). by do 2 eexists.
  - by do 2 eexists.
Qed.
Lemma worst_spec f fs :
  (forall g, g ∈ f :: fs -> STATUS_SEVERITY (df_status g) <= STATUS_SEVERITY (worst f fs)) /\
  exists g, g ∈ f :: fs /\ df_status g = worst f fs.
Proof.
  unfold worst. induction fs as [|g fs IH] using rev_ind.
  - split; [|by exists f; split; [left|]]. intros g Hg. apply elem_of_cons in Hg as [->|Hg]; [simpl; lia|].
    by apply not_elem_of_nil in Hg.
  - rewrite fold_left_app. cbn [fold_left]. destruct IH as [IH1 (x & Hx & Ex)].
    set (s := fold_left _ fs (df_status f)) in *.
    destruct (Z.ltb_spec (STATUS_SEVERITY s) (STATUS_SEVERITY (df_status g))) as [Hlt|Hge]; split.
    + intros y Hy. rewrite app_comm_cons in Hy. apply elem_of_app in Hy as [Hy|Hy].
      * specialize (IH1 y Hy). lia.
      * apply list_elem_of_singleton in Hy as ->. lia.
    + exists g. split; [|done]. rewrite app_comm_cons. apply elem_of_app. right. by left.
    + intros y Hy. rewrite app_comm_cons in Hy. apply elem_of_app in Hy as [Hy|Hy]; [by apply IH1|].
      by apply list_elem_of_singleton in Hy as ->.
    + exists x. split; [|done]. rewrite app_comm_cons. apply elem_of_app. by left.
Qed.
Definition report_ok (r : DiagnosticsReport) : Prop :=
  length (dr_findings r) = 9%nat /\
  (forall f, f ∈ dr_findings r -> STATUS_SEVERITY (df_status f) <= STATUS_SEVERITY (dr_overall_status r)) /\
  (exists f, f ∈ dr_findings r /\ df_status f = dr_overall_status r) /\ dr_overall_status r <> PASS.
Lemma total_run : total_prog (run c version) report_ok.
Proof using good_metadata good_graph good_knowledge good_library good_database.
  unfold run. do 4 (eapply total_bind; [by apply total_checked|intros ? _]).
  eapply total_bind; [apply total_checked|intros ? _].
  { intros m Hm. destruct (connection_provider c) as [db|] eqn:E; [|done]. simpl in Hm. simplify_eq. by apply good_database. }
  eapply total_bind; [apply total_wall|intros t _]. apply total_ret. unfold report_ok. cbn [dr_findings dr_overall_status].
  match goal with |- context [worst ?f ?fs] => destruct (worst_spec f fs) as [H1 H2]; set (l := fs) in *; set (f0 := f) in * end.
  split; [done|]. split; [done|]. split; [done|]. intros Hp.
  specialize (H1 check_cache_configuration). rewrite Hp in H1.
  assert (STATUS_SEVERITY (df_status check_cache_configuration) <= 0); [|done].
  apply H1. right. unfold l. apply elem_of_list_In || apply list_elem_of_In. simpl. tauto.
Qed.
End Probes.

(** The same provider with another way to run SQL. *)
Definition with_run_sql {W V} (db : Database W V) (f : conn db -> string -> Q -> prog W exn (CursorResult V)) : Database W V :=
  {| conn := conn db; connect := connect db; set_readonly := set_readonly db; run_sql := f; close := close db;
     db_name := db_name db; is_SQLAlchemyError := is_SQLAlchemyError db |}.
Definition with_provider {W V} (c : Collaborators W V) (db : Database W V) : Collaborators W V :=
  {| metadata_registry := metadata_registry c; business_knowledge_registry := business_knowledge_registry c;
     query_library := query_library c; prompt_compiler := prompt_compiler c;
     llm_provider_config := llm_provider_config c; sql_validation_engine := sql_validation_engine c;
     sql_repair_engine := sql_repair_engine c; connection_provider := Some db |}.

(** The probes always answer and never run SQL. As long as the collaborators raise
    nothing worse than an [Exception]: the health check returns its eight checks and the
    diagnostics their nine findings, however many collaborators are missing or fail; the
    diagnostics' verdict is the worst of its findings, and never [pass]. What either does and
    says is the same whatever the database would do with a statement. *)
Theorem probes_always_report {W V} `{WallClock W} (c : Collaborators W V) version w :
  decent_opt (option_map fst (metadata_registry c)) -> decent_opt (option_map snd (metadata_registry c)) ->
  decent_opt (business_knowledge_registry c) -> decent_opt (query_library c) ->
  (forall db, connection_provider c = Some db -> decent (acquire db (fun _ => ret tt))) ->
  (exists r w', check c w = (Ret r, w') /\ length (hr_checks r) = 8%nat /\
     hr_overall_status r = overall_status (hr_checks r)) /\
  (exists r w', run c version w = (Ret r, w') /\ report_ok r) /\
  (forall db f, check (with_provider c (with_run_sql db f)) w = check (with_provider c db) w /\
     run (with_provider c (with_run_sql db f)) version w = run (with_provider c db) version w).
Proof.
  intros H1 H2 H3 H4 H5. split; [|split].
  - destruct (total_check c H1 H3 H4 H5 w) as (r & w' & E & Hr). by exists r, w'.
  - by apply total_run.
  - done.
Qed.

(** ** Witness: a failing registry and an unreachable database. *)
Module ProbeDemo.
#[local] Instance clock : WallClock Z := fun w => (w, w + 1).
Definition db : Database Z Z :=
  {| conn := unit; connect := throw (OtherException "OSError" "connection refused");
     set_readonly := fun _ => ret tt; run_sql := fun _ _ _ => throw (OtherException "" ""); close := fun _ => ret tt;
     db_name := "shop"; is_SQLAlchemyError := fun _ => false |}.
Definition collaborators : Collaborators Z Z :=
  {| metadata_registry := None; business_knowledge_registry := Some (throw (OtherException "CatalogLoadError" "bad yaml"));
     query_library := None; prompt_compiler := true; llm_provider_config := None; sql_validation_engine := true;
     sql_repair_engine := true; connection_provider := Some db |}.
End ProbeDemo.
Lemma probes_always_report_witness :
  (exists r w', check ProbeDemo.collaborators 0 (H := ProbeDemo.clock) = (Ret r, w') /\ hr_overall_status r = UNHEALTHY) /\
  exists r w', run ProbeDemo.collaborators (fun _ => None) 0 (H := ProbeDemo.clock) = (Ret r, w') /\ report_ok r.
Proof.
  destruct (probes_always_report ProbeDemo.collaborators (fun _ => None) 0 (H := ProbeDemo.clock)) as (H1 & H2 & _).
  - intros m Hm. discriminate Hm.
  - intros m Hm. discriminate Hm.
  - intros m Hm w e w' Hr. injection Hm as <-. injection Hr as <- <-. reflexivity.
  - intros m Hm. discriminate Hm.
  - intros d Hd w e w' Hr. injection Hd as <-. vm_compute in Hr. injection Hr as <- <-. reflexivity.
  - split; [|exact H2]. destruct H1 as (r & w' & E & _). exists r, w'. split; [exact E|].
    vm_compute in E. injection E as <- _. reflexivity.
Defined.
