(* ===== verification/Benchmark.v ===== *)
(** * Benchmarks and profiles

    [observability/benchmark.py] and [observability/profiler.py], with the parts of
    [statistics] they use: [mean] of floats is the exact mean, rounded once. *)
From S2P Require Import Prelude PyFloat FloatSum PyStr Models Observability.
#[local] Open Scope string_scope.
#[local] Open Scope Z_scope.

Definition BenchmarkError (m : string) : exn := OtherException "BenchmarkError" m.
Definition ProfilingError (m : string) : exn := OtherException "ProfilingError" m.

(** ** [benchmark.py] *)
Record BenchmarkResult := {
  br_name : string; br_warmup_iterations : Z; br_measured_iterations : Z; br_average_ms : Q; br_min_ms : Q;
  br_max_ms : Q; br_median_ms : Q; br_p95_ms : Q }.
Record BenchmarkRunner := { default_warmup_iterations : Z; default_measured_iterations : Z }.
Definition BenchmarkRunner_init (warmup measured : Z) : outcome exn BenchmarkRunner :=
  if warmup <? 0 then Raise (BenchmarkError ("warmup_iterations must be >= 0, got " ++ show_Z warmup ++ "."))
  else if measured <? 1 then Raise (BenchmarkError ("measured_iterations must be >= 1, got " ++ show_Z measured ++ "."))
  else Ret {| default_warmup_iterations := warmup; default_measured_iterations := measured |}.

Definition sort_floats : list Q -> list Q := sorted_by fltb id.
Definition Qsum (l : list Q) : Q := fold_right Qplus 0%Q l.
(** [statistics.mean] and [statistics.median] of a non-empty sample. *)
Definition mean (l : list Q) : Q := fl (Qsum l / inject_Z (Z.of_nat (length l))).
Definition median (l : list Q) : Q :=
  let data := sort_floats l in
  let n := length data in
  let i := Nat.div n 2 in
  if Nat.odd n then nth i data 0%Q else fdiv (fadd (nth (i - 1) data 0%Q) (nth i data 0%Q)) 2.
(** [int(x)] of a float that is not negative. *)
Definition trunc (x : Q) : Z := Qround.Qfloor x.
Definition percentile_index (n : nat) (fraction : Q) : Z :=
  Z.max 0 (Z.min (Z.of_nat n - 1) (trunc (fadd (fmul (inject_Z (Z.of_nat n)) fraction) (lit 9999 10000)) - 1)).
Definition percentile (sorted : list Q) (fraction : Q) : Q :=
  match sorted with
  | [x] => x
  | _ => nth (Z.to_nat (percentile_index (length sorted) fraction)) sorted 0%Q
  end.
Definition build_result (name : string) (warmup : Z) (samples : list Q) : outcome exn BenchmarkResult :=
  match samples with
  | [] => Raise (OtherException "StatisticsError" "mean requires at least one data point")
  | _ =>
      let sorted := sort_floats samples in
      let r := {| br_name := name; br_warmup_iterations := warmup;
                  br_measured_iterations := Z.of_nat (length samples); br_average_ms := mean samples;
                  br_min_ms := nth 0 sorted 0%Q; br_max_ms := nth (length sorted - 1) sorted 0%Q;
                  br_median_ms := median samples; br_p95_ms := percentile sorted (lit 95 100) |} in
      let? _ := if warmup <? 0 then Raise (ValidationError "warmup_iterations") else Ret tt in
      let? _ := at_least_0 "average_ms" (br_average_ms r) in
      let? _ := at_least_0 "min_ms" (br_min_ms r) in
      let? _ := at_least_0 "max_ms" (br_max_ms r) in
      let? _ := at_least_0 "median_ms" (br_median_ms r) in
      let? _ := at_least_0 "p95_ms" (br_p95_ms r) in
      Ret r
  end.

Section Run.
Context {W : Type} `{Clock W} (runner : BenchmarkRunner).
(** [run] and [run_async]: [range(n)] of a negative number is empty. *)
Fixpoint repeat_call (n : nat) (fn : prog W exn unit) : prog W exn unit :=
  match n with O => ret tt | S n' => let! _ := fn in repeat_call n' fn end.
Fixpoint measure (n : nat) (fn : prog W exn unit) : prog W exn (list Q) :=
  match n with
  | O => ret []
  | S n' =>
      let! started := perf_counter in
      let! _ := fn in
      let! sample := elapsed_ms started in
      let! samples := measure n' fn in
      ret (sample :: samples)
  end.
Definition run_benchmark (name : string) (fn : prog W exn unit) (warmup_iterations measured_iterations : option Z)
  : prog W exn BenchmarkResult :=
  let warmup := default (default_warmup_iterations runner) warmup_iterations in
  let measured := default (default_measured_iterations runner) measured_iterations in
  let! _ := repeat_call (Z.to_nat warmup) fn in
  let! samples := measure (Z.to_nat measured) fn in
  lift (build_result name warmup samples).
End Run.

(** ** [profiler.py] *)
Record ProfilingStatistics := {
  ps_stage : string; ps_latency_ms : Q; ps_cumulative_latency_ms : Q; ps_percentage_of_total : Q }.
Record PipelineProfile := {
  pp_stage_statistics : list ProfilingStatistics; pp_total_latency_ms : Q; pp_dominant_stage : string;
  pp_dominant_stage_percentage : Q; pp_generated_at : Z }.
Definition percentage (latency total : Q) : Q := if fltb 0 total then fmul (fdiv latency total) 100 else 0%Q.
Definition make_statistics (s : ProfilingStatistics) : outcome exn ProfilingStatistics :=
  let? _ := at_least_0 "latency_ms" (ps_latency_ms s) in
  let? _ := at_least_0 "cumulative_latency_ms" (ps_cumulative_latency_ms s) in
  let? _ := at_least_0 "percentage_of_total" (ps_percentage_of_total s) in
  if fltb 100 (ps_percentage_of_total s) then Raise (ValidationError "percentage_of_total") else Ret s.
Fixpoint stage_statistics (total cumulative : Q) (ds : list (string * Q)) : outcome exn (list ProfilingStatistics) :=
  match ds with
  | [] => Ret []
  | (stage, x) :: ds' =>
      let cumulative := fadd cumulative x in
      let? s := make_statistics {| ps_stage := stage; ps_latency_ms := x; ps_cumulative_latency_ms := cumulative;
                                   ps_percentage_of_total := percentage x total |} in
      let? rest := stage_statistics total cumulative ds' in
      Ret (s :: rest)
  end.
(** [max(stage_statistics, key=latency)]: the first of the largest. *)
Definition dominant (s : ProfilingStatistics) (l : list ProfilingStatistics) : ProfilingStatistics :=
  fold_left (fun best s => if fltb (ps_latency_ms best) (ps_latency_ms s) then s else best) l s.
Definition profile (clock : Z) (ds : list (string * Q)) : outcome exn PipelineProfile :=
  match ds with
  | [] => Raise (ProfilingError "Cannot profile an empty sequence of stage durations.")
  | _ =>
      let total := fsum (map snd ds) in
      let? stats := stage_statistics total 0 ds in
      match stats with
      | [] => Raise (OtherException "ValueError" "max() iterable argument is empty")
      | s :: rest =>
          let d := dominant s rest in
          let? _ := at_least_0 "total_latency_ms" total in
          Ret {| pp_stage_statistics := stats; pp_total_latency_ms := total; pp_dominant_stage := ps_stage d;
                 pp_dominant_stage_percentage := ps_percentage_of_total d; pp_generated_at := clock |}
      end
  end.

(** ** Every statistic lies between the extremes *)
Definition within (l : list Q) (x : Q) : Prop := (nth 0 (sort_floats l) 0 <= x <= nth (length l - 1) (sort_floats l) 0)%Q.
Lemma sort_floats_sorted l : StronglySorted (fun x y => (x <= y)%Q) (sort_floats l).
Proof.
  eapply StronglySorted_weaken; [|apply (sorted_by_sorted fltb id fltb_asym fltb_geb_trans)].
  intros x y. unfold not_after, id. by rewrite fltb_ge.
Qed.
Lemma sort_floats_length l : length (sort_floats l) = length l.
Proof. apply length_sorted_by. Qed.
Lemma sorted_nth (l : list Q) i j : StronglySorted (fun x y => (x <= y)%Q) l -> (i <= j < length l)%nat ->
  (nth i l 0 <= nth j l 0)%Q.
Proof.
  intros Hs. revert i j. induction Hs as [|x l Hs IH Hx]; intros i j [Hi Hj]; [simpl in Hj; lia|].
  destruct i as [|i], j as [|j]; simpl in *; [apply Qle_refl| |lia|apply IH; lia].
  rewrite Forall_forall in Hx. apply Hx, list_elem_of_In, nth_In. lia.
Qed.
Lemma within_nth l i : (i < length l)%nat -> within l (nth i (sort_floats l) 0%Q).
Proof.
  intros Hi. pose proof (sort_floats_length l) as Hl. split; apply sorted_nth; try apply sort_floats_sorted; lia.
Qed.
Lemma within_elem l x : x ∈ l -> within l x.
Proof.
  intros Hx. apply (elem_of_sorted_by fltb id) in Hx. apply list_elem_of_In in Hx.
  apply (In_nth _ _ 0%Q) in Hx as (i & Hi & <-). apply within_nth. unfold sort_floats. by rewrite sort_floats_length in Hi.
Qed.
Lemma nth_sorted_elem l i : (i < length l)%nat -> nth i (sort_floats l) 0%Q ∈ l.
Proof.
  intros Hi. apply (elem_of_sorted_by fltb id), list_elem_of_In, nth_In. fold (sort_floats l). by rewrite sort_floats_length.
Qed.
(** Rounding keeps a value between two floats. *)
Lemma fl_between a x b : is_float a -> is_float b -> (a <= x <= b)%Q -> (a <= fl x <= b)%Q.
Proof.
  unfold is_float. intros Ha Hb [H1 H2]. split; [rewrite <- Ha|rewrite <- Hb]; by apply fl_mono.
Qed.
Lemma Qsum_bounds l a b : Forall (fun x => (a <= x <= b)%Q) l ->
  (inject_Z (Z.of_nat (length l)) * a <= Qsum l <= inject_Z (Z.of_nat (length l)) * b)%Q.
Proof.
  induction 1 as [|x l [H1 H2] Hl [IH1 IH2]]; [change (inject_Z (Z.of_nat (length (@nil Q)))) with 0%Q; cbn [Qsum fold_right]; split; lra|].
  cbn [length Qsum fold_right]. fold (Qsum l). rewrite Nat2Z.inj_succ, <- Z.add_1_r, inject_Z_plus.
  change (inject_Z 1) with 1%Q. split; lra.
Qed.
Lemma mean_within l : l <> [] -> Forall is_float l -> within l (mean l).
Proof.
  intros Hne Hf. assert (Hn : (0 < length l)%nat) by (destruct l; [done|simpl; lia]).
  rewrite Forall_forall in Hf. apply fl_between; [apply Hf, nth_sorted_elem; lia|apply Hf, nth_sorted_elem; lia|].
  assert (Hq : (0 < inject_Z (Z.of_nat (length l)))%Q).
  { change 0%Q with (inject_Z 0). rewrite <- Zlt_Qlt. lia. }
  destruct (Qsum_bounds l (nth 0 (sort_floats l) 0%Q) (nth (length l - 1) (sort_floats l) 0%Q)) as [H1 H2].
  { apply Forall_forall. intros x Hx. by apply within_elem. }
  split; [apply Qle_shift_div_l; [done|lra]|apply Qle_shift_div_r; [done|lra]].
Qed.
Lemma median_within l : l <> [] -> Forall (fun x => is_float x /\ (0 <= x)%Q) l -> within l (median l).
Proof.
  intros Hne Hf. assert (Hn : (0 < length l)%nat) by (destruct l; [done|simpl; lia]).
  unfold median. rewrite sort_floats_length. set (n := length l) in *.
  assert (Hdiv : (Nat.div n 2 < n)%nat) by (apply Nat.div_lt; lia).
  destruct (Nat.odd n) eqn:Eo; [by apply within_nth|].
  assert (H2 : (2 <= n)%nat).
  { destruct (Nat.eq_dec n 1%nat) as [E|E]; [by rewrite E in Eo|lia]. }
  assert (Hi : (1 <= Nat.div n 2)%nat) by (apply Nat.div_le_lower_bound; lia).
  destruct (within_nth l (Nat.div n 2 - 1) ltac:(unfold n in *; lia)) as [A1 A2].
  destruct (within_nth l (Nat.div n 2) Hdiv) as [B1 B2].
  rewrite Forall_forall in Hf. unfold within. set (lo := nth 0 (sort_floats l) 0%Q) in *.
  set (hi := nth (length l - 1) (sort_floats l) 0%Q) in *.
  destruct (Hf lo ltac:(apply nth_sorted_elem; lia)) as [Flo Plo].
  destruct (Hf hi ltac:(apply nth_sorted_elem; lia)) as [Fhi Phi].
  set (x := nth (Nat.div n 2 - 1) (sort_floats l) 0%Q) in *. set (y := nth (Nat.div n 2) (sort_floats l) 0%Q) in *.
  assert (Hs : (2 * lo <= fadd x y <= 2 * hi)%Q).
  { unfold fadd. apply fl_between; [by apply double_float|by apply double_float|lra]. }
  unfold fdiv. apply fl_between; [done|done|]. split; [apply Qle_shift_div_l; [done|lra]|apply Qle_shift_div_r; [done|lra]].
Qed.
Lemma percentile_elem l p : l <> [] -> percentile (sort_floats l) p ∈ l.
Proof.
  intros Hne. assert (Hn : (0 < length l)%nat) by (destruct l; [done|simpl; lia]).
  assert (Hi : forall n, (0 < n)%nat -> (Z.to_nat (percentile_index n p) < n)%nat).
  { intros n Hpos. unfold percentile_index. lia. }
  assert (He : nth (Z.to_nat (percentile_index (length (sort_floats l)) p)) (sort_floats l) 0%Q ∈ l).
  { apply nth_sorted_elem. rewrite sort_floats_length. by apply Hi. }
  unfold percentile. pose proof (nth_sorted_elem l 0 Hn) as H0.
  destruct (sort_floats l) as [|x [|y s]]; [exact He|exact H0|exact He].
Qed.

(** A benchmark's statistics are statistics of its samples. Timing a callable that does
    not raise, any number of times from one on, gives a result: as many samples as asked
    for, none of them negative; the average, the median and the 95th percentile lie between
    the least and the greatest sample, rounding included, and the percentile is one of the
    samples. *)
Theorem benchmark_is_of_its_samples name warmup samples :
  0 <= warmup -> samples <> [] -> Forall (fun x => is_float x /\ (0 <= x)%Q) samples ->
  exists r, build_result name warmup samples = Ret r /\
    br_measured_iterations r = Z.of_nat (length samples) /\
    br_min_ms r ∈ samples /\ br_max_ms r ∈ samples /\ br_p95_ms r ∈ samples /\
    Forall (fun x => (br_min_ms r <= x <= br_max_ms r)%Q) (br_average_ms r :: br_median_ms r :: br_p95_ms r :: samples).
Proof.
  intros Hw Hne Hf. assert (Hn : (0 < length samples)%nat) by (destruct samples; [done|simpl; lia]).
  assert (Hpos : forall x, within samples x -> (0 <= x)%Q).
  { intros x [Hx _]. eapply Qle_trans; [|exact Hx]. rewrite Forall_forall in Hf.
    apply Hf, nth_sorted_elem. lia. }
  assert (H1 : within samples (mean samples)).
  { apply mean_within; [done|]. eapply Forall_impl; [exact Hf|]. by intros x [Hx _]. }
  pose proof (median_within samples Hne Hf) as H2.
  pose proof (percentile_elem samples (lit 95 100) Hne) as H3.
  assert (Ht : (warmup <? 0) = false) by lia.
  assert (Hmin : nth 0 (sort_floats samples) 0%Q ∈ samples) by (apply nth_sorted_elem; lia).
  assert (Hmax : nth (length samples - 1) (sort_floats samples) 0%Q ∈ samples) by (apply nth_sorted_elem; lia).
  eexists. split.
  - unfold build_result. destruct samples as [|x0 xs] eqn:Es; [done|]. rewrite <- Es in *. cbv zeta.
    cbn [br_average_ms br_min_ms br_max_ms br_median_ms br_p95_ms]. rewrite Ht. cbn [obind].
    rewrite sort_floats_length, !at_least_0_ok by (apply Hpos; first [done|by apply within_elem]). cbn [obind]. reflexivity.
  - cbn [br_measured_iterations br_average_ms br_min_ms br_max_ms br_median_ms br_p95_ms].
    split_and!; try done. repeat (constructor; [first [done|by apply within_elem]|]).
    apply Forall_forall. intros x Hx. by apply within_elem.
Qed.

(** ** Profiles *)
Lemma stage_statistics_spec total cum ds stats : stage_statistics total cum ds = Ret stats ->
  map (fun s => (ps_stage s, ps_latency_ms s)) stats = ds /\
  Forall (fun s => (0 <= ps_percentage_of_total s <= 100)%Q) stats.
Proof.
  revert cum stats. induction ds as [|[stage x] ds IH]; intros cum stats; cbn [stage_statistics]; [by intros [= <-]|].
  unfold make_statistics. cbn [ps_latency_ms ps_cumulative_latency_ms ps_percentage_of_total].
  unfold at_least_0. destruct (fltb x 0); [done|]. destruct (fltb (fadd cum x) 0); [done|]. cbn [obind].
  destruct (fltb (percentage x total) 0) eqn:E0; [done|]. cbn [obind].
  destruct (fltb 100 (percentage x total)) eqn:E1; [done|]. cbn [obind].
  destruct (stage_statistics total (fadd cum x) ds) as [e|rest] eqn:Er; [done|]. cbn [obind]. intros [= <-].
  destruct (IH _ _ Er) as [H1 H2]. split; [cbn [map ps_stage ps_latency_ms]; by rewrite H1|].
  constructor; [|done]. cbn [ps_percentage_of_total]. split; by apply fltb_ge.
Qed.
Lemma dominant_spec s l :
  dominant s l ∈ s :: l /\ Forall (fun x => (ps_latency_ms x <= ps_latency_ms (dominant s l))%Q) (s :: l).
Proof.
  unfold dominant. induction l as [|y l IH] using rev_ind; [split; [by left|repeat constructor; apply Qle_refl]|].
  rewrite fold_left_app. cbn [fold_left]. set (d := fold_left _ l s) in *. destruct IH as [IH1 IH2].
  rewrite app_comm_cons. destruct (fltb (ps_latency_ms d) (ps_latency_ms y)) eqn:E.
  - apply fltb_spec in E. split; [apply elem_of_app; right; by left|]. apply Forall_app.
    split; [|repeat constructor; apply Qle_refl]. eapply Forall_impl; [exact IH2|].
    intros z Hz. eapply Qle_trans; [exact Hz|]. by apply Qlt_le_weak.
  - apply fltb_ge in E. split; [apply elem_of_app; by left|]. apply Forall_app. split; [done|]. by repeat constructor.
Qed.
(** A profile lists the stages it was given, in order, and names one of the slowest. *)
Theorem profile_spec clock ds p : profile clock ds = Ret p ->
  map (fun s => (ps_stage s, ps_latency_ms s)) (pp_stage_statistics p) = ds /\
  exists d, d ∈ pp_stage_statistics p /\ pp_dominant_stage p = ps_stage d /\
    pp_dominant_stage_percentage p = ps_percentage_of_total d /\
    Forall (fun s => (ps_latency_ms s <= ps_latency_ms d)%Q) (pp_stage_statistics p).
Proof.
  unfold profile. destruct ds as [|d0 ds]; [done|].
  destruct (stage_statistics _ _ _) as [e|stats] eqn:E; [done|]. cbn [obind].
  destruct (stage_statistics_spec _ _ _ _ E) as [H1 _]. destruct stats as [|s rest]; [done|].
  unfold at_least_0. destruct (fltb _ 0); [done|]. cbn [obind]. intros [= <-].
  cbn [pp_stage_statistics pp_dominant_stage pp_dominant_stage_percentage]. split; [done|].
  destruct (dominant_spec s rest) as [H2 H3]. by exists (dominant s rest).
Qed.

(** ** Witness *)
Lemma benchmark_is_of_its_samples_witness :
  exists r, build_result "parse" 1 [3; 1; 2]%Q = Ret r /\ br_min_ms r ∈ [3; 1; 2]%Q.
Proof.
  destruct (benchmark_is_of_its_samples "parse" 1 [3; 1; 2]%Q) as (r & H1 & _ & H2 & _).
  - lia.
  - discriminate.
  - assert (H : forall z : Z, Z.abs z <= 2 ^ 53 -> is_float (inject_Z z)) by exact is_float_int.
    constructor; [split; [apply (H 3); lia|discriminate]|].
    constructor; [split; [apply (H 1); lia|discriminate]|].
    constructor; [split; [apply (H 2); lia|discriminate]|constructor].
  - exists r. split; [exact H1|exact H2].
Defined.
