(* ===== verification/SeedRandom.v ===== *)
(** * The seeding engine: randomness, money and dates ([querymind.seeds.utils], [.base])

    Every generator and every rule class owns a [random.Random]; a world offers the draws of
    all of them, and the derived methods ([randint], [choice], [choices], [uniform],
    [shuffle]) are those of the standard library over [random()] and [_randbelow]. Faker is a
    parameter. Money is exact: a [Decimal] is a rational, and a currency amount a number of
    cents. A [datetime] is its second, counted so that second 86400 * o begins ordinal o. *)
From Stdlib Require Import Qround.
From S2P Require Import Prelude PyFloat FloatSum PyStr Models NluTime.
#[local] Open Scope string_scope.
#[local] Open Scope Z_scope.

(** ** [random.Random] *)
(** [stream] names one [Random] instance. *)
Class Randomness (W : Type) := {
  draw : string -> W -> Q * W;
  below : string -> Z -> W -> Z * W;
  draw_unit : forall s w, (0 <= fst (draw s w) < 1)%Q;
  below_range : forall s n w, 0 < n -> 0 <= fst (below s n w) < n }.

(** [bisect(cum, x, 0, hi)]: the number of leading entries not above [x], at most [hi]. *)
Fixpoint bisect (cum : list Q) (x : Q) (hi : nat) : nat :=
  match hi, cum with
  | S hi', c :: cum' => if fltb x c then O else S (bisect cum' x hi')
  | _, _ => O
  end.
(** [itertools.accumulate] *)
Fixpoint accumulate_from (acc : Q) (l : list Q) : list Q :=
  match l with [] => [] | x :: l' => let a := fadd acc x in a :: accumulate_from a l' end.
Definition accumulate (l : list Q) : list Q :=
  match l with [] => [] | x :: l' => x :: accumulate_from x l' end.
(** [cum_weights\[-1\]] *)
Definition total_weight (weights : list Q) : Q :=
  match weights with [] => 0%Q | x :: l => fold_left fadd l x end.

Section Random.
Context {W : Type} `{Randomness W}.

Definition random (s : string) : prog W exn Q := fun w => let '(u, w') := draw s w in (Ret u, w').
Definition randbelow (s : string) (n : Z) : prog W exn Z := fun w => let '(r, w') := below s n w in (Ret r, w').
Definition randint (s : string) (a b : Z) : prog W exn Z :=
  if b <? a then throw (ValueError "empty range in randrange")
  else let! r := randbelow s (b - a + 1) in ret (a + r).
Definition choice {A} (s : string) (l : list A) : prog W exn A :=
  let! i := (if non_empty l then randbelow s (Z.of_nat (length l))
             else throw (OtherException "IndexError" "Cannot choose from an empty sequence")) in
  lift (match l !! Z.to_nat i with
        | Some x => Ret x
        | None => Raise (OtherException "IndexError" "list index out of range")
        end).
Definition uniform (s : string) (a b : Q) : prog W exn Q :=
  let! u := random s in ret (fadd a (fmul (fsub b a) u)).
(** [random() < p] *)
Definition chance (s : string) (p : Q) : prog W exn bool := let! u := random s in ret (fltb u p).

(** [choices(population, weights, k=1)\[0\]] *)
Definition choices1 {A} (s : string) (population : list A) (weights : list Q) : prog W exn A :=
  let total := total_weight weights in
  if fleb total 0 then throw (ValueError "Total of weights must be greater than zero")
  else let! u := random s in
       lift (match population !! bisect (accumulate weights) (fmul u total) (length population - 1) with
             | Some x => Ret x
             | None => Raise (OtherException "IndexError" "list index out of range")
             end).
(** [shuffle]: [for i in reversed(range(1, len(x))): j = randbelow(i + 1); swap]. *)
Definition swap {A} (i j : nat) (l : list A) : list A :=
  match l !! i, l !! j with Some x, Some y => <[i := y]> (<[j := x]> l) | _, _ => l end.
Fixpoint shuffle_down {A} (s : string) (i : nat) (l : list A) : prog W exn (list A) :=
  match i with
  | O => ret l
  | S i' => let! j := randbelow s (Z.of_nat i + 1) in shuffle_down s i' (swap i (Z.to_nat j) l)
  end.
Definition shuffle {A} (s : string) (l : list A) : prog W exn (list A) := shuffle_down s (length l - 1) l.

(** ** [utils.py] *)
Definition weighted_choice {A} (s : string) (population : list A) (weights : list Q) : prog W exn A :=
  if negb (length population =? length weights)%nat
  then throw (ValueError "choices and weights must be the same length")
  else if negb (non_empty population) then throw (ValueError "choices must not be empty")
  else choices1 s population weights.
(** [BaseRules._weighted_pick] and the [list(d.keys()), list(d.values())] idiom. *)
Definition weighted_pick {A} (s : string) (distribution : list (A * Q)) : prog W exn A :=
  weighted_choice s (map fst distribution) (map snd distribution).
End Random.

(** [day + timedelta(days=n)] on ordinals, [t + timedelta(seconds=n)] on seconds. *)
Definition DAY : Z := 86400.
Definition shift_seconds (t n : Z) : outcome exn Z :=
  if (DAY <=? t + n) && (t + n <? (MAX_ORDINAL + 1) * DAY) then Ret (t + n) else Raise OverflowError.
(** [datetime.combine(day, time(h, m, s), tzinfo=UTC)] *)
Definition combine (day h m s : Z) : Z := day * DAY + h * 3600 + m * 60 + s.
(** [t.date()] *)
Definition date_of (t : Z) : Z := t / DAY.

Section Dates.
Context {W : Type} `{Randomness W}.
Definition random_date_between (s : string) (start end_ : Z) : prog W exn Z :=
  if end_ <? start then throw (ValueError "start must not be after end")
  else let! n := randint s 0 (end_ - start) in lift (shift_days start n).
Definition random_datetime_between (s : string) (start end_ : Z) : prog W exn Z :=
  if end_ <? start then throw (ValueError "start must not be after end")
  else let! n := randint s 0 (end_ - start) in lift (shift_seconds start n).
End Dates.

(** [x.quantize(Decimal("0.01"), ROUND_HALF_UP)], in cents: half away from zero. *)
Definition half_up (x : Q) : Z :=
  if fltb x 0 then - Qfloor (- x * 100 + (1 # 2)) else Qfloor (x * 100 + (1 # 2)).
Definition round_currency (amount : Q) : Z := half_up amount.
(** The [Decimal] of a number of cents. *)
Definition dec (cents : Z) : Q := cents # 100.
Definition percentage_of (amount percent : Q) : Z := round_currency (amount * percent / 100).

(** [Decimal(str(x))]: [str] prints the shortest decimal that reads back as [x], the nearest
    one when there are several; seventeen places are enough at the magnitudes used here. *)
Definition at_places (k : Z) (x : Q) : Q :=
  (Z.sgn (Qnum x) * rhe (Z.abs (Qnum x) * 10 ^ k) (Zpos (Qden x))) # Z.to_pos (10 ^ k).
Fixpoint shortest_from (n : nat) (k : Z) (x : Q) : Q :=
  match n with
  | O => at_places k x
  | S n' => let y := at_places k x in if Qeq_bool (fl y) x then y else shortest_from n' (k + 1) x
  end.
Definition dec_of_float (x : Q) : Q := shortest_from 20 0 x.
(** [round(x, k)] of a float, and what [Decimal(str(...))] makes of it. *)
Definition round_places (k : Z) (x : Q) : Q := fl (at_places k x).
(** [round(x)]: to the even integer on a tie. *)
Definition py_round (x : Q) : Z := Z.sgn (Qnum x) * rhe (Z.abs (Qnum x)) (Zpos (Qden x)).

(** ** Faker *)
(** [fake(generator, method)] and its [date_of_birth]. *)
Class Faker (W : Type) := {
  fake : string -> string -> prog W exn string;
  fake_date_of_birth : string -> prog W exn Z }.

(** [BaseGenerator.__init__] *)
Definition check_count (count : Z) : outcome exn unit :=
  if count <? 0 then Raise (ValueError "count must be >= 0") else Ret tt.

(** [f"{n:0{width}d}"] *)
Definition zero_pad (width : nat) (n : Z) : string :=
  let digits := show_Z (Z.abs n) in
  let sign := if n <? 0 then "-" else "" in
  let fill := (width - String.length digits - String.length sign)%nat in
  sign ++ String.concat "" (repeat "0" fill) ++ digits.

(** [str.title()]: the first letter of every run of letters in upper case, the rest in lower. *)
Fixpoint title_from (cased : bool) (s : string) : string :=
  match s with
  | "" => ""
  | String c s' =>
      let letter := is_upper c || is_lower c in
      String (if letter then (if cased then char_lower c else char_upper c) else c) (title_from letter s')
  end.
Definition title (s : string) : string := title_from false s.
Example title_runs : title "multi-layered 4th ERA" = "Multi-Layered 4Th Era". Proof. reflexivity. Qed.

(** ** What the draws are *)
Section Draws.
Context {W : Type} `{Randomness W}.

Lemma total_random s : total_prog (random s) (fun u => (0 <= u < 1)%Q).
Proof.
  intros w. unfold random. pose proof (draw_unit s w) as Hu. destruct (draw s w) as [u w']. by exists u, w'.
Qed.
Lemma total_randbelow s n : 0 < n -> total_prog (randbelow s n) (fun r => 0 <= r < n).
Proof.
  intros Hn w. unfold randbelow. pose proof (below_range s n w Hn) as Hr. destruct (below s n w) as [r w']. by exists r, w'.
Qed.
Lemma total_randint s a b : a <= b -> total_prog (randint s a b) (fun r => a <= r <= b).
Proof.
  intros Hab. unfold randint. destruct (Z.ltb_spec b a); [lia|].
  eapply total_bind; [apply total_randbelow; lia|cbv beta; intros r Hr]. apply total_ret; cbv beta in *; lia.
Qed.
Lemma total_chance s p : total_prog (chance s p) (fun _ => True).
Proof. eapply total_bind; [apply total_random|cbv beta; intros u _]. by apply total_ret. Qed.
Lemma total_choice {A} s (l : list A) : l <> [] -> total_prog (choice s l) (fun x => x ∈ l).
Proof.
  intros Hl. unfold choice. destruct l as [|x l]; [done|]. cbn [non_empty].
  eapply total_bind; [apply total_randbelow; cbn [length]; lia|cbv beta; intros i Hi].
  destruct (lookup_lt_is_Some_2 (x :: l) (Z.to_nat i)) as [y Hy]; [lia|].
  eapply total_lift; [by rewrite Hy|]. by eapply list_elem_of_lookup_2.
Qed.
Lemma bisect_le cum x hi : (bisect cum x hi <= hi)%nat.
Proof.
  revert cum. induction hi as [|hi IH]; intros [|c cum]; simpl; try lia.
  destruct (fltb x c); [lia|]. specialize (IH cum). lia.
Qed.
Lemma total_choices1 {A} s (l : list A) ws : l <> [] -> (0 < total_weight ws)%Q ->
  total_prog (choices1 s l ws) (fun x => x ∈ l).
Proof.
  intros Hl Hw. unfold choices1. destruct (fleb (total_weight ws) 0) eqn:E; [apply fleb_spec in E; lra|].
  eapply total_bind; [apply total_random|cbv beta; intros u _].
  destruct (lookup_lt_is_Some_2 l (bisect (accumulate ws) (fmul u (total_weight ws)) (length l - 1))) as [y Hy].
  { pose proof (bisect_le (accumulate ws) (fmul u (total_weight ws)) (length l - 1)). destruct l; [done|]. simpl in *. lia. }
  eapply total_lift; [by rewrite Hy|]. by eapply list_elem_of_lookup_2.
Qed.
Lemma total_weighted_choice {A} s (l : list A) ws : l <> [] -> length l = length ws -> (0 < total_weight ws)%Q ->
  total_prog (weighted_choice s l ws) (fun x => x ∈ l).
Proof.
  intros Hl Hlen Hw. unfold weighted_choice. rewrite Hlen, Nat.eqb_refl. cbn [negb].
  replace (non_empty l) with true by (by destruct l). by apply total_choices1.
Qed.
Lemma total_weighted_pick {A} s (d : list (A * Q)) : d <> [] -> (0 < total_weight (map snd d))%Q ->
  total_prog (weighted_pick s d) (fun x => x ∈ map fst d).
Proof.
  intros Hd Hw. apply total_weighted_choice; [by destruct d|by rewrite !length_map|done].
Qed.
Lemma total_uniform s a b : is_float a -> (a <= b)%Q ->
  total_prog (uniform s a b) (fun x => (a <= x <= fadd a (fsub b a))%Q /\ is_float x).
Proof.
  intros Ha Hab. eapply total_bind; [apply total_random|cbv beta; intros u [Hu0 Hu1]]. apply total_ret.
  assert (Hd : (0 <= fsub b a)%Q) by by apply fsub_nonneg.
  split; [|apply is_float_fl]. split.
  - unfold is_float in Ha. rewrite <- Ha at 1. apply fl_mono.
    assert (0 <= fmul (fsub b a) u)%Q by by apply fmul_nonneg. lra.
  - apply fl_mono. assert (fmul (fsub b a) u <= fsub b a)%Q; [|lra].
    assert (Hf : is_float (fsub b a)) by apply is_float_fl. unfold is_float in Hf.
    rewrite <- Hf at 2. apply fl_mono. nra.
Qed.

Lemma swap_perm {A} i j (l : list A) : swap i j l ≡ₚ l.
Proof.
  unfold swap. destruct (l !! i) as [x|] eqn:Ei, (l !! j) as [y|] eqn:Ej; [|done..].
  destruct (decide (i = j)) as [->|Hne].
  - rewrite Ei in Ej. injection Ej as <-. rewrite list_insert_id by (by rewrite list_insert_id). by rewrite list_insert_id.
  - apply Permutation_inj. split; [by rewrite !length_insert|].
    exists (fun k => if decide (k = i) then j else if decide (k = j) then i else k). split.
    + intros a b. repeat case_decide; congruence.
    + intros k. destruct (decide (k = i)) as [->|Hi].
      { rewrite list_lookup_insert_eq; [done|]. rewrite length_insert. by eapply lookup_lt_Some. }
      rewrite list_lookup_insert_ne by done. destruct (decide (k = j)) as [->|Hj].
      { rewrite list_lookup_insert_eq; [done|]. by eapply lookup_lt_Some. }
      by rewrite list_lookup_insert_ne by done.
Qed.
Lemma total_shuffle {A} s (l : list A) : total_prog (shuffle s l) (fun l' => l' ≡ₚ l).
Proof.
  unfold shuffle. generalize (length l - 1)%nat. intros i. revert l.
  induction i as [|i IH]; intros l; cbn [shuffle_down]; [by apply total_ret|].
  eapply total_bind; [apply total_randbelow; lia|cbv beta; intros j _].
  eapply total_weaken; [apply IH|]. intros l' ->. apply swap_perm.
Qed.
Lemma total_date_between s a b : 1 <= a <= b -> b <= MAX_ORDINAL ->
  total_prog (random_date_between s a b) (fun d => a <= d <= b).
Proof.
  intros Hab Hb. unfold random_date_between. destruct (Z.ltb_spec b a); [lia|].
  eapply total_bind; [apply total_randint; lia|cbv beta; intros n Hn].
  eapply total_lift; [apply shift_days_Ret; lia|]. cbv beta in *; lia.
Qed.
Lemma shift_seconds_Ret t n : DAY <= t + n < (MAX_ORDINAL + 1) * DAY -> shift_seconds t n = Ret (t + n).
Proof.
  intros [H1 H2]. unfold shift_seconds. destruct (Z.leb_spec DAY (t + n)); [|lia].
  by destruct (Z.ltb_spec (t + n) ((MAX_ORDINAL + 1) * DAY)); [|lia].
Qed.
Lemma total_datetime_between s a b : DAY <= a <= b -> b < (MAX_ORDINAL + 1) * DAY ->
  total_prog (random_datetime_between s a b) (fun d => a <= d <= b).
Proof.
  intros Hab Hb. unfold random_datetime_between. destruct (Z.ltb_spec b a); [lia|].
  eapply total_bind; [apply total_randint; lia|cbv beta; intros n Hn].
  eapply total_lift; [apply shift_seconds_Ret; lia|]. cbv beta in *; lia.
Qed.
End Draws.

(** ** Weights *)
Lemma fadd_ge acc x : is_float acc -> (0 <= x)%Q -> (acc <= fadd acc x)%Q.
Proof.
  intros Ha Hx. apply Qle_trans with (fl acc); [unfold is_float in Ha; rewrite Ha; apply Qle_refl|]. apply fl_mono. lra.
Qed.
Lemma fold_fadd_ge acc l : is_float acc -> Forall (fun x => 0 <= x)%Q l -> (acc <= fold_left fadd l acc)%Q.
Proof.
  intros Ha Hl. revert acc Ha. induction Hl as [|x l Hx _ IH]; intros acc Ha; [apply Qle_refl|]. cbn [fold_left].
  eapply Qle_trans; [by apply fadd_ge|]. apply IH, is_float_fl.
Qed.
(** Weights that are floats, none of them negative and the first positive, have a positive total. *)
Lemma total_weight_pos x l : is_float x -> (0 < x)%Q -> Forall (fun x => 0 <= x)%Q l -> (0 < total_weight (x :: l))%Q.
Proof. intros Hf Hx Hl. eapply Qlt_le_trans; [exact Hx|]. by apply fold_fadd_ge. Qed.

(** ** Money *)
Lemma half_up_cents z : half_up (dec z) = z.
Proof.
  unfold half_up, dec. destruct (fltb (z # 100) 0) eqn:E.
  - setoid_replace (- (z # 100) * 100 + (1 # 2))%Q with ((2 * (- z) + 1) # 2)%Q using relation Qeq
      by (unfold Qeq; simpl; lia).
    unfold Qfloor. replace (2 * - z + 1) with (1 + - z * 2) by lia. rewrite Z.div_add by lia. change (1 / 2) with 0. lia.
  - setoid_replace ((z # 100) * 100 + (1 # 2))%Q with ((2 * z + 1) # 2)%Q using relation Qeq
      by (unfold Qeq; simpl; lia).
    unfold Qfloor. replace (2 * z + 1) with (1 + z * 2) by lia. rewrite Z.div_add by lia. change (1 / 2) with 0. lia.
Qed.
Lemma half_up_mono x y : (0 <= x)%Q -> (x <= y)%Q -> half_up x <= half_up y.
Proof.
  intros Hx Hy. unfold half_up. replace (fltb x 0) with false by (symmetry; by apply fltb_ge).
  replace (fltb y 0) with false by (symmetry; apply fltb_ge; lra). apply Qfloor_resp_le. lra.
Qed.
Lemma half_up_nonneg x : (0 <= x)%Q -> 0 <= half_up x.
Proof.
  intros Hx. rewrite <- (half_up_cents 0). apply half_up_mono; [discriminate|].
  apply Qle_trans with 0%Q; [discriminate|exact Hx].
Qed.
Lemma half_up_ext x y : (x == y)%Q -> half_up x = half_up y.
Proof.
  intros E. unfold half_up. replace (fltb y 0) with (fltb x 0).
  - destruct (fltb x 0); [f_equal|]; apply Qfloor_comp; by rewrite E.
  - destruct (fltb x 0) eqn:E1; symmetry; [apply fltb_spec in E1; apply fltb_spec|apply fltb_ge in E1; apply fltb_ge]; lra.
Qed.
Lemma dec_nonneg z : 0 <= z -> (0 <= dec z)%Q.
Proof. unfold dec, Qle. simpl. lia. Qed.
Lemma dec_le a b : a <= b -> (dec a <= dec b)%Q.
Proof. unfold dec, Qle. simpl. lia. Qed.
Lemma dec_add a b : (dec a + dec b == dec (a + b))%Q.
Proof. unfold dec, Qeq. simpl. lia. Qed.
Lemma dec_sub a b : (dec a - dec b == dec (a - b))%Q.
Proof. unfold dec, Qeq. simpl. lia. Qed.
Lemma dec_mul a n : (dec a * inject_Z n == dec (a * n))%Q.
Proof. unfold dec, Qeq. simpl. lia. Qed.

(** ** Codes *)
(** A padded number reads back, so two of them are the same string only for the same number. *)
Lemma int_digits_zeros k s : int_digits 0 (String.concat "" (repeat "0" k) ++ s) = int_digits 0 s.
Proof.
  induction k as [|k IH]; [done|]. cbn [repeat]. destruct k; [done|]. exact IH.
Qed.
Lemma zero_pad_read w n : 0 <= n -> int_digits 0 (zero_pad w n) = Some n.
Proof.
  intros Hn. unfold zero_pad. destruct (Z.ltb_spec n 0); [lia|]. cbv zeta. rewrite (Z.abs_eq n Hn).
  change ("" ++ ?x) with x. rewrite int_digits_zeros. unfold show_Z.
  replace (pretty n) with (pretty (Z.to_N n)) by (by destruct n).
  destruct (pretty_N_spec (Z.to_N n)) as (_ & Hi & c & s & Hs). unfold int_unsigned in Hi. rewrite Hs in *.
  destruct (is_digit c); [|done]. by rewrite Hi, Z2N.id.
Qed.
Lemma zero_pad_inj w m n : 0 <= m -> 0 <= n -> zero_pad w m = zero_pad w n -> m = n.
Proof. intros Hm Hn E. apply (f_equal (int_digits 0)) in E. rewrite !zero_pad_read in E by done. by injection E. Qed.
