(* ===== verification/SeedConfig.v ===== *)
(** * The seeding engine: configuration, scenarios and the business calendar

    [querymind.seeds.config], [.scenarios], [.calendar] and the presets of
    [scripts/seed_database.py]. *)
From S2P Require Import Prelude PyFloat FloatSum PyStr Models NluTime SeedRandom.
#[local] Open Scope string_scope.
#[local] Open Scope Z_scope.

(** ** [config.py] *)
Record DatasetSizeConfig := {
  n_customers : Z; n_suppliers : Z; n_warehouses : Z; n_product_categories : Z; n_products : Z;
  n_promotions : Z; n_orders : Z; order_items_per_order_avg : Q; n_payments : Z; n_shipments : Z;
  n_inventory : Z; n_product_reviews : Z; n_returns : Z; customer_addresses_per_customer_avg : Q }.
Definition order_items (s : DatasetSizeConfig) : Z :=
  py_round (fmul (f_of_Z (n_orders s)) (order_items_per_order_avg s)).
Definition customer_addresses (s : DatasetSizeConfig) : Z :=
  py_round (fmul (f_of_Z (n_customers s)) (customer_addresses_per_customer_avg s)).
Definition valid_sizes (s : DatasetSizeConfig) : bool :=
  forallb (Z.ltb 0) [n_customers s; n_suppliers s; n_warehouses s; n_product_categories s; n_products s;
    n_promotions s; n_orders s; n_payments s; n_shipments s; n_inventory s; n_product_reviews s; n_returns s]
  && fltb 0 (order_items_per_order_avg s) && fltb 0 (customer_addresses_per_customer_avg s).

Record SeedConfig := {
  dataset_size : DatasetSizeConfig; seed : Z; locale : string; currency : string; output_verbosity : string;
  business_start_date : PyDate; business_end_date : PyDate;
  promotion_frequency : Q; return_rate : Q; review_rate : Q; payment_failure_rate : Q;
  seasonal_multipliers : list (Z * Q) }.
Definition in_unit (x : Q) : bool := fleb 0 x && fleb x 1.
(** The field constraints and the two model validators. *)
Definition valid_config (c : SeedConfig) : bool :=
  valid_sizes (dataset_size c) && (String.length (currency c) =? 3)%nat &&
  existsb (String.eqb (output_verbosity c)) ["quiet"; "normal"; "verbose"] &&
  forallb in_unit [promotion_frequency c; return_rate c; review_rate c; payment_failure_rate c] &&
  (date_ordinal (business_start_date c) <? date_ordinal (business_end_date c)) &&
  forallb (fun kv => (1 <=? fst kv) && (fst kv <=? 12)) (seasonal_multipliers c).
Definition SeedConfig_init (c : SeedConfig) : outcome exn SeedConfig :=
  if valid_config c then Ret c else Raise (OtherException "ValidationError" "validation error for SeedConfig").

Definition DEFAULT_SIZES : DatasetSizeConfig :=
  {| n_customers := 8000; n_suppliers := 150; n_warehouses := 8; n_product_categories := 120; n_products := 2000;
     n_promotions := 60; n_orders := 30000; order_items_per_order_avg := lit 26 10; n_payments := 31000;
     n_shipments := 27000; n_inventory := 16000; n_product_reviews := 12000; n_returns := 2200;
     customer_addresses_per_customer_avg := lit 14 10 |}.
Definition ymd (y m d : Z) : PyDate := {| year := y; month := m; day := d |}.
(** Months 1 to 12, the ones not listed being 1.0. *)
Definition multipliers (l : list (Z * Q)) : list (Z * Q) :=
  map (fun m => (m, default 1%Q (alist_get m l))) [1; 2; 3; 4; 5; 6; 7; 8; 9; 10; 11; 12].
Definition DEFAULT_CONFIG : SeedConfig :=
  {| dataset_size := DEFAULT_SIZES; seed := 42; locale := "en_US"; currency := "USD"; output_verbosity := "normal";
     business_start_date := ymd 2024 8 1; business_end_date := ymd 2026 8 1;
     promotion_frequency := lit 15 100; return_rate := lit 5 100; review_rate := lit 15 100;
     payment_failure_rate := lit 3 100;
     seasonal_multipliers := multipliers [(8, lit 13 10); (11, lit 18 10); (12, lit 22 10)] |}.

(** ** [scenarios.py] *)
Record SeedConfigOverrides := {
  o_dataset_size : option DatasetSizeConfig; o_seed : option Z; o_locale : option string; o_currency : option string;
  o_start : option PyDate; o_end : option PyDate; o_promotion_frequency : option Q; o_return_rate : option Q;
  o_review_rate : option Q; o_payment_failure_rate : option Q; o_seasonal : option (list (Z * Q)) }.
Definition no_overrides : SeedConfigOverrides :=
  {| o_dataset_size := None; o_seed := None; o_locale := None; o_currency := None; o_start := None; o_end := None;
     o_promotion_frequency := None; o_return_rate := None; o_review_rate := None; o_payment_failure_rate := None;
     o_seasonal := None |}.
Record ScenarioProfile := { sc_name : string; sc_overrides : SeedConfigOverrides }.
(** [base_config.model_copy(update=changes)]: nothing is validated again. *)
Definition apply (p : ScenarioProfile) (c : SeedConfig) : SeedConfig :=
  let o := sc_overrides p in
  {| dataset_size := default (dataset_size c) (o_dataset_size o); seed := default (seed c) (o_seed o);
     locale := default (locale c) (o_locale o); currency := default (currency c) (o_currency o);
     output_verbosity := output_verbosity c;
     business_start_date := default (business_start_date c) (o_start o);
     business_end_date := default (business_end_date c) (o_end o);
     promotion_frequency := default (promotion_frequency c) (o_promotion_frequency o);
     return_rate := default (return_rate c) (o_return_rate o);
     review_rate := default (review_rate c) (o_review_rate o);
     payment_failure_rate := default (payment_failure_rate c) (o_payment_failure_rate o);
     seasonal_multipliers := default (seasonal_multipliers c) (o_seasonal o) |}.

Definition DEFAULT : ScenarioProfile := {| sc_name := "default"; sc_overrides := no_overrides |}.
Definition HOLIDAY_SEASON : ScenarioProfile :=
  {| sc_name := "holiday_season"; sc_overrides :=
     {| o_dataset_size := None; o_seed := None; o_locale := None; o_currency := None;
        o_start := Some (ymd 2025 11 1); o_end := Some (ymd 2025 12 31);
        o_promotion_frequency := Some (lit 35 100); o_return_rate := None; o_review_rate := None;
        o_payment_failure_rate := None;
        o_seasonal := Some (multipliers [(10, lit 11 10); (11, 2%Q); (12, lit 25 10)]) |} |}.
Definition BLACK_FRIDAY : ScenarioProfile :=
  {| sc_name := "black_friday"; sc_overrides :=
     {| o_dataset_size := None; o_seed := None; o_locale := None; o_currency := None;
        o_start := Some (ymd 2025 11 24); o_end := Some (ymd 2025 11 30);
        o_promotion_frequency := Some (lit 70 100); o_return_rate := None; o_review_rate := None;
        o_payment_failure_rate := Some (lit 6 100);
        o_seasonal := Some (multipliers [(11, 3%Q)]) |} |}.
Definition with_inventory (n : Z) (s : DatasetSizeConfig) : DatasetSizeConfig :=
  {| n_customers := n_customers s; n_suppliers := n_suppliers s; n_warehouses := n_warehouses s;
     n_product_categories := n_product_categories s; n_products := n_products s; n_promotions := n_promotions s;
     n_orders := n_orders s; order_items_per_order_avg := order_items_per_order_avg s; n_payments := n_payments s;
     n_shipments := n_shipments s; n_inventory := n; n_product_reviews := n_product_reviews s; n_returns := n_returns s;
     customer_addresses_per_customer_avg := customer_addresses_per_customer_avg s |}.
Definition with_rate (sizes : option DatasetSizeConfig) (r : option Q) : SeedConfigOverrides :=
  {| o_dataset_size := sizes; o_seed := None; o_locale := None; o_currency := None; o_start := None; o_end := None;
     o_promotion_frequency := None; o_return_rate := r; o_review_rate := None; o_payment_failure_rate := None;
     o_seasonal := None |}.
Definition INVENTORY_SHORTAGE : ScenarioProfile :=
  {| sc_name := "inventory_shortage";
     sc_overrides := with_rate (Some (with_inventory 6000 DEFAULT_SIZES)) (Some (lit 8 100)) |}.
Definition HIGH_RETURNS : ScenarioProfile :=
  {| sc_name := "high_returns"; sc_overrides := with_rate None (Some (lit 20 100)) |}.
Definition GROWTH_SIZES : DatasetSizeConfig :=
  {| n_customers := 12000; n_suppliers := 150; n_warehouses := 8; n_product_categories := 120; n_products := 2600;
     n_promotions := 60; n_orders := 48000; order_items_per_order_avg := lit 26 10; n_payments := 49500;
     n_shipments := 43000; n_inventory := 20000; n_product_reviews := 19000; n_returns := 2600;
     customer_addresses_per_customer_avg := lit 14 10 |}.
Definition GROWTH_YEAR : ScenarioProfile :=
  {| sc_name := "growth_year"; sc_overrides :=
     {| o_dataset_size := Some GROWTH_SIZES; o_seed := None; o_locale := None; o_currency := None;
        o_start := Some (ymd 2025 8 1); o_end := Some (ymd 2026 8 1); o_promotion_frequency := None;
        o_return_rate := None; o_review_rate := None; o_payment_failure_rate := None; o_seasonal := None |} |}.
Definition STANDARD_SCENARIOS : list ScenarioProfile :=
  [DEFAULT; HOLIDAY_SEASON; BLACK_FRIDAY; INVENTORY_SHORTAGE; HIGH_RETURNS; GROWTH_YEAR].

(** The row-count presets of the command line. *)
Definition preset (customers suppliers warehouses categories products promotions orders payments shipments
    inventory reviews returns : Z) : DatasetSizeConfig :=
  {| n_customers := customers; n_suppliers := suppliers; n_warehouses := warehouses; n_product_categories := categories;
     n_products := products; n_promotions := promotions; n_orders := orders; order_items_per_order_avg := lit 26 10;
     n_payments := payments; n_shipments := shipments; n_inventory := inventory; n_product_reviews := reviews;
     n_returns := returns; customer_addresses_per_customer_avg := lit 14 10 |}.
Definition DATASET_SIZE_PRESETS : list (string * DatasetSizeConfig) :=
  [("small", preset 200 15 3 30 150 8 600 620 550 300 250 45);
   ("medium", preset 2000 60 6 80 800 25 6000 6200 5500 3000 2500 450)].

(** ** [calendar.py] *)
Definition new_years_day (y : Z) : outcome exn Z := date y 1 1.
Definition christmas (y : Z) : outcome exn Z := date y 12 25.
Definition thanksgiving (y : Z) : outcome exn Z :=
  let? first_of_month := date y 11 1 in
  let first_thursday_offset := (3 - weekday first_of_month) mod 7 in
  let? first_thursday := shift_days first_of_month first_thursday_offset in
  shift_days first_thursday 21.
Definition black_friday (y : Z) : outcome exn Z := let? t := thanksgiving y in shift_days t 1.
Definition is_weekend (o : Z) : bool := 5 <=? weekday o.
Inductive HolidayName := NEW_YEAR | THANKSGIVING_DAY | BLACK_FRIDAY_DAY | CHRISTMAS_DAY.
Definition holidays_for_year (y : Z) : outcome exn (list (HolidayName * Z)) :=
  let? n := new_years_day y in let? t := thanksgiving y in let? b := black_friday y in let? c := christmas y in
  Ret [(NEW_YEAR, n); (THANKSGIVING_DAY, t); (BLACK_FRIDAY_DAY, b); (CHRISTMAS_DAY, c)].
Definition is_holiday (d : PyDate) : outcome exn bool :=
  let? hs := holidays_for_year (year d) in Ret (existsb (fun h => snd h =? date_ordinal d) hs).

Section Calendar.
Context (multipliers : list (Z * Q)).
(** Only the month of the day matters. *)
Definition seasonal_multiplier (m : Z) : Q := default 1%Q (alist_get m multipliers).
Record SeasonalCampaign := { ca_name : string; ca_start : Z; ca_end : Z; ca_multiplier : Q }.
Definition standard_campaigns (y : Z) : outcome exn (list SeasonalCampaign) :=
  let? b := black_friday y in
  let? b_end := shift_days b 3 in
  let? d1 := date y 12 1 in let? d31 := date y 12 31 in
  let? a1 := date y 8 1 in let? a31 := date y 8 31 in
  Ret [{| ca_name := "Black Friday / Cyber Monday"; ca_start := b; ca_end := b_end; ca_multiplier := seasonal_multiplier 11 |};
       {| ca_name := "Holiday Season"; ca_start := d1; ca_end := d31; ca_multiplier := seasonal_multiplier 12 |};
       {| ca_name := "Back to School"; ca_start := a1; ca_end := a31; ca_multiplier := seasonal_multiplier 8 |}].
End Calendar.
