(* ===== verification/SeedModels.v ===== *)
(** * The seeding engine: the generated rows ([querymind.models])

    One record per ORM class the generators fill, with the [CheckConstraint]s and uniqueness
    rules of its table as boolean functions. A row refers to another by the position of that
    row in the list its generator returned: objects are distinct, and no row is added or
    removed once it exists. Currency columns are cents. *)
From S2P Require Import Prelude PyFloat PyStr Models SeedRandom.
#[local] Open Scope string_scope.
#[local] Open Scope Z_scope.

Inductive CustomerSegment := STANDARD | VIP | WHOLESALE.
Inductive AddressType := BILLING | SHIPPING.
Inductive OrderStatus := O_PENDING | CONFIRMED | SHIPPED | DELIVERED | CANCELLED | RETURNED.
Inductive SalesChannel := WEB | MOBILE_APP | MARKETPLACE | PHONE.
Inductive DiscountType := PERCENTAGE | FIXED_AMOUNT.
Inductive PaymentMethod := CREDIT_CARD | DEBIT_CARD | PAYPAL | GIFT_CARD | BANK_TRANSFER.
Inductive PaymentStatus := PAY_PENDING | AUTHORIZED | CAPTURED | PAY_FAILED | PAY_REFUNDED | PARTIALLY_REFUNDED.
Inductive ShipmentStatus := S_PENDING | IN_TRANSIT | S_DELIVERED | S_FAILED | RETURNED_TO_SENDER.
Inductive ReturnReason := DEFECTIVE | WRONG_ITEM | NO_LONGER_NEEDED | DAMAGED_IN_SHIPPING | NOT_AS_DESCRIBED | OTHER_REASON.
Inductive ReturnStatus := REQUESTED | APPROVED | REJECTED | REFUNDED | COMPLETED.
#[export] Instance CustomerSegment_eq_dec : EqDecision CustomerSegment. Proof. solve_decision. Defined.
#[export] Instance AddressType_eq_dec : EqDecision AddressType. Proof. solve_decision. Defined.
#[export] Instance OrderStatus_eq_dec : EqDecision OrderStatus. Proof. solve_decision. Defined.
#[export] Instance DiscountType_eq_dec : EqDecision DiscountType. Proof. solve_decision. Defined.
#[export] Instance PaymentStatus_eq_dec : EqDecision PaymentStatus. Proof. solve_decision. Defined.
#[export] Instance ShipmentStatus_eq_dec : EqDecision ShipmentStatus. Proof. solve_decision. Defined.
#[export] Instance ReturnStatus_eq_dec : EqDecision ReturnStatus. Proof. solve_decision. Defined.

Record Supplier := {
  supplier_code : string; supplier_name : string; contact_email : string; contact_phone : string;
  supplier_country : string; lead_time_days : Z; supplier_rating : Q; supplier_active : bool; onboarded_at : Z }.
Record Warehouse := {
  warehouse_code : string; warehouse_name : string; warehouse_city : string; warehouse_state : option string;
  warehouse_country : string; warehouse_active : bool; opened_at : Z }.
Record ProductCategory := {
  category_name : string; category_path : string; parent : option nat; category_created_at : Z }.
Record Product := {
  sku : string; product_name : string; description : string; unit_price : Z; cost_price : Z; weight_kg : Q;
  product_active : bool; launch_date : Z; product_created_at : Z; product_category : nat; product_supplier : nat }.
Record Inventory := {
  quantity_on_hand : Z; reorder_level : Z; last_restocked_at : Z; inv_product : nat; inv_warehouse : nat }.
Record Customer := {
  customer_number : string; first_name : string; last_name : string; email : string; phone : string;
  date_of_birth : Z; gender : option string; customer_segment : CustomerSegment; signup_date : Z;
  signup_channel : string; customer_active : bool }.
Record CustomerAddress := {
  address_type : AddressType; is_default : bool; line1 : string; line2 : option string; address_city : string;
  address_state : string; postal_code : string; address_country : string; address_customer : nat }.
Record Promotion := {
  promotion_code : string; promotion_name : string; discount_type : DiscountType; discount_value : Z;
  starts_at : Z; ends_at : Z }.
Record Order := {
  order_number : string; order_date : Z; order_status : OrderStatus; sales_channel : SalesChannel;
  ship_line1 : string; ship_city : string; ship_state : string; ship_postal : string;
  subtotal_amount : Z; discount_amount : Z; tax_amount : Z; shipping_amount : Z; total_amount : Z;
  currency_code : string; order_customer : nat; order_promotion : option nat }.
Record OrderItem := {
  quantity : Z; item_unit_price : Z; item_discount : Z; line_total : Z; item_order : nat; item_product : nat }.
Record Payment := {
  payment_method : PaymentMethod; payment_status : PaymentStatus; amount : Z; transaction_reference : string;
  paid_at : option Z; payment_order : nat }.
Record Shipment := {
  carrier : string; tracking_number : string; shipment_status : ShipmentStatus; shipped_at : option Z;
  delivered_at : option Z; shipment_order : nat; shipment_warehouse : nat }.
Record ProductReview := {
  rating : Z; review_title : string; review_text : string; is_verified_purchase : bool; review_date : Z;
  review_product : nat; review_customer : nat; review_item : nat }.
Record Return := {
  return_reason : ReturnReason; return_status : ReturnStatus; quantity_returned : Z; refund_amount : option Z;
  requested_at : Z; resolved_at : option Z; return_item : nat }.

(** ** [CheckConstraint]s *)
Definition supplier_checks (s : Supplier) : bool :=
  (0 <=? lead_time_days s) && fleb 0 (supplier_rating s) && fleb (supplier_rating s) 5.
Definition product_checks (p : Product) : bool := (0 <=? unit_price p) && (0 <=? cost_price p).
Definition inventory_checks (i : Inventory) : bool := (0 <=? quantity_on_hand i) && (0 <=? reorder_level i).
Definition promotion_checks (p : Promotion) : bool := (0 <=? discount_value p) && (starts_at p <? ends_at p).
Definition order_checks (o : Order) : bool :=
  (0 <=? subtotal_amount o) && (0 <=? discount_amount o) && (0 <=? tax_amount o) && (0 <=? shipping_amount o)
  && (0 <=? total_amount o).
Definition item_checks (i : OrderItem) : bool :=
  (0 <? quantity i) && (0 <=? item_unit_price i) && (0 <=? item_discount i) && (0 <=? line_total i).
Definition payment_checks (p : Payment) : bool := 0 <=? amount p.
Definition review_checks (r : ProductReview) : bool := (1 <=? rating r) && (rating r <=? 5).
Definition return_checks (r : Return) : bool :=
  (0 <? quantity_returned r) && match refund_amount r with Some a => 0 <=? a | None => true end.

(** ** Uniqueness: [UniqueConstraint] and the partial unique index of the address book *)
Definition inventory_unique (l : list Inventory) : Prop := NoDup (map (fun i => (inv_product i, inv_warehouse i)) l).
Definition items_unique (l : list OrderItem) : Prop := NoDup (map (fun i => (item_order i, item_product i)) l).
Definition reviews_unique (l : list ProductReview) : Prop := NoDup (map review_item l).
Definition categories_unique (l : list ProductCategory) : Prop :=
  NoDup (omap (fun c => match parent c with Some p => Some (p, category_name c) | None => None end) l).
Definition default_addresses_unique (l : list CustomerAddress) : Prop :=
  NoDup (omap (fun a => if is_default a then Some (address_customer a, address_type a) else None) l).
