(* ===== verification/SeedRules.v ===== *)
(** * The seeding engine: the business rules ([querymind.seeds.rules])

    Each rule class draws from its own [Random]; the weights are the ones written in the
    classes. *)
From S2P Require Import Prelude PyFloat FloatSum PyStr Models NluTime SeedRandom SeedConfig SeedModels.
#[local] Open Scope string_scope.
#[local] Open Scope Z_scope.

Definition pct (l : list (Z * Z)) : list (Z * Q) := map (fun kv => (fst kv, lit (snd kv) 100)) l.
Definition pc (n : Z) : Q := lit n 100.

Section Rules.
Context {W : Type} `{Randomness W} (config : SeedConfig).

(** ** [rules/customer.py] *)
Definition SEGMENT_WEIGHTS : list (CustomerSegment * Q) := [(STANDARD, pc 80); (VIP, pc 15); (WHOLESALE, pc 5)].
Definition SIGNUP_CHANNEL_WEIGHTS : list (string * Q) :=
  [("web", pc 55); ("mobile_app", pc 30); ("marketplace", pc 10); ("referral", pc 5)].
Definition order_frequency_multiplier (s : CustomerSegment) : Q :=
  match s with STANDARD => 1%Q | VIP => lit 25 10 | WHOLESALE => lit 6 10 end.
Definition assign_segment : prog W exn CustomerSegment := weighted_pick "customer" SEGMENT_WEIGHTS.
Definition assign_signup_channel : prog W exn string := weighted_pick "customer" SIGNUP_CHANNEL_WEIGHTS.
Definition is_active (signup as_of : Z) : prog W exn bool :=
  let tenure_days := Z.max (as_of - signup) 0 in
  let churn_probability := fmin (fdiv (f_of_Z tenure_days) (inject_Z (365 * 6))) (pc 35) in
  let! u := random "customer" in ret (fleb churn_probability u).

(** ** [rules/order.py] *)
Definition ORDER_STATUS_WEIGHTS : list (OrderStatus * Q) :=
  [(DELIVERED, pc 70); (SHIPPED, pc 15); (CONFIRMED, pc 4); (O_PENDING, pc 4); (CANCELLED, pc 5); (RETURNED, pc 2)].
Definition SALES_CHANNEL_WEIGHTS : list (SalesChannel * Q) :=
  [(WEB, pc 45); (MOBILE_APP, pc 35); (MARKETPLACE, pc 15); (PHONE, pc 5)].
Definition order_value_multiplier (s : CustomerSegment) : Q :=
  match s with STANDARD => 1%Q | VIP => lit 14 10 | WHOLESALE => 4%Q end.
Definition assign_order_status : prog W exn OrderStatus := weighted_pick "order" ORDER_STATUS_WEIGHTS.
Definition assign_sales_channel : prog W exn SalesChannel := weighted_pick "order" SALES_CHANNEL_WEIGHTS.

(** [_month_windows]: [n] bounds the number of months; each window carries its month. *)
Fixpoint month_windows (n : nat) (y m : Z) (start end_ : Z) : outcome exn (list (Z * (Z * Z))) :=
  match n with
  | O => Ret []
  | S n' =>
      let? cursor := date y m 1 in
      if end_ <? cursor then Ret []
      else
        let y' := if m =? 12 then y + 1 else y in
        let m' := if m =? 12 then 1 else m + 1 in
        let? next_month := date y' m' 1 in
        let? last_day := shift_days next_month (-1) in
        let? rest := month_windows n' y' m' start end_ in
        Ret ((m, (Z.max cursor start, Z.min last_day end_)) :: rest)
  end.
Definition months_between (a b : PyDate) : nat := Z.to_nat ((year b - year a) * 12 + (month b - month a) + 1).
Definition sample_order_date (start end_ : PyDate) : prog W exn Z :=
  let! windows := lift (month_windows (S (months_between start end_)) (year start) (month start)
                          (date_ordinal start) (date_ordinal end_)) in
  let weights := map (fun w => seasonal_multiplier (seasonal_multipliers config) (fst w)) windows in
  let! ' (_, (a, b)) := weighted_choice "order" windows weights in
  random_date_between "order" a b.
Definition sample_item_count : prog W exn Z :=
  let avg := order_items_per_order_avg (dataset_size config) in
  let low := Z.max 1 (py_round (fmul avg (lit 4 10))) in
  let high := Z.max low (py_round (fmul avg (lit 18 10))) in
  randint "order" low high.
Definition TAX_RATE : Q := lit 725 10000.
Definition FREE_SHIPPING_THRESHOLD : Z := 5000.
Definition STANDARD_SHIPPING_FEE : Z := 599.
Definition shipping_fee (subtotal : Z) : Z := if FREE_SHIPPING_THRESHOLD <=? subtotal then 0 else STANDARD_SHIPPING_FEE.

(** ** [rules/inventory.py] *)
Definition REORDER_LEVEL_RATIO : Q := lit 2 10.
Definition warehouse_coverage_ratio (products warehouses : Z) : Q :=
  let total_possible := products * warehouses in
  if total_possible <=? 0 then 0%Q
  else fmin (fdiv (inject_Z (n_inventory (dataset_size config))) (inject_Z total_possible)) 1.
Definition should_stock (coverage : Q) : prog W exn bool := chance "inventory" coverage.
Definition quantity_on_hand_multiplier (is_high_demand : bool) : Q := if is_high_demand then lit 25 10 else 1%Q.

(** ** [rules/promotion.py] *)
Definition applies_promotion : prog W exn bool := chance "promotion" (promotion_frequency config).
Definition is_promotion_active (starts ends day : Z) : bool := (starts <=? day) && (day <=? ends).

(** ** [rules/payment.py] *)
Definition PAYMENT_METHOD_WEIGHTS : list (PaymentMethod * Q) :=
  [(CREDIT_CARD, pc 55); (DEBIT_CARD, pc 20); (PAYPAL, pc 18); (GIFT_CARD, pc 4); (BANK_TRANSFER, pc 3)].
Definition assign_payment_method : prog W exn PaymentMethod := weighted_pick "payment" PAYMENT_METHOD_WEIGHTS.
Definition payment_succeeds : prog W exn bool :=
  let! u := random "payment" in ret (fleb (payment_failure_rate config) u).
Definition retry_count_on_failure : prog W exn Z := randint "payment" 0 2.

(** ** [rules/shipment.py] *)
Definition CARRIER_WEIGHTS : list (string * Q) := [("UPS", pc 40); ("FedEx", pc 35); ("DHL", pc 15); ("USPS", pc 10)].
Definition SHIPMENT_STATUS_WEIGHTS : list (ShipmentStatus * Q) :=
  [(S_DELIVERED, pc 80); (IN_TRANSIT, pc 12); (S_PENDING, pc 5); (S_FAILED, pc 2); (RETURNED_TO_SENDER, pc 1)].
Definition assign_carrier : prog W exn string := weighted_pick "shipment" CARRIER_WEIGHTS.
Definition assign_shipment_status : prog W exn ShipmentStatus := weighted_pick "shipment" SHIPMENT_STATUS_WEIGHTS.
Definition processing_delay_days : prog W exn Z := randint "shipment" 0 2.
Definition transit_delay_days (carrier : string) : prog W exn Z :=
  if (carrier =? "FedEx")%string || (carrier =? "UPS")%string then randint "shipment" 1 3 else randint "shipment" 3 7.

(** ** [rules/review.py] *)
Definition RATING_WEIGHTS : list (Z * Q) := pct [(1, 3); (2, 5); (3, 12); (4, 30); (5, 50)].
Definition is_eligible_for_review (verified : bool) : prog W exn bool :=
  let rate := fmul (review_rate config) (if verified then lit 12 10 else lit 6 10) in
  chance "review" (fmin rate 1).
Definition assign_rating : prog W exn Z := weighted_pick "review" RATING_WEIGHTS.
Definition review_delay_days : prog W exn Z := randint "review" 1 30.

(** ** [rules/returns.py] *)
Definition RETURN_WINDOW_DAYS : Z := 30.
Definition is_return_window_open (delivered_days_ago : Z) : bool :=
  (0 <=? delivered_days_ago) && (delivered_days_ago <=? RETURN_WINDOW_DAYS).
Definition is_eligible_for_return (s : OrderStatus) : prog W exn bool :=
  match s with
  | DELIVERED | RETURNED => chance "return" (return_rate config)
  | _ => ret false
  end.
Definition RETURN_REASON_WEIGHTS : list (ReturnReason * Q) :=
  [(NO_LONGER_NEEDED, pc 35); (DEFECTIVE, pc 25); (NOT_AS_DESCRIBED, pc 20); (WRONG_ITEM, pc 12);
   (DAMAGED_IN_SHIPPING, pc 6); (OTHER_REASON, pc 2)].
Definition RETURN_STATUS_WEIGHTS : list (ReturnStatus * Q) :=
  [(REQUESTED, pc 5); (APPROVED, pc 10); (REJECTED, pc 10); (REFUNDED, pc 50); (COMPLETED, pc 25)].
Definition assign_return_reason : prog W exn ReturnReason := weighted_pick "return" RETURN_REASON_WEIGHTS.
Definition assign_return_status (window_open payment_captured : bool) : prog W exn ReturnStatus :=
  if negb window_open || negb payment_captured then ret REJECTED else weighted_pick "return" RETURN_STATUS_WEIGHTS.
End Rules.
