(* ===== verification/SeedCatalog.v ===== *)
(** * The seeding engine: the catalog, the customers and the promotions

    [SupplierGenerator], [WarehouseGenerator], [ProductCategoryGenerator],
    [ProductGenerator], [InventoryGenerator], [CustomerGenerator],
    [CustomerAddressGenerator] and [PromotionGenerator]. A generator draws from the stream of
    its own name. *)
From S2P Require Import Prelude PyFloat FloatSum PyStr Models NluTime SeedRandom SeedConfig SeedModels SeedRules.
#[local] Open Scope string_scope.
#[local] Open Scope Z_scope.

(** [range(a, a + n)] *)
Definition range (a : Z) (n : nat) : list Z := map (fun i => a + Z.of_nat i) (seq 0 n).

Section Catalog.
Context {W : Type} `{Randomness W} `{Faker W} (config : SeedConfig).
Definition maybe {A} (b : bool) (m : prog W exn A) : prog W exn (option A) :=
  if b then let! a := m in ret (Some a) else ret None.
(** [datetime.combine(config.business_start_date, midnight) - timedelta(days=n)] and the end. *)
Definition window_end : Z := combine (date_ordinal (business_start_date config)) 0 0 0.
Definition window_start (days : Z) : outcome exn Z := shift_seconds window_end (- (days * DAY)).

(** ** [suppliers.py] *)
Definition COUNTRY_WEIGHTS : list (string * Q) :=
  [("CN", pc 35); ("US", pc 15); ("VN", pc 10); ("IN", pc 10); ("MX", pc 8); ("DE", pc 7); ("TR", pc 5); ("BD", pc 5);
   ("IT", pc 5)].
Definition make_supplier (start index : Z) : prog W exn Supplier :=
  let g := "suppliers" in
  let! onboarded := random_datetime_between g start window_end in
  let! name := fake g "company" in
  let! mail := fake g "company_email" in
  let! tel := fake g "phone_number" in
  let! country := weighted_pick g COUNTRY_WEIGHTS in
  let! lead := randint g 5 45 in
  let! r := uniform g (lit 5 2) 5 in
  let! active := chance g (pc 95) in
  ret {| supplier_code := "SUP-" ++ zero_pad 4 index; supplier_name := name; contact_email := mail; contact_phone := tel;
         supplier_country := country; lead_time_days := lead; supplier_rating := round_places 2 r;
         supplier_active := active; onboarded_at := onboarded |}.
Definition generate_suppliers (count : Z) : prog W exn (list Supplier) :=
  let! _ := lift (check_count count) in
  let! start := lift (window_start (365 * 10)) in
  mapM (make_supplier start) (range 1 (Z.to_nat count)).

(** ** [warehouses.py] *)
Definition REGIONS : list (string * (string * Q)) :=
  [("EAST", ("US", pc 30)); ("WEST", ("US", pc 25)); ("CENTRAL", ("US", pc 20)); ("SOUTH", ("US", pc 15));
   ("INTL", ("CA", pc 10))].
Fixpoint make_warehouses (n : nat) (start : Z) (region_sequence : list (string * Z)) : prog W exn (list Warehouse) :=
  let g := "warehouses" in
  match n with
  | O => ret []
  | S n' =>
      let! region := weighted_choice g (map fst REGIONS) (map (fun r => snd (snd r)) REGIONS) in
      let number := default 0 (alist_get region region_sequence) + 1 in
      let country := default "" (option_map fst (alist_get region REGIONS)) in
      let! opened := random_datetime_between g start window_end in
      let! name := fake g "city" in
      let! city := fake g "city" in
      let! state := maybe (country =? "US")%string (fake g "state_abbr") in
      let! active := chance g (pc 97) in
      let! rest := make_warehouses n' start (alist_set region number region_sequence) in
      ret ({| warehouse_code := "WH-" ++ region ++ "-" ++ zero_pad 2 number;
              warehouse_name := name ++ " Distribution Center"; warehouse_city := city; warehouse_state := state;
              warehouse_country := country; warehouse_active := active; opened_at := opened |} :: rest)
  end.
Definition generate_warehouses (count : Z) : prog W exn (list Warehouse) :=
  let! _ := lift (check_count count) in
  let! start := lift (window_start (365 * 15)) in
  make_warehouses (Z.to_nat count) start (map (fun r => (fst r, 0)) REGIONS).

(** ** [categories.py] *)
Definition TAXONOMY : list (string * list string) :=
  [("Electronics", ["Laptops"; "Smartphones"; "Tablets"; "Televisions"; "Cameras"; "Headphones"; "Wearable Tech";
                    "Computer Accessories"]);
   ("Home & Kitchen", ["Cookware"; "Small Appliances"; "Furniture"; "Bedding"; "Home Decor"; "Storage & Organization";
                       "Lighting"]);
   ("Apparel", ["Men's Clothing"; "Women's Clothing"; "Kids' Clothing"; "Shoes"; "Activewear"; "Outerwear"; "Accessories"]);
   ("Sports & Outdoors", ["Fitness Equipment"; "Camping & Hiking"; "Cycling"; "Team Sports"; "Water Sports";
                          "Outdoor Apparel"]);
   ("Beauty & Personal Care", ["Skincare"; "Haircare"; "Makeup"; "Fragrances"; "Personal Care Appliances"; "Bath & Body"]);
   ("Books & Media", ["Fiction"; "Non-Fiction"; "Children's Books"; "Music"; "Movies & TV"; "Audiobooks"]);
   ("Toys & Games", ["Action Figures"; "Board Games"; "Building Sets"; "Puzzles"; "Outdoor Toys"; "Educational Toys"]);
   ("Automotive", ["Car Electronics"; "Interior Accessories"; "Exterior Accessories"; "Tools & Equipment";
                   "Tires & Wheels"]);
   ("Grocery", ["Snacks"; "Beverages"; "Pantry Staples"; "Breakfast Foods"; "Candy & Chocolate"]);
   ("Health & Wellness", ["Vitamins & Supplements"; "Medical Supplies"; "Fitness Trackers"; "Personal Care"]);
   ("Office Supplies", ["Writing Instruments"; "Paper Products"; "Desk Accessories"; "Office Electronics"]);
   ("Pet Supplies", ["Dog Supplies"; "Cat Supplies"; "Fish & Aquatics"; "Small Animal Supplies"])].
(** The loop over the top levels: [top] is the position and name of the ones created, and the
    per-name counters of curated and overflow subcategories are functions of the name. *)
Fixpoint make_children (n : nat) (at_ : Z) (top : list string) (index : nat) (cursors overflow : list (string * nat))
  : outcome exn (list ProductCategory) :=
  match n with
  | O => Ret []
  | S n' =>
      let position := (index mod length top)%nat in
      match top !! position with
      | None => Raise (OtherException "IndexError" "list index out of range")
      | Some name =>
          let subcategories := default [] (alist_get name TAXONOMY) in
          let cursor := default 0%nat (alist_get name cursors) in
          let number := default 0%nat (alist_get name overflow) in
          match subcategories !! cursor with
          | Some sub =>
              let? rest := make_children n' at_ top (S index) (alist_set name (S cursor) cursors) overflow in
              Ret ({| category_name := sub; category_path := name ++ "/" ++ sub; parent := Some position;
                      category_created_at := at_ |} :: rest)
          | None =>
              let sub := name ++ " Specialty " ++ show_nat (S number) in
              let? rest := make_children n' at_ top (S index) cursors (alist_set name (S number) overflow) in
              Ret ({| category_name := sub; category_path := name ++ "/" ++ sub; parent := Some position;
                      category_created_at := at_ |} :: rest)
          end
      end
  end.
Definition generate_categories (count : Z) : prog W exn (list ProductCategory) :=
  let! _ := lift (check_count count) in
  let! start := lift (window_start (365 * 5)) in
  let! created_at := lift (shift_seconds start ((window_end - start) / 2)) in
  let top := take (Z.to_nat count) (map fst TAXONOMY) in
  let parents := map (fun name => {| category_name := name; category_path := name; parent := None;
                                     category_created_at := created_at |}) top in
  match top with
  | [] => ret []
  | _ => let! children := lift (make_children (Z.to_nat count - length top) created_at top 0 [] []) in
         ret (parents ++ children)%list
  end.

(** ** [products.py]

    [category] and [supplier] are positions in the lists handed to the constructor. *)
Definition positions {A} (l : list A) : list nat := seq 0 (length l).
Definition make_product (categories : list ProductCategory) (suppliers : list Supplier) (start index : Z)
  : prog W exn Product :=
  let g := "products" in
  let! category := choice g (positions categories) in
  let! supplier := choice g (positions suppliers) in
  let! c := uniform g 3 250 in
  let cost := round_currency (at_places 2 c) in
  let! markup := uniform g (lit 7 5) (lit 16 5) in
  let unit := round_currency (dec cost * dec_of_float markup) in
  let! launch := random_datetime_between g start window_end in
  let! name := fake g "catch_phrase" in
  let! text := fake g "paragraph" in
  let! weight := uniform g (lit 1 20) 15 in
  let! active := chance g (pc 92) in
  ret {| sku := "SKU-" ++ zero_pad 6 index; product_name := title name; description := text; unit_price := unit;
         cost_price := cost; weight_kg := round_places 3 weight; product_active := active; launch_date := date_of launch;
         product_created_at := launch; product_category := category; product_supplier := supplier |}.
Definition generate_products (count : Z) (categories : list ProductCategory) (suppliers : list Supplier)
  : prog W exn (list Product) :=
  let! _ := lift (check_count count) in
  if negb (non_empty categories) then throw (ValueError "ProductGenerator requires at least one category")
  else if negb (non_empty suppliers) then throw (ValueError "ProductGenerator requires at least one supplier")
  else
    let! start := lift (window_start (365 * 3)) in
    mapM (make_product categories suppliers start) (range 1 (Z.to_nat count)).

(** ** [inventory.py] *)
Definition make_inventory (products : list Product) (start : Z) (pair : nat * nat) : prog W exn Inventory :=
  let g := "inventory" in
  let high_demand_cutoff := Z.max 1 (py_round (fmul (f_of_Z (Z.of_nat (length products))) (lit 2 10))) in
  let multiplier := quantity_on_hand_multiplier (Z.of_nat (fst pair) <? high_demand_cutoff) in
  let! base := randint g 10 100 in
  let scaled := fmul (f_of_Z base) multiplier in
  let level := Z.max 1 (py_round (fmul scaled REORDER_LEVEL_RATIO)) in
  let! below_reorder := chance g (pc 15) in
  let! on_hand := (if below_reorder : bool then randint g 0 (Z.max (level - 1) 0) else ret (py_round scaled + level)) in
  let! restocked := random_datetime_between g start window_end in
  ret {| quantity_on_hand := on_hand; reorder_level := level; last_restocked_at := restocked; inv_product := fst pair;
         inv_warehouse := snd pair |}.
Definition generate_inventory (count : Z) (products : list Product) (warehouses : list Warehouse)
  : prog W exn (list Inventory) :=
  let! _ := lift (check_count count) in
  if negb (non_empty products && non_empty warehouses)
  then throw (ValueError "InventoryGenerator requires at least one product and one warehouse")
  else
    let np := Z.of_nat (length products) in let nw := Z.of_nat (length warehouses) in
    if np * nw <? count
    then throw (ValueError ("count=" ++ show_Z count ++ " exceeds the " ++ show_Z (np * nw) ++
                             " possible (product, warehouse) combinations"))
    else
      let coverage := warehouse_coverage_ratio config np nw in
      let! start := lift (shift_seconds window_end (- (30 * DAY))) in
      let! candidates := shuffle "inventory" (list_prod (positions products) (positions warehouses)) in
      let! stocked := mapM (fun pair => let! b := should_stock coverage in ret (pair, b)) candidates in
      let accepted := map fst (List.filter snd stocked) in
      let rejected := map fst (List.filter (fun x => negb (snd x)) stocked) in
      let accepted := (if (length accepted <? Z.to_nat count)%nat
                       then accepted ++ take (Z.to_nat count - length accepted) rejected else accepted)%list in
      mapM (make_inventory products start) (take (Z.to_nat count) accepted).

(** ** [customers.py] *)
Definition GENDER_WEIGHTS : list (option string * Q) :=
  [(Some "female", pc 42); (Some "male", pc 42); (Some "non-binary", pc 3); (None, pc 13)].
Definition make_customer (index : Z) : prog W exn Customer :=
  let g := "customers" in
  let start := date_ordinal (business_start_date config) in let end_ := date_ordinal (business_end_date config) in
  let! signup := random_date_between g start end_ in
  let! first := fake g "first_name" in
  let! last := fake g "last_name" in
  let! mail := fake g "unique.email" in
  let! tel := fake g "phone_number" in
  let! dob := fake_date_of_birth g in
  let! gen := weighted_pick g GENDER_WEIGHTS in
  let! segment := assign_segment in
  let! channel := assign_signup_channel in
  let! active := is_active signup end_ in
  ret {| customer_number := "CUST-" ++ zero_pad 8 index; first_name := first; last_name := last; email := mail;
         phone := tel; date_of_birth := dob; gender := gen; customer_segment := segment; signup_date := signup;
         signup_channel := channel; customer_active := active |}.
Definition generate_customers (count : Z) : prog W exn (list Customer) :=
  let! _ := lift (check_count count) in mapM make_customer (range 1 (Z.to_nat count)).

Definition build_address (customer : nat) (type : AddressType) (dflt : bool) : prog W exn CustomerAddress :=
  let g := "customer_addresses" in
  let! l1 := fake g "street_address" in
  let! second := chance g (pc 25) in
  let! l2 := maybe second (fake g "secondary_address") in
  let! city := fake g "city" in
  let! state := fake g "state_abbr" in
  let! postal := fake g "postcode" in
  ret {| address_type := type; is_default := dflt; line1 := l1; line2 := l2; address_city := city; address_state := state;
         postal_code := postal; address_country := "US"; address_customer := customer |}.
Fixpoint extra_addresses (n : nat) (customers : list Customer) (default_seen : list (nat * AddressType))
  : prog W exn (list CustomerAddress) :=
  match n with
  | O => ret []
  | S n' =>
      let! customer := choice "customer_addresses" (positions customers) in
      let! type := choice "customer_addresses" [BILLING; SHIPPING] in
      let dflt := bool_decide ((customer, type) ∉ default_seen) in
      let default_seen := if dflt then (customer, type) :: default_seen else default_seen in
      let! a := build_address customer type dflt in
      let! rest := extra_addresses n' customers default_seen in
      ret (a :: rest)
  end.
Definition generate_addresses (count : Z) (customers : list Customer) : prog W exn (list CustomerAddress) :=
  let! _ := lift (check_count count) in
  if negb (non_empty customers) then throw (ValueError "CustomerAddressGenerator requires at least one customer")
  else
    let base := take (Z.to_nat count) (positions customers) in
    let! first := mapM (fun c => build_address c SHIPPING true) base in
    let! rest := extra_addresses (Z.to_nat count - length base) customers (map (fun c => (c, SHIPPING)) base) in
    ret (first ++ rest)%list.

(** ** [promotions.py] *)
Definition GENERIC_NAMES : list string :=
  ["Flash Sale"; "Clearance Event"; "Loyalty Rewards"; "New Customer Discount"; "Weekend Special"; "Spring Refresh";
   "Anniversary Sale"; "Bundle Savings"].
Definition DISCOUNT_TYPE_WEIGHTS : list (DiscountType * Q) := [(PERCENTAGE, pc 65); (FIXED_AMOUNT, pc 35)].
Definition business_start : Z := combine (date_ordinal (business_start_date config)) 0 0 0.
Definition anchored (y : Z) : outcome exn (list (string * (Z * Z))) :=
  let business_end := combine (date_ordinal (business_end_date config)) 23 59 59 in
  let? campaigns := standard_campaigns (seasonal_multipliers config) y in
  Ret (omap (fun c =>
    let clamped_start := Z.max (combine (ca_start c) 0 0 0) business_start in
    let clamped_end := Z.min (combine (ca_end c) 23 59 59) business_end in
    if clamped_end <=? clamped_start then None else Some (ca_name c, (clamped_start, clamped_end))) campaigns).
Definition calendar_anchored_windows : outcome exn (list (string * (Z * Z))) :=
  let first := year (business_start_date config) in
  oflatmap anchored (range first (Z.to_nat (year (business_end_date config) + 1 - first))).
Definition random_window_start : prog W exn Z :=
  let business_end := combine (date_ordinal (business_end_date config)) 0 0 0 in
  let span_seconds := Z.max (business_end - business_start - 21 * DAY) 0 in
  let! offset := (if 0 <? span_seconds then randint "promotions" 0 span_seconds else ret 0) in
  lift (shift_seconds business_start offset).
Definition build_promotion (sequence : Z) (name : string) (starts ends : Z) : prog W exn Promotion :=
  let g := "promotions" in
  let! type := weighted_pick g DISCOUNT_TYPE_WEIGHTS in
  let! x := (match type with PERCENTAGE => uniform g 10 40 | FIXED_AMOUNT => uniform g 5 50 end) in
  ret {| promotion_code := "PROMO" ++ zero_pad 4 sequence; promotion_name := name; discount_type := type;
         discount_value := round_currency (dec_of_float x); starts_at := starts; ends_at := ends |}.
Definition generic_promotion (sequence : Z) : prog W exn Promotion :=
  let! name := choice "promotions" GENERIC_NAMES in
  let! start := random_window_start in
  let! days := randint "promotions" 3 21 in
  let! end_ := lift (shift_seconds start (days * DAY)) in
  build_promotion sequence name start end_.
Definition generate_promotions (count : Z) : prog W exn (list Promotion) :=
  let! _ := lift (check_count count) in
  let! windows := lift calendar_anchored_windows in
  let anchored := take (Z.to_nat count) windows in
  let! first := mapM (fun '(i, (name, (starts, ends))) => build_promotion i name starts ends)
                  (zip (range 1 (length anchored)) anchored) in
  let! rest := mapM generic_promotion (range (1 + Z.of_nat (length anchored)) (Z.to_nat count - length anchored)) in
  ret (first ++ rest)%list.
End Catalog.
