(* ===== verification/SeedOrders.v ===== *)
(** * The seeding engine: orders and what follows from them

    [OrderGenerator], [OrderItemGenerator], [PaymentGenerator], [ShipmentGenerator],
    [ProductReviewGenerator] and [ReturnGenerator]. *)
From S2P Require Import Prelude PyFloat FloatSum PyStr Models NluTime SeedRandom SeedConfig SeedModels SeedRules SeedCatalog.
#[local] Open Scope string_scope.
#[local] Open Scope Z_scope.

(** A planned line: the product's position, the quantity and the unit price in cents. *)
Record PlannedItem := { pl_product : nat; pl_quantity : Z; pl_price : Z }.
Definition QUANTITY_WEIGHTS : list (Z * Q) := pct [(1, 55); (2, 22); (3, 12); (4, 7); (5, 4)].
(** [pool.index(x)] and [pool.pop(k)] *)
Fixpoint index_of (x : nat) (l : list nat) : option nat :=
  match l with
  | [] => None
  | y :: l' => if (x =? y)%nat then Some O else option_map S (index_of x l')
  end.
Definition pop {A} (k : nat) (l : list A) : list A := (take k l ++ drop (S k) l)%list.

(** The date of the proleptic Gregorian ordinal [o], as [date.fromordinal] computes its year. *)
Definition year_of (o : Z) : Z :=
  let n := o - 1 in
  let n400 := n / 146097 in let n := n mod 146097 in
  let n100 := n / 36524 in let n := n mod 36524 in
  let n4 := n / 1461 in let n := n mod 1461 in
  let n1 := n / 365 in
  let y := n400 * 400 + 1 + n100 * 100 + n4 * 4 + n1 in
  if (n1 =? 4) || (n100 =? 4) then y - 1 else y.

Section Orders.
Context {W : Type} `{Randomness W} `{Faker W} (config : SeedConfig).

(** ** [orders.py] *)
Fixpoint pick_from (n : nat) (pool : list nat) (weights : list Q) : prog W exn (list nat) :=
  match n with
  | O => ret []
  | S n' =>
      let! product := weighted_choice "orders" pool weights in
      let! position := lift (match index_of product pool with
                             | Some k => Ret k
                             | None => Raise (ValueError "is not in list")
                             end) in
      let! rest := pick_from n' (pop position pool) (pop position weights) in
      ret (product :: rest)
  end.
Definition pick_products (item_count : Z) (products : list Product) : prog W exn (list nat) :=
  let weights := map (fun i => fdiv 1 (inject_Z (Z.of_nat i + 1))) (positions products) in
  pick_from (Nat.min (Z.to_nat item_count) (length products)) (positions products) weights.
Definition plan_line (multiplier : Q) (products : list Product) (position : nat) : prog W exn PlannedItem :=
  let! base := weighted_pick "orders" QUANTITY_WEIGHTS in
  let qty := Z.max 1 (py_round (fmul (f_of_Z base) multiplier)) in
  let! x := uniform "orders" (pc 92) (pc 105) in
  let drift := at_places 4 x in
  let! product := lift (match products !! position with
                        | Some p => Ret p
                        | None => Raise (OtherException "IndexError" "list index out of range")
                        end) in
  ret {| pl_product := position; pl_quantity := qty; pl_price := round_currency (dec (unit_price product) * drift) |}.
Definition plan_items (products : list Product) (segment : CustomerSegment) : prog W exn (list PlannedItem) :=
  let! n := sample_item_count config in
  let item_count := Z.min n (Z.of_nat (length products)) in
  let! chosen := pick_products item_count products in
  mapM (plan_line (order_value_multiplier segment) products) chosen.
(** [sum(price * qty ...)] *)
Definition planned_sum (items : list PlannedItem) : Q :=
  fold_left (fun acc i => acc + dec (pl_price i) * inject_Z (pl_quantity i))%Q items 0%Q.

Definition select_promotion (promotions : list Promotion) (day : Z) : prog W exn (option (nat * Promotion)) :=
  if negb (non_empty promotions) then ret None
  else
    let! applies := applies_promotion config in
    if negb applies then ret None
    else
      let active := List.filter (fun ip => is_promotion_active (date_of (starts_at (snd ip))) (date_of (ends_at (snd ip))) day)
                      (zip (positions promotions) promotions) in
      match active with
      | [] => ret None
      | _ => let! p := choice "orders" active in ret (Some p)
      end.
Definition compute_discount (promotion : option Promotion) (subtotal : Z) : Z :=
  match promotion with
  | None => 0
  | Some p =>
      match discount_type p with
      | PERCENTAGE => percentage_of (dec subtotal) (dec_of_float (fl (dec (discount_value p))))
      | FIXED_AMOUNT => round_currency (dec (Z.min (discount_value p) subtotal))
      end
  end.
Definition make_order (customers : list Customer) (products : list Product) (promotions : list Promotion) (index : Z)
  : prog W exn (Order * list PlannedItem) :=
  let g := "orders" in
  let weights := map (fun c => order_frequency_multiplier (customer_segment c)) customers in
  let! ' (position, customer) := weighted_choice g (zip (positions customers) customers) weights in
  let! day := sample_order_date config (business_start_date config) (business_end_date config) in
  let! status := assign_order_status in
  let! planned := plan_items products (customer_segment customer) in
  let subtotal := round_currency (planned_sum planned) in
  let! promotion := select_promotion promotions day in
  let discount := compute_discount (option_map snd promotion) subtotal in
  let tax := round_currency ((dec subtotal - dec discount) * dec_of_float TAX_RATE) in
  let shipping := shipping_fee subtotal in
  let total := round_currency (dec subtotal - dec discount + dec tax + dec shipping) in
  let! hour := randint g 6 22 in
  let! channel := assign_sales_channel in
  let! l1 := fake g "street_address" in
  let! city := fake g "city" in
  let! state := fake g "state_abbr" in
  let! postal := fake g "postcode" in
  ret ({| order_number := "ORD-" ++ show_Z (year_of day) ++ "-" ++ zero_pad 6 index;
          order_date := combine day hour 0 0; order_status := status; sales_channel := channel;
          ship_line1 := l1; ship_city := city; ship_state := state; ship_postal := postal;
          subtotal_amount := subtotal; discount_amount := discount; tax_amount := tax; shipping_amount := shipping;
          total_amount := total; currency_code := currency config; order_customer := position;
          order_promotion := option_map fst promotion |}, planned).
(** The orders, and [planned_items_by_order]: the plan of the order at the same position. *)
Definition generate_orders (count : Z) (customers : list Customer) (promotions : list Promotion) (products : list Product)
  : prog W exn (list (Order * list PlannedItem)) :=
  let! _ := lift (check_count count) in
  if negb (non_empty customers) then throw (ValueError "OrderGenerator requires at least one customer")
  else if negb (non_empty products) then throw (ValueError "OrderGenerator requires at least one product")
  else mapM (make_order customers products promotions) (range 1 (Z.to_nat count)).

Definition make_item (products : list Product) (order : nat) (p : PlannedItem) : outcome exn (list OrderItem) :=
  if (pl_product p <? length products)%nat
  then Ret [{| quantity := pl_quantity p; item_unit_price := pl_price p; item_discount := 0;
               line_total := round_currency (dec (pl_price p) * inject_Z (pl_quantity p));
               item_order := order; item_product := pl_product p |}]
  else Raise (ValueError "OrderGenerator planned a product that is not in the injected products list").
Definition generate_items (count : Z) (products : list Product) (plans : list (list PlannedItem))
  : outcome exn (list OrderItem) :=
  let? _ := check_count count in
  oflatmap (fun '(order, plan) => oflatmap (make_item products order) plan) (zip (positions plans) plans).

(** ** [payments.py] *)
Definition successful (s : OrderStatus) : bool :=
  match s with CONFIRMED | SHIPPED | DELIVERED | RETURNED => true | _ => false end.
Definition draw_success (is_cancelled : bool) : prog W exn bool :=
  let! succeeded := payment_succeeds config in
  if is_cancelled && succeeded then chance "payments" (pc 30) else ret succeeded.
Definition build_payment (order : nat) (o : Order) (m : PaymentMethod) (s : PaymentStatus) (paid : option Z)
    (sequence : Z) : Payment :=
  {| payment_method := m; payment_status := s; amount := total_amount o;
     transaction_reference := "ch_" ++ zero_pad 4 (seed config + 11) ++ zero_pad 8 sequence; paid_at := paid;
     payment_order := order |}.
(** [while not succeeded and retries_remaining > 0]: the number of failed attempts and the last draw. *)
Fixpoint retry_payment (retries : nat) (is_cancelled succeeded : bool) : prog W exn (nat * bool) :=
  match retries with
  | S n =>
      if succeeded then ret (O, succeeded)
      else let! s := draw_success is_cancelled in
           let! ' (k, s') := retry_payment n is_cancelled s in
           ret (S k, s')
  | O => ret (O, succeeded)
  end.
Definition payments_for_order (order : nat) (o : Order) (sequence : Z) : prog W exn (list Payment) :=
  let st := order_status o in
  if bool_decide (st = O_PENDING)
  then let! m := assign_payment_method in ret [build_payment order o m PAY_PENDING None (sequence + 1)]
  else
    let must_succeed := successful st in
    let is_cancelled := bool_decide (st = CANCELLED) in
    let! m := assign_payment_method in
    let! first := draw_success is_cancelled in
    let! retries := (if first then ret 0 else retry_count_on_failure) in
    let! ' (failures, succeeded) := retry_payment (Z.to_nat retries) is_cancelled first in
    let attempts := map (fun k => build_payment order o m PAY_FAILED None (sequence + 1 + Z.of_nat k)) (seq 0 failures) in
    let next := sequence + 1 + Z.of_nat failures in
    if (succeeded || must_succeed) : bool then
      let! minutes := randint "payments" 1 180 in
      let! paid := lift (shift_seconds (order_date o) (minutes * 60)) in
      ret (attempts ++ [build_payment order o m CAPTURED (Some paid) next])%list
    else ret (attempts ++ [build_payment order o m PAY_FAILED None next])%list.
Fixpoint payments_from (order : nat) (orders : list Order) (sequence : Z) : prog W exn (list Payment) :=
  match orders with
  | [] => ret []
  | o :: orders' =>
      let! ps := payments_for_order order o sequence in
      let! rest := payments_from (S order) orders' (sequence + Z.of_nat (length ps)) in
      ret (ps ++ rest)%list
  end.
Definition generate_payments (count : Z) (orders : list Order) : prog W exn (list Payment) :=
  let! _ := lift (check_count count) in payments_from 0 orders 0.

(** ** [shipments.py] *)
Definition resolve_status (s : OrderStatus) : prog W exn ShipmentStatus :=
  match s with
  | DELIVERED | RETURNED => ret S_DELIVERED
  | CONFIRMED =>
      let! drawn := assign_shipment_status in
      ret (match drawn with S_PENDING | S_FAILED => drawn | _ => S_PENDING end)
  | _ =>
      let! drawn := assign_shipment_status in
      ret (match drawn with S_DELIVERED => IN_TRANSIT | _ => drawn end)
  end.
Definition build_shipment (warehouses : list Warehouse) (order : nat) (o : Order) (sequence : Z) : prog W exn Shipment :=
  let! status := resolve_status (order_status o) in
  let! c := assign_carrier in
  let! shipped := (if bool_decide (status = S_PENDING) then ret None
                   else let! d := processing_delay_days in
                        let! t := lift (shift_seconds (order_date o) (d * DAY)) in ret (Some t)) in
  let! delivered := (if bool_decide (status = S_DELIVERED)
                     then let! d := transit_delay_days c in
                          let! t := lift (shift_seconds (default (order_date o) shipped) (d * DAY)) in ret (Some t)
                     else ret None) in
  let! w := choice "shipments" (positions warehouses) in
  ret {| carrier := c; tracking_number := "1Z" ++ zero_pad 4 (seed config + 12) ++ zero_pad 10 sequence;
         shipment_status := status; shipped_at := shipped; delivered_at := delivered; shipment_order := order;
         shipment_warehouse := w |}.
Fixpoint shipments_from (warehouses : list Warehouse) (order : nat) (orders : list Order) (sequence : Z)
  : prog W exn (list Shipment) :=
  match orders with
  | [] => ret []
  | o :: orders' =>
      if successful (order_status o) then
        let! s := build_shipment warehouses order o (sequence + 1) in
        let! rest := shipments_from warehouses (S order) orders' (sequence + 1) in
        ret (s :: rest)
      else shipments_from warehouses (S order) orders' sequence
  end.
Definition generate_shipments (count : Z) (orders : list Order) (warehouses : list Warehouse) : prog W exn (list Shipment) :=
  let! _ := lift (check_count count) in
  if negb (non_empty warehouses) then throw (ValueError "ShipmentGenerator requires at least one warehouse")
  else shipments_from warehouses 0 orders 0.

(** [_delivered_at_by_order], as a function of the order. *)
Definition later (existing : option Z) (t : Z) : option Z :=
  match existing with Some e => if e <? t then Some t else Some e | None => Some t end.
Definition delivered_at_by_order (shipments : list Shipment) (order : nat) : option Z :=
  fold_left (fun acc s => match delivered_at s with
                          | Some t => if (shipment_order s =? order)%nat then later acc t else acc
                          | None => acc
                          end) shipments None.
(** [_captured_by_order] *)
Definition captured_by_order (payments : list Payment) (order : nat) : bool :=
  existsb (fun p => (payment_order p =? order)%nat && bool_decide (payment_status p = CAPTURED)) payments.

(** ** [reviews.py] *)
Definition REVIEW_CONTENT (r : Z) : list (string * string) :=
  match r with
  | 5 => [("Excellent!", "Exceeded my expectations. Works exactly as described and arrived quickly.");
          ("Love it", "Best purchase I've made in a while. Highly recommend to anyone considering it.");
          ("Perfect", "Exactly what I needed. Great quality for the price.")]
  | 4 => [("Very good", "Solid product, does what it says. Minor nitpicks but overall happy.");
          ("Great value", "Good quality for the price. Would buy again.");
          ("Happy with it", "Works well — a couple of small issues but nothing major.")]
  | 3 => [("It's okay", "Does the job but nothing special. Average quality.");
          ("Decent", "Not bad, not great. Meets basic expectations.");
          ("Mixed feelings", "Some things I like, some I don't. Middle of the road.")]
  | 2 => [("Disappointed", "Not what I expected. Quality feels below average.");
          ("Below expectations", "Had some issues out of the box. Wouldn't recommend.")]
  | 1 => [("Not satisfied", "Arrived damaged and doesn't work as described.");
          ("Would not recommend", "Poor quality — broke within days of use.")]
  | _ => []
  end.
(** The loop of both generators: the items with their positions and orders. *)
Definition review_for (orders : list Order) (delivered : nat -> option Z) (position : nat) (item : OrderItem)
  : prog W exn (option ProductReview) :=
  match orders !! item_order item with
  | None => ret None
  | Some o =>
      if negb (bool_decide (order_status o = DELIVERED)) then ret None
      else match delivered (item_order item) with
           | None => ret None
           | Some t =>
               let! eligible := is_eligible_for_review config true in
               if negb eligible then ret None
               else
                 let! r := assign_rating in
                 let! ' (title, text) := choice "reviews" (REVIEW_CONTENT r) in
                 let! d := review_delay_days in
                 let! at_ := lift (shift_seconds t (d * DAY)) in
                 ret (Some {| rating := r; review_title := title; review_text := text; is_verified_purchase := true;
                              review_date := at_; review_product := item_product item;
                              review_customer := order_customer o; review_item := position |})
           end
  end.
Definition generate_reviews (count : Z) (orders : list Order) (items : list OrderItem) (shipments : list Shipment)
  : prog W exn (list ProductReview) :=
  let! _ := lift (check_count count) in
  let! rs := mapM (fun '(i, item) => review_for orders (delivered_at_by_order shipments) i item) (zip (positions items) items) in
  ret (omap id rs).

(** ** [returns.py] *)
Definition terminal (s : ReturnStatus) : bool := match s with REQUESTED => false | _ => true end.
Definition refundable (s : ReturnStatus) : bool := match s with REFUNDED | COMPLETED => true | _ => false end.
Definition return_for (orders : list Order) (delivered : nat -> option Z) (captured : nat -> bool) (position : nat)
    (item : OrderItem) : prog W exn (option Return) :=
  match orders !! item_order item, delivered (item_order item) with
  | Some o, Some t =>
      let! eligible := is_eligible_for_return config (order_status o) in
      if negb eligible then ret None
      else
        let! d := randint "returns" 1 (RETURN_WINDOW_DAYS + 10) in
        let! requested := lift (shift_seconds t (d * DAY)) in
        let window_open := is_return_window_open ((requested - t) / DAY) in
        let! status := assign_return_status window_open (captured (item_order item)) in
        let! qty := randint "returns" 1 (quantity item) in
        let! resolved := (if terminal status
                          then let! k := randint "returns" 1 10 in
                               let! u := lift (shift_seconds requested (k * DAY)) in ret (Some u)
                          else ret None) in
        let refund := if refundable status then Some (round_currency (dec (item_unit_price item) * inject_Z qty)) else None in
        let! reason := assign_return_reason in
        ret (Some {| return_reason := reason; return_status := status; quantity_returned := qty; refund_amount := refund;
                     requested_at := requested; resolved_at := resolved; return_item := position |})
  | _, _ => ret None
  end.
Definition generate_returns (count : Z) (orders : list Order) (items : list OrderItem) (shipments : list Shipment)
    (payments : list Payment) : prog W exn (list Return) :=
  let! _ := lift (check_count count) in
  let! rs := mapM (fun '(i, item) => return_for orders (delivered_at_by_order shipments) (captured_by_order payments) i item)
               (zip (positions items) items) in
  ret (omap id rs).
End Orders.
