(* ===== verification/SeedRun.v ===== *)
(** * The seeding engine: the run, its report and the dataset's validation

    [SeedOrchestrator.run], [GenerationReport.from_results] and [DatasetValidator]
    ([querymind.seeds.generator], [.report]). *)
From S2P Require Import Prelude PyFloat FloatSum PyStr Models NluTime SeedRandom SeedConfig SeedModels SeedRules SeedCatalog SeedOrders.
#[local] Open Scope string_scope.
#[local] Open Scope Z_scope.

(** One call of [TransactionRunner.persist]. *)
Inductive Batch :=
| B_suppliers (l : list Supplier) | B_warehouses (l : list Warehouse) | B_categories (l : list ProductCategory)
| B_products (l : list Product) | B_inventory (l : list Inventory) | B_customers (l : list Customer)
| B_addresses (l : list CustomerAddress) | B_promotions (l : list Promotion) | B_orders (l : list Order)
| B_items (l : list OrderItem) | B_payments (l : list Payment) | B_shipments (l : list Shipment)
| B_reviews (l : list ProductReview) | B_returns (l : list Return).
(** [AsyncSessionTransactionRunner.persist] over a database session: one commit a stage. *)
Class DbSession (W : Type) := {
  add_all : Batch -> prog W exn unit; flush : prog W exn unit; commit : prog W exn unit }.
Definition persist {W} `{DbSession W} (records : Batch) : prog W exn unit :=
  let! _ := add_all records in let! _ := flush in commit.
Record Dataset := {
  suppliers : list Supplier; warehouses : list Warehouse; categories : list ProductCategory; products : list Product;
  inventory : list Inventory; customers : list Customer; addresses : list CustomerAddress; promotions : list Promotion;
  orders : list Order; items : list OrderItem; payments : list Payment; shipments : list Shipment;
  reviews : list ProductReview; returns : list Return }.

(** ** [GenerationReport.from_results] *)
Record GenerationReport := {
  rep_scenario_name : string; rep_seed : Z; row_counts : list (string * Z); total_revenue : Z; average_order_value : Z; rep_return_rate : Q; rep_review_rate : Q;
  inventory_coverage : Q; promotion_usage_rate : Q; payment_success_rate : Q;
  generation_time_seconds : Q; persist_time_seconds : Q }.
Definition len {A} (l : list A) : Z := Z.of_nat (length l).
Definition ratio (a b : Z) : Q := if b =? 0 then 0%Q else fdiv (inject_Z a) (inject_Z b).
Definition row_numbers (d : Dataset) : list Z :=
  [len (suppliers d); len (warehouses d); len (categories d); len (products d); len (inventory d); len (customers d);
   len (addresses d); len (promotions d); len (orders d); len (items d); len (payments d); len (shipments d);
   len (reviews d); len (returns d)].
Definition REPORT_FIELDS : list string :=
  ["suppliers"; "warehouses"; "product_categories"; "products"; "inventory"; "customers"; "customer_addresses";
   "promotions"; "orders"; "order_items"; "payments"; "shipments"; "reviews"; "returns"].
Definition order_of (d : Dataset) (i : OrderItem) : option Order := orders d !! item_order i.
Definition has_status (ss : list OrderStatus) (o : option Order) : bool :=
  match o with Some o => existsb (fun s => bool_decide (order_status o = s)) ss | None => false end.
Definition total_of (os : list Order) : Z :=
  round_currency (fold_left (fun acc o => acc + dec (total_amount o))%Q os 0%Q).
Definition from_results (scenario : string) (seed_ : Z) (d : Dataset) (generation persisting : Q) : GenerationReport :=
  let delivered_item_count := len (List.filter (fun i => has_status [DELIVERED] (order_of d i)) (items d)) in
  let revenue := total_of (orders d) in
  {| rep_scenario_name := scenario; rep_seed := seed_; row_counts := zip REPORT_FIELDS (row_numbers d); total_revenue := revenue;
     average_order_value := if len (orders d) =? 0 then 0
                            else round_currency (dec revenue / inject_Z (len (orders d)));
     rep_return_rate := ratio (len (returns d)) delivered_item_count;
     rep_review_rate := ratio (len (reviews d)) delivered_item_count;
     inventory_coverage := ratio (len (inventory d)) (len (products d) * len (warehouses d));
     promotion_usage_rate := ratio (len (List.filter (fun o => is_some (order_promotion o)) (orders d))) (len (orders d));
     payment_success_rate := ratio (len (List.filter (fun p => bool_decide (payment_status p = CAPTURED)) (payments d)))
                               (len (payments d));
     generation_time_seconds := generation; persist_time_seconds := persisting |}.

(** ** [DatasetValidator]: each query over the persisted rows *)
Record ValidationCheck := { vc_name : string; passed : bool; detail : string }.
Definition count_if {A} (p : A -> bool) (l : list A) : Z := len (List.filter p l).
Definition zero_check (name : string) (n : Z) (what : string) : ValidationCheck :=
  {| vc_name := name; passed := n =? 0; detail := show_Z n ++ what |}.
Definition TABLES : list string :=
  ["suppliers"; "warehouses"; "product_categories"; "products"; "inventory"; "customers"; "customer_addresses";
   "promotions"; "orders"; "order_items"; "payments"; "shipments"; "product_reviews"; "returns"].
Definition table_counts (d : Dataset) : list (string * Z) := zip TABLES (row_numbers d).
Definition check_row_counts (d : Dataset) : ValidationCheck :=
  {| vc_name := "Row counts (non-zero)"; passed := forallb (fun kv => 0 <? snd kv) (table_counts d);
     detail := join ", " (map (fun kv => fst kv ++ "=" ++ show_Z (snd kv)) (table_counts d)) |}.
Definition check_no_orphan_orders (d : Dataset) : ValidationCheck :=
  zero_check "No orphan orders (customer_id)"
    (count_if (fun o => negb (is_some (customers d !! order_customer o))) (orders d)) " orphaned rows".
Definition check_no_orphan_order_items (d : Dataset) : ValidationCheck :=
  zero_check "No orphan order_items (order_id, product_id)"
    (count_if (fun i => negb (is_some (order_of d i)) || negb (is_some (products d !! item_product i))) (items d))
    " orphaned rows".
(** [SUM(line_total)] of the items of the order at position [k]. *)
Definition items_total (d : Dataset) (k : nat) : Z :=
  fold_right Z.add 0 (map line_total (List.filter (fun i => item_order i =? k)%nat (items d))).
Definition check_order_totals (d : Dataset) : ValidationCheck :=
  zero_check "Order totals correct (subtotal=SUM(items), total=subtotal-discount+tax+shipping)"
    (count_if (fun '(k, o) =>
       negb (subtotal_amount o =? items_total d k) ||
       negb (total_amount o =? subtotal_amount o - discount_amount o + tax_amount o + shipping_amount o))
      (zip (positions (orders d)) (orders d))) " mismatched orders".
Definition check_payment_amounts (d : Dataset) : ValidationCheck :=
  zero_check "Payment amounts match their order's total"
    (count_if (fun p => match orders d !! payment_order p with
                        | Some o => negb (amount p =? total_amount o)
                        | None => false
                        end) (payments d)) " mismatched payments".
Definition check_inventory_non_negative (d : Dataset) : ValidationCheck :=
  zero_check "Inventory quantities never negative" (count_if (fun i => quantity_on_hand i <? 0) (inventory d))
    " negative rows".
(** The order of a review or return, through its item; the row drops out of the join without one. *)
Definition order_through (d : Dataset) (item : nat) : option Order := items d !! item ≫= order_of d.
Definition check_review_eligibility (d : Dataset) : ValidationCheck :=
  let wrong_status := count_if (fun r => match order_through d (review_item r) with
                                         | Some o => negb (bool_decide (order_status o = DELIVERED))
                                         | None => false
                                         end) (reviews d) in
  let before_delivery := count_if (fun '(r, s) => match items d !! review_item r, delivered_at s with
                                                  | Some i, Some t => (shipment_order s =? item_order i)%nat && (review_date r <=? t)
                                                  | _, _ => false
                                                  end) (list_prod (reviews d) (shipments d)) in
  {| vc_name := "Review eligibility (delivered orders only, dated after delivery)";
     passed := (wrong_status =? 0) && (before_delivery =? 0);
     detail := show_Z wrong_status ++ " reviews on non-delivered orders, " ++ show_Z before_delivery
                 ++ " dated before/at delivery" |}.
Definition check_return_eligibility (d : Dataset) : ValidationCheck :=
  zero_check "Return eligibility (delivered/returned orders only)"
    (count_if (fun r => match order_through d (return_item r) with
                        | Some o => negb (has_status [DELIVERED; RETURNED] (Some o))
                        | None => false
                        end) (returns d)) " ineligible returns".
Definition validate (d : Dataset) : list ValidationCheck :=
  [check_row_counts d; check_no_orphan_orders d; check_no_orphan_order_items d; check_order_totals d;
   check_payment_amounts d; check_inventory_non_negative d; check_review_eligibility d; check_return_eligibility d].
Definition all_passed (cs : list ValidationCheck) : bool := forallb passed cs.
Definition rule_line : string := String.concat "" (repeat "=" 60).
Definition summary (cs : list ValidationCheck) : string :=
  let line c := "[" ++ (if passed c then "PASS" else "FAIL") ++ "] " ++ vc_name c ++ ": " ++ detail c in
  let verdict := if all_passed cs then "ALL CHECKS PASSED" else "VALIDATION FAILED — see FAIL lines above" in
  join nl ([rule_line; "VALIDATION SUMMARY"; rule_line] ++ map line cs ++ [rule_line; verdict])%list.

(** ** [SeedOrchestrator.run] *)
Section Run.
Context {W : Type} `{Randomness W} `{Faker W} `{Clock W} (persist_records : Batch -> prog W exn unit).
Definition orchestrator_config (scenario : option ScenarioProfile) (c : SeedConfig) : SeedConfig :=
  match scenario with Some s => apply s c | None => c end.

Section Stages.
Context (config : SeedConfig).
(** One stage: generate, then persist and add the time it took. *)
Definition stage {A} (batch : list A -> Batch) (generate : prog W exn (list A)) (k : list A -> Q -> prog W exn (Dataset * Q))
    (persist_seconds : Q) : prog W exn (Dataset * Q) :=
  let! rows := generate in
  let! started := perf_counter in
  let! _ := persist_records (batch rows) in
  let! now := perf_counter in
  k rows (fadd persist_seconds (fsub now started)).
Definition run_stages : prog W exn (Dataset * Q) :=
  let sizes := dataset_size config in
  stage B_suppliers (generate_suppliers config (n_suppliers sizes)) (fun sups =>
  stage B_warehouses (generate_warehouses config (n_warehouses sizes)) (fun whs =>
  stage B_categories (generate_categories config (n_product_categories sizes)) (fun cats =>
  stage B_products (generate_products config (n_products sizes) cats sups) (fun prods =>
  stage B_inventory (generate_inventory config (n_inventory sizes) prods whs) (fun inv =>
  stage B_customers (generate_customers config (n_customers sizes)) (fun custs =>
  stage B_addresses (generate_addresses (customer_addresses sizes) custs) (fun addrs =>
  stage B_promotions (generate_promotions config (n_promotions sizes)) (fun proms =>
  fun seconds =>
    let! planned := generate_orders config (n_orders sizes) custs proms prods in
    stage B_orders (ret (map fst planned)) (fun ords =>
    stage B_items (lift (generate_items (order_items sizes) prods (map snd planned))) (fun its =>
    stage B_payments (generate_payments config (n_payments sizes) ords) (fun pays =>
    stage B_shipments (generate_shipments config (n_shipments sizes) ords whs) (fun ships =>
    stage B_reviews (generate_reviews config (n_product_reviews sizes) ords its ships) (fun revs =>
    stage B_returns (generate_returns config (n_returns sizes) ords its ships pays) (fun rets persist_seconds =>
      ret ({| suppliers := sups; warehouses := whs; categories := cats; products := prods; inventory := inv;
              customers := custs; addresses := addrs; promotions := proms; orders := ords; items := its;
              payments := pays; shipments := ships; reviews := revs; returns := rets |}, persist_seconds))))))) seconds)))))))) 0%Q.
End Stages.

Definition run (scenario : option ScenarioProfile) (config : SeedConfig) : prog W exn (GenerationReport * Dataset) :=
  let! generation_started := perf_counter in
  let! ' (d, persist_seconds) := run_stages (orchestrator_config scenario config) in
  let! now := perf_counter in
  let generation_seconds := fsub (fsub now generation_started) persist_seconds in
  let name := match scenario with Some s => sc_name s | None => "default" end in
  ret (from_results name (seed (orchestrator_config scenario config)) d generation_seconds persist_seconds, d).
End Run.
