(* ===== verification/SeedCatalogFacts.v ===== *)
(** * The seeding engine: what the catalog and customer generators return

    Every generator returns the rows it was asked for, inside the table constraints. *)
From S2P Require Import Prelude PyFloat FloatSum PyStr Models NluTime SeedRandom SeedConfig SeedModels SeedRules SeedCatalog.
#[local] Open Scope string_scope.
#[local] Open Scope Z_scope.

(** ** Constant weights *)
Lemma fl_pos q : (1 # 1024 <= q)%Q -> (0 < fl q)%Q.
Proof.
  intros Hq. apply Qlt_le_trans with (fl (1 # 1024)); [|by apply fl_mono]. by vm_compute.
Qed.
Ltac float_pos := apply fl_pos; discriminate.
Ltac weights_pos :=
  apply total_weight_pos; [apply is_float_fl|float_pos|repeat (apply List.Forall_cons; [apply fl_nonneg; discriminate|]); apply List.Forall_nil].
Ltac pick := apply total_weighted_pick; [discriminate|cbn [map snd]; weights_pos].

Section Rules.
Context {W : Type} `{Randomness W} (config : SeedConfig).
Lemma total_segment : total_prog assign_segment (fun _ => True).
Proof. eapply total_weaken; [unfold assign_segment; pick|done]. Qed.
Lemma total_signup_channel : total_prog assign_signup_channel (fun _ => True).
Proof. eapply total_weaken; [unfold assign_signup_channel; pick|done]. Qed.
Lemma total_is_active a b : total_prog (is_active a b) (fun _ => True).
Proof. eapply total_bind; [apply total_random|]. intros u _. by apply total_ret. Qed.
Lemma total_order_status : total_prog assign_order_status (fun _ => True).
Proof. eapply total_weaken; [unfold assign_order_status; pick|done]. Qed.
Lemma total_sales_channel : total_prog assign_sales_channel (fun _ => True).
Proof. eapply total_weaken; [unfold assign_sales_channel; pick|done]. Qed.
Lemma total_payment_method : total_prog assign_payment_method (fun _ => True).
Proof. eapply total_weaken; [unfold assign_payment_method; pick|done]. Qed.
Lemma total_carrier : total_prog assign_carrier (fun _ => True).
Proof. eapply total_weaken; [unfold assign_carrier; pick|done]. Qed.
Lemma total_shipment_status : total_prog assign_shipment_status (fun _ => True).
Proof. eapply total_weaken; [unfold assign_shipment_status; pick|done]. Qed.
Lemma total_rating : total_prog assign_rating (fun r => 1 <= r <= 5).
Proof.
  eapply total_weaken; [unfold assign_rating; pick|]. intros r Hr. cbn [RATING_WEIGHTS pct map fst snd] in Hr.
  repeat (apply elem_of_cons in Hr as [->|Hr]; [lia|]). by apply elem_of_nil in Hr.
Qed.
Lemma total_return_reason : total_prog assign_return_reason (fun _ => True).
Proof. eapply total_weaken; [unfold assign_return_reason; pick|done]. Qed.
End Rules.

(** ** A configuration the engine can run on *)
Record good_config (c : SeedConfig) : Prop := {
  gc_valid : valid_config c = true;
  gc_start : valid_pydate (business_start_date c) = true;
  gc_end : valid_pydate (business_end_date c) = true;
  gc_years : 20 <= year (business_start_date c) /\ year (business_end_date c) <= 9990;
  gc_products : n_products (dataset_size c) <= 2 ^ 53;
  gc_stock : n_inventory (dataset_size c) <= n_products (dataset_size c) * n_warehouses (dataset_size c);
  gc_seasons : Forall (fun kv => is_float (snd kv) /\ (0 < snd kv)%Q) (seasonal_multipliers c) }.

Lemma ordinal_bounds d : valid_pydate d = true ->
  365 * (year d - 1) + 1 <= date_ordinal d <= 365 * year d + year d / 4 - year d / 100 + year d / 400.
Proof.
  intros (Hy & Hm & Hd)%valid_date_spec. pose proof (ordinal_in_year _ _ _ Hm Hd) as Ho.
  pose proof (days_before_year_bounds _ Hy) as [Hb _]. pose proof (year_step (year d)) as Hs.
  unfold date_ordinal. split; [lia|]. etransitivity; [apply Ho|]. rewrite <- Hs. unfold days_before_year. cbv zeta.
  replace (year d + 1 - 1) with (year d) by lia. lia.
Qed.
Section Good.
Context (config : SeedConfig) (good : good_config config).
#[local] Abbreviation first_day := (date_ordinal (business_start_date config)).
#[local] Abbreviation last_day := (date_ordinal (business_end_date config)).
Lemma window_days : 6900 <= first_day /\ first_day < last_day /\ last_day <= MAX_ORDINAL - 400.
Proof using good.
  destruct good as [Hv Hs He [Hy1 Hy2] _ _ _]. pose proof (ordinal_bounds _ Hs). pose proof (ordinal_bounds _ He).
  unfold valid_config in Hv. rewrite !andb_true_iff in Hv. destruct Hv as [[_ Hlt%Z.ltb_lt] _].
  split; [lia|]. split; [done|]. unfold MAX_ORDINAL.
  assert (year (business_end_date config) / 4 - year (business_end_date config) / 100 + year (business_end_date config) / 400
          <= 2422 + 100) by (Z.to_euclidean_division_equations; lia). lia.
Qed.
Lemma sizes_positive : Forall (Z.lt 0) [n_customers (dataset_size config); n_suppliers (dataset_size config);
  n_warehouses (dataset_size config); n_product_categories (dataset_size config); n_products (dataset_size config);
  n_promotions (dataset_size config); n_orders (dataset_size config); n_payments (dataset_size config);
  n_shipments (dataset_size config); n_inventory (dataset_size config); n_product_reviews (dataset_size config);
  n_returns (dataset_size config)] /\ (0 < order_items_per_order_avg (dataset_size config))%Q /\
  (0 < customer_addresses_per_customer_avg (dataset_size config))%Q.
Proof using good.
  destruct good as [Hv _ _ _ _ _ _]. unfold valid_config, valid_sizes in Hv. rewrite !andb_true_iff in Hv.
  destruct Hv as [[[[[[[Hf H1%fltb_spec] H2%fltb_spec] _] _] _] _] _]. split; [|done].
  apply Forall_forall. intros n Hn. apply forallb_forall with (x := n) in Hf; [by apply Z.ltb_lt|]. by apply list_elem_of_In.
Qed.
Lemma window_start_Ret days : 0 <= days <= 365 * 15 ->
  window_start config (days) = Ret (window_end config - days * DAY) /\ DAY <= window_end config - days * DAY <= window_end config /\
  window_end config < (MAX_ORDINAL + 1) * DAY.
Proof using good.
  intros Hd. pose proof window_days as (H1 & H2 & H3). unfold window_start, window_end, combine, DAY in *.
  rewrite shift_seconds_Ret by (unfold DAY; lia). split; [f_equal; lia|]. lia.
Qed.
End Good.

Lemma check_count_Ret n : 0 <= n -> check_count n = Ret tt.
Proof. intros Hn. unfold check_count. by destruct (Z.ltb_spec n 0); [lia|]. Qed.
Lemma total_bind_lift {W A B} (o : outcome exn A) a (k : A -> prog W exn B) P : o = Ret a -> total_prog (k a) P ->
  total_prog (bind (lift o) k) P.
Proof. intros -> Hk. exact Hk. Qed.
Lemma total_counted {W A} n (k : prog W exn A) P : 0 <= n -> total_prog k P ->
  total_prog (let! _ := lift (check_count n) in k) P.
Proof. intros Hn Hk. apply (total_bind_lift _ tt); [by apply check_count_Ret|exact Hk]. Qed.
Lemma length_range a n : length (range a n) = n.
Proof. unfold range. by rewrite length_map, length_seq. Qed.
Lemma Forall2_right {A B} (P : B -> Prop) (l : list A) k : Forall2 (fun _ b => P b) l k -> Forall P k.
Proof. by induction 1; constructor. Qed.
(** [n] rows built one by one. *)
Lemma total_rows {W A B} (f : A -> prog W exn B) (P : B -> Prop) l n : length l = Z.to_nat n ->
  (forall x, x ∈ l -> total_prog (f x) P) -> total_prog (mapM f l) (fun k => length k = Z.to_nat n /\ Forall P k).
Proof.
  intros Hn Hf. eapply total_weaken; [apply total_mapM with (R := fun _ b => P b); exact Hf|].
  intros k Hk. split; [rewrite <- Hn; symmetry; by eapply Forall2_length|by eapply Forall2_right].
Qed.
Lemma app_str_inj_r s t u : s ++ t = s ++ u -> t = u.
Proof. induction s as [|c s IH]; [done|]. rewrite !app_str_cons. intros [= E]. auto. Qed.
(** Rows built one by one, each with a code of its own. *)
Lemma total_coded {W A B} (f : A -> prog W exn B) (P : B -> Prop) (code : B -> string) (mk : A -> string) l n :
  length l = Z.to_nat n -> NoDup (map mk l) ->
  (forall x, x ∈ l -> total_prog (f x) (fun b => P b /\ code b = mk x)) ->
  total_prog (mapM f l) (fun k => length k = Z.to_nat n /\ Forall P k /\ map code k = map mk l).
Proof.
  intros Hn Hnd Hf. eapply total_weaken; [apply total_mapM with (R := fun x b => P b /\ code b = mk x); exact Hf|].
  intros k Hk. split_and!; [rewrite <- Hn; symmetry; by eapply Forall2_length| |].
  - eapply Forall2_right. eapply Forall2_impl; [exact Hk|]. by intros x b [? _].
  - clear - Hk. induction Hk as [|x b l k [_ E] _ IH]; [done|]. cbn [map]. by rewrite E, IH.
Qed.
Lemma NoDup_map_in {A B} (g : A -> B) l : (forall x y, x ∈ l -> y ∈ l -> g x = g y -> x = y) -> NoDup l -> NoDup (map g l).
Proof.
  intros Hg Hl. induction Hl as [|x l Hx _ IH]; [constructor|]. cbn [map]. constructor.
  - intros (y & E & Hy)%list_elem_of_fmap. apply Hx. rewrite (Hg x y); [done|by left|by right|done].
  - apply IH. intros a b Ha Hb. apply Hg; by right.
Qed.
Lemma elem_of_range x a n : x ∈ range a n -> a <= x < a + Z.of_nat n.
Proof. unfold range. intros (i & <- & Hi)%list_elem_of_In%in_map_iff. apply in_seq in Hi. lia. Qed.
Lemma NoDup_range a n : NoDup (range a n).
Proof. unfold range. apply NoDup_map_in; [intros x y _ _; lia|apply NoDup_ListNoDup, seq_NoDup]. Qed.
Lemma codes_distinct prefix w a n : 0 <= a -> NoDup (map (fun i => prefix ++ zero_pad w i) (range a n)).
Proof.
  intros Ha. apply NoDup_map_in; [|apply NoDup_range]. intros x y Hx%elem_of_range Hy%elem_of_range E%app_str_inj_r.
  by apply zero_pad_inj in E; [|lia..].
Qed.
Lemma total_codes {W B} (f : Z -> prog W exn B) (P : B -> Prop) (code : B -> string) prefix w n : 0 <= n ->
  (forall i, total_prog (f i) (fun b => P b /\ code b = prefix ++ zero_pad w i)) ->
  total_prog (mapM f (range 1 (Z.to_nat n))) (fun l => length l = Z.to_nat n /\ Forall P l /\ NoDup (map code l)).
Proof.
  intros Hn Hf. pose proof (codes_distinct prefix w 1 (Z.to_nat n) ltac:(lia)) as Hnd.
  eapply total_weaken; [apply (total_coded f P code _ _ n (length_range _ _) Hnd); intros x _; apply Hf|].
  cbv beta. intros l (H1 & H2 & E). by rewrite E.
Qed.
Ltac step lem := eapply total_bind; [apply lem|cbv beta].
Ltac step_ lem := eapply total_bind; [apply lem|intros ? _].
Ltac finish := apply total_ret; cbv beta.

(** ** Numbers *)
Section Numbers.
Context {W : Type} `{Randomness W}.
Lemma total_maybe {A} b (m : prog W exn A) : total_prog m (fun _ => True) -> total_prog (maybe b m) (fun _ => True).
Proof. intros Hm. destruct b; [|by apply total_ret]. step_ Hm. by finish. Qed.

Lemma at_places_bounds k x a b : 0 <= k -> 0 <= a -> (inject_Z a <= x <= inject_Z b)%Q ->
  (inject_Z a <= at_places k x <= inject_Z b)%Q.
Proof.
  intros Hk Ha [H1 H2]. unfold at_places. assert (Hp : 0 < 10 ^ k) by lia.
  destruct x as [n d]. unfold Qle in *. cbn [Qnum Qden inject_Z] in *. rewrite Z2Pos.id by done.
  assert (Hn : 0 <= n) by lia. rewrite (Z.abs_eq n Hn).
  assert (Hr1 : a * 10 ^ k <= rhe (n * 10 ^ k) (Zpos d)) by (apply rhe_bound_lo; nia).
  assert (Hr2 : rhe (n * 10 ^ k) (Zpos d) <= b * 10 ^ k) by (apply rhe_bound_hi; nia).
  destruct (decide (n = 0)) as [->|Hn0]; [simpl; nia|]. rewrite Z.sgn_pos by lia. nia.
Qed.
Lemma shortest_bounds n k x a b : 0 <= k -> 0 <= a -> (inject_Z a <= x <= inject_Z b)%Q ->
  (inject_Z a <= shortest_from n k x <= inject_Z b)%Q.
Proof.
  revert k. induction n as [|n IH]; intros k Hk Ha Hx; cbn [shortest_from]; [by apply at_places_bounds|]. cbv zeta.
  destruct (Qeq_bool _ _); [by apply at_places_bounds|]. apply IH; [lia|done|done].
Qed.
Lemma dec_of_float_bounds x a b : 0 <= a -> (inject_Z a <= x <= inject_Z b)%Q ->
  (inject_Z a <= dec_of_float x <= inject_Z b)%Q.
Proof. by apply shortest_bounds. Qed.

(** The upper end of [uniform] on the ranges the generators use. *)
Lemma uniform_bounds s a b lo hi : is_float a -> (a <= b)%Q -> (inject_Z lo <= a)%Q -> Z.abs hi <= 2 ^ 53 ->
  (a + fsub b a <= inject_Z hi)%Q -> total_prog (uniform (W:=W) s a b) (fun x => (inject_Z lo <= x <= inject_Z hi)%Q).
Proof.
  intros Ha Hab Hlo Hhi Hs. eapply total_weaken; [by apply total_uniform|]. cbv beta. intros x [[H1 H2] _].
  split; [by apply Qle_trans with a|]. eapply Qle_trans; [exact H2|]. unfold fadd. by apply fl_le_int.
Qed.
Lemma round_places_bounds k x a b : 0 <= k -> 0 <= a -> Z.abs a <= 2 ^ 53 -> Z.abs b <= 2 ^ 53 ->
  (inject_Z a <= x <= inject_Z b)%Q -> (inject_Z a <= round_places k x <= inject_Z b)%Q.
Proof.
  intros Hk Ha H1 H2 Hx. destruct (at_places_bounds k x a b Hk Ha Hx). split; [by apply fl_ge_int|by apply fl_le_int].
Qed.
Lemma half_up_bounds x a b : 0 <= a -> (inject_Z a <= x <= inject_Z b)%Q -> 100 * a <= round_currency x <= 100 * b.
Proof.
  intros Ha [H1 H2]. unfold round_currency. rewrite <- (half_up_cents (100 * a)), <- (half_up_cents (100 * b)).
  assert (Ea : (dec (100 * a) == inject_Z a)%Q) by (unfold dec, Qeq; simpl; lia).
  assert (Eb : (dec (100 * b) == inject_Z b)%Q) by (unfold dec, Qeq; simpl; lia).
  assert (Ha0 : (0 <= inject_Z a)%Q) by (unfold Qle; simpl; lia).
  split; apply half_up_mono; rewrite ?Ea, ?Eb; try done. by eapply Qle_trans.
Qed.
Lemma py_round_nonneg x : (0 <= x)%Q -> 0 <= py_round x.
Proof.
  intros Hx. unfold py_round. destruct x as [n d]. unfold Qle in Hx. cbn [Qnum Qden] in *.
  apply Z.mul_nonneg_nonneg; [lia|]. apply rhe_bound_lo; lia.
Qed.
Lemma f_of_Z_nonneg z : 0 <= z -> (0 <= f_of_Z z)%Q.
Proof. intros Hz. apply fl_nonneg. unfold Qle. simpl. lia. Qed.
End Numbers.
Ltac is_a_float := lazymatch goal with
  | |- is_float (lit ?n ?d) => exact (is_float_fl (n # d))
  | |- is_float (pc ?n) => exact (is_float_fl (n # 100))
  | |- is_float (Qmake ?n 1) => apply (is_float_int n); lia
  end.
Ltac by_computing := match goal with |- (?a <= ?b)%Q => apply Qle_bool_iff | |- (?a <= ?b)%Z => apply Z.leb_le end; vm_compute; reflexivity.
Ltac bounded lo hi := apply (uniform_bounds _ _ _ lo hi); [is_a_float|by_computing..].

Section Generators.
#[local] Set Default Proof Using "Type*".
Context {W : Type} `{Randomness W} `{Faker W} (config : SeedConfig) (good : good_config config).
Context (faker_ok : forall g m, total_prog (fake g m) (fun _ => True))
        (birth_ok : forall g, total_prog (fake_date_of_birth g) (fun _ => True)).

Lemma total_supplier index :
  total_prog (make_supplier config (window_end config - 365 * 10 * DAY) index)
    (fun s => supplier_checks s = true /\ supplier_code s = "SUP-" ++ zero_pad 4 index).
Proof.
  destruct (window_start_Ret config good (365 * 10)) as (_ & Hb & Hm); [lia|]. unfold make_supplier. cbv zeta.
  step_ (total_datetime_between (W:=W)); [exact Hb|exact Hm|].
  do 3 step_ faker_ok. eapply total_bind; [unfold COUNTRY_WEIGHTS; pick|intros country _].
  step (total_randint (W:=W)); [lia|]. intros lead Hl.
  eapply total_bind; [bounded 2 5|cbv beta; intros r Hr]. step_ (total_chance (W:=W)). finish.
  destruct (round_places_bounds 2 r 2 5) as [H1 H2]; [lia..|exact Hr|]. split; [|done].
  unfold supplier_checks. cbn [lead_time_days supplier_rating]. rewrite !andb_true_iff, Z.leb_le, !fleb_spec.
  split; [split; [lia|apply Qle_trans with (inject_Z 2); [discriminate|exact H1]]|exact H2].
Qed.
Lemma total_suppliers n : 0 <= n ->
  total_prog (generate_suppliers config n) (fun l => length l = Z.to_nat n /\ Forall (fun s => supplier_checks s = true) l /\
    NoDup (map supplier_code l)).
Proof.
  intros Hn. unfold generate_suppliers. apply total_counted; [done|].
  destruct (window_start_Ret config good (365 * 10)) as (Hw & _ & _); [lia|].
  apply (total_bind_lift _ _ _ _ Hw).
  apply (total_codes _ _ supplier_code "SUP-" 4); [done|]. intros i. apply total_supplier.
Qed.

(** A warehouse's code carries its region and its number within it. *)
Definition wh_code (region : string) (number : Z) : string := "WH-" ++ region ++ "-" ++ zero_pad 2 number.
Lemma wh_code_inj r r' m m' : r ∈ map fst REGIONS -> r' ∈ map fst REGIONS -> 0 <= m -> 0 <= m' ->
  wh_code r m = wh_code r' m' -> r = r' /\ m = m'.
Proof.
  intros Hr Hr' Hm Hm' E. assert (Hrr : r = r').
  { cbn [REGIONS map fst] in Hr, Hr'. unfold wh_code in E.
    repeat (apply elem_of_cons in Hr as [->|Hr]; [repeat (apply elem_of_cons in Hr' as [->|Hr']; [done|]); by apply elem_of_nil in Hr'|]).
    by apply elem_of_nil in Hr. }
  subst r'. split; [done|]. unfold wh_code in E. apply app_str_inj_r, app_str_inj_r, app_str_inj_r in E. by apply zero_pad_inj in E.
Qed.
Definition numbered_after (seqs : list (string * Z)) (code : string) : Prop :=
  exists r k, r ∈ map fst REGIONS /\ default 0 (alist_get r seqs) < k /\ code = wh_code r k.
Lemma total_make_warehouses n seqs : (forall r, 0 <= default 0 (alist_get r seqs)) ->
  total_prog (make_warehouses config n (window_end config - 365 * 15 * DAY) seqs)
    (fun l => length l = n /\ NoDup (map warehouse_code l) /\ Forall (numbered_after seqs) (map warehouse_code l)).
Proof.
  destruct (window_start_Ret config good (365 * 15)) as (_ & Hb & Hm); [lia|].
  revert seqs. induction n as [|n IH]; intros seqs Hseqs; cbn [make_warehouses]; [finish; by repeat constructor|]. cbv zeta.
  eapply total_bind; [apply total_weighted_choice; [discriminate|reflexivity|unfold REGIONS; cbn [map snd]; weights_pos]|].
  intros region Hreg. step_ (total_datetime_between (W:=W)); [exact Hb|exact Hm|].
  do 2 step_ faker_ok. step_ (total_maybe (W:=W) (A:=string)); [apply faker_ok|]. step_ (total_chance (W:=W)).
  set (number := default 0 (alist_get region seqs) + 1). pose proof (Hseqs region) as Hr0.
  step IH. { intros r. rewrite alist_get_set. case_decide; [subst; cbn [default from_option id]; unfold number; lia|apply Hseqs]. }
  intros rest (Hl & Hnd & Hall). finish. cbn [length map]. change (warehouse_code _) with (wh_code region number).
  split_and!; [by rewrite Hl| |].
  - constructor; [|done]. intros Hin. rewrite Forall_forall in Hall. destruct (Hall _ Hin) as (r & k & Hr & Hk & E).
    rewrite alist_get_set in Hk. apply wh_code_inj in E as [<- <-]; [| done | done | unfold number; lia | ].
    + case_decide; [cbn [default from_option id] in Hk; lia|done].
    + specialize (Hseqs r). case_decide; cbn [default from_option id] in Hk; unfold number in *; lia.
  - constructor; [exists region, number; split_and!; [done|unfold number; lia|done]|]. eapply Forall_impl; [exact Hall|].
    intros c (r & k & Hr & Hk & E). exists r, k. split_and!; [done| |done]. rewrite alist_get_set in Hk.
    case_decide; [subst r; cbn [default from_option id] in Hk; unfold number in Hk; lia|done].
Qed.
Lemma total_warehouses n : 0 <= n -> total_prog (generate_warehouses config n) (fun l => length l = Z.to_nat n /\
  NoDup (map warehouse_code l)).
Proof.
  intros Hn. unfold generate_warehouses. apply total_counted; [done|].
  destruct (window_start_Ret config good (365 * 15)) as (Hw & _ & _); [lia|].
  apply (total_bind_lift _ _ _ _ Hw). eapply total_weaken; [apply total_make_warehouses|by intros l (? & ? & _)].
  intros r. destruct (alist_get r _) as [z|] eqn:E; cbn [default from_option id]; [|lia]. apply alist_get_elem in E.
  cbn [REGIONS map fst] in E. by repeat (apply elem_of_cons in E as [[= _ ->]|E]; [lia|]); apply elem_of_nil in E.
Qed.

Lemma total_product (cats : list ProductCategory) (sups : list Supplier) index : cats <> [] -> sups <> [] ->
  total_prog (make_product config cats sups (window_end config - 365 * 3 * DAY) index)
    (fun p => (product_checks p = true /\ (product_category p < length cats)%nat /\ (product_supplier p < length sups)%nat) /\
              sku p = "SKU-" ++ zero_pad 6 index).
Proof.
  intros Hc Hs. destruct (window_start_Ret config good (365 * 3)) as (_ & Hb & Hm); [lia|]. unfold make_product. cbv zeta.
  assert (Hpos : forall A (l : list A), l <> [] -> total_prog (choice (W:=W) "products" (positions l)) (fun i => (i < length l)%nat)).
  { intros A l Hl. eapply total_weaken; [apply total_choice; by destruct l|]. cbv beta. unfold positions.
    intros i Hi%list_elem_of_In%in_seq. lia. }
  step Hpos; [exact Hc|]. intros c Hcl. step Hpos; [exact Hs|]. intros u Hul.
  eapply total_bind; [bounded 3 250|cbv beta; intros x Hx]. eapply total_bind; [bounded 1 4|cbv beta; intros m Hmk].
  step_ (total_datetime_between (W:=W)); [exact Hb|exact Hm|]. do 2 step_ faker_ok.
  eapply total_bind; [bounded 0 15|intros ? _]. step_ (total_chance (W:=W)). finish.
  cbn [product_category product_supplier sku]. split_and!; [|done|done|done].
  pose proof (half_up_bounds (at_places 2 x) 3 250 ltac:(lia) (at_places_bounds 2 x 3 250 ltac:(lia) ltac:(lia) Hx)) as Hcost.
  destruct (dec_of_float_bounds m 1 4 ltac:(lia) Hmk) as [Hm1 _].
  unfold product_checks. cbn [unit_price cost_price]. apply andb_true_iff. rewrite !Z.leb_le. split; [|lia].
  apply half_up_nonneg. apply Qmult_le_0_compat; [apply dec_nonneg; lia|]. eapply Qle_trans; [|exact Hm1]. discriminate.
Qed.
Lemma total_products n cats sups : 0 <= n -> cats <> [] -> sups <> [] ->
  total_prog (generate_products config n cats sups) (fun l => length l = Z.to_nat n /\
    Forall (fun p => product_checks p = true /\ (product_category p < length cats)%nat /\ (product_supplier p < length sups)%nat) l /\
    NoDup (map sku l)).
Proof.
  intros Hn Hc Hs. unfold generate_products. apply total_counted; [done|].
  destruct (window_start_Ret config good (365 * 3)) as (Hw & _ & _); [lia|].
  replace (non_empty cats) with true by (by destruct cats). replace (non_empty sups) with true by (by destruct sups). cbn [negb].
  apply (total_bind_lift _ _ _ _ Hw).
  apply (total_codes _ _ sku "SKU-" 6); [done|]. intros i. by apply total_product.
Qed.

(** *** Inventory *)
Lemma total_make_inventory (prods : list Product) pair :
  total_prog (make_inventory config prods (window_end config - 30 * DAY) pair)
    (fun i => inventory_checks i = true /\ inv_product i = fst pair /\ inv_warehouse i = snd pair).
Proof.
  destruct (window_start_Ret config good 30) as (_ & Hb & Hm); [lia|]. unfold make_inventory. cbv zeta.
  set (mult := quantity_on_hand_multiplier _).
  assert (Hmult : (0 <= mult)%Q) by (unfold mult, quantity_on_hand_multiplier; destruct (_ <? _); [apply fl_nonneg|]; discriminate).
  step (total_randint (W:=W)); [lia|]. intros base Hbase. set (scaled := fmul _ mult). set (level := Z.max 1 _).
  assert (Hs : (0 <= scaled)%Q) by (apply fmul_nonneg; [apply f_of_Z_nonneg; lia|done]).
  step_ (total_chance (W:=W)).
  eapply (total_bind _ _ (fun q => 0 <= q)).
  { destruct a; [eapply total_weaken; [apply total_randint; lia|cbv beta; lia]|].
    finish. pose proof (py_round_nonneg _ Hs). lia. }
  intros on_hand Hq. step_ (total_datetime_between (W:=W)); [exact Hb|exact Hm|]. finish.
  cbn [inv_product inv_warehouse]. split; [|done].
  unfold inventory_checks. cbn [quantity_on_hand reorder_level]. rewrite andb_true_iff, !Z.leb_le. lia.
Qed.
Lemma filter_split {A} (l : list (A * bool)) :
  (map fst (List.filter snd l) ++ map fst (List.filter (fun x => negb (snd x)) l))%list ≡ₚ map fst l.
Proof.
  induction l as [|[x b] l IH]; [done|]. cbn [List.filter snd map fst]. destruct b; cbn [negb map fst].
  - cbn [app]. by apply Permutation_skip.
  - rewrite <- Permutation_middle. by apply Permutation_skip.
Qed.
Lemma NoDup_list_prod {A B} (l : list A) (k : list B) : NoDup l -> NoDup k -> NoDup (list_prod l k).
Proof.
  intros Hl Hk. induction Hl as [|x l Hx _ IH]; [constructor|]. cbn [list_prod]. apply NoDup_app. split_and!; [|..|done].
  - by apply (NoDup_fmap_2 (fun y => (x, y))).
  - intros [a b] Hin Hin2. apply list_elem_of_In, in_map_iff in Hin as (c & E & _). injection E as <- <-.
    apply list_elem_of_In, in_prod_iff in Hin2 as [Hin2 _]. by apply Hx, list_elem_of_In.
Qed.
Lemma total_inventory n prods whs : 0 <= n -> prods <> [] -> whs <> [] ->
  n <= Z.of_nat (length prods) * Z.of_nat (length whs) ->
  total_prog (generate_inventory config n prods whs) (fun l => length l = Z.to_nat n /\ inventory_unique l /\
    Forall (fun i => inventory_checks i = true /\ (inv_product i < length prods)%nat /\ (inv_warehouse i < length whs)%nat) l).
Proof.
  intros Hn Hp Hw Hfit. unfold generate_inventory. apply total_counted; [done|].
  replace (non_empty prods && non_empty whs) with true by (by destruct prods, whs). cbn [negb]. cbv zeta.
  destruct (Z.ltb_spec (Z.of_nat (length prods) * Z.of_nat (length whs)) n); [lia|].
  destruct (window_start_Ret config good 30) as (Hst & _ & _); [lia|]. unfold window_start in Hst.
  apply (total_bind_lift _ _ _ _ Hst). step (total_shuffle (W:=W) (A:=nat * nat)). intros cands Hc.
  eapply (total_bind _ _ (fun stocked => map fst stocked = cands)).
  { eapply total_weaken; [apply (total_mapM _ (fun x (y : (nat * nat) * bool) => fst y = x))|].
    - intros pair _. step_ (total_chance (W:=W)). by finish.
    - intros ys Hys. clear Hc. induction Hys as [|x y l k Hxy _ IH]; [done|]. cbn [map]. cbv beta in Hxy, IH. by rewrite Hxy, IH. }
  intros stocked Hst2. set (acc := map fst (List.filter snd stocked)). set (rej := map fst (List.filter _ stocked)).
  set (all := if (_ <? _)%nat then _ else acc).
  assert (Hperm : (acc ++ rej)%list ≡ₚ list_prod (positions prods) (positions whs)).
  { unfold acc, rej. by rewrite filter_split, Hst2. }
  assert (Hlen : (length acc + length rej)%nat = (length prods * length whs)%nat).
  { rewrite <- length_app, Hperm, length_prod. unfold positions. by rewrite !length_seq. }
  assert (Hall : take (Z.to_nat n) all = take (Z.to_nat n) (acc ++ rej)%list /\ (Z.to_nat n <= length all)%nat).
  { unfold all. destruct (Nat.ltb_spec (length acc) (Z.to_nat n)).
    - split; [|rewrite length_app, length_take; lia]. rewrite !take_app_ge by lia. f_equal. rewrite take_take. f_equal. lia.
    - split; [by rewrite take_app_le|done]. }
  destruct Hall as [Htake Hle]. rewrite Htake.
  assert (Hnd : NoDup (take (Z.to_nat n) (acc ++ rej)%list)).
  { eapply sublist_NoDup; [|apply sublist_take]. rewrite Hperm. apply NoDup_list_prod; apply NoDup_ListNoDup, seq_NoDup. }
  eapply total_weaken; [apply (total_mapM _ (fun pair i => inventory_checks i = true /\ inv_product i = fst pair /\ inv_warehouse i = snd pair))|].
  { intros pair _. apply total_make_inventory. }
  intros l Hl. split_and!.
  - rewrite <- (Forall2_length _ _ _ Hl), length_take, length_app. lia.
  - unfold inventory_unique. replace (map _ l) with (take (Z.to_nat n) (acc ++ rej)%list); [exact Hnd|].
    clear - Hl. induction Hl as [|[a b] i ps js (_ & E1 & E2) _ IH]; [done|]. cbn [map]. rewrite <- IH. by rewrite E1, E2.
  - assert (Hin : Forall (fun pair => (fst pair < length prods)%nat /\ (snd pair < length whs)%nat) (take (Z.to_nat n) (acc ++ rej)%list)).
    { apply Forall_forall. intros [a b] Hab. assert (Hab' : (a, b) ∈ (acc ++ rej)%list) by (rewrite <- (take_drop (Z.to_nat n)); apply elem_of_app; by left).
      rewrite Hperm in Hab'. apply list_elem_of_In, in_prod_iff in Hab'. unfold positions in Hab'. rewrite !in_seq in Hab'. simpl in *. lia. }
    clear - Hl Hin. induction Hl as [|pair i ps js (E0 & E1 & E2) _ IH]; [constructor|].
    apply Forall_cons in Hin as [[Ha Hb] Hin]. constructor; [by rewrite E1, E2|by apply IH].
Qed.
End Generators.
