(* ===== verification/SeedMarketFacts.v ===== *)
(** * The seeding engine: what the category, customer, address and promotion generators return *)
From S2P Require Import Prelude PyFloat FloatSum PyStr Models NluTime SeedRandom SeedConfig SeedModels SeedRules SeedCatalog SeedCatalogFacts.
#[local] Open Scope string_scope.
#[local] Open Scope Z_scope.

(** ** Categories *)
Definition subs_of (name : string) : list string := default [] (alist_get name TAXONOMY).
Definition specialty (name : string) (n : nat) : string := name ++ " Specialty " ++ show_nat n.
Lemma specialty_inj name m n : specialty name m = specialty name n -> m = n.
Proof. intros E%app_str_inj_r%app_str_inj_r. by apply (inj (pretty (A:=nat))) in E. Qed.
Fixpoint starts_with (p s : string) : bool :=
  match p, s with
  | "", _ => true
  | String a p', String b s' => Ascii.eqb a b && starts_with p' s'
  | _, _ => false
  end.
Lemma starts_with_app p s : starts_with p (p ++ s) = true.
Proof. induction p as [|c p IH]; [done|]. rewrite app_str_cons. cbn [starts_with]. by rewrite Ascii.eqb_refl. Qed.
Definition taxonomy_ok (kv : string * list string) : bool :=
  bool_decide (NoDup (snd kv)) && forallb (fun s => negb (starts_with (fst kv ++ " Specialty ") s)) (snd kv).
Lemma taxonomy_all_ok : forallb taxonomy_ok TAXONOMY = true.
Proof. vm_compute. reflexivity. Qed.
Lemma subs_facts name : NoDup (subs_of name) /\ forall s n, s ∈ subs_of name -> s <> specialty name n.
Proof.
  unfold subs_of. destruct (alist_get name TAXONOMY) as [l|] eqn:E; [|by split; [constructor|intros ? ? ?%elem_of_nil]].
  apply alist_get_elem in E. pose proof taxonomy_all_ok as Hall.
  apply forallb_forall with (x := (name, l)) in Hall; [|by apply list_elem_of_In].
  unfold taxonomy_ok in Hall. cbn [fst snd] in Hall. apply andb_true_iff in Hall as [Hn%bool_decide_eq_true Hs].
  split; [done|]. cbn [default]. intros s n Hin ->. apply forallb_forall with (x := specialty name n) in Hs; [|by apply list_elem_of_In].
  unfold specialty in Hs. rewrite <- app_str_assoc, starts_with_app in Hs. done.
Qed.
Definition key_of (c : ProductCategory) : option (nat * string) :=
  match parent c with Some p => Some (p, category_name c) | None => None end.
(** The children still to come under position [p]: a later curated name or a later number. *)
Definition to_come (top : list string) (cursors overflow : list (string * nat)) (c : ProductCategory) : Prop :=
  exists p name, parent c = Some p /\ top !! p = Some name /\
    ((exists k, (default 0%nat (alist_get name cursors) <= k)%nat /\ subs_of name !! k = Some (category_name c)) \/
     (exists m, (default 0%nat (alist_get name overflow) < m)%nat /\ category_name c = specialty name m)).
Lemma make_children_spec n at_ top index cursors overflow : top <> [] ->
  exists l, make_children n at_ top index cursors overflow = Ret l /\ length l = n /\ NoDup (omap key_of l) /\
    Forall (to_come top cursors overflow) l.
Proof.
  intros Htop. revert index cursors overflow. induction n as [|n IH]; intros index cursors overflow; cbn [make_children].
  { exists []. split_and!; [done|done|constructor|constructor]. }
  cbv zeta. destruct (lookup_lt_is_Some_2 top (index mod length top)%nat) as [name Hname].
  { apply Nat.mod_upper_bound. by destruct top. }
  rewrite Hname. fold (subs_of name). set (p := (index mod length top)%nat) in *.
  set (cur := default 0%nat (alist_get name cursors)). set (num := default 0%nat (alist_get name overflow)).
  destruct (subs_facts name) as [Hnd Hsp].
  assert (Hget : forall (d : list (string * nat)) k name', default 0%nat (alist_get name' (alist_set name k d)) =
    if decide (name = name') then k else default 0%nat (alist_get name' d)).
  { intros d k name'. rewrite alist_get_set. by case_decide. }
  destruct (subs_of name !! cur) as [sub|] eqn:Esub.
  - destruct (IH (S index) (alist_set name (S cur) cursors) overflow) as (l & -> & Hlen & Hl & Hcome). cbn [obind].
    eexists. split; [reflexivity|]. cbn [length omap list_omap key_of parent category_name]. split_and!; [by rewrite Hlen| |].
    + constructor; [|done]. intros (c & Hc & Hk)%list_elem_of_omap. rewrite Forall_forall in Hcome.
      destruct (Hcome c Hc) as (p' & name' & Hpar & Hn' & Hor). unfold key_of in Hk. rewrite Hpar in Hk.
      injection Hk as -> Hsub. rewrite Hname in Hn'. injection Hn' as <-. rewrite Hget, decide_True in Hor by done.
      destruct Hor as [(k & Hk1 & Hk2)|(m & _ & Hm)].
      * rewrite Hsub in Hk2. pose proof (NoDup_lookup _ _ _ _ Hnd Esub Hk2). lia.
      * apply (Hsp sub m); [by eapply list_elem_of_lookup_2|congruence].
    + constructor.
      * exists p, name. split_and!; [done|done|]. left. exists cur. by split.
      * eapply Forall_impl; [exact Hcome|]. intros c (p' & name' & H1 & H2 & H3). exists p', name'. split_and!; [done|done|].
        rewrite Hget in H3. destruct H3 as [(k & Hk1 & Hk2)|?]; [left|by right]. exists k. split; [|done].
        case_decide; [subst; fold cur; lia|done].
  - destruct (IH (S index) cursors (alist_set name (S num) overflow)) as (l & -> & Hlen & Hl & Hcome). cbn [obind].
    eexists. split; [reflexivity|]. cbn [length omap list_omap key_of parent category_name]. split_and!; [by rewrite Hlen| |].
    + constructor; [|done]. intros (c & Hc & Hk)%list_elem_of_omap. rewrite Forall_forall in Hcome.
      destruct (Hcome c Hc) as (p' & name' & Hpar & Hn' & Hor). unfold key_of in Hk. rewrite Hpar in Hk.
      injection Hk as -> Hsub. rewrite Hname in Hn'. injection Hn' as <-. rewrite Hget, decide_True in Hor by done.
      destruct Hor as [(k & _ & Hk2)|(m & Hm1 & Hm)].
      * apply (Hsp (category_name c) (S num)); [by eapply list_elem_of_lookup_2|exact Hsub].
      * rewrite Hm in Hsub. apply specialty_inj in Hsub. lia.
    + constructor.
      * exists p, name. split_and!; [done|done|]. right. exists (S num). split; [fold num; lia|done].
      * eapply Forall_impl; [exact Hcome|]. intros c (p' & name' & H1 & H2 & H3). exists p', name'. split_and!; [done|done|].
        rewrite Hget in H3. destruct H3 as [?|(m & Hm1 & Hm2)]; [by left|right]. exists m. split; [|done].
        case_decide; [subst; fold num; lia|done].
Qed.

Section Generators.
#[local] Set Default Proof Using "Type*".
Context {W : Type} `{Randomness W} `{Faker W} (config : SeedConfig) (good : good_config config).
Context (faker_ok : forall g m, total_prog (fake g m) (fun _ => True))
        (birth_ok : forall g, total_prog (fake_date_of_birth g) (fun _ => True)).

Lemma total_categories n : 0 <= n ->
  total_prog (W:=W) (generate_categories config n) (fun l => length l = Z.to_nat n /\ categories_unique l).
Proof.
  intros Hn. unfold generate_categories. apply total_counted; [done|].
  destruct (window_start_Ret config good (365 * 5)) as (Hst & Hb & Hm); [lia|]. apply (total_bind_lift _ _ _ _ Hst).
  pose proof (shift_seconds_Ret (window_end config - 365 * 5 * DAY)
    ((window_end config - (window_end config - 365 * 5 * DAY)) / 2)) as Hmid.
  eapply total_bind_lift; [apply Hmid; replace (window_end config - (window_end config - 365 * 5 * DAY)) with (78840000 * 2)
    by (unfold DAY; lia); rewrite Z.div_mul by lia; unfold DAY in *; lia|]. clear Hmid.
  set (at_ := _ + _). set (top := take (Z.to_nat n) (map fst TAXONOMY)).
  set (parents := map _ top).
  assert (Hp : omap key_of parents = []).
  { apply omap_nil. intros c Hc. unfold parents in Hc. apply list_elem_of_In, in_map_iff in Hc as (nm & <- & _). done. }
  assert (Hlen : length parents = length top) by apply length_map.
  assert (Htop : (length top <= Z.to_nat n)%nat) by (unfold top; rewrite length_take; lia).
  destruct top as [|t top'] eqn:Et.
  - finish. split; [|constructor]. cbn [length]. destruct (Z.to_nat n); [done|]. discriminate Et.
  - destruct (make_children_spec (Z.to_nat n - length (t :: top')) at_ (t :: top') 0 [] []) as (l & -> & Hl & Hnd & _); [done|].
    eapply total_bind_lift; [reflexivity|]. finish. split; [rewrite length_app, Hlen, Hl; lia|].
    unfold categories_unique. change (NoDup (omap key_of (parents ++ l)%list)). by rewrite omap_app, Hp.
Qed.

(** ** Customers and their addresses *)
Lemma total_customer index :
  total_prog (make_customer config index) (fun c => True /\ customer_number c = "CUST-" ++ zero_pad 8 index).
Proof.
  pose proof (window_days config good) as (H1 & H2 & H3). unfold make_customer. cbv zeta.
  step_ (total_date_between (W:=W)); [lia|lia|]. do 4 step_ faker_ok. step_ birth_ok.
  eapply total_bind; [unfold GENDER_WEIGHTS; pick|intros ? _]. step_ (total_segment (W:=W)).
  step_ (total_signup_channel (W:=W)). step_ (total_is_active (W:=W)). by finish.
Qed.
Lemma total_customers n : 0 <= n -> total_prog (generate_customers config n) (fun l => length l = Z.to_nat n /\
  NoDup (map customer_number l)).
Proof.
  intros Hn. unfold generate_customers. apply total_counted; [done|].
  eapply total_weaken; [apply (total_codes _ (fun _ => True) customer_number "CUST-" 8); [done|intros i; apply total_customer]|].
  by intros l (? & _ & ?).
Qed.
Lemma total_address c type dflt :
  total_prog (build_address c type dflt) (fun a => address_customer a = c /\ address_type a = type /\ is_default a = dflt).
Proof.
  unfold build_address. cbv zeta. step_ faker_ok. step_ (total_chance (W:=W)).
  step_ (total_maybe (W:=W) (A:=string)); [apply faker_ok|]. do 3 step_ faker_ok. by finish.
Qed.
Definition address_key (a : CustomerAddress) : option (nat * AddressType) :=
  if is_default a then Some (address_customer a, address_type a) else None.
Lemma total_extra n custs seen : custs <> [] ->
  total_prog (extra_addresses n custs seen) (fun l => length l = n /\ NoDup (omap address_key l) /\
    (forall k, k ∈ omap address_key l -> k ∉ seen) /\ Forall (fun a => (address_customer a < length custs)%nat) l).
Proof.
  intros Hc. revert seen. induction n as [|n IH]; intros seen; cbn [extra_addresses].
  { finish. split_and!; [done|constructor|by intros k ?%elem_of_nil|constructor]. }
  step (total_choice (W:=W) (A:=nat)); [by destruct custs|]. intros c Hcin. step (total_choice (W:=W) (A:=AddressType)); [done|].
  intros type _. cbv zeta. step total_address. intros a (Ha1 & Ha2 & Ha3).
  assert (Hcl : (c < length custs)%nat) by (unfold positions in Hcin; apply list_elem_of_In, in_seq in Hcin; lia).
  step IH. intros l (Hl & Hnd & Hseen & Hok). finish. cbn [omap list_omap].
  assert (Hka : address_key a = if bool_decide ((c, type) ∉ seen) then Some (c, type) else None)
    by (unfold address_key; by rewrite Ha1, Ha2, Ha3).
  rewrite Hka. case_bool_decide as Hin; split_and!; try (by cbn [length]; rewrite Hl); try (by constructor; [rewrite Ha1|]).
  - constructor; [|done]. intros Hk. apply (Hseen _ Hk). by left.
  - intros k [->|Hk]%elem_of_cons; [done|]. intros Hs. apply (Hseen _ Hk). by right.
  - done.
  - done.
Qed.
Lemma total_addresses n custs : 0 <= n -> custs <> [] ->
  total_prog (generate_addresses n custs) (fun l => length l = Z.to_nat n /\ default_addresses_unique l /\
    Forall (fun a => (address_customer a < length custs)%nat) l).
Proof.
  intros Hn Hc. unfold generate_addresses. apply total_counted; [done|].
  replace (non_empty custs) with true by (by destruct custs). cbn [negb]. cbv zeta.
  set (base := take (Z.to_nat n) (positions custs)).
  assert (Hbase : (length base <= Z.to_nat n)%nat) by (unfold base; rewrite length_take; lia).
  assert (Hin : forall c, c ∈ base -> (c < length custs)%nat).
  { intros c Hcb. assert (Hc2 : c ∈ positions custs) by (rewrite <- (take_drop (Z.to_nat n)); apply elem_of_app; by left).
    unfold positions in Hc2. apply list_elem_of_In, in_seq in Hc2. lia. }
  assert (Hnd : NoDup base) by (eapply sublist_NoDup; [apply NoDup_ListNoDup, seq_NoDup|apply sublist_take]).
  eapply total_bind; [apply (total_mapM _ (fun c a => address_customer a = c /\ address_type a = SHIPPING /\ is_default a = true));
    intros c _; apply total_address|]. intros first Hf.
  step total_extra; [exact Hc|]. intros rest (Hl & Hnr & Hseen & Hok). finish.
  assert (Hkeys : omap address_key first = map (fun c => (c, SHIPPING)) base).
  { clear - Hf. induction Hf as [|c a cs fs (E1 & E2 & E3) _ IH]; [done|]. cbn [omap list_omap map].
    unfold address_key at 1. rewrite E3, E2, E1. by rewrite IH. }
  split_and!.
  - rewrite length_app, Hl, <- (Forall2_length _ _ _ Hf). lia.
  - unfold default_addresses_unique. change (NoDup (omap address_key (first ++ rest)%list)). rewrite omap_app, Hkeys.
    apply NoDup_app. split_and!; [|intros k Hk Hr; by apply (Hseen _ Hr)|done].
    by apply (NoDup_fmap_2 (fun c => (c, SHIPPING))).
  - apply Forall_app. split; [|done]. clear - Hf Hin. induction Hf as [|c a cs fs (E1 & _) _ IH]; [constructor|].
    constructor; [rewrite E1; apply Hin; by left|]. apply IH. intros c' Hc'. apply Hin. by right.
Qed.

(** ** Promotions *)
Definition last_second (c : SeedConfig) : Z := combine (date_ordinal (business_end_date c)) 0 0 0.
Definition promotion_ok (p : Promotion) : Prop := promotion_checks p = true /\ 0 <= discount_value p <= 5000.
Definition promo_code (n : Z) : string := "PROMO" ++ zero_pad 4 n.
Lemma total_build_promotion n name a b : a < b -> total_prog (W:=W) (build_promotion n name a b)
  (fun p => promotion_ok p /\ promotion_code p = promo_code n).
Proof.
  intros Hab. unfold build_promotion. cbv zeta. eapply total_bind; [unfold DISCOUNT_TYPE_WEIGHTS; pick|]. intros type _.
  eapply (total_bind _ _ (fun x => (inject_Z 0 <= x <= inject_Z 50)%Q)).
  { destruct type; bounded 0 50. }
  intros x Hx. finish. pose proof (half_up_bounds (dec_of_float x) 0 50 ltac:(lia) (dec_of_float_bounds x 0 50 ltac:(lia) Hx)).
  split; [|done]. unfold promotion_ok, promotion_checks. cbn [discount_value starts_at ends_at]. rewrite andb_true_iff, Z.leb_le, Z.ltb_lt. lia.
Qed.
Lemma thanksgiving_Ret y : 1 <= y <= 9999 ->
  exists o, thanksgiving y = Ret o /\ ordinal y 11 22 <= o <= ordinal y 11 28 /\ weekday o = 3.
Proof.
  intros Hy. unfold thanksgiving. rewrite date_Ret by (try lia; by vm_compute). cbn [obind]. cbv zeta.
  set (f := ordinal y 11 1). set (off := (3 - weekday f) mod 7). assert (Hoff : 0 <= off < 7) by (apply Z.mod_pos_bound; lia).
  pose proof (days_before_year_bounds _ Hy) as [Hb1 Hb2]. pose proof (ordinal_in_year y 11 30 ltac:(lia) ltac:(by vm_compute)) as Ho.
  pose proof (ordinal_in_year y 11 1 ltac:(lia) ltac:(by vm_compute)) as Ho1.
  assert (E : forall d, ordinal y 11 d = f + (d - 1)) by (intros d; unfold f, ordinal; lia).
  rewrite (E 30) in Ho. rewrite !E.
  rewrite shift_days_Ret by lia. cbn [obind]. rewrite shift_days_Ret by lia. eexists. split; [reflexivity|]. split; [lia|].
  unfold off, weekday. Z.to_euclidean_division_equations. lia.
Qed.
Lemma campaigns_Ret ms y : 1 <= y <= 9998 ->
  exists l, standard_campaigns ms y = Ret l /\ Forall (fun c => 1 <= ca_start c <= ca_end c /\ ca_end c <= MAX_ORDINAL) l.
Proof.
  intros Hy. destruct (thanksgiving_Ret y) as (t & Ht & Hb & _); [lia|]. unfold standard_campaigns, black_friday. rewrite Ht. cbn [obind].
  pose proof (days_before_year_bounds y ltac:(lia)) as [Hy1 Hy2].
  assert (Hord : forall m d, 1 <= m <= 12 -> 1 <= d <= days_in_month y m -> 1 <= ordinal y m d <= MAX_ORDINAL).
  { intros m d Hm Hd. pose proof (ordinal_in_year y m d Hm Hd). lia. }
  pose proof (Hord 11 22 ltac:(lia) ltac:(by vm_compute)). 
  assert (E : ordinal y 12 1 = ordinal y 11 28 + 3) by (rewrite (next_month y 12) by lia; change (12 - 1) with 11; change (days_in_month y 11) with 30; unfold ordinal; lia).
  pose proof (Hord 12 31 ltac:(lia) ltac:(by vm_compute)) as H31.
  assert (E31 : ordinal y 12 31 = ordinal y 12 1 + 30) by (unfold ordinal; lia).
  assert (E8 : ordinal y 8 31 = ordinal y 8 1 + 30) by (unfold ordinal; lia).
  pose proof (Hord 8 1 ltac:(lia) ltac:(by vm_compute)). pose proof (Hord 8 31 ltac:(lia) ltac:(by vm_compute)).
  rewrite (shift_days_Ret t 1) by lia. cbn [obind]. rewrite (shift_days_Ret (t + 1) 3) by lia. cbn [obind].
  rewrite !date_Ret by (try lia; by vm_compute). cbn [obind]. eexists. split; [reflexivity|].
  repeat constructor; cbn [ca_start ca_end]; lia.
Qed.
Lemma oflatmap_total {E A B} (f : A -> outcome E (list B)) (P : B -> Prop) l :
  (forall x, x ∈ l -> exists ys, f x = Ret ys /\ Forall P ys) -> exists ys, oflatmap f l = Ret ys /\ Forall P ys.
Proof.
  induction l as [|x l IH]; intros Hf; cbn [oflatmap]; [by exists []|].
  destruct (Hf x) as (ys & -> & Hys); [by left|]. destruct IH as (zs & -> & Hzs); [intros z Hz; apply Hf; by right|].
  eexists. split; [reflexivity|]. by apply Forall_app.
Qed.
Lemma windows_Ret : exists l, calendar_anchored_windows config = Ret l /\ Forall (fun w => fst (snd w) < snd (snd w)) l.
Proof.
  unfold calendar_anchored_windows. cbv zeta. apply oflatmap_total. intros y Hy%elem_of_range.
  destruct good as [_ Hs%valid_date_spec He%valid_date_spec [Hy1 Hy2] _ _ _].
  destruct (campaigns_Ret (seasonal_multipliers config) y) as (cs & Hc & Hcs); [lia|].
  unfold anchored. rewrite Hc. cbn [obind]. eexists. split; [reflexivity|].
  apply omap_Forall. intros c w. cbv zeta. destruct (Z.leb_spec (Z.min (combine (ca_end c) 23 59 59) (combine (date_ordinal (business_end_date config)) 23 59 59)) (Z.max (combine (ca_start c) 0 0 0) (business_start config))); [done|]. intros [= <-]. cbn [fst snd]. lia.
Qed.
Lemma total_generic n : total_prog (W:=W) (generic_promotion config n) (fun p => promotion_ok p /\ promotion_code p = promo_code n).
Proof.
  pose proof (window_days config good) as (H1 & H2 & H3). unfold generic_promotion.
  step_ (total_choice (W:=W) (A:=string)); [done|].
  eapply (total_bind _ _ (fun t => business_start config <= t <= business_start config + (last_second config - business_start config))).
  { unfold random_window_start. cbv zeta. set (span := Z.max _ _).
    eapply (total_bind _ _ (fun o => 0 <= o <= span)).
    - destruct (Z.ltb_spec 0 span); [apply total_randint; lia|finish; lia].
    - intros o Ho. eapply total_lift; [apply shift_seconds_Ret|cbv beta]. all: unfold span, business_start, last_second, combine, DAY in *; lia. }
  intros t Ht. step (total_randint (W:=W)); [lia|]. intros d Hd.
  eapply total_bind_lift; [apply shift_seconds_Ret; unfold business_start, last_second, combine, DAY in *; lia|].
  apply total_build_promotion. unfold DAY. lia.
Qed.
Lemma range_app a m n : range a (m + n) = (range a m ++ range (a + Z.of_nat m) n)%list.
Proof.
  unfold range. rewrite seq_app, map_app. f_equal. rewrite Nat.add_0_l. clear. revert m. induction n as [|n IH]; intros m; [done|].
  cbn [seq map]. f_equal; [lia|]. rewrite IH, <- (seq_shift n 0), map_map. apply map_ext. intros i. lia.
Qed.
Lemma total_promotions n : 0 <= n -> total_prog (W:=W) (generate_promotions config n)
  (fun l => length l = Z.to_nat n /\ Forall promotion_ok l /\ NoDup (map promotion_code l)).
Proof.
  intros Hn. unfold generate_promotions. apply total_counted; [done|].
  destruct windows_Ret as (ws & Hws & Hall). apply (total_bind_lift _ _ _ _ Hws). cbv zeta.
  set (first := take (Z.to_nat n) ws). assert (Hf : (length first <= Z.to_nat n)%nat) by (unfold first; rewrite length_take; lia).
  assert (Hfirst : Forall (fun w : string * (Z * Z) => fst (snd w) < snd (snd w)) first) by by apply Forall_take.
  set (k := length first) in *.
  assert (Hzip : map fst (zip (range 1 k) first) = range 1 k) by (apply fst_zip; rewrite length_range; unfold k; lia).
  eapply total_bind; [apply (total_coded _ promotion_ok promotion_code (fun x => promo_code (fst x)) _ (Z.of_nat k))|].
  - rewrite length_zip_with, length_range. fold k. lia.
  - rewrite <- (map_map fst promo_code), Hzip. by apply codes_distinct.
  - intros [i [name [a b]]] Hin. apply total_build_promotion. apply elem_of_zip_r in Hin. rewrite Forall_forall in Hfirst.
    exact (Hfirst _ Hin).
  - rewrite <- (map_map fst promo_code), Hzip. intros l1 (Hl1 & Hok1 & E1).
    eapply total_bind; [apply (total_coded _ promotion_ok promotion_code promo_code _ (n - Z.of_nat k))|].
    + rewrite length_range. lia.
    + apply codes_distinct. lia.
    + intros i _. apply total_generic.
    + intros l2 (Hl2 & Hok2 & E2). finish. split_and!; [rewrite length_app; lia|by apply Forall_app|].
      rewrite map_app, E1, E2, <- map_app, <- range_app. by apply codes_distinct.
Qed.
End Generators.
