(* ===== verification/SeedOrderFacts.v ===== *)
(** * The seeding engine: what the order generator returns

    Every order's money adds up and its plan names distinct products, from any customers,
    products and promotions the earlier generators return. *)
From S2P Require Import Prelude PyFloat FloatSum PyStr Models NluTime SeedRandom SeedConfig SeedModels SeedRules SeedCatalog SeedOrders SeedCatalogFacts SeedMarketFacts.
#[local] Open Scope string_scope.
#[local] Open Scope Z_scope.

(** ** The months of a window *)
(** Consecutive non-empty windows that cover the days from [a] to [b]. *)
Fixpoint tiles (a b : Z) (ws : list (Z * (Z * Z))) : Prop :=
  match ws with
  | [] => a = b + 1
  | (_, (x, y)) :: ws' => x = a /\ a <= y /\ tiles (y + 1) b ws'
  end.
Lemma tiles_le a b ws : tiles a b ws -> a <= b + 1.
Proof. revert a. induction ws as [|[m [x y]] ws IH]; intros a; cbn [tiles]; [lia|]. intros (_ & Hy & Ht%IH). lia. Qed.
Lemma tiles_inside a b ws : tiles a b ws -> Forall (fun w => a <= fst (snd w) <= snd (snd w) /\ snd (snd w) <= b) ws.
Proof.
  revert a. induction ws as [|[m [x y]] ws IH]; intros a; cbn [tiles]; [constructor|].
  intros (-> & Hy & Ht). pose proof (tiles_le _ _ _ Ht). constructor; [cbn [fst snd]; lia|].
  eapply Forall_impl; [by apply IH|]. cbv beta. intros w. lia.
Qed.
Lemma first_of_later_month y m y' m' d : 1 <= m <= 12 -> 1 <= m' <= 12 -> 1 <= d <= days_in_month y m ->
  y * 12 + m < y' * 12 + m' -> ordinal y m d < ordinal y' m' 1.
Proof.
  intros Hm Hm' Hd Hlt. destruct (Z.eq_dec y y') as [->|Hne].
  - assert (Hmm : m < m') by lia.
    pose proof (next_month y' m' ltac:(lia)) as E.
    assert (ordinal y' m d <= ordinal y' (m' - 1) (days_in_month y' (m' - 1))); [|lia].
    pose proof (days_in_month_bounds y' (m' - 1)). apply ordinal_mono; [lia|lia| |lia]. intros <-. lia.
  - pose proof (ordinal_in_year y m d Hm Hd) as [_ H1]. pose proof (days_in_month_bounds y' m').
    pose proof (ordinal_in_year y' m' 1 Hm' ltac:(lia)) as [H2 _]. rewrite <- Z.add_assoc in H1.
    pose proof (year_step y) as Hs. assert (Hmono : days_before_year (y + 1) <= days_before_year y').
    { unfold days_before_year. cbv zeta. Z.to_euclidean_division_equations. lia. }
    lia.
Qed.
Lemma month_windows_past n y m start end_ : 1 <= y <= 9999 -> 1 <= m <= 12 -> end_ < ordinal y m 1 ->
  month_windows n y m start end_ = Ret [].
Proof.
  intros Hy Hm Hlt. destruct n; [done|]. cbn [month_windows]. pose proof (days_in_month_bounds y m).
  rewrite date_Ret by lia. cbn [obind]. by destruct (Z.ltb_spec end_ (ordinal y m 1)); [|lia].
Qed.
(** The windows tile the days from [start] to the end: the fuel is enough. *)
Lemma month_windows_tile n y m start (e : PyDate) : 1 <= y -> 1 <= m <= 12 -> valid_pydate e = true -> year e <= 9990 ->
  (Z.to_nat ((year e - y) * 12 + (month e - m) + 1) <= n)%nat -> y * 12 + m <= year e * 12 + month e + 1 ->
  start <= ordinal y m (days_in_month y m) ->
  start <= date_ordinal e -> ordinal y m 1 <= date_ordinal e + 1 ->
  exists ws, month_windows n y m start (date_ordinal e) = Ret ws /\ tiles (Z.max (ordinal y m 1) start) (date_ordinal e) ws.
Proof.
  intros Hy1 Hm He Hye. apply valid_date_spec in He as (Hy2 & Hme & Hde). unfold date_ordinal.
  intros Hn Hle Hst Hse. revert y m Hy1 Hm Hn Hle Hst. induction n as [|n IH]; intros y m Hy1 Hm Hn Hle Hst Hmax.
  { assert (Hlt : ordinal (year e) (month e) (day e) < ordinal y m 1) by (apply first_of_later_month; lia).
    exists []. split; [done|]. cbn [tiles]. lia. }
  pose proof (days_in_month_bounds y m) as Hdm. cbn [month_windows]. rewrite date_Ret by lia. cbn [obind].
  destruct (Z.ltb_spec (ordinal (year e) (month e) (day e)) (ordinal y m 1)) as [Hlt|Hge].
  { exists []. split; [done|]. cbn [tiles]. lia. }
  assert (Hnow : y * 12 + m <= year e * 12 + month e).
  { destruct (Z.le_gt_cases (y * 12 + m) (year e * 12 + month e)); [done|].
    pose proof (first_of_later_month (year e) (month e) y m (day e)). lia. }
  set (y' := if m =? 12 then y + 1 else y). set (m' := if m =? 12 then 1 else m + 1). cbv zeta.
  assert (Hnext : y' * 12 + m' = y * 12 + m + 1 /\ 1 <= m' <= 12 /\ y <= y' <= y + 1 /\
                  ordinal y' m' 1 = ordinal y m (days_in_month y m) + 1).
  { unfold y', m'. destruct (Z.eqb_spec m 12) as [->|Hm12]; (split; [lia|split; [lia|split; [lia|]]]).
    - change (days_in_month y 12) with 31. apply next_year.
    - rewrite next_month by lia. by replace (m + 1 - 1) with m by lia. }
  destruct Hnext as (Hidx & Hm' & Hy' & Hfirst). pose proof (days_in_month_bounds y' m') as Hdm'.
  rewrite date_Ret by lia. cbn [obind].
  assert (Hpos : 1 <= ordinal y m (days_in_month y m) <= MAX_ORDINAL).
  { pose proof (ordinal_in_year y m (days_in_month y m) Hm ltac:(lia)). pose proof (days_before_year_bounds y ltac:(lia)). lia. }
  rewrite shift_days_Ret by lia. cbn [obind]. rewrite Hfirst.
  replace (ordinal y m (days_in_month y m) + 1 + -1) with (ordinal y m (days_in_month y m)) by lia.
  set (last := ordinal y m (days_in_month y m)) in *. set (e_ := ordinal (year e) (month e) (day e)) in *.
  assert (Hcl : ordinal y m 1 <= last) by (unfold last, ordinal; lia).
  assert (Hst' : start <= ordinal y' m' (days_in_month y' m')).
  { assert (ordinal y' m' 1 <= ordinal y' m' (days_in_month y' m')) by (unfold ordinal; lia). lia. }
  destruct (Z.le_gt_cases last e_) as [Hin|Hout].
  - destruct (IH y' m') as (ws & -> & Ht); [lia..|]. cbn [obind]. eexists. split; [reflexivity|]. cbn [tiles].
    rewrite Z.min_l by lia. split; [done|]. split; [lia|]. replace (last + 1) with (Z.max (ordinal y' m' 1) start) by lia. exact Ht.
  - rewrite month_windows_past by lia. cbn [obind]. eexists. split; [reflexivity|]. cbn [tiles]. rewrite Z.min_r by lia. lia.
Qed.
Lemma month_windows_cover (s e : PyDate) : valid_pydate s = true -> valid_pydate e = true -> year e <= 9990 ->
  date_ordinal s < date_ordinal e ->
  exists ws, month_windows (S (months_between s e)) (year s) (month s) (date_ordinal s) (date_ordinal e) = Ret ws /\
             tiles (date_ordinal s) (date_ordinal e) ws.
Proof.
  intros Hs He Hye Hlt. pose proof Hs as (Hy & Hm & Hd)%valid_date_spec. pose proof He as (_ & Hme & Hde)%valid_date_spec.
  assert (Hfirst : ordinal (year s) (month s) 1 <= date_ordinal s) by (unfold date_ordinal, ordinal; lia).
  assert (Hlast : date_ordinal s <= ordinal (year s) (month s) (days_in_month (year s) (month s))) by (unfold date_ordinal, ordinal; lia).
  assert (Hidx : year s * 12 + month s <= year e * 12 + month e).
  { destruct (Z.le_gt_cases (year s * 12 + month s) (year e * 12 + month e)); [done|].
    pose proof (first_of_later_month (year e) (month e) (year s) (month s) (day e)). unfold date_ordinal in *. lia. }
  destruct (month_windows_tile (S (months_between s e)) (year s) (month s) (date_ordinal s) e) as (ws & H1 & H2);
    [lia|done|done|done|unfold months_between; lia|lia|done|lia|lia|].
  rewrite Z.max_r in H2 by done. by exists ws.
Qed.

(** ** The plan of an order *)
Definition plan_ok (products : list Product) (plan : list PlannedItem) : Prop :=
  NoDup (map pl_product plan) /\
  Forall (fun p => (pl_product p < length products)%nat /\ 1 <= pl_quantity p /\ 0 <= pl_price p) plan.
Definition plan_total (plan : list PlannedItem) : Z :=
  fold_right Z.add 0 (map (fun p => pl_price p * pl_quantity p) plan).
Lemma planned_sum_cents plan : round_currency (planned_sum plan) = plan_total plan.
Proof.
  assert (E : forall acc q, (q == dec acc)%Q ->
    (fold_left (fun acc i => acc + dec (pl_price i) * inject_Z (pl_quantity i)) plan q == dec (acc + plan_total plan))%Q).
  { unfold plan_total. induction plan as [|p plan IH]; intros acc q Hq; cbn [fold_left map fold_right].
    - rewrite Hq. by rewrite Z.add_0_r.
    - rewrite Z.add_assoc. apply IH. by rewrite Hq, dec_mul, dec_add. }
  unfold round_currency, planned_sum. rewrite (half_up_ext _ _ (E 0 0%Q ltac:(done))). by rewrite half_up_cents.
Qed.
Lemma index_of_elem x l : x ∈ l -> exists k, index_of x l = Some k /\ l !! k = Some x.
Proof.
  induction l as [|y l IH]; [by intros ?%elem_of_nil|]. intros Hx. cbn [index_of].
  destruct (Nat.eqb_spec x y) as [->|Hne]; [by exists 0%nat|]. apply elem_of_cons in Hx as [?|Hx]; [done|].
  destruct (IH Hx) as (k & -> & Hk). by exists (S k).
Qed.
Lemma pop_perm {A} (l : list A) k x : l !! k = Some x -> l ≡ₚ x :: pop k l.
Proof. intros Hk. unfold pop. rewrite <- (take_drop_middle l k x Hk) at 1. by rewrite Permutation_middle. Qed.
Lemma length_pop {A B} (l : list A) (l' : list B) k : length l = length l' -> length (pop k l) = length (pop k l').
Proof. intros E. unfold pop. rewrite !length_app, !length_take, !length_drop. lia. Qed.
Lemma Forall_pop {A} (P : A -> Prop) (l : list A) k : Forall P l -> Forall P (pop k l).
Proof. intros Hl. apply Forall_app. split; [by apply Forall_take|by apply Forall_drop]. Qed.

Section Plans.
#[local] Set Default Proof Using "Type*".
Context {W : Type} `{Randomness W}.
Definition weight_ok (q : Q) : Prop := is_float q /\ (0 < q)%Q.
Lemma weights_total ws : ws <> [] -> Forall weight_ok ws -> (0 < total_weight ws)%Q.
Proof.
  intros Hne Hall. destruct Hall as [|x l [Hf Hx] Hl]; [done|]. apply total_weight_pos; [done..|].
  eapply Forall_impl; [exact Hl|]. intros q [_ Hq]. by apply Qlt_le_weak.
Qed.
Lemma total_pick_from n pool weights : (n <= length pool)%nat -> length pool = length weights -> NoDup pool ->
  Forall weight_ok weights ->
  total_prog (W:=W) (pick_from n pool weights) (fun l => length l = n /\ NoDup l /\ l ⊆ pool).
Proof.
  revert pool weights. induction n as [|n IH]; intros pool weights Hn Hlen Hnd Hw; cbn [pick_from].
  { finish. split_and!; [done|constructor|apply list_subseteq_nil]. }
  assert (Hne : pool <> []) by (intros ->; simpl in Hn; lia).
  step (total_weighted_choice (W:=W) (A:=nat)); [done|done| |].
  { apply weights_total; [|done]. intros ->. by destruct pool. }
  intros x Hx. destruct (index_of_elem _ _ Hx) as (k & Hk & Hlk). rewrite Hk. cbn [lift].
  eapply total_bind_lift; [reflexivity|]. pose proof (pop_perm _ _ _ Hlk) as Hp.
  step IH.
  - rewrite Hp in Hn. simpl in Hn. lia.
  - by apply length_pop.
  - rewrite Hp in Hnd. by apply NoDup_cons in Hnd as [_ ?].
  - by apply Forall_pop.
  - intros l (Hl & Hndl & Hsub). finish. split_and!; [simpl; lia| |].
    + constructor; [|done]. intros Hin. apply Hsub in Hin. rewrite Hp in Hnd. by apply NoDup_cons in Hnd as [? _].
    + intros y [->|Hy]%elem_of_cons; [done|]. rewrite Hp. right. by apply Hsub.
Qed.
Lemma popularity_weight i : Z.of_nat i + 1 <= 2 ^ 53 -> weight_ok (fdiv 1 (inject_Z (Z.of_nat i + 1))).
Proof.
  intros Hi. split; [apply is_float_fl|]. apply Qlt_le_trans with (fl (1 # 2 ^ 53)); [by vm_compute|].
  apply fl_mono. unfold Qdiv. rewrite Qmult_1_l. apply Qle_trans with (/ inject_Z (2 ^ 53))%Q; [by apply Qle_bool_iff; vm_compute|].
  unfold Qinv, Qle, inject_Z. simpl Qnum. destruct (Z.of_nat i + 1) as [|p|p] eqn:E; [lia| |lia]. simpl. lia.
Qed.
Lemma total_pick_products n (products : list Product) : 0 <= n <= Z.of_nat (length products) ->
  Z.of_nat (length products) <= 2 ^ 53 ->
  total_prog (W:=W) (pick_products n products) (fun l => length l = Z.to_nat n /\ NoDup l /\ Forall (fun i => i < length products)%nat l).
Proof.
  intros Hn Hb. unfold pick_products. cbv zeta. eapply total_weaken; [apply total_pick_from|].
  - unfold positions. rewrite length_seq. lia.
  - by rewrite length_map.
  - apply NoDup_ListNoDup, seq_NoDup.
  - apply Forall_forall. intros q (i & <- & Hi)%list_elem_of_In%in_map_iff. unfold positions in Hi. apply in_seq in Hi.
    apply popularity_weight. lia.
  - cbv beta. intros l (Hl & Hnd & Hsub). split_and!; [lia|done|]. apply Forall_forall. intros i Hi.
    apply Hsub in Hi. unfold positions in Hi. apply list_elem_of_In, in_seq in Hi. lia.
Qed.
Lemma total_plan_line m (products : list Product) i : Forall (fun p => product_checks p = true) products ->
  (i < length products)%nat ->
  total_prog (W:=W) (plan_line m products i) (fun p => pl_product p = i /\ 1 <= pl_quantity p /\ 0 <= pl_price p).
Proof.
  intros Hok Hi. unfold plan_line. cbv zeta. eapply total_bind; [unfold QUANTITY_WEIGHTS; pick|]. intros base _.
  eapply total_bind; [bounded 0 2|cbv beta; intros x Hx].
  destruct (lookup_lt_is_Some_2 products i Hi) as [p Hp]. rewrite Hp. eapply total_bind_lift; [reflexivity|]. finish.
  cbn [pl_product pl_quantity pl_price]. split_and!; [done|lia|].
  rewrite Forall_forall in Hok. specialize (Hok p (list_elem_of_lookup_2 _ _ _ Hp)).
  unfold product_checks in Hok. apply andb_true_iff in Hok as [Hu%Z.leb_le _].
  apply half_up_nonneg, Qmult_le_0_compat; [by apply dec_nonneg|].
  by apply (at_places_bounds 4 x 0 2 ltac:(lia) ltac:(lia) Hx).
Qed.
End Plans.

(** ** Orders *)
Definition promo_ok (p : Promotion) : Prop := 0 <= discount_value p <= 5000.
Lemma percent_bounds d x : (0 <= d)%Q -> (0 <= x <= 50)%Q -> (0 <= d * x / 100 <= d)%Q.
Proof.
  intros Hd [H0 H1]. assert (E : (d * x / 100 == d * (x * (1 # 100)))%Q) by field. rewrite E. split.
  - apply Qmult_le_0_compat; [done|]. lra.
  - assert (d * (x * (1 # 100)) <= d * 1)%Q by (apply Qmult_le_compat_nonneg; (split; [lra|]); lra). lra.
Qed.
Lemma tax_rate_nonneg : (0 <= dec_of_float TAX_RATE)%Q.
Proof.
  apply Qle_trans with (inject_Z 0); [discriminate|]. refine (proj1 (dec_of_float_bounds TAX_RATE 0 1 _ _)); [lia|].
  split; by_computing.
Qed.
Lemma discount_bounds promotion subtotal : 0 <= subtotal -> (forall p, promotion = Some p -> promo_ok p) ->
  0 <= compute_discount promotion subtotal <= subtotal.
Proof.
  intros Hs Hp. destruct promotion as [p|]; [|simpl; lia]. specialize (Hp p eq_refl) as [H1 H2]. cbn [compute_discount].
  destruct (discount_type p).
  - unfold percentage_of, round_currency. set (x := dec_of_float _).
    assert (Hx : (inject_Z 0 <= x <= inject_Z 50)%Q).
    { apply dec_of_float_bounds; [lia|]. split; [apply fl_nonneg, dec_nonneg; lia|apply fl_le_int; [lia|]]. unfold dec, Qle. simpl. lia. }
    pose proof (dec_nonneg subtotal Hs) as Hd. change (inject_Z 0) with 0%Q in Hx. change (inject_Z 50) with 50%Q in Hx.
    pose proof (percent_bounds (dec subtotal) x Hd Hx) as [Hb1 Hb2].
    split; [by apply half_up_nonneg|]. rewrite <- (half_up_cents subtotal) at 2. by apply half_up_mono.
  - unfold round_currency. rewrite half_up_cents. lia.
Qed.
(** *** Order numbers *)
Definition order_code (y i : Z) : string := "ORD-" ++ show_Z y ++ "-" ++ zero_pad 6 i.
Lemma cut_at_dash s s' t t' : all_chars is_digit s = true -> all_chars is_digit s' = true ->
  s ++ "-" ++ t = s' ++ "-" ++ t' -> t = t'.
Proof.
  revert s'. induction s as [|c s IH]; intros [|c' s'].
  - intros _ _ E. by injection E.
  - cbn [all_chars]. intros _ [Hc _]%andb_true_iff E. injection E as <- _. done.
  - cbn [all_chars]. intros [Hc _]%andb_true_iff _ E. injection E as -> _. done.
  - cbn [all_chars]. intros [_ Hs]%andb_true_iff [_ Hs']%andb_true_iff E. injection E as _ E. by eapply IH.
Qed.
Lemma show_Z_digits z : 0 <= z -> all_chars is_digit (show_Z z) = true.
Proof. intros Hz. unfold show_Z. replace (pretty z) with (pretty (Z.to_N z)) by (by destruct z). apply pretty_N_spec. Qed.
Lemma order_code_inj y y' i i' : 0 <= y -> 0 <= y' -> 0 <= i -> 0 <= i' -> order_code y i = order_code y' i' -> i = i'.
Proof.
  intros Hy Hy' Hi Hi' E. unfold order_code in E. apply app_str_inj_r, cut_at_dash in E; [|by apply show_Z_digits..]. by eapply zero_pad_inj.
Qed.
(** The year of an ordinal is the one whose days contain it. *)
Lemma year_of_spec y o : 1 <= y -> days_before_year y < o <= days_before_year (y + 1) -> year_of o = y.
Proof.
  intros Hy. unfold days_before_year, year_of. cbv zeta. replace (y + 1 - 1) with y by lia.
  set (a := y - 1). replace y with (a + 1) by lia. assert (Ha : 0 <= a) by lia. clearbody a. clear Hy y. intros Ho.
  set (n := o - 1) in *. assert (Hn : a * 365 + a / 4 - a / 100 + a / 400 <= n < (a + 1) * 365 + (a + 1) / 4 - (a + 1) / 100 + (a + 1) / 400) by lia.
  clearbody n. clear Ho o.
  pose proof (Z.div_mod a 400 ltac:(lia)) as E. pose proof (Z.mod_pos_bound a 400 ltac:(lia)) as Hr. set (q := a / 400) in *. set (r := a mod 400) in *.
  assert (E4 : a / 4 = 100 * q + r / 4) by (rewrite E; replace (400 * q + r) with (r + 100 * q * 4) by lia; rewrite Z.div_add by lia; lia).
  assert (E100 : a / 100 = 4 * q + r / 100) by (rewrite E; replace (400 * q + r) with (r + 4 * q * 100) by lia; rewrite Z.div_add by lia; lia).
  assert (F4 : (a + 1) / 4 = 100 * q + (r + 1) / 4) by (rewrite E; replace (400 * q + r + 1) with (r + 1 + 100 * q * 4) by lia; rewrite Z.div_add by lia; lia).
  assert (F100 : (a + 1) / 100 = 4 * q + (r + 1) / 100) by (rewrite E; replace (400 * q + r + 1) with (r + 1 + 4 * q * 100) by lia; rewrite Z.div_add by lia; lia).
  assert (F400 : (a + 1) / 400 = q + (r + 1) / 400) by (rewrite E; replace (400 * q + r + 1) with (r + 1 + q * 400) by lia; rewrite Z.div_add by lia; lia).
  set (d := n - 146097 * q). assert (Hd : r * 365 + r / 4 - r / 100 <= d < (r + 1) * 365 + (r + 1) / 4 - (r + 1) / 100 + (r + 1) / 400) by (unfold d; lia).
  assert (Hd400 : 0 <= d < 146097) by (Z.to_euclidean_division_equations; lia).
  assert (G1 : n / 146097 = q) by (symmetry; apply (Z.div_unique n 146097 q d); unfold d in *; lia).
  assert (G2 : n mod 146097 = d) by (symmetry; apply (Z.mod_unique n 146097 q d); unfold d in *; lia).
  rewrite G1, G2. clearbody d q r. clear - Hr Hd Hd400 E.
  pose proof (Z.div_mod d 36524 ltac:(lia)) as Ek. pose proof (Z.mod_pos_bound d 36524 ltac:(lia)) as He.
  set (k := d / 36524) in *. set (e := d mod 36524) in *. clearbody k e.
  pose proof (Z.div_mod e 1461 ltac:(lia)) as Em. pose proof (Z.mod_pos_bound e 1461 ltac:(lia)) as Hf.
  set (m := e / 1461) in *. set (f := e mod 1461) in *. clearbody m f.
  assert (Hk : k = 0 \/ k = 1 \/ k = 2 \/ k = 3 \/ k = 4) by lia.
  destruct (Z.eqb_spec (f / 365) 4) as [H4|H4]; destruct (Z.eqb_spec k 4) as [K4|K4]; cbn [orb];
    [| | |]; (destruct Hk as [->|[->|[->|[->| ->]]]]; try lia); Z.to_euclidean_division_equations; lia.
Qed.
Lemma year_of_ordinal y m d : 1 <= y -> 1 <= m <= 12 -> 1 <= d <= days_in_month y m -> year_of (ordinal y m d) = y.
Proof.
  intros Hy Hm Hd. apply year_of_spec; [done|]. pose proof (ordinal_in_year y m d Hm Hd). rewrite year_step. lia.
Qed.
Lemma year_of_nonneg o : 1 <= o -> 0 <= year_of o.
Proof.
  intros Ho. unfold year_of. cbv zeta. destruct (_ || _); Z.to_euclidean_division_equations; lia.
Qed.
(** Rows with a numbered code have different codes. *)
Lemma numbered_codes {A} (code : A -> string) (mk : Z -> Z -> string) (l : list Z) (k : list A) :
  (forall y y' i i', 0 <= y -> 0 <= y' -> 0 <= i -> 0 <= i' -> mk y i = mk y' i' -> i = i') -> NoDup l ->
  Forall2 (fun i b => 0 <= i /\ exists y, 0 <= y /\ code b = mk y i) l k -> NoDup (map code k).
Proof.
  intros Hinj Hnd Hall. induction Hall as [|i b l k (Hi & y & Hy & E) Hall IH]; [constructor|].
  apply NoDup_cons in Hnd as [Hi1 Hnd]. cbn [map]. constructor; [|by apply IH].
  intros (b' & E' & Hb')%list_elem_of_fmap. apply list_elem_of_lookup in Hb' as [j Hj].
  destruct (Forall2_lookup_r _ _ _ _ _ Hall Hj) as (i' & Hi' & Hi'0 & y' & Hy' & E2). apply Hi1.
  rewrite (Hinj y y' i i'); [by eapply list_elem_of_lookup_2|done..|by rewrite <- E, <- E2].
Qed.
Definition planned := (Order * list PlannedItem)%type.
(** What every generated order promises, [n] customers and [m] promotions being there. *)
Record order_ok (config : SeedConfig) (n m : nat) (products : list Product) (x : planned) : Prop := {
  oo_checks : order_checks (fst x) = true;
  oo_total : total_amount (fst x) =
    subtotal_amount (fst x) - discount_amount (fst x) + tax_amount (fst x) + shipping_amount (fst x);
  oo_subtotal : subtotal_amount (fst x) = plan_total (snd x);
  oo_discount : discount_amount (fst x) <= subtotal_amount (fst x);
  oo_plan : snd x <> [] /\ plan_ok products (snd x);
  oo_date : business_start config <= order_date (fst x) < last_second config + DAY;
  oo_customer : (order_customer (fst x) < n)%nat;
  oo_promotion : match order_promotion (fst x) with Some k => (k < m)%nat | None => True end }.
Lemma plan_total_nonneg products plan : plan_ok products plan -> 0 <= plan_total plan.
Proof.
  intros [_ Hall]. unfold plan_total. induction Hall as [|p l (_ & H1 & H2) _ IH]; cbn [map fold_right]; [lia|]. nia.
Qed.

Section Orders.
#[local] Set Default Proof Using "Type*".
Context {W : Type} `{Randomness W} `{Faker W} (config : SeedConfig) (good : good_config config).
Context (faker_ok : forall g m, total_prog (fake g m) (fun _ => True)).
Lemma total_item_count : total_prog (sample_item_count (W:=W) config) (fun n => 1 <= n).
Proof. unfold sample_item_count. cbv zeta. eapply total_weaken; [apply total_randint; lia|]. cbv beta. lia. Qed.
Lemma seasonal_ok m : weight_ok (seasonal_multiplier (seasonal_multipliers config) m).
Proof.
  unfold seasonal_multiplier. destruct (alist_get m _) as [q|] eqn:E; cbn [default]; [|split; [apply (is_float_int 1); lia|done]].
  apply alist_get_elem in E. destruct good as [_ _ _ _ _ _ Hs]. rewrite Forall_forall in Hs. exact (Hs _ E).
Qed.
Lemma total_order_date :
  total_prog (W:=W) (sample_order_date config (business_start_date config) (business_end_date config))
    (fun d => date_ordinal (business_start_date config) <= d <= date_ordinal (business_end_date config)).
Proof.
  pose proof (window_days config good) as (H1 & H2 & H3). pose proof good as [_ Hs He [_ Hy] _ _ _].
  destruct (month_windows_cover _ _ Hs He ltac:(lia) H2) as (ws & Hws & Ht). unfold sample_order_date.
  apply (total_bind_lift _ _ _ _ Hws). cbv zeta. pose proof (tiles_inside _ _ _ Ht) as Hin.
  step (total_weighted_choice (W:=W) (A:=Z * (Z * Z))).
  - intros ->. cbn [tiles] in Ht. lia.
  - by rewrite length_map.
  - apply weights_total; [destruct ws; [cbn [tiles] in Ht; lia|done]|]. apply Forall_forall.
    intros q (w & <- & _)%list_elem_of_In%in_map_iff. apply seasonal_ok.
  - intros [m [a b]] Hw. rewrite Forall_forall in Hin. specialize (Hin _ Hw). cbn [fst snd] in Hin.
    eapply total_weaken; [apply total_date_between; lia|]. cbv beta. lia.
Qed.
#[local] Set Default Proof Using "All".
Context (customers : list Customer) (products : list Product) (promotions : list Promotion)
  (some_customer : customers <> []) (some_product : products <> [])
  (few_products : Z.of_nat (length products) <= 2 ^ 53)
  (products_ok : Forall (fun p => product_checks p = true) products) (promotions_ok : Forall promo_ok promotions).

Lemma total_plan_items s :
  total_prog (W:=W) (plan_items config products s) (fun plan => plan <> [] /\ plan_ok products plan).
Proof.
  unfold plan_items. step total_item_count. intros n Hn. cbv zeta.
  assert (0 < length products)%nat by (destruct products; [done|simpl; lia]).
  step (total_pick_products (W:=W)); [lia|done|]. intros l (Hl & Hnd & Hin).
  eapply total_weaken; [apply (total_mapM _ (fun i p => pl_product p = i /\ 1 <= pl_quantity p /\ 0 <= pl_price p))|].
  { intros i Hi. apply total_plan_line; [done|]. rewrite Forall_forall in Hin. by apply Hin. }
  cbv beta. intros plan Hp. split; [intros ->; apply Forall2_length in Hp; simpl in Hp; lia|].
  assert (E : map pl_product plan = l).
  { clear - Hp. induction Hp as [|i p l plan (E & _) _ IH]; [done|]. cbn [map]. by rewrite E, IH. }
  split; [by rewrite E|]. clear - Hp Hin. induction Hp as [|i p l plan (E & H1 & H2) _ IH]; [constructor|].
  apply Forall_cons in Hin as [Hi Hin]. constructor; [by rewrite E|by apply IH].
Qed.
Lemma total_select_promotion day : total_prog (W:=W) (select_promotion config promotions day)
  (fun r => forall k p, r = Some (k, p) -> (k < length promotions)%nat /\ promo_ok p).
Proof.
  unfold select_promotion. destruct (negb (non_empty promotions)); [by finish|]. step_ (total_chance (W:=W)).
  destruct (negb a); [by finish|]. cbv zeta. set (active := List.filter _ _).
  assert (Hact : forall kp, kp ∈ active -> (fst kp < length promotions)%nat /\ promo_ok (snd kp)).
  { intros [k p] Hkp. unfold active in Hkp. apply list_elem_of_In, filter_In in Hkp as [Hz%list_elem_of_In _].
    cbn [fst snd]. pose proof (elem_of_zip_l _ _ _ _ Hz) as Hk. pose proof (elem_of_zip_r _ _ _ _ Hz) as Hp.
    unfold positions in Hk. apply list_elem_of_In, in_seq in Hk. rewrite Forall_forall in promotions_ok. split; [lia|by apply promotions_ok]. }
  destruct active as [|x l] eqn:E; [by finish|]. rewrite <- E in *. step (total_choice (W:=W) (A:=nat * Promotion)); [by rewrite E|].
  intros [k p] Hkp. finish. intros k' p' [= <- <-]. exact (Hact _ Hkp).
Qed.
Lemma total_order index : total_prog (W:=W) (make_order config customers products promotions index)
  (fun x => order_ok config (length customers) (length promotions) products x /\
            exists y, 0 <= y /\ order_number (fst x) = order_code y index).
Proof.
  unfold make_order. cbv zeta. step (total_weighted_choice (W:=W) (A:=nat * Customer)).
  - unfold positions. by destruct customers.
  - unfold positions. rewrite length_zip_with, length_seq, length_map. lia.
  - apply weights_total; [by destruct customers|]. apply Forall_forall. intros q (c & <- & _)%list_elem_of_In%in_map_iff.
    destruct (customer_segment c); cbn [order_frequency_multiplier]; (split; [is_a_float|by vm_compute]).
  - intros [k c] Hk%elem_of_zip_l. step total_order_date. intros d Hd. step_ (total_order_status (W:=W)).
    step total_plan_items. intros plan [Hne Hplan]. step total_select_promotion. intros promo Hpromo.
    step (total_randint (W:=W)); [lia|]. intros hour Hh. step_ (total_sales_channel (W:=W)). do 4 step_ faker_ok. finish.
    rewrite planned_sum_cents. pose proof (plan_total_nonneg _ _ Hplan) as Hs. set (sub := plan_total plan) in *.
    pose proof (discount_bounds (option_map snd promo) sub Hs) as Hdisc. set (disc := compute_discount _ sub) in *.
    assert (Hdb : 0 <= disc <= sub) by (apply Hdisc; intros p Hp; destruct promo as [[j p']|]; [|done]; injection Hp as <-; by eapply Hpromo).
    set (tax := round_currency ((dec sub - dec disc) * _)).
    assert (Htax : 0 <= tax).
    { apply half_up_nonneg, Qmult_le_0_compat; [rewrite dec_sub; apply dec_nonneg; lia|].
      apply tax_rate_nonneg. }
    assert (Hship : 0 <= shipping_fee sub) by (unfold shipping_fee, STANDARD_SHIPPING_FEE; destruct (_ <=? _); lia).
    set (ship := shipping_fee sub) in *.
    assert (Etot : round_currency (dec sub - dec disc + dec tax + dec ship) = sub - disc + tax + ship).
    { unfold round_currency. rewrite <- (half_up_cents (sub - disc + tax + ship)). apply half_up_ext. by rewrite dec_sub, !dec_add. }
    rewrite Etot. clearbody tax ship disc. pose proof (window_days config good) as (Hw & _).
    split; [|exists (year_of d); split; [apply year_of_nonneg; lia|done]]. constructor; cbn [fst snd order_checks subtotal_amount discount_amount tax_amount shipping_amount total_amount
      order_date order_customer order_promotion].
    + unfold order_checks. cbn [subtotal_amount discount_amount tax_amount shipping_amount total_amount]. rewrite !andb_true_iff, !Z.leb_le. lia.
    + done.
    + done.
    + lia.
    + done.
    + unfold business_start, last_second, combine, DAY in *. lia.
    + unfold positions in Hk. apply list_elem_of_In, in_seq in Hk. lia.
    + destruct promo as [[j p]|]; [|done]. by eapply Hpromo.
Qed.
Lemma total_orders n : 0 <= n -> total_prog (W:=W) (generate_orders config n customers promotions products)
  (fun l => length l = Z.to_nat n /\ Forall (order_ok config (length customers) (length promotions) products) l /\
    NoDup (map (fun x => order_number (fst x)) l)).
Proof.
  intros Hn. unfold generate_orders. apply total_counted; [done|].
  replace (non_empty customers) with true by (by destruct customers).
  replace (non_empty products) with true by (by destruct products). cbn [negb].
  eapply total_weaken; [apply (total_mapM _ (fun i x => order_ok config (length customers) (length promotions) products x /\
    (0 <= i /\ exists y, 0 <= y /\ order_number (fst x) = order_code y i)))|].
  - intros i Hi%elem_of_range. eapply total_weaken; [apply total_order|]. intros x [? ?]. split_and!; [done|lia|done].
  - cbv beta. intros l Hl. split_and!; [etransitivity; [symmetry; exact (Forall2_length _ _ _ Hl)|apply length_range]| |].
    + eapply (Forall2_right _ (range 1 (Z.to_nat n))), Forall2_impl; [exact Hl|]. by intros i x [? _].
    + eapply (numbered_codes _ order_code); [apply order_code_inj|apply NoDup_range|].
      eapply Forall2_impl; [exact Hl|]. by intros i x [_ ?].
Qed.
End Orders.
