(* ===== verification/SeedFulfilFacts.v ===== *)
(** * The seeding engine: what follows from the orders

    The items, payments, shipments, reviews and returns the generators build for orders that
    keep the promises of [order_ok]. *)
From S2P Require Import Prelude PyFloat FloatSum PyStr Models NluTime SeedRandom SeedConfig SeedModels SeedRules SeedCatalog SeedOrders SeedCatalogFacts SeedMarketFacts SeedOrderFacts.
#[local] Open Scope string_scope.
#[local] Open Scope Z_scope.

(** ** Order items *)
Definition item_of (order : nat) (p : PlannedItem) : OrderItem :=
  {| quantity := pl_quantity p; item_unit_price := pl_price p; item_discount := 0;
     line_total := pl_price p * pl_quantity p; item_order := order; item_product := pl_product p |}.
Fixpoint items_from (order : nat) (plans : list (list PlannedItem)) : list OrderItem :=
  match plans with
  | [] => []
  | plan :: plans' => (map (item_of order) plan ++ items_from (S order) plans')%list
  end.
Lemma make_plan_items (products : list Product) order plan : plan_ok products plan ->
  oflatmap (make_item products order) plan = Ret (map (item_of order) plan).
Proof.
  intros [_ Hall]. induction Hall as [|p plan (Hp & _) _ IH]; [done|]. cbn [oflatmap map].
  unfold make_item at 1. apply Nat.ltb_lt in Hp. rewrite Hp. cbn [obind]. rewrite IH. cbn [obind app]. do 2 f_equal.
  unfold item_of, round_currency. f_equal. rewrite (half_up_ext _ _ (dec_mul _ _)). apply half_up_cents.
Qed.
Lemma generate_items_Ret n (products : list Product) plans : 0 <= n -> Forall (plan_ok products) plans ->
  generate_items n products plans = Ret (items_from 0 plans).
Proof.
  intros Hn Hall. unfold generate_items, positions. rewrite check_count_Ret by done. cbn [obind]. generalize 0%nat.
  induction Hall as [|plan plans Hp _ IH]; intros k; [done|]. cbn [length seq zip zip_with oflatmap items_from].
  rewrite make_plan_items by done. cbn [obind]. by rewrite IH.
Qed.
Lemma elem_of_items_from i order plans : i ∈ items_from order plans <->
  exists k plan p, plans !! k = Some plan /\ p ∈ plan /\ i = item_of (order + k) p.
Proof.
  revert order. induction plans as [|plan plans IH]; intros order; cbn [items_from].
  - split; [by intros ?%elem_of_nil|intros (k & plan & p & Hk & _); by rewrite lookup_nil in Hk].
  - rewrite elem_of_app, IH. split.
    + intros [(p & -> & Hp)%list_elem_of_fmap|(k & pl & p & Hk & Hp & ->)].
      * exists 0%nat, plan, p. by rewrite Nat.add_0_r.
      * exists (S k), pl, p. by rewrite Nat.add_succ_r.
    + intros ([|k] & pl & p & Hk & Hp & ->).
      * injection Hk as <-. left. rewrite Nat.add_0_r. by apply list_elem_of_fmap_2.
      * right. exists k, pl, p. by rewrite Nat.add_succ_r.
Qed.
Lemma items_from_unique products order plans : Forall (plan_ok products) plans -> items_unique (items_from order plans).
Proof.
  unfold items_unique. intros Hall. revert order. induction Hall as [|plan plans [Hnd _] _ IH]; intros order; cbn [items_from]; [constructor|].
  rewrite map_app. apply NoDup_app. split_and!; [| |apply IH].
  - rewrite map_map. cbn [item_of item_order item_product]. rewrite <- (map_map pl_product (fun x => (order, x))).
    by apply (NoDup_fmap_2 (fun x => (order, x))).
  - intros [o x] (i & E & Hi)%list_elem_of_fmap (j & E' & Hj)%list_elem_of_fmap.
    apply list_elem_of_fmap in Hi as (p & -> & _). apply elem_of_items_from in Hj as (k & pl & q & _ & _ & ->).
    cbn [item_of item_order item_product] in *. injection E as -> _. injection E' as E' _. lia.
Qed.
(** [SUM(line_total)] over the items of the order at position [k]. *)
Definition total_of_order (k : nat) (l : list OrderItem) : Z :=
  fold_right Z.add 0 (map line_total (List.filter (fun i => item_order i =? k)%nat l)).
Lemma total_of_order_app k l l' : total_of_order k (l ++ l') = total_of_order k l + total_of_order k l'.
Proof.
  unfold total_of_order. rewrite List.filter_app, map_app. induction (map line_total _) as [|x m IH]; [done|].
  cbn [app fold_right]. rewrite IH. lia.
Qed.
Lemma total_of_plan k order plan : total_of_order k (map (item_of order) plan) = if (order =? k)%nat then plan_total plan else 0.
Proof.
  unfold total_of_order, plan_total. induction plan as [|p plan IH]; cbn [map List.filter item_of item_order fold_right]; [by destruct (_ =? _)%nat|].
  destruct (Nat.eqb_spec order k); [|done]. cbn [map fold_right line_total]. by rewrite IH.
Qed.
Lemma total_of_items k order plans plan : plans !! k = Some plan ->
  total_of_order (order + k) (items_from order plans) = plan_total plan.
Proof.
  assert (Hlow : forall j o ps, (j < o)%nat -> total_of_order j (items_from o ps) = 0).
  { intros j o ps. revert o. induction ps as [|pl ps IH]; intros o Hj; cbn [items_from]; [done|].
    rewrite total_of_order_app, total_of_plan, IH by lia. by destruct (Nat.eqb_spec o j); [lia|]. }
  revert order k. induction plans as [|pl plans IH]; intros order k Hk; [done|]. cbn [items_from].
  rewrite total_of_order_app, total_of_plan. destruct k as [|k].
  - injection Hk as ->. rewrite Nat.add_0_r, Nat.eqb_refl, Hlow by lia. lia.
  - rewrite Nat.add_succ_r. destruct (Nat.eqb_spec order (S (order + k))); [lia|]. rewrite <- Nat.add_succ_l. by rewrite IH.
Qed.

(** ** Payments *)
Definition payment_ok (o : Order) (p : Payment) : Prop :=
  amount p = total_amount o /\
  match paid_at p with
  | Some t => payment_status p = CAPTURED /\ order_date o < t <= order_date o + 180 * 60
  | None => payment_status p <> CAPTURED
  end.
(** At most two failed attempts, then the payment that settles the order. *)
Definition settled (o : Order) (ps : list Payment) : Prop :=
  exists failed last, ps = (failed ++ [last])%list /\ (length failed <= 2)%nat /\
    Forall (fun p => payment_status p = PAY_FAILED) failed /\
    match order_status o with
    | O_PENDING => failed = [] /\ payment_status last = PAY_PENDING
    | CANCELLED => payment_status last = CAPTURED \/ payment_status last = PAY_FAILED
    | _ => payment_status last = CAPTURED
    end.
(** The dates the orders may have, with room for what comes after. *)
Definition datable (o : Order) : Prop := DAY <= order_date o /\ order_date o < (MAX_ORDINAL - 398) * DAY.
Definition of_order (order : nat) (ps : list Payment) : list Payment := List.filter (fun p => payment_order p =? order)%nat ps.
Section Payments.
#[local] Set Default Proof Using "Type*".
Context {W : Type} `{Randomness W} (config : SeedConfig).
Definition reference (i : Z) : string := "ch_" ++ zero_pad 4 (seed config + 11) ++ zero_pad 8 i.
Lemma reference_inj i j : 0 <= i -> 0 <= j -> reference i = reference j -> i = j.
Proof. intros Hi Hj E. unfold reference in E. apply app_str_inj_r, app_str_inj_r in E. by apply zero_pad_inj in E. Qed.
Lemma total_draw_success b : total_prog (W:=W) (draw_success config b) (fun _ => True).
Proof.
  unfold draw_success, payment_succeeds. eapply (total_bind _ _ (fun _ => True)); [step_ (total_random (W:=W)); by finish|intros s _].
  destruct (b && s); [apply total_chance|by finish].
Qed.
Lemma total_retry n b s : total_prog (W:=W) (retry_payment config n b s) (fun r => (fst r <= n)%nat).
Proof.
  revert s. induction n as [|n IH]; intros s; cbn [retry_payment]; [finish; simpl; lia|]. destruct s; [finish; simpl; lia|].
  step_ total_draw_success. step IH. intros [k s'] Hk. finish. simpl in *. lia.
Qed.
Lemma total_payments_for_order k o sequence : datable o ->
  total_prog (W:=W) (payments_for_order config k o sequence)
    (fun ps => Forall (fun p => payment_order p = k /\ payment_ok o p) ps /\ settled o ps /\
      map transaction_reference ps = map reference (range (sequence + 1) (length ps))).
Proof.
  intros [Hd1 Hd2]. unfold payments_for_order. cbv zeta. case_bool_decide as E.
  { step_ (total_payment_method (W:=W)). finish. split; [by repeat constructor|].
    split; [|by cbn; rewrite Z.add_0_r]. eexists [], _. split_and!; [reflexivity|simpl; lia|constructor|]. rewrite E. done. }
  set (st := order_status o) in *.
  step_ (total_payment_method (W:=W)). step_ total_draw_success.
  eapply (total_bind _ _ (fun n => 0 <= n <= 2)); [destruct a0; [finish; lia|apply total_randint; lia]|].
  intros n Hn. step total_retry. intros [fails ok] Hf. cbn [fst] in Hf.
  set (attempts := map _ (seq 0 fails)).
  assert (Hatt : Forall (fun p => payment_order p = k /\ payment_ok o p) attempts /\
                 Forall (fun p => payment_status p = PAY_FAILED) attempts /\ (length attempts <= 2)%nat).
  { unfold attempts. rewrite length_map, length_seq. split_and!; [..|lia]; apply Forall_forall; by intros p (j & <- & _)%list_elem_of_In%in_map_iff. }
  assert (Href : forall p, transaction_reference p = reference (sequence + 1 + Z.of_nat fails) ->
    map transaction_reference (attempts ++ [p]) = map reference (range (sequence + 1) (length (attempts ++ [p])))).
  { intros p Ep. rewrite length_app, range_app, !map_app. f_equal; [|cbn; rewrite Ep; do 2 f_equal].
    - unfold attempts, range. by rewrite length_map, length_seq, !map_map.
    - unfold attempts. rewrite length_map, length_seq. lia. }
  destruct Hatt as (Ha1 & Ha2 & Ha3). clearbody attempts. destruct (ok || successful st) eqn:Es.
  - step (total_randint (W:=W)); [lia|]. intros minutes Hm. unfold DAY in *.
    eapply total_bind_lift; [apply shift_seconds_Ret; unfold DAY; lia|]. finish. split_and!; [| |by apply Href].
    + apply Forall_app. split; [done|]. constructor; [|constructor]. split; [done|]. split; [done|]. cbn. split; [done|lia].
    + exists attempts. eexists. split_and!; [reflexivity|done|done|]. fold st. cbn. destruct st; try done. by left.
  - finish. split_and!; [| |by apply Href].
    + apply Forall_app. split; [done|]. by repeat constructor.
    + exists attempts. eexists. split_and!; [reflexivity|done|done|]. fold st. cbn.
      apply orb_false_iff in Es as [_ Es]. destruct st; try done. by right.
Qed.
Definition paid_rows (order : nat) (orders : list Order) (ps : list Payment) : Prop :=
  Forall (fun p => exists j o, payment_order p = (order + j)%nat /\ orders !! j = Some o /\ payment_ok o p) ps /\
  forall j o, orders !! j = Some o -> settled o (of_order (order + j) ps).
Lemma of_order_app k l l' : of_order k (l ++ l') = (of_order k l ++ of_order k l')%list.
Proof. apply List.filter_app. Qed.
Lemma of_order_all k l : Forall (fun p => payment_order p = k) l -> of_order k l = l.
Proof. induction 1 as [|p l E _ IH]; [done|]. unfold of_order in *. cbn [List.filter]. by rewrite E, Nat.eqb_refl, IH. Qed.
Lemma of_order_none k l : Forall (fun p => payment_order p <> k) l -> of_order k l = [].
Proof. induction 1 as [|p l E _ IH]; [done|]. unfold of_order in *. cbn [List.filter]. apply Nat.eqb_neq in E. by rewrite E. Qed.
Lemma total_payments_from order orders sequence : Forall datable orders ->
  total_prog (W:=W) (payments_from config order orders sequence)
    (fun ps => paid_rows order orders ps /\ map transaction_reference ps = map reference (range (sequence + 1) (length ps))).
Proof.
  intros Hd. revert order sequence. induction Hd as [|o orders Ho _ IH]; intros order sequence; cbn [payments_from].
  { finish. split; [|done]. split; [constructor|]. intros j o Hj. by rewrite lookup_nil in Hj. }
  step total_payments_for_order; [done|]. intros ps (Hps & Hset & Href). step IH. intros rest [[Hr1 Hr2] Href2]. finish.
  split; [split|].
  - apply Forall_app. split.
    + eapply Forall_impl; [exact Hps|]. intros p [E Hp]. exists 0%nat, o. by rewrite Nat.add_0_r.
    + eapply Forall_impl; [exact Hr1|]. intros p (j & o' & E & Hj & Hp). exists (S j), o'. by rewrite Nat.add_succ_r.
  - intros [|j] o' Hj; rewrite of_order_app.
    + injection Hj as <-. rewrite Nat.add_0_r. rewrite of_order_all, of_order_none, app_nil_r; [done|..].
      * eapply Forall_impl; [exact Hr1|]. intros p (j & o' & E & _). lia.
      * eapply Forall_impl; [exact Hps|]. by intros p [? _].
    + rewrite Nat.add_succ_r, (of_order_none _ ps).
      * apply Hr2 in Hj. by rewrite <- Nat.add_succ_l.
      * eapply Forall_impl; [exact Hps|]. intros p [E _]. lia.
  - rewrite map_app, length_app, range_app, map_app, Href, Href2. do 3 f_equal. lia.
Qed.
Lemma total_payments n orders : 0 <= n -> Forall datable orders ->
  total_prog (W:=W) (generate_payments config n orders) (fun ps => paid_rows 0 orders ps /\ NoDup (map transaction_reference ps)).
Proof.
  intros Hn Ho. unfold generate_payments. apply total_counted; [done|]. eapply total_weaken; [by apply total_payments_from|].
  intros ps [Hps ->]. split; [done|]. apply NoDup_map_in; [|apply NoDup_range].
  intros i j Hi%elem_of_range Hj%elem_of_range. apply reference_inj; lia.
Qed.
End Payments.
Lemma settled_captured orders ps j o : paid_rows 0 orders ps -> orders !! j = Some o -> successful (order_status o) = true ->
  captured_by_order ps j = true.
Proof.
  intros [_ Hset] Hj Hs. destruct (Hset j o Hj) as (failed & last & E & _ & _ & Hlast). cbn [Nat.add] in E.
  unfold captured_by_order. apply existsb_exists. exists last.
  assert (Hin : In last (of_order j ps)) by (rewrite E; apply in_app_iff; right; by left).
  apply filter_In in Hin as [Hin Hk]. split; [done|]. rewrite Hk. cbn [andb].
  apply bool_decide_eq_true. destruct (order_status o); done.
Qed.

(** ** Shipments *)
Definition shipment_ok (whs : list Warehouse) (k : nat) (o : Order) (s : Shipment) : Prop :=
  shipment_order s = k /\ (shipment_warehouse s < length whs)%nat /\
  (order_status o = DELIVERED \/ order_status o = RETURNED -> shipment_status s = S_DELIVERED) /\
  (order_status o = CONFIRMED \/ order_status o = SHIPPED -> shipment_status s <> S_DELIVERED) /\
  match shipped_at s with
  | Some t => shipment_status s <> S_PENDING /\ order_date o <= t <= order_date o + 2 * DAY
  | None => shipment_status s = S_PENDING
  end /\
  match delivered_at s with
  | Some t => shipment_status s = S_DELIVERED /\ default (order_date o) (shipped_at s) + DAY <= t <= order_date o + 9 * DAY
  | None => shipment_status s <> S_DELIVERED
  end.
(** One shipment for every order that was not pending or cancelled, in the orders' sequence. *)
Definition numbered (order : nat) (orders : list Order) : list (nat * Order) := zip (seq order (length orders)) orders.
Definition shipped_orders (order : nat) (orders : list Order) : list (nat * Order) :=
  List.filter (fun ko => successful (order_status (snd ko))) (numbered order orders).
Section Shipments.
#[local] Set Default Proof Using "Type*".
Context {W : Type} `{Randomness W} (config : SeedConfig) (whs : list Warehouse) (some_warehouse : whs <> []).
Definition tracking (i : Z) : string := "1Z" ++ zero_pad 4 (seed config + 12) ++ zero_pad 10 i.
Lemma tracking_inj i j : 0 <= i -> 0 <= j -> tracking i = tracking j -> i = j.
Proof. intros Hi Hj E. unfold tracking in E. apply app_str_inj_r, app_str_inj_r in E. by apply zero_pad_inj in E. Qed.
Lemma total_resolve st : total_prog (W:=W) (resolve_status st) (fun s =>
  (st = DELIVERED \/ st = RETURNED -> s = S_DELIVERED) /\ (st = CONFIRMED \/ st = SHIPPED -> s <> S_DELIVERED)).
Proof.
  unfold resolve_status. destruct st.
  all: lazymatch goal with
    | |- total_prog (ret _) _ => finish; split; [done|by intros [?|?]]
    | |- _ => step_ (total_shipment_status (W:=W)); finish; split; [by intros [?|?]|intros _; by destruct a]
    end.
Qed.
Lemma total_build_shipment k o sequence : datable o ->
  total_prog (W:=W) (build_shipment config whs k o sequence) (fun s => shipment_ok whs k o s /\ tracking_number s = tracking sequence).
Proof.
  intros [Hd1 Hd2]. unfold build_shipment. step total_resolve. intros status [Hs1 Hs2]. step_ (total_carrier (W:=W)).
  eapply (total_bind _ _ (fun r => match r with
    | Some t => status <> S_PENDING /\ order_date o <= t <= order_date o + 2 * DAY | None => status = S_PENDING end)).
  { case_bool_decide as Ep; [by finish|]. step (total_randint (W:=W)); [lia|]. intros d Hd. unfold DAY in *.
    eapply total_bind_lift; [apply shift_seconds_Ret; unfold DAY; lia|]. finish. split; [done|lia]. }
  intros shipped Hsh. assert (Hbase : order_date o <= default (order_date o) shipped <= order_date o + 2 * DAY).
  { destruct shipped as [t|]; cbn [default]; [exact (proj2 Hsh)|unfold DAY; lia]. }
  eapply (total_bind _ _ (fun r => match r with
    | Some t => status = S_DELIVERED /\ default (order_date o) shipped + DAY <= t <= order_date o + 9 * DAY
    | None => status <> S_DELIVERED end)).
  { case_bool_decide as Ed; [|by finish]. unfold transit_delay_days.
    eapply (total_bind _ _ (fun d => 1 <= d <= 7)).
    { destruct (_ || _); (eapply total_weaken; [apply total_randint; lia|cbv beta; lia]). }
    intros d Hd. unfold DAY in *. eapply total_bind_lift; [apply shift_seconds_Ret; unfold DAY; lia|]. finish. split; [done|lia]. }
  intros delivered Hdel. step (total_choice (W:=W) (A:=nat)); [by destruct whs|]. intros w Hw. finish.
  split; [|done]. unfold shipment_ok. cbn [shipment_order shipment_warehouse shipment_status shipped_at delivered_at].
  unfold positions in Hw. apply list_elem_of_In, in_seq in Hw. split_and!; try done. lia.
Qed.
Lemma total_shipments_from order orders sequence : Forall datable orders ->
  total_prog (W:=W) (shipments_from config whs order orders sequence)
    (fun ss => Forall2 (fun ko s => shipment_ok whs (fst ko) (snd ko) s) (shipped_orders order orders) ss /\
               map tracking_number ss = map tracking (range (sequence + 1) (length ss))).
Proof.
  intros Hd. revert order sequence. induction Hd as [|o orders Ho _ IH]; intros order sequence; cbn [shipments_from].
  { finish. by split. }
  unfold shipped_orders, numbered in *. cbn [length seq zip zip_with List.filter snd].
  destruct (successful (order_status o)); [|apply IH].
  step total_build_shipment; [done|]. intros s [Hs E]. step IH. intros rest [Hr Er]. finish. split; [by constructor|].
  cbn [map length]. rewrite E, Er. change (S (length rest)) with (1 + length rest)%nat. rewrite (range_app (sequence + 1) 1 (length rest)). cbn. by rewrite Z.add_0_r.
Qed.
Lemma total_shipments n orders : 0 <= n -> Forall datable orders ->
  total_prog (W:=W) (generate_shipments config n orders whs)
    (fun ss => Forall2 (fun ko s => shipment_ok whs (fst ko) (snd ko) s) (shipped_orders 0 orders) ss /\
               NoDup (map tracking_number ss)).
Proof.
  intros Hn Ho. unfold generate_shipments. apply total_counted; [done|].
  replace (non_empty whs) with true by (by destruct whs). cbn [negb].
  eapply total_weaken; [by apply total_shipments_from|]. intros ss [Hss ->]. split; [done|].
  apply NoDup_map_in; [|apply NoDup_range]. intros i j Hi%elem_of_range Hj%elem_of_range. apply tracking_inj; lia.
Qed.
End Shipments.
Lemma elem_of_numbered k o order orders : (k, o) ∈ numbered order orders <-> (order <= k)%nat /\ orders !! (k - order)%nat = Some o.
Proof.
  unfold numbered. revert order. induction orders as [|o' orders IH]; intros order; cbn [length seq zip zip_with].
  - rewrite lookup_nil. split; [by intros ?%elem_of_nil|by intros [_ ?]].
  - fold (zip (seq (S order) (length orders)) orders). rewrite elem_of_cons, IH. split.
    + intros [[= -> ->]|[Hk Hl]]; [rewrite Nat.sub_diag; by split|]. split; [lia|].
      by replace (k - order)%nat with (S (k - S order)) by lia.
    + intros [Hk Hl]. destruct (decide (k = order)) as [->|Hne]; [left; rewrite Nat.sub_diag in Hl; by injection Hl as ->|].
      right. split; [lia|]. by replace (k - order)%nat with (S (k - S order)) in Hl by lia.
Qed.
Lemma shipment_order_of whs orders ships s :
  Forall2 (fun ko s => shipment_ok whs (fst ko) (snd ko) s) (shipped_orders 0 orders) ships -> s ∈ ships ->
  exists o, orders !! shipment_order s = Some o /\ successful (order_status o) = true /\ shipment_ok whs (shipment_order s) o s.
Proof.
  intros Hall (j & Hj)%list_elem_of_lookup. destruct (Forall2_lookup_r _ _ _ _ _ Hall Hj) as ([k o] & Hko & Hok).
  cbn [fst snd] in Hok. pose proof Hok as [E _]. apply list_elem_of_lookup_2, list_elem_of_In, filter_In in Hko as [Hin%list_elem_of_In Hs].
  apply elem_of_numbered in Hin as [_ Hin]. rewrite Nat.sub_0_r in Hin. exists o. rewrite E. by split_and!.
Qed.

(** The latest delivery of an order. *)
Lemma delivered_by_order_max ships k :
  match delivered_at_by_order ships k with
  | Some t => (exists s, s ∈ ships /\ shipment_order s = k /\ delivered_at s = Some t) /\
              forall s t', s ∈ ships -> shipment_order s = k -> delivered_at s = Some t' -> t' <= t
  | None => forall s, s ∈ ships -> shipment_order s = k -> delivered_at s = None
  end.
Proof.
  unfold delivered_at_by_order. rewrite <- (rev_involutive ships). rewrite <- fold_left_rev_right, rev_involutive.
  induction (rev ships) as [|s l IH]; [cbn [fold_right rev]; by intros s ?%elem_of_nil|]. cbn [fold_right rev].
  set (acc := fold_right _ None l) in *.
  assert (Hin : forall x, x ∈ (rev l ++ [s])%list <-> x ∈ rev l \/ x = s) by (intros x; by rewrite elem_of_app, list_elem_of_singleton).
  destruct (delivered_at s) as [t|] eqn:Et; [destruct (Nat.eqb_spec (shipment_order s) k) as [Ek|Ek]|].
  - destruct acc as [e|]; cbn [later].
    + destruct IH as [(s0 & Hs0 & Hk0 & Ht0) Hmax]. destruct (Z.ltb_spec e t).
      * split; [exists s; split_and!; [apply Hin; by right|done|done]|]. intros x t' [Hx| ->]%Hin Hk Hx'; [specialize (Hmax _ _ Hx Hk Hx'); lia|].
        rewrite Et in Hx'. injection Hx' as ->. lia.
      * split; [exists s0; split_and!; [apply Hin; by left|done|done]|]. intros x t' [Hx| ->]%Hin Hk Hx'; [by eapply Hmax|].
        rewrite Et in Hx'. injection Hx' as ->. lia.
    + split; [exists s; split_and!; [apply Hin; by right|done|done]|]. intros x t' [Hx| ->]%Hin Hk Hx'; [by rewrite (IH _ Hx Hk) in Hx'|].
      rewrite Et in Hx'. injection Hx' as ->. lia.
  - destruct acc as [e|].
    + destruct IH as [(s0 & Hs0 & Hk0 & Ht0) Hmax]. split; [exists s0; split_and!; [apply Hin; by left|done|done]|].
      intros x t' [Hx| ->]%Hin Hk Hx'; [by eapply Hmax|done].
    + intros x [Hx| ->]%Hin Hk; [by apply IH|done].
  - destruct acc as [e|].
    + destruct IH as [(s0 & Hs0 & Hk0 & Ht0) Hmax]. split; [exists s0; split_and!; [apply Hin; by left|done|done]|].
      intros x t' [Hx| ->]%Hin Hk Hx'; [by eapply Hmax|]. by rewrite Et in Hx'.
    + intros x [Hx| ->]%Hin Hk; [by apply IH|done].
Qed.

(** ** Reviews and returns: at most one row per item, in the items' sequence *)
Lemma optional_rows {A B} (key : B -> nat) (P : nat -> A -> B -> Prop) (l : list A) (rs : list (option B)) :
  Forall2 (fun ix r => forall b, r = Some b -> key b = fst ix /\ P (fst ix) (snd ix) b) (zip (positions l) l) rs ->
  NoDup (map key (omap id rs)) /\ forall b, b ∈ omap id rs -> exists x, l !! key b = Some x /\ P (key b) x b.
Proof.
  intros Hall. split.
  - eapply sublist_NoDup; [apply (NoDup_ListNoDup (seq 0 (length l))), seq_NoDup|].
    assert (E : map fst (zip (positions l) l) = seq 0 (length l)) by (apply fst_zip; unfold positions; rewrite length_seq; lia).
    rewrite <- E. clear E. induction Hall as [|[i x] r ixs rs Hr _ IH]; [constructor|]. cbn [omap list_omap map fst].
    destruct r as [b|]; cbn [id]; [|by constructor]. destruct (Hr b eq_refl) as [Hk _]. cbn [fst] in Hk. cbn [map]. rewrite Hk. by constructor.
  - intros b (r & Hr & Hb)%list_elem_of_omap. cbn [id] in Hb. subst r. apply list_elem_of_lookup in Hr as [j Hj].
    destruct (Forall2_lookup_r _ _ _ _ _ Hall Hj) as ([i x] & Hix & Hp). destruct (Hp b eq_refl) as [Hk HP]. cbn [fst snd] in *.
    apply lookup_zip_with_Some in Hix as (i' & x' & E & Hi & Hx). injection E as -> ->. unfold positions in Hi.
    apply lookup_seq in Hi as [-> _]. cbn [Nat.add] in *. exists x'. rewrite Hk. by split.
Qed.
Definition deliveries_ok (orders : list Order) (delivered : nat -> option Z) : Prop :=
  forall k t, delivered k = Some t -> DAY <= t < (MAX_ORDINAL - 380) * DAY.
Definition review_ok (orders : list Order) (delivered : nat -> option Z) (k : nat) (i : OrderItem) (r : ProductReview) : Prop :=
  review_checks r = true /\ is_verified_purchase r = true /\ review_product r = item_product i /\
  exists o t, orders !! item_order i = Some o /\ order_status o = DELIVERED /\ review_customer r = order_customer o /\
    delivered (item_order i) = Some t /\ t < review_date r <= t + 30 * DAY.
Definition return_ok (orders : list Order) (delivered : nat -> option Z) (captured : nat -> bool) (k : nat) (i : OrderItem)
    (r : Return) : Prop :=
  return_checks r = true /\ quantity_returned r <= quantity i /\
  (forall a, refund_amount r = Some a -> captured (item_order i) = true /\ refundable (return_status r) = true /\
                                         a = item_unit_price i * quantity_returned r) /\
  (exists o t, orders !! item_order i = Some o /\ (order_status o = DELIVERED \/ order_status o = RETURNED) /\
     delivered (item_order i) = Some t /\ t < requested_at r <= t + (RETURN_WINDOW_DAYS + 10) * DAY /\
     (requested_at r > t + RETURN_WINDOW_DAYS * DAY -> return_status r = REJECTED)) /\
  match resolved_at r with
  | Some u => terminal (return_status r) = true /\ requested_at r < u
  | None => return_status r = REQUESTED
  end.
Section Feedback.
#[local] Set Default Proof Using "Type*".
Context {W : Type} `{Randomness W} (config : SeedConfig) (orders : list Order) (items : list OrderItem)
  (delivered : nat -> option Z) (delivered_ok : deliveries_ok orders delivered).
Lemma total_review_for k i : total_prog (W:=W) (review_for config orders delivered k i)
  (fun r => forall b, r = Some b -> review_item b = k /\ review_ok orders delivered k i b).
Proof.
  unfold review_for. destruct (orders !! item_order i) as [o|] eqn:Eo; [|by finish].
  case_bool_decide as Es; cbn [negb]; [|by finish]. destruct (delivered (item_order i)) as [t|] eqn:Et; [|by finish].
  pose proof (delivered_ok _ _ Et) as Ht. unfold is_eligible_for_review. cbv zeta. step_ (total_chance (W:=W)).
  destruct a; cbn [negb]; [|by finish]. step (total_rating (W:=W)). intros r Hr.
  eapply (total_bind _ _ (fun _ => True)).
  { eapply total_weaken; [apply total_choice|done]. assert (Hc : r = 1 \/ r = 2 \/ r = 3 \/ r = 4 \/ r = 5) by lia.
    by destruct Hc as [->|[->|[->|[->| ->]]]]. }
  intros [title text] _. step (total_randint (W:=W)); [lia|]. intros d Hd. unfold DAY in *.
  eapply total_bind_lift; [apply shift_seconds_Ret; unfold DAY, MAX_ORDINAL in *; lia|]. finish. intros b [= <-]. split; [done|].
  unfold review_ok, review_checks. cbn [rating is_verified_purchase review_product review_customer review_date].
  split_and!; [rewrite andb_true_iff, !Z.leb_le; lia|done|done|]. exists o, t. split_and!; try done; unfold DAY; lia.
Qed.
Lemma total_return_status w c : total_prog (W:=W) (assign_return_status w c) (fun s => w && c = false -> s = REJECTED).
Proof.
  unfold assign_return_status. destruct (negb w || negb c) eqn:E; [by finish|].
  eapply total_weaken; [pick|]. intros s _ Hwc. by destruct w, c.
Qed.
Lemma window_is_open t d : is_return_window_open ((t + d * DAY - t) / DAY) = (0 <=? d) && (d <=? RETURN_WINDOW_DAYS).
Proof. unfold is_return_window_open, DAY. replace (t + d * 86400 - t) with (d * 86400) by lia. by rewrite Z.div_mul. Qed.
Lemma total_return_for captured k i : 1 <= quantity i -> 0 <= item_unit_price i ->
  total_prog (W:=W) (return_for config orders delivered captured k i)
    (fun r => forall b, r = Some b -> return_item b = k /\ return_ok orders delivered captured k i b).
Proof.
  intros Hq Hp. unfold return_for. destruct (orders !! item_order i) as [o|] eqn:Eo; [|by finish].
  destruct (delivered (item_order i)) as [t|] eqn:Et; [|by finish]. pose proof (delivered_ok _ _ Et) as Ht.
  eapply (total_bind _ _ (fun b => b = true -> order_status o = DELIVERED \/ order_status o = RETURNED)).
  { unfold is_eligible_for_return. destruct (order_status o);
      lazymatch goal with |- total_prog (ret _) _ => by finish | |- _ => eapply total_weaken; [apply total_chance|]; tauto end. }
  intros eligible Hel. destruct eligible; cbn [negb]; [|by finish]. specialize (Hel eq_refl).
  step (total_randint (W:=W)); [unfold RETURN_WINDOW_DAYS; lia|]. intros d Hd.
  assert (Hd40 : 1 <= d <= 40) by (unfold RETURN_WINDOW_DAYS in Hd; lia).
  eapply total_bind_lift; [apply shift_seconds_Ret; unfold DAY, MAX_ORDINAL in *; lia|]. cbv zeta. rewrite window_is_open.
  step total_return_status. intros status Hst. step (total_randint (W:=W)); [lia|]. intros q Hqr.
  eapply (total_bind _ _ (fun r => match r with
    | Some u => terminal status = true /\ t + d * DAY < u | None => terminal status = false end)).
  { destruct (terminal status); [|by finish]. step (total_randint (W:=W)); [lia|]. intros k' Hk'.
    eapply total_bind_lift; [apply shift_seconds_Ret; unfold DAY, MAX_ORDINAL in *; lia|]. finish. split; [done|unfold DAY; lia]. }
  intros resolved Hres. step_ (total_return_reason (W:=W)). finish. intros b [= <-]. split; [done|].
  assert (Href : round_currency (dec (item_unit_price i) * inject_Z q) = item_unit_price i * q).
  { unfold round_currency. rewrite (half_up_ext _ _ (dec_mul _ _)). apply half_up_cents. }
  rewrite Href. unfold return_ok, return_checks. cbn [quantity_returned refund_amount return_status requested_at resolved_at].
  split_and!; [|lia| | |].
  - apply andb_true_iff. split; [apply Z.ltb_lt; lia|]. destruct (refundable status); [apply Z.leb_le; nia|done].
  - intros x. destruct (refundable status) eqn:Er; [|done]. intros [= <-]. split_and!; [|done|done].
    destruct (captured (item_order i)) eqn:Ec; [done|]. rewrite andb_false_r in Hst. by rewrite (Hst eq_refl) in Er.
  - exists o, t. split_and!; try done; [unfold DAY; lia|unfold RETURN_WINDOW_DAYS, DAY; lia|]. intros Hlate. apply Hst.
    destruct (Z.leb_spec d RETURN_WINDOW_DAYS); [unfold DAY in Hlate; nia|]. by rewrite andb_false_r.
  - destruct resolved as [u|]; [done|]. by destruct status.
Qed.
End Feedback.
Section Rows.
#[local] Set Default Proof Using "Type*".
Context {W : Type} `{Randomness W} (config : SeedConfig) (orders : list Order) (items : list OrderItem) (ships : list Shipment)
  (delivered_ok : deliveries_ok orders (delivered_at_by_order ships)).
Lemma total_reviews n : 0 <= n -> total_prog (W:=W) (generate_reviews config n orders items ships) (fun l =>
  reviews_unique l /\ forall r, r ∈ l -> exists i, items !! review_item r = Some i /\
    review_ok orders (delivered_at_by_order ships) (review_item r) i r).
Proof.
  intros Hn. unfold generate_reviews. apply total_counted; [done|].
  eapply total_bind; [apply (total_mapM _ (fun ix r => forall b, r = Some b -> review_item b = fst ix /\
    review_ok orders (delivered_at_by_order ships) (fst ix) (snd ix) b)); intros [k i] _; by apply total_review_for|].
  intros rs Hrs. finish. by apply (optional_rows _ (review_ok orders (delivered_at_by_order ships))).
Qed.
Lemma total_returns pays n : 0 <= n -> Forall (fun i => 1 <= quantity i /\ 0 <= item_unit_price i) items ->
  total_prog (W:=W) (generate_returns config n orders items ships pays) (fun l =>
    NoDup (map return_item l) /\ forall r, r ∈ l -> exists i, items !! return_item r = Some i /\
      return_ok orders (delivered_at_by_order ships) (captured_by_order pays) (return_item r) i r).
Proof.
  intros Hn Hi. unfold generate_returns. apply total_counted; [done|].
  eapply total_bind; [apply (total_mapM _ (fun ix r => forall b, r = Some b -> return_item b = fst ix /\
    return_ok orders (delivered_at_by_order ships) (captured_by_order pays) (fst ix) (snd ix) b))|].
  - intros [k i] Hki%elem_of_zip_r. rewrite Forall_forall in Hi. by apply total_return_for; [|apply Hi..].
  - intros rs Hrs. finish. by apply (optional_rows _ (return_ok orders (delivered_at_by_order ships) (captured_by_order pays))).
Qed.
End Rows.
(** Deliveries follow their orders within nine days. *)
Lemma deliveries_follow whs orders ships : Forall datable orders ->
  Forall2 (fun ko s => shipment_ok whs (fst ko) (snd ko) s) (shipped_orders 0 orders) ships ->
  deliveries_ok orders (delivered_at_by_order ships).
Proof.
  intros Hd Hall k t Hk. pose proof (delivered_by_order_max ships k) as Hmax. rewrite Hk in Hmax.
  destruct Hmax as [(s & Hs & _ & Ht) _]. destruct (shipment_order_of _ _ _ _ Hall Hs) as (o & Ho & _ & Hok).
  destruct Hok as (_ & _ & _ & _ & Hsh & Hdel). rewrite Ht in Hdel. destruct Hdel as [_ Hb].
  rewrite Forall_forall in Hd. destruct (Hd o) as [H1 H2]; [by eapply list_elem_of_lookup_2|].
  destruct (shipped_at s) as [u|]; cbn [default from_option id] in Hb; [destruct Hsh as [_ Hsh]|]; unfold DAY, MAX_ORDINAL in *; lia.
Qed.
