(* ===== verification/SeedSpec.v ===== *)
(** * The seeding engine: what a run promises

    [SeedOrchestrator.run] returns for every good configuration, with a dataset inside every
    table constraint, whose money adds up and whose rows follow each other in time; and
    [DatasetValidator] finds nothing to report about such a dataset. *)
From S2P Require Import Prelude PyFloat FloatSum PyStr Models NluTime SeedRandom SeedConfig SeedModels SeedRules SeedCatalog SeedOrders SeedRun SeedCatalogFacts SeedMarketFacts SeedOrderFacts SeedFulfilFacts.
#[local] Open Scope string_scope.
#[local] Open Scope Z_scope.

(** ** The specification *)
(** An order's own figures, its lines' sum included, and the rows it refers to. *)
Definition order_sound (d : Dataset) (k : nat) (o : Order) : Prop :=
  order_checks o = true /\ subtotal_amount o = items_total d k /\
  total_amount o = subtotal_amount o - discount_amount o + tax_amount o + shipping_amount o /\
  discount_amount o <= subtotal_amount o /\ (order_customer o < length (customers d))%nat /\
  match order_promotion o with Some p => (p < length (promotions d))%nat | None => True end /\
  exists i, i ∈ items d /\ item_order i = k.
Record sound_dataset (c : SeedConfig) (d : Dataset) : Prop := {
  sd_sizes : take 9 (row_numbers d) =
    [n_suppliers (dataset_size c); n_warehouses (dataset_size c); n_product_categories (dataset_size c);
     n_products (dataset_size c); n_inventory (dataset_size c); n_customers (dataset_size c);
     customer_addresses (dataset_size c); n_promotions (dataset_size c); n_orders (dataset_size c)];
  sd_codes : Forall (NoDup (A:=string)) [map supplier_code (suppliers d); map warehouse_code (warehouses d); map sku (products d);
    map customer_number (customers d); map promotion_code (promotions d); map order_number (orders d);
    map transaction_reference (payments d); map tracking_number (shipments d)];
  sd_catalog : Forall (fun s => supplier_checks s = true) (suppliers d) /\ categories_unique (categories d) /\
    Forall (fun p => product_checks p = true /\ (product_category p < length (categories d))%nat /\
                     (product_supplier p < length (suppliers d))%nat) (products d);
  sd_inventory : inventory_unique (inventory d) /\
    Forall (fun i => inventory_checks i = true /\ (inv_product i < length (products d))%nat /\
                     (inv_warehouse i < length (warehouses d))%nat) (inventory d);
  sd_market : default_addresses_unique (addresses d) /\
    Forall (fun a => address_customer a < length (customers d))%nat (addresses d) /\
    Forall (fun p => promotion_checks p = true) (promotions d);
  sd_orders : forall k o, orders d !! k = Some o -> order_sound d k o;
  sd_items : items_unique (items d) /\
    Forall (fun i => item_checks i = true /\ (item_order i < length (orders d))%nat /\
                     (item_product i < length (products d))%nat) (items d);
  sd_payments : paid_rows 0 (orders d) (payments d);
  sd_shipments : Forall2 (fun ko s => shipment_ok (warehouses d) (fst ko) (snd ko) s) (shipped_orders 0 (orders d)) (shipments d);
  sd_reviews : reviews_unique (reviews d) /\ forall r, r ∈ reviews d -> exists i, items d !! review_item r = Some i /\
    review_ok (orders d) (delivered_at_by_order (shipments d)) (review_item r) i r;
  sd_returns : forall r, r ∈ returns d -> exists i, items d !! return_item r = Some i /\
    return_ok (orders d) (delivered_at_by_order (shipments d)) (captured_by_order (payments d)) (return_item r) i r }.

(** ** The validator agrees *)
Lemma count_if_zero {A} (p : A -> bool) l : (forall x, x ∈ l -> p x = false) -> count_if p l = 0.
Proof.
  intros Hp. unfold count_if. replace (List.filter p l) with (@nil A); [done|].
  induction l as [|x l IH]; [done|]. cbn [List.filter]. rewrite (Hp x) by left. apply IH. intros y Hy. apply Hp. by right.
Qed.
Lemma zero_check_passes name n what : n = 0 -> passed (zero_check name n what) = true.
Proof. by intros ->. Qed.
Lemma some_lookup {A} (l : list A) i : (i < length l)%nat -> is_some (l !! i) = true.
Proof. intros Hi. destruct (lookup_lt_is_Some_2 l i Hi) as [x ->]. done. Qed.

Section Validator.
Context (c : SeedConfig) (d : Dataset) (sound : sound_dataset c d).
#[local] Set Default Proof Using "Type*".
Lemma orders_have_customers : passed (check_no_orphan_orders d) = true.
Proof.
  apply zero_check_passes, count_if_zero. intros o (k & Hk)%list_elem_of_lookup.
  destruct (sd_orders c d sound k o Hk) as (_ & _ & _ & _ & Hc & _). by rewrite some_lookup.
Qed.
Lemma items_have_parents : passed (check_no_orphan_order_items d) = true.
Proof.
  apply zero_check_passes, count_if_zero. intros i Hi. destruct (sd_items c d sound) as [_ Hall].
  rewrite Forall_forall in Hall. destruct (Hall i Hi) as (_ & Ho & Hp). unfold order_of. by rewrite !some_lookup.
Qed.
Lemma totals_add_up : passed (check_order_totals d) = true.
Proof.
  apply zero_check_passes, count_if_zero. intros [k o] Hko. apply (elem_of_numbered k o 0) in Hko as [_ Hk]. rewrite Nat.sub_0_r in Hk.
  destruct (sd_orders c d sound k o Hk) as (_ & Hs & Ht & _). by rewrite Hs, Ht, Hs, !Z.eqb_refl.
Qed.
Lemma payments_match : passed (check_payment_amounts d) = true.
Proof.
  apply zero_check_passes, count_if_zero. intros p Hp. destruct (sd_payments c d sound) as [Hall _].
  rewrite Forall_forall in Hall. destruct (Hall p Hp) as (j & o & E & Hj & Ha & _). cbn [Nat.add] in E. subst j.
  by rewrite Hj, Ha, Z.eqb_refl.
Qed.
Lemma stock_is_there : passed (check_inventory_non_negative d) = true.
Proof.
  apply zero_check_passes, count_if_zero. intros i Hi. destruct (sd_inventory c d sound) as [_ Hall].
  rewrite Forall_forall in Hall. destruct (Hall i Hi) as [Hok _]. unfold inventory_checks in Hok.
  apply andb_true_iff in Hok as [Hq%Z.leb_le _]. by apply Z.ltb_ge.
Qed.
Lemma reviews_are_eligible : passed (check_review_eligibility d) = true.
Proof.
  destruct (sd_reviews c d sound) as [_ Hall]. unfold check_review_eligibility. cbv zeta. cbn [passed].
  rewrite !count_if_zero; [done| |].
  - intros [r s] Hrs. apply list_elem_of_In, in_prod_iff in Hrs as [Hr%list_elem_of_In Hs%list_elem_of_In].
    destruct (Hall r Hr) as (i & Hi & _ & _ & _ & o & t & _ & _ & _ & Ht & Hlate). rewrite Hi.
    destruct (delivered_at s) as [u|] eqn:Eu; [|done]. destruct (Nat.eqb_spec (shipment_order s) (item_order i)) as [E|]; [|done].
    pose proof (delivered_by_order_max (shipments d) (item_order i)) as Hmax. rewrite Ht in Hmax. destruct Hmax as [_ Hmax].
    specialize (Hmax s u Hs E Eu). cbn [andb]. apply Z.leb_gt. lia.
  - intros r Hr. destruct (Hall r Hr) as (i & Hi & _ & _ & _ & o & t & Ho & Hst & _).
    unfold order_through, order_of. rewrite Hi. cbn [mbind option_bind]. rewrite Ho, Hst. done.
Qed.
Lemma returns_are_eligible : passed (check_return_eligibility d) = true.
Proof.
  apply zero_check_passes, count_if_zero. intros r Hr. destruct (sd_returns c d sound r Hr) as (i & Hi & _ & _ & _ & (o & t & Ho & Hst & _) & _).
  unfold order_through, order_of. rewrite Hi. cbn [mbind option_bind]. rewrite Ho. cbn [has_status existsb].
  by destruct Hst as [-> | ->].
Qed.
End Validator.
Lemma non_empty_len {A} (l : list A) : (0 <? len l) = non_empty l.
Proof. by destruct l. Qed.
Lemma sound_row_counts c d : good_config c -> sound_dataset c d ->
  passed (check_row_counts d) = (0 <? customer_addresses (dataset_size c)) && (non_empty (reviews d) && non_empty (returns d)).
Proof.
  intros Hgood Hs. destruct (sizes_positive c Hgood) as [Hpos _]. pose proof (sd_sizes c d Hs) as Hsz.
  unfold row_numbers in Hsz. cbn [take] in Hsz. injection Hsz as E1 E2 E3 E4 E5 E6 E7 E8 E9.
  assert (Horders : exists o, orders d !! 0%nat = Some o).
  { apply lookup_lt_is_Some_2. repeat apply Forall_cons in Hpos as [? Hpos]. unfold len in *. lia. }
  destruct Horders as [o Ho]. destruct (sd_orders c d Hs 0%nat o Ho) as (_ & _ & _ & _ & _ & _ & i & Hi & _).
  assert (Hitems : non_empty (items d) = true) by (destruct (items d); [by apply elem_of_nil in Hi|done]).
  assert (Hpays : non_empty (payments d) = true).
  { destruct (sd_payments c d Hs) as [_ Hset]. destruct (Hset 0%nat o Ho) as (failed & last & E & _).
    destruct (payments d); [|done]. by destruct failed. }
  assert (Hships : non_empty (reviews d) = true -> non_empty (shipments d) = true).
  { destruct (sd_reviews c d Hs) as [_ Hall]. destruct (reviews d) as [|r rs]; [done|]. intros _.
    destruct (Hall r) as (j & _ & _ & _ & _ & o' & t & _ & _ & _ & Ht & _); [by left|].
    pose proof (delivered_by_order_max (shipments d) (item_order j)) as Hmax. rewrite Ht in Hmax.
    destruct Hmax as [(s & Hin & _) _]. destruct (shipments d); [by apply elem_of_nil in Hin|done]. }
  unfold check_row_counts. cbn [passed]. unfold table_counts, TABLES, row_numbers. cbn [zip zip_with forallb snd].
  rewrite E1, E2, E3, E4, E5, E6, E7, E8, E9, !non_empty_len, Hitems, Hpays.
  repeat apply Forall_cons in Hpos as [?%Z.ltb_lt Hpos].
  repeat match goal with H : (0 <? _) = true |- _ => rewrite H; clear H end. cbn [andb].
  destruct (0 <? customer_addresses _); [|done]. cbn [andb].
  destruct (non_empty (reviews d)); [rewrite Hships by done|by rewrite andb_false_r]. cbn [andb]. by rewrite andb_true_r.
Qed.
(** C36. The validator finds nothing wrong with the data of a run: every integrity check
    passes, and the whole report passes exactly when addresses were asked for and the draws
    produced a review and a return. *)
Theorem validation_fails_only_on_missing_rows c d : good_config c -> sound_dataset c d ->
  Forall (fun k => passed k = true) (tail (validate d)) /\
  all_passed (validate d) =
    (0 <? customer_addresses (dataset_size c)) && (non_empty (reviews d) && non_empty (returns d)).
Proof.
  intros Hgood Hs. assert (Hrest : Forall (fun k => passed k = true) (tail (validate d))).
  { cbn [validate tail]. repeat constructor.
    - by eapply orders_have_customers.
    - by eapply items_have_parents.
    - by eapply totals_add_up.
    - by eapply payments_match.
    - by eapply stock_is_there.
    - by eapply reviews_are_eligible.
    - by eapply returns_are_eligible. }
  split; [done|]. rewrite <- (sound_row_counts c d Hgood Hs). unfold all_passed, validate in *. cbn [tail forallb] in *.
  repeat apply Forall_cons in Hrest as [-> Hrest]. by rewrite !andb_true_r.
Qed.

(** ** The run *)
Lemma some_rows {A} (l : list A) n : length l = Z.to_nat n -> 0 < n -> l <> [].
Proof. intros Hl Hn ->. simpl in Hl. lia. Qed.
Lemma orders_datable config (good : good_config config) n m prods planned :
  Forall (order_ok config n m prods) planned -> Forall datable (map fst planned).
Proof.
  intros Hall. pose proof (window_days config good) as (H1 & H2 & H3). apply Forall_forall. intros o (x & -> & Hx)%list_elem_of_fmap.
  rewrite Forall_forall in Hall. pose proof (oo_date _ _ _ _ _ (Hall x Hx)) as Hd.
  unfold datable, business_start, last_second, combine, DAY in *. lia.
Qed.
Lemma planned_quantities (prods : list Product) plans : Forall (plan_ok prods) plans ->
  Forall (fun i => 1 <= quantity i /\ 0 <= item_unit_price i) (items_from 0 plans).
Proof.
  intros Hall. apply Forall_forall. intros i (k & plan & p & Hk & Hp & ->)%elem_of_items_from. rewrite Forall_forall in Hall.
  destruct (Hall plan) as [_ Hp2]; [by eapply list_elem_of_lookup_2|]. rewrite Forall_forall in Hp2. destruct (Hp2 p Hp) as (_ & H1 & H2). by split.
Qed.
Lemma planned_items_sound (prods : list Product) (planned : list planned) : Forall (plan_ok prods) (map snd planned) ->
  Forall (fun i => item_checks i = true /\ (item_order i < length (map fst planned))%nat /\ (item_product i < length prods)%nat)
    (items_from 0 (map snd planned)).
Proof.
  intros Hall. apply Forall_forall. intros i (k & plan & p & Hk & Hp & ->)%elem_of_items_from. rewrite Forall_forall in Hall.
  destruct (Hall plan) as [_ Hp2]; [by eapply list_elem_of_lookup_2|]. rewrite Forall_forall in Hp2. destruct (Hp2 p Hp) as (H1 & H2 & H3).
  apply lookup_lt_Some in Hk. rewrite length_map in *. cbn [item_of item_order item_product Nat.add]. split_and!; [|done|done].
  unfold item_checks. cbn [item_of quantity item_unit_price item_discount line_total]. rewrite !andb_true_iff, Z.ltb_lt, !Z.leb_le. nia.
Qed.
Lemma planned_order_sound config prods planned d k o : Forall (order_ok config (length (customers d)) (length (promotions d)) prods) planned ->
  items d = items_from 0 (map snd planned) -> map fst planned !! k = Some o -> order_sound d k o.
Proof.
  intros Hall Hit Hk. apply list_lookup_fmap_Some in Hk as ([o' plan] & E1 & E). cbn [fst] in E1. subst o'.
  rewrite Forall_forall in Hall. destruct (Hall (o, plan)) as [H1 H2 H3 H4 [H5 H6] H7 H8 H9]; [by eapply list_elem_of_lookup_2|].
  cbn [fst snd] in *. assert (Hplan : map snd planned !! k = Some plan) by (by apply list_lookup_fmap_Some; exists (o, plan)).
  unfold order_sound. split_and!; try done.
  - rewrite H3. unfold items_total. rewrite Hit. symmetry. exact (total_of_items k 0 (map snd planned) plan Hplan).
  - destruct plan as [|p plan]; [done|]. exists (item_of k p). split; [|done]. rewrite Hit. apply elem_of_items_from.
    exists k, (p :: plan), p. split_and!; [done|by left|done].
Qed.
Section Run.
#[local] Set Default Proof Using "Type*".
Context {W : Type} `{Randomness W} `{Faker W} `{Clock W} (persist_records : Batch -> prog W exn unit).
Context (faker_ok : forall g m, total_prog (fake g m) (fun _ => True))
        (birth_ok : forall g, total_prog (fake_date_of_birth g) (fun _ => True))
        (persist_ok : forall b, total_prog (persist_records b) (fun _ => True)).
Lemma total_perf_counter : total_prog (W:=W) (E:=exn) perf_counter (fun _ => True).
Proof. intros w. unfold perf_counter. destruct (tick w) as [t w']. by exists t, w'. Qed.
(** A stage hands the rows it generated to the next one. *)
Lemma total_stage {A} (batch : list A -> Batch) gen k seconds P Q : total_prog gen P ->
  (forall rows s, P rows -> total_prog (k rows s) Q) -> total_prog (stage persist_records batch gen k seconds) Q.
Proof.
  intros Hg Hk. unfold stage. step Hg. intros rows Hr. step_ total_perf_counter. step_ persist_ok. step_ total_perf_counter.
  by apply Hk.
Qed.
Lemma total_stages (config : SeedConfig) : good_config config ->
  total_prog (run_stages persist_records config) (fun r => sound_dataset config (fst r)).
Proof.
  intros good. destruct (sizes_positive config good) as (Hpos & Hitems & Haddrs).
  repeat apply Forall_cons in Hpos as [? Hpos].
  assert (Hni : 0 <= order_items (dataset_size config)).
  { apply py_round_nonneg, fmul_nonneg; [apply f_of_Z_nonneg; lia|by apply Qlt_le_weak]. }
  assert (Hna : 0 <= customer_addresses (dataset_size config)).
  { apply py_round_nonneg, fmul_nonneg; [apply f_of_Z_nonneg; lia|by apply Qlt_le_weak]. }
  pose proof (gc_stock config good) as Hstock. pose proof (gc_products config good) as Hfew.
  unfold run_stages. cbv zeta.
  eapply total_stage; [apply (total_suppliers config good faker_ok birth_ok); lia|]. intros sups ? (Lsup & Csup & Ksup).
  eapply total_stage; [apply (total_warehouses config good faker_ok birth_ok); lia|]. intros whs ? [Lwh Kwh].
  eapply total_stage; [apply (total_categories config good faker_ok birth_ok); lia|]. intros cats ? [Lcat Ccat].
  pose proof (some_rows _ _ Lsup ltac:(lia)) as Hsup. pose proof (some_rows _ _ Lwh ltac:(lia)) as Hwh.
  pose proof (some_rows _ _ Lcat ltac:(lia)) as Hcat.
  eapply total_stage; [apply (total_products config good faker_ok birth_ok); [lia|done|done]|]. intros prods ? (Lprod & Cprod & Kprod).
  pose proof (some_rows _ _ Lprod ltac:(lia)) as Hprod.
  eapply total_stage; [apply (total_inventory config good faker_ok birth_ok); [lia|done|done|rewrite Lprod, Lwh; lia]|].
  intros inv ? (Linv & Uinv & Cinv).
  eapply total_stage; [apply (total_customers config good faker_ok birth_ok); lia|]. intros custs ? [Lcust Kcust].
  pose proof (some_rows _ _ Lcust ltac:(lia)) as Hcust.
  eapply total_stage; [apply (total_addresses faker_ok birth_ok); [done|done]|]. intros addrs ? (Laddr & Uaddr & Caddr).
  eapply total_stage; [apply (total_promotions config good faker_ok birth_ok); lia|]. intros proms ? (Lprom & Cprom & Kprom).
  eapply total_bind; [apply (total_orders config good faker_ok custs prods proms); [done|done|lia| | |lia]|].
  { eapply Forall_impl; [exact Cprod|]. by intros p [? _]. }
  { eapply Forall_impl; [exact Cprom|]. by intros p [_ ?]. }
  intros planned (Lord & Cord & Kord). pose proof (orders_datable config good _ _ _ _ Cord) as Hdate.
  eapply (total_stage _ _ _ _ (fun os => os = map fst planned)); [by finish|]. intros ords ? ->.
  assert (Hplans : Forall (plan_ok prods) (map snd planned)).
  { apply Forall_forall. intros plan (x & -> & Hx)%list_elem_of_fmap. rewrite Forall_forall in Cord. by destruct (Cord x Hx) as [_ _ _ _ [_ ?] _ _ _]. }
  eapply (total_stage _ _ _ _ (fun is_ => is_ = items_from 0 (map snd planned)));
    [eapply total_lift; [by apply generate_items_Ret|done]|]. intros its ? ->.
  eapply total_stage; [apply (total_payments config); [lia|done]|]. intros pays ? [Hpays Kpays].
  eapply total_stage; [apply (total_shipments config whs Hwh); [lia|done]|]. intros ships ? [Hships Kships].
  pose proof (deliveries_follow _ _ _ Hdate Hships) as Hdel.
  eapply total_stage; [apply (total_reviews config _ (items_from 0 (map snd planned)) ships Hdel); lia|]. intros revs ? Hrevs.
  eapply total_stage; [apply (total_returns config _ (items_from 0 (map snd planned)) ships Hdel pays); [lia|by apply planned_quantities with prods]|].
  intros rets ? [_ Hrets]. finish. cbn [fst].
  constructor; cbn [suppliers warehouses categories products inventory customers addresses promotions orders items payments shipments reviews returns row_numbers take]; try done.
  - unfold len. rewrite Lsup, Lwh, Lcat, Lprod, Linv, Lcust, Laddr, Lprom, length_map, Lord. rewrite !Z2Nat.id by lia. done.
  - repeat (apply List.Forall_cons; [by rewrite ?map_map|]). apply List.Forall_nil.
  - split_and!; [done|done|]. eapply Forall_impl; [exact Cprom|]. by intros p [? _].
  - intros k o Hk. by eapply planned_order_sound.
  - split; [by eapply items_from_unique|]. apply planned_items_sound. done.
Qed.
Lemma total_of_cents os : total_of os = fold_right Z.add 0 (map total_amount os).
Proof.
  assert (E : forall acc q, (q == dec acc)%Q ->
    (fold_left (fun acc o => acc + dec (total_amount o)) os q == dec (acc + fold_right Z.add 0%Z (map total_amount os)))%Q).
  { induction os as [|o os IH]; intros acc q Hq; cbn [fold_left map fold_right]; [rewrite Hq; by rewrite Z.add_0_r|].
    rewrite Z.add_assoc. apply IH. by rewrite Hq, dec_add. }
  unfold total_of, round_currency. rewrite (half_up_ext _ _ (E 0 0%Q ltac:(done))). apply half_up_cents.
Qed.
(** C35. A run always returns: with any stream of random draws, any faker and any store that
    accept the calls, a good configuration yields a dataset that keeps every promise of
    [sound_dataset], and a report that counts that dataset's rows and adds up its revenue. *)
Theorem seeding_builds_sound_data scenario config : good_config (orchestrator_config scenario config) ->
  total_prog (run persist_records scenario config) (fun '(report, d) =>
    sound_dataset (orchestrator_config scenario config) d /\
    map snd (row_counts report) = row_numbers d /\
    total_revenue report = fold_right Z.add 0 (map total_amount (orders d))).
Proof.
  intros Hgood. unfold run. step_ total_perf_counter. step total_stages; [exact Hgood|].
  intros [d seconds] Hd. step_ total_perf_counter. finish. split; [exact Hd|]. cbn [row_counts total_revenue from_results].
  split; [done|apply total_of_cents].
Qed.
End Run.

(** ** The configurations the project ships *)
Lemma valid_config_spec c : valid_config c = true <->
  valid_sizes (dataset_size c) = true /\ String.length (currency c) = 3%nat /\
  existsb (String.eqb (output_verbosity c)) ["quiet"; "normal"; "verbose"] = true /\
  Forall (fun x => in_unit x = true) [promotion_frequency c; return_rate c; review_rate c; payment_failure_rate c] /\
  date_ordinal (business_start_date c) < date_ordinal (business_end_date c) /\
  Forall (fun kv => 1 <= fst kv <= 12) (seasonal_multipliers c).
Proof.
  unfold valid_config. rewrite !andb_true_iff, Nat.eqb_eq, Z.ltb_lt. rewrite !forallb_forall, !List.Forall_forall.
  assert (E : (forall x, In x (seasonal_multipliers c) -> (1 <=? fst x) && (fst x <=? 12) = true) <->
              (forall x, In x (seasonal_multipliers c) -> 1 <= fst x <= 12)).
  { split; intros Hx x Hin; specialize (Hx x Hin); rewrite andb_true_iff, !Z.leb_le in *; exact Hx. }
  rewrite E. tauto.
Qed.
Lemma lit_in_unit n d : 0 <= n <= Zpos d -> in_unit (lit n d) = true.
Proof.
  intros [H0 H1]. unfold in_unit. rewrite andb_true_iff, !fleb_spec. split; [apply fl_nonneg; unfold Qle; simpl; lia|].
  apply (fl_le_int (n # d) 1); [lia|]. unfold Qle. simpl. lia.
Qed.
Lemma multipliers_ok l : Forall (fun kv => weight_ok (snd kv)) l ->
  Forall (fun kv => 1 <= fst kv <= 12) (multipliers l) /\ Forall (fun kv => is_float (snd kv) /\ (0 < snd kv)%Q) (multipliers l).
Proof.
  intros Hl. split; [repeat constructor; discriminate|]. apply Forall_forall. intros [m q] Hin. unfold multipliers in Hin.
  apply list_elem_of_fmap in Hin as (k & E & _). injection E as -> ->. cbn [snd].
  destruct (alist_get k l) as [q|] eqn:Eq; cbn [default from_option id]; [|split; [apply (is_float_int 1); lia|done]].
  apply alist_get_elem in Eq. rewrite Forall_forall in Hl. exact (Hl _ Eq).
Qed.
Definition good_sizes (s : DatasetSizeConfig) : Prop :=
  valid_sizes s = true /\ n_products s <= 2 ^ 53 /\ n_inventory s <= n_products s * n_warehouses s.
Definition good_window (a b : PyDate) : Prop :=
  valid_pydate a = true /\ valid_pydate b = true /\ 20 <= year a /\ year b <= 9990 /\ date_ordinal a < date_ordinal b.
(** Overrides that are valid by themselves and replace both dates or neither. *)
Record good_overrides (o : SeedConfigOverrides) : Prop := {
  go_sizes : forall s, o_dataset_size o = Some s -> good_sizes s;
  go_currency : forall s, o_currency o = Some s -> String.length s = 3%nat;
  go_window : match o_start o, o_end o with Some a, Some b => good_window a b | None, None => True | _, _ => False end;
  go_rates : forall x, x ∈ omap id [o_promotion_frequency o; o_return_rate o; o_review_rate o; o_payment_failure_rate o] ->
    in_unit x = true;
  go_seasons : forall l, o_seasonal o = Some l ->
    Forall (fun kv => 1 <= fst kv <= 12) l /\ Forall (fun kv => is_float (snd kv) /\ (0 < snd kv)%Q) l }.
Lemma default_in_unit (x : option Q) d (l : list (option Q)) : in_unit d = true -> (forall y, y ∈ omap id l -> in_unit y = true) -> x ∈ l -> in_unit (default d x) = true.
Proof. intros Hd Hl Hx. destruct x as [y|]; [|exact Hd]. apply Hl. apply list_elem_of_omap. by exists (Some y). Qed.
Lemma apply_good p c : good_config c -> good_overrides (sc_overrides p) -> good_config (apply p c).
Proof.
  intros [Hv Hs He Hy Hp Hi Hw] [Hsz Hcu Hwin Hr Hse]. apply valid_config_spec in Hv as (V1 & V2 & V3 & V4 & V5 & V6).
  assert (Hdates : good_window (business_start_date (apply p c)) (business_end_date (apply p c))).
  { cbn [apply business_start_date business_end_date]. destruct (o_start _), (o_end _); cbn [default from_option id]; try done.
    unfold good_window. tauto. }
  assert (Hsizes : good_sizes (dataset_size (apply p c))).
  { cbn [apply dataset_size]. destruct (o_dataset_size _); cbn [default from_option id]; [by apply Hsz|done]. }
  assert (Hseas : Forall (fun kv => 1 <= fst kv <= 12) (seasonal_multipliers (apply p c)) /\
                  Forall (fun kv => is_float (snd kv) /\ (0 < snd kv)%Q) (seasonal_multipliers (apply p c))).
  { cbn [apply seasonal_multipliers]. destruct (o_seasonal _); cbn [default from_option id]; [by apply Hse|done]. }
  destruct Hdates as (D1 & D2 & D3 & D4 & D5), Hsizes as (Z1 & Z2 & Z3), Hseas as [M1 M2].
  constructor; try done. apply valid_config_spec. split_and!; try done.
  - cbn [apply currency]. destruct (o_currency _); cbn [default from_option id]; [by apply Hcu|done].
  - cbn [apply promotion_frequency return_rate review_rate payment_failure_rate].
    repeat apply Forall_cons in V4 as [? V4].
    repeat (apply List.Forall_cons; [eapply default_in_unit; [done|exact Hr|set_solver]|]). apply List.Forall_nil.
Qed.
Lemma sizes_ok s : forallb (Z.ltb 0) [n_customers s; n_suppliers s; n_warehouses s; n_product_categories s; n_products s;
    n_promotions s; n_orders s; n_payments s; n_shipments s; n_inventory s; n_product_reviews s; n_returns s] = true ->
  order_items_per_order_avg s = lit 26 10 -> customer_addresses_per_customer_avg s = lit 14 10 ->
  n_products s <= 2 ^ 53 -> n_inventory s <= n_products s * n_warehouses s -> good_sizes s.
Proof.
  intros H1 H2 H3 H4 H5. split_and!; [|done|done]. unfold valid_sizes. rewrite H1, H2, H3. cbn [andb].
  apply andb_true_iff. split; apply fltb_spec; float_pos.
Qed.
Ltac good_size := apply sizes_ok; [reflexivity|reflexivity|reflexivity|discriminate|discriminate].
Ltac good_rates := cbn [omap list_omap id]; intros x Hx; repeat (apply elem_of_cons in Hx as [->|Hx]; [apply lit_in_unit; lia|]);
  by apply elem_of_nil in Hx.
Ltac good_weights :=
  repeat (apply List.Forall_cons; [split; cbn [snd]; [is_a_float|first [float_pos|reflexivity]]|]); apply List.Forall_nil.
Ltac good_override := constructor; cbn [sc_overrides with_rate no_overrides o_dataset_size o_currency o_start o_end o_promotion_frequency
    o_return_rate o_review_rate o_payment_failure_rate o_seasonal];
  [first [discriminate|intros s [= <-]; good_size]|discriminate|first [done|split_and!; first [reflexivity|discriminate]]|good_rates|
   first [discriminate|intros l [= <-]; apply multipliers_ok; good_weights]].
Lemma default_config_good : good_config DEFAULT_CONFIG.
Proof.
  assert (Hseas : Forall (fun kv => weight_ok (snd kv)) [(8, lit 13 10); (11, lit 18 10); (12, lit 22 10)]) by good_weights.
  apply multipliers_ok in Hseas as [Hmonths Hweights].
  constructor; [|reflexivity|reflexivity|split; discriminate|discriminate|discriminate|exact Hweights].
  apply valid_config_spec. split; [apply (sizes_ok DEFAULT_SIZES); first [reflexivity|discriminate]|].
  split; [reflexivity|]. split; [reflexivity|]. split; [|split; [reflexivity|exact Hmonths]].
  repeat (apply List.Forall_cons; [apply lit_in_unit; lia|]). apply List.Forall_nil.
Qed.
(** No standard scenario takes a good configuration out of the ones the engine can run on:
    what each of them replaces (dates, sizes, rates, seasons) is valid, although the copy is
    not validated again. *)
Theorem standard_scenarios_keep_configs_good c : good_config c ->
  Forall (fun s => good_config (apply s c)) STANDARD_SCENARIOS.
Proof.
  intros Hc. repeat (apply List.Forall_cons; [apply apply_good; [exact Hc|good_override]|]). apply List.Forall_nil.
Qed.
Lemma standard_scenarios_keep_configs_good_witness : good_config DEFAULT_CONFIG /\
  Forall (fun s => good_config (apply s DEFAULT_CONFIG)) STANDARD_SCENARIOS.
Proof. split; [exact default_config_good|apply standard_scenarios_keep_configs_good; exact default_config_good]. Defined.

(** ** Concrete worlds *)
(** Every draw is the smallest one, every fake the same. *)
Module Lowest.
#[export] Program Instance lowest : Randomness unit :=
  {| draw _ w := (0%Q, w); below _ _ w := (0, w) |}.
Next Obligation. done. Qed.
Next Obligation. cbn. lia. Qed.
#[export] Instance faker : Faker unit := {| fake _ _ := ret "x"; fake_date_of_birth _ := ret 700000 |}.
#[export] Instance clock : Clock unit := fun w => (0%Q, w).
#[export] Instance session : DbSession unit := {| add_all _ := ret tt; flush := ret tt; commit := ret tt |}.
Definition nowhere (b : Batch) : prog unit exn unit := persist b.
End Lowest.
Lemma seeding_builds_sound_data_witness :
  good_config (orchestrator_config (Some BLACK_FRIDAY) DEFAULT_CONFIG) /\
  total_prog (run (H := Lowest.lowest) (H0 := Lowest.faker) (H1 := Lowest.clock) Lowest.nowhere (Some BLACK_FRIDAY) DEFAULT_CONFIG)
    (fun '(report, d) => sound_dataset (orchestrator_config (Some BLACK_FRIDAY) DEFAULT_CONFIG) d /\
      map snd (row_counts report) = row_numbers d /\
      total_revenue report = fold_right Z.add 0 (map total_amount (orders d))).
Proof.
  assert (Hgood : good_config (orchestrator_config (Some BLACK_FRIDAY) DEFAULT_CONFIG)) by (apply apply_good; [exact default_config_good|good_override]).
  split; [exact Hgood|].
  apply (seeding_builds_sound_data Lowest.nowhere); [intros g m w; by exists "x", w|intros g w; by exists 700000, w|
    intros b w; by exists tt, w|exact Hgood].
Defined.
Lemma validation_fails_only_on_missing_rows_witness : exists d, sound_dataset DEFAULT_CONFIG d /\
  Forall (fun k => passed k = true) (tail (validate d)) /\
  all_passed (validate d) =
    (0 <? customer_addresses (dataset_size DEFAULT_CONFIG)) && (non_empty (reviews d) && non_empty (returns d)).
Proof.
  destruct (total_stages (H := Lowest.lowest) (H0 := Lowest.faker) (H1 := Lowest.clock) Lowest.nowhere
    (fun g m w => ltac:(by exists "x", w)) (fun g w => ltac:(by exists 700000, w)) (fun b w => ltac:(by exists tt, w))
    DEFAULT_CONFIG default_config_good tt) as ([d seconds] & w' & _ & Hd).
  exists d. split; [exact Hd|]. apply validation_fails_only_on_missing_rows; [exact default_config_good|exact Hd].
Defined.
