(* ===== verification/OrmSchema.v ===== *)
(** * The ORM models ([models/], [auth/models.py], [security/models.py], [db/base.py])

    Each SQLAlchemy class is an [OrmClass]: its table name, the column mixins in
    the order of its bases, its [__table_args__], its mapped columns and its
    relationships, written with one builder per construct of the source. Two
    registries hold them: [Base] (the business tables the engine answers
    questions about) and [AuthBase] (accounts, tokens, keys, audit records).
    [table_of] is the table a class declares, its constraints named through
    [NAMING_CONVENTION] by Python's [%]-formatting; constraints and indexes are
    unordered, so they are kept by name. *)
From Stdlib Require Import Ascii.
From S2P Require Import Prelude PyStr.
#[local] Open Scope string_scope.

(** ** Columns *)
Inductive SaType :=
| BigInteger | Integer | SmallInteger | Boolean | Date | Text | JSONB
| DateTimeTz
| String_ (length : nat)
| CHAR (length : nat)
| Numeric (precision scale : nat)
| Enum (name : string) (values : list string) (length : nat).
#[export] Instance SaType_eq_dec : EqDecision SaType.
Proof. solve_decision. Defined.
Inductive ServerDefault := Literal (s : string) | SqlText (s : string).
#[export] Instance ServerDefault_eq_dec : EqDecision ServerDefault.
Proof. solve_decision. Defined.
Record ForeignKeyRef := { fk_table : string; fk_column : string; fk_ondelete : string }.
#[export] Instance ForeignKeyRef_eq_dec : EqDecision ForeignKeyRef.
Proof. solve_decision. Defined.

Record MappedColumn := {
  mc_name : string;
  mc_type : SaType;
  mc_nullable : bool;
  mc_primary_key : bool;
  mc_unique : bool;
  mc_index : bool;
  mc_server_default : option ServerDefault;
  mc_onupdate : bool;
  mc_foreign_key : option ForeignKeyRef;
  mc_enum_class : option string }.

Definition mapped_column (name : string) (t : SaType) (nullable primary_key : bool) : MappedColumn :=
  {| mc_name := name; mc_type := t; mc_nullable := nullable; mc_primary_key := primary_key;
     mc_unique := false; mc_index := false; mc_server_default := None; mc_onupdate := false;
     mc_foreign_key := None; mc_enum_class := None |}.
(** [mapped_column(BigInteger, Identity(), primary_key=True)] *)
Definition identity_key (name : string) : MappedColumn := mapped_column name BigInteger false true.
Definition required (name : string) (t : SaType) : MappedColumn := mapped_column name t false false.
Definition optional (name : string) (t : SaType) : MappedColumn := mapped_column name t true false.
Definition with_default (d : ServerDefault) (c : MappedColumn) : MappedColumn :=
  {| mc_name := mc_name c; mc_type := mc_type c; mc_nullable := mc_nullable c;
     mc_primary_key := mc_primary_key c; mc_unique := mc_unique c; mc_index := mc_index c;
     mc_server_default := Some d; mc_onupdate := mc_onupdate c; mc_foreign_key := mc_foreign_key c;
     mc_enum_class := mc_enum_class c |}.
Definition with_onupdate (c : MappedColumn) : MappedColumn :=
  {| mc_name := mc_name c; mc_type := mc_type c; mc_nullable := mc_nullable c;
     mc_primary_key := mc_primary_key c; mc_unique := mc_unique c; mc_index := mc_index c;
     mc_server_default := mc_server_default c; mc_onupdate := true; mc_foreign_key := mc_foreign_key c;
     mc_enum_class := mc_enum_class c |}.
Definition with_unique (c : MappedColumn) : MappedColumn :=
  {| mc_name := mc_name c; mc_type := mc_type c; mc_nullable := mc_nullable c;
     mc_primary_key := mc_primary_key c; mc_unique := true; mc_index := mc_index c;
     mc_server_default := mc_server_default c; mc_onupdate := mc_onupdate c;
     mc_foreign_key := mc_foreign_key c; mc_enum_class := mc_enum_class c |}.
Definition with_index (c : MappedColumn) : MappedColumn :=
  {| mc_name := mc_name c; mc_type := mc_type c; mc_nullable := mc_nullable c;
     mc_primary_key := mc_primary_key c; mc_unique := mc_unique c; mc_index := true;
     mc_server_default := mc_server_default c; mc_onupdate := mc_onupdate c;
     mc_foreign_key := mc_foreign_key c; mc_enum_class := mc_enum_class c |}.
Definition references (table column ondelete : string) (c : MappedColumn) : MappedColumn :=
  {| mc_name := mc_name c; mc_type := mc_type c; mc_nullable := mc_nullable c;
     mc_primary_key := mc_primary_key c; mc_unique := mc_unique c; mc_index := mc_index c;
     mc_server_default := mc_server_default c; mc_onupdate := mc_onupdate c;
     mc_foreign_key := Some {| fk_table := table; fk_column := column; fk_ondelete := ondelete |};
     mc_enum_class := mc_enum_class c |}.
(** The column's [SAEnum] was built from a Python class, named in full. *)
Definition python_enum (cls : string) (c : MappedColumn) : MappedColumn :=
  {| mc_name := mc_name c; mc_type := mc_type c; mc_nullable := mc_nullable c;
     mc_primary_key := mc_primary_key c; mc_unique := mc_unique c; mc_index := mc_index c;
     mc_server_default := mc_server_default c; mc_onupdate := mc_onupdate c;
     mc_foreign_key := mc_foreign_key c; mc_enum_class := Some cls |}.

(** ** Classes *)
Inductive TableArg :=
| Arg_Index (name : string) (columns : list string) (unique : bool) (postgresql_where : option string)
| Arg_Unique (name : string) (columns : list string)
| Arg_Check (name text : string).
Record OrmRelationship := {
  or_key : string;
  or_target : string;
  or_uselist : bool;
  or_back_populates : string;
  or_remote_side : option string }.
Definition relationship (key target : string) (uselist : bool) (back_populates : string)
  (remote_side : option string) : OrmRelationship :=
  {| or_key := key; or_target := target; or_uselist := uselist; or_back_populates := back_populates;
     or_remote_side := remote_side |}.

Inductive Mixin := CreatedAtMixin | TimestampMixin | SoftDeleteMixin.
Definition created_at : MappedColumn := with_default (SqlText "now()") (required "created_at" DateTimeTz).
Definition updated_at : MappedColumn :=
  with_onupdate (with_default (SqlText "now()") (required "updated_at" DateTimeTz)).
Definition is_active : MappedColumn := with_default (Literal "true") (required "is_active" Boolean).
(** [TimestampMixin] declares [updated_at] and inherits [created_at]. *)
Definition mixin_columns (m : Mixin) : list MappedColumn :=
  match m with
  | CreatedAtMixin => [created_at]
  | TimestampMixin => [updated_at; created_at]
  | SoftDeleteMixin => [is_active]
  end.

Record OrmClass := {
  tablename : string;
  mixins : list Mixin;
  table_args : list TableArg;
  mapped_columns : list MappedColumn;
  orm_relationships : list OrmRelationship }.
(** A class's own columns come before those of its mixins. *)
Definition all_columns (c : OrmClass) : list MappedColumn :=
  (mapped_columns c ++ concat (map mixin_columns (mixins c)))%list.

(** ** [NAMING_CONVENTION] *)
(** Python's [template % mapping] for templates whose only conversions are
    [%(key)s]; [key] is the part of an unfinished conversion read so far. A
    missing key raises [KeyError], an unfinished conversion [ValueError]: [None]. *)
Fixpoint percent_format (env : string -> option string) (key : option string) (s : string) : option string :=
  match key, s with
  | None, EmptyString => Some ""
  | None, String "%"%char (String "("%char r) => percent_format env (Some "") r
  | None, String c r => String c <$> percent_format env None r
  | Some k, String ")"%char (String "s"%char r) =>
      v ← env k; w ← percent_format env None r; Some (v ++ w)
  | Some k, String c r => percent_format env (Some (k ++ String c "")) r
  | Some _, EmptyString => None
  end.
Definition NAMING_CONVENTION (kind : string) : option string :=
  alist_get kind
    [("ix", "ix_%(column_0_label)s");
     ("uq", "uq_%(table_name)s_%(column_0_name)s");
     ("ck", "ck_%(table_name)s_%(constraint_name)s");
     ("fk", "fk_%(table_name)s_%(column_0_name)s_%(referred_table_name)s");
     ("pk", "pk_%(table_name)s")].

(** What one table looks like; constraints and indexes are named sets. *)
Record ColumnDef := {
  cd_type : SaType;
  cd_nullable : bool;
  cd_identity : bool;
  cd_server_default : option ServerDefault }.
#[export] Instance ColumnDef_eq_dec : EqDecision ColumnDef.
Proof. solve_decision. Defined.
Record ForeignKeyDef := {
  fd_columns : list string;
  fd_table : string;
  fd_referred : list string;
  fd_ondelete : string }.
#[export] Instance ForeignKeyDef_eq_dec : EqDecision ForeignKeyDef.
Proof. solve_decision. Defined.
Inductive ConstraintDef :=
| PrimaryKey (columns : list string)
| Unique (columns : list string)
| Check_ (text : string)
| ForeignKey (fk : ForeignKeyDef).
#[export] Instance ConstraintDef_eq_dec : EqDecision ConstraintDef.
Proof. solve_decision. Defined.
Record IndexDef := { id_columns : list string; id_unique : bool; id_where : option string }.
#[export] Instance IndexDef_eq_dec : EqDecision IndexDef.
Proof. solve_decision. Defined.
Record TableDef := {
  td_columns : gmap string ColumnDef;
  td_constraints : gmap string ConstraintDef;
  td_indexes : gmap string IndexDef }.
#[export] Instance TableDef_eq_dec : EqDecision TableDef.
Proof. solve_decision. Defined.
Abbreviation Schema := (gmap string TableDef).

(** [conv kind t args]: the name the convention gives, from the tokens
    SQLAlchemy documents for that kind. *)
Definition conv (kind table : string) (tokens : list (string * string)) : string :=
  default "" (template ← NAMING_CONVENTION kind;
              percent_format (fun k => alist_get k (("table_name", table) :: tokens)) None template).
Definition pk_name_of (t : string) : string := conv "pk" t [].
Definition uq_name_of (t column : string) : string := conv "uq" t [("column_0_name", column)].
Definition ck_name_of (t name : string) : string := conv "ck" t [("constraint_name", name)].
Definition fk_name_of (t column referred : string) : string :=
  conv "fk" t [("column_0_name", column); ("referred_table_name", referred)].
Definition ix_name_of (t column : string) : string := conv "ix" t [("column_0_label", t ++ "_" ++ column)].

(** ** The table a class declares *)
Definition column_def (c : MappedColumn) : ColumnDef :=
  {| cd_type := mc_type c; cd_nullable := mc_nullable c; cd_identity := mc_primary_key c;
     cd_server_default := mc_server_default c |}.
Definition column_constraints (t : string) (c : MappedColumn) : list (string * ConstraintDef) :=
  ((if mc_unique c then [(uq_name_of t (mc_name c), Unique [mc_name c])] else []) ++
   match mc_foreign_key c with
   | None => []
   | Some r => [(fk_name_of t (mc_name c) (fk_table r),
                 ForeignKey {| fd_columns := [mc_name c]; fd_table := fk_table r;
                               fd_referred := [fk_column r]; fd_ondelete := fk_ondelete r |})]
   end)%list.
Definition arg_constraints (t : string) (a : TableArg) : list (string * ConstraintDef) :=
  match a with
  | Arg_Unique n cols => [(n, Unique cols)]
  | Arg_Check n text => [(ck_name_of t n, Check_ text)]
  | Arg_Index _ _ _ _ => []
  end.
Definition arg_indexes (a : TableArg) : list (string * IndexDef) :=
  match a with
  | Arg_Index n cols u w => [(n, {| id_columns := cols; id_unique := u; id_where := w |})]
  | _ => []
  end.
Definition column_indexes (t : string) (c : MappedColumn) : list (string * IndexDef) :=
  if mc_index c then [(ix_name_of t (mc_name c), {| id_columns := [mc_name c]; id_unique := false; id_where := None |})]
  else [].
Definition primary_columns (c : OrmClass) : list string :=
  map mc_name (List.filter mc_primary_key (all_columns c)).
Definition table_of (c : OrmClass) : TableDef :=
  let t := tablename c in
  {| td_columns := list_to_map (map (fun k => (mc_name k, column_def k)) (all_columns c));
     td_constraints :=
       list_to_map ((pk_name_of t, PrimaryKey (primary_columns c)) ::
         concat (map (column_constraints t) (all_columns c)) ++ concat (map (arg_constraints t) (table_args c)))%list;
     td_indexes :=
       list_to_map (concat (map (column_indexes t) (all_columns c)) ++ concat (map arg_indexes (table_args c)))%list |}.

(** ** The registered classes *)
Definition Customer_ : OrmClass :=
  {| tablename := "customers"; mixins := [TimestampMixin; SoftDeleteMixin];
     table_args := [Arg_Index "ix_customers_signup_date" ["signup_date"] false None;
       Arg_Index "ix_customers_customer_segment" ["customer_segment"] false None;
       Arg_Index "ix_customers_is_active" ["is_active"] false None];
     mapped_columns :=
       [identity_key "customer_id";
        with_unique (required "customer_number" (String_ 20));
        required "first_name" (String_ 100);
        required "last_name" (String_ 100);
        with_unique (required "email" (String_ 255));
        optional "phone" (String_ 30);
        optional "date_of_birth" Date;
        optional "gender" (String_ 20);
        with_default (Literal "standard") (python_enum "querymind.models.customer.CustomerSegment" (required "customer_segment" (Enum "customer_segment_valid_values" ["standard"; "vip"; "wholesale"] 30)));
        required "signup_date" Date;
        optional "signup_channel" (String_ 30)];
     orm_relationships :=
       [relationship "addresses" "customer_addresses" true "customer" None;
        relationship "orders" "orders" true "customer" None;
        relationship "reviews" "product_reviews" true "customer" None] |}.
Definition CustomerAddress_ : OrmClass :=
  {| tablename := "customer_addresses"; mixins := [CreatedAtMixin];
     table_args := [Arg_Index "ix_customer_addresses_customer_id" ["customer_id"] false None;
       Arg_Index "ix_customer_addresses_country_code" ["country_code"] false None;
       Arg_Index "ix_customer_addresses_one_default_per_type" ["customer_id"; "address_type"] true (Some "is_default = true")];
     mapped_columns :=
       [identity_key "address_id";
        references "customers" "customer_id" "CASCADE" (required "customer_id" BigInteger);
        python_enum "querymind.models.customer.AddressType" (required "address_type" (Enum "address_type_valid_values" ["billing"; "shipping"] 20));
        with_default (Literal "false") (required "is_default" Boolean);
        required "line1" (String_ 255);
        optional "line2" (String_ 255);
        required "city" (String_ 100);
        optional "state_province" (String_ 100);
        optional "postal_code" (String_ 20);
        required "country_code" (CHAR 2)];
     orm_relationships :=
       [relationship "customer" "customers" false "addresses" None] |}.
Definition Warehouse_ : OrmClass :=
  {| tablename := "warehouses"; mixins := [CreatedAtMixin; SoftDeleteMixin];
     table_args := [Arg_Index "ix_warehouses_country_code" ["country_code"] false None];
     mapped_columns :=
       [identity_key "warehouse_id";
        with_unique (required "warehouse_code" (String_ 20));
        required "warehouse_name" (String_ 150);
        required "city" (String_ 100);
        optional "state_province" (String_ 100);
        required "country_code" (CHAR 2)];
     orm_relationships :=
       [relationship "inventory" "inventory" true "warehouse" None;
        relationship "shipments" "shipments" true "warehouse" None] |}.
Definition Inventory_ : OrmClass :=
  {| tablename := "inventory"; mixins := [];
     table_args := [Arg_Unique "uq_inventory_product_id_warehouse_id" ["product_id"; "warehouse_id"];
       Arg_Index "ix_inventory_product_id" ["product_id"] false None;
       Arg_Index "ix_inventory_warehouse_id" ["warehouse_id"] false None;
       Arg_Index "ix_inventory_quantity_on_hand" ["quantity_on_hand"] false None;
       Arg_Check "quantity_on_hand_non_negative" "quantity_on_hand >= 0";
       Arg_Check "reorder_level_non_negative" "reorder_level >= 0"];
     mapped_columns :=
       [identity_key "inventory_id";
        references "products" "product_id" "RESTRICT" (required "product_id" BigInteger);
        references "warehouses" "warehouse_id" "RESTRICT" (required "warehouse_id" BigInteger);
        with_default (Literal "0") (required "quantity_on_hand" Integer);
        with_default (Literal "0") (required "reorder_level" Integer);
        optional "last_restocked_at" DateTimeTz;
        with_onupdate (with_default (SqlText "now()") (required "updated_at" DateTimeTz))];
     orm_relationships :=
       [relationship "product" "products" false "inventory" None;
        relationship "warehouse" "warehouses" false "inventory" None] |}.
Definition Order_ : OrmClass :=
  {| tablename := "orders"; mixins := [TimestampMixin];
     table_args := [Arg_Index "ix_orders_customer_id" ["customer_id"] false None;
       Arg_Index "ix_orders_order_date" ["order_date"] false None;
       Arg_Index "ix_orders_order_status" ["order_status"] false None;
       Arg_Index "ix_orders_sales_channel" ["sales_channel"] false None;
       Arg_Index "ix_orders_customer_id_order_date" ["customer_id"; "order_date"] false None;
       Arg_Index "ix_orders_promotion_id" ["promotion_id"] false None;
       Arg_Check "subtotal_amount_non_negative" "subtotal_amount >= 0";
       Arg_Check "discount_amount_non_negative" "discount_amount >= 0";
       Arg_Check "tax_amount_non_negative" "tax_amount >= 0";
       Arg_Check "shipping_amount_non_negative" "shipping_amount >= 0";
       Arg_Check "total_amount_non_negative" "total_amount >= 0"];
     mapped_columns :=
       [identity_key "order_id";
        with_unique (required "order_number" (String_ 20));
        references "customers" "customer_id" "RESTRICT" (required "customer_id" BigInteger);
        references "promotions" "promotion_id" "RESTRICT" (optional "promotion_id" BigInteger);
        with_default (SqlText "now()") (required "order_date" DateTimeTz);
        with_default (Literal "pending") (python_enum "querymind.models.order.OrderStatus" (required "order_status" (Enum "order_status_valid_values" ["pending"; "confirmed"; "shipped"; "delivered"; "cancelled"; "returned"] 20)));
        with_default (Literal "web") (python_enum "querymind.models.order.SalesChannel" (required "sales_channel" (Enum "sales_channel_valid_values" ["web"; "mobile_app"; "marketplace"; "phone"] 20)));
        required "shipping_address_line1" (String_ 255);
        required "shipping_city" (String_ 100);
        optional "shipping_state_province" (String_ 100);
        optional "shipping_postal_code" (String_ 20);
        required "shipping_country_code" (CHAR 2);
        required "subtotal_amount" (Numeric 12 2);
        with_default (Literal "0") (required "discount_amount" (Numeric 12 2));
        with_default (Literal "0") (required "tax_amount" (Numeric 12 2));
        with_default (Literal "0") (required "shipping_amount" (Numeric 12 2));
        required "total_amount" (Numeric 12 2);
        with_default (Literal "USD") (required "currency_code" (CHAR 3))];
     orm_relationships :=
       [relationship "customer" "customers" false "orders" None;
        relationship "promotion" "promotions" false "orders" None;
        relationship "items" "order_items" true "order" None;
        relationship "payments" "payments" true "order" None;
        relationship "shipments" "shipments" true "order" None] |}.
Definition OrderItem_ : OrmClass :=
  {| tablename := "order_items"; mixins := [CreatedAtMixin];
     table_args := [Arg_Unique "uq_order_items_order_id_product_id" ["order_id"; "product_id"];
       Arg_Index "ix_order_items_order_id" ["order_id"] false None;
       Arg_Index "ix_order_items_product_id" ["product_id"] false None;
       Arg_Index "ix_order_items_product_id_order_id" ["product_id"; "order_id"] false None;
       Arg_Check "quantity_positive" "quantity > 0";
       Arg_Check "unit_price_non_negative" "unit_price >= 0";
       Arg_Check "discount_amount_non_negative" "discount_amount >= 0";
       Arg_Check "line_total_non_negative" "line_total >= 0"];
     mapped_columns :=
       [identity_key "order_item_id";
        references "orders" "order_id" "RESTRICT" (required "order_id" BigInteger);
        references "products" "product_id" "RESTRICT" (required "product_id" BigInteger);
        required "quantity" Integer;
        required "unit_price" (Numeric 12 2);
        with_default (Literal "0") (required "discount_amount" (Numeric 12 2));
        required "line_total" (Numeric 12 2)];
     orm_relationships :=
       [relationship "order" "orders" false "items" None;
        relationship "product" "products" false "order_items" None;
        relationship "review" "product_reviews" false "order_item" None;
        relationship "returns" "returns" true "order_item" None] |}.
Definition Payment_ : OrmClass :=
  {| tablename := "payments"; mixins := [CreatedAtMixin];
     table_args := [Arg_Index "ix_payments_order_id" ["order_id"] false None;
       Arg_Index "ix_payments_payment_status" ["payment_status"] false None;
       Arg_Index "ix_payments_paid_at" ["paid_at"] false None;
       Arg_Check "amount_non_negative" "amount >= 0"];
     mapped_columns :=
       [identity_key "payment_id";
        references "orders" "order_id" "RESTRICT" (required "order_id" BigInteger);
        python_enum "querymind.models.payment.PaymentMethod" (required "payment_method" (Enum "payment_method_valid_values" ["credit_card"; "debit_card"; "paypal"; "gift_card"; "bank_transfer"] 30));
        with_default (Literal "pending") (python_enum "querymind.models.payment.PaymentStatus" (required "payment_status" (Enum "payment_status_valid_values" ["pending"; "authorized"; "captured"; "failed"; "refunded"; "partially_refunded"] 20)));
        required "amount" (Numeric 12 2);
        with_unique (optional "transaction_reference" (String_ 100));
        optional "paid_at" DateTimeTz];
     orm_relationships :=
       [relationship "order" "orders" false "payments" None] |}.
Definition ProductCategory_ : OrmClass :=
  {| tablename := "product_categories"; mixins := [CreatedAtMixin; SoftDeleteMixin];
     table_args := [Arg_Unique "uq_product_categories_parent_category_id_category_name" ["parent_category_id"; "category_name"];
       Arg_Index "ix_product_categories_parent_category_id" ["parent_category_id"] false None;
       Arg_Index "ix_product_categories_category_name" ["category_name"] false None];
     mapped_columns :=
       [identity_key "category_id";
        references "product_categories" "category_id" "RESTRICT" (optional "parent_category_id" BigInteger);
        required "category_name" (String_ 100);
        optional "category_path" (String_ 500)];
     orm_relationships :=
       [relationship "parent" "product_categories" false "children" (Some "category_id");
        relationship "children" "product_categories" true "parent" None;
        relationship "products" "products" true "category" None] |}.
Definition Product_ : OrmClass :=
  {| tablename := "products"; mixins := [TimestampMixin; SoftDeleteMixin];
     table_args := [Arg_Index "ix_products_category_id" ["category_id"] false None;
       Arg_Index "ix_products_supplier_id" ["supplier_id"] false None;
       Arg_Index "ix_products_product_name" ["product_name"] false None;
       Arg_Index "ix_products_is_active" ["is_active"] false None;
       Arg_Index "ix_products_launch_date" ["launch_date"] false None;
       Arg_Check "unit_price_non_negative" "unit_price >= 0";
       Arg_Check "cost_price_non_negative" "cost_price >= 0"];
     mapped_columns :=
       [identity_key "product_id";
        with_unique (required "sku" (String_ 50));
        required "product_name" (String_ 255);
        references "product_categories" "category_id" "RESTRICT" (required "category_id" BigInteger);
        references "suppliers" "supplier_id" "RESTRICT" (required "supplier_id" BigInteger);
        optional "description" Text;
        required "unit_price" (Numeric 12 2);
        required "cost_price" (Numeric 12 2);
        optional "weight_kg" (Numeric 8 3);
        optional "launch_date" Date];
     orm_relationships :=
       [relationship "category" "product_categories" false "products" None;
        relationship "supplier" "suppliers" false "products" None;
        relationship "inventory" "inventory" true "product" None;
        relationship "order_items" "order_items" true "product" None;
        relationship "reviews" "product_reviews" true "product" None] |}.
Definition Promotion_ : OrmClass :=
  {| tablename := "promotions"; mixins := [CreatedAtMixin; SoftDeleteMixin];
     table_args := [Arg_Index "ix_promotions_starts_at_ends_at" ["starts_at"; "ends_at"] false None;
       Arg_Index "ix_promotions_is_active" ["is_active"] false None;
       Arg_Check "discount_value_non_negative" "discount_value >= 0";
       Arg_Check "ends_at_after_starts_at" "ends_at > starts_at"];
     mapped_columns :=
       [identity_key "promotion_id";
        with_unique (required "promotion_code" (String_ 30));
        required "promotion_name" (String_ 150);
        python_enum "querymind.models.promotion.DiscountType" (required "discount_type" (Enum "discount_type_valid_values" ["percentage"; "fixed_amount"] 20));
        required "discount_value" (Numeric 10 2);
        required "starts_at" DateTimeTz;
        required "ends_at" DateTimeTz];
     orm_relationships :=
       [relationship "orders" "orders" true "promotion" None] |}.
Definition Return_ : OrmClass :=
  {| tablename := "returns"; mixins := [];
     table_args := [Arg_Index "ix_returns_order_item_id" ["order_item_id"] false None;
       Arg_Index "ix_returns_return_status" ["return_status"] false None;
       Arg_Index "ix_returns_requested_at" ["requested_at"] false None;
       Arg_Check "quantity_returned_positive" "quantity_returned > 0";
       Arg_Check "refund_amount_non_negative" "refund_amount >= 0"];
     mapped_columns :=
       [identity_key "return_id";
        references "order_items" "order_item_id" "RESTRICT" (required "order_item_id" BigInteger);
        python_enum "querymind.models.returns.ReturnReason" (required "return_reason" (Enum "return_reason_valid_values" ["defective"; "wrong_item"; "no_longer_needed"; "damaged_in_shipping"; "not_as_described"; "other"] 50));
        with_default (Literal "requested") (python_enum "querymind.models.returns.ReturnStatus" (required "return_status" (Enum "return_status_valid_values" ["requested"; "approved"; "rejected"; "refunded"; "completed"] 20)));
        required "quantity_returned" Integer;
        optional "refund_amount" (Numeric 12 2);
        with_default (SqlText "now()") (required "requested_at" DateTimeTz);
        optional "resolved_at" DateTimeTz];
     orm_relationships :=
       [relationship "order_item" "order_items" false "returns" None] |}.
Definition ProductReview_ : OrmClass :=
  {| tablename := "product_reviews"; mixins := [];
     table_args := [Arg_Index "ix_product_reviews_product_id" ["product_id"] false None;
       Arg_Index "ix_product_reviews_customer_id" ["customer_id"] false None;
       Arg_Index "ix_product_reviews_rating" ["rating"] false None;
       Arg_Index "ix_product_reviews_review_date" ["review_date"] false None;
       Arg_Index "ix_product_reviews_product_id_rating" ["product_id"; "rating"] false None;
       Arg_Check "rating_in_range" "rating BETWEEN 1 AND 5"];
     mapped_columns :=
       [identity_key "review_id";
        references "products" "product_id" "RESTRICT" (required "product_id" BigInteger);
        references "customers" "customer_id" "RESTRICT" (required "customer_id" BigInteger);
        with_unique (references "order_items" "order_item_id" "SET NULL" (optional "order_item_id" BigInteger));
        required "rating" SmallInteger;
        optional "review_title" (String_ 200);
        optional "review_text" Text;
        with_default (Literal "false") (required "is_verified_purchase" Boolean);
        with_default (SqlText "now()") (required "review_date" DateTimeTz)];
     orm_relationships :=
       [relationship "product" "products" false "reviews" None;
        relationship "customer" "customers" false "reviews" None;
        relationship "order_item" "order_items" false "review" None] |}.
Definition Shipment_ : OrmClass :=
  {| tablename := "shipments"; mixins := [CreatedAtMixin];
     table_args := [Arg_Index "ix_shipments_order_id" ["order_id"] false None;
       Arg_Index "ix_shipments_warehouse_id" ["warehouse_id"] false None;
       Arg_Index "ix_shipments_shipment_status" ["shipment_status"] false None;
       Arg_Index "ix_shipments_shipped_at" ["shipped_at"] false None];
     mapped_columns :=
       [identity_key "shipment_id";
        references "orders" "order_id" "RESTRICT" (required "order_id" BigInteger);
        references "warehouses" "warehouse_id" "RESTRICT" (required "warehouse_id" BigInteger);
        optional "carrier" (String_ 50);
        with_unique (optional "tracking_number" (String_ 100));
        with_default (Literal "pending") (python_enum "querymind.models.shipment.ShipmentStatus" (required "shipment_status" (Enum "shipment_status_valid_values" ["pending"; "in_transit"; "delivered"; "failed"; "returned_to_sender"] 20)));
        optional "shipped_at" DateTimeTz;
        optional "delivered_at" DateTimeTz];
     orm_relationships :=
       [relationship "order" "orders" false "shipments" None;
        relationship "warehouse" "warehouses" false "shipments" None] |}.
Definition Supplier_ : OrmClass :=
  {| tablename := "suppliers"; mixins := [CreatedAtMixin; SoftDeleteMixin];
     table_args := [Arg_Index "ix_suppliers_supplier_name" ["supplier_name"] false None;
       Arg_Index "ix_suppliers_country_code" ["country_code"] false None;
       Arg_Index "ix_suppliers_is_active" ["is_active"] false None;
       Arg_Check "lead_time_days_non_negative" "lead_time_days >= 0";
       Arg_Check "rating_in_range" "rating BETWEEN 0 AND 5"];
     mapped_columns :=
       [identity_key "supplier_id";
        with_unique (required "supplier_code" (String_ 20));
        required "supplier_name" (String_ 200);
        optional "contact_email" (String_ 255);
        optional "contact_phone" (String_ 30);
        required "country_code" (CHAR 2);
        optional "lead_time_days" Integer;
        optional "rating" (Numeric 3 2)];
     orm_relationships :=
       [relationship "products" "products" true "supplier" None] |}.
Definition User_ : OrmClass :=
  {| tablename := "users"; mixins := [TimestampMixin; SoftDeleteMixin];
     table_args := [];
     mapped_columns :=
       [identity_key "id";
        with_unique (required "username" (String_ 50));
        with_unique (required "email" (String_ 255));
        required "password_hash" (String_ 255);
        with_default (Literal "false") (required "is_superuser" Boolean);
        with_default (Literal "analyst") (python_enum "querymind.auth.models.UserRole" (required "role" (Enum "user_role_valid_values" ["admin"; "analyst"; "viewer"] 20)))];
     orm_relationships :=
       [relationship "refresh_tokens" "refresh_tokens" true "user" None;
        relationship "api_keys" "api_keys" true "user" None] |}.
Definition RefreshToken_ : OrmClass :=
  {| tablename := "refresh_tokens"; mixins := [CreatedAtMixin];
     table_args := [];
     mapped_columns :=
       [identity_key "id";
        references "users" "id" "CASCADE" (required "user_id" BigInteger);
        with_unique (required "jti" (String_ 36));
        required "expires_at" DateTimeTz;
        with_default (Literal "false") (required "revoked" Boolean)];
     orm_relationships :=
       [relationship "user" "users" false "refresh_tokens" None] |}.
Definition ApiKey_ : OrmClass :=
  {| tablename := "api_keys"; mixins := [CreatedAtMixin];
     table_args := [];
     mapped_columns :=
       [identity_key "id";
        references "users" "id" "CASCADE" (required "user_id" BigInteger);
        required "key_prefix" (String_ 16);
        with_unique (required "key_hash" (String_ 64));
        required "name" (String_ 100);
        optional "expires_at" DateTimeTz;
        optional "last_used_at" DateTimeTz;
        optional "revoked_at" DateTimeTz];
     orm_relationships :=
       [relationship "user" "users" false "api_keys" None] |}.
Definition AuditLog_ : OrmClass :=
  {| tablename := "audit_log"; mixins := [];
     table_args := [];
     mapped_columns :=
       [identity_key "id";
        with_index (required "event_type" (String_ 50));
        references "users" "id" "SET NULL" (optional "actor_user_id" BigInteger);
        optional "actor_username" (String_ 50);
        required "success" Boolean;
        optional "ip_address" (String_ 45);
        optional "user_agent" (String_ 300);
        optional "request_id" (String_ 64);
        optional "correlation_id" (String_ 64);
        optional "resource" (String_ 100);
        optional "event_metadata" JSONB;
        with_index (with_default (SqlText "now()") (required "created_at" DateTimeTz))];
     orm_relationships :=
       [] |}.

(** The two declarative registries; [models/__init__.py] imports every module
    of the first. *)
Definition Base_classes : list OrmClass :=
  [Customer_; CustomerAddress_; Warehouse_; Inventory_; Order_; OrderItem_; Payment_; ProductCategory_;
   Product_; Promotion_; Return_; ProductReview_; Shipment_; Supplier_].
Definition AuthBase_classes : list OrmClass := [User_; RefreshToken_; ApiKey_; AuditLog_].
Definition schema_of (cs : list OrmClass) : Schema :=
  list_to_map (map (fun c => (tablename c, table_of c)) cs).
