(* ===== verification/Migrations.v ===== *)
(** * The Alembic revisions ([alembic/versions/])

    Each revision file is a [Revision] whose [upgrade] and [downgrade] are the
    operations the two functions perform, in order. What an operation does to a
    database is PostgreSQL's, so it is a parameter: any [exec] that satisfies
    [Ddl], four documented facts about dropping what was just created. [apply]
    is one such function, on the [Schema] of OrmSchema.v.

    The theorems: following [down_revision] from the only head visits every
    file once, and executing those upgrades on an empty database builds exactly
    the tables the ORM classes of both registries declare
    ([head_is_the_orm_schema]); however upgrades and downgrades alternate, the
    recorded version determines the schema ([version_determines_schema]). *)
From S2P Require Import Prelude OrmSchema.
#[local] Open Scope string_scope.

(** ** Operations *)
Inductive TableItem :=
| Column (name : string) (t : SaType) (server_default : option ServerDefault) (is_nullable : bool)
| identity_column (name : string)
| PrimaryKeyConstraint (columns : list string) (name : string)
| UniqueConstraint (columns : list string) (name : string)
| CheckConstraint (text name : string)
| ForeignKeyConstraint (columns : list string) (referent : string) (referred : list string) (name ondelete : string).
Definition nullable : bool := true.
Definition not_null : bool := false.

Inductive Op :=
| create_table (name : string) (items : list TableItem)
| create_index (name table : string) (columns : list string) (unique : bool) (postgresql_where : option string)
| drop_index (name table : string)
| drop_table (name : string)
| add_column (table : string) (column : TableItem)
| drop_column (table column : string)
| create_foreign_key (name source referent : string) (local_cols remote_cols : list string) (ondelete : string)
| drop_constraint (name table : string).

Record Revision := {
  revision : string;
  down_revision : option string;
  upgrade : list Op;
  downgrade : list Op }.

(** ** The revisions *)
Definition upgrade_1df78230c534_customers : list Op :=
  [ create_table "customers"
      [identity_column "customer_id";
       Column "customer_number" (String_ 20) None not_null;
       Column "first_name" (String_ 100) None not_null;
       Column "last_name" (String_ 100) None not_null;
       Column "email" (String_ 255) None not_null;
       Column "phone" (String_ 30) None nullable;
       Column "date_of_birth" Date None nullable;
       Column "gender" (String_ 20) None nullable;
       Column "customer_segment" (Enum "customer_segment_valid_values" ["standard"; "vip"; "wholesale"] 30) (Some (Literal "standard")) not_null;
       Column "signup_date" Date None not_null;
       Column "signup_channel" (String_ 30) None nullable;
       Column "updated_at" DateTimeTz (Some (SqlText "now()")) not_null;
       Column "created_at" DateTimeTz (Some (SqlText "now()")) not_null;
       Column "is_active" Boolean (Some (Literal "true")) not_null;
       PrimaryKeyConstraint ["customer_id"] "pk_customers";
       UniqueConstraint ["customer_number"] "uq_customers_customer_number";
       UniqueConstraint ["email"] "uq_customers_email"];
    create_index "ix_customers_customer_segment" "customers" ["customer_segment"] false None;
    create_index "ix_customers_is_active" "customers" ["is_active"] false None;
    create_index "ix_customers_signup_date" "customers" ["signup_date"] false None ].
Definition upgrade_1df78230c534_product_categories : list Op :=
  [ create_table "product_categories"
      [identity_column "category_id";
       Column "parent_category_id" BigInteger None nullable;
       Column "category_name" (String_ 100) None not_null;
       Column "category_path" (String_ 500) None nullable;
       Column "created_at" DateTimeTz (Some (SqlText "now()")) not_null;
       Column "is_active" Boolean (Some (Literal "true")) not_null;
       ForeignKeyConstraint ["parent_category_id"] "product_categories" ["category_id"] "fk_product_categories_parent_category_id_product_categories" "RESTRICT";
       PrimaryKeyConstraint ["category_id"] "pk_product_categories";
       UniqueConstraint ["parent_category_id"; "category_name"] "uq_product_categories_parent_category_id_category_name"];
    create_index "ix_product_categories_category_name" "product_categories" ["category_name"] false None;
    create_index "ix_product_categories_parent_category_id" "product_categories" ["parent_category_id"] false None ].
Definition upgrade_1df78230c534_suppliers : list Op :=
  [ create_table "suppliers"
      [identity_column "supplier_id";
       Column "supplier_code" (String_ 20) None not_null;
       Column "supplier_name" (String_ 200) None not_null;
       Column "contact_email" (String_ 255) None nullable;
       Column "contact_phone" (String_ 30) None nullable;
       Column "country_code" (CHAR 2) None not_null;
       Column "lead_time_days" Integer None nullable;
       Column "rating" (Numeric 3 2) None nullable;
       Column "created_at" DateTimeTz (Some (SqlText "now()")) not_null;
       Column "is_active" Boolean (Some (Literal "true")) not_null;
       CheckConstraint "lead_time_days >= 0" "ck_suppliers_lead_time_days_non_negative";
       CheckConstraint "rating BETWEEN 0 AND 5" "ck_suppliers_rating_in_range";
       PrimaryKeyConstraint ["supplier_id"] "pk_suppliers";
       UniqueConstraint ["supplier_code"] "uq_suppliers_supplier_code"];
    create_index "ix_suppliers_country_code" "suppliers" ["country_code"] false None;
    create_index "ix_suppliers_is_active" "suppliers" ["is_active"] false None;
    create_index "ix_suppliers_supplier_name" "suppliers" ["supplier_name"] false None ].
Definition upgrade_1df78230c534_customer_addresses : list Op :=
  [ create_table "customer_addresses"
      [identity_column "address_id";
       Column "customer_id" BigInteger None not_null;
       Column "address_type" (Enum "address_type_valid_values" ["billing"; "shipping"] 20) None not_null;
       Column "is_default" Boolean (Some (Literal "false")) not_null;
       Column "line1" (String_ 255) None not_null;
       Column "line2" (String_ 255) None nullable;
       Column "city" (String_ 100) None not_null;
       Column "state_province" (String_ 100) None nullable;
       Column "postal_code" (String_ 20) None nullable;
       Column "country_code" (CHAR 2) None not_null;
       Column "created_at" DateTimeTz (Some (SqlText "now()")) not_null;
       ForeignKeyConstraint ["customer_id"] "customers" ["customer_id"] "fk_customer_addresses_customer_id_customers" "CASCADE";
       PrimaryKeyConstraint ["address_id"] "pk_customer_addresses"];
    create_index "ix_customer_addresses_country_code" "customer_addresses" ["country_code"] false None;
    create_index "ix_customer_addresses_customer_id" "customer_addresses" ["customer_id"] false None;
    create_index "ix_customer_addresses_one_default_per_type" "customer_addresses" ["customer_id"; "address_type"] true (Some "is_default = true") ].
Definition upgrade_1df78230c534_products : list Op :=
  [ create_table "products"
      [identity_column "product_id";
       Column "sku" (String_ 50) None not_null;
       Column "product_name" (String_ 255) None not_null;
       Column "category_id" BigInteger None not_null;
       Column "supplier_id" BigInteger None not_null;
       Column "description" Text None nullable;
       Column "unit_price" (Numeric 12 2) None not_null;
       Column "cost_price" (Numeric 12 2) None not_null;
       Column "weight_kg" (Numeric 8 3) None nullable;
       Column "launch_date" Date None nullable;
       Column "updated_at" DateTimeTz (Some (SqlText "now()")) not_null;
       Column "created_at" DateTimeTz (Some (SqlText "now()")) not_null;
       Column "is_active" Boolean (Some (Literal "true")) not_null;
       CheckConstraint "cost_price >= 0" "ck_products_cost_price_non_negative";
       CheckConstraint "unit_price >= 0" "ck_products_unit_price_non_negative";
       ForeignKeyConstraint ["category_id"] "product_categories" ["category_id"] "fk_products_category_id_product_categories" "RESTRICT";
       ForeignKeyConstraint ["supplier_id"] "suppliers" ["supplier_id"] "fk_products_supplier_id_suppliers" "RESTRICT";
       PrimaryKeyConstraint ["product_id"] "pk_products";
       UniqueConstraint ["sku"] "uq_products_sku"];
    create_index "ix_products_category_id" "products" ["category_id"] false None;
    create_index "ix_products_is_active" "products" ["is_active"] false None;
    create_index "ix_products_launch_date" "products" ["launch_date"] false None;
    create_index "ix_products_product_name" "products" ["product_name"] false None;
    create_index "ix_products_supplier_id" "products" ["supplier_id"] false None ].
Definition upgrade_1df78230c534 : list Op :=
  (upgrade_1df78230c534_customers ++
   upgrade_1df78230c534_product_categories ++
   upgrade_1df78230c534_suppliers ++
   upgrade_1df78230c534_customer_addresses ++
   upgrade_1df78230c534_products)%list.
Definition downgrade_1df78230c534 : list Op :=
  [ drop_index "ix_products_supplier_id" "products";
    drop_index "ix_products_product_name" "products";
    drop_index "ix_products_launch_date" "products";
    drop_index "ix_products_is_active" "products";
    drop_index "ix_products_category_id" "products";
    drop_table "products";
    drop_index "ix_customer_addresses_one_default_per_type" "customer_addresses";
    drop_index "ix_customer_addresses_customer_id" "customer_addresses";
    drop_index "ix_customer_addresses_country_code" "customer_addresses";
    drop_table "customer_addresses";
    drop_index "ix_suppliers_supplier_name" "suppliers";
    drop_index "ix_suppliers_is_active" "suppliers";
    drop_index "ix_suppliers_country_code" "suppliers";
    drop_table "suppliers";
    drop_index "ix_product_categories_parent_category_id" "product_categories";
    drop_index "ix_product_categories_category_name" "product_categories";
    drop_table "product_categories";
    drop_index "ix_customers_signup_date" "customers";
    drop_index "ix_customers_is_active" "customers";
    drop_index "ix_customers_customer_segment" "customers";
    drop_table "customers" ].
Definition revision_1df78230c534 : Revision :=
  {| revision := "1df78230c534"; down_revision := None;
     upgrade := upgrade_1df78230c534; downgrade := downgrade_1df78230c534 |}.
Definition upgrade_d4ecdb599d09_warehouses : list Op :=
  [ create_table "warehouses"
      [identity_column "warehouse_id";
       Column "warehouse_code" (String_ 20) None not_null;
       Column "warehouse_name" (String_ 150) None not_null;
       Column "city" (String_ 100) None not_null;
       Column "state_province" (String_ 100) None nullable;
       Column "country_code" (CHAR 2) None not_null;
       Column "created_at" DateTimeTz (Some (SqlText "now()")) not_null;
       Column "is_active" Boolean (Some (Literal "true")) not_null;
       PrimaryKeyConstraint ["warehouse_id"] "pk_warehouses";
       UniqueConstraint ["warehouse_code"] "uq_warehouses_warehouse_code"];
    create_index "ix_warehouses_country_code" "warehouses" ["country_code"] false None ].
Definition upgrade_d4ecdb599d09_orders : list Op :=
  [ create_table "orders"
      [identity_column "order_id";
       Column "order_number" (String_ 20) None not_null;
       Column "customer_id" BigInteger None not_null;
       Column "promotion_id" BigInteger None nullable;
       Column "order_date" DateTimeTz (Some (SqlText "now()")) not_null;
       Column "order_status" (Enum "order_status_valid_values" ["pending"; "confirmed"; "shipped"; "delivered"; "cancelled"; "returned"] 20) (Some (Literal "pending")) not_null;
       Column "sales_channel" (Enum "sales_channel_valid_values" ["web"; "mobile_app"; "marketplace"; "phone"] 20) (Some (Literal "web")) not_null;
       Column "shipping_address_line1" (String_ 255) None not_null;
       Column "shipping_city" (String_ 100) None not_null;
       Column "shipping_state_province" (String_ 100) None nullable;
       Column "shipping_postal_code" (String_ 20) None nullable;
       Column "shipping_country_code" (CHAR 2) None not_null;
       Column "subtotal_amount" (Numeric 12 2) None not_null;
       Column "discount_amount" (Numeric 12 2) (Some (Literal "0")) not_null;
       Column "tax_amount" (Numeric 12 2) (Some (Literal "0")) not_null;
       Column "shipping_amount" (Numeric 12 2) (Some (Literal "0")) not_null;
       Column "total_amount" (Numeric 12 2) None not_null;
       Column "currency_code" (CHAR 3) (Some (Literal "USD")) not_null;
       Column "updated_at" DateTimeTz (Some (SqlText "now()")) not_null;
       Column "created_at" DateTimeTz (Some (SqlText "now()")) not_null;
       CheckConstraint "discount_amount >= 0" "ck_orders_discount_amount_non_negative";
       CheckConstraint "shipping_amount >= 0" "ck_orders_shipping_amount_non_negative";
       CheckConstraint "subtotal_amount >= 0" "ck_orders_subtotal_amount_non_negative";
       CheckConstraint "tax_amount >= 0" "ck_orders_tax_amount_non_negative";
       CheckConstraint "total_amount >= 0" "ck_orders_total_amount_non_negative";
       ForeignKeyConstraint ["customer_id"] "customers" ["customer_id"] "fk_orders_customer_id_customers" "RESTRICT";
       PrimaryKeyConstraint ["order_id"] "pk_orders";
       UniqueConstraint ["order_number"] "uq_orders_order_number"];
    create_index "ix_orders_customer_id" "orders" ["customer_id"] false None;
    create_index "ix_orders_customer_id_order_date" "orders" ["customer_id"; "order_date"] false None;
    create_index "ix_orders_order_date" "orders" ["order_date"] false None;
    create_index "ix_orders_order_status" "orders" ["order_status"] false None;
    create_index "ix_orders_promotion_id" "orders" ["promotion_id"] false None;
    create_index "ix_orders_sales_channel" "orders" ["sales_channel"] false None ].
Definition upgrade_d4ecdb599d09_inventory : list Op :=
  [ create_table "inventory"
      [identity_column "inventory_id";
       Column "product_id" BigInteger None not_null;
       Column "warehouse_id" BigInteger None not_null;
       Column "quantity_on_hand" Integer (Some (Literal "0")) not_null;
       Column "reorder_level" Integer (Some (Literal "0")) not_null;
       Column "last_restocked_at" DateTimeTz None nullable;
       Column "updated_at" DateTimeTz (Some (SqlText "now()")) not_null;
       CheckConstraint "quantity_on_hand >= 0" "ck_inventory_quantity_on_hand_non_negative";
       CheckConstraint "reorder_level >= 0" "ck_inventory_reorder_level_non_negative";
       ForeignKeyConstraint ["product_id"] "products" ["product_id"] "fk_inventory_product_id_products" "RESTRICT";
       ForeignKeyConstraint ["warehouse_id"] "warehouses" ["warehouse_id"] "fk_inventory_warehouse_id_warehouses" "RESTRICT";
       PrimaryKeyConstraint ["inventory_id"] "pk_inventory";
       UniqueConstraint ["product_id"; "warehouse_id"] "uq_inventory_product_id_warehouse_id"];
    create_index "ix_inventory_product_id" "inventory" ["product_id"] false None;
    create_index "ix_inventory_quantity_on_hand" "inventory" ["quantity_on_hand"] false None;
    create_index "ix_inventory_warehouse_id" "inventory" ["warehouse_id"] false None ].
Definition upgrade_d4ecdb599d09_order_items : list Op :=
  [ create_table "order_items"
      [identity_column "order_item_id";
       Column "order_id" BigInteger None not_null;
       Column "product_id" BigInteger None not_null;
       Column "quantity" Integer None not_null;
       Column "unit_price" (Numeric 12 2) None not_null;
       Column "discount_amount" (Numeric 12 2) (Some (Literal "0")) not_null;
       Column "line_total" (Numeric 12 2) None not_null;
       Column "created_at" DateTimeTz (Some (SqlText "now()")) not_null;
       CheckConstraint "discount_amount >= 0" "ck_order_items_discount_amount_non_negative";
       CheckConstraint "line_total >= 0" "ck_order_items_line_total_non_negative";
       CheckConstraint "quantity > 0" "ck_order_items_quantity_positive";
       CheckConstraint "unit_price >= 0" "ck_order_items_unit_price_non_negative";
       ForeignKeyConstraint ["order_id"] "orders" ["order_id"] "fk_order_items_order_id_orders" "RESTRICT";
       ForeignKeyConstraint ["product_id"] "products" ["product_id"] "fk_order_items_product_id_products" "RESTRICT";
       PrimaryKeyConstraint ["order_item_id"] "pk_order_items";
       UniqueConstraint ["order_id"; "product_id"] "uq_order_items_order_id_product_id"];
    create_index "ix_order_items_order_id" "order_items" ["order_id"] false None;
    create_index "ix_order_items_product_id" "order_items" ["product_id"] false None;
    create_index "ix_order_items_product_id_order_id" "order_items" ["product_id"; "order_id"] false None ].
Definition upgrade_d4ecdb599d09 : list Op :=
  (upgrade_d4ecdb599d09_warehouses ++
   upgrade_d4ecdb599d09_orders ++
   upgrade_d4ecdb599d09_inventory ++
   upgrade_d4ecdb599d09_order_items)%list.
Definition downgrade_d4ecdb599d09 : list Op :=
  [ drop_index "ix_order_items_product_id_order_id" "order_items";
    drop_index "ix_order_items_product_id" "order_items";
    drop_index "ix_order_items_order_id" "order_items";
    drop_table "order_items";
    drop_index "ix_inventory_warehouse_id" "inventory";
    drop_index "ix_inventory_quantity_on_hand" "inventory";
    drop_index "ix_inventory_product_id" "inventory";
    drop_table "inventory";
    drop_index "ix_orders_sales_channel" "orders";
    drop_index "ix_orders_promotion_id" "orders";
    drop_index "ix_orders_order_status" "orders";
    drop_index "ix_orders_order_date" "orders";
    drop_index "ix_orders_customer_id_order_date" "orders";
    drop_index "ix_orders_customer_id" "orders";
    drop_table "orders";
    drop_index "ix_warehouses_country_code" "warehouses";
    drop_table "warehouses" ].
Definition revision_d4ecdb599d09 : Revision :=
  {| revision := "d4ecdb599d09"; down_revision := Some "1df78230c534";
     upgrade := upgrade_d4ecdb599d09; downgrade := downgrade_d4ecdb599d09 |}.
Definition upgrade_071fb5dbaeed_promotions : list Op :=
  [ create_table "promotions"
      [identity_column "promotion_id";
       Column "promotion_code" (String_ 30) None not_null;
       Column "promotion_name" (String_ 150) None not_null;
       Column "discount_type" (Enum "discount_type_valid_values" ["percentage"; "fixed_amount"] 20) None not_null;
       Column "discount_value" (Numeric 10 2) None not_null;
       Column "starts_at" DateTimeTz None not_null;
       Column "ends_at" DateTimeTz None not_null;
       Column "created_at" DateTimeTz (Some (SqlText "now()")) not_null;
       Column "is_active" Boolean (Some (Literal "true")) not_null;
       CheckConstraint "discount_value >= 0" "ck_promotions_discount_value_non_negative";
       CheckConstraint "ends_at > starts_at" "ck_promotions_ends_at_after_starts_at";
       PrimaryKeyConstraint ["promotion_id"] "pk_promotions";
       UniqueConstraint ["promotion_code"] "uq_promotions_promotion_code"];
    create_index "ix_promotions_is_active" "promotions" ["is_active"] false None;
    create_index "ix_promotions_starts_at_ends_at" "promotions" ["starts_at"; "ends_at"] false None ].
Definition upgrade_071fb5dbaeed_payments : list Op :=
  [ create_table "payments"
      [identity_column "payment_id";
       Column "order_id" BigInteger None not_null;
       Column "payment_method" (Enum "payment_method_valid_values" ["credit_card"; "debit_card"; "paypal"; "gift_card"; "bank_transfer"] 30) None not_null;
       Column "payment_status" (Enum "payment_status_valid_values" ["pending"; "authorized"; "captured"; "failed"; "refunded"; "partially_refunded"] 20) (Some (Literal "pending")) not_null;
       Column "amount" (Numeric 12 2) None not_null;
       Column "transaction_reference" (String_ 100) None nullable;
       Column "paid_at" DateTimeTz None nullable;
       Column "created_at" DateTimeTz (Some (SqlText "now()")) not_null;
       CheckConstraint "amount >= 0" "ck_payments_amount_non_negative";
       ForeignKeyConstraint ["order_id"] "orders" ["order_id"] "fk_payments_order_id_orders" "RESTRICT";
       PrimaryKeyConstraint ["payment_id"] "pk_payments";
       UniqueConstraint ["transaction_reference"] "uq_payments_transaction_reference"];
    create_index "ix_payments_order_id" "payments" ["order_id"] false None;
    create_index "ix_payments_paid_at" "payments" ["paid_at"] false None;
    create_index "ix_payments_payment_status" "payments" ["payment_status"] false None ].
Definition upgrade_071fb5dbaeed_shipments : list Op :=
  [ create_table "shipments"
      [identity_column "shipment_id";
       Column "order_id" BigInteger None not_null;
       Column "warehouse_id" BigInteger None not_null;
       Column "carrier" (String_ 50) None nullable;
       Column "tracking_number" (String_ 100) None nullable;
       Column "shipment_status" (Enum "shipment_status_valid_values" ["pending"; "in_transit"; "delivered"; "failed"; "returned_to_sender"] 20) (Some (Literal "pending")) not_null;
       Column "shipped_at" DateTimeTz None nullable;
       Column "delivered_at" DateTimeTz None nullable;
       Column "created_at" DateTimeTz (Some (SqlText "now()")) not_null;
       ForeignKeyConstraint ["order_id"] "orders" ["order_id"] "fk_shipments_order_id_orders" "RESTRICT";
       ForeignKeyConstraint ["warehouse_id"] "warehouses" ["warehouse_id"] "fk_shipments_warehouse_id_warehouses" "RESTRICT";
       PrimaryKeyConstraint ["shipment_id"] "pk_shipments";
       UniqueConstraint ["tracking_number"] "uq_shipments_tracking_number"];
    create_index "ix_shipments_order_id" "shipments" ["order_id"] false None;
    create_index "ix_shipments_shipment_status" "shipments" ["shipment_status"] false None;
    create_index "ix_shipments_shipped_at" "shipments" ["shipped_at"] false None;
    create_index "ix_shipments_warehouse_id" "shipments" ["warehouse_id"] false None ].
Definition upgrade_071fb5dbaeed_product_reviews : list Op :=
  [ create_table "product_reviews"
      [identity_column "review_id";
       Column "product_id" BigInteger None not_null;
       Column "customer_id" BigInteger None not_null;
       Column "order_item_id" BigInteger None nullable;
       Column "rating" SmallInteger None not_null;
       Column "review_title" (String_ 200) None nullable;
       Column "review_text" Text None nullable;
       Column "is_verified_purchase" Boolean (Some (Literal "false")) not_null;
       Column "review_date" DateTimeTz (Some (SqlText "now()")) not_null;
       CheckConstraint "rating BETWEEN 1 AND 5" "ck_product_reviews_rating_in_range";
       ForeignKeyConstraint ["customer_id"] "customers" ["customer_id"] "fk_product_reviews_customer_id_customers" "RESTRICT";
       ForeignKeyConstraint ["order_item_id"] "order_items" ["order_item_id"] "fk_product_reviews_order_item_id_order_items" "SET NULL";
       ForeignKeyConstraint ["product_id"] "products" ["product_id"] "fk_product_reviews_product_id_products" "RESTRICT";
       PrimaryKeyConstraint ["review_id"] "pk_product_reviews";
       UniqueConstraint ["order_item_id"] "uq_product_reviews_order_item_id"];
    create_index "ix_product_reviews_customer_id" "product_reviews" ["customer_id"] false None;
    create_index "ix_product_reviews_product_id" "product_reviews" ["product_id"] false None;
    create_index "ix_product_reviews_product_id_rating" "product_reviews" ["product_id"; "rating"] false None;
    create_index "ix_product_reviews_rating" "product_reviews" ["rating"] false None;
    create_index "ix_product_reviews_review_date" "product_reviews" ["review_date"] false None ].
Definition upgrade_071fb5dbaeed_returns : list Op :=
  [ create_table "returns"
      [identity_column "return_id";
       Column "order_item_id" BigInteger None not_null;
       Column "return_reason" (Enum "return_reason_valid_values" ["defective"; "wrong_item"; "no_longer_needed"; "damaged_in_shipping"; "not_as_described"; "other"] 50) None not_null;
       Column "return_status" (Enum "return_status_valid_values" ["requested"; "approved"; "rejected"; "refunded"; "completed"] 20) (Some (Literal "requested")) not_null;
       Column "quantity_returned" Integer None not_null;
       Column "refund_amount" (Numeric 12 2) None nullable;
       Column "requested_at" DateTimeTz (Some (SqlText "now()")) not_null;
       Column "resolved_at" DateTimeTz None nullable;
       CheckConstraint "quantity_returned > 0" "ck_returns_quantity_returned_positive";
       CheckConstraint "refund_amount >= 0" "ck_returns_refund_amount_non_negative";
       ForeignKeyConstraint ["order_item_id"] "order_items" ["order_item_id"] "fk_returns_order_item_id_order_items" "RESTRICT";
       PrimaryKeyConstraint ["return_id"] "pk_returns"];
    create_index "ix_returns_order_item_id" "returns" ["order_item_id"] false None;
    create_index "ix_returns_requested_at" "returns" ["requested_at"] false None;
    create_index "ix_returns_return_status" "returns" ["return_status"] false None ].
Definition upgrade_071fb5dbaeed_orders_promotion_key : list Op :=
  [ create_foreign_key "fk_orders_promotion_id_promotions" "orders" "promotions" ["promotion_id"] ["promotion_id"] "RESTRICT" ].
Definition upgrade_071fb5dbaeed : list Op :=
  (upgrade_071fb5dbaeed_promotions ++
   upgrade_071fb5dbaeed_payments ++
   upgrade_071fb5dbaeed_shipments ++
   upgrade_071fb5dbaeed_product_reviews ++
   upgrade_071fb5dbaeed_returns ++
   upgrade_071fb5dbaeed_orders_promotion_key)%list.
Definition downgrade_071fb5dbaeed : list Op :=
  [ drop_constraint "fk_orders_promotion_id_promotions" "orders";
    drop_index "ix_returns_return_status" "returns";
    drop_index "ix_returns_requested_at" "returns";
    drop_index "ix_returns_order_item_id" "returns";
    drop_table "returns";
    drop_index "ix_product_reviews_review_date" "product_reviews";
    drop_index "ix_product_reviews_rating" "product_reviews";
    drop_index "ix_product_reviews_product_id_rating" "product_reviews";
    drop_index "ix_product_reviews_product_id" "product_reviews";
    drop_index "ix_product_reviews_customer_id" "product_reviews";
    drop_table "product_reviews";
    drop_index "ix_shipments_warehouse_id" "shipments";
    drop_index "ix_shipments_shipped_at" "shipments";
    drop_index "ix_shipments_shipment_status" "shipments";
    drop_index "ix_shipments_order_id" "shipments";
    drop_table "shipments";
    drop_index "ix_payments_payment_status" "payments";
    drop_index "ix_payments_paid_at" "payments";
    drop_index "ix_payments_order_id" "payments";
    drop_table "payments";
    drop_index "ix_promotions_starts_at_ends_at" "promotions";
    drop_index "ix_promotions_is_active" "promotions";
    drop_table "promotions" ].
Definition revision_071fb5dbaeed : Revision :=
  {| revision := "071fb5dbaeed"; down_revision := Some "d4ecdb599d09";
     upgrade := upgrade_071fb5dbaeed; downgrade := downgrade_071fb5dbaeed |}.
Definition upgrade_3daffa332d31 : list Op :=
  [ create_table "users"
      [identity_column "id";
       Column "username" (String_ 50) None not_null;
       Column "email" (String_ 255) None not_null;
       Column "password_hash" (String_ 255) None not_null;
       Column "is_superuser" Boolean (Some (Literal "false")) not_null;
       Column "is_active" Boolean (Some (Literal "true")) not_null;
       Column "created_at" DateTimeTz (Some (SqlText "now()")) not_null;
       Column "updated_at" DateTimeTz (Some (SqlText "now()")) not_null;
       PrimaryKeyConstraint ["id"] "pk_users";
       UniqueConstraint ["username"] "uq_users_username";
       UniqueConstraint ["email"] "uq_users_email"];
    create_table "refresh_tokens"
      [identity_column "id";
       Column "user_id" BigInteger None not_null;
       Column "jti" (String_ 36) None not_null;
       Column "expires_at" DateTimeTz None not_null;
       Column "revoked" Boolean (Some (Literal "false")) not_null;
       Column "created_at" DateTimeTz (Some (SqlText "now()")) not_null;
       ForeignKeyConstraint ["user_id"] "users" ["id"] "fk_refresh_tokens_user_id_users" "CASCADE";
       PrimaryKeyConstraint ["id"] "pk_refresh_tokens";
       UniqueConstraint ["jti"] "uq_refresh_tokens_jti"] ].
Definition downgrade_3daffa332d31 : list Op :=
  [ drop_table "refresh_tokens";
    drop_table "users" ].
Definition revision_3daffa332d31 : Revision :=
  {| revision := "3daffa332d31"; down_revision := Some "071fb5dbaeed";
     upgrade := upgrade_3daffa332d31; downgrade := downgrade_3daffa332d31 |}.
Definition upgrade_f76b40117bc0 : list Op :=
  [ add_column "users" (Column "role" (Enum "user_role_valid_values" ["admin"; "analyst"; "viewer"] 20) (Some (Literal "analyst")) not_null) ].
Definition downgrade_f76b40117bc0 : list Op :=
  [ drop_column "users" "role" ].
Definition revision_f76b40117bc0 : Revision :=
  {| revision := "f76b40117bc0"; down_revision := Some "3daffa332d31";
     upgrade := upgrade_f76b40117bc0; downgrade := downgrade_f76b40117bc0 |}.
Definition upgrade_5e835fc4abe5 : list Op :=
  [ create_table "api_keys"
      [identity_column "id";
       Column "user_id" BigInteger None not_null;
       Column "key_prefix" (String_ 16) None not_null;
       Column "key_hash" (String_ 64) None not_null;
       Column "name" (String_ 100) None not_null;
       Column "expires_at" DateTimeTz None nullable;
       Column "last_used_at" DateTimeTz None nullable;
       Column "revoked_at" DateTimeTz None nullable;
       Column "created_at" DateTimeTz (Some (SqlText "now()")) not_null;
       ForeignKeyConstraint ["user_id"] "users" ["id"] "fk_api_keys_user_id_users" "CASCADE";
       PrimaryKeyConstraint ["id"] "pk_api_keys";
       UniqueConstraint ["key_hash"] "uq_api_keys_key_hash"] ].
Definition downgrade_5e835fc4abe5 : list Op :=
  [ drop_table "api_keys" ].
Definition revision_5e835fc4abe5 : Revision :=
  {| revision := "5e835fc4abe5"; down_revision := Some "f76b40117bc0";
     upgrade := upgrade_5e835fc4abe5; downgrade := downgrade_5e835fc4abe5 |}.
Definition upgrade_0846b7c2fbf3 : list Op :=
  [ create_table "audit_log"
      [identity_column "id";
       Column "event_type" (String_ 50) None not_null;
       Column "actor_user_id" BigInteger None nullable;
       Column "actor_username" (String_ 50) None nullable;
       Column "success" Boolean None not_null;
       Column "ip_address" (String_ 45) None nullable;
       Column "user_agent" (String_ 300) None nullable;
       Column "request_id" (String_ 64) None nullable;
       Column "correlation_id" (String_ 64) None nullable;
       Column "resource" (String_ 100) None nullable;
       Column "event_metadata" JSONB None nullable;
       Column "created_at" DateTimeTz (Some (SqlText "now()")) not_null;
       ForeignKeyConstraint ["actor_user_id"] "users" ["id"] "fk_audit_log_actor_user_id_users" "SET NULL";
       PrimaryKeyConstraint ["id"] "pk_audit_log"];
    create_index "ix_audit_log_created_at" "audit_log" ["created_at"] false None;
    create_index "ix_audit_log_event_type" "audit_log" ["event_type"] false None ].
Definition downgrade_0846b7c2fbf3 : list Op :=
  [ drop_index "ix_audit_log_event_type" "audit_log";
    drop_index "ix_audit_log_created_at" "audit_log";
    drop_table "audit_log" ].
Definition revision_0846b7c2fbf3 : Revision :=
  {| revision := "0846b7c2fbf3"; down_revision := Some "5e835fc4abe5";
     upgrade := upgrade_0846b7c2fbf3; downgrade := downgrade_0846b7c2fbf3 |}.

(** The scripts of [alembic/versions/], in file-name order. *)
Definition versions : list Revision :=
  [revision_071fb5dbaeed;
   revision_0846b7c2fbf3;
   revision_1df78230c534;
   revision_3daffa332d31;
   revision_5e835fc4abe5;
   revision_d4ecdb599d09;
   revision_f76b40117bc0].

(** ** The revision graph *)
Definition find_revision (r : string) : option Revision :=
  List.find (fun x => String.eqb (revision x) r) versions.
(** The revisions from the base up to [v], by following [down_revision]. *)
Fixpoint path_to (fuel : nat) (v : option string) : option (list Revision) :=
  match v with
  | None => Some []
  | Some r =>
      match fuel with
      | O => None
      | S fuel => x ← find_revision r; p ← path_to fuel (down_revision x); Some (p ++ [x])%list
      end
  end.
Definition history (v : option string) : option (list Revision) := path_to (length versions) v.
(** The revisions no other revision builds on. *)
Definition heads : list string :=
  map revision (List.filter (fun x =>
    negb (existsb (fun y => bool_decide (down_revision y = Some (revision x))) versions)) versions).

(** ** What the operations are executed on *)
Section Exec.
Context {D : Type} (exec : Op -> D -> option D).
Fixpoint exec_all (ops : list Op) (d : D) : option D :=
  match ops with
  | [] => Some d
  | o :: ops => d' ← exec o d; exec_all ops d'
  end.
Definition upgrades (rs : list Revision) : list Op := concat (map upgrade rs).

(** [alembic upgrade +1] and [downgrade -1] on the recorded version and the
    database; a migration that fails is rolled back, so it is no step. *)
Inductive step : option string * D -> option string * D -> Prop :=
| step_up x d d' : x ∈ versions -> exec_all (upgrade x) d = Some d' ->
    step (down_revision x, d) (Some (revision x), d')
| step_down x d d' : x ∈ versions -> exec_all (downgrade x) d = Some d' ->
    step (Some (revision x), d) (down_revision x, d').

(** Dropping what was just created restores the database. *)
Class Ddl : Prop := {
  drop_created_table t items d d' :
    exec (create_table t items) d = Some d' -> exec (drop_table t) d' = Some d;
  drop_created_index n t cols u w d d' :
    exec (create_index n t cols u w) d = Some d' -> exec (drop_index n t) d' = Some d;
  drop_added_column t n ty def nul d d' :
    exec (add_column t (Column n ty def nul)) d = Some d' -> exec (drop_column t n) d' = Some d;
  drop_created_foreign_key n t r cols refs od d d' :
    exec (create_foreign_key n t r cols refs od) d = Some d' -> exec (drop_constraint n t) d' = Some d }.
End Exec.

(** ** A model of the operations: PostgreSQL's catalog as a [Schema]

    An operation that PostgreSQL refuses gives [None]. *)
Definition column_of (i : TableItem) : list (string * ColumnDef) :=
  match i with
  | Column n t d nul => [(n, {| cd_type := t; cd_nullable := nul; cd_identity := false; cd_server_default := d |})]
  | identity_column n =>
      [(n, {| cd_type := BigInteger; cd_nullable := false; cd_identity := true; cd_server_default := None |})]
  | _ => []
  end.
Definition constraint_of (i : TableItem) : list (string * ConstraintDef) :=
  match i with
  | PrimaryKeyConstraint cols n => [(n, PrimaryKey cols)]
  | UniqueConstraint cols n => [(n, Unique cols)]
  | CheckConstraint text n => [(n, Check_ text)]
  | ForeignKeyConstraint cols t refs n od =>
      [(n, ForeignKey {| fd_columns := cols; fd_table := t; fd_referred := refs; fd_ondelete := od |})]
  | _ => []
  end.
Definition table_of_items (items : list TableItem) : TableDef :=
  {| td_columns := list_to_map (concat (map column_of items));
     td_constraints := list_to_map (concat (map constraint_of items));
     td_indexes := ∅ |}.
Definition constraint_columns (c : ConstraintDef) : list string :=
  match c with
  | PrimaryKey cols | Unique cols => cols
  | Check_ _ => []
  | ForeignKey fk => fd_columns fk
  end.
Definition has_columns (t : TableDef) (cols : list string) : bool :=
  forallb (fun c => bool_decide (is_Some (td_columns t !! c))) cols.
(** A foreign key needs its columns, and the referred ones to be a key. *)
Definition is_key (t : TableDef) (cols : list string) : bool :=
  existsb (fun kv => match snd kv with
                     | PrimaryKey k | Unique k => bool_decide (k = cols)
                     | _ => false
                     end) (map_to_list (td_constraints t)).
Definition constraint_ok (s : Schema) (t : TableDef) (c : ConstraintDef) : bool :=
  has_columns t (constraint_columns c) &&
  match c with
  | ForeignKey fk => match s !! fd_table fk with Some r => is_key r (fd_referred fk) | None => false end
  | _ => true
  end.
Definition refers_to (name : string) (t : TableDef) : bool :=
  existsb (fun kv => match snd kv with ForeignKey fk => String.eqb (fd_table fk) name | _ => false end)
    (map_to_list (td_constraints t)).
Definition unreferenced (name : string) (s : Schema) : bool :=
  forallb (fun kv => negb (refers_to name (snd kv))) (map_to_list (delete name s)).
Definition index_names_free (n : string) (s : Schema) : bool :=
  forallb (fun kv => bool_decide (td_indexes (snd kv) !! n = None)) (map_to_list s).
Definition mentions (c : string) (t : TableDef) : bool :=
  existsb (fun kv => bool_decide (c ∈ constraint_columns (snd kv))) (map_to_list (td_constraints t)) ||
  existsb (fun kv => bool_decide (c ∈ id_columns (snd kv))) (map_to_list (td_indexes t)).
Definition guarded {A} (b : bool) (x : A) : option A := if b then Some x else None.

Definition set_columns (f : gmap string ColumnDef -> gmap string ColumnDef) (t : TableDef) : TableDef :=
  {| td_columns := f (td_columns t); td_constraints := td_constraints t; td_indexes := td_indexes t |}.
Definition set_constraints (f : gmap string ConstraintDef -> gmap string ConstraintDef) (t : TableDef) : TableDef :=
  {| td_columns := td_columns t; td_constraints := f (td_constraints t); td_indexes := td_indexes t |}.
Definition set_indexes (f : gmap string IndexDef -> gmap string IndexDef) (t : TableDef) : TableDef :=
  {| td_columns := td_columns t; td_constraints := td_constraints t; td_indexes := f (td_indexes t) |}.

Definition apply (o : Op) (s : Schema) : option Schema :=
  match o with
  | create_table n items =>
      let t := table_of_items items in
      guarded (bool_decide (s !! n = None) && unreferenced n s &&
               forallb (fun kv => constraint_ok (<[n := t]> s) t (snd kv)) (map_to_list (td_constraints t)))
        (<[n := t]> s)
  | drop_table n =>
      guarded (bool_decide (is_Some (s !! n)) && unreferenced n s) (delete n s)
  | create_index n t cols u w =>
      x ← s !! t;
      guarded (index_names_free n s && has_columns x cols)
        (<[t := set_indexes <[n := {| id_columns := cols; id_unique := u; id_where := w |}]> x]> s)
  | drop_index n t =>
      x ← s !! t;
      guarded (bool_decide (is_Some (td_indexes x !! n))) (<[t := set_indexes (delete n) x]> s)
  | add_column t i =>
      x ← s !! t;
      match column_of i with
      | [(n, c)] => guarded (bool_decide (td_columns x !! n = None) && negb (mentions n x))
                      (<[t := set_columns <[n := c]> x]> s)
      | _ => None
      end
  | drop_column t n =>
      (* it would take the constraints and indexes that mention it along; here none may *)
      x ← s !! t;
      guarded (bool_decide (is_Some (td_columns x !! n)) && negb (mentions n x))
        (<[t := set_columns (delete n) x]> s)
  | create_foreign_key n t r cols refs od =>
      x ← s !! t;
      let c := ForeignKey {| fd_columns := cols; fd_table := r; fd_referred := refs; fd_ondelete := od |} in
      guarded (bool_decide (td_constraints x !! n = None) && constraint_ok s x c)
        (<[t := set_constraints <[n := c]> x]> s)
  | drop_constraint n t =>
      x ← s !! t;
      guarded (bool_decide (is_Some (td_constraints x !! n))) (<[t := set_constraints (delete n) x]> s)
  end.

(** ** [apply] has the documented effects *)
Lemma guarded_Some {A} b (x y : A) : guarded b x = Some y <-> b = true /\ x = y.
Proof. destruct b; cbn; naive_solver. Qed.
Lemma existsb_false {A} (f : A -> bool) l : existsb f l = false <-> forall x, x ∈ l -> f x = false.
Proof.
  induction l as [|a l IH]; cbn; [set_solver|]. rewrite orb_false_iff, IH. set_solver.
Qed.
Lemma restore (s : Schema) t x y : s !! t = Some x -> y = x -> <[t := y]> s = s.
Proof. intros Hx ->. by apply insert_id. Qed.

Lemma delete_created n items (s s' : Schema) : apply (create_table n items) s = Some s' ->
  apply (drop_table n) s' = Some s.
Proof.
  intros [H <-]%guarded_Some. rewrite !andb_true_iff, bool_decide_eq_true in H. destruct H as [[Hn Hu] _].
  cbn [apply]. rewrite guarded_Some, andb_true_iff, bool_decide_eq_true, lookup_insert_eq. unfold unreferenced in *.
  rewrite delete_insert_eq, delete_id by done. rewrite delete_id in Hu by done. naive_solver.
Qed.
Lemma delete_indexed n t cols u w (s s' : Schema) : apply (create_index n t cols u w) s = Some s' ->
  apply (drop_index n t) s' = Some s.
Proof.
  intros (x & Hx & [[Hfree _]%andb_true_iff <-]%guarded_Some)%bind_Some. cbn [apply mbind option_bind].
  rewrite lookup_insert_eq. cbn [mbind option_bind set_indexes td_indexes]. rewrite lookup_insert_eq, guarded_Some, bool_decide_eq_true. split; [done|].
  rewrite insert_insert_eq. apply (restore s t x); [done|].
  unfold index_names_free in Hfree. rewrite forallb_forall in Hfree.
  specialize (Hfree (t, x)). rewrite <- list_elem_of_In, elem_of_map_to_list, bool_decide_eq_true in Hfree.
  destruct x. unfold set_indexes. cbn. f_equal. rewrite delete_insert_eq. apply delete_id. by apply Hfree.
Qed.
Lemma delete_added t n ty d nul (s s' : Schema) : apply (add_column t (Column n ty d nul)) s = Some s' ->
  apply (drop_column t n) s' = Some s.
Proof.
  intros (x & Hx & H)%bind_Some. cbn [column_of] in H. apply guarded_Some in H. destruct H as [H <-].
  rewrite andb_true_iff, bool_decide_eq_true in H. destruct H as [Hn Hm]. cbn [apply mbind option_bind]. rewrite lookup_insert_eq.
  cbn [mbind option_bind set_columns set_constraints set_indexes td_columns td_constraints td_indexes].
  change (mentions n _) with (mentions n x) at 1.
  rewrite lookup_insert_eq, Hm, guarded_Some, andb_true_iff, bool_decide_eq_true. split; [done|].
  rewrite insert_insert_eq. apply (restore s t x); [done|].
  destruct x. unfold set_columns. cbn. f_equal. rewrite delete_insert_eq. by apply delete_id.
Qed.
Lemma delete_foreign n t r cols refs od (s s' : Schema) :
  apply (create_foreign_key n t r cols refs od) s = Some s' -> apply (drop_constraint n t) s' = Some s.
Proof.
  intros (x & Hx & H)%bind_Some. apply guarded_Some in H. destruct H as [H <-].
  rewrite andb_true_iff, bool_decide_eq_true in H. destruct H as [Hn _]. cbn [apply mbind option_bind]. rewrite lookup_insert_eq.
  cbn [mbind option_bind set_columns set_constraints set_indexes td_columns td_constraints td_indexes].
  rewrite lookup_insert_eq, guarded_Some, bool_decide_eq_true. split; [done|].
  rewrite insert_insert_eq. apply (restore s t x); [done|].
  destruct x. unfold set_constraints. cbn. f_equal. rewrite delete_insert_eq. by apply delete_id.
Qed.
#[export] Instance apply_ddl : Ddl apply :=
  {| drop_created_table := delete_created; drop_created_index := delete_indexed;
     drop_added_column := delete_added; drop_created_foreign_key := delete_foreign |}.

(** ** Each downgrade mirrors its upgrade *)
(** The operation that undoes another one. *)
Definition inverse (o : Op) : option Op :=
  match o with
  | create_table n _ => Some (drop_table n)
  | create_index n t _ _ _ => Some (drop_index n t)
  | add_column t (Column n _ _ _) => Some (drop_column t n)
  | create_foreign_key n t _ _ _ _ => Some (drop_constraint n t)
  | _ => None
  end.
Definition undone_by (ops ops' : list Op) : Prop := Forall2 (fun o o' => inverse o = Some o') (rev ops) ops'.
Lemma versions_mirror : Forall (fun x => undone_by (upgrade x) (downgrade x)) versions.
Proof. unfold versions. repeat (constructor; [cbn; repeat (constructor; [reflexivity|]); constructor|]). constructor. Qed.

Section Undo.
Context {D : Type} (exec : Op -> D -> option D).
Lemma exec_app xs ys d : exec_all exec (xs ++ ys) d = exec_all exec xs d ≫= exec_all exec ys.
Proof. revert d; induction xs as [|o xs IH]; intros d; cbn; [done|]. destruct (exec o d); cbn; auto. Qed.
Lemma upgrades_snoc rs x d : exec_all exec (upgrades (rs ++ [x])) d = exec_all exec (upgrades rs) d ≫= exec_all exec (upgrade x).
Proof. unfold upgrades. rewrite map_app, concat_app, exec_app. cbn. by rewrite app_nil_r. Qed.

Context `{!Ddl exec}.
#[local] Set Default Proof Using "All".
Lemma inverse_undoes o o' d d' : inverse o = Some o' -> exec o d = Some d' -> exec o' d' = Some d.
Proof.
  intros Hi He. destruct o as [| | | |t [] | | |]; cbn in Hi; simplify_eq;
    eauto using drop_created_table, drop_created_index, drop_added_column, drop_created_foreign_key.
Qed.
Lemma mirror_undoes ops ops' d d' : undone_by ops ops' ->
  exec_all exec ops d = Some d' -> exec_all exec ops' d' = Some d.
Proof.
  unfold undone_by. revert ops' d; induction ops as [|o ops IH]; intros ops' d Hm He; cbn in *.
  { apply Forall2_nil_inv_l in Hm as ->. by simplify_eq/=. }
  apply bind_Some in He as (d1 & E1 & E2).
  apply Forall2_app_inv_l in Hm as (k1 & k2 & Hk1 & Hk2 & ->).
  apply Forall2_cons_inv_l in Hk2 as (o' & l & Ho & Hl & ->). apply Forall2_nil_inv_l in Hl as ->.
  rewrite exec_app. rewrite (IH k1 d1); [|done|done]. cbn. by rewrite (inverse_undoes _ _ _ _ Ho E1).
Qed.
Lemma downgrade_undoes x d d' : x ∈ versions ->
  exec_all exec (upgrade x) d = Some d' -> exec_all exec (downgrade x) d' = Some d.
Proof. intros Hx. apply mirror_undoes. revert x Hx. apply Forall_forall, versions_mirror. Qed.
End Undo.

(** Every revision extends the history of the one it builds on. *)
Lemma history_extends x : x ∈ versions ->
  exists rs, history (down_revision x) = Some rs /\ history (Some (revision x)) = Some (rs ++ [x])%list.
Proof.
  revert x. apply Forall_forall. unfold versions.
  repeat (constructor; [eexists; split; reflexivity|]). constructor.
Qed.

Lemma some_default (r : option Schema) : bool_decide (is_Some r) = true -> r = Some (default ∅ r).
Proof. by intros [x ->]%bool_decide_eq_true_1. Qed.
Definition head_path : list Revision :=
  [revision_1df78230c534; revision_d4ecdb599d09; revision_071fb5dbaeed; revision_3daffa332d31;
   revision_f76b40117bc0; revision_5e835fc4abe5; revision_0846b7c2fbf3].
Lemma head_history : history (Some "0846b7c2fbf3") = Some head_path.
Proof. reflexivity. Qed.
Lemma head_schema : exec_all apply (upgrades head_path) ∅ = Some (schema_of (Base_classes ++ AuthBase_classes)).
Proof. apply (bool_decide_eq_true_1 _). vm_compute. reflexivity. Qed.
Lemma path_visits_all : head_path ≡ₚ versions.
Proof.
  apply NoDup_Permutation; [apply (NoDup_fmap_1 revision)..|].
  - cbn. repeat (constructor; [set_solver|]). constructor.
  - cbn. repeat (constructor; [set_solver|]). constructor.
  - intros x. unfold versions, head_path. rewrite !elem_of_cons. intuition.
Qed.

(** ** Theorems *)
(** C37. Following [down_revision] from the only head visits every revision file
    exactly once, and executing those upgrades, in that order, on an empty
    database succeeds and builds exactly the tables that the ORM classes of the
    two registries declare: the same columns with the same types, nullability
    and defaults, the same named constraints and the same indexes. Up to
    [071fb5dbaeed], the last revision of the business schema, they build
    exactly the tables of [Base]. *)
Theorem head_is_the_orm_schema :
  heads = ["0846b7c2fbf3"] /\
  (exists rs, history (Some "0846b7c2fbf3") = Some rs /\ rs ≡ₚ versions /\
     exec_all apply (upgrades rs) ∅ = Some (schema_of (Base_classes ++ AuthBase_classes))) /\
  (exists rs, history (Some "071fb5dbaeed") = Some rs /\
     exec_all apply (upgrades rs) ∅ = Some (schema_of Base_classes)).
Proof.
  split; [reflexivity|]. split.
  - exists head_path. auto using head_history, path_visits_all, head_schema.
  - eexists. split; [reflexivity|]. apply (bool_decide_eq_true_1 _). vm_compute. reflexivity.
Qed.

(** C38. On any database whose DDL undoes what it created, however [upgrade] and
    [downgrade] steps alternate from an unversioned database [d0], the recorded
    version has a history in the revision graph and the database is what
    executing exactly that history's upgrades on [d0] gives: no sequence of
    migrations leaves anything behind or loses anything, and going back to the
    base restores [d0] itself. *)
Theorem version_determines_schema {D : Type} (exec : Op -> D -> option D) `{!Ddl exec} (d0 : D) v d :
  rtc (step exec) (None, d0) (v, d) ->
  exists rs, history v = Some rs /\ exec_all exec (upgrades rs) d0 = Some d.
Proof.
  intros H. apply (rtc_ind_r (fun s => exists rs, history s.1 = Some rs /\ exec_all exec (upgrades rs) d0 = Some s.2)) in H;
    [done|by exists []|]. clear H.
  intros [v1 d1] [v2 d2] _ Hstep (rs & Hh & He). cbn [fst snd] in *.
  inversion Hstep as [x ? ? Hx Hex|x ? ? Hx Hex]; subst;
    destruct (history_extends x Hx) as (rs' & Hr1 & Hr2).
  - assert (rs' = rs) as -> by congruence. exists (rs ++ [x])%list. split; [done|].
    rewrite upgrades_snoc, He. done.
  - assert (rs = rs' ++ [x])%list as -> by congruence. exists rs'. split; [done|].
    rewrite upgrades_snoc in He. apply bind_Some in He as (d3 & E1 & E2).
    rewrite (downgrade_undoes exec x _ _ Hx E2) in Hex. congruence.
Qed.
Lemma version_determines_schema_witness :
  let d := default ∅ (exec_all apply upgrade_1df78230c534 ∅) in
  rtc (step apply) (None, ∅) (Some "1df78230c534", d) /\
  exists rs, history (Some "1df78230c534") = Some rs /\ exec_all apply (upgrades rs) ∅ = Some d.
Proof.
  intros d. assert (Hd : exec_all apply (upgrade revision_1df78230c534) ∅ = Some d).
  { apply some_default. vm_compute. reflexivity. }
  clearbody d. assert (Hx : revision_1df78230c534 ∈ versions) by (unfold versions; do 2 apply list_elem_of_further; apply list_elem_of_here).
  assert (Hup : step apply (None, ∅) (Some "1df78230c534", d)) by exact (step_up apply revision_1df78230c534 ∅ d Hx Hd).
  assert (Hdown : step apply (Some "1df78230c534", d) (None, ∅)).
  { exact (step_down apply revision_1df78230c534 d ∅ Hx (downgrade_undoes apply _ _ _ Hx Hd)). }
  assert (Hr : rtc (step apply) (None, ∅) (Some "1df78230c534", d)).
  { eapply rtc_l, rtc_l, rtc_once; [exact Hup|exact Hdown|exact Hup]. }
  split; [exact Hr|]. exact (version_determines_schema apply ∅ _ _ Hr).
Defined.
