(* ===== verification/Extractor.v ===== *)
(** * The metadata extractor ([metadata/extractor.py])

    [MetadataExtractor] reads the attributes of SQLAlchemy's configured mappers
    and tables: the records of the first section hold exactly the attributes it
    reads, a [set] of SQLAlchemy's being a list in the order it happens to
    iterate in. [registry_of] is what SQLAlchemy documents for a registry of
    ORM classes, how it renders types and CHECK expressions being parameters.

    The theorems: the snapshot does not depend on the iteration order of any
    set ([extract_ignores_iteration_order]); the snapshot of [Base] describes
    exactly the database the migrations build, apart from the four tables of
    [AuthBase], which the engine cannot name ([metadata_describes_the_database]). *)
From S2P Require Import Prelude PyStr OrmSchema Migrations ContextModels Metadata.
#[local] Open Scope string_scope.

(** ** What the extractor reads *)
Inductive PyTypeAttr := NotImplemented | PyClass (name : string) | PyOther (str : string).
Record SaEnumType := { et_name : option string; et_enums : list string; et_class : option string }.
(** [column.server_default]: an [Identity], or an object with an [arg] or without. *)
Inductive ServerDefaultAttr := IdentityDefault | DefaultArg (arg : option string).
Record ScalarDefault := { is_scalar : bool; sd_arg : option string }.
Record SaColumn := {
  sc_name : string;
  sc_compiled_type : string;
  sc_python_type : PyTypeAttr;
  sc_enum : option SaEnumType;
  sc_nullable : bool;
  sc_primary_key : bool;
  sc_unique : bool;
  sc_identity : bool;
  sc_autoincrement_is_true : bool;
  sc_server_default : option ServerDefaultAttr;
  sc_default : option ScalarDefault }.
(** The names are [None] where SQLAlchemy has its "no name" sentinel. *)
Record SaForeignKeyConstraint := {
  sf_name : option string;
  sf_columns : list string;
  sf_referred_table : string;
  sf_referred : list string;
  sf_ondelete : option string }.
Inductive SaConstraint :=
| SaUnique (name : option string) (columns : list string)
| SaCheck (name : option string) (compiled : string)
| SaOther.
Record SaIndex := {
  si_name : option string;
  si_columns : list string;
  si_unique : bool;
  si_where : option string }.
Record SaTable := {
  st_name : string;
  st_columns : list SaColumn;
  st_pk_name : option string;
  st_pk_columns : list string;
  st_foreign_key_constraints : list SaForeignKeyConstraint;
  st_constraints : list SaConstraint;
  st_indexes : list SaIndex }.
Record SaRelationship := {
  sr_key : string;
  sr_local_remote_pairs : list (string * string);
  sr_target : string;
  sr_direction : string;
  sr_uselist : bool;
  sr_back_populates : option string }.
Record Mapper := { local_table : option SaTable; mapper_relationships : list SaRelationship }.
Definition SaRegistry : Type := list Mapper.

(** ** [extractor.py] *)
Definition name_or (name : option string) (fallback : string) : string := default fallback name.

Definition mapped_tables (r : SaRegistry) : list (SaTable * list SaRelationship) :=
  omap (fun m => (fun t => (t, mapper_relationships m)) <$> local_table m) r.
Definition tables_of (r : SaRegistry) : list SaTable := map fst (mapped_tables r).

Definition python_type_name (c : SaColumn) : string :=
  match sc_python_type c with NotImplemented => "Any" | PyClass n => n | PyOther s => s end.
Definition default_repr (c : SaColumn) : option string :=
  let scalar := match sc_default c with
                | Some d => if is_scalar d then sd_arg d else None
                | None => None
                end in
  match sc_server_default c with
  | Some (DefaultArg (Some arg)) => Some arg
  | _ => scalar
  end.
Definition extract_enum (t : SaTable) (c : SaColumn) : option EnumMetadata :=
  match sc_enum c with
  | Some e =>
      match et_class e with
      | Some cls =>
          Some {| em_name := name_or (et_name e) (st_name t ++ "_" ++ sc_name c ++ "_valid_values");
                  em_values := et_enums e; python_class := cls; em_table_name := st_name t;
                  em_column_name := sc_name c |}
      | None => None
      end
  | None => None
  end.
Definition extract_foreign_keys (t : SaTable) : list ForeignKeyMetadata :=
  sorted_by str_ltb fk_name
    (map (fun k => {| fk_name := name_or (sf_name k) ""; fk_columns := sf_columns k;
                      referred_table := sf_referred_table k; referred_columns := sf_referred k;
                      ondelete := sf_ondelete k |}) (st_foreign_key_constraints t)).
(** A dict comprehension: the last key written for a column stays. *)
Definition foreign_keys_by_column (fks : list ForeignKeyMetadata) : gmap string ForeignKeyMetadata :=
  fold_left (fun d fk => fold_left (fun d c => <[c := fk]> d) (fk_columns fk) d) fks ∅.
Definition extract_column (t : SaTable) (c : SaColumn) (fk : option ForeignKeyMetadata) : ColumnMetadata :=
  {| col_table_name := st_name t; col_name := sc_name c; sql_type := sc_compiled_type c;
     python_type := python_type_name c; nullable := sc_nullable c; primary_key := sc_primary_key c;
     unique := sc_unique c;
     autoincrement := sc_primary_key c && (sc_identity c || sc_autoincrement_is_true c);
     col_default := default_repr c; foreign_key := fk; col_enum := extract_enum t c;
     col_description := None; col_synonyms := []; example_value := None; display_name := None;
     search_keywords := []; is_sensitive := false |}.
Definition unique_of (k : SaConstraint) : option ConstraintMetadata :=
  match k with
  | SaUnique n cols => Some {| cm_name := name_or n ""; cm_kind := UNIQUE; cm_columns := cols; cm_expression := None |}
  | _ => None
  end.
Definition check_of (k : SaConstraint) : option ConstraintMetadata :=
  match k with
  | SaCheck n text => Some {| cm_name := name_or n ""; cm_kind := CHECK; cm_columns := []; cm_expression := Some text |}
  | _ => None
  end.
Definition extract_unique_constraints (t : SaTable) : list ConstraintMetadata :=
  sorted_by str_ltb cm_name (omap unique_of (st_constraints t)).
Definition extract_check_constraints (t : SaTable) : list ConstraintMetadata :=
  sorted_by str_ltb cm_name (omap check_of (st_constraints t)).
Definition extract_indexes (t : SaTable) : list IndexMetadata :=
  sorted_by str_ltb ix_name
    (map (fun i => {| ix_name := name_or (si_name i) ""; ix_columns := si_columns i; ix_unique := si_unique i;
                      ix_where := si_where i |}) (st_indexes t)).
Definition extract_table (t : SaTable) : TableMetadata :=
  let foreign_keys := extract_foreign_keys t in
  let fk_by_column := foreign_keys_by_column foreign_keys in
  {| tbl_name := st_name t;
     tbl_columns := map (fun c => extract_column t c (fk_by_column !! sc_name c)) (st_columns t);
     tbl_primary_key := {| pk_name := name_or (st_pk_name t) ("pk_" ++ st_name t);
                           pk_columns := st_pk_columns t |};
     foreign_keys := foreign_keys;
     unique_constraints := extract_unique_constraints t;
     check_constraints := extract_check_constraints t;
     indexes := extract_indexes t; tbl_description := None; tbl_synonyms := [] |}.
Definition relationship_direction (raw_direction : string) (uselist : bool) : RelationshipDirection :=
  if String.eqb raw_direction "MANYTOONE" then MANY_TO_ONE
  else if String.eqb raw_direction "MANYTOMANY" then MANY_TO_MANY
  else if uselist then ONE_TO_MANY else ONE_TO_ONE.
Definition extract_relationship (t : SaTable) (r : SaRelationship) : RelationshipMetadata :=
  {| rel_name := sr_key r; rel_source_table := st_name t; rel_target_table := sr_target r;
     rel_source_columns := map fst (sr_local_remote_pairs r);
     rel_target_columns := map snd (sr_local_remote_pairs r);
     rel_direction := relationship_direction (sr_direction r) (sr_uselist r);
     back_populates := sr_back_populates r |}.

(** Python compares pairs by their first difference. *)
Definition pair_ltb (x y : string * string) : bool :=
  str_ltb (fst x) (fst y) || (String.eqb (fst x) (fst y) && str_ltb (snd x) (snd y)).
Definition extract_tables (r : SaRegistry) : list TableMetadata :=
  sorted_by str_ltb tbl_name (map extract_table (tables_of r)).
Definition extract_relationships (r : SaRegistry) : list RelationshipMetadata :=
  sorted_by pair_ltb (fun x => (rel_source_table x, rel_name x))
    (concat (map (fun '(t, rels) => map (extract_relationship t) rels) (mapped_tables r))).
Definition extract_enums (r : SaRegistry) : list EnumMetadata :=
  sorted_by pair_ltb (fun e => (em_table_name e, em_column_name e))
    (concat (map (fun t => omap (extract_enum t) (st_columns t)) (tables_of r))).
Definition extract (r : SaRegistry) (now : Z) : DatabaseMetadata :=
  {| tables := extract_tables r; relationships := extract_relationships r; enums := extract_enums r;
     generated_at := now |}.

(** ** The registry of a set of ORM classes

    What SQLAlchemy's declarative mapping makes of the classes. How a type is
    rendered and named, and how the CHECK of a non-native enum reads, is the
    library's: parameters no statement depends on. *)
Section RegistryOf.
Context (compile_type : SaType -> string) (py_type : SaType -> PyTypeAttr)
  (enum_check : string -> list string -> string).

Definition sa_enum (c : MappedColumn) : option SaEnumType :=
  match mc_type c with
  | Enum name values _ => Some {| et_name := Some name; et_enums := values; et_class := mc_enum_class c |}
  | _ => None
  end.
Definition default_text (d : ServerDefault) : string := match d with Literal s | SqlText s => s end.
Definition sa_column (c : MappedColumn) : SaColumn :=
  {| sc_name := mc_name c; sc_compiled_type := compile_type (mc_type c); sc_python_type := py_type (mc_type c);
     sc_enum := sa_enum c; sc_nullable := mc_nullable c; sc_primary_key := mc_primary_key c;
     sc_unique := mc_unique c; sc_identity := mc_primary_key c; sc_autoincrement_is_true := false;
     sc_server_default := if mc_primary_key c then Some IdentityDefault
                          else (fun d => DefaultArg (Some (default_text d))) <$> mc_server_default c;
     sc_default := None |}.
Definition sa_foreign_key (t : string) (c : MappedColumn) : option SaForeignKeyConstraint :=
  r ← mc_foreign_key c;
  Some {| sf_name := Some (fk_name_of t (mc_name c) (fk_table r)); sf_columns := [mc_name c];
          sf_referred_table := fk_table r; sf_referred := [fk_column r]; sf_ondelete := Some (fk_ondelete r) |}.
Definition sa_constraints (c : OrmClass) : list SaConstraint :=
  let t := tablename c in
  ([SaOther] ++
   concat (map (fun k =>
     (if mc_unique k then [SaUnique (Some (uq_name_of t (mc_name k))) [mc_name k]] else []) ++
     match mc_type k with
     | Enum name values _ => [SaCheck (Some (ck_name_of t name)) (enum_check (mc_name k) values)]
     | _ => []
     end) (all_columns c)) ++
   omap (fun a => match a with
                  | Arg_Unique n cols => Some (SaUnique (Some n) cols)
                  | Arg_Check n text => Some (SaCheck (Some (ck_name_of t n)) text)
                  | Arg_Index _ _ _ _ => None
                  end) (table_args c))%list.
Definition sa_indexes (c : OrmClass) : list SaIndex :=
  (concat (map (fun k => if mc_index k then [{| si_name := Some (ix_name_of (tablename c) (mc_name k));
                                                si_columns := [mc_name k]; si_unique := false; si_where := None |}]
                         else []) (all_columns c)) ++
   omap (fun a => match a with
                  | Arg_Index n cols u w => Some {| si_name := Some n; si_columns := cols; si_unique := u; si_where := w |}
                  | _ => None
                  end) (table_args c))%list.
Definition sa_table (c : OrmClass) : SaTable :=
  {| st_name := tablename c; st_columns := map sa_column (all_columns c);
     st_pk_name := Some (pk_name_of (tablename c)); st_pk_columns := primary_columns c;
     st_foreign_key_constraints := omap (sa_foreign_key (tablename c)) (all_columns c);
     st_constraints := sa_constraints c; st_indexes := sa_indexes c |}.

(** The columns a relationship joins on, from the foreign keys between the two
    tables; on a table that refers to itself, [remote_side] tells the ends apart. *)
Definition keys_to (target : string) (c : OrmClass) : list (string * string) :=
  omap (fun k => match mc_foreign_key k with
                 | Some r => if String.eqb (fk_table r) target then Some (mc_name k, fk_column r) else None
                 | None => None
                 end) (all_columns c).
Definition swap {A} (x : A * A) : A * A := (snd x, fst x).
Definition sa_relationship (cs : list OrmClass) (c : OrmClass) (r : OrmRelationship) : SaRelationship :=
  let own := keys_to (or_target r) c in
  let to_one := if String.eqb (or_target r) (tablename c) then bool_decide (is_Some (or_remote_side r))
                else negb (bool_decide (own = [])) in
  let theirs := concat (map (fun x => if String.eqb (tablename x) (or_target r) then keys_to (tablename c) x else []) cs) in
  {| sr_key := or_key r; sr_local_remote_pairs := if to_one then own else map swap theirs;
     sr_target := or_target r; sr_direction := if to_one then "MANYTOONE" else "ONETOMANY";
     sr_uselist := or_uselist r; sr_back_populates := Some (or_back_populates r) |}.
Definition registry_of (cs : list OrmClass) : SaRegistry :=
  map (fun c => {| local_table := Some (sa_table c);
                   mapper_relationships := map (sa_relationship cs c) (orm_relationships c) |}) cs.
End RegistryOf.

(** ** The iteration order of sets *)
Record same_table (t t' : SaTable) : Prop := {
  same_name : st_name t = st_name t';
  same_columns : st_columns t = st_columns t';
  same_pk : st_pk_name t = st_pk_name t' /\ st_pk_columns t = st_pk_columns t';
  same_fks : st_foreign_key_constraints t ≡ₚ st_foreign_key_constraints t';
  same_constraints : st_constraints t ≡ₚ st_constraints t';
  same_indexes : st_indexes t ≡ₚ st_indexes t' }.
Definition same_mapper (m m' : Mapper) : Prop :=
  option_Forall2 same_table (local_table m) (local_table m') /\ mapper_relationships m = mapper_relationships m'.
(** The same registry, its sets iterated in another order. *)
Definition same_registry (r r' : SaRegistry) : Prop := exists r1, r ≡ₚ r1 /\ Forall2 same_mapper r1 r'.

Definition unique_name (k : SaConstraint) : option string :=
  match k with SaUnique n _ => Some (name_or n "") | _ => None end.
Definition check_name (k : SaConstraint) : option string :=
  match k with SaCheck n _ => Some (name_or n "") | _ => None end.
Record well_named_table (t : SaTable) : Prop := {
  names_columns : NoDup (map sc_name (st_columns t));
  names_fks : NoDup (map (fun k => name_or (sf_name k) "") (st_foreign_key_constraints t));
  names_uniques : NoDup (omap unique_name (st_constraints t));
  names_checks : NoDup (omap check_name (st_constraints t));
  names_indexes : NoDup (map (fun i => name_or (si_name i) "") (st_indexes t)) }.
Record well_named (r : SaRegistry) : Prop := {
  names_tables : NoDup (map st_name (tables_of r));
  names_in_tables : forall t, t ∈ tables_of r -> well_named_table t;
  names_relationships : forall t rels, (t, rels) ∈ mapped_tables r -> NoDup (map sr_key rels) }.

Lemma pair_ltb_asym x y : pair_ltb x y = true -> pair_ltb y x = false.
Proof.
  destruct x as [a b], y as [c d]. unfold pair_ltb. cbn [fst snd]. rewrite orb_true_iff, andb_true_iff, String.eqb_eq.
  intros [H|[-> H]].
  - rewrite (str_ltb_asym _ _ H). destruct (String.eqb_spec c a) as [->|]; [|done].
    by rewrite (str_ltb_asym _ _ H) in H.
  - rewrite (str_ltb_asym _ _ H), andb_false_r, orb_false_r. destruct (str_ltb c c) eqn:E; [|done].
    by rewrite (str_ltb_asym _ _ E) in E.
Qed.
Lemma pair_geb x y : pair_ltb y x = false <->
  str_ltb (fst y) (fst x) = false /\ (fst y = fst x -> str_ltb (snd y) (snd x) = false).
Proof.
  unfold pair_ltb. rewrite orb_false_iff, andb_false_iff, String.eqb_neq.
  destruct (str_ltb (snd y) (snd x)); destruct (decide (fst y = fst x)); intuition congruence.
Qed.
Lemma pair_geb_trans x y z : pair_ltb y x = false -> pair_ltb z y = false -> pair_ltb z x = false.
Proof.
  rewrite !pair_geb. intros [H1 H1'] [H2 H2']. split; [eauto using str_geb_trans|].
  intros E. assert (fst y = fst x) as Ey.
  { apply str_antisym; [done|]. by rewrite <- E. }
  eapply str_geb_trans; [by apply H1'|]. apply H2'. congruence.
Qed.
Lemma pair_antisym x y : pair_ltb x y = false -> pair_ltb y x = false -> x = y.
Proof.
  rewrite !pair_geb. destruct x as [a b], y as [c d]; cbn [fst snd]. intros [H1 H1'] [H2 H2'].
  assert (a = c) as -> by auto using str_antisym. f_equal. auto using str_antisym.
Qed.
#[local] Hint Resolve str_ltb_asym str_geb_trans str_antisym pair_ltb_asym pair_geb_trans pair_antisym : core.

Lemma sorted_str_eq {A} (key : A -> string) l l' : NoDup (map key l) -> l ≡ₚ l' ->
  sorted_by str_ltb key l = sorted_by str_ltb key l'.
Proof. apply sorted_by_perm_eq; eauto. Qed.
Lemma sorted_pair_eq {A} (key : A -> string * string) l l' : NoDup (map key l) -> l ≡ₚ l' ->
  sorted_by pair_ltb key l = sorted_by pair_ltb key l'.
Proof. apply sorted_by_perm_eq; eauto. Qed.

Lemma unique_names t : map cm_name (omap unique_of (st_constraints t)) = omap unique_name (st_constraints t).
Proof. induction (st_constraints t) as [|[] l IH]; cbn; congruence. Qed.
Lemma check_names t : map cm_name (omap check_of (st_constraints t)) = omap check_name (st_constraints t).
Proof. induction (st_constraints t) as [|[] l IH]; cbn; congruence. Qed.

(** One table reads the same in any order. *)
Lemma extract_table_same t t' : well_named_table t -> same_table t t' -> extract_table t = extract_table t'.
Proof.
  intros [_ Hf Hu Hc Hi] [En Ecols [Epk Epkc] Pf Pc Pi].
  assert (Ef : extract_foreign_keys t = extract_foreign_keys t').
  { apply sorted_str_eq; [by rewrite map_map|]. by apply fmap_Permutation. }
  assert (Eu : extract_unique_constraints t = extract_unique_constraints t').
  { apply sorted_str_eq; [by rewrite unique_names|by rewrite Pc]. }
  assert (Ec : extract_check_constraints t = extract_check_constraints t').
  { apply sorted_str_eq; [by rewrite check_names|by rewrite Pc]. }
  assert (Ei : extract_indexes t = extract_indexes t').
  { apply sorted_str_eq; [by rewrite map_map|]. by apply fmap_Permutation. }
  unfold extract_table. rewrite Ef, Eu, Ec, Ei, Epk, Epkc, Ecols, En. f_equal.
  apply map_ext. intros c. unfold extract_column, extract_enum. by rewrite En.
Qed.

(** What the two orders give, table by table. *)
Definition same_entry (p p' : SaTable * list SaRelationship) : Prop := same_table (fst p) (fst p') /\ snd p = snd p'.
Lemma mapped_tables_same r r' : Forall2 same_mapper r r' -> Forall2 same_entry (mapped_tables r) (mapped_tables r').
Proof.
  induction 1 as [|m m' r r' [Ht Hr] _ IH]; [constructor|]. unfold mapped_tables in *. cbn.
  destruct Ht as [t t' Ht|]; cbn; [|done]. constructor; [by split|done].
Qed.
Lemma mapped_tables_perm r r' : r ≡ₚ r' -> mapped_tables r ≡ₚ mapped_tables r'.
Proof. intros H. unfold mapped_tables. by rewrite H. Qed.
Lemma entries_same {A} (f : SaTable * list SaRelationship -> A) l l' :
  (forall p p', p ∈ l -> same_entry p p' -> f p = f p') -> Forall2 same_entry l l' -> map f l = map f l'.
Proof.
  intros Hf. induction 1 as [|p p' l l' Hp _ IH]; [done|]. cbn. f_equal; [apply Hf; [left|done]|].
  apply IH. intros q q' Hq. apply Hf. by right.
Qed.
Lemma concat_perm {A} (l l' : list (list A)) : l ≡ₚ l' -> concat l ≡ₚ concat l'.
Proof.
  induction 1 as [|x l l' _ IH|x y l|]; cbn; [done|by rewrite IH| |by etrans].
  by rewrite !app_assoc, (Permutation_app_comm x y).
Qed.
(** Keys made of a key unique among the blocks and one unique in each block. *)
Lemma NoDup_blocks {A B} (f : A -> string) (g : A -> list B) (k : A -> B -> string) l :
  NoDup (map f l) -> (forall x, x ∈ l -> NoDup (map (k x) (g x))) ->
  NoDup (concat (map (fun x => map (fun y => (f x, k x y)) (g x)) l)).
Proof.
  induction l as [|x l IH]; cbn; intros Hn Hk; [constructor|]. apply NoDup_cons in Hn as [Hx Hn].
  apply NoDup_app. split_and!.
  - apply (NoDup_fmap_1 snd). change (NoDup (map snd (map (fun y => (f x, k x y)) (g x)))).
    rewrite map_map. apply Hk. left.
  - intros p (y & -> & _)%list_elem_of_fmap Hp. apply list_elem_of_In, in_concat in Hp as (b & Hb & Hp).
    apply in_map_iff in Hb as (x' & <- & Hx'). apply in_map_iff in Hp as (y' & E & _).
    injection E as E _. destruct Hx. rewrite <- E. by apply list_elem_of_fmap_2, list_elem_of_In.
  - apply IH; [done|]. intros. apply Hk. by right.
Qed.

Lemma map_concat_map {A B C} (h : B -> C) (g : A -> list B) l : map h (concat (map g l)) = concat (map (fun x => map h (g x)) l).
Proof. by rewrite concat_map, map_map. Qed.
Lemma enum_columns t : sublist (map em_column_name (omap (extract_enum t) (st_columns t))) (map sc_name (st_columns t)).
Proof.
  induction (st_columns t) as [|c l IH]; cbn; [constructor|]. unfold extract_enum at 1.
  destruct (sc_enum c) as [e|]; [destruct (et_class e)|]; cbn; by constructor.
Qed.

Lemma enums_of_name t t' (cs : list SaColumn) : st_name t = st_name t' -> omap (extract_enum t) cs = omap (extract_enum t') cs.
Proof.
  intros E. assert (H : forall c, extract_enum t c = extract_enum t' c) by (intros c; unfold extract_enum; by rewrite E).
  induction cs as [|c cs IH]; [done|]. cbn. rewrite H. destruct (extract_enum t' c); cbn; by rewrite IH.
Qed.

Section SameRegistry.
Context (r r' : SaRegistry) (Hw : well_named r) (Hs : same_registry r r').
#[local] Set Default Proof Using "All".

Lemma mapped_split : exists l, mapped_tables r ≡ₚ l /\ Forall2 same_entry l (mapped_tables r') /\
  (forall p, p ∈ l -> well_named_table (fst p)).
Proof.
  destruct Hs as (r1 & Hp & H2). exists (mapped_tables r1). split; [by apply mapped_tables_perm|].
  split; [by apply mapped_tables_same|]. intros p Hp1. apply Hw. rewrite <- (mapped_tables_perm _ _ Hp) in Hp1.
  by apply list_elem_of_fmap_2.
Qed.
Lemma extract_tables_same : extract_tables r = extract_tables r'.
Proof.
  destruct mapped_split as (l & Hp & H2 & Hwt). unfold extract_tables, tables_of.
  rewrite (sorted_str_eq tbl_name _ (map extract_table (map fst l))).
  - f_equal. rewrite !map_map. apply (entries_same _ _ _); [|done]. intros p p' Hpl [Ht _]. auto using extract_table_same.
  - rewrite map_map. apply (names_tables r Hw).
  - by apply fmap_Permutation, fmap_Permutation.
Qed.
Lemma extract_relationships_same : extract_relationships r = extract_relationships r'.
Proof.
  destruct mapped_split as (l & Hp & H2 & Hwt). unfold extract_relationships.
  rewrite (sorted_pair_eq _ _ (concat (map (fun '(t, rels) => map (extract_relationship t) rels) l))).
  - do 2 f_equal. apply (entries_same _ _ _); [|done]. intros [t rels] [t' rels'] _ [Ht E]. cbn in *. subst.
    apply map_ext. intros x. unfold extract_relationship. by rewrite (same_name _ _ Ht).
  - rewrite map_concat_map.
    erewrite map_ext; [apply (NoDup_blocks (fun p => st_name (fst p)) snd (fun _ => sr_key))|].
    + rewrite <- map_map. apply (names_tables r Hw).
    + intros [t rels] Hp1. by apply (names_relationships r Hw t).
    + intros [t rels]. by rewrite map_map.
  - apply concat_perm. by apply fmap_Permutation.
Qed.
Lemma extract_enums_same : extract_enums r = extract_enums r'.
Proof.
  destruct mapped_split as (l & Hp & H2 & Hwt). unfold extract_enums, tables_of.
  rewrite (sorted_pair_eq _ _ (concat (map (fun t => omap (extract_enum t) (st_columns t)) (map fst l)))).
  - do 2 f_equal. rewrite !map_map. apply (entries_same _ _ _); [|done]. intros p p' _ [Ht _].
    rewrite (same_columns _ _ Ht). apply enums_of_name, (same_name _ _ Ht).
  - rewrite map_concat_map.
    erewrite map_ext; [apply (NoDup_blocks st_name (fun t => omap (extract_enum t) (st_columns t)) (fun _ => em_column_name))|].
    + apply (names_tables r Hw).
    + intros t Ht. eapply sublist_NoDup; [|apply enum_columns]. by apply (names_columns _ (names_in_tables r Hw t Ht)).
    + intros t. apply map_ext_in. intros e He. f_equal.
      apply list_elem_of_In, list_elem_of_omap in He as (c & _ & Hc). unfold extract_enum in Hc.
      destruct (sc_enum c) as [e'|]; [destruct (et_class e')|]; by simplify_eq/=.
  - apply concat_perm. by apply fmap_Permutation, fmap_Permutation.
Qed.
End SameRegistry.

(** ** The snapshot of [Base] and the database *)
Definition NoDupb {A} `{EqDecision A} (l : list A) : bool := bool_decide (NoDup l).
Definition well_namedb (r : SaRegistry) : bool :=
  NoDupb (map st_name (tables_of r)) &&
  forallb (fun t => NoDupb (map sc_name (st_columns t)) &&
    NoDupb (map (fun k => name_or (sf_name k) "") (st_foreign_key_constraints t)) &&
    NoDupb (omap unique_name (st_constraints t)) && NoDupb (omap check_name (st_constraints t)) &&
    NoDupb (map (fun i => name_or (si_name i) "") (st_indexes t))) (tables_of r) &&
  forallb (fun p => NoDupb (map sr_key (snd p))) (mapped_tables r).
Lemma well_namedb_ok r : well_namedb r = true -> well_named r.
Proof.
  unfold well_namedb, NoDupb. rewrite !andb_true_iff, !forallb_forall, bool_decide_eq_true. intros [[H1 H2] H3]. split; [done| |].
  - intros t Ht%list_elem_of_In. specialize (H2 t Ht). rewrite !andb_true_iff, !bool_decide_eq_true in H2.
    destruct H2 as [[[[? ?] ?] ?] ?]. by split.
  - intros t rels Hp%list_elem_of_In. specialize (H3 _ Hp). by rewrite bool_decide_eq_true in H3.
Qed.

(** What a table's metadata says of the database: its columns, its constraints
    (the CHECK of an enum's values belongs to the column's type) and its indexes. *)
Definition said_columns (t : TableMetadata) : gmap string (string * bool * bool * option string) :=
  list_to_map (map (fun c => (col_name c, (sql_type c, nullable c, autoincrement c, col_default c))) (tbl_columns t)).
Definition enum_checks (t : TableMetadata) : list string :=
  map (fun e => ck_name_of (tbl_name t) (em_name e)) (omap col_enum (tbl_columns t)).
Definition said_constraints (t : TableMetadata) : gmap string ConstraintDef :=
  list_to_map ((pk_name (tbl_primary_key t), PrimaryKey (pk_columns (tbl_primary_key t))) ::
    map (fun k => (cm_name k, Unique (cm_columns k))) (unique_constraints t) ++
    map (fun k => (fk_name k, ForeignKey {| fd_columns := fk_columns k; fd_table := referred_table k;
                                            fd_referred := referred_columns k; fd_ondelete := default "" (ondelete k) |}))
      (foreign_keys t) ++
    map (fun k => (cm_name k, Check_ (default "" (cm_expression k))))
      (List.filter (fun k => negb (bool_decide (cm_name k ∈ enum_checks t))) (check_constraints t)))%list.
Definition said_indexes (t : TableMetadata) : gmap string IndexDef :=
  list_to_map (map (fun i => (ix_name i, {| id_columns := ix_columns i; id_unique := ix_unique i; id_where := ix_where i |})) (indexes t)).
Definition built_column (compile_type : SaType -> string) (d : ColumnDef) : string * bool * bool * option string :=
  (compile_type (cd_type d), cd_nullable d, cd_identity d, default_text <$> cd_server_default d).
Definition describes (compile_type : SaType -> string) (s : Schema) (t : TableMetadata) : Prop :=
  exists td, s !! tbl_name t = Some td /\ built_column compile_type <$> td_columns td = said_columns t /\
    td_constraints td = said_constraints t /\ td_indexes td = said_indexes t.

(** A relationship joins on a foreign key of the database, in one direction or the other. *)
Definition foreign_key_between (s : Schema) (t : string) (cols : list string) (target : string) (refs : list string) : bool :=
  match s !! t with
  | Some td => existsb (fun kv => match snd kv with
                                  | ForeignKey fk => bool_decide (fd_columns fk = cols /\ fd_table fk = target /\ fd_referred fk = refs)
                                  | _ => false
                                  end) (map_to_list (td_constraints td))
  | None => false
  end.
Definition joins_on_key (s : Schema) (r : RelationshipMetadata) : bool :=
  match rel_direction r with
  | MANY_TO_ONE => foreign_key_between s (rel_source_table r) (rel_source_columns r) (rel_target_table r) (rel_target_columns r)
  | _ => foreign_key_between s (rel_target_table r) (rel_target_columns r) (rel_source_table r) (rel_source_columns r)
  end.
Definition mutual (db : DatabaseMetadata) (r : RelationshipMetadata) : bool :=
  existsb (fun r' => String.eqb (rel_source_table r') (rel_target_table r) && String.eqb (rel_target_table r') (rel_source_table r) &&
    bool_decide (back_populates r = Some (rel_name r')) && bool_decide (back_populates r' = Some (rel_name r)) &&
    bool_decide (rel_source_columns r' = rel_target_columns r /\ rel_target_columns r' = rel_source_columns r)) (relationships db).

(** Every relationship the classes of [Base] declare is there. *)
Definition listed (db : DatabaseMetadata) : Prop :=
  forall c rel, c ∈ Base_classes -> rel ∈ orm_relationships c ->
    exists x, x ∈ relationships db /\ rel_source_table x = tablename c /\ rel_name x = or_key rel.

Section Base.
Context (compile_type : SaType -> string) (py_type : SaType -> PyTypeAttr) (enum_check : string -> list string -> string).
Definition Base_registry : SaRegistry := registry_of compile_type py_type enum_check Base_classes.

Lemma Base_well_named : well_named Base_registry.
Proof. apply well_namedb_ok. vm_compute. reflexivity. Qed.
Lemma Base_tables : tables_of Base_registry = map (sa_table compile_type py_type enum_check) Base_classes.
Proof. reflexivity. Qed.
Definition class_described (c : OrmClass) : Prop :=
  let t := extract_table (sa_table compile_type py_type enum_check c) in
  built_column compile_type <$> td_columns (table_of c) = said_columns t /\
  td_constraints (table_of c) = said_constraints t /\ td_indexes (table_of c) = said_indexes t.
(** An identity column has no other default. *)
Definition plain_keys (c : OrmClass) : bool :=
  forallb (fun k => negb (mc_primary_key k) || bool_decide (mc_server_default k = None)) (all_columns c).
Lemma columns_described c : plain_keys c = true ->
  built_column compile_type <$> td_columns (table_of c) = said_columns (extract_table (sa_table compile_type py_type enum_check c)).
Proof.
  intros Hk. unfold said_columns, table_of. cbn [td_columns tbl_columns extract_table st_columns sa_table].
  rewrite <- list_to_map_fmap, !map_map. f_equal. apply map_ext_in.
  unfold plain_keys in Hk. rewrite forallb_forall in Hk. intros k Hin. specialize (Hk k Hin). cbn. f_equal.
  unfold built_column, default_repr. cbn. destruct (mc_primary_key k); cbn in *; [|by destruct (mc_server_default k)].
  apply bool_decide_eq_true in Hk. by rewrite Hk.
Qed.
Lemma classes_described : Forall class_described Base_classes.
Proof.
  apply Forall_forall. intros c Hc. split; [|split]; revert c Hc; apply Forall_forall.
  - repeat (constructor; [apply columns_described; reflexivity|]). constructor.
  - repeat (constructor; [apply (bool_decide_eq_true_1 _); vm_compute; reflexivity|]). constructor.
  - repeat (constructor; [apply (bool_decide_eq_true_1 _); vm_compute; reflexivity|]). constructor.
Qed.
Lemma Base_describes now t : t ∈ tables (extract Base_registry now) ->
  describes compile_type (schema_of (Base_classes ++ AuthBase_classes)) t.
Proof.
  cbn [extract tables]. unfold extract_tables. rewrite elem_of_sorted_by, Base_tables.
  intros (t0 & -> & (c & -> & Hc)%list_elem_of_fmap)%list_elem_of_fmap. exists (table_of c).
  split; [|exact (proj1 (Forall_forall _ _) classes_described c Hc)].
  apply elem_of_list_to_map_1; [|by apply (list_elem_of_fmap_2 (fun c => (tablename c, table_of c))), elem_of_app; left].
  rewrite <- list_fmap_compose. apply (bool_decide_eq_true_1 _). vm_compute. reflexivity.
Qed.
Lemma Base_relationships now :
  forallb (fun r => joins_on_key (schema_of (Base_classes ++ AuthBase_classes)) r && mutual (extract Base_registry now) r)
    (relationships (extract Base_registry now)) = true.
Proof. vm_compute. reflexivity. Qed.
Definition lists_relationship (db : DatabaseMetadata) (source name : string) : bool :=
  existsb (fun x => String.eqb (rel_source_table x) source && String.eqb (rel_name x) name) (relationships db).
Lemma Base_relationships_listed now : listed (extract Base_registry now).
Proof.
  intros c rel Hc Hr.
  assert (H : (fun db => forallb (fun c => forallb (fun rel => lists_relationship db (tablename c) (or_key rel))
    (orm_relationships c)) Base_classes) (extract Base_registry now) = true) by (vm_compute; reflexivity).
  cbv beta in H. rewrite forallb_forall in H. apply list_elem_of_In in Hc. specialize (H c Hc). rewrite forallb_forall in H.
  apply list_elem_of_In in Hr. apply H, existsb_exists in Hr as (x & Hx & [E1 E2]%andb_true_iff).
  exists x. split; [by apply list_elem_of_In|]. by apply String.eqb_eq in E1, E2.
Qed.
Lemma forallb_both {A} (f g : A -> bool) l : forallb (fun x => f x && g x) l = true -> forall x, x ∈ l -> f x = true /\ g x = true.
Proof. rewrite forallb_forall. intros H x Hx%list_elem_of_In. by apply andb_true_iff, H. Qed.
Lemma Base_joins now x : x ∈ relationships (extract Base_registry now) ->
  joins_on_key (schema_of (Base_classes ++ AuthBase_classes)) x = true /\ mutual (extract Base_registry now) x = true.
Proof. exact (forallb_both _ _ _ (Base_relationships now) x). Qed.
End Base.

Lemma extract_same r r' now : well_named r -> same_registry r r' -> extract r now = extract r' now.
Proof.
  intros Hw Hs. unfold extract.
  by rewrite (extract_tables_same r r'), (extract_relationships_same r r'), (extract_enums_same r r').
Qed.
Lemma enrich_names d db : map tbl_name (tables (enrich d db)) = map tbl_name (tables db).
Proof.
  cbn. rewrite map_map. apply map_ext. intros t. unfold enrich_table. by destruct (dict_tables d !! tbl_name t).
Qed.
Lemma joins_enriched d raw s : (forall x, x ∈ relationships raw -> joins_on_key s x = true /\ mutual raw x = true) ->
  forall x, x ∈ relationships (enrich d raw) -> joins_on_key s x = true /\ mutual (enrich d raw) x = true.
Proof. done. Qed.
Lemma listed_enriched d raw : listed raw -> listed (enrich d raw).
Proof. done. Qed.
(** The dictionary describes; it does not change what is said of the structure. *)
Lemma enrich_column_said d n c :
  (col_name (enrich_column d n c), (sql_type (enrich_column d n c), nullable (enrich_column d n c),
     autoincrement (enrich_column d n c), col_default (enrich_column d n c)), col_enum (enrich_column d n c))
  = (col_name c, (sql_type c, nullable c, autoincrement c, col_default c), col_enum c).
Proof. unfold enrich_column. by destruct (dict_columns d !! _). Qed.
Lemma enrich_table_structure d t :
  tbl_name (enrich_table d t) = tbl_name t /\ said_columns (enrich_table d t) = said_columns t /\
  said_constraints (enrich_table d t) = said_constraints t /\ said_indexes (enrich_table d t) = said_indexes t.
Proof.
  assert (Hc : tbl_columns (enrich_table d t) = map (enrich_column d (tbl_name t)) (tbl_columns t) /\
    tbl_name (enrich_table d t) = tbl_name t /\ tbl_primary_key (enrich_table d t) = tbl_primary_key t /\
    unique_constraints (enrich_table d t) = unique_constraints t /\ foreign_keys (enrich_table d t) = foreign_keys t /\
    check_constraints (enrich_table d t) = check_constraints t /\ indexes (enrich_table d t) = indexes t).
  { unfold enrich_table. by destruct (dict_tables d !! _). }
  destruct Hc as (Hc & Hn & Hp & Hu & Hf & Hk & Hi). split; [done|].
  assert (He : enum_checks (enrich_table d t) = enum_checks t).
  { unfold enum_checks. rewrite Hn, Hc. f_equal. apply list_omap_ext, Forall2_fmap_l, Forall_Forall2_diag, Forall_forall.
    intros c _. unfold compose. by pose proof (enrich_column_said d (tbl_name t) c) as [= _ _ _ _ _ ->]. }
  unfold said_columns, said_constraints, said_indexes. rewrite He, Hc, Hp, Hu, Hf, Hk, Hi. split; [|done].
  f_equal. rewrite map_map. apply map_ext. intros c. by pose proof (enrich_column_said d (tbl_name t) c) as [= -> -> -> -> -> _].
Qed.
Lemma enriched_describes compile_type s d t : describes compile_type s t -> describes compile_type s (enrich_table d t).
Proof. unfold describes. by destruct (enrich_table_structure d t) as (-> & -> & -> & ->). Qed.
Lemma Base_names compile_type py_type enum_check now :
  map tbl_name (tables (extract (Base_registry compile_type py_type enum_check) now)) ≡ₚ map tablename Base_classes.
Proof.
  cbn [extract tables]. unfold extract_tables. rewrite (fmap_Permutation tbl_name _ _ (sorted_by_perm _ _ _)), Base_tables.
  unfold fmap, list_fmap. by rewrite !map_map.
Qed.
Lemma in_schema_of cs n : is_Some (schema_of cs !! n) <-> n ∈ map tablename cs.
Proof.
  unfold schema_of. rewrite <- not_eq_None_Some, <- not_elem_of_list_to_map, <- list_fmap_compose.
  split; [apply dec_stable|auto].
Qed.
Lemma AuthBase_disjoint n : n ∈ map tablename AuthBase_classes -> n ∉ map tablename Base_classes.
Proof.
  revert n. apply Forall_forall. repeat (constructor; [apply (bool_decide_eq_true_1 _); reflexivity|]). constructor.
Qed.

(** ** Theorems *)
(** The metadata snapshot is a function of the registry's contents: on a
    registry in which every table, and in every table every column, key,
    constraint and index, has a name of its own, [extract] gives the same
    snapshot in whatever order SQLAlchemy's sets of mappers, foreign keys,
    constraints and indexes iterate. *)
Theorem extract_ignores_iteration_order r r' now :
  well_named r -> same_registry r r' -> extract r now = extract r' now.
Proof. apply extract_same. Qed.

Lemma same_registry_perm r r' : r ≡ₚ r' -> same_registry r r'.
Proof.
  intros Hp. exists r'. split; [done|]. clear. induction r' as [|m r' IH]; constructor; [|done].
  split; [|done]. destruct (local_table m); constructor. by split.
Qed.

(** C39. What the engine is told of the database is what the migrations built.
    However SQLAlchemy renders types and iterates its sets, the snapshot
    extracted from [Base], as it is and after any dictionary has enriched it,
    describes the database at the head revision: every table of the snapshot
    exists there with exactly the columns (type, nullability, identity, default), primary
    and foreign keys, unique and CHECK constraints and indexes the snapshot
    says; every relationship the classes declare is listed, and every one that
    is listed joins on a foreign key of the database and its two ends name each
    other; and the only other tables of the database are
    those of [AuthBase], which the engine's registry answers with
    [TableNotFoundError]. *)
Theorem metadata_describes_the_database compile_type py_type enum_check r now dictionary :
  same_registry (Base_registry compile_type py_type enum_check) r ->
  let raw := extract r now in
  let db := enrich dictionary raw in
  exists rs s, history (Some "0846b7c2fbf3") = Some rs /\ exec_all apply (upgrades rs) ∅ = Some s /\
    (forall t, t ∈ tables raw \/ t ∈ tables db -> describes compile_type s t) /\
    (forall x, x ∈ relationships db -> joins_on_key s x = true /\ mutual db x = true) /\
    listed db /\
    NoDup (map tbl_name (tables db)) /\
    (forall n, is_Some (s !! n) <-> n ∈ map tbl_name (tables db) \/ n ∈ map tablename AuthBase_classes) /\
    (forall n, n ∈ map tablename AuthBase_classes -> get_table (Some db) n = Raise (TableNotFoundError n)).
Proof.
  intros Hs raw db. assert (E : raw = extract (Base_registry compile_type py_type enum_check) now).
  { symmetry. apply extract_same; [apply Base_well_named|done]. }
  clearbody raw. subst raw. pose proof (Base_names compile_type py_type enum_check now) as Hn.
  exists head_path, (schema_of (Base_classes ++ AuthBase_classes)).
  split; [apply head_history|]. split; [apply head_schema|]. split.
  { intros t [Ht|(t0 & -> & Ht)%list_elem_of_fmap]; [by eapply Base_describes|]. eapply enriched_describes, Base_describes, Ht. }
  assert (Hdb : map tbl_name (tables db) ≡ₚ map tablename Base_classes) by (unfold db; by rewrite enrich_names).
  rewrite Hdb. split; [|split; [|split; [|split]]].
  - exact (joins_enriched _ _ _ (Base_joins compile_type py_type enum_check now)).
  - exact (listed_enriched _ _ (Base_relationships_listed compile_type py_type enum_check now)).
  - apply (bool_decide_eq_true_1 _). reflexivity.
  - intros n. rewrite in_schema_of, map_app, elem_of_app. by rewrite Hdb.
  - intros n Ha. unfold get_table. cbn [require_loaded obind].
    destruct (find_table db n) as [t|] eqn:Ef; [|done]. exfalso. apply find_table_Some in Ef as [Ht <-].
    apply (AuthBase_disjoint _ Ha). rewrite <- Hdb. by apply list_elem_of_fmap_2.
Qed.

(** SQLAlchemy hands out the mappers of [Base] in the opposite order. *)
Lemma extract_ignores_iteration_order_witness :
  let r := Base_registry (fun _ => "VARCHAR") (fun _ => PyClass "str") (fun c _ => c) in
  well_named r /\ same_registry r (rev r) /\ r <> rev r /\ extract r 0 = extract (rev r) 0.
Proof.
  intros r. assert (Hw : well_named r) by apply Base_well_named.
  assert (Hs : same_registry r (rev r)) by (apply same_registry_perm, Permutation_rev).
  split; [exact Hw|]. split; [exact Hs|]. split.
  - intros E. apply (f_equal (fun l => map st_name (take 1 (tables_of l)))) in E. discriminate E.
  - exact (extract_ignores_iteration_order r (rev r) 0 Hw Hs).
Defined.
Lemma metadata_describes_the_database_witness :
  let r := Base_registry (fun _ => "VARCHAR") (fun _ => PyClass "str") (fun c _ => c) in
  get_table (Some (enrich {| dict_tables := ∅; dict_columns := ∅ |} (extract (rev r) 0))) "users"
  = Raise (TableNotFoundError "users").
Proof.
  intros r. assert (Hs : same_registry r (rev r)) by (apply same_registry_perm, Permutation_rev).
  destruct (metadata_describes_the_database _ _ _ (rev r) 0 {| dict_tables := ∅; dict_columns := ∅ |} Hs)
    as (rs & s & _ & _ & _ & _ & _ & _ & _ & H).
  apply H. apply list_elem_of_here.
Defined.
