(* ===== verification/Isolation.v ===== *)
(** * What the pipeline can reach of the accounts

    [auth/models.py] keeps the account tables on a registry of their own so that
    a generated query cannot touch them. This file puts the extractor's snapshot
    of [Base] into the pipeline of [EndToEnd].

    [accounts_need_a_shadow]: a text that reaches the database names an account
    table only where the statement itself declares a CTE or derived table of
    that name, and qualifies no column with one otherwise.
    [shadowed_accounts_are_read] shows the exception is real: the validator
    takes a name for local wherever it stands, so a derived table called
    [users] hides the [users] it is selected from, and a text that reads
    [password_hash] passes every check and is executed. *)
From S2P Require Import Prelude PyFloat PyStr Models OrmSchema Migrations ContextModels Metadata BusinessKnowledge Extractor Validation PromptCompiler Repair Execution Orchestrator EndToEnd.
#[local] Open Scope string_scope.
#[local] Open Scope Z_scope.

Definition account_tables : list string := map tablename AuthBase_classes.

(** [MetadataRegistry(MetadataExtractor(Base.registry), ColumnDictionary.default())]
    once loaded, for some rendering of types and some order of SQLAlchemy's sets. *)
Definition loaded_metadata (db : DatabaseMetadata) : Prop :=
  exists compile_type py_type enum_check r now dictionary,
    same_registry (Base_registry compile_type py_type enum_check) r /\ db = enrich dictionary (extract r now).

Lemma loaded_names db n : loaded_metadata db -> n ∈ map tbl_name (tables db) -> n ∉ account_tables.
Proof.
  intros (ct & pt & ec & r & now & d & Hs & ->). rewrite enrich_names.
  rewrite <- (extract_same _ r now (Base_well_named ct pt ec) Hs), Base_names. intros Hb Ha. by apply (AuthBase_disjoint n).
Qed.

Section Reach.
Context {node : Type} `{Sqlglot node} `{PySet}.

(** The statement reads account tables only through names it declares itself. *)
Definition keeps_off_accounts (a : node) : Prop :=
  (forall t, t ∈ extract_tables a -> tref_name t ∈ account_tables -> tref_name t ∈ local_scope_names a) /\
  (forall c q, c ∈ extract_columns a -> cref_qualifier c = Some q ->
     exists t, alist_get q (build_alias_map a) = Some t /\ (t ∈ account_tables -> t ∈ local_scope_names a)) /\
  (forall c, c ∈ extract_columns a -> cref_qualifier c = None ->
     cref_name c ∈ output_aliases a \/
     exists t, t ∈ map snd (build_alias_map a) /\ t ∉ account_tables).
Lemma grounded_keeps_off db g p : loaded_metadata db -> grounded db g p -> keeps_off_accounts (ast p).
Proof.
  intros Hl (_ & Ht & Hc & _).
  assert (Hreal : forall t c, real_column db t c -> t ∉ account_tables).
  { intros t c (tbl & k & Hf & _). apply find_table_Some in Hf as [Hin <-].
    apply (loaded_names db); [done|]. by apply list_elem_of_fmap_2. }
  split; [|split].
  - intros t Hin Ha. destruct (Ht t Hin) as [?|Hk]; [done|]. by destruct (loaded_names db _ Hl Hk).
  - intros c q Hin Hq. specialize (Hc c Hin). unfold column_known in Hc. rewrite Hq in Hc.
    destruct Hc as (t & Hm & Hl'). exists t. split; [done|]. intros Ha.
    destruct Hl' as [?|Hr]; [done|]. by destruct (Hreal _ _ Hr).
  - intros c Hin Hq. specialize (Hc c Hin). unfold column_known in Hc. rewrite Hq in Hc.
    destruct Hc as [?|(t & (Hm & _ & Hr) & _)]; [by left|]. right. exists t. eauto.
Qed.
End Reach.

(** ** The positive half *)
Section Props.
Context {node : Type} `{Sqlglot node} `{PySet} {W V Answer : Type} `{Clock W}.
Context (parse_one : string -> string -> outcome exn node).
Context (sqlglot_parse : string -> string -> outcome exn (list (option node))) (timeout : Q).
Context (find_any : list node_class -> node -> option node).
Context (metadata : DatabaseMetadata) (knowledge : option BusinessKnowledgeCatalog) (graph : RelationshipGraph).
Context (max_attempts : Z).
Context (build_prompt : RetrievedKnowledgeBundle -> GeneratedSQL -> SQLValidationResult -> RepairPlan ->
                        prog W exn CompiledPrompt).
Context (llm_repair : CompiledPrompt -> prog W exn LLMResponse).
Context (show_float : Q -> string).
Context (phases : Collaborators (V:=V) (Answer:=Answer) W) (dialect_ : SQLDialect).
Context (publisher : option (StageEventPublisher (V:=V) (Answer:=Answer) W)).
Context (database : Database W V).

#[local] Abbreviation pipeline := (wired parse_one sqlglot_parse timeout find_any metadata knowledge graph
  max_attempts build_prompt llm_repair show_float phases).

(** C4. With the metadata the container loads, the pipeline depends on the
    driver's answers only to texts that keep off the accounts: every table of
    [AuthBase] such a text names is a CTE or derived table of its own, every
    qualified column belongs to a table that is no account table or to such a
    name, and every bare column is an output alias or is found beside a table
    that is no account table. Whatever the driver does on any other text, the
    same question is answered the same way. *)
Theorem accounts_need_a_shadow f q w :
  loaded_metadata metadata ->
  (forall c s t, (exists g p, s = strip (sql g) /\ parse parse_one (sql g) "postgres" = Ret p /\ keeps_off_accounts (ast p)) ->
     f c s t = run_sql database c s t) ->
  ask (pipeline (with_run_sql database f)) dialect_ publisher q w = ask (pipeline database) dialect_ publisher q w.
Proof.
  intros Hl Hf. apply ask_depends_on_safe. intros c s t (g & p & parsed & st & Hs & _ & Hp & Hg & _).
  apply Hf. exists g, p. eauto using grounded_keeps_off.
Qed.
End Props.

(** ** A text that reads the accounts *)
Module Shadow.
Import Validation.Demo.
Definition metadata : DatabaseMetadata :=
  enrich {| dict_tables := ∅; dict_columns := ∅ |}
    (extract (Base_registry (fun _ => "VARCHAR") (fun _ => PyClass "str") (fun c _ => c)) 0).
Definition graph : RelationshipGraph := RelationshipGraph_init (map tbl_name (tables metadata)) (relationships metadata).
Definition text : string := "SELECT users.password_hash FROM (SELECT users.password_hash FROM users) AS users;".
Definition password : tree := Tree [E_Column] "password_hash" "" "users" [] [].
Definition inner : tree := Tree [E_Select] "" "" "" [("from", Tree [E_Table] "users" "" "" [] [])] [password].
Definition statement : tree :=
  Tree [E_Select] "" "" "" [("from", Tree [E_Subquery] "" "users" "" [("this", inner)] [])] [password].
Definition parse_text (s d : string) : outcome exn tree :=
  if String.eqb s text then Ret statement else parse_demo s d.
Definition parse_list (s d : string) : outcome exn (list (option tree)) :=
  match parse_text s d with Ret t => Ret [Some t] | Raise e => Raise e end.
Definition pipeline : Collaborators (V:=Z) (Answer:=Z) ExecDemo.DbWorld :=
  wired parse_text parse_list DEFAULT_EXECUTION_TIMEOUT_SECONDS ExecDemo.find_write metadata (Some catalog) graph 3
    (fun _ _ _ _ => ret demo_prompt) PipelineDemo.repaired_answer (fun _ => "30.0")
    (PipelineDemo.phases_for text) ExecDemo.database.
End Shadow.

Lemma Shadow_loaded : loaded_metadata Shadow.metadata.
Proof. do 5 eexists. exists {| dict_tables := ∅; dict_columns := ∅ |}. split; [|reflexivity]. by apply same_registry_perm. Qed.

Definition succeeded {V Answer : Type} (o : outcome (pipeline_exn (V:=V)) (QueryMindResponse (V:=V) (Answer:=Answer))) : bool :=
  match o with Ret r => match resp_status r with P_SUCCESS => true | _ => false end | Raise _ => false end.

(** The isolation can be walked around: for the metadata of [Base], the inner
    query of [Shadow.text] selects [password_hash] from the account table
    [users] with no local name in its scope, and yet the derived table of that
    name makes every validator accept it; the guard permits it and it is the
    text the database executes. *)
Theorem shadowed_accounts_are_read :
  loaded_metadata Shadow.metadata /\
  map tref_name (extract_tables Shadow.inner) = ["users"] /\ local_scope_names Shadow.inner = [] /\
  "users" ∈ account_tables /\ get_table (Some Shadow.metadata) "users" = Raise (TableNotFoundError "users") /\
  succeeded (fst (ask Shadow.pipeline POSTGRESQL None "q" PipelineDemo.idle)) = true /\
  ExecDemo.sent (snd (ask Shadow.pipeline POSTGRESQL None "q" PipelineDemo.idle)) = [Shadow.text].
Proof.
  split; [apply Shadow_loaded|]. split_and!; [reflexivity|reflexivity|left| | |]; vm_compute; reflexivity.
Qed.

(** ** Witness: a driver that fails on a text that names the accounts openly *)
Module Open.
Definition text : string := "SELECT users.password_hash FROM users;".
Definition parse_text (s d : string) : outcome exn Validation.Demo.tree :=
  if String.eqb s text then Ret Shadow.inner else Raise (OtherException "ParseError" "Invalid expression").
Definition parse_list (s d : string) : outcome exn (list (option Validation.Demo.tree)) := Ret [Some Shadow.inner].
Definition pipeline (d : Database ExecDemo.DbWorld Z) : Collaborators (V:=Z) (Answer:=Z) ExecDemo.DbWorld :=
  wired parse_text parse_list DEFAULT_EXECUTION_TIMEOUT_SECONDS ExecDemo.find_write Shadow.metadata (Some Validation.Demo.catalog)
    Shadow.graph 3 (fun _ _ _ _ => ret demo_prompt) PipelineDemo.repaired_answer (fun _ => "30.0")
    (PipelineDemo.phases_for text) d.
Definition catastrophe (c : unit) (s : string) (t : Q) : prog ExecDemo.DbWorld exn (CursorResult Z) :=
  fun _ => (Raise (OtherException "Catastrophe" ""), {| ExecDemo.open_conns := 0; ExecDemo.sent := ["gone"] |}).
End Open.
Lemma open_text_touches_accounts : ~ keeps_off_accounts Shadow.inner.
Proof.
  intros (Ht & _). specialize (Ht {| tref_name := "users"; tref_alias := None; tref_node := Demo.Tree [E_Table] "users" "" "" [] [] |}).
  assert (H : "users" ∈ local_scope_names Shadow.inner) by (apply Ht; left).
  by apply not_elem_of_nil in H.
Qed.
Lemma accounts_need_a_shadow_witness :
  ask (Open.pipeline (with_run_sql ExecDemo.database Open.catastrophe)) POSTGRESQL None "q" PipelineDemo.idle
  = ask (Open.pipeline ExecDemo.database) POSTGRESQL None "q" PipelineDemo.idle.
Proof.
  refine (accounts_need_a_shadow Open.parse_text Open.parse_list DEFAULT_EXECUTION_TIMEOUT_SECONDS
    ExecDemo.find_write Shadow.metadata (Some Validation.Demo.catalog) Shadow.graph 3
    (fun _ _ _ _ => ret demo_prompt) PipelineDemo.repaired_answer (fun _ => "30.0")
    (PipelineDemo.phases_for Open.text) POSTGRESQL None ExecDemo.database Open.catastrophe
    "q" PipelineDemo.idle Shadow_loaded _).
  intros [] s t (g & p & _ & Hp & Hk). destruct open_text_touches_accounts.
  unfold parse, Open.parse_text in Hp. destruct (String.eqb (sql g) Open.text); [|discriminate Hp].
  injection Hp as <-. exact Hk.
Defined.
