(* ===== verification/Transports.v ===== *)
(** * The streaming transports ([streaming/sse.py], [streaming/websocket.py])

    [POST /query/stream] writes every event of the driver as one Server-Sent
    Events frame, [/ws/query] sends it as one text frame. [event_source] and
    [stream_query_ws] are the two handlers after their guards (ApiGuards.v,
    ApiRoutes.v), as the actions they perform, in order, against a client that
    may leave at any point. [read_stream] is the reader every [EventSource] is,
    after the WHATWG specification of the format.

    [both_transports_carry_the_stream]: what an SSE client decodes and what a
    WebSocket client receives are the same texts, in the driver's order. *)
From Stdlib Require Import Ascii String.
From S2P Require Import Prelude PyFloat PyStr Models Orchestrator Auth ApiWorld ApiGuards ApiRoutes Streaming.
#[local] Open Scope string_scope.
#[local] Open Scope Z_scope.

Definition LF : ascii := "010"%char.
Definition nl : string := String LF "".

(** ** What both handlers do *)
Inductive Action :=
| Accepted
| BoundContext (request_id correlation_id : string)
| ClearedContext
| Logged (event : string)
| Sent (text : string)
| Closed (code : Z) (reason : string).
#[export] Instance Action_eq_dec : EqDecision Action.
Proof. solve_decision. Defined.
Definition sent_text (a : Action) : option string := match a with Sent s => Some s | _ => None end.

(** The client takes the first [patience] messages and then is gone, if it ever goes. *)
Definition patience := option nat.

Section Transports.
Context {Dump : Type}.
(** [event.event_id], and pydantic's [model_dump_json]. *)
Context (event_id : PipelineEvent (Dump:=Dump) -> string) (serialize_event : PipelineEvent (Dump:=Dump) -> string).

(** ** [sse.py] *)
Definition format_sse_frame (e : PipelineEvent) : string :=
  "id: " ++ event_id e ++ nl ++ "event: " ++ PipelineEventType_value (event_type e) ++ nl ++
  "data: " ++ serialize_event e ++ nl ++ nl.
Definition sse_log (e : PipelineEvent (Dump:=Dump)) : Action :=
  Logged ("sse_event_sent (type=" ++ PipelineEventType_value (event_type e) ++ ")").
(** The frames up to the one whose consumer is gone: there [yield] raises. (A
    cancellation that arrives while the driver waits differs in the log line only.) *)
Fixpoint sse_frames (p : patience) (evs : list PipelineEvent) : list Action :=
  match evs with
  | [] => []
  | e :: evs =>
      sse_log e ::
      match p with
      | Some O => [Logged "sse_client_disconnected"]
      | Some (S n) => Sent (format_sse_frame e) :: sse_frames (Some n) evs
      | None => Sent (format_sse_frame e) :: sse_frames None evs
      end
  end.
Definition event_source (p : patience) (evs : list PipelineEvent) : list Action :=
  (Logged "sse_connection_opened" :: sse_frames p evs ++ [Logged "sse_connection_closed"])%list.

(** ** [websocket.py] *)
(** What the client does: its first message, if it sends one, and its patience. *)
Record WsClient := { first_message : option string; ws_patience : patience }.
(** The texts sent, and whether [send_text] raised [WebSocketDisconnect]. *)
Fixpoint ws_frames (p : patience) (evs : list PipelineEvent) : list Action * bool :=
  match evs with
  | [] => ([], false)
  | e :: evs =>
      let log := Logged ("websocket_event_sent (type=" ++ PipelineEventType_value (event_type e) ++ ")") in
      match p with
      | Some O => ([log], true)
      | Some (S n) => let r := ws_frames (Some n) evs in (log :: Sent (serialize_event e) :: fst r, snd r)
      | None => let r := ws_frames None evs in (log :: Sent (serialize_event e) :: fst r, snd r)
      end
  end.
(** [parse_request] is [QuestionRequest.model_validate_json], [events_of q] what the
    driver yields for a question, [cid] the fresh [uuid4]. *)
Definition stream_query_ws (parse_request : string -> outcome string string) (cid : string)
    (events_of : string -> list PipelineEvent) (h : Handshake) (c : WsClient) : list Action :=
  match h with
  | Close code reason => [Closed code reason]
  | Admit _ =>
      ([Accepted; BoundContext cid cid; Logged "websocket_connection_opened"] ++
       match first_message c with
       | None => [Logged "websocket_client_disconnected"]
       | Some raw =>
           match parse_request raw with
           | Raise msg => [Logged ("websocket_invalid_request (" ++ msg ++ ")"); Closed 1008 "Invalid request."]
           | Ret q =>
               let '(sent, gone) := ws_frames (ws_patience c) (events_of q) in
               sent ++ (if gone then [Logged "websocket_client_disconnected"] else []) ++
               [ClearedContext; Logged "websocket_connection_closed"] ++
               (if gone then [] else [Closed 1000 ""])
           end
       end)%list
  end.
End Transports.

(** ** The reader of an event stream

    Lines end with a line feed; a line is a field name, a colon and a value, one
    space before which is dropped; a blank line dispatches the message read so
    far unless it has no data; the last event id is kept. *)
Fixpoint split_lines (s : string) : list string :=
  match s with
  | "" => [""]
  | String c r =>
      if Ascii.eqb c LF then "" :: split_lines r
      else match split_lines r with l :: ls => String c l :: ls | [] => [String c ""] end
  end.
Fixpoint split_field (s : string) : string * string :=
  match s with
  | "" => ("", "")
  | String c r =>
      if Ascii.eqb c ":"%char then ("", match r with String " "%char v => v | _ => r end)
      else (String c (fst (split_field r)), snd (split_field r))
  end.
Record Message := { msg_id : string; msg_event : string; msg_data : string }.
Record Buffer := { buf_id : string; buf_event : string; buf_data : list string }.
Definition read_field (b : Buffer) (line : string) : Buffer :=
  let '(name, value) := split_field line in
  if String.eqb name "id" then {| buf_id := value; buf_event := buf_event b; buf_data := buf_data b |}
  else if String.eqb name "event" then {| buf_id := buf_id b; buf_event := value; buf_data := buf_data b |}
  else if String.eqb name "data" then {| buf_id := buf_id b; buf_event := buf_event b; buf_data := (buf_data b ++ [value])%list |}
  else b.
Fixpoint read_lines (b : Buffer) (ls : list string) : list Message :=
  match ls with
  | [] => []
  | "" :: ls =>
      let rest := read_lines {| buf_id := buf_id b; buf_event := ""; buf_data := [] |} ls in
      match buf_data b with
      | [] => rest
      | d => {| msg_id := buf_id b; msg_event := buf_event b; msg_data := join nl d |} :: rest
      end
  | l :: ls => read_lines (read_field b l) ls
  end.
Definition read_stream (s : string) : list Message :=
  read_lines {| buf_id := ""; buf_event := ""; buf_data := [] |} (split_lines s).

(** ** Reading back what was written *)
Definition no_lf (s : string) : Prop := forall c, c ∈ list_ascii_of_string s -> c <> LF.
Lemma no_lf_cons c s : no_lf (String c s) <-> c <> LF /\ no_lf s.
Proof. unfold no_lf. cbn. setoid_rewrite elem_of_cons. naive_solver. Qed.
Lemma split_lines_app l r : no_lf l -> split_lines (l ++ nl ++ r) = l :: split_lines r.
Proof.
  induction l as [|c l IH]; intros Hl; [done|]. apply no_lf_cons in Hl as [Hc Hl].
  change (String c l ++ nl ++ r) with (String c (l ++ nl ++ r)). cbn [split_lines].
  destruct (Ascii.eqb_spec c LF) as [|_]; [done|]. by rewrite IH.
Qed.
Lemma no_lf_app s t : no_lf s -> no_lf t -> no_lf (s ++ t).
Proof. intros Hs Ht. induction s as [|c s IH]; [done|]. apply no_lf_cons in Hs as [? ?]. apply no_lf_cons. auto. Qed.
Lemma no_lf_const s : forallb (fun c => negb (Ascii.eqb c LF)) (list_ascii_of_string s) = true -> no_lf s.
Proof.
  rewrite forallb_forall. intros H c Hc%list_elem_of_In%H ->. by rewrite Ascii.eqb_refl in Hc.
Qed.

Lemma split_lines_frame i t d r : no_lf i -> no_lf t -> no_lf d ->
  split_lines (("id: " ++ i ++ nl ++ "event: " ++ t ++ nl ++ "data: " ++ d ++ nl ++ nl) ++ r)
  = ("id: " ++ i) :: ("event: " ++ t) :: ("data: " ++ d) :: "" :: split_lines r.
Proof.
  intros Hi Ht Hd. rewrite !app_str_assoc.
  rewrite <- (app_str_assoc "id: "), split_lines_app by (apply no_lf_app; [by apply no_lf_const|done]).
  rewrite <- (app_str_assoc "event: "), split_lines_app by (apply no_lf_app; [by apply no_lf_const|done]).
  rewrite <- (app_str_assoc "data: "), split_lines_app by (apply no_lf_app; [by apply no_lf_const|done]).
  reflexivity.
Qed.

Section Delivery.
Context {Dump : Type} (event_id serialize_event : PipelineEvent (Dump:=Dump) -> string).
(** [uuid4().hex] and a compact JSON dump are one line each. *)
Context (id_line : forall e, no_lf (event_id e)) (json_line : forall e, no_lf (serialize_event e)).
#[local] Abbreviation frame := (format_sse_frame event_id serialize_event).
#[local] Set Default Proof Using "All".

Definition message_of (e : PipelineEvent) : Message :=
  {| msg_id := event_id e; msg_event := PipelineEventType_value (event_type e); msg_data := serialize_event e |}.
Definition stream_text (l : list string) : string := join "" l.
Lemma event_value_line t : no_lf (PipelineEventType_value t).
Proof using Type. destruct t; by apply no_lf_const. Qed.
Lemma read_frame e r b : read_lines {| buf_id := b; buf_event := ""; buf_data := [] |} (split_lines (frame e ++ r))
  = message_of e :: read_lines {| buf_id := event_id e; buf_event := ""; buf_data := [] |} (split_lines r).
Proof. unfold format_sse_frame. rewrite split_lines_frame by auto using event_value_line. reflexivity. Qed.
Lemma read_frames evs b : read_lines {| buf_id := b; buf_event := ""; buf_data := [] |}
    (split_lines (foldr String.append "" (map frame evs))) = map message_of evs.
Proof. revert b. induction evs as [|e evs IH]; intros b; [done|]. cbn [map foldr]. by rewrite read_frame, IH. Qed.

Definition prefix_of (p : patience) (evs : list (PipelineEvent (Dump:=Dump))) : list PipelineEvent :=
  match p with None => evs | Some n => take n evs end.
Lemma sse_sent p evs : omap sent_text (event_source event_id serialize_event p evs) = map frame (prefix_of p evs).
Proof using Type.
  unfold event_source. cbn. rewrite omap_app. cbn. rewrite app_nil_r.
  revert p; induction evs as [|e evs IH]; intros [[|n]|]; cbn; [done..| | |]; [done|by rewrite (IH (Some n))|by rewrite (IH None)].
Qed.
Lemma ws_sent p evs : omap sent_text (fst (ws_frames serialize_event p evs)) = map serialize_event (prefix_of p evs) /\
  snd (ws_frames serialize_event p evs) = match p with Some n => bool_decide (n < length evs)%nat | None => false end.
Proof using Type.
  revert p; induction evs as [|e evs IH]; intros [[|n]|]; cbn; try done.
  - destruct (IH (Some n)) as [-> ->]. split; [done|]. apply bool_decide_ext. lia.
  - by destruct (IH None) as [-> ->].
Qed.
End Delivery.

(** ** Theorems *)
(** C30. Both transports carry the same stream. For an admitted client with a
    valid question that stays to the end, an SSE client decodes the response
    body to one message per event of the driver, in order, under its id and
    type, and the message data are exactly the texts the WebSocket client
    receives. A client that leaves after [n] messages got a prefix of them; a
    WebSocket is told nothing before it was accepted, and is closed with 1000
    exactly when it stayed. *)
Theorem both_transports_carry_the_stream {Dump} (event_id serialize_event : PipelineEvent (Dump:=Dump) -> string)
    parse_request cid events_of user raw q p :
  (forall e, no_lf (event_id e)) -> (forall e, no_lf (serialize_event e)) -> parse_request raw = Ret q ->
  let sse := event_source event_id serialize_event p (events_of q) in
  let ws := stream_query_ws serialize_event parse_request cid events_of (Admit user)
              {| first_message := Some raw; ws_patience := p |} in
  let messages := read_stream (foldr String.append "" (omap sent_text sse)) in
  map msg_data messages = omap sent_text ws /\
  messages = map (message_of event_id serialize_event) (prefix_of p (events_of q)) /\
  head ws = Some Accepted /\
  (Closed 1000 "" ∈ ws <-> match p with None => True | Some n => (length (events_of q) <= n)%nat end).
Proof.
  intros Hid Hjson Hq sse ws messages.
  assert (Hm : messages = map (message_of event_id serialize_event) (prefix_of p (events_of q))).
  { unfold messages, sse, read_stream. by rewrite sse_sent, read_frames. }
  pose proof (ws_sent serialize_event p (events_of q)) as [Hs Hg].
  assert (Hnone : Closed 1000 "" ∉ fst (ws_frames serialize_event p (events_of q))).
  { clear. generalize (events_of q) as evs. intros evs. revert p. induction evs as [|e evs IH]; intros [[|n]|]; cbn; set_solver. }
  unfold ws, stream_query_ws. cbn [first_message ws_patience]. rewrite Hq.
  destruct (ws_frames serialize_event p (events_of q)) as [sent gone]. cbn [fst snd] in *. split; [|split; [|split]].
  - rewrite Hm, map_map. cbn. rewrite omap_app, Hs. destruct gone; cbn; by rewrite app_nil_r.
  - done.
  - done.
  - rewrite !elem_of_app, !elem_of_cons, elem_of_nil. subst gone.
    destruct p as [n|]; [case_bool_decide|]; cbn; rewrite ?elem_of_cons, ?elem_of_nil; split; intros Hx; try lia; try done.
    all: naive_solver lia.
Qed.

(** ** Witnesses *)
Module TransportDemo.
Definition kind (e : PipelineEvent (Dump:=Z)) : string := PipelineEventType_value (event_type e).
Definition events (q : string) : list (PipelineEvent (Dump:=Z)) :=
  [PipelineStartedEvent_create "c" q; StageStartedEvent_create "c" SQL_GENERATION; PipelineFailedEvent_create "c" "ValueError" "no"].
Definition user : UserRead := {| ur_id := 7; ur_username := "ann"; ur_email := "a@b.c"; ur_is_active := true;
  ur_is_superuser := false; ur_role := ANALYST; ur_created_at := 0; ur_updated_at := 0 |}.
End TransportDemo.
Lemma both_transports_carry_the_stream_witness :
  map msg_data (read_stream (foldr String.append "" (omap sent_text
    (event_source TransportDemo.kind TransportDemo.kind (Some 2%nat) (TransportDemo.events "q"))))) =
  ["pipeline_started"; "stage_started"].
Proof.
  assert (Hl : forall e, no_lf (TransportDemo.kind e)) by (intros e; apply event_value_line).
  rewrite (proj1 (both_transports_carry_the_stream TransportDemo.kind TransportDemo.kind (fun s => Ret s) "id"
    TransportDemo.events TransportDemo.user "q" "q" (Some 2%nat) Hl Hl eq_refl)).
  reflexivity.
Defined.
