(* ===== verification/QueryApi.v ===== *)
(** * The engine endpoints ([api/routers/validation.py], [execution.py], [repair.py], [sql.py], [formatting.py])

    What each [/query/*] route asks of its engine once its guards let the caller
    through (ApiRoutes.v), on the request bodies of [api/models/request.py].

    [validate_endpoint_is_the_validator]: the envelope [/query/validate] wraps a
    text in changes nothing the validator says of it. [/query/execute] on the
    other hand takes the verdict from the caller: [forged_verdict_is_executed]
    sends it the validator's own rejection of a text that reads password hashes,
    with [is_valid] flipped, and the text is run. *)
From S2P Require Import Prelude PyFloat PyStr Models OrmSchema Migrations ContextModels Metadata BusinessKnowledge Extractor Generation Validation PromptCompiler Repair Execution Orchestrator EndToEnd Isolation.
#[local] Open Scope string_scope.
#[local] Open Scope Z_scope.

(** ** [request.py]

    Unknown fields are refused ([extra="forbid"]), so a request has these and no
    more; [min_length=1] refuses the empty text. *)
Record QuestionRequest := { qr_question : string }.
Record SqlInputRequest := { si_sql : string; si_dialect : SQLDialect }.
Record RepairRequest := { rr_question : string; rr_validation_result : SQLValidationResult }.
Record ExecuteRequest := { er_validation_result : SQLValidationResult }.
Definition valid_question (r : QuestionRequest) : bool := negb (is_empty (qr_question r)).
Definition valid_sql_input (r : SqlInputRequest) : bool := negb (is_empty (si_sql r)).
Definition valid_repair (r : RepairRequest) : bool := negb (is_empty (rr_question r)).

(** ** The routes *)
(** [_wrap_as_generated_sql]: no LLM produced the text, so its metrics are zero. *)
Definition wrap_as_generated_sql (s : string) (d : SQLDialect) (provider : LLMProvider) : GeneratedSQL :=
  {| sql := s; statement_type := detect s; raw_llm_content := s; dialect := d;
     llm_metrics := {| gm_provider := provider; gm_model := "external"; gm_latency_ms := 0%Q;
       gm_token_usage := {| prompt_tokens := 0; completion_tokens := 0 |};
       gm_retry_count := 0; gm_finish_reason := COMPLETE |};
     gen_statistics := {| extraction_method := RAW_TEXT; raw_sql_length := len s; normalized_sql_length := len s;
       normalization_changed_sql := false; generation_latency_ms := 0%Q |} |}.

Section Routes.
Context {node : Type} `{Sqlglot node} `{PySet} {W V Answer : Type} `{Clock W}.
Context (validate_ : GeneratedSQL -> prog W exn SQLValidationResult).
Context (execute_ : GeneratedSQL -> SQLValidationResult -> prog W exn (SQLExecutionResult V)).
Context (c : Collaborators (V:=V) (Answer:=Answer) W) (dialect_ : SQLDialect) (llm_provider : LLMProvider).

Definition validate_sql (r : SqlInputRequest) : prog W exn SQLValidationResult :=
  validate_ (wrap_as_generated_sql (si_sql r) (si_dialect r) llm_provider).
Definition execute_sql_route (r : ExecuteRequest) : prog W exn (SQLExecutionResult V) :=
  execute_ (generated_sql (er_validation_result r)) (er_validation_result r).
Definition repair_sql_route (r : RepairRequest) : prog W exn SQLRepairResult :=
  repair_sql c (rr_question r) (rr_validation_result r).
Definition generate_sql_route (r : QuestionRequest) : prog W pipeline_exn GeneratedSqlResult :=
  generate_sql c dialect_ (qr_question r).
Definition format_result_route (r : SQLExecutionResult V) : prog W exn Answer := format_answer c r.
End Routes.

(** ** The validator looks at the text and the dialect only *)
(** The same verdict, about [g]. *)
Definition about (g : GeneratedSQL) (r : SQLValidationResult) : SQLValidationResult :=
  {| generated_sql := g; is_valid := is_valid r; errors := errors r; warnings := warnings r;
     validated_tables := validated_tables r; validated_columns := validated_columns r;
     validated_functions := validated_functions r; validation_statistics := validation_statistics r |}.
Definition omap_ret {E A B} (f : A -> B) (o : outcome E A) : outcome E B :=
  match o with Ret a => Ret (f a) | Raise e => Raise e end.
Lemma about_build g g' i t c f j ts lat : about g (build_result g' i t c f j ts lat) = build_result g i t c f j ts lat.
Proof. done. Qed.

Section Agreement.
Context {node : Type} `{Sqlglot node} `{PySet} {W : Type} `{Clock W}.
Context (parse_one : string -> string -> outcome exn node).
Lemma validate_about registry g g' (w : W) : sql g = sql g' -> dialect g = dialect g' ->
  validate parse_one registry g w =
  (omap_ret (about g) (fst (validate parse_one registry g' w)), snd (validate parse_one registry g' w)).
Proof.
  intros Es Ed. unfold validate. rewrite !bind_perf_counter. cbv zeta. rewrite Es, Ed.
  destruct (parse parse_one (sql g') (SQLGLOT_DIALECTS (dialect g'))) as [e|p].
  { destruct e; try done. unfold bind. by rewrite elapsed_ms_eq. }
  unfold bind. destruct (run_validators registry p _) as [[e|[issues times]] w1]; [done|].
  unfold lift. destruct (extract_functions _ _) as [e|funcs]; [done|]. by rewrite elapsed_ms_eq.
Qed.
End Agreement.

(** ** Theorems *)
(** C1. [/query/validate] is the pipeline's validator: whatever an LLM call said of
    the provenance of a text, validating that generation and posting the bare
    text with its dialect reach the same verdict, the same issues and the same
    statistics, and leave the same state behind; an exception of the parser
    escapes from both alike. *)
Theorem validate_endpoint_is_the_validator {node} `{Sqlglot node} `{PySet} {W} `{Clock W} parse_one registry provider g (w : W) :
  let posted := validate_sql (validate parse_one registry) provider {| si_sql := sql g; si_dialect := dialect g |} w in
  validate parse_one registry g w = (omap_ret (about g) (fst posted), snd posted).
Proof. cbv zeta. unfold validate_sql. by apply validate_about. Qed.

(** The verdict comes from the caller. For the metadata the container loads:
    [/query/validate] rejects the text, its [users] being no table of the
    schema; [/query/execute], given that very result with [is_valid] set,
    answers with success, and the text is what the database ran. *)
Definition flipped (r : SQLValidationResult) : SQLValidationResult :=
  {| generated_sql := generated_sql r; is_valid := true; errors := errors r; warnings := warnings r;
     validated_tables := validated_tables r; validated_columns := validated_columns r;
     validated_functions := validated_functions r; validation_statistics := validation_statistics r |}.
Definition posted : outcome exn SQLValidationResult * ExecDemo.DbWorld :=
  validate_sql (validator Open.parse_text Shadow.metadata (Some Validation.Demo.catalog) Shadow.graph) CLAUDE
    {| si_sql := Open.text; si_dialect := POSTGRESQL |} PipelineDemo.idle.
Definition run_flipped (r : SQLValidationResult) : outcome exn (SQLExecutionResult Z) * ExecDemo.DbWorld :=
  execute_sql_route (execute ExecDemo.database (fun _ => "30.0")
      (guard Open.parse_list DEFAULT_EXECUTION_TIMEOUT_SECONDS ExecDemo.find_write))
    {| er_validation_result := flipped r |} PipelineDemo.idle.
Theorem forged_verdict_is_executed :
  loaded_metadata Shadow.metadata /\
  exists r w, posted = (Ret r, w) /\ is_valid r = false /\ "unknown_table" ∈ map issue_code (errors r) /\
    status_rows (fst (run_flipped r)) = Some (SUCCESS, Some [[7]; [8]]) /\
    ExecDemo.sent (snd (run_flipped r)) = [Open.text].
Proof.
  split; [apply Shadow_loaded|].
  assert (Hp : match fst posted with Ret r => negb (is_valid r) && bool_decide ("unknown_table" ∈ map issue_code (errors r)) &&
    bool_decide (status_rows (fst (run_flipped r)) = Some (SUCCESS, Some [[7]; [8]])) &&
    bool_decide (ExecDemo.sent (snd (run_flipped r)) = [Open.text]) | Raise _ => false end = true) by (vm_compute; reflexivity).
  destruct posted as [[e|r] w]; [discriminate Hp|]. cbn [fst] in Hp.
  rewrite !andb_true_iff, !bool_decide_eq_true, negb_true_iff in Hp. destruct Hp as [[[? ?] ?] ?].
  exists r, w. split; [reflexivity|]. auto.
Qed.
