(* ===== verification/Service.v ===== *)
(** * From an HTTP request to the driver ([api/routers/query.py] over [orchestrator/])

    [POST /query] with everything around and below it: the middleware stack and
    the guards of ApiRoutes.v, and as its engine [QueryMindEngine.ask] wired as in
    EndToEnd.v. [from_request_to_driver] composes the two security arguments of
    this development, the one about callers (ApiAccess.v) and the one about texts
    (EndToEnd.v). *)
From S2P Require Import Prelude AsyncIO PyFloat PyStr Auth AuthService RateLimiter Models ContextModels Metadata BusinessKnowledge Validation PromptCompiler Repair Execution Orchestrator EndToEnd ApiWorld ApiGuards ApiErrors ApiRoutes ApiAccess Streaming.
#[local] Open Scope string_scope.
#[local] Open Scope Z_scope.

(** ** Two engines behind one route *)
Section Middleware.
Context `{Crypto} (settings : Settings) (database_error : ApiWorld -> option exn).
Lemma granted_same rq e w w1 :
  users (auth w1) = users (auth w) /\ api_keys (auth w1) = api_keys (auth w) /\ now (auth w1) = now (auth w) /\
  buckets w1 = buckets w -> granted settings rq e w1 -> granted settings rq e w.
Proof.
  intros (Hu & Hk & Hn & Hb) Hg m Hm. destruct (Hg m Hm) as (u & (i & row & Hc & Hr) & Ht). exists u. split.
  - exists i, row. rewrite <- Hu. split; [|done]. unfold credential, key_names, token_names in *. rewrite <- Hk, <- Hn. done.
  - unfold has_token in *. rewrite <- Hn, <- Hb. done.
Qed.
(** Two engines behind one route: if they are the same whenever the caller is
    granted the endpoint, nobody can tell them apart. *)
Lemma run_http_engine rq e v run1 run2 w : (granted settings rq e w -> run1 = run2) ->
  run_co (http settings database_error rq (engine_route settings database_error rq e v run1)) w
  = run_co (http settings database_error rq (engine_route settings database_error rq e v run2)) w.
Proof.
  intros He. destruct (run_http_at settings database_error rq w) as (w1 & Hsame & Hext). apply Hext.
  destruct (run_co (engine_route settings database_error rq e v run1) w1) as [o w'] eqn:E.
  destruct (engine_route_lets_through settings database_error rq e v w1 run1 o w' E) as [(x & _ & Hx)|(w2 & _ & _ & Hg)].
  - by rewrite Hx.
  - rewrite <- He; [done|]. by apply (granted_same rq e w w1).
Qed.
End Middleware.

Section Service.
Context `{Crypto} (settings : Settings) (database_error : ApiWorld -> option exn).
Context {node : Type} `{Sqlglot node} `{PySet} {W V Answer : Type} `{Clock W}.
Context (parse_one : string -> string -> outcome exn node).
Context (sqlglot_parse : string -> string -> outcome exn (list (option node))) (timeout : Q).
Context (find_any : list node_class -> node -> option node).
Context (metadata : DatabaseMetadata) (knowledge : option BusinessKnowledgeCatalog) (graph : RelationshipGraph).
Context (max_attempts : Z).
Context (build_prompt : RetrievedKnowledgeBundle -> GeneratedSQL -> SQLValidationResult -> RepairPlan ->
                        prog W exn CompiledPrompt).
Context (llm_repair : CompiledPrompt -> prog W exn LLMResponse).
Context (show_float : Q -> string).
Context (phases : Collaborators (V:=V) (Answer:=Answer) W) (dialect_ : SQLDialect).
(** Pydantic's JSON of a response. *)
Context (dump : QueryMindResponse (V:=V) (Answer:=Answer) -> string).

#[local] Abbreviation pipeline := (wired parse_one sqlglot_parse timeout find_any metadata knowledge graph
  max_attempts build_prompt llm_repair show_float phases).
#[local] Abbreviation safe := (safe_sql parse_one sqlglot_parse find_any metadata graph).

(** [ask_question]: the pipeline's world [pw] is apart from the service's. *)
Definition ask_question (database : Database W V) (pw : W) (question : string) : apico Response :=
  match fst (ask (pipeline database) dialect_ None question pw) with
  | Ret response => reply 200 (EngineBody (dump response))
  | Raise (Wrapped e) => co_raise (PipelineError (pe_message e) (Some (pe_cause e)))
  | Raise (Plain e) => co_raise (Engine e)
  end.
(** What the guards see of the body: whether it decodes and validates, not what it asks. *)
Definition accepted_body {A} (body : JsonBody A) : JsonBody unit :=
  match body with
  | Malformed errors => Malformed errors
  | Undecodable => Undecodable
  | Decoded (inl errors) => Decoded (inl errors)
  | Decoded (inr _) => Decoded (inr tt)
  end.
(** [POST /query]. The engine is not reached by a request whose body was refused. *)
Definition post_query (database : Database W V) (pw : W) (rq : Request) (body : JsonBody string) : apico Response :=
  http settings database_error rq
    (engine_route settings database_error rq Query (accepted_body body)
       (match body with
        | Decoded (inr question) => ask_question database pw question
        | Decoded (inl errors) | Malformed errors => co_raise (RequestValidationError errors)
        | Undecodable => co_raise (HTTPException 400 "There was an error parsing the body" [])
        end)).

(** C3. From the request to the driver. What the service answers to [POST /query], and
    everything it keeps (accounts, buckets, audit trail, logs), depends on the
    database driver at most through its answers to safe texts, and not at all
    unless the request's credential names an active account that is an analyst
    at least and has a query token left. A driver that behaves arbitrarily on any
    other text, or for any other caller, cannot be told from the real one:
    whatever the request, its headers and body, the LLM, and the state of the
    service. *)
Theorem from_request_to_driver database f pw rq v w :
  (granted settings rq Query w -> forall c s t, safe s -> f c s t = run_sql database c s t) ->
  run_co (post_query (with_run_sql database f) pw rq v) w = run_co (post_query database pw rq v) w.
Proof.
  intros Hf. apply run_http_engine. intros Hg. destruct v as [errors| |[errors|question]]; [done..|].
  unfold ask_question. rewrite ask_depends_on_safe; [done|]. by apply Hf.
Qed.
End Service.

(** ** Witness *)
(** Bob asks with his key; the LLM writes a text with [DELETE] in it, and the
    driver behind the pipeline is replaced by one that destroys everything on it. *)
Module ServiceDemo.
Import EndToEnd.PipelineDemo.
#[local] Existing Instance Validation.Demo.list_order.
Definition asked (d : Database ExecDemo.DbWorld Z) : outcome api_exn Response * ApiWorld :=
  run_co (post_query ApiDemo.settings ApiDemo.up Validation.Demo.parse_demo ExecDemo.parse_list DEFAULT_EXECUTION_TIMEOUT_SECONDS
    ExecDemo.find_write Validation.Demo.database (Some Validation.Demo.catalog) Validation.Demo.graph 3
    (fun _ _ _ _ => ret demo_prompt) repaired_answer (fun _ => "30.0") (phases_for "DELETE FROM orders;") POSTGRESQL
    (fun r => PipelineStatus_value (resp_status r)) d idle AccessDemo.with_key (Decoded (inr "q"))) ApiDemo.world.
End ServiceDemo.
Lemma from_request_to_driver_witness :
  ServiceDemo.asked (with_run_sql ExecDemo.database PipelineDemo.malicious) = ServiceDemo.asked ExecDemo.database /\
  match fst (ServiceDemo.asked ExecDemo.database) with Ret r => status_code r = 200 | Raise _ => False end.
Proof.
  split; [|vm_compute; reflexivity].
  refine (from_request_to_driver _ _ _ _ _ _ _ _ _ _ _ _ _ _ _ _ _ _ _ _ _ _ _).
  intros _ [] s t Hs. apply safe_has_no_delete in Hs. unfold PipelineDemo.malicious. rewrite Hs. reflexivity.
Defined.
