(* ===== verification/StreamWorld.v ===== *)
(** * Concurrent streams ([streaming/subscriber.py] over one [EventBus])

    Streaming.v follows one run of [stream_pipeline_events] whose queue nobody
    else writes to. Here any number of runs share the bus: a world is the bus and
    the runs, and [run_step] is what one run does at its tasks' and its own
    suspension points, the [finally] clause included: [asyncio] may interleave the
    pipeline task, the heartbeat task, the pending [queue.get()], the generator
    and its consumer in any order, and may cancel the generator again while it
    waits for its tasks.

    [private_streams_deliver]: a run whose correlation id no other run has
    delivers its own pipeline's events, by simulation of Streaming.v's driver.
    [streams_clean_up]: the bus holds exactly the queues of the runs that have not
    finished cleaning up. Two behaviours of the code limit these:
    [shared_ids_mix_streams] and [interrupted_cleanup_leaks]. *)
From S2P Require Import Prelude PyFloat PyStr Models Orchestrator Streaming.
#[local] Open Scope string_scope.

(** An [asyncio.Task]: [cancel()] makes a running one raise at its next step. *)
Inductive Task := Running | Cancelling | Over.
#[export] Instance Task_eq_dec : EqDecision Task.
Proof. solve_decision. Defined.
Definition cancel (t : Task) : Task := match t with Over => Over | _ => Cancelling end.
(** Where the generator is: at [asyncio.wait], at a [yield], at the [gather] of its
    [finally], past it, out of a [gather] that was cancelled, or out of an
    [unsubscribe] that raised. *)
Inductive Phase := AtWait | AtYield | CleaningUp | Finished | Interrupted | UnsubscribeRaised.

Section World.
Context {Dump : Type}.
#[local] Abbreviation Ev := (PipelineEvent (Dump:=Dump)).

Record Run := {
  r_sub : Subscription;
  r_events : list Ev;
  r_end : TaskEnd;
  r_todo : list Ev;
  r_pipeline : Task;
  r_heartbeat : Task;
  r_getter : Task;
  r_out : list Ev;
  r_phase : Phase;
  r_left : bool }.
Definition r_cid (r : Run) : string := sub_correlation_id (r_sub r).
Definition r_queue (r : Run) : nat := sub_queue (r_sub r).

(** [subscribe], [create_task] twice, and the first [queue.get()]. *)
Definition open_run (sub : Subscription) (evs : list Ev) (fin : TaskEnd) : Run :=
  {| r_sub := sub; r_events := evs; r_end := fin; r_todo := evs; r_pipeline := Running; r_heartbeat := Running;
     r_getter := Running; r_out := []; r_phase := AtWait; r_left := false |}.
Definition with_pipeline (todo : list Ev) (t : Task) (r : Run) : Run :=
  {| r_sub := r_sub r; r_events := r_events r; r_end := r_end r; r_todo := todo; r_pipeline := t;
     r_heartbeat := r_heartbeat r; r_getter := r_getter r; r_out := r_out r; r_phase := r_phase r; r_left := r_left r |}.
Definition with_heartbeat (t : Task) (r : Run) : Run :=
  {| r_sub := r_sub r; r_events := r_events r; r_end := r_end r; r_todo := r_todo r; r_pipeline := r_pipeline r;
     r_heartbeat := t; r_getter := r_getter r; r_out := r_out r; r_phase := r_phase r; r_left := r_left r |}.
Definition with_getter (t : Task) (r : Run) : Run :=
  {| r_sub := r_sub r; r_events := r_events r; r_end := r_end r; r_todo := r_todo r; r_pipeline := r_pipeline r;
     r_heartbeat := r_heartbeat r; r_getter := t; r_out := r_out r; r_phase := r_phase r; r_left := r_left r |}.
Definition at_phase (p : Phase) (r : Run) : Run :=
  {| r_sub := r_sub r; r_events := r_events r; r_end := r_end r; r_todo := r_todo r; r_pipeline := r_pipeline r;
     r_heartbeat := r_heartbeat r; r_getter := r_getter r; r_out := r_out r; r_phase := p; r_left := r_left r |}.
Definition yielding (e : Ev) (r : Run) : Run :=
  {| r_sub := r_sub r; r_events := r_events r; r_end := r_end r; r_todo := r_todo r; r_pipeline := r_pipeline r;
     r_heartbeat := r_heartbeat r; r_getter := r_getter r; r_out := r_out r ++ [e]; r_phase := AtYield;
     r_left := r_left r |}.
(** The [finally] clause up to its [gather]. *)
Definition enter_finally (left : bool) (r : Run) : Run :=
  {| r_sub := r_sub r; r_events := r_events r; r_end := r_end r; r_todo := r_todo r;
     r_pipeline := cancel (r_pipeline r); r_heartbeat := cancel (r_heartbeat r); r_getter := cancel (r_getter r);
     r_out := r_out r; r_phase := CleaningUp; r_left := left |}.
(** [queue.get()] of a queue with an item. *)
Definition set_queue (n : nat) (q : list Ev) (b : EventBus (Dump:=Dump)) : EventBus (Dump:=Dump) :=
  {| subscribers := subscribers b; queues := <[n := q]> (queues b); next_queue := next_queue b |}.
(** [unsubscribe], the last statement. *)
Definition finish (b : EventBus (Dump:=Dump)) (r : Run) : EventBus (Dump:=Dump) * Run :=
  let '(o, b') := unsubscribe (r_sub r) b in
  (b', at_phase (match o with Ret _ => Finished | Raise _ => UnsubscribeRaised end) r).

(** [_emit_heartbeats]: a heartbeat each time the wait for the pipeline times out;
    the task ends when it sees the pipeline over, or is cancelled. *)
Definition emit_heartbeat (r : Run) (ms : Q) (b : EventBus (Dump:=Dump)) : EventBus (Dump:=Dump) :=
  snd (publish (HeartbeatEvent_create (r_cid r) ms) b).
Definition heartbeats_end (r : Run) : Prop := r_heartbeat r = Cancelling \/ r_heartbeat r = Running /\ r_pipeline r = Over.

Definition ends_terminal (l : list Ev) : bool := match last l with Some e => is_terminal e | None => false end.

(** Of what [asyncio.wait] may report, a queued event is looked at before the end of
    the pipeline; a heartbeat may still be sent while the pipeline is ending. *)
Inductive run_step : EventBus (Dump:=Dump) -> Run -> EventBus (Dump:=Dump) -> Run -> Prop :=
| pipeline_puts b r e t : r_todo r = e :: t -> r_pipeline r <> Over ->
    run_step b r (snd (publish e b)) (with_pipeline t (r_pipeline r) r)
| pipeline_returns b r : r_todo r = [] -> r_pipeline r <> Over ->
    run_step b r b (with_pipeline [] Over r)
| pipeline_stops b r : r_pipeline r = Cancelling ->
    run_step b r b (with_pipeline (r_todo r) Over r)
| heartbeat_puts b r ms : r_heartbeat r = Running ->
    run_step b r (emit_heartbeat r ms b) r
| heartbeat_stops b r : heartbeats_end r ->
    run_step b r b (with_heartbeat Over r)
| getter_stops b r : r_getter r = Cancelling ->
    run_step b r b (with_getter Over r)
| takes b r e q : r_phase r = AtWait -> queues b !! r_queue r = Some (e :: q) ->
    run_step b r (set_queue (r_queue r) q b) (yielding e (with_getter Over r))
| resumes b r : r_phase r = AtYield -> ends_terminal (r_out r) = false ->
    run_step b r b (at_phase AtWait (with_getter Running r))
| returns b r : r_phase r = AtYield -> ends_terminal (r_out r) = true ->
    run_step b r b (enter_finally false r)
| gives_up b r : r_phase r = AtWait -> r_pipeline r = Over -> queues b !! r_queue r = Some [] ->
    run_step b r b
      (match r_end r with
       | RaisedError cls msg => yielding (PipelineFailedEvent_create (r_cid r) cls msg) (with_getter (cancel (r_getter r)) r)
       | _ => enter_finally false (with_getter (cancel (r_getter r)) r)
       end)
| leaves b r : r_phase r = AtWait \/ r_phase r = AtYield ->
    run_step b r b (enter_finally true r)
| unsubscribes b r : r_phase r = CleaningUp -> r_pipeline r = Over -> r_heartbeat r = Over -> r_getter r = Over ->
    run_step b r (fst (finish b r)) (snd (finish b r))
| cancelled_again b r : r_phase r = CleaningUp ->
    run_step b r b (at_phase Interrupted r).

Record World := { bus : EventBus (Dump:=Dump); runs : gmap nat Run }.
Definition start_world : World := {| bus := empty_bus; runs := ∅ |}.
(** What a pipeline publishes carries its own correlation id and is no heartbeat. *)
Definition own_events (cid : string) (evs : list Ev) : Prop :=
  Forall (fun e => correlation_id e = cid /\ is_heartbeat e = false) evs.
Inductive world_step : World -> World -> Prop :=
| opens w i cid evs fin : runs w !! i = None -> own_events cid evs ->
    world_step w
      {| bus := snd (subscribe cid (bus w));
         runs := <[i := open_run {| sub_correlation_id := cid; sub_queue := next_queue (bus w) |} evs fin]> (runs w) |}
| acts w i r b r' : runs w !! i = Some r -> run_step (bus w) r b r' ->
    world_step w {| bus := b; runs := <[i := r']> (runs w) |}.
Definition reachable (w : World) : Prop := rtc world_step start_world w.

(** [EventSubscriber.aclose], over the object's flag and the bus. *)
Definition aclose (s : Subscription) : prog (bool * EventBus (Dump:=Dump)) bus_exn unit := fun '(closed, b) =>
  if closed then (Ret tt, (true, b))
  else let '(o, b') := unsubscribe s b in (o, (true, b')).

(** ** Lemmas: what a step does to the bus *)
Lemma queues_publish (e : Ev) b n :
  queues (snd (publish e b)) !! n = (fun q => if bool_decide (n ∈ topic (correlation_id e) b) then (q ++ [e])%list else q) <$> queues b !! n.
Proof. cbn. rewrite map_lookup_imap. by destruct (queues b !! n). Qed.
Lemma topic_publish (e : Ev) b c : topic c (snd (publish e b)) = topic c b.
Proof. done. Qed.
Lemma topic_set_queue n q b c : topic c (set_queue n q b) = topic c b.
Proof. done. Qed.
Lemma unsubscribe_known (s : Subscription) (b : EventBus (Dump:=Dump)) : bus_ok b -> sub_queue s ∈ topic (sub_correlation_id s) b ->
  exists b', unsubscribe s b = (Ret tt, b') /\ queues b' = queues b /\ next_queue b' = next_queue b /\ forall c, topic c b' = topic c b ∖ {[sub_queue s]}.
Proof.
  intros Hb Hin. unfold unsubscribe. unfold topic in Hin. destruct (subscribers b !! sub_correlation_id s) as [qs|] eqn:Eq; [|set_solver].
  cbn in Hin. rewrite bool_decide_true by done. eexists. split; [reflexivity|]. split; [done|]. split; [done|]. intros c.
  assert (Hother : c <> sub_correlation_id s -> topic c b ∖ {[sub_queue s]} = topic c b).
  { intros Hc. apply leibniz_equiv. intros n. rewrite elem_of_difference, elem_of_singleton. split; [tauto|]. intros Hn. split; [done|].
    intros ->. apply Hc. apply (ok_one _ Hb c _ (sub_queue s)); [done|]. unfold topic. by rewrite Eq. }
  destruct (bool_decide (qs ∖ {[sub_queue s]} = ∅)) eqn:E.
  - rewrite topic_delete. destruct (decide (sub_correlation_id s = c)); [|symmetry; by apply Hother; congruence]. subst c. unfold topic. rewrite Eq. cbn.
    apply bool_decide_eq_true in E. by rewrite E.
  - rewrite topic_insert. destruct (decide (sub_correlation_id s = c)); [|symmetry; by apply Hother; congruence]. subst c. unfold topic. by rewrite Eq.
Qed.
Lemma aclose_once s b o st : aclose s (false, b) = (o, st) -> aclose s st = (Ret tt, st).
Proof. unfold aclose. destruct (unsubscribe s b) as [? b']. by intros [= _ <-]. Qed.

(** ** The invariant *)
Definition over (r : Run) : Prop := r_pipeline r = Over /\ r_heartbeat r = Over /\ r_getter r = Over.
(** Still in the loop. *)
Definition open (r : Run) : bool :=
  match r_phase r with AtWait => true | AtYield => negb (ends_terminal (r_out r)) | _ => false end.
(** [unsubscribe] has not been called. *)
Definition subscribed (r : Run) : bool :=
  match r_phase r with Finished | UnsubscribeRaised => false | _ => true end.
Definition run_ok (r : Run) : Prop :=
  match r_phase r with
  | AtWait | AtYield => r_pipeline r <> Cancelling /\ r_heartbeat r <> Cancelling /\ r_left r = false /\
      (r_pipeline r = Over -> r_todo r = [])
  | CleaningUp | Interrupted => r_pipeline r <> Running /\ r_heartbeat r <> Running /\ r_getter r <> Running
  | Finished => over r
  | UnsubscribeRaised => False
  end.
Record world_ok (w : World) : Prop := {
  w_bus : bus_ok (bus w);
  w_runs : forall i r, runs w !! i = Some r -> run_ok r /\ (r_queue r < next_queue (bus w))%nat;
  w_inj : forall i j r r', runs w !! i = Some r -> runs w !! j = Some r' -> r_queue r = r_queue r' -> i = j;
  w_topics : forall c n, n ∈ topic c (bus w) <->
    exists i r, runs w !! i = Some r /\ subscribed r = true /\ r_cid r = c /\ r_queue r = n }.

Lemma bus_ok_set_queue n q b : bus_ok b -> bus_ok (set_queue n q b).
Proof.
  intros [H1 H2 H3]. split; [exact H1| |exact H3]. intros c k Hk. destruct (H2 c k Hk) as [Hlt Hq]. split; [exact Hlt|].
  cbn. destruct (decide (n = k)) as [<-|]; [rewrite lookup_insert_eq; done|by rewrite lookup_insert_ne].
Qed.
Lemma cancel_not_running t : cancel t <> Running.
Proof. by destruct t. Qed.
Lemma finish_known b r : bus_ok b -> r_queue r ∈ topic (r_cid r) b ->
  snd (finish b r) = at_phase Finished r /\ bus_ok (fst (finish b r)) /\ queues (fst (finish b r)) = queues b /\
  next_queue (fst (finish b r)) = next_queue b /\ forall c, topic c (fst (finish b r)) = topic c b ∖ {[r_queue r]}.
Proof.
  intros Hb Hin. pose proof (bus_ok_step (Unsubscribe (r_sub r)) b Hb) as Hok.
  destruct (unsubscribe_known (r_sub r) b Hb Hin) as (b' & E & Hq & Hn & Ht).
  cbn in Hok. unfold finish. rewrite E in *. by split_and!.
Qed.
Lemma run_step_same b r b' r' : run_step b r b' r' -> r_sub r' = r_sub r /\ r_events r' = r_events r /\ r_end r' = r_end r.
Proof.
  intros Hs. destruct Hs; try done; [by destruct (r_end r) eqn:E; cbn|].
  unfold finish. by destruct (unsubscribe (r_sub r) b).
Qed.
Lemma run_step_ok b r b' r' : run_step b r b' r' -> run_ok r -> bus_ok b ->
  (subscribed r = true -> r_queue r ∈ topic (r_cid r) b) -> run_ok r'.
Proof.
  intros Hs Hr Hb Hin. assert (Hc := cancel_not_running).
  destruct Hs as [| | | | | |b r e q Hp|b r Hp|b r Hp|b r Hp| |b r Hp|b r Hp].
  12: { rewrite (proj1 (finish_known b r Hb ltac:(apply Hin; unfold subscribed; by rewrite Hp))). by split_and!. }
  1-6: unfold run_ok, over, heartbeats_end in *; cbn; destruct (r_phase r); intuition congruence.
  all: unfold run_ok in *; rewrite ?Hp in *; cbn; try by eauto.
  destruct (r_end r); cbn; [by eauto|intuition|by eauto].
Qed.
Lemma run_step_bus b r b' r' : run_step b r b' r' -> bus_ok b ->
  (subscribed r = true -> r_queue r ∈ topic (r_cid r) b) ->
  bus_ok b' /\ next_queue b' = next_queue b /\
  (subscribed r' = subscribed r /\ (forall c, topic c b' = topic c b) \/
   subscribed r = true /\ subscribed r' = false /\ forall c, topic c b' = topic c b ∖ {[r_queue r]}).
Proof.
  intros Hs Hb Hin.
  assert (Hpub : forall e, bus_ok (snd (publish e b))) by (intros e; apply (bus_ok_step (Publish e)), Hb).
  destruct Hs as [| | | | | |b r e q Hp|b r Hp|b r Hp|b r Hp|b r Hp|b r Hp|b r Hp].
  12: { assert (Hsub : subscribed r = true) by (unfold subscribed; by rewrite Hp).
        destruct (finish_known b r Hb (Hin Hsub)) as (E & Hok & _ & Hn & Ht). rewrite E. split_and!; [done|done|]. by right. }
  all: split_and!; try done; try apply Hpub; try (by apply bus_ok_set_queue); left; split; try done; unfold subscribed; rewrite ?Hp; cbn; try done.
  - by destruct (r_end r).
  - by destruct Hp as [-> | ->].
Qed.

Lemma world_ok_start : world_ok start_world.
Proof.
  split; cbn; [apply bus_ok_empty|by intros i r|by intros i j r r'|].
  intros c n. split; [by intros Hn%elem_of_empty|]. by intros (i & r & Hr & _).
Qed.
Lemma world_ok_subscribed w i r : world_ok w -> runs w !! i = Some r -> subscribed r = true -> r_queue r ∈ topic (r_cid r) (bus w).
Proof. intros Hw Hi Hs. apply (w_topics _ Hw). by exists i, r. Qed.
Lemma world_ok_step w w' : world_step w w' -> world_ok w -> world_ok w'.
Proof.
  intros Hs Hw. destruct Hs as [w i cid evs fin Hi Hown|w i r b r' Hi Hs].
  - assert (Hnew : forall j r, runs w !! j = Some r -> r_queue r <> next_queue (bus w)).
    { intros j r Hj E. destruct (w_runs _ Hw j r Hj) as [_ Hlt]. lia. }
    split; cbn [bus runs].
    + apply (bus_ok_step (Subscribe cid)), (w_bus _ Hw).
    + intros j r [[<- <-]|[_ Hj]]%lookup_insert_Some; cbn; [split; [done|lia]|].
      destruct (w_runs _ Hw j r Hj). split; [done|lia].
    + intros j k r r' [[<- <-]|[Hij Hj]]%lookup_insert_Some [[<- <-]|[Hik Hk]]%lookup_insert_Some Hq; [done| | |].
      * by destruct (Hnew k r' Hk).
      * by destruct (Hnew j r Hj).
      * by eapply (w_inj _ Hw).
    + intros c n. cbn. rewrite topic_insert. split.
      * intros Hn. assert (Hcase : (c = cid /\ n = next_queue (bus w)) \/ n ∈ topic c (bus w)).
        { destruct (decide (cid = c)) as [<-|]; [|by right]. apply elem_of_union in Hn as [->%elem_of_singleton|Hn]; [by left|by right]. }
        destruct Hcase as [[-> ->]|Hold].
        { eexists i, _. split; [apply lookup_insert_eq|]. done. }
        apply (w_topics _ Hw) in Hold as (j & r & Hj & Hr). exists j, r. split; [|done].
        rewrite lookup_insert_ne; [done|]. intros ->. congruence.
      * intros (j & r & [[<- <-]|[Hij Hj]]%lookup_insert_Some & Hsub & Hc & Hn).
        -- cbn in Hc, Hn. subst. rewrite decide_True by done. set_solver.
        -- assert (n ∈ topic c (bus w)) by (apply (w_topics _ Hw); by exists j, r).
           destruct (decide (cid = c)) as [<-|]; set_solver.
  - assert (Hin := world_ok_subscribed w i r Hw Hi).
    pose proof (run_step_same _ _ _ _ Hs) as (Esub & _ & _).
    destruct (run_step_bus _ _ _ _ Hs (w_bus _ Hw) Hin) as (Hb & Hn & Ht).
    assert (Ecid : r_cid r' = r_cid r) by (unfold r_cid; by rewrite Esub).
    assert (Eq : r_queue r' = r_queue r) by (unfold r_queue; by rewrite Esub).
    split; cbn [bus runs].
    + done.
    + intros j r0 [[<- <-]|[_ Hj]]%lookup_insert_Some; rewrite Hn; [|by apply (w_runs _ Hw j)].
      split; [|rewrite Eq; apply (w_runs _ Hw i r Hi)]. eapply run_step_ok; [exact Hs|apply (w_runs _ Hw i r Hi)|apply (w_bus _ Hw)|done].
    + intros j k r1 r2 [[<- <-]|[Hij Hj]]%lookup_insert_Some [[<- <-]|[Hik Hk]]%lookup_insert_Some; rewrite ?Eq; intros Hq; [done| | |];
        by eapply (w_inj _ Hw).
    + intros c n. destruct Ht as [[Es Ht]|(Es & Es' & Ht)]; rewrite Ht.
      * rewrite (w_topics _ Hw). split; intros (j & r0 & Hj & Hsub & Hc & Hq).
        -- destruct (decide (i = j)) as [<-|Hij]; [exists i, r'|exists j, r0]; rewrite ?lookup_insert_eq, ?lookup_insert_ne by done;
             [|done]. replace r0 with r in * by congruence. split_and!; congruence.
        -- apply lookup_insert_Some in Hj as [[<- <-]|[Hij Hj]]; [exists i, r|exists j, r0]; [|done]. split_and!; congruence.
      * rewrite elem_of_difference, elem_of_singleton, (w_topics _ Hw). split.
        -- intros ((j & r0 & Hj & Hsub & Hc & Hq) & Hne). exists j, r0. split; [|done].
           rewrite lookup_insert_ne; [done|]. intros <-. congruence.
        -- intros (j & r0 & [[<- <-]|[Hij Hj]]%lookup_insert_Some & Hsub & Hc & Hq); [congruence|]. split; [by exists j, r0|].
           intros E. apply Hij. eapply (w_inj _ Hw i j r r0); [done|done|congruence].
Qed.
Lemma world_ok_reachable w : reachable w -> world_ok w.
Proof.
  intros Hr. unfold reachable in Hr. remember start_world as w0 eqn:E. assert (H0 : world_ok w0) by (subst; apply world_ok_start). clear E.
  induction Hr as [|w0 w1 w2 H1 Hr IH]; [done|]. by apply IH, (world_ok_step w0).
Qed.

(** ** Simulation of Streaming.v's driver *)
Lemma run_invariant (P : Run -> Prop) w : 
  (forall sub evs fin, own_events (sub_correlation_id sub) evs -> P (open_run sub evs fin)) ->
  (forall b r b' r', run_step b r b' r' -> P r -> P r') ->
  reachable w -> forall i r, runs w !! i = Some r -> P r.
Proof.
  intros Hopen Hstep. revert w. apply (rtc_ind_r (fun w => forall i r, runs w !! i = Some r -> P r)); [by intros i r|].
  intros w w' _ Hs IH.
  destruct Hs as [w i cid evs fin _ Hown|w i r b r' Hi Hs]; cbn [runs]; intros j r0 [[<- <-]|[_ Hj]]%lookup_insert_Some; eauto.
Qed.
Definition own_run (r : Run) : Prop := own_events (r_cid r) (r_events r) /\ own_events (r_cid r) (r_todo r).
Lemma own_reachable w i r : reachable w -> runs w !! i = Some r -> own_run r.
Proof.
  intros Hr. revert i r. apply run_invariant; [by split| |done].
  intros b r b' r' Hs [He Ht]. pose proof (run_step_same _ _ _ _ Hs) as (Esub & Ee & _). unfold own_run, r_cid. rewrite Esub, Ee.
  split; [done|]. destruct Hs; try done.
  - cbn. rewrite H in Ht. by apply Forall_cons in Ht as [_ Ht].
  - by apply Forall_nil.
  - by destruct (r_end r).
  - unfold finish. by destruct (unsubscribe (r_sub r) b).
Qed.

Definition sim (b : EventBus (Dump:=Dump)) (r : Run) : Prop :=
  exists s, rtc (stream_step (r_cid r)) (start_stream (r_events r) (r_end r)) s /\ s_out s = r_out r /\ s_end s = r_end r /\
    if open r
    then s_closed s = false /\ s_left s = false /\ queues b !! r_queue r = Some (s_queue s) /\ s_todo s = r_todo r /\
      s_done s = bool_decide (r_pipeline r = Over)
    else s_closed s = true /\ (r_left r = false -> s_left s = false).
Definition open_stream (q t : list Ev) (r : Run) : Stream :=
  {| s_queue := q; s_todo := t; s_end := r_end r; s_done := bool_decide (r_pipeline r = Over); s_out := r_out r;
     s_closed := false; s_left := false |}.
Lemma sim_open b r : sim b r -> open r = true -> exists q, queues b !! r_queue r = Some q /\
  rtc (stream_step (r_cid r)) (start_stream (r_events r) (r_end r)) (open_stream q (r_todo r) r).
Proof.
  intros (s & Hr & Ho & He & H) Hopen. rewrite Hopen in H. destruct H as (Hc & Hl & Hq & Ht & Hd).
  exists (s_queue s). split; [done|]. destruct s; cbn in *; subst. done.
Qed.
(** Still open after a step of the driver, or of nothing it sees. *)
Lemma sim_stay r b' r' q q' : r_sub r' = r_sub r -> r_events r' = r_events r -> r_end r' = r_end r -> open r' = true ->
  rtc (stream_step (r_cid r)) (start_stream (r_events r) (r_end r)) (open_stream q (r_todo r) r) ->
  rtc (stream_step (r_cid r)) (open_stream q (r_todo r) r) (open_stream q' (r_todo r') r') ->
  queues b' !! r_queue r' = Some q' -> sim b' r'.
Proof.
  intros Es Ee Ef Hopen H1 H2 Hq. exists (open_stream q' (r_todo r') r'). unfold r_cid in *. rewrite Es, Ee, Ef, Hopen.
  split; [by etrans|]. by split_and!.
Qed.
Lemma sim_close r b' r' q s : r_sub r' = r_sub r -> r_events r' = r_events r -> r_end r' = r_end r -> open r' = false ->
  rtc (stream_step (r_cid r)) (start_stream (r_events r) (r_end r)) (open_stream q (r_todo r) r) ->
  stream_step (r_cid r) (open_stream q (r_todo r) r) s -> s_out s = r_out r' -> s_end s = r_end r -> s_closed s = true ->
  (r_left r' = false -> s_left s = false) -> sim b' r'.
Proof.
  intros Es Ee Ef Hopen H1 H2 Ho He Hc Hl. exists s. unfold r_cid in *. rewrite Es, Ee, Ef, Hopen.
  split; [by eapply rtc_r|]. by split_and!.
Qed.
Lemma ends_terminal_snoc l (e : Ev) : ends_terminal (l ++ [e]) = is_terminal e.
Proof. unfold ends_terminal. by rewrite last_snoc. Qed.
Lemma open_not_cancelling r : open r = true -> run_ok r ->
  r_pipeline r <> Cancelling /\ r_left r = false /\ subscribed r = true.
Proof. unfold open, run_ok, subscribed. destruct (r_phase r); [intuition|intuition|done..]. Qed.
Lemma publish_own (e : Ev) b n q c : queues b !! n = Some q -> correlation_id e = c -> n ∈ topic c b ->
  queues (snd (publish e b)) !! n = Some (q ++ [e])%list.
Proof. intros Hq <- Hn. rewrite queues_publish, Hq. cbn. by rewrite bool_decide_true. Qed.

Lemma sim_open_step b r b' r' : run_step b r b' r' -> run_ok r -> own_run r -> r_queue r ∈ topic (r_cid r) b ->
  open r = true -> sim b r -> sim b' r'.
Proof.
  intros Hs Hok [_ Hown] Hin Hopen Hsim. destruct (sim_open b r Hsim Hopen) as (q & Hq & Hr).
  destruct (open_not_cancelling r Hopen Hok) as (Hnc & Hl & _).
  destruct Hs as [b r e t Ht Hp|b r Ht Hp|b r Hp|b r ms Hh|b r Hh|b r Hg|b r e q0 Hp Hq0|b r Hp He|b r Hp He|b r Hp Hd Hq0|b r Hp|b r Hp|b r Hp].
  - rewrite Ht in *. apply Forall_cons in Hown as [[He _] _].
    eapply (sim_stay r _ _ q (q ++ [e])); try done; [by rewrite Ht| |by eapply publish_own].
    apply rtc_once. cbn. rewrite Ht. unfold open_stream. cbn. rewrite bool_decide_false by done. apply pipeline_publishes.
  - eapply (sim_stay r _ _ q q); try done. apply rtc_once. rewrite Ht. unfold open_stream. cbn.
    rewrite bool_decide_false by done. apply pipeline_ends.
  - done.
  - eapply (sim_stay r _ _ q (q ++ [HeartbeatEvent_create (r_cid r) ms])); try done; [|by eapply publish_own].
    apply rtc_once. apply heart_beats.
  - by eapply (sim_stay r _ _ q q).
  - by eapply (sim_stay r _ _ q q).
  - replace q with (e :: q0) in * by congruence.
    assert (Hopen' : open (yielding e (with_getter Over r)) = negb (is_terminal e)) by (unfold open; cbn; by rewrite ends_terminal_snoc).
    pose proof (yields (r_cid r) e q0 (r_todo r) (r_end r) (bool_decide (r_pipeline r = Over)) (r_out r)) as Hy.
    destruct (is_terminal e) eqn:Et.
    + by eapply (sim_close r _ _ (e :: q0)); try exact Hy.
    + eapply (sim_stay r _ _ (e :: q0) q0); try done; [by apply rtc_once|apply lookup_insert_eq].
  - by eapply (sim_stay r _ _ q q).
  - unfold open in Hopen. by rewrite Hp, He in Hopen.
  - assert (Ht : r_todo r = []) by (unfold run_ok in Hok; rewrite Hp in Hok; by apply Hok).
    replace q with (@nil Ev) in * by congruence.
    assert (Hstep : stream_step (r_cid r) (open_stream [] (r_todo r) r)
      {| s_queue := []; s_todo := []; s_end := r_end r; s_done := true; s_out := r_out r ++ synthesised (r_cid r) (r_end r);
         s_closed := true; s_left := false |}).
    { rewrite Ht. unfold open_stream. rewrite bool_decide_true by done. apply closes. }
    eapply (sim_close r _ _ []); try exact Hstep; try done; try (destruct (r_end r) eqn:Ef; cbn; rewrite ?app_nil_r; done).
    destruct (r_end r); cbn; unfold open; cbn; [done|by rewrite ends_terminal_snoc|done].
  - by eapply (sim_close r _ _ q); try apply consumer_leaves.
  - unfold open in Hopen. by rewrite Hp in Hopen.
  - unfold open in Hopen. by rewrite Hp in Hopen.
Qed.
(** Once it has closed, a run gives its consumer nothing more. *)
Lemma closed_step b r b' r' : run_step b r b' r' -> run_ok r -> open r = false ->
  open r' = false /\ r_out r' = r_out r /\ (r_left r' = false -> r_left r = false).
Proof.
  intros Hs Hok Hopen. unfold open in *.
  destruct Hs as [| | | | | |b r e q0 Hp Hq0|b r Hp He|b r Hp He|b r Hp Hd Hq0|b r Hp|b r Hp|b r Hp]; try done.
  1,2,4: by rewrite Hp, ?He in Hopen.
  - cbn. unfold run_ok in Hok. rewrite Hp in Hok. by split_and!; [..|intros _; apply Hok].
  - unfold finish. destruct (unsubscribe (r_sub r) b) as [[[]|?] ?]; by cbn.
Qed.
Lemma sim_step b r b' r' : run_step b r b' r' -> run_ok r -> own_run r ->
  (subscribed r = true -> r_queue r ∈ topic (r_cid r) b) -> sim b r -> sim b' r'.
Proof.
  intros Hs Hok Hown Hin Hsim. destruct (open r) eqn:Hopen.
  - eapply sim_open_step; try done. apply Hin. by apply open_not_cancelling.
  - destruct (closed_step _ _ _ _ Hs Hok Hopen) as (Ho & Eo & El). destruct (run_step_same _ _ _ _ Hs) as (Es & Ee & Ef).
    destruct Hsim as (s & Hr & Eo' & He & H). rewrite Hopen in H. destruct H as [Hc Hl].
    exists s. unfold r_cid in *. rewrite Es, Ee, Ef, Ho, Eo. split_and!; [done..|]. auto.
Qed.
(** What another run does is not seen on a queue of another topic. *)
Lemma run_step_elsewhere b r b' r' n : run_step b r b' r' -> own_run r -> n <> r_queue r -> n ∉ topic (r_cid r) b ->
  queues b' !! n = queues b !! n.
Proof.
  intros Hs [_ Hown] Hn Ht.
  assert (Hpub : forall e : Ev, correlation_id e = r_cid r -> queues (snd (publish e b)) !! n = queues b !! n).
  { intros e He. rewrite queues_publish, He, bool_decide_false by done. by destruct (queues b !! n). }
  destruct Hs as [b r e t Hto Hp| | |b r ms Hh| | |b r e q0 Hp Hq0| | | | |b r Hp|]; try done.
  - apply Hpub. rewrite Hto in Hown. by apply Forall_cons in Hown as [[? _] _].
  - by apply Hpub.
  - by apply lookup_insert_ne.
  - unfold finish, unsubscribe. destruct (subscribers b !! _); [|done]. cbn. by destruct (bool_decide (sub_queue (r_sub r) ∈ _)).
Qed.

(** No other run of the world, past or present, has the correlation id. *)
Definition private (w : World) (i : nat) : Prop :=
  forall r j r', runs w !! i = Some r -> runs w !! j = Some r' -> j <> i -> r_cid r' <> r_cid r.
Lemma sim_reachable w : reachable w -> forall i r, runs w !! i = Some r -> private w i -> sim (bus w) r.
Proof.
  intros Hr. assert (Hall := Hr). revert Hall. pattern w. revert w Hr.
  apply (rtc_ind_r _ start_world); [by intros _ i r|].
  intros w w' Hr Hs IH Hr' i r Hi Hpriv. specialize (IH Hr). pose proof (world_ok_reachable w Hr) as Hw.
  destruct Hs as [w j cid evs fin Hj Hown|w j rj b rj' Hj Hs]; unfold private in Hpriv; cbn [runs bus] in *.
  - destruct (decide (j = i)) as [->|Hji].
    + rewrite lookup_insert_eq in Hi. injection Hi as <-. exists (start_stream evs fin). cbn.
      rewrite lookup_insert_eq. split; [apply rtc_refl|]. by split_and!.
    + rewrite lookup_insert_ne in Hi by done. destruct (IH i r Hi) as (s & H1 & H2 & H3 & H4).
      { intros r0 k rk Hr0 Hk Hki. apply (Hpriv r0 k rk); [by rewrite lookup_insert_ne| |done]. rewrite lookup_insert_ne; [done|]. intros <-. congruence. }
      exists s. split_and!; try done. destruct (open r); [|done]. cbn. rewrite lookup_insert_ne; [done|].
      pose proof (proj2 (w_runs _ Hw i r Hi)). lia.
  - pose proof (run_step_same _ _ _ _ Hs) as (Es & _).
    assert (Hpriv' : private w i).
    { intros r0 k rk Hr0 Hk Hki. destruct (decide (j = i)) as [->|Hji].
      - replace r0 with rj by congruence. unfold r_cid. rewrite <- Es. apply (Hpriv rj' k rk); [by rewrite lookup_insert_eq| |done]. rewrite lookup_insert_ne; [done|congruence].
      - destruct (decide (j = k)) as [->|Hjk].
        + replace rk with rj by congruence. unfold r_cid at 1. rewrite <- Es. apply (Hpriv r0 k rj'); [by rewrite lookup_insert_ne|by rewrite lookup_insert_eq|done].
        + apply (Hpriv r0 k rk); [by rewrite lookup_insert_ne..|done]. }
    destruct (decide (j = i)) as [->|Hji].
    + rewrite lookup_insert_eq in Hi. injection Hi as <-.
      eapply sim_step; [exact Hs|by apply (w_runs _ Hw i rj Hj)|exact (own_reachable w i rj Hr Hj)|exact (world_ok_subscribed w i rj Hw Hj)|by apply (IH i rj)].
    + rewrite lookup_insert_ne in Hi by done. destruct (IH i r Hi Hpriv') as (s & H1 & H2 & H3 & H4).
      exists s. split_and!; try done. destruct (open r) eqn:Hopen; [|done].
      rewrite (run_step_elsewhere _ _ _ _ (r_queue r) Hs); [done|exact (own_reachable w j rj Hr Hj)| |].
      * intros E. apply Hji. symmetry. by eapply (w_inj _ Hw i j r rj).
      * intros Hin. apply (Hpriv' r j rj Hi Hj Hji).
        eapply (ok_one _ (w_bus _ Hw)); [exact Hin|]. apply (world_ok_subscribed w i r Hw Hi).
        by apply open_not_cancelling, (w_runs _ Hw i r Hi).
Qed.

(** ** Winding a run up *)
Lemma act_rtc w i r b r' : runs w !! i = Some r -> run_step (bus w) r b r' ->
  rtc world_step w {| bus := b; runs := <[i := r']> (runs w) |}.
Proof. intros Hi Hs. by apply rtc_once, acts with (r := r). Qed.
Definition winds_up (w : World) (i : nat) : Prop :=
  exists w' r', rtc world_step w w' /\ runs w' !! i = Some r' /\ r_phase r' = Finished.
Lemma winds_up_step w i r b r' : runs w !! i = Some r -> run_step (bus w) r b r' ->
  winds_up {| bus := b; runs := <[i := r']> (runs w) |} i -> winds_up w i.
Proof. intros Hi Hs (w2 & r2 & H & Hr). exists w2, r2. split; [|done]. by etrans; [eapply act_rtc|]. Qed.
Lemma winds_up_over w i r : world_ok w -> runs w !! i = Some r -> r_phase r = CleaningUp -> over r -> winds_up w i.
Proof.
  intros Hw Hi Hp (H1 & H2 & H3). pose proof (world_ok_subscribed w i r Hw Hi) as Hin.
  unfold subscribed in Hin. rewrite Hp in Hin.
  eexists _, _. split; [eapply act_rtc; [exact Hi|by apply unsubscribes]|]. cbn. rewrite lookup_insert_eq. split; [done|].
  by rewrite (proj1 (finish_known _ r (w_bus _ Hw) (Hin eq_refl))).
Qed.
Lemma winds_up_cleaning w i r : world_ok w -> runs w !! i = Some r -> r_phase r = CleaningUp -> winds_up w i.
Proof.
  intros Hw Hi Hp. pose proof (proj1 (w_runs _ Hw i r Hi)) as Hok. unfold run_ok in Hok. rewrite Hp in Hok.
  assert (Hgo : forall w r, world_ok w -> runs w !! i = Some r -> r_phase r = CleaningUp ->
    r_pipeline r = Over -> r_heartbeat r = Over -> r_getter r <> Running -> winds_up w i).
  { clear. intros w r Hw Hi Hp H1 H2 H3. destruct (r_getter r) eqn:Eg; [done| |by eapply winds_up_over].
    pose proof (getter_stops (bus w) r Eg) as Hs. eapply winds_up_step; [done|exact Hs|].
    eapply winds_up_over; [by eapply world_ok_step; [eapply acts|]|cbn; apply lookup_insert_eq|done|by split_and!]. }
  assert (Hgo' : forall w r, world_ok w -> runs w !! i = Some r -> r_phase r = CleaningUp ->
    r_pipeline r = Over -> r_heartbeat r <> Running -> r_getter r <> Running -> winds_up w i).
  { clear -Hgo. intros w r Hw Hi Hp H1 H2 H3. destruct (r_heartbeat r) eqn:Eh; [done| |by eapply Hgo].
    pose proof (heartbeat_stops (bus w) r (or_introl Eh)) as Hs. eapply winds_up_step; [done|exact Hs|].
    eapply Hgo; [by eapply world_ok_step; [eapply acts|]|cbn; apply lookup_insert_eq|done..]. }
  destruct (r_pipeline r) eqn:Ep; [by destruct Hok| |by eapply Hgo'; try apply Hok].
  pose proof (pipeline_stops (bus w) r Ep) as Hs. eapply winds_up_step; [done|exact Hs|].
  eapply Hgo'; [by eapply world_ok_step; [eapply acts|]|cbn; apply lookup_insert_eq|try done; apply Hok..].
Qed.
Lemma winds_up_any w i r : world_ok w -> runs w !! i = Some r -> r_phase r <> Interrupted -> winds_up w i.
Proof.
  intros Hw Hi Hp. pose proof (proj1 (w_runs _ Hw i r Hi)) as Hok.
  assert (Hleave : r_phase r = AtWait \/ r_phase r = AtYield -> winds_up w i).
  { intros H. pose proof (leaves (bus w) r H) as Hs. eapply winds_up_step; [done|exact Hs|].
    eapply winds_up_cleaning; [by eapply world_ok_step; [eapply acts|]|cbn; apply lookup_insert_eq|done]. }
  destruct (r_phase r) eqn:E; [by auto|by auto|by eapply winds_up_cleaning| |done|].
  - exists w, r. by split; [apply rtc_refl|].
  - unfold run_ok in Hok. by rewrite E in Hok.
Qed.
Lemma subscribed_iff r : run_ok r -> subscribed r = true <-> r_phase r <> Finished.
Proof. unfold run_ok, subscribed. destruct (r_phase r); naive_solver. Qed.

(** ** Theorems *)
(** C28. What the reader of a stream sees, however many streams share the event
    bus. If no other stream of the process ever has its correlation id, then
    however the pipelines, heartbeats, generators and consumers interleave, a
    stream read to its end delivers, heartbeats aside, every event its own
    pipeline published, once and in order, closing right after the terminal
    event; a pipeline that raised without one is reported by a synthesised
    failure. *)
Theorem private_streams_deliver w i r :
  reachable w -> runs w !! i = Some r -> private w i -> open r = false -> r_left r = false ->
  (forall pre t, r_events r = (pre ++ [t])%list -> is_terminal t = true -> Forall (fun e => is_terminal e = false) pre ->
     news (r_out r) = r_events r /\ last (r_out r) = Some t) /\
  (Forall (fun e => is_terminal e = false) (r_events r) ->
     news (r_out r) = (r_events r ++ synthesised (r_cid r) (r_end r))%list).
Proof.
  intros Hr Hi Hp Hopen Hl. destruct (own_reachable w i r Hr Hi) as [Hown _].
  destruct (sim_reachable w Hr i r Hi Hp) as (s & Hs & Ho & _ & H). rewrite Hopen in H. destruct H as [Hc Hleft].
  rewrite <- Ho. apply (stream_delivers (r_cid r) (r_events r) (r_end r) s); [|done..|by apply Hleft].
  eapply Forall_impl; [exact Hown|]. by intros e [_ ?].
Qed.

(** C29. Streams clean up after themselves. In every reachable world the bus holds
    exactly the queues of the streams that are not finished; [unsubscribe] never
    raises; a finished stream has left no task behind; when all are finished the
    bus is empty; and any stream whose cleanup has not itself been cancelled can
    be wound up, whatever its pipeline is doing. *)
Theorem streams_clean_up w :
  reachable w ->
  (forall c n, n ∈ topic c (bus w) <->
     exists i r, runs w !! i = Some r /\ r_phase r <> Finished /\ r_cid r = c /\ r_queue r = n) /\
  (forall i r, runs w !! i = Some r -> r_phase r <> UnsubscribeRaised /\ (r_phase r = Finished -> over r)) /\
  ((forall i r, runs w !! i = Some r -> r_phase r = Finished) -> subscribers (bus w) = ∅) /\
  (forall i r, runs w !! i = Some r -> r_phase r <> Interrupted -> winds_up w i).
Proof.
  intros Hr. pose proof (world_ok_reachable w Hr) as Hw.
  assert (Htop : forall c n, n ∈ topic c (bus w) <->
    exists i r, runs w !! i = Some r /\ r_phase r <> Finished /\ r_cid r = c /\ r_queue r = n).
  { intros c n. rewrite (w_topics _ Hw). split; intros (i & r & Hi & Hs & H); exists i, r; (split; [done|]); (split; [|done]);
      by apply (subscribed_iff r (proj1 (w_runs _ Hw i r Hi))). }
  split_and!; [done| | |].
  - intros i r Hi. pose proof (proj1 (w_runs _ Hw i r Hi)) as Hok. unfold run_ok in Hok. split; intros E; by rewrite E in Hok.
  - intros Hall. apply map_empty. intros c. destruct (subscribers (bus w) !! c) as [qs|] eqn:E; [|done]. exfalso.
    destruct (set_choose_L qs (ok_nonempty _ (w_bus _ Hw) c qs E)) as [n Hn].
    assert (Hin : n ∈ topic c (bus w)) by (unfold topic; by rewrite E).
    apply Htop in Hin as (i & r & Hi & Hp & _). apply Hp. by eapply Hall.
  - intros i r Hi. by apply (winds_up_any w i r Hw Hi).
Qed.

(** A cancellation that reaches the [gather] of the cleanup skips [unsubscribe]: the
    queue stays on the bus for good. *)
Theorem interrupted_cleanup_leaks w i r w' :
  reachable w -> runs w !! i = Some r -> r_phase r = Interrupted -> rtc world_step w w' ->
  r_queue r ∈ topic (r_cid r) (bus w').
Proof.
  intros Hr Hi Hp Hr'. assert (Hkeep : exists r', runs w' !! i = Some r' /\ r_phase r' = Interrupted /\ r_sub r' = r_sub r).
  { clear Hr. induction Hr' as [w|w w1 w2 Hs _ IH] in r, Hi, Hp |- *; [by exists r|].
    assert (Hone : exists r', runs w1 !! i = Some r' /\ r_phase r' = Interrupted /\ r_sub r' = r_sub r).
    { destruct Hs as [w j cid evs fin Hj _|w j rj b rj' Hj Hs]; cbn [runs].
      - exists r. rewrite lookup_insert_ne; [done|congruence].
      - destruct (decide (j = i)) as [->|Hji]; [|exists r; by rewrite lookup_insert_ne].
        replace rj with r in * by congruence. exists rj'. rewrite lookup_insert_eq.
        split; [done|]. split; [|exact (proj1 (run_step_same _ _ _ _ Hs))].
        destruct Hs as [| | | | | |b r e q Hq|b r Hq|b r Hq|b r Hq|b r Hq|b r Hq|b r Hq]; cbn; try done; try congruence.
        destruct Hq; congruence. }
    destruct Hone as (r1 & H1 & H2 & H3). destruct (IH r1 H1 H2) as (r2 & H4 & H5 & H6). exists r2. split_and!; [done|done|congruence]. }
  destruct Hkeep as (r' & Hi' & Hp' & Es). unfold r_queue, r_cid. rewrite <- Es.
  apply (world_ok_subscribed w' i r'); [apply world_ok_reachable; unfold reachable in *; by etrans|done|]. unfold subscribed. by rewrite Hp'.
Qed.
End World.

(** ** Concrete worlds *)
Section Demo.
Context {Dump : Type}.
#[local] Abbreviation Ev := (PipelineEvent (Dump:=Dump)).
(** [X-Correlation-ID: c] and the answer to a question. *)
Definition answered (c : string) (answer : Dump) : Ev :=
  {| correlation_id := c; pipeline_stage := None; event_type := PIPELINE_COMPLETED;
     payload := [("status", JString "success"); ("error", JNull); ("business_answer", JDump answer)] |}.
Lemma answered_own c answer : own_events c [answered c answer].
Proof. by repeat constructor. Qed.

(** The correlation id is the client's to choose ([X-Correlation-ID], see
    ApiRoutes.v): of two streams under one id, the second delivers the first
    one's answer as its own, closes on it and cancels its own pipeline. *)
Theorem shared_ids_mix_streams (mine theirs : Dump) : exists w r,
  reachable w /\ runs w !! 1%nat = Some r /\ r_events r = [answered "c" mine] /\
  r_out r = [answered "c" theirs] /\ r_phase r = Finished /\ r_left r = false.
Proof.
  eexists _, _. split.
  - eapply rtc_l; [apply (opens _ 0 "c" [answered "c" theirs] Returned); [reflexivity|apply answered_own]|].
    eapply rtc_l; [apply (opens _ 1 "c" [answered "c" mine] Returned); [reflexivity|apply answered_own]|].
    eapply rtc_l; [eapply (acts _ 0); [reflexivity|]; eapply pipeline_puts; [reflexivity|done]|].
    eapply rtc_l; [eapply (acts _ 1); [reflexivity|]; eapply takes; reflexivity|].
    eapply rtc_l; [eapply (acts _ 1); [reflexivity|]; apply returns; reflexivity|].
    eapply rtc_l; [eapply (acts _ 1); [reflexivity|]; apply pipeline_stops; reflexivity|].
    eapply rtc_l; [eapply (acts _ 1); [reflexivity|]; apply heartbeat_stops; by left|].
    eapply rtc_l; [eapply (acts _ 1); [reflexivity|]; apply unsubscribes; reflexivity|].
    apply rtc_refl.
  - split; [reflexivity|]. by split_and!.
Qed.
End Demo.

(** One stream, read to its end. *)
Lemma alone_world : exists w r, reachable (Dump:=unit) w /\ runs w !! 0%nat = Some r /\ private w 0 /\ open r = false /\
  r_left r = false /\ r_events r = [answered "c" tt] /\ forall i r, runs w !! i = Some r -> r_phase r = Finished.
Proof.
  eexists _, _. split.
  - eapply rtc_l; [apply (opens _ 0 "c" [answered "c" tt] Returned); [reflexivity|apply answered_own]|].
    eapply rtc_l; [eapply (acts _ 0); [reflexivity|]; eapply pipeline_puts; [reflexivity|done]|].
    eapply rtc_l; [eapply (acts _ 0); [reflexivity|]; apply (heartbeat_puts _ _ 5); reflexivity|].
    eapply rtc_l; [eapply (acts _ 0); [reflexivity|]; eapply takes; reflexivity|].
    eapply rtc_l; [eapply (acts _ 0); [reflexivity|]; apply pipeline_returns; [reflexivity|done]|].
    eapply rtc_l; [eapply (acts _ 0); [reflexivity|]; apply returns; reflexivity|].
    eapply rtc_l; [eapply (acts _ 0); [reflexivity|]; apply heartbeat_stops; by left|].
    eapply rtc_l; [eapply (acts _ 0); [reflexivity|]; apply unsubscribes; reflexivity|].
    apply rtc_refl.
  - split; [reflexivity|]. cbn [runs]. split_and!; try done.
    + intros r j r' _. unfold start_world. cbn [runs]. rewrite !lookup_insert_Some, lookup_empty. naive_solver.
    + intros i r. unfold start_world. cbn [runs]. rewrite !lookup_insert_Some, lookup_empty. naive_solver.
Qed.
Lemma private_streams_deliver_witness : exists w r, reachable (Dump:=unit) w /\ runs w !! 0%nat = Some r /\
  news (r_out r) = [answered "c" tt] /\ last (r_out r) = Some (answered "c" tt).
Proof.
  destruct alone_world as (w & r & Hr & Hi & Hp & Ho & Hl & He & _). exists w, r. split; [exact Hr|]. split; [exact Hi|].
  destruct (private_streams_deliver w 0 r Hr Hi Hp Ho Hl) as [H _]. rewrite He in H. apply (H []); [reflexivity..|constructor].
Defined.
Lemma streams_clean_up_witness : exists w, reachable (Dump:=unit) w /\ runs w !! 0%nat <> None /\ subscribers (bus w) = ∅.
Proof.
  destruct alone_world as (w & r & Hr & Hi & _ & _ & _ & _ & Hall). exists w. split; [exact Hr|]. split; [congruence|].
  apply (streams_clean_up w Hr), Hall.
Defined.
(** A client that goes away twice. *)
Lemma interrupted_world : exists w r, reachable (Dump:=unit) w /\ runs w !! 0%nat = Some r /\ r_phase r = Interrupted /\ over r.
Proof.
  eexists _, _. split.
  - eapply rtc_l; [apply (opens _ 0 "c" [answered "c" tt] Returned); [reflexivity|apply answered_own]|].
    eapply rtc_l; [eapply (acts _ 0); [reflexivity|]; apply leaves; by left|].
    eapply rtc_l; [eapply (acts _ 0); [reflexivity|]; apply cancelled_again; reflexivity|].
    eapply rtc_l; [eapply (acts _ 0); [reflexivity|]; apply pipeline_stops; reflexivity|].
    eapply rtc_l; [eapply (acts _ 0); [reflexivity|]; apply heartbeat_stops; by left|].
    eapply rtc_l; [eapply (acts _ 0); [reflexivity|]; apply getter_stops; reflexivity|].
    apply rtc_refl.
  - split; [reflexivity|]. by split_and!.
Qed.
Lemma interrupted_cleanup_leaks_witness : exists w r, reachable (Dump:=unit) w /\ runs w !! 0%nat = Some r /\ over r /\
  forall w', rtc world_step w w' -> r_queue r ∈ topic (r_cid r) (bus w').
Proof.
  destruct interrupted_world as (w & r & Hr & Hi & Hp & Ho). exists w, r. split; [exact Hr|]. split; [exact Hi|]. split; [exact Ho|].
  intros w' Hw'. exact (interrupted_cleanup_leaks w 0 r w' Hr Hi Hp Hw').
Defined.
