(* ===== verification/Config.v ===== *)
(** * Settings and sessions ([core/config.py], [db/session.py], [api/v1/endpoints/health.py])

    [Settings] with the bounds its fields declare, what is computed from them (the
    provider configuration, the database URL with its quoted password), the
    memoised [get_settings]; the commit/rollback boundary every repository call
    runs in, over a store with uncommitted changes.

    [password_roundtrip]: the form quoting of the password is undone by
    [unquote_plus], but by [unquote] only when the password has no space.
    [settings_serve_their_clients]: valid settings give every component a
    configuration it accepts. [session_is_all_or_nothing]: what a session did is
    in the database if and only if its block returned. *)
From Stdlib Require Import Ascii.
From S2P Require Import Prelude PyFloat PyStr Models Llm Auth RateLimiter ApiWorld ApiGuards.
#[local] Open Scope string_scope.
#[local] Open Scope Z_scope.

(** ** [urllib.parse], on the bytes of a string *)
Definition upper_hex (n : Z) : ascii := char_upper (hex_digit n).
Definition always_safe (c : ascii) : bool :=
  is_alnum c || Ascii.eqb c "_"%char || Ascii.eqb c "."%char || Ascii.eqb c "-"%char || Ascii.eqb c "~"%char.
(** [quote_plus]: everything but the always-safe characters is escaped, a space becomes a plus. *)
Fixpoint quote_plus (s : string) : string :=
  match s with
  | "" => ""
  | String c r =>
      if always_safe c then String c (quote_plus r)
      else if Ascii.eqb c " "%char then String "+"%char (quote_plus r)
      else String "%"%char (String (upper_hex (code c / 16)) (String (upper_hex (code c mod 16)) (quote_plus r)))
  end.
Definition hex_value (c : ascii) : option Z :=
  if is_digit c then Some (code c - 48)
  else if in_range 65 70 c then Some (code c - 55)
  else if in_range 97 102 c then Some (code c - 87)
  else None.
(** [unquote]: an escape that is not one stays as it is. *)
Fixpoint unquote (s : string) : string :=
  match s with
  | "" => ""
  | String c r =>
      if Ascii.eqb c "%"%char
      then match r with
           | String h (String l r') =>
               match hex_value h, hex_value l with
               | Some x, Some y => String (ascii_of_N (Z.to_N (16 * x + y))) (unquote r')
               | _, _ => String c (unquote r)
               end
           | _ => String c (unquote r)
           end
      else String c (unquote r)
  end.
Definition char_plus (c : ascii) : ascii := if Ascii.eqb c "+"%char then " "%char else c.
Definition char_space (c : ascii) : ascii := if Ascii.eqb c " "%char then "+"%char else c.
Definition unquote_plus (s : string) : string := unquote (str_map char_plus s).

(** ** [config.py] *)
Inductive Environment := Development | Staging | Production | Test_.
Inductive LogFormat := Json_ | Console.
Record Settings := {
  app_name : string; app_env : Environment; app_debug : bool; app_host : string; app_port : Z; api_v1_prefix : string;
  log_level : string; log_format : LogFormat;
  postgres_user : string; postgres_password : string; postgres_db : string; postgres_host : string; postgres_port : Z;
  database_pool_size : Z; database_max_overflow : Z; database_pool_timeout : Z; database_echo : bool;
  llm_provider : LLMProvider; llm_model : string; llm_api_key : string; llm_temperature : Q; llm_max_tokens : Z;
  llm_timeout_seconds : Q; llm_retry_count : Z; llm_base_url : option string;
  jwt_secret_key : string; jwt_algorithm : string; access_token_expire_minutes : Z; refresh_token_expire_days : Z;
  trust_proxy_headers : bool;
  rate_limit_enabled : bool; rate_limit_general_per_minute : Z; rate_limit_login_per_minute : Z;
  rate_limit_register_per_hour : Z; rate_limit_refresh_per_minute : Z; rate_limit_query_per_minute : Z }.

(** The defaults; three fields have none. *)
Definition default_settings (user password db : string) : Settings :=
  {| app_name := "Text-to-SQL Analytics Engine"; app_env := Development; app_debug := false; app_host := "0.0.0.0";
     app_port := 8000; api_v1_prefix := "/api/v1"; log_level := "INFO"; log_format := Json_;
     postgres_user := user; postgres_password := password; postgres_db := db; postgres_host := "localhost";
     postgres_port := 5432; database_pool_size := 10; database_max_overflow := 5; database_pool_timeout := 30;
     database_echo := false; llm_provider := CLAUDE; llm_model := "claude-sonnet-5"; llm_api_key := "";
     llm_temperature := 0; llm_max_tokens := 4096; llm_timeout_seconds := 30; llm_retry_count := 3; llm_base_url := None;
     jwt_secret_key := "insecure-default-change-in-production-please-set-a-real-JWT_SECRET_KEY-env-var";
     jwt_algorithm := "HS256"; access_token_expire_minutes := 30; refresh_token_expire_days := 14;
     trust_proxy_headers := false; rate_limit_enabled := true; rate_limit_general_per_minute := 300;
     rate_limit_login_per_minute := 5; rate_limit_register_per_hour := 3; rate_limit_refresh_per_minute := 20;
     rate_limit_query_per_minute := 30 |}.
Definition port_ok (p : Z) : bool := (1 <=? p) && (p <=? 65535).
(** The bounds the fields declare. *)
Definition valid_settings (s : Settings) : bool :=
  port_ok (app_port s) && port_ok (postgres_port s) &&
  (1 <=? database_pool_size s) && (0 <=? database_max_overflow s) && (1 <=? database_pool_timeout s) &&
  Qle_bool 0 (llm_temperature s) && Qle_bool (llm_temperature s) 2 && (0 <? llm_max_tokens s) &&
  fltb 0 (llm_timeout_seconds s) && (0 <=? llm_retry_count s) &&
  (0 <? access_token_expire_minutes s) && (0 <? refresh_token_expire_days s) &&
  (0 <? rate_limit_general_per_minute s) && (0 <? rate_limit_login_per_minute s) &&
  (0 <? rate_limit_register_per_hour s) && (0 <? rate_limit_refresh_per_minute s) && (0 <? rate_limit_query_per_minute s).
Definition is_production (s : Settings) : bool := match app_env s with Production => true | _ => false end.

(** The bounds of [LLMProviderConfig], then its after-validator. *)
Definition LLMProviderConfig_init (c : LLMProviderConfig) : outcome exn LLMProviderConfig :=
  if Qle_bool 0 (cfg_temperature c) && Qle_bool (cfg_temperature c) 2 && (0 <? cfg_max_tokens c) &&
     fltb 0 (cfg_timeout c) && (0 <=? cfg_retry_count c)
  then Ret (resolve_default_base_url c)
  else Raise (OtherException "ValidationError" "LLMProviderConfig").
Definition llm_provider_config (s : Settings) : outcome exn LLMProviderConfig :=
  LLMProviderConfig_init
    {| cfg_provider := llm_provider s; cfg_model := llm_model s; cfg_api_key := llm_api_key s;
       cfg_temperature := llm_temperature s; cfg_max_tokens := llm_max_tokens s; cfg_timeout := llm_timeout_seconds s;
       cfg_retry_count := llm_retry_count s; cfg_base_url := llm_base_url s |}.
(** The fields the API layer reads. *)
Definition api_settings (s : Settings) : ApiGuards.Settings :=
  {| ApiGuards.app_debug := app_debug s; ApiGuards.api_v1_prefix := api_v1_prefix s; ApiGuards.is_production := is_production s;
     ApiGuards.trust_proxy_headers := trust_proxy_headers s; ApiGuards.rate_limit_enabled := rate_limit_enabled s;
     ApiGuards.rate_limit_general_per_minute := rate_limit_general_per_minute s;
     ApiGuards.rate_limit_login_per_minute := rate_limit_login_per_minute s;
     ApiGuards.rate_limit_register_per_hour := rate_limit_register_per_hour s;
     ApiGuards.rate_limit_refresh_per_minute := rate_limit_refresh_per_minute s;
     ApiGuards.rate_limit_query_per_minute := rate_limit_query_per_minute s;
     ApiGuards.jwt_secret_key := jwt_secret_key s; ApiGuards.jwt_algorithm := jwt_algorithm s;
     ApiGuards.access_token_expire_minutes := access_token_expire_minutes s;
     ApiGuards.refresh_token_expire_days := refresh_token_expire_days s |}.
(** [PostgresDsn.build], which assembles the parts, is pydantic's. *)
Definition database_url (build : forall (scheme username password host : string) (port : Z) (path : string), string)
    (s : Settings) : string :=
  build "postgresql+asyncpg" (postgres_user s) (quote_plus (postgres_password s)) (postgres_host s) (postgres_port s) (postgres_db s).

(** [get_settings] under [lru_cache(maxsize=1)]: the cache and the environment. *)
Definition get_settings {Env} (load : Env -> outcome exn Settings) : prog (option Settings * Env) exn Settings := fun '(cached, env) =>
  match cached with
  | Some s => (Ret s, (cached, env))
  | None => match load env with Ret s => (Ret s, (Some s, env)) | Raise e => (Raise e, (None, env)) end
  end.

(** ** [session.py] *)
(** What SQLAlchemy documents of an [AsyncSession]: [stored] is what the database
    holds, [visible] what the session sees of it, its own changes included. A
    commit stores what is visible or, refused, stores nothing; rolling back and
    closing store nothing. *)
Class AsyncSession (W S : Type) := {
  commit : prog W exn unit;
  rollback : prog W exn unit;
  close : W -> W;
  stored : W -> S;
  visible : W -> S;
  commit_stores w w' : commit w = (Ret tt, w') -> stored w' = visible w;
  commit_refused w e w' : commit w = (Raise e, w') -> stored w' = stored w;
  rollback_keeps w : stored (snd (rollback w)) = stored w;
  close_keeps w : stored (close w) = stored w }.
Section Session.
Context {W S : Type} `{AsyncSession W S}.
(** The context manager around its block: [async with session_factory()] closes the
    session however the block is left. *)
Definition transactional_session {A} (body : prog W exn A) : prog W exn A := fun w =>
  let '(o, w1) :=
    try_except (let! a := body in let! _ := commit in ret a)
      (fun e => if is_Exception e then let! _ := rollback in throw e else throw e) w in
  (o, close w1).
(** [GET /health/ready], which executes [SELECT 1]. *)
Definition readiness (execute : string -> prog W exn unit) : prog W exn (string * string) :=
  transactional_session (let! _ := execute "SELECT 1" in ret ("ok", "ok")).
End Session.

(** ** Lemmas: quoting *)
Definition url_safe (c : ascii) : bool := always_safe c || Ascii.eqb c "+"%char || Ascii.eqb c "%"%char.
Ltac each_char c := destruct c as [[] [] [] [] [] [] [] []]; vm_compute.
Lemma escape_read c :
  hex_value (upper_hex (code c / 16)) = Some (code c / 16) /\ hex_value (upper_hex (code c mod 16)) = Some (code c mod 16) /\
  ascii_of_N (Z.to_N (16 * (code c / 16) + code c mod 16)) = c.
Proof. each_char c; auto. Qed.
Lemma escape_chars c : let h := upper_hex (code c / 16) in let l := upper_hex (code c mod 16) in
  char_plus h = h /\ char_plus l = l /\ url_safe h = true /\ url_safe l = true.
Proof. each_char c; auto. Qed.
Lemma safe_char c : always_safe c = true ->
  Ascii.eqb c "%"%char = false /\ char_plus c = c /\ char_space c = c /\ url_safe c = true /\ Ascii.eqb c " "%char = false.
Proof. each_char c; intros H; first [discriminate H|auto]. Qed.
Lemma unquote_escape c s :
  unquote (String "%"%char (String (upper_hex (code c / 16)) (String (upper_hex (code c mod 16)) s))) = String c (unquote s).
Proof. destruct (escape_read c) as (H1 & H2 & H3). cbn [unquote Ascii.eqb]. rewrite H1, H2, H3. reflexivity. Qed.
Lemma unquote_plain c s : Ascii.eqb c "%"%char = false -> unquote (String c s) = String c (unquote s).
Proof. intros H. cbn [unquote]. by rewrite H. Qed.
Lemma quoted_url_safe s : all_chars url_safe (quote_plus s) = true.
Proof.
  induction s as [|c s IH]; [done|]. cbn [quote_plus]. destruct (always_safe c) eqn:Es; [|destruct (Ascii.eqb c " "%char)]; cbn [all_chars].
  - destruct (safe_char c Es) as (_ & _ & _ & -> & _). exact IH.
  - exact IH.
  - destruct (escape_chars c) as (_ & _ & -> & ->). exact IH.
Qed.
Lemma unquote_quoted s : unquote (quote_plus s) = str_map char_space s.
Proof.
  induction s as [|c s IH]; [done|]. cbn [quote_plus str_map]. destruct (always_safe c) eqn:Es; [|destruct (Ascii.eqb c " "%char) eqn:Ec].
  - destruct (safe_char c Es) as (H1 & _ & -> & _). by rewrite unquote_plain, IH.
  - rewrite unquote_plain, IH by done. f_equal. unfold char_space. by rewrite Ec.
  - rewrite unquote_escape, IH. f_equal. unfold char_space. by rewrite Ec.
Qed.
Lemma unquote_plus_quoted s : unquote_plus (quote_plus s) = s.
Proof.
  unfold unquote_plus. induction s as [|c s IH]; [done|].
  cbn [quote_plus]. destruct (always_safe c) eqn:Es; [|destruct (Ascii.eqb c " "%char) eqn:Ec]; cbn [str_map].
  - destruct (safe_char c Es) as (H1 & -> & _). by rewrite unquote_plain, IH.
  - apply Ascii.eqb_eq in Ec as ->. change (char_plus "+") with " "%char. by rewrite unquote_plain, IH.
  - destruct (escape_chars c) as (-> & -> & _). change (char_plus "%") with "%"%char. by rewrite unquote_escape, IH.
Qed.
Lemma spaces_kept s : str_map char_space s = s <-> all_chars (fun c => negb (Ascii.eqb c " "%char)) s = true.
Proof.
  induction s as [|c s IH]; [done|]. cbn [str_map all_chars]. unfold char_space at 1. destruct (Ascii.eqb_spec c " "%char) as [->|Hc]; cbn.
  - split; [intros [=]|done].
  - rewrite <- IH. split; [by intros [=]|by intros ->].
Qed.

(** ** Theorems *)
(** The password in the database URL. Form quoting leaves only unreserved
    characters, [+] and [%], so a password can never break out of its part of the
    URL; decoding it as a form gives the password back; but decoding it as a URL
    ([urllib.parse.unquote]) turns every space into a plus, and gives the password
    back exactly when it has no space. *)
Theorem password_roundtrip p :
  all_chars url_safe (quote_plus p) = true /\ unquote_plus (quote_plus p) = p /\ unquote (quote_plus p) = str_map char_space p /\
  (unquote (quote_plus p) = p <-> all_chars (fun c => negb (Ascii.eqb c " "%char)) p = true).
Proof.
  split; [apply quoted_url_safe|]. split; [apply unquote_plus_quoted|]. rewrite unquote_quoted. split; [done|apply spaces_kept].
Qed.

(** Settings within their declared bounds give each component a configuration
    within its own: the provider configuration is accepted and has a base URL, the
    one set or the provider's default; every rate limit and token lifetime is
    positive. *)
Theorem settings_serve_their_clients s : valid_settings s = true ->
  (exists c, llm_provider_config s = Ret c /\ 0 <= cfg_retry_count c /\
     resolved_base_url c = Ret (default (DEFAULT_BASE_URL_BY_PROVIDER (llm_provider s)) (llm_base_url s))) /\
  let a := api_settings s in
  0 < ApiGuards.rate_limit_general_per_minute a /\ 0 < ApiGuards.rate_limit_login_per_minute a /\
  0 < ApiGuards.rate_limit_register_per_hour a /\ 0 < ApiGuards.rate_limit_refresh_per_minute a /\
  0 < ApiGuards.rate_limit_query_per_minute a /\
  0 < ApiGuards.access_token_expire_minutes a /\ 0 < ApiGuards.refresh_token_expire_days a.
Proof.
  unfold valid_settings. intros H. repeat (apply andb_true_iff in H as [H ?]). split; [|cbn; lia].
  unfold llm_provider_config, LLMProviderConfig_init. cbn.
  repeat match goal with E : ?b = true |- context [?b] => rewrite E end. cbn. eexists. split; [reflexivity|].
  unfold resolve_default_base_url. cbn. destruct (llm_base_url s); (split; [|reflexivity]); cbn; lia.
Qed.

(** A session's block happens entirely or not at all. When the context manager
    returns, the database holds what the block's session saw at its end; when it
    raises, whatever the exception, a cancellation, a refused commit or a failing
    rollback included, the database holds what it held before. *)
Theorem session_is_all_or_nothing {W S A : Type} `{AsyncSession W S} (body : prog W exn A) w :
  (forall w, stored (snd (body w)) = stored w) ->
  match transactional_session body w with
  | (Ret a, w') => exists w1, body w = (Ret a, w1) /\ stored w' = visible w1
  | (Raise _, w') => stored w' = stored w
  end.
Proof.
  intros Hb. specialize (Hb w). unfold transactional_session, try_except, bind, throw, ret.
  destruct (body w) as [[e|a] w1]; cbn in *.
  - destruct (is_Exception e); [|by rewrite close_keeps]. pose proof (rollback_keeps w1) as Hr.
    destruct (rollback w1) as [[e'|[]] w2]; cbn in *; rewrite close_keeps; congruence.
  - destruct (commit w1) as [[e|[]] w2] eqn:Ec.
    + pose proof (commit_refused _ _ _ Ec) as Hc. destruct (is_Exception e); [|rewrite close_keeps; congruence].
      pose proof (rollback_keeps w2) as Hr. destruct (rollback w2) as [[e'|[]] w3]; cbn in *; rewrite close_keeps; congruence.
    + exists w1. split; [done|]. rewrite close_keeps. by apply commit_stores.
Qed.

Lemma settings_serve_their_clients_witness : exists c,
  llm_provider_config (default_settings "u" "p" "db") = Ret c /\ resolved_base_url c = Ret "https://api.anthropic.com".
Proof.
  destruct (settings_serve_their_clients (default_settings "u" "p" "db")) as [(c & H & _ & H') _]; [reflexivity|].
  exists c. split; [exact H|exact H'].
Defined.
(** A list of rows, a session's copy of it, and a database that takes no duplicates. *)
Definition rows_commit : prog (list Z * list Z) exn unit := fun w =>
  if bool_decide (NoDup (snd w)) then (Ret tt, (snd w, snd w)) else (Raise (OtherException "IntegrityError" ""), w).
#[export] Instance rows_session : AsyncSession (list Z * list Z) (list Z).
Proof.
  refine {| commit := rows_commit; rollback := fun w => (Ret tt, (fst w, fst w)); close := fun w => (fst w, fst w);
            stored := fst; visible := snd |}; try done; unfold rows_commit.
  - intros w w'. destruct (bool_decide _); [by intros [= <-]|done].
  - intros w e w'. destruct (bool_decide _); [done|by intros [= _ <-]].
Defined.
Definition insert_row (x : Z) : prog (list Z * list Z) exn unit := fun w => (Ret tt, (fst w, x :: snd w)).
Lemma session_is_all_or_nothing_witness :
  transactional_session (insert_row 7) ([7], [7]) = (Raise (OtherException "IntegrityError" ""), ([7], [7])) /\
  stored (snd (transactional_session (insert_row 7) ([7], [7]))) = [7].
Proof.
  split; [vm_compute; reflexivity|].
  exact (session_is_all_or_nothing (insert_row 7) ([7], [7]) (fun _ => eq_refl)).
Defined.
