(* ===== verification/DictionaryFile.v ===== *)
(** * The business dictionary's file ([metadata/loader.py], [metadata/data/dictionary.yaml])

    [load_dictionary_file] on what PyYAML reads, with the Pydantic constructors
    as parameters, and the keys of the dictionary shipped with the package.

    [shipped_dictionary_describes_everything]: a dictionary with the shipped
    keys describes every table and every column of the metadata extracted from
    [Base], and has no entry for anything else. [shape_errors_escape]: a file of
    another shape ends in an [AttributeError] instead of the documented
    [DictionaryLoadError]. *)
From Stdlib Require Import Ascii.
From S2P Require Import Prelude PyFloat PyStr Models Catalogs OrmSchema Migrations ContextModels Metadata Extractor.
#[local] Open Scope string_scope.

Definition DictionaryLoadError (source reason : string) : exn :=
  OtherException "DictionaryLoadError" ("Failed to load column dictionary from " ++ repr source ++ ": " ++ reason).
Definition ValidationError (msg : string) : exn := OtherException "ValidationError" msg.

(** [s.partition(".")], without the separator. *)
Fixpoint partition_dot (s : string) : string * string :=
  match s with
  | "" => ("", "")
  | String c r => if Ascii.eqb c "."%char then ("", r) else (String c (fst (partition_dot r)), snd (partition_dot r))
  end.

(** ** [loader.py] *)
Section Loader.
(** [yaml.safe_load] and [yaml.YAMLError]; the constructors of the two entries on
    the keyword arguments of the file, after [table=] (and [column=]). *)
Context (safe_load : string -> outcome exn yaml) (is_YAMLError : exn -> bool).
Context (construct_table : string -> list (string * yaml) -> outcome exn TableDictionaryEntry).
Context (construct_column : string -> string -> list (string * yaml) -> outcome exn ColumnDictionaryEntry).

(** [raw.get(key) or {}], then [.items()]. *)
Definition items_of (d : list (yaml * yaml)) (key : string) : outcome exn (list (yaml * yaml)) :=
  match dict_get key d with
  | None => Ret []
  | Some y =>
      if truthy y
      then match y with
           | Y_map d => Ret d
           | y => Raise (AttributeError ("'" ++ type_name y ++ "' object has no attribute 'items'"))
           end
      else Ret []
  end.
(** [Model(table=..., **entry)]: the call fails before the constructor runs when the
    entry is no mapping with string keys or repeats an argument. *)
Definition keywords (model : string) (taken : list string) (entry : yaml) : outcome exn (list (string * yaml)) :=
  let is_taken k := match k with Y_str k => bool_decide (k ∈ taken) | _ => false end in
  match entry with
  | Y_map d =>
      match List.find (fun p => is_taken (fst p)) d with
      | Some (Y_str k, _) => Raise (TypeError (model ++ "() got multiple values for keyword argument '" ++ k ++ "'"))
      | _ => match string_keys d with
             | Some kw => Ret kw
             | None => Raise (TypeError "keywords must be strings")
             end
      end
  | y => Raise (TypeError (model ++ "() argument after ** must be a mapping, not " ++ type_name y))
  end.
(** A name that is no string is refused by the field's type. *)
Definition table_entry (item : yaml * yaml) : outcome exn (string * TableDictionaryEntry) :=
  let? kw := keywords "querymind.metadata.models.TableDictionaryEntry" ["table"] (snd item) in
  match fst item with
  | Y_str t => let? e := construct_table t kw in Ret (t, e)
  | _ => Raise (ValidationError "Input should be a valid string")
  end.
Definition column_entry (path : string) (item : yaml * yaml) : outcome exn ((string * string) * ColumnDictionaryEntry) :=
  match fst item with
  | Y_str qualified_name =>
      let '(t, c) := partition_dot qualified_name in
      if is_empty c
      then Raise (DictionaryLoadError path ("column key " ++ repr qualified_name ++ " is not in 'table.column' form"))
      else let? kw := keywords "querymind.metadata.models.ColumnDictionaryEntry" ["table"; "column"] (snd item) in
           let? e := construct_column t c kw in Ret ((t, c), e)
  | y => Raise (AttributeError ("'" ++ type_name y ++ "' object has no attribute 'partition'"))
  end.
(** Entries are put into a dict one by one; the first exception ends the loop. *)
Fixpoint collect {K E : Type} `{Countable K} (entry : yaml * yaml -> outcome exn (K * E)) (acc : gmap K E)
    (l : list (yaml * yaml)) : outcome exn (gmap K E) :=
  match l with
  | [] => Ret acc
  | i :: l => let? ' (k, e) := entry i in collect entry (<[k := e]> acc) l
  end.
Definition load_dictionary_file (path : string) (text : outcome exn string)
  : outcome exn (gmap string TableDictionaryEntry * gmap (string * string) ColumnDictionaryEntry) :=
  let? raw_text := translating DictionaryLoadError is_OSError path "could not read file: " text in
  let? loaded := translating DictionaryLoadError is_YAMLError path "invalid YAML: " (safe_load raw_text) in
  match (if truthy loaded then loaded else Y_map []) with
  | Y_map d =>
      translating DictionaryLoadError is_ValidationError path "schema validation failed: "
        (let? tables := items_of d "tables" in
         let? tables := collect table_entry ∅ tables in
         let? columns := items_of d "columns" in
         let? columns := collect (column_entry path) ∅ columns in
         Ret (tables, columns))
  | y => translating DictionaryLoadError is_ValidationError path "schema validation failed: "
           (Raise (AttributeError ("'" ++ type_name y ++ "' object has no attribute 'get'")))
  end.
(** [ColumnDictionary.from_file]. *)
Definition from_file (path : string) (text : outcome exn string) : outcome exn ColumnDictionary :=
  let? ' (tables, columns) := load_dictionary_file path text in
  Ret {| dict_tables := tables; dict_columns := columns |}.
End Loader.

(** ** [dictionary.yaml]: the keys of [tables:] and [columns:] *)
Definition DICTIONARY_TABLES : list string :=
  ["customers"; "customer_addresses"; "product_categories"; "suppliers"; "products"; "warehouses";
   "inventory"; "orders"; "order_items"; "payments"; "shipments"; "product_reviews"; "promotions"; "returns"].
Definition DICTIONARY_COLUMNS : list string :=
  ["customers.customer_id"; "customers.customer_number"; "customers.first_name"; "customers.last_name";
   "customers.email"; "customers.phone"; "customers.date_of_birth"; "customers.gender";
   "customers.customer_segment"; "customers.signup_date"; "customers.signup_channel"; "customers.is_active";
   "customers.created_at"; "customers.updated_at"; "customer_addresses.address_id";
   "customer_addresses.customer_id"; "customer_addresses.address_type"; "customer_addresses.is_default";
   "customer_addresses.line1"; "customer_addresses.line2"; "customer_addresses.city";
   "customer_addresses.state_province"; "customer_addresses.postal_code"; "customer_addresses.country_code";
   "customer_addresses.created_at"; "product_categories.category_id";
   "product_categories.parent_category_id"; "product_categories.category_name";
   "product_categories.category_path"; "product_categories.is_active"; "product_categories.created_at";
   "suppliers.supplier_id"; "suppliers.supplier_code"; "suppliers.supplier_name"; "suppliers.contact_email";
   "suppliers.contact_phone"; "suppliers.country_code"; "suppliers.lead_time_days"; "suppliers.rating";
   "suppliers.is_active"; "suppliers.created_at"; "products.product_id"; "products.sku";
   "products.product_name"; "products.category_id"; "products.supplier_id"; "products.description";
   "products.unit_price"; "products.cost_price"; "products.weight_kg"; "products.is_active";
   "products.launch_date"; "products.created_at"; "products.updated_at"; "warehouses.warehouse_id";
   "warehouses.warehouse_code"; "warehouses.warehouse_name"; "warehouses.city"; "warehouses.state_province";
   "warehouses.country_code"; "warehouses.is_active"; "warehouses.created_at"; "inventory.inventory_id";
   "inventory.product_id"; "inventory.warehouse_id"; "inventory.quantity_on_hand"; "inventory.reorder_level";
   "inventory.last_restocked_at"; "inventory.updated_at"; "orders.order_id"; "orders.order_number";
   "orders.customer_id"; "orders.promotion_id"; "orders.order_date"; "orders.order_status";
   "orders.sales_channel"; "orders.shipping_address_line1"; "orders.shipping_city";
   "orders.shipping_state_province"; "orders.shipping_postal_code"; "orders.shipping_country_code";
   "orders.subtotal_amount"; "orders.discount_amount"; "orders.tax_amount"; "orders.shipping_amount";
   "orders.total_amount"; "orders.currency_code"; "orders.created_at"; "orders.updated_at";
   "order_items.order_item_id"; "order_items.order_id"; "order_items.product_id"; "order_items.quantity";
   "order_items.unit_price"; "order_items.discount_amount"; "order_items.line_total";
   "order_items.created_at"; "payments.payment_id"; "payments.order_id"; "payments.payment_method";
   "payments.payment_status"; "payments.amount"; "payments.transaction_reference"; "payments.paid_at";
   "payments.created_at"; "shipments.shipment_id"; "shipments.order_id"; "shipments.warehouse_id";
   "shipments.carrier"; "shipments.tracking_number"; "shipments.shipment_status"; "shipments.shipped_at";
   "shipments.delivered_at"; "shipments.created_at"; "product_reviews.review_id";
   "product_reviews.product_id"; "product_reviews.customer_id"; "product_reviews.order_item_id";
   "product_reviews.rating"; "product_reviews.review_title"; "product_reviews.review_text";
   "product_reviews.is_verified_purchase"; "product_reviews.review_date"; "promotions.promotion_id";
   "promotions.promotion_code"; "promotions.promotion_name"; "promotions.discount_type";
   "promotions.discount_value"; "promotions.starts_at"; "promotions.ends_at"; "promotions.is_active";
   "promotions.created_at"; "returns.return_id"; "returns.order_item_id"; "returns.return_reason";
   "returns.return_status"; "returns.quantity_returned"; "returns.refund_amount"; "returns.requested_at";
   "returns.resolved_at"].


(** ** Loading *)
Lemma collect_dom {K E} `{Countable K} (entry : yaml * yaml -> outcome exn (K * E)) (name : string -> K) keys : forall l acc,
  map fst l = map Y_str keys -> Forall (fun i => forall k, fst i = Y_str k -> k ∈ keys -> exists e, entry i = Ret (name k, e)) l ->
  exists m, collect entry acc l = Ret m /\ dom m = dom acc ∪ list_to_set (map name keys).
Proof.
  induction keys as [|k keys IH]; intros [|i l] acc Hl Ha; try discriminate.
  - exists acc. split; [done|]. set_solver.
  - injection Hl as Hk Hl. apply Forall_cons in Ha as [Hi Ha].
    destruct (Hi k Hk (list_elem_of_here _ _)) as [e He]. cbn. rewrite He. cbn.
    destruct (IH l (<[name k := e]> acc) Hl) as (m & -> & Hm).
    { eapply Forall_impl; [exact Ha|]. intros j Hj k' Ek Hin. by apply Hj, list_elem_of_further. }
    exists m. split; [done|]. rewrite Hm, dom_insert_L. set_solver.
Qed.

Section Loads.
Context (safe_load : string -> outcome exn yaml) (is_YAMLError : exn -> bool).
Context (construct_table : string -> list (string * yaml) -> outcome exn TableDictionaryEntry).
Context (construct_column : string -> string -> list (string * yaml) -> outcome exn ColumnDictionaryEntry).

(** An entry the loader takes: a mapping with string keys that repeats no argument
    and that the model accepts. *)
Definition table_accepted (i : yaml * yaml) : Prop :=
  exists n kw e, fst i = Y_str n /\ keywords "querymind.metadata.models.TableDictionaryEntry" ["table"] (snd i) = Ret kw /\
    construct_table n kw = Ret e.
Definition column_accepted (i : yaml * yaml) : Prop :=
  exists n kw e, fst i = Y_str n /\
    keywords "querymind.metadata.models.ColumnDictionaryEntry" ["table"; "column"] (snd i) = Ret kw /\
    construct_column (fst (partition_dot n)) (snd (partition_dot n)) kw = Ret e.
Lemma table_entry_accepted i k : table_accepted i -> fst i = Y_str k -> exists e, table_entry construct_table i = Ret (k, e).
Proof.
  intros (n & kw & e & Hn & Hkw & He) Hk. rewrite Hk in Hn. injection Hn as <-.
  unfold table_entry. rewrite Hkw, Hk. cbn. rewrite He. by exists e.
Qed.
Lemma column_entry_accepted path i k : column_accepted i -> fst i = Y_str k -> is_empty (snd (partition_dot k)) = false ->
  exists e, column_entry construct_column path i = Ret (partition_dot k, e).
Proof.
  intros (n & kw & e & Hn & Hkw & He) Hk Hp. rewrite Hk in Hn. injection Hn as <-.
  unfold column_entry. rewrite Hk. destruct (partition_dot k) as [t c]. cbn in *. rewrite Hp, Hkw. cbn. rewrite He. by exists e.
Qed.
Lemma columns_are_qualified : forallb (fun k => negb (is_empty (snd (partition_dot k)))) DICTIONARY_COLUMNS = true.
Proof. vm_compute. reflexivity. Qed.
(** A file with the shipped keys loads, and gives an entry to exactly these names. *)
Lemma shipped_loads path text ts cs :
  safe_load text = Ret (Y_map [(Y_str "tables", Y_map ts); (Y_str "columns", Y_map cs)]) ->
  map fst ts = map Y_str DICTIONARY_TABLES -> map fst cs = map Y_str DICTIONARY_COLUMNS ->
  Forall table_accepted ts -> Forall column_accepted cs ->
  exists d, from_file safe_load is_YAMLError construct_table construct_column path (Ret text) = Ret d /\
    dom (dict_tables d) = list_to_set DICTIONARY_TABLES /\
    dom (dict_columns d) = list_to_set (map partition_dot DICTIONARY_COLUMNS).
Proof.
  intros Hload Ht Hc Hts Hcs.
  destruct (collect_dom (table_entry construct_table) id DICTIONARY_TABLES ts ∅ Ht) as (mt & Emt & Dt).
  { eapply Forall_impl; [exact Hts|]. intros i Hi k Hk _. by apply table_entry_accepted. }
  destruct (collect_dom (column_entry construct_column path) partition_dot DICTIONARY_COLUMNS cs ∅ Hc) as (mc & Emc & Dc).
  { eapply Forall_impl; [exact Hcs|]. intros i Hi k Hk Hin. apply column_entry_accepted; [done|done|].
    apply negb_true_iff. apply (proj1 (forallb_forall _ _) columns_are_qualified), list_elem_of_In, Hin. }
  exists {| dict_tables := mt; dict_columns := mc |}. split; [|split].
  - assert (Et : items_of [(Y_str "tables", Y_map ts); (Y_str "columns", Y_map cs)] "tables" = Ret ts)
      by (destruct ts; [discriminate Ht|reflexivity]).
    assert (Ec : items_of [(Y_str "tables", Y_map ts); (Y_str "columns", Y_map cs)] "columns" = Ret cs)
      by (destruct cs; [discriminate Hc|reflexivity]).
    unfold from_file, load_dictionary_file. cbn [obind translating]. rewrite Hload. cbn [obind translating truthy].
    rewrite Et. cbn [obind]. rewrite Emt. cbn [obind]. rewrite Ec. cbn [obind]. by rewrite Emc.
  - cbn [dict_tables]. rewrite Dt, dom_empty_L, map_id. apply (left_id_L ∅ (∪)).
  - cbn [dict_columns]. rewrite Dc, dom_empty_L. apply (left_id_L ∅ (∪)).
Qed.
End Loads.

(** ** Coverage *)
Definition columns_of (cs : list OrmClass) : list (string * string) :=
  concat (map (fun c => map (fun k => (tablename c, mc_name k)) (all_columns c)) cs).
Definition base_columns : list (string * string) := columns_of Base_classes.
Definition pair_in (l : list (string * string)) (x : string * string) : bool :=
  existsb (fun y => String.eqb (fst x) (fst y) && String.eqb (snd x) (snd y)) l.
Lemma pair_in_true l x : pair_in l x = true -> x ∈ l.
Proof.
  unfold pair_in. rewrite existsb_exists. intros (y & Hy & H). apply andb_true_iff in H as [H1%String.eqb_eq H2%String.eqb_eq].
  apply list_elem_of_In. destruct x, y; cbn in *; by subst.
Qed.
Lemma keys_are_the_columns : forallb (pair_in base_columns) (map partition_dot DICTIONARY_COLUMNS) = true /\
  forallb (pair_in (map partition_dot DICTIONARY_COLUMNS)) base_columns = true.
Proof. split; vm_compute; reflexivity. Qed.
Lemma keys_are_the_tables n : n ∈ DICTIONARY_TABLES <-> n ∈ map tablename Base_classes.
Proof.
  assert (DICTIONARY_TABLES ≡ₚ map tablename Base_classes) as -> by (apply (bool_decide_eq_true_1 _); vm_compute; reflexivity).
  done.
Qed.
Lemma keys_are_columns x : x ∈ map partition_dot DICTIONARY_COLUMNS <-> x ∈ base_columns.
Proof.
  destruct keys_are_the_columns as [H1 H2]. pose proof (proj1 (forallb_forall _ _) H1) as H1'. pose proof (proj1 (forallb_forall _ _) H2) as H2'.
  split; intros Hx%list_elem_of_In; apply pair_in_true; [exact (H1' x Hx)|exact (H2' x Hx)].
Qed.
Lemma in_columns_of cs t c : (t, c) ∈ columns_of cs <->
  exists k, k ∈ cs /\ tablename k = t /\ c ∈ map mc_name (all_columns k).
Proof.
  unfold columns_of. rewrite list_elem_of_In, in_concat. split.
  - intros (l & (k & <- & Hk)%in_map_iff & Hin). apply in_map_iff in Hin as (m & [= <- <-] & Hm).
    exists k. split; [by apply list_elem_of_In|]. split; [done|]. by apply list_elem_of_In, in_map.
  - intros (k & Hk & <- & (m & <- & Hm)%list_elem_of_In%in_map_iff).
    exists (map (fun k0 => (tablename k, mc_name k0)) (all_columns k)). split.
    + apply in_map_iff. exists k. split; [done|]. by apply list_elem_of_In.
    + by apply (in_map (fun k0 => (tablename k, mc_name k0))).
Qed.
Lemma base_table_columns ct pt ec now t : t ∈ tables (extract (Base_registry ct pt ec) now) ->
  exists k, k ∈ Base_classes /\ tbl_name t = tablename k /\ map col_name (tbl_columns t) = map mc_name (all_columns k).
Proof.
  cbn [extract tables]. unfold extract_tables. rewrite elem_of_sorted_by, Base_tables.
  intros (t0 & -> & (k & -> & Hk)%list_elem_of_fmap)%list_elem_of_fmap. exists k.
  split; [done|]. split; [done|]. cbn. by rewrite !map_map.
Qed.

Lemma base_table_of ct pt ec now k : k ∈ Base_classes -> exists t, t ∈ tables (extract (Base_registry ct pt ec) now) /\
  tbl_name t = tablename k /\ map col_name (tbl_columns t) = map mc_name (all_columns k).
Proof.
  intros Hk. exists (extract_table (sa_table ct pt ec k)). split; [|split; [done|cbn; by rewrite !map_map]].
  cbn [extract tables]. unfold extract_tables. rewrite elem_of_sorted_by, Base_tables.
  by apply list_elem_of_fmap_2, list_elem_of_fmap_2.
Qed.

(** What an enriched table says. *)
Lemma enriched_table d t : is_Some (dict_tables d !! tbl_name t) -> is_Some (tbl_description (enrich_table d t)).
Proof. intros [e E]. unfold enrich_table. rewrite E. by eexists. Qed.
Lemma enriched_columns d t c : c ∈ tbl_columns (enrich_table d t) ->
  exists c0, c0 ∈ tbl_columns t /\ c = enrich_column d (tbl_name t) c0.
Proof.
  unfold enrich_table. destruct (dict_tables d !! tbl_name t); cbn; intros (c0 & -> & H)%list_elem_of_fmap; by exists c0.
Qed.
Lemma enriched_name d t : tbl_name (enrich_table d t) = tbl_name t.
Proof. unfold enrich_table. by destruct (dict_tables d !! tbl_name t). Qed.
Lemma enriched_column_names d t : map col_name (tbl_columns (enrich_table d t)) = map col_name (tbl_columns t).
Proof.
  assert (H : map col_name (map (enrich_column d (tbl_name t)) (tbl_columns t)) = map col_name (tbl_columns t)).
  { rewrite map_map. apply map_ext. intros c. unfold enrich_column. by destruct (dict_columns d !! _). }
  unfold enrich_table. by destruct (dict_tables d !! tbl_name t).
Qed.
Lemma enriched_column d t c : is_Some (dict_columns d !! (t, col_name c)) -> is_Some (col_description (enrich_column d t c)).
Proof. intros [e E]. unfold enrich_column. rewrite E. by eexists. Qed.

(** ** Theorems *)
(** The dictionary shipped with the package fits the database it describes. A
    file with its keys, whose entries the models accept, loads; and enriched by
    it, the metadata extracted from [Base], in whatever order SQLAlchemy iterates,
    has a description on every table and on every column, while no entry of the
    dictionary is about a table or column that does not exist. *)
Theorem shipped_dictionary_describes_everything safe_load is_YAMLError construct_table construct_column path text ts cs ct pt ec r now :
  safe_load text = Ret (Y_map [(Y_str "tables", Y_map ts); (Y_str "columns", Y_map cs)]) ->
  map fst ts = map Y_str DICTIONARY_TABLES -> map fst cs = map Y_str DICTIONARY_COLUMNS ->
  Forall (table_accepted construct_table) ts -> Forall (column_accepted construct_column) cs ->
  same_registry (Base_registry ct pt ec) r ->
  exists d, from_file safe_load is_YAMLError construct_table construct_column path (Ret text) = Ret d /\
    let db := enrich d (extract r now) in
    (forall t, t ∈ tables db -> is_Some (tbl_description t) /\ forall c, c ∈ tbl_columns t -> is_Some (col_description c)) /\
    (forall t, t ∈ dom (dict_tables d) -> exists m, m ∈ tables db /\ tbl_name m = t) /\
    (forall t c, (t, c) ∈ dom (dict_columns d) -> exists m, m ∈ tables db /\ tbl_name m = t /\ c ∈ map col_name (tbl_columns m)).
Proof.
  intros Hload Ht Hc Hts Hcs Hs.
  destruct (shipped_loads safe_load is_YAMLError construct_table construct_column path text ts cs) as (d & Hd & Dt & Dc); [done..|].
  exists d. split; [done|]. rewrite <- (extract_same _ r now (Base_well_named ct pt ec) Hs).
  assert (Htab : forall n, n ∈ dom (dict_tables d) <-> n ∈ map tablename Base_classes).
  { intros n. rewrite Dt, elem_of_list_to_set. apply keys_are_the_tables. }
  assert (Hcol : forall n c, (n, c) ∈ dom (dict_columns d) <-> (n, c) ∈ base_columns).
  { intros n c. rewrite Dc, elem_of_list_to_set. apply keys_are_columns. }
  clear Dt Dc Hts Hcs Ht Hc Hload Hd. cbv zeta. split; [|split].
  - intros t (t0 & -> & Hin)%list_elem_of_fmap. destruct (base_table_columns ct pt ec now t0 Hin) as (k & Hk & Hn & Hcs).
    split.
    + apply enriched_table. apply elem_of_dom, Htab. rewrite Hn. by apply list_elem_of_fmap_2.
    + intros c (c0 & Hc0 & ->)%enriched_columns. apply enriched_column, elem_of_dom, Hcol, in_columns_of.
      exists k. split; [done|]. split; [done|]. rewrite <- Hcs. by apply list_elem_of_fmap_2.
  - intros t Hin%Htab. rewrite <- (Base_names ct pt ec now) in Hin. apply list_elem_of_fmap in Hin as (m & -> & Hm).
    exists (enrich_table d m). split; [by apply list_elem_of_fmap_2|apply enriched_name].
  - intros t c Hin. apply Hcol, in_columns_of in Hin as (k & Hk & <- & Hc).
    destruct (base_table_of ct pt ec now k Hk) as (m & Hm & Hn & Hcs). exists (enrich_table d m).
    split; [by apply list_elem_of_fmap_2|]. split; [by rewrite enriched_name|]. by rewrite enriched_column_names, Hcs.
Qed.

(** A file of another shape: [load_dictionary_file] promises [DictionaryLoadError]
    when the content does not match, but a top level that is a list, a string or
    a number ends in the [AttributeError] of [raw.get]. *)
Theorem shape_errors_escape safe_load is_YAMLError construct_table construct_column path text y :
  safe_load text = Ret y -> truthy y = true -> (forall d, y <> Y_map d) ->
  load_dictionary_file safe_load is_YAMLError construct_table construct_column path (Ret text)
  = Raise (AttributeError ("'" ++ type_name y ++ "' object has no attribute 'get'")).
Proof.
  intros Hl Ht Hy. unfold load_dictionary_file. cbn [translating obind]. rewrite Hl. cbn [translating obind]. rewrite Ht.
  destruct y; try reflexivity. by destruct (Hy d).
Qed.

(** A dictionary with the shipped keys and empty texts. *)
Lemma shipped_dictionary_describes_everything_witness :
  let table t kw := Ret {| tde_table := t; tde_description := ""; tde_synonyms := [] |} in
  let column t c kw := Ret {| cde_table := t; cde_column := c; cde_description := ""; cde_example_value := None;
                              cde_synonyms := []; cde_display_name := None; cde_search_keywords := []; cde_is_sensitive := false |} in
  let file := Y_map [(Y_str "tables", Y_map (map (fun k => (Y_str k, Y_map [])) DICTIONARY_TABLES));
                     (Y_str "columns", Y_map (map (fun k => (Y_str k, Y_map [])) DICTIONARY_COLUMNS))] in
  let r := Base_registry (fun _ => "VARCHAR") (fun _ => PyClass "str") (fun c _ => c) in
  exists d, from_file (fun _ => Ret file) (fun _ => false) table column "dictionary.yaml" (Ret "") = Ret d /\
    forall t, t ∈ tables (enrich d (extract r 0)) -> is_Some (tbl_description t).
Proof.
  cbv zeta.
  pose (entries := map (fun k => (Y_str k, Y_map []))).
  destruct (shipped_dictionary_describes_everything
    (fun _ => Ret (Y_map [(Y_str "tables", Y_map (entries DICTIONARY_TABLES)); (Y_str "columns", Y_map (entries DICTIONARY_COLUMNS))])) (fun _ => false)
    (fun t _ => Ret {| tde_table := t; tde_description := ""; tde_synonyms := [] |})
    (fun t c _ => Ret {| cde_table := t; cde_column := c; cde_description := ""; cde_example_value := None;
                         cde_synonyms := []; cde_display_name := None; cde_search_keywords := []; cde_is_sensitive := false |})
    "dictionary.yaml" "" (entries DICTIONARY_TABLES) (entries DICTIONARY_COLUMNS) (fun _ => "VARCHAR") (fun _ => PyClass "str") (fun c _ => c)
    (Base_registry (fun _ => "VARCHAR") (fun _ => PyClass "str") (fun c _ => c)) 0) as (d & Hd & H & _);
    [reflexivity|reflexivity|reflexivity| | |by apply same_registry_perm|].
  - apply Forall_fmap, Forall_forall. intros k _. by exists k, [], {| tde_table := k; tde_description := ""; tde_synonyms := [] |}.
  - apply Forall_fmap, Forall_forall. intros k _. eexists k, [], _. by split_and!.
  - exists d. split; [exact Hd|]. intros t Ht. exact (proj1 (H t Ht)).
Defined.
